(* ===== verification/_CoqProject ===== *)
-Q . S2P
Prelude.v
Interleave.v
Js.v
Json.v
JsDate.v
Redis.v
Cache.v
Chapa.v
Roles.v
PayModel.v
Payout.v
Webhook.v
Donation.v
PayAdmin.v
PaySafety.v
PayProps.v
PaySeq.v
CacheProps.v
TwoFactor.v
AuthModel.v
Credentials.v
Auth.v
PasswordPolicy.v
AdminAuth.v
Account.v
AuthSafety.v
AdminSafety.v
AccountSafety.v
AuthProps.v
AuthSeq.v
AdminProps.v
AdminDemo.v
AccountProps.v
ReportModel.v
ReportCommon.v
ReportWorkflow.v
ReportLifecycle.v
ReportAccess.v
ReportSubmission.v
ReportReporter.v
ReportSafety.v
ReportProps.v
ReportSeq.v
ReportMerging.v
Permissions.v
AccessModel.v
RoleService.v
PermissionService.v
Guards.v
AccessSafety.v
AccessProps.v
AccessSeq.v
PermissionSeq.v
AuditRedaction.v
AuditModel.v
AuditChain.v
AuditPurge.v
AuditHold.v
AuditSafety.v
AuditTrust.v
AuditProps.v
AuditVerify.v
AuditArchive.v
AuditSeq.v
UssdModel.v
UssdMenu.v
UssdSafety.v
UssdProps.v
UssdDialog.v
UssdDemo.v
VictimModel.v
VictimCommon.v
VictimReview.v
VictimFunding.v
VictimWorkflow.v
VictimSubmission.v
VictimAdminOps.v
VictimSafety.v
VictimProps.v
VictimDemo.v
