(* ===== verification/Prelude.v ===== *)
(** * The Ehte backend: a verification development

    The backend (TypeScript, NestJS, Prisma over PostgreSQL, Redis) takes reports
    of harm from the public, lets administrators work on them, and collects
    donations for victims that it pays out through the provider Chapa. This
    library models the parts that carry its own logic and proves what makes them
    correct.

    ** The parts and their files

    - Foundations. [Prelude] (this file): exceptions, the programs in which handlers
      are written, running one alone, sums and lookups over tables. [Interleave]:
      several programs at once, a rely/guarantee logic for them, and claims that
      one of many competitors wins. [Js]: the strings and JSON values of
      JavaScript. [Json], [JsDate]: JSON text, numbers and dates, with round trips.
      [Roles]: the roles, the actor type and the current user
      (src/common/utils/role-protection.util.ts, actor-type.util.ts,
      registration-state.util.ts).
    - Redis and the cache (src/infrastructure/redis/). [Redis]: the store with its
      expiry, the commands and Lua scripts of redis.service.ts, the cron lock, the
      throttler storage. [Cache]: cache.service.ts and cache.keys.ts, and
      the class [OutsideGood] by which any component's tables survive the cache's
      operations. [CacheProps]: its properties, and what is left of a
      user's sessions after a purge.
    - Payments (src/modules/payments/, src/infrastructure/chapa/). [Chapa]: the
      provider's client. [PayModel]: tables, world, statements. [Payout],
      [Webhook], [Donation], [PayAdmin]: the four services. [PaySafety]: the invariant
      of the tables and the two state machines. [PayProps], [PaySeq]: the theorems
      about interleaved and single handlers, the former with a concrete world.
    - Authentication (src/modules/auth/, src/common/utils/). [TwoFactor]:
      two-factor.util.ts. [AuthModel]: tables, world, statements. [Credentials]:
      phone.util.ts and email.util.ts, token.util.ts, lockout.util.ts with
      reauth.service.ts and reauth.guard.ts, otp.util.ts. [PasswordPolicy]:
      password-policy.util.ts. [Auth]: signing in, of auth.service.ts. [Account]: the
      rest of it (signup, passwords, social accounts, enrolment of the second factor),
      social-auth.util.ts, and what the person who is signed in does with the account
      (src/modules/core/user/service/user-account.service.ts). [AdminAuth]:
      admin-auth.service.ts. All three work on the tables and in the world of
      [AuthModel]. [AuthSafety], [AdminSafety], [AccountSafety]: what their handlers do
      not break of what the others rely on. [AuthProps], [AdminProps]: interleaved
      handlers of all three, and single ones. [AuthSeq], [AccountProps]: single handlers
      and sequences of them. [AuthProps], [AdminDemo] and [AccountProps] have the
      concrete worlds.
    - Reports (src/modules/core/report/service/). [ReportModel]: tables, world,
      statements. [ReportCommon], [ReportWorkflow], [ReportLifecycle],
      [ReportAccess], [ReportSubmission], [ReportReporter]: the services of these
      names. [ReportSafety]: what no handler breaks. [ReportProps]: interleaved
      handlers, and a concrete world. [ReportSeq], [ReportMerging]: single handlers and
      sequences of them.
    - Roles and permissions (src/modules/auth/service/, src/common/guards/).
      [Permissions]: permissions.enum.ts, permission-risk.util.ts, the guards
      permissions.guard.ts and roles.guard.ts. [AccessModel]: tables, world,
      statements. [RoleService]: role.service.ts. [PermissionService]:
      permission.service.ts. [Guards]: jwt.strategy.ts. [AccessSafety]: what no
      handler breaks. [AccessProps]: interleaved handlers, and a
      concrete world. [AccessSeq],
      [PermissionSeq]: single handlers, and what a request of the user they concern
      meets next.
    - The audit log (src/modules/misc/audit-log/). [AuditRedaction]:
      audit-redaction.ts. [AuditModel]: tables, object storage, world, statements.
      [AuditChain], [AuditPurge], [AuditHold]: audit-log.service.ts in three parts
      (the chain and its verification; purges, minio-audit-archive.storage.ts,
      anonymisation and the timed jobs; holds, approvals and retention).
      [AuditSafety], [AuditTrust]: what no handler breaks. [AuditProps]: interleaved
      handlers, and a concrete world. [AuditVerify]: the verification. [AuditArchive],
      [AuditSeq]: purges, tokens and archives, alone.
    - USSD, for phones without the app (src/modules/ussd/). [UssdModel]: the sessions as
      the JSON that Redis keeps (ussd-session.service.ts), the tables, and the services
      that file what callers say. [UssdMenu]: ussd-menu.service.ts, the gateway's adapter
      and the controller, and the dates that callers type. [UssdSafety]: the type
      of a session at each step, kept by every handler. [UssdProps]: the menu's automaton,
      the specification that [menu_refines] is about. [UssdDialog]: requests that
      interleave, and whole dialogs. [UssdDemo]: a concrete world.
    - Victim profiles (src/modules/core/victim-profile/service/). [VictimModel]: tables,
      world, statements. [VictimCommon]: victim-profile.constants.ts and
      victim-profile-common.service.ts. [VictimReview] (with child safety
      and consent), [VictimFunding], [VictimWorkflow] (with flags and appeals),
      [VictimSubmission] (with what creators do), [VictimAdminOps]: the services.
      [VictimSafety]: what no handler breaks. [VictimProps]: interleaved handlers, single
      ones, and the money as payouts count it. [VictimDemo]: a concrete world.

    Each component reads the ones above it: payments use the cache, Redis locks and
    the provider's client; authentication uses the cache's counters and locks, and
    the one-time and two-factor codes; reports use the roles; the handlers of roles
    and permissions empty what the token strategy has cached of a session; a USSD session
    lives in the store of Redis; the money of a victim's profile is that of payments
    ([balance_agrees]). The audit log stands alone: the other components only emit events
    to it, which their models record in a list of their own. A world type carries
    the state of one component; what it shares with Redis and the cache it exposes
    through the class [HasCache] (file Cache), against which the operations of the
    cache are written once.

    ** How a handler is modelled

    An [async] method becomes a program [prog W A]: a tree of atomic actions on the
    world [W], ending in a value or an exception. Every awaited SQL statement,
    Redis command, Lua script or network call is one action, and so is a
    transaction. Between two actions any other handler may act ([pool_step]). An
    exception leaves the effects that were made, as in the source; a transaction is
    undone when it throws. [run] runs a program without interruption. Reads of the
    clock, random draws and fresh identifiers are actions too; identifiers that are
    drawn do not repeat, where a theorem needs that.

    Names follow the source. Guards and early returns stand in the order of the
    source. A conditional [updateMany] is one action that answers with the number of
    rows. Tables are finite maps by identifier, money is a number of hundredths,
    a time is a number of milliseconds, strings are byte strings (the text the
    string functions work on is ASCII). In the report files, records are updated
    with the setters of coqutil ([r{{field := v}}]).

    Recursion is structural but for the following, whose bounds are part of the
    definitions: retries and polls of the source keep its own number of attempts
    (five case references, five claims of the queue); [b32_drain] (file TwoFactor)
    has fuel 3, and a step of the base-32 encoding drains at most two characters;
    the SCAN loop of Redis is one command; the loops of a purge have one more turn
    than there are rows, which [archived_before_deleted] and [purge_complete] show
    enough where a purge runs alone; the scan of the verification
    has two turns more than the rows it may read ([scan_fuel]), and
    [verification_exact] shows that they are enough; [chunk] (file VictimSubmission) cuts a list
    into no more pieces than it has elements.

    A conditional update of a victim's profile recognises the version it read by
    [updatedAt], the time of the last write. The clock of that world ([VicLib]) therefore
    advances with the writes, and the theorems on interleavings say that they need it to
    advance strictly; [published_without_consent] (VictimDemo) shows what happens when two
    writes share a millisecond.

    ** What the theorems show

    - Money. Under every interleaving of webhooks, donors, administrators and the
      timer: the totals of a victim's profile equal the sum of what was paid, with
      each payment counted once ([money_conserved]); one transfer at a time is
      active ([one_active_transfer]); payments and transfers move only along their
      state machines; a transfer that reached the provider is on record. Alone:
      what settlement, a payout, a check, a refund, an approval and the start of
      a donation do on every branch; callbacks without a valid signature change
      nothing.
    - Sign-in. Under every interleaving of the handlers of users and administrators: a
      two-factor challenge ([challenge_once]), a refresh token ([refresh_once]), a
      recovery code, and a one-time code whatever it is for ([one_time_code_once]) are
      used once. Alone: when a login is refused, and when it succeeds for an account
      without a second factor ([login_decides]), when an account locks, what the reuse
      of a refresh token does; a user's code for a new password decides by its checks
      and changes exactly the password, the code and the sessions
      ([password_by_code_exact]); who signs up and enters the code that was sent can log
      in ([signup_to_login]); a request that unlinks a provider keeps a way to sign in
      ([unlink_keeps_a_way]); TOTP verification accepts exactly the codes of the window;
      base 32 round-trips. Of administrators, under every interleaving: a registration
      is completed once ([registration_once]), a link promotes once ([promotion_once]),
      and without a Super Admin at work nobody's rights grow ([no_self_promotion]).
      Alone: a demotion takes effect at once ([demote_effect]); the password login as
      the code has it ([admin_login_exact]; it asks for no second factor, which
      SECURITY.md requires); what an accepted password does not contain.
    - USSD. Under every interleaving: sessions stay well typed, so that the casts of the
      source are right ([sessions_well_typed]). Alone: the menu is the automaton of its
      questions, failures included ([menu_refines]); every dialog ends within a number
      of answers ([dialog_ends]); one that is answered to the end leaves a row with
      these answers ([report_filed], [missing_person_filed]); the dates that are taken
      are those of the calendar, in the past ([parseDdMmYyyy_exact]).
    - Victim profiles. Under every interleaving of seventy-five handlers and the rest of
      the application: what is published has every gate ([published_means_reviewed]);
      a child's safety is not reviewed by one administrator alone
      ([child_safety_takes_two]). Alone: the transitions that are offered tell whether
      publishing succeeds ([transitions_tell_publish]); the money of a profile is what
      payouts transfer by ([balance_agrees]); reconciliation corrects exactly the totals
      that are wrong ([reconcile_exact]).
    - Cache. An invalidation that failed is bypassed, a disabled cache is not read,
      how long a cached session is trusted, what the rate-limit script counts, that
      an exclusive job is excluded.
    - Reports. Under every interleaving: a status moves along the table and a closed
      report stays closed ([report_status_table], for the handlers that write
      conditionally); identity, case reference and idempotency key are kept and
      unique ([report_identity]); a submission with a key is made once
      ([create_idempotent]). Alone or in sequence: the assignment gate
      ([write_gate]), the work queue ([queueNext_best]), the privacy of lists
      ([pagedReports_private]), merges that stay flat ([merges_stay_flat]) and can
      be undone ([merge_undone]).
    - Roles and permissions. Under every interleaving: a role with a permission that
      needs two persons is given out by two ([two_person_rule], while the permissions
      of roles stay), the locked roles keep their names and permissions
      ([locked_role_untouched]), a request is decided on once ([one_review]) and a
      decision stays ([decisions_stay]). Alone: what a review and a removal do on
      every branch ([review_effect], [removal_is_immediate]), that a role has exactly
      the permissions that were set ([setForRole_exact], [revocation_is_immediate]);
      composed with the token strategy and the cache: who loses something is let in
      no more with the tokens they have, and a request is let in for exactly the
      permissions of its user's roles ([authorize_exact]).
    - Audit log. Under every interleaving: the chain of hashes stays a chain and no
      event is changed ([chain_intact]); a hold is released by two persons
      ([release_takes_two]), one person alone releases none and deletes no row on
      hold ([one_person_alone]); a purge token is used once ([purge_token_once]).
      Alone: what a purge deletes was archived before ([archived_before_deleted],
      whatever the storage refuses), and all that it should delete is
      ([purge_complete]); the scan in batches reports what one pass finds
      ([verification_exact]), passes a log as the handlers keep it
      ([honest_log_verifies]) and tells a changed one by its head
      ([tampering_shows], with the assumption on the hash function as a collision
      in the conclusion); recorded ranges explain exactly their union
      ([explained_exact]); tokens round-trip ([token_roundtrip]); details are
      redacted, and nothing else is taken from them ([redaction_exact]).
    - Where the code does not do what it means to, an Example or a theorem computes a
      run that shows it: [failed_payment_reported_as_review] and
      [unanswered_refund_then_accept] (PaySeq), [login_without_second_factor] and
      [step_up_replays] (AuthSeq), [urgent_flag_reopens] and [racing_merges_cycle]
      (ReportProps), [hidden_report_changed], [anonymous_reporter_shown] and
      [status_change_without_history] (ReportSeq), [late_expiry_overwrites] and
      [racing_removals_leave_none] (AccessProps), [expiry_leaves_none],
      [conflicts_filter_vacuous] and [one_person_widens] (PermissionSeq),
      [release_gap_loses_a_held_row] and [late_release_deletes_unarchived]
      (AuditProps), [ends_not_found] and [held_row_loss_explained] (AuditVerify),
      [archive_out_of_reach] and [approval_burnt] (AuditSeq); [confirmed_twice],
      [zero_is_a_description], [app_report_status] and [empty_answer_repeats] (UssdDemo);
      [cancelled_after_completion], [unconfirmed_address_verified],
      [reset_leaves_the_cache], [refusal_tells_the_account] and
      [admin_login_without_second_factor] (AdminDemo); [stranger_sets_the_password],
      [replaced_code_reported_verified], [admin_code_under_user_policy], [unlinked_twice],
      [setup_turns_it_off] and [refused_and_linked] (AccountProps); [takedown_comes_back],
      [one_lowers_the_flag], [confirmed_again_vanishes], [withdrawn_is_not_final],
      [hold_does_not_stop_removal], [payment_stops_removal], [edit_undoes_rejection],
      [published_unverified] and [published_without_consent] (VictimDemo).

    A theorem whose doc comment starts with C and a number is a headline property;
    the lemma that ends in [_witness] applies it to a concrete world.

    ** Parameters

    The code of other packages is not defined here: HMAC and SHA, bcrypt, AES-GCM,
    JWT signing, base 64, the parsing of the provider's JSON, [Prisma.Decimal]'s
    text form, UUIDs, random text, class-transformer and class-validator, the answers
    of Google, Facebook and Apple, the object storage, the network. They are fields of the classes [DecimalIO],
    [ChapaLib], [AuthLib], [SecretBox], [SocialLib], [RepLib], [AccLib], [AuditLib], [UssdLib] and
    [VicLib] or arguments of the definitions; what a theorem needs of them it states. The order in which the database
    returns rows that no [orderBy] decides is that of the map.

    ** Not modelled, and why

    - The controllers, DTO decorators, interceptors and modules of NestJS:
      declarations that the framework interprets. The roles and permissions that a
      route demands are therefore not part of a handler here; [authorize] (file
      PermissionSeq) is the guards' part for any demand. Of the guards, those of the
      throttler and of API keys are left out.
    - [singleFlight] of the cache: calls in flight that share a result.
    - Promise.all runs its parts in sequence.
    - Failures of the database other than constraint violations and the refusal of a
      serializable transaction. That the acting administrator is still a row of the
      users is not checked again when a statement refers to them.
    - In auth.service.ts: me and myPermissions (reads). In the report services: split,
      related reports, duplicates, the timeline and PDFs, case management,
      communication, inbox, location, search, statistics (raw SQL) and export.
    - In role.service.ts and permission.service.ts: findAll (query builder), history
      and diffForUser (queries of the audit log).
    - In audit-log.service.ts: the lists, the explorer and its raw SQL, statistics,
      alerts, saved filters, exports and health snapshots.
    - In admin-auth.service.ts: the lists and statistics of the console, adminMe, the
      links logged in development. Of USSD: the second adapter, a placeholder.
    - Of victim profiles: the inbox, the public pages, search, statistics and export
      (queries and their rendering). The audit log they read is a table that the listener
      of another component writes; here it is given.
    - The other modules: posts, missing persons (but for USSD), submissions, users (but for
      one's own account), notifications, media, the shared modules and the transports.

    ** Plan

    What would come next: the moderation of posts, missing persons and submissions, on
    the pattern of victim profiles; notifications and broadcasts; the rest of the report
    services; the query builder of src/common/fetch-query. *)

From stdpp Require Export base option list gmap fin_maps strings pretty relations.
From Stdlib Require Export ZArith Lia.

#[global] Set Default Goal Selector "!".
#[export] Set Warnings "-notation-overridden,-register-all,-clear-no-such-hyp".

Declare Scope prog_scope.
Delimit Scope prog_scope with prog.

(** ** Exceptions

    What a handler throws: a NestJS [HttpException] with its status and
    message, a Prisma known-request error with its code, or any other
    JavaScript error. *)

Inductive exn :=
| HttpException (status : Z) (message : string)
| PrismaKnown (code : string) (target : list string)
| JsError (message : string).

#[global] Instance exn_eq_dec : EqDecision exn.
Proof. solve_decision. Defined.

Abbreviation BadRequest := (HttpException 400).
Abbreviation Unauthorized := (HttpException 401).
Abbreviation Forbidden := (HttpException 403).
Abbreviation NotFound := (HttpException 404).
Abbreviation Conflict := (HttpException 409).
Abbreviation ServiceUnavailable := (HttpException 503).

(** [err instanceof Error ? err.message : ...] *)
Definition exn_message (e : exn) : string :=
  match e with
  | HttpException _ m => m
  | PrismaKnown c _ => c
  | JsError m => m
  end.

(** ** Outcomes: the value of an [await], or the exception it rejects with *)

Inductive outcome (A : Type) :=
| Ok (a : A)
| Err (e : exn).
Arguments Ok {A} a.
Arguments Err {A} e.

Definition is_ok {A} (r : outcome A) : bool :=
  match r with Ok _ => true | Err _ => false end.

#[global] Instance outcome_ret : MRet outcome := @Ok.
#[global] Instance outcome_bind : MBind outcome := λ A B f r,
  match r with Ok a => f a | Err e => Err e end.
#[global] Instance outcome_eq_dec {A} `{EqDecision A} : EqDecision (outcome A).
Proof. solve_decision. Defined.

(** ** Programs: atomic actions on a world

    An [async] handler is a tree of atomic actions (one SQL statement, one
    transaction, one Redis command, one network call, one emitted event) on a
    world [W]; between two actions any other handler may run. An exception
    keeps the effects already made, as in the source. *)

Inductive prog (W A : Type) : Type :=
| Ret (a : A)
| Throw (e : exn)
| Act {X : Type} (f : W → X * W) (k : X → prog W A).
Arguments Ret {W A} a.
Arguments Throw {W A} e.
Arguments Act {W A X} f k.

Fixpoint prog_bind {W A B} (f : A → prog W B) (p : prog W A) : prog W B :=
  match p with
  | Ret a => f a
  | Throw e => Throw e
  | Act g k => Act g (λ x, prog_bind f (k x))
  end.

(** [try { p } catch (e) { h e }] *)
Fixpoint catch {W A} (p : prog W A) (h : exn → prog W A) : prog W A :=
  match p with
  | Ret a => Ret a
  | Throw e => h e
  | Act g k => Act g (λ x, catch (k x) h)
  end.

#[global] Instance prog_mret W : MRet (prog W) := @Ret W.
#[global] Instance prog_mbind W : MBind (prog W) := @prog_bind W.

(** [try { return Ok (await p) } catch (e) { return Err e }] *)
Definition attempt {W A} (p : prog W A) : prog W (outcome A) :=
  catch (a ← p; mret (Ok a)) (λ e, mret (Err e)).

Definition throw_outcome {W A} (r : outcome A) : prog W A :=
  match r with Ok a => Ret a | Err e => Throw e end.

(** The primitive actions. *)
Definition act {W X} (f : W → X * W) : prog W X := Act f mret.
Definition gets {W X} (f : W → X) : prog W X := act (λ w, (f w, w)).
Definition modify {W} (f : W → W) : prog W () := act (λ w, ((), f w)).
Definition act_outcome {W X} (f : W → outcome X * W) : prog W X :=
  Act f throw_outcome.

(** [if (b) throw e;] *)
Definition throw_if {W} (b : bool) (e : exn) : prog W () :=
  if b then Throw e else Ret ().

(** [if (!x) throw e;] on a nullable value. *)
Definition require {W A} (o : option A) (e : exn) : prog W A :=
  match o with Some a => Ret a | None => Throw e end.

(** [for (const x of xs) await f(x);] *)
Fixpoint for_each {W A} (f : A → prog W ()) (xs : list A) : prog W () :=
  match xs with
  | [] => Ret ()
  | x :: xs => f x ;; for_each f xs
  end.

(** *** Running a program alone *)

Fixpoint run {W A} (p : prog W A) (w : W) : outcome A * W :=
  match p with
  | Ret a => (Ok a, w)
  | Throw e => (Err e, w)
  | Act f k => let '(x, w') := f w in run (k x) w'
  end.

(** [prisma.$transaction(p)]: [p] runs as one action and is undone when it throws. *)
Definition transaction {W A} (p : prog W A) : prog W A :=
  act_outcome (λ w,
    match run p w with
    | (Ok a, w') => (Ok a, w')
    | (Err e, _) => (Err e, w)
    end).

Create Rewrite HintDb prog.

Section run_lemmas.
Context {W : Type}.
Implicit Types w : W.

Lemma run_ret {A} (a : A) w : run (mret a) w = (Ok a, w).
Proof. reflexivity. Qed.

Lemma run_Ret {A} (a : A) w : run (Ret a) w = (Ok a, w).
Proof. reflexivity. Qed.

Lemma run_Throw {A} e w : run (@Throw W A e) w = (Err e, w).
Proof. reflexivity. Qed.

Lemma run_Act {X A} (f : W → X * W) (k : X → prog W A) w :
  run (Act f k) w = let '(x, w') := f w in run (k x) w'.
Proof. reflexivity. Qed.

Lemma run_prog_bind {A B} (f : A → prog W B) (p : prog W A) w :
  run (prog_bind f p) w =
  match run p w with
  | (Ok a, w') => run (f a) w'
  | (Err e, w') => (Err e, w')
  end.
Proof.
  revert w; induction p as [a|e|X g k IH]; intros w; simpl; [done..|].
  destruct (g w) as [x w']. apply IH.
Qed.

Lemma run_bind {A B} (f : A → prog W B) (p : prog W A) w :
  run (mbind f p) w =
  match run p w with
  | (Ok a, w') => run (f a) w'
  | (Err e, w') => (Err e, w')
  end.
Proof. apply run_prog_bind. Qed.

Lemma run_catch {A} (p : prog W A) h w :
  run (catch p h) w =
  match run p w with
  | (Ok a, w') => (Ok a, w')
  | (Err e, w') => run (h e) w'
  end.
Proof.
  revert w; induction p as [a|e|X g k IH]; intros w; simpl; [done..|].
  destruct (g w) as [x w']. apply IH.
Qed.

Lemma run_attempt {A} (p : prog W A) w :
  run (attempt p) w = (Ok (run p w).1, (run p w).2).
Proof.
  unfold attempt. rewrite run_catch, run_bind.
  by destruct (run p w) as [[a|e] w'].
Qed.

Lemma run_act {X} (f : W → X * W) w : run (act f) w = (Ok (f w).1, (f w).2).
Proof. unfold act. simpl. by destruct (f w). Qed.

Lemma run_gets {X} (f : W → X) w : run (gets f) w = (Ok (f w), w).
Proof. reflexivity. Qed.

Lemma run_modify (f : W → W) w : run (modify f) w = (Ok (), f w).
Proof. reflexivity. Qed.

Lemma run_throw_outcome {X} (r : outcome X) w :
  run (throw_outcome r) w = (r, w).
Proof. by destruct r. Qed.

Lemma run_act_outcome {X} (f : W → outcome X * W) w :
  run (act_outcome f) w = f w.
Proof. unfold act_outcome. simpl. by destruct (f w) as [[] ?]. Qed.

Lemma run_throw_if (b : bool) e w :
  run (throw_if b e) w = (if b then Err e else Ok (), w).
Proof. by destruct b. Qed.

Lemma run_require {A} (o : option A) e w :
  run (require o e) w = (from_option Ok (Err e) o, w).
Proof. by destruct o. Qed.

Lemma run_transaction {A} (p : prog W A) w :
  run (transaction p) w =
  match run p w with
  | (Ok a, w') => (Ok a, w')
  | (Err e, _) => (Err e, w)
  end.
Proof. unfold transaction. apply run_act_outcome. Qed.
End run_lemmas.

#[global] Arguments run {W A} p w : simpl never.
#[global] Arguments prog_bind {W A B} f p : simpl never.
#[global] Arguments catch {W A} p h : simpl never.
#[global] Arguments attempt {W A} p : simpl never.
#[global] Arguments act_outcome {W X} f : simpl never.
#[global] Arguments act {W X} f : simpl never.
#[global] Arguments gets {W X} f : simpl never.
#[global] Arguments modify {W} f : simpl never.
#[global] Arguments transaction {W A} p : simpl never.

#[export] Hint Rewrite @run_Act @run_bind @run_prog_bind @run_catch @run_ret @run_Ret
  @run_Throw @run_attempt @run_act @run_gets @run_modify @run_act_outcome
  @run_throw_outcome @run_throw_if @run_require @run_transaction : prog.

(** Step through a run: rewrite with the equations of [run], then reduce. *)
Ltac run_simpl :=
  repeat (progress (autorewrite with prog; cbn)).
Ltac run_simpl_in H :=
  repeat (progress (autorewrite with prog in H; cbn in H)).

(** ** Sums over a table

    [sumZ f m] is the SQL [SUM] of [f] over the rows of [m]. *)

Definition sumZ {K A} `{Countable K} (f : A → Z) (m : gmap K A) : Z :=
  map_fold (λ _ x acc, (f x + acc)%Z) 0%Z m.

Section sumZ.
Context {K A : Type} `{Countable K}.
Implicit Types (f g : A → Z) (m : gmap K A).
Local Open Scope Z_scope.

Lemma sumZ_empty f : sumZ f (∅ : gmap K A) = 0.
Proof. apply map_fold_empty. Qed.

Lemma sumZ_insert_new f m i x :
  m !! i = None → sumZ f (<[i := x]> m) = f x + sumZ f m.
Proof. intros Hi. unfold sumZ. rewrite map_fold_insert_L; [done|intros; lia|done]. Qed.

Lemma sumZ_delete f m i x :
  m !! i = Some x → sumZ f m = f x + sumZ f (delete i m).
Proof.
  intros Hi. rewrite <- (insert_delete_id m i x Hi) at 1.
  apply sumZ_insert_new, lookup_delete_eq.
Qed.

Lemma sumZ_update f m i x y :
  m !! i = Some x → sumZ f (<[i := y]> m) = sumZ f m - f x + f y.
Proof.
  intros Hi. rewrite (sumZ_delete f m i x Hi), <- insert_delete_eq.
  rewrite sumZ_insert_new by apply lookup_delete_eq. lia.
Qed.

Lemma sumZ_ext f g m :
  (∀ i x, m !! i = Some x → f x = g x) → sumZ f m = sumZ g m.
Proof.
  induction m as [|i x m Hi IH] using map_ind; intros Hfg.
  - by rewrite !sumZ_empty.
  - rewrite !sumZ_insert_new by done. f_equal.
    + apply (Hfg i). by rewrite lookup_insert_eq.
    + apply IH. intros j y Hj. apply (Hfg j).
      rewrite lookup_insert_ne; [done|]. intros ->. congruence.
Qed.

Lemma sumZ_add f g m : sumZ (λ x, f x + g x) m = sumZ f m + sumZ g m.
Proof.
  induction m as [|i x m Hi IH] using map_ind; [by rewrite !sumZ_empty|].
  rewrite !sumZ_insert_new by done. lia.
Qed.

Lemma sumZ_zero f m : (∀ i x, m !! i = Some x → f x = 0) → sumZ f m = 0.
Proof.
  induction m as [|i x m Hi IH] using map_ind; intros Hf; [done|].
  rewrite sumZ_insert_new by done.
  rewrite (Hf i) by (by rewrite lookup_insert_eq). rewrite IH; [lia|].
  intros j y Hj. apply (Hf j). rewrite lookup_insert_ne; [done|]. intros ->. congruence.
Qed.

Lemma sumZ_nonneg f m : (∀ i x, m !! i = Some x → 0 ≤ f x) → 0 ≤ sumZ f m.
Proof.
  induction m as [|i x m Hi IH] using map_ind; intros Hf; [done|].
  rewrite sumZ_insert_new by done.
  pose proof (Hf i x (lookup_insert_eq _ _ _)).
  enough (0 ≤ sumZ f m) by lia. apply IH.
  intros j y Hj. apply (Hf j). rewrite lookup_insert_ne; [done|]. intros ->. congruence.
Qed.
End sumZ.

(** [findFirst]: some row that satisfies the condition. *)
Definition find_row {K A} `{Countable K} (P : A → bool) (m : gmap K A) : option A :=
  snd <$> list_find (λ x, P x = true) ((map_to_list m).*2) .

Lemma find_row_Some {K A} `{Countable K} (P : A → bool) (m : gmap K A) x :
  find_row P m = Some x → P x = true ∧ ∃ i, m !! i = Some x.
Proof.
  unfold find_row. intros Hf.
  apply fmap_Some in Hf as ([n y] & Hf & ->).
  apply list_find_Some in Hf as (Hn & HP & _). split; [done|].
  apply list_elem_of_lookup_2, list_elem_of_fmap in Hn as ([i z] & -> & Hin).
  exists i. by apply elem_of_map_to_list.
Qed.

Lemma find_row_None {K A} `{Countable K} (P : A → bool) (m : gmap K A) :
  find_row P m = None ↔ ∀ i x, m !! i = Some x → P x = false.
Proof.
  unfold find_row. rewrite fmap_None, list_find_None, Forall_forall. split.
  - intros Hall i x Hi. apply not_true_is_false. apply Hall.
    apply list_elem_of_fmap. exists (i, x). split; [done|]. by apply elem_of_map_to_list.
  - intros Hall x ([i y] & -> & Hin)%list_elem_of_fmap. cbn.
    apply elem_of_map_to_list in Hin. by rewrite (Hall _ _ Hin).
Qed.

(** An order of rows, as the library's sorting takes it. *)
Definition goes_before {A} (before : A → A → bool) : relation A := λ a b, before a b = true.
#[export] Instance goes_before_dec {A} (before : A → A → bool) :
  RelDecision (goes_before before) := λ a b, decide (before a b = true).
