(* ===== verification/Interleave.v ===== *)
(** * Interleaving of handlers

    The handlers of the backend run concurrently: between two awaited actions
    of one request any other request, webhook or timer job may act. This file
    defines the interleaving of a pool of programs and a small rely/guarantee
    logic that lifts a property of single actions to every interleaving. *)

From S2P Require Import Prelude.

#[local] Arguments prog_bind {W A B} f !p /.
#[local] Arguments catch {W A} !p h /.

Section interleave.
Context {W : Type}.

(** One step of a pool: some program performs its next atomic action, or the
    environment (the rest of the application, the clock) changes the world. *)
Inductive pool_step (env : relation W) :
  list (prog W ()) * W → list (prog W ()) * W → Prop :=
| pool_act ps i X (f : W → X * W) k w x w' :
    ps !! i = Some (Act f k) → f w = (x, w') →
    pool_step env (ps, w) (<[i := k x]> ps, w')
| pool_env ps w w' :
    env w w' → pool_step env (ps, w) (ps, w').

(** [rg I R Q E p w]: started in [w], [p] keeps the invariant [I] at every
    action and changes the world only along [R], whatever [R]-steps others
    make in between; [Q] (resp. [E]) holds where it returns (resp. throws). *)
Fixpoint rg {A} (I : W → Prop) (R : relation W)
    (Q : A → W → Prop) (E : exn → W → Prop) (p : prog W A) (w : W) : Prop :=
  match p with
  | Ret a => Q a w
  | Throw e => E e w
  | Act f k => ∀ w1, R w w1 → I w1 →
      I (f w1).2 ∧ R w1 (f w1).2 ∧ rg I R Q E (k (f w1).1) (f w1).2
  end.

Section rules.
Context (I : W → Prop) (R : relation W) `{!PreOrder R}.

Definition stable {A} (Q : A → W → Prop) : Prop :=
  ∀ a w w', Q a w → R w w' → I w' → Q a w'.

Lemma rg_mono {A} (Q Q' : A → W → Prop) (E E' : exn → W → Prop) p w :
  rg I R Q E p w →
  (∀ a w, Q a w → Q' a w) → (∀ e w, E e w → E' e w) →
  rg I R Q' E' p w.
Proof.
  intros H HQ HE; revert w H; induction p as [a|e|X f k IH]; simpl; eauto.
  intros w H w1 HR HI. destruct (H w1 HR HI) as (?&?&?); eauto.
Qed.

Lemma rg_bind {A B} (f : A → prog W B) (p : prog W A)
    (Q : B → W → Prop) (E : exn → W → Prop) w :
  rg I R (λ a w, rg I R Q E (f a) w) E p w → rg I R Q E (p ≫= f) w.
Proof.
  revert w; induction p as [a|e|X g k IH]; simpl; [done..|].
  intros w H w1 HR HI. destruct (H w1 HR HI) as (?&?&?).
  split_and!; [done..|]. by apply IH.
Qed.

Lemma rg_catch {A} (p : prog W A) h (Q : A → W → Prop) (E : exn → W → Prop) w :
  rg I R Q (λ e w, rg I R Q E (h e) w) p w → rg I R Q E (catch p h) w.
Proof.
  revert w; induction p as [a|e|X g k IH]; simpl; [done..|].
  intros w H w1 HR HI. destruct (H w1 HR HI) as (?&?&?).
  split_and!; [done..|]. by apply IH.
Qed.

(** A stable fact that holds at the start still holds at the end. *)
Lemma rg_frame {A} (P : W → Prop) (Q : A → W → Prop) (E : exn → W → Prop) p w :
  (∀ w w', P w → R w w' → I w' → P w') → P w → rg I R Q E p w →
  rg I R (λ a w, Q a w ∧ P w) (λ e w, E e w ∧ P w) p w.
Proof.
  intros HP; revert w; induction p as [a|e|X f k IH]; simpl; [done..|].
  intros w Hw H w1 HR HI. destruct (H w1 HR HI) as (?&?&?).
  split_and!; [done..|]. apply IH; [|done]. by eapply (HP w1); [eapply (HP w)|..].
Qed.

(** Sequencing that keeps a stable fact. *)
Lemma rg_seq {A B} (P : W → Prop) (Q1 : A → W → Prop) (f : A → prog W B) (p : prog W A)
    (Q : B → W → Prop) w :
  (∀ w w', P w → R w w' → I w' → P w') → P w →
  rg I R Q1 (λ _ _, True) p w →
  (∀ a w', Q1 a w' → P w' → rg I R Q (λ _ _, True) (f a) w') →
  rg I R Q (λ _ _, True) (p ≫= f) w.
Proof.
  intros HP Hw Hp Hf. apply rg_bind. eapply rg_mono; [by apply (rg_frame P)|..].
  - intros a w' []; by apply Hf.
  - done.
Qed.

(** Programs that are safe whatever the state. *)
Definition safe {A} (p : prog W A) : Prop :=
  ∀ w, rg I R (λ _ _, True) (λ _ _, True) p w.

Lemma safe_rg {A} (p : prog W A) w : safe p → rg I R (λ _ _, True) (λ _ _, True) p w.
Proof. intros Hp. apply Hp. Qed.

Lemma safe_Ret {A} (a : A) : safe (Ret a).
Proof. done. Qed.
Lemma safe_mret {A} (a : A) : safe (mret a).
Proof. done. Qed.
Lemma safe_Throw {A} e : safe (@Throw W A e).
Proof. done. Qed.
Lemma safe_bind {A B} (f : A → prog W B) (p : prog W A) :
  safe p → (∀ a, safe (f a)) → safe (p ≫= f).
Proof.
  intros Hp Hf w. apply rg_bind. eapply rg_mono; [apply Hp| |done].
  intros a w' _. apply Hf.
Qed.
Lemma safe_catch {A} (p : prog W A) h : safe p → (∀ e, safe (h e)) → safe (catch p h).
Proof.
  intros Hp Hh w. apply rg_catch. eapply rg_mono; [apply Hp|done|].
  intros e w' _. apply Hh.
Qed.
Lemma safe_attempt {A} (p : prog W A) : safe p → safe (attempt p).
Proof. intros Hp. apply safe_catch; [apply safe_bind|]; done. Qed.
Lemma safe_throw_outcome {A} (r : outcome A) : safe (throw_outcome r).
Proof. by destruct r. Qed.
Lemma safe_throw_if b e : safe (@throw_if W b e).
Proof. by destruct b. Qed.
Lemma safe_require {A} (o : option A) e : safe (@require W A o e).
Proof. by destruct o. Qed.
Lemma safe_for_each {A} (f : A → prog W ()) xs :
  (∀ x, safe (f x)) → safe (for_each f xs).
Proof.
  intros Hf. induction xs as [|x xs IH]; [done|].
  apply safe_bind; [apply Hf|]. by intros _.
Qed.

(** An action that keeps [I] and moves along [R] from every state. *)
Definition good {X} (f : W → X * W) : Prop :=
  ∀ w, I w → I (f w).2 ∧ R w (f w).2.
Lemma safe_act {X} (f : W → X * W) : good f → safe (act f).
Proof. intros Hf w w1 _ HI. by destruct (Hf w1 HI). Qed.
Lemma safe_act_outcome {X} (f : W → outcome X * W) : good f → safe (act_outcome f).
Proof.
  intros Hf w w1 _ HI. destruct (Hf w1 HI). split_and!; [done..|].
  by destruct (f w1).1.
Qed.
Lemma safe_gets {X} (f : W → X) : safe (gets f).
Proof. by apply safe_act. Qed.
Lemma safe_modify (f : W → W) : (∀ w, I w → I (f w) ∧ R w (f w)) → safe (modify f).
Proof. intros Hf. by apply safe_act. Qed.

(** Reading the state: what is read is a fact of the state it is read in. *)
Lemma rg_gets {X} (f : W → X) (Q : X → W → Prop) (E : exn → W → Prop) w :
  (∀ w1, R w w1 → I w1 → Q (f w1) w1) → rg I R Q E (gets f) w.
Proof. intros HQ w1 HR HI. split_and!; [done..|]. by apply HQ. Qed.
Lemma rg_act_outcome {X} (f : W → outcome X * W) (Q : X → W → Prop) w :
  (∀ w1, R w w1 → I w1 → I (f w1).2 ∧ R w1 (f w1).2 ∧
    match (f w1).1 with Ok x => Q x (f w1).2 | Err _ => True end) →
  rg I R Q (λ _ _, True) (act_outcome f) w.
Proof.
  intros Hf w1 HR HI. destruct (Hf w1 HR HI) as (?&?&?). split_and!; [done..|].
  by destruct (f w1).1.
Qed.

Lemma rg_for_each {A} (f : A → prog W ()) (xs : list A) w :
  (∀ x w, I w → x ∈ xs → rg I R (λ _, I) (λ _, I) (f x) w) →
  I w → rg I R (λ _, I) (λ _, I) (for_each f xs) w.
Proof.
  revert w; induction xs as [|x xs IH]; intros w Hf HI; simpl; [done|].
  apply rg_bind. eapply rg_mono; [apply Hf; [done|left]| |done].
  intros u w' HI'. apply IH; [|done]. intros; apply Hf; [done|by right].
Qed.

Lemma rg_mono_world {A} (Q : A → W → Prop) (E : exn → W → Prop) p w w' :
  stable Q → stable E → rg I R Q E p w → R w w' → I w' → rg I R Q E p w'.
Proof.
  intros HQ HE. destruct p as [a|e|X f k]; simpl; [by eauto..|].
  intros H HR HI w1 HR1 HI1. apply H; [by etrans|done].
Qed.

(** A single action that keeps [I] and moves along [R]. *)
Lemma rg_act {X A} (f : W → X * W) (k : X → prog W A)
    (Q : A → W → Prop) (E : exn → W → Prop) w :
  (∀ w1, R w w1 → I w1 →
     I (f w1).2 ∧ R w1 (f w1).2 ∧ rg I R Q E (k (f w1).1) (f w1).2) →
  rg I R Q E (Act f k) w.
Proof. done. Qed.

(** A program run alone keeps the invariant and the relation. *)
Lemma rg_run {A} (Q : A → W → Prop) (E : exn → W → Prop) p w :
  I w → rg I R Q E p w →
  I (run p w).2 ∧ R w (run p w).2 ∧
  match run p w with
  | (Ok a, w') => Q a w'
  | (Err e, w') => E e w'
  end.
Proof.
  revert w; induction p as [a|e|X f k IH]; intros w HI H; simpl in H;
    rewrite ?run_Ret, ?run_Throw, ?run_Act; [done..|].
  destruct (H w (reflexivity w) HI) as (HI'&HR'&H').
  destruct (f w) as [x w'] eqn:Hf; simpl in *.
  destruct (IH x w' HI' H') as (?&?&?). split_and!; [done|by etrans|done].
Qed.

(** Every interleaving of programs keeps what each of them is safe for, whatever the
    environment does along the relation. *)
Lemma pool_rg (env : relation W) (E : exn → Prop) ps w ps' w' :
  (∀ w w', I w → env w w' → I w' ∧ R w w') →
  I w → (∀ i p, ps !! i = Some p → rg I R (λ _ _, True) (λ e _, E e) p w) →
  rtc (pool_step env) (ps, w) (ps', w') →
  I w' ∧ R w w' ∧ ∀ i p, ps' !! i = Some p → rg I R (λ _ _, True) (λ e _, E e) p w'.
Proof.
  intros Henv HI Hps Hsteps.
  remember (ps, w) as s eqn:Hs; remember (ps', w') as s' eqn:Hs'.
  revert ps w ps' w' Hs Hs' HI Hps.
  induction Hsteps as [s|s s1 s' Hstep Hsteps IH];
    intros ps w ps' w' -> Hs' HI Hps; [by simplify_eq|].
  assert (∃ ps1 w1, s1 = (ps1, w1) ∧ I w1 ∧ R w w1 ∧
    ∀ i p, ps1 !! i = Some p → rg I R (λ _ _, True) (λ e _, E e) p w1)
    as (ps1&w1&->&HI1&HR1&Hps1).
  { inversion Hstep as [? i X f k ? x w1 Hi Hf|? ? w1 He]; simplify_eq.
    - eexists _, _. split; [done|].
      destruct (Hps i _ Hi w (reflexivity w) HI) as (HI1&HR1&Hk).
      rewrite Hf in HI1, HR1, Hk; simpl in *.
      split_and!; [done..|]. intros j p Hj.
      destruct (decide (i = j)) as [->|Hne].
      + rewrite list_lookup_insert_eq in Hj by (by eapply lookup_lt_Some).
        by simplify_eq.
      + rewrite list_lookup_insert_ne in Hj by done.
        eapply rg_mono_world; [..|apply (Hps _ _ Hj)|exact HR1|exact HI1]; by intros ???.
    - destruct (Henv _ _ HI He) as [HI1 HR1]. eexists _, _.
      split_and!; [done..|]. intros j p Hj.
      eapply rg_mono_world; [..|apply (Hps _ _ Hj)|exact HR1|exact HI1]; by intros ???. }
  destruct (IH _ _ _ _ eq_refl Hs' HI1 Hps1) as (?&?&?).
  split_and!; [done|by etrans|done].
Qed.

Theorem pool_invariant (env : relation W) ps w ps' w' :
  (∀ w w', I w → env w w' → I w' ∧ R w w') →
  I w → (∀ i p, ps !! i = Some p → rg I R (λ _ _, True) (λ _ _, True) p w) →
  rtc (pool_step env) (ps, w) (ps', w') →
  I w' ∧ R w w'.
Proof. intros Henv HI Hps Hs. by destruct (pool_rg env (λ _, True) ps w ps' w') as (?&?&_). Qed.
End rules.

(** An executable scheduler: which program acts next. *)
Fixpoint schedule (order : list nat) (ps : list (prog W ())) (w : W) : list (prog W ()) * W :=
  match order with
  | [] => (ps, w)
  | i :: order =>
      match ps !! i with
      | Some (Act f k) => schedule order (<[i := k (f w).1]> ps) (f w).2
      | _ => schedule order ps w
      end
  end.

Lemma schedule_steps (env : relation W) order ps w :
  rtc (pool_step env) (ps, w) (schedule order ps w).
Proof.
  revert ps w. induction order as [|i order IH]; intros ps w; cbn; [done|].
  destruct (ps !! i) as [[a|e|X f k]|] eqn:Hi; [apply IH..| |apply IH].
  eapply rtc_l; [|apply IH]. eapply pool_act; [exact Hi|]. by destruct (f w).
Qed.

(** A program of the pool that returns may do so without being interrupted. *)
Lemma pool_run_ok (env : relation W) ps i p a w w' :
  ps !! i = Some p → run p w = (Ok a, w') →
  rtc (pool_step env) (ps, w) (<[i := Ret a]> ps, w').
Proof.
  revert ps w. induction p as [b|e|X f k IH]; intros ps w Hi Hrun.
  - injection Hrun as -> ->. by rewrite list_insert_id.
  - done.
  - rewrite run_Act in Hrun. destruct (f w) as [x w1] eqn:Hf.
    eapply rtc_l; [eapply pool_act; [exact Hi|exact Hf]|].
    rewrite <- (list_insert_insert_eq ps i (Ret a) (k x)). apply (IH x); [|done].
    apply list_lookup_insert_eq. by eapply lookup_lt_Some.
Qed.

(** A program of the pool may run to its end without being interrupted. *)
Lemma pool_run (env : relation W) ps i p w :
  ps !! i = Some p →
  ∃ q, rtc (pool_step env) (ps, w) (<[i := q]> ps, (run p w).2).
Proof.
  revert ps w. induction p as [a|e|X f k IH]; intros ps w Hi.
  - exists (Ret a). rewrite list_insert_id by done. apply rtc_refl.
  - exists (Throw e). rewrite list_insert_id by done. apply rtc_refl.
  - rewrite run_Act. destruct (f w) as [x w'] eqn:Hf.
    destruct (IH x (<[i := k x]> ps) w') as [q Hq].
    { apply list_lookup_insert_eq. by eapply lookup_lt_Some. }
    exists q. rewrite list_insert_insert_eq in Hq.
    eapply rtc_l; [|exact Hq]. by eapply pool_act.
Qed.
End interleave.

(** ** Claims

    Several handlers may race for the same thing (a one-time code, a session to
    rotate); a conditional update lets one of them through. [once owned p w]
    states that [p] returns only if it owns the claim or makes it: it performs
    the action that turns [claimed] from false to true. *)
Section once.
Context {W : Type} (I : W → Prop) (R : relation W) `{!PreOrder R} (claimed : W → Prop).

Fixpoint once {A} (owned : Prop) (p : prog W A) (w : W) : Prop :=
  match p with
  | Ret _ => owned
  | Throw _ => True
  | Act f k => ∀ w1, R w w1 → I w1 →
      I (f w1).2 ∧ R w1 (f w1).2 ∧
      once (owned ∨ (¬ claimed w1 ∧ claimed (f w1).2)) (k (f w1).1) (f w1).2
  end.

Lemma once_mono {A} (o o' : Prop) (p : prog W A) w : (o → o') → once o p w → once o' p w.
Proof.
  revert o o' w; induction p as [a|e|X f k IH]; simpl; intros o o' w Ho H; [tauto|done|].
  intros w1 HR HI. destruct (H w1 HR HI) as (?&?&?). split_and!; [done..|].
  eapply IH; [|done]. tauto.
Qed.

Lemma once_world {A} o (p : prog W A) w w' : once o p w → R w w' → once o p w'.
Proof.
  destruct p as [a|e|X f k]; simpl; [done..|]. intros H HR w1 HR1 HI. apply H; [by etrans|done].
Qed.

Lemma rg_once {A} (o : Prop) Q E (p : prog W A) w : o → rg I R Q E p w → once o p w.
Proof.
  revert o w; induction p as [a|e|X f k IH]; simpl; intros o w Ho H; [done..|].
  intros w1 HR HI. destruct (H w1 HR HI) as (?&?&?). split_and!; [done..|]. apply IH; auto.
Qed.

Lemma once_bind {A B} o (f : A → prog W B) (p : prog W A) w E :
  rg I R (λ a w, once o (f a) w) E p w → once o (p ≫= f) w.
Proof.
  revert w; induction p as [a|e|X g k IH]; simpl; intros w H; [done..|].
  intros w1 HR HI. destruct (H w1 HR HI) as (?&?&?). split_and!; [done..|].
  eapply once_mono; [|apply IH; done]. tauto.
Qed.

(** A safe first part of which nothing needs to be known. *)
Lemma once_after {A B} o (f : A → prog W B) (p : prog W A) w :
  safe I R p → (∀ a w, once o (f a) w) → once o (p ≫= f) w.
Proof.
  intros Hp Hf. eapply once_bind, rg_mono; [apply Hp| |done]. intros a w' _. apply Hf.
Qed.

(** A safe last part. *)
Lemma once_then {A B} o (f : A → prog W B) (p : prog W A) w :
  once o p w → (∀ a, safe I R (f a)) → once o (p ≫= f) w.
Proof.
  intros Hp Hf. revert o w Hp.
  induction p as [a|e|X g k IH]; simpl; intros o w Hp; [|done|].
  - eapply rg_once; [done|]. apply Hf.
  - intros w1 HR HI. destruct (Hp w1 HR HI) as (?&?&?). split_and!; [done..|]. by apply IH.
Qed.

(** A handler of exceptions that throws again. *)
Lemma once_catch {A} o (p : prog W A) (h : exn → prog W A) w :
  once o p w → (∀ e w, once False (h e) w) → once o (catch p h) w.
Proof.
  intros Hp Hh. revert o w Hp. induction p as [a|e|X g k IH]; simpl; intros o w Hp; [done| |].
  - eapply once_mono; [|apply Hh]. done.
  - intros w1 HR HI. destruct (Hp w1 HR HI) as (?&?&?). split_and!; [done..|]. by apply IH.
Qed.

(** The claim: an update that answers 0 when it is too late. *)
Lemma once_claim {B} (g : W → Z * W) (f : Z → prog W B) w :
  good I R g →
  (∀ w1, I w1 → (g w1).1 = 0%Z ∨ (¬ claimed w1 ∧ claimed (g w1).2)) →
  (∀ w, once False (f 0%Z) w) → (∀ n, safe I R (f n)) →
  once False (act g ≫= f) w.
Proof.
  intros Hg Hclaim H0 Hf w1 HR HI. destruct (Hg w1 HI) as [HI1 HR1].
  split_and!; [done..|]. destruct (Hclaim w1 HI) as [Hz|Hc].
  - rewrite Hz. eapply once_mono; [|apply H0]. tauto.
  - eapply rg_once; [by right|]. apply Hf.
Qed.

(** However the pool runs, at most one of the claimants returns. *)
Theorem pool_once (env : relation W) (C : nat → Prop) ps w ps' w' :
  (∀ w w', R w w' → claimed w → claimed w') →
  (∀ w w', I w → env w w' → I w' ∧ R w w') →
  I w → (∀ i p, ps !! i = Some p → rg I R (λ _ _, True) (λ _ _, True) p w) →
  (∀ i p, C i → ps !! i = Some p → once False p w) →
  rtc (pool_step env) (ps, w) (ps', w') →
  ∀ i j a b, C i → C j → ps' !! i = Some (Ret a) → ps' !! j = Some (Ret b) → i = j.
Proof.
  intros Hmono Henv HI Hrg Honce Hsteps.
  assert (Hinv : ∃ own : nat → Prop,
    (∀ i p, C i → ps !! i = Some p → once (own i) p w) ∧
    (∀ i j, own i → own j → i = j) ∧ (∀ i, own i → claimed w)).
  { exists (λ _, False). split_and!; [done|done|done]. }
  clear Honce. remember (ps, w) as s eqn:Hs; remember (ps', w') as s' eqn:Hs'.
  revert ps w ps' w' Hs Hs' HI Hrg Hinv.
  induction Hsteps as [s|s s1 s' Hstep Hsteps IH];
    intros ps w ps' w' -> Hs' HI Hrg (own&Hone&Hex&Hcl).
  { simplify_eq. intros i j a b Ci Cj Hi Hj.
    apply Hex; [by apply (Hone i _ Ci Hi)|by apply (Hone j _ Cj Hj)]. }
  inversion Hstep as [? i X f k ? x w1 Hi Hf|? ? w1 He]; simplify_eq.
  - destruct (Hrg i _ Hi w (reflexivity w) HI) as (HI1&HR1&Hk).
    rewrite Hf in HI1, HR1, Hk; simpl in *.
    pose proof (lookup_lt_Some _ _ _ Hi) as Hlt.
    eapply (IH _ w1); [done|done|done| |].
    + intros j p Hj. destruct (decide (i = j)) as [->|Hne].
      * rewrite list_lookup_insert_eq in Hj by done. by simplify_eq.
      * rewrite list_lookup_insert_ne in Hj by done.
        by eapply rg_mono_world; [..|apply (Hrg _ _ Hj)|exact HR1|exact HI1].
    + exists (λ j, own j ∨ (j = i ∧ ¬ claimed w ∧ claimed w1)). split_and!.
      * intros j p Cj Hj. destruct (decide (i = j)) as [->|Hne].
        -- rewrite list_lookup_insert_eq in Hj by done. simplify_eq.
           destruct (Hone j _ Cj Hi w (reflexivity w) HI) as (_&_&Ho).
           rewrite Hf in Ho; simpl in Ho. eapply once_mono; [|exact Ho]. tauto.
        -- rewrite list_lookup_insert_ne in Hj by done.
           eapply once_mono; [|eapply once_world; [apply (Hone _ _ Cj Hj)|exact HR1]]. tauto.
      * intros j j' [Ho|(->&Hn&_)] [Ho'|(->&Hn'&_)]; [by apply Hex| | |done].
        -- destruct Hn'. by eapply Hcl.
        -- destruct Hn. by eapply Hcl.
      * intros j [Ho|(_&_&Hc)]; [|done]. eapply Hmono; [exact HR1|]. by eapply Hcl.
  - destruct (Henv _ _ HI He) as [HI1 HR1].
    eapply (IH _ w1); [done|done|done| |].
    + intros j p Hj. by eapply rg_mono_world; [..|apply (Hrg _ _ Hj)|exact HR1|exact HI1].
    + exists own. split_and!; [|done|].
      * intros j p Cj Hj. eapply once_world; [by apply Hone|done].
      * intros j Ho. eapply Hmono; [exact HR1|]. by eapply Hcl.
Qed.
End once.

(** ** Automation *)

(** A transaction is as safe as what it does. *)
Lemma safe_transaction {W A} (I : W → Prop) (R : relation W) `{!PreOrder R} (p : prog W A) :
  safe I R p → safe I R (transaction p).
Proof.
  intros Hp. apply safe_act_outcome. intros w HI.
  pose proof (rg_run I R _ _ p w HI (Hp w)) as (?&?&_).
  by destruct (run p w) as [[a|e] w'].
Qed.

Create HintDb safe.
#[export] Hint Resolve safe_mret safe_Ret safe_Throw safe_gets safe_throw_outcome
  safe_throw_if safe_require : safe.

(** One structural step of a safety proof, or a known program. *)
Ltac safe_step :=
  first [ solve [auto 2 with safe nocore]
        | apply safe_bind; [|intros ?]
        | apply safe_catch; [|intros ?]
        | apply safe_attempt
        | apply safe_for_each; intros ?
        | case_match ].
Ltac safe_tac := repeat safe_step.
