(* ===== verification/Js.v ===== *)
(** * The JavaScript standard library, as far as the source uses it

    Strings are byte strings; the length and the positions of the source's
    UTF-16 strings agree with these on ASCII text, which is the bound of the
    string models. White space is the ASCII white space of [String.trim]. *)

From S2P Require Import Prelude.
From Stdlib Require Export Ascii.
From Stdlib Require String.

(** [String] here is stdpp's module; the constructor is [String.String]. *)
Abbreviation Str := String.String.

Definition is_ws (c : ascii) : bool :=
  let n := nat_of_ascii c in (bool_decide (9 ≤ n ≤ 13)) || (n =? 32).

Definition is_digit (c : ascii) : bool :=
  let n := nat_of_ascii c in bool_decide (48 ≤ n ≤ 57).

Definition is_lower (c : ascii) : bool :=
  let n := nat_of_ascii c in bool_decide (97 ≤ n ≤ 122).

Definition is_upper (c : ascii) : bool :=
  let n := nat_of_ascii c in bool_decide (65 ≤ n ≤ 90).

Definition lower_char (c : ascii) : ascii :=
  if is_upper c then ascii_of_nat (nat_of_ascii c + 32) else c.

Definition upper_char (c : ascii) : ascii :=
  if is_lower c then ascii_of_nat (nat_of_ascii c - 32) else c.

Fixpoint str_map (f : ascii → ascii) (s : string) : string :=
  match s with
  | EmptyString => EmptyString
  | Str c s => Str (f c) (str_map f s)
  end.

Fixpoint str_filter (f : ascii → bool) (s : string) : string :=
  match s with
  | EmptyString => EmptyString
  | Str c s => if f c then Str c (str_filter f s) else str_filter f s
  end.

Fixpoint str_forallb (f : ascii → bool) (s : string) : bool :=
  match s with
  | EmptyString => true
  | Str c s => f c && str_forallb f s
  end.

Definition toLowerCase : string → string := str_map lower_char.
Definition toUpperCase : string → string := str_map upper_char.

Fixpoint drop_while (f : ascii → bool) (s : string) : string :=
  match s with
  | EmptyString => EmptyString
  | Str c s' => if f c then drop_while f s' else s
  end.

Definition drop_while_end (f : ascii → bool) (s : string) : string :=
  String.rev (drop_while f (String.rev s)).

Definition trim (s : string) : string := drop_while_end is_ws (drop_while is_ws s).

(** [s.slice(0, n)] / [s.substring(0, n)] and [s.slice(n)] / [s.substring(n)], [0 ≤ n]. *)
Fixpoint str_take (n : nat) (s : string) : string :=
  match n, s with
  | S n, Str c s => Str c (str_take n s)
  | _, _ => EmptyString
  end.

Fixpoint str_drop (n : nat) (s : string) : string :=
  match n, s with
  | S n, Str c s => str_drop n s
  | _, _ => s
  end.

(** [s.slice(-n)] *)
Definition slice_last (n : nat) (s : string) : string :=
  str_drop (String.length s - n) s.

(** [s.slice(a, b)] for [0 ≤ a ≤ b]. *)
Definition slice (a b : nat) (s : string) : string :=
  str_take (b - a) (str_drop a s).

Fixpoint starts_with (p s : string) : bool :=
  match p, s with
  | EmptyString, _ => true
  | Str a p, Str b s => bool_decide (a = b) && starts_with p s
  | Str _ _, EmptyString => false
  end.

(** [s.endsWith(p)] *)
Definition ends_with (p s : string) : bool :=
  starts_with (String.rev p) (String.rev s).

Fixpoint includes (needle s : string) : bool :=
  starts_with needle s ||
  match s with
  | EmptyString => false
  | Str _ s => includes needle s
  end.

(** [s.split(c)] for a one-character separator. *)
Fixpoint split (c : ascii) (s : string) : list string :=
  match s with
  | EmptyString => [""]
  | Str a s =>
      if bool_decide (a = c) then "" :: split c s
      else match split c s with
           | h :: t => Str a h :: t
           | [] => [Str a ""]
           end
  end.

Fixpoint join (sep : string) (xs : list string) : string :=
  match xs with
  | [] => ""
  | [x] => x
  | x :: xs => x +:+ sep +:+ join sep xs
  end.

Fixpoint repeat (s : string) (n : nat) : string :=
  match n with 0 => "" | S n => s +:+ repeat s n end.

(** [s.padStart(n, c)] *)
Definition padStart (n : nat) (c : string) (s : string) : string :=
  repeat c (n - String.length s) +:+ s.

(** A string is falsy exactly when it is empty; [a || b] on strings. *)
Definition truthy (s : string) : bool := bool_decide (s ≠ "").
Definition str_or (a b : string) : string := if truthy a then a else b.

(** [String(n)] of an integer. *)
Definition str_of_Z (n : Z) : string := pretty n.

(** [x.split(/\s+/)] *)
Fixpoint split_ws_go (s : string) (in_ws : bool) : list string :=
  match s with
  | EmptyString => [""]
  | Str c s =>
      if is_ws c then
        if in_ws then split_ws_go s true else "" :: split_ws_go s true
      else match split_ws_go s false with
           | h :: t => Str c h :: t
           | [] => [Str c ""]
           end
  end.
Definition split_ws (s : string) : list string := split_ws_go s false.

(** [encodeURIComponent] on the UTF-8 bytes. *)
Definition hex_digit (n : nat) : ascii :=
  if n <? 10 then ascii_of_nat (48 + n) else ascii_of_nat (55 + n).

Definition uri_unreserved (c : ascii) : bool :=
  is_digit c || is_lower c || is_upper c ||
  bool_decide (c ∈ ["-"; "_"; "."; "!"; "~"; "*"; "'"; "("; ")"]%char).

Fixpoint encodeURIComponent (s : string) : string :=
  match s with
  | EmptyString => EmptyString
  | Str c s =>
      if uri_unreserved c then Str c (encodeURIComponent s)
      else let n := nat_of_ascii c in
           Str "%"%char (Str (hex_digit (n / 16)) (Str (hex_digit (n mod 16))
             (encodeURIComponent s)))
  end.

(** ** JSON values *)
Inductive json :=
| JNull
| JBool (b : bool)
| JNum (n : Z)
| JStr (s : string)
| JArr (xs : list json)
| JObj (kvs : list (string * json)).

(** ** Lemmas *)

Lemma truthy_true s : truthy s = true ↔ s ≠ "".
Proof. unfold truthy. apply bool_decide_eq_true. Qed.

Lemma truthy_false s : truthy s = false ↔ s = "".
Proof.
  unfold truthy. rewrite bool_decide_eq_false. split; [|intros ->; congruence].
  intros H. apply dec_stable. done.
Qed.

Lemma lower_char_idemp c : lower_char (lower_char c) = lower_char c.
Proof. by destruct c as [[][][][][][][][]]. Qed.

Lemma upper_char_idemp c : upper_char (upper_char c) = upper_char c.
Proof. by destruct c as [[][][][][][][][]]. Qed.

Lemma str_map_idemp f s : (∀ c, f (f c) = f c) → str_map f (str_map f s) = str_map f s.
Proof. intros Hf. induction s as [|c s IH]; simpl; [done|]. by rewrite Hf, IH. Qed.

Lemma toLowerCase_idemp s : toLowerCase (toLowerCase s) = toLowerCase s.
Proof. apply str_map_idemp, lower_char_idemp. Qed.

Lemma toUpperCase_idemp s : toUpperCase (toUpperCase s) = toUpperCase s.
Proof. apply str_map_idemp, upper_char_idemp. Qed.

Lemma split_not_nil c s : split c s ≠ [].
Proof. destruct s; simpl; [done|]. case_bool_decide; [done|]. by destruct (split c s). Qed.

(** [s.split(c).join(c) = s] *)
Lemma join_split c s : join (Str c "") (split c s) = s.
Proof.
  induction s as [|a s IH]; [done|]. cbn [split].
  pose proof (split_not_nil c s) as Hne.
  destruct (split c s) as [|h t]; [done|].
  case_bool_decide as Ha; [subst a|]; destruct t as [|h' t]; simpl in *;
    by rewrite <- IH.
Qed.

Lemma str_app_length s t : String.length (s +:+ t) = String.length s + String.length t.
Proof. unfold String.app. induction s; simpl; [done|]. by f_equal. Qed.

Lemma starts_with_app p s : starts_with p (p +:+ s) = true.
Proof.
  unfold String.app. induction p as [|c p IH]; [done|]. simpl.
  by rewrite bool_decide_eq_true_2, IH.
Qed.

Lemma str_map_id f s : str_forallb (λ c, bool_decide (f c = c)) s = true → str_map f s = s.
Proof.
  induction s as [|c s IH]; [done|]. cbn. intros [Hc Hs]%andb_prop.
  apply bool_decide_eq_true in Hc. by rewrite Hc, IH.
Qed.

Lemma str_filter_id f s : str_forallb f s = true → str_filter f s = s.
Proof. induction s as [|c s IH]; [done|]. cbn. intros [-> Hs]%andb_prop. by rewrite IH. Qed.

Lemma str_forallb_impl (f g : ascii → bool) s :
  (∀ c, f c = true → g c = true) → str_forallb f s = true → str_forallb g s = true.
Proof.
  intros Hfg. induction s as [|c s IH]; [done|]. cbn. intros [Hc Hs]%andb_prop.
  by rewrite (Hfg _ Hc), IH.
Qed.

Lemma str_forallb_app f s t : str_forallb f (s +:+ t) = str_forallb f s && str_forallb f t.
Proof. unfold String.app. induction s as [|c s IH]; cbn; [done|]. by rewrite IH, andb_assoc. Qed.

Lemma str_forallb_rev_app f s t :
  str_forallb f (String.rev_app s t) = str_forallb f s && str_forallb f t.
Proof.
  revert t. induction s as [|c s IH]; intros t; [done|]. cbn. rewrite IH. cbn.
  by destruct (f c), (str_forallb f s), (str_forallb f t).
Qed.

Lemma rev_app_rev_app s t u :
  String.rev_app (String.rev_app s t) u = String.rev_app t (s +:+ u).
Proof.
  unfold String.app. revert t u. induction s as [|c s IH]; intros t u; [done|].
  cbn. by rewrite IH.
Qed.

Lemma str_app_nil_r s : s +:+ "" = s.
Proof. unfold String.app. induction s; cbn; [done|]. by f_equal. Qed.

Lemma str_app_assoc s t u : (s +:+ t) +:+ u = s +:+ (t +:+ u).
Proof. unfold String.app. induction s; cbn; [done|]. by f_equal. Qed.

Lemma rev_involutive s : String.rev (String.rev s) = s.
Proof. unfold String.rev. rewrite rev_app_rev_app. cbn. apply str_app_nil_r. Qed.

Lemma drop_while_id f s :
  str_forallb (λ c, negb (f c)) s = true → drop_while f s = s.
Proof. destruct s as [|c s]; [done|]. cbn. by destruct (f c). Qed.

Lemma drop_while_end_id f s :
  str_forallb (λ c, negb (f c)) s = true → drop_while_end f s = s.
Proof.
  intros Hs. unfold drop_while_end. rewrite drop_while_id; [apply rev_involutive|].
  unfold String.rev. by rewrite str_forallb_rev_app, Hs.
Qed.

Lemma trim_id s : str_forallb (λ c, negb (is_ws c)) s = true → trim s = s.
Proof. intros. unfold trim. by rewrite drop_while_id, drop_while_end_id. Qed.

(** [xs.join(c).split(c) = xs] when no element holds the separator. *)
Lemma split_no_sep c s :
  str_forallb (λ a, bool_decide (a ≠ c)) s = true → split c s = [s].
Proof.
  induction s as [|a s IH]; [done|]. cbn. intros [Ha Hs]%andb_prop.
  apply bool_decide_eq_true in Ha. by rewrite bool_decide_eq_false_2, IH.
Qed.

Lemma split_app_sep c s t :
  str_forallb (λ a, bool_decide (a ≠ c)) s = true → split c (s +:+ Str c t) = s :: split c t.
Proof.
  unfold String.app. induction s as [|a s IH]; cbn; intros Hs.
  - by rewrite bool_decide_eq_true_2.
  - apply andb_prop in Hs as [Ha Hs]. apply bool_decide_eq_true in Ha.
    by rewrite bool_decide_eq_false_2, IH.
Qed.

Lemma split_join c xs :
  xs ≠ [] → Forall (λ s, str_forallb (λ a, bool_decide (a ≠ c)) s = true) xs →
  split c (join (Str c "") xs) = xs.
Proof.
  intros Hne Hxs. induction Hxs as [|x xs Hx Hxs IH]; [done|].
  destruct xs as [|y xs]; [by apply split_no_sep|].
  change (join (Str c "") (x :: y :: xs)) with (x +:+ Str c (join (Str c "") (y :: xs))).
  rewrite split_app_sep by done. f_equal. by apply IH.
Qed.

(** The value of a string of decimal digits ([Number(s)]; exact below 2^53). *)
Definition digit_value (c : ascii) : Z := Z.of_nat (nat_of_ascii c - 48).
Fixpoint digits_value_go (s : string) (acc : Z) : Z :=
  match s with
  | EmptyString => acc
  | Str c s => digits_value_go s (10 * acc + digit_value c)%Z
  end.
Definition digits_value (s : string) : Z := digits_value_go s 0.

(** The longest prefix of characters that satisfy [f], and the rest. *)
Fixpoint span (f : ascii → bool) (s : string) : string * string :=
  match s with
  | EmptyString => (EmptyString, EmptyString)
  | Str c s' => if f c then let '(a, b) := span f s' in (Str c a, b) else (EmptyString, s)
  end.

Lemma starts_with_drop p s :
  starts_with p s = true → s = p +:+ str_drop (String.length p) s.
Proof.
  unfold String.app. revert s. induction p as [|c p IH]; intros [|a s]; cbn; [done..|].
  intros [->%bool_decide_eq_true Hs]%andb_prop. by rewrite <- IH.
Qed.

Lemma digits_value_go_bounds s acc :
  str_forallb is_digit s = true →
  (acc * 10 ^ Z.of_nat (String.length s) ≤ digits_value_go s acc <
   (acc + 1) * 10 ^ Z.of_nat (String.length s))%Z.
Proof.
  revert acc. induction s as [|c s IH]; intros acc; cbn [str_forallb digits_value_go String.length].
  { intros _. cbn. lia. }
  intros [Hc Hs]%andb_prop. apply bool_decide_eq_true in Hc.
  rewrite Nat2Z.inj_succ, Z.pow_succ_r by lia. specialize (IH (10 * acc + digit_value c)%Z Hs).
  unfold digit_value in *. set (P := (10 ^ Z.of_nat (String.length s))%Z) in *.
  assert (0 < P)%Z by (unfold P; lia). nia.
Qed.
Lemma digits_value_bounds s :
  str_forallb is_digit s = true → (0 ≤ digits_value s < 10 ^ Z.of_nat (String.length s))%Z.
Proof. intros Hs. pose proof (digits_value_go_bounds s 0 Hs). unfold digits_value. lia. Qed.
