(* ===== verification/Json.v ===== *)
(** * JSON text

    [JSON.stringify] and [JSON.parse] on the values of [json] (file Js), and the
    round trip. Numbers are integers; the parser reads the numbers that the printer
    writes, without fractions and exponents. *)

From S2P Require Import Prelude Js.
From stdpp Require Import pretty.

Open Scope Z_scope.

(** ** Printing *)

Definition dq : ascii := "034"%char.
Definition backslash : ascii := "092"%char.

Definition hex_lower (n : nat) : ascii :=
  ascii_of_nat (if (n <? 10)%nat then 48 + n else 87 + n).

(** One character inside quotation marks. *)
Definition escape_char (c : ascii) : string :=
  let n := nat_of_ascii c in
  if bool_decide (c = dq) then Str backslash (Str dq "")
  else if bool_decide (c = backslash) then Str backslash (Str backslash "")
  else if (n =? 8)%nat then Str backslash "b"
  else if (n =? 9)%nat then Str backslash "t"
  else if (n =? 10)%nat then Str backslash "n"
  else if (n =? 12)%nat then Str backslash "f"
  else if (n =? 13)%nat then Str backslash "r"
  else if (n <? 32)%nat then
    Str backslash ("u00" +:+ Str (hex_lower (n / 16)) (Str (hex_lower (n mod 16)) ""))
  else Str c "".
Fixpoint escape (s : string) : string :=
  match s with
  | EmptyString => ""
  | Str c s => escape_char c +:+ escape s
  end.
Definition quote (s : string) : string := Str dq (escape s +:+ Str dq "").

Fixpoint stringify (j : json) : string :=
  match j with
  | JNull => "null"
  | JBool true => "true"
  | JBool false => "false"
  | JNum n => str_of_Z n
  | JStr s => quote s
  | JArr xs => "[" +:+ Js.join "," (map stringify xs) +:+ "]"
  | JObj kvs => "{" +:+ Js.join "," (map (λ kv, quote kv.1 +:+ ":" +:+ stringify kv.2) kvs) +:+ "}"
  end.

(** [JSON.stringify(j, null, 2)] *)
Definition newline : string := Str "010"%char "".
Fixpoint stringify_in (ind : string) (j : json) : string :=
  let inner := ind +:+ "  " in
  let block (open close : string) (xs : list string) :=
    open +:+ newline +:+ inner +:+ Js.join ("," +:+ newline +:+ inner) xs +:+
    newline +:+ ind +:+ close in
  match j with
  | JArr ((_ :: _) as xs) => block "[" "]" (map (stringify_in inner) xs)
  | JObj ((_ :: _) as kvs) =>
      block "{" "}" (map (λ kv, quote kv.1 +:+ ": " +:+ stringify_in inner kv.2) kvs)
  | _ => stringify j
  end.
Definition stringify_indent : json → string := stringify_in "".

(** ** Members of objects *)

Fixpoint obj_get (k : string) (kvs : list (string * json)) : option json :=
  match kvs with
  | [] => None
  | (k', v) :: kvs => if bool_decide (k' = k) then Some v else obj_get k kvs
  end.
(** [o[k] = v]: in its place, or at the end. *)
Fixpoint obj_set (k : string) (v : json) (kvs : list (string * json)) : list (string * json) :=
  match kvs with
  | [] => [(k, v)]
  | (k', v') :: kvs =>
      if bool_decide (k' = k) then (k, v) :: kvs else (k', v') :: obj_set k v kvs
  end.
(** [{ ...base, ...patch }] *)
Definition obj_spread (base patch : list (string * json)) : list (string * json) :=
  foldl (λ o kv, obj_set kv.1 kv.2 o) base patch.
(** [j[k]]; [None] is [undefined]. *)
Definition member (k : string) (j : json) : option json :=
  match j with JObj kvs => obj_get k kvs | _ => None end.
(** The own members that a spread copies. *)
Definition members (j : json) : list (string * json) :=
  match j with JObj kvs => kvs | _ => [] end.

Lemma obj_get_set_eq k v kvs : obj_get k (obj_set k v kvs) = Some v.
Proof.
  induction kvs as [|[k' v'] kvs IH]; cbn.
  - by rewrite bool_decide_eq_true_2.
  - case_bool_decide as Hk; cbn; [by rewrite bool_decide_eq_true_2|].
    by rewrite bool_decide_eq_false_2.
Qed.
Lemma obj_get_set_ne k k' v kvs : k ≠ k' → obj_get k (obj_set k' v kvs) = obj_get k kvs.
Proof.
  intros Hne. induction kvs as [|[k1 v1] kvs IH]; cbn.
  - by rewrite bool_decide_eq_false_2.
  - case_bool_decide as Hk; cbn; [subst k1; by rewrite bool_decide_eq_false_2|].
    case_bool_decide; [done|]. exact IH.
Qed.

(** ** Parsing *)

Definition hex_value (c : ascii) : option nat :=
  let n := nat_of_ascii c in
  if ((48 <=? n) && (n <=? 57))%nat then Some (n - 48)%nat
  else if ((97 <=? n) && (n <=? 102))%nat then Some (n - 87)%nat
  else if ((65 <=? n) && (n <=? 70))%nat then Some (n - 55)%nat
  else None.

(** What follows a backslash, in the range of one byte. *)
Definition unescape_char (c : ascii) : option ascii :=
  let n := nat_of_ascii c in
  if bool_decide (c = dq) || bool_decide (c = backslash) || bool_decide (c = "/"%char) then Some c
  else if bool_decide (c = "b"%char) then Some "008"%char
  else if bool_decide (c = "t"%char) then Some "009"%char
  else if bool_decide (c = "n"%char) then Some "010"%char
  else if bool_decide (c = "f"%char) then Some "012"%char
  else if bool_decide (c = "r"%char) then Some "013"%char
  else None.

(** The rest of a string literal: its characters and what follows it. *)
Fixpoint parse_string (s : string) : option (string * string) :=
  match s with
  | EmptyString => None
  | Str c s1 =>
      if bool_decide (c = dq) then Some ("", s1)
      else if bool_decide (c = backslash) then
        match s1 with
        | Str "u" (Str "0" (Str "0" (Str h (Str l s2)))) =>
            match hex_value h, hex_value l, parse_string s2 with
            | Some a, Some b, Some (t, rest) => Some (Str (ascii_of_nat (16 * a + b)) t, rest)
            | _, _, _ => None
            end
        | Str e s2 =>
            match unescape_char e, parse_string s2 with
            | Some c, Some (t, rest) => Some (Str c t, rest)
            | _, _ => None
            end
        | EmptyString => None
        end
      else if (nat_of_ascii c <? 32)%nat then None
      else match parse_string s1 with
           | Some (t, rest) => Some (Str c t, rest)
           | None => None
           end
  end.

(** A literal [word] at the start. *)
Definition expect (word s : string) : option string :=
  if starts_with word s then Some (str_drop (String.length word) s) else None.

(** No leading zeros. *)
Definition parse_digits (s : string) : option (Z * string) :=
  let '(ds, rest) := span is_digit s in
  match ds with
  | EmptyString => None
  | Str "0" (Str _ _) => None
  | _ => Some (digits_value ds, rest)
  end.
Definition parse_number (s : string) : option (Z * string) :=
  match s with
  | Str "-" s => match parse_digits s with Some (n, rest) => Some (- n, rest) | None => None end
  | _ => parse_digits s
  end.

Definition is_json_ws (c : ascii) : bool :=
  bool_decide (c = " "%char) || bool_decide (c = "009"%char) || bool_decide (c = "010"%char) ||
  bool_decide (c = "013"%char).
Definition skip_ws : string → string := drop_while is_json_ws.

(** Items separated by commas, up to [close]. *)
Fixpoint parse_items {A} (p : string → option (A * string)) (close : ascii) (fuel : nat)
    (s : string) : option (list A * string) :=
  match fuel with
  | O => None
  | S fuel =>
      match p s with
      | Some (x, s1) =>
          match skip_ws s1 with
          | Str c s2 =>
              if bool_decide (c = ","%char) then
                match parse_items p close fuel s2 with
                | Some (xs, rest) => Some (x :: xs, rest)
                | None => None
                end
              else if bool_decide (c = close) then Some ([x], s2)
              else None
          | EmptyString => None
          end
      | None => None
      end
  end.
Definition parse_member (p : string → option (json * string)) (s : string)
    : option ((string * json) * string) :=
  match skip_ws s with
  | Str c s1 =>
      if bool_decide (c = dq) then
        match parse_string s1 with
        | Some (k, s2) =>
            match skip_ws s2 with
            | Str ":" s3 => match p s3 with Some (v, rest) => Some ((k, v), rest) | None => None end
            | _ => None
            end
        | None => None
        end
      else None
  | EmptyString => None
  end.

(** An object keeps the last value of a key, at the place of the first. *)
Fixpoint put_key (k : string) (v : json) (kvs : list (string * json)) : list (string * json) :=
  match kvs with
  | [] => [(k, v)]
  | (k', v') :: kvs => if bool_decide (k' = k) then (k, v) :: kvs else (k', v') :: put_key k v kvs
  end.
Definition object_of (kvs : list (string * json)) : list (string * json) :=
  foldl (λ o kv, put_key kv.1 kv.2 o) [] kvs.

Fixpoint parse_value (fuel : nat) (s : string) : option (json * string) :=
  match fuel with
  | O => None
  | S fuel =>
      match skip_ws s with
      | Str "[" s1 =>
          match skip_ws s1 with
          | Str "]" s2 => Some (JArr [], s2)
          | _ => match parse_items (parse_value fuel) "]" fuel s1 with
                 | Some (xs, rest) => Some (JArr xs, rest)
                 | None => None
                 end
          end
      | Str "{" s1 =>
          match skip_ws s1 with
          | Str "}" s2 => Some (JObj [], s2)
          | _ => match parse_items (parse_member (parse_value fuel)) "}" fuel s1 with
                 | Some (kvs, rest) => Some (JObj (object_of kvs), rest)
                 | None => None
                 end
          end
      | Str c s1 =>
          if bool_decide (c = dq) then
            match parse_string s1 with Some (t, rest) => Some (JStr t, rest) | None => None end
          else
            match expect "null" (Str c s1), expect "true" (Str c s1), expect "false" (Str c s1) with
            | Some rest, _, _ => Some (JNull, rest)
            | _, Some rest, _ => Some (JBool true, rest)
            | _, _, Some rest => Some (JBool false, rest)
            | None, None, None =>
                match parse_number (Str c s1) with
                | Some (n, rest) => Some (JNum n, rest)
                | None => None
                end
            end
      | EmptyString => None
      end
  end.

(** [None]: it throws a [SyntaxError]. *)
Definition JSON_parse (s : string) : option json :=
  match parse_value (S (String.length s)) s with
  | Some (j, rest) => if bool_decide (skip_ws rest = "") then Some j else None
  | None => None
  end.

(** ** Strings *)

Lemma parse_string_quote s rest : parse_string (escape s +:+ Str dq rest) = Some (s, rest).
Proof.
  induction s as [|c s IH]; [done|]. cbn [escape]. rewrite str_app_assoc. revert IH.
  generalize (escape s +:+ Str dq rest) as t. intros t IH.
  transitivity (match parse_string t with Some (u, r) => Some (Str c u, r) | None => None end);
    [|by rewrite IH].
  destruct c as [[] [] [] [] [] [] [] []]; reflexivity.
Qed.

(** ** Numbers *)

Lemma digit_value_char x : (x < 10)%N → digit_value (pretty_N_char x) = Z.of_N x.
Proof.
  intros Hx.
  assert (x = 0 ∨ x = 1 ∨ x = 2 ∨ x = 3 ∨ x = 4 ∨ x = 5 ∨ x = 6 ∨ x = 7 ∨ x = 8 ∨ x = 9)%N as Hc
    by lia.
  naive_solver.
Qed.
Lemma pretty_char_digit x : is_digit (pretty_N_char x) = true.
Proof. unfold pretty_N_char. by repeat case_match. Qed.

Lemma digits_value_pretty_go x s :
  digits_value_go (pretty_N_go x s) 0 = digits_value_go s (Z.of_N x).
Proof.
  revert s. induction (N.lt_wf_0 x) as [x _ IH]; intros s.
  destruct (decide (x = 0)%N) as [->|Hx]; [done|].
  rewrite pretty_N_go_step by lia. rewrite IH by (apply N.div_lt; lia). cbn [digits_value_go].
  rewrite digit_value_char by (apply N.mod_lt; lia). f_equal.
  rewrite (N.div_mod x 10) at 3 by done. lia.
Qed.
Lemma span_pretty_go x s :
  span is_digit (pretty_N_go x s) =
  (pretty_N_go x (span is_digit s).1, (span is_digit s).2).
Proof.
  revert s. induction (N.lt_wf_0 x) as [x _ IH]; intros s.
  destruct (decide (x = 0)%N) as [->|Hx]; [rewrite !pretty_N_go_0; apply surjective_pairing|].
  rewrite (pretty_N_go_step x s), (pretty_N_go_step x (span is_digit s).1) by lia.
  rewrite (IH (x `div` 10)%N) by (apply N.div_lt; lia). cbn [span].
  rewrite pretty_char_digit. by destruct (span is_digit s).
Qed.

(** Not a digit next. *)
Definition ends_number (s : string) : Prop :=
  match s with EmptyString => True | Str c _ => is_digit c = false end.
Lemma span_ends s : ends_number s → span is_digit s = ("", s).
Proof. destruct s as [|c s]; [done|]. cbn. by intros ->. Qed.

Lemma pretty_go_digits x s :
  (0 < x)%N → ∃ c t, pretty_N_go x s = Str c (t +:+ s) ∧ is_digit c = true ∧
    c ≠ "0"%char ∧ str_forallb is_digit t = true.
Proof.
  revert s. induction (N.lt_wf_0 x) as [x _ IH]; intros s Hx. rewrite pretty_N_go_step by done.
  destruct (decide (x `div` 10 = 0)%N) as [E|E].
  - rewrite E, pretty_N_go_0. exists (pretty_N_char (x `mod` 10)), "".
    split_and!; [done|apply pretty_char_digit| |done].
    assert (x < 10)%N by (apply N.div_small_iff in E; lia). rewrite N.mod_small by done.
    assert (x = 1 ∨ x = 2 ∨ x = 3 ∨ x = 4 ∨ x = 5 ∨ x = 6 ∨ x = 7 ∨ x = 8 ∨ x = 9)%N as Hc by lia.
    naive_solver.
  - destruct (IH (x `div` 10)%N ltac:(apply N.div_lt; lia) (Str (pretty_N_char (x `mod` 10)) s))
      as (c&t&Ec&Hc&Hz&Ht); [by apply N.neq_0_lt_0|]. exists c, (t +:+ Str (pretty_N_char (x `mod` 10)) "").
    rewrite Ec, str_app_assoc. split_and!; [done..|]. rewrite str_forallb_app, Ht. cbn.
    by rewrite pretty_char_digit.
Qed.

Lemma parse_digits_pretty x rest :
  ends_number rest → parse_digits (pretty x +:+ rest) = Some (Z.of_N x, rest).
Proof.
  intros Hr. unfold parse_digits, pretty, pretty_N. case_decide as Hx.
  - subst x. cbn [String.app]. change (span is_digit ("0" +:+ rest)) with
      (let '(a, b) := span is_digit rest in (Str "0" a, b)). by rewrite span_ends.
  - destruct (pretty_go_digits x "") as (c&t&E&Hc&Hz&Ht); [lia|].
    assert (pretty_N_go x "" +:+ rest = pretty_N_go x rest) as ->.
    { clear. change rest with ("" +:+ rest) at 2. generalize "" as s. intros s. revert s.
      induction (N.lt_wf_0 x) as [x _ IH]; intros s.
      destruct (decide (x = 0)%N) as [->|Hx]; [done|].
      rewrite (pretty_N_go_step x s), (pretty_N_go_step x (s +:+ rest)) by lia.
      rewrite (IH (x `div` 10)%N) by (apply N.div_lt; lia). done. }
    rewrite span_pretty_go, span_ends by done. cbn [fst snd].
    pose proof (digits_value_pretty_go x "") as Hv. rewrite E in Hv |- *.
    unfold digits_value. rewrite Hv. destruct c as [[] [] [] [] [] [] [] []]; try done.
Qed.

Lemma parse_number_pretty n rest :
  ends_number rest → parse_number (str_of_Z n +:+ rest) = Some (n, rest).
Proof.
  intros Hr. unfold str_of_Z. destruct n as [|p|p].
  - exact (parse_digits_pretty 0 rest Hr).
  - change (pretty (Z.pos p)) with (pretty (N.pos p)).
    pose proof (parse_digits_pretty (N.pos p) rest Hr) as Hp.
    destruct (pretty_go_digits (N.pos p) "") as (c&t&E&Hc&_); [lia|].
    change (pretty (N.pos p)) with (pretty_N_go (N.pos p) "") in *. rewrite E in *.
    unfold parse_number. destruct c as [[] [] [] [] [] [] [] []]; try done.
  - change (pretty (Z.neg p)) with ("-" +:+ pretty (N.pos p)). rewrite str_app_assoc.
    change (parse_number ("-" +:+ (pretty (N.pos p) +:+ rest))) with
      (match parse_digits (pretty (N.pos p) +:+ rest) with
       | Some (n, rest) => Some (- n, rest) | None => None end).
    by rewrite parse_digits_pretty.
Qed.

(** ** The round trip *)

Fixpoint jsize (j : json) : nat :=
  match j with
  | JArr xs => S (sum_list (map (λ x, S (jsize x)) xs))
  | JObj kvs => S (sum_list (map (λ kv, S (jsize kv.2)) kvs))
  | _ => 1
  end.

(** A JavaScript value has each key once. *)
Fixpoint keys_once (j : json) : Prop :=
  match j with
  | JArr xs => foldr (λ x P, keys_once x ∧ P) True xs
  | JObj kvs => NoDup kvs.*1 ∧ foldr (λ kv P, keys_once kv.2 ∧ P) True kvs
  | _ => True
  end.

(** How the text of a value begins. *)
Definition value_start (c : ascii) : bool :=
  negb (is_json_ws c) && bool_decide (c ≠ "]"%char) && bool_decide (c ≠ "}"%char).

Lemma stringify_start j : ∃ c t, stringify j = Str c t ∧ value_start c = true.
Proof.
  destruct j as [|[]|[|p|p]|s|xs|kvs]; try (eexists _, _; split; reflexivity).
  - destruct (pretty_go_digits (N.pos p) "") as (c&t&E&Hc&_); [lia|].
    exists c, (t +:+ ""). split; [exact E|].
    destruct c as [[] [] [] [] [] [] [] []]; done.
Qed.
Lemma skip_ws_start c t : value_start c = true → skip_ws (Str c t) = Str c t.
Proof.
  unfold value_start, skip_ws. cbn [drop_while]. by destruct (is_json_ws c).
Qed.
Lemma skip_ws_stringify j rest :
  skip_ws (stringify j +:+ rest) = stringify j +:+ rest.
Proof.
  destruct (stringify_start j) as (c&t&->&Hc). by apply skip_ws_start.
Qed.

Lemma parse_items_join {A B} (p : string → option (B * string)) (f : A → string) (g : A → B)
    (close : ascii) :
  close ≠ ","%char → is_json_ws close = false →
  ∀ xs fuel rest, xs ≠ [] → (length xs ≤ fuel)%nat →
  (∀ x rest, x ∈ xs → ends_number rest → p (f x +:+ rest) = Some (g x, rest)) →
  is_digit close = false →
  parse_items p close fuel (Js.join "," (map f xs) +:+ Str close rest) = Some (map g xs, rest).
Proof.
  intros Hc Hw. induction xs as [|x xs IH]; intros fuel rest Hne Hf Hp Hd; [done|].
  destruct fuel as [|fuel]; [cbn in Hf; lia|]. cbn [parse_items].
  destruct xs as [|y xs].
  - cbn [map Js.join]. rewrite Hp; [|set_solver|exact Hd]. unfold skip_ws. cbn [drop_while].
    rewrite Hw. cbn iota beta. by rewrite bool_decide_eq_false_2, bool_decide_eq_true_2 by done.
  - change (Js.join "," (map f (x :: y :: xs))) with
      (f x +:+ "," +:+ Js.join "," (map f (y :: xs))).
    rewrite !str_app_assoc, Hp; [|set_solver|reflexivity].
    match goal with |- context [skip_ws ("," +:+ ?t)] => change (skip_ws ("," +:+ t)) with (Str ","%char t) end.
    cbn iota beta. rewrite bool_decide_eq_true_2 by done.
    rewrite IH; [done|done|cbn in *; lia| |done].
    intros z r Hz. apply Hp. set_solver.
Qed.

Lemma object_of_once kvs : NoDup kvs.*1 → object_of kvs = kvs.
Proof.
  assert (put : ∀ (l : list (string * json)) k v, k ∉ l.*1 → put_key k v l = l ++ [(k, v)]).
  { induction l as [|[k' v'] l IH]; intros k v Hk; [done|]. cbn in *.
    rewrite bool_decide_eq_false_2 by set_solver. by rewrite IH by set_solver. }
  unfold object_of. intros Hn.
  assert (∀ l, NoDup (l ++ kvs).*1 → foldl (λ o kv, put_key kv.1 kv.2 o) l kvs = l ++ kvs) as H.
  { clear Hn. induction kvs as [|[k v] kvs IH]; intros l Hl; [by rewrite app_nil_r|].
    cbn. rewrite put.
    - rewrite IH; rewrite <- app_assoc; done.
    - rewrite fmap_app in Hl. apply NoDup_app in Hl as (_&Hl&_). intros Hk. apply (Hl k Hk).
      cbn. set_solver. }
  by rewrite (H []).
Qed.

Lemma value_case fuel c t :
  value_start c = true → c ≠ "["%char → c ≠ "{"%char → c ≠ dq →
  (∀ w, w ∈ ["null"; "true"; "false"] → starts_with w (Str c t) = false) →
  parse_value (S fuel) (Str c t) =
  match parse_number (Str c t) with Some (n, rest) => Some (JNum n, rest) | None => None end.
Proof.
  intros Hv H1 H2 H3 Hw. cbn [parse_value].
  rewrite skip_ws_start by done.
  unfold expect. rewrite !Hw by set_solver.
  destruct c as [[] [] [] [] [] [] [] []]; done.
Qed.

Lemma number_text n :
  ∃ c t, str_of_Z n = Str c t ∧ (is_digit c = true ∨ c = "-"%char).
Proof.
  destruct n as [|p|p]; [by eexists _, _; split; [reflexivity|left]| |by eexists _, _; split; [reflexivity|right]].
  destruct (pretty_go_digits (N.pos p) "") as (c&t&E&Hc&_); [lia|].
  exists c, (t +:+ ""). split; [exact E|by left].
Qed.
Lemma parse_value_num fuel n rest :
  ends_number rest → parse_value (S fuel) (stringify (JNum n) +:+ rest) = Some (JNum n, rest).
Proof.
  intros Hr. cbn [stringify]. pose proof (parse_number_pretty n rest Hr) as Hp.
  destruct (number_text n) as (c&t&E&Hc). rewrite E in *.
  change (Str c t +:+ rest) with (Str c (t +:+ rest)) in *.
  rewrite value_case; [by rewrite Hp|..];
    destruct c as [[] [] [] [] [] [] [] []]; destruct Hc as [Hc|Hc];
    discriminate Hc || (try done; intros w Hw; set_unfold in Hw; naive_solver).
Qed.

Lemma value_start_bracket c : value_start c = true → c ≠ "]"%char ∧ c ≠ "}"%char.
Proof.
  unfold value_start. rewrite !andb_true_iff, !bool_decide_eq_true. tauto.
Qed.

(** An array and an object that are not empty. *)
Lemma parse_value_arr fuel c t :
  value_start c = true →
  parse_value (S fuel) ("[" +:+ Str c t) =
  match parse_items (parse_value fuel) "]" fuel (Str c t) with
  | Some (xs, rest) => Some (JArr xs, rest)
  | None => None
  end.
Proof.
  intros Hc. pose proof (skip_ws_start c t Hc) as Hs. destruct (value_start_bracket c Hc) as [Hb _].
  change (parse_value (S fuel) ("[" +:+ Str c t)) with
    (match skip_ws (Str c t) with
     | Str "]" s2 => Some (JArr [], s2)
     | _ => match parse_items (parse_value fuel) "]" fuel (Str c t) with
            | Some (xs, rest) => Some (JArr xs, rest)
            | None => None
            end
     end).
  rewrite Hs. clear Hs Hc. destruct c as [[] [] [] [] [] [] [] []]; done.
Qed.
Lemma parse_value_obj fuel t :
  parse_value (S fuel) ("{" +:+ Str dq t) =
  match parse_items (parse_member (parse_value fuel)) "}" fuel (Str dq t) with
  | Some (kvs, rest) => Some (JObj (object_of kvs), rest)
  | None => None
  end.
Proof. reflexivity. Qed.

Definition member_text (kv : string * json) : string := quote kv.1 +:+ ":" +:+ stringify kv.2.
Lemma parse_member_text p kv rest :
  p (stringify kv.2 +:+ rest) = Some (kv.2, rest) →
  parse_member p (member_text kv +:+ rest) = Some (kv, rest).
Proof.
  intros Hp. destruct kv as [k v]. unfold member_text, quote. cbn [fst snd] in *.
  assert ((Str dq (escape k +:+ Str dq "") +:+ ":" +:+ stringify v) +:+ rest =
          Str dq (escape k +:+ Str dq (":" +:+ (stringify v +:+ rest)))) as ->.
  { rewrite str_app_assoc.
    change (Str dq ((escape k +:+ Str dq "") +:+ ((":" +:+ stringify v) +:+ rest)) =
            Str dq (escape k +:+ Str dq (":" +:+ (stringify v +:+ rest)))).
    rewrite !str_app_assoc. reflexivity. }
  unfold parse_member.
  match goal with |- context [skip_ws (Str dq ?s)] => change (skip_ws (Str dq s)) with (Str dq s) end.
  cbn iota beta. rewrite bool_decide_eq_true_2, parse_string_quote by done.
  match goal with |- context [skip_ws (":" +:+ ?s)] => change (skip_ws (":" +:+ s)) with (Str ":"%char s) end.
  cbn iota beta. by rewrite Hp.
Qed.

Lemma foldr_and {A} (P : A → Prop) xs : foldr (λ x Q, P x ∧ Q) True xs → ∀ x, x ∈ xs → P x.
Proof.
  induction xs as [|y xs IH]; cbn; intros Hx x; [set_solver|]. destruct Hx.
  rewrite elem_of_cons. intros [->|?]; auto.
Qed.
Lemma sum_list_part {A} (f : A → nat) xs x : x ∈ xs → (f x ≤ sum_list (map f xs))%nat.
Proof.
  induction xs as [|y xs IH]; cbn; [set_solver|]. rewrite elem_of_cons.
  intros [->|Hx]; [lia|]. specialize (IH Hx). lia.
Qed.
Lemma sum_list_length {A} (f : A → nat) xs : (length xs ≤ sum_list (map (λ x, S (f x)) xs))%nat.
Proof. induction xs as [|y xs IH]; cbn; lia. Qed.

Lemma join_start {A} (f : A → string) x xs c t :
  f x = Str c t → ∃ t', Js.join "," (map f (x :: xs)) = Str c t'.
Proof. intros E. cbn [map Js.join]. rewrite E. destruct (map f xs); by eexists. Qed.

Lemma parse_stringify fuel j rest :
  keys_once j → (jsize j ≤ fuel)%nat → ends_number rest →
  parse_value fuel (stringify j +:+ rest) = Some (j, rest).
Proof.
  revert j rest. induction fuel as [|fuel IH]; intros j rest Hk Hs Hr; [destruct j; cbn in Hs; lia|].
  destruct j as [|[]|n|s|xs|kvs]; [reflexivity..| | | |].
  - by apply parse_value_num.
  - cbn [stringify]. unfold quote.
    change (Str dq (escape s +:+ Str dq "") +:+ rest) with
      (Str dq ((escape s +:+ Str dq "") +:+ rest)). rewrite str_app_assoc.
    change (Str dq "" +:+ rest) with (Str dq rest).
    change (match parse_string (escape s +:+ Str dq rest) with
            | Some (t, rest) => Some (JStr t, rest) | None => None end = Some (JStr s, rest)).
    by rewrite parse_string_quote.
  - destruct xs as [|x xs]; [reflexivity|]. cbn [keys_once jsize] in Hk, Hs.
    pose proof (parse_items_join (parse_value fuel) stringify (λ x, x) "]" ltac:(done) ltac:(done)
      (x :: xs) fuel rest ltac:(done)) as Hi.
    destruct (stringify_start x) as (c&t&Ec&Hc).
    destruct (join_start stringify x xs c t Ec) as [t' Ej].
    assert (stringify (JArr (x :: xs)) +:+ rest =
            "[" +:+ (Js.join "," (map stringify (x :: xs)) +:+ Str "]" rest)) as Et
      by (cbn [stringify]; by rewrite !str_app_assoc).
    rewrite Ej in Et, Hi. change (Str c t' +:+ ?s) with (Str c (t' +:+ s)) in Et, Hi.
    rewrite Et, parse_value_arr, Hi, map_id; [done|..].
    + pose proof (sum_list_length jsize (x :: xs)). lia.
    + intros y r Hy Hr'. apply IH; [|pose proof (sum_list_part (λ x, S (jsize x)) _ _ Hy) as Hp; cbn beta in Hp; lia|done].
      by eapply foldr_and in Hk.
    + done.
    + done.
  - destruct kvs as [|[k v] kvs]; [reflexivity|]. destruct Hk as [Hn Hk]. cbn [jsize] in Hs.
    pose proof (parse_items_join (parse_member (parse_value fuel)) member_text (λ kv, kv) "}"
      ltac:(done) ltac:(done) ((k, v) :: kvs) fuel rest ltac:(done)) as Hi.
    destruct (join_start member_text (k, v) kvs dq _ eq_refl) as [t' Ej].
    assert (stringify (JObj ((k, v) :: kvs)) +:+ rest =
            "{" +:+ (Js.join "," (map member_text ((k, v) :: kvs)) +:+ Str "}" rest)) as Et
      by (cbn [stringify]; fold (map member_text kvs); by rewrite !str_app_assoc).
    rewrite Ej in Et, Hi. change (Str dq t' +:+ ?s) with (Str dq (t' +:+ s)) in Et, Hi.
    rewrite Et, parse_value_obj, Hi, map_id; [by rewrite object_of_once|..].
    + pose proof (sum_list_length (λ kv : string * json, jsize kv.2) ((k, v) :: kvs)). lia.
    + intros y r Hy Hr'. pose proof (sum_list_part (λ kv : string * json, S (jsize kv.2)) _ _ Hy) as Hp. cbn beta in Hp.
      apply parse_member_text, IH; [|lia|done].
      by eapply (foldr_and (λ kv : string * json, keys_once kv.2)) in Hk.
    + done.
Qed.

Lemma stringify_length j : (jsize j ≤ String.length (stringify j))%nat.
Proof.
  assert (Hj : ∀ {A} (f : A → string) (n : A → nat) xs,
    (∀ x, x ∈ xs → n x ≤ String.length (f x))%nat →
    (sum_list (map (λ x, S (n x)) xs) ≤ S (String.length (Js.join "," (map f xs))))%nat).
  { intros A f n xs Hx. induction xs as [|x xs IH]; [cbn; lia|].
    assert (n x ≤ String.length (f x))%nat by (apply Hx; set_solver).
    assert (∀ y, y ∈ xs → n y ≤ String.length (f y))%nat as Hx' by (intros; apply Hx; set_solver).
    specialize (IH Hx'). destruct xs as [|y xs]; [cbn; lia|].
    change (Js.join "," (map f (x :: y :: xs))) with (f x +:+ "," +:+ Js.join "," (map f (y :: xs))).
    revert IH. generalize (y :: xs) as ys. intros ys IH. rewrite !str_app_length.
    change (String.length ",") with 1%nat.
    change (S (n x) + sum_list (map (λ x, S (n x)) ys) ≤
      S (String.length (f x) + (1 + String.length (Js.join "," (map f ys)))))%nat. lia. }
  induction j as [j IH] using (induction_ltof1 _ jsize). unfold ltof in IH.
  destruct j as [|[]|n|s|xs|kvs]; try (cbn; lia).
  - cbn [stringify jsize]. destruct (number_text n) as (c&t&->&_). cbn. lia.
  - cbn [stringify jsize]. rewrite !str_app_length. change (String.length "[") with 1%nat.
    change (String.length "]") with 1%nat.
    assert (sum_list (map (λ x, S (jsize x)) xs) ≤
            S (String.length (Js.join "," (map stringify xs))))%nat; [|lia].
    apply (Hj _ stringify jsize). intros x Hx. apply IH. cbn [jsize].
    pose proof (sum_list_part (λ x, S (jsize x)) _ _ Hx) as Hp. cbn beta in Hp. lia.
  - cbn [stringify jsize]. rewrite !str_app_length. change (String.length "{") with 1%nat.
    change (String.length "}") with 1%nat.
    assert (sum_list (map (λ kv : string * json, S (jsize kv.2)) kvs) ≤
            S (String.length (Js.join "," (map member_text kvs))))%nat as H.
    { apply (Hj _ member_text (λ kv, jsize kv.2)). intros x Hx. unfold member_text.
      rewrite !str_app_length.
      assert (jsize x.2 ≤ String.length (stringify x.2))%nat; [|lia]. apply IH. cbn [jsize].
      pose proof (sum_list_part (λ kv : string * json, S (jsize kv.2)) _ _ Hx) as Hp.
      cbn beta in Hp. lia. }
    unfold member_text in H. lia.
Qed.

(** What is printed reads back as the same value. *)
Lemma json_roundtrip j : keys_once j → JSON_parse (stringify j) = Some j.
Proof.
  intros Hk. unfold JSON_parse. pose proof (stringify_length j).
  rewrite <- (str_app_nil_r (stringify j)) at 2. rewrite parse_stringify by (done || lia). done.
Qed.
Lemma stringify_inj j k : keys_once j → keys_once k → stringify j = stringify k → j = k.
Proof. intros Hj Hk E. apply (inj Some). by rewrite <- (json_roundtrip j), <- (json_roundtrip k), E. Qed.

(** * Numbers in texts

    [Number(s)] and [parseInt(s, 10)]. Values are exact decimal fractions or
    integers, which the numbers of JavaScript are up to fifteen digits. *)

From S2P Require Import Prelude Js.

Open Scope Z_scope.

(** [m * 10 ^ e] *)
Record decimal := { dc_mantissa : Z; dc_exponent : Z }.
Definition decimal_is (x : decimal) (n : Z) : bool :=
  if 0 <=? dc_exponent x then dc_mantissa x * 10 ^ dc_exponent x =? n
  else dc_mantissa x =? n * 10 ^ (- dc_exponent x).

(** A sign, or none, and what follows. *)
Definition sign (s : string) : Z * string :=
  match s with
  | Str "+" s => (1, s)
  | Str "-" s => (-1, s)
  | _ => (1, s)
  end.
(** All of the text is digits, one at least. *)
Definition all_digits (s : string) : option Z :=
  if truthy s && str_forallb is_digit s then Some (digits_value s) else None.
Definition exponent (s : string) : option Z :=
  match s with
  | EmptyString => Some 0
  | Str c s =>
      if bool_decide (c = "e"%char) || bool_decide (c = "E"%char) then
        let '(sg, ds) := sign s in Z.mul sg <$> all_digits ds
      else None
  end.
Definition unsigned_decimal (s : string) : option decimal :=
  let '(whole, rest) := span is_digit s in
  let '(fraction, rest) :=
    match rest with Str "." rest => span is_digit rest | _ => (EmptyString, rest) end in
  if truthy (whole +:+ fraction) then
    (λ e, {| dc_mantissa := digits_value (whole +:+ fraction);
             dc_exponent := e - Z.of_nat (String.length fraction) |}) <$> exponent rest
  else None.

(** Digits of another base after [0x], [0o] and [0b]. *)
Definition digit_in (base : Z) (c : ascii) : option Z :=
  let n := Z.of_nat (nat_of_ascii (lower_char c)) in
  let v := if is_digit c then n - 48 else if (97 <=? n) && (n <=? 102) then n - 87 else 99 in
  if v <? base then Some v else None.
Fixpoint digits_in (base acc : Z) (s : string) : option Z :=
  match s with
  | EmptyString => Some acc
  | Str c s => match digit_in base c with Some v => digits_in base (acc * base + v) s | None => None end
  end.
Definition based (base : Z) (s : string) : option decimal :=
  if truthy s then (λ n, {| dc_mantissa := n; dc_exponent := 0 |}) <$> digits_in base 0 s else None.

(** [Number(s)]; [None]: [NaN] or infinite. *)
Definition Number (s : string) : option decimal :=
  let s := trim s in
  if bool_decide (s = "") then Some {| dc_mantissa := 0; dc_exponent := 0 |}
  else match s with
  | Str "0" (Str c rest) =>
      match lower_char c with
      | "x"%char => based 16 rest
      | "o"%char => based 8 rest
      | "b"%char => based 2 rest
      | _ => unsigned_decimal s
      end
  | _ =>
      let '(sg, rest) := sign s in
      (λ x, {| dc_mantissa := sg * dc_mantissa x; dc_exponent := dc_exponent x |})
        <$> unsigned_decimal rest
  end.

(** [parseInt(s, 10)]: the digits at the start, after white space and a sign;
    [None]: [NaN]. *)
Definition parseInt (s : string) : option Z :=
  let '(sg, rest) := sign (drop_while is_ws s) in
  let ds := (span is_digit rest).1 in
  if truthy ds then Some (sg * digits_value ds) else None.

Example Number_forms :
  map (λ s, from_option (λ x, decimal_is x 3) false (Number s))
    ["3"; " 3 "; "03"; "3."; "3.0"; "0x3"; "0B11"; "30e-1"; "+3"; ".3e1"; "3a"; ""; "-3"; "0x"; "3 3"] =
  [true; true; true; true; true; true; true; true; true; true; false; false; false; false; false].
Proof. reflexivity. Qed.
Example parseInt_forms :
  map parseInt ["12"; " 12abc"; "-3"; "1e5"; "0x1F"; "abc"; ""] =
  [Some 12; Some 12; Some (-3); Some 1; Some 0; None; None].
Proof. reflexivity. Qed.
