(* ===== verification/JsDate.v ===== *)
(** * Dates of JavaScript

    A [Date] is its number of milliseconds since 1970. [toISOString], [new Date(text)]
    for the texts of the ECMAScript date-time format, and the round trip. A text
    without a time zone is read in the zone of the server, which is UTC. Other
    texts, which an engine may read in its own way, do not parse. *)

From S2P Require Import Prelude Js Json.

Open Scope Z_scope.

(** ** The calendar *)

Definition DAY_MS : Z := 86400000.

(** The day number of a date of the proleptic Gregorian calendar; days and months
    count from 1. *)
Definition days_from_civil (y m d : Z) : Z :=
  let y' := if m <=? 2 then y - 1 else y in
  let era := y' / 400 in
  let yoe := y' - era * 400 in
  let mp := if 2 <? m then m - 3 else m + 9 in
  let doy := (153 * mp + 2) / 5 + d - 1 in
  let doe := yoe * 365 + yoe / 4 - yoe / 100 + doy in
  era * 146097 + doe - 719468.

(** Within 400 years: the year that starts in March, the month from March and the
    day. The last century and the last year of four are a day longer. *)
Definition civil_of_era (doe : Z) : Z * Z * Z :=
  let c := Z.min (doe / 36524) 3 in
  let r := doe - 36524 * c in
  let q := r / 1461 in
  let s := r - 1461 * q in
  let a := Z.min (s / 365) 3 in
  let doy := s - 365 * a in
  let mp := (5 * doy + 2) / 153 in
  (100 * c + 4 * q + a, mp, doy - (153 * mp + 2) / 5 + 1).
Definition civil_from_days (n : Z) : Z * Z * Z :=
  let z := n + 719468 in
  let era := z / 146097 in
  let '(yoe, mp, d) := civil_of_era (z mod 146097) in
  let m := if mp <? 10 then mp + 3 else mp - 9 in
  (yoe + era * 400 + (if m <=? 2 then 1 else 0), m, d).

(** [Date.UTC(y, m - 1, d)]: the years 0 to 99 are those of the twentieth century, months
    and days run over. *)
Definition Date_UTC (y m d : Z) : Z :=
  let y := if (0 <=? y) && (y <=? 99) then 1900 + y else y in
  (days_from_civil (y + (m - 1) / 12) ((m - 1) mod 12 + 1) 1 + d - 1) * DAY_MS.
(** [getUTCFullYear()], [getUTCMonth() + 1], [getUTCDate()] *)
Definition utc_date (t : Z) : Z * Z * Z := civil_from_days (t / DAY_MS).

(** ** Printing *)

Definition digit_char (x : Z) : ascii := ascii_of_nat (Z.to_nat (48 + x)).
(** [n] digits. *)
Fixpoint pad_go (n : nat) (x : Z) (s : string) : string :=
  match n with
  | O => s
  | S n => pad_go n (x / 10) (Str (digit_char (x mod 10)) s)
  end.
Definition pad (n : nat) (x : Z) : string := pad_go n x "".

(** The time of the day. *)
Definition clock_text (ms : Z) : string :=
  pad 2 (ms / 3600000) +:+ ":" +:+ pad 2 (ms / 60000 mod 60) +:+ ":" +:+
  pad 2 (ms / 1000 mod 60) +:+ "." +:+ pad 3 (ms mod 1000) +:+ "Z".
Definition year_text (y : Z) : string :=
  if (0 <=? y) && (y <=? 9999) then pad 4 y
  else if y <? 0 then "-" +:+ pad 6 (- y) else "+" +:+ pad 6 y.
Definition toISOString (t : Z) : string :=
  let '(y, m, d) := civil_from_days (t / DAY_MS) in
  year_text y +:+ "-" +:+ pad 2 m +:+ "-" +:+ pad 2 d +:+ "T" +:+ clock_text (t mod DAY_MS).

(** ** Parsing *)

(** Exactly [n] digits. *)
Fixpoint digits_n (n : nat) (acc : Z) (s : string) : option (Z * string) :=
  match n, s with
  | O, _ => Some (acc, s)
  | S n, Str c s => if is_digit c then digits_n n (10 * acc + digit_value c) s else None
  | S _, EmptyString => None
  end.
(** A field after the character [c]. *)
Definition field (c : ascii) (n : nat) (lo hi : Z) (s : string) : option (Z * string) :=
  match s with
  | Str c' s =>
      if bool_decide (c' = c) then
        match digits_n n 0 s with
        | Some (x, rest) => if (lo <=? x) && (x <=? hi) then Some (x, rest) else None
        | None => None
        end
      else None
  | EmptyString => None
  end.
(** A field that may be left out. *)
Definition opt_field (c : ascii) (n : nat) (lo hi default : Z) (s : string) : option (Z * string) :=
  match s with
  | Str c' _ => if bool_decide (c' = c) then field c n lo hi s else Some (default, s)
  | EmptyString => Some (default, s)
  end.

(** The first three digits of a fraction count. *)
Definition fraction (s : string) : option (Z * string) :=
  match s with
  | Str "." s =>
      let '(ds, rest) := span is_digit s in
      if bool_decide (ds = "") then None
      else Some (digits_value (str_take 3 (ds +:+ "00")), rest)
  | _ => Some (0, s)
  end.
(** The offset of a time zone in milliseconds; it ends the text. *)
Definition zone (s : string) : option Z :=
  match s with
  | "" | "Z" => Some 0
  | Str c s1 =>
      match field c 2 0 23 (Str c s1) with
      | Some (h, s2) =>
          match field ":" 2 0 59 s2 with
          | Some (mi, "") =>
              let ms := (h * 60 + mi) * 60000 in
              if bool_decide (c = "+"%char) then Some ms
              else if bool_decide (c = "-"%char) then Some (- ms) else None
          | _ => None
          end
      | None => None
      end
  end.

(** After the [T]: the milliseconds since midnight UTC. *)
Definition parse_clock (s : string) : option Z :=
  h ← field "T" 2 0 24 s;
  mi ← field ":" 2 0 59 h.2;
  sec ← opt_field ":" 2 0 59 0 mi.2;
  frac ← fraction sec.2;
  off ← zone frac.2;
  let ms := ((h.1 * 60 + mi.1) * 60 + sec.1) * 1000 + frac.1 in
  if ms <=? DAY_MS then Some (ms - off) else None.

Definition parse_year (s : string) : option (Z * string) :=
  match s with
  | Str "+" s => digits_n 6 0 s
  | Str "-" s => match digits_n 6 0 s with
                 | Some (y, rest) => if y =? 0 then None else Some (- y, rest)
                 | None => None
                 end
  | _ => digits_n 4 0 s
  end.

(** The times a [Date] can have. *)
Definition is_time (t : Z) : bool := (-8640000000000000 <=? t) && (t <=? 8640000000000000).

(** [new Date(s).getTime()]; [None] is [NaN]. Days up to 31 are taken in every
    month and run over into the next. *)
Definition Date_parse (s : string) : option Z :=
  y ← parse_year s;
  m ← opt_field "-" 2 1 12 1 y.2;
  d ← opt_field "-" 2 1 31 1 m.2;
  ms ← (if bool_decide (d.2 = "") then Some 0 else parse_clock d.2);
  let t := days_from_civil y.1 m.1 d.1 * DAY_MS + ms in
  if is_time t then Some t else None.

(** ** The calendar, back and forth *)

(** Division by constants. *)
Ltac div_lia := Z.to_euclidean_division_equations; lia.

Lemma civil_of_era_spec doe :
  0 <= doe < 146097 →
  let '(yoe, mp, d) := civil_of_era doe in
  0 <= yoe < 400 ∧ 0 <= mp < 12 ∧ 1 <= d <= 31 ∧ (146037 <= doe ↔ yoe = 399 ∧ 10 <= mp) ∧
  yoe * 365 + yoe / 4 - yoe / 100 + ((153 * mp + 2) / 5 + d - 1) = doe.
Proof.
  intros Hd. unfold civil_of_era. cbv zeta.
  set (c := Z.min (doe / 36524) 3). set (r := doe - 36524 * c). set (q := r / 1461).
  set (s := r - 1461 * q). set (a := Z.min (s / 365) 3). set (doy := s - 365 * a).
  assert (0 <= c <= 3 ∧ 0 <= r <= 36524 ∧ (c < 3 → r < 36524)) as (Hc&Hr&Hr')
    by (unfold r, c; div_lia).
  assert (0 <= q <= 24 ∧ 0 <= s <= 1460) as (Hq&Hs) by (unfold s, q; div_lia).
  assert (0 <= a <= 3 ∧ 0 <= doy <= 365) as (Ha&Hdoy) by (unfold doy, a; div_lia).
  assert ((100 * c + 4 * q + a) / 4 = 25 * c + q) as -> by div_lia.
  assert ((100 * c + 4 * q + a) / 100 = c) as -> by div_lia.
  assert (146037 <= doe ↔ c = 3 ∧ q = 24 ∧ a = 3 ∧ 306 <= doy) as He
    by (unfold doy, a, s, q, r, c in *; div_lia).
  assert (doe = 36524 * c + 1461 * q + 365 * a + doy) as E by (unfold doy, s, r; div_lia).
  clearbody c q a doy. split_and!; div_lia.
Qed.

(** The month from March and the month; the year that starts in March and the year. *)
Definition month_of (mp : Z) : Z := if mp <? 10 then mp + 3 else mp - 9.
Lemma month_back mp :
  0 <= mp < 12 → 1 <= month_of mp <= 12 ∧
    (if 2 <? month_of mp then month_of mp - 3 else month_of mp + 9) = mp ∧
    (month_of mp <=? 2) = (10 <=? mp).
Proof. unfold month_of. intros Hm. destruct (Z.ltb_spec mp 10), (Z.leb_spec 10 mp); try lia.
  - destruct (Z.ltb_spec 2 (mp + 3)), (Z.leb_spec (mp + 3) 2); lia.
  - destruct (Z.ltb_spec 2 (mp - 9)), (Z.leb_spec (mp - 9) 2); lia.
Qed.

Lemma civil_roundtrip n :
  let '(y, m, d) := civil_from_days n in
  days_from_civil y m d = n ∧ 1 <= m <= 12 ∧ 1 <= d <= 31 ∧
  (-719528 <= n <= 2932896 → 0 <= y <= 9999).
Proof.
  unfold civil_from_days. set (z := n + 719468).
  pose proof (Z.mod_pos_bound z 146097 ltac:(lia)) as Hm.
  pose proof (civil_of_era_spec _ Hm) as Ho.
  pose proof (Z.div_mod z 146097 ltac:(lia)) as Hz.
  destruct (civil_of_era (z mod 146097)) as [[yoe mp] d] eqn:Ec.
  destruct Ho as (Hy&Hp&Hd&Hedge&Hdoe). fold (month_of mp).
  destruct (month_back mp Hp) as (Hmo&Hback&Hjan). rewrite Hjan.
  split_and!; try lia; [|destruct (Z.leb_spec 10 mp); lia].
  unfold days_from_civil. rewrite Hjan, Hback.
  assert ((if 10 <=? mp then yoe + z / 146097 * 400 + (if 10 <=? mp then 1 else 0) - 1
           else yoe + z / 146097 * 400 + (if 10 <=? mp then 1 else 0)) = yoe + z / 146097 * 400) as ->
    by (destruct (10 <=? mp); lia).
  rewrite Z.div_add, (Z.div_small yoe 400) by lia.
  replace (yoe + z / 146097 * 400 - (0 + z / 146097) * 400) with yoe by lia.
  lia.
Qed.

(** ** The dates of the calendar *)

Definition leap_year (y : Z) : bool :=
  (y mod 4 =? 0) && (negb (y mod 100 =? 0) || (y mod 400 =? 0)).
Definition days_in_month (y m : Z) : Z :=
  if m =? 2 then (if leap_year y then 29 else 28)
  else if (m =? 4) || (m =? 6) || (m =? 9) || (m =? 11) then 30 else 31.
Definition calendar_date (y m d : Z) : Prop := 1 <= m <= 12 ∧ 1 <= d <= days_in_month y m.

Lemma days_split y m d :
  days_from_civil y m d =
    let y' := if m <=? 2 then y - 1 else y in
    let mp := if 2 <? m then m - 3 else m + 9 in
    y' / 400 * 146097 + 36524 * (y' mod 400 / 100) + 1461 * (y' mod 100 / 4) + 365 * (y' mod 4)
      + ((153 * mp + 2) / 5 + d - 1) - 719468.
Proof.
  unfold days_from_civil. cbv zeta. set (y' := if m <=? 2 then y - 1 else y). clearbody y'.
  generalize ((153 * (if 2 <? m then m - 3 else m + 9) + 2) / 5). intros x.
  div_lia.
Qed.

Lemma era_back c q a doy :
  0 <= c <= 3 → 0 <= q <= 24 → 0 <= a <= 3 → 0 <= doy <= 365 →
  (doy = 365 → a = 3 ∧ (q = 24 → c = 3)) →
  civil_of_era (36524 * c + 1461 * q + 365 * a + doy) =
  (100 * c + 4 * q + a, (5 * doy + 2) / 153, doy - (153 * ((5 * doy + 2) / 153) + 2) / 5 + 1) ∧
  0 <= 36524 * c + 1461 * q + 365 * a + doy < 146097.
Proof.
  intros Hc Hq Ha Hd Hl. unfold civil_of_era. cbv zeta.
  set (doe := 36524 * c + 1461 * q + 365 * a + doy).
  assert (Z.min (doe / 36524) 3 = c) as -> by (unfold doe; div_lia).
  assert ((doe - 36524 * c) / 1461 = q) as -> by (unfold doe; div_lia).
  assert (Z.min ((doe - 36524 * c - 1461 * q) / 365) 3 = a) as -> by (unfold doe; div_lia).
  replace (doe - 36524 * c - 1461 * q - 365 * a) with doy by (unfold doe; lia).
  split; [done|unfold doe; lia].
Qed.

Lemma civil_of_date y m d : calendar_date y m d → civil_from_days (days_from_civil y m d) = (y, m, d).
Proof.
  intros [Hm Hd]. rewrite days_split. cbv zeta.
  set (y' := if m <=? 2 then y - 1 else y). set (mp := if 2 <? m then m - 3 else m + 9).
  set (doy := (153 * mp + 2) / 5 + d - 1).
  assert (0 <= mp <= 11) as Hmp by (unfold mp; case_match; lia).
  assert (0 <= doy <= 365 ∧ (doy = 365 → leap_year y = true ∧ y' = y - 1) ∧ (5 * doy + 2) / 153 = mp)
    as (Hdoy&Hleap&Hback).
  { unfold days_in_month in Hd. unfold doy, mp, y'.
    assert (m = 1 ∨ m = 2 ∨ m = 3 ∨ m = 4 ∨ m = 5 ∨ m = 6 ∨ m = 7 ∨ m = 8 ∨ m = 9 ∨ m = 10 ∨
            m = 11 ∨ m = 12) as Hcases by lia.
    repeat (destruct Hcases as [->|Hcases]; [cbn in *; try destruct (leap_year y); split_and!; try lia; div_lia|]).
    subst m. cbn in *. split_and!; try lia; div_lia. }
  destruct (era_back (y' mod 400 / 100) (y' mod 100 / 4) (y' mod 4) doy) as [He Hb]; [div_lia..|lia| |].
  { intros H365. destruct (Hleap H365) as [Hl ->]. unfold leap_year in Hl. clear -Hl.
    apply andb_prop in Hl as [H4%Z.eqb_eq Hl]. apply orb_prop in Hl.
    rewrite negb_true_iff, Z.eqb_neq, Z.eqb_eq in Hl. destruct Hl; div_lia. }
  unfold civil_from_days.
  set (doe := 36524 * (y' mod 400 / 100) + 1461 * (y' mod 100 / 4) + 365 * (y' mod 4) + doy) in *.
  replace (y' / 400 * 146097 + 36524 * (y' mod 400 / 100) + 1461 * (y' mod 100 / 4)
    + 365 * (y' mod 4) + doy - 719468 + 719468) with (doe + y' / 400 * 146097) by (unfold doe; lia).
  rewrite Z.div_add, Z.mod_add, (Z.div_small doe), (Z.mod_small doe) by lia. rewrite He, Hback.
  assert (100 * (y' mod 400 / 100) + 4 * (y' mod 100 / 4) + y' mod 4 = y' mod 400) as -> by div_lia.
  assert (y' mod 400 + (0 + y' / 400) * 400 = y') as -> by div_lia.
  assert ((if mp <? 10 then mp + 3 else mp - 9) = m) as ->.
  { unfold mp. destruct (Z.ltb_spec 2 m).
    - destruct (Z.ltb_spec (m - 3) 10); lia.
    - destruct (Z.ltb_spec (m + 9) 10); lia. }
  unfold doy, y'. destruct (m <=? 2); do 2 f_equal; lia.
Qed.

(** The comparisons with a month that is known. *)
Ltac month_tac :=
  cbn [Z.eqb Z.leb Z.ltb Z.compare Pos.compare Pos.compare_cont Pos.eqb orb negb andb];
  repeat match goal with
  | |- context [?a <=? ?b] => destruct (Z.leb_spec a b); try lia
  | |- context [?a <? ?b] => destruct (Z.ltb_spec a b); try lia
  | |- context [?a =? ?b] => destruct (Z.eqb_spec a b); try lia
  end; cbn [orb negb andb]; div_lia.
(** The day after the last of a month is the first of the next. *)
Lemma next_month y m d :
  1 <= m <= 12 → days_from_civil y m (days_in_month y m + d) =
    if m =? 12 then days_from_civil (y + 1) 1 d else days_from_civil y (m + 1) d.
Proof.
  intros Hm. rewrite !days_split. unfold days_in_month, leap_year. cbv zeta.
  assert (m = 1 ∨ m = 2 ∨ m = 3 ∨ m = 4 ∨ m = 5 ∨ m = 6 ∨ m = 7 ∨ m = 8 ∨ m = 9 ∨ m = 10 ∨
          m = 11 ∨ m = 12) as Hcases by lia.
  replace (y + 1 - 1) with y by lia.
  repeat (destruct Hcases as [->|Hcases]; [month_tac|]). subst m. month_tac.
Qed.

Lemma days_in_month_bounds y m : 28 <= days_in_month y m <= 31.
Proof. unfold days_in_month. repeat case_match; lia. Qed.

Lemma civil_dates n y m d : civil_from_days n = (y, m, d) → calendar_date y m d ∧ days_from_civil y m d = n.
Proof.
  intros E. pose proof (civil_roundtrip n) as Hr. rewrite E in Hr. destruct Hr as (Hn&Hm&Hd&_).
  split; [|done]. split; [done|]. split; [lia|].
  destruct (Z.le_gt_cases d (days_in_month y m)) as [|Hgt]; [done|exfalso].
  pose proof (days_in_month_bounds y m) as Hb.
  replace d with (days_in_month y m + (d - days_in_month y m)) in Hn by lia.
  rewrite next_month in Hn by done.
  assert (∀ y' m', 1 <= m' <= 12 → calendar_date y' m' (d - days_in_month y m)) as Hc.
  { intros y' m' Hm'. pose proof (days_in_month_bounds y' m'). split; [done|lia]. }
  destruct (Z.eqb_spec m 12) as [->|Hne].
  - pose proof (civil_of_date _ _ _ (Hc (y + 1) 1 ltac:(lia))) as Hv. rewrite Hn, E in Hv. simplify_eq; lia.
  - pose proof (civil_of_date _ _ _ (Hc y (m + 1) ltac:(lia))) as Hv. rewrite Hn, E in Hv. simplify_eq; lia.
Qed.

Lemma days_in_range y m d :
  0 <= y <= 9999 → calendar_date y m d → -719528 <= days_from_civil y m d <= 2932896.
Proof.
  intros Hy [Hm Hd].
  pose proof (days_in_month_bounds y m).
  rewrite days_split. cbv zeta.
  set (mp := if 2 <? m then m - 3 else m + 9). set (y' := if m <=? 2 then y - 1 else y).
  assert (0 <= mp <= 11 ∧ y - 1 <= y' <= y ∧ (y' = y - 1 → 10 <= mp) ∧ (10 <= mp → y' = y - 1)) as (?&?&?&?).
  { unfold mp, y'. destruct (Z.ltb_spec 2 m), (Z.leb_spec m 2); lia. }
  clearbody mp y'. div_lia.
Qed.

(** [Date.UTC] of a date and back: for the dates of the calendar, and no others. *)
Lemma Date_UTC_exact y m d :
  0 <= y <= 9999 →
  utc_date (Date_UTC y m d) = (y, m, d) ↔ 100 <= y ∧ calendar_date y m d.
Proof.
  intros Hy. unfold utc_date, Date_UTC. rewrite Z.div_mul by done. split.
  - intros E%civil_dates. destruct E as [[Hm Hd] En].
    rewrite (Z.div_small (m - 1)), (Z.mod_small (m - 1)) in En by lia.
    replace (m - 1 + 1) with m in En by lia. rewrite Z.add_0_r in En.
    split; [|done]. destruct (Z.le_gt_cases 100 y) as [|Hlt]; [done|exfalso].
    replace ((0 <=? y) && (y <=? 99)) with true in En by lia.
    rewrite !days_split in En. cbv zeta in En. clear -En Hlt Hy. destruct (m <=? 2), (2 <? m); div_lia.
  - intros [H100 Hc]. pose proof Hc as [Hm Hd].
    rewrite (Z.div_small (m - 1)), (Z.mod_small (m - 1)) by lia.
    replace (m - 1 + 1) with m by lia. rewrite Z.add_0_r.
    replace ((0 <=? y) && (y <=? 99)) with false by lia.
    replace (days_from_civil y m 1 + d - 1) with (days_from_civil y m d).
    + by apply civil_of_date.
    + rewrite !days_split. cbv zeta. lia.
Qed.

(** ** The round trip *)

Lemma digits_n_add n m acc s :
  digits_n (n + m) acc s =
  match digits_n n acc s with Some (v, r) => digits_n m v r | None => None end.
Proof.
  revert acc s. induction n as [|n IH]; intros acc s; [done|]. cbn [Nat.add digits_n].
  destruct s as [|c s]; [done|]. by destruct (is_digit c).
Qed.
Lemma digit_char_spec x :
  0 <= x < 10 → is_digit (digit_char x) = true ∧ digit_value (digit_char x) = x.
Proof.
  intros Hx. assert (x = 0 ∨ x = 1 ∨ x = 2 ∨ x = 3 ∨ x = 4 ∨ x = 5 ∨ x = 6 ∨ x = 7 ∨ x = 8 ∨ x = 9)
    as Hc by lia. naive_solver.
Qed.
Lemma digits_pad_go n acc x s :
  0 <= x < 10 ^ Z.of_nat n → digits_n n acc (pad_go n x s) = Some (acc * 10 ^ Z.of_nat n + x, s).
Proof.
  revert acc x s. induction n as [|n IH]; intros acc x s Hx.
  { cbn in *. do 2 f_equal. lia. }
  rewrite Nat2Z.inj_succ, Z.pow_succ_r in * by lia. cbn [pad_go].
  replace (S n) with (n + 1)%nat by lia. rewrite digits_n_add, IH; cycle 1.
  { split; [apply Z.div_pos|apply Z.div_lt_upper_bound]; lia. }
  pose proof (Z.mod_pos_bound x 10 ltac:(lia)) as Hm.
  destruct (digit_char_spec _ Hm) as [Hd Hv]. cbn [digits_n]. rewrite Hd, Hv. do 2 f_equal.
  rewrite (Z.div_mod x 10) at 3 by lia. lia.
Qed.
Lemma pad_go_app n x s rest : pad_go n x s +:+ rest = pad_go n x (s +:+ rest).
Proof. revert x s. induction n as [|n IH]; intros x s; [done|]. cbn [pad_go]. by rewrite IH. Qed.
Lemma digits_pad n x rest :
  0 <= x < 10 ^ Z.of_nat n → digits_n n 0 (pad n x +:+ rest) = Some (x, rest).
Proof. intros Hx. unfold pad. by rewrite pad_go_app, digits_pad_go. Qed.

Lemma fraction_pad x : 0 <= x < 1000 → fraction ("." +:+ pad 3 x +:+ "Z") = Some (x, "Z").
Proof.
  intros Hx. unfold pad. rewrite pad_go_app. cbn [pad_go String.app].
  destruct (digit_char_spec (x mod 10)) as [D0 V0]; [div_lia|].
  destruct (digit_char_spec (x / 10 mod 10)) as [D1 V1]; [div_lia|].
  destruct (digit_char_spec (x / 10 / 10 mod 10)) as [D2 V2]; [div_lia|].
  revert D0 V0 D1 V1 D2 V2. generalize (digit_char (x mod 10)) as c0.
  generalize (digit_char (x / 10 mod 10)) as c1. generalize (digit_char (x / 10 / 10 mod 10)) as c2.
  intros c2 c1 c0 D0 V0 D1 V1 D2 V2. change ("" +:+ "Z") with "Z".
  change (fraction ("." +:+ Str c2 (Str c1 (Str c0 "Z")))) with
    (let '(ds, rest) := span is_digit (Str c2 (Str c1 (Str c0 "Z"))) in
     if bool_decide (ds = "") then None
     else Some (digits_value (str_take 3 (ds +:+ "00")), rest)).
  cbn [span]. rewrite D0, D1, D2. change (is_digit "Z") with false. cbn iota beta.
  rewrite bool_decide_eq_false_2 by done.
  change (str_take 3 (Str c2 (Str c1 (Str c0 "")) +:+ "00")) with (Str c2 (Str c1 (Str c0 ""))).
  unfold digits_value. cbn [digits_value_go]. rewrite V0, V1, V2. do 2 f_equal. div_lia.
Qed.

Lemma field_pad c lo hi x rest :
  0 <= x < 100 → lo <= x <= hi → field c 2 lo hi (Str c (pad 2 x +:+ rest)) = Some (x, rest).
Proof.
  intros Hx Hr. unfold field. rewrite bool_decide_eq_true_2 by done.
  rewrite digits_pad by lia.
  by destruct (Z.leb_spec lo x), (Z.leb_spec x hi); try lia.
Qed.
Lemma opt_field_pad c lo hi def x rest :
  0 <= x < 100 → lo <= x <= hi →
  opt_field c 2 lo hi def (Str c (pad 2 x +:+ rest)) = Some (x, rest).
Proof. intros. unfold opt_field. rewrite bool_decide_eq_true_2 by done. by apply field_pad. Qed.

Lemma parse_year_digits s v rest :
  digits_n 4 0 s = Some (v, rest) → parse_year s = Some (v, rest).
Proof. intros H. destruct s as [|[[] [] [] [] [] [] [] []] s]; exact H || done. Qed.

(** Literals of one character as constructors. *)
Ltac fold_char :=
  repeat match goal with
  | |- context [":" +:+ ?s] => change (":" +:+ s) with (Str ":"%char s)
  | |- context ["-" +:+ ?s] => change ("-" +:+ s) with (Str "-"%char s)
  | |- context ["T" +:+ ?s] => change ("T" +:+ s) with (Str "T"%char s)
  end.

Lemma parse_clock_text ms : 0 <= ms < DAY_MS → parse_clock (Str "T" (clock_text ms)) = Some ms.
Proof.
  unfold DAY_MS. intros Hm. unfold parse_clock, clock_text.
  pose proof (Z.mod_pos_bound (ms / 60000) 60 ltac:(lia)).
  pose proof (Z.mod_pos_bound (ms / 1000) 60 ltac:(lia)).
  pose proof (Z.mod_pos_bound ms 1000 ltac:(lia)).
  assert (0 <= ms / 3600000 < 24) by (split; [apply Z.div_pos|apply Z.div_lt_upper_bound]; lia).
  rewrite field_pad by lia. cbn [mbind option_bind fst snd].
  fold_char. rewrite field_pad by lia.
  cbn [mbind option_bind fst snd].
  fold_char. rewrite opt_field_pad by lia.
  cbn [mbind option_bind fst snd].
  rewrite fraction_pad by lia.
  cbn [mbind option_bind fst snd zone].
  assert (((ms / 3600000 * 60 + ms / 60000 mod 60) * 60 + ms / 1000 mod 60) * 1000 + ms mod 1000
          = ms) as ->.
  { pose proof (Z.div_mod ms 1000 ltac:(lia)). pose proof (Z.div_mod (ms / 1000) 60 ltac:(lia)).
    pose proof (Z.div_mod (ms / 60000) 60 ltac:(lia)).
    pose proof (Z.div_div ms 1000 60 ltac:(lia) ltac:(lia)) as E1.
    pose proof (Z.div_div ms 60000 60 ltac:(lia) ltac:(lia)) as E2. change (1000 * 60) with 60000 in E1.
    change (60000 * 60) with 3600000 in E2. rewrite E1 in *. rewrite E2 in *. lia. }
  unfold DAY_MS. destruct (Z.leb_spec ms 86400000); [|lia]. f_equal. lia.
Qed.

(** The years 0 to 9999. *)
Definition printable (t : Z) : Prop := -62167219200000 <= t <= 253402300799999.

Lemma iso_roundtrip t : printable t → Date_parse (toISOString t) = Some t.
Proof.
  unfold printable, toISOString. intros Ht.
  pose proof (civil_roundtrip (t / DAY_MS)) as Hc.
  pose proof (Z.div_mod t DAY_MS ltac:(done)) as Hd.
  pose proof (Z.mod_pos_bound t DAY_MS ltac:(done)) as Hm.
  destruct (civil_from_days (t / DAY_MS)) as [[y m] d]. destruct Hc as (Hn&Hmo&Hda&Hy).
  assert (0 <= y <= 9999) as Hy4 by (apply Hy; unfold DAY_MS in *; lia).
  unfold year_text. replace ((0 <=? y) && (y <=? 9999)) with true by lia.
  unfold Date_parse. erewrite parse_year_digits; cycle 1.
  { apply digits_pad. lia. }
  cbn [mbind option_bind fst snd].
  fold_char. rewrite opt_field_pad by lia.
  cbn [mbind option_bind fst snd].
  fold_char. rewrite opt_field_pad by lia.
  cbn [mbind option_bind fst snd]. fold_char.
  rewrite bool_decide_eq_false_2, parse_clock_text by done. cbn [mbind option_bind].
  rewrite Hn. replace (t / DAY_MS * DAY_MS + t mod DAY_MS) with t by lia.
  unfold is_time. by replace (_ && _) with true by lia.
Qed.

Lemma toISOString_inj t u : printable t → printable u → toISOString t = toISOString u → t = u.
Proof. intros Ht Hu E. apply (inj Some). by rewrite <- (iso_roundtrip t), <- (iso_roundtrip u), E. Qed.

Example iso_epoch : toISOString 0 = "1970-01-01T00:00:00.000Z".
Proof. reflexivity. Qed.
Example iso_leap : Date_parse "2024-02-29T23:59:59.999Z" = Some 1709251199999.
Proof. reflexivity. Qed.
Example iso_day : Date_parse "2026-03-01" = Some 1772323200000.
Proof. reflexivity. Qed.
