(* ===== verification/Redis.v ===== *)
(** * Redis: [RedisService], its Lua scripts, the cron lock and the throttler

    Models [src/infrastructure/redis/redis.service.ts], [cron-lock.service.ts],
    [redis-throttler.storage.ts] and [redis-safety.ts]. A server is a key/value
    store with expiry times; a command is one atomic action that may fail (the
    client is not ready, or the next entry of the fault list says so). *)

From S2P Require Import Prelude Js.

Open Scope Z_scope.

(** A stored string: the JSON text of a value, a decimal integer, or raw text. *)
Inductive rval :=
| RJson (j : json)
| RInt (n : Z)
| RRaw (s : string).

Record rentry := { re_val : rval; re_exp : option Z }.

Abbreviation rstore := (gmap string rentry).

Record RedisSt := {
  r_ready : bool;            (* client.status === 'ready' *)
  r_faults : list bool;      (* which of the next commands fail *)
  r_store : rstore;
}.

(** The connections of [CacheService]: the cache and the security one. *)
Inductive conn := CacheConn | SecConn.

(** What a world offers to the Redis code: its connections and the clock (ms). *)
Class HasRedis (W : Type) := {
  redis_of : conn → W → RedisSt;
  with_redis : conn → RedisSt → W → W;
  now_of : W → Z;
}.

Class RedisLaws (W : Type) `{HasRedis W} := {
  redis_of_with c r w : redis_of c (with_redis c r w) = r;
  with_redis_with c r r' w : with_redis c r' (with_redis c r w) = with_redis c r' w;
  with_redis_of c w : with_redis c (redis_of c w) w = w;
  now_of_with c r w : now_of (with_redis c r w) = now_of w;
}.

Definition redis_error : exn := JsError "redis".

(** ** The server *)

Definition live (now : Z) (e : rentry) : bool :=
  match re_exp e with None => true | Some t => now <? t end.

Definition rlookup (now : Z) (st : rstore) (key : string) : option rentry :=
  match st !! key with
  | Some e => if live now e then Some e else None
  | None => None
  end.

Definition raw_text (v : rval) : option string :=
  match v with
  | RRaw s => Some s
  | RInt n => Some (str_of_Z n)
  | RJson _ => None
  end.

Definition cGET (key : string) (now : Z) (st : rstore) : option rval * rstore :=
  (re_val <$> rlookup now st key, st).

(** [SET key v] with an optional [PX] expiry in milliseconds. *)
Definition cSET (key : string) (v : rval) (px : option Z) (now : Z) (st : rstore)
    : () * rstore :=
  ((), <[key := {| re_val := v; re_exp := (λ d, now + d) <$> px |}]> st).

(** [SET key v PX ms NX] *)
Definition cSETNX (key : string) (v : rval) (px : Z) (now : Z) (st : rstore)
    : bool * rstore :=
  match rlookup now st key with
  | Some _ => (false, st)
  | None => (true, <[key := {| re_val := v; re_exp := Some (now + px) |}]> st)
  end.

Definition cDEL (keys : list string) (now : Z) (st : rstore) : () * rstore :=
  ((), foldr delete st keys).

Definition cEXISTS (key : string) (now : Z) (st : rstore) : bool * rstore :=
  (bool_decide (is_Some (rlookup now st key)), st).

(** [PTTL]: -2 without the key, -1 without an expiry, else what is left. *)
Definition cPTTL (key : string) (now : Z) (st : rstore) : Z * rstore :=
  (match rlookup now st key with
   | None => -2
   | Some e => match re_exp e with None => -1 | Some t => t - now end
   end, st).

Definition cPEXPIRE (key : string) (ms now : Z) (st : rstore) : () * rstore :=
  ((), match rlookup now st key with
       | Some e => <[key := {| re_val := re_val e; re_exp := Some (now + ms) |}]> st
       | None => st
       end).

(** [INCRBY]: a missing key counts from 0 and the expiry is kept; a value that
    is not an integer is an error. *)
Definition cINCRBY (key : string) (by_ : Z) (now : Z) (st : rstore)
    : outcome Z * rstore :=
  match rlookup now st key with
  | None => (Ok by_, <[key := {| re_val := RInt by_; re_exp := None |}]> st)
  | Some {| re_val := RInt n; re_exp := e |} =>
      (Ok (n + by_), <[key := {| re_val := RInt (n + by_); re_exp := e |}]> st)
  | Some _ => (Err redis_error, st)
  end.

(** ** The Lua scripts, each one atomic action *)

(** [GETDEL_SCRIPT] *)
Definition GETDEL_SCRIPT (key : string) (now : Z) (st : rstore) : option rval * rstore :=
  let v := (cGET key now st).1 in
  match v with
  | Some _ => (v, (cDEL [key] now st).2)
  | None => (v, st)
  end.

(** [INCR_TTL_SCRIPT]: INCR, then EXPIRE when the key is new or has no expiry. *)
Definition INCR_TTL_SCRIPT (key : string) (ttlSeconds : Z) (now : Z) (st : rstore)
    : outcome Z * rstore :=
  let '(r, st1) := cINCRBY key 1 now st in
  match r with
  | Ok v =>
      if (v =? 1) || ((cPTTL key now st1).1 <? 0)
      then (Ok v, (cPEXPIRE key (ttlSeconds * 1000) now st1).2)
      else (Ok v, st1)
  | Err e => (Err e, st1)
  end.

(** [RELEASE_SCRIPT]: delete the lock only while it still holds our token. *)
Definition RELEASE_SCRIPT (key token : string) (now : Z) (st : rstore) : Z * rstore :=
  match (cGET key now st).1 with
  | Some v =>
      if bool_decide (raw_text v = Some token) then (1, (cDEL [key] now st).2) else (0, st)
  | None => (0, st)
  end.

(** [INCR_SCRIPT] of the throttler: INCR, and PEXPIRE when the key is new or
    has no expiry; the hits and the time left. *)
Definition INCR_SCRIPT (key : string) (ttl : Z) (now : Z) (st : rstore)
    : outcome (Z * Z) * rstore :=
  let '(r, st1) := cINCRBY key 1 now st in
  match r with
  | Ok hits =>
      let pttl := (cPTTL key now st1).1 in
      if (hits =? 1) || (pttl <? 0)
      then (Ok (hits, ttl), (cPEXPIRE key ttl now st1).2)
      else (Ok (hits, pttl), st1)
  | Err e => (Err e, st1)
  end.

(** ** [RedisService] *)

Section service.
Context {W : Type} `{HasRedis W}.

(** A command of a client: it fails when the client is not ready (the offline
    queue is disabled) or when the server does. *)
Definition redis_cmd {X} (c : conn) (f : Z → rstore → outcome X * rstore) : prog W X :=
  act_outcome (λ w,
    let r := redis_of c w in
    if negb (r_ready r) then (Err redis_error, w)
    else match r_faults r with
    | true :: fs =>
        (Err redis_error,
         with_redis c {| r_ready := true; r_faults := fs; r_store := r_store r |} w)
    | fs =>
        let '(x, st) := f (now_of w) (r_store r) in
        (x, with_redis c {| r_ready := true; r_faults := tail fs; r_store := st |} w)
    end).

Definition total {X} (f : Z → rstore → X * rstore) : Z → rstore → outcome X * rstore :=
  λ now st, let '(x, st') := f now st in (Ok x, st').

Definition isConnected (c : conn) : prog W bool :=
  gets (λ w, r_ready (redis_of c w)).

(** [try { return await p } catch { return d }] *)
Definition or_default {A} (p : prog W A) (d : A) : prog W A := catch p (λ _, mret d).

Definition redis_get (c : conn) (key : string) : prog W (option json) :=
  or_default
    (raw ← redis_cmd c (total (cGET key));
     match raw with
     | None => mret None
     | Some (RJson j) => mret (Some j)
     | Some (RInt n) => mret (Some (JNum n))
     | Some (RRaw _) => Throw (JsError "SyntaxError")
     end) None.

Definition redis_set (c : conn) (key : string) (value : json) (ttlSeconds : option Z)
    : prog W bool :=
  or_default
    (redis_cmd c (total (cSET key (RJson value)
       match ttlSeconds with Some 0 | None => None | Some t => Some (t * 1000) end)) ;;
     mret true) false.

Definition redis_del (c : conn) (keys : list string) : prog W bool :=
  match keys with
  | [] => mret true
  | _ => or_default (redis_cmd c (total (cDEL keys)) ;; mret true) false
  end.

Definition raw_of (v : option rval) : option string := v ≫= raw_text.

Definition getAndDelete (c : conn) (key : string) : prog W (option rval) :=
  redis_cmd c (total (GETDEL_SCRIPT key)).

Definition getRawStrict (c : conn) (key : string) : prog W (option rval) :=
  redis_cmd c (total (cGET key)).

Definition getRaw (c : conn) (key : string) : prog W (option rval) :=
  or_default (redis_cmd c (total (cGET key))) None.

Definition setRaw (c : conn) (key value : string) (ttlSeconds : option Z) : prog W () :=
  or_default
    (redis_cmd c (total (cSET key (RRaw value)
       match ttlSeconds with Some 0 | None => None | Some t => Some (t * 1000) end))) ().

Definition redis_exists (c : conn) (key : string) : prog W bool :=
  or_default (redis_cmd c (total (cEXISTS key))) false.

Definition increment (c : conn) (key : string) (by_ : Z) : prog W (option Z) :=
  or_default (n ← redis_cmd c (cINCRBY key by_); mret (Some n)) None.

Definition incrementWithTtl (c : conn) (key : string) (ttlSeconds : Z)
    : prog W (option Z) :=
  or_default (n ← redis_cmd c (INCR_TTL_SCRIPT key ttlSeconds); mret (Some n)) None.

(** ** [CronLockService.runExclusive] *)

Context (keyPrefix : string).

Definition cron_key (name : string) : string := keyPrefix +:+ "lock:cron:" +:+ name.

Definition runExclusive (name : string) (ttlMs : Z) (token : string) (job : prog W ())
    : prog W bool :=
  acquired ← attempt (redis_cmd CacheConn (total (cSETNX (cron_key name) (RRaw token) ttlMs)));
  match acquired with
  | Err _ => job ;; mret true
  | Ok false => mret false
  | Ok true =>
      catch (job ;; mret true)
        (λ err, attempt (redis_cmd CacheConn (total (RELEASE_SCRIPT (cron_key name) token))) ;;
                Throw err)
  end.

(** ** [RedisThrottlerStorage.increment] *)

Record ThrottlerRecord := {
  totalHits : Z;
  timeToExpire : Z;
  isBlocked : bool;
  timeToBlockExpire : Z;
}.

(** [Math.ceil(ms / 1000)] *)
Definition ceil_seconds (ms : Z) : Z := (ms + 999) `div` 1000.

Definition throttle_key (throttlerName key : string) : string :=
  keyPrefix +:+ "throttle:" +:+ throttlerName +:+ ":" +:+ key.
Definition block_key (hitKey : string) : string := hitKey +:+ ":blocked".

(** [Number(await client.get(hitKey)) || limit + 1] *)
Definition hits_or (limit : Z) (v : option rval) : Z :=
  match v with
  | Some (RInt n) => if n =? 0 then limit + 1 else n
  | _ => limit + 1
  end.

(** [fallback] is the in-memory [ThrottlerStorageService] of @nestjs/throttler. *)
Definition throttle_increment (fallback : prog W ThrottlerRecord)
    (key : string) (ttl limit blockDuration : Z) (throttlerName : string)
    : prog W ThrottlerRecord :=
  up ← isConnected SecConn;
  if negb up then fallback else
  let hitKey := throttle_key throttlerName key in
  catch
    (blockPttl ← redis_cmd SecConn (total (cPTTL (block_key hitKey)));
     if 0 <? blockPttl then
       hp ← redis_cmd SecConn (total (cPTTL hitKey));
       v ← redis_cmd SecConn (total (cGET hitKey));
       mret {| totalHits := hits_or limit v;
               timeToExpire := ceil_seconds (Z.max hp 0);
               isBlocked := true;
               timeToBlockExpire := ceil_seconds blockPttl |}
     else
       hp ← redis_cmd SecConn (INCR_SCRIPT hitKey ttl);
       let '(hits, pttl) := hp in
       let blocked := limit <? hits in
       (if blocked && (0 <? blockDuration)
        then redis_cmd SecConn (total (cSET (block_key hitKey) (RRaw "1") (Some blockDuration)))
        else mret ()) ;;
       mret {| totalHits := hits;
               timeToExpire := ceil_seconds pttl;
               isBlocked := blocked;
               timeToBlockExpire :=
                 if blocked && (0 <? blockDuration) then ceil_seconds blockDuration else 0 |})
    (λ _, fallback).
End service.

(** ** A minimal world: both connections and the clock *)

Record SimpleW := {
  sw_cache : RedisSt;
  sw_sec : RedisSt;
  sw_now : Z;
}.

#[export] Instance SimpleW_redis : HasRedis SimpleW := {|
  redis_of c w := match c with CacheConn => sw_cache w | SecConn => sw_sec w end;
  with_redis c r w :=
    match c with
    | CacheConn => {| sw_cache := r; sw_sec := sw_sec w; sw_now := sw_now w |}
    | SecConn => {| sw_cache := sw_cache w; sw_sec := r; sw_now := sw_now w |}
    end;
  now_of := sw_now;
|}.

#[export] Instance SimpleW_laws : RedisLaws SimpleW.
Proof. by split; intros []; intros; repeat match goal with w : SimpleW |- _ => destruct w end. Qed.

Definition fresh_redis : RedisSt := {| r_ready := true; r_faults := []; r_store := ∅ |}.
Definition simple_world (now : Z) : SimpleW :=
  {| sw_cache := fresh_redis; sw_sec := fresh_redis; sw_now := now |}.

(** ** Server lemmas *)

Lemma rlookup_insert now st key e :
  rlookup now (<[key := e]> st) key = if live now e then Some e else None.
Proof. unfold rlookup. by rewrite lookup_insert_eq. Qed.

Lemma rlookup_insert_ne now st key key' e :
  key ≠ key' → rlookup now (<[key := e]> st) key' = rlookup now st key'.
Proof. intros. unfold rlookup. by rewrite lookup_insert_ne. Qed.

Lemma rlookup_delete now st key : rlookup now (delete key st) key = None.
Proof. unfold rlookup. by rewrite lookup_delete_eq. Qed.

Lemma rlookup_Some now st key e :
  rlookup now st key = Some e ↔ st !! key = Some e ∧ live now e = true.
Proof.
  unfold rlookup. destruct (st !! key) as [e'|].
  - destruct (live now e') eqn:Hl; split; [intros [= ->]; done| |done|];
      intros [[= ->] ?]; congruence.
  - split; [done|by intros []].
Qed.

Definition counter (n exp : Z) : rentry := {| re_val := RInt n; re_exp := Some exp |}.

Lemma live_counter now n exp : live now (counter n exp) = (now <? exp).
Proof. done. Qed.

Lemma incr_ttl_new key ttl now st :
  0 < ttl → rlookup now st key = None →
  INCR_TTL_SCRIPT key ttl now st = (Ok 1, <[key := counter 1 (now + ttl * 1000)]> st).
Proof.
  intros Httl Hn. unfold INCR_TTL_SCRIPT, cINCRBY. rewrite Hn. simpl.
  unfold cPEXPIRE. rewrite rlookup_insert. simpl. by rewrite insert_insert_eq.
Qed.

Lemma incr_ttl_next key ttl now st n exp :
  1 ≤ n → rlookup now st key = Some (counter n exp) →
  INCR_TTL_SCRIPT key ttl now st = (Ok (n + 1), <[key := counter (n + 1) exp]> st).
Proof.
  intros Hn Hk. unfold INCR_TTL_SCRIPT, cINCRBY. rewrite Hk. simpl.
  apply rlookup_Some in Hk as [_ Hlive]. rewrite live_counter, Z.ltb_lt in Hlive.
  rewrite rlookup_insert. fold (counter (n + 1) exp). rewrite live_counter.
  rewrite (proj2 (Z.ltb_lt now exp)) by done. simpl.
  rewrite (proj2 (Z.eqb_neq (n + 1) 1)) by lia.
  by rewrite (proj2 (Z.ltb_ge (exp - now) 0)) by lia.
Qed.

(** A run of increments at the given times. *)
Fixpoint incr_many (key : string) (ttl : Z) (ts : list Z) (st : rstore)
    : list (outcome Z) * rstore :=
  match ts with
  | [] => ([], st)
  | t :: ts =>
      let '(v, st1) := INCR_TTL_SCRIPT key ttl t st in
      let '(vs, st2) := incr_many key ttl ts st1 in
      (v :: vs, st2)
  end.

Lemma incr_many_next key ttl exp ts st n :
  1 ≤ n → st !! key = Some (counter n exp) → Forall (λ t, t < exp) ts →
  (incr_many key ttl ts st).1 = Ok <$> seqZ (n + 1) (Z.of_nat (length ts)) ∧
  (incr_many key ttl ts st).2 !! key = Some (counter (n + Z.of_nat (length ts)) exp).
Proof.
  revert st n. induction ts as [|t ts IH]; intros st n Hn Hk Hts; simpl.
  { by rewrite Z.add_0_r. }
  apply Forall_cons in Hts as [Ht Hts].
  rewrite (incr_ttl_next key ttl t st n exp) by
    (first [done | apply rlookup_Some; rewrite live_counter, Z.ltb_lt; done]).
  destruct (IH (<[key := counter (n + 1) exp]> st) (n + 1)) as [IH1 IH2];
    [lia|by rewrite lookup_insert_eq|done|].
  destruct (incr_many _ _ _ _) as [vs st2]; simpl in *. split.
  - rewrite (seqZ_cons (n + 1)) by lia. simpl. rewrite IH1. do 3 f_equal; lia.
  - rewrite IH2. do 2 f_equal. lia.
Qed.

(** The counter of [incrementWithTtl] is a fixed window: within the window
    opened by the first increment the calls return 1, 2, 3, ... and never move
    its end, and at its end the counter is gone. *)
Theorem incr_ttl_window key ttl t0 ts st :
  0 < ttl → rlookup t0 st key = None →
  Forall (λ t, t0 ≤ t < t0 + ttl * 1000) ts →
  (incr_many key ttl (t0 :: ts) st).1 = Ok <$> seqZ 1 (1 + Z.of_nat (length ts)) ∧
  (∀ t, t0 + ttl * 1000 ≤ t →
     rlookup t (incr_many key ttl (t0 :: ts) st).2 key = None).
Proof.
  intros Httl Hn Hts. simpl. rewrite incr_ttl_new by done.
  destruct (incr_many_next key ttl (t0 + ttl * 1000) ts
    (<[key := counter 1 (t0 + ttl * 1000)]> st) 1) as [H1 H2];
    [lia|by rewrite lookup_insert_eq|eapply Forall_impl; [done|]; naive_solver lia|].
  destruct (incr_many _ _ _ _) as [vs st2]; simpl in *. split.
  - rewrite (seqZ_cons 1) by lia. simpl. rewrite H1. do 3 f_equal; lia.
  - intros t Ht. unfold rlookup. rewrite H2, live_counter.
    by rewrite (proj2 (Z.ltb_ge _ _)).
Qed.

(** ** Client lemmas *)

Section client.
Context {W : Type} `{HasRedis W} `{!RedisLaws W}.
Implicit Types w : W.

Definition redis_ok (c : conn) (w : W) : Prop :=
  r_ready (redis_of c w) = true ∧ r_faults (redis_of c w) = [].

Definition store_of (c : conn) (w : W) : rstore := r_store (redis_of c w).

Definition set_store (c : conn) (st : rstore) (w : W) : W :=
  with_redis c {| r_ready := true; r_faults := []; r_store := st |} w.

Lemma redis_ok_set_store c st w : redis_ok c (set_store c st w).
Proof. by unfold redis_ok, set_store; rewrite redis_of_with. Qed.

Lemma store_of_set_store c st w : store_of c (set_store c st w) = st.
Proof. by unfold store_of, set_store; rewrite redis_of_with. Qed.

Lemma now_of_set_store c st w : now_of (set_store c st w) = now_of w.
Proof. apply now_of_with. Qed.

Lemma set_store_id c w : redis_ok c w → set_store c (store_of c w) w = w.
Proof.
  intros [Hr Hf]. unfold set_store, store_of.
  rewrite <- (with_redis_of c w) at 3. f_equal.
  destruct (redis_of c w); simpl in *; by subst.
Qed.

Lemma set_store_set_store c st st' w :
  set_store c st' (set_store c st w) = set_store c st' w.
Proof. apply with_redis_with. Qed.

Lemma run_redis_cmd {X} c (f : Z → rstore → outcome X * rstore) w :
  redis_ok c w →
  run (redis_cmd c f) w =
  ((f (now_of w) (store_of c w)).1, set_store c (f (now_of w) (store_of c w)).2 w).
Proof.
  intros [Hr Hf]. unfold redis_cmd. rewrite run_act_outcome, Hr, Hf.
  unfold store_of. simpl. by destruct (f _ _).
Qed.

(** The client is down, or this command fails. *)
Definition redis_down (c : conn) (w : W) : Prop :=
  r_ready (redis_of c w) = false.

Lemma run_redis_cmd_down {X} c (f : Z → rstore → outcome X * rstore) w :
  redis_down c w → run (redis_cmd c f) w = (Err redis_error, w).
Proof. intros Hr. unfold redis_cmd. by rewrite run_act_outcome, Hr. Qed.

Lemma run_isConnected c w :
  run (isConnected c) w = (Ok (r_ready (redis_of c w)), w).
Proof. reflexivity. Qed.

Lemma run_incrementWithTtl c key ttl w n st :
  redis_ok c w →
  INCR_TTL_SCRIPT key ttl (now_of w) (store_of c w) = (Ok n, st) →
  run (incrementWithTtl c key ttl) w = (Ok (Some n), set_store c st w).
Proof.
  intros Hok Hs. unfold incrementWithTtl, or_default.
  rewrite run_catch, run_bind, run_redis_cmd by done. by rewrite Hs.
Qed.

Lemma run_incrementWithTtl_down c key ttl w :
  redis_down c w → run (incrementWithTtl c key ttl) w = (Ok None, w).
Proof.
  intros Hd. unfold incrementWithTtl, or_default.
  by rewrite run_catch, run_bind, run_redis_cmd_down.
Qed.

Lemma run_redis_del c key w :
  redis_ok c w →
  run (redis_del c [key]) w = (Ok true, set_store c (delete key (store_of c w)) w).
Proof.
  intros Hok. unfold redis_del, or_default.
  by rewrite run_catch, run_bind, run_redis_cmd.
Qed.

(** A one-time token read with [getAndDelete] is consumed: the second
    read of the same key finds nothing. *)
Theorem getAndDelete_once c key w :
  redis_ok c w →
  ∃ v w1, run (getAndDelete c key) w = (Ok v, w1) ∧
    v = re_val <$> rlookup (now_of w) (store_of c w) key ∧
    run (getAndDelete c key) w1 = (Ok None, w1).
Proof.
  intros Hok. unfold getAndDelete. rewrite run_redis_cmd by done.
  unfold total, GETDEL_SCRIPT, cGET, cDEL; simpl.
  destruct (rlookup (now_of w) (store_of c w) key) as [e|] eqn:He; simpl.
  - eexists _, _. split_and!; [done..|].
    rewrite run_redis_cmd by apply redis_ok_set_store.
    rewrite now_of_set_store, store_of_set_store, rlookup_delete; simpl.
    by rewrite set_store_set_store.
  - eexists _, _. split_and!; [done..|].
    rewrite run_redis_cmd by apply redis_ok_set_store.
    rewrite now_of_set_store, store_of_set_store, He; simpl.
    by rewrite set_store_set_store.
Qed.

Section cron.
Context (keyPrefix name : string).
Abbreviation key := (cron_key keyPrefix name).

Definition lock_entry (token : string) (exp : Z) : rentry :=
  {| re_val := RRaw token; re_exp := Some exp |}.

Definition locked_by (token : string) (exp : Z) (w : W) : Prop :=
  store_of CacheConn w !! key = Some (lock_entry token exp).

(** While the lock of a cron job is live, another [runExclusive] of the
    same job answers false, does not run its job and changes nothing. *)
Theorem runExclusive_excluded token exp ttlMs token' job w :
  redis_ok CacheConn w → locked_by token exp w → now_of w < exp →
  run (runExclusive keyPrefix name ttlMs token' job) w = (Ok false, w).
Proof.
  intros Hok Hl Hnow. unfold runExclusive.
  rewrite run_bind, run_attempt, run_redis_cmd by done.
  assert (Hlk : rlookup (now_of w) (store_of CacheConn w) key
    = Some (lock_entry token exp)).
  { apply rlookup_Some. split; [done|]. by apply Z.ltb_lt. }
  unfold total, cSETNX. rewrite Hlk. cbn. by rewrite set_store_id.
Qed.

(** [runExclusive] on a free lock runs the job with the lock held for
    the whole period; when the job succeeds the lock is kept as the job left
    it, and when it throws the lock is released if it is still ours, kept if
    it is someone else's, and the error goes on. *)
Theorem runExclusive_acquired token ttlMs job w r w1 :
  redis_ok CacheConn w →
  rlookup (now_of w) (store_of CacheConn w) key = None →
  run job (set_store CacheConn
    (<[key := lock_entry token (now_of w + ttlMs)]> (store_of CacheConn w)) w) = (r, w1) →
  redis_ok CacheConn w1 →
  match r with
  | Ok _ => run (runExclusive keyPrefix name ttlMs token job) w = (Ok true, w1)
  | Err e => ∃ w2,
      run (runExclusive keyPrefix name ttlMs token job) w = (Err e, w2) ∧
      (∀ exp, locked_by token exp w1 → now_of w1 < exp →
         w2 = set_store CacheConn (delete key (store_of CacheConn w1)) w1) ∧
      (∀ token' exp, token ≠ token' → locked_by token' exp w1 → w2 = w1)
  end.
Proof.
  intros Hok Hfree Hjob Hok1. unfold runExclusive.
  rewrite run_bind, run_attempt, run_redis_cmd by done.
  unfold total, cSETNX. rewrite Hfree. cbn.
  fold (lock_entry token (now_of w + ttlMs)).
  rewrite run_catch, run_bind, Hjob. destruct r as [[]|e]; [done|].
  rewrite run_bind, run_attempt, run_redis_cmd by done. cbn.
  unfold RELEASE_SCRIPT, cGET, cDEL. cbn.
  eexists. split; [done|]. split.
  - intros exp Hl Hnow.
    assert (rlookup (now_of w1) (store_of CacheConn w1) key
      = Some (lock_entry token exp)) as ->.
    { apply rlookup_Some. split; [done|]. by apply Z.ltb_lt. }
    cbn. by rewrite bool_decide_eq_true_2.
  - intros token' exp Hne Hl. unfold rlookup. rewrite Hl.
    destruct (live _ _); cbn; [|by rewrite set_store_id].
    rewrite bool_decide_eq_false_2 by congruence. cbn.
    by rewrite set_store_id.
Qed.

(** With Redis down the job still runs (once, unlocked). *)
Theorem runExclusive_down token ttlMs job w :
  redis_down CacheConn w →
  run (runExclusive keyPrefix name ttlMs token job) w =
  match run job w with
  | (Ok _, w1) => (Ok true, w1)
  | (Err e, w1) => (Err e, w1)
  end.
Proof.
  intros Hd. unfold runExclusive.
  rewrite run_bind, run_attempt, run_redis_cmd_down by done. cbn.
  by rewrite run_bind; destruct (run job w) as [[]].
Qed.
End cron.
End client.

(** ** The properties on concrete servers *)

Lemma incr_ttl_window_witness :
  (incr_many "k" 900 [0; 5; 7] ∅).1 = Ok <$> seqZ 1 3 ∧
  (∀ t, 0 + 900 * 1000 ≤ t → rlookup t (incr_many "k" 900 [0; 5; 7] ∅).2 "k" = None).
Proof.
  apply (incr_ttl_window "k" 900 0 [5; 7] ∅); [lia|done|]. repeat constructor; lia.
Defined.

Definition stored (key : string) (e : rentry) : SimpleW :=
  set_store CacheConn {[ key := e ]} (simple_world 1000).

Lemma getAndDelete_once_witness :
  ∃ v w1, run (getAndDelete CacheConn "t") (stored "t" {| re_val := RRaw "x"; re_exp := None |})
      = (Ok v, w1) ∧ v = Some (RRaw "x") ∧ run (getAndDelete CacheConn "t") w1 = (Ok None, w1).
Proof.
  destruct (getAndDelete_once CacheConn "t"
    (stored "t" {| re_val := RRaw "x"; re_exp := None |})) as (v&w1&E&Hv&E2); [done|].
  exists v, w1. split_and!; [exact E| |exact E2]. rewrite Hv. by vm_compute.
Defined.

Lemma runExclusive_excluded_witness :
  let w := stored "ehte:lock:cron:job" (lock_entry "t1" 5000) in
  run (runExclusive "ehte:" "job" 4000 "t2" (Throw (JsError "ran"))) w = (Ok false, w).
Proof.
  apply (runExclusive_excluded "ehte:" "job" "t1" 5000 4000 "t2" (Throw (JsError "ran"))
    (stored "ehte:lock:cron:job" (lock_entry "t1" 5000))); [done|by vm_compute|by vm_compute].
Defined.

Lemma runExclusive_acquired_witness :
  ∃ w2 : SimpleW,
    run (runExclusive "ehte:" "job" 4000 "t1" (Throw (JsError "boom"))) (simple_world 1000)
      = (Err (JsError "boom"), w2) ∧
    store_of CacheConn w2 !! "ehte:lock:cron:job" = None.
Proof.
  destruct (runExclusive_acquired "ehte:" "job" "t1" 4000 (Throw (JsError "boom"))
    (simple_world 1000) (Err (JsError "boom"))
    (stored "ehte:lock:cron:job" (lock_entry "t1" 5000))) as (w2&E&Hrel&_);
    [done|done|by vm_compute|done|].
  exists w2. split; [exact E|].
  rewrite (Hrel 5000) by by vm_compute. by vm_compute.
Defined.
