(* ===== verification/Cache.v ===== *)
(** * [CacheService]

    Models [src/infrastructure/redis/cache.service.ts] and [cache.keys.ts]: the
    kill switch, read-through caching with soft expiry ([wrap]), versioned lists
    ([wrapScoped]) and generation-guarded entities ([wrapEntity]), invalidation
    with its retry queue, and the security counters. One process is modelled:
    its in-memory state is [CacheSt]. Joining a call already in flight
    ([singleFlight]) returns the same value and is not modelled apart. *)

From S2P Require Import Prelude Js Redis.

Open Scope Z_scope.

(** A queued invalidation: the closure [op] of [guarded], as data. *)
Inductive pending_op :=
| PInvalidate (keys : list string)        (* INVALIDATE on keys[0], keys[1], ... *)
| PDel (c : conn) (keys : list string)
| PDelPattern (c : conn) (prefix suffix : string).   (* delByPattern prefix*suffix *)

Record CacheSt := {
  cs_flag_value : bool;             (* flagMemo.value *)
  cs_flag_checkedAt : Z;            (* flagMemo.checkedAt *)
  cs_localDisabledUntil : Z;
  cs_retryQueue : list (string * (pending_op * Z));   (* insertion order; firstAt *)
  cs_needsPurge : bool;
  cs_flushing : bool;
  cs_stats : gmap string Z;
}.

Definition cache_init : CacheSt := {|
  cs_flag_value := true; cs_flag_checkedAt := 0; cs_localDisabledUntil := 0;
  cs_retryQueue := []; cs_needsPurge := false; cs_flushing := false; cs_stats := ∅ |}.

(** The world of the cache: its state, and the randomness of [Math.random]
    (parts per million) and [randomBytes]. *)
Class HasCache (W : Type) `{HasRedis W} := {
  cache_of : W → CacheSt;
  with_cache : CacheSt → W → W;
  next_random : W → Z * W;
  next_token : W → string * W;
}.

Class CacheLaws (W : Type) `{HasCache W} := {
  cache_of_with cs w : cache_of (with_cache cs w) = cs;
  redis_of_with_cache c cs w : redis_of c (with_cache cs w) = redis_of c w;
  cache_of_with_redis c r w : cache_of (with_redis c r w) = cache_of w;
  now_of_with_cache cs w : now_of (with_cache cs w) = now_of w;
  cache_of_random w : cache_of (next_random w).2 = cache_of w;
  redis_of_random c w : redis_of c (next_random w).2 = redis_of c w;
  now_of_random w : now_of (next_random w).2 = now_of w;
  cache_of_token w : cache_of (next_token w).2 = cache_of w;
  redis_of_token c w : redis_of c (next_token w).2 = redis_of c w;
  now_of_token w : now_of (next_token w).2 = now_of w;
}.

(** ** Constants and keys *)

Definition FLAG_MEMO_MS : Z := 2000.
Definition RETRY_MAX_AGE_MS : Z := 20 * 60 * 1000.
Definition RETRY_QUEUE_MAX : nat := Z.to_nat 10000.
Definition TTL_TOMBSTONE : Z := 10.
Definition TTL_ENTITY_GEN : Z := 86400.
Definition TTL_STALE_GRACE : Z := 30.
Definition TTL_SESSION_AUTH : Z := 30.
Definition TTL_FAILED_LOGIN_ATTEMPTS : Z := 900.
Definition TTL_REAUTH_FAILED_ATTEMPTS : Z := 900.
Definition TTL_REAUTH_LOCKOUT : Z := 900.
Definition TTL_PASSWORD_RESET : Z := 600.

(** ** The scripts *)

(** [INVALIDATE]: a new version, a tombstone, and the deletes. *)
Definition INVALIDATE (keys : list string) (token : string) (tombTtl genTtl : Z)
    (now : Z) (st : rstore) : Z * rstore :=
  match keys with
  | k1 :: k2 :: rest =>
      let st1 := (cSET k1 (RRaw token)
        (if 0 <? genTtl then Some (genTtl * 1000) else None) now st).2 in
      let st2 := (cSET k2 (RRaw "1") (Some (tombTtl * 1000)) now st1).2 in
      (1, foldr delete st2 rest)
  | _ => (1, st)
  end.

(** The text a version key holds; ['0'] without one. *)
Definition version_text (v : option rval) : string :=
  match v ≫= raw_text with Some s => s | None => "0" end.

(** [SET_IF_VERSION] *)
Definition SET_IF_VERSION (genKey key expected : string) (value : json) (ttl : Z)
    (now : Z) (st : rstore) : Z * rstore :=
  if bool_decide (version_text (cGET genKey now st).1 = expected)
  then (1, (cSET key (RJson value) (Some (ttl * 1000)) now st).2)
  else (0, st).

(** [SET_UNLESS_TOMBSTONE] *)
Definition SET_UNLESS_TOMBSTONE (tombKey key : string) (value : json) (ttl : Z)
    (now : Z) (st : rstore) : Z * rstore :=
  if (cEXISTS tombKey now st).1 then (0, st)
  else (1, (cSET key (RJson value) (Some (ttl * 1000)) now st).2).

(** ** Envelopes: a value with its soft expiry *)

Fixpoint assoc (k : string) (kvs : list (string * json)) : option json :=
  match kvs with
  | [] => None
  | (k', v) :: kvs => if bool_decide (k = k') then Some v else assoc k kvs
  end.

Definition envelope (v : json) (soft : Z) : json :=
  JObj [("__c", JNum 1); ("v", v); ("s", JNum soft)].

(** [isEnvelope], returning the value and the soft expiry of one. *)
Definition isEnvelope (j : json) : option (json * Z) :=
  match j with
  | JObj kvs =>
      match assoc "__c" kvs, assoc "s" kvs with
      | Some (JNum 1), Some (JNum s) => Some (default JNull (assoc "v" kvs), s)
      | _, _ => None
      end
  | _ => None
  end.

Definition is_null (j : json) : bool := match j with JNull => true | _ => false end.

Section service.
Context {W : Type} `{HasCache W}.
Context (keyPrefix : string).
(** [createHash('sha256').update(s).digest('hex')] of Node's crypto. *)
Context (sha256hex : string → string).

Definition k_cacheEnabled : string := keyPrefix +:+ "cache:enabled".
Definition k_version (scope : string) : string := keyPrefix +:+ "ver:" +:+ scope.
Definition k_tomb (scope : string) : string := keyPrefix +:+ "tomb:" +:+ scope.
Definition k_gen (kind id : string) : string :=
  keyPrefix +:+ "gen:" +:+ kind +:+ ":" +:+ id.
Definition k_sessionAuth (userId sessionId : string) : string :=
  keyPrefix +:+ "user:" +:+ userId +:+ ":session:" +:+ sessionId +:+ ":auth".
Definition k_failedLoginAttempts (h : string) : string :=
  keyPrefix +:+ "auth:failed-attempts:" +:+ h.
Definition k_otpCooldown (userId purpose channel : string) : string :=
  keyPrefix +:+ "auth:otp-cooldown:" +:+ userId +:+ ":" +:+ purpose +:+ ":" +:+ channel.
Definition k_reauthFailedAttempts (h : string) : string :=
  keyPrefix +:+ "auth:reauth-failed-attempts:" +:+ h.
Definition k_reauthLocked (h : string) : string := keyPrefix +:+ "auth:reauth-locked:" +:+ h.
Definition k_passwordReset (h : string) : string := keyPrefix +:+ "auth:pwd-reset:" +:+ h.
Definition k_victimProfile (id : string) : string := keyPrefix +:+ "victim-profile:" +:+ id.
Definition k_stats (name : string) : string := keyPrefix +:+ "stats:" +:+ name.

Definition upd_cache (f : CacheSt → CacheSt) : prog W () :=
  modify (λ w, with_cache (f (cache_of w)) w).

Definition stat (name : string) : prog W () :=
  upd_cache (λ cs, {|
    cs_flag_value := cs_flag_value cs; cs_flag_checkedAt := cs_flag_checkedAt cs;
    cs_localDisabledUntil := cs_localDisabledUntil cs;
    cs_retryQueue := cs_retryQueue cs; cs_needsPurge := cs_needsPurge cs;
    cs_flushing := cs_flushing cs;
    cs_stats := <[name := default 0 (cs_stats cs !! name) + 1]> (cs_stats cs) |}).

Definition set_flag (value : bool) (checkedAt : Z) (disabledUntil : option Z)
    : prog W () :=
  upd_cache (λ cs, {|
    cs_flag_value := value; cs_flag_checkedAt := checkedAt;
    cs_localDisabledUntil := default (cs_localDisabledUntil cs) disabledUntil;
    cs_retryQueue := cs_retryQueue cs; cs_needsPurge := cs_needsPurge cs;
    cs_flushing := cs_flushing cs; cs_stats := cs_stats cs |}).

Definition set_queue (q : list (string * (pending_op * Z))) (purge : bool)
    : prog W () :=
  upd_cache (λ cs, {|
    cs_flag_value := cs_flag_value cs; cs_flag_checkedAt := cs_flag_checkedAt cs;
    cs_localDisabledUntil := cs_localDisabledUntil cs;
    cs_retryQueue := q; cs_needsPurge := purge;
    cs_flushing := cs_flushing cs; cs_stats := cs_stats cs |}).

(** The retry queue is a JS [Map]: [get], [set] (in place for a known key, at
    the end for a new one), [delete]. *)
Fixpoint q_get (id : string) (q : list (string * (pending_op * Z)))
    : option (pending_op * Z) :=
  match q with
  | [] => None
  | (i, x) :: q => if bool_decide (i = id) then Some x else q_get id q
  end.
Fixpoint q_set (id : string) (x : pending_op * Z) (q : list (string * (pending_op * Z))) :=
  match q with
  | [] => [(id, x)]
  | (i, y) :: q => if bool_decide (i = id) then (id, x) :: q else (i, y) :: q_set id x q
  end.
Definition q_delete (id : string) (q : list (string * (pending_op * Z))) :=
  filter (λ p, p.1 ≠ id) q.

(** *** [enqueue] *)
Definition enqueue (id : string) (op : pending_op) : prog W () :=
  cs ← gets cache_of;
  now ← gets now_of;
  match q_get id (cs_retryQueue cs) with
  | Some (_, firstAt) =>
      set_queue (q_set id (op, firstAt) (cs_retryQueue cs)) (cs_needsPurge cs)
  | None =>
      if bool_decide (RETRY_QUEUE_MAX ≤ length (cs_retryQueue cs))%nat
      then set_queue (cs_retryQueue cs) true
      else set_queue (q_set id (op, now) (cs_retryQueue cs)) (cs_needsPurge cs)
  end.

(** [delByPattern] of a pattern [prefix*suffix]: the SCAN loop as one command. *)
Definition glob (prefix suffix key : string) : bool :=
  bool_decide (String.length prefix + String.length suffix ≤ String.length key)%nat &&
  starts_with prefix key && ends_with suffix key.
Definition cDELPATTERN (prefix suffix : string) (now : Z) (st : rstore) : () * rstore :=
  ((), filter (λ '(k, _), glob prefix suffix k = false) st).
Definition delByPattern (c : conn) (prefix suffix : string) : prog W bool :=
  or_default (redis_cmd c (total (cDELPATTERN prefix suffix)) ;; mret true) false.

(** Running a (queued) operation; [true] when it took effect. *)
Definition run_op (op : pending_op) : prog W bool :=
  match op with
  | PInvalidate keys =>
      token ← act next_token;
      r ← redis_cmd CacheConn (total (INVALIDATE keys token TTL_TOMBSTONE TTL_ENTITY_GEN));
      mret (r =? 1)
  | PDel c keys => redis_del c keys
  | PDelPattern c prefix suffix => delByPattern c prefix suffix
  end.

(** *** [guarded] *)
Definition guarded (id : string) (op : pending_op) : prog W () :=
  ok ← or_default (run_op op) false;
  if (ok : bool) then
    cs ← gets cache_of;
    set_queue (q_delete id (cs_retryQueue cs)) (cs_needsPurge cs)
  else
    stat "invalidationFailures" ;;
    enqueue id op.

(** *** The kill switch *)
Definition disableCache (ttlSeconds : Z) : prog W bool :=
  now ← gets now_of;
  set_flag false now (Some (now + ttlSeconds * 1000)) ;;
  redis_set CacheConn k_cacheEnabled (JBool false) (Some ttlSeconds).

Definition enableCache : prog W bool :=
  now ← gets now_of;
  set_flag true now (Some 0) ;;
  ok ← redis_del CacheConn [k_cacheEnabled];
  (if (ok : bool) then mret ()
   else enqueue "enable-flag" (PDel CacheConn [k_cacheEnabled])) ;;
  mret ok.

Definition isCacheEnabled : prog W bool :=
  now ← gets now_of;
  cs ← gets cache_of;
  if now <? cs_localDisabledUntil cs then mret false
  else if now - cs_flag_checkedAt cs <? FLAG_MEMO_MS then mret (cs_flag_value cs)
  else
    catch
      (raw ← getRawStrict CacheConn k_cacheEnabled;
       match raw with
       | None => set_flag true now None
       | Some (RJson (JBool false)) => set_flag false now None
       | Some (RRaw _) => Throw (JsError "SyntaxError")
       | Some _ => set_flag true now None
       end)
      (λ _, cs ← gets cache_of; set_flag (cs_flag_value cs) now None) ;;
    gets (λ w, cs_flag_value (cache_of w)).

Definition canUseCache : prog W bool :=
  up ← isConnected CacheConn;
  if (up : bool) then isCacheEnabled else mret false.

(** [Math.max(1, Math.round(ttl * (0.9 + Math.random() * 0.2)))] *)
Definition jitter_of (ttl ppm : Z) : Z :=
  Z.max 1 ((ttl * (4500000 + ppm) + 2500000) `div` 5000000).
Definition jitter (ttl : Z) : prog W Z :=
  ppm ← act next_random; mret (jitter_of ttl ppm).

(** *** [read] and [wrap] *)
Definition cache_read (key : string) : prog W (option json) :=
  ok ← canUseCache;
  if negb ok then mret None else
  v ← redis_get CacheConn key;
  match v with
  | None | Some JNull => stat "misses" ;; mret None
  | Some j =>
      stat "hits" ;;
      mret (Some match isEnvelope j with Some (x, _) => x | None => j end)
  end.

Definition refresh (key : string) (factory : prog W json) (ttl : Z) : prog W json :=
  value ← factory;
  (if is_null value then mret () else
   t ← jitter ttl;
   now ← gets now_of;
   redis_set CacheConn key (envelope value (now + t * 1000))
     (Some (t + Z.min ttl TTL_STALE_GRACE)) ;;
   mret ()) ;;
  mret value.

(** The background refresh of a soft-expired entry is started before the stale
    value is returned; its failure is only logged. *)
Definition wrap (key : string) (factory : prog W json) (ttlSeconds : Z) : prog W json :=
  ok ← canUseCache;
  if negb ok then factory else
  entry ← redis_get CacheConn key;
  match entry with
  | None | Some JNull => stat "misses" ;; refresh key factory ttlSeconds
  | Some j =>
      stat "hits" ;;
      match isEnvelope j with
      | None => mret j
      | Some (v, s) =>
          now ← gets now_of;
          if now <? s then mret v
          else stat "staleServed" ;;
               attempt (refresh key factory ttlSeconds) ;;
               mret v
      end
  end.

Definition getVersion (scope : string) : prog W (option string) :=
  or_default (v ← getRawStrict CacheConn (k_version scope);
              mret (Some (version_text v))) None.

Definition queued (id : string) : prog W bool :=
  gets (λ w, bool_decide (is_Some (q_get id (cs_retryQueue (cache_of w))))).

Definition wrapScoped (scope : string) (build : string → string)
    (factory : prog W json) (ttl : Z) : prog W json :=
  ok ← canUseCache;
  if negb ok then factory else
  q ← queued ("scope:" +:+ scope);
  if (q : bool) then factory else
  version ← getVersion scope;
  match version with
  | None => factory
  | Some v => wrap (build v) factory ttl
  end.

Definition bumpScope (scope : string) (extraDelete : list string) : prog W () :=
  guarded ("scope:" +:+ scope)
    (PInvalidate (k_version scope :: k_tomb scope :: extraDelete)).

Definition wrapEntity (kind id key : string) (factory : prog W json) (ttl : Z)
    : prog W json :=
  ok ← canUseCache;
  if negb ok then factory else
  q ← queued ("entity:" +:+ kind +:+ ":" +:+ id);
  if (q : bool) then factory else
  cached ← cache_read key;
  match cached with
  | Some j => mret j
  | None =>
      gen ← or_default (v ← getRawStrict CacheConn (k_gen kind id);
                        mret (Some (version_text v))) None;
      match gen with
      | None => factory
      | Some g =>
          value ← factory;
          (if is_null value then mret () else
           t ← jitter ttl;
           r ← redis_cmd CacheConn (total (SET_IF_VERSION (k_gen kind id) key g value t));
           if r =? 0 then stat "writesSkipped" else mret ()) ;;
          mret value
      end
  end.

Definition setEntityLegacy (kind id key : string) (data : json) (ttl : Z) : prog W () :=
  ok ← canUseCache;
  if negb ok then mret () else
  t ← jitter ttl;
  r ← redis_cmd CacheConn
        (total (SET_UNLESS_TOMBSTONE (k_tomb (kind +:+ ":" +:+ id)) key data t));
  if r =? 0 then stat "writesSkipped" else mret ().

Definition invalidateEntity (kind id key : string) (extraDelete : list string) : prog W () :=
  guarded ("entity:" +:+ kind +:+ ":" +:+ id)
    (PInvalidate (k_gen kind id :: k_tomb (kind +:+ ":" +:+ id) :: key :: extraDelete)).

Definition delKeys (id : string) (c : conn) (keys : list string) : prog W () :=
  guarded ("del:" +:+ id) (PDel c keys).

(** *** Retrying failed invalidations *)
Definition set_flushing (b : bool) : prog W () :=
  upd_cache (λ cs, {|
    cs_flag_value := cs_flag_value cs; cs_flag_checkedAt := cs_flag_checkedAt cs;
    cs_localDisabledUntil := cs_localDisabledUntil cs;
    cs_retryQueue := cs_retryQueue cs; cs_needsPurge := cs_needsPurge cs;
    cs_flushing := b; cs_stats := cs_stats cs |}).

Definition q_remove (id : string) : prog W () :=
  cs ← gets cache_of;
  set_queue (q_delete id (cs_retryQueue cs)) (cs_needsPurge cs).

(** The loop over the copy of the queue taken when the flush starts. *)
Fixpoint flush_loop (now : Z) (items : list (string * (pending_op * Z))) : prog W () :=
  match items with
  | [] => mret ()
  | (id, (op, firstAt)) :: items =>
      if RETRY_MAX_AGE_MS <? now - firstAt then
        q_remove id ;; stat "retryDropped" ;; flush_loop now items
      else
        ok ← or_default (run_op op) false;
        if (ok : bool) then q_remove id ;; stat "retried" ;; flush_loop now items
        else up ← isConnected CacheConn;
             if negb up then mret () else flush_loop now items
  end.

Definition purgePatterns : list string :=
  (λ x, keyPrefix +:+ x) <$>
    ["post:"; "posts:"; "missing-person:"; "victim-profile:"; "information-submission:";
     "report:"; "taxonomy:"; "admin:"; "stats:"; "user:"].

Fixpoint all_true (ps : list (prog W bool)) : prog W bool :=
  match ps with
  | [] => mret true
  | p :: ps => b ← p; bs ← all_true ps; mret (b && bs)
  end.

Definition purgeAll : prog W bool := all_true ((λ p, delByPattern CacheConn p "") <$> purgePatterns).

Definition flushRetryQueue : prog W () :=
  cs ← gets cache_of;
  if cs_flushing cs then mret () else
  set_flushing true ;;
  now ← gets now_of;
  flush_loop now (cs_retryQueue cs) ;;
  cs ← gets cache_of;
  up ← isConnected CacheConn;
  (if cs_needsPurge cs && up then
     ok ← purgeAll;
     if (ok : bool) then cs ← gets cache_of; set_queue (cs_retryQueue cs) false
     else mret ()
   else mret ()) ;;
  set_flushing false.

(** *** Versioned lists, legacy form *)
Definition getScoped (scope : string) (build : string → string) : prog W (option json) :=
  ok ← canUseCache;
  if negb ok then mret None else
  q ← queued ("scope:" +:+ scope);
  if (q : bool) then mret None else
  version ← getVersion scope;
  match version with None => mret None | Some v => cache_read (build v) end.

Definition setScoped (scope : string) (build : string → string) (data : json) (ttl : Z)
    : prog W () :=
  ok ← canUseCache;
  if negb ok then mret () else
  version ← getVersion scope;
  match version with
  | None => mret ()
  | Some v =>
      t ← jitter ttl;
      r ← redis_cmd CacheConn (total (SET_UNLESS_TOMBSTONE (k_tomb scope) (build v) data t));
      if r =? 0 then stat "writesSkipped" else mret ()
  end.

Definition cache_write (key : string) (value : json) (ttlSeconds : Z) : prog W () :=
  ok ← canUseCache;
  if negb ok then mret () else
  t ← jitter ttlSeconds; redis_set CacheConn key value (Some t) ;; mret ().

(** *** Victim profiles *)
Definition invalidateVictimProfile (id : string) : prog W () :=
  invalidateEntity "victim-profile" id (k_victimProfile id) [].
Definition invalidateApprovedVictimProfiles : prog W () := bumpScope "victim-profile-list" [].
Definition invalidateStats (name : string) : prog W () :=
  delKeys ("stats:" +:+ name) CacheConn [k_stats name].
Definition invalidateVictimProfileEverywhere (id : string) : prog W () :=
  invalidateVictimProfile id ;;
  invalidateApprovedVictimProfiles ;;
  invalidateStats "victim-profile-public".

(** *** Sessions and the security counters *)
Definition wrapSessionAuth (userId sessionId : string) (factory : prog W json)
    : prog W json :=
  wrap (k_sessionAuth userId sessionId) factory TTL_SESSION_AUTH.

Definition hashIdentifier (identifier : string) : string :=
  sha256hex (toLowerCase (trim identifier)).
Definition hashSecret (secret : string) : string := sha256hex secret.

Definition incrementFailedLoginAttempts (identifier : string) : prog W (option Z) :=
  incrementWithTtl SecConn (k_failedLoginAttempts (hashIdentifier identifier))
    TTL_FAILED_LOGIN_ATTEMPTS.

(** [None] when Redis cannot tell (the counter only ever holds an integer). *)
Definition getFailedLoginAttempts (identifier : string) : prog W (option Z) :=
  up ← isConnected SecConn;
  if negb up then mret None else
  or_default
    (raw ← getRawStrict SecConn (k_failedLoginAttempts (hashIdentifier identifier));
     mret match raw with
          | None => Some 0
          | Some (RInt n) => Some n
          | Some _ => None
          end) None.

Definition resetFailedLoginAttempts (identifier : string) : prog W () :=
  let key := k_failedLoginAttempts (hashIdentifier identifier) in
  guarded ("fl:" +:+ key) (PDel SecConn [key]).

Definition getOtpCooldown (userId purpose channel : string) : prog W (option string) :=
  up ← isConnected SecConn;
  if negb up then mret None else
  or_default (v ← getRawStrict SecConn (k_otpCooldown userId purpose channel);
              mret (raw_of v)) None.

Definition setOtpCooldown (userId purpose channel verificationId : string) (ttlSeconds : Z)
    : prog W () :=
  setRaw SecConn (k_otpCooldown userId purpose channel) verificationId (Some ttlSeconds).

Definition isReauthLocked (userId : string) : prog W bool :=
  up ← isConnected SecConn;
  if negb up then mret false
  else redis_exists SecConn (k_reauthLocked (hashIdentifier userId)).

Definition recordReauthFailure (userId : string) (maxAttempts : Z) : prog W () :=
  let hashed := hashIdentifier userId in
  attempts ← incrementWithTtl SecConn (k_reauthFailedAttempts hashed)
               TTL_REAUTH_FAILED_ATTEMPTS;
  match attempts with
  | Some n =>
      if maxAttempts <=? n then
        setRaw SecConn (k_reauthLocked hashed) "1" (Some TTL_REAUTH_LOCKOUT) ;;
        redis_del SecConn [k_reauthFailedAttempts hashed] ;;
        mret ()
      else mret ()
  | None => mret ()
  end.

Definition resetReauthFailures (userId : string) : prog W () :=
  let hashed := hashIdentifier userId in
  redis_del SecConn [k_reauthFailedAttempts hashed; k_reauthLocked hashed] ;;
  mret ().

(** *** [purgeUserCache]: everything cached for one user. The calls of the
    source's [Promise.all] touch different keys and run here in their order. *)
Definition userKey (userId rest : string) : string :=
  keyPrefix +:+ "user:" +:+ userId +:+ ":" +:+ rest.
Definition invalidateProfile (userId : string) : prog W () :=
  invalidateEntity "user-profile" userId (userKey userId "profile") [].
Definition clearSession (userId : string) : prog W () :=
  invalidateEntity "session" userId (userKey userId "session") [].
Definition invalidateUnreadNotificationCount (userId : string) : prog W () :=
  delKeys ("unread:" +:+ userId) CacheConn [userKey userId "notifications:unread-count"].
Definition invalidateMyReports (userId : string) : prog W () :=
  bumpScope ("user:" +:+ userId +:+ ":reports") [].
Definition invalidateMyPosts (userId : string) : prog W () :=
  bumpScope ("user:" +:+ userId +:+ ":posts") [].
Definition invalidateNotifications (userId : string) : prog W () :=
  bumpScope ("user:" +:+ userId +:+ ":notifications") [].

Definition purgeUserCache (userId : string) : prog W () :=
  invalidateProfile userId ;;
  clearSession userId ;;
  invalidateUnreadNotificationCount userId ;;
  invalidateMyReports userId ;;
  invalidateMyPosts userId ;;
  invalidateNotifications userId ;;
  guarded ("session-auth:" +:+ userId)
    (PDelPattern CacheConn (userKey userId "session:") ":auth").

Definition setPasswordReset (token : string) (data : json) : prog W bool :=
  redis_set SecConn (k_passwordReset (hashSecret token)) data (Some TTL_PASSWORD_RESET).

Definition getPasswordReset (token : string) : prog W (option json) :=
  redis_get SecConn (k_passwordReset (hashSecret token)).

Definition consumePasswordReset (token : string) : prog W (option json) :=
  raw ← getAndDelete SecConn (k_passwordReset (hashSecret token));
  mret match raw with
       | Some (RJson j) => Some j
       | Some (RInt n) => Some (JNum n)
       | _ => None
       end.

Definition deletePasswordReset (token : string) : prog W () :=
  let key := k_passwordReset (hashSecret token) in
  guarded ("pr:" +:+ key) (PDel SecConn [key]).
End service.

(** * Redis and cache operations in a shared world

    Whatever a component guarantees of its own tables, the operations of Redis and
    of the cache keep: they only touch the connections, the cache and the random
    sources. [OutsideGood] states that for a world, an invariant and a relation. *)

From S2P Require Import Prelude Interleave Js Redis.

Open Scope Z_scope.

Class OutsideGood {W} `{HasCache W} (I : W → Prop) (R : relation W) := {
  og_preorder :: PreOrder R;
  og_redis c r w : I w → I (with_redis c r w) ∧ R w (with_redis c r w);
  og_cache cs w : I w → I (with_cache cs w) ∧ R w (with_cache cs w);
  og_random w : I w → I (next_random w).2 ∧ R w (next_random w).2;
  og_token w : I w → I (next_token w).2 ∧ R w (next_token w).2;
}.

Lemma safe_or_default {W A} (I : W → Prop) (R : relation W) (p : prog W A) d :
  safe I R p → safe I R (or_default p d).
Proof. intros. by apply safe_catch. Qed.
#[export] Hint Resolve safe_or_default : safe.

(** ** Programs that never throw

    [calm I R p]: besides being safe, [p] always returns. The operations of the
    cache swallow the failures of Redis. *)
Definition calm {W A} (I : W → Prop) (R : relation W) (p : prog W A) : Prop :=
  ∀ w, rg I R (λ _ _, True) (λ _ _, False) p w.

Section calm.
Context {W : Type} (I : W → Prop) (R : relation W) `{!PreOrder R}.

Lemma calm_safe {A} (p : prog W A) : calm I R p → safe I R p.
Proof. intros Hp w. eapply rg_mono; [apply Hp|done|done]. Qed.
Lemma calm_mret {A} (a : A) : calm I R (mret a).
Proof. done. Qed.
Lemma calm_bind {A B} (f : A → prog W B) (p : prog W A) :
  calm I R p → (∀ a, calm I R (f a)) → calm I R (p ≫= f).
Proof.
  intros Hp Hf w. apply rg_bind. eapply rg_mono; [apply Hp| |done].
  intros a w' _. apply Hf.
Qed.
Lemma calm_or_default {A} (p : prog W A) d : safe I R p → calm I R (or_default p d).
Proof. intros Hp w. apply rg_catch. by eapply rg_mono; [apply Hp|..]. Qed.
Lemma calm_act {X} (f : W → X * W) : good I R f → calm I R (act f).
Proof. intros Hf w w1 _ HI. by destruct (Hf w1 HI). Qed.
Lemma calm_gets {X} (f : W → X) : calm I R (gets f).
Proof. by apply calm_act. Qed.
Lemma calm_modify (f : W → W) : (∀ w, I w → I (f w) ∧ R w (f w)) → calm I R (modify f).
Proof. intros Hf. by apply calm_act. Qed.

(** Run alone, it returns. *)
Lemma run_calm {A} (p : prog W A) w :
  I w → calm I R p → ∃ a w', run p w = (Ok a, w') ∧ I w' ∧ R w w'.
Proof.
  intros HI Hp. pose proof (rg_run I R _ _ p w HI (Hp w)) as (HI'&HR&Hr).
  destruct (run p w) as [[a|e] w']; [|done]. by exists a, w'.
Qed.
End calm.

Create HintDb calm.
#[export] Hint Resolve calm_mret calm_gets calm_or_default : calm.
Ltac calm_step :=
  first [ solve [auto 2 with calm safe nocore]
        | apply calm_bind; [|intros ?]
        | case_match ].
Ltac calm_tac := repeat calm_step.

Section outside.
Context {W : Type} `{HasCache W} (I : W → Prop) (R : relation W) `{!OutsideGood I R}.
Abbreviation ok := (safe I R).

#[local] Instance R_preorder : PreOrder R.
Proof. apply og_preorder. Qed.
Hint Resolve R_preorder : safe.

Lemma safe_redis_cmd {X} c (f : Z → rstore → outcome X * rstore) : ok (redis_cmd c f).
Proof.
  apply safe_act_outcome. intros w HI. cbv beta zeta.
  destruct (negb _); [done|].
  destruct (r_faults _) as [|[] fs];
    [destruct (f _ _)| |destruct (f _ _)]; by apply og_redis.
Qed.
Lemma safe_isConnected c : ok (isConnected c).
Proof. apply (safe_gets I R). Qed.
Lemma safe_upd_cache f : ok (upd_cache f).
Proof. apply safe_modify. intros w HI. by apply og_cache. Qed.
Lemma safe_next_random : ok (act next_random).
Proof. apply safe_act. intros w. apply og_random. Qed.
Lemma safe_next_token : ok (act next_token).
Proof. apply safe_act. intros w. apply og_token. Qed.
Hint Resolve safe_redis_cmd safe_isConnected safe_upd_cache safe_next_random
  safe_next_token : safe.

Context (keyPrefix : string).
Lemma safe_stat name : ok (stat name).
Proof. apply safe_upd_cache. Qed.
Lemma safe_set_flag a b c : ok (set_flag a b c).
Proof. apply safe_upd_cache. Qed.
Lemma safe_set_queue a b : ok (set_queue a b).
Proof. apply safe_upd_cache. Qed.
Hint Resolve safe_stat safe_set_flag safe_set_queue : safe.

Lemma safe_redis_get c k : ok (redis_get c k).
Proof. apply safe_or_default. safe_tac. Qed.
Lemma safe_redis_set c k v t : ok (redis_set c k v t).
Proof. apply safe_or_default. safe_tac. Qed.
Lemma safe_redis_del c ks : ok (redis_del c ks).
Proof. unfold redis_del. destruct ks; [safe_tac|apply safe_or_default; safe_tac]. Qed.
Lemma safe_setRaw c k v t : ok (setRaw c k v t).
Proof. apply safe_or_default. safe_tac. Qed.
Lemma safe_redis_exists c k : ok (redis_exists c k).
Proof. apply safe_or_default. safe_tac. Qed.
Lemma safe_incrementWithTtl c k t : ok (incrementWithTtl c k t).
Proof. apply safe_or_default. safe_tac. Qed.
Hint Resolve safe_setRaw safe_redis_exists safe_incrementWithTtl : safe.
Lemma safe_getRawStrict c k : ok (getRawStrict c k).
Proof. apply safe_redis_cmd. Qed.
Hint Resolve safe_redis_get safe_redis_set safe_redis_del safe_getRawStrict : safe.

Lemma safe_run_op op : ok (run_op op).
Proof. destruct op; cbn [run_op]; safe_tac. Qed.
Lemma safe_enqueue id op : ok (enqueue id op).
Proof. unfold enqueue. safe_tac. Qed.
Hint Resolve safe_run_op safe_enqueue : safe.
Lemma calm_upd_cache f : calm I R (upd_cache f).
Proof. apply calm_modify. intros w HI. by apply og_cache. Qed.
Hint Resolve calm_upd_cache : calm.
Lemma calm_guarded id op : calm I R (guarded id op).
Proof. unfold guarded, enqueue, stat, set_queue. calm_tac. Qed.
Hint Resolve calm_guarded : calm.
Lemma calm_invalidateVictimProfileEverywhere id :
  calm I R (invalidateVictimProfileEverywhere keyPrefix id).
Proof.
  unfold invalidateVictimProfileEverywhere, invalidateVictimProfile, invalidateEntity,
    invalidateApprovedVictimProfiles, bumpScope, invalidateStats, delKeys. calm_tac.
Qed.
Lemma calm_purgeUserCache id : calm I R (purgeUserCache keyPrefix id).
Proof.
  unfold purgeUserCache, invalidateProfile, clearSession, invalidateUnreadNotificationCount,
    invalidateMyReports, invalidateMyPosts, invalidateNotifications, bumpScope,
    invalidateEntity, delKeys. calm_tac.
Qed.
Lemma calm_setRaw c k v t : calm I R (setRaw c k v t).
Proof. apply calm_or_default. safe_tac. Qed.
Lemma calm_incrementWithTtl c k t : calm I R (incrementWithTtl c k t).
Proof. apply calm_or_default. safe_tac. Qed.
Hint Resolve calm_incrementWithTtl calm_setRaw : calm.
Lemma safe_canUseCache : ok (canUseCache keyPrefix).
Proof. unfold canUseCache, isCacheEnabled. safe_tac. Qed.
Lemma safe_jitter t : ok (jitter t).
Proof. unfold jitter. safe_tac. Qed.
Hint Resolve safe_canUseCache safe_jitter : safe.
Lemma safe_refresh k f t : ok f → ok (refresh k f t).
Proof. intros. unfold refresh. safe_tac. Qed.
Hint Resolve safe_refresh : safe.
Lemma safe_wrap k f t : ok f → ok (wrap keyPrefix k f t).
Proof. intros. unfold wrap. safe_tac. Qed.
Lemma safe_runExclusive name ttl token job :
  ok job → ok (runExclusive keyPrefix name ttl token job).
Proof. intros. unfold runExclusive. safe_tac. Qed.

(** *** The counters and locks of authentication *)
Context (sha256hex : string → string).
Lemma calm_incrementFailedLoginAttempts id :
  calm I R (incrementFailedLoginAttempts keyPrefix sha256hex id).
Proof. apply calm_incrementWithTtl. Qed.
Lemma calm_resetFailedLoginAttempts id :
  calm I R (resetFailedLoginAttempts keyPrefix sha256hex id).
Proof. apply calm_guarded. Qed.
Lemma calm_getOtpCooldown a b c : calm I R (getOtpCooldown keyPrefix a b c).
Proof.
  apply calm_bind; [apply (calm_gets I R)|intros up]. destruct (negb up); [done|].
  apply calm_or_default. safe_tac.
Qed.
Lemma calm_setOtpCooldown a b c d e : calm I R (setOtpCooldown keyPrefix a b c d e).
Proof. apply calm_setRaw. Qed.
Lemma safe_isReauthLocked id : ok (isReauthLocked keyPrefix sha256hex id).
Proof. unfold isReauthLocked. safe_tac. Qed.
Lemma safe_recordReauthFailure id n : ok (recordReauthFailure keyPrefix sha256hex id n).
Proof. unfold recordReauthFailure. safe_tac. Qed.
Lemma safe_resetReauthFailures id : ok (resetReauthFailures keyPrefix sha256hex id).
Proof. unfold resetReauthFailures. safe_tac. Qed.
End outside.

#[export] Hint Extern 1 (safe _ _ (redis_cmd _ _)) => solve [apply safe_redis_cmd; apply _] : safe.
#[export] Hint Extern 1 (safe _ _ (isConnected _)) => solve [apply safe_isConnected; apply _] : safe.
#[export] Hint Extern 1 (safe _ _ (getRawStrict _ _)) => solve [apply safe_getRawStrict; apply _] : safe.
#[export] Hint Extern 1 (safe _ _ (runExclusive _ _ _ _ _)) =>
  apply safe_runExclusive; [apply _|] : safe.
#[export] Hint Resolve
  safe_wrap safe_isReauthLocked safe_recordReauthFailure safe_resetReauthFailures : safe.
#[export] Hint Resolve calm_upd_cache calm_guarded calm_invalidateVictimProfileEverywhere
  calm_purgeUserCache calm_resetFailedLoginAttempts : calm.
#[export] Hint Extern 1 (calm _ _ (incrementFailedLoginAttempts _ _ _)) =>
  solve [apply calm_incrementFailedLoginAttempts; auto 1 with safe typeclass_instances nocore] : calm.
#[export] Hint Extern 1 (calm _ _ (getOtpCooldown _ _ _ _)) =>
  solve [apply calm_getOtpCooldown; auto 1 with safe typeclass_instances nocore] : calm.
#[export] Hint Extern 1 (calm _ _ (setOtpCooldown _ _ _ _ _ _)) =>
  solve [apply calm_setOtpCooldown; auto 1 with safe typeclass_instances nocore] : calm.
#[export] Hint Extern 3 (safe _ _ _) => simple apply calm_safe; solve [auto 3 with calm safe nocore] : safe.
