(* ===== verification/Chapa.v ===== *)
(** * The payment provider's client: [ChapaService]

    Models [src/infrastructure/chapa/chapa.service.ts]. The provider and the
    network are parameters: a request is one action of the world ([net_send])
    whose reply is whatever the world answers. Decimals are [Prisma.Decimal]
    values at the scale of the money columns ([DECIMAL(14,2)]), as a number of
    hundredths; their text form is a parameter ([DecimalIO]). *)

From S2P Require Import Prelude Js.

Open Scope Z_scope.

(** The text form of [Prisma.Decimal] (decimal.js): the constructor on a string
    and [toFixed(2)]. *)
Class DecimalIO := {
  parseDecimal : string → option Z;
  toFixed2 : Z → string;
}.

(** ** Requests and replies *)

Inductive chapa_message :=
| MsgNone
| MsgStr (s : string)
| MsgFields (kvs : list (string * list string)).

Record verify_data := {
  vd_currency : string;
  vd_amount : string;
  vd_charge : option string;
  vd_status : string;              (* 'success' | 'failed' | 'pending' *)
  vd_reference : option string;
}.

Inductive chapa_data :=
| DNone
| DCheckout (url : string)
| DVerify (d : verify_data)
| DTransfer (status : string).

Record chapa_envelope := {
  env_status : string;
  env_message : chapa_message;
  env_data : chapa_data;
}.

(** [NetFail]: [fetch] rejects (timeout, network). [NetResp s None]: the body is
    not JSON. *)
Inductive net_reply :=
| NetFail
| NetResp (http_status : Z) (body : option chapa_envelope).

Inductive chapa_body :=
| BodyNone
| BodyInit (amount currency email first_name last_name tx_ref return_url callback_url
            title description : string)
| BodyRefund (amount reference : string) (reason : option string)
| BodyTransfer (account_name account_number bank_code amount currency reference : string).

Record net_req := { nr_post : bool; nr_path : string; nr_body : chapa_body }.

Class HasNet (W : Type) := net_send : net_req → W → net_reply * W.

(** ** Pure helpers *)

Definition messageToString (msg : chapa_message) : string :=
  match msg with
  | MsgNone | MsgStr "" => "Unknown error"
  | MsgStr s => s
  | MsgFields kvs =>
      join " | " ((λ '(field, errs), field +:+ ": " +:+ join ", " errs) <$> kvs)
  end.

Definition isUncertainStatus (status : Z) : bool :=
  (500 <=? status) || (status =? 408) || (status =? 429).

(** True only when the provider clearly refused the request (a real 4xx). *)
Definition isDefiniteRejection (err : exn) : bool :=
  match err with
  | HttpException status _ =>
      (400 <=? status) && (status <? 500) && negb (status =? 408) && negb (status =? 429)
  | _ => false
  end.

(** [[^a-zA-Z0-9\-_ .]] becomes a space, runs of white space become one. *)
Definition title_char (c : ascii) : bool :=
  is_lower c || is_upper c || is_digit c || bool_decide (c ∈ ["-"; "_"; " "; "."]%char).

Fixpoint collapse_ws (s : string) : string :=
  match s with
  | EmptyString => EmptyString
  | Str c s' =>
      if is_ws c then
        match s' with
        | Str d _ => if is_ws d then collapse_ws s' else Str " "%char (collapse_ws s')
        | EmptyString => " "
        end
      else Str c (collapse_ws s')
  end.

Definition sanitize (str : string) (maxLen : nat) : string :=
  let clean := str_take maxLen
    (trim (collapse_ws (str_map (λ c, if title_char c then c else " "%char) str))) in
  str_or clean "Ehte".

(** [Buffer.from(s, 'hex')]: pairs of hex digits, up to the first bad pair. *)
Definition hex_value (c : ascii) : option nat :=
  let n := nat_of_ascii c in
  if is_digit c then Some (n - 48)%nat
  else if bool_decide (97 ≤ n ≤ 102)%nat then Some (n - 87)%nat
  else if bool_decide (65 ≤ n ≤ 70)%nat then Some (n - 55)%nat
  else None.

Fixpoint hex_decode (s : string) : string :=
  match s with
  | Str a (Str b s) =>
      match hex_value a, hex_value b with
      | Some x, Some y => Str (ascii_of_nat (x * 16 + y)) (hex_decode s)
      | _, _ => EmptyString
      end
  | _ => EmptyString
  end.

Record ChapaConfig := {
  secretKey : string;
  webhookSecret : string;
  chapa_currency : string;
  titleMaxLength : nat;
  descriptionMaxLength : nat;
}.

Section service.
Context {W : Type} `{HasNet W} `{DecimalIO}.
(** HMAC-SHA256 of Node's crypto: key, data, digest bytes. *)
Context (hmac : string → string → string).
Context (cfg : ChapaConfig).

(** *** [request]: the reply of the provider, as the value or the exception
    of the call. *)
Definition uncertain_or_refused (status : Z) (m : string) : exn :=
  if isUncertainStatus status then ServiceUnavailable m else BadRequest m.

Definition read_reply (reply : net_reply) : outcome chapa_data :=
  match reply with
  | NetFail => Err (JsError "fetch failed")
  | NetResp status None =>
      Err (uncertain_or_refused status
             ("Chapa request failed: HTTP " +:+ str_of_Z status))
  | NetResp status (Some env) =>
      let ok := (200 <=? status) && (status <=? 299) in
      if negb ok || negb (bool_decide (env_status env = "success")) then
        Err (uncertain_or_refused status
               ("Chapa request failed: " +:+
                str_or (messageToString (env_message env)) ("HTTP " +:+ str_of_Z status)))
      else Ok (env_data env)
  end.

Definition request (post : bool) (path : string) (body : chapa_body)
    : prog W chapa_data :=
  throw_if (negb (truthy (secretKey cfg)))
    (ServiceUnavailable "Payments are not configured") ;;
  reply ← act (net_send {| nr_post := post; nr_path := path; nr_body := body |});
  throw_outcome (read_reply reply).

Record init_input := {
  in_amount : Z;
  in_email : string;
  in_firstName : string;
  in_lastName : string;
  in_txRef : string;
  in_returnUrl : string;
  in_callbackUrl : string;
  in_title : string;
  in_description : string;
}.

Definition undefined_data {A} : prog W A := Throw (JsError "TypeError").

Definition initialize (input : init_input) : prog W string :=
  data ← request true "/transaction/initialize"
    (BodyInit (toFixed2 (in_amount input)) (chapa_currency cfg) (trim (in_email input))
       (trim (str_or (in_firstName input) "Supporter"))
       (trim (str_or (in_lastName input) "Ehte"))
       (in_txRef input) (in_returnUrl input) (in_callbackUrl input)
       (sanitize (in_title input) (titleMaxLength cfg))
       (sanitize (in_description input) (descriptionMaxLength cfg)));
  match data with DCheckout url => mret url | _ => undefined_data end.

Definition verify (txRef : string) : prog W verify_data :=
  data ← request false ("/transaction/verify/" +:+ encodeURIComponent txRef) BodyNone;
  match data with DVerify d => mret d | _ => undefined_data end.

(** Exact match on amount and currency. *)
Definition paidAmountMatches (returnedAmount returnedCurrency : string)
    (expectedAmount : Z) (expectedCurrency : string) : bool :=
  match parseDecimal returnedAmount with
  | None => false
  | Some a =>
      bool_decide (a = expectedAmount) &&
      bool_decide (toUpperCase returnedCurrency = toUpperCase expectedCurrency)
  end.

Definition hmacMatches (signature data : string) : bool :=
  let expected := hmac (webhookSecret cfg) data in
  let received := hex_decode (trim signature) in
  bool_decide (String.length received = String.length expected) &&
  bool_decide (received = expected).

Definition verifyWebhookSignature (rawBody : string)
    (payloadSignature secretSignature : option string) : bool :=
  if negb (truthy (webhookSecret cfg)) then false
  else match payloadSignature with
  | Some s => if truthy s then hmacMatches s rawBody else
      match secretSignature with
      | Some s => if truthy s then hmacMatches s (webhookSecret cfg) else false
      | None => false
      end
  | None =>
      match secretSignature with
      | Some s => if truthy s then hmacMatches s (webhookSecret cfg) else false
      | None => false
      end
  end.

Definition refund (chapaReference : string) (amount : Z) (reason : option string)
    (reference : string) : prog W () :=
  request true ("/refund/" +:+ encodeURIComponent chapaReference)
    (BodyRefund (toFixed2 amount) reference
      match reason with
      | Some r => if truthy r then Some (str_take 200 r) else None
      | None => None
      end) ;;
  mret ().

Definition transfer (accountName accountNumber bankCode : string) (amount : Z)
    (reference : string) : prog W () :=
  request true "/transfers"
    (BodyTransfer accountName accountNumber bankCode (toFixed2 amount)
       (chapa_currency cfg) reference) ;;
  mret ().

Definition verifyTransfer (reference : string) : prog W string :=
  data ← request false ("/transfers/verify/" +:+ encodeURIComponent reference) BodyNone;
  match data with DTransfer s => mret s | _ => undefined_data end.
End service.

(** [generateTxRef]: [hex24] is [randomBytes(12).toString('hex')]. *)
Definition generateTxRef (hex24 : string) : string := "ehte-" +:+ hex24.

(** ** Properties *)

Lemma run_request {W} `{HasNet W} (cfg : ChapaConfig) post path body w :
  secretKey cfg ≠ "" →
  run (request cfg post path body) w =
  (read_reply (net_send {| nr_post := post; nr_path := path; nr_body := body |} w).1,
   (net_send {| nr_post := post; nr_path := path; nr_body := body |} w).2).
Proof.
  intros Hk. unfold request. rewrite (proj2 (truthy_true _)) by done.
  by rewrite run_bind, run_throw_if, run_bind, run_act, run_throw_outcome.
Qed.

Lemma isDefiniteRejection_class status m :
  isDefiniteRejection (uncertain_or_refused status m) = negb (isUncertainStatus status).
Proof. unfold uncertain_or_refused. by destruct (isUncertainStatus status). Qed.

Lemma isUncertainStatus_false status :
  isUncertainStatus status = false ↔ status < 500 ∧ status ≠ 408 ∧ status ≠ 429.
Proof.
  unfold isUncertainStatus. rewrite !orb_false_iff, Z.leb_gt, !Z.eqb_neq. tauto.
Qed.

(** A failed request is a definite rejection exactly when the provider
    answered with a status that is below 500 and neither 408 nor 429: a timeout,
    a network failure and a 5xx answer are never taken for a refusal. *)
Theorem request_error_classes {W} `{HasNet W} (cfg : ChapaConfig) post path body w e w' :
  secretKey cfg ≠ "" →
  run (request cfg post path body) w = (Err e, w') →
  isDefiniteRejection e = true ↔
  ∃ status env,
    (net_send {| nr_post := post; nr_path := path; nr_body := body |} w).1
      = NetResp status env ∧
    status < 500 ∧ status ≠ 408 ∧ status ≠ 429.
Proof.
  intros Hk. rewrite run_request by done. intros [= He _].
  destruct (net_send _ w).1 as [|status [env|]]; cbn in He; simplify_eq.
  - split; [done|]. by intros (?&?&?&?).
  - destruct (negb _ || negb _); [|done]. simplify_eq.
    rewrite isDefiniteRejection_class, negb_true_iff, isUncertainStatus_false.
    naive_solver.
  - rewrite isDefiniteRejection_class, negb_true_iff, isUncertainStatus_false.
    naive_solver.
Qed.

(** A webhook is accepted only with a configured secret and a matching
    signature; when the payload signature is present it must be the HMAC of the
    very body, whatever the other header says. *)
Theorem verifyWebhookSignature_sound hmac cfg rawBody ps ss :
  verifyWebhookSignature hmac cfg rawBody ps ss = true ↔
  webhookSecret cfg ≠ "" ∧
  ((∃ s, ps = Some s ∧ s ≠ "" ∧
     hex_decode (trim s) = hmac (webhookSecret cfg) rawBody) ∨
   (default "" ps = "" ∧ ∃ s, ss = Some s ∧ s ≠ "" ∧
     hex_decode (trim s) = hmac (webhookSecret cfg) (webhookSecret cfg))).
Proof.
  assert (Hm : ∀ s d, hmacMatches hmac cfg s d = true ↔
    hex_decode (trim s) = hmac (webhookSecret cfg) d).
  { intros s d. unfold hmacMatches. rewrite andb_true_iff, !bool_decide_eq_true.
    naive_solver congruence. }
  unfold verifyWebhookSignature.
  destruct (truthy (webhookSecret cfg)) eqn:Hs; cbn;
    [apply truthy_true in Hs|apply truthy_false in Hs; naive_solver].
  destruct ps as [p|]; [destruct (truthy p) eqn:Hp|];
    [apply truthy_true in Hp; rewrite Hm; naive_solver| |];
    [apply truthy_false in Hp; subst p|];
    (destruct ss as [s|]; [destruct (truthy s) eqn:Ht|];
      [apply truthy_true in Ht; rewrite Hm; naive_solver
      |apply truthy_false in Ht; naive_solver|naive_solver]).
Qed.

(** A network that answers from a list. *)
#[export] Instance list_net : HasNet (list net_reply) := λ _ w, (hd NetFail w, tail w).

Lemma request_error_classes_witness :
  let cfg := {| secretKey := "sk"; webhookSecret := ""; chapa_currency := "ETB";
                titleMaxLength := 16; descriptionMaxLength := 50 |} in
  let e := ServiceUnavailable "Chapa request failed: HTTP 502" in
  isDefiniteRejection e = true ↔
  ∃ status env, NetResp 502 None = NetResp status env ∧ status < 500 ∧ status ≠ 408 ∧
    status ≠ 429.
Proof.
  assert (Hkey : "sk" ≠ "") by done.
  exact (request_error_classes {| secretKey := "sk"; webhookSecret := "";
    chapa_currency := "ETB"; titleMaxLength := 16; descriptionMaxLength := 50 |}
    true "/transfers" BodyNone [NetResp 502 None]
    (ServiceUnavailable "Chapa request failed: HTTP 502") [] Hkey eq_refl).
Defined.
