(* ===== verification/Roles.v ===== *)
(** * Roles and the current user

    Models [src/common/utils/role-protection.util.ts], [actor-type.util.ts] and
    [registration-state.util.ts], with the roles of
    [src/common/enums/roles.enum.ts]. *)

From S2P Require Import Prelude Js.

(** ** Roles *)

Definition SUPER_ADMIN : string := "SUPER_ADMIN".
Definition ADMIN : string := "ADMIN".
Definition USER : string := "USER".
Definition SYSTEM : string := "SYSTEM".

Definition PROTECTED_ROLE_NAMES : list string := [SUPER_ADMIN; ADMIN; SYSTEM].
Definition PERMISSION_LOCKED_ROLE_NAMES : list string := [SUPER_ADMIN; SYSTEM].
Definition NON_INVITABLE_ROLE_NAMES : list string := [USER; SYSTEM].

(** [xs.includes(x)] *)
Definition mem (x : string) (xs : list string) : bool := bool_decide (x ∈ xs).

(** [isProtected] is the optional column of the role. *)
Definition isProtectedRole (name : string) (isProtected : option bool) : bool :=
  bool_decide (isProtected = Some true) || mem name PROTECTED_ROLE_NAMES.

Definition isPermissionLockedRole (name : string) : bool :=
  mem name PERMISSION_LOCKED_ROLE_NAMES.

Definition hasStaffRole (roles : list string) : bool :=
  existsb (λ name, bool_decide (name ≠ USER) && bool_decide (name ≠ SYSTEM)) roles.

Inductive ActorType :=
| ActorUSER | ActorADMIN | ActorSUPER_ADMIN | ActorSYSTEM | ActorANONYMOUS.

#[global] Instance ActorType_eq_dec : EqDecision ActorType.
Proof. solve_decision. Defined.

Definition resolveActorType (roles : list string) : ActorType :=
  if mem "SUPER_ADMIN" roles then ActorSUPER_ADMIN
  else if mem "ADMIN" roles then ActorADMIN
  else ActorUSER.

(** [CurrentUserDto]: what the JWT strategy puts on the request. *)
Record CurrentUser := {
  cu_id : string;
  cu_roles : list string;
  cu_permissions : list string;
}.

(** [isRegistrationPending] (registration-state.util.ts) *)
Definition isRegistrationPending (passwordHash inviteTokenHash : option string)
    (isActive : bool) : bool :=
  negb (truthy (default "" passwordHash)) && truthy (default "" inviteTokenHash) &&
  negb isActive.
