(* ===== verification/PayModel.v ===== *)
(** * Payments: the data model and its atomic actions

    The tables of [prisma/schema/payment.prisma], [disbursement.prisma] and
    [payout-destination.prisma] as the payment services use them, the world they
    act on, and the SQL statements they issue, each one atomic action. Money is a
    number of hundredths ([DECIMAL(14,2)]), times are milliseconds. *)

From S2P Require Import Prelude Js Redis Cache Chapa Roles.

Open Scope Z_scope.

(** ** Tables *)

Inductive PaymentStatus := PENDING | PAID | FAILED | REVIEW_REQUIRED | REFUNDED.
Inductive DisbursementStatus := DCREATED | DSUBMITTED | DPAID | DFAILED | DUNKNOWN.

#[global] Instance PaymentStatus_eq_dec : EqDecision PaymentStatus.
Proof. solve_decision. Defined.
#[global] Instance DisbursementStatus_eq_dec : EqDecision DisbursementStatus.
Proof. solve_decision. Defined.

Record Payment := {
  p_id : string;
  p_status : PaymentStatus;
  p_victim : string;                 (* victimProfileId *)
  p_payer : option string;           (* payerUserId *)
  p_isAnonymous : bool;
  p_amount : Z;
  p_currency : string;
  p_txRef : string;                  (* unique *)
  p_chapaReference : option string;  (* unique *)
  p_chapaFee : option Z;
  p_failureReason : option string;
  p_paidAt : option Z;
  p_createdAt : Z;
  p_updatedAt : Z;
}.

Record DestinationSnapshot := {
  ds_destinationId : string;
  ds_bankName : string;
  ds_bankCode : string;
  ds_accountNumber : string;
  ds_accountHolder : string;
}.

Record Disbursement := {
  d_id : string;
  d_victim : string;
  d_status : DisbursementStatus;
  d_amount : Z;
  d_currency : string;
  d_reference : string;              (* unique *)
  d_chapaTransferRef : option string;
  d_transferFee : option Z;
  d_failureReason : option string;
  d_snapshot : DestinationSnapshot;
  d_submittedAt : option Z;
  d_paidAt : option Z;
  d_createdAt : Z;
  d_updatedAt : Z;
}.

Record PayoutDestination := {
  pd_id : string;
  pd_bankName : string;
  pd_bankCode : string;
  pd_accountNumber : string;
  pd_accountHolder : string;
  pd_isVerified : bool;
}.

Inductive VictimProfileStatus :=
| VP_PENDING | VP_UNDER_REVIEW | VP_VERIFIED | VP_CONSENT_PENDING | VP_APPROVED | VP_PUBLISHED
| VP_REJECTED | VP_UNPUBLISHED | VP_CHANGES_REQUESTED | VP_WITHDRAWN | VP_COMPLETED.

#[global] Instance VictimProfileStatus_eq_dec : EqDecision VictimProfileStatus.
Proof. solve_decision. Defined.

(** The columns of [VictimProfile] the payment services read or write. *)
Record VictimProfile := {
  vp_name : string;
  vp_involvesChild : bool;
  vp_status : VictimProfileStatus;
  vp_isPublished : bool;
  vp_isVerified : bool;
  vp_isSafetyReviewed : bool;
  vp_hasConsent : bool;
  vp_isPrivacyReviewed : bool;
  vp_isAdminApproved : bool;
  vp_deletedAt : option Z;
  vp_takedownAt : option Z;
  vp_legalHold : bool;
  vp_payoutsPaused : bool;
  vp_donationsPaused : bool;
  vp_completedAt : option Z;
  vp_fundingEndsAt : option Z;
  vp_destination : option PayoutDestination;
  vp_createdBy : option string;
  vp_totalRaised : Z;
}.

Record PayUser := { pu_email : option string; pu_name : option string; pu_phone : option string }.

(** ** Emitted events *)

Record AuditEvent := {
  ae_userId : option string;
  ae_actorType : ActorType;
  ae_action : string;
  ae_success : bool;                 (* outcome SUCCESS or FAILURE *)
  ae_severity : option string;
  ae_entity : string;
  ae_entityId : option string;
  ae_entityLabel : option string;
  ae_diff : list (string * string);
  ae_victim : option string;         (* metadata.victimProfileId *)
}.

Inductive event :=
| Audited (a : AuditEvent)
| Notified (name userId ref : string).

(** ** The world *)

Record PayW := {
  pw_payments : gmap string Payment;
  pw_disbursements : gmap string Disbursement;
  pw_profiles : gmap string VictimProfile;
  pw_users : gmap string PayUser;
  pw_events : list event;            (* newest first *)
  pw_net : list net_reply;           (* the replies of the provider to come *)
  pw_sent : list net_req;            (* the requests made, newest first *)
  pw_rand : list string;             (* random strings to come: uuids, hex, tokens *)
  pw_ppm : list Z;                   (* Math.random to come, parts per million *)
  pw_now : Z;
  pw_redis : RedisSt;
  pw_secredis : RedisSt;
  pw_cache : CacheSt;
}.

Definition set_payments f w := {|
  pw_payments := f (pw_payments w); pw_disbursements := pw_disbursements w;
  pw_profiles := pw_profiles w; pw_users := pw_users w; pw_events := pw_events w;
  pw_net := pw_net w; pw_sent := pw_sent w; pw_rand := pw_rand w; pw_ppm := pw_ppm w;
  pw_now := pw_now w; pw_redis := pw_redis w; pw_secredis := pw_secredis w;
  pw_cache := pw_cache w |}.
Definition set_disbursements f w := {|
  pw_payments := pw_payments w; pw_disbursements := f (pw_disbursements w);
  pw_profiles := pw_profiles w; pw_users := pw_users w; pw_events := pw_events w;
  pw_net := pw_net w; pw_sent := pw_sent w; pw_rand := pw_rand w; pw_ppm := pw_ppm w;
  pw_now := pw_now w; pw_redis := pw_redis w; pw_secredis := pw_secredis w;
  pw_cache := pw_cache w |}.
Definition set_profiles f w := {|
  pw_payments := pw_payments w; pw_disbursements := pw_disbursements w;
  pw_profiles := f (pw_profiles w); pw_users := pw_users w; pw_events := pw_events w;
  pw_net := pw_net w; pw_sent := pw_sent w; pw_rand := pw_rand w; pw_ppm := pw_ppm w;
  pw_now := pw_now w; pw_redis := pw_redis w; pw_secredis := pw_secredis w;
  pw_cache := pw_cache w |}.
Definition push_event e w := {|
  pw_payments := pw_payments w; pw_disbursements := pw_disbursements w;
  pw_profiles := pw_profiles w; pw_users := pw_users w; pw_events := e :: pw_events w;
  pw_net := pw_net w; pw_sent := pw_sent w; pw_rand := pw_rand w; pw_ppm := pw_ppm w;
  pw_now := pw_now w; pw_redis := pw_redis w; pw_secredis := pw_secredis w;
  pw_cache := pw_cache w |}.
(** Everything else: the provider, the randomness, the clock, Redis and the cache. *)
Definition set_outside net sent rand ppm redis sec cache w := {|
  pw_payments := pw_payments w; pw_disbursements := pw_disbursements w;
  pw_profiles := pw_profiles w; pw_users := pw_users w; pw_events := pw_events w;
  pw_net := net; pw_sent := sent; pw_rand := rand; pw_ppm := ppm;
  pw_now := pw_now w; pw_redis := redis; pw_secredis := sec; pw_cache := cache |}.

#[export] Instance PayW_redis : HasRedis PayW := {|
  redis_of c w := match c with CacheConn => pw_redis w | SecConn => pw_secredis w end;
  with_redis c r w :=
    match c with
    | CacheConn => set_outside (pw_net w) (pw_sent w) (pw_rand w) (pw_ppm w) r (pw_secredis w)
                     (pw_cache w) w
    | SecConn => set_outside (pw_net w) (pw_sent w) (pw_rand w) (pw_ppm w) (pw_redis w) r
                   (pw_cache w) w
    end;
  now_of := pw_now;
|}.

Definition pop_rand (w : PayW) : string * PayW :=
  (hd "" (pw_rand w),
   set_outside (pw_net w) (pw_sent w) (tail (pw_rand w)) (pw_ppm w) (pw_redis w)
     (pw_secredis w) (pw_cache w) w).

#[export] Instance PayW_cache : HasCache PayW := {|
  cache_of := pw_cache;
  with_cache cs w := set_outside (pw_net w) (pw_sent w) (pw_rand w) (pw_ppm w) (pw_redis w)
    (pw_secredis w) cs w;
  next_random w := (hd 0 (pw_ppm w),
    set_outside (pw_net w) (pw_sent w) (pw_rand w) (tail (pw_ppm w)) (pw_redis w)
      (pw_secredis w) (pw_cache w) w);
  next_token := pop_rand;
|}.

(** The provider answers the next reply; without one the network fails. *)
#[export] Instance PayW_net : HasNet PayW := λ req w,
  (hd NetFail (pw_net w),
   set_outside (tail (pw_net w)) (req :: pw_sent w) (pw_rand w) (pw_ppm w) (pw_redis w)
     (pw_secredis w) (pw_cache w) w).

#[export] Instance PayW_redis_laws : RedisLaws PayW.
Proof. split; [by intros []..| |]; intros []; intros []; done. Qed.
#[export] Instance PayW_cache_laws : CacheLaws PayW.
Proof. by split; try intros []; intros. Qed.

(** ** Statements *)

Definition P2002 (target : string) : exn := PrismaKnown "P2002" [target].

Definition payment_by_id (id : string) : prog PayW (option Payment) :=
  gets (λ w, pw_payments w !! id).

Definition payment_findFirst (P : Payment → bool) : prog PayW (option Payment) :=
  gets (λ w, find_row P (pw_payments w)).

(** [payment.findUnique({ where: { txRef } })] *)
Definition payment_by_txRef (txRef : string) : prog PayW (option Payment) :=
  payment_findFirst (λ p, bool_decide (p_txRef p = txRef)).

(** Some other payment already has this provider reference. *)
Definition chapaRef_taken (id : string) (r : option string) (m : gmap string Payment) : bool :=
  match r with
  | None => false
  | Some r => bool_decide (is_Some (find_row (λ q,
      bool_decide (p_id q ≠ id) && bool_decide (p_chapaReference q = Some r)) m))
  end.

(** [payment.updateMany({ where: { id, status: { in: from } }, data })]: the
    count; a reference another payment has is a unique violation. *)
Definition payment_update (id : string) (from : list PaymentStatus)
    (upd : Z → Payment → Payment) (w : PayW) : outcome Z * PayW :=
  match pw_payments w !! id with
  | Some p =>
      if bool_decide (p_status p ∈ from) then
        let p' := upd (pw_now w) p in
        if chapaRef_taken id (p_chapaReference p') (pw_payments w)
        then (Err (P2002 "chapaReference"), w)
        else (Ok 1, set_payments (insert id p') w)
      else (Ok 0, w)
  | None => (Ok 0, w)
  end.

Definition payment_updateMany id from upd : prog PayW Z :=
  act_outcome (payment_update id from upd).

(** [payment.create]: the primary key and [txRef] are unique, the profile exists. *)
Definition payment_insert (p : Payment) (w : PayW) : outcome Payment * PayW :=
  if bool_decide (is_Some (pw_payments w !! p_id p)) then (Err (P2002 "id"), w)
  else if bool_decide (is_Some (find_row (λ q, bool_decide (p_txRef q = p_txRef p))
                                  (pw_payments w)))
  then (Err (P2002 "txRef"), w)
  else match pw_profiles w !! p_victim p with
  | None => (Err (PrismaKnown "P2003" ["victimProfileId"]), w)
  | Some _ => (Ok p, set_payments (insert (p_id p) p) w)
  end.

Definition disbursement_by_id (id : string) : prog PayW (option Disbursement) :=
  gets (λ w, pw_disbursements w !! id).

Definition disbursement_findFirst (P : Disbursement → bool) : prog PayW (option Disbursement) :=
  gets (λ w, find_row P (pw_disbursements w)).

Definition disbursement_by_reference (r : string) : prog PayW (option Disbursement) :=
  disbursement_findFirst (λ d, bool_decide (d_reference d = r)).

Definition disbursement_update (id : string) (from : list DisbursementStatus)
    (upd : Z → Disbursement → Disbursement) (w : PayW) : Z * PayW :=
  match pw_disbursements w !! id with
  | Some d =>
      if bool_decide (d_status d ∈ from)
      then (1, set_disbursements (insert id (upd (pw_now w) d)) w)
      else (0, w)
  | None => (0, w)
  end.

Definition disbursement_updateMany id from upd : prog PayW Z :=
  act (disbursement_update id from upd).

Definition disbursement_insert (d : Disbursement) (w : PayW)
    : outcome Disbursement * PayW :=
  if bool_decide (is_Some (pw_disbursements w !! d_id d)) then (Err (P2002 "id"), w)
  else if bool_decide (is_Some (find_row (λ q, bool_decide (d_reference q = d_reference d))
                                  (pw_disbursements w)))
  then (Err (P2002 "reference"), w)
  else (Ok d, set_disbursements (insert (d_id d) d) w).

Definition profile_by_id (id : string) : prog PayW (option VictimProfile) :=
  gets (λ w, pw_profiles w !! id).

Definition emit (e : event) : prog PayW () := modify (push_event e).

Definition now : prog PayW Z := gets pw_now.

(** ** Sums over the tables *)

Definition pay_amount_if (P : Payment → bool) (p : Payment) : Z := if P p then p_amount p else 0.
Definition dis_amount_if (P : Disbursement → bool) (d : Disbursement) : Z :=
  if P d then d_amount d else 0.

Definition is_paid_of (v : string) (p : Payment) : bool :=
  bool_decide (p_victim p = v) && bool_decide (p_status p = PAID).
Definition is_status_of (v : string) (s : DisbursementStatus) (d : Disbursement) : bool :=
  bool_decide (d_victim d = v) && bool_decide (d_status d = s).

(** The confirmed donations of a victim. *)
Definition raised_of (v : string) (w : PayW) : Z :=
  sumZ (pay_amount_if (is_paid_of v)) (pw_payments w).
Definition dis_sum (v : string) (s : DisbursementStatus) (w : PayW) : Z :=
  sumZ (dis_amount_if (is_status_of v s)) (pw_disbursements w).

(** ** Running the statements *)
Section run_statements.
Implicit Types w : PayW.
Lemma run_payment_by_id id w : run (payment_by_id id) w = (Ok (pw_payments w !! id), w).
Proof. done. Qed.
Lemma run_payment_findFirst P w :
  run (payment_findFirst P) w = (Ok (find_row P (pw_payments w)), w).
Proof. done. Qed.
Lemma run_payment_by_txRef r w :
  run (payment_by_txRef r) w =
  (Ok (find_row (λ p, bool_decide (p_txRef p = r)) (pw_payments w)), w).
Proof. done. Qed.
Lemma run_payment_updateMany id from upd w :
  run (payment_updateMany id from upd) w = payment_update id from upd w.
Proof. apply run_act_outcome. Qed.
Lemma run_disbursement_by_id id w :
  run (disbursement_by_id id) w = (Ok (pw_disbursements w !! id), w).
Proof. done. Qed.
Lemma run_disbursement_findFirst P w :
  run (disbursement_findFirst P) w = (Ok (find_row P (pw_disbursements w)), w).
Proof. done. Qed.
Lemma run_disbursement_by_reference r w :
  run (disbursement_by_reference r) w =
  (Ok (find_row (λ d, bool_decide (d_reference d = r)) (pw_disbursements w)), w).
Proof. done. Qed.
Lemma run_disbursement_updateMany id from upd w :
  run (disbursement_updateMany id from upd) w =
  (Ok (disbursement_update id from upd w).1, (disbursement_update id from upd w).2).
Proof. apply run_act. Qed.
Lemma run_profile_by_id id w : run (profile_by_id id) w = (Ok (pw_profiles w !! id), w).
Proof. done. Qed.
Lemma run_emit e w : run (emit e) w = (Ok (), push_event e w).
Proof. done. Qed.
Lemma run_now w : run now w = (Ok (pw_now w), w).
Proof. done. Qed.
End run_statements.

#[export] Hint Rewrite run_payment_by_id run_payment_findFirst run_payment_by_txRef
  run_payment_updateMany run_disbursement_by_id run_disbursement_findFirst
  run_disbursement_by_reference run_disbursement_updateMany run_profile_by_id run_emit
  run_now : prog.

#[global] Arguments pop_rand : simpl never.
#[global] Arguments payment_update : simpl never.
#[global] Arguments payment_insert : simpl never.
#[global] Arguments disbursement_update : simpl never.
#[global] Arguments disbursement_insert : simpl never.
