(* ===== verification/Payout.v ===== *)
(** * [PayoutService]: balances, transfers, and the safety-net job

    Models [src/modules/payments/service/payout.service.ts]. *)

From S2P Require Import Prelude Js Redis Cache Chapa Roles PayModel.

Open Scope Z_scope.

Definition ACTIVE_DISBURSEMENT : list DisbursementStatus := [DCREATED; DSUBMITTED; DUNKNOWN].

Definition maskAccount (n : option string) : option string :=
  match n with
  | Some n => if truthy n
      then Some (repeat "•" (String.length n - 4) +:+ slice_last 4 n) else None
  | None => None
  end.

Record VictimBalance := {
  bal_raised : Z;     (* confirmed donations (PAID) *)
  bal_sent : Z;       (* transfers the provider confirmed (PAID) *)
  bal_onTheWay : Z;   (* CREATED + SUBMITTED + UNKNOWN *)
  bal_waiting : Z;    (* confirmed, not yet part of any transfer *)
}.

(** The rows of the [groupBy]: each status with at least one row, and its sum. *)
Definition all_statuses : list DisbursementStatus :=
  [DCREATED; DSUBMITTED; DPAID; DFAILED; DUNKNOWN].
Definition disbursement_groups (v : string) (w : PayW) : list (DisbursementStatus * Z) :=
  (λ s, (s, dis_sum v s w)) <$>
    filter (λ s, is_Some (find_row (is_status_of v s) (pw_disbursements w))) all_statuses.

Definition add_group (acc : Z * Z) (g : DisbursementStatus * Z) : Z * Z :=
  let '(sent, onTheWay) := acc in
  let '(status, amount) := g in
  if bool_decide (status = DPAID) then (sent + amount, onTheWay)
  else if bool_decide (status ∈ ACTIVE_DISBURSEMENT) then (sent, onTheWay + amount)
  else (sent, onTheWay).

Definition mk_balance (raised : Z) (groups : list (DisbursementStatus * Z)) : VictimBalance :=
  let '(sent, onTheWay) := foldl add_group (0, 0) groups in
  let left := raised - sent - onTheWay in
  {| bal_raised := raised; bal_sent := sent; bal_onTheWay := onTheWay;
     bal_waiting := if left <? 0 then 0 else left |}.

Definition getBalance (v : string) : prog PayW VictimBalance :=
  raised ← gets (raised_of v);
  groups ← gets (disbursement_groups v);
  mret (mk_balance raised groups).

Record PayoutConfig := {
  po_enabled : bool;
  po_currency : string;
  po_minTransfer : Z;
  po_retryAfterFailureMinutes : Z;
  po_timeoutMinutes : Z;
}.

Definition with_d_status (s : DisbursementStatus) (reason : option (option string))
    (submittedAt paidAt : option (option Z)) (t : Z) (d : Disbursement) : Disbursement := {|
  d_id := d_id d; d_victim := d_victim d; d_status := s; d_amount := d_amount d;
  d_currency := d_currency d; d_reference := d_reference d;
  d_chapaTransferRef := d_chapaTransferRef d; d_transferFee := d_transferFee d;
  d_failureReason := default (d_failureReason d) reason; d_snapshot := d_snapshot d;
  d_submittedAt := default (d_submittedAt d) submittedAt;
  d_paidAt := default (d_paidAt d) paidAt;
  d_createdAt := d_createdAt d; d_updatedAt := t |}.

Inductive prepared :=
| Skip (reason : string)
| Prepared (d : Disbursement).

Record payout_result := { pr_disbursementId : option string; pr_reason : option string }.

Section payout.
Context `{DecimalIO} (cfg : PayoutConfig) (ccfg : ChapaConfig) (keyPrefix : string).
Implicit Types actor : option CurrentUser.

Definition audit_disbursement (action : string) (d : Disbursement) actor
    (diff : list (string * string)) (success : bool) : prog PayW () :=
  emit (Audited {|
    ae_userId := cu_id <$> actor;
    ae_actorType := match actor with Some a => resolveActorType (cu_roles a)
                                   | None => ActorSYSTEM end;
    ae_action := action; ae_success := success; ae_severity := Some "WARNING";
    ae_entity := "Disbursement"; ae_entityId := Some (d_id d);
    ae_entityLabel := Some (d_reference d); ae_diff := diff;
    ae_victim := Some (d_victim d) |}).

(** *** Deciding and recording one transfer (the transaction of [runForVictim]) *)
Definition prepare (v : string) : prog PayW prepared :=
  profile ← profile_by_id v;
  p ← require profile (NotFound "victim_profile_not_found");
  if vp_payoutsPaused p then mret (Skip "payouts_paused")
  else if bool_decide (is_Some (vp_deletedAt p)) || bool_decide (is_Some (vp_takedownAt p))
          || vp_legalHold p then mret (Skip "profile_blocked")
  else match vp_destination p with
  | None => mret (Skip "no_verified_destination")
  | Some dest =>
    if negb (pd_isVerified dest) then mret (Skip "no_verified_destination") else
    active ← disbursement_findFirst (λ d,
      bool_decide (d_victim d = v) && bool_decide (d_status d ∈ ACTIVE_DISBURSEMENT));
    if bool_decide (is_Some active) then mret (Skip "transfer_in_progress") else
    t ← now;
    let since := t - po_retryAfterFailureMinutes cfg * 60000 in
    recentFailure ← disbursement_findFirst (λ d,
      bool_decide (d_victim d = v) && bool_decide (d_status d = DFAILED) &&
      (since <? d_updatedAt d));
    if bool_decide (is_Some recentFailure) then mret (Skip "recent_failure") else
    balance ← getBalance v;
    if bal_waiting balance <? po_minTransfer cfg then mret (Skip "nothing_to_send") else
    hex ← act pop_rand;
    id ← act pop_rand;
    d ← act_outcome (disbursement_insert {|
      d_id := id; d_victim := v; d_status := DCREATED;
      d_amount := bal_waiting balance; d_currency := po_currency cfg;
      d_reference := "ehte-tr-" +:+ hex; d_chapaTransferRef := None;
      d_transferFee := None; d_failureReason := None;
      d_snapshot := {|
        ds_destinationId := pd_id dest; ds_bankName := pd_bankName dest;
        ds_bankCode := pd_bankCode dest; ds_accountNumber := pd_accountNumber dest;
        ds_accountHolder := pd_accountHolder dest |};
      d_submittedAt := None; d_paidAt := None; d_createdAt := t; d_updatedAt := t |});
    mret (Prepared d)
  end.

Definition markPaid (d : Disbursement) actor : prog PayW () :=
  count ← disbursement_updateMany (d_id d) ACTIVE_DISBURSEMENT
    (λ t, with_d_status DPAID (Some None) None (Some (Some t)) t);
  if count =? 0 then mret () else
  audit_disbursement "DISBURSEMENT_EXECUTED" d actor
    [("amount", toFixed2 (d_amount d))] true ;;
  profile ← profile_by_id (d_victim d);
  match profile ≫= vp_createdBy with
  | Some userId =>
      if truthy userId
      then emit (Notified "notification.disbursement_paid_out" userId (d_id d))
      else mret ()
  | None => mret ()
  end.

Definition markFailed (id reason : string) actor : prog PayW () :=
  count ← disbursement_updateMany id ACTIVE_DISBURSEMENT
    (λ t, with_d_status DFAILED (Some (Some reason)) None None t);
  if count =? 0 then mret () else
  d ← disbursement_by_id id;
  match d with
  | Some d => audit_disbursement "DISBURSEMENT_FAILED" d actor [("reason", reason)] false
  | None => mret ()
  end.

(** *** [runForVictim] *)
Definition runForVictim (v : string) actor : prog PayW payout_result :=
  if negb (po_enabled cfg)
  then mret {| pr_disbursementId := None; pr_reason := Some "payments_disabled" |} else
  pre ← transaction (prepare v);
  match pre with
  | Skip r => mret {| pr_disbursementId := None; pr_reason := Some r |}
  | Prepared d =>
      let snapshot := d_snapshot d in
      audit_disbursement "DISBURSEMENT_CREATED" d actor
        [("amount", toFixed2 (d_amount d));
         ("accountNumberMasked",
           default "null" (maskAccount (Some (ds_accountNumber snapshot))))] true ;;
      catch
        (transfer ccfg (ds_accountHolder snapshot) (ds_accountNumber snapshot)
           (ds_bankCode snapshot) (d_amount d) (d_reference d) ;;
         disbursement_updateMany (d_id d) [DCREATED]
           (λ t, with_d_status DSUBMITTED None (Some (Some t)) None t) ;;
         mret ())
        (λ err,
          let message := str_take 500 (exn_message err) in
          if isDefiniteRejection err then markFailed (d_id d) message actor
          else
            disbursement_updateMany (d_id d) [DCREATED]
              (λ t, with_d_status DUNKNOWN (Some (Some "chapa_no_clear_answer")) None None t) ;;
            mret ()) ;;
      mret {| pr_disbursementId := Some (d_id d); pr_reason := None |}
  end.

(** *** [checkDisbursement]: asks the provider about an unclear transfer *)
Definition checkDisbursement (id : string) actor : prog PayW Disbursement :=
  found ← disbursement_by_id id;
  d ← require found (NotFound "disbursement_not_found");
  if negb (bool_decide (d_status d ∈ ACTIVE_DISBURSEMENT)) then mret d else
  t ← now;
  let ageMs := t - d_createdAt d in
  status ← attempt (s ← verifyTransfer ccfg (d_reference d); mret (toLowerCase s));
  match status with
  | Err err =>
      (if isDefiniteRejection err && (po_timeoutMinutes cfg * 60000 <=? ageMs)
       then markFailed (d_id d) "not_found_at_chapa_after_timeout" actor else mret ()) ;;
      fresh ← disbursement_by_id id;
      mret (default d fresh)
  | Ok status =>
      (if bool_decide (status = "success") then markPaid d actor
       else if bool_decide (status = "failed") || bool_decide (status = "reverted")
       then markFailed (d_id d) ("chapa_" +:+ status) actor
       else if bool_decide (d_status d ≠ DSUBMITTED) then
         disbursement_updateMany (d_id d) [DCREATED; DUNKNOWN]
           (λ t, with_d_status DSUBMITTED None
                   (Some (Some (default t (d_submittedAt d)))) None t) ;;
         mret ()
       else mret ()) ;;
      fresh ← disbursement_by_id id;
      mret (default d fresh)
  end.

Definition checkByReference (reference : string) : prog PayW () :=
  d ← disbursement_by_reference reference;
  match d with
  | Some d => checkDisbursement (d_id d) None ;; mret ()
  | None => mret ()
  end.

(** *** [sweep]: the timer job. The two queries return rows in some order, cut
    to their [take]; [order_stale] and [order_victims] are that order. *)
Context (order_stale : gmap string Disbursement → list string)
        (order_victims : gmap string Payment → list string).

Definition stale_rows (t : Z) (m : gmap string Disbursement) : gmap string Disbursement :=
  filter (λ '(_, d), d_status d ∈ ACTIVE_DISBURSEMENT ∧ d_updatedAt d < t - 120000) m.

Definition paid_rows (w : PayW) : gmap string Payment :=
  filter (λ '(_, p), p_status p = PAID ∧
    (vp_payoutsPaused <$> pw_profiles w !! p_victim p) = Some false) (pw_payments w).

Definition sweep_job : prog PayW () :=
  stale ← gets (λ w, take 100 (order_stale (stale_rows (pw_now w) (pw_disbursements w))));
  for_each (λ id, attempt (checkDisbursement id None) ;; mret ()) stale ;;
  victims ← gets (λ w, take 1000 (order_victims (paid_rows w)));
  for_each (λ v, attempt (runForVictim v None) ;; mret ()) victims.

Definition sweep : prog PayW () :=
  if negb (po_enabled cfg) then mret () else
  token ← act pop_rand;
  runExclusive keyPrefix "payout-sweep" (4 * 60000) token sweep_job ;;
  mret ().
End payout.

(** ** The balance is the sums over the tables *)

Lemma is_status_sum_zero v s w :
  ¬ is_Some (find_row (is_status_of v s) (pw_disbursements w)) → dis_sum v s w = 0.
Proof.
  rewrite <- eq_None_not_Some, find_row_None. intros Hn.
  apply sumZ_zero. intros i d Hd. unfold dis_amount_if. by rewrite (Hn _ _ Hd).
Qed.

Definition sum_active (v : string) (w : PayW) : Z :=
  dis_sum v DCREATED w + dis_sum v DSUBMITTED w + dis_sum v DUNKNOWN w.

Definition balance_spec (v : string) (w : PayW) : VictimBalance := {|
  bal_raised := raised_of v w;
  bal_sent := dis_sum v DPAID w;
  bal_onTheWay := sum_active v w;
  bal_waiting := Z.max 0 (raised_of v w - dis_sum v DPAID w - sum_active v w) |}.

Lemma add_group_eq x y s a :
  add_group (x, y) (s, a) =
  match s with DPAID => (x + a, y) | DFAILED => (x, y) | _ => (x, y + a) end.
Proof. by destruct s. Qed.

Lemma add_groups v w :
  foldl add_group (0, 0) (disbursement_groups v w) = (dis_sum v DPAID w, sum_active v w).
Proof.
  pose proof (λ s, is_status_sum_zero v s w) as Hz.
  unfold disbursement_groups, all_statuses, sum_active.
  repeat match goal with
  | |- context [filter _ (?s :: _)] =>
      rewrite filter_cons; destruct (decide (is_Some (find_row (is_status_of v s) _)));
      [|rewrite ?(Hz s) by done]
  end.
  all: cbn [foldl fmap list_fmap filter list_filter]; rewrite ?add_group_eq; f_equal; lia.
Qed.

Lemma mk_balance_spec v w :
  mk_balance (raised_of v w) (disbursement_groups v w) = balance_spec v w.
Proof.
  unfold mk_balance. rewrite add_groups. unfold balance_spec. f_equal.
  destruct (Z.ltb_spec (raised_of v w - dis_sum v DPAID w - sum_active v w) 0); lia.
Qed.

Lemma run_getBalance v w : run (getBalance v) w = (Ok (balance_spec v w), w).
Proof. unfold getBalance. run_simpl. by rewrite mk_balance_spec. Qed.

#[export] Hint Rewrite run_getBalance : prog.
#[global] Arguments getBalance v : simpl never.
