(* ===== verification/Webhook.v ===== *)
(** * [ChapaWebhookService] and its controller

    Models [src/modules/payments/service/chapa-webhook.service.ts] (settling a
    payment, approving a transfer) and
    [src/modules/payments/controller/chapa-webhook.controller.ts]. *)

From S2P Require Import Prelude Js Redis Cache Chapa Roles PayModel Payout.

Open Scope Z_scope.

Record SettleResult := {
  sr_status : PaymentStatus;
  sr_amount : string;
  sr_currency : string;
}.

Definition with_status (s : PaymentStatus) (p : Payment) : Payment := {|
  p_id := p_id p; p_status := s; p_victim := p_victim p; p_payer := p_payer p;
  p_isAnonymous := p_isAnonymous p; p_amount := p_amount p; p_currency := p_currency p;
  p_txRef := p_txRef p; p_chapaReference := p_chapaReference p; p_chapaFee := p_chapaFee p;
  p_failureReason := p_failureReason p; p_paidAt := p_paidAt p;
  p_createdAt := p_createdAt p; p_updatedAt := p_updatedAt p |}.

(** An update of a payment row; [updatedAt] follows the clock. *)
Definition upd_payment (s : PaymentStatus) (amount : Z) (ref : option string)
    (fee : option Z) (reason : option string) (paidAt : option Z) (t : Z) (p : Payment)
    : Payment := {|
  p_id := p_id p; p_status := s; p_victim := p_victim p; p_payer := p_payer p;
  p_isAnonymous := p_isAnonymous p; p_amount := amount; p_currency := p_currency p;
  p_txRef := p_txRef p; p_chapaReference := ref; p_chapaFee := fee;
  p_failureReason := reason; p_paidAt := paidAt;
  p_createdAt := p_createdAt p; p_updatedAt := t |}.

(** [data: { status, failureReason }] *)
Definition upd_failed (reason : string) (t : Z) (p : Payment) : Payment :=
  upd_payment FAILED (p_amount p) (p_chapaReference p) (p_chapaFee p) (Some reason)
    (p_paidAt p) t p.

(** [data: { status: REVIEW_REQUIRED, chapaReference, failureReason }] *)
Definition upd_review (ref : option string) (reason : string) (t : Z) (p : Payment)
    : Payment :=
  upd_payment REVIEW_REQUIRED (p_amount p) ref (p_chapaFee p) (Some reason) (p_paidAt p) t p.

(** [data: { status: PAID, amount, paidAt: new Date(), chapaReference, chapaFee,
    failureReason: null }] *)
Definition upd_paid (amount : Z) (ref : option string) (fee : option Z) (t : Z)
    (p : Payment) : Payment :=
  upd_payment PAID amount ref fee None (Some t) t p.

Definition add_raised (n : Z) (p : VictimProfile) : VictimProfile := {|
  vp_name := vp_name p; vp_involvesChild := vp_involvesChild p;
  vp_status := vp_status p; vp_isPublished := vp_isPublished p;
  vp_isVerified := vp_isVerified p; vp_isSafetyReviewed := vp_isSafetyReviewed p;
  vp_hasConsent := vp_hasConsent p; vp_isPrivacyReviewed := vp_isPrivacyReviewed p;
  vp_isAdminApproved := vp_isAdminApproved p; vp_deletedAt := vp_deletedAt p;
  vp_takedownAt := vp_takedownAt p; vp_legalHold := vp_legalHold p;
  vp_payoutsPaused := vp_payoutsPaused p; vp_donationsPaused := vp_donationsPaused p;
  vp_completedAt := vp_completedAt p; vp_fundingEndsAt := vp_fundingEndsAt p;
  vp_destination := vp_destination p; vp_createdBy := vp_createdBy p;
  vp_totalRaised := vp_totalRaised p + n |}.

(** [victimProfile.update({ data: { totalRaised: { increment } } })] *)
Definition profile_increment (v : string) (n : Z) (w : PayW) : outcome () * PayW :=
  match pw_profiles w !! v with
  | Some p => (Ok (), set_profiles (insert v (add_raised n p)) w)
  | None => (Err (PrismaKnown "P2025" []), w)
  end.

(** [TransferApprovalDto] *)
Record ApprovalDto := {
  ta_amount : string;
  ta_reference : string;
  ta_account_name : string;
  ta_account_number : string;
}.

(** [typeof v === 'string' && v.trim() ? v.trim() : null] *)
Definition str (v : option json) : option string :=
  match v with
  | Some (JStr s) => if truthy (trim s) then Some (trim s) else None
  | _ => None
  end.

(** [payload.k]: of [null] it is a TypeError, of what is not an object undefined. *)
Definition field {W} (k : string) (payload : json) : prog W (option json) :=
  match payload with
  | JNull => Throw (JsError "TypeError")
  | JObj kvs => mret (assoc k kvs)
  | _ => mret None
  end.

(** [disbursement.findUnique({ where: { reference }, include: { victimProfile } })] *)
Definition disbursement_with_profile (ref : string) (w : PayW)
    : option (Disbursement * VictimProfile) :=
  match find_row (λ d, bool_decide (d_reference d = ref)) (pw_disbursements w) with
  | Some d => (λ p, (d, p)) <$> pw_profiles w !! d_victim d
  | None => None
  end.

Definition settled_statuses : list PaymentStatus := [PAID; REFUNDED].
Definition open_disbursement : list DisbursementStatus := [DCREATED; DSUBMITTED].

Section webhook.
Context `{DecimalIO} (cfg : PayoutConfig) (ccfg : ChapaConfig) (keyPrefix : string).

Definition result_of (status : PaymentStatus) (amount : Z) (currency : string)
    : SettleResult :=
  {| sr_status := status; sr_amount := toFixed2 amount; sr_currency := currency |}.
Definition result (p : Payment) : SettleResult :=
  result_of (p_status p) (p_amount p) (p_currency p).

Definition auditPayment (action : string) (p : Payment) (diff : list (string * string))
    (success : bool) : prog PayW () :=
  emit (Audited {|
    ae_userId := None; ae_actorType := ActorSYSTEM; ae_action := action;
    ae_success := success;
    ae_severity := Some (if success then "INFO" else "WARNING");
    ae_entity := "Payment"; ae_entityId := Some (p_id p); ae_entityLabel := None;
    ae_diff := diff; ae_victim := Some (p_victim p) |}).

(** [new Prisma.Decimal(s)], which throws on text that is no number. *)
Definition decimal {W} (s : string) : prog W Z :=
  require (parseDecimal s) (JsError "DecimalError").

Definition mismatch_reason (p : Payment) (data : verify_data) : string :=
  "amount_mismatch expected=" +:+ toFixed2 (p_amount p) +:+ " got=" +:+ vd_amount data
    +:+ " " +:+ vd_currency data.

(** The transaction that records a paid payment; [false] when another caller
    already settled it. *)
Definition record_paid (p : Payment) (from : list PaymentStatus) (paidAmount : Z)
    (data : verify_data) : prog PayW bool :=
  fee ← match vd_charge data with
        | Some c => f ← decimal c; mret (Some f)
        | None => mret None
        end;
  count ← payment_updateMany (p_id p) from (upd_paid paidAmount (vd_reference data) fee);
  if count =? 0 then mret false else
  act_outcome (profile_increment (p_victim p) paidAmount) ;;
  mret true.

Definition settlePayment (txRef : string) (acceptAmountMismatch : bool)
    : prog PayW SettleResult :=
  found ← payment_by_txRef txRef;
  payment ← require found (NotFound "payment_not_found");
  if bool_decide (p_status payment ∈ settled_statuses) then mret (result payment) else
  if bool_decide (p_status payment = REVIEW_REQUIRED) && negb acceptAmountMismatch
  then mret (result payment) else
  data ← verify ccfg txRef;
  if bool_decide (vd_status data = "failed") then
    payment_updateMany (p_id payment) [PENDING] (upd_failed "chapa_reported_failed") ;;
    auditPayment "PAYMENT_FAILED" payment [] false ;;
    mret (result (with_status FAILED payment))
  else if negb (bool_decide (vd_status data = "success")) then mret (result payment) else
  let matches :=
    paidAmountMatches (vd_amount data) (vd_currency data) (p_amount payment)
      (p_currency payment) in
  if negb matches && negb acceptAmountMismatch then
    payment_updateMany (p_id payment) [PENDING]
      (upd_review (vd_reference data) (mismatch_reason payment data)) ;;
    auditPayment "PAYMENT_MISMATCH" payment
      [("expected", toFixed2 (p_amount payment)); ("got", vd_amount data);
       ("currency", vd_currency data)] false ;;
    mret (result (with_status REVIEW_REQUIRED payment))
  else
  paidAmount ← decimal (vd_amount data);
  if negb (bool_decide (toUpperCase (vd_currency data) = toUpperCase (p_currency payment)))
  then mret (result payment) else
  let from := if acceptAmountMismatch then [PENDING; REVIEW_REQUIRED] else [PENDING] in
  won ← transaction (record_paid payment from paidAmount data);
  if negb won then
    fresh ← payment_by_id (p_id payment);
    mret (result (default payment fresh))
  else
  invalidateVictimProfileEverywhere keyPrefix (p_victim payment) ;;
  auditPayment "PAYMENT_PAID" payment
    [("amount", toFixed2 paidAmount); ("chapaFee", default "null" (vd_charge data))] true ;;
  match p_payer payment with
  | Some u =>
      if truthy u then emit (Notified "notification.payment_verified" u (p_id payment))
      else mret ()
  | None => mret ()
  end ;;
  attempt (runForVictim cfg ccfg (p_victim payment) None) ;;
  mret (result_of PAID paidAmount (p_currency payment)).

(** *** [handleEvent] *)
Definition handleEvent (payload : json) : prog PayW () :=
  tx ← field "tx_ref" payload;
  match str tx with
  | Some txRef => settlePayment txRef false ;; mret ()
  | None =>
      r1 ← field "reference" payload;
      r2 ← field "transfer_reference" payload;
      match (match str r1 with Some r => Some r | None => str r2 end) with
      | Some ref => checkByReference cfg ccfg ref
      | None =>
          emit (Audited {|
            ae_userId := None; ae_actorType := ActorSYSTEM;
            ae_action := "PAYMENT_WEBHOOK_PAYLOAD_INVALID"; ae_success := false;
            ae_severity := None; ae_entity := "ProviderEvent"; ae_entityId := None;
            ae_entityLabel := None; ae_diff := []; ae_victim := None |})
      end
  end.

(** *** [approveTransfer]: the last gate before money leaves *)
Definition profile_closed (p : VictimProfile) : bool :=
  vp_payoutsPaused p || bool_decide (is_Some (vp_deletedAt p)) ||
  bool_decide (is_Some (vp_takedownAt p)) || vp_legalHold p.

(** The checks on the record, in the code's order. *)
Definition approval_record_ok (dto : ApprovalDto) (d : Disbursement) (p : VictimProfile)
    : bool :=
  let snap := d_snapshot d in
  bool_decide (d_status d ∈ open_disbursement) &&
  bool_decide (parseDecimal (ta_amount dto) = Some (d_amount d)) &&
  bool_decide (ds_accountNumber snap = ta_account_number dto) &&
  bool_decide (toLowerCase (trim (ds_accountHolder snap)) =
               toLowerCase (trim (ta_account_name dto))) &&
  negb (profile_closed p) &&
  match vp_destination p with
  | Some dest => pd_isVerified dest &&
      bool_decide (pd_accountNumber dest = ds_accountNumber snap)
  | None => false
  end.

Definition approveTransfer (dto : ApprovalDto) : prog PayW bool :=
  row ← gets (disbursement_with_profile (ta_reference dto));
  match row with
  | None => mret false
  | Some (d, p) =>
      if negb (approval_record_ok dto d p) then mret false else
      balance ← getBalance (d_victim d);
      let others := bal_sent balance + bal_onTheWay balance - d_amount d in
      mret (negb (bal_raised balance - others <? d_amount d))
  end.

(** *** The controller *)
Context (hmac : string → string → string) (parseJson : string → option json).

Definition events (rawBody : option string) (payloadSignature secretSignature : option string)
    : prog PayW () :=
  raw ← require rawBody (BadRequest "raw_body_missing");
  throw_if (negb (verifyWebhookSignature hmac ccfg raw payloadSignature secretSignature))
    (Unauthorized "invalid_signature") ;;
  payload ← require (parseJson raw) (BadRequest "invalid_json");
  handleEvent payload.

Definition approveTransfer_endpoint (body : ApprovalDto) (signature : option string)
    : prog PayW () :=
  throw_if (negb (verifyWebhookSignature hmac ccfg "" None signature))
    (BadRequest "transfer_rejected") ;;
  approved ← or_default (approveTransfer body) false;
  throw_if (negb approved) (BadRequest "transfer_rejected").
End webhook.
