(* ===== verification/Donation.v ===== *)
(** * [DonationService]

    Models [src/modules/payments/service/donation.service.ts]: starting a
    donation (with its idempotency key), the donor's return page, the donor's own
    list and the public totals. *)

From S2P Require Import Prelude Js Redis Cache Chapa Roles PayModel Payout Webhook.

Open Scope Z_scope.

(** ** [PUBLIC_PROFILE_WHERE]: fully reviewed, published, not deleted *)
Definition public_profile (p : VictimProfile) : bool :=
  bool_decide (vp_status p = VP_PUBLISHED) && vp_isPublished p && vp_isVerified p &&
  vp_isSafetyReviewed p && vp_hasConsent p && vp_isPrivacyReviewed p &&
  vp_isAdminApproved p && bool_decide (vp_deletedAt p = None).

Definition PUBLIC_TOTALS_TTL_SECONDS : Z := 30.
Definition CHECKOUT_URL_TTL_SECONDS : Z := 24 * 60 * 60.

Record DonationConfig := {
  dc_enabled : bool;
  dc_currency : string;
  dc_minAmount : Z;
  dc_returnUrl : string;
  dc_callbackUrl : string;
  dc_fallbackEmail : string;
}.

Record CreateDonationDto := {
  cd_victimProfileId : string;
  cd_amount : string;
  cd_isAnonymous : option bool;
}.

Record StartDonationResult := {
  sd_paymentId : string;
  sd_txRef : string;
  sd_checkoutUrl : string;
}.

(** ** Pages: [skip: (page - 1) * limit, take: limit] *)
Record PageMeta := { pm_page : Z; pm_limit : Z; pm_total : Z; pm_totalPages : Z }.

Definition page_of {A} (page limit : Z) (xs : list A) : list A :=
  take (Z.to_nat limit) (drop (Z.to_nat ((page - 1) * limit)) xs).
Definition page_meta (page limit total : Z) : PageMeta :=
  {| pm_page := page; pm_limit := limit; pm_total := total;
     pm_totalPages := (total + limit - 1) `div` limit |}.

(** A row of [findMine]. *)
Record MyDonation := {
  md_id : string; md_txRef : string; md_status : PaymentStatus; md_amount : string;
  md_currency : string; md_isAnonymous : bool; md_paidAt : option Z; md_createdAt : Z;
  md_victimId : string; md_victimName : option string;
}.

(** The name of a profile as the donation and payment pages show it: never a child's. *)
Definition shown_name (p : VictimProfile) : option string :=
  if vp_involvesChild p then None else Some (vp_name p).

Section donation.
Context `{DecimalIO} (cfg : DonationConfig) (pcfg : PayoutConfig) (ccfg : ChapaConfig).
Context (keyPrefix : string).
(** Node's sha256 (hex), decimal.js' [toFixed(0)], and the WHATWG URL: the
    return page with its [tx_ref], [None] when the page is no URL. *)
Context (sha256hex : string → string) (toFixed0 : Z → string)
        (url_with_tx_ref : string → string → option string).

Definition audit_donation (action : string) (p : Payment) (actor : CurrentUser)
    (diff : list (string * string)) (success : bool) : prog PayW () :=
  emit (Audited {|
    ae_userId := Some (cu_id actor); ae_actorType := resolveActorType (cu_roles actor);
    ae_action := action; ae_success := success;
    ae_severity := Some (if success then "INFO" else "WARNING");
    ae_entity := "Payment"; ae_entityId := Some (p_id p); ae_entityLabel := None;
    ae_diff := diff; ae_victim := Some (p_victim p) |}).

Definition parseAmount (value : string) : outcome Z :=
  match parseDecimal value with
  | None => Err (BadRequest "amount_invalid")
  | Some amount =>
      if amount <? dc_minAmount cfg
      then Err (BadRequest ("amount_below_minimum_" +:+ toFixed0 (dc_minAmount cfg)))
      else Ok amount
  end.

Definition cleanKey (key : option string) : outcome (option string) :=
  let k := trim (default "" key) in
  if negb (truthy k) then Ok None
  else if bool_decide (String.length k < 8)%nat || bool_decide (100 < String.length k)%nat
  then Err (BadRequest "idempotency_key_invalid")
  else Ok (Some k).

Definition buildReturnUrl (txRef : string) : outcome string :=
  match url_with_tx_ref (dc_returnUrl cfg) txRef with
  | Some url => Ok url
  | None => Err (ServiceUnavailable "payments_return_url_invalid")
  end.

(** [findFirst({ where: { id, ...PUBLIC_PROFILE_WHERE } })] *)
Definition public_profile_by_id (id : string) : prog PayW (option VictimProfile) :=
  gets (λ w, match pw_profiles w !! id with
             | Some p => if public_profile p then Some p else None
             | None => None
             end).

(** Whether a public profile may take money now. *)
Definition donatable (t : Z) (p : VictimProfile) : outcome () :=
  if vp_donationsPaused p then Err (Conflict "donations_paused")
  else if bool_decide (is_Some (vp_takedownAt p)) || vp_legalHold p
  then Err (Conflict "profile_not_accepting_donations")
  else if bool_decide (is_Some (vp_completedAt p)) then Err (Conflict "profile_completed")
  else if match vp_fundingEndsAt p with Some e => e <? t | None => false end
  then Err (Conflict "funding_ended")
  else if negb match vp_destination p with Some d => pd_isVerified d | None => false end
  then Err (Conflict "profile_not_accepting_donations")
  else Ok ().

Definition getDonatableProfile (id : string) : prog PayW VictimProfile :=
  profile ← public_profile_by_id id;
  p ← require profile (NotFound "victim_profile_not_found");
  t ← now;
  throw_outcome (donatable t p) ;;
  mret p.

Definition keyed_txRef (userId key : string) : string :=
  "ehte-" +:+ str_take 24 (sha256hex (userId +:+ ":" +:+ key)).

(** The payment a repeat of the same key finds, if it may be reused. *)
Definition reuse_payment (user victim : string) (amount : Z) (existing : Payment)
    : outcome Payment :=
  if negb (bool_decide (p_payer existing = Some user)) ||
     negb (bool_decide (p_victim existing = victim)) ||
     negb (bool_decide (p_amount existing = amount))
  then Err (Conflict "idempotency_key_reused")
  else if negb (bool_decide (p_status existing = PENDING))
  then Err (Conflict "donation_already_processed")
  else Ok existing.

Definition is_P2002 (e : exn) : bool :=
  match e with PrismaKnown c _ => bool_decide (c = "P2002") | _ => false end.

(** Record the payment, or find the one of the same key; whether it is new. *)
Definition record_donation (user : CurrentUser) (dto : CreateDonationDto) (amount : Z)
    (key : option string) (txRef : string) : prog PayW (Payment * bool) :=
  catch
    (id ← act pop_rand;
     t ← now;
     p ← act_outcome (payment_insert {|
       p_id := id; p_status := PENDING; p_victim := cd_victimProfileId dto;
       p_payer := Some (cu_id user); p_isAnonymous := default false (cd_isAnonymous dto);
       p_amount := amount; p_currency := dc_currency cfg; p_txRef := txRef;
       p_chapaReference := None; p_chapaFee := None; p_failureReason := None;
       p_paidAt := None; p_createdAt := t; p_updatedAt := t |});
     mret (p, true))
    (λ err,
      if negb (bool_decide (is_Some key)) || negb (is_P2002 err) then Throw err else
      found ← payment_by_txRef txRef;
      existing ← require found err;
      p ← throw_outcome
            (reuse_payment (cu_id user) (cd_victimProfileId dto) amount existing);
      mret (p, false)).

Definition checkout_json (url txRef : string) : json :=
  JObj [("checkoutUrl", JStr url); ("txRef", JStr txRef)].
Definition checkout_of (j : json) : string :=
  match j with
  | JObj kvs => match assoc "checkoutUrl" kvs with Some (JStr s) => s | _ => "" end
  | _ => ""
  end.

Definition initialize_checkout (amount : Z) (email name txRef : string) : prog PayW json :=
  let names := split_ws (trim name) in
  returnUrl ← throw_outcome (buildReturnUrl txRef);
  url ← initialize ccfg {|
    in_amount := amount; in_email := email;
    in_firstName := str_or (hd "" names) "Supporter";
    in_lastName := str_or (join " " (tail names)) "Ehte";
    in_txRef := txRef; in_returnUrl := returnUrl; in_callbackUrl := dc_callbackUrl cfg;
    in_title := "Ehte"; in_description := "Ehte support" |};
  mret (checkout_json url txRef).

Definition start (user : CurrentUser) (dto : CreateDonationDto)
    (idempotencyKey : option string) : prog PayW StartDonationResult :=
  throw_if (negb (dc_enabled cfg)) (ServiceUnavailable "payments_disabled") ;;
  throw_if (negb (truthy (dc_returnUrl cfg)))
    (ServiceUnavailable "payments_return_url_not_configured") ;;
  amount ← throw_outcome (parseAmount (cd_amount dto));
  key ← throw_outcome (cleanKey idempotencyKey);
  getDonatableProfile (cd_victimProfileId dto) ;;
  payer ← gets (λ w, pw_users w !! cu_id user);
  payer ← require payer (NotFound "user_not_found");
  let email := str_or (trim (default "" (pu_email payer))) (dc_fallbackEmail cfg) in
  throw_if (negb (truthy email)) (BadRequest "donor_email_required") ;;
  txRef ← match key with
          | Some k => mret (keyed_txRef (cu_id user) k)
          | None => hex ← act pop_rand; mret (generateTxRef hex)
          end;
  recorded ← record_donation user dto amount key txRef;
  let '(payment, created) := recorded in
  (if (created : bool) then
     audit_donation "PAYMENT_INITIATED" payment user
       [("amount", toFixed2 amount);
        ("isAnonymous", if p_isAnonymous payment then "true" else "false")] true
   else mret ()) ;;
  let init := initialize_checkout amount email (default "" (pu_name payer)) txRef in
  catch
    (j ← match key with
         | Some _ => wrap keyPrefix ("payments:checkout:" +:+ txRef) init CHECKOUT_URL_TTL_SECONDS
         | None => init
         end;
     mret {| sd_paymentId := p_id payment; sd_txRef := txRef;
             sd_checkoutUrl := checkout_of j |})
    (λ err,
      (if created && isDefiniteRejection err then
         payment_updateMany (p_id payment) [PENDING]
           (upd_failed "chapa_initialize_rejected") ;;
         audit_donation "PAYMENT_FAILED" payment user [] false
       else mret ()) ;;
      Throw err).

Definition verifyForPayer (user : CurrentUser) (txRef : string) : prog PayW SettleResult :=
  found ← payment_findFirst (λ p,
    bool_decide (p_txRef p = txRef) && bool_decide (p_payer p = Some (cu_id user)));
  require found (NotFound "payment_not_found") ;;
  settlePayment pcfg ccfg keyPrefix txRef false.

(** *** [findMine]. [orderBy: { createdAt: 'desc' }] is the database's order. *)
Context (created_desc : gmap string Payment → list Payment).

Definition my_donation (p : Payment) (v : VictimProfile) : MyDonation := {|
  md_id := p_id p; md_txRef := p_txRef p; md_status := p_status p;
  md_amount := toFixed2 (p_amount p); md_currency := p_currency p;
  md_isAnonymous := p_isAnonymous p; md_paidAt := p_paidAt p;
  md_createdAt := p_createdAt p; md_victimId := p_victim p;
  md_victimName := shown_name v |}.

Definition paid_by (user : string) (m : gmap string Payment) : gmap string Payment :=
  filter (λ '(_, p), p_payer p = Some user) m.

(** The rows with their profiles (a foreign key: every row has one). *)
Definition mine_rows (user : string) (page limit : Z) (w : PayW) : list MyDonation :=
  omap (λ p, my_donation p <$> pw_profiles w !! p_victim p)
    (page_of page limit (created_desc (paid_by user (pw_payments w)))).

Definition findMine (user : CurrentUser) (page limit : option Z)
    : prog PayW (list MyDonation * PageMeta) :=
  let page := default 1 page in
  let limit := default 20 limit in
  rows ← gets (mine_rows (cu_id user) page limit);
  total ← gets (λ w, Z.of_nat (size (paid_by (cu_id user) (pw_payments w))));
  mret (rows, page_meta page limit total).

(** *** [getPublicTotals] *)
Definition paid_rows_of (v : string) (m : gmap string Payment) : gmap string Payment :=
  filter (λ '(_, p), p_victim p = v ∧ p_status p = PAID) m.

(** [groupBy(['payerUserId'])]: each payer with the number of its rows. *)
Definition donor_groups (v : string) (m : gmap string Payment) : list (option string * Z) :=
  let rows := (map_to_list (paid_rows_of v m)).*2 in
  (λ u, (u, Z.of_nat (length (filter (λ p, p_payer p = u) rows)))) <$>
    remove_dups (p_payer <$> rows).

Definition donor_count (groups : list (option string * Z)) : Z :=
  foldl (λ n g, n + match g.1 with None => g.2 | Some _ => 1 end) 0 groups.

Definition totals_json (raised : Z) (groups : list (option string * Z)) : json :=
  JObj [("raised", JStr (toFixed2 raised)); ("donorCount", JNum (donor_count groups))].

Definition getPublicTotals (v : string) : prog PayW json :=
  profile ← public_profile_by_id v;
  require profile (NotFound "victim_profile_not_found") ;;
  wrap keyPrefix ("payments:public-totals:" +:+ v)
    (raised ← gets (raised_of v);
     groups ← gets (λ w, donor_groups v (pw_payments w));
     mret (totals_json raised groups))
    PUBLIC_TOTALS_TTL_SECONDS.
End donation.
