(* ===== verification/PayAdmin.v ===== *)
(** * [PaymentsAdminService]

    Models [src/modules/payments/service/payments-admin.service.ts]: totals,
    lists, pausing transfers, and deciding a payment under review. *)

From S2P Require Import Prelude Js Redis Cache Chapa Roles PayModel Payout Webhook.
From S2P Require Import Donation.

Open Scope Z_scope.

Record Totals := {
  tt_victim : option string;
  tt_raised : string; tt_sent : string; tt_onTheWay : string; tt_waiting : string;
  tt_feesCollection : string; tt_feesTransfer : string; tt_feesTotal : string;
}.

Record PaymentView := {
  pv_id : string; pv_status : PaymentStatus; pv_txRef : string;
  pv_chapaReference : option string; pv_amount : string; pv_currency : string;
  pv_chapaFee : option string; pv_failureReason : option string; pv_isAnonymous : bool;
  pv_paidAt : option Z; pv_createdAt : Z; pv_updatedAt : Z;
  pv_victimId : string; pv_victimName : option string;
  pv_payer : option (string * option string * option string);
}.

Record DisbursementView := {
  dv_id : string; dv_victim : string; dv_status : DisbursementStatus; dv_amount : string;
  dv_currency : string; dv_reference : string; dv_chapaTransferRef : option string;
  dv_transferFee : option string; dv_failureReason : option string;
  dv_bankName : string; dv_bankCode : string; dv_accountNumberMasked : option string;
  dv_accountHolder : string;
  dv_submittedAt : option Z; dv_paidAt : option Z; dv_createdAt : Z; dv_updatedAt : Z;
}.

(** [PaymentListQueryDto] and [DisbursementListQueryDto]; dates are milliseconds. *)
Record ListQuery (St : Type) := {
  lq_page : option Z; lq_limit : option Z;
  lq_status : option St; lq_victim : option string;
  lq_from : option Z; lq_to : option Z;
}.
Arguments lq_page {St}. Arguments lq_limit {St}. Arguments lq_status {St}.
Arguments lq_victim {St}. Arguments lq_from {St}. Arguments lq_to {St}.

(** [dateRange]: both ends included, a missing end is open. *)
Definition dateRange (from to : option Z) (createdAt : Z) : bool :=
  match from with Some f => f <=? createdAt | None => true end &&
  match to with Some t => createdAt <=? t | None => true end.

Definition opt_is {A} `{EqDecision A} (o : option A) (x : A) : bool :=
  match o with Some y => bool_decide (x = y) | None => true end.

Definition payment_where (q : ListQuery PaymentStatus) (p : Payment) : bool :=
  opt_is (lq_status q) (p_status p) && opt_is (lq_victim q) (p_victim p) &&
  dateRange (lq_from q) (lq_to q) (p_createdAt p).
Definition disbursement_where (q : ListQuery DisbursementStatus) (d : Disbursement) : bool :=
  opt_is (lq_status q) (d_status d) && opt_is (lq_victim q) (d_victim d) &&
  dateRange (lq_from q) (lq_to q) (d_createdAt d).

Definition set_paused (b : bool) (p : VictimProfile) : VictimProfile := {|
  vp_name := vp_name p; vp_involvesChild := vp_involvesChild p;
  vp_status := vp_status p; vp_isPublished := vp_isPublished p;
  vp_isVerified := vp_isVerified p; vp_isSafetyReviewed := vp_isSafetyReviewed p;
  vp_hasConsent := vp_hasConsent p; vp_isPrivacyReviewed := vp_isPrivacyReviewed p;
  vp_isAdminApproved := vp_isAdminApproved p; vp_deletedAt := vp_deletedAt p;
  vp_takedownAt := vp_takedownAt p; vp_legalHold := vp_legalHold p;
  vp_payoutsPaused := b; vp_donationsPaused := vp_donationsPaused p;
  vp_completedAt := vp_completedAt p; vp_fundingEndsAt := vp_fundingEndsAt p;
  vp_destination := vp_destination p; vp_createdBy := vp_createdBy p;
  vp_totalRaised := vp_totalRaised p |}.

(** [victimProfile.updateMany({ where: { id, payoutsPaused: !b }, data: { payoutsPaused: b } })] *)
Definition pause_update (v : string) (b : bool) (w : PayW) : Z * PayW :=
  match pw_profiles w !! v with
  | Some p => if Bool.eqb (vp_payoutsPaused p) (negb b)
              then (1, set_profiles (insert v (set_paused b p)) w) else (0, w)
  | None => (0, w)
  end.

(** [data: { status: REFUNDED, chapaReference }] and [data: { status: REVIEW_REQUIRED }] *)
Definition upd_refunded (ref : string) (t : Z) (p : Payment) : Payment :=
  upd_payment REFUNDED (p_amount p) (Some ref) (p_chapaFee p) (p_failureReason p)
    (p_paidAt p) t p.
Definition upd_back_to_review (t : Z) (p : Payment) : Payment :=
  upd_payment REVIEW_REQUIRED (p_amount p) (p_chapaReference p) (p_chapaFee p)
    (p_failureReason p) (p_paidAt p) t p.

Inductive decision := ACCEPT | REFUND.

Section admin.
Context `{DecimalIO} (pcfg : PayoutConfig) (ccfg : ChapaConfig) (keyPrefix : string).

(** *** [getTotals] *)
Definition in_scope (v : option string) (x : string) : bool := opt_is v x.

Definition paid_sums (v : option string) (w : PayW) : Z * Z :=
  let paid p := in_scope v (p_victim p) && bool_decide (p_status p = PAID) in
  (sumZ (pay_amount_if paid) (pw_payments w),
   sumZ (λ p, if paid p then default 0 (p_chapaFee p) else 0) (pw_payments w)).

(** The rows of the [groupBy]: status, sum of the amounts, sum of the fees. *)
Definition in_group (v : option string) (s : DisbursementStatus) (d : Disbursement) : bool :=
  in_scope v (d_victim d) && bool_decide (d_status d = s).
Definition totals_groups (v : option string) (w : PayW)
    : list (DisbursementStatus * (Z * Z)) :=
  (λ s,
    (s, (sumZ (dis_amount_if (in_group v s)) (pw_disbursements w),
         sumZ (λ d, if in_group v s d then default 0 (d_transferFee d) else 0)
           (pw_disbursements w)))) <$>
    filter (λ s, is_Some (find_row (in_group v s) (pw_disbursements w))) all_statuses.

Definition add_totals (acc : Z * Z * Z) (g : DisbursementStatus * (Z * Z)) : Z * Z * Z :=
  let '(sent, onTheWay, fees) := acc in
  let '(status, (amount, fee)) := g in
  if bool_decide (status = DPAID) then (sent + amount, onTheWay, fees + fee)
  else if bool_decide (status ∈ ACTIVE_DISBURSEMENT) then (sent, onTheWay + amount, fees)
  else (sent, onTheWay, fees).

Definition mk_totals (v : option string) (paid : Z * Z)
    (groups : list (DisbursementStatus * (Z * Z))) : Totals :=
  let '(raised, collection) := paid in
  let '(sent, onTheWay, transferFees) := foldl add_totals (0, 0, 0) groups in
  let left := raised - sent - onTheWay in
  {| tt_victim := v; tt_raised := toFixed2 raised; tt_sent := toFixed2 sent;
     tt_onTheWay := toFixed2 onTheWay;
     tt_waiting := toFixed2 (if left <? 0 then 0 else left);
     tt_feesCollection := toFixed2 collection; tt_feesTransfer := toFixed2 transferFees;
     tt_feesTotal := toFixed2 (collection + transferFees) |}.

Definition assertProfile (id : string) : prog PayW () :=
  found ← profile_by_id id;
  require found (NotFound "victim_profile_not_found") ;;
  mret ().

(** An empty id is falsy: totals for everyone. *)
Definition getTotals (victimProfileId : option string) : prog PayW Totals :=
  let v := match victimProfileId with
           | Some v => if truthy v then Some v else None
           | None => None
           end in
  match v with Some id => assertProfile id | None => mret () end ;;
  paid ← gets (paid_sums v);
  groups ← gets (totals_groups v);
  mret (mk_totals victimProfileId paid groups).

(** *** Lists. The order of the rows is the database's. *)
Context (payments_desc : gmap string Payment → list Payment)
        (disbursements_desc : gmap string Disbursement → list Disbursement).

(** A fee of 0 is a [Decimal] object, so it is shown. *)
Definition serializePayment (w : PayW) (p : Payment) : option PaymentView :=
  (λ v, {|
    pv_id := p_id p; pv_status := p_status p; pv_txRef := p_txRef p;
    pv_chapaReference := p_chapaReference p; pv_amount := toFixed2 (p_amount p);
    pv_currency := p_currency p; pv_chapaFee := toFixed2 <$> p_chapaFee p;
    pv_failureReason := p_failureReason p; pv_isAnonymous := p_isAnonymous p;
    pv_paidAt := p_paidAt p; pv_createdAt := p_createdAt p; pv_updatedAt := p_updatedAt p;
    pv_victimId := p_victim p; pv_victimName := shown_name v;
    pv_payer := match p_payer p with
                | Some u => (λ usr, (u, pu_name usr, pu_phone usr)) <$> pw_users w !! u
                | None => None
                end |}) <$> pw_profiles w !! p_victim p.

Definition serializeDisbursement (d : Disbursement) : DisbursementView :=
  let snap := d_snapshot d in {|
    dv_id := d_id d; dv_victim := d_victim d; dv_status := d_status d;
    dv_amount := toFixed2 (d_amount d); dv_currency := d_currency d;
    dv_reference := d_reference d; dv_chapaTransferRef := d_chapaTransferRef d;
    dv_transferFee := toFixed2 <$> d_transferFee d; dv_failureReason := d_failureReason d;
    dv_bankName := ds_bankName snap; dv_bankCode := ds_bankCode snap;
    dv_accountNumberMasked := maskAccount (Some (ds_accountNumber snap));
    dv_accountHolder := ds_accountHolder snap;
    dv_submittedAt := d_submittedAt d; dv_paidAt := d_paidAt d;
    dv_createdAt := d_createdAt d; dv_updatedAt := d_updatedAt d |}.

Definition payments_matching (q : ListQuery PaymentStatus) (w : PayW)
    : gmap string Payment :=
  filter (λ '(_, p), payment_where q p = true) (pw_payments w).
Definition payment_views (q : ListQuery PaymentStatus) (page limit : Z) (w : PayW)
    : list PaymentView :=
  omap (serializePayment w) (page_of page limit (payments_desc (payments_matching q w))).

Definition listPayments (q : ListQuery PaymentStatus)
    : prog PayW (list PaymentView * PageMeta) :=
  let page := default 1 (lq_page q) in
  let limit := default 20 (lq_limit q) in
  views ← gets (payment_views q page limit);
  total ← gets (λ w, Z.of_nat (size (payments_matching q w)));
  mret (views, page_meta page limit total).

Definition payment_view (id : string) (w : PayW) : option PaymentView :=
  match pw_payments w !! id with Some p => serializePayment w p | None => None end.

Definition getPayment (id : string) : prog PayW PaymentView :=
  found ← gets (payment_view id);
  require found (NotFound "payment_not_found").

Definition disbursements_matching (q : ListQuery DisbursementStatus) (w : PayW)
    : gmap string Disbursement :=
  filter (λ '(_, d), disbursement_where q d = true) (pw_disbursements w).

Definition listDisbursements (q : ListQuery DisbursementStatus)
    : prog PayW (list DisbursementView * PageMeta) :=
  let page := default 1 (lq_page q) in
  let limit := default 20 (lq_limit q) in
  ds ← gets (λ w, page_of page limit (disbursements_desc (disbursements_matching q w)));
  total ← gets (λ w, Z.of_nat (size (disbursements_matching q w)));
  mret (List.map serializeDisbursement ds, page_meta page limit total).

Definition getDisbursement (id : string) : prog PayW DisbursementView :=
  found ← disbursement_by_id id;
  d ← require found (NotFound "disbursement_not_found");
  mret (serializeDisbursement d).

(** *** Audit *)
Definition auditPayment_admin (action : string) (admin : CurrentUser) (paymentId : string)
    (diff : list (string * string)) (success : bool) : prog PayW () :=
  emit (Audited {|
    ae_userId := Some (cu_id admin); ae_actorType := resolveActorType (cu_roles admin);
    ae_action := action; ae_success := success; ae_severity := Some "WARNING";
    ae_entity := "Payment"; ae_entityId := Some paymentId; ae_entityLabel := None;
    ae_diff := diff; ae_victim := None |}).

Definition auditProfile (action : string) (admin : CurrentUser) (v : string)
    (diff : list (string * string)) : prog PayW () :=
  emit (Audited {|
    ae_userId := Some (cu_id admin); ae_actorType := resolveActorType (cu_roles admin);
    ae_action := action; ae_success := true; ae_severity := Some "WARNING";
    ae_entity := "VictimProfile"; ae_entityId := Some v; ae_entityLabel := None;
    ae_diff := diff; ae_victim := Some v |}).

(** *** Pausing and resuming transfers *)
Definition pausePayouts (admin : CurrentUser) (v reason : string) : prog PayW bool :=
  assertProfile v ;;
  count ← act (pause_update v true);
  (if 0 <? count then
     auditProfile "DISBURSEMENT_HELD" admin v
       [("payoutsPaused", "false -> true"); ("reason", reason)]
   else mret ()) ;;
  mret true.

Definition resumePayouts (admin : CurrentUser) (v : string) : prog PayW bool :=
  assertProfile v ;;
  count ← act (pause_update v false);
  (if 0 <? count then
     auditProfile "DISBURSEMENT_RELEASED" admin v [("payoutsPaused", "true -> false")]
   else mret ()) ;;
  mret false.

(** *** [resolveReview] *)
Definition accept_review (admin : CurrentUser) (payment : Payment) (reason : string)
    : prog PayW PaymentView :=
  settled ← settlePayment pcfg ccfg keyPrefix (p_txRef payment) true;
  throw_if (negb (bool_decide (sr_status settled = PAID)))
    (Conflict "payment_not_confirmed_by_chapa") ;;
  auditPayment_admin "PAYMENT_REVIEW_RESOLVED" admin (p_id payment)
    [("decision", "ACCEPT"); ("reason", reason);
     ("expected", toFixed2 (p_amount payment)); ("recorded", sr_amount settled)] true ;;
  getPayment (p_id payment).

(** [payment.chapaReference ?? data.reference], which must be truthy. *)
Definition refund_reference (payment : Payment) (data : verify_data) : option string :=
  match (match p_chapaReference payment with Some r => Some r | None => vd_reference data end)
  with
  | Some r => if truthy r then Some r else None
  | None => None
  end.

Definition refund_review (admin : CurrentUser) (payment : Payment) (reason : string)
    : prog PayW PaymentView :=
  data ← verify ccfg (p_txRef payment);
  throw_if (negb (bool_decide (vd_status data = "success")))
    (Conflict "payment_not_successful_at_chapa") ;;
  ref ← require (refund_reference payment data) (Conflict "chapa_reference_missing");
  refundAmount ← decimal (vd_amount data);
  claim ← payment_updateMany (p_id payment) [REVIEW_REQUIRED] (upd_refunded ref);
  throw_if (claim =? 0) (Conflict "payment_not_in_review") ;;
  auditPayment_admin "PAYMENT_REFUND_REQUESTED" admin (p_id payment)
    [("reason", reason); ("amount", toFixed2 refundAmount)] true ;;
  catch
    (refund ccfg ref refundAmount (Some reason) ("ehte-rf-" +:+ p_id payment))
    (λ err,
      payment_updateMany (p_id payment) [REFUNDED] upd_back_to_review ;;
      auditPayment_admin "PAYMENT_REFUND_REJECTED" admin (p_id payment)
        [("reason", str_take 300 (exn_message err))] false ;;
      Throw err) ;;
  auditPayment_admin "PAYMENT_REFUND_EXECUTED" admin (p_id payment)
    [("amount", toFixed2 refundAmount)] true ;;
  auditPayment_admin "PAYMENT_REVIEW_RESOLVED" admin (p_id payment)
    [("decision", "REFUND"); ("reason", reason)] true ;;
  invalidateVictimProfileEverywhere keyPrefix (p_victim payment) ;;
  getPayment (p_id payment).

Definition resolveReview (admin : CurrentUser) (paymentId : string) (d : decision)
    (reason : string) : prog PayW PaymentView :=
  found ← payment_by_id paymentId;
  payment ← require found (NotFound "payment_not_found");
  throw_if (negb (bool_decide (p_status payment = REVIEW_REQUIRED)))
    (Conflict "payment_not_in_review") ;;
  match d with
  | ACCEPT => accept_review admin payment reason
  | REFUND => refund_review admin payment reason
  end.
End admin.
