(* ===== verification/PaySafety.v ===== *)
(** * Safety of the payment handlers under every interleaving

    The state machines of payments and disbursements, the invariant of the
    tables, and the proof that every handler of the payments module keeps them,
    however the handlers interleave. *)

From S2P Require Import Prelude Interleave Js Redis Cache Chapa Roles PayModel.
From S2P Require Import Payout Webhook Donation PayAdmin.

Open Scope Z_scope.

(** ** The state machines *)

(** The status changes of a payment. [PAID] and [FAILED] are final. *)
Inductive pay_edge : PaymentStatus → PaymentStatus → Prop :=
| edge_paid : pay_edge PENDING PAID
| edge_failed : pay_edge PENDING FAILED
| edge_review : pay_edge PENDING REVIEW_REQUIRED
| edge_accept : pay_edge REVIEW_REQUIRED PAID
| edge_refund : pay_edge REVIEW_REQUIRED REFUNDED
| edge_refund_undone : pay_edge REFUNDED REVIEW_REQUIRED.

Definition same_payment (p q : Payment) : Prop :=
  p_id p = p_id q ∧ p_victim p = p_victim q ∧ p_payer p = p_payer q ∧
  p_isAnonymous p = p_isAnonymous q ∧ p_currency p = p_currency q ∧
  p_txRef p = p_txRef q ∧ p_createdAt p = p_createdAt q.

Definition pay_step (p q : Payment) : Prop :=
  same_payment p q ∧ pay_edge (p_status p) (p_status q) ∧
  (p_status q ≠ PAID → p_amount q = p_amount p).

(** The status changes of a transfer. [DPAID] and [DFAILED] are final. *)
Inductive dis_edge : DisbursementStatus → DisbursementStatus → Prop :=
| edge_submitted : dis_edge DCREATED DSUBMITTED
| edge_unknown : dis_edge DCREATED DUNKNOWN
| edge_found : dis_edge DUNKNOWN DSUBMITTED
| edge_confirmed s : s ∈ ACTIVE_DISBURSEMENT → dis_edge s DPAID
| edge_released s : s ∈ ACTIVE_DISBURSEMENT → dis_edge s DFAILED.

Definition same_disbursement (d e : Disbursement) : Prop :=
  d_id d = d_id e ∧ d_victim d = d_victim e ∧ d_amount d = d_amount e ∧
  d_currency d = d_currency e ∧ d_reference d = d_reference e ∧
  d_snapshot d = d_snapshot e ∧ d_createdAt d = d_createdAt e.

Definition dis_step (d e : Disbursement) : Prop :=
  same_disbursement d e ∧ dis_edge (d_status d) (d_status e).

Lemma pay_steps_same p q : rtc pay_step p q → same_payment p q.
Proof.
  induction 1 as [p|p q r [Hs _] _ IH]; [done|]. unfold same_payment in *.
  destruct Hs as (?&?&?&?&?&?&?), IH as (?&?&?&?&?&?&?). split_and!; congruence.
Qed.

Lemma pay_steps_final p q :
  rtc pay_step p q → p_status p = PAID ∨ p_status p = FAILED → q = p.
Proof.
  intros [->|(p'&(_&He&_)&_)]%rtc_inv Hs; [done|]. inversion He; destruct Hs; congruence.
Qed.

Lemma dis_steps_same d e : rtc dis_step d e → same_disbursement d e.
Proof.
  induction 1 as [p|p q r [Hs _] _ IH]; [done|]. unfold same_disbursement in *.
  destruct Hs as (?&?&?&?&?&?&?), IH as (?&?&?&?&?&?&?). split_and!; congruence.
Qed.

Lemma dis_steps_final d e : rtc dis_step d e → d_status d ∉ ACTIVE_DISBURSEMENT → e = d.
Proof.
  intros [->|(d'&(_&He)&_)]%rtc_inv Hs; [done|]. exfalso; apply Hs.
  inversion He; try congruence; set_solver.
Qed.

(** ** The relation: how the tables may change *)

Record pay_rel (w w' : PayW) : Prop := {
  rel_payments id p : pw_payments w !! id = Some p →
    ∃ q, pw_payments w' !! id = Some q ∧ rtc pay_step p q;
  rel_disbursements id d : pw_disbursements w !! id = Some d →
    ∃ e, pw_disbursements w' !! id = Some e ∧ rtc dis_step d e;
  rel_profiles v : is_Some (pw_profiles w !! v) → is_Some (pw_profiles w' !! v);
  rel_sent : ∃ l, pw_sent w' = l ++ pw_sent w;
}.

#[export] Instance pay_rel_preorder : PreOrder pay_rel.
Proof.
  split.
  - intros w. split; [naive_solver..|]. by exists [].
  - intros w1 w2 w3 [Hp1 Hd1 Hv1 [l1 Hs1]] [Hp2 Hd2 Hv2 [l2 Hs2]]. split.
    + intros id p Hp. destruct (Hp1 _ _ Hp) as (q&Hq&?), (Hp2 _ _ Hq) as (r&Hr&?).
      exists r. split; [done|by etrans].
    + intros id d Hd. destruct (Hd1 _ _ Hd) as (e&He&?), (Hd2 _ _ He) as (f&Hf&?).
      exists f. split; [done|by etrans].
    + eauto.
    + exists (l2 ++ l1). by rewrite Hs2, Hs1, app_assoc.
Qed.

(** ** The invariant *)

Definition active (d : Disbursement) : Prop := d_status d ∈ ACTIVE_DISBURSEMENT.

Lemma active_not_failed d : active d → d_status d ≠ DFAILED.
Proof. unfold active. intros Ha Hs. rewrite Hs in Ha. set_solver. Qed.



Section safety.
Context `{DecimalIO}.

(** The provider never reports a negative amount. *)
Definition reply_ok (r : net_reply) : Prop :=
  match r with
  | NetResp _ (Some env) =>
      match env_data env with
      | DVerify d => ∀ a, parseDecimal (vd_amount d) = Some a → 0 ≤ a
      | _ => True
      end
  | _ => True
  end.

(** A transfer request carries the amount, the account and the reference of
    a recorded disbursement. *)
Definition backs (d : Disbursement) (req : net_req) : Prop :=
  match nr_body req with
  | BodyTransfer name account bank amount _ ref =>
      d_reference d = ref ∧ toFixed2 (d_amount d) = amount ∧
      ds_accountHolder (d_snapshot d) = name ∧
      ds_accountNumber (d_snapshot d) = account ∧ ds_bankCode (d_snapshot d) = bank
  | _ => True
  end.
Definition is_transfer (req : net_req) : bool :=
  match nr_body req with BodyTransfer _ _ _ _ _ _ => true | _ => false end.
Definition backed (w : PayW) (req : net_req) : Prop :=
  is_transfer req = true → ∃ id d, pw_disbursements w !! id = Some d ∧ backs d req.

Record Inv (w : PayW) : Prop := {
  inv_pid id p : pw_payments w !! id = Some p → p_id p = id;
  inv_pfk id p : pw_payments w !! id = Some p → is_Some (pw_profiles w !! p_victim p);
  inv_txRef i j p q : pw_payments w !! i = Some p → pw_payments w !! j = Some q →
    p_txRef p = p_txRef q → i = j;
  inv_chapaRef i j p q r : pw_payments w !! i = Some p → pw_payments w !! j = Some q →
    p_chapaReference p = Some r → p_chapaReference q = Some r → i = j;
  inv_raised v p : pw_profiles w !! v = Some p → vp_totalRaised p = raised_of v w;
  inv_did id d : pw_disbursements w !! id = Some d → d_id d = id;
  inv_dref i j d e : pw_disbursements w !! i = Some d → pw_disbursements w !! j = Some e →
    d_reference d = d_reference e → i = j;
  inv_dnonneg id d : pw_disbursements w !! id = Some d → 0 ≤ d_amount d;
  inv_active i j d e : pw_disbursements w !! i = Some d → pw_disbursements w !! j = Some e →
    d_victim d = d_victim e → active d → active e → i = j;
  inv_funds v : dis_sum v DPAID w + sum_active v w ≤ raised_of v w;
  inv_net : Forall reply_ok (pw_net w);
  inv_sent : Forall (backed w) (pw_sent w);
}.

(** Same tables, same requests; replies only consumed. *)
Record frame (w w' : PayW) : Prop := {
  fr_payments : pw_payments w' = pw_payments w;
  fr_disbursements : pw_disbursements w' = pw_disbursements w;
  fr_profiles : pw_profiles w' = pw_profiles w;
  fr_net : ∃ l, pw_net w = l ++ pw_net w';
  fr_sent : pw_sent w' = pw_sent w;
}.

Lemma backed_mono w w' req : pay_rel w w' → backed w req → backed w' req.
Proof.
  intros HR Hb Ht. destruct (Hb Ht) as (id&d&Hd&Hbk).
  destruct (rel_disbursements _ _ HR _ _ Hd) as (e&He&Hst). exists id, e.
  split; [done|]. apply dis_steps_same in Hst as (?&?&Ha&?&Hr&Hs&?).
  unfold backs in *. destruct (nr_body req); rewrite <- ?Ha, <- ?Hr, <- ?Hs; naive_solver.
Qed.

Lemma frame_rel w w' : frame w w' → pay_rel w w'.
Proof.
  intros [Hp Hd Hv _ Hs]. split; rewrite ?Hp, ?Hd, ?Hv, ?Hs.
  - intros id p Hid. exists p. by split; [|apply rtc_refl].
  - intros id d Hid. exists d. by split; [|apply rtc_refl].
  - done.
  - by exists [].
Qed.

Lemma frame_inv w w' : frame w w' → Inv w → Inv w'.
Proof.
  intros Hf HI. pose proof (frame_rel _ _ Hf) as HR. destruct Hf as [Hp Hd Hv [l Hn] Hs].
  assert (Hra : ∀ v, raised_of v w' = raised_of v w) by (intros; unfold raised_of; by rewrite Hp).
  assert (Hds : ∀ v s, dis_sum v s w' = dis_sum v s w) by (intros; unfold dis_sum; by rewrite Hd).
  destruct HI. split; rewrite ?Hp, ?Hd, ?Hv, ?Hs; try done.
  - intros. rewrite Hra. eauto.
  - intros. unfold sum_active. rewrite Hra, !Hds. eauto.
  - rewrite Hn in inv_net0. by apply Forall_app in inv_net0 as [_ ?].
  - eapply Forall_impl; [done|]. intros. by eapply backed_mono.
Qed.

Lemma frame_good w w' : frame w w' → Inv w → Inv w' ∧ pay_rel w w'.
Proof. eauto using frame_inv, frame_rel. Qed.

(** *** Changing one payment *)
Definition paid_amount (p : Payment) : Z :=
  if bool_decide (p_status p = PAID) then p_amount p else 0.

Lemma pay_contrib v p :
  pay_amount_if (is_paid_of v) p = if bool_decide (p_victim p = v) then paid_amount p else 0.
Proof.
  unfold pay_amount_if, is_paid_of, paid_amount.
  by destruct (bool_decide (p_victim p = v)), (bool_decide (p_status p = PAID)).
Qed.

Lemma chapaRef_taken_false id r m j q :
  (∀ i p, m !! i = Some p → p_id p = i) →
  chapaRef_taken id (Some r) m = false → m !! j = Some q → p_chapaReference q = Some r →
  j = id.
Proof.
  intros Hid. cbn. rewrite bool_decide_eq_false, <- eq_None_not_Some, find_row_None.
  intros Hn Hj Hr. specialize (Hn _ _ Hj). rewrite Hr in Hn.
  rewrite bool_decide_eq_true_2 with (P := Some r = Some r), andb_true_r in Hn by done.
  rewrite bool_decide_eq_false in Hn. apply dec_stable in Hn. by rewrite <- (Hid _ _ Hj).
Qed.

Lemma payment_change_good w w' id p q :
  Inv w → pw_payments w !! id = Some p → pay_step p q →
  chapaRef_taken id (p_chapaReference q) (pw_payments w) = false →
  0 ≤ paid_amount q →
  pw_payments w' = <[id := q]> (pw_payments w) →
  pw_disbursements w' = pw_disbursements w →
  pw_net w' = pw_net w → pw_sent w' = pw_sent w →
  (∀ v, is_Some (pw_profiles w !! v) → is_Some (pw_profiles w' !! v)) →
  (∀ v x, pw_profiles w' !! v = Some x → ∃ y, pw_profiles w !! v = Some y ∧
     vp_totalRaised x = vp_totalRaised y + if bool_decide (p_victim q = v)
                                           then paid_amount q else 0) →
  Inv w' ∧ pay_rel w w'.
Proof.
  intros HI Hp Hst Hcr Hpos Hpay Hdis Hnet Hsent Hprof Hraise.
  pose proof Hst as ((Hid&Hv&_&_&_&Htx&_)&Hed&_).
  assert (Hnp : paid_amount p = 0).
  { unfold paid_amount. rewrite bool_decide_eq_false_2; [done|].
    inversion Hed; congruence. }
  assert (Hra : ∀ v, raised_of v w' =
    raised_of v w + if bool_decide (p_victim q = v) then paid_amount q else 0).
  { intros v. unfold raised_of. rewrite Hpay, (sumZ_update _ _ _ _ _ Hp), !pay_contrib, Hv, Hnp.
    case_bool_decide; lia. }
  assert (HR : pay_rel w w').
  { split; rewrite ?Hpay, ?Hdis, ?Hsent.
    - intros i x Hx. destruct (decide (i = id)) as [->|Hne].
      + rewrite lookup_insert_eq. simplify_eq. exists q. split; [done|]. by apply rtc_once.
      + rewrite lookup_insert_ne by done. exists x. by split; [|apply rtc_refl].
    - intros i x Hx. exists x. by split; [|apply rtc_refl].
    - done.
    - by exists []. }
  split; [|done]. destruct HI as [Ipid Ifk Itx Icr Iraised Idid Idref Idn Iact Ifunds Inet Isent].
  split; rewrite ?Hpay, ?Hdis, ?Hnet, ?Hsent; try done.
  - intros i x [[-> <-]|[? Hx]]%lookup_insert_Some; [|by eauto]. rewrite <- Hid. eauto.
  - intros i x [[-> <-]|[? Hx]]%lookup_insert_Some; [|by eauto]. rewrite <- Hv. eauto.
  - intros i j x y [[-> <-]|[? Hx]]%lookup_insert_Some
      [[-> <-]|[? Hy]]%lookup_insert_Some Heq; [done|..|by eauto];
      rewrite <- ?Htx in Heq; eauto.
  - intros i j x y r [[-> <-]|[? Hx]]%lookup_insert_Some
      [[-> <-]|[? Hy]]%lookup_insert_Some Hrx Hry; [done|..|by eauto].
    + rewrite Hrx in Hcr. symmetry. by eapply chapaRef_taken_false.
    + rewrite Hry in Hcr. by eapply chapaRef_taken_false.
  - intros v x Hx. destruct (Hraise _ _ Hx) as (y&Hy&->).
    rewrite Hra. by rewrite (Iraised _ _ Hy).
  - intros v. unfold sum_active, dis_sum in *. rewrite Hra, Hdis.
    specialize (Ifunds v). destruct (bool_decide _); lia.
  - eapply Forall_impl; [done|]. intros. by eapply backed_mono.
Qed.

(** *** Changing one disbursement *)
Definition contrib (v : string) (s : DisbursementStatus) (d : Disbursement) : Z :=
  dis_amount_if (is_status_of v s) d.

(** What a disbursement commits: its amount, unless it failed. *)
Definition commits (d : Disbursement) : Z :=
  if bool_decide (d_status d = DFAILED) then 0 else d_amount d.
Lemma commits_contrib v d :
  contrib v DPAID d + (contrib v DCREATED d + contrib v DSUBMITTED d + contrib v DUNKNOWN d) =
  if bool_decide (d_victim d = v) then commits d else 0.
Proof.
  unfold contrib, dis_amount_if, is_status_of, commits.
  destruct (d_status d); repeat case_bool_decide; try congruence; cbn; lia.
Qed.

Lemma disbursement_change_good w w' id d e :
  Inv w → pw_disbursements w !! id = Some d → dis_step d e →
  pw_disbursements w' = <[id := e]> (pw_disbursements w) →
  pw_payments w' = pw_payments w → pw_profiles w' = pw_profiles w →
  pw_net w' = pw_net w → pw_sent w' = pw_sent w →
  Inv w' ∧ pay_rel w w'.
Proof.
  intros HI Hd Hst Hdis Hpay Hprof Hnet Hsent.
  pose proof Hst as ((Hid&Hv&Ham&_&Href&_&_)&Hed).
  assert (Hact : active d) by (unfold active; inversion Hed; set_solver).
  assert (HR : pay_rel w w').
  { split; rewrite ?Hpay, ?Hdis, ?Hsent, ?Hprof.
    - intros i x Hx. exists x. by split; [|apply rtc_refl].
    - intros i x Hx. destruct (decide (i = id)) as [->|Hne].
      + rewrite lookup_insert_eq. simplify_eq. exists e. split; [done|]. by apply rtc_once.
      + rewrite lookup_insert_ne by done. exists x. by split; [|apply rtc_refl].
    - done.
    - by exists []. }
  split; [|done]. destruct HI as [Ipid Ifk Itx Icr Iraised Idid Idref Idn Iact Ifunds Inet Isent].
  assert (Hra : ∀ v, raised_of v w' = raised_of v w) by (intros; unfold raised_of; by rewrite Hpay).
  split; rewrite ?Hpay, ?Hdis, ?Hnet, ?Hsent, ?Hprof; try done.
  - intros. rewrite Hra. eauto.
  - intros i x [[-> <-]|[? Hx]]%lookup_insert_Some; [|by eauto]. rewrite <- Hid. eauto.
  - intros i j x y [[-> <-]|[? Hx]]%lookup_insert_Some
      [[-> <-]|[? Hy]]%lookup_insert_Some Heq; [done|..|by eauto];
      rewrite <- ?Href in Heq; eauto.
  - intros i x [[-> <-]|[? Hx]]%lookup_insert_Some; [|by eauto]. rewrite <- Ham. eauto.
  - intros i j x y [[-> <-]|[? Hx]]%lookup_insert_Some
      [[-> <-]|[? Hy]]%lookup_insert_Some Heq Hax Hay; [done|..|by eauto];
      rewrite <- ?Hv in Heq; [eapply (Iact _ _ d y)|eapply (Iact _ _ x d)]; eauto.
  - intros v. rewrite Hra. unfold sum_active, dis_sum in *. rewrite Hdis.
    rewrite !(sumZ_update _ _ _ _ _ Hd). specialize (Ifunds v).
    pose proof (commits_contrib v d) as H1. pose proof (commits_contrib v e) as H2.
    rewrite <- Hv in H2. unfold contrib in H1, H2. pose proof (Idn _ _ Hd).
    assert (commits e ≤ commits d).
    { unfold commits. rewrite <- Ham.
      rewrite (bool_decide_eq_false_2 (d_status d = DFAILED))
        by (by apply active_not_failed).
      destruct (bool_decide (d_status e = DFAILED)); [exact H0|apply Z.le_refl]. }
    destruct (bool_decide _); lia.
  - eapply Forall_impl; [done|]. intros. by eapply backed_mono.
Qed.

(** *** New rows *)
Lemma payment_insert_good p :
  p_status p = PENDING → p_chapaReference p = None →
  good Inv pay_rel (payment_insert p).
Proof.
  intros Hs Hc w HI. unfold payment_insert.
  case_bool_decide as Hid; [done|]. apply eq_None_not_Some in Hid.
  case_bool_decide as Htx; [done|]. apply eq_None_not_Some in Htx.
  destruct (pw_profiles w !! p_victim p) as [v|] eqn:Hv; [|done]. cbn.
  pose proof (proj1 (find_row_None _ _) Htx) as Hfresh. cbn in Hfresh.
  set (w' := set_payments _ w).
  assert (HR : pay_rel w w').
  { split; cbn; [|intros id d Hd; exists d; by split; [|apply rtc_refl]|done|by exists []].
    intros i x Hx. exists x. split; [|apply rtc_refl].
    rewrite lookup_insert_ne; [done|]. intros <-. congruence. }
  split; [|done].
  assert (Hra : ∀ u, raised_of u w' = raised_of u w).
  { intros u. unfold raised_of. cbn. rewrite sumZ_insert_new by done.
    unfold pay_amount_if at 1, is_paid_of at 1. by rewrite Hs, andb_false_r. }
  destruct HI as [Ipid Ifk Itx Icr Iraised Idid Idref Idn Iact Ifunds Inet Isent].
  split; cbn; try done.
  - intros i x [[<- <-]|[? Hx]]%lookup_insert_Some; eauto.
  - intros i x [[<- <-]|[? Hx]]%lookup_insert_Some; eauto.
  - intros i j x y [[<- <-]|[? Hx]]%lookup_insert_Some
      [[<- <-]|[? Hy]]%lookup_insert_Some Heq; [done|..|by eauto].
    + specialize (Hfresh _ _ Hy). by rewrite bool_decide_eq_false in Hfresh.
    + specialize (Hfresh _ _ Hx). by rewrite bool_decide_eq_false in Hfresh.
  - intros i j x y r [[<- <-]|[? Hx]]%lookup_insert_Some
      [[<- <-]|[? Hy]]%lookup_insert_Some ? ?; [done|congruence..|by eauto].
  - intros. rewrite Hra. eauto.
  - intros u. rewrite Hra. apply Ifunds.
Qed.

Lemma disbursement_insert_good w d :
  Inv w → pw_disbursements w !! d_id d = None →
  (∀ i e, pw_disbursements w !! i = Some e → d_reference e ≠ d_reference d) →
  d_status d = DCREATED →
  (∀ i e, pw_disbursements w !! i = Some e → d_victim e = d_victim d → ¬ active e) →
  0 ≤ d_amount d →
  dis_sum (d_victim d) DPAID w + sum_active (d_victim d) w + d_amount d
    ≤ raised_of (d_victim d) w →
  Inv (set_disbursements (insert (d_id d) d) w) ∧
  pay_rel w (set_disbursements (insert (d_id d) d) w).
Proof.
  intros HI Hid Href Hs Hact Hpos Hfunds.
  set (w' := set_disbursements _ w).
  assert (HR : pay_rel w w').
  { split; cbn; [intros id p Hp; exists p; by split; [|apply rtc_refl]| |done|by exists []].
    intros i x Hx. exists x. split; [|apply rtc_refl].
    rewrite lookup_insert_ne; [done|]. intros <-. congruence. }
  split; [|done].
  destruct HI as [Ipid Ifk Itx Icr Iraised Idid Idref Idn Iact Ifunds Inet Isent].
  split; cbn; try done.
  - intros i x [[<- <-]|[? Hx]]%lookup_insert_Some; eauto.
  - intros i j x y [[<- <-]|[? Hx]]%lookup_insert_Some
      [[<- <-]|[? Hy]]%lookup_insert_Some Heq; [done|..|by eauto].
    + by destruct (Href _ _ Hy).
    + by destruct (Href _ _ Hx).
  - intros i x [[<- <-]|[? Hx]]%lookup_insert_Some; eauto.
  - intros i j x y [[<- <-]|[? Hx]]%lookup_insert_Some
      [[<- <-]|[? Hy]]%lookup_insert_Some Heq Hax Hay; [done|..|by eauto].
    + by destruct (Hact _ _ Hy).
    + by destruct (Hact _ _ Hx).
  - intros v. unfold sum_active, dis_sum in *. cbn.
    rewrite !sumZ_insert_new by done. specialize (Ifunds v).
    pose proof (commits_contrib v d) as H1. unfold contrib in H1.
    unfold commits in H1. rewrite Hs in H1. cbn in H1.
    fold (raised_of v w).
    change (raised_of v w') with (raised_of v w).
    destruct (decide (d_victim d = v)) as [<-|Hne].
    + rewrite bool_decide_eq_true_2 in H1 by done.
      destruct (bool_decide (DCREATED = DFAILED)) eqn:E; [done|]. lia.
    + rewrite bool_decide_eq_false_2 in H1 by done. lia.
  - eapply Forall_impl; [done|]. intros. by eapply backed_mono.
Qed.

(** *** The statements *)
Lemma payment_update_good id from upd :
  (∀ t p, p_status p ∈ from → pay_step p (upd t p) ∧ p_status (upd t p) ≠ PAID) →
  good Inv pay_rel (payment_update id from upd).
Proof.
  intros Hupd w HI. unfold payment_update.
  destruct (pw_payments w !! id) as [p|] eqn:Hp; [|done].
  case_bool_decide as Hfrom; [|done]. destruct (Hupd (pw_now w) p Hfrom) as [Hst Hnp].
  destruct (chapaRef_taken _ _ _) eqn:Hcr; [done|].
  assert (Hz : paid_amount (upd (pw_now w) p) = 0)
    by (unfold paid_amount; by rewrite bool_decide_eq_false_2).
  eapply payment_change_good; [done|done|done|done|rewrite Hz; lia|done..|]. cbn.
  intros v x Hx. exists x. split; [done|]. rewrite Hz. destruct (bool_decide _); lia.
Qed.

Lemma disbursement_update_good id from upd :
  (∀ t d, d_status d ∈ from → dis_step d (upd t d)) →
  good Inv pay_rel (disbursement_update id from upd).
Proof.
  intros Hupd w HI. unfold disbursement_update.
  destruct (pw_disbursements w !! id) as [d|] eqn:Hd; [|done].
  case_bool_decide as Hfrom; [|done].
  by eapply disbursement_change_good; [done|done|by apply Hupd|..].
Qed.

(** A payment that was read is still there, at most further along. *)
Definition known (p : Payment) (w : PayW) : Prop :=
  ∃ q, pw_payments w !! p_id p = Some q ∧ rtc pay_step p q.
Definition known_dis (d : Disbursement) (w : PayW) : Prop :=
  ∃ e, pw_disbursements w !! d_id d = Some e ∧ rtc dis_step d e.

Lemma known_stable p w w' : known p w → pay_rel w w' → Inv w' → known p w'.
Proof.
  intros (q&Hq&?) HR _. destruct (rel_payments _ _ HR _ _ Hq) as (r&Hr&?).
  exists r. split; [done|by etrans].
Qed.
Lemma known_dis_stable d w w' : known_dis d w → pay_rel w w' → Inv w' → known_dis d w'.
Proof.
  intros (q&Hq&?) HR _. destruct (rel_disbursements _ _ HR _ _ Hq) as (r&Hr&?).
  exists r. split; [done|by etrans].
Qed.
Lemma known_row id p w : Inv w → pw_payments w !! id = Some p → known p w.
Proof. intros HI Hp. exists p. by rewrite (inv_pid _ HI _ _ Hp). Qed.

Lemma upd_paid_step amount ref fee t p :
  p_status p ∈ [PENDING; REVIEW_REQUIRED] → pay_step p (upd_paid amount ref fee t p).
Proof.
  intros Hs. split_and!; [done| |by intros []].
  cbn. destruct (p_status p); try constructor; set_solver.
Qed.

Lemma record_paid_good p from amount data w :
  0 ≤ amount → (∀ s, s ∈ from → s ∈ [PENDING; REVIEW_REQUIRED]) → Inv w → known p w →
  Inv (run (transaction (record_paid p from amount data)) w).2 ∧
  pay_rel w (run (transaction (record_paid p from amount data)) w).2.
Proof.
  intros Ham Hfrom HI (q&Hq&Hst). apply pay_steps_same in Hst as (_&Hv&_).
  rewrite run_transaction. unfold record_paid.
  assert (∀ fee, match run (count ← payment_updateMany (p_id p) from
        (upd_paid amount (vd_reference data) fee);
      if count =? 0 then mret false
      else act_outcome (profile_increment (p_victim p) amount) ;; mret true) w with
    | (Ok _, w') => Inv w' ∧ pay_rel w w' | (Err _, _) => True end) as Hmain.
  { intros fee. unfold payment_updateMany. rewrite run_bind, run_act_outcome.
    unfold payment_update. rewrite Hq. case_bool_decide as Hs; [|done].
    destruct (chapaRef_taken _ _ _) eqn:Hcr; [done|]. cbn.
    rewrite run_bind, run_act_outcome. unfold profile_increment. cbn. rewrite Hv.
    destruct (pw_profiles w !! p_victim q) as [v|] eqn:Hprof; [|done].
    eapply payment_change_good; [done|done|by apply upd_paid_step, Hfrom|done|done|done|done|done|done| |].
    + cbn. intros u Hu. destruct (decide (u = p_victim q)) as [->|];
        [rewrite lookup_insert_eq; by eexists|by rewrite lookup_insert_ne].
    + cbn. intros u x [[<- <-]|[Hne Hx]]%lookup_insert_Some.
      * exists v. split; [by rewrite Hprof|]. by rewrite bool_decide_eq_true_2.
      * exists x. rewrite bool_decide_eq_false_2 by done. split; [done|lia]. }
  rewrite run_bind. destruct (vd_charge data) as [c|].
  - unfold decimal. rewrite run_bind, run_require.
    destruct (parseDecimal c) as [fee|]; cbn; [|done].
    rewrite run_ret. specialize (Hmain (Some fee)). by destruct (run _ w) as [[] ?].
  - rewrite run_ret. specialize (Hmain None). by destruct (run _ w) as [[] ?].
Qed.

(** *** Recording a transfer *)
Lemma frame_rand w : frame w (pop_rand w).2.
Proof. by split; try by exists []. Qed.

Definition prepared_ok (r : outcome prepared) (w : PayW) : Prop :=
  match r with
  | Ok (Prepared d) => pw_disbursements w !! d_id d = Some d ∧ d_status d = DCREATED
  | _ => True
  end.

Lemma prepare_good cfg v w :
  Inv w →
  Inv (run (prepare cfg v) w).2 ∧ pay_rel w (run (prepare cfg v) w).2 ∧
  prepared_ok (run (prepare cfg v) w).1 (run (prepare cfg v) w).2.
Proof.
  intros HI. unfold prepare. run_simpl.
  destruct (pw_profiles w !! v) as [p|]; cbn; [|done].
  destruct (vp_payoutsPaused p); [done|].
  destruct (_ || _); [done|].
  destruct (vp_destination p) as [dest|]; [|done].
  destruct (pd_isVerified dest); cbn; [|done]. run_simpl.
  case_bool_decide as Hact; [done|].
  apply eq_None_not_Some in Hact. pose proof (proj1 (find_row_None _ _) Hact) as Hno.
  run_simpl. destruct (bool_decide _); [done|].
  run_simpl. destruct (_ <? _); [done|].
  run_simpl.
  set (w2 := (pop_rand (pop_rand w).2).2).
  assert (Hf : frame w w2) by (by split; try by exists []).
  destruct (frame_good _ _ Hf HI) as [HI2 HR2].
  unfold disbursement_insert. cbn.
  case_bool_decide as Hid; [done|]. apply eq_None_not_Some in Hid.
  case_bool_decide as Href; [done|]. apply eq_None_not_Some in Href. cbn.
  pose proof (proj1 (find_row_None _ _) Href) as Hnoref. run_simpl.
  set (d := Build_Disbursement _ _ _ _ _ _ _ _ _ _ _ _ _ _).
  destruct (disbursement_insert_good w2 d) as [HI3 HR3]; try done.
  - intros i e He. specialize (Hnoref _ _ He). by rewrite bool_decide_eq_false in Hnoref.
  - intros i e He Hv Ha. specialize (Hno _ _ He).
    rewrite andb_false_iff, !bool_decide_eq_false in Hno. by destruct Hno as [?|[]].
  - cbn. lia.
  - pose proof (inv_funds _ HI v). cbn.
    change (dis_sum v DPAID w2) with (dis_sum v DPAID w).
    change (sum_active v w2) with (sum_active v w).
    change (raised_of v w2) with (raised_of v w). lia.
  - split_and!; [done|by etrans|apply lookup_insert_eq|done].
Qed.
End safety.

(** ** Programs that leave the tables alone *)

Section outside.
Context `{DecimalIO}.
Abbreviation ok := (safe Inv pay_rel).

Lemma frame_act {X} (f : PayW → X * PayW) : (∀ w, frame w (f w).2) → good Inv pay_rel f.
Proof. intros Hf w. by apply frame_good. Qed.

Lemma frame_with_redis c r w : frame w (with_redis c r w).
Proof. by destruct c; split; try by exists []. Qed.
Lemma frame_with_cache cs w : frame w (with_cache cs w).
Proof. by split; try by exists []. Qed.

#[export] Instance pay_outside : OutsideGood Inv pay_rel.
Proof.
  split.
  - apply pay_rel_preorder.
  - intros c r w. apply frame_good, frame_with_redis.
  - intros cs w. apply frame_good, frame_with_cache.
  - intros w. apply frame_good. by split; try by exists [].
  - intros w. apply frame_good, frame_rand.
Qed.

Lemma safe_pop_rand : ok (act pop_rand).
Proof. apply safe_act, frame_act. intros w. apply frame_rand. Qed.
Lemma safe_emit e : ok (emit e).
Proof. apply safe_modify. intros w. apply frame_good. by split; try by exists []. Qed.
Lemma safe_now : ok now.
Proof. apply (safe_gets Inv pay_rel). Qed.
End outside.

#[export] Hint Resolve pay_rel_preorder pay_outside safe_pop_rand safe_emit safe_now : safe.

(** ** Calls to the provider *)

Section provider.
Context `{DecimalIO} (ccfg : ChapaConfig).
Abbreviation ok := (safe Inv pay_rel).

Definition data_ok (data : chapa_data) : Prop :=
  match data with
  | DVerify d => ∀ a, parseDecimal (vd_amount d) = Some a → 0 ≤ a
  | _ => True
  end.

Lemma read_reply_ok r :
  reply_ok r → match read_reply r with Ok data => data_ok data | Err _ => True end.
Proof. destruct r as [|s [env|]]; cbn; try done. by destruct (_ || _). Qed.

Lemma net_send_good req w :
  Inv w → backed w req →
  Inv (net_send req w).2 ∧ pay_rel w (net_send req w).2 ∧ reply_ok (net_send req w).1.
Proof.
  intros HI Hb.
  assert (HR : pay_rel w (net_send req w).2).
  { split; cbn; [intros id p Hp; exists p|intros id d Hd; exists d|done|by exists [req]];
      (split; [done|apply rtc_refl]). }
  assert (Hnet : reply_ok (hd NetFail (pw_net w)) ∧ Forall reply_ok (tail (pw_net w))).
  { destruct HI. destruct (pw_net w); [done|]. by apply Forall_cons. }
  split_and!; [|done|apply Hnet].
  destruct HI. split; cbn; try done; [apply Hnet|]. by apply Forall_cons.
Qed.

Lemma request_rg post path body w :
  (∀ w1, pay_rel w w1 → Inv w1 →
     backed w1 {| nr_post := post; nr_path := path; nr_body := body |}) →
  rg Inv pay_rel (λ data _, data_ok data) (λ _ _, True) (request ccfg post path body) w.
Proof.
  intros Hb. unfold request. destruct (truthy (secretKey ccfg)); [|done].
  apply rg_bind, rg_bind. intros w1 HR1 HI1.
  destruct (net_send_good {| nr_post := post; nr_path := path; nr_body := body |} w1)
    as (HI2&HR2&Hok); [done|by apply Hb|].
  split_and!; [done..|]. pose proof (read_reply_ok _ Hok) as Hd.
  change (rg Inv pay_rel (λ data _, data_ok data) (λ _ _, True)
    (throw_outcome (read_reply (net_send {| nr_post := post; nr_path := path;
       nr_body := body |} w1).1)) (net_send {| nr_post := post; nr_path := path;
       nr_body := body |} w1).2).
  by destruct (read_reply _).
Qed.

Lemma request_safe post path body :
  is_transfer {| nr_post := post; nr_path := path; nr_body := body |} = false →
  ok (request ccfg post path body).
Proof.
  intros Hn w. eapply rg_mono; [apply request_rg| |]; try done.
  intros w1 _ _ Ht. congruence.
Qed.

Lemma safe_undefined {A} : ok (@undefined_data PayW A).
Proof. done. Qed.
Hint Resolve safe_undefined : safe.
Lemma safe_initialize i : ok (initialize ccfg i).
Proof. unfold initialize. apply safe_bind; [by apply request_safe|]. intros []; safe_tac. Qed.
Lemma safe_verify txRef : ok (verify ccfg txRef).
Proof. apply safe_bind; [by apply request_safe|]. intros []; safe_tac. Qed.
Lemma safe_verifyTransfer r : ok (verifyTransfer ccfg r).
Proof. apply safe_bind; [by apply request_safe|]. intros []; safe_tac. Qed.
Lemma safe_refund r a s ref : ok (refund ccfg r a s ref).
Proof. apply safe_bind; [by apply request_safe|]. safe_tac. Qed.

(** The amount the provider reports is not negative. *)
Lemma verify_rg txRef w :
  rg Inv pay_rel (λ data _, ∀ a, parseDecimal (vd_amount data) = Some a → 0 ≤ a)
    (λ _ _, True) (verify ccfg txRef) w.
Proof.
  unfold verify. apply rg_bind. eapply rg_mono; [by apply request_rg| |done].
  intros [] w' Hd; done.
Qed.

Lemma transfer_rg d w :
  known_dis d w →
  rg Inv pay_rel (λ _ _, True) (λ _ _, True)
    (transfer ccfg (ds_accountHolder (d_snapshot d)) (ds_accountNumber (d_snapshot d))
       (ds_bankCode (d_snapshot d)) (d_amount d) (d_reference d)) w.
Proof.
  intros Hk. unfold transfer. apply rg_bind. eapply rg_mono; [apply request_rg|done..].
  intros w1 HR HI _. destruct (known_dis_stable _ _ _ Hk HR HI) as (e&He&Hst).
  exists (d_id d), e. split; [done|].
  apply dis_steps_same in Hst as (?&?&Ha&?&Hr&Hs&?). cbn.
  by rewrite <- Ha, <- Hr, <- Hs.
Qed.
End provider.

#[export] Hint Resolve safe_initialize safe_verify safe_verifyTransfer safe_refund : safe.

(** ** Transfers *)

Section payouts.
Context `{DecimalIO} (cfg : PayoutConfig) (ccfg : ChapaConfig) (keyPrefix : string).
Abbreviation ok := (safe Inv pay_rel).

Lemma upd_status_step s r a b t d :
  dis_edge (d_status d) s → dis_step d (with_d_status s r a b t d).
Proof. by split. Qed.

Lemma safe_dis_update id from s f :
  (∀ (t : Z) d, d_status d ∈ from → dis_edge (d_status d) s) →
  (∀ t d, same_disbursement d (f t d) ∧ d_status (f t d) = s) →
  ok (disbursement_updateMany id from f).
Proof.
  intros He Hf. apply (safe_act Inv pay_rel), disbursement_update_good.
  intros t d Hd. destruct (Hf t d) as [? Hs]. split; [done|]. rewrite Hs. by eapply He.
Qed.

Lemma edges_from_created s : s = DSUBMITTED ∨ s = DUNKNOWN →
  ∀ (t : Z) d, d_status d ∈ [DCREATED] → dis_edge (d_status d) s.
Proof. intros [-> | ->] _ d ->%list_elem_of_singleton; constructor. Qed.
Lemma edges_found : ∀ (t : Z) d, d_status d ∈ [DCREATED; DUNKNOWN] →
  dis_edge (d_status d) DSUBMITTED.
Proof.
  intros _ d Hd. apply elem_of_cons in Hd as [-> | ->%list_elem_of_singleton]; constructor.
Qed.

Lemma safe_markPaid d actor : ok (markPaid d actor).
Proof.
  unfold markPaid, audit_disbursement, profile_by_id. safe_tac.
  apply (safe_dis_update _ _ DPAID); [by constructor|done].
Qed.
Lemma safe_markFailed id r actor : ok (markFailed id r actor).
Proof.
  unfold markFailed, audit_disbursement, disbursement_by_id. safe_tac.
  apply (safe_dis_update _ _ DFAILED); [by constructor|done].
Qed.
Hint Resolve safe_markPaid safe_markFailed : safe.

Lemma safe_checkDisbursement id actor : ok (checkDisbursement cfg ccfg id actor).
Proof.
  unfold checkDisbursement, disbursement_by_id. safe_tac.
  apply (safe_dis_update _ _ DSUBMITTED); [apply edges_found|done].
Qed.
Hint Resolve safe_checkDisbursement : safe.
Lemma safe_checkByReference r : ok (checkByReference cfg ccfg r).
Proof.
  unfold checkByReference, disbursement_by_reference, disbursement_findFirst. safe_tac.
Qed.

Lemma safe_runForVictim v actor : ok (runForVictim cfg ccfg v actor).
Proof.
  unfold runForVictim. destruct (negb _); [safe_tac|]. intros w.
  apply rg_bind. eapply rg_mono with (Q := λ r w', prepared_ok (Ok r) w')
    (E := λ _ _, True); [|intros r w' Hok|done].
  { apply (rg_act_outcome Inv pay_rel). intros w1 HR HI.
    destruct (prepare_good cfg v w1 HI) as (HI1&HR1&Hok).
    by destruct (run (prepare cfg v) w1) as [[r|e] w2]. }
  destruct r as [reason|d]; [done|]. destruct Hok as [Hd _].
  assert (Hk : known_dis d w') by (exists d; split; [done|apply rtc_refl]).
  pose proof (known_dis_stable d) as Hst.
  eapply (rg_seq Inv pay_rel (known_dis d)); [exact Hst|exact Hk|apply safe_emit|].
  intros _ w2 _ Hk2. apply rg_bind.
  eapply rg_mono with (Q := λ _ _, True) (E := λ _ _, True); [|done|done].
  apply rg_catch. eapply rg_mono with (Q := λ _ _, True) (E := λ _ _, True); [|done|].
  - apply rg_bind. eapply rg_mono; [by apply transfer_rg| |done].
    intros _ w3 _. apply safe_rg, safe_bind; [|safe_tac].
    apply (safe_dis_update _ _ DSUBMITTED); [apply edges_from_created; auto|done].
  - intros e w3 _. apply safe_rg. destruct (isDefiniteRejection e); [safe_tac|].
    apply safe_bind; [|safe_tac].
    apply (safe_dis_update _ _ DUNKNOWN); [apply edges_from_created; auto|done].
Qed.
Hint Resolve safe_runForVictim : safe.

Context (order_stale : gmap string Disbursement → list string)
        (order_victims : gmap string Payment → list string).
Lemma safe_sweep : ok (sweep cfg ccfg keyPrefix order_stale order_victims).
Proof.
  unfold sweep. safe_tac.
Qed.
End payouts.

#[export] Hint Resolve safe_checkDisbursement safe_checkByReference safe_runForVictim
  safe_sweep : safe.

(** ** Webhooks, donations and the admin handlers *)

Section handlers.
Context `{DecimalIO} (cfg : PayoutConfig) (ccfg : ChapaConfig) (keyPrefix : string).
Abbreviation ok := (safe Inv pay_rel).

Lemma safe_pay_update id from f :
  (∀ t p, p_status p ∈ from → pay_step p (f t p) ∧ p_status (f t p) ≠ PAID) →
  ok (payment_updateMany id from f).
Proof. intros Hf. by apply (safe_act_outcome Inv pay_rel), payment_update_good. Qed.

Lemma safe_upd_failed id r : ok (payment_updateMany id [PENDING] (upd_failed r)).
Proof.
  apply safe_pay_update. intros t p Hs%list_elem_of_singleton. split; [|done].
  split_and!; [done| |done]. cbn. rewrite Hs. constructor.
Qed.
Lemma safe_upd_review id ref r : ok (payment_updateMany id [PENDING] (upd_review ref r)).
Proof.
  apply safe_pay_update. intros t p Hs%list_elem_of_singleton. split; [|done].
  split_and!; [done| |done]. cbn. rewrite Hs. constructor.
Qed.
Lemma safe_upd_refunded id ref :
  ok (payment_updateMany id [REVIEW_REQUIRED] (upd_refunded ref)).
Proof.
  apply safe_pay_update. intros t p Hs%list_elem_of_singleton. split; [|done].
  split_and!; [done| |done]. cbn. rewrite Hs. constructor.
Qed.
Lemma safe_upd_back id : ok (payment_updateMany id [REFUNDED] upd_back_to_review).
Proof.
  apply safe_pay_update. intros t p Hs%list_elem_of_singleton. split; [|done].
  split_and!; [done| |done]. cbn. rewrite Hs. constructor.
Qed.
Lemma safe_auditPayment a p diff b : ok (auditPayment a p diff b).
Proof. apply safe_emit. Qed.
Lemma safe_audit_donation a p u diff b : ok (audit_donation a p u diff b).
Proof. apply safe_emit. Qed.
Lemma safe_auditPayment_admin a u id diff b : ok (auditPayment_admin a u id diff b).
Proof. apply safe_emit. Qed.
Lemma safe_auditProfile a u v diff : ok (auditProfile a u v diff).
Proof. apply safe_emit. Qed.
Hint Resolve safe_auditPayment safe_audit_donation safe_auditPayment_admin
  safe_auditProfile : safe.
Hint Resolve safe_upd_failed safe_upd_review safe_upd_refunded safe_upd_back : safe.

Lemma from_review (b : bool) s :
  s ∈ (if b then [PENDING; REVIEW_REQUIRED] else [PENDING]) → s ∈ [PENDING; REVIEW_REQUIRED].
Proof. destruct b; set_solver. Qed.

Lemma safe_settlePayment txRef accept : ok (settlePayment cfg ccfg keyPrefix txRef accept).
Proof.
  intros w. unfold settlePayment. apply rg_bind.
  apply (rg_gets Inv pay_rel). intros w1 HR1 HI1.
  destruct (find_row _ _) as [p|] eqn:Hfind; [|done].
  apply find_row_Some in Hfind as (_&i&Hi).
  pose proof (known_row _ _ _ HI1 Hi) as Hk. apply rg_bind. cbn.
  destruct (bool_decide _); [done|]. destruct (_ && _); [done|].
  pose proof (known_stable p) as Hst.
  eapply (rg_seq Inv pay_rel (known p)); [exact Hst|exact Hk|apply verify_rg|].
  intros data w2 Hpos Hk2. cbn in Hpos.
  destruct (bool_decide _); [apply safe_rg; safe_tac|].
  destruct (negb _); [done|].
  destruct (_ && _); [apply safe_rg; safe_tac|].
  unfold decimal. destruct (parseDecimal (vd_amount data)) as [a|]; [|done].
  apply rg_bind. cbn. destruct (negb _); [done|].
  apply rg_bind. eapply rg_mono with (Q := λ _ _, True) (E := λ _ _, True); [|intros won w3 _|done].
  { apply (rg_act_outcome Inv pay_rel). intros w3 HR3 HI3.
    pose proof (record_paid_good p (if accept then [PENDING; REVIEW_REQUIRED] else [PENDING])
      a data w3 (Hpos _ eq_refl) (from_review accept) HI3 (Hst _ _ Hk2 HR3 HI3)) as Hrec.
    rewrite run_transaction in Hrec.
    destruct (run (record_paid _ _ _ _) w3) as [[] ?]; [naive_solver|done]. }
  apply safe_rg. unfold payment_by_id. safe_tac.
Qed.
Hint Resolve safe_settlePayment : safe.

Lemma safe_handleEvent payload : ok (handleEvent cfg ccfg keyPrefix payload).
Proof. unfold handleEvent, field. safe_tac. Qed.

Lemma safe_approveTransfer dto : ok (approveTransfer dto).
Proof. unfold approveTransfer, getBalance. safe_tac. Qed.
Hint Resolve safe_handleEvent safe_approveTransfer : safe.

Lemma safe_verifyForPayer user txRef : ok (verifyForPayer cfg ccfg keyPrefix user txRef).
Proof. unfold verifyForPayer, payment_findFirst. safe_tac. Qed.
Lemma safe_getPublicTotals v : ok (getPublicTotals keyPrefix v).
Proof.
  unfold getPublicTotals, public_profile_by_id.
  apply safe_bind; [safe_tac|intros o]. apply safe_bind; [safe_tac|intros _].
  apply safe_wrap; [apply _|safe_tac].
Qed.

Lemma safe_accept_review admin p reason : ok (accept_review cfg ccfg keyPrefix admin p reason).
Proof. unfold accept_review, getPayment. safe_tac. Qed.
Lemma safe_refund_review admin p reason : ok (refund_review ccfg keyPrefix admin p reason).
Proof. unfold refund_review, getPayment, decimal. safe_tac. Qed.
Hint Resolve safe_accept_review safe_refund_review : safe.
Lemma safe_resolveReview admin id d reason :
  ok (resolveReview cfg ccfg keyPrefix admin id d reason).
Proof. unfold resolveReview, payment_by_id. safe_tac. Qed.

Lemma pause_update_good v b : good Inv pay_rel (pause_update v b).
Proof.
  intros w HI. unfold pause_update. destruct (pw_profiles w !! v) as [p|] eqn:Hp; [|done].
  destruct (Bool.eqb _ _); [|done]. cbn.
  assert (HR : pay_rel w (set_profiles (insert v (set_paused b p)) w)).
  { split; cbn; [intros id x Hx; exists x; split; [done|apply rtc_refl]
                |intros id x Hx; exists x; split; [done|apply rtc_refl]| |by exists []].
    intros u Hu. destruct (decide (u = v)) as [->|];
      [rewrite lookup_insert_eq; by eexists|by rewrite lookup_insert_ne]. }
  split; [|done]. destruct HI as [Ipid Ifk Itx Icr Iraised Idid Idref Idn Iact Ifunds Inet Isent].
  split; cbn; try done.
  - intros id x Hx. apply (rel_profiles _ _ HR). by eapply Ifk.
  - intros u x [[<- <-]|[Hne Hx]]%lookup_insert_Some; [exact (Iraised v p Hp)|exact (Iraised u x Hx)].
Qed.
Lemma safe_pausePayouts admin v reason : ok (pausePayouts admin v reason).
Proof.
  unfold pausePayouts, assertProfile, profile_by_id. safe_tac.
  apply (safe_act Inv pay_rel), pause_update_good.
Qed.
Lemma safe_resumePayouts admin v : ok (resumePayouts admin v).
Proof.
  unfold resumePayouts, assertProfile, profile_by_id. safe_tac.
  apply (safe_act Inv pay_rel), pause_update_good.
Qed.

Context (dcfg : DonationConfig) (sha256hex : string → string) (toFixed0 : Z → string)
        (url_with_tx_ref : string → string → option string).
Lemma safe_payment_insert p :
  p_status p = PENDING → p_chapaReference p = None → ok (act_outcome (payment_insert p)).
Proof. intros. by apply (safe_act_outcome Inv pay_rel), payment_insert_good. Qed.
Lemma safe_record_donation user dto amount key txRef :
  ok (record_donation dcfg user dto amount key txRef).
Proof.
  unfold record_donation, payment_by_txRef, payment_findFirst. safe_tac.
  by apply safe_payment_insert.
Qed.
Lemma safe_initialize_checkout a e n r :
  ok (initialize_checkout dcfg ccfg url_with_tx_ref a e n r).
Proof. unfold initialize_checkout. safe_tac. Qed.
Hint Resolve safe_record_donation safe_initialize_checkout : safe.
Lemma safe_start user dto key :
  ok (start dcfg ccfg keyPrefix sha256hex toFixed0 url_with_tx_ref user dto key).
Proof.
  unfold start, getDonatableProfile, public_profile_by_id. safe_tac.
Qed.
End handlers.
