(* ===== verification/PayProps.v ===== *)
(** * Payments: what holds under every interleaving

    The application as a pool of payment handlers (webhook calls, donors,
    administrators, the timer job) that interleave with each other and with the
    rest of the backend, and the properties that hold in every reachable world. *)

From S2P Require Import Prelude Interleave Js Redis Cache Chapa Roles PayModel Payout.
From S2P Require Import Webhook Donation PayAdmin PaySafety.

Open Scope Z_scope.

Definition digit_val (c : ascii) : option Z :=
  if is_digit c then Some (Z.of_nat (nat_of_ascii c) - 48) else None.

Fixpoint read_digits (s : string) (acc : Z) : option Z :=
  match s with
  | EmptyString => Some acc
  | Str c s => match digit_val c with
               | Some d => read_digits s (acc * 10 + d)
               | None => None
               end
  end.

(** ["12"], ["12.5"] and ["12.50"] as hundredths. *)
Definition demo_parse (s : string) : option Z :=
  match split "."%char s with
  | [i] => (λ n, n * 100) <$> (if truthy i then read_digits i 0 else None)
  | [i; f] =>
      match read_digits i 0, read_digits f 0, String.length f with
      | Some n, Some m, 1%nat => Some (n * 100 + m * 10)
      | Some n, Some m, 2%nat => Some (n * 100 + m)
      | _, _, _ => None
      end
  | _ => None
  end.

Definition demo_print (d : Z) : string :=
  str_of_Z (d `div` 100) +:+ "." +:+ padStart 2 "0" (str_of_Z (d `mod` 100)).

#[export] Instance demo_decimal : DecimalIO :=
  {| parseDecimal := demo_parse; toFixed2 := demo_print |}.

Example demo_decimal_ok :
  demo_parse "150.5" = Some 15050 ∧ demo_print 15005 = "150.05" ∧ demo_parse "x" = None.
Proof. by vm_compute. Qed.

Definition demo_cfg : PayoutConfig := {|
  po_enabled := true; po_currency := "ETB"; po_minTransfer := 100;
  po_retryAfterFailureMinutes := 15; po_timeoutMinutes := 60 |}.
Definition demo_ccfg : ChapaConfig := {|
  secretKey := "sk"; webhookSecret := "wh"; chapa_currency := "ETB";
  titleMaxLength := 16; descriptionMaxLength := 50 |}.
Definition demo_dcfg : DonationConfig := {|
  dc_enabled := true; dc_currency := "ETB"; dc_minAmount := 1000;
  dc_returnUrl := "https://ehte.example/return"; dc_callbackUrl := "https://ehte.example/cb";
  dc_fallbackEmail := "donor@ehte.example" |}.

Definition demo_destination : PayoutDestination := {|
  pd_id := "dest1"; pd_bankName := "Bank"; pd_bankCode := "001";
  pd_accountNumber := "1000123456"; pd_accountHolder := "Abebe B"; pd_isVerified := true |}.

Definition demo_profile (raised : Z) : VictimProfile := {|
  vp_name := "Abebe"; vp_involvesChild := false;
  vp_status := VP_PUBLISHED; vp_isPublished := true; vp_isVerified := true;
  vp_isSafetyReviewed := true; vp_hasConsent := true; vp_isPrivacyReviewed := true;
  vp_isAdminApproved := true; vp_deletedAt := None; vp_takedownAt := None;
  vp_legalHold := false; vp_payoutsPaused := false; vp_donationsPaused := false;
  vp_completedAt := None; vp_fundingEndsAt := None;
  vp_destination := Some demo_destination; vp_createdBy := Some "u2";
  vp_totalRaised := raised |}.

Definition demo_payment (s : PaymentStatus) : Payment := {|
  p_id := "p1"; p_status := s; p_victim := "v1"; p_payer := Some "u1";
  p_isAnonymous := false; p_amount := 15050; p_currency := "ETB"; p_txRef := "tx1";
  p_chapaReference := None; p_chapaFee := None; p_failureReason := None;
  p_paidAt := None; p_createdAt := 0; p_updatedAt := 0 |}.

(** Replies of the provider. *)
Definition demo_ok (d : chapa_data) : net_reply :=
  NetResp 200 (Some {| env_status := "success"; env_message := MsgNone; env_data := d |}).
Definition demo_verify (status amount : string) : net_reply :=
  demo_ok (DVerify {| vd_currency := "etb"; vd_amount := amount; vd_charge := Some "1.00";
                      vd_status := status; vd_reference := Some "CH1" |}).

Definition demo_cache : CacheSt := cache_init.
Definition demo_world (ps : gmap string Payment) (ds : gmap string Disbursement)
    (raised : Z) (net : list net_reply) : PayW := {|
  pw_payments := ps; pw_disbursements := ds;
  pw_profiles := {[ "v1" := demo_profile raised ]};
  pw_users := {[ "u1" := {| pu_email := Some "d@x.et"; pu_name := Some "Sara T";
                            pu_phone := None |} ]};
  pw_events := []; pw_net := net; pw_sent := [];
  pw_rand := ["t1"; "t2"; "h1"; "d1"; "t3"; "t4"; "h2"; "d2"]; pw_ppm := [];
  pw_now := 1000000; pw_redis := fresh_redis; pw_secredis := fresh_redis;
  pw_cache := demo_cache |}.

(** One pending payment; the provider says success, then accepts the transfer. *)
Definition demo_pending : PayW :=
  demo_world {[ "p1" := demo_payment PENDING ]} ∅ 0
    [demo_verify "success" "150.50"; demo_ok DNone].

Lemma demo_inv s net :
  s ≠ PAID → Forall reply_ok net →
  Inv (demo_world {[ "p1" := demo_payment s ]} ∅ 0 net).
Proof.
  intros Hs Hnet. split; cbn.
  - by intros id p [<- <-]%lookup_singleton_Some.
  - intros id p [<- <-]%lookup_singleton_Some. cbn. rewrite lookup_singleton_eq. by eexists.
  - by intros i j p q [<- <-]%lookup_singleton_Some [<- <-]%lookup_singleton_Some.
  - by intros i j p q r [<- <-]%lookup_singleton_Some [<- <-]%lookup_singleton_Some.
  - intros v p [<- <-]%lookup_singleton_Some. unfold raised_of. cbn.
    rewrite <- insert_empty, sumZ_insert_new, sumZ_empty by done.
    unfold pay_amount_if, is_paid_of. cbn. by rewrite (bool_decide_eq_false_2 (s = PAID)).
  - done.
  - done.
  - done.
  - done.
  - intros v. unfold sum_active, dis_sum, raised_of. cbn. rewrite !sumZ_empty.
    rewrite <- insert_empty, sumZ_insert_new, sumZ_empty by done.
    unfold pay_amount_if, is_paid_of. cbn.
    rewrite (bool_decide_eq_false_2 (s = PAID)) by done. rewrite andb_false_r. lia.
  - done.
  - done.
Qed.

Lemma demo_verify_ok status amount :
  (∀ a, demo_parse amount = Some a → 0 ≤ a) → reply_ok (demo_verify status amount).
Proof. done. Qed.

Definition demo_parseJson (s : string) : option json :=
  if bool_decide (s = "{tx1}") then Some (JObj [("tx_ref", JStr "tx1")])
  else if bool_decide (s = "{d1}") then Some (JObj [("reference", JStr "ehte-tr-h1")])
  else None.
(** A keyed digest with the shape the code relies on. *)
Definition demo_hmac (k d : string) : string := str_take 2 (k +:+ d).

Example demo_settle :
  let w := (run (settlePayment demo_cfg demo_ccfg "ehte:" "tx1" false) demo_pending).2 in
  (p_status <$> pw_payments w !! "p1") = Some PAID ∧
  (vp_totalRaised <$> pw_profiles w !! "v1") = Some 15050 ∧
  ((λ d, (d_status d, d_amount d)) <$> pw_disbursements w !! "d1") = Some (DSUBMITTED, 15050) ∧
  length (pw_sent w) = 2%nat.
Proof. by vm_compute. Qed.

From S2P Require Import Prelude Interleave Js Redis Cache Chapa Roles PayModel.
From S2P Require Import Payout Webhook Donation PayAdmin PaySafety.

Open Scope Z_scope.

(** ** The rest of the application

    Between two steps of the handlers anything else may change, except the
    payment tables and the sums: profiles are edited or created (with nothing
    raised yet), users, the clock, Redis, the cache and the provider move on. *)
Record app_step `{DecimalIO} (w w' : PayW) : Prop := {
  as_payments : pw_payments w' = pw_payments w;
  as_disbursements : pw_disbursements w' = pw_disbursements w;
  as_sent : pw_sent w' = pw_sent w;
  as_net : Forall reply_ok (pw_net w');
  as_kept v p : pw_profiles w !! v = Some p →
    ∃ q, pw_profiles w' !! v = Some q ∧ vp_totalRaised q = vp_totalRaised p;
  as_new v q : pw_profiles w !! v = None → pw_profiles w' !! v = Some q →
    vp_totalRaised q = 0;
}.

Section application.
Context `{DecimalIO} (dcfg : DonationConfig) (cfg : PayoutConfig) (ccfg : ChapaConfig).
Context (keyPrefix : string) (hmac : string → string → string)
        (parseJson : string → option json) (sha256hex : string → string)
        (toFixed0 : Z → string) (url_with_tx_ref : string → string → option string)
        (order_stale : gmap string Disbursement → list string)
        (order_victims : gmap string Payment → list string).

Definition forget {A} (p : prog PayW A) : prog PayW () := p ;; mret ().

(** The entry points of the payments module. *)
Inductive handler : prog PayW () → Prop :=
| h_webhook raw s1 s2 : handler (events cfg ccfg keyPrefix hmac parseJson raw s1 s2)
| h_approval dto s : handler (approveTransfer_endpoint ccfg hmac dto s)
| h_start user dto key :
    handler (forget (start dcfg ccfg keyPrefix sha256hex toFixed0 url_with_tx_ref user dto key))
| h_verify user txRef : handler (forget (verifyForPayer cfg ccfg keyPrefix user txRef))
| h_totals v : handler (forget (getPublicTotals keyPrefix v))
| h_review admin id d reason :
    handler (forget (resolveReview cfg ccfg keyPrefix admin id d reason))
| h_pause admin v reason : handler (forget (pausePayouts admin v reason))
| h_resume admin v : handler (forget (resumePayouts admin v))
| h_run v actor : handler (forget (runForVictim cfg ccfg v actor))
| h_check id actor : handler (forget (checkDisbursement cfg ccfg id actor))
| h_sweep : handler (sweep cfg ccfg keyPrefix order_stale order_victims).

Lemma handler_safe p : handler p → safe Inv pay_rel p.
Proof.
  destruct 1; unfold forget.
  - unfold events. apply safe_bind; [safe_tac|intros raw'].
    apply safe_bind; [safe_tac|intros _]. apply safe_bind; [safe_tac|intros payload].
    apply safe_handleEvent.
  - unfold approveTransfer_endpoint. apply safe_bind; [safe_tac|intros _].
    apply safe_bind; [|safe_tac]. apply safe_or_default, safe_approveTransfer.
  - apply safe_bind; [apply safe_start|safe_tac].
  - apply safe_bind; [apply safe_verifyForPayer|safe_tac].
  - apply safe_bind; [apply safe_getPublicTotals|safe_tac].
  - apply safe_bind; [apply safe_resolveReview|safe_tac].
  - apply safe_bind; [apply safe_pausePayouts|safe_tac].
  - apply safe_bind; [apply safe_resumePayouts|safe_tac].
  - apply safe_bind; [apply safe_runForVictim|safe_tac].
  - apply safe_bind; [apply safe_checkDisbursement|safe_tac].
  - apply safe_sweep.
Qed.

Lemma raised_of_empty v w :
  Inv w → pw_profiles w !! v = None → raised_of v w = 0.
Proof.
  intros HI Hv. apply sumZ_zero. intros i p Hp. unfold pay_amount_if, is_paid_of.
  case_bool_decide as Hpv; [|done]. destruct (inv_pfk _ HI _ _ Hp). congruence.
Qed.

Lemma app_step_good w w' : Inv w → app_step w w' → Inv w' ∧ pay_rel w w'.
Proof.
  intros HI [Hp Hd Hs Hn Hk Hnew].
  assert (HR : pay_rel w w').
  { split; rewrite ?Hp, ?Hd, ?Hs.
    - intros id p Hid. exists p. split; [done|apply rtc_refl].
    - intros id d Hid. exists d. split; [done|apply rtc_refl].
    - intros v [p Hv]. destruct (Hk _ _ Hv) as (q&Hq&_). by exists q.
    - by exists []. }
  assert (Hra : ∀ v, raised_of v w' = raised_of v w)
    by (intros; unfold raised_of; by rewrite Hp).
  split; [|done]. pose proof HI as [Ipid Ifk Itx Icr Iraised Idid Idref Idn Iact Ifunds Inet Isent].
  split; rewrite ?Hp, ?Hd, ?Hs; try done.
  - intros id p Hid. apply (rel_profiles _ _ HR). by eapply Ifk.
  - intros v q Hq. rewrite Hra. destruct (pw_profiles w !! v) as [p|] eqn:Hv.
    + destruct (Hk _ _ Hv) as (q'&Hq'&Ht). simplify_eq. rewrite Ht. by apply Iraised.
    + rewrite (Hnew v q) by done. by rewrite raised_of_empty.
  - intros v. unfold sum_active, dis_sum in *. rewrite Hra, Hd. apply Ifunds.
  - eapply Forall_impl; [done|]. intros. by eapply backed_mono.
Qed.

(** A run of the application from a consistent world. *)
Definition app_run (ps : list (prog PayW ())) (w w' : PayW) : Prop :=
  Inv w ∧ Forall handler ps ∧
  ∃ ps', rtc (pool_step app_step) (ps, w) (ps', w').

Lemma app_run_good ps w w' : app_run ps w w' → Inv w' ∧ pay_rel w w'.
Proof.
  intros (HI&Hps&ps'&Hsteps).
  eapply (pool_invariant Inv pay_rel app_step); [|done| |exact Hsteps].
  - intros u u' Hu He. by apply app_step_good.
  - intros i p Hi. apply safe_rg, handler_safe. by eapply (Forall_lookup_1 handler).
Qed.

(** C1: Money is conserved. However the handlers interleave, the total a victim
    profile shows is the sum of that victim's confirmed payments, and the
    transfers that were sent or may still move money never exceed it. *)
Theorem money_conserved ps w w' v p :
  app_run ps w w' → pw_profiles w' !! v = Some p →
  vp_totalRaised p = raised_of v w' ∧
  dis_sum v DPAID w' + sum_active v w' ≤ vp_totalRaised p.
Proof.
  intros Hrun Hp. destruct (app_run_good _ _ _ Hrun) as [HI _].
  rewrite (inv_raised _ HI _ _ Hp). split; [done|]. apply (inv_funds _ HI).
Qed.

(** C2: One transfer at a time. In no reachable world does a victim have two
    transfers that may still move money. *)
Theorem one_active_transfer ps w w' i j d e :
  app_run ps w w' →
  pw_disbursements w' !! i = Some d → pw_disbursements w' !! j = Some e →
  d_victim d = d_victim e → active d → active e → i = j.
Proof. intros Hrun. destruct (app_run_good _ _ _ Hrun) as [HI _]. apply (inv_active _ HI). Qed.

(** The life of a payment. A row never disappears and never changes its
    victim, payer, reference or currency; its status moves only along
    [pay_edge]; and once it is [PAID] or [FAILED] nothing about it changes. *)
Theorem payment_life ps w w' id p :
  app_run ps w w' → pw_payments w !! id = Some p →
  ∃ q, pw_payments w' !! id = Some q ∧ same_payment p q ∧
    rtc pay_edge (p_status p) (p_status q) ∧
    (p_status p = PAID ∨ p_status p = FAILED → q = p).
Proof.
  intros Hrun Hp. destruct (app_run_good _ _ _ Hrun) as [_ HR].
  destruct (rel_payments _ _ HR _ _ Hp) as (q&Hq&Hst). exists q.
  split_and!; [done|by apply pay_steps_same| |by apply pay_steps_final].
  clear Hp Hq. induction Hst as [|p1 p2 p3 (_&He&_) _ IH]; [done|]. by eapply rtc_l.
Qed.

(** The life of a transfer. Its amount, victim, reference and destination
    never change, and once it is paid or failed nothing about it changes. *)
Theorem transfer_life ps w w' id d :
  app_run ps w w' → pw_disbursements w !! id = Some d →
  ∃ e, pw_disbursements w' !! id = Some e ∧ same_disbursement d e ∧
    rtc dis_edge (d_status d) (d_status e) ∧ (¬ active d → e = d).
Proof.
  intros Hrun Hd. destruct (app_run_good _ _ _ Hrun) as [_ HR].
  destruct (rel_disbursements _ _ HR _ _ Hd) as (e&He&Hst). exists e.
  split_and!; [done|by apply dis_steps_same| |by apply dis_steps_final].
  clear Hd He. induction Hst as [|p1 p2 p3 (_&He) _ IH]; [done|]. by eapply rtc_l.
Qed.

(** No money leaves without a record. Every transfer request the provider
    ever receives carries the amount, account, holder, bank and reference of a
    recorded disbursement; and no two disbursements share a reference. *)
Theorem transfers_recorded ps w w' req :
  app_run ps w w' → req ∈ pw_sent w' → is_transfer req = true →
  ∃ id d, pw_disbursements w' !! id = Some d ∧ backs d req ∧
    ∀ id' d', pw_disbursements w' !! id' = Some d' → d_reference d' = d_reference d →
      id' = id.
Proof.
  intros Hrun Hreq Ht. destruct (app_run_good _ _ _ Hrun) as [HI _].
  pose proof (proj1 (Forall_forall _ _) (inv_sent _ HI) req Hreq Ht) as (id&d&Hd&Hb).
  exists id, d. split_and!; [done..|]. intros. by eapply (inv_dref _ HI).
Qed.

(** No collection is credited twice. Two payments that carry the same
    reference of the provider, or the same [txRef], are one payment. *)
Theorem provider_reference_once ps w w' i j p q :
  app_run ps w w' →
  pw_payments w' !! i = Some p → pw_payments w' !! j = Some q →
  (∃ r, p_chapaReference p = Some r ∧ p_chapaReference q = Some r) ∨
  p_txRef p = p_txRef q → i = j.
Proof.
  intros Hrun Hp Hq. destruct (app_run_good _ _ _ Hrun) as [HI _].
  intros [(r&?&?)|?]; [by eapply (inv_chapaRef _ HI)|by eapply (inv_txRef _ HI)].
Qed.
End application.

(** ** A run: the webhook of a pending donation *)

Definition demo_sha (s : string) : string := s.
Definition demo_fixed0 (n : Z) : string := str_of_Z (n `div` 100).
Definition demo_url (base r : string) : option string := Some (base +:+ "?tx_ref=" +:+ r).
Definition demo_stale (m : gmap string Disbursement) : list string := (map_to_list m).*1.
Definition demo_victims (m : gmap string Payment) : list string :=
  remove_dups (p_victim <$> (map_to_list m).*2).

Definition demo_webhook : prog PayW () :=
  events demo_cfg demo_ccfg "ehte:" demo_hmac demo_parseJson (Some "{tx1}") (Some "7768") None.
Definition demo_after : PayW := (run demo_webhook demo_pending).2.

Abbreviation demo_app_run := (app_run demo_dcfg demo_cfg demo_ccfg "ehte:" demo_hmac
  demo_parseJson demo_sha demo_fixed0 demo_url demo_stale demo_victims).

Lemma demo_run : demo_app_run [demo_webhook; demo_webhook] demo_pending demo_after.
Proof.
  split_and!.
  - apply demo_inv; [done|]. repeat constructor. vm_compute. by intros a [= <-].
  - repeat constructor.
  - destruct (pool_run app_step [demo_webhook; demo_webhook] 0 demo_webhook demo_pending)
      as [q Hq]; [done|]. eexists. exact Hq.
Qed.

Definition demo_paid : Payment := upd_paid 15050 (Some "CH1") (Some 100) 1000000
  (demo_payment PENDING).
Definition demo_transfer : Disbursement := {|
  d_id := "d1"; d_victim := "v1"; d_status := DSUBMITTED; d_amount := 15050;
  d_currency := "ETB"; d_reference := "ehte-tr-h1"; d_chapaTransferRef := None;
  d_transferFee := None; d_failureReason := None;
  d_snapshot := {| ds_destinationId := "dest1"; ds_bankName := "Bank"; ds_bankCode := "001";
                   ds_accountNumber := "1000123456"; ds_accountHolder := "Abebe B" |};
  d_submittedAt := Some 1000000; d_paidAt := None; d_createdAt := 1000000;
  d_updatedAt := 1000000 |}.

Lemma money_conserved_witness :
  15050 = raised_of "v1" demo_after ∧
  dis_sum "v1" DPAID demo_after + sum_active "v1" demo_after ≤ 15050.
Proof.
  apply (money_conserved _ _ _ _ _ _ _ _ _ _ _ _ _ _ "v1" (demo_profile 15050) demo_run).
  by vm_compute.
Defined.

Lemma one_active_transfer_witness : "d1" = "d1".
Proof.
  apply (one_active_transfer _ _ _ _ _ _ _ _ _ _ _ _ _ _ "d1" "d1" demo_transfer demo_transfer
    demo_run); vm_compute; by try repeat constructor.
Defined.

Lemma payment_life_witness :
  ∃ q, pw_payments demo_after !! "p1" = Some q ∧ same_payment (demo_payment PENDING) q ∧
    rtc pay_edge PENDING (p_status q) ∧ (PENDING = PAID ∨ PENDING = FAILED →
      q = demo_payment PENDING).
Proof.
  apply (payment_life _ _ _ _ _ _ _ _ _ _ _ _ _ _ "p1" (demo_payment PENDING) demo_run).
  by vm_compute.
Defined.

(** The transfer of a first webhook, while a second webhook is handled. *)
Definition demo_after2 : PayW := (run demo_webhook demo_after).2.
Lemma demo_run2 : demo_app_run [demo_webhook] demo_after demo_after2.
Proof.
  split_and!.
  - by destruct (app_run_good _ _ _ _ _ _ _ _ _ _ _ _ _ _ demo_run).
  - repeat constructor.
  - destruct (pool_run app_step [demo_webhook] 0 demo_webhook demo_after) as [q Hq]; [done|].
    eexists. exact Hq.
Qed.

Lemma transfer_life_witness :
  ∃ e, pw_disbursements demo_after2 !! "d1" = Some e ∧ same_disbursement demo_transfer e ∧
    rtc dis_edge DSUBMITTED (d_status e) ∧ (¬ active demo_transfer → e = demo_transfer).
Proof.
  apply (transfer_life _ _ _ _ _ _ _ _ _ _ _ _ _ _ "d1" demo_transfer demo_run2).
  by vm_compute.
Defined.

Definition demo_request : net_req := {|
  nr_post := true; nr_path := "/transfers";
  nr_body := BodyTransfer "Abebe B" "1000123456" "001" "150.50" "ETB" "ehte-tr-h1" |}.

Lemma transfers_recorded_witness :
  ∃ id d, pw_disbursements demo_after !! id = Some d ∧ backs d demo_request ∧
    ∀ id' d', pw_disbursements demo_after !! id' = Some d' →
      d_reference d' = d_reference d → id' = id.
Proof.
  apply (transfers_recorded _ _ _ _ _ _ _ _ _ _ _ _ _ _ demo_request demo_run); [|done].
  vm_compute. by left.
Defined.

Lemma provider_reference_once_witness : "p1" = "p1".
Proof.
  apply (provider_reference_once _ _ _ _ _ _ _ _ _ _ _ _ _ _ "p1" "p1" demo_paid demo_paid
    demo_run); [by vm_compute..|]. left. by exists "CH1".
Defined.
