(* ===== verification/PaySeq.v ===== *)
(** * Payments: what each operation does

    The functional behaviour of the payment handlers when they run alone:
    settling, approving, sending, checking, refunding and starting a donation. *)

From S2P Require Import Prelude Interleave Js Redis Cache Chapa Roles PayModel.
From S2P Require Import Payout Webhook Donation PayAdmin PaySafety PayProps.

Open Scope Z_scope.

(** ** Programs that only touch Redis and the cache *)

Record same_tables (w w' : PayW) : Prop := {
  st_payments : pw_payments w' = pw_payments w;
  st_disbursements : pw_disbursements w' = pw_disbursements w;
  st_profiles : pw_profiles w' = pw_profiles w;
  st_users : pw_users w' = pw_users w;
  st_net : pw_net w' = pw_net w;
  st_sent : pw_sent w' = pw_sent w;
  st_now : pw_now w' = pw_now w;
}.

#[export] Instance same_tables_preorder : PreOrder same_tables.
Proof.
  split; [by intros w; split|].
  intros w1 w2 w3 [] []; split; by etrans.
Qed.

#[export] Instance same_tables_outside : OutsideGood (λ _, True) same_tables.
Proof.
  split; [apply _|intros [] r w _|intros cs w _|intros w _|intros w _]; by split.
Qed.

Abbreviation quietly := (calm (λ _ : PayW, True) same_tables).

Lemma quietly_emit e : quietly (emit e).
Proof. apply (calm_modify (λ _, True) same_tables). by split. Qed.

Lemma run_quietly {A} (p : prog PayW A) w :
  quietly p → ∃ a w', run p w = (Ok a, w') ∧ same_tables w w'.
Proof. intros Hp. destruct (run_calm _ _ p w I Hp) as (a&w'&?&_&?). eauto. Qed.

(** ** Settling *)

Section settle.
Context `{DecimalIO} (cfg : PayoutConfig) (ccfg : ChapaConfig) (keyPrefix : string).
Abbreviation settle := (settlePayment cfg ccfg keyPrefix).

(** The payment of a reference. *)
Definition payment_of (w : PayW) (txRef : string) (p : Payment) : Prop :=
  find_row (λ p, bool_decide (p_txRef p = txRef)) (pw_payments w) = Some p ∧
  pw_payments w !! p_id p = Some p.

(** The world after asking the provider about [txRef]. *)
Definition verify_request (txRef : string) : net_req :=
  {| nr_post := false; nr_path := "/transaction/verify/" +:+ encodeURIComponent txRef;
     nr_body := BodyNone |}.
Definition asked (txRef : string) (w : PayW) : PayW := (net_send (verify_request txRef) w).2.

(** What the provider's next reply says. *)
Definition answer (w : PayW) : outcome verify_data :=
  match read_reply (hd NetFail (pw_net w)) with
  | Ok (DVerify d) => Ok d
  | Ok _ => Err (JsError "TypeError")
  | Err e => Err e
  end.

Lemma run_verify txRef w :
  secretKey ccfg ≠ "" → run (verify ccfg txRef) w = (answer w, asked txRef w).
Proof.
  intros Hk. unfold verify. rewrite run_bind, run_request by done. cbn.
  unfold answer. by destruct (read_reply _) as [[]|].
Qed.

(** Settling is idempotent. A payment that is already paid or refunded, or
    under review when no administrator accepts it, is answered from the record:
    nothing changes and the provider is not asked. *)
Theorem settle_settled txRef accept w p :
  payment_of w txRef p →
  p_status p ∈ [PAID; REFUNDED] ∨ (p_status p = REVIEW_REQUIRED ∧ accept = false) →
  run (settle txRef accept) w = (Ok (result p), w).
Proof.
  intros [Hf _] Hs. unfold settlePayment.
  rewrite run_bind, run_payment_by_txRef, Hf, run_bind, run_require. cbn [from_option].
  destruct Hs as [Hs|[Hs ->]].
  - by rewrite bool_decide_eq_true_2.
  - destruct (bool_decide _); [done|]. by rewrite Hs.
Qed.

(** An answer that confirms the payment exactly. *)
Definition confirms (p : Payment) (data : verify_data) : bool :=
  bool_decide (vd_status data = "success") &&
  paidAmountMatches (vd_amount data) (vd_currency data) (p_amount p) (p_currency p).

Lemma confirms_spec p data :
  confirms p data = true ↔ vd_status data = "success" ∧
    parseDecimal (vd_amount data) = Some (p_amount p) ∧
    toUpperCase (vd_currency data) = toUpperCase (p_currency p).
Proof.
  unfold confirms, paidAmountMatches. rewrite andb_true_iff, bool_decide_eq_true.
  destruct (parseDecimal _) as [a|]; [|naive_solver].
  rewrite andb_true_iff, !bool_decide_eq_true. naive_solver.
Qed.

Definition charge_of (data : verify_data) : option (option Z) :=
  match vd_charge data with
  | None => Some None
  | Some c => Some <$> parseDecimal c
  end.

Lemma run_record_paid p w data fee prof :
  pw_payments w !! p_id p = Some p → p_status p = PENDING → charge_of data = Some fee →
  chapaRef_taken (p_id p) (vd_reference data) (pw_payments w) = false →
  pw_profiles w !! p_victim p = Some prof →
  run (transaction (record_paid p [PENDING] (p_amount p) data)) w =
    (Ok true, set_profiles (insert (p_victim p) (add_raised (p_amount p) prof))
      (set_payments (insert (p_id p)
        (upd_paid (p_amount p) (vd_reference data) fee (pw_now w) p)) w)).
Proof.
  intros Hrow Hs Hfee Htaken Hprof. rewrite run_transaction. unfold record_paid. rewrite run_bind.
  assert (run (match vd_charge data with
      | Some c => f ← decimal c; mret (Some f)
      | None => mret None end) w = (Ok fee, w)) as ->.
  { revert Hfee. unfold charge_of, decimal. destruct (vd_charge data) as [c|]; [|by intros [= <-]].
    rewrite run_bind, run_require. by destruct (parseDecimal c); intros [= <-]. }
  rewrite run_bind, run_payment_updateMany. unfold payment_update.
  rewrite Hrow, bool_decide_eq_true_2 by (rewrite Hs; set_solver).
  cbn. rewrite Htaken. cbn. rewrite run_bind, run_act_outcome.
  unfold profile_increment. cbn. by rewrite Hprof.
Qed.

(** A confirmed donation. When the provider confirms a pending payment
    exactly, the payment becomes paid with the provider's reference and fee,
    the victim's total grows by the amount, both in one step, and the victim's
    balance is then sent on; whatever the transfer does, the payment stays
    paid and the answer is [PAID]. *)
Theorem settle_confirmed txRef w p data fee prof :
  secretKey ccfg ≠ "" → payment_of w txRef p → p_status p = PENDING →
  answer w = Ok data → confirms p data = true → charge_of data = Some fee →
  chapaRef_taken (p_id p) (vd_reference data) (pw_payments w) = false →
  pw_profiles w !! p_victim p = Some prof →
  ∃ w3,
    pw_payments w3 =
      <[p_id p := upd_paid (p_amount p) (vd_reference data) fee (pw_now w) p]>
        (pw_payments w) ∧
    pw_profiles w3 = <[p_victim p := add_raised (p_amount p) prof]> (pw_profiles w) ∧
    pw_disbursements w3 = pw_disbursements w ∧
    pw_sent w3 = verify_request txRef :: pw_sent w ∧
    run (settle txRef false) w =
      (Ok (result_of PAID (p_amount p) (p_currency p)),
       (run (runForVictim cfg ccfg (p_victim p) None) w3).2).
Proof.
  intros Hkey [Hf Hrow] Hs Hans Hc Hfee Htaken Hprof.
  apply confirms_spec in Hc as (Hok&Ha&Hcur).
  set (w1 := asked txRef w).
  set (w2 := set_profiles (insert (p_victim p) (add_raised (p_amount p) prof))
    (set_payments (insert (p_id p)
      (upd_paid (p_amount p) (vd_reference data) fee (pw_now w) p)) w1)).
  pose proof (run_record_paid p w1 data fee prof Hrow Hs Hfee Htaken Hprof) as Hrec.
  change (pw_now w1) with (pw_now w) in Hrec. fold w2 in Hrec.
  destruct (run_quietly (invalidateVictimProfileEverywhere keyPrefix (p_victim p)) w2)
    as (u1&w3&E1&S1); [apply calm_invalidateVictimProfileEverywhere, _|].
  set (audit := auditPayment "PAYMENT_PAID" p
    [("amount", toFixed2 (p_amount p)); ("chapaFee", default "null" (vd_charge data))] true).
  destruct (run_quietly audit w3) as (u2&w4&E2&S2); [apply quietly_emit|].
  set (notify := match p_payer p with
    | Some u => if truthy u then emit (Notified "notification.payment_verified" u (p_id p))
                else mret ()
    | None => mret () end).
  destruct (run_quietly notify w4) as (u3&w5&E3&S3).
  { unfold notify. destruct (p_payer p); [case_match|]; auto using quietly_emit, @calm_mret. }
  assert (S : same_tables w2 w5) by (by etrans; [|etrans]).
  exists w5. destruct S as [Sp Sd Sv _ _ Ss _]. rewrite Sp, Sd, Sv, Ss.
  split_and!; [done..|].
  unfold settlePayment.
  rewrite run_bind, run_payment_by_txRef, Hf, run_bind, run_require. cbn [from_option].
  rewrite (bool_decide_eq_false_2 (p_status p ∈ _)) by (rewrite Hs; set_solver).
  rewrite (bool_decide_eq_false_2 (p_status p = REVIEW_REQUIRED)) by (rewrite Hs; done).
  cbn [andb]. rewrite run_bind, run_verify, Hans by done.
  rewrite (bool_decide_eq_false_2 (vd_status data = "failed")) by (by rewrite Hok).
  rewrite (bool_decide_eq_true_2 (vd_status data = "success")) by done. cbn [negb].
  unfold paidAmountMatches at 1. rewrite Ha, !bool_decide_eq_true_2 by done. cbn [andb negb].
  rewrite run_bind. unfold decimal. rewrite Ha, run_require. cbn [from_option].
  cbn [negb].
  rewrite run_bind. fold w1. rewrite Hrec. cbn [negb].
  rewrite run_bind, E1, run_bind. fold audit. rewrite E2, run_bind. fold notify.
  by rewrite E3, run_bind, run_attempt.
Qed.

(** What an answer that does not confirm a pending payment makes of its row. *)
Definition unconfirmed_row (t : Z) (data : verify_data) (p : Payment) : option Payment :=
  if bool_decide (vd_status data = "failed")
  then Some (upd_failed "chapa_reported_failed" t p)
  else if bool_decide (vd_status data = "success")
  then Some (upd_review (vd_reference data) (mismatch_reason p data) t p)
  else None.

Definition payments_unconfirmed (w : PayW) (p : Payment) : gmap string Payment :=
  match answer w with
  | Err _ => pw_payments w
  | Ok data =>
      match unconfirmed_row (pw_now w) data p with
      | Some q =>
          if bool_decide (p_status p = PENDING) &&
             negb (chapaRef_taken (p_id p) (p_chapaReference q) (pw_payments w))
          then <[p_id p := q]> (pw_payments w) else pw_payments w
      | None => pw_payments w
      end
  end.

Lemma run_update_pending p from_upd w q :
  pw_payments w !! p_id p = Some p → from_upd (pw_now w) p = q →
  (run (payment_updateMany (p_id p) [PENDING] from_upd) w).2 =
    if bool_decide (p_status p = PENDING) &&
       negb (chapaRef_taken (p_id p) (p_chapaReference q) (pw_payments w))
    then set_payments (insert (p_id p) q) w else w.
Proof.
  intros Hrow Hq. rewrite run_payment_updateMany. unfold payment_update. rewrite Hrow, Hq.
  destruct (p_status p); cbn; try done. by destruct (chapaRef_taken _ _ _).
Qed.

(** Without an exact confirmation no money is recorded. Whatever else the
    provider answers (an error, a pending, failed or different payment), the
    totals and the transfers stay as they are, the provider is asked once and
    sent nothing, and the payment at most moves from pending to failed or to
    review. *)
Theorem settle_unconfirmed txRef w p :
  secretKey ccfg ≠ "" → payment_of w txRef p → p_status p ∈ [PENDING; FAILED] →
  (∀ data, answer w = Ok data → confirms p data = false) →
  let w' := (run (settle txRef false) w).2 in
  pw_profiles w' = pw_profiles w ∧ pw_disbursements w' = pw_disbursements w ∧
  pw_sent w' = verify_request txRef :: pw_sent w ∧
  pw_payments w' = payments_unconfirmed w p.
Proof.
  intros Hkey [Hf Hrow] Hs Hans. unfold settlePayment, payments_unconfirmed.
  rewrite run_bind, run_payment_by_txRef, Hf, run_bind, run_require. cbn [from_option].
  assert (p_status p = PENDING ∨ p_status p = FAILED) as Hs2 by set_solver.
  rewrite (bool_decide_eq_false_2 (p_status p ∈ _)) by (destruct Hs2 as [-> | ->]; set_solver).
  rewrite (bool_decide_eq_false_2 (p_status p = REVIEW_REQUIRED))
    by (destruct Hs2; congruence).
  cbn [andb]. rewrite run_bind, run_verify by done.
  destruct (answer w) as [data|e]; [|done]. specialize (Hans data eq_refl).
  unfold unconfirmed_row, confirms in *.
  assert (Hrow1 : pw_payments (asked txRef w) !! p_id p = Some p) by done.
  destruct (bool_decide (vd_status data = "failed")).
  { rewrite run_bind.
    pose proof (run_update_pending p (upd_failed "chapa_reported_failed") (asked txRef w) _
      Hrow1 eq_refl) as Hu.
    change (pw_payments (asked txRef w)) with (pw_payments w) in Hu.
    change (pw_now (asked txRef w)) with (pw_now w) in Hu.
    destruct (run (payment_updateMany _ _ _) _) as [[n|e] w1]; cbn [snd] in Hu; subst w1;
      [rewrite run_bind; unfold auditPayment; rewrite run_emit, run_ret|];
      by destruct (_ && negb (chapaRef_taken _ _ _)). }
  destruct (bool_decide (vd_status data = "success")); [|done]. cbn [negb andb] in *.
  rewrite Hans. cbn [negb andb]. rewrite run_bind.
  pose proof (run_update_pending p (upd_review (vd_reference data) (mismatch_reason p data))
    (asked txRef w) _ Hrow1 eq_refl) as Hu.
  change (pw_payments (asked txRef w)) with (pw_payments w) in Hu.
  change (pw_now (asked txRef w)) with (pw_now w) in Hu.
  destruct (run (payment_updateMany _ _ _) _) as [[n|e] w1]; cbn [snd] in Hu; subst w1;
    [rewrite run_bind; unfold auditPayment; rewrite run_emit, run_ret|];
    by destruct (_ && negb (chapaRef_taken _ _ _)).
Qed.
End settle.

(** ** Approving a transfer *)

Section approve.
Context `{DecimalIO}.

(** The conditions of the last gate, as a specification. *)
Record approvable (w : PayW) (dto : ApprovalDto) (d : Disbursement) (p : VictimProfile)
    (dest : PayoutDestination) : Prop := {
  ap_open : d_status d = DCREATED ∨ d_status d = DSUBMITTED;
  ap_amount : parseDecimal (ta_amount dto) = Some (d_amount d);
  ap_account : ta_account_number dto = ds_accountNumber (d_snapshot d);
  ap_holder : toLowerCase (trim (ta_account_name dto)) =
              toLowerCase (trim (ds_accountHolder (d_snapshot d)));
  ap_live : vp_payoutsPaused p = false ∧ vp_deletedAt p = None ∧ vp_takedownAt p = None ∧
            vp_legalHold p = false;
  ap_dest : vp_destination p = Some dest;
  ap_verified : pd_isVerified dest = true;
  ap_same : pd_accountNumber dest = ds_accountNumber (d_snapshot d);
  ap_funds : dis_sum (d_victim d) DPAID w + sum_active (d_victim d) w
               ≤ raised_of (d_victim d) w;
}.

Lemma approval_record_ok_iff dto d p :
  approval_record_ok dto d p = true ↔
  (d_status d = DCREATED ∨ d_status d = DSUBMITTED) ∧
  parseDecimal (ta_amount dto) = Some (d_amount d) ∧
  ta_account_number dto = ds_accountNumber (d_snapshot d) ∧
  toLowerCase (trim (ta_account_name dto)) =
    toLowerCase (trim (ds_accountHolder (d_snapshot d))) ∧
  (vp_payoutsPaused p = false ∧ vp_deletedAt p = None ∧ vp_takedownAt p = None ∧
   vp_legalHold p = false) ∧
  ∃ dest, vp_destination p = Some dest ∧ pd_isVerified dest = true ∧
    pd_accountNumber dest = ds_accountNumber (d_snapshot d).
Proof.
  unfold approval_record_ok, profile_closed, open_disbursement.
  rewrite !andb_true_iff, !bool_decide_eq_true, negb_true_iff, !orb_false_iff,
    !bool_decide_eq_false, <- !eq_None_not_Some.
  rewrite elem_of_cons, list_elem_of_singleton.
  destruct (vp_destination p) as [dest|].
  - rewrite andb_true_iff, bool_decide_eq_true. naive_solver.
  - naive_solver.
Qed.

(** The last gate before money leaves is exact. The provider's question is
    approved if and only if it names a recorded open transfer, with the same
    amount, account and holder, of a victim whose payouts are open, whose
    verified account is still the recorded one, and whose confirmed donations
    cover it together with every other transfer; and asking changes nothing. *)
Theorem approveTransfer_exact dto w :
  ∃ b, run (approveTransfer dto) w = (Ok b, w) ∧
    (b = true ↔ ∃ d p dest,
       disbursement_with_profile (ta_reference dto) w = Some (d, p) ∧
       approvable w dto d p dest).
Proof.
  unfold approveTransfer. rewrite run_bind, run_gets.
  destruct (disbursement_with_profile _ w) as [[d p]|].
  2: { exists false. split; [done|]. split; [done|]. by intros (?&?&?&?&_). }
  pose proof (approval_record_ok_iff dto d p) as Hiff.
  destruct (approval_record_ok dto d p); cbn [negb].
  - rewrite run_bind, run_getBalance, run_ret. eexists. split; [done|].
    destruct (proj1 Hiff eq_refl) as (?&?&?&?&?&dest&?&?&?).
    rewrite negb_true_iff, Z.ltb_ge. cbn. split.
    + intros Hle. exists d, p, dest. split; [done|]. split; try done. lia.
    + intros (d'&p'&dest'&[= <- <-]&[]). lia.
  - rewrite run_ret. exists false. split; [done|]. split; [done|].
    intros (d'&p'&dest'&[= <- <-]&[? ? ? ? (?&?&?&?) ? ? ? ?]). apply Hiff.
    split_and!; [done..|]. by exists dest'.
Qed.
End approve.

(** ** Sending a transfer *)

(** Case analysis on the row the goal looks for. *)
Ltac goal_find_row H :=
  match goal with |- context [find_row ?P ?m] => destruct (find_row P m) eqn:H end.

Section sending.
Context `{DecimalIO} (cfg : PayoutConfig) (ccfg : ChapaConfig).

(** What [prepare] decides: nothing changes unless a transfer is recorded. *)
Record recorded (v : string) (w w1 : PayW) (d : Disbursement) : Prop := {
  rc_new : pw_disbursements w !! d_id d = None;
  rc_rows : pw_disbursements w1 = <[d_id d := d]> (pw_disbursements w);
  rc_sent : pw_sent w1 = pw_sent w;
  rc_net : pw_net w1 = pw_net w;
  rc_status : d_status d = DCREATED;
  rc_victim : d_victim d = v;
  rc_amount : d_amount d = bal_waiting (balance_spec v w);
  rc_min : po_minTransfer cfg ≤ d_amount d;
  rc_idle : ∀ i e, pw_disbursements w !! i = Some e → d_victim e = v → ¬ active e;
  rc_cooled : ∀ i e, pw_disbursements w !! i = Some e → d_victim e = v →
    d_status e = DFAILED → d_updatedAt e ≤ pw_now w - po_retryAfterFailureMinutes cfg * 60000;
  rc_dest : ∃ p dest, pw_profiles w !! v = Some p ∧ profile_closed p = false ∧
    vp_destination p = Some dest ∧ pd_isVerified dest = true ∧
    d_snapshot d = {| ds_destinationId := pd_id dest; ds_bankName := pd_bankName dest;
      ds_bankCode := pd_bankCode dest; ds_accountNumber := pd_accountNumber dest;
      ds_accountHolder := pd_accountHolder dest |};
}.

Lemma prepare_spec v w :
  match run (prepare cfg v) w with
  | (Ok (Prepared d), w1) => recorded v w w1 d
  | (Ok (Skip _), w1) => w1 = w
  | (Err _, _) => True
  end.
Proof.
  unfold prepare. run_simpl.
  destruct (pw_profiles w !! v) as [p|] eqn:Hp; cbn; [|done].
  destruct (vp_payoutsPaused p) eqn:Hpaused; [done|].
  destruct (bool_decide (is_Some (vp_deletedAt p)) || _ || _) eqn:Hblocked; [done|].
  destruct (vp_destination p) as [dest|] eqn:Hdest; [|done].
  destruct (pd_isVerified dest) eqn:Hver; cbn; [|done]. run_simpl.
  goal_find_row Hact; [by run_simpl|]. pose proof (proj1 (find_row_None _ _) Hact) as Hno.
  run_simpl. goal_find_row Hfail; [by run_simpl|]. pose proof (proj1 (find_row_None _ _) Hfail) as Hnof.
  run_simpl. destruct (Z.ltb_spec (Z.max 0 (raised_of v w - dis_sum v DPAID w - sum_active v w))
    (po_minTransfer cfg)); [by run_simpl|]. run_simpl.
  unfold disbursement_insert. cbn.
  match goal with |- context [pw_disbursements ?u !! ?k] =>
    destruct (pw_disbursements u !! k) eqn:Hid end; [by run_simpl|].
  goal_find_row Href; [by run_simpl|]. run_simpl.
  split; cbn; try done.
  - intros i e He Hv Ha. specialize (Hno _ _ He).
    rewrite andb_false_iff, !bool_decide_eq_false in Hno. by destruct Hno as [?|[]].
  - intros i e He Hv Hs. specialize (Hnof _ _ He). cbv beta in Hnof.
    rewrite Hs, Hv, !bool_decide_eq_true_2 in Hnof by done. cbn in Hnof.
    apply Z.ltb_ge in Hnof. lia.
  - exists p, dest. split_and!; try done. unfold profile_closed. by rewrite Hpaused.
Qed.

Definition transfer_request (d : Disbursement) : net_req := {|
  nr_post := true; nr_path := "/transfers";
  nr_body := BodyTransfer (ds_accountHolder (d_snapshot d)) (ds_accountNumber (d_snapshot d))
    (ds_bankCode (d_snapshot d)) (toFixed2 (d_amount d)) (chapa_currency ccfg)
    (d_reference d) |}.

(** The status of a transfer after the provider's reply to the request. *)
Definition status_after (r : net_reply) : DisbursementStatus :=
  match read_reply r with
  | Ok _ => DSUBMITTED
  | Err e => if isDefiniteRejection e then DFAILED else DUNKNOWN
  end.

Lemma run_disbursement_update_created id s w d f :
  pw_disbursements w !! id = Some d → d_status d ∈ s →
  run (disbursement_updateMany id s f) w =
    (Ok 1, set_disbursements (insert id (f (pw_now w) d)) w).
Proof.
  intros Hd Hs. rewrite run_disbursement_updateMany. unfold disbursement_update.
  by rewrite Hd, bool_decide_eq_true_2.
Qed.

(** One decision, one request. [runForVictim] sends at most one transfer
    request; it sends one exactly when it has just recorded the transfer: for
    the whole unsent balance, to the victim's verified account, with no other
    transfer that may still move money and no recent failure. The reply decides
    the status: accepted is submitted, a clear refusal is failed, anything
    else is unknown. Otherwise nothing changes and nothing is sent. *)
Theorem runForVictim_once v actor w :
  po_enabled cfg = true → secretKey ccfg ≠ "" →
  match run (prepare cfg v) w with
  | (Ok (Prepared d), w1) =>
      recorded v w w1 d ∧
      ∃ w', run (runForVictim cfg ccfg v actor) w =
          (Ok {| pr_disbursementId := Some (d_id d); pr_reason := None |}, w') ∧
        pw_sent w' = transfer_request d :: pw_sent w ∧
        d_status <$> pw_disbursements w' !! d_id d =
          Some (status_after (hd NetFail (pw_net w)))
  | (Ok (Skip r), _) =>
      run (runForVictim cfg ccfg v actor) w =
        (Ok {| pr_disbursementId := None; pr_reason := Some r |}, w)
  | (Err e, _) => run (runForVictim cfg ccfg v actor) w = (Err e, w)
  end.
Proof.
  intros Hen Hkey. pose proof (prepare_spec v w) as Hprep.
  unfold runForVictim. rewrite Hen. cbn [negb].
  rewrite run_bind, run_transaction.
  destruct (run (prepare cfg v) w) as [[[reason|d]|e] w1]; [by subst w1| |done].
  split; [done|]. destruct Hprep as [_ Hrows Hsent Hnet Hst _ _ _ _ _ _].
  unfold audit_disbursement. rewrite run_bind, run_emit.
  set (w2 := push_event _ w1).
  set (w3 := (net_send (transfer_request d) w2).2).
  assert (Hd : pw_disbursements w3 !! d_id d = Some d) by (cbn; rewrite Hrows; apply lookup_insert_eq).
  assert (Hs3 : pw_sent w3 = transfer_request d :: pw_sent w) by (cbn; by rewrite Hsent).
  rewrite run_bind, run_catch, run_bind. unfold transfer at 1.
  rewrite run_bind, run_request by done.
  fold (transfer_request d) w3. cbn [net_send PayW_net fst]. rewrite <- Hnet.
  change (pw_net w1) with (pw_net w2). unfold status_after.
  destruct (read_reply (hd NetFail (pw_net w2))) as [data|e].
  - rewrite run_ret, run_bind, (run_disbursement_update_created _ _ _ d) by
      (done || (rewrite Hst; set_solver)).
    rewrite run_ret. eexists. split; [reflexivity|]. split; [done|].
    cbn. by rewrite lookup_insert_eq.
  - destruct (isDefiniteRejection e).
    + unfold markFailed. rewrite run_bind, (run_disbursement_update_created _ _ _ d) by
        (done || (rewrite Hst; set_solver)).
      cbn [Z.eqb]. rewrite run_bind, run_disbursement_by_id. cbn -[w3].
      rewrite lookup_insert_eq. unfold audit_disbursement. rewrite run_emit.
      rewrite run_ret. eexists. split; [reflexivity|]. split; [done|].
      cbn -[w3]. by rewrite lookup_insert_eq.
    + rewrite run_bind, (run_disbursement_update_created _ _ _ d) by
        (done || (rewrite Hst; set_solver)).
      rewrite !run_ret. eexists. split; [reflexivity|]. split; [done|].
      cbn -[w3]. by rewrite lookup_insert_eq.
Qed.
End sending.

(** ** Checking an unclear transfer *)

Section checking.
Context `{DecimalIO} (cfg : PayoutConfig) (ccfg : ChapaConfig).

Definition check_request (d : Disbursement) : net_req := {|
  nr_post := false;
  nr_path := "/transfers/verify/" +:+ encodeURIComponent (d_reference d);
  nr_body := BodyNone |}.

Definition transfer_answer (r : net_reply) : outcome string :=
  match read_reply r with
  | Ok (DTransfer s) => Ok (toLowerCase s)
  | Ok _ => Err (JsError "TypeError")
  | Err e => Err e
  end.

(** The status of an open transfer after asking about it at time [t]. *)
Definition checked_status (t : Z) (d : Disbursement) (a : outcome string)
    : DisbursementStatus :=
  match a with
  | Ok s =>
      if bool_decide (s = "success") then DPAID
      else if bool_decide (s = "failed") || bool_decide (s = "reverted") then DFAILED
      else DSUBMITTED
  | Err e =>
      if isDefiniteRejection e && (po_timeoutMinutes cfg * 60000 <=? t - d_createdAt d)
      then DFAILED else d_status d
  end.

Lemma active_cases d :
  active d → d_status d = DCREATED ∨ d_status d = DSUBMITTED ∨ d_status d = DUNKNOWN.
Proof. unfold active. set_solver. Qed.

Lemma run_markFailed_row id r actor w d :
  pw_disbursements w !! id = Some d → active d →
  (run (markFailed id r actor) w).1 = Ok () ∧
  pw_disbursements (run (markFailed id r actor) w).2 =
    <[id := with_d_status DFAILED (Some (Some r)) None None (pw_now w) d]>
      (pw_disbursements w) ∧
  pw_sent (run (markFailed id r actor) w).2 = pw_sent w.
Proof.
  intros Hd Ha. unfold markFailed.
  rewrite run_bind, (run_disbursement_update_created _ _ _ d) by done. cbn [Z.eqb].
  rewrite run_bind, run_disbursement_by_id. cbn. by rewrite lookup_insert_eq.
Qed.

Lemma run_markPaid_row d0 actor w d :
  pw_disbursements w !! d_id d0 = Some d → active d →
  (run (markPaid d0 actor) w).1 = Ok () ∧
  pw_disbursements (run (markPaid d0 actor) w).2 =
    <[d_id d0 := with_d_status DPAID (Some None) None (Some (Some (pw_now w))) (pw_now w) d]>
      (pw_disbursements w) ∧
  pw_sent (run (markPaid d0 actor) w).2 = pw_sent w.
Proof.
  intros Hd Ha. unfold markPaid.
  rewrite run_bind, (run_disbursement_update_created _ _ _ d) by done. cbn [Z.eqb].
  rewrite run_bind. unfold audit_disbursement. rewrite run_emit, run_bind, run_profile_by_id.
  destruct (_ ≫= _) as [u|]; [|done]. by destruct (truthy u).
Qed.

(** An unclear transfer is only asked about, never resent. Checking an open
    transfer makes one verification request and no other; it is paid when the
    provider says so, released as failed only when the provider reports failed
    or reverted, or clearly does not know it after the timeout, and otherwise
    stays open. A settled transfer is not touched. *)
Theorem checkDisbursement_exact id actor w d :
  secretKey ccfg ≠ "" → pw_disbursements w !! id = Some d → d_id d = id →
  let w' := (run (checkDisbursement cfg ccfg id actor) w).2 in
  if bool_decide (d_status d ∈ ACTIVE_DISBURSEMENT) then
    pw_sent w' = check_request d :: pw_sent w ∧
    d_status <$> pw_disbursements w' !! id =
      Some (checked_status (pw_now w) d (transfer_answer (hd NetFail (pw_net w))))
  else w' = w.
Proof.
  intros Hkey Hd Hid. unfold checkDisbursement.
  rewrite run_bind, run_disbursement_by_id, Hd, run_bind, run_require. cbn [from_option].
  case_bool_decide as Ha; cbn [negb]; [|done].
  rewrite run_bind, run_now, run_bind, run_attempt, run_bind. unfold verifyTransfer.
  rewrite run_bind, run_request by done. fold (check_request d).
  set (w1 := (net_send (check_request d) w).2).
  assert (Hd1 : pw_disbursements w1 !! id = Some d) by done.
  change (net_send (check_request d) w).1 with (hd NetFail (pw_net w)).
  unfold checked_status, transfer_answer.
  destruct (read_reply (hd NetFail (pw_net w))) as [data|e].
  2: { cbn [fst snd]. rewrite run_bind. destruct (_ && _).
    - destruct (run_markFailed_row id "not_found_at_chapa_after_timeout" actor w1 d Hd1 Ha)
        as (Hr&Hrow&Hs). rewrite <- Hid in *.
      destruct (run (markFailed _ _ _) w1) as [r w2]; cbn in Hr, Hrow, Hs; subst r.
      rewrite run_bind, run_disbursement_by_id, run_ret. cbn. rewrite Hs, Hrow.
      by rewrite lookup_insert_eq.
    - rewrite run_ret, run_bind, run_disbursement_by_id, run_ret. cbn. by rewrite Hd. }
  assert (Hbad : ∀ e : exn, isDefiniteRejection e = false →
    let w' := (run ((if isDefiniteRejection e &&
         (po_timeoutMinutes cfg * 60000 <=? pw_now w - d_createdAt d)
       then markFailed (d_id d) "not_found_at_chapa_after_timeout" actor else mret ()) ;;
      fresh ← disbursement_by_id id; mret (default d fresh)) w1).2 in
    pw_sent w' = check_request d :: pw_sent w ∧
    d_status <$> pw_disbursements w' !! id = Some (d_status d)).
  { intros e He. rewrite He. cbn [andb]. rewrite run_bind, run_ret, run_bind,
      run_disbursement_by_id, run_ret. cbn. by rewrite Hd. }
  destruct data as [| | |s]; [by apply Hbad..|]. clear Hbad. cbn [fst snd].
  rewrite !run_ret. cbn [fst snd]. rewrite run_bind.
  destruct (bool_decide (toLowerCase s = "success")).
  { rewrite <- Hid in Hd1. destruct (run_markPaid_row d actor w1 d Hd1 Ha) as (Hr&Hrow&Hs).
    destruct (run (markPaid _ _) w1) as [r w2]; cbn in Hr, Hrow, Hs; subst r.
    rewrite run_bind, run_disbursement_by_id, run_ret. cbn. rewrite Hs, Hrow, Hid.
    by rewrite lookup_insert_eq. }
  destruct (_ || _).
  { rewrite <- Hid in Hd1.
    destruct (run_markFailed_row (d_id d) ("chapa_" +:+ toLowerCase s) actor w1 d Hd1 Ha)
      as (Hr&Hrow&Hs).
    destruct (run (markFailed _ _ _) w1) as [r w2]; cbn in Hr, Hrow, Hs; subst r.
    rewrite run_bind, run_disbursement_by_id, run_ret. cbn. rewrite Hs, Hrow, Hid.
    by rewrite lookup_insert_eq. }
  case_bool_decide as Hsub.
  - rewrite run_bind, (run_disbursement_update_created _ _ _ d) by
      (rewrite ?Hid; done || (destruct (active_cases d Ha) as [-> |[|]]; set_solver)).
    rewrite run_ret, run_bind, run_disbursement_by_id, run_ret. cbn. rewrite Hid.
    by rewrite lookup_insert_eq.
  - rewrite run_ret, run_bind, run_disbursement_by_id, run_ret. cbn. rewrite Hd.
    cbn. by rewrite Hsub.
Qed.
End checking.

(** ** Starting a donation *)

Section starting.
Context `{DecimalIO} (dcfg : DonationConfig) (ccfg : ChapaConfig) (keyPrefix : string).
Context (sha256hex : string → string) (toFixed0 : Z → string)
        (url_with_tx_ref : string → string → option string).

(** A profile that may take money at time [t]. *)
Record fundable (t : Z) (p : VictimProfile) : Prop := {
  fd_public : public_profile p = true;
  fd_open : vp_donationsPaused p = false;
  fd_live : vp_takedownAt p = None ∧ vp_legalHold p = false ∧ vp_completedAt p = None;
  fd_time : ∀ e, vp_fundingEndsAt p = Some e → t ≤ e;
  fd_dest : ∃ d, vp_destination p = Some d ∧ pd_isVerified d = true;
}.

Lemma donatable_Ok t p : public_profile p = true → donatable t p = Ok () → fundable t p.
Proof.
  intros Hpub. unfold donatable.
  destruct (vp_donationsPaused p) eqn:H1; [done|].
  destruct (vp_takedownAt p) eqn:H2; [done|]. cbn.
  destruct (vp_legalHold p) eqn:H3; [done|].
  destruct (vp_completedAt p) eqn:H4; [done|]. cbn.
  destruct (match vp_fundingEndsAt p with Some e => e <? t | None => false end) eqn:H5; [done|].
  destruct (vp_destination p) as [d|] eqn:H6; [|done].
  destruct (pd_isVerified d) eqn:H7; [|done].
  intros _. split; try done; [|by exists d].
  intros e He. rewrite He in H5. by apply Z.ltb_ge in H5.
Qed.

(** Money that cannot be sent on is not collected. If starting a donation
    records a payment or reaches the provider, the profile is public and fully
    reviewed, open for donations, not taken down, held, completed or past its
    end date, and has a verified account. *)
Theorem start_only_fundable user dto key w :
  let w' := (run (start dcfg ccfg keyPrefix sha256hex toFixed0 url_with_tx_ref
                    user dto key) w).2 in
  pw_payments w' ≠ pw_payments w ∨ pw_sent w' ≠ pw_sent w →
  dc_enabled dcfg = true ∧
  ∃ p, pw_profiles w !! cd_victimProfileId dto = Some p ∧ fundable (pw_now w) p.
Proof.
  unfold start. rewrite run_bind, run_throw_if.
  destruct (dc_enabled dcfg); cbn [negb]; [|by intros []].
  rewrite run_bind, run_throw_if.
  destruct (truthy (dc_returnUrl dcfg)); cbn [negb]; [|by intros []].
  rewrite run_bind, run_throw_outcome. destruct (parseAmount _ _ _) as [a|e]; [|by intros []].
  rewrite run_bind, run_throw_outcome. destruct (cleanKey key) as [k|e]; [|by intros []].
  rewrite run_bind. unfold getDonatableProfile, public_profile_by_id.
  rewrite run_bind, run_gets.
  destruct (pw_profiles w !! cd_victimProfileId dto) as [p|] eqn:Hp; [|by intros []].
  destruct (public_profile p) eqn:Hpub; [|by intros []].
  rewrite run_bind, run_require. cbn [from_option].
  rewrite run_bind, run_now, run_bind, run_throw_outcome.
  destruct (donatable (pw_now w) p) as [[]|e] eqn:Hd; [|by intros []].
  intros _. split; [done|]. exists p. split; [done|]. by apply donatable_Ok.
Qed.

Lemma reuse_payment_Ok user v a q p :
  reuse_payment user v a q = Ok p →
  p = q ∧ p_payer q = Some user ∧ p_victim q = v ∧ p_amount q = a ∧ p_status q = PENDING.
Proof.
  unfold reuse_payment. repeat case_bool_decide; cbn; try done. by intros [= <-].
Qed.

Lemma reuse_payment_same user p :
  p_payer p = Some user → p_status p = PENDING →
  reuse_payment user (p_victim p) (p_amount p) p = Ok p.
Proof.
  intros H1 H2. unfold reuse_payment. by rewrite H1, H2, !bool_decide_eq_true_2.
Qed.

(** The new row of a donation. *)
Definition new_donation (user : CurrentUser) (dto : CreateDonationDto) (amount : Z)
    (txRef : string) (w : PayW) : Payment := {|
  p_id := (pop_rand w).1; p_status := PENDING; p_victim := cd_victimProfileId dto;
  p_payer := Some (cu_id user); p_isAnonymous := default false (cd_isAnonymous dto);
  p_amount := amount; p_currency := dc_currency dcfg; p_txRef := txRef;
  p_chapaReference := None; p_chapaFee := None; p_failureReason := None;
  p_paidAt := None; p_createdAt := pw_now w; p_updatedAt := pw_now w |}.

Lemma run_record_donation user dto amount key txRef w :
  run (record_donation dcfg user dto amount (Some key) txRef) w =
  let w1 := (pop_rand w).2 in
  match payment_insert (new_donation user dto amount txRef w) w1 with
  | (Ok p, w2) => (Ok (p, true), w2)
  | (Err e, w2) =>
      if is_P2002 e then
        match find_row (λ p, bool_decide (p_txRef p = txRef)) (pw_payments w2) with
        | None => (Err e, w2)
        | Some q =>
            match reuse_payment (cu_id user) (cd_victimProfileId dto) amount q with
            | Ok p => (Ok (p, false), w2)
            | Err e' => (Err e', w2)
            end
        end
      else (Err e, w2)
  end.
Proof.
  unfold record_donation. rewrite run_catch, run_bind, run_act, run_bind, run_now.
  rewrite run_bind, run_act_outcome. cbv zeta.
  change (pw_now (pop_rand w).2) with (pw_now w). fold (new_donation user dto amount txRef w).
  destruct (payment_insert _ _) as [[p|e] w2]; [by rewrite run_ret|].
  rewrite (bool_decide_eq_true_2 (is_Some (Some key))) by (by eexists). cbn [orb negb].
  destruct (is_P2002 e); [|done]. cbn [orb negb].
  rewrite run_bind, run_payment_by_txRef, run_bind, run_require.
  destruct (find_row _ _) as [q|]; [|done]. cbn [from_option].
  rewrite run_bind, run_throw_outcome. by destruct (reuse_payment _ _ _ _).
Qed.

Lemma payment_insert_cases p w :
  match payment_insert p w with
  | (Ok q, w2) => q = p ∧ pw_payments w !! p_id p = None ∧
      find_row (λ q, bool_decide (p_txRef q = p_txRef p)) (pw_payments w) = None ∧
      w2 = set_payments (insert (p_id p) p) w
  | (Err e, w2) => w2 = w ∧
      (is_P2002 e = false → find_row (λ q, bool_decide (p_txRef q = p_txRef p))
         (pw_payments w) = None)
  end.
Proof.
  unfold payment_insert. destruct (pw_payments w !! p_id p) eqn:Hid; cbn; [done|].
  destruct (find_row _ _) eqn:Hf; cbn; [done|].
  by destruct (pw_profiles w !! p_victim p).
Qed.

Lemma find_txRef_unique w p r :
  Inv w → pw_payments w !! p_id p = Some p → p_txRef p = r →
  find_row (λ q, bool_decide (p_txRef q = r)) (pw_payments w) = Some p.
Proof.
  intros HI Hp Hr. destruct (find_row _ _) as [q|] eqn:Hf.
  - apply find_row_Some in Hf as (Hq&i&Hi). apply bool_decide_eq_true in Hq.
    assert (i = p_id p) by (eapply (inv_txRef _ HI); [done..|congruence]). congruence.
  - pose proof (proj1 (find_row_None _ _) Hf _ _ Hp) as Hn. cbv beta in Hn.
    by rewrite bool_decide_eq_false in Hn.
Qed.

(** A double tap is one donation. When recording a donation with an
    idempotency key succeeds, the payment is stored under the key's reference
    for this donor, victim and amount; and repeating the same request, in any
    later world where the payment is still pending, finds this payment and
    creates none. *)
Theorem donation_recorded_once user dto amount key txRef w p created w1 w2 :
  Inv w →
  run (record_donation dcfg user dto amount (Some key) txRef) w = (Ok (p, created), w1) →
  Inv w2 → pay_rel w1 w2 → pw_payments w2 !! p_id p = Some p →
  pw_payments w1 !! p_id p = Some p ∧ p_txRef p = txRef ∧ p_payer p = Some (cu_id user) ∧
  p_victim p = cd_victimProfileId dto ∧ p_amount p = amount ∧ p_status p = PENDING ∧
  ∃ w3, run (record_donation dcfg user dto amount (Some key) txRef) w2 = (Ok (p, false), w3) ∧
    pw_payments w3 = pw_payments w2.
Proof.
  intros HI Hrun HI2 HR Hkept.
  assert (Hp : pw_payments w1 !! p_id p = Some p ∧ p_txRef p = txRef ∧
    p_payer p = Some (cu_id user) ∧ p_victim p = cd_victimProfileId dto ∧
    p_amount p = amount ∧ p_status p = PENDING).
  { rewrite run_record_donation in Hrun. cbv zeta in Hrun.
    pose proof (payment_insert_cases (new_donation user dto amount txRef w) (pop_rand w).2) as Hins.
    destruct (payment_insert _ _) as [[q|e] w'].
    - destruct Hins as (->&_&_&->). simplify_eq. cbn. split_and!; try done.
      apply lookup_insert_eq.
    - destruct Hins as [-> _]. destruct (is_P2002 e); [|done].
      change (pw_payments (pop_rand w).2) with (pw_payments w) in Hrun.
      destruct (find_row _ _) as [q|] eqn:Hf; [|done].
      destruct (reuse_payment _ _ _ q) as [q'|] eqn:Hre; [|done]. simplify_eq.
      apply reuse_payment_Ok in Hre as (->&?&?&?&?).
      apply find_row_Some in Hf as (Hq&i&Hi). apply bool_decide_eq_true in Hq.
      split_and!; try done. cbn. by rewrite (inv_pid _ HI _ _ Hi). }
  destruct Hp as (Hp1&Htx&Hpay&Hv&Ham&Hs). split_and!; [done..|].
  rewrite run_record_donation. cbv zeta.
  pose proof (payment_insert_cases (new_donation user dto amount txRef w2) (pop_rand w2).2) as Hins.
  pose proof (find_txRef_unique w2 p txRef HI2 Hkept Htx) as Hfind.
  change (pw_payments (pop_rand w2).2) with (pw_payments w2) in Hins.
  cbn [p_txRef new_donation] in Hins. rewrite Hfind in Hins.
  destruct (payment_insert _ _) as [[q|e] w']; [by destruct Hins as (_&_&?&_)|].
  destruct Hins as [-> Hins]. destruct (is_P2002 e); [|by specialize (Hins eq_refl)].
  change (pw_payments (pop_rand w2).2) with (pw_payments w2). rewrite Hfind.
  rewrite <- Hv, <- Ham, (reuse_payment_same _ _ Hpay Hs). by eexists.
Qed.
End starting.

(** ** Deciding a payment under review *)

Section review.
Context `{DecimalIO} (cfg : PayoutConfig) (ccfg : ChapaConfig) (keyPrefix : string).

Definition refund_request (p : Payment) (ref : string) (amount : Z) (reason : string)
    : net_req := {|
  nr_post := true; nr_path := "/refund/" +:+ encodeURIComponent ref;
  nr_body := BodyRefund (toFixed2 amount) ("ehte-rf-" +:+ p_id p)
    (if truthy reason then Some (str_take 200 reason) else None) |}.

(** The row after the provider's reply to the refund request. *)
Definition refund_row (t : Z) (ref : string) (p : Payment) (r : net_reply) : Payment :=
  match read_reply r with
  | Ok _ => upd_refunded ref t p
  | Err _ => upd_back_to_review t (upd_refunded ref t p)
  end.

(** Refunding claims the payment first. On a payment under review that the
    provider holds, REFUND moves it to refunded before the one refund request
    is sent (so an ACCEPT at the same moment finds it gone), with the amount
    the provider holds and a reference fixed per payment; a refund that is
    refused or not answered puts it back under review and fails the call.
    Totals and transfers never change. *)
Theorem refund_claims_first admin w p reason data ref amount :
  secretKey ccfg ≠ "" → pw_payments w !! p_id p = Some p → p_status p = REVIEW_REQUIRED →
  answer w = Ok data → vd_status data = "success" → refund_reference p data = Some ref →
  parseDecimal (vd_amount data) = Some amount →
  chapaRef_taken (p_id p) (Some ref) (pw_payments w) = false →
  let res := run (resolveReview cfg ccfg keyPrefix admin (p_id p) REFUND reason) w in
  let reply := hd NetFail (tail (pw_net w)) in
  pw_profiles res.2 = pw_profiles w ∧ pw_disbursements res.2 = pw_disbursements w ∧
  pw_sent res.2 =
    refund_request p ref amount reason :: verify_request (p_txRef p) :: pw_sent w ∧
  pw_payments res.2 = <[p_id p := refund_row (pw_now w) ref p reply]> (pw_payments w) ∧
  (∀ e, read_reply reply = Err e → res.1 = Err e).
Proof.
  intros Hkey Hrow Hs Hans Hok Href Ham Htaken. cbv zeta. unfold resolveReview.
  rewrite run_bind, run_payment_by_id, Hrow, run_bind, run_require. cbn [from_option].
  rewrite run_bind, run_throw_if, bool_decide_eq_true_2 by done. cbn [negb].
  unfold refund_review. rewrite run_bind, run_verify, Hans by done.
  rewrite run_bind, run_throw_if, bool_decide_eq_true_2 by done. cbn [negb].
  rewrite Href, run_bind, run_require. cbn [from_option].
  unfold decimal. rewrite Ham, run_bind, run_require. cbn [from_option].
  set (w1 := asked (p_txRef p) w).
  set (w2 := set_payments (insert (p_id p) (upd_refunded ref (pw_now w) p)) w1).
  assert (E : run (payment_updateMany (p_id p) [REVIEW_REQUIRED] (upd_refunded ref)) w1
    = (Ok 1, w2)).
  { rewrite run_payment_updateMany. unfold payment_update.
    change (pw_payments w1) with (pw_payments w). change (pw_now w1) with (pw_now w).
    rewrite Hrow, bool_decide_eq_true_2 by (rewrite Hs; set_solver).
    cbn -[w1 chapaRef_taken]. by rewrite Htaken. }
  rewrite run_bind, E, run_bind, run_throw_if. cbn [Z.eqb].
  unfold auditPayment_admin. rewrite run_bind, run_emit.
  set (w3 := push_event _ w2).
  rewrite run_bind, run_catch. unfold refund. rewrite run_bind, run_request by done.
  fold (refund_request p ref amount reason).
  set (w4 := (net_send (refund_request p ref amount reason) w3).2).
  change (net_send (refund_request p ref amount reason) w3).1 with (hd NetFail (tail (pw_net w))).
  unfold refund_row. destruct (read_reply (hd NetFail (tail (pw_net w)))) as [d|e].
  - rewrite run_ret. unfold auditPayment_admin.
    rewrite run_bind, run_emit, run_bind, run_emit, run_bind.
    match goal with |- context [run (invalidateVictimProfileEverywhere ?k ?v) ?u] =>
      destruct (run_quietly (invalidateVictimProfileEverywhere k v) u)
        as ([]&w5&E5&[Sp Sd Sv _ _ Ss _]); [apply calm_invalidateVictimProfileEverywhere, _|]; rewrite E5 end.
    unfold getPayment. rewrite run_bind, run_gets, run_require. cbn [snd].
    rewrite Sp, Sd, Sv, Ss. by split_and!.
  - rewrite run_bind, run_payment_updateMany.
    assert (E6 : payment_update (p_id p) [REFUNDED] upd_back_to_review w4 =
      (Ok 1, set_payments (insert (p_id p)
         (upd_back_to_review (pw_now w) (upd_refunded ref (pw_now w) p))) w4)).
    { unfold payment_update. cbn -[chapaRef_taken]. rewrite lookup_insert_eq.
      cbn -[chapaRef_taken].
      assert (chapaRef_taken (p_id p) (Some ref)
        (<[p_id p:=upd_refunded ref (pw_now w) p]> (pw_payments w)) = false) as ->; [|done].
      revert Htaken. unfold chapaRef_taken. rewrite !bool_decide_eq_false.
      rewrite <- !eq_None_not_Some, !find_row_None. intros Hn i x.
      intros [[<- <-]|[_ Hx]]%lookup_insert_Some; [|by apply (Hn i)].
      cbn. by rewrite bool_decide_eq_false_2 by (by intros []). }
    rewrite E6. unfold auditPayment_admin.
    rewrite run_bind, run_emit, run_Throw. cbn. split_and!; try done.
    + apply insert_insert_eq.
    + by intros ? [= ->].
Qed.
End review.

(** ** The callback routes *)

Section routes.
Context `{DecimalIO} (cfg : PayoutConfig) (ccfg : ChapaConfig) (keyPrefix : string).
Context (hmac : string → string → string) (parseJson : string → option json).

(** The caller knows the webhook secret. *)
Definition signed (body : string) (payloadSig secretSig : option string) : Prop :=
  webhookSecret ccfg ≠ "" ∧
  ∃ s, hex_decode (trim s) = hmac (webhookSecret ccfg) body ∧ payloadSig = Some s ∨
       hex_decode (trim s) = hmac (webhookSecret ccfg) (webhookSecret ccfg) ∧
         default "" payloadSig = "" ∧ secretSig = Some s.

Lemma verified_signed raw s1 s2 :
  verifyWebhookSignature hmac ccfg raw s1 s2 = true → signed raw s1 s2.
Proof.
  unfold verifyWebhookSignature, hmacMatches, signed.
  destruct (truthy (webhookSecret ccfg)) eqn:Hk; [apply truthy_true in Hk|done]. cbn.
  split; [done|]. destruct s1 as [p|]; [destruct (truthy p) eqn:Hp|].
  - exists p. left. apply andb_true_iff in H0 as [_ H0]. by apply bool_decide_eq_true in H0.
  - apply truthy_false in Hp as ->. destruct s2 as [s|]; [|done].
    destruct (truthy s); [|done]. exists s. right.
    apply andb_true_iff in H0 as [_ H0]. by apply bool_decide_eq_true in H0.
  - destruct s2 as [s|]; [|done].
    destruct (truthy s); [|done]. exists s. right.
    apply andb_true_iff in H0 as [_ H0]. by apply bool_decide_eq_true in H0.
Qed.

(** Forged callbacks change nothing. A callback that has any effect, or is
    answered with success, carries a body and a signature made with the
    configured webhook secret. *)
Theorem callbacks_authenticated raw s1 s2 w :
  (run (events cfg ccfg keyPrefix hmac parseJson raw s1 s2) w).1 = Ok () ∨
  (run (events cfg ccfg keyPrefix hmac parseJson raw s1 s2) w).2 ≠ w →
  ∃ body, raw = Some body ∧ signed body s1 s2 ∧ is_Some (parseJson body).
Proof.
  unfold events. rewrite run_bind, run_require.
  destruct raw as [body|]; cbn [from_option]; [|by intros []].
  rewrite run_bind, run_throw_if.
  destruct (verifyWebhookSignature hmac ccfg body s1 s2) eqn:Hv; cbn [negb]; [|by intros []].
  rewrite run_bind, run_require.
  destruct (parseJson body) eqn:Hj; cbn [from_option]; [|by intros []].
  intros _. exists body. split_and!; [done|by apply verified_signed|by rewrite Hj].
Qed.
End routes.

(** ** The properties on concrete worlds *)

Definition demo_one (s : PaymentStatus) (net : list net_reply) : PayW :=
  demo_world {[ "p1" := demo_payment s ]} ∅ 0 net.
Definition demo_data (status amount : string) : verify_data :=
  {| vd_currency := "etb"; vd_amount := amount; vd_charge := Some "1.00";
     vd_status := status; vd_reference := Some "CH1" |}.
Definition demo_user : CurrentUser :=
  {| cu_id := "u1"; cu_roles := ["USER"]; cu_permissions := [] |}.
Definition demo_admin : CurrentUser :=
  {| cu_id := "a1"; cu_roles := ["ADMIN"]; cu_permissions := [] |}.

Lemma settle_settled_witness :
  run (settlePayment demo_cfg demo_ccfg "ehte:" "tx1" false) (demo_one REFUNDED []) =
    (Ok (result (demo_payment REFUNDED)), demo_one REFUNDED []).
Proof.
  apply (settle_settled demo_cfg demo_ccfg "ehte:" "tx1" false _ (demo_payment REFUNDED)).
  - by vm_compute.
  - left. cbn. set_solver.
Defined.

Lemma settle_confirmed_witness :
  let w := demo_one PENDING [demo_verify "success" "150.50"; demo_ok DNone] in
  ∃ w3,
    pw_payments w3 = <["p1" := upd_paid 15050 (Some "CH1") (Some 100) 1000000
                                 (demo_payment PENDING)]> (pw_payments w) ∧
    pw_profiles w3 = <["v1" := add_raised 15050 (demo_profile 0)]> (pw_profiles w) ∧
    pw_disbursements w3 = pw_disbursements w ∧
    pw_sent w3 = verify_request "tx1" :: pw_sent w ∧
    run (settlePayment demo_cfg demo_ccfg "ehte:" "tx1" false) w =
      (Ok (result_of PAID 15050 "ETB"), (run (runForVictim demo_cfg demo_ccfg "v1" None) w3).2).
Proof.
  apply (settle_confirmed demo_cfg demo_ccfg "ehte:" "tx1"
    (demo_one PENDING [demo_verify "success" "150.50"; demo_ok DNone]) (demo_payment PENDING)
    (demo_data "success" "150.50") (Some 100) (demo_profile 0)); by vm_compute.
Defined.

Definition head_answer {A} (r : outcome A) : option A :=
  match r with Ok a => Some a | Err _ => None end.
Definition is_prepared (r : outcome prepared) : bool :=
  match r with Ok (Prepared _) => true | _ => false end.

Lemma settle_unconfirmed_witness :
  let w := demo_one PENDING [demo_verify "success" "99.00"] in
  let w' := (run (settlePayment demo_cfg demo_ccfg "ehte:" "tx1" false) w).2 in
  pw_profiles w' = pw_profiles w ∧ pw_disbursements w' = pw_disbursements w ∧
  pw_sent w' = verify_request "tx1" :: pw_sent w ∧
  pw_payments w' = payments_unconfirmed w (demo_payment PENDING).
Proof.
  apply (settle_unconfirmed demo_cfg demo_ccfg "ehte:" "tx1"
    (demo_one PENDING [demo_verify "success" "99.00"]) (demo_payment PENDING)).
  - done.
  - by vm_compute.
  - cbn. set_solver.
  - intros data Hd.
    assert (confirms (demo_payment PENDING) <$> head_answer
      (answer (demo_one PENDING [demo_verify "success" "99.00"])) = Some false)
      as Hc by by vm_compute.
    rewrite Hd in Hc. by injection Hc.
Defined.

Lemma runForVictim_once_witness :
  ∃ w d w1, run (prepare demo_cfg "v1") w = (Ok (Prepared d), w1) ∧
    recorded demo_cfg "v1" w w1 d ∧
    ∃ w', run (runForVictim demo_cfg demo_ccfg "v1" None) w =
        (Ok {| pr_disbursementId := Some (d_id d); pr_reason := None |}, w') ∧
      pw_sent w' = transfer_request demo_ccfg d :: pw_sent w ∧
      d_status <$> pw_disbursements w' !! d_id d =
        Some (status_after (hd NetFail (pw_net w))).
Proof.
  exists (demo_world {[ "p1" := demo_payment PAID ]} ∅ 15050 [NetFail]).
  pose proof (runForVictim_once demo_cfg demo_ccfg "v1" None
    (demo_world {[ "p1" := demo_payment PAID ]} ∅ 15050 [NetFail]) eq_refl ltac:(done)) as Hw.
  assert (Ht : is_prepared (run (prepare demo_cfg "v1")
    (demo_world {[ "p1" := demo_payment PAID ]} ∅ 15050 [NetFail])).1 = true) by by vm_compute.
  destruct (run (prepare demo_cfg "v1") _) as [[[r|d]|e] w1]; [done| |done].
  exists d, w1. split; [done|exact Hw].
Defined.

Definition demo_open_transfer : Disbursement := {|
  d_id := "d1"; d_victim := "v1"; d_status := DUNKNOWN; d_amount := 15050;
  d_currency := "ETB"; d_reference := "ehte-tr-h1"; d_chapaTransferRef := None;
  d_transferFee := None; d_failureReason := None;
  d_snapshot := {| ds_destinationId := "dest1"; ds_bankName := "Bank"; ds_bankCode := "001";
                   ds_accountNumber := "1000123456"; ds_accountHolder := "Abebe B" |};
  d_submittedAt := None; d_paidAt := None; d_createdAt := 0; d_updatedAt := 0 |}.
Definition demo_unclear (net : list net_reply) : PayW :=
  demo_world {[ "p1" := demo_payment PAID ]} {[ "d1" := demo_open_transfer ]} 15050 net.

Lemma checkDisbursement_exact_witness :
  let w := demo_unclear [demo_ok (DTransfer "Reverted")] in
  let w' := (run (checkDisbursement demo_cfg demo_ccfg "d1" None) w).2 in
  pw_sent w' = check_request demo_open_transfer :: pw_sent w ∧
  d_status <$> pw_disbursements w' !! "d1" = Some DFAILED.
Proof.
  apply (checkDisbursement_exact demo_cfg demo_ccfg "d1" None
    (demo_unclear [demo_ok (DTransfer "Reverted")]) demo_open_transfer); [done|by vm_compute|done].
Defined.

Lemma start_only_fundable_witness :
  dc_enabled demo_dcfg = true ∧
  ∃ p, pw_profiles (demo_world ∅ ∅ 0 [demo_ok (DCheckout "https://x")]) !! "v1" = Some p ∧
    fundable 1000000 p.
Proof.
  apply (start_only_fundable demo_dcfg demo_ccfg "ehte:" (λ s, s) (λ n, "10")
    (λ b r, Some (b +:+ r)) demo_user
    {| cd_victimProfileId := "v1"; cd_amount := "150.50"; cd_isAnonymous := None |} None
    (demo_world ∅ ∅ 0 [demo_ok (DCheckout "https://x")])).
  right. vm_compute. discriminate.
Defined.

Definition demo_dto : CreateDonationDto :=
  {| cd_victimProfileId := "v1"; cd_amount := "150.50"; cd_isAnonymous := None |}.
Definition demo_first_tap : outcome (Payment * bool) * PayW :=
  run (record_donation demo_dcfg demo_user demo_dto 15050 (Some "key-0001") "tx9")
    (demo_one FAILED []).

Lemma demo_first_inv : Inv demo_first_tap.2.
Proof.
  pose proof (safe_record_donation demo_dcfg demo_user demo_dto 15050 (Some "key-0001") "tx9"
    (demo_one FAILED [])) as Hs.
  apply (rg_run Inv pay_rel) in Hs; [apply Hs|]. by apply demo_inv.
Qed.

Lemma donation_recorded_once_witness :
  ∃ p w3, demo_first_tap.1 = Ok (p, true) ∧
    run (record_donation demo_dcfg demo_user demo_dto 15050 (Some "key-0001") "tx9")
      demo_first_tap.2 = (Ok (p, false), w3) ∧
    pw_payments w3 = pw_payments demo_first_tap.2.
Proof.
  set (p := new_donation demo_dcfg demo_user demo_dto 15050 "tx9" (demo_one FAILED [])).
  pose proof (donation_recorded_once demo_dcfg demo_user demo_dto 15050 "key-0001" "tx9"
    (demo_one FAILED []) p true demo_first_tap.2 demo_first_tap.2
    (demo_inv FAILED [] ltac:(done) (Forall_nil_2 _)) ltac:(by vm_compute) demo_first_inv
    ltac:(done) ltac:(by vm_compute)) as (_&_&_&_&_&_&w3&Hw3&Hp).
  exists p, w3. split; [unfold p; vm_compute; reflexivity|exact (conj Hw3 Hp)].
Defined.

Lemma refund_claims_first_witness :
  let w := demo_one REVIEW_REQUIRED [demo_verify "success" "200.00"; NetFail] in
  let res := run (resolveReview demo_cfg demo_ccfg "ehte:" demo_admin "p1" REFUND "dup") w in
  pw_profiles res.2 = pw_profiles w ∧
  pw_payments res.2 = <["p1" := upd_back_to_review 1000000
    (upd_refunded "CH1" 1000000 (demo_payment REVIEW_REQUIRED))]> (pw_payments w) ∧
  res.1 = Err (JsError "fetch failed").
Proof.
  destruct (refund_claims_first demo_cfg demo_ccfg "ehte:" demo_admin
    (demo_one REVIEW_REQUIRED [demo_verify "success" "200.00"; NetFail])
    (demo_payment REVIEW_REQUIRED) "dup" (demo_data "success" "200.00") "CH1" 20000)
    as (Hv&_&_&Hp&He); [by vm_compute..|].
  cbn zeta. split_and!; [exact Hv|exact Hp|]. apply He. by vm_compute.
Defined.

Lemma callbacks_authenticated_witness :
  ∃ body, Some "{tx1}" = Some body ∧ signed demo_ccfg demo_hmac body (Some "7768") None ∧
    is_Some (demo_parseJson body).
Proof.
  apply (callbacks_authenticated demo_cfg demo_ccfg "ehte:" demo_hmac demo_parseJson
    (Some "{tx1}") (Some "7768") None demo_pending).
  left. by vm_compute.
Defined.

(** ** What the model shows beyond the properties *)

(** A payment that is already [FAILED] and that the provider now reports as paid
    with another amount: the answer (and the audit event) say [REVIEW_REQUIRED],
    the record stays [FAILED], so no administrator can resolve it. *)
Example failed_payment_reported_as_review :
  let res := run (settlePayment demo_cfg demo_ccfg "ehte:" "tx1" false)
               (demo_one FAILED [demo_verify "success" "99.00"]) in
  (sr_status <$> match res.1 with Ok r => Some r | Err _ => None end) = Some REVIEW_REQUIRED ∧
  (p_status <$> pw_payments res.2 !! "p1") = Some FAILED.
Proof. by vm_compute. Qed.

(** A refund whose answer is lost (the provider may have carried it out) puts the
    payment back under review, and accepting it then counts the same money as
    raised and sends it on. *)
Example unanswered_refund_then_accept :
  let w := demo_one REVIEW_REQUIRED
    [demo_verify "success" "200.00"; NetFail; demo_verify "success" "200.00"; demo_ok DNone] in
  let w1 := (run (resolveReview demo_cfg demo_ccfg "ehte:" demo_admin "p1" REFUND "dup") w).2 in
  let w2 := (run (resolveReview demo_cfg demo_ccfg "ehte:" demo_admin "p1" ACCEPT "ok") w1).2 in
  (p_status <$> pw_payments w2 !! "p1") = Some PAID ∧
  (vp_totalRaised <$> pw_profiles w2 !! "v1") = Some 20000 ∧
  length (filter (λ r, nr_post r = true) (pw_sent w2)) = 2%nat.
Proof. by vm_compute. Qed.
