(* ===== verification/CacheProps.v ===== *)
(** * The cache: stale write-backs, lost invalidations, the kill switch

    Properties of [CacheService] (file Cache): a reader that started before an
    invalidation cannot put its value back, an invalidation that failed is
    bypassed until it lands, the kill switch works without Redis, and how long a
    cached session is trusted. *)

From S2P Require Import Prelude Js Redis Cache.

Open Scope Z_scope.

Section cache.
Context {W : Type} `{HasCache W} `{!RedisLaws W} `{!CacheLaws W}.
Context (keyPrefix : string).
Implicit Types w : W.

(** The cache may be used: not disabled, and the flag was read recently. *)
Record usable (w : W) : Prop := {
  us_redis : redis_ok CacheConn w;
  us_enabled : cs_localDisabledUntil (cache_of w) ≤ now_of w;
  us_fresh : now_of w - cs_flag_checkedAt (cache_of w) < FLAG_MEMO_MS;
  us_flag : cs_flag_value (cache_of w) = true;
}.

Lemma run_canUseCache w : usable w → run (canUseCache keyPrefix) w = (Ok true, w).
Proof.
  intros [[Hr Hf] He Hm Hv]. unfold canUseCache.
  rewrite run_bind, run_isConnected, Hr. unfold isCacheEnabled.
  rewrite run_bind, run_gets, run_bind, run_gets.
  rewrite (proj2 (Z.ltb_ge _ _) He), (proj2 (Z.ltb_lt _ _) Hm). by rewrite Hv.
Qed.

Lemma run_cache_cmd {X} c (f : Z → rstore → outcome X * rstore) w :
  cache_of (run (redis_cmd c f) w).2 = cache_of w.
Proof.
  unfold redis_cmd. rewrite run_act_outcome. cbv zeta.
  destruct (negb _); [done|].
  destruct (r_faults _) as [|[] fs]; [destruct (f _ _)| |destruct (f _ _)];
    apply cache_of_with_redis.
Qed.

Lemma run_redis_set_cache c k v t w :
  cache_of (run (redis_set c k v t) w).2 = cache_of w.
Proof.
  unfold redis_set, or_default. rewrite run_catch, run_bind.
  pose proof (run_cache_cmd c (total (cSET k (RJson v)
    match t with Some 0 | None => None | Some t => Some (t * 1000) end)) w) as Hc.
  by destruct (run (redis_cmd _ _) w) as [[] ?].
Qed.

Lemma run_upd_cache f w : run (upd_cache f) w = (Ok (), with_cache (f (cache_of w)) w).
Proof. done. Qed.

(** *** The kill switch *)

(** The kill switch holds without Redis. After [disableCache] with a time
    to live, whether or not the shared flag could be written, this process
    reads every [wrap]ped value from its source for that long: the cache is
    neither read nor written. *)
Theorem disableCache_holds ttl w w' key factory t :
  cache_of w' = cache_of (run (disableCache keyPrefix ttl) w).2 →
  now_of w' < now_of w + ttl * 1000 →
  run (wrap keyPrefix key factory t) w' = run factory w'.
Proof.
  unfold disableCache. rewrite run_bind, run_gets, run_bind.
  unfold set_flag. rewrite run_upd_cache, run_redis_set_cache, cache_of_with.
  intros Hc Hnow. unfold wrap. rewrite run_bind.
  assert (run (canUseCache keyPrefix) w' = (Ok false, w')) as ->; [|done].
  unfold canUseCache. rewrite run_bind, run_isConnected.
  destruct (r_ready _); [|done]. unfold isCacheEnabled.
  rewrite run_bind, run_gets, run_bind, run_gets, Hc. cbn [cs_localDisabledUntil from_option id].
  by rewrite (proj2 (Z.ltb_lt _ _) Hnow).
Qed.

(** *** Invalidations that failed *)

Lemma q_get_set id x q : q_get id (q_set id x q) = Some x.
Proof.
  induction q as [|[i y] q IH]; cbn; [by rewrite bool_decide_eq_true_2|].
  case_bool_decide as Hi; cbn; [by rewrite bool_decide_eq_true_2|].
  by rewrite bool_decide_eq_false_2.
Qed.

Lemma run_enqueue_queued id op w :
  is_Some (q_get id (cs_retryQueue (cache_of w))) ∨
    (length (cs_retryQueue (cache_of w)) < RETRY_QUEUE_MAX)%nat →
  ∃ w', run (enqueue id op) w = (Ok (), w') ∧
    is_Some (q_get id (cs_retryQueue (cache_of w'))).
Proof.
  intros Hq. unfold enqueue. rewrite run_bind, run_gets, run_bind, run_gets.
  unfold set_queue. destruct (q_get id (cs_retryQueue (cache_of w))) as [[op' first]|].
  - rewrite run_upd_cache. eexists. split; [done|].
    rewrite cache_of_with. cbn [cs_retryQueue]. rewrite q_get_set. by eexists.
  - destruct Hq as [[? ?]|Hq]; [done|].
    rewrite bool_decide_eq_false_2 by lia. rewrite run_upd_cache. eexists. split; [done|].
    rewrite cache_of_with. cbn [cs_retryQueue]. rewrite q_get_set. by eexists.
Qed.

Lemma run_canUseCache_queue w :
  cs_retryQueue (cache_of (run (canUseCache keyPrefix) w).2) = cs_retryQueue (cache_of w).
Proof.
  unfold canUseCache. rewrite run_bind, run_isConnected. destruct (r_ready _); [|done].
  unfold isCacheEnabled. rewrite run_bind, run_gets, run_bind, run_gets.
  destruct (_ <? _); [done|]. destruct (_ <? _); [done|].
  rewrite run_bind, run_catch, run_bind. unfold getRawStrict, set_flag.
  pose proof (run_cache_cmd CacheConn (total (cGET (k_cacheEnabled keyPrefix))) w) as Hc.
  destruct (run (redis_cmd _ _) w) as [[[[[| [] | | | |]| |]|]|e] w1]; cbn [snd] in Hc;
    rewrite ?run_bind, ?run_gets, ?run_Throw, ?run_upd_cache, ?run_bind, ?run_gets,
      ?run_upd_cache, ?run_gets; cbn [snd]; rewrite ?cache_of_with; cbn; by rewrite ?Hc.
Qed.

(** A lost invalidation is never forgotten. When Redis is down while an
    entity is invalidated, the entity bypasses the cache from then on: a reader
    gets the value of its source, whatever old value Redis still holds when it
    is back, for as long as the invalidation is queued. *)
Theorem failed_invalidation_bypassed kind id key extra w w' factory ttl :
  redis_down CacheConn w →
  (length (cs_retryQueue (cache_of w)) < RETRY_QUEUE_MAX)%nat →
  let w1 := (run (invalidateEntity keyPrefix kind id key extra) w).2 in
  cs_retryQueue (cache_of w') = cs_retryQueue (cache_of w1) →
  run (wrapEntity keyPrefix kind id key factory ttl) w' =
    match (run (canUseCache keyPrefix) w') with
    | (Ok _, w2) => run factory w2
    | (Err e, w2) => (Err e, w2)
    end.
Proof.
  intros Hdown Hlen. cbv zeta. unfold invalidateEntity, guarded.
  rewrite run_bind. unfold or_default at 1. rewrite run_catch. cbn [run_op].
  rewrite run_bind, run_act, run_bind, run_redis_cmd_down.
  2: { unfold redis_down. by rewrite redis_of_token. }
  rewrite run_ret. cbn [fst snd]. rewrite run_bind. unfold stat at 1.
  rewrite run_upd_cache.
  match goal with |- context [run (enqueue ?i ?o) ?u] =>
    destruct (run_enqueue_queued i o u) as (w3&->&Hq) end.
  { right. rewrite cache_of_with. cbn [cs_retryQueue]. by rewrite cache_of_token. }
  cbn [snd]. intros Hw'. unfold wrapEntity. rewrite run_bind.
  pose proof (run_canUseCache_queue w') as Hqu.
  destruct (run (canUseCache keyPrefix) w') as [[[]|e] w2]; cbn [snd negb] in *; [|done..].
  rewrite run_bind. unfold queued. rewrite run_gets, Hqu, Hw'.
  by rewrite bool_decide_eq_true_2.
Qed.

(** *** Write-backs *)

Definition misses_counted (w : W) : W := (run (stat "misses") w).2.

Lemma usable_upd_cache w f :
  usable w →
  cs_localDisabledUntil (f (cache_of w)) = cs_localDisabledUntil (cache_of w) →
  cs_flag_checkedAt (f (cache_of w)) = cs_flag_checkedAt (cache_of w) →
  cs_flag_value (f (cache_of w)) = cs_flag_value (cache_of w) →
  usable (with_cache (f (cache_of w)) w).
Proof.
  intros [[Hr Hf] He Hm Hv] E1 E2 E3.
  by split; rewrite ?cache_of_with, ?now_of_with_cache, ?E1, ?E2, ?E3;
    [split; rewrite redis_of_with_cache|..].
Qed.

(** The version of an entity, as [wrapEntity] and [SET_IF_VERSION] read it. *)
Definition gen_of (kind id : string) (w : W) : string :=
  version_text (re_val <$> rlookup (now_of w) (store_of CacheConn w) (k_gen keyPrefix kind id)).

Lemma run_stat_set s name : run (stat name) s = (Ok (), (run (stat name) s).2).
Proof. done. Qed.

Lemma store_of_stat w name : store_of CacheConn (run (stat name) w).2 = store_of CacheConn w.
Proof. unfold store_of, stat. rewrite run_upd_cache. cbn [snd]. by rewrite redis_of_with_cache. Qed.

Lemma run_redis_get_miss c key w :
  redis_ok c w → rlookup (now_of w) (store_of c w) key = None →
  run (redis_get c key) w = (Ok None, w).
Proof.
  intros Hok Hm. unfold redis_get, or_default. rewrite run_catch, run_bind, run_redis_cmd by done.
  unfold total, cGET. rewrite Hm. cbn. by rewrite set_store_id.
Qed.

Lemma run_read_version kind id w :
  redis_ok CacheConn w →
  run (or_default (v ← getRawStrict CacheConn (k_gen keyPrefix kind id);
                   mret (Some (version_text v))) None) w = (Ok (Some (gen_of kind id w)), w).
Proof.
  intros Hok. unfold or_default, getRawStrict. rewrite run_catch, run_bind, run_redis_cmd by done.
  unfold total, cGET. cbn. by rewrite set_store_id.
Qed.

(** No stale write-back. A reader that misses an entity asks the source and
    stores the value only if no invalidation happened meanwhile: with the
    version it started from still in place the value is cached, with any other
    version nothing is written. Either way it returns the source's value. *)
Theorem wrapEntity_write_back kind id key factory ttl w v w2 :
  usable w → q_get ("entity:" +:+ kind +:+ ":" +:+ id) (cs_retryQueue (cache_of w)) = None →
  rlookup (now_of w) (store_of CacheConn w) key = None →
  run factory (misses_counted w) = (Ok v, w2) → v ≠ JNull → redis_ok CacheConn w2 →
  ∃ w3, run (wrapEntity keyPrefix kind id key factory ttl) w = (Ok v, w3) ∧
    store_of CacheConn w3 =
      if bool_decide (gen_of kind id w2 = gen_of kind id w)
      then <[key := {| re_val := RJson v;
                       re_exp := Some (now_of w2 +
                         jitter_of ttl (next_random w2).1 * 1000) |}]> (store_of CacheConn w2)
      else store_of CacheConn w2.
Proof.
  intros Hu Hq Hmiss Hfac Hv Hok2. pose proof (us_redis _ Hu) as Hok.
  unfold wrapEntity. rewrite run_bind, run_canUseCache by done. cbn [negb].
  rewrite run_bind. unfold queued. rewrite run_gets, Hq. cbn [is_Some].
  rewrite bool_decide_eq_false_2 by (by intros [? ?]).
  unfold cache_read. rewrite run_bind, run_bind, run_canUseCache by done. cbn [negb].
  rewrite run_bind, run_redis_get_miss by done. rewrite run_bind, run_stat_set, run_ret. fold (misses_counted w).
  set (w1 := misses_counted w) in *.
  assert (Hs1 : store_of CacheConn w1 = store_of CacheConn w) by apply store_of_stat.
  assert (Hn1 : now_of w1 = now_of w).
  { unfold w1, misses_counted, stat. rewrite run_upd_cache. apply now_of_with_cache. }
  assert (Hok1 : redis_ok CacheConn w1).
  { unfold w1, misses_counted, stat, redis_ok. rewrite run_upd_cache. cbn [snd].
    by rewrite redis_of_with_cache. }
  rewrite run_bind, run_read_version by done. unfold gen_of at 1. rewrite Hs1, Hn1.
  fold (gen_of kind id w).
  rewrite run_bind, Hfac, run_bind. assert (is_null v = false) as -> by by destruct v.
  unfold jitter. rewrite run_bind, run_bind, run_act, run_ret.
  set (w2' := (next_random w2).2).
  assert (Hs2 : store_of CacheConn w2' = store_of CacheConn w2)
    by (unfold store_of, w2'; by rewrite redis_of_random).
  assert (Hn2 : now_of w2' = now_of w2) by apply now_of_random.
  assert (Hok2' : redis_ok CacheConn w2') by (unfold redis_ok, w2'; by rewrite redis_of_random).
  rewrite run_bind, run_redis_cmd by done. unfold SET_IF_VERSION, total. rewrite Hs2, Hn2.
  unfold cGET. cbn [fst]. fold (gen_of kind id w2).
  case_bool_decide; cbn [fst snd cSET Z.eqb].
  - rewrite !run_ret. eexists. split; [done|]. apply store_of_set_store.
  - rewrite run_stat_set, run_ret. eexists. split; [done|].
    by rewrite store_of_stat, store_of_set_store.
Qed.

(** *** How long a session is trusted *)

Lemma jitter_session ppm : 0 ≤ ppm < 1000000 → 27 ≤ jitter_of TTL_SESSION_AUTH ppm ≤ 33.
Proof.
  intros Hp. unfold jitter_of, TTL_SESSION_AUTH.
  assert (27 ≤ (30 * (4500000 + ppm) + 2500000) `div` 5000000 ≤ 33); [|lia].
  split; [apply Z.div_le_lower_bound; lia|]. apply Z.lt_succ_r, Z.div_lt_upper_bound; lia.
Qed.

Lemma isEnvelope_envelope v s : isEnvelope (envelope v s) = Some (v, s).
Proof. reflexivity. Qed.

Definition soft_entry (v : json) (t0 ttl t : Z) : rentry := {|
  re_val := RJson (envelope v (t0 + t * 1000));
  re_exp := Some (t0 + (t + Z.min ttl TTL_STALE_GRACE) * 1000) |}.

Lemma run_refresh key factory ttl w v w1 :
  0 ≤ ttl → run factory w = (Ok v, w1) → v ≠ JNull → redis_ok CacheConn w1 →
  ∃ w2, run (refresh key factory ttl) w = (Ok v, w2) ∧
    store_of CacheConn w2 =
      <[key := soft_entry v (now_of w1) ttl (jitter_of ttl (next_random w1).1)]>
        (store_of CacheConn w1).
Proof.
  intros Httl Hf Hv Hok. unfold refresh. rewrite run_bind, Hf, run_bind.
  assert (is_null v = false) as -> by by destruct v.
  unfold jitter. rewrite run_bind, run_bind, run_act, run_ret, run_bind, run_gets.
  unfold redis_set, or_default. rewrite run_bind, run_catch, run_bind.
  set (w2 := (next_random w1).2).
  assert (Hok2 : redis_ok CacheConn w2) by (unfold redis_ok, w2; by rewrite redis_of_random).
  rewrite run_redis_cmd, !run_ret by done. eexists. split; [done|].
  rewrite store_of_set_store. unfold total, cSET, soft_entry. cbn [fst snd].
  set (j := jitter_of _ _).
  assert (0 < j) by (unfold j, jitter_of; lia).
  assert (Hne : j + Z.min ttl TTL_STALE_GRACE ≠ 0) by (unfold TTL_STALE_GRACE; lia).
  assert (store_of CacheConn w2 = store_of CacheConn w1) as ->
    by (unfold store_of, w2; by rewrite redis_of_random).
  assert (now_of w2 = now_of w1) as -> by apply now_of_random.
  by destruct (j + Z.min ttl TTL_STALE_GRACE).
Qed.

(** How long a session is trusted. Once the state of a session is cached,
    [wrapSessionAuth] answers with it, without waiting for its source, for at
    least 57 seconds, and never at 63 seconds or later: then the source is
    asked. (The time to live is 30 seconds; the stale grace adds as much.) *)
Theorem session_auth_window userId sessionId factory w v w1 factory' w' :
  run factory w = (Ok v, w1) → v ≠ JNull → redis_ok CacheConn w1 →
  0 ≤ (next_random w1).1 < 1000000 →
  let key := k_sessionAuth keyPrefix userId sessionId in
  usable w' →
  store_of CacheConn w' =
    store_of CacheConn (run (refresh key factory TTL_SESSION_AUTH) w).2 →
  (now_of w' < now_of w1 + 57000 →
     (run (wrapSessionAuth keyPrefix userId sessionId factory') w').1 = Ok v) ∧
  (now_of w1 + 63000 ≤ now_of w' →
     run (wrapSessionAuth keyPrefix userId sessionId factory') w' =
     run (refresh key factory' TTL_SESSION_AUTH) (misses_counted w')).
Proof.
  intros Hf Hv Hok1 Hppm key Hu Hst.
  destruct (run_refresh key factory TTL_SESSION_AUTH w v w1) as (w2&E2&Hs2);
    [done..|]. rewrite E2 in Hst. cbn [snd] in Hst. rewrite Hs2 in Hst.
  pose proof (jitter_session _ Hppm) as Hj.
  set (j := jitter_of TTL_SESSION_AUTH (next_random w1).1) in *.
  pose proof (us_redis _ Hu) as Hok.
  assert (Hlk : rlookup (now_of w') (store_of CacheConn w') key =
    if now_of w' <? now_of w1 + (j + 30) * 1000
    then Some (soft_entry v (now_of w1) TTL_SESSION_AUTH j) else None).
  { rewrite Hst. apply rlookup_insert. }
  unfold wrapSessionAuth, wrap. fold key. split; intros Hnow.
  - rewrite (proj2 (Z.ltb_lt _ _)) in Hlk by lia.
    rewrite run_bind, run_canUseCache by done. cbn [negb].
    rewrite run_bind. unfold redis_get, or_default. rewrite run_catch, run_bind.
    rewrite run_redis_cmd by done. unfold total, cGET. rewrite Hlk. cbn [fst snd fmap option_fmap option_map re_val soft_entry].
    rewrite set_store_id, run_ret by done. cbn [envelope].
    fold (envelope v (now_of w1 + j * 1000)). rewrite isEnvelope_envelope.
    rewrite run_bind, run_stat_set, run_bind, run_gets.
    destruct (_ <? _); [done|].
    by rewrite run_bind, run_stat_set, run_bind, run_attempt.
  - rewrite (proj2 (Z.ltb_ge _ _)) in Hlk by lia.
    rewrite run_bind, run_canUseCache by done. cbn [negb].
    rewrite run_bind, run_redis_get_miss by done. by rewrite run_bind, run_stat_set.
Qed.
End cache.

(** ** A world of the cache alone, and the properties on it *)

Record CacheW := {
  cw_redis : SimpleW;
  cw_cache : CacheSt;
  cw_ppm : list Z;
  cw_tokens : list string;
}.

#[export] Instance CacheW_redis : HasRedis CacheW := {|
  redis_of c w := redis_of c (cw_redis w);
  with_redis c r w := {| cw_redis := with_redis c r (cw_redis w); cw_cache := cw_cache w;
                         cw_ppm := cw_ppm w; cw_tokens := cw_tokens w |};
  now_of w := sw_now (cw_redis w);
|}.
#[export] Instance CacheW_cache : HasCache CacheW := {|
  cache_of := cw_cache;
  with_cache cs w := {| cw_redis := cw_redis w; cw_cache := cs; cw_ppm := cw_ppm w;
                        cw_tokens := cw_tokens w |};
  next_random w := (hd 0 (cw_ppm w),
    {| cw_redis := cw_redis w; cw_cache := cw_cache w; cw_ppm := tail (cw_ppm w);
       cw_tokens := cw_tokens w |});
  next_token w := (hd "" (cw_tokens w),
    {| cw_redis := cw_redis w; cw_cache := cw_cache w; cw_ppm := cw_ppm w;
       cw_tokens := tail (cw_tokens w) |});
|}.
#[export] Instance CacheW_redis_laws : RedisLaws CacheW.
Proof.
  split.
  - by intros [].
  - by intros [].
  - by intros [] [[]].
  - by intros [].
Qed.
#[export] Instance CacheW_cache_laws : CacheLaws CacheW.
Proof. by split; intros; try match goal with c : conn |- _ => destruct c end. Qed.

Definition cache_at (checked : Z) : CacheSt := {|
  cs_flag_value := true; cs_flag_checkedAt := checked; cs_localDisabledUntil := 0;
  cs_retryQueue := []; cs_needsPurge := false; cs_flushing := false; cs_stats := ∅ |}.
Definition cache_world (now : Z) : CacheW := {|
  cw_redis := simple_world now; cw_cache := cache_at now; cw_ppm := [500000];
  cw_tokens := ["tk1"; "tk2"] |}.
Definition later (now : Z) (w : CacheW) : CacheW := {|
  cw_redis := {| sw_cache := sw_cache (cw_redis w); sw_sec := sw_sec (cw_redis w);
                 sw_now := now |};
  cw_cache := cw_cache w; cw_ppm := cw_ppm w; cw_tokens := cw_tokens w |}.
Definition redis_gone (w : CacheW) : CacheW :=
  with_redis CacheConn {| r_ready := false; r_faults := []; r_store := store_of CacheConn w |} w.

Lemma cache_world_usable now : 0 ≤ now → usable (cache_world now).
Proof. intros. by split; cbn; [split|lia|unfold FLAG_MEMO_MS; lia|]. Qed.

Definition from_db : prog CacheW json := mret (JStr "fresh").

Lemma disableCache_holds_witness :
  let w := redis_gone (cache_world 1000) in
  let w' := later 3000000 (run (disableCache "ehte:" 3600) w).2 in
  run (wrap "ehte:" "k" from_db 60) w' = run from_db w'.
Proof.
  apply (disableCache_holds "ehte:" 3600 (redis_gone (cache_world 1000))
    (later 3000000 (run (disableCache "ehte:" 3600) (redis_gone (cache_world 1000))).2)
    "k" from_db 60); [done|by vm_compute].
Defined.

(** The entity is cached with an old value when Redis goes down. *)
Definition cached_old : CacheW :=
  set_store CacheConn {[ "ehte:post:1" := {| re_val := RJson (JStr "old"); re_exp := None |} ]}
    (cache_world 1000).

Lemma failed_invalidation_bypassed_witness :
  let w1 := (run (invalidateEntity "ehte:" "post" "1" "ehte:post:1" []) (redis_gone cached_old)).2 in
  let back := with_redis CacheConn (redis_of CacheConn cached_old) w1 in
  run (wrapEntity "ehte:" "post" "1" "ehte:post:1" from_db 300) back =
    match run (canUseCache "ehte:") back with
    | (Ok _, w2) => run from_db w2 | (Err e, w2) => (Err e, w2) end.
Proof.
  apply (failed_invalidation_bypassed "ehte:" "post" "1" "ehte:post:1" []
    (redis_gone cached_old)
    (with_redis CacheConn (redis_of CacheConn cached_old)
      (run (invalidateEntity "ehte:" "post" "1" "ehte:post:1" []) (redis_gone cached_old)).2)
    from_db 300); [done| |done].
  change (0 < Z.to_nat 10000)%nat. lia.
Defined.

(** A factory that is overtaken by an invalidation. *)
Definition overtaken : prog CacheW json :=
  invalidateEntity "ehte:" "post" "1" "ehte:post:1" [] ;; mret (JStr "stale").

Lemma wrapEntity_write_back_witness :
  ∃ w3, run (wrapEntity "ehte:" "post" "1" "ehte:post:1" overtaken 300) (cache_world 1000)
      = (Ok (JStr "stale"), w3) ∧
    store_of CacheConn w3 =
      store_of CacheConn (run overtaken (misses_counted (cache_world 1000))).2.
Proof.
  destruct (wrapEntity_write_back "ehte:" "post" "1" "ehte:post:1" overtaken 300
    (cache_world 1000) (JStr "stale") (run overtaken (misses_counted (cache_world 1000))).2)
    as (w3&E&Hs);
    [by apply cache_world_usable|by vm_compute|by vm_compute|by vm_compute|done|by vm_compute|].
  exists w3. split; [exact E|]. rewrite Hs.
  by rewrite bool_decide_eq_false_2 by (by vm_compute).
Defined.

Lemma session_auth_window_witness :
  let w := cache_world 1000 in
  let w2 := (run (refresh "ehte:user:u1:session:s1:auth" from_db 30) w).2 in
  let w' := {| cw_redis := cw_redis (later 56000 w2); cw_cache := cache_at 56000;
               cw_ppm := [0]; cw_tokens := [] |} in
  (run (wrapSessionAuth "ehte:" "u1" "s1" (mret (JStr "revoked"))) w').1 = Ok (JStr "fresh").
Proof.
  destruct (session_auth_window "ehte:" "u1" "s1" from_db (cache_world 1000) (JStr "fresh")
    (cache_world 1000) (mret (JStr "revoked"))
    {| cw_redis := cw_redis (later 56000
         (run (refresh "ehte:user:u1:session:s1:auth" from_db 30) (cache_world 1000)).2);
       cw_cache := cache_at 56000; cw_ppm := [0]; cw_tokens := [] |}) as [Hsoon _];
    [done|done|done|cbn; lia| |reflexivity|].
  - split; [split; by vm_compute|by vm_compute..].
  - apply Hsoon. by vm_compute.
Defined.

(** * What the cache knows of a session after a purge

    [purgeUserCache] (src/infrastructure/redis/cache.service.ts) empties what is
    cached of a user's sessions, for any component that uses the cache: the next
    request asks the source. *)

From S2P Require Import Prelude Js Redis Cache.

Open Scope Z_scope.

Section cache.
Context {W : Type} `{HasCache W} `{!RedisLaws W} `{!CacheLaws W}.
Context (keyPrefix : string).
Implicit Types w : W.

(** No session of [u] is cached. *)
Definition forgets (u : string) (w : W) : Prop :=
  ∀ sid, store_of CacheConn w !! k_sessionAuth keyPrefix u sid = None.
(** What was not cached of sessions is not. *)
Definition forgets_more (w w' : W) : Prop := ∀ u, forgets u w → forgets u w'.

(** ** Keys *)

Lemma app_inj_l (s t t' : string) : s +:+ t = s +:+ t' → t = t'.
Proof. unfold String.app. induction s as [|c s IH]; cbn; [done|]. intros [= Heq]. by apply IH. Qed.

(** The other keys of the cache do not begin with [user:]. *)
Definition no_session_key (k : string) : Prop := ∀ u sid, k ≠ k_sessionAuth keyPrefix u sid.
Lemma gen_key kind id : no_session_key (k_gen keyPrefix kind id).
Proof. intros u sid Heq%app_inj_l. discriminate. Qed.
Lemma tomb_key scope : no_session_key (k_tomb keyPrefix scope).
Proof. intros u sid Heq%app_inj_l. discriminate. Qed.
Lemma version_key scope : no_session_key (k_version keyPrefix scope).
Proof. intros u sid Heq%app_inj_l. discriminate. Qed.

Lemma rev_app_acc t r : String.rev_app t r = String.rev_app t "" +:+ r.
Proof.
  revert r. induction t as [|c t IH]; intros r; cbn; [done|].
  rewrite IH, (IH (String.String c "")). by rewrite str_app_assoc.
Qed.
Lemma rev_app_rev (s t : string) : String.rev (s +:+ t) = String.rev t +:+ String.rev s.
Proof.
  unfold String.rev. rewrite <- rev_app_acc. generalize "" as r. unfold String.app.
  induction s as [|c s IH]; intros r; cbn; [done|]. apply IH.
Qed.

Lemma session_key_glob u sid :
  glob (userKey keyPrefix u "session:") ":auth" (k_sessionAuth keyPrefix u sid) = true.
Proof.
  assert (k_sessionAuth keyPrefix u sid = userKey keyPrefix u "session:" +:+ (sid +:+ ":auth")) as ->.
  { unfold k_sessionAuth, userKey. rewrite !str_app_assoc. done. }
  unfold glob. apply andb_true_iff. split; [apply andb_true_iff; split|].
  - apply bool_decide_eq_true. rewrite !str_app_length. lia.
  - apply starts_with_app.
  - unfold ends_with. rewrite <- str_app_assoc, rev_app_rev. apply starts_with_app.
Qed.

(** ** The operations of a purge *)

Lemma run_guarded id op w w1 :
  run (run_op op) w = (Ok true, w1) →
  ∃ w', run (guarded id op) w = (Ok (), w') ∧
    store_of CacheConn w' = store_of CacheConn w1 ∧ (redis_ok CacheConn w1 → redis_ok CacheConn w').
Proof.
  intros Hop. unfold guarded, or_default. rewrite run_bind, run_catch, Hop, run_bind, run_gets.
  unfold set_queue. rewrite run_upd_cache. eexists. split; [done|].
  unfold store_of, redis_ok. by rewrite redis_of_with_cache.
Qed.

Lemma lookup_foldr_delete (ks : list string) (m : rstore) k :
  m !! k = None → foldr delete m ks !! k = None.
Proof.
  intros Hk. induction ks as [|k' ks IH]; [done|]. cbn. apply lookup_delete_None. by right.
Qed.

(** An invalidation writes its version and its tombstone, and deletes. *)
Lemma run_invalidation id k1 k2 rest w :
  redis_ok CacheConn w → no_session_key k1 → no_session_key k2 →
  ∃ w', run (guarded id (PInvalidate (k1 :: k2 :: rest))) w = (Ok (), w') ∧
    redis_ok CacheConn w' ∧ forgets_more w w'.
Proof.
  intros Hok H1 H2. set (wt := (next_token w).2).
  assert (Hokt : redis_ok CacheConn wt) by (unfold redis_ok, wt; by rewrite redis_of_token).
  assert (Hst : store_of CacheConn wt = store_of CacheConn w)
    by (unfold store_of, wt; by rewrite redis_of_token).
  destruct (run_guarded id (PInvalidate (k1 :: k2 :: rest)) w
    (set_store CacheConn (INVALIDATE (k1 :: k2 :: rest) (next_token w).1 TTL_TOMBSTONE
       TTL_ENTITY_GEN (now_of wt) (store_of CacheConn wt)).2 wt)) as (w'&Hrun&Hs&Hr).
  - cbn [run_op]. rewrite run_bind, run_act. fold wt.
    rewrite run_bind, run_redis_cmd by done. reflexivity.
  - exists w'. split_and!; [done|by apply Hr, redis_ok_set_store|].
    intros u Hu sid. rewrite Hs, store_of_set_store, Hst. cbn [INVALIDATE snd].
    apply lookup_foldr_delete. unfold cSET. cbn [snd].
    rewrite !lookup_insert_ne; [apply Hu|apply H1|apply H2].
Qed.

Lemma run_del id k w :
  redis_ok CacheConn w →
  ∃ w', run (guarded id (PDel CacheConn [k])) w = (Ok (), w') ∧
    redis_ok CacheConn w' ∧ forgets_more w w'.
Proof.
  intros Hok.
  destruct (run_guarded id (PDel CacheConn [k]) w
    (set_store CacheConn (delete k (store_of CacheConn w)) w)) as (w'&Hrun&Hs&Hr).
  - cbn [run_op]. by apply run_redis_del.
  - exists w'. split_and!; [done|by apply Hr, redis_ok_set_store|].
    intros u Hu sid. rewrite Hs, store_of_set_store. apply lookup_delete_None. right. apply Hu.
Qed.

Lemma run_delPattern id prefix suffix w :
  redis_ok CacheConn w →
  ∃ w', run (guarded id (PDelPattern CacheConn prefix suffix)) w = (Ok (), w') ∧
    redis_ok CacheConn w' ∧ forgets_more w w' ∧
    ∀ k, glob prefix suffix k = true → store_of CacheConn w' !! k = None.
Proof.
  intros Hok.
  destruct (run_guarded id (PDelPattern CacheConn prefix suffix) w
    (set_store CacheConn (filter (λ '(k, _), glob prefix suffix k = false) (store_of CacheConn w)) w))
    as (w'&Hrun&Hs&Hr).
  - cbn [run_op]. unfold delByPattern, or_default.
    rewrite run_catch, run_bind, run_redis_cmd by done. reflexivity.
  - exists w'. split_and!; [done|by apply Hr, redis_ok_set_store|..].
    + intros u Hu sid. rewrite Hs, store_of_set_store. apply map_lookup_filter_None. left. apply Hu.
    + intros k Hk. rewrite Hs, store_of_set_store. apply map_lookup_filter_None. right.
      intros e _ Hf. congruence.
Qed.

(** A purge leaves nothing of the user's sessions, and brings back nothing of others'. *)
Lemma run_purgeUserCache u w :
  redis_ok CacheConn w →
  ∃ w', run (purgeUserCache keyPrefix u) w = (Ok (), w') ∧
    redis_ok CacheConn w' ∧ forgets u w' ∧ forgets_more w w'.
Proof.
  intros Hok. unfold purgeUserCache, invalidateProfile, clearSession,
    invalidateUnreadNotificationCount, invalidateMyReports, invalidateMyPosts,
    invalidateNotifications, invalidateEntity, bumpScope, delKeys.
  edestruct run_invalidation as (w1&E1&Hok1&F1); [exact Hok|apply gen_key|apply tomb_key|].
  rewrite run_bind, E1.
  edestruct run_invalidation as (w2&E2&Hok2&F2); [exact Hok1|apply gen_key|apply tomb_key|].
  rewrite run_bind, E2.
  edestruct run_del as (w3&E3&Hok3&F3); [exact Hok2|]. rewrite run_bind, E3.
  edestruct run_invalidation as (w4&E4&Hok4&F4); [exact Hok3|apply version_key|apply tomb_key|].
  rewrite run_bind, E4.
  edestruct run_invalidation as (w5&E5&Hok5&F5); [exact Hok4|apply version_key|apply tomb_key|].
  rewrite run_bind, E5.
  edestruct run_invalidation as (w6&E6&Hok6&F6); [exact Hok5|apply version_key|apply tomb_key|].
  rewrite run_bind, E6.
  edestruct run_delPattern as (w7&E7&Hok7&F7&G7); [exact Hok6|]. rewrite E7.
  exists w7. split_and!; [done..| |].
  - intros sid. apply G7, session_key_glob.
  - intros v Hv. by apply F7, F6, F5, F4, F3, F2, F1.
Qed.

(** ** Reading a session that is not cached *)

Lemma run_canUseCache_ok w :
  redis_ok CacheConn w →
  ∃ b w', run (canUseCache keyPrefix) w = (Ok b, w') ∧ redis_ok CacheConn w' ∧
    store_of CacheConn w' = store_of CacheConn w.
Proof.
  intros Hok. unfold canUseCache. rewrite run_bind, run_isConnected.
  destruct (r_ready _); [|by eexists _, _]. unfold isCacheEnabled.
  rewrite run_bind, run_gets, run_bind, run_gets.
  destruct (_ <? _); [by eexists _, _|]. destruct (_ <? _); [by eexists _, _|].
  rewrite run_bind, run_catch, run_bind. unfold getRawStrict, set_flag.
  rewrite run_redis_cmd by done. cbn [total cGET fst snd]. rewrite set_store_id by done.
  assert (Hw : ∀ cs, redis_ok CacheConn (with_cache cs w) ∧
    store_of CacheConn (with_cache cs w) = store_of CacheConn w)
    by (intros cs; unfold redis_ok, store_of; by rewrite redis_of_with_cache).
  destruct (re_val <$> _) as [[[| [] | | | |]| |]|];
    rewrite ?run_Throw, ?run_bind, ?run_gets, ?run_upd_cache, ?run_bind, ?run_gets, ?run_upd_cache,
      ?run_gets; eexists _, _; (split; [reflexivity|apply Hw]).
Qed.

Lemma run_refresh_value key factory ttl w :
  (run (refresh key factory ttl) w).1 = (run factory w).1.
Proof.
  unfold refresh. rewrite run_bind. destruct (run factory w) as [[v|e] w1]; [|done].
  cbn [fst]. rewrite run_bind. destruct (is_null v); [done|].
  unfold jitter. rewrite run_bind, run_bind, run_act, run_ret, run_bind, run_gets, run_bind.
  unfold redis_set, or_default. rewrite run_catch, run_bind.
  by destruct (run (redis_cmd _ _) _) as [[x|e] w2].
Qed.

(** With nothing cached under the key, [wrap] answers what its source does, in the
    world after looking. *)
Lemma run_wrap_source key factory ttl w :
  redis_ok CacheConn w → store_of CacheConn w !! key = None →
  let looked := (run (canUseCache keyPrefix) w).2 in
  (run (wrap keyPrefix key factory ttl) w).1 = (run factory looked).1 ∨
  (run (wrap keyPrefix key factory ttl) w).1 = (run factory (misses_counted looked)).1.
Proof.
  intros Hok Hk. unfold wrap. rewrite run_bind.
  destruct (run_canUseCache_ok w Hok) as (b&w1&->&Hok1&Hs1). cbn [snd].
  destruct b; cbn [negb]; [|by left]. right.
  rewrite run_bind, run_redis_get_miss; [|done|].
  - rewrite run_bind, run_stat_set. apply run_refresh_value.
  - unfold rlookup. by rewrite Hs1, Hk.
Qed.
End cache.
