(* ===== verification/TwoFactor.v ===== *)
(** * Two-factor authentication

    Models [src/common/utils/two-factor.util.ts]: base32 on 32-bit integers, HOTP
    and TOTP, and the recovery codes. Bytes are integers in [0, 256). *)

From S2P Require Import Prelude Js.

Open Scope Z_scope.

Definition BASE32 : string := "ABCDEFGHIJKLMNOPQRSTUVWXYZ234567".
Definition TOTP_PERIOD_SECONDS : Z := 30.
Definition TOTP_DIGITS : nat := 6%nat.

(** ** 32-bit integers: the bits of a JavaScript [int32], as an unsigned value *)
Definition u32 (x : Z) : Z := x mod 2 ^ 32.
Definition shl32 (x n : Z) : Z := u32 (Z.shiftl x n).

(** [BASE32[i]] and [BASE32.indexOf(c)] *)
Definition b32_char (i : Z) : ascii := default "A"%char (String.get (Z.to_nat i) BASE32).
Fixpoint index_of (c : ascii) (s : string) (i : Z) : option Z :=
  match s with
  | EmptyString => None
  | Str a s => if bool_decide (a = c) then Some i else index_of c s (i + 1)
  end.

(** ** [base32Encode] *)

(** The inner [while (bits >= 5)]; it runs at most twice for one byte. *)
Fixpoint b32_drain (fuel : nat) (bits value : Z) : string * Z :=
  match fuel with
  | O => (EmptyString, bits)
  | S fuel =>
      if 5 <=? bits then
        let '(out, bits') := b32_drain fuel (bits - 5) value in
        (Str (b32_char (Z.land (Z.shiftr value (bits - 5)) 31)) out, bits')
      else (EmptyString, bits)
  end.

Fixpoint b32_bytes (bs : list Z) (bits value : Z) : string * (Z * Z) :=
  match bs with
  | [] => (EmptyString, (bits, value))
  | byte :: bs =>
      let value := Z.lor (shl32 value 8) byte in
      let '(out, bits) := b32_drain 3 (bits + 8) value in
      let '(outs, last) := b32_bytes bs bits value in
      (out +:+ outs, last)
  end.

Definition base32Encode (bs : list Z) : string :=
  let '(out, (bits, value)) := b32_bytes bs 0 0 in
  if 0 <? bits then out +:+ Str (b32_char (Z.land (shl32 value (5 - bits)) 31)) ""
  else out.

(** ** [base32Decode] *)

Definition b32_clean (input : string) : string :=
  toUpperCase (str_filter (λ c, negb (is_ws c))
    (drop_while_end (λ c, bool_decide (c = "="%char)) input)).

Fixpoint b32_chars (s : string) (bits value : Z) : outcome (list Z) :=
  match s with
  | EmptyString => Ok []
  | Str c s =>
      match index_of c BASE32 0 with
      | None => Err (JsError "invalid_base32")
      | Some index =>
          let value := Z.lor (shl32 value 5) index in
          let bits := bits + 5 in
          if 8 <=? bits then
            bs ← b32_chars s (bits - 8) value;
            Ok (Z.land (Z.shiftr value (bits - 8)) 255 :: bs)
          else b32_chars s bits value
      end
  end.

Definition base32Decode (input : string) : outcome (list Z) := b32_chars (b32_clean input) 0 0.

(** ** HOTP and TOTP *)

(** [writeBigUInt64BE]; it throws out of the range of 64 bits. *)
Definition be64 (n : Z) : outcome (list Z) :=
  if (0 <=? n) && (n <? 2 ^ 64)
  then Ok ((λ i, Z.land (Z.shiftr n (8 * Z.of_nat i)) 255) <$> [7; 6; 5; 4; 3; 2; 1; 0]%nat)
  else Err (JsError "ERR_OUT_OF_RANGE").

(** [timingSafeEqualStrings]: the loop that gathers the differing bits, and the
    function. *)
Fixpoint diff_bits (a b : string) (diff : Z) : Z :=
  match a, b with
  | Str x a, Str y b =>
      diff_bits a b (Z.lor diff (Z.lxor (Z.of_nat (nat_of_ascii x)) (Z.of_nat (nat_of_ascii y))))
  | _, _ => diff
  end.

Definition timingSafeEqualStrings (a b : string) : bool :=
  if negb (String.length a =? String.length b)%nat then false
  else diff_bits a b 0 =? 0.

Definition byte_at (bs : list Z) (i : Z) : Z := default 0 (bs !! Z.to_nat i).

Section totp.
(** HMAC-SHA1 of Node's crypto: key and data to digest bytes. *)
Context (hmac_sha1 : list Z → list Z → list Z).

Definition hotp_binary (digest : list Z) : Z :=
  let offset := Z.land (byte_at digest (Z.of_nat (length digest) - 1)) 15 in
  Z.lor (Z.lor (Z.lor (Z.shiftl (Z.land (byte_at digest offset) 127) 24)
    (Z.shiftl (byte_at digest (offset + 1)) 16))
    (Z.shiftl (byte_at digest (offset + 2)) 8))
    (byte_at digest (offset + 3)).

Definition hotp (secret : list Z) (counter : Z) : outcome string :=
  buffer ← be64 counter;
  Ok (padStart TOTP_DIGITS "0"
    (str_of_Z (hotp_binary (hmac_sha1 secret buffer) mod 10 ^ Z.of_nat TOTP_DIGITS))).

Definition six_digits (code : string) : bool :=
  bool_decide (String.length code = 6%nat) && str_forallb is_digit code.

(** The loop over the drifts, over the steps that are left. *)
Fixpoint try_steps (secret : list Z) (code : string) (lastUsedStep : option Z)
    (steps : list Z) : outcome (option Z) :=
  match steps with
  | [] => Ok None
  | step :: steps =>
      if match lastUsedStep with Some l => step <=? l | None => false end
      then try_steps secret code lastUsedStep steps
      else
        h ← hotp secret step;
        if timingSafeEqualStrings h code then Ok (Some step)
        else try_steps secret code lastUsedStep steps
  end.

(** [now] in milliseconds. *)
Definition current_step (now : Z) : Z := (now `div` 1000) `div` TOTP_PERIOD_SECONDS.

Definition verifyTotp (secretBase32 code : string) (lastUsedStep : option Z)
    (window now : Z) : outcome (option Z) :=
  if negb (six_digits code) then Ok None else
  secret ← base32Decode secretBase32;
  try_steps secret code lastUsedStep (seqZ (current_step now - window) (2 * window + 1)).
End totp.

(** ** Recovery codes *)

Definition RECOVERY_ALPHABET : string := "ABCDEFGHJKLMNPQRSTUVWXYZ23456789".

Definition recovery_char (b : Z) : ascii :=
  default "A"%char (String.get (Z.to_nat (b mod Z.of_nat (String.length RECOVERY_ALPHABET)))
                      RECOVERY_ALPHABET).

Fixpoint str_of_list (cs : list ascii) : string :=
  match cs with [] => "" | c :: cs => Str c (str_of_list cs) end.

(** One code of [generateRecoveryCodes], from its 12 random bytes. *)
Definition recovery_code (bytes : list Z) : string :=
  let chars := str_of_list (recovery_char <$> bytes) in
  slice 0 4 chars +:+ "-" +:+ slice 4 8 chars +:+ "-" +:+ slice 8 12 chars.

Definition normalizeRecoveryCode (input : string) : string :=
  toUpperCase (str_filter (λ c, negb (is_ws c || bool_decide (c = "-"%char))) input).

Definition hashRecoveryCode (sha256hex : string → string) (input : string) : string :=
  sha256hex (normalizeRecoveryCode input).

(** [generateRecoveryCodes]: 12 random bytes for each of the codes. *)
Definition generateRecoveryCodes (random : list (list Z)) : list string :=
  recovery_code <$> random.

(** [generateTotpSecret]: from 20 random bytes. *)
Definition generateTotpSecret (random : list Z) : string := base32Encode random.

(** ** The enrolment link *)

(** The encoding of [URLSearchParams.toString]. *)
Definition form_unreserved (c : ascii) : bool :=
  is_digit c || is_lower c || is_upper c || bool_decide (c ∈ ["-"; "_"; "."; "*"]%char).

Fixpoint form_encode (s : string) : string :=
  match s with
  | EmptyString => EmptyString
  | Str c s =>
      if form_unreserved c then Str c (form_encode s)
      else if bool_decide (c = " "%char) then Str "+"%char (form_encode s)
      else let n := nat_of_ascii c in
           Str "%"%char (Str (hex_digit (n / 16)) (Str (hex_digit (n mod 16)) (form_encode s)))
  end.

Definition form_params (kvs : list (string * string)) : string :=
  join "&" ((λ '(k, v), form_encode k +:+ "=" +:+ form_encode v) <$> kvs).

Definition buildOtpAuthUri (issuer account secret : string) : string :=
  "otpauth://totp/" +:+ encodeURIComponent (issuer +:+ ":" +:+ account) +:+ "?" +:+
  form_params [("secret", secret); ("issuer", issuer); ("algorithm", "SHA1");
               ("digits", str_of_Z (Z.of_nat TOTP_DIGITS));
               ("period", str_of_Z TOTP_PERIOD_SECONDS)].

(** ** The stored secret: AES-256-GCM under a key derived from the configured string *)

(** Node's crypto and base64, on byte strings. *)
Class SecretBox := {
  sha256_bytes : string → string;
  gcm_seal : string → string → string → string * string;        (* key, iv, plain: text, tag *)
  gcm_open : string → string → string → string → outcome string; (* key, iv, tag, text *)
  base64 : string → string;
  unbase64 : string → string;
}.

Class SecretBoxLaws `{SecretBox} := {
  gcm_open_seal key iv plain :
    gcm_open key iv (gcm_seal key iv plain).2 (gcm_seal key iv plain).1 = Ok plain;
  unbase64_base64 s : unbase64 (base64 s) = s;
  base64_no_dot s : str_forallb (λ c, bool_decide (c ≠ "."%char)) (base64 s) = true;
}.

Section secret.
Context `{SecretBox}.

Definition deriveKey (keyMaterial : string) : string := sha256_bytes keyMaterial.

Definition encryptSecret (plain keyMaterial iv : string) : string :=
  let '(encrypted, tag) := gcm_seal (deriveKey keyMaterial) iv plain in
  join "." (base64 <$> [iv; tag; encrypted]).

(** A missing part is [undefined], which Node's crypto refuses. *)
Definition decryptSecret (stored keyMaterial : string) : outcome string :=
  match unbase64 <$> split "."%char stored with
  | iv :: tag :: encrypted :: _ => gcm_open (deriveKey keyMaterial) iv tag encrypted
  | _ => Err (JsError "TypeError")
  end.

Lemma decrypt_encrypt `{!SecretBoxLaws} plain keyMaterial iv :
  decryptSecret (encryptSecret plain keyMaterial iv) keyMaterial = Ok plain.
Proof.
  unfold encryptSecret, decryptSecret.
  pose proof (gcm_open_seal (deriveKey keyMaterial) iv plain) as Hopen.
  destruct (gcm_seal _ _ _) as [encrypted tag]. cbn [fst snd] in Hopen.
  rewrite split_join by (done || (repeat constructor; apply base64_no_dot)).
  cbn. by rewrite !unbase64_base64.
Qed.
End secret.

(** ** Bits, most significant first *)

Fixpoint bitsZ (n : nat) (v : Z) : list bool :=
  match n with O => [] | S n => Z.testbit v (Z.of_nat n) :: bitsZ n v end.

Lemma bitsZ_length n v : length (bitsZ n v) = n.
Proof. induction n; cbn; congruence. Qed.

Lemma bitsZ_ext n v w :
  (∀ i, 0 ≤ i < Z.of_nat n → Z.testbit v i = Z.testbit w i) → bitsZ n v = bitsZ n w.
Proof.
  induction n as [|n IH]; intros Hi; [done|]. cbn. f_equal; [apply Hi; lia|].
  apply IH. intros; apply Hi; lia.
Qed.

Lemma bitsZ_app a b v :
  bitsZ (a + b) v = bitsZ a (Z.shiftr v (Z.of_nat b)) ++ bitsZ b v.
Proof.
  induction a as [|a IH]; [done|]. cbn. rewrite IH. f_equal.
  rewrite Z.shiftr_spec by lia. f_equal. lia.
Qed.

Lemma bitsZ_inj n v w :
  0 ≤ v < 2 ^ Z.of_nat n → 0 ≤ w < 2 ^ Z.of_nat n → bitsZ n v = bitsZ n w → v = w.
Proof.
  intros Hv Hw Heq. rewrite <- (Z.mod_small v (2 ^ Z.of_nat n)) by done.
  rewrite <- (Z.mod_small w (2 ^ Z.of_nat n)) by done.
  apply Z.bits_inj'. intros i Hi. rewrite !Z.testbit_mod_pow2 by lia.
  destruct (Z.ltb_spec i (Z.of_nat n)); [|done]. cbn. clear Hv Hw.
  induction n as [|n IH]; [lia|]. cbn in Heq. injection Heq as Hb Heq.
  destruct (decide (i = Z.of_nat n)) as [->|]; [done|]. apply IH; [done|lia].
Qed.

Lemma bitsZ_land n m v : (n ≤ m)%nat → bitsZ n (Z.land v (Z.ones (Z.of_nat m))) = bitsZ n v.
Proof.
  intros. apply bitsZ_ext. intros i Hi. rewrite Z.land_spec, Z.ones_spec_low by lia.
  apply andb_true_r.
Qed.

(** Appending [k] low bits to a 32-bit value. *)
Lemma bitsZ_push n k v x :
  (n + k ≤ 32)%nat → 0 ≤ x < 2 ^ Z.of_nat k →
  bitsZ (n + k) (Z.lor (shl32 v (Z.of_nat k)) x) = bitsZ n v ++ bitsZ k x.
Proof.
  intros Hnk Hx. rewrite bitsZ_app. f_equal; apply bitsZ_ext; intros i Hi; unfold shl32, u32.
  - rewrite Z.shiftr_spec, Z.lor_spec, Z.testbit_mod_pow2 by lia.
    rewrite (proj2 (Z.ltb_lt _ _)), Z.shiftl_spec by lia.
    replace (i + Z.of_nat k - Z.of_nat k) with i by lia.
    destruct (decide (x = 0)) as [->|]; [by rewrite Z.testbit_0_l, orb_false_r|].
    rewrite (Z.bits_above_log2 x); [by rewrite orb_false_r|lia|].
    apply Z.log2_lt_pow2; [lia|]. eapply Z.lt_le_trans; [apply Hx|].
    apply Z.pow_le_mono_r; lia.
  - rewrite Z.lor_spec, Z.testbit_mod_pow2, Z.shiftl_spec by lia.
    rewrite (Z.testbit_neg_r v) by lia. by rewrite andb_false_r.
Qed.

(** ** base32 round trip *)

Lemma index_of_char i : 0 ≤ i < 32 → index_of (b32_char i) BASE32 0 = Some i.
Proof.
  intros Hi. assert (Hall : Forall (λ i, index_of (b32_char i) BASE32 0 = Some i) (seqZ 0 32)).
  { apply (bool_decide_unpack _). by vm_compute. }
  apply (proj1 (Forall_forall _ _) Hall). by apply elem_of_seqZ.
Qed.

Definition b32_index (i : Z) : Prop := 0 ≤ i < 32.

Lemma land31_index v : b32_index (Z.land v 31).
Proof. unfold b32_index. change 31 with (Z.ones 5). rewrite Z.land_ones by lia. by apply Z.mod_pos_bound. Qed.

#[local] Arguments b32_char : simpl never.

Definition indices_str (idx : list Z) : string := str_of_list (b32_char <$> idx).

Lemma indices_str_app a b : indices_str (a ++ b) = indices_str a +:+ indices_str b.
Proof. induction a as [|i a IH]; [done|]. cbn. unfold indices_str in IH. by rewrite IH. Qed.

(** The 5-bit groups of a list of indices. *)
Definition groups (k : nat) (xs : list Z) : list bool := xs ≫= bitsZ k.

Lemma b32_drain_spec fuel bits value :
  0 ≤ bits < 5 * Z.of_nat fuel →
  ∃ idx bits', b32_drain fuel bits value = (indices_str idx, bits') ∧ Forall b32_index idx ∧
    0 ≤ bits' < 5 ∧
    groups 5 idx ++ bitsZ (Z.to_nat bits') value = bitsZ (Z.to_nat bits) value.
Proof.
  revert bits. induction fuel as [|fuel IH]; intros bits Hb; [lia|]. cbn [b32_drain].
  destruct (Z.leb_spec 5 bits) as [H5|H5].
  - destruct (IH (bits - 5)) as (idx&bits'&->&Hidx&Hb'&Hg); [lia|].
    exists (Z.land (Z.shiftr value (bits - 5)) 31 :: idx), bits'.
    split_and!; [done|constructor; [apply land31_index|done]|lia|lia|].
    change (groups 5 (Z.land (Z.shiftr value (bits - 5)) 31 :: idx))
      with (bitsZ 5 (Z.land (Z.shiftr value (bits - 5)) 31) ++ groups 5 idx).
    rewrite <- app_assoc, Hg. change 31 with (Z.ones (Z.of_nat 5)).
    rewrite bitsZ_land by lia.
    replace (Z.to_nat bits) with (5 + Z.to_nat (bits - 5))%nat by lia.
    rewrite bitsZ_app. by rewrite Z2Nat.id by lia.
  - exists [], bits. by split_and!; [|constructor|lia|lia|].
Qed.

Definition is_byte (b : Z) : Prop := 0 ≤ b < 256.

Lemma b32_bytes_spec bs bits value :
  Forall is_byte bs → 0 ≤ bits < 5 →
  ∃ idx bits' value', b32_bytes bs bits value = (indices_str idx, (bits', value')) ∧
    Forall b32_index idx ∧ 0 ≤ bits' < 5 ∧
    groups 5 idx ++ bitsZ (Z.to_nat bits') value' =
      bitsZ (Z.to_nat bits) value ++ groups 8 bs.
Proof.
  intros Hbs. revert bits value. induction Hbs as [|b bs Hb Hbs IH]; intros bits value Hbits.
  - exists [], bits, value. split_and!; [done|constructor|lia|lia|]. cbn. by rewrite app_nil_r.
  - cbn [b32_bytes]. set (v := Z.lor (shl32 value 8) b).
    destruct (b32_drain_spec 3 (bits + 8) v) as (i1&b1&->&Hi1&Hb1&Hg1); [lia|].
    destruct (IH b1 v Hb1) as (i2&b2&v2&->&Hi2&Hb2&Hg2).
    exists (i1 ++ i2), b2, v2. split_and!; [by rewrite indices_str_app|by apply Forall_app|lia|lia|].
    unfold groups in *. rewrite bind_app, <- app_assoc, Hg2, app_assoc, Hg1.
    replace (Z.to_nat (bits + 8)) with (Z.to_nat bits + 8)%nat by lia.
    unfold v. change (shl32 value 8) with (shl32 value (Z.of_nat 8)).
    rewrite bitsZ_push by (try lia; exact Hb). by rewrite <- app_assoc.
Qed.

Lemma groups_inj k xs ys :
  (0 < k)%nat → Forall (λ x, 0 ≤ x < 2 ^ Z.of_nat k) xs → Forall (λ x, 0 ≤ x < 2 ^ Z.of_nat k) ys →
  ∀ p r, groups k xs ++ p = groups k ys ++ r → (length p < k)%nat → (length r < k)%nat → xs = ys.
Proof.
  intros Hk Hxs. revert ys. induction Hxs as [|x xs Hx Hxs IH]; intros ys Hys p r Heq Hp Hr.
  - destruct ys as [|y ys]; [done|]. apply (f_equal length) in Heq. cbn in Heq.
    rewrite !length_app, bitsZ_length in Heq. lia.
  - destruct ys as [|y ys].
    { apply (f_equal length) in Heq. cbn in Heq. rewrite !length_app, bitsZ_length in Heq. lia. }
    apply Forall_cons in Hys as [Hy Hys].
    change (groups k (x :: xs)) with (bitsZ k x ++ groups k xs) in Heq.
    change (groups k (y :: ys)) with (bitsZ k y ++ groups k ys) in Heq.
    rewrite <- !app_assoc in Heq. apply app_inj_1 in Heq as [Hxy Heq]; [|by rewrite !bitsZ_length].
    f_equal; [by eapply bitsZ_inj|by eapply IH].
Qed.

Lemma b32_chars_spec idx bits value :
  Forall b32_index idx → 0 ≤ bits < 8 →
  ∃ bs rest, b32_chars (indices_str idx) bits value = Ok bs ∧ Forall is_byte bs ∧
    (length rest < 8)%nat ∧
    groups 8 bs ++ rest = bitsZ (Z.to_nat bits) value ++ groups 5 idx.
Proof.
  intros Hidx. revert bits value. induction Hidx as [|i idx Hi Hidx IH]; intros bits value Hb.
  - exists [], (bitsZ (Z.to_nat bits) value). split_and!; [done|constructor| |].
    + rewrite bitsZ_length. lia.
    + cbn. by rewrite app_nil_r.
  - change (indices_str (i :: idx)) with (Str (b32_char i) (indices_str idx)).
    cbn [b32_chars]. rewrite index_of_char by done.
    set (v := Z.lor (shl32 value 5) i).
    assert (Hv : bitsZ (Z.to_nat bits + 5) v = bitsZ (Z.to_nat bits) value ++ bitsZ 5 i).
    { unfold v. apply (bitsZ_push (Z.to_nat bits) 5 value i); [lia|exact Hi]. }
    change (groups 5 (i :: idx)) with (bitsZ 5 i ++ groups 5 idx).
    rewrite app_assoc, <- Hv.
    destruct (Z.leb_spec 8 (bits + 5)).
    + destruct (IH (bits + 5 - 8) v) as (bs&rest&->&Hbs&Hrest&Hg); [lia|].
      exists (Z.land (Z.shiftr v (bits + 5 - 8)) 255 :: bs), rest.
      split_and!; [done| |done|].
      * constructor; [|done]. unfold is_byte. change 255 with (Z.ones 8).
        rewrite Z.land_ones by lia. by apply Z.mod_pos_bound.
      * change (groups 8 (Z.land (Z.shiftr v (bits + 5 - 8)) 255 :: bs))
          with (bitsZ 8 (Z.land (Z.shiftr v (bits + 5 - 8)) 255) ++ groups 8 bs).
        rewrite <- app_assoc, Hg, app_assoc. f_equal.
        change 255 with (Z.ones (Z.of_nat 8)). rewrite bitsZ_land by lia.
        replace (Z.to_nat bits + 5)%nat with (8 + Z.to_nat (bits + 5 - 8))%nat by lia.
        rewrite bitsZ_app. by rewrite Z2Nat.id by lia.
    + destruct (IH (bits + 5) v) as (bs&rest&->&Hbs&Hrest&Hg); [lia|].
      exists bs, rest. split_and!; try done. rewrite Hg. do 2 f_equal. lia.
Qed.

Lemma indices_str_clean idx : Forall b32_index idx → b32_clean (indices_str idx) = indices_str idx.
Proof.
  intros Hidx.
  assert (Hin : ∀ i, b32_index i → bool_decide (b32_char i = "="%char) = false ∧
    is_ws (b32_char i) = false ∧ upper_char (b32_char i) = b32_char i).
  { intros i Hi. assert (Hall : Forall (λ i, bool_decide (b32_char i = "="%char) = false ∧
      is_ws (b32_char i) = false ∧ upper_char (b32_char i) = b32_char i) (seqZ 0 32)).
    { apply (bool_decide_unpack _). by vm_compute. }
    apply (proj1 (Forall_forall _ _) Hall). by apply elem_of_seqZ. }
  unfold b32_clean. rewrite drop_while_end_id, str_filter_id.
  - apply str_map_id. induction Hidx as [|i idx Hi _ IH]; [done|]. cbn.
    rewrite bool_decide_eq_true_2 by apply Hin, Hi. exact IH.
  - induction Hidx as [|i idx Hi _ IH]; [done|]. cbn. destruct (Hin i Hi) as (_&->&_). exact IH.
  - induction Hidx as [|i idx Hi _ IH]; [done|]. cbn. destruct (Hin i Hi) as (->&_). exact IH.
Qed.

(** The last character: the pending bits, then zeros. *)
Lemma bitsZ_pad n v :
  0 ≤ n < 5 →
  bitsZ 5 (Z.land (shl32 v (5 - n)) 31) =
  bitsZ (Z.to_nat n) v ++ bitsZ (Z.to_nat (5 - n)) 0.
Proof.
  intros Hn. change 31 with (Z.ones (Z.of_nat 5)). rewrite bitsZ_land by lia.
  pose proof (bitsZ_push (Z.to_nat n) (Z.to_nat (5 - n)) v 0 ltac:(lia)) as Hp.
  rewrite Z2Nat.id, Z.lor_0_r in Hp by lia.
  replace (Z.to_nat n + Z.to_nat (5 - n))%nat with 5%nat in Hp by lia.
  apply Hp. split; [lia|]. apply Z.pow_pos_nonneg; lia.
Qed.

Lemma base32Encode_indices bs :
  Forall is_byte bs →
  ∃ idx pad, base32Encode bs = indices_str idx ∧ Forall b32_index idx ∧
    (length pad < 5)%nat ∧ groups 5 idx = groups 8 bs ++ pad.
Proof.
  intros Hbs. unfold base32Encode.
  destruct (b32_bytes_spec bs 0 0 Hbs ltac:(lia)) as (idx&bits&value&->&Hidx&Hbits&Hg).
  cbn in Hg. destruct (Z.ltb_spec 0 bits) as [Hpos|Hz].
  - set (i := Z.land (shl32 value (5 - bits)) 31).
    exists (idx ++ [i]), (bitsZ (Z.to_nat (5 - bits)) 0). split_and!.
    + by rewrite indices_str_app.
    + apply Forall_app. split; [done|]. by repeat constructor; apply land31_index.
    + rewrite bitsZ_length. lia.
    + unfold groups at 1. rewrite bind_app. fold (groups 5 idx).
      change ([i] ≫= bitsZ 5) with (bitsZ 5 i ++ []). unfold i.
      rewrite app_nil_r, bitsZ_pad by lia. by rewrite app_assoc, Hg.
  - exists idx, []. assert (bits = 0) as -> by lia. cbn in Hg.
    split_and!; [done|done|cbn; lia|]. rewrite app_nil_r in Hg. by rewrite app_nil_r.
Qed.

(** Decoding the base32 text of a secret gives the secret back, whatever
    its length in bytes, on the 32-bit arithmetic of both loops. *)
Theorem base32_roundtrip bs :
  Forall is_byte bs → base32Decode (base32Encode bs) = Ok bs.
Proof.
  intros Hbs. destruct (base32Encode_indices bs Hbs) as (idx&pad&->&Hidx&Hpad&Hg).
  unfold base32Decode. rewrite indices_str_clean by done.
  destruct (b32_chars_spec idx 0 0 Hidx ltac:(lia)) as (bs'&rest&->&Hbs'&Hrest&Hg').
  f_equal. cbn in Hg'. eapply (groups_inj 8); [lia|done|done|by rewrite Hg', Hg|lia|lia].
Qed.

Lemma base32_roundtrip_witness :
  base32Encode [0; 255; 16; 7] = "AD7RABY" ∧
  base32Decode (base32Encode [0; 255; 16; 7]) = Ok [0; 255; 16; 7].
Proof.
  split; [by vm_compute|]. apply base32_roundtrip. repeat constructor; unfold is_byte; lia.
Defined.

(** ** The comparison and the window *)

Lemma nat_of_ascii_inj a b : nat_of_ascii a = nat_of_ascii b → a = b.
Proof. intros H. by rewrite <- (ascii_nat_embedding a), H, ascii_nat_embedding. Qed.

Lemma diff_bits_zero a b d :
  String.length a = String.length b → diff_bits a b d = 0 ↔ d = 0 ∧ a = b.
Proof.
  revert b d. induction a as [|x a IH]; intros [|y b] d Hlen; cbn in *; [naive_solver|done..|].
  rewrite IH by lia. rewrite Z.lor_eq_0_iff, Z.lxor_eq_0_iff. split.
  - intros [[-> Hxy] ->]. split; [done|]. f_equal. apply nat_of_ascii_inj. lia.
  - by intros [-> [= -> ->]].
Qed.

Lemma timingSafeEqualStrings_eq a b : timingSafeEqualStrings a b = bool_decide (a = b).
Proof.
  unfold timingSafeEqualStrings. destruct (Nat.eqb_spec (String.length a) (String.length b)) as [Hl|Hl].
  - cbn. apply eq_true_iff_eq. rewrite Z.eqb_eq, bool_decide_eq_true, diff_bits_zero by done.
    naive_solver.
  - cbn. symmetry. apply bool_decide_eq_false. intros ->. done.
Qed.

Section totp_props.
Context (hmac_sha1 : list Z → list Z → list Z).

(** A step the code may be accepted for: in the window, after the last used
    one, and its password is the code. *)
Definition acceptable (secret : list Z) (code : string) (lastUsedStep : option Z)
    (window now step : Z) : Prop :=
  current_step now - window ≤ step ≤ current_step now + window ∧
  (∀ l, lastUsedStep = Some l → l < step) ∧
  six_digits code = true ∧ hotp hmac_sha1 secret step = Ok code.

Lemma try_steps_spec secret code lastUsed first n :
  0 ≤ first → first + Z.of_nat n ≤ 2 ^ 64 →
  ∃ r, try_steps hmac_sha1 secret code lastUsed (seqZ first (Z.of_nat n)) = Ok r ∧
    let ok s := (∀ l, lastUsed = Some l → l < s) ∧ hotp hmac_sha1 secret s = Ok code in
    match r with
    | Some step => first ≤ step < first + Z.of_nat n ∧ ok step ∧
                   ∀ s, first ≤ s < step → ¬ ok s
    | None => ∀ s, first ≤ s < first + Z.of_nat n → ¬ ok s
    end.
Proof.
  revert first. induction n as [|n IH]; intros first Hf Hn.
  { exists None. split; [done|]. lia. }
  rewrite seqZ_cons by lia. cbn [try_steps].
  destruct (IH (first + 1)) as (r&Hr&Hspec); [lia..|].
  replace (Z.pred (Z.of_nat (S n))) with (Z.of_nat n) by lia.
  replace (Z.succ first) with (first + 1) by lia.
  set (ok := λ s, (∀ l, lastUsed = Some l → l < s) ∧ hotp hmac_sha1 secret s = Ok code) in *.
  assert (Hskip : ¬ ok first → ∃ r, try_steps hmac_sha1 secret code lastUsed
      (seqZ (first + 1) (Z.of_nat n)) = Ok r ∧
    match r with
    | Some step => first ≤ step < first + Z.of_nat (S n) ∧ ok step ∧
                   ∀ s, first ≤ s < step → ¬ ok s
    | None => ∀ s, first ≤ s < first + Z.of_nat (S n) → ¬ ok s
    end).
  { intros Hno. exists r. split; [done|]. cbn in Hspec. destruct r as [step|].
    - destruct Hspec as (?&?&Hleast). split_and!; [lia|lia|done|].
      intros s Hs. destruct (decide (s = first)) as [->|Hne]; [done|]. apply Hleast. lia.
    - intros s Hs. destruct (decide (s = first)) as [->|]; [done|]. apply Hspec. lia. }
  destruct (match lastUsed with Some l => first <=? l | None => false end) eqn:Hl.
  { apply Hskip. intros [Hlast _]. destruct lastUsed as [l|]; [|done].
    specialize (Hlast l eq_refl). apply Z.leb_le in Hl. lia. }
  assert (Hlast : ∀ l, lastUsed = Some l → l < first).
  { intros l ->. apply Z.leb_gt in Hl. lia. }
  destruct (hotp hmac_sha1 secret first) as [h|e] eqn:Hh; cbn [mbind outcome_bind].
  2: { exfalso. revert Hh. unfold hotp, be64.
       by rewrite (proj2 (Z.leb_le 0 first)), (proj2 (Z.ltb_lt first (2 ^ 64))) by lia. }
  rewrite timingSafeEqualStrings_eq. case_bool_decide as Hc.
  - exists (Some first). split; [done|]. subst h. split; [lia|].
    split; [by split|lia].
  - apply Hskip. intros [_ Hc']. congruence.
Qed.

(** [verifyTotp] accepts exactly a six-digit code that is the password of
    a step of the window later than the last used one, and answers the first
    such step; so a code whose step was stored is never accepted again. *)
Theorem verifyTotp_exact secret32 secret code lastUsed window now :
  base32Decode secret32 = Ok secret →
  0 ≤ window ≤ current_step now → current_step now + window < 2 ^ 64 →
  ∃ r, verifyTotp hmac_sha1 secret32 code lastUsed window now = Ok r ∧
    match r with
    | Some step => acceptable secret code lastUsed window now step ∧
                   ∀ s, acceptable secret code lastUsed window now s → step ≤ s
    | None => ∀ s, ¬ acceptable secret code lastUsed window now s
    end.
Proof.
  intros Hdec Hw Hbig. unfold verifyTotp, acceptable.
  destruct (six_digits code) eqn:Hsix; cbn [negb].
  2: { exists None. split; [done|]. by intros s (_&_&?&_). }
  rewrite Hdec. cbn [mbind outcome_bind].
  destruct (try_steps_spec secret code lastUsed (current_step now - window)
    (Z.to_nat (2 * window + 1))) as (r&Hr&Hspec); [lia..|].
  rewrite Z2Nat.id in * by lia. exists r. split; [done|]. destruct r as [step|].
  - destruct Hspec as (Hs&[Hlast Hh]&Hleast). split; [split_and!; done || lia|].
    intros s (Hin&Hl&_&Hhs). destruct (Z.le_gt_cases step s) as [|Hlt]; [done|].
    destruct (Hleast s); [lia|done].
  - intros s (Hin&Hl&_&Hhs). destruct (Hspec s); [lia|done].
Qed.
End totp_props.

(** A digest whose truncation is its counter, for concrete runs. *)
Definition demo_hmac (secret data : list Z) : list Z :=
  [0; 0; 0] ++ drop 7 data ++ replicate 15 0 ++ [0].

Lemma verifyTotp_exact_witness :
  (∃ r, verifyTotp demo_hmac "AD7RABY" "000101" (Some 100) 1 3000000 = Ok r ∧ r = Some 101) ∧
  (∃ r, verifyTotp demo_hmac "AD7RABY" "000100" (Some 100) 1 3000000 = Ok r ∧ r = None).
Proof.
  split.
  - destruct (verifyTotp_exact demo_hmac "AD7RABY" [0; 255; 16; 7] "000101" (Some 100) 1 3000000)
      as (r&Hr&_); [by vm_compute|by vm_compute|by vm_compute|].
    exists r. split; [exact Hr|]. vm_compute in Hr. congruence.
  - destruct (verifyTotp_exact demo_hmac "AD7RABY" [0; 255; 16; 7] "000100" (Some 100) 1 3000000)
      as (r&Hr&_); [by vm_compute|by vm_compute|by vm_compute|].
    exists r. split; [exact Hr|]. vm_compute in Hr. congruence.
Defined.
