(* ===== verification/AuthModel.v ===== *)
(** * Accounts: tables, configuration and world

    The tables the authentication code works on (prisma/schema/user.prisma,
    session.prisma, user-otp.prisma, two-factor.prisma), the code of other
    packages it calls, and the statements it makes on the tables. *)

From S2P Require Import Prelude Js Redis Cache Roles TwoFactor.

Open Scope Z_scope.

(** ** Tables *)

Inductive UserOtpPurpose :=
| email_verification | phone_verification | password_reset | password_change
| login_2fa | admin_verification | admin_invite_activation | promotion_verification
| phone_change | account_reactivation.

Inductive OtpChannel := sms | email.

Inductive TwoFactorMethod := TOTP | SMS.

Inductive ChallengePurpose := LOGIN | STEP_UP.

#[export] Instance UserOtpPurpose_eq_dec : EqDecision UserOtpPurpose.
Proof. solve_decision. Defined.
#[export] Instance OtpChannel_eq_dec : EqDecision OtpChannel.
Proof. solve_decision. Defined.
#[export] Instance TwoFactorMethod_eq_dec : EqDecision TwoFactorMethod.
Proof. solve_decision. Defined.
#[export] Instance ChallengePurpose_eq_dec : EqDecision ChallengePurpose.
Proof. solve_decision. Defined.

Definition purpose_name (p : UserOtpPurpose) : string :=
  match p with
  | email_verification => "email_verification"
  | phone_verification => "phone_verification"
  | password_reset => "password_reset"
  | password_change => "password_change"
  | login_2fa => "login_2fa"
  | admin_verification => "admin_verification"
  | admin_invite_activation => "admin_invite_activation"
  | promotion_verification => "promotion_verification"
  | phone_change => "phone_change"
  | account_reactivation => "account_reactivation"
  end.
Definition channel_name (c : OtpChannel) : string :=
  match c with sms => "sms" | email => "email" end.

(** A role of a user, with the names of its permissions. *)
Record UserRole := { ur_name : string; ur_permissions : list string }.

Record User := {
  u_id : string;
  u_name : option string;
  u_phone : option string;
  u_email : option string;
  u_isActive : bool;
  u_isPhoneVerified : bool;
  u_passwordHash : option string;
  u_failedLoginAttempts : Z;
  u_lockedUntil : option Z;
  u_discreetModeEnabled : bool;
  u_discreetModePasscodeHash : option string;
  u_userRoles : list UserRole;
  u_isEmailVerified : bool;
  u_pendingEmail : option string;
  u_inviteTokenHash : option string;
  u_inviteTokenExpiresAt : option Z;
  u_deletedAt : option Z;
  u_anonymizedAt : option Z;
  u_googleId : option string;
  u_facebookId : option string;
  u_appleId : option string;
  u_twoFactorRequiredAt : option Z;
  u_pendingPhone : option string;
}.

Record UserOtp := {
  o_id : string;
  o_userId : string;
  o_purpose : UserOtpPurpose;
  o_channel : OtpChannel;
  o_otpHash : string;
  o_expiresAt : Z;
  o_attempts : Z;
  o_usedAt : option Z;
  o_createdAt : Z;
}.

Record Session := {
  s_id : string;
  s_userId : string;
  s_refreshToken : string;
  s_expiresAt : Z;
  s_revokedAt : option Z;
  s_ipAddress : option string;
  s_userAgent : option string;
  s_deviceLabel : option string;
  s_lastActiveAt : option Z;
}.

(** Keyed by its user: [userId] is unique. *)
Record TwoFactorSecret := {
  ts_method : TwoFactorMethod;
  ts_secretEncrypted : string;
  ts_isEnabled : bool;
  ts_lastUsedStep : option Z;
}.

Record RecoveryCode := {
  rc_id : string;
  rc_userId : string;
  rc_codeHash : string;
  rc_usedAt : option Z;
}.

Record Challenge := {
  ch_id : string;
  ch_userId : string;
  ch_purpose : ChallengePurpose;
  ch_methods : list TwoFactorMethod;
  ch_smsCodeHash : option string;
  ch_attempts : Z;
  ch_expiresAt : Z;
  ch_consumedAt : option Z;
  ch_ipAddress : option string;
}.

(** ** Tokens *)

Record JwtPayload := {
  jp_sub : string;
  jp_phone : option string;
  jp_email : option string;
  jp_roles : list string;
  jp_permissions : list string;
  jp_type : option string;
  jp_sid : option string;
  jp_jti : option string;
  jp_action : option string;
}.

Record TokenPair := { accessToken : string; refreshToken : string }.

(** ** What the code calls in other packages: random identifiers (never the
    same one twice), bcrypt, JSON web tokens and Node's HMACs *)
Class AuthLib := {
  uuid : nat → string;
  random_otp : nat → Z;                          (* randomInt(100000, 1000000) *)
  random_token : nat → string;                   (* randomBytes(32).toString('hex') *)
  random_bytes : nat → nat → list Z;             (* the draw, how many *)
  bcrypt_compare : string → string → bool;       (* data, hash *)
  bcrypt_hash : string → Z → nat → string;       (* data, rounds, the random salt's draw *)
  jwt_sign : JwtPayload → string → string → Z → string;   (* secret, expiresIn, iat *)
  jwt_verify : string → string → Z → option JwtPayload;
  hmac_hex : string → string → string;           (* secret, data *)
  sha256_hex : string → string;
  hmac_sha1 : list Z → list Z → list Z;
}.

(** ** Configuration *)

Record AuthConfig := {
  c_maxLoginAttempts : Z;
  c_lockoutDurationMinutes : Z;
  c_maxReauthAttempts : Z;
  c_otp_resendCooldownSeconds : Z;
  c_otp_expiresInMinutes : Z;
  c_otp_maxAttempts : Z;
  c_bcryptSaltRounds : Z;
  c_bcryptOtpSaltRounds : Z;
  c_twoFactor_smsEnabled : bool;
  c_twoFactor_key : string;
  c_jwt_secret : string;
  c_jwt_refreshSecret : option string;
  c_jwt_registrationSecret : option string;
  c_jwt_expiresIn : string;
  c_jwt_refreshExpiresIn : string;
  c_appName : string;
  c_keyPrefix : string;
  c_adminUrl : string;
  c_adminPasswordMinLength : nat;
  c_passwordMinLength : nat;
  c_twoFactor_issuer : string;
}.

(** ** Emitted events and messages *)

Record AuthAudit := {
  aa_userId : option string;
  aa_targetUserId : option string;
  aa_actorType : ActorType;
  aa_action : string;
  aa_outcome : option string;
  aa_severity : option string;
  aa_entity : string;
  aa_entityId : option string;
  aa_entityLabel : option string;
  aa_diff : list (string * json);
  aa_metadata : list (string * json);
}.

(** The arguments of the e-mails to administrators. *)
Inductive AdminEmail :=
| RegistrationEmail (link : string) (expiresInHours : Z)
| PromotionEmail (link : string) (expiresInHours : Z)
| EmailChangeEmail (link : string) (expiresInHours : Z)
| PasswordSuccessEmail (kind : string) (occurredAt : Z) (recipientName : option string).

Inductive auth_event :=
| AuthAudited (a : AuthAudit)
| SmsSent (phone message : string)
| OtpEmailSent (to : string) (adminPurpose : option UserOtpPurpose) (otp : string)
    (expiresInMinutes : Z) (recipientName : option string)
| AdminEmailSent (to : string) (mail : AdminEmail)
| PasswordNotice (kind userId : string)
| SecurityAlert (userId reason : string).

(** ** The world *)

Record AuthW := {
  aw_users : gmap string User;
  aw_otps : gmap string UserOtp;
  aw_sessions : gmap string Session;
  aw_secrets : gmap string TwoFactorSecret;      (* by user *)
  aw_codes : gmap string RecoveryCode;
  aw_challenges : gmap string Challenge;
  aw_roles : gmap string (list string);          (* permissions of a role, by its name *)
  aw_events : list auth_event;                   (* newest first *)
  aw_delivered : list bool;                      (* which of the next messages get through *)
  aw_draws : nat;                                (* random draws made *)
  aw_ppm : list Z;
  aw_now : Z;
  aw_redis : RedisSt;
  aw_secredis : RedisSt;
  aw_cache : CacheSt;
}.

Definition set_tables users otps sessions secrets codes challenges (w : AuthW) : AuthW := {|
  aw_users := users; aw_otps := otps; aw_sessions := sessions; aw_secrets := secrets;
  aw_codes := codes; aw_challenges := challenges; aw_roles := aw_roles w;
  aw_events := aw_events w;
  aw_delivered := aw_delivered w; aw_draws := aw_draws w; aw_ppm := aw_ppm w;
  aw_now := aw_now w; aw_redis := aw_redis w; aw_secredis := aw_secredis w;
  aw_cache := aw_cache w |}.
Definition set_users f w :=
  set_tables (f (aw_users w)) (aw_otps w) (aw_sessions w) (aw_secrets w) (aw_codes w)
    (aw_challenges w) w.
Definition set_otps f w :=
  set_tables (aw_users w) (f (aw_otps w)) (aw_sessions w) (aw_secrets w) (aw_codes w)
    (aw_challenges w) w.
Definition set_sessions f w :=
  set_tables (aw_users w) (aw_otps w) (f (aw_sessions w)) (aw_secrets w) (aw_codes w)
    (aw_challenges w) w.
Definition set_secrets f w :=
  set_tables (aw_users w) (aw_otps w) (aw_sessions w) (f (aw_secrets w)) (aw_codes w)
    (aw_challenges w) w.
Definition set_codes f w :=
  set_tables (aw_users w) (aw_otps w) (aw_sessions w) (aw_secrets w) (f (aw_codes w))
    (aw_challenges w) w.
Definition set_challenges f w :=
  set_tables (aw_users w) (aw_otps w) (aw_sessions w) (aw_secrets w) (aw_codes w)
    (f (aw_challenges w)) w.

(** Everything that is not a table or the clock. *)
Definition set_rest events delivered draws ppm redis secredis cache (w : AuthW) : AuthW := {|
  aw_users := aw_users w; aw_otps := aw_otps w; aw_sessions := aw_sessions w;
  aw_secrets := aw_secrets w; aw_codes := aw_codes w; aw_challenges := aw_challenges w;
  aw_roles := aw_roles w; aw_events := events; aw_delivered := delivered; aw_draws := draws; aw_ppm := ppm;
  aw_now := aw_now w; aw_redis := redis; aw_secredis := secredis; aw_cache := cache |}.
Definition push_event (e : auth_event) (w : AuthW) : AuthW :=
  set_rest (e :: aw_events w) (aw_delivered w) (aw_draws w) (aw_ppm w) (aw_redis w)
    (aw_secredis w) (aw_cache w) w.

#[export] Instance AuthW_redis : HasRedis AuthW := {|
  redis_of c w := match c with CacheConn => aw_redis w | SecConn => aw_secredis w end;
  with_redis c r w :=
    match c with
    | CacheConn => set_rest (aw_events w) (aw_delivered w) (aw_draws w) (aw_ppm w) r
                     (aw_secredis w) (aw_cache w) w
    | SecConn => set_rest (aw_events w) (aw_delivered w) (aw_draws w) (aw_ppm w) (aw_redis w)
                   r (aw_cache w) w
    end;
  now_of := aw_now;
|}.

Definition draw (w : AuthW) : nat * AuthW :=
  (aw_draws w,
   set_rest (aw_events w) (aw_delivered w) (S (aw_draws w)) (aw_ppm w) (aw_redis w)
     (aw_secredis w) (aw_cache w) w).

#[export] Instance AuthW_cache `{AuthLib} : HasCache AuthW := {|
  cache_of := aw_cache;
  with_cache cs w := set_rest (aw_events w) (aw_delivered w) (aw_draws w) (aw_ppm w)
    (aw_redis w) (aw_secredis w) cs w;
  next_random w := (hd 0 (aw_ppm w),
    set_rest (aw_events w) (aw_delivered w) (aw_draws w) (tail (aw_ppm w)) (aw_redis w)
      (aw_secredis w) (aw_cache w) w);
  next_token w := (uuid (draw w).1, (draw w).2);
|}.

#[export] Instance AuthW_redis_laws : RedisLaws AuthW.
Proof. split; [by intros []..| |]; intros []; intros []; done. Qed.
#[export] Instance AuthW_cache_laws `{AuthLib} : CacheLaws AuthW.
Proof. by split; try intros []; intros. Qed.

(** ** Transactions: an exception undoes the tables, not what was emitted or drawn *)
Definition rollback (w w' : AuthW) : AuthW :=
  set_tables (aw_users w) (aw_otps w) (aw_sessions w) (aw_secrets w) (aw_codes w)
    (aw_challenges w) w'.
Definition tx {A} (p : prog AuthW A) : prog AuthW A :=
  act_outcome (λ w,
    match run p w with
    | (Ok a, w') => (Ok a, w')
    | (Err e, w') => (Err e, rollback w w')
    end).

(** ** Statements *)

Section statements.
Context `{AuthLib}.

Definition now : prog AuthW Z := gets aw_now.
Definition emitAudit (a : AuthAudit) : prog AuthW () := modify (push_event (AuthAudited a)).
Definition randomUUID : prog AuthW string := act (λ w, (uuid (draw w).1, (draw w).2)).

(** [user.findUnique], by id or by phone. *)
Definition user_by_id (id : string) : prog AuthW (option User) :=
  gets (λ w, aw_users w !! id).
Definition user_by_phone (phone : string) : prog AuthW (option User) :=
  gets (λ w, find_row (λ u, bool_decide (u_phone u = Some phone)) (aw_users w)).

(** [user.update({ where: { id } })] that returns the row: P2025 without it. *)
Definition P2025 : exn := PrismaKnown "P2025" [].
Definition user_update (id : string) (upd : Z → User → User) : prog AuthW User :=
  act_outcome (λ w,
    match aw_users w !! id with
    | Some u => (Ok (upd (aw_now w) u), set_users (insert id (upd (aw_now w) u)) w)
    | None => (Err P2025, w)
    end).

(** [userOtp.findUnique] with its user. *)
Definition otp_with_user (id : string) : prog AuthW (option (UserOtp * User)) :=
  gets (λ w,
    match aw_otps w !! id with
    | Some o => match aw_users w !! o_userId o with Some u => Some (o, u) | None => None end
    | None => None
    end).

(** [userOtp.update({ where: { id } })] *)
Definition otp_update (id : string) (upd : UserOtp → UserOtp) : prog AuthW UserOtp :=
  act_outcome (λ w,
    match aw_otps w !! id with
    | Some o => (Ok (upd o), set_otps (insert id (upd o)) w)
    | None => (Err P2025, w)
    end).

(** [userOtp.updateMany({ where: { id, P } })]: the count. *)
Definition otp_claim (id : string) (P : Z → UserOtp → bool) (upd : Z → UserOtp → UserOtp)
    : prog AuthW Z :=
  act (λ w,
    match aw_otps w !! id with
    | Some o => if P (aw_now w) o
                then (1, set_otps (insert id (upd (aw_now w) o)) w) else (0, w)
    | None => (0, w)
    end).

Definition session_claim (id : string) (P : Session → bool) (upd : Z → Session → Session)
    : prog AuthW Z :=
  act (λ w,
    match aw_sessions w !! id with
    | Some s => if P s then (1, set_sessions (insert id (upd (aw_now w) s)) w) else (0, w)
    | None => (0, w)
    end).

(** [session.updateMany({ where: P })] over the whole table. *)
Definition session_updateMany (P : Session → bool) (upd : Z → Session → Session)
    : prog AuthW Z :=
  act (λ w,
    (Z.of_nat (size (filter (λ '(_, s), P s = true) (aw_sessions w))),
     set_sessions (fmap (λ s, if P s then upd (aw_now w) s else s)) w)).

(** [session.create]: the primary key is unique. *)
Definition session_create (mk : Z → Session) : prog AuthW () :=
  act_outcome (λ w,
    let s := mk (aw_now w) in
    if bool_decide (is_Some (aw_sessions w !! s_id s))
    then (Err (PrismaKnown "P2002" ["id"]), w)
    else (Ok (), set_sessions (insert (s_id s) s) w)).

(** [session.deleteMany({ where: P })]: the count. *)
Definition session_deleteMany (P : Session → bool) : prog AuthW Z :=
  act (λ w,
    (Z.of_nat (size (filter (λ '(_, s), P s = true) (aw_sessions w))),
     set_sessions (filter (λ '(_, s), P s = false)) w)).

Definition secret_by_user (userId : string) : prog AuthW (option TwoFactorSecret) :=
  gets (λ w, aw_secrets w !! userId).

Definition secret_updateMany (userId : string) (P : TwoFactorSecret → bool)
    (upd : TwoFactorSecret → TwoFactorSecret) : prog AuthW Z :=
  act (λ w,
    match aw_secrets w !! userId with
    | Some s => if P s then (1, set_secrets (insert userId (upd s)) w) else (0, w)
    | None => (0, w)
    end).

Definition secret_update (userId : string) (upd : TwoFactorSecret → TwoFactorSecret)
    : prog AuthW () :=
  n ← secret_updateMany userId (λ _, true) upd;
  throw_if (n =? 0) P2025.

Definition code_claim (id : string) (P : RecoveryCode → bool)
    (upd : Z → RecoveryCode → RecoveryCode) : prog AuthW Z :=
  act (λ w,
    match aw_codes w !! id with
    | Some c => if P c then (1, set_codes (insert id (upd (aw_now w) c)) w) else (0, w)
    | None => (0, w)
    end).

Definition challenge_by_id (id : string) : prog AuthW (option Challenge) :=
  gets (λ w, aw_challenges w !! id).

Definition challenge_claim (id : string) (P : Challenge → bool)
    (upd : Z → Challenge → Challenge) : prog AuthW Z :=
  act (λ w,
    match aw_challenges w !! id with
    | Some c => if P c then (1, set_challenges (insert id (upd (aw_now w) c)) w) else (0, w)
    | None => (0, w)
    end).

(** [twoFactorChallenge.update({ where: { id } })] that returns the row. *)
Definition challenge_update (id : string) (upd : Z → Challenge → Challenge)
    : prog AuthW Challenge :=
  act_outcome (λ w,
    match aw_challenges w !! id with
    | Some c => (Ok (upd (aw_now w) c), set_challenges (insert id (upd (aw_now w) c)) w)
    | None => (Err P2025, w)
    end).

Definition challenge_updateMany (P : Challenge → bool) (upd : Z → Challenge → Challenge)
    : prog AuthW () :=
  modify (λ w, set_challenges (fmap (λ c, if P c then upd (aw_now w) c else c)) w).

(** A row whose identifier is drawn. *)
Definition challenge_create (mk : string → Z → Challenge) : prog AuthW Challenge :=
  id ← randomUUID;
  act_outcome (λ w,
    let c := mk id (aw_now w) in
    if bool_decide (is_Some (aw_challenges w !! id))
    then (Err (PrismaKnown "P2002" ["id"]), w)
    else (Ok c, set_challenges (insert id c) w)).
End statements.

#[global] Arguments draw : simpl never.
#[global] Arguments tx {A} p : simpl never.
