(* ===== verification/Credentials.v ===== *)
(** * Contacts, tokens, lockout and one-time codes

    What the authentication services share: phone.util.ts and email.util.ts,
    token.util.ts, lockout.util.ts with reauth.service.ts, otp.util.ts. *)

From S2P Require Import Prelude Js.

(** ** Phone numbers *)

(** [/^\+251[79]\d{8}$/] *)
Definition ETHIOPIAN_MOBILE_REGEX (s : string) : bool :=
  starts_with "+251" s &&
  match str_drop 4 s with
  | Str c rest =>
      (bool_decide (c = "7"%char) || bool_decide (c = "9"%char)) &&
      bool_decide (String.length rest = 8) && str_forallb is_digit rest
  | EmptyString => false
  end.

Definition phone_clean (phone : string) : string :=
  str_filter (λ c, negb (bool_decide (c = "-"%char))) (str_filter (λ c, negb (is_ws c)) phone).

Definition phone_prefixed (cleaned : string) : string :=
  if starts_with "0" cleaned then "+251" +:+ str_drop 1 cleaned
  else if starts_with "9" cleaned || starts_with "7" cleaned then "+251" +:+ cleaned
  else if starts_with "251" cleaned then "+" +:+ cleaned
  else cleaned.

Definition normalizePhoneNumber (phone : string) : outcome string :=
  if negb (truthy phone) then Err (JsError "invalid_phone_number") else
  let cleaned := phone_prefixed (phone_clean phone) in
  if negb (ETHIOPIAN_MOBILE_REGEX cleaned) then Err (JsError "invalid_phone_number")
  else Ok cleaned.

(** ** E-mail addresses *)

(** [/^[^\s@]+@[^\s@]+\.[^\s@]+$/]: one [@], something before it, and after it a
    dot that is neither first nor last. *)
Fixpoint inner_dot (s : string) : bool :=
  match s with
  | Str _ (Str c (Str d s') as rest) => bool_decide (c = "."%char) || inner_dot rest
  | _ => false
  end.

Definition EMAIL_REGEX (s : string) : bool :=
  str_forallb (λ c, negb (is_ws c)) s &&
  match split "@"%char s with
  | [local; domain] => truthy local && inner_dot domain
  | _ => false
  end.

Definition normalizeEmail (email : string) : outcome string :=
  let trimmed := toLowerCase (trim email) in
  if negb (EMAIL_REGEX trimmed) then Err (JsError "invalid_email") else Ok trimmed.

(** ** Masks *)

Definition maskPhone (phone : string) : string :=
  if bool_decide (String.length phone ≤ 4) then "****"
  else repeat "*" (String.length phone - 4) +:+ slice_last 4 phone.

Definition maskContact (contact : string) : string :=
  if includes "@" contact then
    match split "@"%char contact with
    | local :: domain :: _ => str_take 1 local +:+ "***@" +:+ domain
    | _ => contact
    end
  else maskPhone contact.

(** ** Properties *)

Lemma regex_inv s :
  ETHIOPIAN_MOBILE_REGEX s = true →
  ∃ c rest, s = "+251" +:+ Str c rest ∧ (c = "7" ∨ c = "9")%char ∧
    String.length rest = 8 ∧ str_forallb is_digit rest = true.
Proof.
  unfold ETHIOPIAN_MOBILE_REGEX. intros [Hp Hs]%andb_prop.
  apply starts_with_drop in Hp. change (String.length "+251") with 4 in Hp.
  destruct (str_drop 4 s) as [|c rest]; [done|].
  apply andb_prop in Hs as [[Hc Hl%bool_decide_eq_true]%andb_prop Hd].
  exists c, rest. split_and!; [done| |done|done].
  apply orb_prop in Hc as [?%bool_decide_eq_true|?%bool_decide_eq_true]; auto.
Qed.

Lemma phone_prefixed_mobile c rest :
  phone_prefixed ("+251" +:+ Str c rest) = "+251" +:+ Str c rest.
Proof. done. Qed.

Lemma phone_clean_id s :
  str_forallb (λ c, is_digit c || bool_decide (c = "+"%char)) s = true → phone_clean s = s.
Proof.
  intros Hs. unfold phone_clean.
  rewrite (str_filter_id (λ c, negb (is_ws c)) s), str_filter_id; [done| |];
    revert Hs; apply str_forallb_impl; by intros [[][][][][][][][]].
Qed.

(** A phone number the code accepts has the one canonical form +251 and nine
    digits, normalizing it again changes nothing, and the local, the bare, the
    international and the spaced or dashed spellings of a number all agree. *)
Theorem phone_canonical phone q :
  normalizePhoneNumber phone = Ok q →
  ETHIOPIAN_MOBILE_REGEX q = true ∧ String.length q = 13 ∧
  normalizePhoneNumber q = Ok q ∧
  ∀ spelling, phone_clean spelling ∈
      [str_drop 1 q; "0" +:+ str_drop 4 q; str_drop 4 q; q] →
    normalizePhoneNumber spelling = Ok q.
Proof.
  assert (Hgo : ∀ s, ETHIOPIAN_MOBILE_REGEX (phone_prefixed (phone_clean s)) = true →
    normalizePhoneNumber s = Ok (phone_prefixed (phone_clean s))).
  { intros s Hs. unfold normalizePhoneNumber. destruct s; [done|]. cbn [truthy negb].
    by rewrite Hs. }
  unfold normalizePhoneNumber at 1. destruct (truthy phone); [|done]. cbn [negb].
  destruct (ETHIOPIAN_MOBILE_REGEX _) eqn:Hq; [|done]. intros [= <-].
  set (q := phone_prefixed _) in *. clearbody q.
  destruct (regex_inv q Hq) as (c&rest&->&Hc&Hlen&Hrest).
  assert (Hcl : phone_clean ("+251" +:+ Str c rest) = "+251" +:+ Str c rest).
  { apply phone_clean_id. rewrite str_forallb_app. cbn [str_forallb].
    rewrite (str_forallb_impl is_digit _ rest) by (done || by intros a ->).
    by destruct Hc as [-> | ->]. }
  split; [done|]. split; [rewrite str_app_length; cbn; lia|]. split.
  { rewrite (Hgo ("+251" +:+ Str c rest)); rewrite Hcl; by rewrite phone_prefixed_mobile. }
  intros s Hs.
  assert (Hp : phone_prefixed (phone_clean s) = "+251" +:+ Str c rest).
  { change (str_drop 1 ("+251" +:+ Str c rest)) with ("251" +:+ Str c rest) in Hs.
    change (str_drop 4 ("+251" +:+ Str c rest)) with (Str c rest) in Hs.
    rewrite !elem_of_cons, elem_of_nil in Hs.
    destruct Hs as [-> | [-> | [-> | [-> | []]]]]; [done|done| |done].
    by destruct Hc as [-> | ->]. }
  rewrite Hgo; by rewrite Hp.
Qed.

Lemma phone_canonical_witness :
  normalizePhoneNumber "0911 23-45 67" = Ok "+251911234567" ∧
  normalizePhoneNumber "911-234-567" = Ok "+251911234567".
Proof.
  split; [by vm_compute|].
  apply (phone_canonical "0911 23-45 67" "+251911234567"); [by vm_compute|].
  apply (bool_decide_unpack _). by vm_compute.
Defined.

(** * Tokens and sessions: [TokenUtil]

    Models [src/common/utils/token.util.ts] (and the same device label in
    [device-label.util.ts]). *)

From S2P Require Import Prelude Js Redis Cache Roles TwoFactor AuthModel.

Open Scope Z_scope.

(** ** Device labels *)

Definition first_match (tests : list (list string * string)) (s : string) : option string :=
  snd <$> head (filter (λ '(needles, _), existsb (λ n, includes n s) needles = true) tests).

Definition browser_of : string → option string :=
  first_match [(["Edg/"], "Edge"); (["OPR/"; "Opera"], "Opera"); (["Chrome/"], "Chrome");
               (["Firefox/"], "Firefox"); (["Safari/"], "Safari")].
Definition os_of : string → option string :=
  first_match [(["Windows"], "Windows"); (["Android"], "Android");
               (["iPhone"; "iPad"; "iOS"], "iOS"); (["Mac OS X"; "Macintosh"], "macOS");
               (["Linux"], "Linux")].

Definition describeDevice (userAgent : option string) : option string :=
  match userAgent with
  | None | Some EmptyString => None
  | Some ua =>
      match browser_of ua, os_of ua with
      | Some b, Some o => Some (b +:+ " on " +:+ o)
      | Some b, None => Some b
      | None, o => o
      end
  end.

(** ** Durations *)

Definition all_digits (s : string) : bool := truthy s && str_forallb is_digit s.

Definition normalizeDurationString (raw : string) : string :=
  let trimmed := trim raw in
  if all_digits trimmed then trimmed +:+ "h" else trimmed.

Definition unit_ms (unit_ : string) : option Z :=
  if bool_decide (unit_ = "d") then Some (24 * 60 * 60 * 1000)
  else if bool_decide (unit_ = "h") then Some (60 * 60 * 1000)
  else if bool_decide (unit_ = "m") then Some (60 * 1000)
  else if bool_decide (unit_ = "s") || bool_decide (unit_ = "") then Some 1000
  else None.

(** [/^(\d+)\s*(d|h|m|s)?$/] on the trimmed text; no unit means seconds. *)
Definition parseDurationToMs (duration : string) : outcome Z :=
  let '(digits, rest) := span is_digit (trim duration) in
  match unit_ms (drop_while is_ws rest) with
  | Some ms =>
      if truthy digits then Ok (digits_value digits * ms)
      else Err (BadRequest "invalid_duration_config")
  | None => Err (BadRequest "invalid_duration_config")
  end.

(** ** Issuing a session *)

Inductive TokenPurpose := refresh_token | other_token.

Section token.
Context `{AuthLib} (cfg : AuthConfig).

Definition refreshSecret : string := default (c_jwt_secret cfg) (c_jwt_refreshSecret cfg).

(** [hashOpaqueToken]; the purposes other than [refresh] share a secret. *)
Definition hashOpaqueToken (token : string) (purpose : TokenPurpose) : string :=
  let secret := match purpose with
    | other_token => default refreshSecret (c_jwt_registrationSecret cfg)
    | refresh_token => refreshSecret
    end in
  hmac_hex secret token.

Definition access_payload (userId : string) (phone email : option string)
    (roles permissions : list string) (sid : string) : JwtPayload := {|
  jp_sub := userId; jp_phone := phone; jp_email := email; jp_roles := roles;
  jp_permissions := permissions; jp_type := None; jp_sid := Some sid; jp_jti := None;
  jp_action := None |}.
Definition refresh_payload (userId : string) (phone email : option string)
    (roles permissions : list string) (sid jti : string) : JwtPayload := {|
  jp_sub := userId; jp_phone := phone; jp_email := email; jp_roles := roles;
  jp_permissions := permissions; jp_type := Some "refresh"; jp_sid := Some sid;
  jp_jti := Some jti; jp_action := None |}.

Definition issueTokens (userId : string) (phone email : option string)
    (roles permissions : list string) (ipAddress userAgent : option string)
    : prog AuthW TokenPair :=
  let expiresIn := normalizeDurationString (c_jwt_expiresIn cfg) in
  sessionId ← randomUUID;
  iat ← now;
  let accessToken := jwt_sign (access_payload userId phone email roles permissions sessionId)
                       (c_jwt_secret cfg) expiresIn iat in
  let refreshExpiresIn := normalizeDurationString (c_jwt_refreshExpiresIn cfg) in
  jti ← randomUUID;
  iat2 ← now;
  let refreshToken :=
    jwt_sign (refresh_payload userId phone email roles permissions sessionId jti)
      refreshSecret refreshExpiresIn iat2 in
  ms ← throw_outcome (parseDurationToMs refreshExpiresIn);
  session_create (λ t, {|
    s_id := sessionId; s_userId := userId;
    s_refreshToken := hashOpaqueToken refreshToken refresh_token;
    s_expiresAt := t + ms; s_revokedAt := None; s_ipAddress := ipAddress;
    s_userAgent := userAgent; s_deviceLabel := describeDevice userAgent;
    s_lastActiveAt := Some t |}) ;;
  mret {| accessToken := accessToken; refreshToken := refreshToken |}.
End token.

(** ** Properties *)

Lemma span_app_stop f a b :
  str_forallb f a = true → match b with EmptyString => True | Str c _ => f c = false end →
  span f (a +:+ b) = (a, b).
Proof.
  unfold String.app. intros Ha Hb. induction a as [|c a IH]; cbn in *.
  - destruct b as [|c b]; [done|]. cbn. by rewrite Hb.
  - apply andb_prop in Ha as [-> Ha]. by rewrite IH.
Qed.

Definition is_unit (u : string) (ms : Z) : Prop :=
  (u, ms) ∈ [("d", 86400000); ("h", 3600000); ("m", 60000); ("s", 1000); ("", 1000)].
#[local] Instance is_unit_dec u ms : Decision (is_unit u ms).
Proof. unfold is_unit. apply _. Defined.

Lemma digit_not_ws c : is_digit c = true → is_ws c = false.
Proof. by destruct c as [[][][][][][][][]]. Qed.

(** A configured duration is read as its documentation says: digits with a
    unit are that many days, hours, minutes or seconds, and a bare number is
    hours for the tokens and the sessions alike. *)
Theorem duration_read digits u ms :
  all_digits digits = true → is_unit u ms →
  parseDurationToMs (digits +:+ u) = Ok (digits_value digits * ms) ∧
  parseDurationToMs (normalizeDurationString digits) = Ok (digits_value digits * 3600000) ∧
  (u ≠ "" → normalizeDurationString (digits +:+ u) = digits +:+ u).
Proof.
  intros [Ht Hd]%andb_prop Hu.
  assert (Hgo : ∀ u ms, is_unit u ms →
    parseDurationToMs (digits +:+ u) = Ok (digits_value digits * ms) ∧ trim (digits +:+ u) = digits +:+ u).
  { intros v vms Hv.
    assert (Hv' : match v with EmptyString => True | Str c _ => is_digit c = false end ∧
      str_forallb (λ c, negb (is_ws c)) v = true ∧ unit_ms (drop_while is_ws v) = Some vms).
    { unfold is_unit in Hv. rewrite !elem_of_cons, elem_of_nil in Hv.
      destruct Hv as [[= -> ->]|[[= -> ->]|[[= -> ->]|[[= -> ->]|[[= -> ->]|[]]]]]]; done. }
    destruct Hv' as (Hstop&Hws&Hms).
    assert (Htrim : trim (digits +:+ v) = digits +:+ v).
    { apply trim_id. rewrite str_forallb_app, Hws, andb_true_r.
      revert Hd. apply str_forallb_impl. intros c Hc. by rewrite digit_not_ws. }
    split; [|done]. unfold parseDurationToMs. rewrite Htrim, span_app_stop by done.
    by rewrite Hms, Ht. }
  destruct (Hgo u ms Hu) as [Hp Htr]. split; [done|]. split.
  - unfold normalizeDurationString. destruct (Hgo "" 1000) as [_ Hd0]; [apply (bool_decide_unpack _); by vm_compute|].
    rewrite str_app_nil_r in Hd0. rewrite Hd0. unfold all_digits. rewrite Ht, Hd. cbn [andb].
    apply Hgo. apply (bool_decide_unpack _). by vm_compute.
  - intros Hne. unfold normalizeDurationString. rewrite Htr.
    enough (all_digits (digits +:+ u) = false) as -> by done.
    unfold all_digits. rewrite str_forallb_app, Hd. cbn [andb].
    unfold is_unit in Hu. rewrite !elem_of_cons, elem_of_nil in Hu.
    destruct Hu as [[= -> ->]|[[= -> ->]|[[= -> ->]|[[= -> ->]|[[= -> ->]|[]]]]]];
      [by rewrite andb_false_r..|done].
Qed.

Lemma duration_read_witness :
  parseDurationToMs "7d" = Ok (7 * 86400000) ∧
  parseDurationToMs (normalizeDurationString "7") = Ok (7 * 3600000).
Proof.
  destruct (duration_read "7" "d" 86400000) as (H1&H2&_);
    [by vm_compute|apply (bool_decide_unpack _); by vm_compute|].
  split; [exact H1|exact H2].
Defined.

(** * Account lockout and re-authentication

    Models [src/common/utils/lockout.util.ts],
    [src/modules/auth/service/reauth.service.ts] and the guard
    [src/common/guards/reauth.guard.ts]. *)

From S2P Require Import Prelude Js Redis Cache Roles TwoFactor AuthModel.

Open Scope Z_scope.

(** ** Row updates *)

Definition upd_lock (failed : Z) (locked : option Z) (u : User) : User := {|
  u_id := u_id u; u_name := u_name u; u_phone := u_phone u; u_email := u_email u;
  u_isActive := u_isActive u; u_isPhoneVerified := u_isPhoneVerified u;
  u_passwordHash := u_passwordHash u; u_failedLoginAttempts := failed;
  u_lockedUntil := locked; u_discreetModeEnabled := u_discreetModeEnabled u;
  u_discreetModePasscodeHash := u_discreetModePasscodeHash u;
  u_userRoles := u_userRoles u; u_isEmailVerified := u_isEmailVerified u;
  u_pendingEmail := u_pendingEmail u; u_inviteTokenHash := u_inviteTokenHash u;
  u_inviteTokenExpiresAt := u_inviteTokenExpiresAt u; u_deletedAt := u_deletedAt u;
  u_anonymizedAt := u_anonymizedAt u;
  u_googleId := u_googleId u; u_facebookId := u_facebookId u; u_appleId := u_appleId u;
  u_twoFactorRequiredAt := u_twoFactorRequiredAt u; u_pendingPhone := u_pendingPhone u |}.

Definition isLocked (u : User) (now : Z) : bool :=
  match u_lockedUntil u with Some t => now <? t | None => false end.

Section lockout.
Context `{AuthLib} (cfg : AuthConfig).

Definition lock_ms : Z := c_lockoutDurationMinutes cfg * 60 * 1000.
Definition lock_user (t : Z) (u : User) : User := upd_lock 0 (Some (t + lock_ms)) u.

Definition assertNotLocked (user : User) : prog AuthW () :=
  t ← now;
  throw_if (isLocked user t) (Unauthorized "account_locked").

Definition recordFailedLogin (userId : string) : prog AuthW () :=
  attempts ← incrementFailedLoginAttempts (c_keyPrefix cfg) sha256_hex userId;
  match attempts with
  | Some attempts =>
      if c_maxLoginAttempts cfg <=? attempts then
        user_update userId lock_user ;;
        resetFailedLoginAttempts (c_keyPrefix cfg) sha256_hex userId
      else mret ()
  | None =>
      updated ← user_update userId
        (λ _ u, upd_lock (u_failedLoginAttempts u + 1) (u_lockedUntil u) u);
      if c_maxLoginAttempts cfg <=? u_failedLoginAttempts updated then
        user_update userId lock_user ;; mret ()
      else mret ()
  end.

Definition resetLoginAttempts (user : User) : prog AuthW () :=
  resetFailedLoginAttempts (c_keyPrefix cfg) sha256_hex (u_id user) ;;
  if (0 <? u_failedLoginAttempts user) || bool_decide (is_Some (u_lockedUntil user)) then
    user_update (u_id user) (λ _ u, upd_lock 0 None u) ;; mret ()
  else mret ().

Definition lockAccountForOtpAbuse (userId : string) : prog AuthW () :=
  user_update userId lock_user ;;
  resetFailedLoginAttempts (c_keyPrefix cfg) sha256_hex userId.

(** ** [ReauthService.verifyCredential] (and its alias [verifyPassword]) *)
Definition verifyCredential (userId credential : string) : prog AuthW bool :=
  if negb (truthy credential) then mret false else
  locked ← isReauthLocked (c_keyPrefix cfg) sha256_hex userId;
  if (locked : bool) then Throw (Unauthorized "reauthentication_locked") else
  user ← user_by_id userId;
  user ← require user (NotFound "user_not_found");
  if negb (u_isActive user) then mret false else
  let passwordMatches :=
    match u_passwordHash user with
    | Some h => truthy h && bcrypt_compare credential h
    | None => false
    end in
  if (passwordMatches : bool) then
    resetReauthFailures (c_keyPrefix cfg) sha256_hex userId ;; mret true
  else
  let passcodeMatches :=
    u_discreetModeEnabled user &&
    match u_discreetModePasscodeHash user with
    | Some h => truthy h && bcrypt_compare credential h
    | None => false
    end in
  if (passcodeMatches : bool) then
    resetReauthFailures (c_keyPrefix cfg) sha256_hex userId ;; mret true
  else
    recordReauthFailure (c_keyPrefix cfg) sha256_hex userId (c_maxReauthAttempts cfg) ;;
    mret false.

(** ** [ReauthGuard.canActivate] (src/common/guards/reauth.guard.ts) *)

(** What the guard reads of a request; [None] is undefined. *)
Record ReauthRequest := {
  rr_userId : option string;
  rr_credentialHeader : option json;
  rr_passwordHeader : option json;
  rr_body : option json;
}.
Definition body_field (key : string) (body : option json) : option json :=
  match body with Some (JObj kvs) => assoc key kvs | _ => None end.
(** [a ?? b] *)
Definition nullish (a b : option json) : option json :=
  match a with None | Some JNull => b | _ => a end.
Definition credential_of (request : ReauthRequest) : option json :=
  nullish (rr_credentialHeader request)
    (nullish (rr_passwordHeader request)
       (nullish (body_field "credential" (rr_body request))
          (body_field "password" (rr_body request)))).
Definition stripped_body (body : option json) : option json :=
  match body with
  | Some (JObj kvs) =>
      Some (JObj (filter (λ kv, kv.1 ≠ "credential" ∧ kv.1 ≠ "password") kvs))
  | _ => body
  end.

(** The body that the controller gets to see. *)
Definition ReauthGuard_canActivate (requiresReauth : bool) (request : ReauthRequest)
    : prog AuthW (option json) :=
  if negb requiresReauth then mret (rr_body request) else
  match rr_userId request with
  | Some (Str _ _ as userId) =>
      match credential_of request with
      | Some (JStr (Str _ _ as credential)) =>
          valid ← verifyCredential userId credential;
          throw_if (negb valid) (Unauthorized "invalid_credential") ;;
          mret (stripped_body (rr_body request))
      | _ => Throw (Unauthorized "reauthentication_required")
      end
  | _ => Throw (Unauthorized "authentication_required")
  end.
End lockout.

(** * One-time codes: [OtpUtil]

    Models [src/common/utils/otp.util.ts] and the message of
    [src/infrastructure/sms/templates/sms-otp.template.ts]. *)

From S2P Require Import Prelude Js Redis Cache Roles TwoFactor AuthModel.

Open Scope Z_scope.

(** ** The message *)

Definition PURPOSE_LABELS (p : UserOtpPurpose) : option string :=
  match p with
  | phone_verification => Some "verification code"
  | password_reset => Some "password reset code"
  | password_change => Some "password change code"
  | phone_change => Some "phone number change code"
  | login_2fa => Some "login code"
  | account_reactivation => Some "account reactivation code"
  | _ => None
  end.

Definition DISCREET_PURPOSES : list UserOtpPurpose := [login_2fa].

Definition renderOtpSms (appName otp : string) (expiresInMinutes : Z)
    (purpose : option UserOtpPurpose) : string :=
  let label := default "verification code" (purpose ≫= PURPOSE_LABELS) in
  let discreet := match purpose with
                  | Some p => bool_decide (p ∈ DISCREET_PURPOSES) | None => false end in
  let subject := if (discreet : bool) then "Your " +:+ label
                 else "Your " +:+ str_or appName "Ehte" +:+ " " +:+ label in
  subject +:+ " is " +:+ otp +:+ ". It expires in " +:+ str_of_Z expiresInMinutes +:+
  " minutes. Never share this code. If you didn't request it, ignore this message.".

(** ** Choosing the row *)

(** The latest of the rows, by creation. *)
Definition latest (rows : list UserOtp) : option UserOtp :=
  foldr (λ o best, match best with
                   | Some b => if o_createdAt b <? o_createdAt o then Some o else Some b
                   | None => Some o
                   end) None rows.

Definition otp_of (userId : string) (purpose : UserOtpPurpose) (channel : OtpChannel)
    (o : UserOtp) : bool :=
  bool_decide (o_userId o = userId) && bool_decide (o_purpose o = purpose) &&
  bool_decide (o_channel o = channel).

Definition upd_used (t : Z) (o : UserOtp) : UserOtp := {|
  o_id := o_id o; o_userId := o_userId o; o_purpose := o_purpose o;
  o_channel := o_channel o; o_otpHash := o_otpHash o; o_expiresAt := o_expiresAt o;
  o_attempts := o_attempts o; o_usedAt := Some t; o_createdAt := o_createdAt o |}.

Record OtpOptions := { oo_adminEmail : bool; oo_recipientName : option string }.
Definition no_options : OtpOptions := {| oo_adminEmail := false; oo_recipientName := None |}.

Section otp.
Context `{AuthLib} (cfg : AuthConfig).

(** [findCooldownOtp] on a given state of the table. *)
Definition cooldown_row (userId : string) (purpose : UserOtpPurpose) (channel : OtpChannel)
    (cooldownSeconds : Z) (w : AuthW) : option UserOtp :=
  match latest (filter (λ o, otp_of userId purpose channel o = true)
                  (map_to_list (aw_otps w)).*2) with
  | Some o =>
      if bool_decide (o_usedAt o = None) &&
         (aw_now w - o_createdAt o <? cooldownSeconds * 1000)
      then Some o else None
  | None => None
  end.

Definition findCooldownOtp (userId : string) (purpose : UserOtpPurpose)
    (channel : OtpChannel) (cooldownSeconds : Z) : prog AuthW (option UserOtp) :=
  gets (cooldown_row userId purpose channel cooldownSeconds).

Definition generateOtp : prog AuthW string :=
  act (λ w, (str_of_Z (random_otp (draw w).1), (draw w).2)).

Definition bcryptHash (data : string) (rounds : Z) : prog AuthW string :=
  act (λ w, (bcrypt_hash data rounds (draw w).1, (draw w).2)).

(** A message that the gateway takes or refuses. *)
Definition send (e : auth_event) : prog AuthW () :=
  act_outcome (λ w,
    let w' := set_rest (aw_events w) (tail (aw_delivered w)) (aw_draws w) (aw_ppm w)
                (aw_redis w) (aw_secredis w) (aw_cache w) w in
    if hd true (aw_delivered w) then (Ok (), push_event e w')
    else (Err (JsError "delivery_failed"), w')).

Definition sendSms (phone message : string) : prog AuthW () := send (SmsSent phone message).

(** The transaction: the cooldown again, then the old codes used up and the new one. *)
Definition issue_otp (userId : string) (purpose : UserOtpPurpose) (channel : OtpChannel)
    (otpHash : string) : prog AuthW (bool * string) :=
  id ← randomUUID;
  act_outcome (λ w,
    match cooldown_row userId purpose channel (c_otp_resendCooldownSeconds cfg) w with
    | Some active => (Ok (true, o_id active), w)
    | None =>
        let t := aw_now w in
        if bool_decide (is_Some (aw_otps w !! id))
        then (Err (PrismaKnown "P2002" ["id"]), w)
        else
          (Ok (false, id),
           set_otps (λ otps,
             <[id := {| o_id := id; o_userId := userId; o_purpose := purpose;
                        o_channel := channel; o_otpHash := otpHash;
                        o_expiresAt := t + c_otp_expiresInMinutes cfg * 60 * 1000;
                        o_attempts := 0; o_usedAt := None; o_createdAt := t |}]>
             ((λ o, if otp_of userId purpose channel o && bool_decide (o_usedAt o = None)
                    then upd_used t o else o) <$> otps)) w)
    end).

Definition issueAndSendOtp (userId contact : string) (purpose : UserOtpPurpose)
    (channel : OtpChannel) (options : OtpOptions) : prog AuthW string :=
  let cooldownSeconds := c_otp_resendCooldownSeconds cfg in
  let otpExpiresInMinutes := c_otp_expiresInMinutes cfg in
  let remember := setOtpCooldown (c_keyPrefix cfg) userId (purpose_name purpose)
                    (channel_name channel) in
  cachedId ← getOtpCooldown (c_keyPrefix cfg) userId (purpose_name purpose)
               (channel_name channel);
  match cachedId with
  | Some (Str c s) => mret (Str c s)
  | _ =>
      cooling ← findCooldownOtp userId purpose channel cooldownSeconds;
      match cooling with
      | Some cooling => remember (o_id cooling) cooldownSeconds ;; mret (o_id cooling)
      | None =>
          otp ← generateOtp;
          otpHash ← bcryptHash otp 12;
          result ← issue_otp userId purpose channel otpHash;
          let '(reused, verificationId) := result in
          remember verificationId cooldownSeconds ;;
          if (reused : bool) then mret verificationId else
          (if bool_decide (channel = email) then
             let adminPurpose :=
               if oo_adminEmail options &&
                  (bool_decide (purpose = password_reset) ||
                   bool_decide (purpose = password_change))
               then Some purpose else None in
             or_default (send (OtpEmailSent contact adminPurpose otp otpExpiresInMinutes
               (match adminPurpose with Some _ => oo_recipientName options | None => None end)))
               ()
           else
             or_default (sendSms contact
               (renderOtpSms (c_appName cfg) otp otpExpiresInMinutes (Some purpose))) ()) ;;
          mret verificationId
      end
  end.
End otp.
