(* ===== verification/Auth.v ===== *)
(** * Authentication: [AuthService]

    Models the password login, the refresh of a session, logout, the checking of
    one-time codes and the two-factor login and step-up of
    [src/modules/auth/service/auth.service.ts]. *)

From S2P Require Import Prelude Js Redis Cache Roles TwoFactor AuthModel Credentials.
From S2P Require Import Credentials.

Open Scope Z_scope.

Definition TWO_FACTOR_CHALLENGE_TTL_MS : Z := 5 * 60 * 1000.
Definition TWO_FACTOR_MAX_ATTEMPTS : Z := 5.
Definition STEP_UP_TTL_SECONDS : Z := 5 * 60.

Definition role_names (u : User) : list string := ur_name <$> u_userRoles u.

(** [[...new Set(xs)]]: the first of each. *)
Definition set_of (xs : list string) : list string :=
  reverse (remove_dups (reverse xs)).
Definition derivePermissions (rs : list UserRole) : list string :=
  set_of (rs ≫= ur_permissions).

Definition hasAdminRole (roles : list string) : bool := hasStaffRole roles.

Definition normalizePhoneOrThrow (phone : string) : outcome string :=
  match normalizePhoneNumber phone with
  | Ok p => Ok p
  | Err _ => Err (BadRequest "invalid_phone_number")
  end.

Definition json_opt (s : option string) : json := match s with Some s => JStr s | None => JNull end.

(** ** Row updates *)

Definition upd_revoked (t : Z) (s : Session) : Session := {|
  s_id := s_id s; s_userId := s_userId s; s_refreshToken := s_refreshToken s;
  s_expiresAt := s_expiresAt s; s_revokedAt := Some t; s_ipAddress := s_ipAddress s;
  s_userAgent := s_userAgent s; s_deviceLabel := s_deviceLabel s;
  s_lastActiveAt := s_lastActiveAt s |}.
Definition upd_otp_attempts (o : UserOtp) : UserOtp := {|
  o_id := o_id o; o_userId := o_userId o; o_purpose := o_purpose o;
  o_channel := o_channel o; o_otpHash := o_otpHash o; o_expiresAt := o_expiresAt o;
  o_attempts := o_attempts o + 1; o_usedAt := o_usedAt o; o_createdAt := o_createdAt o |}.
Definition upd_challenge (attempts : Z) (smsCodeHash : option string) (consumed : option Z)
    (c : Challenge) : Challenge := {|
  ch_id := ch_id c; ch_userId := ch_userId c; ch_purpose := ch_purpose c;
  ch_methods := ch_methods c; ch_smsCodeHash := smsCodeHash; ch_attempts := attempts;
  ch_expiresAt := ch_expiresAt c; ch_consumedAt := consumed; ch_ipAddress := ch_ipAddress c |}.
Definition upd_consumed (t : Z) (c : Challenge) : Challenge :=
  upd_challenge (ch_attempts c) (ch_smsCodeHash c) (Some t) c.
Definition upd_step (step : Z) (s : TwoFactorSecret) : TwoFactorSecret := {|
  ts_method := ts_method s; ts_secretEncrypted := ts_secretEncrypted s; ts_isEnabled := ts_isEnabled s;
  ts_lastUsedStep := Some step |}.
Definition upd_code_used (t : Z) (c : RecoveryCode) : RecoveryCode := {|
  rc_id := rc_id c; rc_userId := rc_userId c; rc_codeHash := rc_codeHash c;
  rc_usedAt := Some t |}.
Definition upd_reactivated (u : User) : User := {|
  u_id := u_id u; u_name := u_name u; u_phone := u_phone u; u_email := u_email u;
  u_isActive := true; u_isPhoneVerified := u_isPhoneVerified u;
  u_passwordHash := u_passwordHash u; u_failedLoginAttempts := 0; u_lockedUntil := None;
  u_discreetModeEnabled := u_discreetModeEnabled u;
  u_discreetModePasscodeHash := u_discreetModePasscodeHash u; u_userRoles := u_userRoles u;
  u_isEmailVerified := u_isEmailVerified u;
  u_pendingEmail := u_pendingEmail u; u_inviteTokenHash := u_inviteTokenHash u;
  u_inviteTokenExpiresAt := u_inviteTokenExpiresAt u; u_deletedAt := u_deletedAt u;
  u_anonymizedAt := u_anonymizedAt u;
  u_googleId := u_googleId u; u_facebookId := u_facebookId u; u_appleId := u_appleId u;
  u_twoFactorRequiredAt := u_twoFactorRequiredAt u; u_pendingPhone := u_pendingPhone u |}.

Section auth.
Context `{AuthLib} `{SecretBox} (cfg : AuthConfig).

(** ** Audit events *)

Definition emitOtpRejected (action reason outcome severity : string)
    (otp : option UserOtp) (user : option User) (metadata : list (string * json))
    : prog AuthW () :=
  emitAudit {|
    aa_userId := u_id <$> user; aa_targetUserId := None;
    aa_actorType := resolveActorType (from_option role_names [] user);
    aa_action := action; aa_outcome := Some outcome; aa_severity := Some severity;
    aa_entity := "UserOtp"; aa_entityId := o_id <$> otp;
    aa_entityLabel := (λ o, purpose_name (o_purpose o) +:+ " OTP") <$> otp;
    aa_diff := [("result", JStr (if bool_decide (outcome = "DENIED") then "denied" else "failure"));
                ("reason", JStr reason)];
    aa_metadata := from_option (λ o, [("purpose", JStr (purpose_name (o_purpose o)));
                                      ("attempts", JNum (o_attempts o))]) [] otp ++ metadata |}.

Definition emitOtpLockout (otp : UserOtp) (user : User) : prog AuthW () :=
  emitAudit {|
    aa_userId := None; aa_targetUserId := Some (u_id user); aa_actorType := ActorSYSTEM;
    aa_action := "SECURITY_ALERT"; aa_outcome := Some "DENIED"; aa_severity := Some "WARNING";
    aa_entity := "UserOtp"; aa_entityId := Some (o_id otp);
    aa_entityLabel := Some (purpose_name (o_purpose otp) +:+ " OTP");
    aa_diff := [("result", JStr "denied"); ("reason", JStr "too_many_otp_attempts");
                ("accountLocked", JBool true)];
    aa_metadata := [("purpose", JStr (purpose_name (o_purpose otp)));
                    ("attempts", JNum (o_attempts otp));
                    ("targetUserName", json_opt (u_name user))] |}.

Definition emitSecurityAudit (user : User) (action : string) (diff : list (string * json))
    (outcome severity : string) : prog AuthW () :=
  emitAudit {|
    aa_userId := Some (u_id user); aa_targetUserId := None;
    aa_actorType := resolveActorType (role_names user); aa_action := action;
    aa_outcome := Some outcome; aa_severity := Some severity; aa_entity := "User";
    aa_entityId := Some (u_id user); aa_entityLabel := u_name user;
    aa_diff := ("result", JStr (if bool_decide (outcome = "SUCCESS") then "success"
                                else "failure")) :: diff;
    aa_metadata := [] |}.

(** The events of a sign-in of a known account. *)
Definition auditLogin (user : User) (action : string) (outcome severity : option string)
    (diff metadata : list (string * json)) : prog AuthW () :=
  emitAudit {|
    aa_userId := Some (u_id user); aa_targetUserId := None;
    aa_actorType := resolveActorType (role_names user); aa_action := action;
    aa_outcome := outcome; aa_severity := severity; aa_entity := "User";
    aa_entityId := Some (u_id user); aa_entityLabel := u_name user;
    aa_diff := diff; aa_metadata := metadata |}.

Definition login_failed (user : User) (outcome reason : string) : prog AuthW () :=
  auditLogin user "LOGIN_FAILED" (Some outcome) (Some "WARNING")
    [("result", JStr "failed"); ("reason", JStr reason)] [("method", JStr "password")].

Definition tokens_for (user : User) : prog AuthW TokenPair :=
  issueTokens cfg (u_id user) (u_phone user) (u_email user) (role_names user)
    (derivePermissions (u_userRoles user)) None None.

Definition requirePhone (phone : option string) : prog AuthW string :=
  match phone with
  | Some (Str c s) => mret (Str c s)
  | _ => Throw (BadRequest "phone_number_missing")
  end.

(** ** [login] *)

Inductive LoginResult :=
| LoggedIn (tokens : TokenPair)
| RequiresVerification (verificationId : string).

Definition login (phone password : string) : prog AuthW LoginResult :=
  phone ← throw_outcome (normalizePhoneOrThrow phone);
  user ← user_by_phone phone;
  match user with
  | Some user =>
      match u_passwordHash user with
      | Some (Str _ _ as hash) =>
          if negb (bcrypt_compare password hash) then
            recordFailedLogin cfg (u_id user) ;;
            login_failed user "FAILURE" "wrong_password" ;;
            Throw (Unauthorized "invalid_credentials")
          else if negb (mem USER (role_names user)) then
            login_failed user "DENIED" "no_user_role_use_admin_login" ;;
            Throw (Unauthorized "use_admin_login")
          else
          catch (assertNotLocked user)
            (λ err, login_failed user "DENIED" "account_locked" ;; Throw err) ;;
          resetLoginAttempts cfg user ;;
          if negb (u_isActive user) then
            login_failed user "DENIED" "account_inactive" ;;
            Throw (Unauthorized "account_inactive")
          else if negb (u_isPhoneVerified user) then
            phone ← requirePhone (u_phone user);
            verificationId ← issueAndSendOtp cfg (u_id user) phone phone_verification sms
                               no_options;
            mret (RequiresVerification verificationId)
          else
            auditLogin user "LOGIN_SUCCESS" None None [("result", JStr "success")]
              [("method", JStr "password")] ;;
            tokens ← tokens_for user;
            mret (LoggedIn tokens)
      | _ =>
          login_failed user "FAILURE" "no_password_set" ;;
          Throw (Unauthorized "invalid_credentials")
      end
  | None =>
      emitAudit {|
        aa_userId := None; aa_targetUserId := None; aa_actorType := resolveActorType [];
        aa_action := "LOGIN_FAILED"; aa_outcome := Some "FAILURE";
        aa_severity := Some "WARNING"; aa_entity := "User"; aa_entityId := None;
        aa_entityLabel := None;
        aa_diff := [("result", JStr "failed"); ("reason", JStr "unknown_account")];
        aa_metadata := [("method", JStr "password");
                        ("attemptedPhone", JStr (maskPhone phone))] |} ;;
      Throw (Unauthorized "invalid_credentials")
  end.

(** ** [refresh] *)

Definition session_of (userId hash : string) (s : Session) : bool :=
  bool_decide (s_userId s = userId) && bool_decide (s_refreshToken s = hash).
Definition active_of (userId : string) (s : Session) : bool :=
  bool_decide (s_userId s = userId) && bool_decide (s_revokedAt s = None).
Definition not_revoked (s : Session) : bool := bool_decide (s_revokedAt s = None).

(** The transaction: the old session revoked, if nobody was faster, and the new one. *)
Definition rotate (session : Session) (user : User) : prog AuthW TokenPair :=
  tx (rotated ← session_claim (s_id session) not_revoked upd_revoked;
      if rotated =? 0 then
        auditLogin user "LOGIN_FAILED" (Some "FAILURE") (Some "WARNING")
          [("result", JStr "failed"); ("reason", JStr "refresh_rotation_conflict")]
          [("method", JStr "refresh_token"); ("sessionId", JStr (s_id session))] ;;
        Throw (Unauthorized "session_expired_or_invalid")
      else tokens_for user).

Definition refresh (refreshToken : string) : prog AuthW TokenPair :=
  t ← now;
  match jwt_verify refreshToken (refreshSecret cfg) t with
  | None => Throw (Unauthorized "invalid_refresh_token")
  | Some payload =>
      let sub := jp_sub payload in
      let actor := resolveActorType (jp_roles payload) in
      if negb (bool_decide (jp_type payload = Some "refresh")) then
        emitAudit {|
          aa_userId := Some sub; aa_targetUserId := None; aa_actorType := actor;
          aa_action := "SECURITY_ALERT"; aa_outcome := Some "DENIED";
          aa_severity := Some "WARNING"; aa_entity := "User"; aa_entityId := Some sub;
          aa_entityLabel := None;
          aa_diff := [("result", JStr "denied"); ("reason", JStr "wrong_token_type")];
          aa_metadata := [("method", JStr "refresh_token");
                          ("presentedTokenType", json_opt (jp_type payload))] |} ;;
        Throw (Unauthorized "invalid_refresh_token")
      else
      let hash := hashOpaqueToken cfg refreshToken refresh_token in
      session ← gets (λ w, find_row (session_of sub hash) (aw_sessions w));
      session ← require session (Unauthorized "session_expired_or_invalid");
      if negb (not_revoked session) then
        wiped ← session_updateMany (active_of sub) upd_revoked;
        purgeUserCache (c_keyPrefix cfg) sub ;;
        emitAudit {|
          aa_userId := None; aa_targetUserId := Some sub; aa_actorType := ActorSYSTEM;
          aa_action := "SECURITY_ALERT"; aa_outcome := Some "DENIED";
          aa_severity := Some "CRITICAL"; aa_entity := "Session";
          aa_entityId := Some (s_id session); aa_entityLabel := None;
          aa_diff := [("result", JStr "denied"); ("reason", JStr "refresh_token_reuse_detected");
                      ("sessionsRevoked", JNum wiped)];
          aa_metadata := [("reusedTokenRevokedAt", JNum (default 0 (s_revokedAt session)))] |} ;;
        Throw (Unauthorized "session_expired_or_invalid")
      else
      t ← now;
      if s_expiresAt session <? t then Throw (Unauthorized "session_expired_or_invalid") else
      user ← user_by_id sub;
      match user with
      | Some user =>
          if u_isActive user then rotate session user
          else
            emitAudit {|
              aa_userId := Some sub; aa_targetUserId := None; aa_actorType := actor;
              aa_action := "LOGIN_FAILED"; aa_outcome := Some "DENIED";
              aa_severity := Some "WARNING"; aa_entity := "User"; aa_entityId := Some sub;
              aa_entityLabel := u_name user;
              aa_diff := [("result", JStr "failed"); ("reason", JStr "account_inactive")];
              aa_metadata := [("method", JStr "refresh_token");
                              ("sessionId", JStr (s_id session))] |} ;;
            Throw (Unauthorized "user_inactive")
      | None =>
          emitAudit {|
            aa_userId := Some sub; aa_targetUserId := None; aa_actorType := actor;
            aa_action := "LOGIN_FAILED"; aa_outcome := Some "DENIED";
            aa_severity := Some "WARNING"; aa_entity := "User"; aa_entityId := Some sub;
            aa_entityLabel := None;
            aa_diff := [("result", JStr "failed"); ("reason", JStr "user_not_found")];
            aa_metadata := [("method", JStr "refresh_token");
                            ("sessionId", JStr (s_id session))] |} ;;
          Throw (Unauthorized "user_inactive")
      end
  end.

(** ** [logout], [logoutAll], [revokeRefreshToken] *)

Definition audit_logout (user : CurrentUser) (scope : string) (count : Z) : prog AuthW () :=
  emitAudit {|
    aa_userId := Some (cu_id user); aa_targetUserId := None;
    aa_actorType := resolveActorType (cu_roles user); aa_action := "LOGOUT";
    aa_outcome := None; aa_severity := None; aa_entity := "User";
    aa_entityId := Some (cu_id user); aa_entityLabel := None;
    aa_diff := [("result", JStr "success")];
    aa_metadata := [("scope", JStr scope); ("sessionsRevoked", JNum count)] |}.

Definition session_of_user (userId : string) (s : Session) : bool :=
  bool_decide (s_userId s = userId).

Definition logout (user : CurrentUser) (refreshToken : option string) : prog AuthW () :=
  match refreshToken with
  | Some (Str _ _ as token) =>
      n ← session_deleteMany
            (session_of (cu_id user) (hashOpaqueToken cfg token refresh_token));
      purgeUserCache (c_keyPrefix cfg) (cu_id user) ;;
      audit_logout user "single_session" n
  | _ =>
      n ← session_deleteMany (session_of_user (cu_id user));
      purgeUserCache (c_keyPrefix cfg) (cu_id user) ;;
      audit_logout user "all_sessions" n
  end.

Definition logoutAll (user : CurrentUser) : prog AuthW Z :=
  n ← session_deleteMany (session_of_user (cu_id user));
  purgeUserCache (c_keyPrefix cfg) (cu_id user) ;;
  audit_logout user "all_sessions_explicit" n ;;
  mret n.

Definition revokeRefreshToken (user : CurrentUser) (refreshToken : string) : prog AuthW () :=
  n ← session_deleteMany
        (session_of (cu_id user) (hashOpaqueToken cfg refreshToken refresh_token));
  throw_if (n =? 0) (NotFound "session_not_found") ;;
  purgeUserCache (c_keyPrefix cfg) (cu_id user) ;;
  audit_logout user "refresh_token_revoked" n.

(** ** [checkOtpOrThrow] *)

Definition otp_claimable (t : Z) (o : UserOtp) : bool :=
  bool_decide (o_usedAt o = None) && (o_attempts o <? c_otp_maxAttempts cfg) &&
  (t <? o_expiresAt o).

Definition reject_otp {A} (action reason outcome severity : string) (record : UserOtp)
    (user : User) : prog AuthW A :=
  emitOtpRejected action reason outcome severity (Some record) (Some user) [] ;;
  Throw (BadRequest "invalid_or_expired_otp").

(** The transaction that consumes the code. *)
Definition consume_otp (action : string) (record : UserOtp) (user : User)
    (onValid : string → prog AuthW ()) : prog AuthW () :=
  tx (claimed ← otp_claim (o_id record) otp_claimable upd_used;
      if claimed =? 0 then reject_otp action "otp_claim_conflict" "FAILURE" "WARNING" record user
      else onValid (u_id user)).

(** [onValid] is given when the code is to be consumed. *)
Definition checkOtpOrThrow (verificationId otp : string) (purpose : UserOtpPurpose)
    (action : string) (onValid : option (string → prog AuthW ())) : prog AuthW User :=
  found ← otp_with_user verificationId;
  match found with
  | Some (record, user) =>
      let reject reason outcome severity : prog AuthW User :=
        reject_otp action reason outcome severity record user in
      if negb (bool_decide (o_purpose record = purpose)) then
        reject "otp_purpose_mismatch" "DENIED" "WARNING"
      else if bool_decide (is_Some (o_usedAt record)) then
        reject "otp_already_used" "DENIED" "WARNING"
      else
      t ← now;
      if o_expiresAt record <? t then reject "otp_expired" "DENIED" "INFO"
      else if c_otp_maxAttempts cfg <=? o_attempts record then
        lockAccountForOtpAbuse cfg (u_id user) ;;
        emitOtpLockout record user ;;
        Throw (BadRequest "too_many_otp_attempts")
      else if negb (bcrypt_compare otp (o_otpHash record)) then
        updated ← otp_update (o_id record) upd_otp_attempts;
        (if c_otp_maxAttempts cfg <=? o_attempts updated then
           lockAccountForOtpAbuse cfg (u_id user) ;;
           emitOtpLockout updated user
         else
           emitOtpRejected action "invalid_otp" "FAILURE" "WARNING" (Some updated) (Some user)
             []) ;;
        Throw (BadRequest "invalid_or_expired_otp")
      else
        match onValid with
        | Some f => consume_otp action record user f
        | None => mret ()
        end ;;
        mret user
  | None =>
      emitOtpRejected action "otp_not_found" "DENIED" "WARNING" None None
        [("attemptedVerificationId", JStr verificationId)] ;;
      Throw (BadRequest "invalid_or_expired_otp")
  end.

Definition verifyResetOtp (verificationId otp : string) : prog AuthW () :=
  user ← checkOtpOrThrow verificationId otp password_reset "PASSWORD_RESET" None;
  throw_if (hasAdminRole (role_names user)) (BadRequest "invalid_or_expired_otp").

Definition reactivateVerify (selfReactivationEnabled : bool) (verificationId otp : string)
    : prog AuthW () :=
  if negb selfReactivationEnabled then Throw (BadRequest "invalid_or_expired_otp") else
  user ← checkOtpOrThrow verificationId otp account_reactivation "USER_REACTIVATED"
           (Some (λ userId, user_update userId (λ _, upd_reactivated) ;; mret ()));
  purgeUserCache (c_keyPrefix cfg) (u_id user) ;;
  emitSecurityAudit user "USER_REACTIVATED" [("context", JStr "self_reactivation")]
    "SUCCESS" "INFO".

(** ** Two-factor login *)

Definition loadUserForSecurity (userId : string) : prog AuthW User :=
  user ← user_by_id userId;
  require user (NotFound "user_not_found").

Definition requireEnabledSecret (userId : string) : prog AuthW TwoFactorSecret :=
  secret ← secret_by_user userId;
  match secret with
  | Some s => if ts_isEnabled s then mret s else Throw (BadRequest "two_factor_not_enabled")
  | None => Throw (BadRequest "two_factor_not_enabled")
  end.

Definition checkTotpOrNull (secret : TwoFactorSecret) (code : string)
    : prog AuthW (option Z) :=
  t ← now;
  throw_outcome (
    plain ← decryptSecret (ts_secretEncrypted secret) (c_twoFactor_key cfg);
    verifyTotp hmac_sha1 plain code (ts_lastUsedStep secret) 1 t).

Definition issueTwoFactorChallenge (userId : string) (ipAddress : option string)
    : prog AuthW (option (string * list TwoFactorMethod)) :=
  secret ← secret_by_user userId;
  if negb (from_option ts_isEnabled false secret) then mret None else
  user ← user_by_id userId;
  let methods :=
    if c_twoFactor_smsEnabled cfg &&
       match user with
       | Some u => truthy (default "" (u_phone u)) && u_isPhoneVerified u
       | None => false
       end
    then [TOTP; SMS] else [TOTP] in
  challenge_updateMany
    (λ c, bool_decide (ch_userId c = userId) && bool_decide (ch_consumedAt c = None))
    upd_consumed ;;
  challenge ← challenge_create (λ id t, {|
    ch_id := id; ch_userId := userId; ch_purpose := LOGIN; ch_methods := methods;
    ch_smsCodeHash := None; ch_attempts := 0;
    ch_expiresAt := t + TWO_FACTOR_CHALLENGE_TTL_MS; ch_consumedAt := None;
    ch_ipAddress := ipAddress |});
  mret (Some (ch_id challenge, methods)).

Definition challenge_open (t : Z) (c : Challenge) : bool :=
  bool_decide (ch_consumedAt c = None) && negb (ch_expiresAt c <? t) &&
  bool_decide (ch_purpose c = LOGIN) && (ch_attempts c <? TWO_FACTOR_MAX_ATTEMPTS).

Definition loadChallengeOrThrow (challengeId : string) : prog AuthW (Challenge * User) :=
  challenge ← challenge_by_id challengeId;
  t ← now;
  match challenge with
  | Some c =>
      if negb (challenge_open t c) then Throw (Unauthorized "invalid_or_expired_challenge")
      else
      user ← loadUserForSecurity (ch_userId c);
      throw_if (negb (u_isActive user)) (Unauthorized "invalid_or_expired_challenge") ;;
      assertNotLocked user ;;
      mret (c, user)
  | None => Throw (Unauthorized "invalid_or_expired_challenge")
  end.

Definition failChallenge {A} (challenge : Challenge) (user : User) (reason : string)
    : prog AuthW A :=
  updated ← challenge_update (ch_id challenge)
              (λ _ c, upd_challenge (ch_attempts c + 1) (ch_smsCodeHash c) (ch_consumedAt c) c);
  (if TWO_FACTOR_MAX_ATTEMPTS <=? ch_attempts updated then
     challenge_update (ch_id challenge) upd_consumed ;; mret ()
   else mret ()) ;;
  recordFailedLogin cfg (u_id user) ;;
  auditLogin user "LOGIN_FAILED" (Some "FAILURE") (Some "WARNING")
    [("result", JStr "failed"); ("reason", JStr reason)]
    [("method", JStr "two_factor"); ("attempts", JNum (ch_attempts updated))] ;;
  Throw (Unauthorized "invalid_two_factor_code").

Definition unconsumed (c : Challenge) : bool := bool_decide (ch_consumedAt c = None).

Definition finishChallenge (challenge : Challenge) (user : User) (method : string)
    : prog AuthW TokenPair :=
  claimed ← challenge_claim (ch_id challenge) unconsumed upd_consumed;
  if claimed =? 0 then Throw (Unauthorized "invalid_or_expired_challenge") else
  resetLoginAttempts cfg user ;;
  auditLogin user "LOGIN_SUCCESS" None None [("result", JStr "success")]
    [("method", JStr "two_factor"); ("factor", JStr method)] ;;
  tokens_for user.

Definition step_before (step : Z) (s : TwoFactorSecret) : bool :=
  match ts_lastUsedStep s with None => true | Some l => l <? step end.

Definition twoFactorLoginVerify (challengeId code : string) : prog AuthW TokenPair :=
  cu ← loadChallengeOrThrow challengeId;
  let '(challenge, user) := cu in
  if match ch_smsCodeHash challenge with
     | Some h => truthy h && bcrypt_compare code h
     | None => false
     end
  then finishChallenge challenge user "sms" else
  secret ← requireEnabledSecret (u_id user);
  step ← checkTotpOrNull secret code;
  match step with
  | None => failChallenge challenge user "invalid_two_factor_code"
  | Some step =>
      advanced ← secret_updateMany (u_id user) (step_before step) (upd_step step);
      if advanced =? 0 then failChallenge challenge user "two_factor_code_replayed"
      else finishChallenge challenge user "totp"
  end.

Definition code_of (userId hash : string) (c : RecoveryCode) : bool :=
  bool_decide (rc_userId c = userId) && bool_decide (rc_codeHash c = hash) &&
  bool_decide (rc_usedAt c = None).
Definition unused (c : RecoveryCode) : bool := bool_decide (rc_usedAt c = None).

Definition twoFactorLoginRecovery (challengeId recoveryCode : string)
    : prog AuthW (TokenPair * Z) :=
  cu ← loadChallengeOrThrow challengeId;
  let '(challenge, user) := cu in
  code ← gets (λ w, find_row (code_of (u_id user) (hashRecoveryCode sha256_hex recoveryCode))
                      (aw_codes w));
  match code with
  | None => failChallenge challenge user "invalid_recovery_code"
  | Some code =>
      claimed ← code_claim (rc_id code) unused upd_code_used;
      if claimed =? 0 then failChallenge challenge user "recovery_code_already_used" else
      tokens ← finishChallenge challenge user "recovery_code";
      remaining ← gets (λ w, Z.of_nat (size (filter (λ '(_, c),
        bool_decide (rc_userId c = u_id user) && unused c = true) (aw_codes w))));
      emitSecurityAudit user "TWO_FACTOR_RECOVERY_USED"
        [("recoveryCodesRemaining", JNum remaining)] "SUCCESS"
        (if remaining <=? 2 then "WARNING" else "INFO") ;;
      mret (tokens, remaining)
  end.

Definition twoFactorLoginResend (challengeId : string) : prog AuthW () :=
  cu ← loadChallengeOrThrow challengeId;
  let '(challenge, user) := cu in
  if negb (bool_decide (SMS ∈ ch_methods challenge)) || negb (truthy (default "" (u_phone user)))
  then Throw (BadRequest "sms_not_available") else
  code ← generateOtp;
  smsCodeHash ← bcryptHash code (c_bcryptOtpSaltRounds cfg);
  challenge_update (ch_id challenge)
    (λ _ c, upd_challenge (ch_attempts c) (Some smsCodeHash) (ch_consumedAt c) c) ;;
  catch
    (phone ← requirePhone (u_phone user);
     sendSms phone ("Your verification code is " +:+ code +:+ ". It expires in 5 minutes."))
    (λ _, Throw (BadRequest "sms_delivery_failed")).

(** ** Step-up *)
Definition twoFactorStepUp (userId code : string) (action : option string)
    : prog AuthW string :=
  current ← loadUserForSecurity userId;
  assertNotLocked current ;;
  secret ← requireEnabledSecret userId;
  step ← checkTotpOrNull secret code;
  match step with
  | None =>
      recordFailedLogin cfg userId ;;
      emitSecurityAudit current "TWO_FACTOR_STEP_UP"
        [("reason", JStr "invalid_code"); ("action", json_opt action)] "FAILURE" "WARNING" ;;
      Throw (BadRequest "invalid_two_factor_code")
  | Some step =>
      secret_update userId (upd_step step) ;;
      t ← now;
      let stepUpToken := jwt_sign {|
        jp_sub := userId; jp_phone := None; jp_email := None; jp_roles := [];
        jp_permissions := []; jp_type := Some "step_up"; jp_sid := None; jp_jti := None;
        jp_action := action |} (c_jwt_secret cfg) (str_of_Z STEP_UP_TTL_SECONDS) t in
      emitSecurityAudit current "TWO_FACTOR_STEP_UP" [("action", json_opt action)]
        "SUCCESS" "INFO" ;;
      mret stepUpToken
  end.
End auth.
