(* ===== verification/PasswordPolicy.v ===== *)
(** * Choosing a password

    The policy of src/common/utils/password-policy.util.ts: what is refused, for which
    reason, and what a password that is accepted does not contain. *)

From S2P Require Import Prelude Js.

Open Scope Z_scope.

Definition PASSWORD_MAX_LENGTH : nat := 128.
Definition DEFAULT_USER_PASSWORD_MIN_LENGTH : nat := 8.
Definition DEFAULT_ADMIN_PASSWORD_MIN_LENGTH : nat := 12.

Inductive PasswordPolicyReason :=
| password_too_short | password_too_long | password_too_common | password_too_simple
| password_contains_personal_info.
Definition reason_name (r : PasswordPolicyReason) : string :=
  match r with
  | password_too_short => "password_too_short"
  | password_too_long => "password_too_long"
  | password_too_common => "password_too_common"
  | password_too_simple => "password_too_simple"
  | password_contains_personal_info => "password_contains_personal_info"
  end.

(** [personal] without the values that are null. *)
Record PasswordCheckOptions := { pc_minLength : nat; pc_personal : list string }.

Definition COMMON_PASSWORDS : list string :=
  ["password"; "passw0rd"; "p@ssword"; "p@ssw0rd"; "pass1234"; "password1"; "password12";
   "password123"; "password1234"; "passwordpassword"; "letmein"; "letmein1"; "welcome";
   "welcome1"; "welcome123"; "admin"; "admin123"; "admin1234"; "administrator"; "root"; "toor";
   "qwerty"; "qwerty1"; "qwerty12"; "qwerty123"; "qwertyuiop"; "qwertyui"; "asdfghjk";
   "asdfghjkl"; "zxcvbnm"; "zxcvbnm1"; "1qaz2wsx"; "1q2w3e4r"; "1q2w3e4r5t"; "abc123";
   "abc12345"; "abcd1234"; "abcdefgh"; "abcdefg1"; "iloveyou"; "iloveyou1"; "monkey";
   "monkey123"; "dragon"; "dragon123"; "master"; "master123"; "sunshine"; "princess";
   "football"; "baseball"; "superman"; "batman"; "trustno1"; "shadow"; "michael"; "jennifer";
   "jordan"; "hunter"; "ranger"; "buster"; "soccer"; "hockey"; "killer"; "george"; "charlie";
   "andrew"; "michelle"; "jessica"; "pepper"; "daniel"; "access"; "flower"; "freedom";
   "whatever"; "qazwsx"; "qazwsxedc"; "login"; "hello"; "hello123"; "secret"; "secret123";
   "default"; "guest"; "test"; "test1234"; "testtest"; "changeme"; "changeme1"; "temp1234";
   "user"; "user1234"; "ehte"; "ehte1234"; "ehte123"; "ehtepassword"; "ethiopia"; "ethiopia1";
   "ethiopia123"; "addisababa"; "habesha"; "summer"; "winter"; "spring"; "autumn"; "google";
   "facebook"; "internet"; "computer"; "samsung"; "iphone"; "android"; "mypassword";
   "newpassword"; "yourpassword"; "strongpassword"; "strongpassword123";
   "newstrongpassword123"; "qwerty12345"].

(** [value.replace(/^[^a-z]+|[^a-z]+$/g, '')] *)
Definition stripNonLetters (value : string) : string :=
  drop_while_end (λ c, negb (is_lower c)) (drop_while (λ c, negb (is_lower c)) value).

Definition isSingleRepeatedCharacter (value : string) : bool :=
  match value with
  | EmptyString => false
  | Str c value => str_forallb (λ d, bool_decide (d = c)) value
  end.

Definition char_code (c : ascii) : Z := Z.of_nat (nat_of_ascii c).
(** The loop, from the character [prev] on; [step] is 0 until the first difference. *)
Fixpoint run_from (prev : ascii) (step : Z) (value : string) : bool :=
  match value with
  | EmptyString => true
  | Str c value =>
      let diff := char_code c - char_code prev in
      if negb (diff =? 1) && negb (diff =? -1) then false
      else if step =? 0 then run_from c diff value
      else if negb (diff =? step) then false
      else run_from c step value
  end.
Definition isSequentialRun (value : string) : bool :=
  if (String.length value <? 4)%nat then false
  else match value with EmptyString => true | Str c value => run_from c 0 value end.

Definition common (s : string) : bool := bool_decide (s ∈ COMMON_PASSWORDS).
Definition isCommon (lower : string) : bool :=
  if common lower then true
  else (4 <=? String.length (stripNonLetters lower))%nat && common (stripNonLetters lower).

Definition only_digits (s : string) : string := str_filter is_digit s.
(** The body of the loop for one value. *)
Definition contains_value (lower raw : string) : bool :=
  let value := toLowerCase (trim raw) in
  if negb (truthy value) then false
  else if includes "@" value then
    let local := default "" (head (split "@" value)) in
    ((4 <=? String.length local)%nat && includes local lower) || bool_decide (lower = value)
  else
    let phoneDigits := only_digits value in
    if (7 <=? String.length phoneDigits)%nat then
      includes (slice_last 9 phoneDigits) (only_digits lower)
    else (4 <=? String.length value)%nat && includes value lower.
Definition containsPersonalInfo (lower : string) (personal : list string) : bool :=
  existsb (contains_value lower) personal.

Definition checkPassword (password : string) (options : PasswordCheckOptions)
    : option PasswordPolicyReason :=
  if (String.length password <? pc_minLength options)%nat then Some password_too_short
  else if (PASSWORD_MAX_LENGTH <? String.length password)%nat then Some password_too_long
  else
    let lower := toLowerCase password in
    if isCommon lower then Some password_too_common
    else if isSingleRepeatedCharacter password || isSequentialRun lower then
      Some password_too_simple
    else if containsPersonalInfo lower (pc_personal options) then
      Some password_contains_personal_info
    else None.

Definition assertStrongPassword (password : string) (options : PasswordCheckOptions)
    : outcome () :=
  match checkPassword password options with
  | Some reason => Err (BadRequest (reason_name reason))
  | None => Ok ()
  end.
