(* ===== verification/AdminAuth.v ===== *)
(** * Authentication of administrators: [AdminAuthService]

    Models src/modules/auth/service/admin-auth.service.ts: the invitation and the
    registration of an administrator, the promotion of a user by an e-mailed link, the
    password login, the reset and the change of the password with a one-time code, the
    change of the e-mail address, the demotion and the end of a session. The lists for
    the console are not modelled; the links that a developer's machine logs leave no
    trace. *)

From S2P Require Import Prelude Js Redis Cache Roles TwoFactor AuthModel Credentials.
From S2P Require Import Credentials Auth PasswordPolicy.
From coqutil Require Import Datatypes.RecordSetters.
Import DoubleBraceUpdate.

Open Scope Z_scope.

Definition REGISTRATION_TOKEN_EXPIRES_MINUTES : Z := 60 * 24.
Definition PROMOTION_TOKEN_EXPIRES_MINUTES : Z := 60 * 24.
Definition EMAIL_CHANGE_TOKEN_EXPIRES_MINUTES : Z := 60.
Definition OTP_RESEND_COOLDOWN_MS : Z := 30 * 1000.
Definition OTP_RESEND_HOURLY_CAP : nat := 5.
Definition MAX_OTP_ATTEMPTS : Z := 5.

(** ** Statements *)

Section statements.
Context `{AuthLib}.

Definition P2002 : exn := PrismaKnown "P2002" [].
(** [isUniqueConstraintError] *)
Definition isUniqueConstraintError (e : exn) : bool :=
  match e with PrismaKnown code _ => bool_decide (code = "P2002") | _ => false end.

Definition same_value (a b : option string) : bool :=
  bool_decide (is_Some a) && bool_decide (a = b).
(** Phone, e-mail address, invitation and the accounts of the providers are unique. *)
Definition unique_columns (u : User) (users : gmap string User) : bool :=
  bool_decide (map_Forall (λ id v,
    id = u_id u ∨
    same_value (u_phone u) (u_phone v) = false ∧ same_value (u_email u) (u_email v) = false ∧
    same_value (u_inviteTokenHash u) (u_inviteTokenHash v) = false ∧
    same_value (u_googleId u) (u_googleId v) = false ∧
    same_value (u_facebookId u) (u_facebookId v) = false ∧
    same_value (u_appleId u) (u_appleId v) = false) users).

Definition user_by_email (email : string) : prog AuthW (option User) :=
  gets (λ w, find_row (λ u, bool_decide (u_email u = Some email)) (aw_users w)).
Definition user_by_invite (hash : string) : prog AuthW (option User) :=
  gets (λ w, find_row (λ u, bool_decide (u_inviteTokenHash u = Some hash)) (aw_users w)).

(** [user.update] of unique columns. *)
Definition user_write (id : string) (upd : User → User) : prog AuthW User :=
  act_outcome (λ w,
    match aw_users w !! id with
    | Some u =>
        if unique_columns (upd u) (aw_users w)
        then (Ok (upd u), set_users (insert id (upd u)) w)
        else (Err P2002, w)
    | None => (Err P2025, w)
    end).
(** [user.updateMany({ where: { id, P } })]: the count. *)
Definition user_claim (id : string) (P : User → bool) (upd : User → User) : prog AuthW Z :=
  act (λ w,
    match aw_users w !! id with
    | Some u => if P u then (1, set_users (insert id (upd u)) w) else (0, w)
    | None => (0, w)
    end).
(** [user.create], with an identifier that is drawn. *)
Definition user_create (mk : string → User) : prog AuthW User :=
  id ← randomUUID;
  act_outcome (λ w,
    if bool_decide (is_Some (aw_users w !! id)) || negb (unique_columns (mk id) (aw_users w))
    then (Err P2002, w)
    else (Ok (mk id), set_users (insert id (mk id)) w)).
(** [user.delete], with what is deleted along with it. *)
Definition user_delete (id : string) : prog AuthW () :=
  act_outcome (λ w,
    match aw_users w !! id with
    | Some _ =>
        (Ok (),
         set_tables (delete id (aw_users w))
           (filter (λ '(_, o), o_userId o ≠ id) (aw_otps w))
           (filter (λ '(_, s), s_userId s ≠ id) (aw_sessions w))
           (delete id (aw_secrets w))
           (filter (λ '(_, c), rc_userId c ≠ id) (aw_codes w))
           (filter (λ '(_, c), ch_userId c ≠ id) (aw_challenges w)) w)
    | None => (Err P2025, w)
    end).

(** [role.findMany({ where: { name: { in } } })] with the permissions. *)
Definition roles_in (names : list string) : prog AuthW (list UserRole) :=
  gets (λ w, map (λ np, {| ur_name := np.1; ur_permissions := np.2 |})
    (filter (λ np, np.1 ∈ names) (map_to_list (aw_roles w)))).
Definition role_by_name (name : string) : prog AuthW (option UserRole) :=
  gets (λ w, match aw_roles w !! name with
             | Some ps => Some {| ur_name := name; ur_permissions := ps |}
             | None => None
             end).

(** [userRole.deleteMany], then [createMany]. *)
Definition replace_roles (id : string) (roles : list UserRole) : prog AuthW () :=
  act_outcome (λ w,
    match aw_users w !! id, roles with
    | Some u, _ => (Ok (), set_users (insert id (u{{u_userRoles := roles}})) w)
    | None, [] => (Ok (), w)
    | None, _ => (Err (PrismaKnown "P2003" []), w)
    end).
(** [userRole.create]: a user has a role once. *)
Definition userRole_create (id : string) (role : UserRole) : prog AuthW () :=
  act_outcome (λ w,
    match aw_users w !! id with
    | Some u =>
        if mem (ur_name role) (role_names u) then (Err P2002, w)
        else (Ok (), set_users (insert id (u{{u_userRoles := u_userRoles u ++ [role] }})) w)
    | None => (Err (PrismaKnown "P2003" []), w)
    end).
(** [userRole.delete] of the row that gives the role. *)
Definition userRole_delete (id name : string) : prog AuthW () :=
  act_outcome (λ w,
    match aw_users w !! id with
    | Some u =>
        if mem name (role_names u) then
          (Ok (), set_users (insert id (u{{u_userRoles :=
             filter (λ r, ur_name r ≠ name) (u_userRoles u)}})) w)
        else (Err P2025, w)
    | None => (Err P2025, w)
    end).

(** The unused codes of a user for a purpose. *)
Definition open_otp (userId : string) (purpose : UserOtpPurpose) (o : UserOtp) : bool :=
  bool_decide (o_userId o = userId) && bool_decide (o_purpose o = purpose) &&
  bool_decide (o_usedAt o = None).
(** [userOtp.updateMany] that uses them up. *)
Definition close_otps (userId : string) (purpose : UserOtpPurpose) : prog AuthW () :=
  modify (λ w, set_otps
    (fmap (λ o, if open_otp userId purpose o then upd_used (aw_now w) o else o)) w).
(** [userOtp.create] of a link sent by e-mail. *)
Definition otp_create (userId otpHash : string) (purpose : UserOtpPurpose) (expiresAt : Z)
    : prog AuthW UserOtp :=
  id ← randomUUID;
  act_outcome (λ w,
    let o := {| o_id := id; o_userId := userId; o_purpose := purpose; o_channel := email;
                o_otpHash := otpHash; o_expiresAt := expiresAt; o_attempts := 0;
                o_usedAt := None; o_createdAt := aw_now w |} in
    if bool_decide (is_Some (aw_otps w !! id)) then (Err P2002, w)
    else if bool_decide (is_Some (aw_users w !! userId))
    then (Ok o, set_otps (insert id o) w)
    else (Err (PrismaKnown "P2003" []), w)).
(** A link that can be followed. *)
Definition live_otp (hash : string) (purpose : UserOtpPurpose) (t : Z) (o : UserOtp) : bool :=
  bool_decide (o_otpHash o = hash) && bool_decide (o_purpose o = purpose) &&
  bool_decide (o_usedAt o = None) && (t <? o_expiresAt o).
Definition otp_by_hash (hash : string) (purpose : UserOtpPurpose)
    : prog AuthW (option (UserOtp * User)) :=
  gets (λ w,
    match find_row (live_otp hash purpose (aw_now w)) (aw_otps w) with
    | Some o => match aw_users w !! o_userId o with Some u => Some (o, u) | None => None end
    | None => None
    end).
Definition otp_claimable_link (t : Z) (o : UserOtp) : bool :=
  bool_decide (o_usedAt o = None) && (t <? o_expiresAt o).
Definition otp_claimable_code (t : Z) (o : UserOtp) : bool :=
  bool_decide (o_usedAt o = None) && (o_attempts o <? MAX_OTP_ATTEMPTS) && (t <? o_expiresAt o).
End statements.

Section admin.
Context `{AuthLib} `{SecretBox} (cfg : AuthConfig).

(** ** Helpers *)

(** [randomBytes(32).toString('hex')] *)
Definition rawToken : prog AuthW string := act (λ w, (random_token (draw w).1, (draw w).2)).

Definition userLabel (u : User) : option string :=
  match u_name u with Some n => Some n | None => u_email u end.
Definition actor_type (actor : CurrentUser) : ActorType := resolveActorType (cu_roles actor).

Definition result_diff (result reason : string) : list (string * json) :=
  [("result", JStr result); ("reason", JStr reason)].
(** The events on an account; [None] leaves the field out. *)
Definition audit_user (userId target : option string) (actorType : ActorType)
    (action : string) (outcome severity : option string) (user : option User)
    (diff metadata : list (string * json)) : prog AuthW () :=
  emitAudit {|
    aa_userId := userId; aa_targetUserId := target; aa_actorType := actorType;
    aa_action := action; aa_outcome := outcome; aa_severity := severity; aa_entity := "User";
    aa_entityId := u_id <$> user; aa_entityLabel := user ≫= userLabel;
    aa_diff := diff; aa_metadata := metadata |}.
(** What an administrator did to another account, and was refused. *)
Definition refuse {A} (actor : CurrentUser) (action : string) (user : User) (reason : string)
    (metadata : list (string * json)) (code : string) : prog AuthW A :=
  audit_user (Some (cu_id actor)) (Some (u_id user)) (actor_type actor) action
    (Some "FAILURE") (Some "WARNING") (Some user) (result_diff "failure" reason) metadata ;;
  Throw (BadRequest code).
Definition audit_done (actor : CurrentUser) (action : string) (user : User)
    (diff metadata : list (string * json)) : prog AuthW () :=
  audit_user (Some (cu_id actor)) (Some (u_id user)) (actor_type actor) action None None
    (Some user) (("result", JStr "success") :: diff) metadata.
(** The events on a one-time code. *)
Definition audit_otp (userId : option string) (actorType : ActorType) (action : string)
    (outcome severity : option string) (otp : option UserOtp) (label : option string)
    (diff metadata : list (string * json)) : prog AuthW () :=
  emitAudit {|
    aa_userId := userId; aa_targetUserId := None; aa_actorType := actorType;
    aa_action := action; aa_outcome := outcome; aa_severity := severity;
    aa_entity := "UserOtp"; aa_entityId := o_id <$> otp; aa_entityLabel := label;
    aa_diff := diff; aa_metadata := metadata |}.

Definition sendAdminPasswordSuccessEmail (user : User) (kind : string) : prog AuthW () :=
  match u_email user with
  | Some (Str _ _ as to) =>
      t ← now;
      or_default (send (AdminEmailSent to (PasswordSuccessEmail kind t (u_name user)))) ()
  | _ => mret ()
  end.

Definition assertSuperAdmin (actor : CurrentUser) (action : string)
    (metadata : list (string * json)) : prog AuthW () :=
  if mem SUPER_ADMIN (cu_roles actor) then mret () else
  audit_user (Some (cu_id actor)) None (actor_type actor) action (Some "DENIED")
    (Some "WARNING") None
    (result_diff "denied" "insufficient_permissions" ++ [("requiredRole", JStr SUPER_ADMIN)])
    metadata ;;
  Throw (Unauthorized "insufficient_permissions").

Definition assertActorIsAdmin (actor : CurrentUser) (action : string) : prog AuthW () :=
  if hasAdminRole (cu_roles actor) then mret () else
  emitAudit {|
    aa_userId := Some (cu_id actor); aa_targetUserId := None; aa_actorType := actor_type actor;
    aa_action := action; aa_outcome := Some "DENIED"; aa_severity := Some "WARNING";
    aa_entity := "User"; aa_entityId := Some (cu_id actor); aa_entityLabel := None;
    aa_diff := result_diff "denied" "insufficient_permissions" ++
                 [("requiredRole", JStr "ADMIN_OR_SUPER_ADMIN")];
    aa_metadata := [] |} ;;
  Throw (Unauthorized "insufficient_permissions").

Definition emitOtpAbuseAlert (otpId targetUserId purpose : string) (attempts : Z)
    : prog AuthW () :=
  emitAudit {|
    aa_userId := None; aa_targetUserId := Some targetUserId; aa_actorType := ActorSYSTEM;
    aa_action := "SECURITY_ALERT"; aa_outcome := Some "DENIED"; aa_severity := Some "WARNING";
    aa_entity := "UserOtp"; aa_entityId := Some otpId;
    aa_entityLabel := Some (purpose +:+ " OTP");
    aa_diff := [("reason", JStr "too_many_otp_attempts"); ("purpose", JStr purpose)];
    aa_metadata := [("attempts", JNum attempts); ("accountLocked", JBool true)] |}.

Definition minutes (n : Z) : Z := n * 60 * 1000.
Definition cooldown_ms : Z := c_otp_resendCooldownSeconds cfg * 1000.

Definition assertInviteResendCooldown (admin : User) : prog AuthW () :=
  match u_inviteTokenExpiresAt admin with
  | None => mret ()
  | Some expires =>
      t ← now;
      throw_if (t - (expires - minutes REGISTRATION_TOKEN_EXPIRES_MINUTES) <? cooldown_ms)
        (BadRequest "resend_too_soon")
  end.

(** The address that a promotion waits for; older ones kept it, unverified, in [email]. *)
Definition promotionTargetEmail (user : User) : option string :=
  match u_pendingEmail user with
  | Some (Str _ _ as e) => Some e
  | _ => match u_email user with
         | Some (Str _ _ as e) => if u_isEmailVerified user then None else Some e
         | _ => None
         end
  end.

Definition HOUR : Z := 60 * 60 * 1000.
Definition recent_otps (userId : string) (purpose : UserOtpPurpose) (t : Z) (w : AuthW)
    : list UserOtp :=
  filter (λ o, o_userId o = userId ∧ o_purpose o = purpose ∧ t - HOUR < o_createdAt o)
    (map_to_list (aw_otps w)).*2.
Definition assertPromotionResendAllowed (userId : string) : prog AuthW () :=
  t ← now;
  recent ← gets (recent_otps userId promotion_verification t);
  t ← now;
  throw_if (match latest recent with
            | Some o => t - o_createdAt o <? cooldown_ms | None => false end)
    (BadRequest "resend_too_soon") ;;
  throw_if (OTP_RESEND_HOURLY_CAP <=? length recent)%nat (BadRequest "too_many_resend_requests").

Definition assertRegistrationOpen (admin : User) (actor : CurrentUser) (action : string)
    : prog AuthW () :=
  let has_password := truthy (default "" (u_passwordHash admin)) in
  if negb has_password && negb (u_isActive admin) then mret () else
  let reason := if has_password then "registration_already_completed"
                else "account_active_without_password" in
  refuse actor action admin reason [] reason.

(** A link: sent, or not. *)
Definition send_link (to : string) (mail : AdminEmail) : prog AuthW bool :=
  r ← attempt (send (AdminEmailSent to mail));
  mret (is_ok r).

Definition issueRegistrationInvite (adminId email : string) : prog AuthW bool :=
  token ← rawToken;
  t ← now;
  user_write adminId (λ u,
    u{{u_inviteTokenHash := Some (hashOpaqueToken cfg token other_token)}}
     {{u_inviteTokenExpiresAt := Some (t + minutes REGISTRATION_TOKEN_EXPIRES_MINUTES)}}) ;;
  send_link email (RegistrationEmail
    (c_adminUrl cfg +:+ "/admin/register?token=" +:+ token)
    (REGISTRATION_TOKEN_EXPIRES_MINUTES / 60)).

Definition normalizeEmailOrThrow (email : string) : outcome string :=
  match normalizeEmail email with Ok e => Ok e | Err _ => Err (BadRequest "invalid_email") end.

Definition names_json (names : list string) : json := JArr (map JStr names).
Definition checkAdminPassword (password : string) (personal : list (option string))
    : prog AuthW () :=
  throw_outcome (assertStrongPassword password
    {| pc_minLength := c_adminPasswordMinLength cfg; pc_personal := omap id personal |}).

(** ** Registration *)

(** Events on an address that has no account yet. *)
Definition register_failed {A} (creator : CurrentUser) (name reason : string)
    (metadata : list (string * json)) : prog AuthW A :=
  emitAudit {|
    aa_userId := Some (cu_id creator); aa_targetUserId := None;
    aa_actorType := actor_type creator; aa_action := "ADMIN_REGISTERED";
    aa_outcome := Some "FAILURE"; aa_severity := Some "WARNING"; aa_entity := "User";
    aa_entityId := None; aa_entityLabel := Some name;
    aa_diff := result_diff "failure" reason; aa_metadata := metadata |} ;;
  Throw (BadRequest reason).

Record AdminRegisterDto := { ar_email : string; ar_name : string; ar_roles : list string }.
Record Registered := { rg_adminId : string; rg_emailSent : bool }.

(** Another invitation of an account nobody has finished, with the roles asked for now. *)
Definition reinvite (creator : CurrentUser) (existing : User) (email : string)
    (roles : list UserRole) : prog AuthW Registered :=
  assertInviteResendCooldown existing ;;
  tx (replace_roles (u_id existing) roles) ;;
  emailSent ← issueRegistrationInvite (u_id existing) email;
  audit_done creator "ADMIN_REGISTRATION_RESENT" existing
    [("context", JStr "registration_resent_via_register_endpoint");
     ("emailSent", JBool emailSent); ("previousRoles", names_json (role_names existing));
     ("currentRoles", names_json (map ur_name roles))] [] ;;
  mret {| rg_adminId := u_id existing; rg_emailSent := emailSent |}.

Definition new_admin (email name : string) (roles : list UserRole) (id : string) : User :=
  {| u_id := id; u_name := Some name; u_phone := None; u_email := Some email;
     u_isActive := false; u_isPhoneVerified := false; u_passwordHash := None;
     u_failedLoginAttempts := 0; u_lockedUntil := None; u_discreetModeEnabled := false;
     u_discreetModePasscodeHash := None; u_userRoles := roles; u_isEmailVerified := false;
     u_pendingEmail := None; u_inviteTokenHash := None; u_inviteTokenExpiresAt := None;
     u_deletedAt := None; u_anonymizedAt := None;
     u_googleId := None; u_facebookId := None; u_appleId := None; u_twoFactorRequiredAt := None;
     u_pendingPhone := None |}.

Definition adminRegister (creator : CurrentUser) (data : AdminRegisterDto)
    : prog AuthW Registered :=
  let roles := ar_roles data in
  assertSuperAdmin creator "ADMIN_REGISTERED" [("attemptedRoles", names_json roles)] ;;
  email ← throw_outcome (normalizeEmailOrThrow (ar_email data));
  let attempted := [("attemptedRoles", names_json roles); ("attemptedEmail", JStr email)] in
  if existsb (λ role, mem role NON_INVITABLE_ROLE_NAMES) roles then
    register_failed creator (ar_name data) "only_admin_roles_may_be_registered" attempted
  else
  records ← roles_in roles;
  if negb (length records =? length (remove_dups roles))%nat then
    register_failed creator (ar_name data) "one_or_more_roles_not_configured"
      [("requestedRoles", names_json roles);
       ("configuredRoles", names_json (map ur_name records)); ("attemptedEmail", JStr email)]
  else
  existing ← user_by_email email;
  match existing with
  | Some existing =>
      if truthy (default "" (u_passwordHash existing)) || u_isActive existing then
        refuse creator "ADMIN_REGISTERED" existing "email_already_registered" attempted
          "email_already_registered"
      else reinvite creator existing email records
  | None =>
      admin ← catch (user_create (new_admin email (ar_name data) records))
        (λ e, if isUniqueConstraintError e then
                register_failed creator (ar_name data) "email_already_registered"
                  (attempted ++ [("detectedBy", JStr "unique_constraint")])
              else Throw e);
      emailSent ← issueRegistrationInvite (u_id admin) email;
      emitAudit {|
        aa_userId := Some (cu_id creator); aa_targetUserId := Some (u_id admin);
        aa_actorType := actor_type creator; aa_action := "ADMIN_REGISTERED";
        aa_outcome := None; aa_severity := None; aa_entity := "User";
        aa_entityId := Some (u_id admin); aa_entityLabel := Some (ar_name data);
        aa_diff := [("result", JStr "success"); ("roles", names_json roles);
                    ("status", JStr "registered")];
        aa_metadata := [("invitedEmail", JStr email); ("emailSent", JBool emailSent)] |} ;;
      mret {| rg_adminId := u_id admin; rg_emailSent := emailSent |}
  end.

Definition adminRegisterResend (creator : CurrentUser) (email : string) : prog AuthW bool :=
  let action := "ADMIN_REGISTRATION_RESENT" in
  assertSuperAdmin creator action [] ;;
  email ← throw_outcome (normalizeEmailOrThrow email);
  admin ← user_by_email email;
  admin ← require admin (NotFound "registration_not_found");
  assertRegistrationOpen admin creator action ;;
  assertInviteResendCooldown admin ;;
  emailSent ← issueRegistrationInvite (u_id admin) email;
  audit_done creator action admin
    [("context", JStr "registration_resent"); ("emailSent", JBool emailSent)] [] ;;
  mret emailSent.

(** The events of a registration that is completed, or not. *)
Definition audit_registration (admin : option User) (outcome severity : option string)
    (diff : list (string * json)) : prog AuthW () :=
  audit_user (u_id <$> admin) None (resolveActorType (from_option role_names [] admin))
    "PASSWORD_CHANGED" outcome severity admin diff [].
Definition registration_failed {A} (admin : option User) (reason code : string)
    : prog AuthW A :=
  audit_registration admin (Some "FAILURE") (Some "WARNING")
    [("result", JStr "failure"); ("context", JStr "admin_registration_completed");
     ("reason", JStr reason)] ;;
  Throw (BadRequest code).

Definition awaiting (hash : string) (u : User) : bool :=
  bool_decide (u_passwordHash u = None) && bool_decide (u_inviteTokenHash u = Some hash).
Definition upd_registered (passwordHash : string) (u : User) : User :=
  u{{u_passwordHash := Some passwordHash}}{{u_isEmailVerified := true}}{{u_isActive := true}}
   {{u_inviteTokenHash := None}}{{u_inviteTokenExpiresAt := None}}.

Definition adminCompleteRegistration (registrationToken password : string)
    : prog AuthW TokenPair :=
  let hash := hashOpaqueToken cfg registrationToken other_token in
  admin ← user_by_invite hash;
  match admin with
  | None => registration_failed None "invalid_registration_token"
              "invalid_or_expired_registration_token"
  | Some admin =>
      t ← now;
      if match u_inviteTokenExpiresAt admin with Some e => e <? t | None => true end then
        registration_failed (Some admin) "expired_registration_token"
          "invalid_or_expired_registration_token"
      else if truthy (default "" (u_passwordHash admin)) then
        registration_failed (Some admin) "registration_token_already_used"
          "registration_token_already_used"
      else
      checkAdminPassword password [u_email admin; u_name admin] ;;
      hashedPassword ← bcryptHash password 10;
      activated ← user_claim (u_id admin) (awaiting hash) (upd_registered hashedPassword);
      if activated =? 0 then Throw (BadRequest "registration_token_already_used") else
      audit_registration (Some admin) None None
        [("result", JStr "success"); ("context", JStr "admin_registration_completed")] ;;
      match u_email admin with
      | Some (Str _ _ as e) =>
          issueTokens cfg (u_id admin) None (Some e) (role_names admin)
            (derivePermissions (u_userRoles admin)) None None
      | _ => Throw (BadRequest "admin_email_missing")
      end
  end.

Definition adminCancelRegistration (actor : CurrentUser) (email : string) : prog AuthW () :=
  let action := "ADMIN_REGISTRATION_CANCELLED" in
  assertSuperAdmin actor action [] ;;
  email ← throw_outcome (normalizeEmailOrThrow email);
  admin ← user_by_email email;
  admin ← require admin (NotFound "registration_not_found");
  assertRegistrationOpen admin actor action ;;
  user_delete (u_id admin) ;;
  emitAudit {|
    aa_userId := Some (cu_id actor); aa_targetUserId := None; aa_actorType := actor_type actor;
    aa_action := action; aa_outcome := None; aa_severity := None; aa_entity := "User";
    aa_entityId := Some (u_id admin); aa_entityLabel := Some email;
    aa_diff := [("result", JStr "success"); ("context", JStr "registration_cancelled")];
    aa_metadata := [] |}.

(** ** Promotion *)

Definition new_link (userId : string) (purpose : UserOtpPurpose) (minutes_ : Z)
    : prog AuthW (string * UserOtp) :=
  token ← rawToken;
  t ← now;
  close_otps userId purpose ;;
  otp ← otp_create userId (hashOpaqueToken cfg token other_token) purpose (t + minutes minutes_);
  mret (token, otp).

(** The link that a promotion sends, once the account and the address are settled. *)
Definition send_promotion (actor : CurrentUser) (action context : string) (user : User)
    (email : string) : prog AuthW bool :=
  link ← new_link (u_id user) promotion_verification PROMOTION_TOKEN_EXPIRES_MINUTES;
  emailSent ← send_link email (PromotionEmail
    (c_adminUrl cfg +:+ "/admin/promote/verify?token=" +:+ link.1)
    (PROMOTION_TOKEN_EXPIRES_MINUTES / 60));
  audit_done actor action user [("context", JStr context)]
    [("promotionOtpId", JStr (o_id link.2)); ("promotionEmail", JStr email);
     ("emailSent", JBool emailSent)] ;;
  mret emailSent.

Definition promoteUserInitiate (actor : CurrentUser) (phone email : string)
    : prog AuthW bool :=
  let action := "USER_PROMOTION_INITIATED" in
  assertSuperAdmin actor action [] ;;
  phone ← throw_outcome (normalizePhoneOrThrow phone);
  email ← throw_outcome (normalizeEmailOrThrow email);
  user ← user_by_phone phone;
  user ← require user (NotFound "user_not_found");
  if negb (u_isActive user) then
    refuse actor action user "user_inactive" [] "user_not_eligible_for_promotion"
  else if negb (u_isPhoneVerified user) then
    refuse actor action user "phone_not_verified" [] "user_not_eligible_for_promotion"
  else if hasAdminRole (role_names user) then
    refuse actor action user "user_already_admin"
      [("existingRoles", names_json (role_names user))] "user_already_admin"
  else
  emailInUse ← user_by_email email;
  match (match emailInUse with
         | Some other => if bool_decide (u_id other = u_id user) then None else Some other
         | None => None
         end) with
  | Some other =>
      refuse actor action user "email_already_registered"
        [("attemptedEmail", JStr email); ("conflictingUserId", JStr (u_id other))]
        "email_already_registered"
  | None =>
      user_update (u_id user) (λ _ u, u{{u_pendingEmail := Some email}}) ;;
      send_promotion actor action "promotion_initiated" user email
  end.

Definition promoteUserResend (actor : CurrentUser) (phone : string) : prog AuthW bool :=
  let action := "USER_PROMOTION_RESENT" in
  assertSuperAdmin actor action [] ;;
  phone ← throw_outcome (normalizePhoneOrThrow phone);
  user ← user_by_phone phone;
  user ← require user (NotFound "user_not_found");
  match promotionTargetEmail user with
  | None => refuse actor action user "promotion_not_initiated" [] "promotion_not_initiated"
  | Some targetEmail =>
      if hasAdminRole (role_names user) then
        refuse actor action user "user_already_admin"
          [("existingRoles", names_json (role_names user))] "user_already_admin"
      else
      assertPromotionResendAllowed (u_id user) ;;
      send_promotion actor action "promotion_resent" user targetEmail
  end.

Definition fail_promotion {A} (otp : UserOtp) (user : User) (reason code : string)
    : prog AuthW A :=
  audit_otp (Some (u_id user)) (resolveActorType (role_names user)) "OTP_VERIFIED"
    (Some "FAILURE") (Some "WARNING") (Some otp) (userLabel user)
    (("purpose", JStr "promotion_verification") :: result_diff "failure" reason) [] ;;
  Throw (BadRequest code).

Definition eligible (u : User) : bool :=
  u_isActive u && bool_decide (u_deletedAt u = None) && bool_decide (u_anonymizedAt u = None).
Definition upd_promoted (email passwordHash : string) (u : User) : User :=
  u{{u_email := Some email}}{{u_pendingEmail := None}}{{u_isEmailVerified := true}}
   {{u_passwordHash := Some passwordHash}}.

(** The person as they are now, the role, the sessions. *)
Definition promote_rest (otp : UserOtp) (user : User) (email passwordHash : string)
    (adminRole : UserRole) : prog AuthW () :=
  current ← user_by_id (u_id user);
  match (match current with
         | Some u => if eligible u then Some u else None | None => None end) with
  | None => fail_promotion otp user "user_no_longer_eligible"
              "user_not_eligible_for_promotion"
  | Some current =>
      if hasAdminRole (role_names current) then
        fail_promotion otp user "user_already_admin" "user_already_admin"
      else
      user_write (u_id user) (upd_promoted email passwordHash) ;;
      userRole_create (u_id user) adminRole ;;
      session_deleteMany (session_of_user (u_id user)) ;;
      mret ()
  end.
(** The transaction: the link first. *)
Definition promote (otp : UserOtp) (user : User) (email passwordHash : string)
    (adminRole : UserRole) : prog AuthW () :=
  tx (claimed ← otp_claim (o_id otp) otp_claimable_link upd_used;
      if claimed =? 0 then
        fail_promotion otp user "token_already_claimed" "invalid_or_expired_token"
      else promote_rest otp user email passwordHash adminRole).

Definition promoteUserVerify (token password : string) : prog AuthW () :=
  let hash := hashOpaqueToken cfg token other_token in
  found ← otp_by_hash hash promotion_verification;
  match found with
  | None =>
      audit_otp None (resolveActorType []) "OTP_VERIFIED" (Some "FAILURE") (Some "WARNING")
        None (Some "promotion_verification")
        (("purpose", JStr "promotion_verification") ::
         result_diff "failure" "invalid_or_expired_token") [] ;;
      Throw (BadRequest "invalid_or_expired_token")
  | Some (otp, user) =>
      match promotionTargetEmail user with
      | None => fail_promotion otp user "promotion_not_initiated" "invalid_or_expired_token"
      | Some targetEmail =>
          adminRole ← role_by_name ADMIN;
          match adminRole with
          | None => fail_promotion otp user "admin_role_not_configured"
                      "admin_role_not_configured"
          | Some adminRole =>
              checkAdminPassword password [Some targetEmail; u_name user] ;;
              passwordHash ← bcryptHash password 10;
              catch (promote otp user targetEmail passwordHash adminRole)
                (λ e, if isUniqueConstraintError e then
                        fail_promotion otp user "email_already_registered"
                          "email_already_registered"
                      else Throw e) ;;
              purgeUserCache (c_keyPrefix cfg) (u_id user) ;;
              audit_otp (Some (u_id user)) (resolveActorType (role_names user ++ [ADMIN]))
                "OTP_VERIFIED" None None (Some otp) (userLabel user)
                [("purpose", JStr "promotion_verification"); ("result", JStr "success");
                 ("previousRoles", names_json (role_names user)); ("addedRole", JStr ADMIN);
                 ("retainedRoles", names_json (role_names user)); ("passwordSet", JBool true);
                 ("sessionsRevoked", JBool true)]
                [("promotedEmail", JStr targetEmail)]
          end
      end
  end.

Definition upd_not_pending (legacy : bool) (u : User) : User :=
  if legacy then u{{u_pendingEmail := None}}{{u_email := None}} else u{{u_pendingEmail := None}}.
Definition promoteUserCancel (actor : CurrentUser) (phone : string) : prog AuthW () :=
  let action := "USER_PROMOTION_CANCELLED" in
  assertSuperAdmin actor action [] ;;
  phone ← throw_outcome (normalizePhoneOrThrow phone);
  user ← user_by_phone phone;
  user ← require user (NotFound "user_not_found");
  if hasAdminRole (role_names user) then
    refuse actor action user "promotion_already_completed" [] "promotion_already_completed"
  else
  pending ← gets (λ w, find_row (open_otp (u_id user) promotion_verification) (aw_otps w));
  throw_if (negb (bool_decide (is_Some pending))) (NotFound "no_pending_promotion") ;;
  let legacy := negb (truthy (default "" (u_pendingEmail user))) &&
                truthy (default "" (u_email user)) && negb (u_isEmailVerified user) in
  tx (close_otps (u_id user) promotion_verification ;;
      user_update (u_id user) (λ _, upd_not_pending legacy) ;;
      mret ()) ;;
  audit_done actor action user [("context", JStr "promotion_cancelled")]
    [("cancelledEmail", json_opt (promotionTargetEmail user))].

(** ** Password login *)

Definition audit_admin_login (user : User) (action : string)
    (outcome severity : option string) (diff : list (string * json)) : prog AuthW () :=
  audit_user (Some (u_id user)) None (resolveActorType (role_names user)) action outcome
    severity (Some user)
    (("method", JStr "password") :: ("context", JStr "admin_login_email") :: diff) [].
Definition admin_login_failed (user : User) (outcome reason : string) : prog AuthW () :=
  audit_admin_login user "LOGIN_FAILED" (Some outcome) (Some "WARNING")
    (result_diff "failed" reason).
(** An account that this login does not take, with the reason for the audit. *)
Definition no_admin_login (user : option User) : option string :=
  match user with
  | None => Some "unknown_account"
  | Some u =>
      if negb (hasAdminRole (role_names u)) then Some "not_an_admin"
      else if negb (truthy (default "" (u_passwordHash u))) then Some "password_not_set"
      else if negb (u_isEmailVerified u) then Some "email_not_verified"
      else None
  end.

Definition adminLoginByEmail (email password : string) : prog AuthW TokenPair :=
  email ← throw_outcome (normalizeEmailOrThrow email);
  user ← user_by_email email;
  match no_admin_login user, user with
  | None, Some user =>
      catch (assertNotLocked user)
        (λ err, admin_login_failed user "DENIED" "account_locked" ;; Throw err) ;;
      if negb (u_isActive user) then
        admin_login_failed user "DENIED" "account_inactive" ;;
        Throw (Unauthorized "account_inactive")
      else if negb (bcrypt_compare password (default "" (u_passwordHash user))) then
        recordFailedLogin cfg (u_id user) ;;
        admin_login_failed user "FAILURE" "wrong_password" ;;
        Throw (Unauthorized "invalid_credentials")
      else
      resetLoginAttempts cfg user ;;
      audit_admin_login user "LOGIN_SUCCESS" None None [("result", JStr "success")] ;;
      tokens_for cfg user
  | reason, _ =>
      audit_user (u_id <$> user) None (resolveActorType (from_option role_names [] user))
        "LOGIN_FAILED" (Some "FAILURE") (Some "WARNING") user
        (("method", JStr "password") :: ("context", JStr "admin_login_email") ::
         result_diff "failed" (default "" reason))
        [("attemptedEmail", JStr email)] ;;
      Throw (Unauthorized "invalid_credentials")
  end.

(** ** The password *)

Definition send_admin_otp (user : User) (email_ : string) (purpose : UserOtpPurpose)
    : prog AuthW string :=
  issueAndSendOtp cfg (u_id user) email_ purpose email
    {| oo_adminEmail := true; oo_recipientName := u_name user |}.

Definition adminForgotPassword (email : string) : prog AuthW string :=
  email ← throw_outcome (normalizeEmailOrThrow email);
  user ← user_by_email email;
  match user with
  | Some u =>
      if hasAdminRole (role_names u) && u_isActive u then send_admin_otp u email password_reset
      else
        audit_user (Some (u_id u)) None (resolveActorType (role_names u)) "PASSWORD_RESET"
          (Some "DENIED") (Some "WARNING") (Some u)
          [("result", JStr "denied"); ("context", JStr "admin_forgot_password");
           ("reason", JStr (if negb (hasAdminRole (role_names u)) then "not_an_admin"
                            else "account_inactive"))]
          [("attemptedEmail", JStr email)] ;;
        mret ""
  | None =>
      audit_user None None (resolveActorType []) "PASSWORD_RESET" (Some "DENIED")
        (Some "INFO") None
        [("result", JStr "denied"); ("context", JStr "admin_forgot_password");
         ("reason", JStr "unknown_account")] [("attemptedEmail", JStr email)] ;;
      mret ""
  end.

Definition adminResendForgotPasswordOtp (verificationId : string) : prog AuthW string :=
  found ← otp_with_user verificationId;
  match found with
  | None => Throw (BadRequest "invalid_verification")
  | Some (oldOtp, user) =>
      if negb (bool_decide (o_purpose oldOtp = password_reset)) ||
         bool_decide (is_Some (o_usedAt oldOtp))
      then Throw (BadRequest "invalid_verification")
      else
      match u_email user with
      | Some (Str _ _ as e) =>
          if negb (u_isActive user) || negb (hasAdminRole (role_names user))
          then Throw (BadRequest "invalid_verification")
          else
          t ← now;
          throw_if (t - o_createdAt oldOtp <? cooldown_ms) (BadRequest "resend_too_soon") ;;
          t ← now;
          recent ← gets (λ w, length (recent_otps (o_userId oldOtp) password_reset t w));
          throw_if (OTP_RESEND_HOURLY_CAP <=? recent)%nat
            (BadRequest "too_many_resend_requests") ;;
          send_admin_otp user e password_reset
      | _ => Throw (BadRequest "invalid_verification")
      end
  end.

(** The handlers of a reset and of a change differ in their names only. *)
Record PasswordFlow := {
  pf_purpose : UserOtpPurpose;
  pf_action : string;
  pf_context : string;
  pf_mail : string;
}.
Definition reset_flow : PasswordFlow :=
  {| pf_purpose := password_reset; pf_action := "PASSWORD_RESET";
     pf_context := "admin_reset_password"; pf_mail := "reset" |}.
Definition change_flow : PasswordFlow :=
  {| pf_purpose := password_change; pf_action := "PASSWORD_CHANGED";
     pf_context := "admin_change_password_completed"; pf_mail := "changed" |}.

Definition audit_code (flow : PasswordFlow) (outcome : string) (found : option (UserOtp * User))
    (result reason : string) (metadata : list (string * json)) : prog AuthW () :=
  let purpose := purpose_name (pf_purpose flow) in
  audit_otp (u_id <$> (snd <$> found))
    (resolveActorType (from_option (λ ou, role_names ou.2) [] found)) "OTP_VERIFIED"
    (Some outcome) (Some "WARNING") (fst <$> found)
    (match found with Some (_, u) => userLabel u | None => Some (purpose +:+ " OTP") end)
    (("purpose", JStr purpose) :: result_diff result reason) metadata.
Definition reject_code {A} (flow : PasswordFlow) (outcome : string)
    (found : option (UserOtp * User)) (result reason : string)
    (metadata : list (string * json)) : prog AuthW A :=
  audit_code flow outcome found result reason metadata ;;
  Throw (BadRequest "invalid_or_expired_otp").

(** Why a code cannot be entered at all. *)
Definition dead_code (flow : PasswordFlow) (t : Z) (o : UserOtp) : option string :=
  if negb (bool_decide (o_purpose o = pf_purpose flow)) then Some "wrong_purpose"
  else if bool_decide (is_Some (o_usedAt o)) then Some "already_used"
  else if o_expiresAt o <? t then Some "expired" else None.

Definition otp_abuse (flow : PasswordFlow) (otp : UserOtp) (user : User) : prog AuthW () :=
  lockAccountForOtpAbuse cfg (u_id user) ;;
  emitOtpAbuseAlert (o_id otp) (u_id user) (purpose_name (pf_purpose flow)) (o_attempts otp).
Definition wrong_code {A} (flow : PasswordFlow) (otp : UserOtp) (user : User) : prog AuthW A :=
  updated ← otp_update (o_id otp) upd_otp_attempts;
  audit_code flow "FAILURE" (Some (otp, user)) "failure" "wrong_otp"
    [("attempts", JNum (o_attempts updated))] ;;
  (if MAX_OTP_ATTEMPTS <=? o_attempts updated then otp_abuse flow updated user else mret ()) ;;
  Throw (BadRequest "invalid_or_expired_otp").

(** The transaction: the code, the password, the sessions. *)
Definition set_password (flow : PasswordFlow) (otp : UserOtp) (user : User)
    (verificationId passwordHash : string) : prog AuthW () :=
  tx (claimed ← otp_claim verificationId otp_claimable_code upd_used;
      if claimed =? 0 then
        reject_code flow "FAILURE" (Some (otp, user)) "failure" "otp_already_claimed" []
      else
      user_update (u_id user) (λ _ u, u{{u_passwordHash := Some passwordHash}}) ;;
      session_deleteMany (session_of_user (u_id user)) ;;
      mret ()).

Definition verify_password_code (flow : PasswordFlow) (verificationId otp newPassword : string)
    : prog AuthW () :=
  found ← otp_with_user verificationId;
  match found with
  | None => reject_code flow "FAILURE" None "failure" "otp_not_found"
              [("attemptedVerificationId", JStr verificationId)]
  | Some (record, user) =>
      t ← now;
      match dead_code flow t record with
      | Some reason => reject_code flow "FAILURE" (Some (record, user)) "failure" reason []
      | None =>
          if negb (hasAdminRole (role_names user)) then
            reject_code flow "DENIED" (Some (record, user)) "denied" "otp_owner_not_admin" []
          else if MAX_OTP_ATTEMPTS <=? o_attempts record then
            otp_abuse flow record user ;;
            Throw (BadRequest "too_many_otp_attempts")
          else if negb (bcrypt_compare otp (o_otpHash record)) then wrong_code flow record user
          else
          checkAdminPassword newPassword [u_email user; u_name user] ;;
          hashedPassword ← bcryptHash newPassword 10;
          set_password flow record user verificationId hashedPassword ;;
          audit_user (Some (u_id user)) None (resolveActorType (role_names user))
            (pf_action flow) None None (Some user)
            [("method", JStr "otp"); ("result", JStr "success");
             ("context", JStr (pf_context flow))] [] ;;
          modify (push_event (PasswordNotice (pf_action flow) (u_id user))) ;;
          sendAdminPasswordSuccessEmail user (pf_mail flow)
      end
  end.
Definition adminResetPassword : string → string → string → prog AuthW () :=
  verify_password_code reset_flow.
Definition adminChangePasswordVerify : string → string → string → prog AuthW () :=
  verify_password_code change_flow.

Definition refuse_self {A} (actor : CurrentUser) (action severity : string) (admin : User)
    (diff metadata : list (string * json)) (code : string) : prog AuthW A :=
  audit_user (Some (cu_id actor)) None (actor_type actor) action (Some "FAILURE")
    (Some severity) (Some admin) (("result", JStr "failure") :: diff) metadata ;;
  Throw (BadRequest code).

Definition adminChangePasswordInitiate (actor : CurrentUser) (currentPassword : string)
    : prog AuthW string :=
  assertActorIsAdmin actor "PASSWORD_CHANGED" ;;
  admin ← user_by_id (cu_id actor);
  admin ← require admin (NotFound "user_not_found");
  let failed reason : prog AuthW string :=
    refuse_self actor "PASSWORD_CHANGED" "WARNING" admin
      [("context", JStr "admin_change_password_initiated"); ("reason", JStr reason)] []
      reason in
  match u_passwordHash admin with
  | Some (Str _ _ as hash) =>
      if negb (bcrypt_compare currentPassword hash) then failed "wrong_current_password"
      else
      match u_email admin with
      | Some (Str _ _ as e) => send_admin_otp admin e password_change
      | _ => failed "admin_email_missing"
      end
  | _ => failed "password_not_set"
  end.

(** ** The e-mail address *)

Definition send_email_change (userId email : string) : prog AuthW () :=
  link ← new_link userId email_verification EMAIL_CHANGE_TOKEN_EXPIRES_MINUTES;
  send_link email (EmailChangeEmail
    (c_adminUrl cfg +:+ "/admin/change-email/verify?token=" +:+ link.1) 1) ;;
  mret ().

Definition upd_new_email (email : string) (u : User) : User :=
  u{{u_email := Some email}}{{u_isEmailVerified := false}}.
Definition adminChangeEmailInitiate (actor : CurrentUser) (newEmail : string)
    : prog AuthW () :=
  let action := "ADMIN_EMAIL_CHANGE_INITIATED" in
  assertActorIsAdmin actor action ;;
  newEmail ← throw_outcome (normalizeEmailOrThrow newEmail);
  admin ← user_by_id (cu_id actor);
  admin ← require admin (NotFound "user_not_found");
  if bool_decide (u_email admin = Some newEmail) then
    refuse_self actor action "INFO" admin [("reason", JStr "email_unchanged")] []
      "email_unchanged"
  else
  emailInUse ← user_by_email newEmail;
  match (match emailInUse with
         | Some other => if bool_decide (u_id other = u_id admin) then None else Some other
         | None => None
         end) with
  | Some other =>
      refuse_self actor action "WARNING" admin [("reason", JStr "email_already_registered")]
        [("attemptedEmail", JStr newEmail); ("conflictingUserId", JStr (u_id other))]
        "email_already_registered"
  | None =>
      catch (user_write (u_id admin) (upd_new_email newEmail) ;; mret ())
        (λ e, if isUniqueConstraintError e then
                refuse_self actor action "WARNING" admin
                  [("reason", JStr "email_already_registered")]
                  [("attemptedEmail", JStr newEmail); ("detectedBy", JStr "unique_constraint")]
                  "email_already_registered"
              else Throw e) ;;
      send_email_change (u_id admin) newEmail ;;
      audit_user (Some (u_id admin)) None (actor_type actor) action None None (Some admin)
        [("result", JStr "success"); ("context", JStr "admin_email_change_initiated");
         ("previousEmail", json_opt (u_email admin)); ("newEmail", JStr newEmail)] []
  end.

Definition audit_email_change (userId : option string) (roles : list string)
    (outcome severity : option string) (otp : option UserOtp) (label : option string)
    (diff : list (string * json)) : prog AuthW () :=
  audit_otp userId (resolveActorType roles) "ADMIN_EMAIL_CHANGE_VERIFIED" outcome severity
    otp label (("purpose", JStr "email_change_verification") :: diff) [].
Definition email_change_failed {A} (otp : option UserOtp) (reason : string) : prog AuthW A :=
  audit_email_change (o_userId <$> otp) [] (Some "FAILURE") (Some "WARNING") otp
    (Some "email_change_verification") (result_diff "failure" reason) ;;
  Throw (BadRequest "invalid_or_expired_token").

Definition adminChangeEmailVerify (token : string) : prog AuthW () :=
  let hash := hashOpaqueToken cfg token other_token in
  found ← gets (λ w, find_row (live_otp hash email_verification (aw_now w)) (aw_otps w));
  match found with
  | None => email_change_failed None "invalid_or_expired_token"
  | Some otp =>
      verified ← tx (
        claimed ← otp_claim (o_id otp) otp_claimable_link upd_used;
        if claimed =? 0 then email_change_failed (Some otp) "token_already_claimed"
        else user_update (o_userId otp) (λ _ u, u{{u_isEmailVerified := true}}));
      audit_email_change (Some (o_userId otp)) (role_names verified) None None (Some otp)
        (u_email verified) [("result", JStr "success")]
  end.

Definition maskEmail (email : string) : string :=
  match split "@" email with
  | local :: Str c domain :: _ => slice 0 1 local +:+ "***@" +:+ Str c domain
  | _ => "***"
  end.
Definition adminChangeEmailResend (actor : CurrentUser) (newEmail : option string)
    : prog AuthW () :=
  let action := "ADMIN_EMAIL_CHANGE_INITIATED" in
  assertActorIsAdmin actor action ;;
  admin ← user_by_id (cu_id actor);
  admin ← require admin (NotFound "user_not_found");
  match u_email admin with
  | Some (Str _ _ as pending) =>
      if u_isEmailVerified admin then Throw (BadRequest "no_pending_email_change") else
      match newEmail with
      | Some (Str _ _ as e) =>
          e ← throw_outcome (normalizeEmailOrThrow e);
          throw_if (negb (bool_decide (e = pending)))
            (BadRequest "email_does_not_match_pending_change")
      | _ => mret ()
      end ;;
      last ← gets (λ w, latest (filter (λ o, o_userId o = u_id admin ∧
                                             o_purpose o = email_verification)
                                  (map_to_list (aw_otps w)).*2));
      t ← now;
      throw_if (match last with
                | Some o => t - o_createdAt o <? OTP_RESEND_COOLDOWN_MS | None => false end)
        (BadRequest "resend_too_soon") ;;
      send_email_change (u_id admin) pending ;;
      audit_user (Some (u_id admin)) None (actor_type actor) action None None (Some admin)
        [("result", JStr "success"); ("context", JStr "admin_email_change_resent")]
        [("pendingEmail", JStr (maskEmail pending))]
  | _ => Throw (BadRequest "no_pending_email_change")
  end.

(** ** Sessions and demotion *)

Definition adminLogout (actor : CurrentUser) (refreshToken : option string) : prog AuthW () :=
  assertActorIsAdmin actor "LOGOUT" ;;
  logout cfg actor refreshToken.
Definition adminRefresh (refreshToken : string) : prog AuthW TokenPair :=
  Auth.refresh cfg refreshToken.
Definition adminLogoutAll (actor : CurrentUser) : prog AuthW Z :=
  assertActorIsAdmin actor "LOGOUT" ;;
  logoutAll cfg actor.

Definition own_session_id (userId id : string) (s : Session) : bool :=
  bool_decide (s_id s = id) && bool_decide (s_userId s = userId).
Definition revokeMySession (actor : CurrentUser) (sessionId : string) : prog AuthW () :=
  assertActorIsAdmin actor "ADMIN_SESSION_REVOKED" ;;
  deleted ← session_deleteMany (own_session_id (cu_id actor) sessionId);
  throw_if (deleted =? 0) (NotFound "session_not_found") ;;
  purgeUserCache (c_keyPrefix cfg) (cu_id actor) ;;
  emitAudit {|
    aa_userId := Some (cu_id actor); aa_targetUserId := None; aa_actorType := actor_type actor;
    aa_action := "ADMIN_SESSION_REVOKED"; aa_outcome := None; aa_severity := None;
    aa_entity := "Session"; aa_entityId := Some sessionId; aa_entityLabel := None;
    aa_diff := [("result", JStr "success")]; aa_metadata := [] |}.

Definition deny_demotion {A} (actor : CurrentUser) (user : User) (code : string)
    : prog AuthW A :=
  audit_user (Some (cu_id actor)) (Some (u_id user)) (actor_type actor) "ADMIN_DEMOTED"
    (Some "DENIED") (Some "WARNING") (Some user) (result_diff "denied" code) [] ;;
  Throw (BadRequest code).

(** The transaction; what is left of the roles was computed before. *)
Definition demote (user : User) (needsUserRole : bool) : prog AuthW Z :=
  tx (userRole_delete (u_id user) ADMIN ;;
      (if needsUserRole then
         userRole ← role_by_name USER;
         userRole ← require userRole (BadRequest "user_role_not_configured");
         userRole_create (u_id user) userRole
       else mret ()) ;;
      session_deleteMany (session_of_user (u_id user))).

Definition demoteAdmin (actor : CurrentUser) (userId reason : string)
    : prog AuthW (list string) :=
  assertSuperAdmin actor "ADMIN_DEMOTED" [] ;;
  let reason := trim reason in
  throw_if (String.length reason <? 5)%nat (BadRequest "reason_required") ;;
  user ← user_by_id userId;
  user ← require user (NotFound "user_not_found");
  let roles := role_names user in
  if bool_decide (u_id user = cu_id actor) then deny_demotion actor user "cannot_demote_self"
  else if mem SUPER_ADMIN roles then deny_demotion actor user "cannot_demote_super_admin"
  else if negb (mem ADMIN roles) then deny_demotion actor user "user_is_not_admin"
  else
  let remaining := filter (λ name, name ≠ ADMIN) roles in
  let needsUserRole := bool_decide (remaining = []) in
  revoked ← demote user needsUserRole;
  purgeUserCache (c_keyPrefix cfg) (u_id user) ;;
  let remainingRoles := if needsUserRole then [USER] else remaining in
  audit_done actor "ADMIN_DEMOTED" user
    [("reason", JStr reason); ("previousRoles", names_json roles); ("removedRole", JStr ADMIN);
     ("remainingRoles", names_json remainingRoles)] [("sessionsRevoked", JNum revoked)] ;;
  mret remainingRoles.
End admin.
