(* ===== verification/Account.v ===== *)
(** * Accounts of users: the rest of [AuthService]

    Models the operations of src/modules/auth/service/auth.service.ts that open and change
    an account: the signup and its code, the sign-in through Google, Facebook and Apple
    (with src/common/utils/social-auth.util.ts), the forgotten and the changed password,
    the request for a reactivation, the linking of social accounts, and the enrolment,
    the end and the recovery codes of the second factor. [myPermissions], a read with no
    decision in it, is not modelled. The last section is [UserAccountService]
    (src/modules/core/user/service/user-account.service.ts): closing the account, ending
    sessions, changing the phone, unlinking a provider. *)

From S2P Require Import Prelude Js Redis Cache Roles TwoFactor AuthModel Credentials.
From S2P Require Import Auth PasswordPolicy AdminAuth.
From coqutil Require Import Datatypes.RecordSetters.
Import DoubleBraceUpdate.

Open Scope Z_scope.

Definition USER_OTP_RESEND_HOURLY_CAP : nat := 5.
Definition TWO_FACTOR_RECOVERY_CODE_COUNT : nat := 10.

Inductive SocialProvider := google | facebook | apple.
#[export] Instance SocialProvider_eq_dec : EqDecision SocialProvider.
Proof. solve_decision. Defined.
Definition provider_name (p : SocialProvider) : string :=
  match p with google => "google" | facebook => "facebook" | apple => "apple" end.

Record SocialProfile := {
  sp_providerId : string;
  sp_email : string;
  sp_emailVerified : bool;
  sp_name : option string;
}.

(** ** What the providers answer *)

Record GooglePayload := {
  gp_sub : option string; gp_email : option string; gp_email_verified : option bool;
  gp_name : option string }.
Record FacebookToken := { ft_is_valid : option bool; ft_app_id : option string }.
Record FacebookUser := {
  fu_id : option string; fu_name : option string; fu_email : option string }.
(** [email_verified] is a boolean or a string. *)
Record AppleClaims := {
  ac_sub : option string; ac_email : option string; ac_email_verified : option json }.

(** google-auth-library, verify-apple-id-token and Facebook's graph, at a time: what they
    answer, or that they throw. *)
Class SocialLib := {
  google_verifyIdToken : string → string → Z → outcome (option GooglePayload);
  facebook_debug_token : string → string → string → Z → outcome (option FacebookToken);
  facebook_me : string → Z → outcome (option FacebookUser);
  apple_verify : string → string → Z → outcome (option AppleClaims);
}.
Record SocialConfig := {
  sc_google_clientId : option string;
  sc_facebook_appId : option string;
  sc_facebook_appSecret : option string;
  sc_apple_clientId : option string;
}.

Section social.
Context `{SocialLib} (sc : SocialConfig).

(** [configService.getOrThrow] *)
Definition getOrThrow (v : option string) : outcome string :=
  match v with Some s => Ok s | None => Err (JsError "config_missing") end.
Definition present (v : option string) : option string :=
  match v with Some (Str c s) => Some (Str c s) | _ => None end.

Definition verifyGoogleIdToken (idToken : string) (t : Z) : outcome SocialProfile :=
  audience ← getOrThrow (sc_google_clientId sc);
  match google_verifyIdToken idToken audience t with
  | Ok (Some p) =>
      match present (gp_sub p), present (gp_email p) with
      | Some sub, Some mail =>
          Ok {| sp_providerId := sub; sp_email := toLowerCase mail;
                sp_emailVerified := default false (gp_email_verified p); sp_name := gp_name p |}
      | _, _ => Err (Unauthorized "invalid_google_token")
      end
  | _ => Err (Unauthorized "invalid_google_token")
  end.

Definition facebook_token_ok (appId : string) (d : option FacebookToken) : bool :=
  match d with
  | Some d => default false (ft_is_valid d) && bool_decide (ft_app_id d = Some appId)
  | None => false
  end.
Definition verifyFacebookAccessToken (accessToken : string) (t : Z) : outcome SocialProfile :=
  appId ← getOrThrow (sc_facebook_appId sc);
  appSecret ← getOrThrow (sc_facebook_appSecret sc);
  match facebook_debug_token accessToken appId appSecret t with
  | Err _ => Err (Unauthorized "invalid_facebook_token")
  | Ok tokenData =>
      if negb (facebook_token_ok appId tokenData)
      then Err (Unauthorized "invalid_facebook_token") else
      match facebook_me accessToken t with
      | Err _ => Err (Unauthorized "invalid_facebook_token")
      | Ok profile =>
          match profile ≫= λ p, present (fu_id p), profile ≫= λ p, present (fu_email p) with
          | Some id, Some mail =>
              Ok {| sp_providerId := id; sp_email := toLowerCase mail;
                    sp_emailVerified := true; sp_name := profile ≫= fu_name |}
          | _, _ => Err (Unauthorized "facebook_email_required")
          end
      end
  end.

Definition apple_email_verified (v : option json) : bool :=
  match v with Some (JBool b) => b | Some (JStr s) => bool_decide (s = "true") | _ => false end.
Definition verifyAppleIdToken (idToken : string) (nameFromClient : option string) (t : Z)
    : outcome SocialProfile :=
  clientId ← getOrThrow (sc_apple_clientId sc);
  match apple_verify idToken clientId t with
  | Ok (Some c) =>
      match present (ac_sub c), present (ac_email c) with
      | Some sub, Some mail =>
          Ok {| sp_providerId := sub; sp_email := toLowerCase mail;
                sp_emailVerified := apple_email_verified (ac_email_verified c);
                sp_name := nameFromClient |}
      | _, _ => Err (Unauthorized "invalid_apple_token")
      end
  | _ => Err (Unauthorized "invalid_apple_token")
  end.
End social.

(** [socialColumn] and [socialData] *)
Definition socialColumn (p : SocialProvider) : User → option string :=
  match p with google => u_googleId | facebook => u_facebookId | apple => u_appleId end.
Definition socialData (p : SocialProvider) (value : option string) (u : User) : User :=
  match p with
  | google => u{{u_googleId := value}}
  | facebook => u{{u_facebookId := value}}
  | apple => u{{u_appleId := value}}
  end.

(** ** Statements *)

Section statements.
Context `{AuthLib}.

(** [user.create] with the defaults of the columns. *)
Definition blank_user (role : UserRole) (id : string) : User :=
  {| u_id := id; u_name := None; u_phone := None; u_email := None;
     u_isActive := true; u_isPhoneVerified := false; u_passwordHash := None;
     u_failedLoginAttempts := 0; u_lockedUntil := None; u_discreetModeEnabled := false;
     u_discreetModePasscodeHash := None; u_userRoles := [role]; u_isEmailVerified := false;
     u_pendingEmail := None; u_inviteTokenHash := None; u_inviteTokenExpiresAt := None;
     u_deletedAt := None; u_anonymizedAt := None;
     u_googleId := None; u_facebookId := None; u_appleId := None; u_twoFactorRequiredAt := None;
     u_pendingPhone := None |}.
Definition signup_user (name : option string) (phone passwordHash : string) (role : UserRole)
    (id : string) : User :=
  (blank_user role id){{u_name := name}}{{u_phone := Some phone}}
    {{u_passwordHash := Some passwordHash}}.
Definition social_user (provider : SocialProvider) (profile : SocialProfile) (role : UserRole)
    (id : string) : User :=
  socialData provider (Some (sp_providerId profile))
    ((blank_user role id)
      {{u_name := match sp_name profile with
                  | Some n => Some n | None => head (split "@" (sp_email profile)) end}}
      {{u_email := Some (sp_email profile)}}{{u_isEmailVerified := true}}).

(** [userOtp.create] of a code sent by SMS. *)
Definition sms_code_create (userId otpHash : string) (purpose : UserOtpPurpose)
    (expiresAt : Z) : prog AuthW UserOtp :=
  id ← randomUUID;
  act_outcome (λ w,
    let o := {| o_id := id; o_userId := userId; o_purpose := purpose; o_channel := sms;
                o_otpHash := otpHash; o_expiresAt := expiresAt; o_attempts := 0;
                o_usedAt := None; o_createdAt := aw_now w |} in
    if bool_decide (is_Some (aw_otps w !! id)) then (Err P2002, w)
    else if bool_decide (is_Some (aw_users w !! userId))
    then (Ok o, set_otps (insert id o) w)
    else (Err (PrismaKnown "P2003" []), w)).

(** [twoFactorSecret.upsert] and [delete] *)
Definition new_secret (secretEncrypted : string) : TwoFactorSecret :=
  {| ts_method := TOTP; ts_secretEncrypted := secretEncrypted; ts_isEnabled := false;
     ts_lastUsedStep := None |}.
Definition upd_secret (secretEncrypted : string) (s : TwoFactorSecret) : TwoFactorSecret :=
  {| ts_method := ts_method s; ts_secretEncrypted := secretEncrypted; ts_isEnabled := false;
     ts_lastUsedStep := None |}.
Definition upd_enabled (step : Z) (s : TwoFactorSecret) : TwoFactorSecret :=
  {| ts_method := ts_method s; ts_secretEncrypted := ts_secretEncrypted s; ts_isEnabled := true;
     ts_lastUsedStep := Some step |}.
Definition secret_upsert (userId secretEncrypted : string) : prog AuthW () :=
  act_outcome (λ w,
    match aw_secrets w !! userId with
    | Some s => (Ok (), set_secrets (insert userId (upd_secret secretEncrypted s)) w)
    | None =>
        if bool_decide (is_Some (aw_users w !! userId))
        then (Ok (), set_secrets (insert userId (new_secret secretEncrypted)) w)
        else (Err (PrismaKnown "P2003" []), w)
    end).
Definition secret_delete (userId : string) : prog AuthW () :=
  act_outcome (λ w,
    if bool_decide (is_Some (aw_secrets w !! userId))
    then (Ok (), set_secrets (delete userId) w) else (Err P2025, w)).

(** [twoFactorRecoveryCode.deleteMany] of a user, and the rows of [createMany]. *)
Definition codes_delete (userId : string) : prog AuthW () :=
  modify (set_codes (filter (λ '(_, c), rc_userId c ≠ userId))).
Definition code_create (userId codeHash : string) : prog AuthW () :=
  id ← randomUUID;
  act_outcome (λ w,
    if bool_decide (is_Some (aw_codes w !! id)) then (Err P2002, w)
    else if bool_decide (is_Some (aw_users w !! userId))
    then (Ok (), set_codes (insert id {| rc_id := id; rc_userId := userId;
                                         rc_codeHash := codeHash; rc_usedAt := None |}) w)
    else (Err (PrismaKnown "P2003" []), w)).

(** [randomBytes(n)] *)
Definition randomBytes (n : nat) : prog AuthW (list Z) :=
  act (λ w, (random_bytes (draw w).1 n, (draw w).2)).
Definition bytes_string (bs : list Z) : string :=
  str_of_list ((λ b, ascii_of_nat (Z.to_nat b)) <$> bs).
Fixpoint randomBytesTimes (count n : nat) : prog AuthW (list (list Z)) :=
  match count with
  | O => mret []
  | S count =>
      bytes ← randomBytes n;
      rest ← randomBytesTimes count n;
      mret (bytes :: rest)
  end.
Fixpoint codes_createMany (userId : string) (hashes : list string) : prog AuthW () :=
  match hashes with
  | [] => mret ()
  | h :: hashes => code_create userId h ;; codes_createMany userId hashes
  end.
Definition issueRecoveryCodes (userId : string) : prog AuthW (list string) :=
  random ← randomBytesTimes TWO_FACTOR_RECOVERY_CODE_COUNT 12;
  let codes := generateRecoveryCodes random in
  codes_delete userId ;;
  codes_createMany userId (hashRecoveryCode sha256_hex <$> codes) ;;
  mret codes.
End statements.

Section account.
Context `{AuthLib} `{SecretBox} (cfg : AuthConfig).

(** ** Helpers *)

Definition userPasswordMinLength : nat := c_passwordMinLength cfg.
Definition checkUserPassword (password : string) (personal : list (option string))
    : prog AuthW () :=
  throw_outcome (assertStrongPassword password
    {| pc_minLength := userPasswordMinLength; pc_personal := omap id personal |}).
Definition hashUserPassword (password : string) : prog AuthW string :=
  bcryptHash password (c_bcryptSaltRounds cfg).

(** The events on an account; [None] leaves the field out. *)
Definition audit_account (userId target : option string) (roles : list string)
    (action : string) (outcome severity : option string) (entityId label : option string)
    (diff metadata : list (string * json)) : prog AuthW () :=
  emitAudit {|
    aa_userId := userId; aa_targetUserId := target; aa_actorType := resolveActorType roles;
    aa_action := action; aa_outcome := outcome; aa_severity := severity; aa_entity := "User";
    aa_entityId := entityId; aa_entityLabel := label; aa_diff := diff; aa_metadata := metadata |}.

(** A code by SMS to the phone of the account. *)
Definition send_code (user : User) (purpose : UserOtpPurpose) : prog AuthW string :=
  phone ← requirePhone (u_phone user);
  issueAndSendOtp cfg (u_id user) phone purpose sms no_options.

(** ** Signup *)

Definition signup_failed {A} (severity reason : string) (metadata : list (string * json))
    : prog AuthW A :=
  audit_account None None [] "USER_CREATED" (Some "FAILURE") (Some severity) None None
    (result_diff "failure" reason) metadata ;;
  Throw (BadRequest reason).

(** The transaction: the account with its role, and the first code. *)
Definition signup_tx (name : option string) (phone hashedPassword : string) (role : UserRole)
    : prog AuthW (string * string * User) :=
  tx (user ← user_create (signup_user name phone hashedPassword role);
      otp ← generateOtp;
      otpHash ← bcryptHash otp (c_bcryptOtpSaltRounds cfg);
      t ← now;
      userOtp ← sms_code_create (u_id user) otpHash phone_verification
                  (t + c_otp_expiresInMinutes cfg * 60 * 1000);
      mret (o_id userOtp, otp, user)).

Definition signup (name : option string) (phone password : string) : prog AuthW string :=
  phone ← throw_outcome (normalizePhoneOrThrow phone);
  existing ← user_by_phone phone;
  match existing with
  | Some existing =>
      if u_isPhoneVerified existing then
        audit_account None (Some (u_id existing)) [] "USER_CREATED" (Some "FAILURE")
          (Some "INFO") (Some (u_id existing)) (u_name existing)
          (result_diff "failure" "phone_already_registered") [] ;;
        Throw (BadRequest "phone_already_registered")
      else send_code existing phone_verification
  | None =>
      userRole ← role_by_name USER;
      match userRole with
      | None => signup_failed "CRITICAL" "user_role_not_configured"
                  [("attemptedPhone", JStr (maskPhone phone))]
      | Some role =>
          checkUserPassword password [Some phone] ;;
          hashedPassword ← hashUserPassword password;
          result ← catch (signup_tx name phone hashedPassword role)
            (λ e, if isUniqueConstraintError e then
                    signup_failed "INFO" "phone_already_registered"
                      [("attemptedPhone", JStr (maskPhone phone)); ("raceLost", JBool true)]
                  else Throw e);
          let '(verificationId, otp, user) := result in
          sent ← attempt (
            to ← requirePhone (u_phone user);
            sendSms to (renderOtpSms (c_appName cfg) otp (c_otp_expiresInMinutes cfg)
                          (Some phone_verification)));
          audit_account (Some (u_id user)) None [ur_name role] "USER_CREATED" None None
            (Some (u_id user)) name [("result", JStr "success")]
            [("otpChannel", JStr "sms"); ("smsDelivered", JBool (is_ok sent))] ;;
          mret verificationId
      end
  end.

(** ** The codes of the signup and of the passwords *)

(** What the endpoints that take a code differ in. *)
Record CodeFlow := {
  cf_action : string;
  cf_purpose : UserOtpPurpose;
  cf_stage : list (string * json);
}.
Definition signup_code : CodeFlow :=
  {| cf_action := "OTP_VERIFIED"; cf_purpose := phone_verification; cf_stage := [] |}.
Definition reset_code : CodeFlow :=
  {| cf_action := "PASSWORD_RESET"; cf_purpose := password_reset; cf_stage := [] |}.
Definition change_code : CodeFlow :=
  {| cf_action := "PASSWORD_CHANGED"; cf_purpose := password_change;
     cf_stage := [("stage", JStr "verify")] |}.

Definition refuse_code {A} (flow : CodeFlow) (reason outcome severity : string)
    (found : option (UserOtp * User)) (metadata : list (string * json)) : prog AuthW A :=
  emitOtpRejected (cf_action flow) reason outcome severity (fst <$> found) (snd <$> found)
    (metadata ++ cf_stage flow) ;;
  Throw (BadRequest "invalid_or_expired_otp").

(** From the purpose to the comparison of the code. *)
Definition check_code (flow : CodeFlow) (record : UserOtp) (user : User) (otp : string)
    : prog AuthW () :=
  let refuse reason outcome severity metadata : prog AuthW () :=
    refuse_code flow reason outcome severity (Some (record, user)) metadata in
  if negb (bool_decide (o_purpose record = cf_purpose flow)) then
    refuse "otp_purpose_mismatch" "DENIED" "WARNING"
      [("expectedPurpose", JStr (purpose_name (cf_purpose flow)))]
  else if bool_decide (is_Some (o_usedAt record)) then
    refuse "otp_already_used" "DENIED" "WARNING" []
  else
  t ← now;
  if o_expiresAt record <? t then refuse "otp_expired" "DENIED" "INFO" []
  else if c_otp_maxAttempts cfg <=? o_attempts record then
    lockAccountForOtpAbuse cfg (u_id user) ;;
    emitOtpLockout record user ;;
    Throw (BadRequest "too_many_otp_attempts")
  else if negb (bcrypt_compare otp (o_otpHash record)) then
    updated ← otp_update (o_id record) upd_otp_attempts;
    (if c_otp_maxAttempts cfg <=? o_attempts updated then
       lockAccountForOtpAbuse cfg (u_id user) ;;
       emitOtpLockout updated user
     else
       emitOtpRejected (cf_action flow) "invalid_otp" "FAILURE" "WARNING" (Some updated)
         (Some user) (cf_stage flow)) ;;
    Throw (BadRequest "invalid_or_expired_otp")
  else mret ().

(** The transaction that uses the code up, and what it is for. *)
Definition spend_code {A} (flow : CodeFlow) (record : UserOtp) (user : User)
    (verificationId : string) (then_ : prog AuthW A) : prog AuthW A :=
  tx (claimed ← otp_claim verificationId (otp_claimable cfg) upd_used;
      if claimed =? 0 then
        refuse_code flow "otp_claim_conflict" "FAILURE" "WARNING" (Some (record, user)) []
      else then_).

Definition verifySignupOtp (phone verificationId otp : string) : prog AuthW TokenPair :=
  phone ← throw_outcome (normalizePhoneOrThrow phone);
  found ← otp_with_user verificationId;
  match found with
  | None => refuse_code signup_code "otp_not_found" "DENIED" "WARNING" None
              [("attemptedVerificationId", JStr verificationId)]
  | Some (record, user) =>
      if negb (bool_decide (u_phone user = Some phone)) then
        refuse_code signup_code "phone_mismatch" "DENIED" "WARNING" (Some (record, user))
          [("attemptedPhone", JStr (maskPhone phone))]
      else
      check_code signup_code record user otp ;;
      spend_code signup_code record user (o_id record)
        (user_update (u_id user) (λ _ u, u{{u_isPhoneVerified := true}}) ;; mret ()) ;;
      emitAudit {|
        aa_userId := Some (u_id user); aa_targetUserId := None;
        aa_actorType := resolveActorType (role_names user); aa_action := "OTP_VERIFIED";
        aa_outcome := None; aa_severity := None; aa_entity := "UserOtp";
        aa_entityId := Some (o_id record);
        aa_entityLabel := Some (purpose_name (o_purpose record) +:+ " OTP");
        aa_diff := [("result", JStr "success");
                    ("previousIsPhoneVerified", JBool (u_isPhoneVerified user));
                    ("currentIsPhoneVerified", JBool true)];
        aa_metadata := [("purpose", JStr (purpose_name (o_purpose record)))] |} ;;
      issueTokens cfg (u_id user) (u_phone user) None (role_names user)
        (derivePermissions (u_userRoles user)) None None
  end.

Definition resendSignupOtp (verificationId : string) : prog AuthW string :=
  found ← otp_with_user verificationId;
  match found with
  | Some (oldOtp, user) =>
      if negb (bool_decide (o_purpose oldOtp = phone_verification))
      then Throw (BadRequest "invalid_verification") else
      throw_if (bool_decide (is_Some (o_usedAt oldOtp))) (BadRequest "phone_already_verified") ;;
      send_code user phone_verification
  | None => Throw (BadRequest "invalid_verification")
  end.

Inductive SignupStatus :=
| StatusUnknown
| StatusVerified
| StatusOpen (expired : bool) (expiresAt : Z) (phone : option string).
Definition signupStatus (verificationId : string) : prog AuthW SignupStatus :=
  found ← otp_with_user verificationId;
  match found with
  | Some (otp, user) =>
      if negb (bool_decide (o_purpose otp = phone_verification)) then mret StatusUnknown
      else if bool_decide (is_Some (o_usedAt otp)) || u_isPhoneVerified user
      then mret StatusVerified
      else
      t ← now;
      mret (StatusOpen (o_expiresAt otp <? t) (o_expiresAt otp)
              match u_phone user with
              | Some (Str _ _ as p) => Some (maskPhone p) | _ => None end)
  | None => mret StatusUnknown
  end.
End account.

Section recovery.
Context `{AuthLib} `{SecretBox} (cfg : AuthConfig).

(** ** The forgotten password *)

Inductive ForgotPurpose := ForgotReset | ForgotVerification.
(** Why nothing is sent. *)
Definition forgot_refusal (user : option User) : option string :=
  match user with
  | None => Some "unknown_account"
  | Some u =>
      if negb (u_isActive u) then Some "account_inactive"
      else if hasAdminRole (role_names u) then Some "admin_role_use_admin_flow" else None
  end.

Definition forgotPassword (phone : string)
    : prog AuthW (string * option ForgotPurpose) :=
  phone ← throw_outcome (normalizePhoneOrThrow phone);
  user ← user_by_phone phone;
  match forgot_refusal user, user with
  | None, Some user =>
      if negb (u_isPhoneVerified user) then
        verificationId ← send_code cfg user phone_verification;
        mret (verificationId, Some ForgotVerification)
      else
        verificationId ← send_code cfg user password_reset;
        mret (verificationId, Some ForgotReset)
  | reason, _ =>
      audit_account (u_id <$> user) None (from_option role_names [] user) "PASSWORD_RESET"
        (Some "DENIED") (Some "WARNING") (u_id <$> user) (user ≫= u_name)
        (result_diff "denied" (default "" reason))
        (("stage", JStr "forgot_password_request") ::
         match user with
         | Some _ => [] | None => [("attemptedPhone", JStr (maskPhone phone))] end) ;;
      mret ("", None)
  end.

Definition resendForgotPasswordOtp (verificationId : string) : prog AuthW string :=
  found ← otp_with_user verificationId;
  match found with
  | None => Throw (BadRequest "invalid_verification")
  | Some (oldOtp, user) =>
      if negb (bool_decide (o_purpose oldOtp = password_reset))
      then Throw (BadRequest "invalid_verification") else
      throw_if (bool_decide (is_Some (o_usedAt oldOtp))) (BadRequest "invalid_verification") ;;
      throw_if (negb (u_isActive user) || hasAdminRole (role_names user))
        (BadRequest "invalid_verification") ;;
      t ← now;
      throw_if (t - o_createdAt oldOtp <? c_otp_resendCooldownSeconds cfg * 1000)
        (BadRequest "resend_too_soon") ;;
      t ← now;
      recent ← gets (recent_otps (o_userId oldOtp) password_reset t);
      throw_if (USER_OTP_RESEND_HOURLY_CAP <=? length recent)%nat
        (BadRequest "too_many_resend_requests") ;;
      send_code cfg user password_reset
  end.

(** ** A new password for a code *)

Definition upd_password (passwordHash : string) (u : User) : User :=
  u{{u_passwordHash := Some passwordHash}}.

(** The transaction: the code, the password, the sessions. *)
Definition change_password (flow : CodeFlow) (record : UserOtp) (user : User)
    (verificationId hashedPassword : string) : prog AuthW Z :=
  spend_code cfg flow record user verificationId
    (user_update (u_id user) (λ _, upd_password hashedPassword) ;;
     session_deleteMany (session_of_user (u_id user))).

Definition password_by_code (flow : CodeFlow) (verificationId otp newPassword : string)
    : prog AuthW () :=
  found ← otp_with_user verificationId;
  match found with
  | None => refuse_code flow "otp_not_found" "DENIED" "WARNING" None
              [("attemptedVerificationId", JStr verificationId)]
  | Some (record, user) =>
      check_code cfg flow record user otp ;;
      checkUserPassword cfg newPassword [u_phone user] ;;
      hashedPassword ← hashUserPassword cfg newPassword;
      sessionsRevoked ← change_password flow record user verificationId hashedPassword;
      purgeUserCache (c_keyPrefix cfg) (u_id user) ;;
      audit_account (Some (u_id user)) None (role_names user) (cf_action flow) None None
        (Some (u_id user)) (u_name user) [("result", JStr "success")]
        (("method", JStr "otp") :: cf_stage flow ++ [("sessionsRevoked", JNum sessionsRevoked)]) ;;
      modify (push_event (PasswordNotice (cf_action flow) (u_id user)))
  end.
Definition resetPassword : string → string → string → prog AuthW () :=
  password_by_code reset_code.
Definition changePasswordVerify : string → string → string → prog AuthW () :=
  password_by_code change_code.

Definition changePasswordInitiate (user : CurrentUser) (currentPassword : string)
    : prog AuthW string :=
  dbUser ← user_by_id (cu_id user);
  match dbUser with
  | None =>
      audit_account (Some (cu_id user)) None (cu_roles user) "PASSWORD_CHANGED"
        (Some "FAILURE") (Some "WARNING") (Some (cu_id user)) None
        (result_diff "failure" "user_not_found") [("stage", JStr "initiate")] ;;
      Throw (NotFound "user_not_found")
  | Some dbUser =>
      let refused outcome result reason (e : exn) : prog AuthW string :=
        audit_account (Some (u_id dbUser)) None (role_names dbUser) "PASSWORD_CHANGED"
          (Some outcome) (Some "WARNING") (Some (u_id dbUser)) (u_name dbUser)
          (result_diff result reason) [("stage", JStr "initiate")] ;;
        Throw e in
      if hasAdminRole (role_names dbUser) then
        refused "DENIED" "denied" "use_admin_change_password"
          (Unauthorized "use_admin_change_password")
      else
      match u_passwordHash dbUser with
      | Some (Str _ _ as hash) =>
          if negb (bcrypt_compare currentPassword hash) then
            refused "FAILURE" "failure" "wrong_current_password"
              (BadRequest "wrong_current_password")
          else send_code cfg dbUser password_change
      | _ => refused "FAILURE" "failure" "password_not_set" (BadRequest "password_not_set")
      end
  end.

Definition setPassword (user : CurrentUser) (newPassword : string) : prog AuthW () :=
  current ← loadUserForSecurity (cu_id user);
  throw_if (truthy (default "" (u_passwordHash current))) (BadRequest "password_already_set") ;;
  throw_if (negb (truthy (default "" (u_phone current))) || negb (u_isPhoneVerified current))
    (BadRequest "verified_phone_required_to_set_password") ;;
  checkUserPassword cfg newPassword [u_phone current] ;;
  hashed ← hashUserPassword cfg newPassword;
  user_update (cu_id user) (λ _, upd_password hashed) ;;
  purgeUserCache (c_keyPrefix cfg) (cu_id user) ;;
  emitSecurityAudit current "PASSWORD_SET" [("method", JStr "social_account_add_password")]
    "SUCCESS" "INFO" ;;
  modify (push_event (PasswordNotice "PASSWORD_CHANGED" (cu_id user))).

Record PasswordPolicyView := {
  pp_minLength : nat; pp_adminMinLength : nat; pp_maxLength : nat;
  pp_requiresUppercase : bool; pp_requiresNumber : bool; pp_requiresSymbol : bool;
  pp_blocksCommonPasswords : bool; pp_blocksPersonalInfo : bool }.
Definition passwordPolicy : PasswordPolicyView := {|
  pp_minLength := userPasswordMinLength cfg; pp_adminMinLength := c_adminPasswordMinLength cfg;
  pp_maxLength := 128; pp_requiresUppercase := false; pp_requiresNumber := false;
  pp_requiresSymbol := false; pp_blocksCommonPasswords := true;
  pp_blocksPersonalInfo := true |}.

(** ** The request for a reactivation *)

Definition reactivation_refusal (user : option User) : option string :=
  match user with
  | None => Some "unknown_account"
  | Some u =>
      if u_isActive u then Some "account_already_active"
      else if negb (u_isPhoneVerified u) then Some "phone_not_verified"
      else if hasAdminRole (role_names u) then Some "staff_account" else None
  end.
Definition reactivateInitiate (selfReactivationEnabled : bool) (phone : string)
    : prog AuthW string :=
  if negb selfReactivationEnabled then mret "" else
  phone ← throw_outcome (normalizePhoneOrThrow phone);
  user ← user_by_phone phone;
  match reactivation_refusal user, user with
  | None, Some user =>
      verificationId ← send_code cfg user account_reactivation;
      emitSecurityAudit user "ACCOUNT_REACTIVATION_REQUESTED"
        [("context", JStr "self_reactivation")] "SUCCESS" "INFO" ;;
      mret verificationId
  | reason, _ =>
      audit_account (u_id <$> user) None (from_option role_names [] user)
        "ACCOUNT_REACTIVATION_REQUESTED" (Some "DENIED") (Some "INFO") (u_id <$> user) None
        (result_diff "denied" (default "" reason))
        match user with
        | Some _ => [] | None => [("attemptedPhone", JStr (maskPhone phone))] end ;;
      mret ""
  end.
End recovery.

(** ** Social accounts *)

Section social_accounts.
Context `{AuthLib} `{SecretBox} (cfg : AuthConfig).

Definition social_failed (user : User) (provider : SocialProvider) (reason : string)
    : prog AuthW () :=
  audit_account (Some (u_id user)) None (role_names user) "LOGIN_FAILED" (Some "DENIED")
    (Some "WARNING") (Some (u_id user)) (u_name user) (result_diff "failed" reason)
    [("method", JStr (provider_name provider))].

(** The account of a provider's profile: the one linked, the one with the address, or a new
    one; with whether it is new. *)
Definition social_account (provider : SocialProvider) (profile : SocialProfile)
    : prog AuthW (User * bool) :=
  let providerId := sp_providerId profile in
  linked ← gets (λ w, find_row (λ u, bool_decide (socialColumn provider u = Some providerId))
                        (aw_users w));
  match linked with
  | Some user => mret (user, false)
  | None =>
      existingByEmail ← user_by_email (sp_email profile);
      match existingByEmail with
      | Some existing =>
          user ← user_write (u_id existing) (λ u,
            (socialData provider (Some providerId) u){{u_isEmailVerified := true}});
          mret (user, false)
      | None =>
          userRole ← role_by_name USER;
          match userRole with
          | None =>
              signup_failed "CRITICAL" "user_role_not_configured"
                [("provider", JStr (provider_name provider));
                 ("attemptedEmail", JStr (sp_email profile))]
          | Some role =>
              user ← catch (user_create (social_user provider profile role))
                (λ e, if isUniqueConstraintError e
                      then Throw (BadRequest "email_already_registered") else Throw e);
              mret (user, true)
          end
      end
  end.

Definition socialAuth (provider : SocialProvider) (profile : SocialProfile)
    : prog AuthW TokenPair :=
  throw_if (negb (sp_emailVerified profile)) (Unauthorized "unverified_social_email") ;;
  found ← social_account provider profile;
  let '(user, isNewUser) := found in
  if negb (mem USER (role_names user)) then
    social_failed user provider "no_user_role_use_admin_login" ;;
    Throw (Unauthorized "use_admin_login")
  else
  catch (assertNotLocked user)
    (λ err, social_failed user provider "account_locked" ;; Throw err) ;;
  resetLoginAttempts cfg user ;;
  if negb (u_isActive user) then
    social_failed user provider "account_inactive" ;;
    Throw (Unauthorized "account_inactive")
  else
  audit_account (Some (u_id user)) None (role_names user)
    (if (isNewUser : bool) then "USER_CREATED" else "LOGIN_SUCCESS") None None
    (Some (u_id user)) (u_name user) [("result", JStr "success")]
    [("method", JStr (provider_name provider));
     ("linkedExistingAccount", JBool (negb isNewUser))] ;;
  tokens_for cfg user.

(** What the util makes of a token now. *)
Definition verified (verify : Z → outcome SocialProfile) : prog AuthW SocialProfile :=
  t ← now;
  throw_outcome (verify t).

Context `{SocialLib} (sc : SocialConfig).

Definition loginWithGoogle (idToken : string) : prog AuthW TokenPair :=
  profile ← verified (verifyGoogleIdToken sc idToken);
  socialAuth google profile.
Definition loginWithFacebook (accessToken : string) : prog AuthW TokenPair :=
  profile ← verified (verifyFacebookAccessToken sc accessToken);
  socialAuth facebook profile.
Definition loginWithApple (idToken : string) (name : option string) : prog AuthW TokenPair :=
  profile ← verified (verifyAppleIdToken sc idToken name);
  socialAuth apple profile.

(** [true] for an account that is linked now, [false] for one that was already. *)
Definition linkSocial (user : CurrentUser) (provider : SocialProvider) (token : string)
    : prog AuthW bool :=
  profile ← verified (match provider with
                      | google => verifyGoogleIdToken sc token
                      | facebook => verifyFacebookAccessToken sc token
                      | apple => verifyAppleIdToken sc token None
                      end);
  throw_if (negb (sp_emailVerified profile)) (Unauthorized "unverified_social_email") ;;
  let column := socialColumn provider in
  let providerId := sp_providerId profile in
  current ← loadUserForSecurity (cu_id user);
  if bool_decide (column current = Some providerId) then mret false else
  throw_if (truthy (default "" (column current)))
    (BadRequest "another_account_of_this_provider_already_linked") ;;
  takenBy ← gets (λ w, find_row
    (λ u, bool_decide (column u = Some providerId) && negb (bool_decide (u_id u = cu_id user)))
    (aw_users w));
  match takenBy with
  | Some _ =>
      emitSecurityAudit current "SOCIAL_ACCOUNT_LINKED"
        [("reason", JStr "social_account_in_use"); ("provider", JStr (provider_name provider))]
        "FAILURE" "WARNING" ;;
      Throw (BadRequest "social_account_already_linked_elsewhere")
  | None =>
      catch (user_write (cu_id user) (socialData provider (Some providerId)) ;; mret ())
        (λ e, if isUniqueConstraintError e
              then Throw (BadRequest "social_account_already_linked_elsewhere") else Throw e) ;;
      purgeUserCache (c_keyPrefix cfg) (cu_id user) ;;
      emitSecurityAudit current "SOCIAL_ACCOUNT_LINKED"
        [("provider", JStr (provider_name provider))] "SUCCESS" "INFO" ;;
      mret true
  end.

(** A way to sign in that is left without a provider. *)
Definition other_providers (provider : SocialProvider) (u : User) : list SocialProvider :=
  filter (λ p, p ≠ provider ∧ truthy (default "" (socialColumn p u)) = true)
    [google; facebook; apple].
Definition hasPasswordLogin (u : User) : bool :=
  truthy (default "" (u_passwordHash u)) && truthy (default "" (u_phone u)).

Definition unlinkSocial (user : CurrentUser) (provider : SocialProvider) : prog AuthW () :=
  current ← loadUserForSecurity (cu_id user);
  throw_if (negb (truthy (default "" (socialColumn provider current))))
    (NotFound "social_account_not_linked") ;;
  if bool_decide (other_providers provider current = []) && negb (hasPasswordLogin current) then
    emitSecurityAudit current "SOCIAL_ACCOUNT_UNLINKED"
      [("reason", JStr "cannot_unlink_last_sign_in_method");
       ("provider", JStr (provider_name provider))] "DENIED" "WARNING" ;;
    Throw (BadRequest "cannot_unlink_last_sign_in_method")
  else
  user_update (cu_id user) (λ _, socialData provider None) ;;
  purgeUserCache (c_keyPrefix cfg) (cu_id user) ;;
  emitSecurityAudit current "SOCIAL_ACCOUNT_UNLINKED"
    [("provider", JStr (provider_name provider))] "SUCCESS" "INFO".
End social_accounts.

(** ** The second factor: enrolment, recovery codes, end *)

Section enrolment.
Context `{AuthLib} `{SecretBox} (cfg : AuthConfig).

Record TwoFactorStatus := {
  fs_enabled : bool; fs_methods : list TwoFactorMethod; fs_setupPending : bool;
  fs_recoveryCodesRemaining : Z; fs_enrollmentRequired : bool }.
Definition twoFactorStatus (user : CurrentUser) : prog AuthW TwoFactorStatus :=
  secret ← secret_by_user (cu_id user);
  remaining ← gets (λ w, Z.of_nat (size (filter (λ '(_, c),
    bool_decide (rc_userId c = cu_id user) && unused c = true) (aw_codes w))));
  current ← user_by_id (cu_id user);
  let enabled := from_option ts_isEnabled false secret in
  mret {| fs_enabled := enabled;
          fs_methods := match secret with
                        | Some s => if enabled then [ts_method s] else [] | None => [] end;
          fs_setupPending := from_option (λ s, negb (ts_isEnabled s)) false secret;
          fs_recoveryCodesRemaining := if enabled then remaining else 0;
          fs_enrollmentRequired :=
            bool_decide (is_Some (current ≫= u_twoFactorRequiredAt)) && negb enabled |}.

Definition twoFactorSetup (user : CurrentUser) (method : option TwoFactorMethod)
    : prog AuthW (string * string) :=
  throw_if (match method with Some SMS => true | _ => false end)
    (BadRequest "two_factor_method_not_available") ;;
  current ← loadUserForSecurity (cu_id user);
  existing ← secret_by_user (cu_id user);
  throw_if (from_option ts_isEnabled false existing) (Conflict "two_factor_already_enabled") ;;
  bytes ← randomBytes 20;
  let secret := generateTotpSecret bytes in
  iv ← randomBytes 12;
  let secretEncrypted := encryptSecret secret (c_twoFactor_key cfg) (bytes_string iv) in
  secret_upsert (cu_id user) secretEncrypted ;;
  emitSecurityAudit current "TWO_FACTOR_SETUP_STARTED" [("method", JStr "TOTP")]
    "SUCCESS" "INFO" ;;
  let account := match u_email current, u_phone current with
                 | Some e, _ => e | None, Some p => p | None, None => u_id current end in
  mret (secret, buildOtpAuthUri (c_twoFactor_issuer cfg) account secret).

Definition totp_refused {A} (user : User) (userId action : string) : prog AuthW A :=
  recordFailedLogin cfg userId ;;
  emitSecurityAudit user action [("reason", JStr "invalid_code")] "FAILURE" "WARNING" ;;
  Throw (BadRequest "invalid_two_factor_code").

(** The transaction of the enrolment. *)
Definition enable_tx (userId : string) (step : Z) : prog AuthW (list string) :=
  tx (secret_update userId (upd_enabled step) ;;
      user_update userId (λ _ u, u{{u_twoFactorRequiredAt := None}}) ;;
      issueRecoveryCodes userId).
Definition twoFactorVerify (user : CurrentUser) (code : string) : prog AuthW (list string) :=
  current ← loadUserForSecurity (cu_id user);
  assertNotLocked current ;;
  secret ← secret_by_user (cu_id user);
  secret ← require secret (BadRequest "no_pending_two_factor_setup");
  throw_if (ts_isEnabled secret) (Conflict "two_factor_already_enabled") ;;
  step ← checkTotpOrNull cfg secret code;
  match step with
  | None => totp_refused current (cu_id user) "TWO_FACTOR_ENABLED"
  | Some step =>
      recoveryCodes ← enable_tx (cu_id user) step;
      purgeUserCache (c_keyPrefix cfg) (cu_id user) ;;
      emitSecurityAudit current "TWO_FACTOR_ENABLED" [("method", JStr "TOTP")]
        "SUCCESS" "INFO" ;;
      mret recoveryCodes
  end.

(** [policy] is [adminRequired] of the row of [twoFactorPolicy], if there is one. *)
Definition twoFactorDisable (policy : option bool) (user : CurrentUser)
    (password : option string) (code : string) : prog AuthW () :=
  current ← loadUserForSecurity (cu_id user);
  assertNotLocked current ;;
  secret ← requireEnabledSecret (cu_id user);
  if hasAdminRole (role_names current) && default true policy then
    emitSecurityAudit current "TWO_FACTOR_DISABLED"
      [("reason", JStr "two_factor_required_by_policy")] "DENIED" "WARNING" ;;
    Throw (Forbidden "two_factor_required_by_policy")
  else
  match password, u_passwordHash current with
  | Some password, Some (Str _ _ as hash) =>
      if bcrypt_compare password hash then mret ()
      else recordFailedLogin cfg (cu_id user) ;; Throw (Unauthorized "invalid_credentials")
  | _, _ => mret ()
  end ;;
  step ← checkTotpOrNull cfg secret code;
  match step with
  | None => totp_refused current (cu_id user) "TWO_FACTOR_DISABLED"
  | Some _ =>
      tx (codes_delete (cu_id user) ;; secret_delete (cu_id user)) ;;
      purgeUserCache (c_keyPrefix cfg) (cu_id user) ;;
      emitSecurityAudit current "TWO_FACTOR_DISABLED" [("method", JStr "TOTP")]
        "SUCCESS" "INFO"
  end.

Definition twoFactorRegenerateRecoveryCodes (user : CurrentUser) (code : string)
    : prog AuthW (list string) :=
  current ← loadUserForSecurity (cu_id user);
  assertNotLocked current ;;
  secret ← requireEnabledSecret (cu_id user);
  step ← checkTotpOrNull cfg secret code;
  match step with
  | None =>
      recordFailedLogin cfg (cu_id user) ;; Throw (BadRequest "invalid_two_factor_code")
  | Some step =>
      recoveryCodes ← tx (secret_update (cu_id user) (upd_step step) ;;
                          issueRecoveryCodes (cu_id user));
      emitSecurityAudit current "TWO_FACTOR_RECOVERY_CODES_REGENERATED" [] "SUCCESS" "INFO" ;;
      mret recoveryCodes
  end.
End enrolment.

(** ** The account of the person who is signed in (user-account.service.ts) *)

Section user_account.
Context `{AuthLib} `{SecretBox} (cfg : AuthConfig).

Definition USER_OTP_RESEND_COOLDOWN_MS : Z := 60000.

Definition buildUserLabel (u : User) : option string :=
  match u_name u, u_phone u with
  | Some name, _ => Some name
  | None, Some phone => Some phone
  | None, None => u_email u
  end.
Definition maskPhoneOf (phone : option string) : string := maskPhone (default "" phone).

(** An event on an account or one of its sessions. *)
Definition audit_own (actor : CurrentUser) (target : option string)
    (action entity entityId : string) (label outcome severity : option string)
    (diff metadata : list (string * json)) : prog AuthW () :=
  emitAudit {|
    aa_userId := Some (cu_id actor); aa_targetUserId := target;
    aa_actorType := resolveActorType (cu_roles actor); aa_action := action;
    aa_outcome := outcome; aa_severity := severity; aa_entity := entity;
    aa_entityId := Some entityId; aa_entityLabel := label; aa_diff := diff;
    aa_metadata := metadata |}.
(** [auditUser], of somebody's own account. *)
Definition auditUser (actor : CurrentUser) (action context : string) (severity : option string)
    (diff metadata : list (string * json)) : prog AuthW () :=
  audit_own actor None action "User" (cu_id actor) None None severity
    (("result", JStr "success") :: ("context", JStr context) :: diff) metadata.

(** *** Closing the account, and sessions *)

Definition deactivation_audit (actor : CurrentUser) (user : User)
    (outcome severity : option string) (diff metadata : list (string * json)) : prog AuthW () :=
  audit_own actor None "USER_DEACTIVATED" "User" (cu_id actor) (buildUserLabel user)
    outcome severity diff metadata.

(** The other Super Admins whose accounts are active. *)
Definition other_super_admins (userId : string) (w : AuthW) : Z :=
  Z.of_nat (size (filter (λ '(id, u), id ≠ userId ∧ u_isActive u = true ∧
    SUPER_ADMIN ∈ role_names u) (aw_users w))).
Definition deactivate_tx (userId : string) (selfIsSuperAdmin : bool) : prog AuthW Z :=
  tx ((if selfIsSuperAdmin then
         otherActiveSuperAdmins ← gets (other_super_admins userId);
         throw_if (otherActiveSuperAdmins =? 0) (Forbidden "cannot_deactivate_last_super_admin")
       else mret ()) ;;
      count ← user_claim userId u_isActive (λ u, u{{u_isActive := false}});
      throw_if (count =? 0) (BadRequest "account_already_inactive") ;;
      session_deleteMany (session_of_user userId)).

Definition isForbidden (e : exn) : bool :=
  match e with HttpException status _ => status =? 403 | _ => false end.
Definition isBadRequest (e : exn) : bool :=
  match e with HttpException status _ => status =? 400 | _ => false end.

Definition deactivateMe (actor : CurrentUser) : prog AuthW () :=
  user ← user_by_id (cu_id actor);
  user ← require user (NotFound "user_not_found");
  if negb (u_isActive user) then
    deactivation_audit actor user (Some "FAILURE") (Some "WARNING")
      (result_diff "failure" "account_already_inactive") [] ;;
    Throw (BadRequest "account_already_inactive")
  else
  let selfIsSuperAdmin := mem SUPER_ADMIN (role_names user) in
  sessionsRevoked ← catch
    (revoked ← deactivate_tx (cu_id actor) selfIsSuperAdmin;
     purgeUserCache (c_keyPrefix cfg) (cu_id actor) ;;
     mret revoked)
    (λ err,
      (if isForbidden err then
         deactivation_audit actor user (Some "DENIED") (Some "CRITICAL")
           (result_diff "denied" "cannot_deactivate_last_super_admin")
           [("selfService", JBool true); ("targetRoles", JArr (JStr <$> role_names user));
            ("otherActiveSuperAdmins", JNum 0)]
       else
         deactivation_audit actor user (Some "FAILURE") (Some "WARNING")
           (result_diff "failure" "account_transition_conflict")
           [("selfService", JBool true)]) ;;
      Throw err);
  deactivation_audit actor user None None
    [("result", JStr "success"); ("previousIsActive", JBool true);
     ("currentIsActive", JBool false)]
    [("selfService", JBool true); ("sessionsRevoked", JNum sessionsRevoked);
     ("wasSuperAdmin", JBool selfIsSuperAdmin)].

(** [session.delete]: P2025 without the row. *)
Definition session_delete (id : string) : prog AuthW () :=
  act_outcome (λ w,
    if bool_decide (is_Some (aw_sessions w !! id))
    then (Ok (), set_sessions (delete id) w) else (Err P2025, w)).
Definition revokeSession (actor : CurrentUser) (targetUserId sessionId : string)
    : prog AuthW () :=
  let isSelfService := bool_decide (cu_id actor = targetUserId) in
  let target := if (isSelfService : bool) then None else Some targetUserId in
  session ← gets (λ w, match aw_sessions w !! sessionId with
                       | Some s => if session_of_user targetUserId s then Some s else None
                       | None => None
                       end);
  match session with
  | None =>
      audit_own actor target "USER_SESSIONS_REVOKED" "Session" sessionId None
        (Some "FAILURE") (Some "WARNING") (result_diff "failure" "session_not_found")
        [("scope", JStr "single_session")] ;;
      Throw (NotFound "session_not_found")
  | Some _ =>
      session_delete sessionId ;;
      purgeUserCache (c_keyPrefix cfg) targetUserId ;;
      audit_own actor target "USER_SESSIONS_REVOKED" "Session" sessionId None None None
        [("result", JStr "success")]
        [("scope", JStr "single_session"); ("selfService", JBool isSelfService)]
  end.

(** All sessions but the one of the request's token. *)
Definition revokeMyOtherSessions (actor : CurrentUser) (currentSessionId : string)
    : prog AuthW Z :=
  throw_if (negb (truthy currentSessionId)) (BadRequest "current_session_unknown") ;;
  revoked ← session_deleteMany (λ s, session_of_user (cu_id actor) s &&
                                     negb (bool_decide (s_id s = currentSessionId)));
  purgeUserCache (c_keyPrefix cfg) (cu_id actor) ;;
  auditUser actor "USER_SESSIONS_REVOKED" "other_sessions" None []
    [("scope", JStr "other_sessions"); ("sessionsRevoked", JNum revoked);
     ("selfService", JBool true)] ;;
  mret revoked.

(** *** The phone *)

Definition change_phone_audit (user : CurrentUser) (dbUser : User)
    (outcome severity : option string) (diff metadata : list (string * json)) : prog AuthW () :=
  audit_own user None "USER_UPDATED" "User" (cu_id user) (buildUserLabel dbUser)
    outcome severity diff metadata.
Definition change_phone_refused {A} (user : CurrentUser) (dbUser : User)
    (severity reason : string) (metadata : list (string * json)) : prog AuthW A :=
  change_phone_audit user dbUser (Some "FAILURE") (Some severity)
    (result_diff "failure" reason ++ [("context", JStr "change_phone_initiated")]) metadata ;;
  Throw (BadRequest reason).

Definition changePhoneInitiate (user : CurrentUser) (newPhone : string) : prog AuthW string :=
  newPhone ← throw_outcome (normalizePhoneOrThrow newPhone);
  dbUser ← user_by_id (cu_id user);
  dbUser ← require dbUser (NotFound "user_not_found");
  if bool_decide (u_phone dbUser = Some newPhone) then
    change_phone_refused user dbUser "INFO" "phone_unchanged" []
  else
  phoneInUse ← user_by_phone newPhone;
  if from_option (λ u, negb (bool_decide (u_id u = cu_id user))) false phoneInUse then
    change_phone_refused user dbUser "WARNING" "phone_already_registered"
      [("attemptedPhone", JStr (maskPhone newPhone))]
  else
  catch (user_update (cu_id user) (λ _ u, u{{u_pendingPhone := Some newPhone}}) ;; mret ())
    (λ e, if isUniqueConstraintError e then
            change_phone_refused user dbUser "WARNING" "phone_already_registered"
              [("attemptedPhone", JStr (maskPhone newPhone));
               ("detectedBy", JStr "unique_constraint")]
          else Throw e) ;;
  verificationId ← issueAndSendOtp cfg (cu_id user) newPhone phone_change sms no_options;
  change_phone_audit user dbUser None None
    [("result", JStr "success"); ("context", JStr "change_phone_initiated");
     ("previousPhoneMasked", JStr (maskPhoneOf (u_phone dbUser)));
     ("newPhoneMasked", JStr (maskPhone newPhone))] [] ;;
  mret verificationId.

Definition phone_code_audit (user : CurrentUser) (record : option UserOtp)
    (outcome severity : option string) (diff metadata : list (string * json)) : prog AuthW () :=
  emitAudit {|
    aa_userId := Some (cu_id user); aa_targetUserId := None;
    aa_actorType := resolveActorType (cu_roles user); aa_action := "OTP_VERIFIED";
    aa_outcome := outcome; aa_severity := severity; aa_entity := "UserOtp";
    aa_entityId := o_id <$> record; aa_entityLabel := Some "phone_change OTP";
    aa_diff := ("purpose", JStr "phone_change") :: diff; aa_metadata := metadata |}.
Definition phone_code_failed (user : CurrentUser) (record : option UserOtp) (reason : string)
    (metadata : list (string * json)) : prog AuthW () :=
  phone_code_audit user record (Some "FAILURE") (Some "WARNING") (result_diff "failure" reason)
    metadata.
Definition phone_code_locked (userId : string) (record : UserOtp) : prog AuthW () :=
  lockAccountForOtpAbuse cfg userId ;;
  emitAudit {|
    aa_userId := None; aa_targetUserId := Some userId; aa_actorType := ActorSYSTEM;
    aa_action := "SECURITY_ALERT"; aa_outcome := Some "DENIED"; aa_severity := Some "WARNING";
    aa_entity := "UserOtp"; aa_entityId := Some (o_id record);
    aa_entityLabel := Some "phone_change OTP";
    aa_diff := [("result", JStr "denied"); ("reason", JStr "too_many_otp_attempts");
                ("accountLocked", JBool true)];
    aa_metadata := [("purpose", JStr "phone_change"); ("attempts", JNum (o_attempts record))] |}.

(** Why a code is not looked at, in the order of the checks. *)
Definition phone_code_refusal (userId : string) (record : UserOtp) (t : Z) : option string :=
  if negb (bool_decide (o_userId record = userId)) then Some "otp_owner_mismatch"
  else if negb (bool_decide (o_purpose record = phone_change)) then Some "wrong_purpose"
  else if bool_decide (is_Some (o_usedAt record)) then Some "already_used"
  else if o_expiresAt record <? t then Some "expired"
  else None.

(** The transaction: the code, then the phone, which is unique. *)
Definition change_phone_tx (userId verificationId newPhone : string) : prog AuthW () :=
  tx (claimed ← otp_claim verificationId otp_claimable_code upd_used;
      if claimed =? 0 then Throw (BadRequest "invalid_or_expired_otp")
      else user_write userId (λ u, u{{u_phone := Some newPhone}}{{u_pendingPhone := None}}) ;;
           mret ()).

Definition changePhoneVerify (user : CurrentUser) (verificationId otp : string)
    : prog AuthW () :=
  let invalid := BadRequest "invalid_or_expired_otp" in
  found ← otp_with_user verificationId;
  match found with
  | None => phone_code_failed user None "otp_not_found" [] ;; Throw invalid
  | Some (otpRecord, owner) =>
      t ← now;
      match phone_code_refusal (cu_id user) otpRecord t with
      | Some reason => phone_code_failed user (Some otpRecord) reason [] ;; Throw invalid
      | None =>
      match u_pendingPhone owner with
      | None | Some EmptyString =>
          phone_code_failed user (Some otpRecord) "no_pending_phone_change" [] ;; Throw invalid
      | Some newPhone =>
      if MAX_OTP_ATTEMPTS <=? o_attempts otpRecord then
        phone_code_locked (cu_id user) otpRecord ;;
        Throw (BadRequest "too_many_otp_attempts")
      else if negb (bcrypt_compare otp (o_otpHash otpRecord)) then
        updatedOtp ← otp_update (o_id otpRecord) upd_otp_attempts;
        (if MAX_OTP_ATTEMPTS <=? o_attempts updatedOtp then
           phone_code_locked (cu_id user) updatedOtp
         else
           phone_code_failed user (Some otpRecord) "wrong_otp"
             [("attempts", JNum (o_attempts updatedOtp))]) ;;
        Throw invalid
      else
      catch (change_phone_tx (cu_id user) verificationId newPhone)
        (λ error,
          if isUniqueConstraintError error then
            phone_code_failed user (Some otpRecord) "phone_claimed_by_another_account" [] ;;
            Throw (BadRequest "phone_already_registered")
          else
            (if isBadRequest error then
               phone_code_failed user (Some otpRecord) "otp_claim_conflict" []
             else mret ()) ;;
            Throw error) ;;
      purgeUserCache (c_keyPrefix cfg) (cu_id user) ;;
      phone_code_audit user (Some otpRecord) None None [("result", JStr "success")]
        [("previousPhoneMasked", JStr (maskPhoneOf (u_phone owner)));
         ("newPhoneMasked", JStr (maskPhone newPhone))] ;;
      modify (push_event (SecurityAlert (cu_id user) "phone_changed"))
      end
      end
  end.

Definition resendChangePhoneOtp (user : CurrentUser) (verificationId : string)
    : prog AuthW string :=
  let invalid := BadRequest "invalid_or_expired_otp" in
  found ← otp_with_user verificationId;
  match found with
  | None => Throw invalid
  | Some (otp, owner) =>
      throw_if (negb (bool_decide (o_userId otp = cu_id user)) ||
                negb (bool_decide (o_purpose otp = phone_change)) ||
                bool_decide (is_Some (o_usedAt otp)) ||
                negb (truthy (default "" (u_pendingPhone owner)))) invalid ;;
      t ← now;
      throw_if (t - o_createdAt otp <? USER_OTP_RESEND_COOLDOWN_MS)
        (BadRequest "otp_resend_too_soon") ;;
      t ← now;
      otp_update (o_id otp) (upd_used t) ;;
      let pendingPhone := default "" (u_pendingPhone owner) in
      newId ← issueAndSendOtp cfg (cu_id user) pendingPhone phone_change sms no_options;
      auditUser user "USER_UPDATED" "change_phone_otp_resent" None
        [("newPhoneMasked", JStr (maskPhone pendingPhone))] [] ;;
      mret newId
  end.

(** *** Social accounts *)

Definition LINKED_PROVIDERS : list SocialProvider := [google; facebook; apple].
Definition provider_of (name : string) : option SocialProvider :=
  find (λ p, bool_decide (provider_name p = name)) LINKED_PROVIDERS.
(** [linkedProviders]; of an account that is gone: none. *)
Definition linkedProviders (u : option User) : list SocialProvider * bool :=
  match u with
  | Some u => (filter (λ p, truthy (default "" (socialColumn p u)) = true) LINKED_PROVIDERS,
               truthy (default "" (u_passwordHash u)))
  | None => ([], false)
  end.
Definition unlinkMyAccount (user : CurrentUser) (provider : string) : prog AuthW () :=
  match provider_of (toLowerCase provider) with
  | None => Throw (BadRequest "unsupported_provider")
  | Some name =>
      dbUser ← user_by_id (cu_id user);
      let '(providers, hasPassword) := linkedProviders dbUser in
      throw_if (negb (bool_decide (name ∈ providers))) (NotFound "linked_account_not_found") ;;
      throw_if (negb hasPassword && (length providers <=? 1)%nat)
        (BadRequest "no_other_sign_in_method") ;;
      user_update (cu_id user) (λ _, socialData name None) ;;
      purgeUserCache (c_keyPrefix cfg) (cu_id user) ;;
      auditUser user "USER_UPDATED" "account_unlinked" (Some "WARNING")
        [("provider", JStr (provider_name name))] []
  end.
End user_account.
