(* ===== verification/AuthSafety.v ===== *)
(** * Authentication under every interleaving

    What the handlers of [Auth] never undo, however they interleave: a session
    that was revoked, a one-time code or recovery code that was used and a
    two-factor challenge that was consumed stay so (or the row is deleted), and
    no such identifier comes back. *)

From S2P Require Import Prelude Interleave Js Redis Cache Roles TwoFactor.
From S2P Require Import AuthModel Credentials Auth.

Open Scope Z_scope.

(** ** Rows that are spent, or gone *)

Definition row_done {A} (spent : A → Prop) (id : string) (m : gmap string A) : Prop :=
  ∀ r, m !! id = Some r → spent r.

Section row_done.
Context {A : Type} (spent : A → Prop).
Implicit Types m : gmap string A.

Lemma row_done_update m id0 r r' id :
  m !! id0 = Some r → (spent r → spent r') →
  row_done spent id m → row_done spent id (<[id0 := r']> m).
Proof.
  intros Hr Hs Hd x. rewrite lookup_insert_Some. intros [[-> <-]|[_ Hx]]; [|by apply Hd].
  by apply Hs, Hd.
Qed.

Lemma row_done_new m id0 r id : id0 ≠ id → row_done spent id m → row_done spent id (<[id0 := r]> m).
Proof. intros Hne Hd x. rewrite lookup_insert_ne by done. apply Hd. Qed.

Lemma row_done_fmap m (f : A → A) id :
  (∀ r, spent r → spent (f r)) → row_done spent id m → row_done spent id (f <$> m).
Proof.
  intros Hf Hd x. rewrite lookup_fmap, fmap_Some. intros (r&Hr&->). by apply Hf, Hd.
Qed.

Lemma row_done_filter m (P : string * A → Prop) `{∀ x, Decision (P x)} id :
  row_done spent id m → row_done spent id (filter P m).
Proof. intros Hd x Hx. apply map_lookup_filter_Some in Hx as [Hx _]. by apply Hd. Qed.

Lemma row_done_subseteq m m' id : m' ⊆ m → row_done spent id m → row_done spent id m'.
Proof. intros Hm Hd x Hx. eapply Hd, lookup_weaken; done. Qed.
End row_done.

(** Every row is stored under its own identifier and satisfies [P]. *)
Definition rows {A} (key : A → string) (P : A → Prop) (m : gmap string A) : Prop :=
  ∀ id r, m !! id = Some r → key r = id ∧ P r.

Section rows.
Context {A : Type} (key : A → string) (P : A → Prop).
Implicit Types m : gmap string A.

Lemma rows_new m id r : key r = id → P r → rows key P m → rows key P (<[id := r]> m).
Proof.
  intros Hr HP Hk i x. rewrite lookup_insert_Some.
  intros [[<- <-]|[_ Hx]]; [done|by apply Hk].
Qed.
Lemma rows_update m id r r' :
  m !! id = Some r → key r' = key r → (P r → P r') → rows key P m → rows key P (<[id := r']> m).
Proof.
  intros Hr He HP Hk. destruct (Hk _ _ Hr). apply rows_new; [by rewrite He|auto|done].
Qed.
Lemma rows_fmap m f :
  (∀ r, key (f r) = key r) → (∀ r, P r → P (f r)) → rows key P m → rows key P (f <$> m).
Proof.
  intros Hf HP Hk i x. rewrite lookup_fmap, fmap_Some. intros (r&Hr&->).
  destruct (Hk _ _ Hr). rewrite Hf. auto.
Qed.
Lemma rows_filter m (Q : string * A → Prop) `{∀ x, Decision (Q x)} :
  rows key P m → rows key P (filter Q m).
Proof. intros Hk i x Hx. apply map_lookup_filter_Some in Hx as [Hx _]. by apply Hk. Qed.
Lemma rows_subseteq m m' : m' ⊆ m → rows key P m → rows key P m'.
Proof. intros Hm Hk i x Hx. eapply Hk, lookup_weaken; done. Qed.
End rows.

Definition session_spent (s : Session) : Prop := s_revokedAt s ≠ None.
Definition otp_spent (o : UserOtp) : Prop := o_usedAt o ≠ None.
Definition code_spent (c : RecoveryCode) : Prop := rc_usedAt c ≠ None.
Definition challenge_spent (c : Challenge) : Prop := ch_consumedAt c ≠ None.

(** ** The invariant and the relation *)

Section safety.
Context `{AuthLib} (n0 : nat) (Ps : Session → Prop) (Pc : RecoveryCode → Prop)
  (Po : UserOtp → Prop) (Iu : gmap string User → Prop) (Ru : relation (gmap string User)).

(** Not one of the identifiers that are drawn from [n0] on. *)
Definition old (id : string) : Prop := ∀ n, (n0 ≤ n)%nat → uuid n ≠ id.

Record auth_inv (w : AuthW) : Prop := {
  ai_draws : (n0 ≤ aw_draws w)%nat;
  ai_sessions : rows s_id Ps (aw_sessions w);
  ai_otps : rows o_id Po (aw_otps w);
  ai_codes : rows rc_id Pc (aw_codes w);
  ai_challenges : rows ch_id (λ _, True) (aw_challenges w);
  ai_users : Iu (aw_users w);
}.

Record auth_rel (w w' : AuthW) : Prop := {
  ar_draws : (aw_draws w ≤ aw_draws w')%nat;
  ar_sessions id : old id → row_done session_spent id (aw_sessions w) →
    row_done session_spent id (aw_sessions w');
  ar_otps id : old id → row_done otp_spent id (aw_otps w) →
    row_done otp_spent id (aw_otps w');
  ar_codes id : old id → row_done code_spent id (aw_codes w) →
    row_done code_spent id (aw_codes w');
  ar_challenges id : old id → row_done challenge_spent id (aw_challenges w) →
    row_done challenge_spent id (aw_challenges w');
  ar_users : rtc Ru (aw_users w) (aw_users w');
}.

#[export] Instance auth_rel_preorder : PreOrder auth_rel.
Proof.
  split.
  - intros w. by split.
  - intros w1 w2 w3 [] []. split; auto; by etrans.
Qed.

(** Worlds whose spendable rows are the same. *)
Definition kept (w w' : AuthW) : Prop :=
  (aw_draws w ≤ aw_draws w')%nat ∧ aw_sessions w' = aw_sessions w ∧ aw_otps w' = aw_otps w ∧
  aw_codes w' = aw_codes w ∧ aw_challenges w' = aw_challenges w ∧ aw_users w' = aw_users w.

Lemma kept_good w w' : auth_inv w → kept w w' → auth_inv w' ∧ auth_rel w w'.
Proof.
  intros [HId HIs HIo HIc HIch] (Hd&Hs&Ho&Hc&Hch&Hu).
  split; split; rewrite ?Hs, ?Ho, ?Hc, ?Hch, ?Hu; try done. lia.
Qed.

Lemma kept_draw w : kept w (draw w).2.
Proof. unfold kept, draw. cbn. split_and!; (done || lia). Qed.

#[export] Instance auth_outside : OutsideGood auth_inv auth_rel.
Proof.
  split; [apply _|intros c r w HI|intros cs w HI|intros w HI|intros w HI];
    apply kept_good; [done|by destruct c|done|done|done|done|done|apply kept_draw].
Qed.

Abbreviation ok := (safe auth_inv auth_rel).

Lemma safe_kept {X} (f : AuthW → X * AuthW) : (∀ w, kept w (f w).2) → good auth_inv auth_rel f.
Proof. intros Hf w HI. by apply kept_good. Qed.

(** ** Statements *)

Lemma ok_now : ok now.
Proof. apply (safe_gets auth_inv auth_rel). Qed.
Lemma ok_gets {X} (f : AuthW → X) : ok (gets f).
Proof. apply (safe_gets auth_inv auth_rel). Qed.
Lemma ok_emitAudit a : ok (emitAudit a).
Proof. apply safe_modify. intros w HI. by apply kept_good. Qed.
Lemma ok_draw {X} (f : nat → X) : ok (act (λ w, (f (draw w).1, (draw w).2))).
Proof. apply safe_act, safe_kept. intros w. apply kept_draw. Qed.
Lemma good_users w f :
  auth_inv w → Iu (f (aw_users w)) → rtc Ru (aw_users w) (f (aw_users w)) →
  auth_inv (set_users f w) ∧ auth_rel w (set_users f w).
Proof. intros [] Hf HR. split; by split. Qed.
Lemma ok_user_update id upd :
  (∀ t m u, m !! id = Some u → Iu m →
     Iu (<[id := upd t u]> m) ∧ Ru m (<[id := upd t u]> m)) → ok (user_update id upd).
Proof.
  intros Hu. apply safe_act_outcome. intros w HI. destruct (aw_users w !! id) as [u|] eqn:E; [|done].
  destruct (Hu (aw_now w) (aw_users w) u E) as [? ?]; [apply HI|]. by apply good_users, rtc_once.
Qed.
Lemma ok_secret_updateMany u P upd : ok (secret_updateMany u P upd).
Proof.
  apply safe_act, safe_kept. intros w. destruct (aw_secrets w !! u) as [s|]; [|done].
  by destruct (P s).
Qed.
Lemma ok_secret_update u upd : ok (secret_update u upd).
Proof.
  apply safe_bind; [apply ok_secret_updateMany|]. intros n. apply safe_throw_if.
Qed.
Lemma ok_send e : ok (send e).
Proof. apply safe_act_outcome, safe_kept. intros w. by destruct (hd true _). Qed.

Lemma good_otps w f :
  auth_inv w → (∀ id, old id → row_done otp_spent id (aw_otps w) →
    row_done otp_spent id (f (aw_otps w))) → rows o_id Po (f (aw_otps w)) →
  auth_inv (set_otps f w) ∧ auth_rel w (set_otps f w).
Proof. intros [] Hf Hk. split; by split. Qed.
Lemma good_sessions w f :
  auth_inv w → (∀ id, old id → row_done session_spent id (aw_sessions w) →
    row_done session_spent id (f (aw_sessions w))) → rows s_id Ps (f (aw_sessions w)) →
  auth_inv (set_sessions f w) ∧ auth_rel w (set_sessions f w).
Proof. intros [] Hf Hk. split; by split. Qed.
Lemma good_codes w f :
  auth_inv w → (∀ id, old id → row_done code_spent id (aw_codes w) →
    row_done code_spent id (f (aw_codes w))) → rows rc_id Pc (f (aw_codes w)) →
  auth_inv (set_codes f w) ∧ auth_rel w (set_codes f w).
Proof. intros [] Hf Hk. split; by split. Qed.
Lemma good_challenges w f :
  auth_inv w → (∀ id, old id → row_done challenge_spent id (aw_challenges w) →
    row_done challenge_spent id (f (aw_challenges w))) → rows ch_id (λ _, True) (f (aw_challenges w)) →
  auth_inv (set_challenges f w) ∧ auth_rel w (set_challenges f w).
Proof. intros [] Hf Hk. split; by split. Qed.

Lemma ok_otp_update id upd :
  (∀ o, otp_spent o → otp_spent (upd o)) → (∀ o, o_id (upd o) = o_id o) →
  (∀ o, Po o → Po (upd o)) → ok (otp_update id upd).
Proof.
  intros Hu Hid HP. apply safe_act_outcome. intros w HI. destruct (aw_otps w !! id) eqn:Ho; [|done].
  apply good_otps; [done|intros i _; eapply row_done_update; eauto|].
  eapply rows_update; [done|apply Hid|auto|apply HI].
Qed.
Lemma good_otp_claim id (P : Z → UserOtp → bool) (upd : Z → UserOtp → UserOtp) :
  (∀ t o, otp_spent o → otp_spent (upd t o)) → (∀ t o, o_id (upd t o) = o_id o) →
  (∀ t o, Po o → Po (upd t o)) →
  good (X:=Z) auth_inv auth_rel (λ w, match aw_otps w !! id with
    | Some o => if P (aw_now w) o
                then (1, set_otps (insert id (upd (aw_now w) o)) w) else (0, w)
    | None => (0, w) end : Z * AuthW).
Proof.
  intros Hu Hid HP w HI. destruct (aw_otps w !! id) as [o|] eqn:Ho; [|done].
  destruct (P _ o); [|done]. apply good_otps; [done|intros i _; eapply row_done_update; eauto|].
  eapply rows_update; [done|apply Hid|auto|apply HI].
Qed.
Lemma good_session_claim id (P : Session → bool) (upd : Z → Session → Session) :
  (∀ t o, session_spent o → session_spent (upd t o)) → (∀ t o, s_id (upd t o) = s_id o) →
  (∀ t o, Ps o → Ps (upd t o)) →
  good (X:=Z) auth_inv auth_rel (λ w, match aw_sessions w !! id with
    | Some s => if P s then (1, set_sessions (insert id (upd (aw_now w) s)) w) else (0, w)
    | None => (0, w) end : Z * AuthW).
Proof.
  intros Hu Hid HP w HI. destruct (aw_sessions w !! id) as [o|] eqn:Ho; [|done].
  destruct (P o); [|done]. apply good_sessions; [done|intros i _; eapply row_done_update; eauto|].
  eapply rows_update; [done|apply Hid|auto|apply HI].
Qed.
Lemma good_code_claim id (P : RecoveryCode → bool) (upd : Z → RecoveryCode → RecoveryCode) :
  (∀ t o, code_spent o → code_spent (upd t o)) → (∀ t o, rc_id (upd t o) = rc_id o) →
  (∀ t o, Pc o → Pc (upd t o)) →
  good (X:=Z) auth_inv auth_rel (λ w, match aw_codes w !! id with
    | Some c => if P c then (1, set_codes (insert id (upd (aw_now w) c)) w) else (0, w)
    | None => (0, w) end : Z * AuthW).
Proof.
  intros Hu Hid HP w HI. destruct (aw_codes w !! id) as [o|] eqn:Ho; [|done].
  destruct (P o); [|done]. apply good_codes; [done|intros i _; eapply row_done_update; eauto|].
  eapply rows_update; [done|apply Hid|auto|apply HI].
Qed.
Lemma good_challenge_claim id (P : Challenge → bool) (upd : Z → Challenge → Challenge) :
  (∀ t o, challenge_spent o → challenge_spent (upd t o)) → (∀ t o, ch_id (upd t o) = ch_id o) →
  good (X:=Z) auth_inv auth_rel (λ w, match aw_challenges w !! id with
    | Some c => if P c then (1, set_challenges (insert id (upd (aw_now w) c)) w) else (0, w)
    | None => (0, w) end : Z * AuthW).
Proof.
  intros Hu Hid w HI. destruct (aw_challenges w !! id) as [o|] eqn:Ho; [|done].
  destruct (P o); [|done]. apply good_challenges; [done|intros i _; eapply row_done_update; eauto|].
  eapply rows_update; [done|apply Hid|auto|apply HI].
Qed.
Lemma ok_challenge_update id upd :
  (∀ t o, challenge_spent o → challenge_spent (upd t o)) → (∀ t o, ch_id (upd t o) = ch_id o) → ok (challenge_update id upd).
Proof.
  intros Hu Hid. apply safe_act_outcome. intros w HI.
  destruct (aw_challenges w !! id) eqn:Ho; [|done].
  apply good_challenges; [done|intros i _; eapply row_done_update; eauto|].
  eapply rows_update; [done|apply Hid|auto|apply HI].
Qed.
Lemma ok_challenge_updateMany P upd :
  (∀ t o, challenge_spent o → challenge_spent (upd t o)) → (∀ t o, ch_id (upd t o) = ch_id o) → ok (challenge_updateMany P upd).
Proof.
  intros Hu Hid. apply safe_modify. intros w HI. apply good_challenges; [done| |].
  - intros i _. apply row_done_fmap. intros r Hr. destruct (P r); auto.
  - apply rows_fmap; [intros r; by destruct (P r)|intros r; destruct (P r); auto|apply HI].
Qed.
Lemma ok_session_updateMany P upd :
  (∀ t o, session_spent o → session_spent (upd t o)) → (∀ t o, s_id (upd t o) = s_id o) →
  (∀ t o, Ps o → Ps (upd t o)) → ok (session_updateMany P upd).
Proof.
  intros Hu Hid HP. apply safe_act. intros w HI. apply good_sessions; [done| |].
  - intros i _. apply row_done_fmap. intros r Hr. destruct (P r); auto.
  - apply rows_fmap; [intros r; by destruct (P r)|intros r; destruct (P r); auto|apply HI].
Qed.
Lemma ok_session_deleteMany P : ok (session_deleteMany P).
Proof.
  apply safe_act. intros w HI. apply good_sessions; [done| |].
  - intros i _. apply row_done_filter.
  - apply rows_filter, HI.
Qed.

(** A drawn identifier is a new one. *)
Definition drawn (id : string) : Prop := ∃ n, (n0 ≤ n)%nat ∧ id = uuid n.

Lemma drawn_not_old id id' : drawn id → old id' → id ≠ id'.
Proof. intros (n&Hn&->) Ho. by apply Ho. Qed.

Lemma rg_randomUUID w : rg auth_inv auth_rel (λ id _, drawn id) (λ _ _, True) randomUUID w.
Proof.
  intros w1 HR HI. destruct (kept_good w1 (draw w1).2) as [? ?]; [done|apply kept_draw|].
  split_and!; [done..|]. exists (aw_draws w1). split; [apply HI|done].
Qed.

Lemma rg_session_create mk w :
  (∀ t, drawn (s_id (mk t))) → (∀ t, Ps (mk t)) →
  rg auth_inv auth_rel (λ _ _, True) (λ _ _, True) (session_create mk) w.
Proof.
  intros Hd HP. apply (rg_act_outcome auth_inv auth_rel). intros w1 _ HI. cbn.
  case_bool_decide; [done|]. destruct (good_sessions w1 (insert (s_id (mk (aw_now w1))) (mk (aw_now w1))))
    as [? ?]; [done| |by apply rows_new; [|apply HP|apply HI]|done].
  intros i Hi. apply row_done_new. by eapply drawn_not_old.
Qed.

Lemma ok_challenge_create mk : (∀ id t, ch_id (mk id t) = id) → ok (challenge_create mk).
Proof.
  intros Hmk w. apply rg_bind. eapply rg_mono; [apply rg_randomUUID| |done].
  intros id w1 Hd. apply (rg_act_outcome auth_inv auth_rel). intros w2 _ HI. cbn.
  case_bool_decide; [done|].
  destruct (good_challenges w2 (insert id (mk id (aw_now w2)))) as [? ?];
    [done| |by apply rows_new; [|done|apply HI]|done].
  intros i Hi. apply row_done_new. by eapply drawn_not_old.
Qed.

(** Transactions *)
Lemma rollback_good w w' :
  auth_inv w → auth_rel w w' → auth_inv w' → auth_inv (rollback w w') ∧ auth_rel w (rollback w w').
Proof. intros HI [] HI'. destruct HI, HI'. split; split; auto. by cbn. Qed.

Lemma ok_tx {A} (p : prog AuthW A) : ok p → ok (tx p).
Proof.
  intros Hp. apply safe_act_outcome. intros w HI.
  pose proof (rg_run auth_inv auth_rel _ _ p w HI (Hp w)) as (HI'&HR'&_).
  destruct (run p w) as [[a|e] w']; [done|]. by apply rollback_good.
Qed.
End safety.

#[export] Hint Extern 1 (_ ≠ promotion_verification) => discriminate : safe.
#[export] Hint Resolve auth_rel_preorder auth_outside ok_now ok_gets ok_emitAudit ok_draw
  ok_secret_updateMany ok_secret_update ok_send ok_session_deleteMany
  ok_tx : safe.

(** ** Handlers *)

(** An update that leaves alone who a user is and what they may do. *)
Definition touches (u u' : User) : Prop :=
  u_id u' = u_id u ∧ u_userRoles u' = u_userRoles u ∧ u_passwordHash u' = u_passwordHash u ∧
  u_inviteTokenHash u' = u_inviteTokenHash u.
(** Used or tried once more. *)
Definition worn (o o' : UserOtp) : Prop :=
  o_id o' = o_id o ∧ o_userId o' = o_userId o ∧ o_purpose o' = o_purpose o ∧
  o_otpHash o' = o_otpHash o ∧ (otp_spent o → otp_spent o').

(** What may be asked of every session, code and one-time code and of the accounts: it
    survives the updates of the handlers, and the rows they create satisfy it. *)
Class AuthPreds `{AuthLib} (n0 : nat) (cfg : AuthConfig) (Ps : Session → Prop)
    (Pc : RecoveryCode → Prop) (Po : UserOtp → Prop) (Iu : gmap string User → Prop)
    (Ru : relation (gmap string User)) := {
  ap_revoked t s : Ps s → Ps (upd_revoked t s);
  ap_used t c : Pc c → Pc (upd_code_used t c);
  ap_issued n userId phone email roles permissions sid expiresIn iat expires ip ua active :
    (n0 ≤ n)%nat → drawn n0 sid →
    Ps {| s_id := sid; s_userId := userId;
          s_refreshToken := hashOpaqueToken cfg
            (jwt_sign (refresh_payload userId phone email roles permissions sid (uuid n))
               (refreshSecret cfg) expiresIn iat) refresh_token;
          s_expiresAt := expires; s_revokedAt := None; s_ipAddress := ip; s_userAgent := ua;
          s_deviceLabel := describeDevice ua; s_lastActiveAt := Some active |};
  ap_worn o o' : worn o o' → Po o → Po o';
  ap_code id userId purpose channel data rounds n expires t :
    drawn n0 id → purpose ≠ promotion_verification →
    Po {| o_id := id; o_userId := userId; o_purpose := purpose; o_channel := channel;
          o_otpHash := bcrypt_hash data rounds n; o_expiresAt := expires; o_attempts := 0;
          o_usedAt := None; o_createdAt := t |};
  ap_touched m id u u' : m !! id = Some u → touches u u' → Iu m →
    Iu (<[id := u']> m) ∧ Ru m (<[id := u']> m);
}.

Section handlers.
Context `{AuthLib} `{SecretBox} (n0 : nat) (cfg : AuthConfig) (Ps : Session → Prop)
  (Pc : RecoveryCode → Prop) (Po : UserOtp → Prop) (Iu : gmap string User → Prop)
  (Ru : relation (gmap string User)) `{!AuthPreds n0 cfg Ps Pc Po Iu Ru}.
Abbreviation ok := (safe (auth_inv n0 Ps Pc Po Iu) (auth_rel n0 Ru)).

Lemma ok_user_touch id upd : (∀ t u, touches u (upd t u)) → ok (user_update id upd).
Proof.
  intros Hu. apply ok_user_update. intros t m u Hm HI. by eapply ap_touched.
Qed.
#[local] Hint Extern 1 (∀ t u, touches u _) => (intros ? ?; split_and!; reflexivity) : safe.
Hint Resolve ok_user_touch : safe.
Lemma ok_user_by_id id : ok (user_by_id id).
Proof. apply ok_gets. Qed.
Lemma ok_secret_by_user id : ok (secret_by_user id).
Proof. apply ok_gets. Qed.
Lemma ok_challenge_by_id id : ok (challenge_by_id id).
Proof. apply ok_gets. Qed.
Lemma ok_otp_with_user id : ok (otp_with_user id).
Proof. apply ok_gets. Qed.
Hint Resolve ok_user_by_id ok_secret_by_user ok_challenge_by_id ok_otp_with_user : safe.

(** *** Lockout *)
Lemma ok_assertNotLocked u : ok (assertNotLocked u).
Proof. unfold assertNotLocked. safe_tac. Qed.
Lemma ok_recordFailedLogin id : ok (recordFailedLogin cfg id).
Proof. unfold recordFailedLogin. safe_tac. Qed.
Lemma ok_resetLoginAttempts u : ok (resetLoginAttempts cfg u).
Proof. unfold resetLoginAttempts. safe_tac. Qed.
Lemma ok_lockAccountForOtpAbuse id : ok (lockAccountForOtpAbuse cfg id).
Proof. unfold lockAccountForOtpAbuse. safe_tac. Qed.
Lemma ok_verifyCredential id c : ok (verifyCredential cfg id c).
Proof. unfold verifyCredential. safe_tac. Qed.
Hint Resolve ok_assertNotLocked ok_recordFailedLogin ok_resetLoginAttempts
  ok_lockAccountForOtpAbuse ok_verifyCredential : safe.

(** *** One-time codes *)
Lemma ok_generateOtp : ok generateOtp.
Proof. apply (ok_draw n0 Ps Pc Po Iu Ru (λ n, str_of_Z (random_otp n))). Qed.
Lemma ok_bcryptHash d r : ok (bcryptHash d r).
Proof. apply (ok_draw n0 Ps Pc Po Iu Ru (bcrypt_hash d r)). Qed.
Lemma ok_findCooldownOtp a b c d : ok (findCooldownOtp a b c d).
Proof. apply ok_gets. Qed.
Lemma ok_hashed {A} d r (f : string → prog AuthW A) :
  (∀ n, ok (f (bcrypt_hash d r n))) → ok (bcryptHash d r ≫= f).
Proof.
  intros Hf w. apply rg_bind.
  eapply (rg_mono _ _ (λ h _, ∃ n, h = bcrypt_hash d r n) _ (λ _ _, True)); [|intros h w1 [n ->]; apply Hf|done].
  intros w1 _ HI. destruct (kept_good n0 Ps Pc Po Iu Ru w1 (draw w1).2) as [? ?];
    [done|apply kept_draw|]. split_and!; [done..|]. by eexists.
Qed.
Lemma ok_issue_otp userId purpose channel d r n :
  purpose ≠ promotion_verification →
  ok (issue_otp cfg userId purpose channel (bcrypt_hash d r n)).
Proof.
  intros Hp w. apply rg_bind. eapply rg_mono; [apply rg_randomUUID| |done].
  intros id w1 Hd. apply (rg_act_outcome (auth_inv n0 Ps Pc Po Iu) (auth_rel n0 Ru)). intros w2 _ HI. cbv beta zeta.
  destruct (cooldown_row _ _ _ _ _); [done|]. case_bool_decide; [done|]. cbn [fst snd].
  match goal with |- context [set_otps ?f w2] => destruct (good_otps n0 Ps Pc Po Iu Ru w2 f) as [? ?] end;
    [done| |apply rows_new; [done|by apply ap_code|]; apply rows_fmap;
              [intros o; by destruct (_ && _)| |apply HI]|done].
  - intros i Hi Hdone. apply row_done_new; [exact (drawn_not_old n0 id i Hd Hi)|].
    apply row_done_fmap; [|done]. intros o Ho. by destruct (_ && _).
  - intros o. destruct (_ && _); [|done]. by apply ap_worn.
Qed.
Hint Resolve ok_generateOtp ok_bcryptHash ok_findCooldownOtp ok_issue_otp : safe.
Lemma ok_issueAndSendOtp a b c d e :
  c ≠ promotion_verification → ok (issueAndSendOtp cfg a b c d e).
Proof.
  intros Hc. unfold issueAndSendOtp, sendSms. apply safe_bind; [safe_tac|]. intros cached.
  destruct cached as [[|]|]; [|safe_tac|];
    (apply safe_bind; [safe_tac|intros [cooling|]; [safe_tac|]];
     apply safe_bind; [safe_tac|intros otp]; apply ok_hashed; intros n; safe_tac).
Qed.
Hint Resolve ok_issueAndSendOtp : safe.

(** *** Tokens *)
Lemma ok_issueTokens a b c d e f g : ok (issueTokens cfg a b c d e f g).
Proof.
  intros w. unfold issueTokens. apply rg_bind. eapply rg_mono; [apply rg_randomUUID| |done].
  intros sid w1 Hsid. cbv beta in Hsid. apply rg_bind. eapply rg_mono; [apply ok_now| |done].
  intros iat w2 _. apply rg_bind. eapply rg_mono; [apply rg_randomUUID| |done].
  intros jti w3 (n&Hn&->). revert w3.
  apply safe_bind; [safe_tac|intros iat2]. apply safe_bind; [safe_tac|intros ms].
  apply safe_bind; [|safe_tac]. intros w3. apply rg_session_create; [done|].
  intros t. by apply ap_issued.
Qed.
Hint Resolve ok_issueTokens : safe.
Lemma ok_tokens_for u : ok (tokens_for cfg u).
Proof. unfold tokens_for. apply ok_issueTokens. Qed.
Hint Resolve ok_tokens_for : safe.
Lemma ok_auditLogin a b c d e f : ok (auditLogin a b c d e f).
Proof. apply ok_emitAudit. Qed.
Lemma ok_emitOtpRejected a b c d e f g : ok (emitOtpRejected a b c d e f g).
Proof. apply ok_emitAudit. Qed.
Lemma ok_emitOtpLockout a b : ok (emitOtpLockout a b).
Proof. apply ok_emitAudit. Qed.
Lemma ok_emitSecurityAudit a b c d e : ok (emitSecurityAudit a b c d e).
Proof. apply ok_emitAudit. Qed.
Lemma ok_login_failed a b c : ok (login_failed a b c).
Proof. apply ok_emitAudit. Qed.
Hint Resolve ok_auditLogin ok_emitOtpRejected ok_emitOtpLockout ok_emitSecurityAudit
  ok_login_failed : safe.
Lemma ok_requirePhone p : ok (requirePhone p).
Proof. unfold requirePhone. safe_tac. Qed.
Lemma ok_user_by_phone p : ok (user_by_phone p).
Proof. apply ok_gets. Qed.
Hint Resolve ok_requirePhone ok_user_by_phone : safe.

(** *** Handlers *)
Lemma ok_login phone password : ok (login cfg phone password).
Proof. unfold login. safe_tac. Qed.

Lemma ok_session_claim id P upd :
  (∀ t o, session_spent o → session_spent (upd t o)) → (∀ t o, s_id (upd t o) = s_id o) →
  (∀ t o, Ps o → Ps (upd t o)) → ok (session_claim id P upd).
Proof. intros Hu Hid HP. by apply safe_act, good_session_claim. Qed.
Lemma ok_otp_claim id P upd :
  (∀ t o, worn o (upd t o)) → ok (otp_claim id P upd).
Proof.
  intros Hu. apply safe_act, good_otp_claim; [intros t o; apply Hu..|].
  intros t o. by apply ap_worn.
Qed.
Lemma ok_otp_wear id upd : (∀ o, worn o (upd o)) → ok (otp_update id upd).
Proof.
  intros Hu. apply ok_otp_update; [intros o; apply Hu..|]. intros o. by apply ap_worn.
Qed.
Lemma worn_used t o : worn o (upd_used t o).
Proof. by split_and!. Qed.
Lemma worn_attempt o : worn o (upd_otp_attempts o).
Proof. by split_and!. Qed.
Lemma ok_code_claim id P upd :
  (∀ t o, code_spent o → code_spent (upd t o)) → (∀ t o, rc_id (upd t o) = rc_id o) →
  (∀ t o, Pc o → Pc (upd t o)) → ok (code_claim id P upd).
Proof. intros Hu Hid HP. by apply safe_act, good_code_claim. Qed.
Lemma ok_challenge_claim id P upd :
  (∀ t o, challenge_spent o → challenge_spent (upd t o)) → (∀ t o, ch_id (upd t o) = ch_id o) → ok (challenge_claim id P upd).
Proof. intros Hu Hid. by apply safe_act, good_challenge_claim. Qed.

Lemma ok_rotate s u : ok (rotate cfg s u).
Proof.
  apply ok_tx, safe_bind; [by apply ok_session_claim; [..|apply ap_revoked]|intros n]. safe_tac.
Qed.
Hint Resolve ok_rotate : safe.
Lemma ok_refresh token : ok (Auth.refresh cfg token).
Proof.
  unfold Auth.refresh. safe_tac. by apply ok_session_updateMany; [..|apply ap_revoked].
Qed.
Lemma ok_logout u t : ok (logout cfg u t).
Proof. unfold logout, audit_logout. safe_tac. Qed.
Lemma ok_logoutAll u : ok (logoutAll cfg u).
Proof. unfold logoutAll, audit_logout. safe_tac. Qed.
Lemma ok_revokeRefreshToken u t : ok (revokeRefreshToken cfg u t).
Proof. unfold revokeRefreshToken, audit_logout. safe_tac. Qed.

Lemma ok_reject_otp {A} a b c d e f : ok (reject_otp (A:=A) a b c d e f).
Proof. unfold reject_otp. safe_tac. Qed.
Hint Resolve ok_reject_otp : safe.
Lemma ok_consume_otp a r u f : (∀ x, ok (f x)) → ok (consume_otp cfg a r u f).
Proof.
  intros Hf. apply ok_tx, safe_bind; [apply ok_otp_claim, worn_used|intros n]. safe_tac.
Qed.
Lemma ok_checkOtpOrThrow a b c d f :
  (∀ g x, f = Some g → ok (g x)) → ok (checkOtpOrThrow cfg a b c d f).
Proof.
  intros Hf. unfold checkOtpOrThrow. safe_tac; try (apply ok_otp_wear, worn_attempt);
    try (by apply ok_consume_otp; intros; eapply Hf).
Qed.
Lemma ok_checkOtp_some a b c d g :
  (∀ x, ok (g x)) → ok (checkOtpOrThrow cfg a b c d (Some g)).
Proof. intros Hg. apply ok_checkOtpOrThrow. by intros g' x [= <-]. Qed.
Lemma ok_verifyResetOtp a b : ok (verifyResetOtp cfg a b).
Proof. apply safe_bind; [by apply ok_checkOtpOrThrow|intros u; safe_tac]. Qed.
Lemma ok_reactivateVerify a b c : ok (reactivateVerify cfg a b c).
Proof.
  unfold reactivateVerify. destruct (negb a); [safe_tac|]. apply safe_bind; [|intros u; safe_tac].
  apply ok_checkOtp_some. intros x. safe_tac.
Qed.

(** *** Two-factor *)
Lemma ok_loadUserForSecurity id : ok (loadUserForSecurity id).
Proof. unfold loadUserForSecurity. safe_tac. Qed.
Lemma ok_requireEnabledSecret id : ok (requireEnabledSecret id).
Proof. unfold requireEnabledSecret. safe_tac. Qed.
Lemma ok_checkTotpOrNull s c : ok (checkTotpOrNull cfg s c).
Proof. unfold checkTotpOrNull. safe_tac. Qed.
Hint Resolve ok_loadUserForSecurity ok_requireEnabledSecret ok_checkTotpOrNull : safe.
Lemma ok_loadChallengeOrThrow id : ok (loadChallengeOrThrow id).
Proof. unfold loadChallengeOrThrow. safe_tac. Qed.
Hint Resolve ok_loadChallengeOrThrow : safe.
Lemma ok_issueTwoFactorChallenge a b : ok (issueTwoFactorChallenge cfg a b).
Proof.
  unfold issueTwoFactorChallenge. apply safe_bind; [safe_tac|intros o].
  destruct (negb _); [safe_tac|]. apply safe_bind; [safe_tac|intros u].
  apply safe_bind; [by apply ok_challenge_updateMany|intros _].
  apply safe_bind; [by apply ok_challenge_create|intros c; safe_tac].
Qed.
Lemma ok_failChallenge {A} a b c : ok (failChallenge cfg (A:=A) a b c).
Proof. unfold failChallenge. safe_tac; by apply ok_challenge_update. Qed.
Hint Resolve ok_failChallenge : safe.
Lemma ok_finishChallenge a b c : ok (finishChallenge cfg a b c).
Proof.
  apply safe_bind; [by apply ok_challenge_claim|intros n]. safe_tac.
Qed.
Hint Resolve ok_finishChallenge : safe.
Lemma ok_twoFactorLoginVerify a b : ok (twoFactorLoginVerify cfg a b).
Proof. unfold twoFactorLoginVerify. safe_tac. Qed.
Lemma ok_twoFactorLoginRecovery a b : ok (twoFactorLoginRecovery cfg a b).
Proof. unfold twoFactorLoginRecovery. safe_tac. by apply ok_code_claim; [..|apply ap_used]. Qed.
Lemma ok_twoFactorLoginResend a : ok (twoFactorLoginResend cfg a).
Proof.
  unfold twoFactorLoginResend, sendSms. safe_tac. by apply ok_challenge_update.
Qed.
Lemma ok_twoFactorStepUp a b c : ok (twoFactorStepUp cfg a b c).
Proof. unfold twoFactorStepUp. safe_tac. Qed.
End handlers.

#[export] Hint Resolve ok_user_by_id ok_secret_by_user ok_challenge_by_id ok_otp_with_user
  ok_assertNotLocked ok_recordFailedLogin ok_resetLoginAttempts ok_lockAccountForOtpAbuse
  ok_verifyCredential ok_generateOtp ok_bcryptHash ok_issueAndSendOtp ok_tokens_for
  ok_auditLogin ok_emitOtpRejected ok_emitOtpLockout ok_emitSecurityAudit ok_login_failed
  ok_requirePhone ok_login ok_refresh ok_logout ok_logoutAll ok_revokeRefreshToken
  ok_reject_otp ok_verifyResetOtp ok_reactivateVerify ok_loadUserForSecurity
  ok_requireEnabledSecret ok_checkTotpOrNull ok_loadChallengeOrThrow
  ok_issueTwoFactorChallenge ok_failChallenge ok_finishChallenge ok_twoFactorLoginVerify
  ok_twoFactorLoginRecovery ok_twoFactorLoginResend ok_twoFactorStepUp : safe.
