(* ===== verification/AdminSafety.v ===== *)
(** * Administrators under every interleaving

    The handlers of [AdminAuth] undo nothing of what those of [Auth] rely on, and do to
    the accounts and the one-time codes only what an administrator, a link or a code
    entitles them to. *)

From S2P Require Import Prelude Interleave Js Redis Cache Roles TwoFactor.
From S2P Require Import AuthModel Credentials Auth PasswordPolicy AdminAuth.
From S2P Require Import AuthSafety.
From coqutil Require Import Datatypes.RecordSetters.
Import DoubleBraceUpdate.

Open Scope Z_scope.

Definition is_super (actor : CurrentUser) : Prop := SUPER_ADMIN ∈ cu_roles actor.

(** The same person with the same roles. *)
Definition same_rights (u u' : User) : Prop :=
  u_id u' = u_id u ∧ u_userRoles u' = u_userRoles u.

(** What may be asked of the accounts and the one-time codes also survives what these
    handlers do; those that take a Super Admin run for the actors in [Act]. *)
Class AdminPreds `{AuthLib} (Act : CurrentUser → Prop) (n0 : nat) (cfg : AuthConfig)
    (Po : UserOtp → Prop) (Iu : gmap string User → Prop) (Ru : relation (gmap string User)) := {
  am_link n id userId purpose expires t :
    (n0 ≤ n)%nat → drawn n0 id →
    purpose = email_verification ∨ (purpose = promotion_verification ∧ ∃ a, Act a ∧ is_super a) →
    Po {| o_id := id; o_userId := userId; o_purpose := purpose; o_channel := email;
          o_otpHash := hashOpaqueToken cfg (random_token n) other_token;
          o_expiresAt := expires; o_attempts := 0; o_usedAt := None; o_createdAt := t |};
  am_password m id u u' :
    m !! id = Some u → same_rights u u' → u_passwordHash u' ≠ None →
    (u_inviteTokenHash u' = u_inviteTokenHash u ∨ u_inviteTokenHash u' = None) → Iu m →
    Iu (<[id := u']> m) ∧ Ru m (<[id := u']> m);
  am_invited a n m id u u' :
    Act a → is_super a → (n0 ≤ n)%nat → m !! id = Some u → same_rights u u' →
    u_passwordHash u' = u_passwordHash u →
    u_inviteTokenHash u' = Some (hashOpaqueToken cfg (random_token n) other_token) → Iu m →
    Iu (<[id := u']> m) ∧ Ru m (<[id := u']> m);
  am_roles a m id u rs :
    Act a → is_super a → m !! id = Some u → Iu m →
    Iu (<[id := u{{u_userRoles := rs}}]> m) ∧ Ru m (<[id := u{{u_userRoles := rs}}]> m);
  am_new a m id mail name rs :
    Act a → is_super a → drawn n0 id → m !! id = None → Iu m →
    Iu (<[id := new_admin mail name rs id]> m) ∧ Ru m (<[id := new_admin mail name rs id]> m);
  am_deleted a m id :
    Act a → is_super a → Iu m → Iu (delete id m) ∧ Ru m (delete id m);
  am_promoted o m id u rs :
    Po o → o_purpose o = promotion_verification → o_usedAt o = None → m !! id = Some u → Iu m →
    Iu (<[id := u{{u_userRoles := rs}}]> m) ∧ Ru m (<[id := u{{u_userRoles := rs}}]> m);
}.

Section admin.
Context `{AuthLib} `{SecretBox} (Act : CurrentUser → Prop) (n0 : nat) (cfg : AuthConfig)
  (Ps : Session → Prop) (Pc : RecoveryCode → Prop) (Po : UserOtp → Prop)
  (Iu : gmap string User → Prop) (Ru : relation (gmap string User))
  `{!AuthPreds n0 cfg Ps Pc Po Iu Ru} `{!AdminPreds Act n0 cfg Po Iu Ru}.
Abbreviation I := (auth_inv n0 Ps Pc Po Iu).
Abbreviation R := (auth_rel n0 Ru).
Abbreviation ok := (safe I R).

(** *** Statements *)

Lemma ok_user_by_email e : ok (user_by_email e).
Proof. apply ok_gets. Qed.
Lemma ok_user_by_invite h : ok (user_by_invite h).
Proof. apply ok_gets. Qed.
Lemma ok_roles_in names : ok (roles_in names).
Proof. apply ok_gets. Qed.
Lemma ok_admin_role_by_name name : ok (role_by_name name).
Proof. apply ok_gets. Qed.

Definition users_step (id : string) (upd : User → User) : Prop :=
  ∀ m u, m !! id = Some u → Iu m → Iu (<[id := upd u]> m) ∧ Ru m (<[id := upd u]> m).
Lemma good_user_step w id u upd :
  users_step id upd → I w → aw_users w !! id = Some u →
  I (set_users (insert id (upd u)) w) ∧ R w (set_users (insert id (upd u)) w).
Proof.
  intros Hs HI Hu. destruct (Hs _ _ Hu) as [? ?]; [apply HI|]. by apply good_users, rtc_once.
Qed.
Lemma ok_user_write id upd : users_step id upd → ok (user_write id upd).
Proof.
  intros Hs. apply safe_act_outcome. intros w HI. destruct (aw_users w !! id) as [u|] eqn:Hu; [|done].
  destruct (unique_columns _ _); [|done]. by apply good_user_step.
Qed.
Lemma ok_user_update_step id upd : users_step id upd → ok (user_update id (λ _, upd)).
Proof. intros Hs. apply ok_user_update. intros t m u. apply Hs. Qed.
Lemma good_user_claim id (P : User → bool) upd :
  users_step id upd →
  good (X:=Z) I R (λ w, match aw_users w !! id with
    | Some u => if P u then (1, set_users (insert id (upd u)) w) else (0, w)
    | None => (0, w) end : Z * AuthW).
Proof.
  intros Hs w HI. destruct (aw_users w !! id) as [u|] eqn:Hu; [|done].
  destruct (P u); [|done]. by apply good_user_step.
Qed.
Lemma registered_step hash id : users_step id (upd_registered hash).
Proof. intros m u Hu HI. eapply am_password; [done..|by right|done]. Qed.
Lemma ok_replace_roles a id rs : Act a → is_super a → ok (replace_roles id rs).
Proof.
  intros Ha Hs. apply safe_act_outcome. intros w HI.
  destruct (aw_users w !! id) as [u|] eqn:Hu; [|by destruct rs].
  apply (good_user_step w id u (λ u, u{{u_userRoles := rs}})); [|done..].
  intros m v. by apply (am_roles a).
Qed.
Definition roles_step (id : string) : Prop :=
  ∀ rs, users_step id (λ u, u{{u_userRoles := rs}}).
Lemma good_roles w id u rs :
  roles_step id → I w → aw_users w !! id = Some u →
  I (set_users (insert id (u{{u_userRoles := rs}})) w) ∧
  R w (set_users (insert id (u{{u_userRoles := rs}})) w).
Proof. intros Hs. by apply (good_user_step w id u (λ u, u{{u_userRoles := rs}})). Qed.
Lemma ok_userRole_create id role : roles_step id → ok (userRole_create id role).
Proof.
  intros Hs. apply safe_act_outcome. intros w HI. destruct (aw_users w !! id) as [u|] eqn:Hu; [|done].
  destruct (mem _ _); [done|]. by apply good_roles.
Qed.
Lemma ok_admin_userRole_delete id name : roles_step id → ok (userRole_delete id name).
Proof.
  intros Hs. apply safe_act_outcome. intros w HI. destruct (aw_users w !! id) as [u|] eqn:Hu; [|done].
  destruct (mem _ _); [|done]. by apply good_roles.
Qed.
Lemma roles_step_super a id : Act a → is_super a → roles_step id.
Proof. intros Ha Hs rs m u. by apply (am_roles a). Qed.

(** A new row, under an identifier that is drawn. *)
Lemma ok_user_create_new mk :
  (∀ m id, drawn n0 id → m !! id = None → Iu m → Iu (<[id := mk id]> m) ∧ Ru m (<[id := mk id]> m)) →
  ok (user_create mk).
Proof.
  intros Hnew w. apply rg_bind. eapply rg_mono; [apply rg_randomUUID| |done].
  intros id w1 Hd. apply (rg_act_outcome I R). intros w2 _ HI. cbv beta.
  destruct (aw_users w2 !! id) as [v|] eqn:Hv; cbn [orb].
  { by rewrite bool_decide_eq_true_2. }
  rewrite bool_decide_eq_false_2 by (by intros [? ?]). destruct (negb _); [done|]. cbn [orb fst snd].
  destruct (Hnew (aw_users w2) id Hd Hv) as [? ?]; [apply HI|].
  destruct (good_users n0 Ps Pc Po Iu Ru w2 (insert id (mk id))) as [? ?];
    [done..|by apply rtc_once|done].
Qed.
Lemma ok_user_create a mail name rs :
  Act a → is_super a → ok (user_create (new_admin mail name rs)).
Proof. intros Ha Hs. apply ok_user_create_new. intros m id. by apply (am_new a). Qed.
Lemma ok_user_delete a id : Act a → is_super a → ok (user_delete id).
Proof.
  intros Ha Hs. apply safe_act_outcome. intros w HI. destruct (aw_users w !! id); [|done].
  destruct (am_deleted a (aw_users w) id Ha Hs) as [? ?]; [apply HI|]. destruct HI. cbn [snd].
  split; split; try done; cbn; eauto using rows_filter, row_done_filter. by apply rtc_once.
Qed.

Lemma ok_close_otps userId purpose : ok (close_otps userId purpose).
Proof.
  apply safe_modify. intros w HI. apply good_otps; [done| |].
  - intros i _. apply row_done_fmap. intros o Ho. by destruct (open_otp _ _ _).
  - apply rows_fmap; [intros o; by destruct (open_otp _ _ _)| |apply HI].
    intros o. destruct (open_otp _ _ _); [|done]. apply ap_worn, worn_used.
Qed.
Definition may_link (purpose : UserOtpPurpose) : Prop :=
  purpose = email_verification ∨ (purpose = promotion_verification ∧ ∃ a, Act a ∧ is_super a).
Lemma ok_otp_create n userId purpose expires :
  (n0 ≤ n)%nat → may_link purpose →
  ok (otp_create userId (hashOpaqueToken cfg (random_token n) other_token) purpose expires).
Proof.
  intros Hn Hp w. apply rg_bind. eapply rg_mono; [apply rg_randomUUID| |done].
  intros id w1 Hd. apply (rg_act_outcome I R). intros w2 _ HI. cbv beta zeta.
  case_bool_decide; [done|]. case_bool_decide; [|done]. cbn [fst snd].
  match goal with |- context [set_otps ?f w2] => destruct (good_otps n0 Ps Pc Po Iu Ru w2 f) as [? ?] end;
    [done| |apply rows_new; [done|by apply am_link|apply HI]|done].
  intros i Hi. apply row_done_new. exact (drawn_not_old n0 id i Hd Hi).
Qed.
#[local] Hint Resolve ok_user_by_email ok_user_by_invite ok_roles_in ok_admin_role_by_name
  ok_close_otps ok_issueTokens ok_user_by_phone : safe.

(** *** Helpers *)

Lemma ok_audit_user a b c d e f g h i : ok (audit_user a b c d e f g h i).
Proof. apply ok_emitAudit. Qed.
Lemma ok_audit_otp a b c d e f g h i : ok (audit_otp a b c d e f g h i).
Proof. apply ok_emitAudit. Qed.
#[local] Hint Resolve ok_audit_user ok_audit_otp : safe.
Lemma ok_refuse {A} a b c d e f : ok (refuse (A:=A) a b c d e f).
Proof. unfold refuse. safe_tac. Qed.
Lemma ok_refuse_self {A} a b c d e f g : ok (refuse_self (A:=A) a b c d e f g).
Proof. unfold refuse_self. safe_tac. Qed.
Lemma ok_audit_done a b c d e : ok (audit_done a b c d e).
Proof. apply ok_emitAudit. Qed.
Lemma ok_register_failed {A} a b c d : ok (register_failed (A:=A) a b c d).
Proof. unfold register_failed. safe_tac. Qed.
Lemma ok_audit_registration a b c d : ok (audit_registration a b c d).
Proof. apply ok_emitAudit. Qed.
Lemma ok_registration_failed {A} a b c : ok (registration_failed (A:=A) a b c).
Proof. unfold registration_failed, audit_registration. safe_tac. Qed.
Lemma ok_fail_promotion {A} a b c d : ok (fail_promotion (A:=A) a b c d).
Proof. unfold fail_promotion. safe_tac. Qed.
Lemma ok_audit_admin_login a b c d e : ok (audit_admin_login a b c d e).
Proof. apply ok_emitAudit. Qed.
Lemma ok_admin_login_failed a b c : ok (admin_login_failed a b c).
Proof. apply ok_emitAudit. Qed.
Lemma ok_emitOtpAbuseAlert a b c d : ok (emitOtpAbuseAlert a b c d).
Proof. apply ok_emitAudit. Qed.
Lemma ok_send_link a b : ok (send_link a b).
Proof. unfold send_link. safe_tac. Qed.
Lemma ok_success_email a b : ok (sendAdminPasswordSuccessEmail a b).
Proof. unfold sendAdminPasswordSuccessEmail. safe_tac. Qed.
Lemma ok_checkAdminPassword a b : ok (checkAdminPassword cfg a b).
Proof. unfold checkAdminPassword. safe_tac. Qed.
Lemma ok_cooldown a : ok (assertInviteResendCooldown cfg a).
Proof. unfold assertInviteResendCooldown. safe_tac. Qed.
#[local] Hint Resolve ok_refuse ok_refuse_self ok_audit_done ok_register_failed
  ok_audit_registration ok_registration_failed ok_fail_promotion ok_audit_admin_login
  ok_admin_login_failed ok_emitOtpAbuseAlert ok_send_link ok_success_email
  ok_checkAdminPassword ok_cooldown : safe.
Lemma ok_registration_open a b c : ok (assertRegistrationOpen a b c).
Proof. unfold assertRegistrationOpen. safe_tac. Qed.
Lemma ok_resend_allowed a : ok (assertPromotionResendAllowed cfg a).
Proof. unfold assertPromotionResendAllowed. safe_tac. Qed.
Lemma ok_assertActorIsAdmin a b : ok (assertActorIsAdmin a b).
Proof. unfold assertActorIsAdmin. safe_tac. Qed.
#[local] Hint Resolve ok_registration_open ok_resend_allowed ok_assertActorIsAdmin : safe.

(** Past the check, the actor is a Super Admin. *)
Lemma ok_super {A} actor action md (k : prog AuthW A) :
  (is_super actor → ok k) → ok (assertSuperAdmin actor action md ;; k).
Proof.
  intros Hk. unfold assertSuperAdmin, mem. case_bool_decide as Hs; [exact (Hk Hs)|].
  set (a := audit_user _ _ _ _ _ _ _ _ _).
  change (ok (a ;; @Throw AuthW A (Unauthorized "insufficient_permissions"))).
  subst a. safe_tac.
Qed.

(** A token that is drawn. *)
Lemma ok_token {A} (f : string → prog AuthW A) :
  (∀ n, (n0 ≤ n)%nat → ok (f (random_token n))) → ok (rawToken ≫= f).
Proof.
  intros Hf w. apply rg_bind.
  eapply (rg_mono _ _ (λ h _, ∃ n, (n0 ≤ n)%nat ∧ h = random_token n) _ (λ _ _, True));
    [|intros h w1 (n&Hn&->); by apply Hf|done].
  intros w1 _ HI. destruct (kept_good n0 Ps Pc Po Iu Ru w1 (draw w1).2) as [? ?];
    [done|apply kept_draw|]. split_and!; [done..|]. exists (aw_draws w1). split; [apply HI|done].
Qed.

(** One more statement that is known. *)
Ltac safe_next := apply safe_bind; [solve [safe_tac]|intros ?].
Ltac safe_guard :=
  match goal with |- safe _ _ (if ?b then _ else _) => destruct b; [solve [safe_tac]|] end.

(** *** Registration *)

Lemma ok_invite a adminId mail :
  Act a → is_super a → ok (issueRegistrationInvite cfg adminId mail).
Proof.
  intros Ha Hs. unfold issueRegistrationInvite. apply ok_token. intros n Hn.
  apply safe_bind; [safe_tac|intros t]. apply safe_bind; [|intros u; safe_tac]. apply ok_user_write.
  intros m u Hu HI. by eapply (am_invited a n).
Qed.
Lemma ok_adminRegister creator data : Act creator → ok (adminRegister cfg creator data).
Proof.
  intros Ha. unfold adminRegister. cbv zeta. apply ok_super. intros Hs.
  apply safe_bind; [safe_tac|intros mail]. destruct (existsb _ _); [safe_tac|].
  apply safe_bind; [safe_tac|intros records]. destruct (negb _); [safe_tac|].
  apply safe_bind; [safe_tac|intros [u|]].
  - destruct (_ || _); [safe_tac|]. unfold reinvite. apply safe_bind; [safe_tac|intros _].
    apply safe_bind; [by apply ok_tx, (ok_replace_roles creator)|intros _].
    apply safe_bind; [by apply (ok_invite creator)|intros b]. safe_tac.
  - apply safe_bind; [apply safe_catch; [by apply (ok_user_create creator)|intros e; safe_tac]|].
    intros admin. apply safe_bind; [by apply (ok_invite creator)|intros b]. safe_tac.
Qed.
Lemma ok_adminRegisterResend creator mail :
  Act creator → ok (adminRegisterResend cfg creator mail).
Proof.
  intros Ha. unfold adminRegisterResend. cbv zeta. apply ok_super. intros Hs.
  repeat safe_next.
  apply safe_bind; [by apply (ok_invite creator)|intros b]. safe_tac.
Qed.
Lemma ok_adminCompleteRegistration token password :
  ok (adminCompleteRegistration cfg token password).
Proof.
  unfold adminCompleteRegistration. cbv zeta. apply safe_bind; [safe_tac|intros [admin|]]; [|safe_tac].
  apply safe_bind; [safe_tac|intros t].
  match goal with |- ok (if ?b then _ else _) => destruct b end; [safe_tac|].
  destruct (truthy _); [safe_tac|]. repeat safe_next.
  apply safe_bind; [|intros n; safe_tac].
  apply safe_act, good_user_claim, registered_step.
Qed.
Lemma ok_adminCancelRegistration actor mail :
  Act actor → ok (adminCancelRegistration actor mail).
Proof.
  intros Ha. unfold adminCancelRegistration. cbv zeta. apply ok_super. intros Hs.
  repeat safe_next.
  apply safe_bind; [by apply (ok_user_delete actor)|intros b]. safe_tac.
Qed.

(** *** Promotion *)

Lemma ok_new_link userId purpose m : may_link purpose → ok (new_link cfg userId purpose m).
Proof.
  intros Hp. unfold new_link. apply ok_token. intros n Hn. repeat safe_next.
  apply safe_bind; [by apply ok_otp_create|intros o; safe_tac].
Qed.
Lemma ok_send_promotion actor action context user mail :
  Act actor → is_super actor → ok (send_promotion cfg actor action context user mail).
Proof.
  intros Ha Hs. apply safe_bind; [apply ok_new_link; right; by eauto|intros link]. safe_tac.
Qed.
Lemma step_touches id upd : (∀ u, touches u (upd u)) → users_step id upd.
Proof. intros Ht m u Hu HI. by eapply ap_touched. Qed.
Lemma ok_promoteUserInitiate actor phone mail :
  Act actor → ok (promoteUserInitiate cfg actor phone mail).
Proof.
  intros Ha. unfold promoteUserInitiate. cbv zeta. apply ok_super. intros Hs.
  do 4 safe_next. do 3 safe_guard. safe_next.
  enough (ok (user_update (u_id a2) (λ _ u, u{{u_pendingEmail := Some a0}}) ;;
    send_promotion cfg actor "USER_PROMOTION_INITIATED" "promotion_initiated" a2 a0)) by safe_tac.
  apply safe_bind; [|intros _; by apply ok_send_promotion].
  apply ok_user_update_step, step_touches. intros u. by repeat split.
Qed.
Lemma ok_promoteUserResend actor phone : Act actor → ok (promoteUserResend cfg actor phone).
Proof.
  intros Ha. unfold promoteUserResend. cbv zeta. apply ok_super. intros Hs. do 3 safe_next.
  destruct (promotionTargetEmail _); [|safe_tac]. destruct (hasAdminRole _); [safe_tac|].
  safe_next. by apply ok_send_promotion.
Qed.
(** What follows the claim of the link. *)
Lemma ok_promote_rest otp user mail hash role :
  Po otp → o_purpose otp = promotion_verification → o_usedAt otp = None →
  ok (promote_rest otp user mail hash role).
Proof.
  intros HP Hp Hu. unfold promote_rest. safe_next. case_match; [|safe_tac]. destruct (hasAdminRole _); [safe_tac|].
  apply safe_bind; [apply ok_user_write|intros _].
  { intros m v Hm HI. eapply am_password; [done..|by left|done]. }
  apply safe_bind; [apply ok_userRole_create|intros _; safe_tac].
  intros rs m v. by apply (am_promoted otp).
Qed.
Lemma ok_promote otp user mail hash role :
  Po otp → o_purpose otp = promotion_verification → o_usedAt otp = None →
  ok (promote otp user mail hash role).
Proof.
  intros HP Hp Hu. apply ok_tx.
  apply safe_bind; [apply (ok_otp_claim n0 cfg Ps Pc Po Iu Ru), worn_used|intros n].
  destruct (n =? 0); [safe_tac|by apply ok_promote_rest].
Qed.
Lemma rg_otp_by_hash hash purpose w :
  rg I R (λ f _, match f with
                 | Some (o, _) => Po o ∧ o_purpose o = purpose ∧ o_usedAt o = None ∧
                                  o_otpHash o = hash
                 | None => True end) (λ _ _, True) (otp_by_hash hash purpose) w.
Proof.
  apply (rg_gets I R). intros w1 _ HI. destruct (find_row _ _) as [o|] eqn:Ho; [|done].
  apply find_row_Some in Ho as [Hl [i Hi]]. destruct (aw_users w1 !! o_userId o); [|done].
  unfold live_otp in Hl. rewrite !andb_true_iff, !bool_decide_eq_true in Hl.
  destruct Hl as [[[Hh Hp] Hu] _]. split; [by apply (ai_otps _ _ _ _ _ _ HI i)|done].
Qed.
Lemma ok_promoteUserVerify token password : ok (promoteUserVerify cfg token password).
Proof.
  intros w. apply rg_bind. eapply rg_mono; [apply rg_otp_by_hash| |done].
  intros [[otp user]|] w1 Hf; [destruct Hf as (HP&Hp&Hu&_)|]; revert w1; [|safe_tac].
  destruct (promotionTargetEmail user); [|safe_tac].
  apply safe_bind; [safe_tac|intros [role|]]; [|safe_tac]. do 2 safe_next.
  apply safe_bind; [|intros _; safe_tac]. apply safe_catch; [by apply ok_promote|].
  intros e. safe_tac.
Qed.
Lemma ok_promoteUserCancel actor phone : ok (promoteUserCancel actor phone).
Proof.
  unfold promoteUserCancel. cbv zeta. apply ok_super. intros _. do 3 safe_next.
  destruct (hasAdminRole _); [safe_tac|]. do 2 safe_next.
  apply safe_bind; [apply ok_tx|intros _; safe_tac]. safe_next.
  apply safe_bind; [|intros ?; safe_tac]. apply ok_user_update_step, step_touches.
  intros u. unfold upd_not_pending. case_match; by repeat split.
Qed.

(** *** Login and passwords *)

Lemma ok_adminLoginByEmail mail password : ok (adminLoginByEmail cfg mail password).
Proof. unfold adminLoginByEmail. safe_tac. Qed.
Lemma ok_send_admin_otp a b c : c ≠ promotion_verification → ok (send_admin_otp cfg a b c).
Proof. by apply (ok_issueAndSendOtp n0 cfg Ps Pc Po Iu Ru). Qed.
#[local] Hint Resolve ok_send_admin_otp : safe.
Lemma ok_adminForgotPassword mail : ok (adminForgotPassword cfg mail).
Proof. unfold adminForgotPassword. safe_tac. Qed.
Lemma ok_adminResend id : ok (adminResendForgotPasswordOtp cfg id).
Proof. unfold adminResendForgotPasswordOtp. safe_tac. Qed.
Lemma ok_reject_code {A} a b c d e f : ok (reject_code (A:=A) a b c d e f).
Proof. unfold reject_code, audit_code. safe_tac. Qed.
Lemma ok_audit_code a b c d e f : ok (audit_code a b c d e f).
Proof. apply ok_emitAudit. Qed.
Lemma ok_otp_abuse a b c : ok (otp_abuse cfg a b c).
Proof. unfold otp_abuse. safe_tac. Qed.
#[local] Hint Resolve ok_reject_code ok_audit_code ok_otp_abuse : safe.
Lemma ok_wrong_code {A} a b c : ok (wrong_code cfg (A:=A) a b c).
Proof.
  unfold wrong_code. apply safe_bind; [apply (ok_otp_wear n0 cfg Ps Pc Po Iu Ru), worn_attempt|intros o]. safe_tac.
Qed.
#[local] Hint Resolve ok_wrong_code : safe.
Lemma password_step hash id : users_step id (λ u, u{{u_passwordHash := Some hash}}).
Proof. intros m u Hu HI. eapply am_password; [done..|by left|done]. Qed.
Lemma ok_set_password flow otp user id hash : ok (set_password flow otp user id hash).
Proof.
  apply ok_tx, safe_bind; [apply (ok_otp_claim n0 cfg Ps Pc Po Iu Ru), worn_used|intros n].
  destruct (n =? 0); [safe_tac|].
  apply safe_bind; [apply ok_user_update_step, password_step|intros _; safe_tac].
Qed.
#[local] Hint Resolve ok_set_password : safe.
Lemma ok_notice e : ok (modify (push_event e)).
Proof. apply safe_modify. intros w HI. by apply kept_good. Qed.
#[local] Hint Resolve ok_notice : safe.
Lemma ok_verify_password_code flow id code password :
  ok (verify_password_code cfg flow id code password).
Proof. unfold verify_password_code. safe_tac. Qed.
Lemma ok_adminChangePasswordInitiate actor password :
  ok (adminChangePasswordInitiate cfg actor password).
Proof. unfold adminChangePasswordInitiate. safe_tac. Qed.

(** *** The e-mail address *)

Lemma ok_send_email_change userId mail : ok (send_email_change cfg userId mail).
Proof.
  apply safe_bind; [apply ok_new_link; by left|intros link]. safe_tac.
Qed.
#[local] Hint Resolve ok_send_email_change : safe.
Lemma ok_adminChangeEmailInitiate actor mail : ok (adminChangeEmailInitiate cfg actor mail).
Proof.
  unfold adminChangeEmailInitiate. safe_tac; apply ok_user_write, step_touches; intros ?; by repeat split.
Qed.
Lemma ok_email_change_failed {A} a b : ok (email_change_failed (A:=A) a b).
Proof. unfold email_change_failed, audit_email_change. safe_tac. Qed.
#[local] Hint Resolve ok_email_change_failed : safe.
Lemma ok_adminChangeEmailVerify token : ok (adminChangeEmailVerify cfg token).
Proof.
  unfold adminChangeEmailVerify, audit_email_change.
  apply safe_bind; [safe_tac|intros [otp|]]; [|safe_tac].
  apply safe_bind; [|intros u; safe_tac]. apply ok_tx.
  apply safe_bind; [apply (ok_otp_claim n0 cfg Ps Pc Po Iu Ru), worn_used|intros n]. destruct (n =? 0); [safe_tac|].
  apply ok_user_update_step, step_touches. intros u. by repeat split.
Qed.
Lemma ok_adminChangeEmailResend actor mail : ok (adminChangeEmailResend cfg actor mail).
Proof. unfold adminChangeEmailResend. safe_tac. Qed.

(** *** Sessions and demotion *)

Lemma ok_adminLogout actor token : ok (adminLogout cfg actor token).
Proof. unfold adminLogout. safe_tac. Qed.
Lemma ok_adminLogoutAll actor : ok (adminLogoutAll cfg actor).
Proof. unfold adminLogoutAll. safe_tac. Qed.
Lemma ok_revokeMySession actor id : ok (revokeMySession cfg actor id).
Proof. unfold revokeMySession. safe_tac. Qed.
Lemma ok_demote actor user b : Act actor → is_super actor → ok (demote user b).
Proof.
  intros Ha Hs. apply ok_tx. pose proof (λ id, roles_step_super actor id Ha Hs) as Hr.
  apply safe_bind; [by apply ok_admin_userRole_delete|intros _]. apply safe_bind; [|intros ?; safe_tac].
  destruct b; [|safe_tac]. do 2 safe_next. by apply ok_userRole_create.
Qed.
Lemma ok_demoteAdmin actor id reason : Act actor → ok (demoteAdmin cfg actor id reason).
Proof.
  intros Ha. unfold demoteAdmin, deny_demotion. cbv zeta. apply ok_super. intros Hs.
  do 3 safe_next. do 3 safe_guard.
  apply safe_bind; [by apply (ok_demote actor)|intros n]. safe_tac.
Qed.
End admin.

(** ** The entry points; those that take a Super Admin, for the actors in [Act]. *)

Definition no_result {A} (p : prog AuthW A) : prog AuthW () := p ;; mret ().

Inductive admin_handler `{AuthLib} `{SecretBox} (cfg : AuthConfig) (Act : CurrentUser → Prop)
    : prog AuthW () → Prop :=
| m_register a data : Act a → admin_handler cfg Act (no_result (adminRegister cfg a data))
| m_registerResend a e : Act a → admin_handler cfg Act (no_result (adminRegisterResend cfg a e))
| m_complete token password :
    admin_handler cfg Act (no_result (adminCompleteRegistration cfg token password))
| m_cancelRegistration a e : Act a → admin_handler cfg Act (adminCancelRegistration a e)
| m_promote a phone e :
    Act a → admin_handler cfg Act (no_result (promoteUserInitiate cfg a phone e))
| m_promoteResend a phone :
    Act a → admin_handler cfg Act (no_result (promoteUserResend cfg a phone))
| m_promoteVerify token password :
    admin_handler cfg Act (promoteUserVerify cfg token password)
| m_promoteCancel a phone : Act a → admin_handler cfg Act (promoteUserCancel a phone)
| m_login e password : admin_handler cfg Act (no_result (adminLoginByEmail cfg e password))
| m_forgot e : admin_handler cfg Act (no_result (adminForgotPassword cfg e))
| m_forgotResend id : admin_handler cfg Act (no_result (adminResendForgotPasswordOtp cfg id))
| m_reset id otp password : admin_handler cfg Act (adminResetPassword cfg id otp password)
| m_change a password :
    admin_handler cfg Act (no_result (adminChangePasswordInitiate cfg a password))
| m_changeVerify id otp password :
    admin_handler cfg Act (adminChangePasswordVerify cfg id otp password)
| m_email a e : admin_handler cfg Act (adminChangeEmailInitiate cfg a e)
| m_emailVerify token : admin_handler cfg Act (adminChangeEmailVerify cfg token)
| m_emailResend a e : admin_handler cfg Act (adminChangeEmailResend cfg a e)
| m_logout a token : admin_handler cfg Act (adminLogout cfg a token)
| m_logoutAll a : admin_handler cfg Act (no_result (adminLogoutAll cfg a))
| m_refresh token : admin_handler cfg Act (no_result (adminRefresh cfg token))
| m_revoke a id : admin_handler cfg Act (revokeMySession cfg a id)
| m_demote a id reason : Act a → admin_handler cfg Act (no_result (demoteAdmin cfg a id reason)).

Lemma admin_handler_safe `{AuthLib} `{SecretBox} (Act : CurrentUser → Prop) n0 cfg Ps Pc Po Iu Ru
    `{!AuthPreds n0 cfg Ps Pc Po Iu Ru} `{!AdminPreds Act n0 cfg Po Iu Ru} p :
  admin_handler cfg Act p → safe (auth_inv n0 Ps Pc Po Iu) (auth_rel n0 Ru) p.
Proof.
  destruct 1; unfold no_result; try (apply safe_bind; [|intros ?; apply safe_mret]).
  - by apply (ok_adminRegister Act).
  - by apply (ok_adminRegisterResend Act).
  - by apply (ok_adminCompleteRegistration Act).
  - by apply (ok_adminCancelRegistration Act n0 cfg).
  - by apply (ok_promoteUserInitiate Act).
  - by apply (ok_promoteUserResend Act).
  - by apply (ok_promoteUserVerify Act).
  - by apply (ok_promoteUserCancel n0 cfg).
  - by apply ok_adminLoginByEmail.
  - by apply ok_adminForgotPassword.
  - by apply ok_adminResend.
  - by apply (ok_verify_password_code Act).
  - by apply ok_adminChangePasswordInitiate.
  - by apply (ok_verify_password_code Act).
  - by apply (ok_adminChangeEmailInitiate Act).
  - by apply (ok_adminChangeEmailVerify n0 cfg).
  - by apply (ok_adminChangeEmailResend Act).
  - by apply ok_adminLogout.
  - by apply ok_adminLogoutAll.
  - by apply ok_refresh.
  - by apply ok_revokeMySession.
  - by apply (ok_demoteAdmin Act).
Qed.
