(* ===== verification/AccountSafety.v ===== *)
(** * Accounts of users under every interleaving

    The handlers of [Account] undo nothing of what those of [Auth] and [AdminAuth] rely
    on: they write to accounts, one-time codes and recovery codes only what may be asked
    of these. *)

From S2P Require Import Prelude Interleave Js Redis Cache Roles TwoFactor.
From S2P Require Import AuthModel Credentials Auth PasswordPolicy AdminAuth Account.
From S2P Require Import AuthSafety AdminSafety.
From coqutil Require Import Datatypes.RecordSetters.
Import DoubleBraceUpdate.

Open Scope Z_scope.

(** What may be asked of the accounts and the recovery codes also holds of the new ones. *)
Class AccountPreds `{AuthLib} (n0 : nat) (Pc : RecoveryCode → Prop)
    (Iu : gmap string User → Prop) (Ru : relation (gmap string User)) := {
  ac_new m id u :
    drawn n0 id → m !! id = None → u_id u = id → role_names u = [USER] →
    u_inviteTokenHash u = None → Iu m → Iu (<[id := u]> m) ∧ Ru m (<[id := u]> m);
  ac_code n id userId :
    (n0 ≤ n)%nat → drawn n0 id →
    Pc {| rc_id := id; rc_userId := userId;
          rc_codeHash := hashRecoveryCode sha256_hex (recovery_code (random_bytes n 12));
          rc_usedAt := None |};
}.

Section account.
Context `{AuthLib} `{SecretBox} (Act : CurrentUser → Prop) (n0 : nat) (cfg : AuthConfig)
  (Ps : Session → Prop) (Pc : RecoveryCode → Prop) (Po : UserOtp → Prop)
  (Iu : gmap string User → Prop) (Ru : relation (gmap string User))
  `{!AuthPreds n0 cfg Ps Pc Po Iu Ru} `{!AdminPreds Act n0 cfg Po Iu Ru}
  `{!AccountPreds n0 Pc Iu Ru}.
Abbreviation I := (auth_inv n0 Ps Pc Po Iu).
Abbreviation R := (auth_rel n0 Ru).
Abbreviation ok := (safe I R).

(** *** Statements *)

Lemma ok_audit_account a b c d e f g h i j : ok (audit_account a b c d e f g h i j).
Proof. apply ok_emitAudit. Qed.
Lemma ok_notify e : ok (modify (push_event e)).
Proof. apply safe_modify. intros w HI. by apply kept_good. Qed.
Lemma ok_user_by_mail e : ok (user_by_email e).
Proof. apply ok_gets. Qed.
Lemma ok_user_role name : ok (role_by_name name).
Proof. apply ok_gets. Qed.
#[local] Hint Resolve ok_audit_account ok_notify ok_user_by_mail ok_user_role ok_user_by_phone
  ok_issueTokens : safe.

Lemma ok_new_user mk :
  (∀ id, u_id (mk id) = id ∧ role_names (mk id) = [USER] ∧ u_inviteTokenHash (mk id) = None) →
  ok (user_create mk).
Proof.
  intros Hmk. apply (ok_user_create_new n0 Ps Pc Po Iu Ru). intros m id Hd Hm HI.
  destruct (Hmk id) as (?&?&?). by apply ac_new.
Qed.
Lemma ok_sms_code_create userId d r n purpose expires :
  purpose ≠ promotion_verification →
  ok (sms_code_create userId (bcrypt_hash d r n) purpose expires).
Proof.
  intros Hp w. apply rg_bind. eapply rg_mono; [apply rg_randomUUID| |done].
  intros id w1 Hd. apply (rg_act_outcome I R). intros w2 _ HI. cbv beta zeta.
  case_bool_decide; [done|]. case_bool_decide; [|done]. cbn [fst snd].
  match goal with |- context [set_otps ?f w2] => destruct (good_otps n0 Ps Pc Po Iu Ru w2 f) as [? ?] end;
    [done| |apply rows_new; [done|by apply (ap_code (cfg:=cfg))|apply HI]|done].
  intros i Hi. apply row_done_new. exact (drawn_not_old n0 id i Hd Hi).
Qed.
Lemma ok_secret_upsert userId s : ok (secret_upsert userId s).
Proof.
  apply safe_act_outcome, safe_kept. intros w. destruct (aw_secrets w !! userId); [done|].
  by case_bool_decide.
Qed.
Lemma ok_secret_delete userId : ok (secret_delete userId).
Proof. apply safe_act_outcome, safe_kept. intros w. by case_bool_decide. Qed.
Lemma ok_randomBytes n : ok (randomBytes n).
Proof. apply (ok_draw n0 Ps Pc Po Iu Ru (λ k, random_bytes k n)). Qed.
#[local] Hint Resolve ok_secret_upsert ok_secret_delete ok_randomBytes : safe.

(** *** Recovery codes *)

Lemma ok_codes_delete userId : ok (codes_delete userId).
Proof.
  apply safe_modify. intros w HI. apply good_codes; [done| |apply rows_filter, HI].
  intros i _. apply row_done_filter.
Qed.
(** The hash of a code from bytes drawn from [n0] on. *)
Definition new_code_hash (h : string) : Prop :=
  ∃ n, (n0 ≤ n)%nat ∧ h = hashRecoveryCode sha256_hex (recovery_code (random_bytes n 12)).
Lemma ok_code_create userId h : new_code_hash h → ok (code_create userId h).
Proof.
  intros (n&Hn&->) w. apply rg_bind. eapply rg_mono; [apply rg_randomUUID| |done].
  intros id w1 Hd. apply (rg_act_outcome I R). intros w2 _ HI. cbv beta.
  case_bool_decide; [done|]. case_bool_decide; [|done]. cbn [fst snd].
  match goal with |- context [set_codes ?f w2] => destruct (good_codes n0 Ps Pc Po Iu Ru w2 f) as [? ?] end;
    [done| |apply rows_new; [done|by apply (ac_code (Iu:=Iu) (Ru:=Ru))|apply HI]|done].
  intros i Hi. apply row_done_new. exact (drawn_not_old n0 id i Hd Hi).
Qed.
Lemma ok_codes_createMany userId hs : Forall new_code_hash hs → ok (codes_createMany userId hs).
Proof.
  induction 1 as [|h hs Hh _ IH]; [apply safe_mret|].
  apply safe_bind; [by apply ok_code_create|done].
Qed.
Lemma rg_randomBytesTimes count w :
  rg I R (λ bs _, Forall (λ b, new_code_hash (hashRecoveryCode sha256_hex (recovery_code b))) bs)
    (λ _ _, True) (randomBytesTimes count 12) w.
Proof.
  revert w. induction count as [|count IH]; intros w; [by constructor|].
  apply rg_bind. eapply (rg_mono _ _ (λ b _, ∃ n, (n0 ≤ n)%nat ∧ b = random_bytes n 12) _ (λ _ _, True));
    [|intros b w1 (n&Hn&->)|done].
  { intros w1 _ HI. destruct (kept_good n0 Ps Pc Po Iu Ru w1 (draw w1).2) as [? ?];
      [done|apply kept_draw|]. split_and!; [done..|]. exists (aw_draws w1). split; [apply HI|done]. }
  apply rg_bind. eapply rg_mono; [apply IH|intros bs w2 Hbs|done].
  constructor; [by exists n|exact Hbs].
Qed.
Lemma ok_issueRecoveryCodes userId : ok (issueRecoveryCodes userId).
Proof.
  intros w. unfold issueRecoveryCodes. apply rg_bind.
  eapply rg_mono; [apply rg_randomBytesTimes|intros bs w1 Hbs|done]. cbv beta zeta in *. revert w1.
  apply safe_bind; [apply ok_codes_delete|intros _].
  apply safe_bind; [apply ok_codes_createMany|intros _; apply safe_mret].
  unfold generateRecoveryCodes. by rewrite <- list_fmap_compose, Forall_fmap.
Qed.
#[local] Hint Resolve ok_codes_delete ok_issueRecoveryCodes : safe.

(** *** Signup and codes *)

Lemma ok_user_write_touch id upd : (∀ u, touches u (upd u)) → ok (user_write id upd).
Proof.
  intros Ht. by apply (ok_user_write n0 Ps Pc Po Iu Ru), (step_touches n0 cfg Ps Pc Po Iu Ru).
Qed.
Lemma ok_password id hash : ok (user_update id (λ _, upd_password hash)).
Proof.
  apply (ok_user_update_step n0 Ps Pc Po Iu Ru), (password_step Act n0 cfg Po Iu Ru).
Qed.
Lemma ok_checkUserPassword password personal : ok (checkUserPassword cfg password personal).
Proof. unfold checkUserPassword. safe_tac. Qed.
Lemma ok_send_code user purpose :
  purpose ≠ promotion_verification → ok (send_code cfg user purpose).
Proof. intros Hp. unfold send_code. safe_tac. Qed.
Lemma ok_signup_failed {A} a b c : ok (signup_failed (A:=A) a b c).
Proof. unfold signup_failed. safe_tac. Qed.
#[local] Hint Resolve ok_user_write_touch ok_password ok_checkUserPassword ok_send_code
  ok_signup_failed : safe.
Lemma ok_signup_tx name phone hash role :
  ur_name role = USER → ok (signup_tx cfg name phone hash role).
Proof.
  intros Hr. apply ok_tx, safe_bind; [|intros user].
  { apply ok_new_user. intros id. unfold role_names. cbn. by rewrite Hr. }
  apply safe_bind; [safe_tac|intros otp]. apply (ok_hashed n0 Ps Pc Po Iu Ru). intros n.
  apply safe_bind; [safe_tac|intros t].
  apply safe_bind; [by apply ok_sms_code_create|intros o; safe_tac].
Qed.
(** What the role of users is found under. *)
Lemma ok_with_user_role {A} (k : option UserRole → prog AuthW A) :
  (∀ role, from_option ur_name USER role = USER → ok (k role)) → ok (role_by_name USER ≫= k).
Proof.
  intros Hk w. apply rg_bind, (rg_gets I R). intros w1 _ _. apply Hk.
  by destruct (aw_roles w1 !! USER).
Qed.
Lemma ok_signup name phone password : ok (signup cfg name phone password).
Proof.
  unfold signup, hashUserPassword, sendSms. apply safe_bind; [safe_tac|intros q].
  apply safe_bind; [safe_tac|intros [u|]]; [safe_tac|].
  apply ok_with_user_role. intros [role|] Hr; [|safe_tac].
  apply safe_bind; [safe_tac|intros _]. apply safe_bind; [safe_tac|intros h].
  apply safe_bind; [|intros [[v otp] u]; safe_tac].
  apply safe_catch; [by apply ok_signup_tx|intros e; safe_tac].
Qed.

Lemma ok_refuse_code {A} a b c d e f : ok (refuse_code (A:=A) a b c d e f).
Proof. unfold refuse_code. safe_tac. Qed.
#[local] Hint Resolve ok_refuse_code : safe.
Lemma ok_check_code flow record user otp : ok (check_code cfg flow record user otp).
Proof.
  unfold check_code. safe_tac. apply (ok_otp_wear n0 cfg Ps Pc Po Iu Ru), worn_attempt.
Qed.
Lemma ok_spend_code {A} flow record user id (k : prog AuthW A) :
  ok k → ok (spend_code cfg flow record user id k).
Proof.
  intros Hk. apply ok_tx, safe_bind; [apply (ok_otp_claim n0 cfg Ps Pc Po Iu Ru), worn_used|].
  intros n. by destruct (n =? 0); [safe_tac|].
Qed.
#[local] Hint Resolve ok_check_code : safe.
Lemma ok_phone_verified id : ok (user_update id (λ _ u, u{{u_isPhoneVerified := true}}) ;; mret ()).
Proof.
  apply safe_bind; [|intros _; safe_tac]. eapply (ok_user_touch n0 cfg); [apply _|].
  intros t u. by repeat split.
Qed.
Lemma ok_verifySignupOtp phone id otp : ok (verifySignupOtp cfg phone id otp).
Proof. unfold verifySignupOtp. safe_tac. apply ok_spend_code, ok_phone_verified. Qed.
Lemma ok_resendSignupOtp id : ok (resendSignupOtp cfg id).
Proof. unfold resendSignupOtp. safe_tac. Qed.
Lemma ok_signupStatus id : ok (signupStatus id).
Proof. unfold signupStatus. safe_tac. Qed.

(** *** Passwords *)

Lemma ok_forgotPassword phone : ok (forgotPassword cfg phone).
Proof. unfold forgotPassword. safe_tac. Qed.
Lemma ok_resendForgotPasswordOtp id : ok (resendForgotPasswordOtp cfg id).
Proof. unfold resendForgotPasswordOtp. safe_tac. Qed.
Lemma ok_password_by_code flow id otp password : ok (password_by_code cfg flow id otp password).
Proof.
  unfold password_by_code, hashUserPassword. safe_tac. apply ok_spend_code.
  apply safe_bind; [apply ok_password|intros _; safe_tac].
Qed.
Lemma ok_changePasswordInitiate user password : ok (changePasswordInitiate cfg user password).
Proof. unfold changePasswordInitiate. safe_tac. Qed.
Lemma ok_setPassword user password : ok (setPassword cfg user password).
Proof. unfold setPassword, hashUserPassword. safe_tac. Qed.
Lemma ok_reactivateInitiate on phone : ok (reactivateInitiate cfg on phone).
Proof. unfold reactivateInitiate. safe_tac. Qed.

(** *** Social accounts *)

Lemma social_touches p v u : touches u (socialData p v u).
Proof. by destruct p. Qed.
Lemma ok_social_account p profile : ok (social_account p profile).
Proof.
  unfold social_account. apply safe_bind; [safe_tac|intros [u|]]; [safe_tac|].
  apply safe_bind; [safe_tac|intros [u|]].
  { apply safe_bind; [|intros v; safe_tac]. apply ok_user_write_touch. intros v. by destruct p. }
  apply ok_with_user_role. intros [role|] Hr; [|safe_tac].
  apply safe_bind; [|intros u; safe_tac]. apply safe_catch; [|intros e; safe_tac].
  apply ok_new_user. intros id. cbn in Hr. unfold role_names. destruct p; cbn; by rewrite Hr.
Qed.
#[local] Hint Resolve ok_social_account : safe.
Lemma ok_socialAuth p profile : ok (socialAuth cfg p profile).
Proof. unfold socialAuth, social_failed. safe_tac. Qed.
#[local] Hint Resolve ok_socialAuth : safe.
Lemma ok_verified f : ok (verified f).
Proof. unfold verified. safe_tac. Qed.
#[local] Hint Resolve ok_verified : safe.
Lemma ok_linkSocial `{SocialLib} sc user p token : ok (linkSocial cfg sc user p token).
Proof.
  unfold linkSocial. safe_tac; apply ok_user_write_touch; intros u; apply social_touches.
Qed.
Lemma ok_unlinkSocial user p : ok (unlinkSocial cfg user p).
Proof.
  unfold unlinkSocial. safe_tac. eapply (ok_user_touch n0 cfg); [apply _|].
  intros t u. apply social_touches.
Qed.

(** *** The second factor *)

Lemma ok_twoFactorStatus user : ok (twoFactorStatus user).
Proof. unfold twoFactorStatus. safe_tac. Qed.
Lemma ok_twoFactorSetup user method : ok (twoFactorSetup cfg user method).
Proof. unfold twoFactorSetup. safe_tac. Qed.
Lemma ok_totp_refused {A} a b c : ok (totp_refused cfg (A:=A) a b c).
Proof. unfold totp_refused. safe_tac. Qed.
#[local] Hint Resolve ok_totp_refused : safe.
Lemma ok_enable_tx userId step : ok (enable_tx userId step).
Proof.
  apply ok_tx, safe_bind; [safe_tac|intros _]. apply safe_bind; [|intros _; safe_tac].
  eapply (ok_user_touch n0 cfg); [apply _|]. intros t u. by repeat split.
Qed.
#[local] Hint Resolve ok_enable_tx : safe.
Lemma ok_twoFactorVerify user code : ok (twoFactorVerify cfg user code).
Proof. unfold twoFactorVerify. safe_tac. Qed.
Lemma ok_twoFactorDisable policy user password code :
  ok (twoFactorDisable cfg policy user password code).
Proof.
  unfold twoFactorDisable. safe_tac. apply ok_tx. safe_tac.
Qed.
Lemma ok_regenerate user code : ok (twoFactorRegenerateRecoveryCodes cfg user code).
Proof. unfold twoFactorRegenerateRecoveryCodes. safe_tac. apply ok_tx. safe_tac. Qed.

(** *** The account of the person who is signed in *)

Lemma ok_audit_own a b c d e f g h i j : ok (audit_own a b c d e f g h i j).
Proof. apply ok_emitAudit. Qed.
Lemma ok_auditUser a b c d e f : ok (auditUser a b c d e f).
Proof. apply ok_audit_own. Qed.
Lemma ok_session_delete id : ok (session_delete id).
Proof.
  apply safe_act_outcome. intros w HI. case_bool_decide; [|done].
  pose proof (delete_subseteq (aw_sessions w) id). apply good_sessions; [done| |].
  - intros i _ Hi. by eapply row_done_subseteq.
  - eapply rows_subseteq; [done|apply HI].
Qed.
#[local] Hint Resolve ok_audit_own ok_auditUser ok_session_delete : safe.
Lemma ok_deactivate_tx id b : ok (deactivate_tx id b).
Proof.
  apply ok_tx, safe_bind; [safe_tac|intros _]. apply safe_bind; [|intros n; safe_tac].
  apply safe_act, (good_user_claim n0 Ps Pc Po Iu Ru), (step_touches n0 cfg Ps Pc Po Iu Ru).
  intros u. by repeat split.
Qed.
#[local] Hint Resolve ok_deactivate_tx : safe.
Lemma ok_deactivateMe actor : ok (deactivateMe cfg actor).
Proof. unfold deactivateMe, deactivation_audit. safe_tac. Qed.
Lemma ok_revokeSession actor target id : ok (revokeSession cfg actor target id).
Proof. unfold revokeSession. safe_tac. Qed.
Lemma ok_revokeMyOtherSessions actor id : ok (revokeMyOtherSessions cfg actor id).
Proof. unfold revokeMyOtherSessions. safe_tac. Qed.

Lemma ok_change_phone_refused {A} a b c d e : ok (change_phone_refused (A:=A) a b c d e).
Proof. unfold change_phone_refused, change_phone_audit. safe_tac. Qed.
Lemma ok_pending_phone id phone :
  ok (user_update id (λ _ u, u{{u_pendingPhone := phone}}) ;; mret ()).
Proof.
  apply safe_bind; [|intros _; safe_tac]. eapply (ok_user_touch n0 cfg); [apply _|].
  intros t u. by repeat split.
Qed.
#[local] Hint Resolve ok_change_phone_refused ok_pending_phone : safe.
Lemma ok_changePhoneInitiate user phone : ok (changePhoneInitiate cfg user phone).
Proof. unfold changePhoneInitiate, change_phone_audit. safe_tac. Qed.
Lemma ok_phone_code_audit a b c d e f : ok (phone_code_audit a b c d e f).
Proof. apply ok_emitAudit. Qed.
Lemma ok_phone_code_failed a b c d : ok (phone_code_failed a b c d).
Proof. apply ok_phone_code_audit. Qed.
Lemma ok_phone_code_locked a b : ok (phone_code_locked cfg a b).
Proof. unfold phone_code_locked. safe_tac. Qed.
Lemma ok_new_phone id phone :
  ok (user_write id (λ u, u{{u_phone := Some phone}}{{u_pendingPhone := None}}) ;; mret ()).
Proof.
  apply safe_bind; [|intros _; safe_tac]. apply ok_user_write_touch. intros u. by repeat split.
Qed.
Lemma ok_change_phone_tx userId id phone : ok (change_phone_tx userId id phone).
Proof.
  apply ok_tx, safe_bind; [apply (ok_otp_claim n0 cfg Ps Pc Po Iu Ru), worn_used|].
  intros n. destruct (n =? 0); [safe_tac|apply ok_new_phone].
Qed.
#[local] Hint Resolve ok_phone_code_audit ok_phone_code_failed ok_phone_code_locked
  ok_change_phone_tx : safe.
Lemma ok_changePhoneVerify user id otp : ok (changePhoneVerify cfg user id otp).
Proof.
  unfold changePhoneVerify. safe_tac. apply (ok_otp_wear n0 cfg Ps Pc Po Iu Ru), worn_attempt.
Qed.
Lemma ok_resendChangePhoneOtp user id : ok (resendChangePhoneOtp cfg user id).
Proof.
  unfold resendChangePhoneOtp. safe_tac.
  apply (ok_otp_wear n0 cfg Ps Pc Po Iu Ru). intros o. apply worn_used.
Qed.
Lemma ok_unlinkMyAccount user provider : ok (unlinkMyAccount cfg user provider).
Proof.
  unfold unlinkMyAccount. safe_tac. eapply (ok_user_touch n0 cfg); [apply _|].
  intros t u. apply social_touches.
Qed.
End account.

(** ** The entry points, whatever the providers answer *)

Inductive account_handler `{AuthLib} `{SecretBox} (cfg : AuthConfig) : prog AuthW () → Prop :=
| c_signup name phone password :
    account_handler cfg (no_result (signup cfg name phone password))
| c_verifySignup phone id otp :
    account_handler cfg (no_result (verifySignupOtp cfg phone id otp))
| c_resendSignup id : account_handler cfg (no_result (resendSignupOtp cfg id))
| c_signupStatus id : account_handler cfg (no_result (signupStatus id))
| c_google (L : SocialLib) sc token :
    account_handler cfg (no_result (loginWithGoogle cfg sc token))
| c_facebook (L : SocialLib) sc token :
    account_handler cfg (no_result (loginWithFacebook cfg sc token))
| c_apple (L : SocialLib) sc token name :
    account_handler cfg (no_result (loginWithApple cfg sc token name))
| c_link (L : SocialLib) sc user p token :
    account_handler cfg (no_result (linkSocial cfg sc user p token))
| c_unlink user p : account_handler cfg (unlinkSocial cfg user p)
| c_forgot phone : account_handler cfg (no_result (forgotPassword cfg phone))
| c_forgotResend id : account_handler cfg (no_result (resendForgotPasswordOtp cfg id))
| c_reset id otp password : account_handler cfg (resetPassword cfg id otp password)
| c_change user password :
    account_handler cfg (no_result (changePasswordInitiate cfg user password))
| c_changeVerify id otp password :
    account_handler cfg (changePasswordVerify cfg id otp password)
| c_setPassword user password : account_handler cfg (setPassword cfg user password)
| c_reactivate on phone : account_handler cfg (no_result (reactivateInitiate cfg on phone))
| c_status user : account_handler cfg (no_result (twoFactorStatus user))
| c_setup user method : account_handler cfg (no_result (twoFactorSetup cfg user method))
| c_enable user code : account_handler cfg (no_result (twoFactorVerify cfg user code))
| c_disable policy user password code :
    account_handler cfg (twoFactorDisable cfg policy user password code)
| c_regenerate user code :
    account_handler cfg (no_result (twoFactorRegenerateRecoveryCodes cfg user code))
| c_deactivate user : account_handler cfg (deactivateMe cfg user)
| c_revokeSession user target id : account_handler cfg (revokeSession cfg user target id)
| c_revokeOthers user id : account_handler cfg (no_result (revokeMyOtherSessions cfg user id))
| c_phone user phone : account_handler cfg (no_result (changePhoneInitiate cfg user phone))
| c_phoneVerify user id otp : account_handler cfg (changePhoneVerify cfg user id otp)
| c_phoneResend user id : account_handler cfg (no_result (resendChangePhoneOtp cfg user id))
| c_unlinkMine user provider : account_handler cfg (unlinkMyAccount cfg user provider).

Lemma account_handler_safe `{AuthLib} `{SecretBox} (Act : CurrentUser → Prop) n0 cfg Ps Pc Po Iu Ru
    `{!AuthPreds n0 cfg Ps Pc Po Iu Ru} `{!AdminPreds Act n0 cfg Po Iu Ru}
    `{!AccountPreds n0 Pc Iu Ru} p :
  account_handler cfg p → safe (auth_inv n0 Ps Pc Po Iu) (auth_rel n0 Ru) p.
Proof.
  destruct 1; unfold no_result; try (apply safe_bind; [|intros ?; apply safe_mret]).
  - by apply (ok_signup n0).
  - by apply (ok_verifySignupOtp n0).
  - by apply (ok_resendSignupOtp n0).
  - by apply ok_signupStatus.
  - by apply safe_bind; [apply ok_verified|intros profile; apply ok_socialAuth].
  - by apply safe_bind; [apply ok_verified|intros profile; apply ok_socialAuth].
  - by apply safe_bind; [apply ok_verified|intros profile; apply ok_socialAuth].
  - by apply (ok_linkSocial n0).
  - by apply (ok_unlinkSocial n0).
  - by apply (ok_forgotPassword n0).
  - by apply (ok_resendForgotPasswordOtp n0).
  - by apply (ok_password_by_code Act n0).
  - by apply (ok_changePasswordInitiate n0).
  - by apply (ok_password_by_code Act n0).
  - by apply (ok_setPassword Act n0).
  - by apply (ok_reactivateInitiate n0).
  - by apply ok_twoFactorStatus.
  - by apply (ok_twoFactorSetup n0).
  - by apply (ok_twoFactorVerify n0).
  - by apply (ok_twoFactorDisable n0).
  - by apply (ok_regenerate n0).
  - by apply (ok_deactivateMe n0).
  - by apply ok_revokeSession.
  - by apply ok_revokeMyOtherSessions.
  - by apply (ok_changePhoneInitiate n0).
  - by apply (ok_changePhoneVerify n0).
  - by apply (ok_resendChangePhoneOtp n0).
  - by apply (ok_unlinkMyAccount n0).
Qed.
