(* ===== verification/AuthProps.v ===== *)
(** * Authentication: who gets through, however the requests interleave

    A challenge signs in once, a recovery code and a one-time code are used once,
    and a refresh token is rotated once, among any number of concurrent requests. *)

From S2P Require Import Prelude Interleave Js Redis Cache Roles TwoFactor AuthModel.
From S2P Require Import Credentials Auth.

Open Scope Z_scope.

(** Identifiers are runs of [u]; a token is readable, and carries its [jti]. *)
Fixpoint demo_uuid (n : nat) : string :=
  match n with O => "u" | S n => Str "u" (demo_uuid n) end.

Definition demo_payload : JwtPayload := {|
  jp_sub := "user1"; jp_phone := None; jp_email := None; jp_roles := []; jp_permissions := [];
  jp_type := Some "refresh"; jp_sid := Some "s1"; jp_jti := Some "jti1"; jp_action := None |}.

#[export] Instance demo_lib : AuthLib := {|
  uuid := demo_uuid;
  random_otp n := 123456;
  random_token n := "t" +:+ demo_uuid n;
  random_bytes n size := replicate size (Z.of_nat n);
  bcrypt_compare data hash := bool_decide (hash = "bcrypt:" +:+ data);
  bcrypt_hash data rounds n := "bcrypt:" +:+ data;
  jwt_sign p secret expiresIn iat := "jwt:" +:+ default "access" (jp_jti p);
  jwt_verify token secret t :=
    if bool_decide (token = "jwt:jti1") then Some demo_payload else None;
  hmac_hex secret data := "hmac:" +:+ data;
  sha256_hex data := "sha:" +:+ data;
  hmac_sha1 := demo_hmac;
|}.

(** A box that does not hide anything; only the parts' order matters here. *)
#[export] Instance demo_box : SecretBox := {|
  sha256_bytes s := s;
  gcm_seal key iv plain := (plain, "tag");
  gcm_open key iv tag text := Ok text;
  base64 s := s;
  unbase64 s := s;
|}.

Definition demo_config : AuthConfig := {|
  c_maxLoginAttempts := 5; c_lockoutDurationMinutes := 15; c_maxReauthAttempts := 5;
  c_otp_resendCooldownSeconds := 60; c_otp_expiresInMinutes := 10; c_otp_maxAttempts := 5;
  c_bcryptSaltRounds := 10; c_bcryptOtpSaltRounds := 10; c_twoFactor_smsEnabled := true; c_twoFactor_key := "key";
  c_jwt_secret := "secret"; c_jwt_refreshSecret := Some "refresh";
  c_jwt_registrationSecret := None; c_jwt_expiresIn := "15m"; c_jwt_refreshExpiresIn := "7d";
  c_appName := "Ehte"; c_keyPrefix := "ehte:";
  c_adminUrl := "https://ehte.org"; c_adminPasswordMinLength := 12;
  c_passwordMinLength := 8; c_twoFactor_issuer := "Account" |}.

Definition demo_user (active : bool) : User := {|
  u_id := "user1"; u_name := Some "Abebe"; u_phone := Some "+251911223344"; u_email := None;
  u_isActive := active; u_isPhoneVerified := true; u_passwordHash := Some "bcrypt:password";
  u_failedLoginAttempts := 0; u_lockedUntil := None; u_discreetModeEnabled := false;
  u_discreetModePasscodeHash := None;
  u_userRoles := [{| ur_name := USER; ur_permissions := ["REPORT_CREATE"] |}];
  u_isEmailVerified := false; u_pendingEmail := None; u_inviteTokenHash := None;
  u_inviteTokenExpiresAt := None; u_deletedAt := None; u_anonymizedAt := None;
  u_googleId := None; u_facebookId := None; u_appleId := None; u_twoFactorRequiredAt := None;
  u_pendingPhone := None |}.

Definition demo_session (revoked : option Z) : Session := {|
  s_id := "s1"; s_userId := "user1"; s_refreshToken := "hmac:jwt:jti1"; s_expiresAt := 4000000;
  s_revokedAt := revoked; s_ipAddress := None; s_userAgent := None; s_deviceLabel := None;
  s_lastActiveAt := None |}.

Definition demo_otp : UserOtp := {|
  o_id := "otp1"; o_userId := "user1"; o_purpose := account_reactivation; o_channel := sms;
  o_otpHash := "bcrypt:123456"; o_expiresAt := 4000000; o_attempts := 0; o_usedAt := None;
  o_createdAt := 2900000 |}.

Definition demo_challenge : Challenge := {|
  ch_id := "ch1"; ch_userId := "user1"; ch_purpose := LOGIN; ch_methods := [TOTP; SMS];
  ch_smsCodeHash := Some "bcrypt:654321"; ch_attempts := 0; ch_expiresAt := 4000000;
  ch_consumedAt := None; ch_ipAddress := None |}.
Definition demo_challenge2 : Challenge := {|
  ch_id := "ch2"; ch_userId := "user1"; ch_purpose := LOGIN; ch_methods := [TOTP; SMS];
  ch_smsCodeHash := None; ch_attempts := 0; ch_expiresAt := 4000000;
  ch_consumedAt := None; ch_ipAddress := None |}.

Definition demo_code : RecoveryCode := {|
  rc_id := "rc1"; rc_userId := "user1"; rc_codeHash := hashRecoveryCode sha256_hex "ABCDE-12345";
  rc_usedAt := None |}.

(** The secret is sealed as above: iv, tag and text between dots. *)
Definition demo_secret : TwoFactorSecret := {|
  ts_method := TOTP; ts_secretEncrypted := "iv.tag.AD7RABY"; ts_isEnabled := true; ts_lastUsedStep := Some 100 |}.

Definition demo_auth (active : bool) (revoked : option Z) : AuthW := {|
  aw_users := {[ "user1" := demo_user active ]};
  aw_otps := {[ "otp1" := demo_otp ]};
  aw_sessions := {[ "s1" := demo_session revoked ]};
  aw_secrets := {[ "user1" := demo_secret ]};
  aw_codes := {[ "rc1" := demo_code ]};
  aw_challenges := {[ "ch1" := demo_challenge; "ch2" := demo_challenge2 ]};
  aw_roles := {[ USER := ["REPORT_CREATE"]; ADMIN := ["REPORT_READ"] ]};
  aw_events := []; aw_delivered := []; aw_draws := 0; aw_ppm := []; aw_now := 3000000;
  aw_redis := fresh_redis; aw_secredis := fresh_redis; aw_cache := cache_init |}.

Example demo_steps :
  (run (checkTotpOrNull demo_config demo_secret "000101") (demo_auth true None)).1 = Ok (Some 101) ∧
  is_ok (run (login demo_config "0911223344" "password") (demo_auth true None)).1 = true ∧
  is_ok (run (Auth.refresh demo_config "jwt:jti1") (demo_auth true None)).1 = true ∧
  is_ok (run (twoFactorLoginVerify demo_config "ch1" "654321") (demo_auth true None)).1 = true ∧
  is_ok (run (twoFactorLoginRecovery demo_config "ch1" "ABCDE-12345") (demo_auth true None)).1
    = true ∧
  is_ok (run (reactivateVerify demo_config true "otp1" "123456") (demo_auth false None)).1 = true.
Proof. repeat split; vm_compute; reflexivity. Qed.

Lemma demo_uuid_neq n s : match s with Str "u" _ => False | _ => True end → demo_uuid n ≠ s.
Proof. intros Hs <-. by destruct n. Qed.

From S2P Require Import Prelude Interleave Js Redis Cache Roles TwoFactor.
From S2P Require Import AuthModel Credentials Auth PasswordPolicy AdminAuth Account.
From S2P Require Import AuthSafety AdminSafety AccountSafety.

Open Scope Z_scope.

Section pool.
Context `{AuthLib} `{SecretBox} (cfg : AuthConfig).

(** The entry points, those of accounts and of administrators included. *)
Inductive auth_handler (Act : CurrentUser → Prop) : prog AuthW () → Prop :=
| a_login phone password : auth_handler Act (no_result (login cfg phone password))
| a_refresh token : auth_handler Act (no_result (Auth.refresh cfg token))
| a_logout user token : auth_handler Act (logout cfg user token)
| a_logoutAll user : auth_handler Act (no_result (logoutAll cfg user))
| a_revoke user token : auth_handler Act (revokeRefreshToken cfg user token)
| a_verifyReset id otp : auth_handler Act (verifyResetOtp cfg id otp)
| a_reactivate on id otp : auth_handler Act (reactivateVerify cfg on id otp)
| a_challenge user ip : auth_handler Act (no_result (issueTwoFactorChallenge cfg user ip))
| a_verify id code : auth_handler Act (no_result (twoFactorLoginVerify cfg id code))
| a_recovery id code : auth_handler Act (no_result (twoFactorLoginRecovery cfg id code))
| a_resend id : auth_handler Act (twoFactorLoginResend cfg id)
| a_stepUp user code action : auth_handler Act (no_result (twoFactorStepUp cfg user code action))
| a_reauth user credential : auth_handler Act (no_result (verifyCredential cfg user credential))
| a_sendOtp user contact purpose channel options :
    purpose ≠ promotion_verification →
    auth_handler Act (no_result (issueAndSendOtp cfg user contact purpose channel options))
| a_signIn user phone email roles permissions ip agent :
    auth_handler Act (no_result (issueTokens cfg user phone email roles permissions ip agent))
| a_admin p : admin_handler cfg Act p → auth_handler Act p
| a_account p : account_handler cfg p → auth_handler Act p.

(** The rest of the application: the clock, the accounts and their secrets,
    Redis, the deletion of rows. It adds none to these four tables and changes none:
    what writes to them is among the handlers. *)
Record auth_env (w w' : AuthW) : Prop := {
  ae_draws : (aw_draws w ≤ aw_draws w')%nat;
  ae_now : aw_now w ≤ aw_now w';
  ae_sessions : aw_sessions w' ⊆ aw_sessions w;
  ae_otps : aw_otps w' ⊆ aw_otps w;
  ae_codes : aw_codes w' ⊆ aw_codes w;
  ae_challenges : aw_challenges w' ⊆ aw_challenges w;
}.

Definition pool_of (Act : CurrentUser → Prop) (env : relation AuthW)
    (ps : list (prog AuthW ())) (w : AuthW) (ps' : list (prog AuthW ()))
    (w' : AuthW) : Prop :=
  Forall (auth_handler Act) ps ∧ rtc (pool_step env) (ps, w) (ps', w').
Definition auth_pool : list (prog AuthW ()) → AuthW → list (prog AuthW ()) → AuthW → Prop :=
  pool_of (λ _, True) auth_env.

(** The requests of users that use a one-time code up. *)
Definition presents_code (id : string) (p : prog AuthW ()) : Prop :=
  ∃ otp, (∃ phone, p = no_result (verifySignupOtp cfg phone id otp)) ∨
         (∃ password, p = resetPassword cfg id otp password ∨
                      p = changePasswordVerify cfg id otp password) ∨
         (∃ on, p = reactivateVerify cfg on id otp) ∨
         (∃ user, p = changePhoneVerify cfg user id otp).

(** Of the programs of a pool that satisfy [C], at most one has returned. *)
Definition at_most_one (C : prog AuthW () → Prop) (ps ps' : list (prog AuthW ())) : Prop :=
  ∀ i j p q, ps !! i = Some p → ps !! j = Some q → C p → C q →
    ps' !! i = Some (Ret ()) → ps' !! j = Some (Ret ()) → i = j.

Section preds.
Context (n0 : nat) (Ps : Session → Prop) (Pc : RecoveryCode → Prop) (Po : UserOtp → Prop)
  (Iu : gmap string User → Prop) (Ru : relation (gmap string User)) (Act : CurrentUser → Prop)
  `{!AuthPreds n0 cfg Ps Pc Po Iu Ru} `{!AdminPreds Act n0 cfg Po Iu Ru}
  `{!AccountPreds n0 Pc Iu Ru}.
Abbreviation I := (auth_inv n0 Ps Pc Po Iu).
Abbreviation R := (auth_rel n0 Ru).

Lemma auth_handler_safe p : auth_handler Act p → safe I R p.
Proof.
  destruct 1; unfold no_result; try (apply safe_bind; [|intros ?; apply safe_mret]);
    eauto 2 with safe.
  - by apply ok_issueTokens.
  - by apply (admin_handler_safe Act n0 cfg).
  - by apply (account_handler_safe Act n0 cfg).
Qed.

(** The rest of the application keeps what is asked of the accounts. *)
Definition users_kept (env : relation AuthW) : Prop :=
  ∀ w w', env w w' → Iu (aw_users w) → Iu (aw_users w') ∧ rtc Ru (aw_users w) (aw_users w').
Lemma env_good w w' :
  I w → auth_env w w' → Iu (aw_users w') ∧ rtc Ru (aw_users w) (aw_users w') → I w' ∧ R w w'.
Proof.
  intros [] [] [? ?]. split; split; try lia; eauto using row_done_subseteq, rows_subseteq.
Qed.

(** At most one of the claimants of a pool returns. *)
Lemma pool_claims (env : relation AuthW) (claimed : AuthW → Prop) (C : prog AuthW () → Prop) ps w ps' w' :
  I w → (∀ w w', R w w' → claimed w → claimed w') →
  (∀ p w, C p → once I R claimed False p w) →
  subrelation env auth_env → users_kept env → pool_of Act env ps w ps' w' →
  at_most_one C ps ps'.
Proof.
  intros HI Hmono Honce Henv Hu [Hps Hrun] i j p q Hi Hj Cp Cq Ri Rj.
  eapply (pool_once I R claimed env (λ i, ∃ p, ps !! i = Some p ∧ C p));
    [done| |done| | |exact Hrun|by exists p|by exists q|done|done].
  { intros w1 w2 HI1 H12. apply env_good; [done|by apply Henv|]. apply (Hu _ _ H12), HI1. }
  - intros k r Hk. apply auth_handler_safe. by eapply Forall_lookup_1.
  - intros k r (r'&Hk'&Cr) Hk. simplify_eq. by apply Honce.
Qed.

(** A failed attempt never returns. *)
Lemma once_fail {A} (claimed : AuthW → Prop) ch user reason w :
  once I R claimed False (failChallenge cfg (A:=A) ch user reason) w.
Proof.
  unfold failChallenge. apply once_after; [by apply ok_challenge_update|intros r w1].
  apply once_after; [destruct (_ <=? _); safe_tac; by apply ok_challenge_update|intros _ w2].
  apply once_after; [safe_tac|intros _ w3]. by apply once_after; [safe_tac|].
Qed.

(** *** The claim of a challenge *)
Context (c : string).
Definition consumed (w : AuthW) : Prop := row_done challenge_spent c (aw_challenges w).

Lemma once_finish ch user method w :
  ch_id ch = c → once I R consumed False (finishChallenge cfg ch user method) w.
Proof.
  intros Hc. unfold finishChallenge. apply (once_claim I R consumed).
  - by apply good_challenge_claim.
  - intros w1 HI. rewrite Hc. destruct (aw_challenges w1 !! c) as [r|] eqn:Hr; [|by left].
    destruct (unconsumed r) eqn:Hu; [right|by left].
    apply bool_decide_eq_true in Hu. split.
    + intros Hd. by destruct (Hd _ Hr).
    + intros r' Hr'. cbn in Hr'. rewrite lookup_insert_eq in Hr'. by injection Hr' as <-.
  - done.
  - intros n. destruct (n =? 0); safe_tac.
Qed.

Lemma rg_load w :
  rg I R (λ cu _, ch_id cu.1 = c) (λ _ _, True) (loadChallengeOrThrow c) w.
Proof.
  unfold loadChallengeOrThrow. apply rg_bind, (rg_gets I R). intros w1 _ HI.
  apply rg_bind. eapply rg_mono; [apply ok_now| |done]. intros t w2 _.
  destruct (aw_challenges w1 !! c) as [ch|] eqn:Hch; [|done].
  destruct (negb _); [done|]. apply rg_bind.
  eapply rg_mono; [apply ok_loadUserForSecurity| |done]. intros u w3 _.
  apply rg_bind. eapply rg_mono; [apply safe_throw_if| |done]. intros _ w4 _.
  apply rg_bind. eapply rg_mono; [apply ok_assertNotLocked| |done]. intros _ w5 _.
  cbn. by apply (ai_challenges _ _ _ _ _ _ HI).
Qed.

Lemma once_verify code w :
  once I R consumed False (twoFactorLoginVerify cfg c code) w.
Proof.
  unfold twoFactorLoginVerify. eapply once_bind, rg_mono; [apply rg_load| |done].
  intros [ch user] w1 Hc. cbn in Hc.
  destruct (match ch_smsCodeHash ch with Some _ => _ | None => _ end);
    [by apply once_finish|].
  apply once_after; [safe_tac|intros secret w2].
  apply once_after; [safe_tac|intros [step|] w3]; [|apply once_fail].
  apply once_after; [safe_tac|intros n w4].
  destruct (n =? 0); [apply once_fail|by apply once_finish].
Qed.

Lemma once_recovery code w :
  once I R consumed False (twoFactorLoginRecovery cfg c code) w.
Proof.
  unfold twoFactorLoginRecovery. eapply once_bind, rg_mono; [apply rg_load| |done].
  intros [ch user] w1 Hc. cbn in Hc.
  apply once_after; [safe_tac|intros [rc|] w2]; [|apply once_fail].
  apply once_after; [by apply ok_code_claim; [..|apply ap_used]|intros n w3].
  destruct (n =? 0); [apply once_fail|].
  apply once_then; [by apply once_finish|intros tokens]. safe_tac.
Qed.

(** *** The claim of a recovery code *)
Context (rc : string).
Definition code_used (w : AuthW) : Prop := row_done code_spent rc (aw_codes w).

Lemma once_recovery_code code id w :
  (∀ r, Pc r → rc_codeHash r = hashRecoveryCode sha256_hex code → rc_id r = rc) →
  once I R code_used False (twoFactorLoginRecovery cfg id code) w.
Proof.
  intros Hrc. unfold twoFactorLoginRecovery. apply once_after; [safe_tac|intros [ch user] w1].
  eapply once_bind, (rg_gets I R _ _ (λ _ _, False)). intros w2 _ HI.
  destruct (find_row _ _) as [r|] eqn:Hr; [|apply once_fail].
  apply find_row_Some in Hr as [Hof [i Hi]]. destruct (ai_codes _ _ _ _ _ _ HI _ _ Hi) as [Hk HP].
  unfold code_of in Hof. apply andb_prop in Hof as [[_ Hh%bool_decide_eq_true]%andb_prop _].
  rewrite (Hrc r HP Hh) in Hk |- *. subst i. apply (once_claim I R code_used).
  - by apply good_code_claim; [..|apply ap_used].
  - intros w3 HI3. destruct (aw_codes w3 !! rc) as [r'|] eqn:Hr'; [|by left].
    destruct (unused r') eqn:Hu; [right|by left]. apply bool_decide_eq_true in Hu. split.
    + intros Hd. by destruct (Hd _ Hr').
    + intros x Hx. cbn in Hx. rewrite lookup_insert_eq in Hx. by injection Hx as <-.
  - intros w3. apply once_fail.
  - intros n. destruct (n =? 0); safe_tac.
Qed.

(** *** A claim made by a transaction *)
Lemma once_tx {A} (claimed : AuthW → Prop) (p : prog AuthW A) w :
  safe I R p →
  (∀ w1, I w1 → is_ok (run p w1).1 = true → ¬ claimed w1 ∧ claimed (run p w1).2) →
  once I R claimed False (tx p) w.
Proof.
  intros Hp Hc w1 _ HI. pose proof (rg_run I R _ _ p w1 HI (Hp w1)) as (HI'&HR&_).
  specialize (Hc w1 HI). destruct (run p w1) as [[a|e] w']; cbn in *.
  - split_and!; [done..|]. right. by apply Hc.
  - destruct (rollback_good n0 Ps Pc Po Iu Ru w1 w') as [? ?]; done.
Qed.

(** *** The claim of a session *)
Context (sid : string) (Hsid : old n0 sid).
Definition rotated (w : AuthW) : Prop := row_done session_spent sid (aw_sessions w).

Lemma once_rotate s user w :
  s_id s = sid → once I R rotated False (rotate cfg s user) w.
Proof.
  intros Hs. apply once_tx.
  { apply safe_bind; [by apply ok_session_claim; [..|apply ap_revoked]|intros n]. safe_tac. }
  intros w1 HI. rewrite run_bind. unfold session_claim. rewrite run_act, Hs.
  destruct (aw_sessions w1 !! sid) as [r|] eqn:Hr; [|done].
  destruct (not_revoked r) eqn:Hu; [|done]. apply bool_decide_eq_true in Hu.
  cbn -[run tokens_for]. intros _. split; [intros Hd; by destruct (Hd _ Hr)|].
  set (w2 := set_sessions _ _).
  destruct (good_session_claim n0 Ps Pc Po Iu Ru sid not_revoked upd_revoked) with w1 as [HI2 _];
    [done..|apply ap_revoked|done|].
  rewrite Hr in HI2. unfold not_revoked in HI2. rewrite bool_decide_eq_true_2 in HI2 by done.
  pose proof (rg_run I R (λ _ _, True) (λ _ _, True) (tokens_for cfg user) w2 HI2) as (_&HR&_).
  { apply ok_tokens_for, _. }
  apply (ar_sessions _ _ _ _ HR sid Hsid). intros x Hx.
  unfold w2 in Hx. cbn in Hx. rewrite lookup_insert_eq in Hx. by injection Hx as <-.
Qed.

Lemma once_refresh token w :
  (∀ s, Ps s → s_refreshToken s = hashOpaqueToken cfg token refresh_token → s_id s = sid) →
  once I R rotated False (Auth.refresh cfg token) w.
Proof.
  intros Hs. unfold Auth.refresh. apply once_after; [safe_tac|intros t w1].
  destruct (jwt_verify _ _ _) as [payload|]; [|done]. cbv zeta.
  destruct (negb _); [by apply once_after; [safe_tac|]|].
  eapply once_bind, (rg_gets I R _ _ (λ _ _, False)). intros w2 _ HI.
  destruct (find_row _ _) as [s|] eqn:Hr; [|done]. cbn [require].
  apply find_row_Some in Hr as [Hof [i Hi]].
  destruct (ai_sessions _ _ _ _ _ _ HI _ _ Hi) as [Hk HP].
  unfold session_of in Hof. apply andb_prop in Hof as [_ Hh%bool_decide_eq_true].
  pose proof (Hs s HP Hh) as Hid.
  match goal with |- once _ _ _ _ (_ ≫= ?f) _ => change (once I R rotated False (f s) w2) end.
  cbv beta. destruct (negb _); [repeat (apply once_after; [safe_tac|intros ??]); try done|].
  - by apply ok_session_updateMany; [..|apply ap_revoked].
  - apply once_after; [safe_tac|intros t3 w3]. destruct (_ <? _); [done|].
    apply once_after; [safe_tac|intros [user|] w4]; [|by apply once_after; [safe_tac|]].
    destruct (u_isActive user); [by apply once_rotate|by apply once_after; [safe_tac|]].
Qed.

(** *** The claim of a one-time code *)
Context (otp_id : string) (Hotp : old n0 otp_id).
Definition otp_used (w : AuthW) : Prop := row_done otp_spent otp_id (aw_otps w).

(** A transaction that uses the code up or fails. *)
Lemma once_otp_tx {A} (P : Z → UserOtp → bool) (failed k : prog AuthW A) w :
  (∀ t o, P t o = true → o_usedAt o = None) →
  safe I R failed → (∀ w, is_ok (run failed w).1 = false) → safe I R k →
  once I R otp_used False
    (tx (claimed ← otp_claim otp_id P upd_used; if claimed =? 0 then failed else k)) w.
Proof.
  intros HP Hfail Hnot Hk. apply once_tx.
  { apply safe_bind; [apply (ok_otp_claim n0 cfg Ps Pc Po Iu Ru), worn_used|intros n].
    by destruct (n =? 0). }
  intros w1 HI. rewrite run_bind. unfold otp_claim. rewrite run_act.
  destruct (aw_otps w1 !! otp_id) as [r|] eqn:Hr; [|cbn -[run]; by rewrite Hnot].
  assert (∀ t o, Po o → Po (upd_used t o)) as HPo
    by (intros t o; apply (ap_worn (n0:=n0) (cfg:=cfg)), worn_used).
  pose proof (good_otp_claim n0 Ps Pc Po Iu Ru otp_id P upd_used) as Hg.
  destruct (Hg ltac:(done) ltac:(done) HPo w1 HI) as [HI2 _]. rewrite Hr in HI2.
  destruct (P _ r) eqn:Hu; [|cbn -[run]; by rewrite Hnot].
  cbn -[run]. intros _. split.
  { intros Hd. by destruct (Hd _ Hr); apply (HP _ _ Hu). }
  set (w2 := set_otps _ _) in *.
  pose proof (rg_run I R (λ _ _, True) (λ _ _, True) k w2 HI2 (Hk w2)) as (_&HR&_).
  apply (ar_otps _ _ _ _ HR otp_id Hotp). intros x Hx.
  unfold w2 in Hx. cbn in Hx. rewrite lookup_insert_eq in Hx. by injection Hx as <-.
Qed.
Lemma once_consume action record user f w :
  o_id record = otp_id → (∀ u, safe I R (f u)) →
  once I R otp_used False (consume_otp cfg action record user f) w.
Proof.
  intros Ho Hf. unfold consume_otp. rewrite Ho.
  apply once_otp_tx; [|by apply ok_reject_otp|done|apply Hf].
  intros t o Hu. unfold otp_claimable in Hu.
  by apply andb_prop in Hu as [[?%bool_decide_eq_true _]%andb_prop _].
Qed.

Lemma once_checkOtp otp purpose action f w :
  (∀ u, safe I R (f u)) →
  once I R otp_used False (checkOtpOrThrow cfg otp_id otp purpose action (Some f)) w.
Proof.
  intros Hf. unfold checkOtpOrThrow, otp_with_user.
  eapply once_bind, (rg_gets I R _ _ (λ _ _, False)). intros w2 _ HI.
  assert (Hrej : ∀ A a b c d r u w, once I R otp_used False (reject_otp (A:=A) a b c d r u) w).
  { intros. by apply once_after; [safe_tac|]. }
  destruct (aw_otps w2 !! otp_id) as [r|] eqn:Hr; [|by apply once_after; [safe_tac|]].
  destruct (ai_otps _ _ _ _ _ _ HI _ _ Hr) as [Hid _].
  destruct (aw_users w2 !! o_userId r) as [user|]; [|by apply once_after; [safe_tac|]].
  cbv zeta. do 2 (case_match; [apply Hrej|]).
  apply once_after; [safe_tac|intros t w3]. destruct (_ <? _); [apply Hrej|].
  destruct (_ <=? _); [by repeat (apply once_after; [safe_tac|intros ??])|].
  destruct (negb (bcrypt_compare _ _)).
  - apply once_after; [apply (ok_otp_wear n0 cfg Ps Pc Po Iu Ru), worn_attempt|intros r' w4].
    by repeat (apply once_after; [safe_tac|intros ??]).
  - apply once_then; [by apply once_consume|]. safe_tac.
Qed.

Lemma once_spend_code {A} flow record user (k : prog AuthW A) w :
  safe I R k → once I R otp_used False (spend_code cfg flow record user otp_id k) w.
Proof.
  intros Hk. apply once_otp_tx; [|by apply ok_refuse_code|done|done].
  intros t o Hu. unfold otp_claimable in Hu.
  by apply andb_prop in Hu as [[?%bool_decide_eq_true _]%andb_prop _].
Qed.
Lemma once_password_by_code flow otp password w :
  once I R otp_used False (password_by_code cfg flow otp_id otp password) w.
Proof.
  unfold password_by_code. apply once_after; [safe_tac|intros [[record user]|] w1].
  2: { unfold refuse_code. by apply once_after; [safe_tac|]. }
  apply once_after; [by apply (ok_check_code n0)|intros _ w2].
  apply once_after; [by apply (ok_checkUserPassword n0)|intros _ w3].
  apply once_after; [unfold hashUserPassword; safe_tac|intros hash w4].
  apply once_then; [|intros n].
  - apply once_spend_code. apply safe_bind; [|intros _; safe_tac].
    by apply (ok_password Act n0 cfg).
  - apply safe_bind; [safe_tac|intros _].
    apply safe_bind; [apply ok_audit_account|intros _; apply ok_notify].
Qed.
Lemma once_verifySignupOtp phone otp w :
  once I R otp_used False (verifySignupOtp cfg phone otp_id otp) w.
Proof.
  unfold verifySignupOtp. apply once_after; [safe_tac|intros q w1]. unfold otp_with_user.
  eapply once_bind, (rg_gets I R _ _ (λ _ _, False)). intros w2 _ HI.
  destruct (aw_otps w2 !! otp_id) as [r|] eqn:Hr.
  2: { unfold refuse_code. by apply once_after; [safe_tac|]. }
  destruct (ai_otps _ _ _ _ _ _ HI _ _ Hr) as [Hid _].
  destruct (aw_users w2 !! o_userId r) as [user|].
  2: { unfold refuse_code. by apply once_after; [safe_tac|]. }
  destruct (negb _); [unfold refuse_code; by apply once_after; [safe_tac|]|]. rewrite Hid.
  apply once_after; [by apply (ok_check_code n0)|intros _ w3].
  apply once_then; [|intros _].
  - apply once_spend_code. by apply (ok_phone_verified n0 cfg).
  - apply safe_bind; [safe_tac|intros _]. by apply ok_issueTokens.
Qed.
Lemma once_change_phone_tx userId phone w :
  once I R otp_used False (change_phone_tx userId otp_id phone) w.
Proof.
  apply once_otp_tx; [|safe_tac|done|by apply (ok_new_phone n0 cfg)].
  intros t o Hu. unfold otp_claimable_code in Hu.
  by apply andb_prop in Hu as [[?%bool_decide_eq_true _]%andb_prop _].
Qed.
Lemma once_changePhoneVerify user otp w :
  once I R otp_used False (changePhoneVerify cfg user otp_id otp) w.
Proof.
  assert (Hrej : ∀ a b c d e w, once I R otp_used False (phone_code_failed a b c d ;; @Throw AuthW () e) w)
    by (intros; by apply once_after; [apply ok_phone_code_failed|]).
  unfold changePhoneVerify. cbv zeta.
  apply once_after; [safe_tac|intros [[record owner]|] w1]; [|apply Hrej].
  apply once_after; [safe_tac|intros t w2].
  destruct (phone_code_refusal _ _ _); [apply Hrej|].
  destruct (u_pendingPhone owner) as [[|a0 phone]|]; [apply Hrej| |apply Hrej].
  destruct (_ <=? _); [by apply once_after; [by apply (ok_phone_code_locked n0)|]|].
  destruct (negb _).
  { apply once_after; [apply (ok_otp_wear n0 cfg Ps Pc Po Iu Ru), worn_attempt|intros r w3].
    apply once_after; [|done]. destruct (_ <=? _);
      [by apply (ok_phone_code_locked n0)|apply ok_phone_code_failed]. }
  apply once_then; [|intros _].
  - apply once_catch; [apply once_change_phone_tx|intros e w3].
    destruct (isUniqueConstraintError e); [apply Hrej|].
    apply once_after; [|done]. destruct (isBadRequest e); [apply ok_phone_code_failed|safe_tac].
  - apply safe_bind; [safe_tac|intros _].
    apply safe_bind; [apply ok_phone_code_audit|intros _; apply ok_notify].
Qed.
Lemma once_presents p w : presents_code otp_id p → once I R otp_used False p w.
Proof.
  intros (otp&[(phone&->)|[(password&[-> | ->])|[(on&->)|(user&->)]]]).
  - unfold no_result. eapply once_then; [|done]. apply once_verifySignupOtp.
  - apply once_password_by_code.
  - apply once_password_by_code.
  - unfold reactivateVerify. destruct (negb on); [done|].
    apply once_then; [|intros u; safe_tac]. apply once_checkOtp. intros u. safe_tac.
    eapply (ok_user_touch n0 cfg); [apply _|]. intros t v. by repeat split.
  - apply once_changePhoneVerify.
Qed.
End preds.
End pool.

(** ** At most one request gets through *)

Section props.
Context `{AuthLib} `{SecretBox} (cfg : AuthConfig).

(** Rows are stored under their own identifiers, sessions satisfy [Ps] and
    recovery codes [Pc]. *)
Definition well_keyed (Ps : Session → Prop) (Pc : RecoveryCode → Prop) (w : AuthW) : Prop :=
  rows s_id Ps (aw_sessions w) ∧ rows o_id (λ _, True) (aw_otps w) ∧
  rows rc_id Pc (aw_codes w) ∧ rows ch_id (λ _, True) (aw_challenges w).

Lemma well_keyed_inv Ps Pc w : well_keyed Ps Pc w →
  auth_inv (aw_draws w) Ps Pc (λ _, True) (λ _, True) w.
Proof. intros (?&?&?&?). by split. Qed.

#[export] Instance any_row n0 :
  AuthPreds n0 cfg (λ _, True) (λ _, True) (λ _, True) (λ _, True) (λ _ _, True).
Proof. by split. Qed.
#[export] Instance any_new n0 : AccountPreds n0 (λ _, True) (λ _, True) (λ _ _, True).
Proof. by split. Qed.
#[export] Instance any_account n0 :
  AdminPreds (λ _, True) n0 cfg (λ _, True) (λ _, True) (λ _ _, True).
Proof. by split. Qed.
Lemma any_users env : users_kept (λ _, True) (λ _ _, True) env.
Proof. intros w w' _ _. split; [done|by apply rtc_once]. Qed.

Definition presents_challenge (c : string) (p : prog AuthW ()) : Prop :=
  ∃ code, p = no_result (twoFactorLoginVerify cfg c code) ∨
          p = no_result (twoFactorLoginRecovery cfg c code).

(** C5: a two-factor challenge signs in at most once. However requests run at
    the same time, of all those that present a challenge, with whatever code
    and to the TOTP/SMS or to the recovery endpoint, at most one succeeds. *)
Theorem challenge_once c ps w ps' w' :
  old (aw_draws w) c → well_keyed (λ _, True) (λ _, True) w → auth_pool cfg ps w ps' w' →
  at_most_one (presents_challenge c) ps ps'.
Proof.
  intros Hc Hw Hpool. eapply (pool_claims cfg (aw_draws w) _ _ (λ _, True) (λ _, True) (λ _ _, True) (λ _, True) auth_env (consumed c));
    [by apply well_keyed_inv|intros w1 w2 HR; by apply (ar_challenges _ _ _ _ HR)| |done
    |apply any_users|exact Hpool].
  intros p w1 [code [-> | -> ]]; unfold no_result;
    (eapply once_then; [|done]); [by apply once_verify|by apply once_recovery].
Qed.

Definition own_code (rc code : string) (r : RecoveryCode) : Prop :=
  rc_codeHash r = hashRecoveryCode sha256_hex code → rc_id r = rc.
#[local] Instance code_preds n0 rc code :
  AuthPreds n0 cfg (λ _, True) (own_code rc code) (λ _, True) (λ _, True) (λ _ _, True).
Proof. by split. Qed.
(** No code drawn later has this one's hash. *)
Definition not_redrawn (n0 : nat) (code : string) : Prop :=
  ∀ n, (n0 ≤ n)%nat →
    hashRecoveryCode sha256_hex (recovery_code (random_bytes n 12)) ≠
    hashRecoveryCode sha256_hex code.
Lemma code_new_preds n0 rc code :
  not_redrawn n0 code → AccountPreds n0 (own_code rc code) (λ _, True) (λ _ _, True).
Proof. intros Hn. split; [done|]. intros n id u Hle _ Hh. by destruct (Hn n Hle). Qed.

(** A recovery code is used at most once, in any challenge of any session:
    when only one row holds its hash, at most one of the requests that
    present it succeeds. *)
Theorem recovery_code_once rc code ps w ps' w' :
  old (aw_draws w) rc → not_redrawn (aw_draws w) code →
  well_keyed (λ _, True) (own_code rc code) w → auth_pool cfg ps w ps' w' →
  at_most_one (λ p, ∃ c, p = no_result (twoFactorLoginRecovery cfg c code)) ps ps'.
Proof.
  intros Hc Hn Hw Hpool. pose proof (code_new_preds _ rc _ Hn). eapply (pool_claims cfg (aw_draws w) (λ _, True) (own_code rc code)
    (λ _, True) (λ _, True) (λ _ _, True) (λ _, True) auth_env (code_used rc));
    [by apply well_keyed_inv|intros w1 w2 HR; by apply (ar_codes _ _ _ _ HR)| |done
    |apply any_users|exact Hpool].
  intros p w1 (c&->). unfold no_result. eapply once_then; [|done].
  by apply once_recovery_code.
Qed.

Definition own_session (sid token : string) (s : Session) : Prop :=
  s_refreshToken s = hashOpaqueToken cfg token refresh_token → s_id s = sid.
(** No token issued later has this one's hash. *)
Definition not_reissued (n0 : nat) (token : string) : Prop :=
  ∀ n p secret expiresIn iat, (n0 ≤ n)%nat → jp_jti p = Some (uuid n) →
    hashOpaqueToken cfg (jwt_sign p secret expiresIn iat) refresh_token ≠
    hashOpaqueToken cfg token refresh_token.
Lemma session_preds n0 sid token :
  not_reissued n0 token →
  AuthPreds n0 cfg (own_session sid token) (λ _, True) (λ _, True) (λ _, True) (λ _ _, True).
Proof.
  intros Hn. split; try done. intros n userId phone email roles permissions s e iat x ip ua t
    Hle _ Heq. exfalso. eapply (Hn n); [exact Hle| |exact Heq]; done.
Qed.

(** C10: a refresh token is exchanged at most once. Of all the concurrent
    requests that present the same refresh token, at most one gets new tokens. *)
Theorem refresh_once sid token ps w ps' w' :
  old (aw_draws w) sid → not_reissued (aw_draws w) token →
  well_keyed (own_session sid token) (λ _, True) w → auth_pool cfg ps w ps' w' →
  at_most_one (eq (no_result (Auth.refresh cfg token))) ps ps'.
Proof.
  intros Hc Hn Hw Hpool. pose proof (session_preds _ sid _ Hn).
  eapply (pool_claims cfg (aw_draws w) (own_session sid token) (λ _, True)
    (λ _, True) (λ _, True) (λ _ _, True) (λ _, True) auth_env (rotated sid));
    [by apply well_keyed_inv|intros w1 w2 HR; by apply (ar_sessions _ _ _ _ HR)| |done
    |apply any_users|exact Hpool].
  intros p w1 <-. unfold no_result. eapply once_then; [|done].
  by apply once_refresh.
Qed.

(** A one-time code is used at most once, to verify or change a phone, to reset or change
    a password or to reactivate an account: of all the concurrent requests that present
    the same verification, with whatever code and to whichever of these endpoints, at
    most one succeeds. *)
Theorem otp_once id ps w ps' w' :
  old (aw_draws w) id → well_keyed (λ _, True) (λ _, True) w → auth_pool cfg ps w ps' w' →
  at_most_one (presents_code cfg id) ps ps'.
Proof.
  intros Hc Hw Hpool. eapply (pool_claims cfg (aw_draws w) (λ _, True) (λ _, True)
    (λ _, True) (λ _, True) (λ _ _, True) (λ _, True) auth_env (otp_used id));
    [by apply well_keyed_inv|intros w1 w2 HR; by apply (ar_otps _ _ _ _ HR)| |done
    |apply any_users|exact Hpool].
  intros p w1. by apply (once_presents cfg (aw_draws w) _ _ _ _ _ (λ _, True)).
Qed.
End props.

(** ** Concrete pools: two requests that present the same thing *)

Lemma demo_returns_of Act env p w :
  auth_handler demo_config Act p → (run p w).1 = Ok () →
  ∃ ps' w', pool_of demo_config Act env [p; p] w ps' w' ∧ ps' !! 0%nat = Some (Ret ()).
Proof.
  intros Hp Hr. destruct (run p w) as [r w'] eqn:Hrun. cbn in Hr. subst r.
  exists (<[0%nat := Ret ()]> [p; p]), w'. split; [|done].
  split; [by rewrite !Forall_cons, Forall_nil|by eapply pool_run_ok].
Qed.
Lemma demo_returns p w :
  auth_handler demo_config (λ _, True) p → (run p w).1 = Ok () →
  ∃ ps' w', auth_pool demo_config [p; p] w ps' w' ∧ ps' !! 0%nat = Some (Ret ()).
Proof. apply demo_returns_of. Qed.

Lemma demo_old n s : match s with Str "u" _ => False | _ => True end → old n s.
Proof. intros Hs k _. by apply demo_uuid_neq. Qed.

Lemma demo_keyed active revoked Ps Pc :
  Ps (demo_session revoked) → Pc demo_code → well_keyed Ps Pc (demo_auth active revoked).
Proof.
  intros Hs Hc. split_and!; intros id r; cbn; rewrite ?lookup_insert_Some, ?lookup_singleton_Some;
    naive_solver.
Qed.

Lemma challenge_once_witness :
  let p := no_result (twoFactorLoginVerify demo_config "ch1" "654321") in
  let w := demo_auth true None in
  (∃ ps' w', auth_pool demo_config [p; p] w ps' w' ∧ ps' !! 0%nat = Some (Ret ())) ∧
  ∀ ps' w', auth_pool demo_config [p; p] w ps' w' →
    ps' !! 0%nat = Some (Ret ()) → ps' !! 1%nat ≠ Some (Ret ()).
Proof.
  intros p w. split; [apply demo_returns; [constructor|vm_compute; reflexivity]|].
  intros ps' w' Hp H0 H1.
  assert (0%nat = 1%nat) as [=].
  apply (challenge_once demo_config "ch1" [p; p] w ps' w') with p p;
    [by apply demo_old|by apply demo_keyed|done|done|done|by eexists; left..|done|done].
Defined.

Lemma demo_not_redrawn : not_redrawn 0 "ABCDE-12345".
Proof.
  intros n _. cbn [random_bytes demo_lib]. unfold recovery_code.
  change (recovery_char <$> replicate 12 (Z.of_nat n)) with
    (replicate 12 (recovery_char (Z.of_nat n))).
  generalize (recovery_char (Z.of_nat n)). by intros [[] [] [] [] [] [] [] []].
Qed.

Lemma recovery_code_once_witness :
  let p c := no_result (twoFactorLoginRecovery demo_config c "ABCDE-12345") in
  let w := demo_auth true None in
  (∃ ps' w', auth_pool demo_config [p "ch1"; p "ch1"] w ps' w' ∧
     ps' !! 0%nat = Some (Ret ())) ∧
  ∀ ps' w', auth_pool demo_config [p "ch1"; p "ch2"] w ps' w' →
    ps' !! 0%nat = Some (Ret ()) → ps' !! 1%nat ≠ Some (Ret ()).
Proof.
  intros p w. split; [apply demo_returns; [constructor|vm_compute; reflexivity]|].
  intros ps' w' Hp H0 H1.
  assert (0%nat = 1%nat) as [=].
  apply (recovery_code_once demo_config "rc1" "ABCDE-12345" [p "ch1"; p "ch2"] w ps' w')
    with (p "ch1") (p "ch2");
    [by apply demo_old|apply demo_not_redrawn|by apply demo_keyed|done|done|done|by eexists..|done|done].
Defined.

Lemma demo_not_reissued : not_reissued demo_config 0 "jwt:jti1".
Proof. intros n p secret e iat _ Hj. cbn. rewrite Hj. cbn. intros Heq. by destruct n. Qed.

Lemma refresh_once_witness :
  let p := no_result (Auth.refresh demo_config "jwt:jti1") in
  let w := demo_auth true None in
  (∃ ps' w', auth_pool demo_config [p; p] w ps' w' ∧ ps' !! 0%nat = Some (Ret ())) ∧
  ∀ ps' w', auth_pool demo_config [p; p] w ps' w' →
    ps' !! 0%nat = Some (Ret ()) → ps' !! 1%nat ≠ Some (Ret ()).
Proof.
  intros p w. split; [apply demo_returns; [constructor|vm_compute; reflexivity]|].
  intros ps' w' Hp H0 H1.
  assert (0%nat = 1%nat) as [=].
  apply (refresh_once demo_config "s1" "jwt:jti1" [p; p] w ps' w') with p p;
    [by apply demo_old|apply demo_not_reissued|by apply demo_keyed|done..].
Defined.

Lemma otp_once_witness :
  let p := reactivateVerify demo_config true "otp1" "123456" in
  let w := demo_auth false None in
  (∃ ps' w', auth_pool demo_config [p; p] w ps' w' ∧ ps' !! 0%nat = Some (Ret ())) ∧
  ∀ ps' w', auth_pool demo_config [p; p] w ps' w' →
    ps' !! 0%nat = Some (Ret ()) → ps' !! 1%nat ≠ Some (Ret ()).
Proof.
  intros p w. split; [apply demo_returns; [constructor|vm_compute; reflexivity]|].
  intros ps' w' Hp H0 H1.
  assert (0%nat = 1%nat) as [=].
  apply (otp_once demo_config "otp1" [p; p] w ps' w') with p p;
    [by apply demo_old|by apply demo_keyed|done|done|done
    |by eexists; right; right; left; eexists..|done|done].
Defined.
