(* ===== verification/AuthSeq.v ===== *)
(** * Authentication: what each operation does

    The functional behaviour of the sign-in, lockout and refresh handlers when
    they run alone, and two behaviours of the second factor worth knowing. *)

From S2P Require Import Prelude Interleave Js Redis Cache Roles TwoFactor.
From S2P Require Import AuthModel Credentials Auth AuthSafety AuthProps.

Open Scope Z_scope.

(** ** What a program leaves alone *)

(** Everything but Redis, the cache, the messages and the draws. *)
Record same_auth (w w' : AuthW) : Prop := {
  sa_users : aw_users w' = aw_users w;
  sa_otps : aw_otps w' = aw_otps w;
  sa_sessions : aw_sessions w' = aw_sessions w;
  sa_secrets : aw_secrets w' = aw_secrets w;
  sa_codes : aw_codes w' = aw_codes w;
  sa_challenges : aw_challenges w' = aw_challenges w;
  sa_events : aw_events w' = aw_events w;
  sa_now : aw_now w' = aw_now w;
}.

#[export] Instance same_auth_preorder : PreOrder same_auth.
Proof.
  split; [by intros w; split|].
  intros w1 w2 w3 [] []; split; by etrans.
Qed.

(** The account exists; and only accounts and what [same_auth] ignores change. *)
Definition has_user (id : string) (w : AuthW) : Prop := is_Some (aw_users w !! id).
Record users_only (w w' : AuthW) : Prop := {
  uo_otps : aw_otps w' = aw_otps w;
  uo_sessions : aw_sessions w' = aw_sessions w;
  uo_secrets : aw_secrets w' = aw_secrets w;
  uo_codes : aw_codes w' = aw_codes w;
  uo_challenges : aw_challenges w' = aw_challenges w;
  uo_draws : (aw_draws w ≤ aw_draws w')%nat;
  uo_now : aw_now w' = aw_now w;
}.

#[export] Instance users_only_preorder : PreOrder users_only.
Proof.
  split; [by intros w; split|].
  intros w1 w2 w3 [] []; split; by etrans.
Qed.

Section seq.
Context `{AuthLib} `{SecretBox} (cfg : AuthConfig).

#[export] Instance same_auth_outside : OutsideGood (λ _, True) same_auth.
Proof.
  split; [apply _|intros [] r w _|intros cs w _|intros w _|intros w _]; by split.
Qed.
#[export] Instance users_only_outside id : OutsideGood (has_user id) users_only.
Proof.
  split; [apply _|intros c r w HI|intros cs w HI|intros w HI|intros w HI];
    try destruct c; (split; [exact HI|split; try done]); cbn; unfold draw; cbn; lia.
Qed.

Lemma run_untouched {A} (p : prog AuthW A) w :
  calm (λ _, True) same_auth p → ∃ a w', run p w = (Ok a, w') ∧ same_auth w w'.
Proof. intros Hp. destruct (run_calm _ _ p w I Hp) as (a&w'&?&_&?). eauto. Qed.

(** ** A refresh token that was rotated is presented again *)

(** C36: the reuse of a refresh token closes every session of its user. When
    the presented token belongs to a session that was already revoked, the
    request is refused, afterwards no session of that user is active, the
    sessions of other users are as they were, and a critical security alert
    is emitted. *)
Theorem refresh_reuse_detected token payload s w :
  jwt_verify token (refreshSecret cfg) (aw_now w) = Some payload →
  jp_type payload = Some "refresh" →
  find_row (session_of (jp_sub payload) (hashOpaqueToken cfg token refresh_token))
    (aw_sessions w) = Some s → s_revokedAt s ≠ None →
  ∃ w' a, run (Auth.refresh cfg token) w =
            (Err (Unauthorized "session_expired_or_invalid"), w') ∧
    aw_events w' = AuthAudited a :: aw_events w ∧ aa_severity a = Some "CRITICAL" ∧
    aa_targetUserId a = Some (jp_sub payload) ∧
    dom (aw_sessions w') = dom (aw_sessions w) ∧
    ∀ id r r', aw_sessions w !! id = Some r → aw_sessions w' !! id = Some r' →
      if bool_decide (s_userId r = jp_sub payload) then session_spent r' else r' = r.
Proof.
  intros Hj Ht Hs Hr. unfold Auth.refresh, now. rewrite run_bind, run_gets, Hj.
  cbv zeta. rewrite bool_decide_eq_true_2 by done. cbn [negb].
  rewrite run_bind, run_gets, Hs, run_bind, run_require. cbn [from_option].
  unfold not_revoked at 1. rewrite bool_decide_eq_false_2 by done. cbn [negb].
  unfold session_updateMany. rewrite run_bind, run_act. cbn [fst snd]. set (w1 := set_sessions _ w).
  rewrite run_bind.
  destruct (run_untouched (purgeUserCache (c_keyPrefix cfg) (jp_sub payload)) w1)
    as ([]&w2&E2&[Su So Ss _ _ _ Se Sn]); [apply calm_purgeUserCache, _|].
  rewrite E2. rewrite run_bind. unfold emitAudit at 1. rewrite run_modify, run_Throw.
  eexists _, _. split_and!; [reflexivity|cbn; by rewrite Se|done|done| |].
  - cbn. rewrite Ss. unfold w1. cbn. apply dom_fmap_L.
  - intros id r r' Hid. cbn. rewrite Ss. unfold w1. cbn.
    rewrite lookup_fmap, Hid. intros [= <-]. unfold active_of.
    case_bool_decide as Hu; cbn [andb]; [|done].
    unfold session_spent. case_bool_decide as Ha; done.
Qed.

(** ** Failed passwords lock the account *)

Definition failed_key (id : string) : string :=
  k_failedLoginAttempts (c_keyPrefix cfg) (hashIdentifier sha256_hex id).

(** [n] failures are counted: by Redis when it answers, else in the account. *)
Definition counted (id : string) (n : Z) (w : AuthW) : Prop :=
  if n =? 0 then rlookup (aw_now w) (store_of SecConn w) (failed_key id) = None
  else ∃ exp, rlookup (aw_now w) (store_of SecConn w) (failed_key id) = Some (counter n exp).
Definition failures (id : string) (n : Z) (u : User) (w : AuthW) : Prop :=
  aw_users w !! id = Some u ∧
  (redis_ok SecConn w ∧ counted id n w ∨ redis_down SecConn w ∧ u_failedLoginAttempts u = n).

Lemma run_user_update id upd w u :
  aw_users w !! id = Some u →
  run (user_update id upd) w =
  (Ok (upd (aw_now w) u), set_users (insert id (upd (aw_now w) u)) w).
Proof. intros Hu. unfold user_update. by rewrite run_act_outcome, Hu. Qed.

Lemma incr_counted id n w :
  0 ≤ n → counted id n w →
  ∃ exp, INCR_TTL_SCRIPT (failed_key id) TTL_FAILED_LOGIN_ATTEMPTS (aw_now w) (store_of SecConn w)
         = (Ok (n + 1), <[failed_key id := counter (n + 1) exp]> (store_of SecConn w)) ∧
    aw_now w < exp.
Proof.
  intros Hn. unfold counted. destruct (Z.eqb_spec n 0) as [->|Hne].
  - intros Hl. eexists. split; [by apply incr_ttl_new|]. unfold TTL_FAILED_LOGIN_ATTEMPTS. lia.
  - intros [exp Hl]. exists exp. split; [by apply incr_ttl_next; [lia|]|].
    apply rlookup_Some in Hl as [_ Hlive]. by rewrite live_counter, Z.ltb_lt in Hlive.
Qed.

(** One more failed password. *)
Lemma record_step id n u w :
  0 ≤ n → failures id n u w →
  ∃ w' u', run (recordFailedLogin cfg id) w = (Ok (), w') ∧ aw_now w' = aw_now w ∧
    aw_users w' !! id = Some u' ∧
    (n + 1 < c_maxLoginAttempts cfg →
      failures id (n + 1) u' w' ∧ u_lockedUntil u' = u_lockedUntil u) ∧
    (c_maxLoginAttempts cfg ≤ n + 1 → u_lockedUntil u' = Some (aw_now w + lock_ms cfg)).
Proof.
  intros Hn [Hu [[Hok Hc]|[Hd Hf]]]; unfold recordFailedLogin; rewrite run_bind;
    unfold incrementFailedLoginAttempts; fold (failed_key id).
  - destruct (incr_counted id n w Hn Hc) as (exp&Hi&Hexp).
    rewrite (run_incrementWithTtl SecConn _ _ w (n + 1) _ Hok Hi).
    set (w1 := set_store SecConn _ w).
    destruct (Z.leb_spec (c_maxLoginAttempts cfg) (n + 1)).
    + rewrite run_bind, (run_user_update _ _ w1 u) by done. set (w2 := set_users _ w1).
      destruct (run_untouched (resetFailedLoginAttempts (c_keyPrefix cfg) sha256_hex id) w2)
        as ([]&w3&E3&[Su _ _ _ _ _ _ Sn]); [apply calm_resetFailedLoginAttempts, _|].
      eexists w3, _. rewrite E3, Sn, Su. split_and!; [done|done|apply lookup_insert_eq|lia|done].
    + rewrite run_ret. eexists w1, u. split_and!; [done|done|done| |lia].
      intros _. split; [|done]. split; [done|left]. split; [apply redis_ok_set_store|].
      unfold counted. rewrite (proj2 (Z.eqb_neq (n + 1) 0)) by lia. exists exp.
      unfold w1. rewrite store_of_set_store, rlookup_insert, live_counter.
      change (aw_now (set_store _ _ w)) with (aw_now w). by rewrite (proj2 (Z.ltb_lt _ _)).
  - rewrite run_incrementWithTtl_down by done. rewrite run_bind, (run_user_update _ _ w u) by done.
    cbn [u_failedLoginAttempts upd_lock]. rewrite Hf.
    destruct (Z.leb_spec (c_maxLoginAttempts cfg) (n + 1)).
    + rewrite run_bind. erewrite run_user_update by apply lookup_insert_eq.
      rewrite run_ret. eexists _, _. split_and!; [done|done|apply lookup_insert_eq|lia|done].
    + rewrite run_ret. eexists _, _. split_and!; [done|done|apply lookup_insert_eq| |lia].
      intros _. split; [|done]. split; [apply lookup_insert_eq|by right].
Qed.

Lemma record_many id k n u w :
  0 ≤ n → n < c_maxLoginAttempts cfg → n + Z.of_nat k ≤ c_maxLoginAttempts cfg →
  failures id n u w →
  ∃ w' u', run (for_each (λ _, recordFailedLogin cfg id) (replicate k ())) w = (Ok (), w') ∧
    aw_users w' !! id = Some u' ∧
    u_lockedUntil u' = if n + Z.of_nat k <? c_maxLoginAttempts cfg then u_lockedUntil u
                       else Some (aw_now w + lock_ms cfg).
Proof.
  revert n u w. induction k as [|k IH]; intros n u w Hn Hlt Hle Hf; cbn [replicate for_each].
  { exists w, u. split_and!; [done|apply Hf|]. by rewrite (proj2 (Z.ltb_lt _ _)) by lia. }
  destruct (record_step id n u w Hn Hf) as (w1&u1&E1&Hnow&Hu1&Hless&Hmax).
  rewrite run_bind, E1. destruct (Z.ltb_spec (n + 1) (c_maxLoginAttempts cfg)) as [Hlt'|Hge].
  - destruct (Hless Hlt') as [Hf1 Hl1].
    destruct (IH (n + 1) u1 w1) as (w2&u2&E2&Hu2&Hl2); [lia|lia|lia|done|].
    exists w2, u2. split_and!; [done|done|]. rewrite Hl2, Hl1, Hnow.
    by replace (n + 1 + Z.of_nat k) with (n + Z.of_nat (S k)) by lia.
  - assert (k = 0%nat) as -> by lia. cbn [replicate for_each].
    exists w1, u1. split_and!; [done|done|].
    rewrite (proj2 (Z.ltb_ge _ _)) by lia. by apply Hmax.
Qed.

(** C40: the account locks at the configured number of failed passwords, and
    not before. From no failure counted, [k] failed passwords leave the lock
    as it was while [k] is less than [maxLoginAttempts], and at that number
    the account is locked for exactly the configured time; whether Redis
    counts the failures or, when it is down, the account itself. *)
Theorem lockout_exact id k u w :
  0 < c_maxLoginAttempts cfg → Z.of_nat k ≤ c_maxLoginAttempts cfg → failures id 0 u w →
  ∃ w' u', run (for_each (λ _, recordFailedLogin cfg id) (replicate k ())) w = (Ok (), w') ∧
    aw_users w' !! id = Some u' ∧
    ∀ t, isLocked u' t = if Z.of_nat k <? c_maxLoginAttempts cfg then isLocked u t
                         else t <? aw_now w + c_lockoutDurationMinutes cfg * 60000.
Proof.
  intros Hmax Hk Hf. destruct (record_many id k 0 u w) as (w'&u'&E&Hu&Hl); [done..|].
  exists w', u'. split_and!; [done|done|]. intros t. unfold isLocked. rewrite Hl, Z.add_0_l.
  destruct (_ <? _); [done|]. unfold lock_ms. f_equal. lia.
Qed.

(** ** Password login *)

Lemma calm_user_update id upd : calm (has_user id) users_only (user_update id upd).
Proof.
  intros w w1 _ [u Hu]. cbn. rewrite Hu. cbn. split_and!; [|by split|done].
  exists (upd (aw_now w1) u). apply lookup_insert_eq.
Qed.
Lemma calm_emitAudit id a : calm (has_user id) users_only (emitAudit a).
Proof. apply calm_modify. intros w HI. split; [done|by split]. Qed.
Hint Resolve calm_user_update calm_emitAudit users_only_outside users_only_preorder : calm safe.

Lemma calm_recordFailedLogin id : calm (has_user id) users_only (recordFailedLogin cfg id).
Proof. unfold recordFailedLogin. calm_tac. Qed.
Lemma calm_resetLoginAttempts u : calm (has_user (u_id u)) users_only (resetLoginAttempts cfg u).
Proof. unfold resetLoginAttempts. calm_tac. Qed.
Lemma calm_login_failed id u o r : calm (has_user id) users_only (login_failed u o r).
Proof. apply calm_emitAudit. Qed.
Lemma calm_auditLogin id u a b c d e : calm (has_user id) users_only (auditLogin u a b c d e).
Proof. apply calm_emitAudit. Qed.

(** The session that [issueTokens] opens. *)
Definition opened (userId : string) (tokens : TokenPair) (w w' : AuthW) : Prop :=
  ∃ s, aw_sessions w !! s_id s = None ∧ aw_sessions w' = <[s_id s := s]> (aw_sessions w) ∧
    s_userId s = userId ∧ s_revokedAt s = None ∧
    s_refreshToken s = hashOpaqueToken cfg (refreshToken tokens) refresh_token ∧
    parseDurationToMs (normalizeDurationString (c_jwt_refreshExpiresIn cfg)) =
      Ok (s_expiresAt s - aw_now w).

Definition fresh_sessions (w : AuthW) : Prop :=
  ∀ n, (aw_draws w ≤ n)%nat → aw_sessions w !! uuid n = None.

Lemma run_issueTokens userId phone email roles permissions ip ua ms w :
  parseDurationToMs (normalizeDurationString (c_jwt_refreshExpiresIn cfg)) = Ok ms →
  fresh_sessions w →
  ∃ tokens w', run (issueTokens cfg userId phone email roles permissions ip ua) w =
    (Ok tokens, w') ∧ opened userId tokens w w'.
Proof.
  intros Hms Hfresh. unfold issueTokens, randomUUID, now.
  rewrite run_bind, run_act, run_bind, run_gets, run_bind, run_act, run_bind, run_gets.
  cbv zeta. rewrite Hms, run_bind. cbn [throw_outcome]. rewrite run_Ret.
  unfold session_create. rewrite run_bind, run_act_outcome. unfold draw. cbn [fst snd].
  cbv zeta. cbn [s_id].
  rewrite bool_decide_eq_false_2 by (cbn; rewrite Hfresh by done; intros []; done).
  match goal with |- context [insert _ ?x] => set (s := x) end.
  cbn [fst snd]. rewrite run_ret. eexists _, _. split; [reflexivity|].
  exists s. split_and!; [by apply Hfresh|done..|].
  rewrite Hms. cbn. f_equal. lia.
Qed.

(** Why the password login of an account is refused, in the order of the checks. *)
Definition login_refusal (u : User) (password : string) (t : Z) : option exn :=
  match u_passwordHash u with
  | Some (Str _ _ as hash) =>
      if negb (bcrypt_compare password hash) then Some (Unauthorized "invalid_credentials")
      else if negb (mem USER (role_names u)) then Some (Unauthorized "use_admin_login")
      else if isLocked u t then Some (Unauthorized "account_locked")
      else if negb (u_isActive u) then Some (Unauthorized "account_inactive")
      else None
  | _ => Some (Unauthorized "invalid_credentials")
  end.

(** Under [calm], a program of the login runs to a state in which only the
    account has changed. *)
Lemma run_users {A} id (p : prog AuthW A) w :
  has_user id w → calm (has_user id) users_only p →
  ∃ a w', run p w = (Ok a, w') ∧ has_user id w' ∧ users_only w w'.
Proof. apply (run_calm (has_user id) users_only). Qed.

Lemma refused {B} id (p : prog AuthW ()) e w :
  has_user id w → calm (has_user id) users_only p →
  ∃ w', run (p ;; @Throw AuthW B e) w = (Err e, w') ∧ aw_sessions w' = aw_sessions w.
Proof.
  intros HI Hp. destruct (run_users id p w HI Hp) as ([]&w'&E&_&[]).
  exists w'. by rewrite run_bind, E.
Qed.

(** What the login of an account with a verified phone runs to. *)
Lemma run_login phone password p u ms w :
  normalizePhoneNumber phone = Ok p →
  find_row (λ u, bool_decide (u_phone u = Some p)) (aw_users w) = Some u →
  rows u_id (λ _, True) (aw_users w) → u_isPhoneVerified u = true →
  parseDurationToMs (normalizeDurationString (c_jwt_refreshExpiresIn cfg)) = Ok ms →
  fresh_sessions w →
  match login_refusal u password (aw_now w) with
  | Some e => ∃ w', run (login cfg phone password) w = (Err e, w') ∧
                aw_sessions w' = aw_sessions w
  | None => ∃ tokens w', run (login cfg phone password) w = (Ok (LoggedIn tokens), w') ∧
              opened (u_id u) tokens w w'
  end.
Proof.
  intros Hp Hu Hrows Hver Hms Hfresh.
  assert (HI : has_user (u_id u) w).
  { apply find_row_Some in Hu as [_ [i Hi]]. destruct (Hrows _ _ Hi) as [-> _]. by exists u. }
  unfold login, normalizePhoneOrThrow, user_by_phone. rewrite Hp.
  rewrite run_bind, run_throw_outcome, run_bind, run_gets, Hu.
  unfold login_refusal. destruct (u_passwordHash u) as [[|c h]|];
    [apply (refused (u_id u)); [done|apply calm_login_failed]| |
     apply (refused (u_id u)); [done|apply calm_login_failed]].
  destruct (negb (bcrypt_compare _ _)).
  { rewrite run_bind.
    destruct (run_users (u_id u) (recordFailedLogin cfg (u_id u)) w HI) as ([]&w1&E1&HI1&H1);
      [apply calm_recordFailedLogin|]. rewrite E1.
    destruct (refused (B:=LoginResult) (u_id u) (login_failed u "FAILURE" "wrong_password")
      (Unauthorized "invalid_credentials") w1 HI1) as (w2&E2&H2); [apply calm_login_failed|].
    exists w2. split; [exact E2|]. rewrite H2. apply H1. }
  destruct (negb (mem _ _)); [apply (refused (u_id u)); [done|apply calm_login_failed]|].
  unfold assertNotLocked, now. rewrite run_bind, run_catch, run_bind, run_gets, run_throw_if.
  destruct (isLocked u (aw_now w)).
  { destruct (refused (B:=()) (u_id u) (login_failed u "DENIED" "account_locked")
      (Unauthorized "account_locked") w HI) as (w1&E1&H1); [apply calm_login_failed|].
    rewrite E1. by exists w1. }
  rewrite run_bind.
  destruct (run_users (u_id u) (resetLoginAttempts cfg u) w HI) as ([]&w1&E1&HI1&[]);
    [apply calm_resetLoginAttempts|]. rewrite E1.
  destruct (negb (u_isActive u)).
  { destruct (refused (B:=LoginResult) (u_id u) (login_failed u "DENIED" "account_inactive")
      (Unauthorized "account_inactive") w1 HI1) as (w2&E2&H2); [apply calm_login_failed|].
    exists w2. split; [exact E2|by etrans]. }
  rewrite Hver. cbn [negb]. unfold auditLogin, emitAudit. rewrite run_bind, run_modify, run_bind.
  set (w2 := push_event _ w1). unfold tokens_for.
  destruct (run_issueTokens (u_id u) (u_phone u) (u_email u) (role_names u)
    (derivePermissions (u_userRoles u)) None None ms w2) as (tokens&w3&E3&s&Hs1&Hs2&Hs3&Hs4&Hs5&Hs6); [done| |].
  { intros n Hn. unfold w2. cbn in Hn |- *. rewrite uo_sessions0. apply Hfresh. lia. }
  rewrite E3, run_ret. exists tokens, w3. split; [done|]. exists s.
  unfold w2 in *. cbn in *. rewrite uo_sessions0, uo_now0 in *. done.
Qed.

(** Whether the second factor is on. *)
Definition second_factor (userId : string) (w : AuthW) : bool :=
  from_option ts_isEnabled false (aw_secrets w !! userId).

(** C38: the password login decides by its checks and nothing else. For an
    account with a verified phone, the answer is the first refusal of
    [login_refusal] (no or another password, not a user account, locked,
    inactive) and no session is opened; and when there is none and the account has
    no second factor, it is tokens whose refresh token is that of one new session
    of the account, which ends after the configured time. (What is to follow the
    password where a second factor is on is not said here:
    [login_without_second_factor] below.) *)
Theorem login_decides phone password p u ms w :
  normalizePhoneNumber phone = Ok p →
  find_row (λ u, bool_decide (u_phone u = Some p)) (aw_users w) = Some u →
  rows u_id (λ _, True) (aw_users w) → u_isPhoneVerified u = true →
  parseDurationToMs (normalizeDurationString (c_jwt_refreshExpiresIn cfg)) = Ok ms →
  fresh_sessions w →
  match login_refusal u password (aw_now w) with
  | Some e => ∃ w', run (login cfg phone password) w = (Err e, w') ∧
                aw_sessions w' = aw_sessions w
  | None => second_factor (u_id u) w = false →
            ∃ tokens w', run (login cfg phone password) w = (Ok (LoggedIn tokens), w') ∧
              opened (u_id u) tokens w w'
  end.
Proof.
  intros Hp Hu Hrows Hver Hms Hfresh.
  pose proof (run_login phone password p u ms w Hp Hu Hrows Hver Hms Hfresh) as Hl.
  destruct (login_refusal _ _ _); [exact Hl|intros _; exact Hl].
Qed.
End seq.

(** ** Witnesses *)

Definition demo_reused : AuthW := demo_auth true (Some 2000000).

Lemma refresh_reuse_detected_witness :
  ∃ w' a, run (Auth.refresh demo_config "jwt:jti1") demo_reused =
      (Err (Unauthorized "session_expired_or_invalid"), w') ∧
    aw_events w' = AuthAudited a :: aw_events demo_reused ∧ aa_severity a = Some "CRITICAL" ∧
    aa_targetUserId a = Some "user1" ∧
    dom (aw_sessions w') = dom (aw_sessions demo_reused) ∧
    ∀ id r r', aw_sessions demo_reused !! id = Some r → aw_sessions w' !! id = Some r' →
      if bool_decide (s_userId r = "user1") then session_spent r' else r' = r.
Proof.
  apply (refresh_reuse_detected demo_config "jwt:jti1" demo_payload (demo_session (Some 2000000)));
    [reflexivity|reflexivity|vm_compute; reflexivity|done].
Defined.

Lemma lockout_exact_witness :
  ∃ w' u', run (for_each (λ _, recordFailedLogin demo_config "user1") (replicate 5 ()))
      (demo_auth true None) = (Ok (), w') ∧ aw_users w' !! "user1" = Some u' ∧
    ∀ t, isLocked u' t = (t <? 3000000 + 15 * 60000).
Proof.
  apply (lockout_exact demo_config "user1" 5 (demo_user true) (demo_auth true None));
    [done|done|]. split; [vm_compute; reflexivity|left; split; [done|vm_compute; reflexivity]].
Defined.

(** The account without its authenticator. *)
Definition demo_password_only : AuthW := set_secrets (λ _, ∅) (demo_auth true None).

Lemma login_decides_witness :
  (∃ tokens w', run (login demo_config "0911223344" "password") demo_password_only =
     (Ok (LoggedIn tokens), w') ∧ opened demo_config "user1" tokens demo_password_only w') ∧
  (∃ w', run (login demo_config "0911223344" "guess") demo_password_only =
     (Err (Unauthorized "invalid_credentials"), w') ∧
     aw_sessions w' = aw_sessions demo_password_only).
Proof.
  assert (Hk : rows u_id (λ _, True) (aw_users demo_password_only)).
  { intros id r. cbn. rewrite lookup_singleton_Some. by intros [<- <-]. }
  assert (Hf : fresh_sessions demo_password_only).
  { intros n _. cbn. apply lookup_singleton_ne. intros Heq. by destruct n. }
  assert (Hyes : login_refusal (demo_user true) "password" 3000000 = None) by reflexivity.
  assert (Hno : login_refusal (demo_user true) "guess" 3000000 =
    Some (Unauthorized "invalid_credentials")) by reflexivity.
  assert (Hu : find_row (λ u, bool_decide (u_phone u = Some "+251911223344"))
    (aw_users demo_password_only) = Some (demo_user true)) by (vm_compute; reflexivity).
  assert (Hp : normalizePhoneNumber "0911223344" = Ok "+251911223344") by (vm_compute; reflexivity).
  assert (Hms : parseDurationToMs (normalizeDurationString "7d") = Ok 604800000)
    by (vm_compute; reflexivity).
  split.
  - pose proof (login_decides demo_config "0911223344" "password" _ _ _ _ Hp Hu Hk eq_refl Hms Hf)
      as Hd. change (aw_now _) with 3000000 in Hd. rewrite Hyes in Hd. exact (Hd eq_refl).
  - pose proof (login_decides demo_config "0911223344" "guess" _ _ _ _ Hp Hu Hk eq_refl Hms Hf)
      as Hd. change (aw_now _) with 3000000 in Hd. rewrite Hno in Hd. exact Hd.
Defined.

(** ** Two behaviours of the second factor *)

(** The account has an enabled authenticator, and the password alone signs in:
    nothing in [login] reads the secret, and nothing issues a challenge. *)
Example login_without_second_factor :
  (ts_isEnabled <$> aw_secrets (demo_auth true None) !! "user1") = Some true ∧
  match (run (login demo_config "0911223344" "password") (demo_auth true None)).1 with
  | Ok (LoggedIn _) => True | _ => False end.
Proof. split; [reflexivity|vm_compute; exact I]. Qed.

(** A step-up accepts the step it has read the row for and then writes it, whatever
    the row holds by then: two concurrent step-ups take the same code. (The
    two-factor login makes the same write conditional on the step being later.) *)
Definition step_up : prog AuthW () :=
  twoFactorStepUp demo_config "user1" "000101" None ;; mret ().
Example step_up_replays :
  ∃ w', rtc (pool_step (λ _ _, False)) ([step_up; step_up], demo_auth true None)
          ([Ret (); Ret ()], w').
Proof.
  pose (order := replicate 3 0%nat ++ replicate 30 1%nat ++ replicate 30 0%nat).
  assert (Hps : (schedule order [step_up; step_up] (demo_auth true None)).1 = [Ret (); Ret ()])
    by (vm_compute; reflexivity).
  pose proof (schedule_steps (λ _ _, False) order [step_up; step_up] (demo_auth true None)) as Hrun.
  destruct (schedule order _ _) as [ps' w']. cbn in Hps. subst ps'. by exists w'.
Qed.
