(* ===== verification/AdminProps.v ===== *)
(** * Administrators: what they may become, however the requests interleave

    A code sets a password once and a link is followed once, among any number of
    concurrent requests; and without a Super Admin at work nobody's rights grow. *)

From S2P Require Import Prelude Interleave Js Redis Cache CacheProps.
From S2P Require Import Roles TwoFactor AuthModel Credentials Auth.
From S2P Require Import PasswordPolicy AdminAuth AuthSafety AdminSafety AuthSeq.
From coqutil Require Import Datatypes.RecordSetters.
Import DoubleBraceUpdate.

Open Scope Z_scope.

Section seq.
Context `{AuthLib} `{SecretBox} (cfg : AuthConfig).

(** ** The password login *)

(** Why the login of an account that it takes is refused, in the order of the checks. *)
Definition admin_refusal (u : User) (password : string) (t : Z) : option exn :=
  if isLocked u t then Some (Unauthorized "account_locked")
  else if negb (u_isActive u) then Some (Unauthorized "account_inactive")
  else if negb (bcrypt_compare password (default "" (u_passwordHash u)))
  then Some (Unauthorized "invalid_credentials")
  else None.

Lemma calm_admin_login_failed id u o r : calm (has_user id) users_only (admin_login_failed u o r).
Proof. apply calm_emitAudit. Qed.

(** An account that is not one of an administrator with a password and a verified
    address. *)
Lemma admin_login_other email password e ou reason w :
  normalizeEmail email = Ok e →
  find_row (λ u, bool_decide (u_email u = Some e)) (aw_users w) = ou →
  no_admin_login ou = Some reason →
  ∃ w', run (adminLoginByEmail cfg email password) w =
          (Err (Unauthorized "invalid_credentials"), w') ∧ aw_sessions w' = aw_sessions w.
Proof.
  intros He Hu Hno. unfold adminLoginByEmail, normalizeEmailOrThrow, user_by_email.
  rewrite He, run_bind, run_throw_outcome, run_bind, run_gets, Hu, Hno.
  unfold audit_user, emitAudit. destruct ou; rewrite run_bind, run_modify, run_Throw;
    by eexists.
Qed.

(** The password login of an administrator decides by its checks and nothing else. The
    answer is the same for an address that nobody has, an account that is not an
    administrator's and one without a password or a verified address; for the others it
    is the first refusal of [admin_refusal] (locked, inactive, another password). In
    none of these a session is opened; otherwise the tokens' refresh token is that of
    one new session of the account, which ends after the configured time. (The code asks
    for no second factor: [admin_login_without_second_factor] in AdminDemo.) *)
Theorem admin_login_exact email password e ou ms w :
  normalizeEmail email = Ok e →
  find_row (λ u, bool_decide (u_email u = Some e)) (aw_users w) = ou →
  rows u_id (λ _, True) (aw_users w) →
  parseDurationToMs (normalizeDurationString (c_jwt_refreshExpiresIn cfg)) = Ok ms →
  fresh_sessions w →
  match no_admin_login ou, ou with
  | None, Some u =>
      match admin_refusal u password (aw_now w) with
      | Some err => ∃ w', run (adminLoginByEmail cfg email password) w = (Err err, w') ∧
                      aw_sessions w' = aw_sessions w
      | None => ∃ tokens w', run (adminLoginByEmail cfg email password) w = (Ok tokens, w') ∧
                  opened cfg (u_id u) tokens w w'
      end
  | _, _ => ∃ w', run (adminLoginByEmail cfg email password) w =
              (Err (Unauthorized "invalid_credentials"), w') ∧ aw_sessions w' = aw_sessions w
  end.
Proof.
  intros He Hou Hrows Hms Hfresh. destruct (no_admin_login ou) as [reason|] eqn:Hno.
  { by eapply admin_login_other. }
  destruct ou as [u|]; [|done].
  assert (HI : has_user (u_id u) w).
  { apply find_row_Some in Hou as [_ [i Hi]]. destruct (Hrows _ _ Hi) as [-> _]. by exists u. }
  unfold adminLoginByEmail, normalizeEmailOrThrow, user_by_email.
  rewrite He, run_bind, run_throw_outcome, run_bind, run_gets, Hou, Hno.
  unfold admin_refusal, assertNotLocked, now.
  rewrite run_bind, run_catch, run_bind, run_gets, run_throw_if.
  destruct (isLocked u (aw_now w)).
  { destruct (refused (B:=()) (u_id u) (admin_login_failed u "DENIED" "account_locked")
      (Unauthorized "account_locked") w HI) as (w1&E1&H1); [apply calm_admin_login_failed|].
    rewrite E1. by exists w1. }
  destruct (negb (u_isActive u)).
  { by apply (refused (u_id u)); [|apply calm_admin_login_failed]. }
  destruct (negb (bcrypt_compare _ _)).
  { rewrite run_bind.
    destruct (run_users (u_id u) (recordFailedLogin cfg (u_id u)) w HI) as ([]&w1&E1&HI1&H1);
      [apply calm_recordFailedLogin|]. rewrite E1.
    destruct (refused (B:=TokenPair) (u_id u) (admin_login_failed u "FAILURE" "wrong_password")
      (Unauthorized "invalid_credentials") w1 HI1) as (w2&E2&H2); [apply calm_admin_login_failed|].
    exists w2. split; [exact E2|]. rewrite H2. apply H1. }
  rewrite run_bind.
  destruct (run_users (u_id u) (resetLoginAttempts cfg u) w HI) as ([]&w1&E1&HI1&[]);
    [apply calm_resetLoginAttempts|]. rewrite E1.
  unfold audit_admin_login, audit_user, emitAudit. rewrite run_bind, run_modify.
  set (w2 := push_event _ w1). unfold tokens_for.
  destruct (run_issueTokens cfg (u_id u) (u_phone u) (u_email u) (role_names u)
    (derivePermissions (u_userRoles u)) None None ms w2) as (tokens&w3&E3&s&Hs1&Hs2&Hs3&Hs4&Hs5&Hs6);
    [done| |].
  { intros n Hn. unfold w2. cbn in Hn |- *. rewrite uo_sessions. apply Hfresh. lia. }
  rewrite E3. exists tokens, w3. split; [done|]. exists s.
  unfold w2 in *. cbn in *. rewrite uo_sessions, uo_now in *. done.
Qed.

(** ** The demotion *)

(** What is left of the roles; who loses the last one becomes a user. *)
Definition left_roles (u : User) : list string :=
  let remaining := filter (λ name, name ≠ ADMIN) (role_names u) in
  if bool_decide (remaining = []) then [USER] else remaining.

Lemma role_names_filter u :
  ur_name <$> filter (λ r, ur_name r ≠ ADMIN) (u_userRoles u) =
  filter (λ name, name ≠ ADMIN) (role_names u).
Proof.
  unfold role_names. induction (u_userRoles u) as [|r rs IH]; [done|]. cbn.
  case_decide; [cbn; f_equal|]; exact IH.
Qed.

Lemma run_sessions_gone P w :
  ∃ n, run (session_deleteMany P) w = (Ok n, set_sessions (filter (λ '(_, s), P s = false)) w).
Proof. by eexists. Qed.

(** The transaction: the roles that are left, and no session of the account. *)
Lemma run_demote user w :
  aw_users w !! u_id user = Some user → ADMIN ∈ role_names user →
  (left_roles user = [USER] → is_Some (aw_roles w !! USER)) →
  ∃ n user' w', run (demote user
      (bool_decide (filter (λ name, name ≠ ADMIN) (role_names user) = []))) w = (Ok n, w') ∧
    aw_users w' = <[u_id user := user']> (aw_users w) ∧ role_names user' = left_roles user ∧
    aw_sessions w' = filter (λ '(_, s), session_of_user (u_id user) s = false) (aw_sessions w) ∧
    redis_of CacheConn w' = redis_of CacheConn w.
Proof.
  intros Hu Ha Hconf. unfold demote, tx. rewrite run_act_outcome.
  unfold userRole_delete, mem. rewrite run_bind, run_act_outcome, Hu.
  rewrite bool_decide_eq_true_2 by done. cbn [fst snd].
  set (u1 := user{{u_userRoles := _}}).
  assert (role_names u1 = filter (λ name, name ≠ ADMIN) (role_names user)) as Hr1
    by apply role_names_filter.
  unfold left_roles in *. cbv zeta in *. case_bool_decide as Hnil.
  - unfold role_by_name. destruct (Hconf eq_refl) as [ps Hps].
    rewrite run_bind, run_bind, run_gets. cbn [aw_roles set_users set_tables].
    rewrite Hps, run_bind, run_require. unfold userRole_create, mem. cbn [from_option].
    rewrite run_act_outcome. cbn [aw_users set_users set_tables].
    rewrite lookup_insert_eq, Hr1, Hnil.
    rewrite bool_decide_eq_false_2 by (by intros ?%not_elem_of_nil). cbn [fst snd].
    match goal with |- context [run (session_deleteMany ?P) ?x] =>
      destruct (run_sessions_gone P x) as [n ->] end.
    eexists n, _, _. split_and!; [done| |  |done|by destruct w].
    + cbn. by rewrite insert_insert_eq.
    + unfold role_names in *. rewrite Hnil in Hr1. cbn. rewrite fmap_app. change ((ur_name <$> u_userRoles u1) ++ [USER] = [USER]). by rewrite Hr1.
  - rewrite !run_bind, run_ret.
    match goal with |- context [run (session_deleteMany ?P) ?x] =>
      destruct (run_sessions_gone P x) as [n ->] end.
    by eexists n, u1, _.
Qed.

(** C39: A demotion takes effect at once. A Super Admin who gives a reason and demotes an
    administrator, neither themselves nor another Super Admin, leaves them all their
    roles but ADMIN (or the role USER, when nothing else is left), no session of theirs
    in the database and, with Redis connected, none in the cache; other accounts and their sessions are as
    they were. *)
Theorem demote_effect actor userId reason user w :
  SUPER_ADMIN ∈ cu_roles actor → (5 ≤ String.length (trim reason))%nat →
  aw_users w !! userId = Some user → u_id user = userId → userId ≠ cu_id actor →
  SUPER_ADMIN ∉ role_names user → ADMIN ∈ role_names user →
  (left_roles user = [USER] → is_Some (aw_roles w !! USER)) → redis_ok CacheConn w →
  ∃ w' user', run (demoteAdmin cfg actor userId reason) w = (Ok (left_roles user), w') ∧
    aw_users w' = <[userId := user']> (aw_users w) ∧ role_names user' = left_roles user ∧
    ADMIN ∉ role_names user' ∧
    (∀ id s, aw_sessions w' !! id = Some s ↔
       aw_sessions w !! id = Some s ∧ s_userId s ≠ userId) ∧
    forgets (c_keyPrefix cfg) userId w'.
Proof.
  intros Hs Hreason Hu <- Hself Hsuper Hadmin Hconf Hok.
  unfold demoteAdmin, assertSuperAdmin, mem. rewrite bool_decide_eq_true_2 by done.
  rewrite run_bind, run_ret. cbv zeta. rewrite run_bind, run_throw_if.
  rewrite (proj2 (Nat.ltb_ge _ _)) by done. unfold user_by_id.
  rewrite run_bind, run_gets, Hu, run_bind, run_require. cbn [from_option].
  rewrite bool_decide_eq_false_2 by done. rewrite bool_decide_eq_false_2 by done.
  rewrite bool_decide_eq_true_2 by done. cbn [negb]. rewrite run_bind.
  destruct (run_demote user w) as (n&user'&w1&E1&Hu1&Hr1&Hs1&Hd1); [done..|]. rewrite E1.
  rewrite run_bind.
  destruct (run_purgeUserCache (c_keyPrefix cfg) (u_id user) w1) as (w2&E2&_&Hf&_).
  { unfold redis_ok in *. by rewrite Hd1. }
  destruct (run_untouched (purgeUserCache (c_keyPrefix cfg) (u_id user)) w1)
    as ([]&w2'&E2'&[Su _ Ss _ _ _ _ _]); [apply calm_purgeUserCache, _|].
  rewrite E2 in E2'. injection E2' as <-. rewrite E2.
  unfold audit_done, audit_user, emitAudit. rewrite run_bind, run_modify, run_ret.
  eexists _, user'. split_and!; [done|cbn; by rewrite Su|done| | |exact Hf].
  - rewrite Hr1. unfold left_roles. cbv zeta. case_bool_decide; [|rewrite list_elem_of_filter; tauto].
    by intros ?%list_elem_of_singleton.
  - intros id s. cbn. rewrite Ss, Hs1, map_lookup_filter_Some. unfold session_of_user.
    by rewrite bool_decide_eq_false.
Qed.
End seq.

From S2P Require Import Prelude Interleave Js Redis Cache Roles TwoFactor.
From S2P Require Import AuthModel Credentials Auth PasswordPolicy AdminAuth Account.
From S2P Require Import AuthSafety AdminSafety AccountSafety AuthProps.
From coqutil Require Import Datatypes.RecordSetters.
Import DoubleBraceUpdate.

Open Scope Z_scope.

(** ** The claims *)

Section claims.
Context `{AuthLib} `{SecretBox} (cfg : AuthConfig).
Context (n0 : nat) (Ps : Session → Prop) (Pc : RecoveryCode → Prop) (Po : UserOtp → Prop)
  (Iu : gmap string User → Prop) (Ru : relation (gmap string User)) (Act : CurrentUser → Prop)
  `{!AuthPreds n0 cfg Ps Pc Po Iu Ru} `{!AdminPreds Act n0 cfg Po Iu Ru}.
Abbreviation I := (auth_inv n0 Ps Pc Po Iu).
Abbreviation R := (auth_rel n0 Ru).

Context (otp_id : string) (Hotp : old n0 otp_id).

Lemma once_set_password flow otp user hash w :
  once I R (otp_used otp_id) False (set_password flow otp user otp_id hash) w.
Proof.
  unfold set_password.
  apply (once_otp_tx cfg n0 Ps Pc Po Iu Ru otp_id Hotp); [|by apply ok_reject_code|done|].
  - intros t o Hu. unfold otp_claimable_code in Hu.
    by apply andb_prop in Hu as [[?%bool_decide_eq_true _]%andb_prop _].
  - apply safe_bind; [|intros u; safe_tac].
    eapply (ok_user_update_step n0 Ps Pc Po Iu Ru), (password_step Act n0 cfg Po Iu Ru).
Qed.

Lemma once_password_code flow otp password w :
  once I R (otp_used otp_id) False (verify_password_code cfg flow otp_id otp password) w.
Proof.
  unfold verify_password_code. apply once_after; [safe_tac|intros [[record user]|] w1].
  2: { apply once_after; [apply ok_audit_code|done]. }
  apply once_after; [safe_tac|intros t w2]. destruct (dead_code flow t record).
  { apply once_after; [apply ok_audit_code|done]. }
  destruct (negb _); [apply once_after; [apply ok_audit_code|done]|].
  destruct (_ <=? _); [apply once_after; [by eapply ok_otp_abuse|done]|].
  destruct (negb _).
  { unfold wrong_code.
    apply once_after; [apply (ok_otp_wear n0 cfg Ps Pc Po Iu Ru), worn_attempt|intros o w3].
    apply once_after; [apply ok_audit_code|intros _ w4].
    apply once_after; [destruct (_ <=? _); [by eapply ok_otp_abuse|safe_tac]|done]. }
  apply once_after; [apply ok_checkAdminPassword|intros _ w3].
  apply once_after; [safe_tac|intros hash w4].
  apply once_then; [apply once_set_password|intros _].
  apply safe_bind; [apply ok_audit_user|intros _].
  apply safe_bind; [apply ok_notice|intros _]. apply ok_success_email.
Qed.

(** The link of a promotion. *)
Lemma once_promote otp user mail hash role w :
  o_id otp = otp_id → Po otp → o_purpose otp = promotion_verification → o_usedAt otp = None →
  once I R (otp_used otp_id) False (promote otp user mail hash role) w.
Proof.
  intros Hid HP Hp Hu. unfold promote. rewrite Hid.
  apply (once_otp_tx cfg n0 Ps Pc Po Iu Ru otp_id Hotp); [|by apply ok_fail_promotion|done|].
  - intros t o Hc. unfold otp_claimable_link in Hc.
    by apply andb_prop in Hc as [?%bool_decide_eq_true _].
  - by eapply (ok_promote_rest Act n0 cfg).
Qed.

Lemma once_promoteUserVerify token password w :
  (∀ o, Po o → o_purpose o = promotion_verification →
    o_otpHash o = hashOpaqueToken cfg token other_token → o_id o = otp_id) →
  once I R (otp_used otp_id) False (promoteUserVerify cfg token password) w.
Proof.
  intros Hown. unfold promoteUserVerify. cbv zeta.
  eapply once_bind, rg_mono; [apply (rg_otp_by_hash n0 Ps Pc Po Iu Ru)| |done].
  intros [[otp user]|] w1 Hf; [destruct Hf as (HP&Hp&Hu&Hh)|].
  2: { apply once_after; [apply ok_audit_otp|done]. }
  destruct (promotionTargetEmail user) as [target|].
  2: { apply once_after; [apply ok_audit_otp|done]. }
  apply once_after; [apply ok_admin_role_by_name|intros [role|] w2].
  2: { apply once_after; [apply ok_audit_otp|done]. }
  apply once_after; [apply ok_checkAdminPassword|intros _ w3].
  apply once_after; [safe_tac|intros hash w4].
  apply once_then; [|intros _; apply safe_bind; [safe_tac|intros _; apply ok_audit_otp]].
  apply once_catch; [by apply once_promote; [apply Hown|..]|].
  intros e w5. destruct (isUniqueConstraintError e); [|done].
  apply once_after; [apply ok_audit_otp|done].
Qed.

(** The claim of an invitation: the account has a password, or is gone. *)
Context (uid : string).
Definition settled (w : AuthW) : Prop :=
  row_done (λ u, u_passwordHash u ≠ None) uid (aw_users w).

Lemma once_completeRegistration token password w :
  let hash := hashOpaqueToken cfg token other_token in
  (∀ m, Iu m → rows u_id (λ u, u_inviteTokenHash u = Some hash → u_id u = uid) m) →
  once I R settled False (adminCompleteRegistration cfg token password) w.
Proof.
  intros hash Hrows. unfold adminCompleteRegistration. cbv zeta.
  eapply once_bind, (rg_gets I R _ _ (λ _ _, False)). intros w1 _ HI.
  destruct (find_row _ _) as [u|] eqn:Hu; [|apply once_after; [apply ok_audit_registration|done]].
  apply find_row_Some in Hu as [Hh%bool_decide_eq_true [i Hi]].
  destruct (Hrows _ (ai_users _ _ _ _ _ _ HI) _ _ Hi) as [_ Huid]. specialize (Huid Hh).
  apply once_after; [safe_tac|intros t w2].
  destruct (match u_inviteTokenExpiresAt u with Some _ => _ | None => _ end);
    [apply once_after; [apply ok_audit_registration|done]|].
  destruct (truthy _); [apply once_after; [apply ok_audit_registration|done]|].
  apply once_after; [apply ok_checkAdminPassword|intros _ w3].
  apply once_after; [safe_tac|intros pass w4]. rewrite Huid. apply (once_claim I R settled).
  - apply (good_user_claim n0 Ps Pc Po Iu Ru), (registered_step Act n0 cfg Po Iu Ru).
  - intros w5 _. destruct (aw_users w5 !! uid) as [v|] eqn:Hv; [|by left].
    destruct (awaiting _ v) eqn:Ha; [right|by left].
    apply andb_prop in Ha as [Hp%bool_decide_eq_true _]. split.
    + intros Hd. by destruct (Hd _ Hv).
    + intros x Hx. cbn in Hx. rewrite lookup_insert_eq in Hx. by injection Hx as <-.
  - done.
  - intros n. destruct (n =? 0); [safe_tac|].
    apply safe_bind; [apply ok_audit_registration|intros _]. case_match; [|safe_tac].
    case_match; [safe_tac|]. by apply ok_issueTokens.
Qed.
End claims.

(** ** The theorems *)

Section props.
Context `{AuthLib} `{SecretBox} (cfg : AuthConfig).

(** C6: A one-time code is used at most once. Of all the concurrent requests that present the
    same verification, with whatever code, at most one succeeds, whichever of the seven
    endpoints that use codes up they go to: the verification of a signup, the reset and
    the change of a user's password, the reactivation of an account, the change of a
    phone number, the reset and the change of an administrator's password. (The links of
    e-mails are presented by a token instead of a verification: [promotion_once].) *)
Theorem one_time_code_once id ps w ps' w' :
  old (aw_draws w) id → well_keyed (λ _, True) (λ _, True) w → auth_pool cfg ps w ps' w' →
  at_most_one (λ p, presents_code cfg id p ∨
                    ∃ otp password, p = adminResetPassword cfg id otp password ∨
                      p = adminChangePasswordVerify cfg id otp password) ps ps'.
Proof.
  intros Hc Hw Hpool. eapply (pool_claims cfg (aw_draws w) (λ _, True) (λ _, True)
    (λ _, True) (λ _, True) (λ _ _, True) (λ _, True) auth_env (otp_used id));
    [by apply well_keyed_inv|intros w1 w2 HR; by apply (ar_otps _ _ _ _ HR)| |done
    |apply any_users|exact Hpool].
  intros p w1 [Hp|(otp&password&[-> | ->])];
    [by apply (once_presents cfg (aw_draws w) _ _ _ _ _ (λ _, True))|..];
    by eapply (once_password_code cfg (aw_draws w) _ _ _ _ _ (λ _, True)).
Qed.

(** No token that is drawn later has the hash of this one. *)
Definition unseen (n0 : nat) (token : string) : Prop :=
  ∀ n, (n0 ≤ n)%nat →
    hashOpaqueToken cfg (random_token n) other_token ≠ hashOpaqueToken cfg token other_token.

Definition own_link (id token : string) (o : UserOtp) : Prop :=
  o_purpose o = promotion_verification →
  o_otpHash o = hashOpaqueToken cfg token other_token → o_id o = id.
Lemma link_preds n0 id token :
  AuthPreds n0 cfg (λ _, True) (λ _, True) (own_link id token) (λ _, True) (λ _ _, True).
Proof.
  split; try done.
  - intros o o' (Hi&_&Hp&Hh&_) Ho. unfold own_link. rewrite Hi, Hp, Hh. exact Ho.
  - intros. by intros ?.
Qed.
Lemma link_admin_preds n0 id token :
  unseen n0 token →
  AdminPreds (λ _, True) n0 cfg (own_link id token) (λ _, True) (λ _ _, True).
Proof. intros Hn. split; try done. intros n i u p e t Hle _ _ _ Hh. by destruct (Hn n Hle). Qed.

(** A promotion link is followed at most once: of all the concurrent requests that
    present the same link, with whatever password, at most one succeeds. *)
Theorem promotion_once id token ps w ps' w' :
  old (aw_draws w) id → unseen (aw_draws w) token → well_keyed (λ _, True) (λ _, True) w →
  rows o_id (own_link id token) (aw_otps w) → auth_pool cfg ps w ps' w' →
  at_most_one (λ p, ∃ password, p = promoteUserVerify cfg token password) ps ps'.
Proof.
  intros Hc Hn (?&_&?&?) Hl Hpool.
  pose proof (link_preds (aw_draws w) id token).
  pose proof (link_admin_preds (aw_draws w) id token Hn).
  eapply (pool_claims cfg (aw_draws w) (λ _, True) (λ _, True)
    (own_link id token) (λ _, True) (λ _ _, True) (λ _, True) auth_env (otp_used id));
    [by split|intros w1 w2 HR; by apply (ar_otps _ _ _ _ HR)| |done|apply any_users|exact Hpool].
  intros p w1 (password&->). eapply (once_promoteUserVerify cfg (aw_draws w) _ _ _ _ _ (λ _, True)); [done|].
  intros o Ho. apply Ho.
Qed.

Definition own_invite (uid token : string) (u : User) : Prop :=
  u_inviteTokenHash u = Some (hashOpaqueToken cfg token other_token) → u_id u = uid.
Definition stays_settled (uid : string) (m m' : gmap string User) : Prop :=
  row_done (λ u, u_passwordHash u ≠ None) uid m → row_done (λ u, u_passwordHash u ≠ None) uid m'.
Abbreviation invited uid token := (rows u_id (own_invite uid token)).

Lemma invite_kept uid token m id u u' :
  m !! id = Some u → u_id u' = u_id u →
  (u_passwordHash u ≠ None → u_passwordHash u' ≠ None) →
  (own_invite uid token u → own_invite uid token u') →
  invited uid token m → invited uid token (<[id := u']> m) ∧ stays_settled uid m (<[id := u']> m).
Proof.
  intros Hu Hid Hp Ho HI. split; [by eapply rows_update|]. intros Hd. by eapply row_done_update.
Qed.
Lemma invite_preds n0 uid token :
  AuthPreds n0 cfg (λ _, True) (λ _, True) (λ _, True) (invited uid token) (stays_settled uid).
Proof.
  split; try done. intros m id u u' Hu (Hid&_&Hp&Hh) HI. apply (invite_kept uid token m id u u'); try done.
  - by rewrite Hp.
  - unfold own_invite. by rewrite Hh, Hid.
Qed.
Lemma invite_new_preds n0 uid token :
  old n0 uid → AccountPreds n0 (λ _, True) (invited uid token) (stays_settled uid).
Proof.
  intros Hc. split; [|done]. intros m id u Hd Hm Hid _ Hi HI. split.
  - apply rows_new; [done| |done]. unfold own_invite. by rewrite Hi.
  - intros Hd'. apply row_done_new; [exact (drawn_not_old n0 id uid Hd Hc)|done].
Qed.
Lemma invite_admin_preds n0 uid token :
  old n0 uid → unseen n0 token →
  AdminPreds (λ _, True) n0 cfg (λ _, True) (invited uid token) (stays_settled uid).
Proof.
  intros Hc Hn. split; try done.
  - intros m id u u' Hu [Hid _] Hp Hh HI. apply (invite_kept uid token m id u u'); try done.
    unfold own_invite. intros Ho. rewrite Hid. by destruct Hh as [-> | ->].
  - intros a n m id u u' _ _ Hle Hu [Hid _] Hp Hh HI. apply (invite_kept uid token m id u u'); try done.
    { by rewrite Hp. } unfold own_invite. rewrite Hh. intros _ [= Heq]. by destruct (Hn n Hle).
  - intros a m id u rs _ _ Hu HI. by apply (invite_kept uid token m id u).
  - intros a m id mail name rs _ _ Hd Hm HI. split; [by apply rows_new|].
    intros Hd'. apply row_done_new; [exact (drawn_not_old n0 id uid Hd Hc)|done].
  - intros a m id _ _ HI. pose proof (delete_subseteq m id).
    split; [by eapply rows_subseteq|]. intros Hd. by eapply row_done_subseteq.
  - intros o m id u rs _ _ _ Hu HI. by apply (invite_kept uid token m id u).
Qed.

(** The rest of the application takes no password away and copies no invitation. *)
Record invite_env (uid token : string) (w w' : AuthW) : Prop := {
  ie_env : auth_env w w';
  ie_invited : invited uid token (aw_users w) → invited uid token (aw_users w');
  ie_settled : stays_settled uid (aw_users w) (aw_users w');
}.

(** C12: An invitation is accepted at most once: of all the concurrent requests that present
    the same registration token, with whatever password, at most one sets a password and
    signs in. *)
Theorem registration_once uid token ps w ps' w' :
  old (aw_draws w) uid → unseen (aw_draws w) token → well_keyed (λ _, True) (λ _, True) w →
  rows u_id (own_invite uid token) (aw_users w) →
  pool_of cfg (λ _, True) (invite_env uid token) ps w ps' w' →
  at_most_one (λ p, ∃ password,
    p = no_result (adminCompleteRegistration cfg token password)) ps ps'.
Proof.
  intros Hc Hn (?&?&?&?) Hi Hpool.
  pose proof (invite_preds (aw_draws w) uid token).
  pose proof (invite_admin_preds (aw_draws w) uid token Hc Hn).
  pose proof (invite_new_preds (aw_draws w) uid token Hc).
  eapply (pool_claims cfg (aw_draws w) (λ _, True) (λ _, True) (λ _, True)
    (invited uid token) (stays_settled uid) (λ _, True) (invite_env uid token) (settled uid));
    [by split| | |by intros ?? []| |exact Hpool].
  - intros w1 w2 HR. pose proof (ar_users _ _ _ _ HR) as Hr.
    unfold settled. induction Hr as [|m1 m2 m3 H12 _ IH]; [done|]. intros Hs. by apply IH, H12.
  - intros p w1 (password&->). eapply once_then; [|intros; apply safe_mret].
    by eapply (once_completeRegistration cfg (aw_draws w) _ _ _ _ _ (λ _, True)).
  - intros w1 w2 [] HI. split; [auto|by apply rtc_once].
Qed.

(** ** Without a Super Admin *)

Definition staff (u : User) : Prop := hasAdminRole (role_names u) = true.
(** Whoever is an administrator was one, with the same roles. *)
Definition rights_kept (m m' : gmap string User) : Prop :=
  ∀ id u', m' !! id = Some u' → staff u' →
    ∃ u, m !! id = Some u ∧ u_userRoles u' = u_userRoles u.
#[local] Instance rights_kept_preorder : PreOrder rights_kept.
Proof.
  split; [by intros m id u'; eauto|]. intros m1 m2 m3 H12 H23 id u3 H3 Hs.
  destruct (H23 _ _ H3 Hs) as (u2&H2&E2). destruct (H12 _ u2 H2) as (u1&H1&E1).
  - unfold staff, role_names in *. by rewrite <- E2.
  - exists u1. by rewrite E2, E1.
Qed.
Lemma rights_update m id u u' :
  m !! id = Some u → u_userRoles u' = u_userRoles u → rights_kept m (<[id := u']> m).
Proof.
  intros Hu Hr i v. rewrite lookup_insert_Some. intros [[<- <-]|[_ Hv]] _; eauto.
Qed.

Definition closed_promotion (o : UserOtp) : Prop :=
  o_purpose o = promotion_verification → otp_spent o.
Lemma rights_preds n0 :
  AuthPreds n0 cfg (λ _, True) (λ _, True) closed_promotion (λ _, True) rights_kept.
Proof.
  split; try done.
  - intros o o' (_&_&Hp&_&Hs) Ho. unfold closed_promotion. rewrite Hp. auto.
  - intros. by intros ?.
  - intros m id u u' Hu (_&Hr&_) _. split; [done|]. by eapply rights_update.
Qed.
Lemma rights_new_preds n0 : AccountPreds n0 (λ _, True) (λ _, True) rights_kept.
Proof.
  split; [|done]. intros m id u _ _ _ Hr _ _. split; [done|]. intros i v.
  rewrite lookup_insert_Some. intros [[<- <-]|[_ Hv]] Hs; [|by eauto].
  unfold staff in Hs. by rewrite Hr in Hs.
Qed.
Lemma rights_admin_preds n0 :
  AdminPreds (λ a, ¬ is_super a) n0 cfg closed_promotion (λ _, True) rights_kept.
Proof.
  split; try by intros; exfalso; eauto.
  - intros n id u p e t _ _ [-> |[_ (a&Ha&Hs)]]; [by intros ?|by destruct (Ha Hs)].
  - intros m id u u' Hu [_ Hr] _ _ _. split; [done|]. by eapply rights_update.
  - intros o m id u rs Ho Hp Hu. by destruct (Ho Hp).
Qed.

Definition rights_env (w w' : AuthW) : Prop :=
  auth_env w w' ∧ rights_kept (aw_users w) (aw_users w').

(** C11: Nobody makes themselves an administrator. As long as no Super Admin is among those
    who send requests and no promotion link is waiting, however the requests of users
    and administrators interleave, whoever is an administrator afterwards was one
    before, with the same roles: no role is given, no administrator is created. *)
Theorem no_self_promotion ps w ps' w' :
  well_keyed (λ _, True) (λ _, True) w → rows o_id closed_promotion (aw_otps w) →
  pool_of cfg (λ a, ¬ is_super a) rights_env ps w ps' w' →
  rights_kept (aw_users w) (aw_users w').
Proof.
  intros (?&_&?&?) Ho [Hps Hrun].
  pose proof (rights_preds (aw_draws w)). pose proof (rights_admin_preds (aw_draws w)).
  pose proof (rights_new_preds (aw_draws w)).
  assert (auth_inv (aw_draws w) (λ _, True) (λ _, True) closed_promotion (λ _, True) w) as HI
    by by split.
  eapply pool_invariant in Hrun as [_ HR];
    [|apply auth_rel_preorder| |exact HI| ].
  - pose proof (ar_users _ _ _ _ HR) as Hr. clear -Hr. induction Hr as [|m1 m2 m3 H12 _ IH]; [done|]. by etrans.
  - intros w1 w2 HI1 [He Hk]. apply env_good; [done|done|]. split; [done|by apply rtc_once].
  - intros i p Hp. eapply Forall_lookup_1 in Hps; [|exact Hp].
    eapply (auth_handler_safe cfg (aw_draws w) _ _ _ _ _ (λ a, ¬ is_super a)); done.
Qed.
End props.
