(* ===== verification/AdminDemo.v ===== *)
(** * Administrators: a concrete world, witnesses and behaviours worth knowing

    A Super Admin, an administrator, an invited one and a user who is to be promoted. *)

From S2P Require Import Prelude Interleave Js Redis Cache CacheProps.
From S2P Require Import Roles TwoFactor AuthModel Credentials Auth.
From S2P Require Import PasswordPolicy AdminAuth AuthSafety AdminSafety AuthProps AuthSeq.
From S2P Require Import AdminProps.

Open Scope Z_scope.

Definition demo_actor (id : string) (roles : list string) : CurrentUser :=
  {| cu_id := id; cu_roles := roles; cu_permissions := [] |}.
Definition root : CurrentUser := demo_actor "root" [SUPER_ADMIN].
Definition admin : CurrentUser := demo_actor "admin1" [ADMIN].

Definition demo_account (id : string) (mail password pending invite : option string)
    (active verified : bool) (roles : list string) : User := {|
  u_id := id; u_name := Some "Hana"; u_phone := Some ("+25191122000" +:+ id); u_email := mail;
  u_isActive := active; u_isPhoneVerified := true; u_passwordHash := password;
  u_failedLoginAttempts := 0; u_lockedUntil := None; u_discreetModeEnabled := false;
  u_discreetModePasscodeHash := None;
  u_userRoles := map (λ name, {| ur_name := name; ur_permissions := [] |}) roles;
  u_isEmailVerified := verified; u_pendingEmail := pending; u_inviteTokenHash := invite;
  u_inviteTokenExpiresAt := Some 4000000; u_deletedAt := None; u_anonymizedAt := None;
  u_googleId := None; u_facebookId := None; u_appleId := None; u_twoFactorRequiredAt := None;
  u_pendingPhone := None |}.
Definition demo_root : User :=
  demo_account "root" (Some "root@ehte.org") (Some "bcrypt:root") None None true true [SUPER_ADMIN].
Definition demo_admin : User :=
  demo_account "admin1" (Some "admin@ehte.org") (Some "bcrypt:secret") None None true true [ADMIN].
Definition demo_invited : User :=
  demo_account "invitee" (Some "new@ehte.org") None None (Some "hmac:invite") false false [ADMIN].
Definition demo_candidate : User :=
  demo_account "user2" None None (Some "user@ehte.org") None true false [USER].

Definition demo_link (id userId hash : string) (purpose : UserOtpPurpose) (used : option Z)
    : UserOtp := {|
  o_id := id; o_userId := userId; o_purpose := purpose; o_channel := email; o_otpHash := hash;
  o_expiresAt := 4000000; o_attempts := 0; o_usedAt := used; o_createdAt := 2900000 |}.

Definition demo_staff (promoted : option Z) : AuthW := {|
  aw_users := {[ "root" := demo_root; "admin1" := demo_admin; "invitee" := demo_invited;
                 "user2" := demo_candidate ]};
  aw_otps := {[ "reset1" := demo_link "reset1" "admin1" "bcrypt:123456" password_reset None;
                "promo1" := demo_link "promo1" "user2" "hmac:promo" promotion_verification
                              promoted ]};
  aw_sessions := {[ "s1" := {| s_id := "s1"; s_userId := "admin1"; s_refreshToken := "hash";
     s_expiresAt := 4000000; s_revokedAt := None; s_ipAddress := None; s_userAgent := None;
     s_deviceLabel := None; s_lastActiveAt := None |} ]};
  aw_secrets := ∅; aw_codes := ∅; aw_challenges := ∅;
  aw_roles := {[ USER := []; ADMIN := ["REPORT_READ"] ]};
  aw_events := []; aw_delivered := []; aw_draws := 0; aw_ppm := []; aw_now := 3000000;
  aw_redis := fresh_redis; aw_secredis := fresh_redis; aw_cache := cache_init |}.

Definition demo_password : string := "Quiet-River-42!x".

Example demo_admin_steps :
  is_ok (run (adminRegister demo_config root {| ar_email := "third@ehte.org"; ar_name := "Sara";
    ar_roles := [ADMIN] |}) (demo_staff None)).1 = true ∧
  is_ok (run (adminCompleteRegistration demo_config "invite" demo_password) (demo_staff None)).1
    = true ∧
  is_ok (run (promoteUserVerify demo_config "promo" demo_password) (demo_staff None)).1 = true ∧
  is_ok (run (adminLoginByEmail demo_config "admin@ehte.org" "secret") (demo_staff None)).1 = true ∧
  is_ok (run (adminResetPassword demo_config "reset1" "123456" demo_password)
    (demo_staff None)).1 = true ∧
  (run (demoteAdmin demo_config root "admin1" "left us") (demo_staff None)).1 = Ok [USER].
Proof. repeat split; vm_compute; reflexivity. Qed.

(** ** Witnesses *)

Lemma demo_staff_keyed promoted : well_keyed (λ _, True) (λ _, True) (demo_staff promoted).
Proof.
  split_and!; intros id r; cbn; rewrite ?lookup_insert_Some, ?lookup_singleton_Some;
    naive_solver.
Qed.
Lemma demo_otps_all promoted (P : UserOtp → Prop) :
  P (demo_link "reset1" "admin1" "bcrypt:123456" password_reset None) →
  P (demo_link "promo1" "user2" "hmac:promo" promotion_verification promoted) →
  rows o_id P (aw_otps (demo_staff promoted)).
Proof.
  intros H1 H2 id o. cbn. rewrite lookup_insert_Some, lookup_singleton_Some. naive_solver.
Qed.
Lemma demo_users_all promoted (P : User → Prop) :
  P demo_root → P demo_admin → P demo_invited → P demo_candidate →
  rows u_id P (aw_users (demo_staff promoted)).
Proof.
  intros H1 H2 H3 H4 id u. cbn. rewrite !lookup_insert_Some, lookup_singleton_Some. naive_solver.
Qed.
Lemma demo_unseen n0 t : match t with Str "t" _ => False | _ => True end → unseen demo_config n0 t.
Proof. intros Ht n _. cbn. by destruct t as [|[[] [] [] [] [] [] [] []] t]. Qed.

Lemma one_time_code_once_witness :
  let p := adminResetPassword demo_config "reset1" "123456" demo_password in
  let w := demo_staff None in
  (∃ ps' w', auth_pool demo_config [p; p] w ps' w' ∧ ps' !! 0%nat = Some (Ret ())) ∧
  ∀ ps' w', auth_pool demo_config [p; p] w ps' w' →
    ps' !! 0%nat = Some (Ret ()) → ps' !! 1%nat ≠ Some (Ret ()).
Proof.
  intros p w. split; [apply demo_returns; [do 2 constructor|vm_compute; reflexivity]|].
  intros ps' w' Hp H0 H1.
  assert (0%nat = 1%nat) as [=].
  apply (one_time_code_once demo_config "reset1" [p; p] w ps' w') with p p;
    [by apply demo_old|apply demo_staff_keyed|done|done|done|by right; do 2 eexists; left..|done|done].
Defined.

Lemma promotion_once_witness :
  let p := promoteUserVerify demo_config "promo" demo_password in
  let w := demo_staff None in
  (∃ ps' w', auth_pool demo_config [p; p] w ps' w' ∧ ps' !! 0%nat = Some (Ret ())) ∧
  ∀ ps' w', auth_pool demo_config [p; p] w ps' w' →
    ps' !! 0%nat = Some (Ret ()) → ps' !! 1%nat ≠ Some (Ret ()).
Proof.
  intros p w. split; [apply demo_returns; [do 2 constructor|vm_compute; reflexivity]|].
  intros ps' w' Hp H0 H1.
  assert (0%nat = 1%nat) as [=].
  apply (promotion_once demo_config "promo1" "promo" [p; p] w ps' w') with p p;
    [by apply demo_old|by apply demo_unseen|apply demo_staff_keyed|by apply demo_otps_all
    |done|done|done|by eexists..|done|done].
Defined.

Lemma registration_once_witness :
  let p := no_result (adminCompleteRegistration demo_config "invite" demo_password) in
  let w := demo_staff None in
  let pool := pool_of demo_config (λ _, True) (invite_env demo_config "invitee" "invite") in
  (∃ ps' w', pool [p; p] w ps' w' ∧ ps' !! 0%nat = Some (Ret ())) ∧
  ∀ ps' w', pool [p; p] w ps' w' →
    ps' !! 0%nat = Some (Ret ()) → ps' !! 1%nat ≠ Some (Ret ()).
Proof.
  intros p w pool. split; [apply demo_returns_of; [do 2 constructor|vm_compute; reflexivity]|].
  intros ps' w' Hp H0 H1.
  assert (0%nat = 1%nat) as [=].
  apply (registration_once demo_config "invitee" "invite" [p; p] w ps' w') with p p;
    [by apply demo_old|by apply demo_unseen|apply demo_staff_keyed|by apply demo_users_all
    |done|done|done|by eexists..|done|done].
Defined.

(** The promotion of the candidate was cancelled; an administrator tries in vain to
    promote, and resets a password. *)
Lemma no_self_promotion_witness :
  let p := no_result (promoteUserInitiate demo_config admin "+251911223344" "me@ehte.org") in
  let q := promoteUserVerify demo_config "promo" demo_password in
  let r := adminResetPassword demo_config "reset1" "123456" demo_password in
  let w := demo_staff (Some 2950000) in
  ∃ ps' w', pool_of demo_config (λ a, ¬ is_super a) rights_env [p; q; r] w ps' w' ∧
    ps' !! 2%nat = Some (Ret ()) ∧ rights_kept (aw_users w) (aw_users w').
Proof.
  intros p q r w. destruct (run r w) as [o w'] eqn:Hrun.
  assert (o = Ok ()) as -> by (change (fst (o, w') = Ok ()); rewrite <- Hrun; vm_compute; reflexivity).
  exists (<[2%nat := Ret ()]> [p; q; r]), w'.
  assert (pool_of demo_config (λ a, ¬ is_super a) rights_env [p; q; r] w
    (<[2%nat := Ret ()]> [p; q; r]) w') as Hpool.
  { split; [|by eapply pool_run_ok].
    repeat constructor. unfold is_super. cbn. by rewrite list_elem_of_singleton. }
  split_and!; [exact Hpool|done|].
  eapply (no_self_promotion demo_config [p; q; r] w);
    [apply demo_staff_keyed|by apply demo_otps_all|exact Hpool].
Defined.

Lemma demo_staff_fresh promoted : fresh_sessions (demo_staff promoted).
Proof. intros n _. cbn. apply lookup_singleton_ne. intros Heq. by destruct n. Qed.

Lemma admin_login_exact_witness :
  let w := demo_staff None in
  (∃ tokens w', run (adminLoginByEmail demo_config "Admin@ehte.org" "secret") w =
     (Ok tokens, w') ∧ opened demo_config "admin1" tokens w w') ∧
  (∃ w', run (adminLoginByEmail demo_config "new@ehte.org" "secret") w =
     (Err (Unauthorized "invalid_credentials"), w') ∧ aw_sessions w' = aw_sessions w).
Proof.
  intros w.
  assert (Hk : rows u_id (λ _, True) (aw_users w)) by by apply demo_users_all.
  assert (Hms : parseDurationToMs (normalizeDurationString "7d") = Ok 604800000)
    by (vm_compute; reflexivity).
  assert (E1 : normalizeEmail "Admin@ehte.org" = Ok "admin@ehte.org") by (vm_compute; reflexivity).
  assert (E2 : normalizeEmail "new@ehte.org" = Ok "new@ehte.org") by (vm_compute; reflexivity).
  assert (F1 : find_row (λ u, bool_decide (u_email u = Some "admin@ehte.org")) (aw_users w) =
    Some demo_admin) by (vm_compute; reflexivity).
  assert (F2 : find_row (λ u, bool_decide (u_email u = Some "new@ehte.org")) (aw_users w) =
    Some demo_invited) by (vm_compute; reflexivity).
  split.
  - exact (admin_login_exact demo_config _ "secret" _ _ _ w E1 F1 Hk Hms (demo_staff_fresh None)).
  - exact (admin_login_exact demo_config _ "secret" _ _ _ w E2 F2 Hk Hms (demo_staff_fresh None)).
Defined.

Lemma demote_effect_witness :
  let w := demo_staff None in
  ∃ w' user', run (demoteAdmin demo_config root "admin1" "left us") w = (Ok [USER], w') ∧
    aw_users w' = <["admin1" := user']> (aw_users w) ∧ role_names user' = [USER] ∧
    ADMIN ∉ role_names user' ∧
    (∀ id s, aw_sessions w' !! id = Some s ↔
       aw_sessions w !! id = Some s ∧ s_userId s ≠ "admin1") ∧
    forgets (c_keyPrefix demo_config) "admin1" w'.
Proof.
  apply (demote_effect demo_config root "admin1" "left us" demo_admin (demo_staff None));
    [left|vm_compute; lia|reflexivity|reflexivity|done| |left|by eexists|done].
  cbn. rewrite list_elem_of_singleton. done.
Defined.

(** ** Behaviours worth knowing *)

(** An invitation is cancelled after a check, not on a condition: when the invited
    person completes the registration in between, an administrator who has just signed
    in is deleted. *)
Definition cancel : prog AuthW () := adminCancelRegistration root "new@ehte.org".
Definition complete : prog AuthW () :=
  no_result (adminCompleteRegistration demo_config "invite" demo_password).
Example cancelled_after_completion :
  ∃ w', rtc (pool_step (λ _ _, False)) ([cancel; complete], demo_staff None)
          ([Ret (); Ret ()], w') ∧ aw_users w' !! "invitee" = None.
Proof.
  pose (order := replicate 1 0%nat ++ replicate 30 1%nat ++ replicate 30 0%nat).
  pose proof (schedule_steps (λ _ _, False) order [cancel; complete] (demo_staff None)) as Hrun.
  destruct (schedule order _ _) as [ps' w'] eqn:E. exists w'.
  assert ((ps', aw_users w' !! "invitee") = ([Ret (); Ret ()], None)) as [= -> Hu].
  { change ps' with (ps', w').1. change w' with (ps', w').2 at 2. rewrite <- E. vm_compute. reflexivity. }
  by split.
Qed.

(** Two changes of one's address that cross: the first link is followed after the second
    address is written and before the first link is closed, and the second address, which
    nobody has confirmed, counts as verified. *)
Definition change_to (mail : string) : prog AuthW () :=
  adminChangeEmailInitiate demo_config admin mail.
Definition verify_first : prog AuthW () := adminChangeEmailVerify demo_config "tu".
Example unconfirmed_address_verified :
  let w := (run (change_to "first@ehte.org") (demo_staff None)).2 in
  ∃ w', rtc (pool_step (λ _ _, False)) ([change_to "second@ehte.org"; verify_first], w)
          ([Ret (); Ret ()], w') ∧
    (λ u, (u_email u, u_isEmailVerified u)) <$> aw_users w' !! "admin1" =
      Some (Some "second@ehte.org", true).
Proof.
  intros w. pose (order := replicate 3 0%nat ++ replicate 30 1%nat ++ replicate 30 0%nat).
  pose proof (schedule_steps (λ _ _, False) order [change_to "second@ehte.org"; verify_first] w)
    as Hrun.
  destruct (schedule order _ _) as [ps' w'] eqn:E. exists w'.
  assert ((ps', (λ u, (u_email u, u_isEmailVerified u)) <$> aw_users w' !! "admin1") =
    ([Ret (); Ret ()], Some (Some "second@ehte.org", true))) as [= -> Hu].
  { change ps' with (ps', w').1. change w' with (ps', w').2 at 2. rewrite <- E.
    vm_compute. reflexivity. }
  by split.
Qed.

(** A password that is reset with a code deletes the sessions and leaves Redis alone: the
    authorizations cached of these sessions go on. ([promoteUserVerify] and [demoteAdmin]
    purge them.) *)
Example reset_leaves_the_cache :
  let w := demo_staff None in
  let w' := (run (adminResetPassword demo_config "reset1" "123456" demo_password) w).2 in
  aw_sessions w' = ∅ ∧ aw_redis w' = aw_redis w.
Proof. split; vm_compute; reflexivity. Qed.

(** The login asks for no second factor, whatever is enrolled. *)
Example admin_login_without_second_factor :
  is_ok (run (adminLoginByEmail demo_config "admin@ehte.org" "secret")
    (set_secrets (λ _, {[ "admin1" := demo_secret ]}) (demo_staff None))).1 = true.
Proof. vm_compute. reflexivity. Qed.

(** Whether an account is locked or inactive is told before the password is compared. *)
Example refusal_tells_the_account :
  (run (adminLoginByEmail demo_config "admin@ehte.org" "guess")
    (set_users (λ m, <["admin1" := demo_account "admin1" (Some "admin@ehte.org")
       (Some "bcrypt:secret") None None false true [ADMIN]]> m) (demo_staff None))).1 =
  Err (Unauthorized "account_inactive").
Proof. vm_compute. reflexivity. Qed.
