(* ===== verification/AccountProps.v ===== *)
(** * Accounts of users: what the operations do

    The way from a signup to a password login, what a code for a new password decides and
    changes, the last way to sign in; a concrete world, the witnesses and behaviours worth
    knowing. *)

From S2P Require Import Prelude Interleave Js Redis Cache CacheProps Roles TwoFactor.
From S2P Require Import AuthModel Credentials Auth PasswordPolicy AdminAuth Account.
From S2P Require Import AuthSafety AdminSafety AccountSafety AuthProps AuthSeq AdminProps AdminDemo.
From coqutil Require Import Datatypes.RecordSetters.
Import DoubleBraceUpdate.

Open Scope Z_scope.

Lemma find_row_only {A} (P : A → bool) (m : gmap string A) i x :
  m !! i = Some x → P x = true → (∀ j y, m !! j = Some y → P y = true → y = x) →
  find_row P m = Some x.
Proof.
  intros Hx HP Hu. destruct (find_row P m) as [y|] eqn:E.
  - apply find_row_Some in E as [Hy [j Hj]]. f_equal. by eapply Hu.
  - by rewrite (proj1 (find_row_None P m) E i x Hx) in HP.
Qed.

(** The same tables at another time. *)
Definition at_time (t : Z) (w : AuthW) : AuthW := w{{aw_now := t}}.

Section seq.
Context `{AuthLib} `{SecretBox} (cfg : AuthConfig).

Definition uuid_injective : Prop := ∀ n m, uuid n = uuid m → n = m.
(** What bcrypt hashes is not empty, and compares with what it is the hash of. *)
Definition bcrypt_sound : Prop :=
  ∀ data rounds n, bcrypt_compare data (bcrypt_hash data rounds n) = true ∧
    truthy (bcrypt_hash data rounds n) = true.

(** Not one of the identifiers drawn from now on is in use. *)
Record fresh (w : AuthW) : Prop := {
  fr_sessions : fresh_sessions w;
  fr_users n : (aw_draws w ≤ n)%nat → aw_users w !! uuid n = None;
  fr_otps n : (aw_draws w ≤ n)%nat → aw_otps w !! uuid n = None;
}.

(** The session of new tokens has the next identifier; nothing else changes. *)
Lemma run_issueTokens_next userId phone mail roles permissions ms w :
  parseDurationToMs (normalizeDurationString (c_jwt_refreshExpiresIn cfg)) = Ok ms →
  fresh_sessions w → uuid_injective →
  ∃ tokens w', run (issueTokens cfg userId phone mail roles permissions None None) w =
    (Ok tokens, w') ∧ opened cfg userId tokens w w' ∧ fresh_sessions w' ∧
    aw_users w' = aw_users w ∧ aw_now w' = aw_now w.
Proof.
  intros Hms Hfresh Hinj. unfold issueTokens, randomUUID, now.
  rewrite run_bind, run_act, run_bind, run_gets, run_bind, run_act, run_bind, run_gets.
  cbv zeta. rewrite Hms, run_bind. cbn [throw_outcome]. rewrite run_Ret.
  unfold session_create. rewrite run_bind, run_act_outcome. unfold draw. cbn [fst snd].
  cbv zeta. cbn [s_id].
  rewrite bool_decide_eq_false_2 by (cbn; rewrite Hfresh by done; intros []; done).
  match goal with |- context [insert _ ?x] => set (s := x) end.
  cbn [fst snd]. rewrite run_ret. eexists _, _. split; [reflexivity|]. split_and!; try done.
  - exists s. split_and!; [by apply Hfresh|done..|]. rewrite Hms. cbn. f_equal. lia.
  - intros n Hn. cbn in Hn |- *. rewrite lookup_insert_ne; [apply Hfresh; lia|].
    intros Heq%Hinj. lia.
Qed.

(** ** From the signup to the password login *)

(** The account that a signup makes, and its code. *)
Definition signed_up (name : option string) (p password : string) (perms : list string)
    (w : AuthW) : User :=
  signup_user name p (bcrypt_hash password (c_bcryptSaltRounds cfg) (aw_draws w))
    {| ur_name := USER; ur_permissions := perms |} (uuid (S (aw_draws w))).

Lemma unique_signup name p hash role id (users : gmap string User) :
  (∀ i u, users !! i = Some u → u_phone u ≠ Some p) →
  unique_columns (signup_user name p hash role id) users = true.
Proof.
  intros Hp. apply bool_decide_eq_true_2. intros i u Hu. right. unfold same_value. cbn.
  split_and!; try done. apply bool_decide_eq_false_2. intros Heq. by apply (Hp i u).
Qed.

(** The transaction of the signup, and the state it leaves. *)
Lemma run_signup_tx name p hash role w :
  fresh w → uuid_injective → (∀ i u, aw_users w !! i = Some u → u_phone u ≠ Some p) →
  let k := aw_draws w in
  let user := signup_user name p hash role (uuid k) in
  let otp := str_of_Z (random_otp (S k)) in
  ∃ o w', run (signup_tx cfg name p hash role) w = (Ok (o_id o, otp, user), w') ∧
    aw_users w' = <[uuid k := user]> (aw_users w) ∧ aw_otps w' !! o_id o = Some o ∧
    o_userId o = uuid k ∧ o_purpose o = phone_verification ∧ o_usedAt o = None ∧
    o_attempts o = 0 ∧ o_expiresAt o = aw_now w + c_otp_expiresInMinutes cfg * 60 * 1000 ∧
    o_otpHash o = bcrypt_hash otp (c_bcryptOtpSaltRounds cfg) (S (S k)) ∧
    aw_sessions w' = aw_sessions w ∧ aw_events w' = aw_events w ∧
    aw_delivered w' = aw_delivered w ∧ (k ≤ aw_draws w')%nat ∧ aw_now w' = aw_now w.
Proof.
  intros [_ Hu Ho] Hinj Hp k user otp. unfold signup_tx, tx. rewrite run_act_outcome.
  unfold user_create, randomUUID. rewrite run_bind, run_bind, run_act, run_act_outcome.
  unfold draw. cbn [fst snd aw_users set_rest]. fold k user.
  rewrite (Hu k) by done. rewrite bool_decide_eq_false_2 by (by intros [? ?]).
  assert (unique_columns user (aw_users w) = true) as -> by by apply unique_signup. cbn [negb orb].
  unfold generateOtp, bcryptHash, now. rewrite run_bind, run_act. unfold draw.
  cbn [fst snd aw_draws set_users set_tables set_rest].
  rewrite run_bind, run_act. unfold draw.
  cbn [fst snd aw_draws set_users set_tables set_rest].
  rewrite run_bind, run_gets. unfold sms_code_create, randomUUID.
  rewrite run_bind, run_bind, run_act, run_act_outcome. unfold draw.
  cbn [fst snd aw_draws aw_otps aw_users aw_now set_users set_tables set_rest]. cbv zeta.
  fold k. rewrite (Ho (S (S (S k)))) by (unfold k; lia).
  rewrite bool_decide_eq_false_2 by (by intros [? ?]).
  change (u_id user) with (uuid k). rewrite lookup_insert_eq, bool_decide_eq_true_2 by done.
  rewrite run_ret. eexists _, _. split; [reflexivity|]. cbn.
  rewrite lookup_insert_eq. split_and!; (done || lia).
Qed.

(** A code that is good for the endpoint: nothing is written. *)
Lemma run_check_code_ok flow record user otp w :
  o_purpose record = cf_purpose flow → o_usedAt record = None → aw_now w ≤ o_expiresAt record →
  o_attempts record < c_otp_maxAttempts cfg → bcrypt_compare otp (o_otpHash record) = true →
  run (check_code cfg flow record user otp) w = (Ok (), w).
Proof.
  intros Hp Hu Ht Ha Hc. unfold check_code, now. cbv zeta. rewrite Hp, Hu, Hc.
  rewrite bool_decide_eq_true_2, bool_decide_eq_false_2 by (done || by intros [? ?]).
  cbn [negb]. rewrite run_bind, run_gets.
  rewrite (proj2 (Z.ltb_ge _ _)), (proj2 (Z.leb_gt _ _)) by lia. by rewrite run_ret.
Qed.

(** The transaction that uses a code up. *)
Lemma run_spend_code {A} flow record user id (k : prog AuthW A) a w w' :
  aw_otps w !! id = Some record → otp_claimable cfg (aw_now w) record = true →
  run k (set_otps (insert id (upd_used (aw_now w) record)) w) = (Ok a, w') →
  run (spend_code cfg flow record user id k) w = (Ok a, w').
Proof.
  intros Ho Hc Hk. unfold spend_code, tx, otp_claim.
  rewrite run_act_outcome, run_bind, run_act, Ho, Hc. cbn [fst snd Z.eqb].
  by rewrite Hk.
Qed.

Lemma normalized_phone phone p :
  normalizePhoneNumber phone = Ok p → requirePhone (Some p) = mret p.
Proof. intros (_&Hlen&_)%phone_canonical. by destruct p. Qed.

Lemma run_signup name phone p password perms w :
  normalizePhoneNumber phone = Ok p →
  find_row (λ u, bool_decide (u_phone u = Some p)) (aw_users w) = None →
  aw_roles w !! USER = Some perms →
  checkPassword password {| pc_minLength := c_passwordMinLength cfg; pc_personal := [p] |} = None →
  fresh w → uuid_injective →
  let user := signed_up name p password perms w in
  ∃ o otp w1, run (signup cfg name phone password) w = (Ok (o_id o), w1) ∧
    aw_users w1 = <[u_id user := user]> (aw_users w) ∧ aw_otps w1 !! o_id o = Some o ∧
    o_userId o = u_id user ∧ o_purpose o = phone_verification ∧ o_usedAt o = None ∧
    o_attempts o = 0 ∧ o_expiresAt o = aw_now w + c_otp_expiresInMinutes cfg * 60 * 1000 ∧
    (∃ n, o_otpHash o = bcrypt_hash otp (c_bcryptOtpSaltRounds cfg) n) ∧
    aw_sessions w1 = aw_sessions w ∧ (aw_draws w < aw_draws w1)%nat ∧ aw_now w1 = aw_now w ∧
    (hd true (aw_delivered w) = true →
     SmsSent p (renderOtpSms (c_appName cfg) otp (c_otp_expiresInMinutes cfg)
       (Some phone_verification)) ∈ aw_events w1).
Proof.
  intros Hp Hnone Hrole Hpass [Hf1 Hf2 Hf3] Hinj user.
  unfold signup, normalizePhoneOrThrow, user_by_phone, role_by_name. rewrite Hp.
  rewrite run_bind, run_throw_outcome, run_bind, run_gets, Hnone, run_bind, run_gets, Hrole.
  unfold checkUserPassword, userPasswordMinLength, assertStrongPassword, omap. cbn [list_omap id].
  rewrite Hpass, run_bind. cbn [throw_outcome]. rewrite run_Ret.
  unfold hashUserPassword, bcryptHash. rewrite run_bind, run_act. cbn [fst snd].
  set (w0 := (draw w).2). set (hash := bcrypt_hash password _ _).
  destruct (run_signup_tx name p hash {| ur_name := USER; ur_permissions := perms |} w0)
    as (o&w1&E1&Hu1&Ho1&Ho2&Ho3&Ho4&Ho5&Ho6&Ho7&Hs1&_&Hd1&Hk1&Hn1).
  { split; intros n Hn; unfold w0, draw in *; cbn in *; [apply Hf1|apply Hf2|apply Hf3]; lia. }
  { done. }
  { intros i u Hu Hq. apply (proj1 (find_row_None _ _) Hnone) in Hu.
    by apply bool_decide_eq_false_1 in Hu. }
  rewrite run_bind, run_catch, E1. cbn [u_phone signup_user].
  change (u_phone _) with (Some p). rewrite (normalized_phone phone p Hp).
  match goal with |- context [mret p ≫= ?g] => change (mret p ≫= g) with (g p) end.
  rewrite run_bind, run_attempt. cbv beta. unfold sendSms, send. rewrite run_act_outcome.
  cbv zeta. rewrite Hd1. change (aw_delivered w0) with (aw_delivered w).
  exists o, (str_of_Z (random_otp (S (aw_draws w0)))).
  change (aw_now w0) with (aw_now w) in *. change (aw_sessions w0) with (aw_sessions w) in *.
  change (aw_users w0) with (aw_users w) in *.
  assert (aw_draws w < aw_draws w1)%nat by (unfold w0, draw in Hk1; cbn in Hk1; lia).
  unfold audit_account, emitAudit. destruct (hd true (aw_delivered w));
    rewrite run_bind, run_modify, run_ret;
    (eexists; split; [reflexivity|]; split_and!; try done; try by eexists).
  intros _. cbn. right. by left.
Qed.

(** A good code of a signup verifies the phone and opens a session. *)
Lemma run_verifySignupOtp_ok phone p o user otp ms w :
  normalizePhoneNumber phone = Ok p → aw_otps w !! o_id o = Some o →
  aw_users w !! u_id user = Some user → o_userId o = u_id user → u_phone user = Some p →
  o_purpose o = phone_verification → o_usedAt o = None →
  o_attempts o < c_otp_maxAttempts cfg → aw_now w < o_expiresAt o →
  bcrypt_compare otp (o_otpHash o) = true →
  parseDurationToMs (normalizeDurationString (c_jwt_refreshExpiresIn cfg)) = Ok ms →
  fresh_sessions w → uuid_injective →
  ∃ tokens w', run (verifySignupOtp cfg phone (o_id o) otp) w = (Ok tokens, w') ∧
    opened cfg (u_id user) tokens w w' ∧ fresh_sessions w' ∧
    aw_users w' = <[u_id user := user{{u_isPhoneVerified := true}}]> (aw_users w).
Proof.
  intros Hp Ho Hu Ho1 Hup Ho2 Ho3 Ho4 Ho5 Hc Hms Hfs Hinj.
  unfold verifySignupOtp, normalizePhoneOrThrow. rewrite Hp, run_bind, run_throw_outcome.
  unfold otp_with_user. rewrite run_bind, run_gets, Ho, Ho1, Hu, Hup, bool_decide_eq_true_2 by done.
  cbn [negb]. rewrite run_bind, run_check_code_ok by (done || lia). rewrite run_bind.
  set (user' := user{{u_isPhoneVerified := true}}).
  set (w2 := set_otps (insert (o_id o) (upd_used (aw_now w) o)) w).
  assert (E2 : run (user_update (u_id user) (λ _ u, u{{u_isPhoneVerified := true}}) ;; mret ()) w2 =
    (Ok (), set_users (insert (u_id user) user') w2)).
  { by rewrite run_bind, (run_user_update _ _ w2 user). }
  erewrite run_spend_code; [|done| |exact E2].
  2: { unfold otp_claimable. rewrite Ho3, bool_decide_eq_true_2 by done.
       by rewrite !(proj2 (Z.ltb_lt _ _)) by lia. }
  unfold emitAudit. rewrite run_bind, run_modify. set (w3 := push_event _ _).
  destruct (run_issueTokens_next (u_id user) (Some p) None (role_names user)
    (derivePermissions (u_userRoles user)) ms w3) as (tokens&w4&E4&Hop&Hf4&Hu4&_); [done..|].
  exists tokens, w4. by split_and!.
Qed.

(** C24: Whoever signs up can sign in. For a phone that nobody has and a password that the
    policy takes, the signup sends a code; the code, presented with the phone before it
    expires, opens a session of the new account; and from then on the phone and the
    password open another. *)
Theorem signup_to_login name phone p password perms ms t t' w :
  normalizePhoneNumber phone = Ok p →
  find_row (λ u, bool_decide (u_phone u = Some p)) (aw_users w) = None →
  aw_roles w !! USER = Some perms →
  checkPassword password {| pc_minLength := c_passwordMinLength cfg; pc_personal := [p] |} = None →
  parseDurationToMs (normalizeDurationString (c_jwt_refreshExpiresIn cfg)) = Ok ms →
  rows u_id (λ _, True) (aw_users w) → fresh w → uuid_injective → bcrypt_sound →
  0 < c_otp_maxAttempts cfg →
  aw_now w ≤ t < aw_now w + c_otp_expiresInMinutes cfg * 60 * 1000 →
  hd true (aw_delivered w) = true →
  let uid := u_id (signed_up name p password perms w) in
  ∃ id otp w1, run (signup cfg name phone password) w = (Ok id, w1) ∧
    SmsSent p (renderOtpSms (c_appName cfg) otp (c_otp_expiresInMinutes cfg)
      (Some phone_verification)) ∈ aw_events w1 ∧
    ∃ tokens w2, run (verifySignupOtp cfg phone id otp) (at_time t w1) = (Ok tokens, w2) ∧
      opened cfg uid tokens (at_time t w1) w2 ∧
      ∃ tokens' w3, run (login cfg phone password) (at_time t' w2) = (Ok (LoggedIn tokens'), w3) ∧
        opened cfg uid tokens' (at_time t' w2) w3.
Proof.
  intros Hp Hnone Hrole Hpass Hms Hrows Hfresh Hinj Hb Hmax Ht Hsent uid.
  destruct (run_signup name phone p password perms w)
    as (o&otp&w1&E1&Hu1&Ho&Ho1&Ho2&Ho3&Ho4&Ho5&[n Ho6]&Hs1&Hd1&Hn1&Hsms); [done..|].
  set (user := signed_up name p password perms w) in *.
  exists (o_id o), otp, w1. split; [done|]. split; [by apply Hsms|].
  destruct (run_verifySignupOtp_ok phone p o user otp ms (at_time t w1))
    as (tokens&w2&E2&Hop&Hf2&Hu2); try done.
  { change (aw_users w1 !! u_id user = Some user). by rewrite Hu1, lookup_insert_eq. }
  { lia. }
  { change (t < o_expiresAt o). lia. }
  { rewrite Ho6. apply Hb. }
  { intros k Hk. change (aw_draws w1 ≤ k)%nat in Hk. change (aw_sessions w1 !! uuid k = None).
    rewrite Hs1. apply (fr_sessions _ Hfresh). lia. }
  exists tokens, w2. split_and!; [done|exact Hop|].
  set (user' := user{{u_isPhoneVerified := true}}) in *.
  change (aw_users (at_time t w1)) with (aw_users w1) in Hu2. rewrite Hu1, insert_insert_eq in Hu2.
  assert (Hfind : find_row (λ u, bool_decide (u_phone u = Some p)) (aw_users w2) = Some user').
  { rewrite Hu2. apply (find_row_only _ _ (u_id user)); [apply lookup_insert_eq|by apply bool_decide_eq_true_2|].
    intros j y. rewrite lookup_insert_Some. intros [[_ ->]|[_ Hj]]; [done|].
    apply (proj1 (find_row_None _ _) Hnone) in Hj. by rewrite Hj. }
  assert (Hl : login_refusal user' password t' = None).
  { destruct (Hb password (c_bcryptSaltRounds cfg) (aw_draws w)) as [Hc Ht'].
    unfold login_refusal.
    change (u_passwordHash user') with (Some (bcrypt_hash password (c_bcryptSaltRounds cfg) (aw_draws w))).
    destruct (bcrypt_hash password _ _); [done|]. by rewrite Hc. }
  pose proof (run_login cfg phone password p user' ms (at_time t' w2) Hp Hfind) as Hd.
  change (aw_now (at_time t' w2)) with t' in Hd. rewrite Hl in Hd. apply Hd; try done.
  change (rows u_id (λ _, True) (aw_users w2)). rewrite Hu2. by apply rows_new.
Qed.

(** ** A code for a new password *)

(** No session, password or role is other than it was. *)
Record unharmed (w w' : AuthW) : Prop := {
  uh_sessions : aw_sessions w' = aw_sessions w;
  uh_users id u' : aw_users w' !! id = Some u' →
    ∃ u, aw_users w !! id = Some u ∧ u_passwordHash u' = u_passwordHash u ∧
      u_userRoles u' = u_userRoles u;
  uh_now : aw_now w' = aw_now w;
}.
#[local] Instance unharmed_preorder : PreOrder unharmed.
Proof.
  split; [by intros w; split; eauto|]. intros w1 w2 w3 [Hs1 Hu1 Hn1] [Hs2 Hu2 Hn2].
  split; [by etrans| |by etrans]. intros id u3 H3. destruct (Hu2 _ _ H3) as (u2&H2&?&?).
  destruct (Hu1 _ _ H2) as (u1&?&?&?). exists u1. by split_and!; [|etrans..].
Qed.
Lemma same_unharmed w w' :
  aw_sessions w' = aw_sessions w → aw_users w' = aw_users w → aw_now w' = aw_now w →
  unharmed w w'.
Proof. intros Hs Hu Hn. split; [done| |done]. rewrite Hu. eauto. Qed.
#[local] Instance unharmed_outside : OutsideGood (λ _, True) unharmed.
Proof.
  split; [apply _|intros [] r w _|intros cs w _|intros w _|intros w _];
    (split; [done|by apply same_unharmed]).
Qed.
Abbreviation harmless := (safe (λ _, True) unharmed).
Lemma harmless_emitAudit a : harmless (emitAudit a).
Proof. apply safe_modify. intros w _. split; [done|by apply same_unharmed]. Qed.
Lemma harmless_user_update id upd :
  (∀ t u, u_passwordHash (upd t u) = u_passwordHash u ∧ u_userRoles (upd t u) = u_userRoles u) →
  harmless (user_update id upd).
Proof.
  intros Hu. apply safe_act_outcome. intros w _. destruct (aw_users w !! id) as [u|] eqn:E; [|done].
  split; [done|]. split; [done| |done]. intros i v. cbn. rewrite lookup_insert_Some.
  intros [[<- <-]|[_ Hv]]; [|by eauto]. exists u. destruct (Hu (aw_now w) u) as [-> ->]. by split_and!.
Qed.
Lemma harmless_otp_update id upd : harmless (otp_update id upd).
Proof.
  apply safe_act_outcome. intros w _. destruct (aw_otps w !! id); [|done].
  split; [done|by apply same_unharmed].
Qed.
Lemma harmless_lock id : harmless (lockAccountForOtpAbuse cfg id).
Proof.
  apply safe_bind; [by apply harmless_user_update|intros u].
  apply calm_safe, calm_resetFailedLoginAttempts, _.
Qed.
Lemma harmless_now : harmless now.
Proof. apply (safe_gets (λ _, True) unharmed). Qed.
Hint Resolve harmless_emitAudit harmless_otp_update harmless_lock harmless_now unharmed_preorder : safe.
Lemma harmless_refuse {A} a b c d e f : harmless (refuse_code (A:=A) a b c d e f).
Proof. unfold refuse_code, emitOtpRejected. safe_tac. Qed.
Hint Resolve harmless_refuse : safe.
Lemma harmless_check_code flow record user otp : harmless (check_code cfg flow record user otp).
Proof. unfold check_code, emitOtpRejected, emitOtpLockout. safe_tac. Qed.

Definition invalid_code : exn := BadRequest "invalid_or_expired_otp".
(** Why a code is refused, in the order of the checks. *)
Definition code_refusal (flow : CodeFlow) (record : UserOtp) (otp : string) (t : Z)
    : option exn :=
  if negb (bool_decide (o_purpose record = cf_purpose flow)) then Some invalid_code
  else if bool_decide (is_Some (o_usedAt record)) then Some invalid_code
  else if o_expiresAt record <? t then Some invalid_code
  else if c_otp_maxAttempts cfg <=? o_attempts record
  then Some (BadRequest "too_many_otp_attempts")
  else if negb (bcrypt_compare otp (o_otpHash record)) then Some invalid_code
  else None.
(** And why a new password is: the code, the policy, and a code that expires at this very
    instant, which is checked again when it is used up. *)
Definition password_refusal (flow : CodeFlow) (record : UserOtp) (user : User)
    (otp newPassword : string) (t : Z) : option exn :=
  match code_refusal flow record otp t with
  | Some e => Some e
  | None =>
      match checkPassword newPassword
              {| pc_minLength := c_passwordMinLength cfg; pc_personal := omap id [u_phone user] |} with
      | Some reason => Some (BadRequest (reason_name reason))
      | None => if otp_claimable cfg t record then None else Some invalid_code
      end
  end.

Lemma run_lock_throw {B} user (p : prog AuthW ()) (e : exn) w :
  aw_users w !! u_id user = Some user → (∀ w, (run p w).1 = Ok ()) →
  (run (lockAccountForOtpAbuse cfg (u_id user) ;; p ;; @Throw AuthW B e) w).1 = Err e.
Proof.
  intros Hu Hp. unfold lockAccountForOtpAbuse. rewrite run_bind, run_bind.
  rewrite (run_user_update _ _ w user) by done.
  match goal with |- context [run (resetFailedLoginAttempts ?a ?b ?c) ?x] =>
    destruct (run_untouched (resetFailedLoginAttempts a b c) x) as ([]&w1&E1&_);
    [apply calm_resetFailedLoginAttempts, _|rewrite E1] end.
  rewrite run_bind. specialize (Hp w1). destruct (run p w1) as [[[]|] w2]; [done|done].
Qed.

Lemma run_check_code flow record user otp w :
  aw_otps w !! o_id record = Some record → aw_users w !! u_id user = Some user →
  match code_refusal flow record otp (aw_now w) with
  | Some e => (run (check_code cfg flow record user otp) w).1 = Err e
  | None => run (check_code cfg flow record user otp) w = (Ok (), w)
  end.
Proof.
  intros Ho Hu. unfold code_refusal, check_code, now. cbv zeta.
  destruct (negb (bool_decide (_ = _))); [done|]. case_bool_decide; [done|].
  rewrite run_bind, run_gets. destruct (_ <? _); [done|].
  destruct (_ <=? o_attempts record); [by apply run_lock_throw|].
  destruct (negb _); [|done]. unfold otp_update. rewrite run_bind, run_act_outcome, Ho.
  set (w1 := set_otps _ w).
  destruct (_ <=? _); [|done]. rewrite run_bind.
  pose proof (run_lock_throw (B:=()) user (emitOtpLockout (upd_otp_attempts record) user)
    invalid_code w1 Hu) as Hx. rewrite run_bind in Hx. rewrite run_bind.
  destruct (run (lockAccountForOtpAbuse cfg (u_id user)) w1) as [[[]|] w2];
    rewrite ?run_bind in Hx; by apply Hx.
Qed.

(** C37: A code for a new password decides by its checks, and changes one account. For the
    code of a user who is no administrator, of a reset and of a change alike, the request
    is refused with the first refusal of [password_refusal], and then no session, password
    or role is other than it was. Otherwise the account of the code, and no other, has the
    new password's hash, its sessions are gone from the database, where those of others
    stay, and, with Redis connected, from the cache, and the code is used. *)
Theorem password_by_code_exact flow verificationId otp newPassword record user w :
  aw_otps w !! verificationId = Some record → o_id record = verificationId →
  aw_users w !! o_userId record = Some user → u_id user = o_userId record →
  hasAdminRole (role_names user) = false → redis_ok CacheConn w →
  match password_refusal flow record user otp newPassword (aw_now w) with
  | Some e => ∃ w', run (password_by_code cfg flow verificationId otp newPassword) w = (Err e, w') ∧
                unharmed w w'
  | None => ∃ w' n,
      run (password_by_code cfg flow verificationId otp newPassword) w = (Ok (), w') ∧
      aw_users w' = <[u_id user :=
        upd_password (bcrypt_hash newPassword (c_bcryptSaltRounds cfg) n) user]> (aw_users w) ∧
      (∀ id s, aw_sessions w' !! id = Some s ↔
         aw_sessions w !! id = Some s ∧ s_userId s ≠ u_id user) ∧
      aw_otps w' !! verificationId = Some (upd_used (aw_now w) record) ∧
      forgets (c_keyPrefix cfg) (u_id user) w'
  end.
Proof.
  intros Ho Hid Hu Huid _ Hok. rewrite <- Huid in Hu. unfold password_by_code, otp_with_user.
  rewrite run_bind, run_gets, Ho, <- Huid, Hu, run_bind.
  pose proof (run_check_code flow record user otp w) as Hc. rewrite Hid in Hc. specialize (Hc Ho Hu).
  pose proof (rg_run (λ _, True) unharmed _ _ _ w I (harmless_check_code flow record user otp w))
    as (_&Hharm&_).
  unfold password_refusal. destruct (code_refusal flow record otp (aw_now w)) as [e|].
  { destruct (run (check_code _ _ _ _ _) w) as [r w1]. cbn in Hc. subst r. by exists w1. }
  clear Hharm. rewrite Hc, run_bind. unfold checkUserPassword, userPasswordMinLength, assertStrongPassword.
  destruct (checkPassword _ _) as [reason|]; [by exists w|]. cbn [throw_outcome]. rewrite run_Ret.
  unfold hashUserPassword, bcryptHash. rewrite run_bind, run_act. cbn [fst snd].
  set (hash := bcrypt_hash _ _ _). set (w0 := (draw w).2). rewrite run_bind.
  destruct (otp_claimable cfg (aw_now w) record) eqn:Hclaim.
  2: { unfold change_password, spend_code, tx, otp_claim. rewrite run_act_outcome, run_bind, run_act.
       change (aw_otps w0) with (aw_otps w). rewrite Ho. change (aw_now w0) with (aw_now w).
       rewrite Hclaim. cbn [fst snd Z.eqb]. unfold refuse_code, emitOtpRejected, emitAudit.
       rewrite run_bind, run_modify, run_Throw. eexists. split; [done|]. by apply same_unharmed. }
  set (w1 := set_otps (insert verificationId (upd_used (aw_now w) record)) w0).
  set (w2 := set_users (insert (u_id user) (upd_password hash user)) w1).
  destruct (run_sessions_gone (session_of_user (u_id user)) w2) as [k Ek].
  assert (E2 : run (user_update (u_id user) (λ _, upd_password hash) ;;
      session_deleteMany (session_of_user (u_id user))) w1 =
    (Ok k, set_sessions (filter (λ '(_, s), session_of_user (u_id user) s = false)) w2))
    by (by rewrite run_bind, (run_user_update _ _ w1 user)).
  set (w3 := set_sessions _ w2) in *.
  unfold change_password. rewrite (run_spend_code flow record user verificationId _ k w0 w3);
    [|done..]. rewrite run_bind.
  destruct (run_purgeUserCache (c_keyPrefix cfg) (u_id user) w3) as (w4&E4&_&Hf&_); [done|].
  destruct (run_untouched (purgeUserCache (c_keyPrefix cfg) (u_id user)) w3)
    as ([]&w4'&E4'&[Su So Ss _ _ _ _ _]); [apply calm_purgeUserCache, _|].
  rewrite E4 in E4'. injection E4' as <-. rewrite E4.
  unfold audit_account, emitAudit. rewrite run_bind, run_modify, run_modify.
  eexists _, (aw_draws w). split_and!; [reflexivity|by cbn; rewrite Su| | |exact Hf].
  - intros i s. cbn. rewrite Ss. unfold w3. cbn. rewrite map_lookup_filter_Some.
    unfold session_of_user. by rewrite bool_decide_eq_false.
  - cbn. rewrite So. unfold w3, w2, w1. cbn. by rewrite lookup_insert_eq.
Qed.

(** ** The last way to sign in *)

Definition can_sign_in (u : User) : Prop :=
  hasPasswordLogin u = true ∨ ∃ p, truthy (default "" (socialColumn p u)) = true.
Definition unlink_refusal (u : User) (p : SocialProvider) : option exn :=
  if negb (truthy (default "" (socialColumn p u)))
  then Some (NotFound "social_account_not_linked")
  else if bool_decide (other_providers p u = []) && negb (hasPasswordLogin u)
  then Some (BadRequest "cannot_unlink_last_sign_in_method")
  else None.

Lemma other_way u p : unlink_refusal u p = None → can_sign_in (socialData p None u).
Proof.
  unfold unlink_refusal. destruct (negb _); [done|]. case_bool_decide as Ho; cbn [andb].
  - destruct (hasPasswordLogin u) eqn:Hp; [|done]. intros _. left. by destruct p.
  - intros _. right. unfold other_providers in Ho.
    destruct (filter _ _) as [|q qs] eqn:Hq; [done|].
    assert (Hin : q ∈ q :: qs) by left. rewrite <- Hq, list_elem_of_filter in Hin.
    destruct Hin as [[Hne Hl] _]. exists q. by destruct p, q.
Qed.

(** Unlinking never takes the last way to sign in. On an account of its own a request to
    unlink a provider is refused when the provider is not linked or is the last way in,
    and then no account changes; otherwise the provider is
    gone from this account, nothing else of any account changes, and a phone with a
    password or another provider is left to sign in with. *)
Theorem unlink_keeps_a_way user p u w :
  aw_users w !! cu_id user = Some u →
  match unlink_refusal u p with
  | Some e => ∃ w', run (unlinkSocial cfg user p) w = (Err e, w') ∧ aw_users w' = aw_users w
  | None => ∃ w', run (unlinkSocial cfg user p) w = (Ok (), w') ∧
      aw_users w' = <[cu_id user := socialData p None u]> (aw_users w) ∧
      socialColumn p (socialData p None u) = None ∧ can_sign_in (socialData p None u)
  end.
Proof.
  intros Hu. pose proof (other_way u p) as Hway. unfold unlink_refusal in *.
  unfold unlinkSocial, loadUserForSecurity, user_by_id.
  rewrite run_bind, run_bind, run_gets, Hu, run_require. cbn [from_option].
  rewrite run_bind, run_throw_if. destruct (negb (truthy _)); [by exists w|].
  destruct (_ && _); [unfold emitSecurityAudit, emitAudit; by eexists|].
  rewrite run_bind, (run_user_update _ _ w u) by done. rewrite run_bind.
  set (w1 := set_users _ w).
  destruct (run_untouched (purgeUserCache (c_keyPrefix cfg) (cu_id user)) w1)
    as ([]&w2&E2&[Su _ _ _ _ _ _ _]); [apply calm_purgeUserCache, _|]. rewrite E2.
  unfold emitSecurityAudit, emitAudit. rewrite run_modify. eexists. split; [done|].
  split_and!; [by cbn; rewrite Su|by destruct p|by apply Hway].
Qed.
End seq.

(** ** A concrete world *)

Definition sign_up (password : string) (w : AuthW) : outcome string * AuthW :=
  run (signup demo_config (Some "Sara") "0911999999" password) w.
Definition demo_empty : AuthW := set_users (λ _, ∅) (demo_auth true None).

Example demo_account_steps :
  let '(id, w) := sign_up "quiet-river-42" demo_empty in
  id = Ok "uuuuu" ∧
  is_ok (run (verifySignupOtp demo_config "0911999999" "uuuuu" "123456") w).1 = true ∧
  (run (login demo_config "0911999999" "quiet-river-42") w).1 = Ok (RequiresVerification "uuuuu").
Proof. vm_compute. repeat split; reflexivity. Qed.

(** The change of a phone, and the code a second time; then the account is closed. *)
Definition demo_me : CurrentUser :=
  {| cu_id := "user1"; cu_roles := [USER]; cu_permissions := [] |}.
Example demo_own_account_steps :
  let '(id, w) := run (changePhoneInitiate demo_config demo_me "0911999999") (demo_auth true None) in
  let '(r, w) := run (changePhoneVerify demo_config demo_me "uuu" "123456") w in
  let '(again, w) := run (changePhoneVerify demo_config demo_me "uuu" "123456") w in
  let '(closed, w) := run (deactivateMe demo_config demo_me) w in
  (id, r, again, closed) =
    (Ok "uuu", Ok (), Err (BadRequest "invalid_or_expired_otp"), Ok ()) ∧
  ((λ u, (u_phone u, u_pendingPhone u, u_isActive u)) <$> aw_users w !! "user1") =
    Some (Some "+251911999999", None, false) ∧
  aw_sessions w = ∅.
Proof. vm_compute. repeat split; reflexivity. Qed.

(** ** Witnesses *)

Lemma demo_uuid_injective : uuid_injective.
Proof.
  intros n. induction n as [|n IH]; intros [|m] Heq; [done|by destruct m|by destruct n|].
  f_equal. apply IH. by injection Heq.
Qed.
Lemma demo_bcrypt_sound : bcrypt_sound.
Proof. intros data rounds n. split; [by apply bool_decide_eq_true_2|done]. Qed.
Lemma demo_fresh : fresh demo_empty.
Proof.
  split; intros n _; [|done|]; apply lookup_singleton_ne; intros Heq; by destruct n.
Qed.

Lemma signup_to_login_witness :
  ∃ id otp w1, run (signup demo_config (Some "Sara") "0911999999" "quiet-river-42") demo_empty =
      (Ok id, w1) ∧
    SmsSent "+251911999999" (renderOtpSms "Ehte" otp 10 (Some phone_verification)) ∈ aw_events w1 ∧
    ∃ tokens w2, run (verifySignupOtp demo_config "0911999999" id otp) (at_time 3500000 w1) =
        (Ok tokens, w2) ∧ opened demo_config "uu" tokens (at_time 3500000 w1) w2 ∧
      ∃ tokens' w3, run (login demo_config "0911999999" "quiet-river-42") (at_time 9000000 w2) =
          (Ok (LoggedIn tokens'), w3) ∧ opened demo_config "uu" tokens' (at_time 9000000 w2) w3.
Proof.
  assert (E : u_id (signed_up demo_config (Some "Sara") "+251911999999" "quiet-river-42"
    ["REPORT_CREATE"] demo_empty) = "uu") by (vm_compute; reflexivity).
  rewrite <- E. apply (signup_to_login demo_config (Some "Sara") "0911999999" "+251911999999" "quiet-river-42"
    ["REPORT_CREATE"] 604800000 3500000 9000000 demo_empty);
    [vm_compute; reflexivity|vm_compute; reflexivity|vm_compute; reflexivity
    |vm_compute; reflexivity|vm_compute; reflexivity|by intros i r|apply demo_fresh
    |apply demo_uuid_injective|apply demo_bcrypt_sound|done|vm_compute; by split|done].
Defined.

(** The code of an administrator's reset, and of a user's. *)
Definition demo_reset : UserOtp := demo_link "otp9" "user1" "bcrypt:123456" password_reset None.
Definition demo_forgot : AuthW := set_otps (insert "otp9" demo_reset) (demo_auth true None).
Lemma password_by_code_exact_witness :
  (∃ w' n, run (resetPassword demo_config "otp9" "123456" "quiet-river-42") demo_forgot =
      (Ok (), w') ∧
    aw_users w' = <["user1" :=
      upd_password (bcrypt_hash "quiet-river-42" 10 n) (demo_user true)]> (aw_users demo_forgot) ∧
    (∀ id s, aw_sessions w' !! id = Some s ↔
       aw_sessions demo_forgot !! id = Some s ∧ s_userId s ≠ "user1") ∧
    aw_otps w' !! "otp9" = Some (upd_used 3000000 demo_reset) ∧ forgets "ehte:" "user1" w') ∧
  ∃ w', run (resetPassword demo_config "otp9" "123456" "+251911223344") demo_forgot =
      (Err (BadRequest "password_contains_personal_info"), w') ∧ unharmed demo_forgot w'.
Proof.
  assert (H1 : password_refusal demo_config reset_code demo_reset (demo_user true) "123456"
    "quiet-river-42" 3000000 = None) by (vm_compute; reflexivity).
  assert (H2 : password_refusal demo_config reset_code demo_reset (demo_user true) "123456"
    "+251911223344" 3000000 = Some (BadRequest "password_contains_personal_info"))
    by (vm_compute; reflexivity).
  split.
  - pose proof (password_by_code_exact demo_config reset_code "otp9" "123456" "quiet-river-42"
      demo_reset (demo_user true) demo_forgot eq_refl eq_refl eq_refl eq_refl eq_refl
      (conj eq_refl eq_refl))
      as Hx. change (aw_now demo_forgot) with 3000000 in Hx. rewrite H1 in Hx. exact Hx.
  - pose proof (password_by_code_exact demo_config reset_code "otp9" "123456" "+251911223344"
      demo_reset (demo_user true) demo_forgot eq_refl eq_refl eq_refl eq_refl eq_refl
      (conj eq_refl eq_refl))
      as Hx. change (aw_now demo_forgot) with 3000000 in Hx. rewrite H2 in Hx. exact Hx.
Defined.

Definition as_user1 : CurrentUser := demo_actor "user1" [USER].
(** An account that signs in through two providers and has no password. *)
Definition demo_linked : User :=
  (demo_user true){{u_passwordHash := None}}{{u_googleId := Some "g1"}}{{u_facebookId := Some "f1"}}.
Definition demo_social (u : User) : AuthW :=
  set_users (λ _, {[ "user1" := u ]}) (demo_auth true None).

Lemma unlink_keeps_a_way_witness :
  (∃ w', run (unlinkSocial demo_config as_user1 google) (demo_social demo_linked) = (Ok (), w') ∧
    aw_users w' = <["user1" := socialData google None demo_linked]> (aw_users (demo_social demo_linked)) ∧
    u_googleId (socialData google None demo_linked) = None ∧
    can_sign_in (socialData google None demo_linked)) ∧
  ∃ w', run (unlinkSocial demo_config as_user1 google)
      (demo_social (socialData facebook None demo_linked)) =
      (Err (BadRequest "cannot_unlink_last_sign_in_method"), w') ∧
    aw_users w' = aw_users (demo_social (socialData facebook None demo_linked)).
Proof.
  split.
  - exact (unlink_keeps_a_way demo_config as_user1 google demo_linked (demo_social demo_linked) eq_refl).
  - exact (unlink_keeps_a_way demo_config as_user1 google (socialData facebook None demo_linked)
      (demo_social (socialData facebook None demo_linked)) eq_refl).
Defined.

(** ** Behaviours worth knowing *)

Definition outcome_or (r : outcome string) : string := match r with Ok s => s | Err _ => "" end.
(** Somebody signs up with another person's phone; when its owner signs up, the first
    password stays, and the owner's own code makes the account one that the stranger can
    sign in to and the owner cannot. *)
Example stranger_sets_the_password :
  let w1 := (sign_up "strangers-choice" demo_empty).2 in
  let '(id, w2) := sign_up "owners-secret-9" (at_time 3100000 w1) in
  let w3 := (run (verifySignupOtp demo_config "0911999999" (outcome_or id) "123456") w2).2 in
  match (run (login demo_config "0911999999" "strangers-choice") w3).1 with
  | Ok (LoggedIn _) => True | _ => False end ∧
  (run (login demo_config "0911999999" "owners-secret-9") w3).1 =
    Err (Unauthorized "invalid_credentials").
Proof. vm_compute. split; [exact I|reflexivity]. Qed.

(** A code that a newer one replaced counts as used: the signup is reported as verified,
    and another code for it refused, although the phone never was verified. *)
Example replaced_code_reported_verified :
  let w1 := (sign_up "quiet-river-42" demo_empty).2 in
  let '(id, w2) := run (resendSignupOtp demo_config "uuuuu") (at_time 3100000 w1) in
  is_ok id = true ∧
  (run (signupStatus "uuuuu") w2).1 = Ok StatusVerified ∧
  (run (resendSignupOtp demo_config "uuuuu") w2).1 = Err (BadRequest "phone_already_verified") ∧
  u_isPhoneVerified <$> aw_users w2 !! "uu" = Some false.
Proof. vm_compute. repeat split; reflexivity. Qed.

(** The code of an administrator's reset is also taken by the endpoint of users, under the
    policy of users: eight characters do, where the one of administrators asks for
    twelve. ([verifyResetOtp] turns administrators away; [resetPassword] does not.) *)
Example admin_code_under_user_policy :
  (run (adminResetPassword demo_config "reset1" "123456" "quiet-tw") (demo_staff None)).1 =
    Err (BadRequest "password_too_short") ∧
  (run (resetPassword demo_config "reset1" "123456" "quiet-tw") (demo_staff None)).1 = Ok ().
Proof. vm_compute. split; reflexivity. Qed.

(** Two providers are unlinked at the same time, each of them while the other still
    counts: no way to sign in is left. *)
Definition unlink (p : SocialProvider) : prog AuthW () := unlinkSocial demo_config as_user1 p.
Example unlinked_twice :
  ∃ w', rtc (pool_step (λ _ _, False)) ([unlink google; unlink facebook], demo_social demo_linked)
          ([Ret (); Ret ()], w') ∧
    (λ u, (u_passwordHash u, u_googleId u, u_facebookId u, u_appleId u)) <$> aw_users w' !! "user1" =
      Some (None, None, None, None).
Proof.
  pose (order := replicate 1 0%nat ++ replicate 40 1%nat ++ replicate 40 0%nat).
  pose proof (schedule_steps (λ _ _, False) order [unlink google; unlink facebook]
    (demo_social demo_linked)) as Hrun.
  destruct (schedule order _ _) as [ps' w'] eqn:E. exists w'.
  assert ((ps', (λ u, (u_passwordHash u, u_googleId u, u_facebookId u, u_appleId u)) <$>
      aw_users w' !! "user1") = ([Ret (); Ret ()], Some (None, None, None, None))) as [= -> Hu].
  { change ps' with (ps', w').1. change w' with (ps', w').2 at 2. rewrite <- E. vm_compute. reflexivity. }
  by split.
Qed.

(** A setup that has read the row before a verification enables it writes a new secret
    over it afterwards: the person has been given recovery codes, and the second factor
    is off. *)
Definition demo_pending : AuthW :=
  set_secrets (λ _, {[ "user1" := {| ts_method := TOTP; ts_secretEncrypted := "iv.tag.AD7RABY";
    ts_isEnabled := false; ts_lastUsedStep := None |} ]}) (demo_auth true None).
Definition set_up : prog AuthW () := no_result (twoFactorSetup demo_config as_user1 None).
Definition enable : prog AuthW () := no_result (twoFactorVerify demo_config as_user1 "000101").
Example setup_turns_it_off :
  ∃ w', rtc (pool_step (λ _ _, False)) ([set_up; enable], demo_pending) ([Ret (); Ret ()], w') ∧
    ts_isEnabled <$> aw_secrets w' !! "user1" = Some false ∧ size (aw_codes w') = 10%nat.
Proof.
  pose (order := replicate 3 0%nat ++ replicate 60 1%nat ++ replicate 40 0%nat).
  pose proof (schedule_steps (λ _ _, False) order [set_up; enable] demo_pending) as Hrun.
  destruct (schedule order _ _) as [ps' w'] eqn:E. exists w'.
  assert ((ps', ts_isEnabled <$> aw_secrets w' !! "user1", size (aw_codes w')) =
    ([Ret (); Ret ()], Some false, 10%nat)) as [= -> Hs Hc].
  { change ps' with (ps', w').1. change w' with (ps', w').2 at 2 3. rewrite <- E. vm_compute. reflexivity. }
  by split_and!.
Qed.

(** A sign-in through a provider that is refused, because the account is one of staff, has
    linked the provider to it all the same. *)
Definition demo_profile : SocialProfile := {|
  sp_providerId := "g7"; sp_email := "admin@ehte.org"; sp_emailVerified := true;
  sp_name := None |}.
Example refused_and_linked :
  let '(r, w') := run (socialAuth demo_config google demo_profile) (demo_staff None) in
  r = Err (Unauthorized "use_admin_login") ∧
  (u_googleId <$> aw_users w' !! "admin1") = Some (Some "g7").
Proof. vm_compute. split; reflexivity. Qed.
