(* ===== verification/ReportModel.v ===== *)
(** * Reports: tables and statements

    The tables behind the report workflow (prisma/schema/report.prisma), what is
    emitted, the world of the report handlers and the statements they make. *)

From S2P Require Import Prelude Js Roles.
From coqutil Require Import Datatypes.RecordSetters.
Import DoubleBraceUpdate.

Open Scope Z_scope.

(** ** Enumerations *)

Inductive ReportStatus :=
| PENDING | RECEIVED | UNDER_REVIEW | ASSIGNED | IN_PROGRESS | ESCALATED | CLOSED
| UNABLE_TO_VERIFY | REJECTED.

Inductive ReportPriority := LOW | MEDIUM | HIGH | CRITICAL.

Inductive ReportSensitivity := STANDARD | RESTRICTED | CHILD_INVOLVED.

Inductive ReportResolutionOutcome := RESOLVED | NO_ACTION | REFERRED | UNFOUNDED.

Inductive ReportIntegrityFlag := SPAM | FALSE_REPORT | MALICIOUS_FALSE_REPORT.

Inductive ReportCategory :=
| HARASSMENT | ABUSE | FRAUD | THREAT | DISCRIMINATION | SAFETY_CONCERN | OTHER.

Inductive ReportLinkRecordType :=
| REPORT | MISSING_PERSON | VICTIM_PROFILE | INFORMATION_SUBMISSION | POST.

Inductive ReportContactMethod := IN_APP | EMAIL | PHONE | SMS | NO_CONTACT.

Inductive ReportEvidenceKind := PHOTO | VIDEO | AUDIO | PDF | DOCUMENT | OTHER_KIND.

#[export] Instance ReportStatus_eq_dec : EqDecision ReportStatus.
Proof. solve_decision. Defined.
#[export] Instance ReportPriority_eq_dec : EqDecision ReportPriority.
Proof. solve_decision. Defined.
#[export] Instance ReportSensitivity_eq_dec : EqDecision ReportSensitivity.
Proof. solve_decision. Defined.
#[export] Instance ReportIntegrityFlag_eq_dec : EqDecision ReportIntegrityFlag.
Proof. solve_decision. Defined.
#[export] Instance ReportCategory_eq_dec : EqDecision ReportCategory.
Proof. solve_decision. Defined.
#[export] Instance ReportLinkRecordType_eq_dec : EqDecision ReportLinkRecordType.
Proof. solve_decision. Defined.

Definition status_name (s : ReportStatus) : string :=
  match s with
  | PENDING => "PENDING" | RECEIVED => "RECEIVED" | UNDER_REVIEW => "UNDER_REVIEW"
  | ASSIGNED => "ASSIGNED" | IN_PROGRESS => "IN_PROGRESS" | ESCALATED => "ESCALATED"
  | CLOSED => "CLOSED" | UNABLE_TO_VERIFY => "UNABLE_TO_VERIFY" | REJECTED => "REJECTED"
  end.
Definition priority_name (p : ReportPriority) : string :=
  match p with LOW => "LOW" | MEDIUM => "MEDIUM" | HIGH => "HIGH" | CRITICAL => "CRITICAL" end.
Definition sensitivity_name (s : ReportSensitivity) : string :=
  match s with
  | STANDARD => "STANDARD" | RESTRICTED => "RESTRICTED" | CHILD_INVOLVED => "CHILD_INVOLVED"
  end.
Definition outcome_name (o : ReportResolutionOutcome) : string :=
  match o with
  | RESOLVED => "RESOLVED" | NO_ACTION => "NO_ACTION" | REFERRED => "REFERRED"
  | UNFOUNDED => "UNFOUNDED"
  end.
Definition flag_name (f : ReportIntegrityFlag) : string :=
  match f with
  | SPAM => "SPAM" | FALSE_REPORT => "FALSE_REPORT"
  | MALICIOUS_FALSE_REPORT => "MALICIOUS_FALSE_REPORT"
  end.
Definition category_name (c : ReportCategory) : string :=
  match c with
  | HARASSMENT => "HARASSMENT" | ABUSE => "ABUSE" | FRAUD => "FRAUD" | THREAT => "THREAT"
  | DISCRIMINATION => "DISCRIMINATION" | SAFETY_CONCERN => "SAFETY_CONCERN" | OTHER => "OTHER"
  end.
Definition record_type_name (t : ReportLinkRecordType) : string :=
  match t with
  | REPORT => "REPORT" | MISSING_PERSON => "MISSING_PERSON" | VICTIM_PROFILE => "VICTIM_PROFILE"
  | INFORMATION_SUBMISSION => "INFORMATION_SUBMISSION" | POST => "POST"
  end.

(** ** Tables *)

(** The six media columns. *)
Record MediaBearing := {
  m_photo : list string;
  m_video : list string;
  m_audio : list string;
  m_pdf : list string;
  m_document : list string;
  m_other : list string;
}.

(** The location columns; coordinates are kept as the text they came in. *)
Record Gps := {
  g_latitude : string;
  g_longitude : string;
  g_accuracyMeters : option string;
  g_capturedAt : Z;
  g_address : option string;
  g_verified : bool;
}.

(** Columns that only change together are grouped. *)
Record Resolution := {
  rs_closedAt : option Z;
  rs_outcome : option ReportResolutionOutcome;
  rs_summary : option string;
  rs_resolvedById : option string;
}.
Record Mark := { mk_at : option Z; mk_byId : option string; mk_reason : option string }.
Definition no_mark : Mark := {| mk_at := None; mk_byId := None; mk_reason := None |}.

Record Report := {
  rp_id : string;
  rp_userId : option string;
  rp_caseReference : string;
  rp_category : ReportCategory;
  rp_description : string;
  rp_location : option string;
  rp_incidentAt : option Z;
  rp_media : MediaBearing;
  rp_mediaTotalBytes : Z;
  rp_idempotencyKey : option string;
  rp_status : ReportStatus;
  rp_priority : ReportPriority;
  rp_sensitivity : ReportSensitivity;
  rp_assignedToId : option string;
  rp_assignedTeamId : option string;
  rp_isAnonymous : bool;
  rp_gps : option Gps;
  rp_urgentFlaggedAt : option Z;
  rp_urgentDetails : option string;
  rp_ownerSuspendedAt : option Z;
  rp_resolution : Resolution;
  rp_integrityFlag : option ReportIntegrityFlag;
  rp_integrity : Mark;              (* integrityFlagAt, integrityById, integrityReason *)
  rp_archive : Mark;                (* archivedAt, archivedById, archiveReason *)
  rp_deletion : Mark;               (* deletedAt, deletedById, deleteReason *)
  rp_legalHold : bool;
  rp_hold : Mark;                   (* legalHoldAt, legalHoldById, legalHoldReason *)
  rp_mergedIntoId : option string;
  rp_mergedAt : option Z;
  rp_dueAt : option Z;
  rp_createdAt : Z;
  rp_updatedAt : Z;
  rp_lastActivityAt : Z;
  rp_reporterUpdatedAt : Z;
  rp_reporterSeenAt : option Z;
  rp_updatesMuted : bool;
  rp_updatesMutedUntil : option Z;
  rp_contactMethod : ReportContactMethod;
  rp_contactWindow : option string;
  rp_clientCreatedAt : option Z;
}.

Record RepUser := { ru_id : string; ru_name : option string; ru_phone : option string;
                    ru_roles : list string }.

Record AccessGrant := {
  ag_id : string;
  ag_reportId : string;
  ag_adminId : string;
  ag_grantedById : option string;
  ag_reason : string;
  ag_expiresAt : option Z;
  ag_revokedAt : option Z;
  ag_revokedById : option string;
  ag_createdAt : Z;
}.

(** The JSON snapshot of a merge. *)
Record MergeSnapshot := {
  sn_previousStatus : ReportStatus;
  sn_previousResolution : Resolution;
  sn_closedByMerge : bool;
  sn_repointedChildIds : list string;
}.
Record ReportMerge := {
  mg_id : string;
  mg_source : string;
  mg_target : string;
  mg_mergedById : option string;
  mg_reason : option string;
  mg_snapshot : MergeSnapshot;
  mg_createdAt : Z;
  mg_unmergedAt : option Z;
  mg_unmergedById : option string;
  mg_unmergeReason : option string;
}.

Record StatusChange := {
  sc_reportId : string;
  sc_from : option ReportStatus;
  sc_to : ReportStatus;
  sc_changedById : option string;
  sc_note : option string;
  sc_at : Z;
}.
Record AssignmentChange := {
  as_reportId : string;
  as_assignedToId : option string;
  as_assignedById : option string;
  as_note : option string;
}.
Record Escalation := {
  es_id : string;
  es_reportId : string;
  es_escalatedById : option string;
  es_reason : string;
  es_createdAt : Z;
  es_deEscalatedAt : option Z;
  es_deEscalatedById : option string;
  es_deEscalationReason : option string;
}.
Record Revision := { rv_reportId : string; rv_editedById : string;
                     rv_changes : list (string * json) }.
Record Link := {
  lk_id : string;
  lk_reportId : string;
  lk_recordType : ReportLinkRecordType;
  lk_recordId : string;
  lk_note : option string;
  lk_createdById : string;
  lk_createdAt : Z;
}.
Record AccessLog := { al_reportId : string; al_userId : option string; al_action : string;
                      al_ipAddress : option string; al_createdAt : Z }.
Record ReopenRequest := { ro_id : string; ro_reportId : string; ro_requestedById : string;
                          ro_reason : string; ro_handledAt : option Z }.
Record ErasureRequest := { er_id : string; er_reportId : string; er_requestedById : string;
                           er_reason : option string; er_status : string }.
Record Feedback := { fb_reportId : string; fb_userId : string; fb_rating : Z;
                     fb_comment : option string }.
Record Evidence := {
  ev_id : string;
  ev_reportId : string;
  ev_kind : ReportEvidenceKind;
  ev_storageKey : string;
  ev_mimeType : option string;
  ev_sizeBytes : Z;
  ev_sha256 : option string;
  ev_note : option string;
  ev_addedById : string;
}.
Record Custody := { cy_evidenceId : string; cy_action : string; cy_actorId : string;
                    cy_ipAddress : option string }.
(** A JSON object: its entries in order. *)
Record Draft := {
  df_id : string;
  df_userId : string;
  df_data : list (string * json);
  df_expiresAt : option Z;
  df_updatedAt : Z;
}.
Record Reveal := { rl_reportId : string; rl_revealedById : string; rl_reason : string;
                   rl_ticketRef : option string }.

(** ** What is emitted *)

Record ReportAudit := {
  ra_userId : option string;
  ra_targetUserId : option string;
  ra_actorType : ActorType;
  ra_action : string;
  ra_outcome : option string;
  ra_severity : option string;
  ra_entity : string;
  ra_entityId : string;
  ra_entityLabel : option string;
  ra_reason : option string;
  ra_diff : list (string * json);
  ra_metadata : list (string * json);
}.

Inductive rep_event :=
| RepAudited (a : ReportAudit)
| RepNotified (name : string) (payload : list (string * json))
| RepMediaDeleted (filepath : string).

(** ** The world *)

(** The code of other packages: identifiers, the random part of a case
    reference, the local year of an instant, HMAC. *)
Class RepLib := {
  rep_uuid : nat → string;
  rep_base36 : nat → string;          (* Math.random().toString(36).slice(2, 8).toUpperCase() *)
  local_year : Z → string;
  rep_hmac_hex : string → string → string;
}.

Record RepW := {
  rw_reports : gmap string Report;
  rw_users : gmap string RepUser;
  rw_grants : gmap string AccessGrant;
  rw_merges : gmap string ReportMerge;
  rw_escalations : gmap string Escalation;
  rw_links : gmap string Link;
  rw_history : list StatusChange;          (* newest first, as the lists below *)
  rw_assignments : list AssignmentChange;
  rw_revisions : list Revision;
  rw_reveals : list Reveal;
  rw_reopens : gmap string ReopenRequest;
  rw_erasures : gmap string ErasureRequest;
  rw_feedback : gmap string Feedback;               (* by report: [reportId] is unique *)
  rw_evidence : gmap string Evidence;
  rw_custody : list Custody;
  rw_drafts : gmap string Draft;
  rw_accessLog : list AccessLog;
  rw_reads : list (string * string);                (* report, administrator *)
  rw_events : list rep_event;
  rw_draws : nat;
  rw_now : Z;
}.

Definition set_reports (f : gmap string Report → gmap string Report) (w : RepW) : RepW :=
  w{{rw_reports ::= f}}.

(** ** Statements *)

Definition now : prog RepW Z := gets rw_now.
Definition emit (e : rep_event) : prog RepW () := modify (λ w, w{{rw_events ::= cons e}}).
Definition draw : prog RepW nat := act (λ w, (rw_draws w, w{{rw_draws ::= S}})).

Definition P2025 : exn := PrismaKnown "P2025" [].

Definition report_by_id (id : string) : prog RepW (option Report) :=
  gets (λ w, rw_reports w !! id).
(** [report.findFirst] over the table and, for the visibility rule, the grants. *)
Definition report_findFirst (P : RepW → Report → bool) : prog RepW (option Report) :=
  gets (λ w, find_row (P w) (rw_reports w)).
Definition report_findMany (P : RepW → Report → bool) : prog RepW (list Report) :=
  gets (λ w, filter (λ r, P w r = true) (map_to_list (rw_reports w)).*2).
Definition report_count (P : RepW → Report → bool) : prog RepW Z :=
  gets (λ w, Z.of_nat (length (filter (λ r, P w r = true) (map_to_list (rw_reports w)).*2))).

(** The columns a write sets, and [updatedAt], which Prisma sets on every write. *)
Definition written (upd : Z → Report → Report) (t : Z) (r : Report) : Report :=
  (upd t r){{rp_updatedAt := t}}.

(** [report.update({ where: { id } })] that returns the row. *)
Definition report_update (id : string) (upd : Z → Report → Report) : prog RepW Report :=
  act_outcome (λ w,
    match rw_reports w !! id with
    | Some r => (Ok (written upd (rw_now w) r),
                 set_reports (insert id (written upd (rw_now w) r)) w)
    | None => (Err P2025, w)
    end).

(** [report.updateMany({ where: { id, P } })]: the count. *)
Definition report_claim (id : string) (P : Report → bool) (upd : Z → Report → Report)
    : prog RepW Z :=
  act (λ w,
    match rw_reports w !! id with
    | Some r =>
        if P r then (1, set_reports (insert id (written upd (rw_now w) r)) w) else (0, w)
    | None => (0, w)
    end).

(** [report.updateMany({ where: P })] over the whole table. *)
Definition report_updateMany (P : Report → bool) (upd : Z → Report → Report) : prog RepW () :=
  modify (λ w, set_reports (fmap (λ r, if P r then written upd (rw_now w) r else r)) w).

(** [findUniqueOrThrow] *)
Definition report_by_id_or_throw (id : string) : prog RepW Report :=
  r ← report_by_id id; require r P2025.

Definition user_by_id (id : string) : prog RepW (option RepUser) := gets (λ w, rw_users w !! id).

Definition history_create (c : Z → StatusChange) : prog RepW () :=
  modify (λ w, w{{rw_history ::= cons (c (rw_now w))}}).
Definition assignment_create (c : AssignmentChange) : prog RepW () :=
  modify (λ w, w{{rw_assignments ::= cons c}}).
Definition revision_create (r : Revision) : prog RepW () :=
  modify (λ w, w{{rw_revisions ::= cons r}}).

Section ids.
Context `{RepLib}.

Definition randomUUID : prog RepW string := n ← draw; mret (rep_uuid n).

(** Rows whose identifier is drawn. *)
Definition grant_create (mk : string → Z → AccessGrant) : prog RepW AccessGrant :=
  id ← randomUUID;
  act (λ w, (mk id (rw_now w), w{{rw_grants ::= insert id (mk id (rw_now w))}})).
Definition merge_create (mk : string → Z → ReportMerge) : prog RepW () :=
  id ← randomUUID; modify (λ w, w{{rw_merges ::= insert id (mk id (rw_now w))}}).
Definition escalation_create (mk : string → Z → Escalation) : prog RepW () :=
  id ← randomUUID; modify (λ w, w{{rw_escalations ::= insert id (mk id (rw_now w))}}).

(** [report.create]: the case reference, and the pair of user and idempotency
    key, are unique. *)
Definition report_insert (id : string) (r : Report) (w : RepW) : outcome Report * RepW :=
  if bool_decide (is_Some (find_row (λ q, bool_decide (rp_caseReference q = rp_caseReference r))
                            (rw_reports w)))
  then (Err (PrismaKnown "P2002" ["caseReference"]), w)
  else if match rp_userId r, rp_idempotencyKey r with
          | Some u, Some k =>
              bool_decide (is_Some (find_row (λ q, bool_decide (rp_userId q = Some u) &&
                                                   bool_decide (rp_idempotencyKey q = Some k))
                                      (rw_reports w)))
          | _, _ => false
          end
  then (Err (PrismaKnown "P2002" ["userId"; "idempotencyKey"]), w)
  else if bool_decide (is_Some (rw_reports w !! id))
  then (Err (PrismaKnown "P2002" ["id"]), w)
  else (Ok r, set_reports (insert id r) w).
Definition report_create (mk : string → Z → Report) : prog RepW Report :=
  id ← randomUUID; act_outcome (λ w, report_insert id (mk id (rw_now w)) w).

(** [reportLink.create]: the triple is unique. *)
Definition link_create (mk : string → Z → Link) : prog RepW Link :=
  id ← randomUUID;
  act_outcome (λ w,
    let l := mk id (rw_now w) in
    if bool_decide (is_Some (find_row (λ k, bool_decide (lk_reportId k = lk_reportId l) &&
         bool_decide (lk_recordType k = lk_recordType l) &&
         bool_decide (lk_recordId k = lk_recordId l)) (rw_links w)))
    then (Err (PrismaKnown "P2002" ["reportId"; "recordType"; "recordId"]), w)
    else (Ok l, w{{rw_links ::= insert id l}})).
End ids.
