(* ===== verification/ReportCommon.v ===== *)
(** * Reports: what the report services share

    Models [src/modules/core/report/service/report.constants.ts] and
    [report-common.service.ts]: the status table, who may see and change a
    report, transitions with their history, audits, limits and lists. *)

From S2P Require Import Prelude Js Roles ReportModel.
From stdpp Require Import sorting.
From coqutil Require Import Datatypes.RecordSetters.
Import DoubleBraceUpdate.

Open Scope Z_scope.

(** ** Constants *)

Definition ALLOWED_STATUS_TRANSITIONS (s : ReportStatus) : list ReportStatus :=
  match s with
  | PENDING => [RECEIVED; REJECTED]
  | RECEIVED => [UNDER_REVIEW; REJECTED]
  | UNDER_REVIEW => [ASSIGNED; ESCALATED; UNABLE_TO_VERIFY; REJECTED]
  | ASSIGNED => [IN_PROGRESS; ESCALATED]
  | IN_PROGRESS => [ESCALATED; CLOSED; UNABLE_TO_VERIFY]
  | ESCALATED => [IN_PROGRESS; CLOSED]
  | UNABLE_TO_VERIFY => [CLOSED; UNDER_REVIEW]
  | CLOSED => []
  | REJECTED => []
  end.

Definition TERMINAL_STATUSES : list ReportStatus := [CLOSED; REJECTED].
Definition ADMIN_ROLE_NAMES : list string := [ADMIN; SUPER_ADMIN].
Definition CASE_REFERENCE_MAX_ATTEMPTS : nat := 5.
Definition ANON_KEY_PREFIX : string := "anon_".

Definition allows (from to : ReportStatus) : bool :=
  bool_decide (to ∈ ALLOWED_STATUS_TRANSITIONS from).
Definition terminal (s : ReportStatus) : bool := bool_decide (s ∈ TERMINAL_STATUSES).

(** What the services read from the configuration, defaults applied. *)
Record RepConfig := {
  rc_maxPhotos : Z;
  rc_maxVideos : Z;
  rc_maxOther : Z;
  rc_maxTotalBytes : Z;
  rc_maxFileSizeBytes : Z;
  rc_allowedMimeTypes : list string;
  rc_autoFlagCount : Z;
  rc_autoFlagWindowDays : Z;
  rc_createCooldownSeconds : Z;
  rc_maxPending : Z;
  rc_stalePendingHours : Z;
  rc_allowAnonymityChange : bool;
  rc_anonMaskSecret : string;
  rc_draftTtlDays : Z;
  rc_maxDrafts : Z;
}.

(** ** Roles *)

Definition isSuperAdmin (user : CurrentUser) : bool := mem SUPER_ADMIN (cu_roles user).
Definition isAdminUser (user : CurrentUser) : bool :=
  existsb (λ name, mem name ADMIN_ROLE_NAMES) (cu_roles user).

(** ** Audits and notifications *)

Definition emitAudit (a : ReportAudit) : prog RepW () := emit (RepAudited a).

Record AuditOpts := {
  ao_reason : option string;
  ao_targetUserId : option string;
  ao_metadata : list (string * json);
  ao_severity : option string;
}.
Definition no_opts : AuditOpts :=
  {| ao_reason := None; ao_targetUserId := None; ao_metadata := []; ao_severity := None |}.
Definition with_reason (reason : option string) : AuditOpts := no_opts{{ao_reason := reason}}.

(** [opts.targetUserId ? { targetUserId } : {}] *)
Definition only_truthy (s : option string) : option string :=
  match s with Some s => if truthy s then Some s else None | None => None end.

Definition audit (actor : CurrentUser) (action : string) (report : Report)
    (diff : list (string * json)) (opts : AuditOpts) : prog RepW () :=
  emitAudit {|
    ra_userId := Some (cu_id actor); ra_targetUserId := only_truthy (ao_targetUserId opts);
    ra_actorType := resolveActorType (cu_roles actor); ra_action := action;
    ra_outcome := None; ra_severity := ao_severity opts; ra_entity := "Report";
    ra_entityId := rp_id report; ra_entityLabel := Some (rp_caseReference report);
    ra_reason := ao_reason opts; ra_diff := diff; ra_metadata := ao_metadata opts |}.

(** Truthiness of a nullable string. *)
Definition present (s : option string) : bool := bool_decide (is_Some (only_truthy s)).

Definition json_opt (s : option string) : json :=
  match s with Some s => JStr s | None => JNull end.
Definition success : string * json := ("result", JStr "success").

Definition notifyReporter (report : Report) : prog RepW () :=
  emit (RepNotified "notification.report_updated"
    [("reportId", JStr (rp_id report)); ("userId", json_opt (rp_userId report));
     ("caseReference", JStr (rp_caseReference report));
     ("status", JStr (status_name (rp_status report)))]).

(** A refused or failed change of a report, as the older flows audit it. *)
Definition audit_failure (user : CurrentUser) (target : option string) (action outcome : string)
    (report : Report) (diff : list (string * json)) : prog RepW () :=
  emitAudit {|
    ra_userId := Some (cu_id user); ra_targetUserId := target;
    ra_actorType := resolveActorType (cu_roles user); ra_action := action;
    ra_outcome := Some outcome; ra_severity := Some "WARNING"; ra_entity := "Report";
    ra_entityId := rp_id report; ra_entityLabel := Some (rp_caseReference report);
    ra_reason := None; ra_diff := diff; ra_metadata := [] |}.

(** ** Who may see and change a report *)

Definition activeGrant (adminId : string) (t : Z) (g : AccessGrant) : bool :=
  bool_decide (ag_adminId g = adminId) && bool_decide (ag_revokedAt g = None) &&
  match ag_expiresAt g with None => true | Some e => t <? e end.

(** [visibilityWhere] *)
Definition visible (admin : CurrentUser) (w : RepW) (r : Report) : bool :=
  isSuperAdmin admin ||
  (bool_decide (rp_sensitivity r = STANDARD) ||
   bool_decide (rp_assignedToId r = Some (cu_id admin)) ||
   existsb (λ g, bool_decide (ag_reportId g = rp_id r) && activeGrant (cu_id admin) (rw_now w) g)
     (map_to_list (rw_grants w)).*2).

Definition deleted (r : Report) : bool := bool_decide (is_Some (mk_at (rp_deletion r))).

(** [assertAdminCanAccessReport] *)
Definition may_change (admin : CurrentUser) (r : Report) : bool :=
  isSuperAdmin admin ||
  match rp_assignedToId r with
  | Some a => negb (truthy a) || bool_decide (a = cu_id admin)
  | None => true
  end.
Definition assertAdminCanAccessReport (admin : CurrentUser) (r : Report) (action : string)
    : prog RepW () :=
  if may_change admin r then mret () else
  audit_failure admin None action "DENIED" r
    [("result", JStr "denied"); ("reason", JStr "assigned_to_another_admin")] ;;
  Throw (Forbidden "report_assigned_to_another_admin").

Definition loadForAdmin (admin : CurrentUser) (reportId : string) (includeDeleted : bool)
    : prog RepW Report :=
  report ← gets (λ w,
    match rw_reports w !! reportId with
    | Some r => if (includeDeleted || negb (deleted r)) && visible admin w r then Some r else None
    | None => None
    end);
  require report (NotFound "report_not_found").

Definition loadForAdminWrite (admin : CurrentUser) (reportId action : string)
    : prog RepW Report :=
  report ← loadForAdmin admin reportId false;
  assertAdminCanAccessReport admin report action ;;
  mret report.

Definition owned (user : CurrentUser) (r : Report) : bool :=
  bool_decide (rp_userId r = Some (cu_id user)).
Definition loadOwned (user : CurrentUser) (reportId : string) : prog RepW Report :=
  report ← gets (λ w,
    match rw_reports w !! reportId with
    | Some r => if owned user r && negb (deleted r) then Some r else None
    | None => None
    end);
  require report (NotFound "report_not_found").

(** ** Transitions *)

Definition has_status (s : ReportStatus) (r : Report) : bool := bool_decide (rp_status r = s).

(** [None]: the status was changed in the meantime. *)
Definition applyTransition (existing : Report) (to : ReportStatus) (changedById : option string)
    (extra : Z → Report → Report) (note : option string) : prog RepW (option Report) :=
  transaction (
    n ← report_claim (rp_id existing) (has_status (rp_status existing))
          (λ t r, extra t (r{{rp_status := to; rp_lastActivityAt := t; rp_reporterUpdatedAt := t}}));
    if n =? 0 then mret None else
    history_create (λ t, {|
      sc_reportId := rp_id existing; sc_from := Some (rp_status existing); sc_to := to;
      sc_changedById := changedById; sc_note := note; sc_at := t |}) ;;
    r ← report_by_id_or_throw (rp_id existing);
    mret (Some r)).

(** A page of a list. *)
Record Page (A : Type) := { pg_items : list A; pg_total : Z; pg_page : Z; pg_limit : Z }.
Arguments pg_items {A}.
Arguments pg_total {A}.
Arguments pg_page {A}.
Arguments pg_limit {A}.

Section common.
Context `{RepLib} (cfg : RepConfig).

(** ** Repeated rejections *)
Definition maybeFlagUserForRejections (userId : string) : prog RepW () :=
  t ← now;
  let since := t - rc_autoFlagWindowDays cfg * 24 * 60 * 60 * 1000 in
  n ← report_count (λ _ r, bool_decide (rp_userId r = Some userId) && has_status REJECTED r &&
                           (since <=? rp_updatedAt r));
  if rc_autoFlagCount cfg <=? n then
    user ← user_by_id userId;
    emitAudit {|
      ra_userId := None; ra_targetUserId := Some userId; ra_actorType := ActorSYSTEM;
      ra_action := "USER_AUTO_FLAGGED"; ra_outcome := None; ra_severity := None;
      ra_entity := "User"; ra_entityId := userId;
      ra_entityLabel := user ≫= ru_name; ra_reason := None;
      ra_diff := [("reason", JStr "repeated_report_rejections"); ("rejectionCount", JNum n);
                  ("windowDays", JNum (rc_autoFlagWindowDays cfg));
                  ("result", JStr "flagged_for_review")];
      ra_metadata := [] |}
  else mret ().

(** ** The reporter as administrators see them *)

Definition maskUserId (userId : string) : string :=
  ANON_KEY_PREFIX +:+ str_take 12 (rep_hmac_hex (rc_anonMaskSecret cfg) userId).

Inductive Reporter :=
| AnonymousReporter (key : option string)
| NamedReporter (id : string) (name : option string).

Definition presentReporter (isAnonymous : bool) (userId : option string) (user : option RepUser)
    : Reporter :=
  match isAnonymous, userId with
  | false, Some (Str _ _ as u) =>
      NamedReporter (from_option ru_id u user) (user ≫= ru_name)
  | _, u => AnonymousReporter (match u with Some (Str _ _ as u) => Some (maskUserId u)
                               | _ => None end)
  end.

(** ** Lists *)

Definition paging (page limit : option Z) (maxLimit : Z) : Z * Z * Z :=
  let page := Z.max 1 (default 1 page) in
  let limit := Z.min maxLimit (Z.max 1 (default 20 limit)) in
  (page, limit, (page - 1) * limit).

(** A row of [pagedReports]: [userId] is hidden on anonymous reports. *)
Record ReportItem := {
  ri_report : Report;
  ri_assignedTo : option (string * option string);
  ri_isRead : bool;
  ri_reporter : Reporter;
}.

Definition report_item (admin : CurrentUser) (w : RepW) (r : Report) : ReportItem := {|
  ri_report := r{{rp_userId := if rp_isAnonymous r then None else rp_userId r}};
  ri_assignedTo := a ← rp_assignedToId r; u ← rw_users w !! a; Some (ru_id u, ru_name u);
  ri_isRead := bool_decide ((rp_id r, cu_id admin) ∈ rw_reads w);
  ri_reporter := presentReporter (rp_isAnonymous r) (rp_userId r)
                   (rp_userId r ≫= λ u, rw_users w !! u) |}.

(** [orderBy], then [skip] and [take]. *)
Definition ordered (before : Report → Report → bool) (rs : list Report) : list Report :=
  merge_sort (goes_before before) rs.
Definition page_of (page limit skip : Z) (full : list Report) : Page Report := {|
  pg_items := take (Z.to_nat limit) (drop (Z.to_nat skip) full);
  pg_total := Z.of_nat (length full); pg_page := page; pg_limit := limit |}.

(** The two queries run on one state. *)
Definition pagedReports (admin : CurrentUser) (where_ : Report → bool)
    (page limit : option Z) (before : Report → Report → bool) : prog RepW (Page ReportItem) :=
  let '(page, limit, skip) := paging page limit 100 in
  gets (λ w,
    let full := filter (λ r, where_ r && visible admin w r = true)
                  (map_to_list (rw_reports w)).*2 in
    let p := page_of page limit skip (ordered before full) in
    {| pg_items := report_item admin w <$> pg_items p;
       pg_total := pg_total p; pg_page := page; pg_limit := limit |}).

(** ** Attachments *)

Definition collectMediaFields (m : MediaBearing) : list string :=
  m_photo m ++ m_video m ++ m_audio m ++ m_pdf m ++ m_document m ++ m_other m.

(** The object storage: size and content type of what exists. *)
Context (stat_of : string → option (Z * string)).

Definition check_file (fp : string) : string * outcome Z :=
  (fp,
   match stat_of fp with
   | None => Err (JsError "not_found")
   | Some (size, contentType) =>
       if rc_maxFileSizeBytes cfg <? size then Err (JsError "too_large")
       else if bool_decide (rc_allowedMimeTypes cfg ≠ []) &&
               negb (mem contentType (rc_allowedMimeTypes cfg))
       then Err (JsError "disallowed_type")
       else Ok size
   end).

Definition validateMediaFilesExist (fps : list string) : outcome (list (string * Z)) :=
  let checks : list (string * outcome Z) := check_file <$> fps in
  let bad := omap (λ '(fp, r), match r with Err e => Some (fp +:+ ":" +:+ exn_message e)
                               | Ok _ => None end) checks in
  match bad with
  | [] => Ok (omap (λ '(fp, r), match r with Ok size => Some (fp, size)
                                | Err _ => None end) checks)
  | _ => Err (BadRequest ("media_validation_failed:" +:+ String.concat "," bad))
  end.

Definition len {A} (xs : list A) : Z := Z.of_nat (length xs).
Definition assertAttachmentCounts (m : MediaBearing) : outcome () :=
  if rc_maxPhotos cfg <? len (m_photo m) then
    Err (BadRequest ("too_many_photos:max_" +:+ str_of_Z (rc_maxPhotos cfg)))
  else if rc_maxVideos cfg <? len (m_video m) then
    Err (BadRequest ("too_many_videos:max_" +:+ str_of_Z (rc_maxVideos cfg)))
  else if rc_maxOther cfg <? len (m_audio m) + len (m_pdf m) + len (m_document m) +
                             len (m_other m) then
    Err (BadRequest ("too_many_other_files:max_" +:+ str_of_Z (rc_maxOther cfg)))
  else Ok ().

Definition assertTotalBytes (totalBytes : Z) : outcome () :=
  if rc_maxTotalBytes cfg <? totalBytes then
    Err (BadRequest ("upload_total_size_exceeded:max_" +:+ str_of_Z (rc_maxTotalBytes cfg)))
  else Ok ().

(** [gpsData] *)
Definition gpsData (latitude longitude : string) (accuracy : option string)
    (capturedAt : option Z) (address : option string) : prog RepW Gps :=
  t ← now;
  let captured := default t capturedAt in
  throw_if (t + 5 * 60 * 1000 <? captured) (BadRequest "location_captured_in_the_future") ;;
  mret {| g_latitude := latitude; g_longitude := longitude; g_accuracyMeters := accuracy;
          g_capturedAt := captured; g_address := address; g_verified := false |}.

Definition generateCaseReference : prog RepW string :=
  t ← now;
  n ← draw;
  mret ("EHT-" +:+ local_year t +:+ "-" +:+ rep_base36 n).
End common.
