(* ===== verification/ReportWorkflow.v ===== *)
(** * Reports: the workflow of administrators

    Models [src/modules/core/report/service/report-workflow.service.ts]: the
    lists, status changes, assignment, escalation, resolution, the work queue
    and the bulk operations. *)

From S2P Require Import Prelude Js Roles ReportModel ReportCommon.
From stdpp Require Import sorting.
From coqutil Require Import Datatypes.RecordSetters.
Import DoubleBraceUpdate.

Open Scope Z_scope.

(** ** Orders *)

Definition priority_rank (p : ReportPriority) : Z :=
  match p with LOW => 0 | MEDIUM => 1 | HIGH => 2 | CRITICAL => 3 end.
(** [nulls: 'last'] *)
Definition due_before (a b : option Z) : comparison :=
  match a, b with
  | Some x, Some y => x ?= y
  | Some _, None => Lt
  | None, Some _ => Gt
  | None, None => Eq
  end.
Definition newest_first (a b : Report) : bool := rp_createdAt b <=? rp_createdAt a.
Definition oldest_first (a b : Report) : bool := rp_createdAt a <=? rp_createdAt b.
Definition escalated_order (a b : Report) : bool :=
  match priority_rank (rp_priority b) ?= priority_rank (rp_priority a) with
  | Lt => true | Gt => false | Eq => rp_updatedAt b <=? rp_updatedAt a
  end.
Definition queue_order (a b : Report) : bool :=
  match priority_rank (rp_priority b) ?= priority_rank (rp_priority a) with
  | Lt => true
  | Gt => false
  | Eq => match due_before (rp_dueAt a) (rp_dueAt b) with
          | Lt => true
          | Gt => false
          | Eq => rp_createdAt a <=? rp_createdAt b
          end
  end.

(** ** Lists *)

Inductive AssignmentStatus := unassigned | assigned.
Record AdminReportQuery := {
  aq_status : option ReportStatus;
  aq_category : option ReportCategory;
  aq_assignedTo : option string;
  aq_assignmentStatus : option AssignmentStatus;
  aq_page : option Z;
  aq_limit : option Z;
}.
Definition admin_where (query : AdminReportQuery) (r : Report) : bool :=
  match aq_status query with Some s => bool_decide (rp_status r = s) | None => true end &&
  match aq_category query with Some c => bool_decide (rp_category r = c) | None => true end &&
  match only_truthy (aq_assignedTo query), aq_assignmentStatus query with
  | Some a, _ => bool_decide (rp_assignedToId r = Some a)
  | None, Some unassigned => bool_decide (rp_assignedToId r = None)
  | None, Some assigned => bool_decide (is_Some (rp_assignedToId r))
  | None, None => true
  end.

(** A row with the people it includes. *)
Record WithPeople := {
  wp_report : Report;
  wp_user : option RepUser;
  wp_assignedTo : option RepUser;
}.
Definition with_people (w : RepW) (r : Report) : WithPeople := {|
  wp_report := r;
  wp_user := u ← rp_userId r; rw_users w !! u;
  wp_assignedTo := u ← rp_assignedToId r; rw_users w !! u |}.
Definition without_assignee (p : WithPeople) : WithPeople :=
  {| wp_report := wp_report p; wp_user := wp_user p; wp_assignedTo := None |}.

(** The list of an administrator: no clamping of page and limit. *)
Definition plain_list (where_ : Report → bool) (page limit : option Z)
    (present_row : RepW → Report → WithPeople) : prog RepW (Page WithPeople) :=
  let page := default 1 page in
  let limit := default 20 limit in
  gets (λ w,
    let full := filter (λ r, where_ r = true) (map_to_list (rw_reports w)).*2 in
    let p := page_of page limit ((page - 1) * limit) (ordered newest_first full) in
    {| pg_items := present_row w <$> pg_items p; pg_total := pg_total p;
       pg_page := page; pg_limit := limit |}).

Definition findAllForAdmin (query : AdminReportQuery) : prog RepW (Page WithPeople) :=
  plain_list (admin_where query) (aq_page query) (aq_limit query) with_people.

Definition findAssignedToMe (admin : CurrentUser) (page limit : option Z)
    : prog RepW (Page WithPeople) :=
  plain_list (λ r, bool_decide (rp_assignedToId r = Some (cu_id admin))) page limit
    (λ w r, without_assignee (with_people w r)).

(** ** One report *)

Definition found (reportId : string) : prog RepW Report :=
  report ← report_by_id reportId; require report (NotFound "report_not_found").

Definition opened (admin : CurrentUser) (target : option string) (action : string)
    (report : Report) : prog RepW () :=
  emitAudit {|
    ra_userId := Some (cu_id admin); ra_targetUserId := target;
    ra_actorType := resolveActorType (cu_roles admin); ra_action := action;
    ra_outcome := None; ra_severity := None; ra_entity := "Report";
    ra_entityId := rp_id report; ra_entityLabel := Some (rp_caseReference report);
    ra_reason := None; ra_diff := [success]; ra_metadata := [] |}.

Definition one_with_people (reportId : string) (w : RepW) : option WithPeople :=
  (λ r, without_assignee (with_people w r)) <$> rw_reports w !! reportId.
Definition findOneForAdmin (admin : CurrentUser) (reportId : string) : prog RepW WithPeople :=
  row ← gets (one_with_people reportId);
  p ← require row (NotFound "report_not_found");
  opened admin None "REPORT_OPENED" (wp_report p) ;;
  opened admin (ru_id <$> wp_user p) "REPORTER_INFORMATION_OPENED" (wp_report p) ;;
  mret p.

(** ** Notifications *)

Definition notifyAssigned (report : Report) (assignee : string) : prog RepW () :=
  emit (RepNotified "notification.report_assigned"
    [("reportId", JStr (rp_id report)); ("caseReference", JStr (rp_caseReference report));
     ("assignedToUserId", JStr assignee)]).

(** A change of a report, as the older flows audit it. *)
Definition audit_success (user : CurrentUser) (target : option string) (action : string)
    (report : Report) (reason : option string) (diff metadata : list (string * json))
    : prog RepW () :=
  emitAudit {|
    ra_userId := Some (cu_id user); ra_targetUserId := target;
    ra_actorType := resolveActorType (cu_roles user); ra_action := action;
    ra_outcome := None; ra_severity := None; ra_entity := "Report";
    ra_entityId := rp_id report; ra_entityLabel := Some (rp_caseReference report);
    ra_reason := reason; ra_diff := success :: diff; ra_metadata := metadata |}.

Definition failure : string * json := ("result", JStr "failure").
Definition status_json (s : ReportStatus) : json := JStr (status_name s).
Definition from_to (from to : ReportStatus) : list (string * json) :=
  [("previousStatus", status_json from); ("currentStatus", status_json to)].
Definition invalid_transition (from to : ReportStatus) : exn :=
  BadRequest ("invalid_status_transition: " +:+ status_name from +:+ " -> " +:+ status_name to).
Definition transition_conflict : exn := BadRequest "report_transition_conflict".

Section workflow.
Context `{RepLib} (cfg : RepConfig).

(** ** Status *)

Definition updateStatus (admin : CurrentUser) (reportId : string) (status : ReportStatus)
    (note : option string) : prog RepW Report :=
  existing ← found reportId;
  assertAdminCanAccessReport admin existing "REPORT_STATUS_CHANGED" ;;
  if negb (allows (rp_status existing) status) then
    audit_failure admin None "REPORT_STATUS_CHANGED" "FAILURE" existing
      [failure; ("attemptedStatus", status_json status);
       ("currentStatus", status_json (rp_status existing))] ;;
    Throw (invalid_transition (rp_status existing) status)
  else
  n ← report_claim reportId (has_status (rp_status existing)) (λ _ r, r{{rp_status := status}});
  if n =? 0 then
    audit_failure admin None "REPORT_STATUS_CHANGED" "FAILURE" existing
      [failure; ("reason", JStr "report_transition_conflict");
       ("attemptedStatus", status_json status)] ;;
    Throw transition_conflict
  else
  report ← report_by_id_or_throw reportId;
  audit_success admin None
    (match rp_status report with
     | CLOSED => "REPORT_CLOSED" | REJECTED => "REPORT_REJECTED"
     | _ => "REPORT_STATUS_CHANGED" end)
    report note (from_to (rp_status existing) (rp_status report)) [] ;;
  notifyReporter report ;;
  (match status, only_truthy (rp_userId report) with
   | REJECTED, Some u => maybeFlagUserForRejections cfg u
   | _, _ => mret ()
   end) ;;
  mret report.

(** ** Assignment *)

Definition eligible (target : RepUser) : bool :=
  existsb (λ name, mem name ADMIN_ROLE_NAMES) (ru_roles target).
Definition auto_assigned (s : ReportStatus) : bool :=
  bool_decide (s ≠ ASSIGNED) && allows s ASSIGNED.
Definition upd_assigned (assignee : string) (auto : bool) (r : Report) : Report :=
  if auto then r{{rp_assignedToId := Some assignee; rp_status := ASSIGNED}}
  else r{{rp_assignedToId := Some assignee}}.

Definition assign (admin : CurrentUser) (reportId assignedToUserId : string)
    (note : option string) : prog RepW Report :=
  existing ← found reportId;
  target ← user_by_id assignedToUserId;
  target ← require target (NotFound "assignee_not_found");
  if negb (eligible target) then
    audit_failure admin (Some assignedToUserId) "REPORT_ASSIGNED" "FAILURE" existing
      [failure; ("reason", JStr "assignee_must_be_an_admin")] ;;
    Throw (BadRequest "assignee_must_be_an_admin")
  else
  let shouldAutoSetAssigned := auto_assigned (rp_status existing) in
  n ← report_claim reportId
        (λ r, if shouldAutoSetAssigned then has_status (rp_status existing) r else true)
        (λ _, upd_assigned assignedToUserId shouldAutoSetAssigned);
  if n =? 0 then
    audit_failure admin (Some assignedToUserId) "REPORT_ASSIGNED" "FAILURE" existing
      [failure; ("reason", JStr "report_transition_conflict")] ;;
    Throw transition_conflict
  else
  report ← report_by_id_or_throw reportId;
  audit_success admin (Some assignedToUserId) "REPORT_ASSIGNED" report note
    (("assignedToUserId", JStr assignedToUserId) ::
     from_to (rp_status existing) (rp_status report))
    [("assignedToName", json_opt (ru_name target))] ;;
  notifyAssigned report assignedToUserId ;;
  mret report.

Definition unassign (admin : CurrentUser) (reportId : string) : prog RepW Report :=
  existing ← found reportId;
  report ← report_update reportId (λ _ r, r{{rp_assignedToId := None}});
  audit_success admin (only_truthy (rp_assignedToId existing)) "REPORT_UNASSIGNED" report None
    [("previousAssignedToId", json_opt (rp_assignedToId existing))] [] ;;
  mret report.

(** ** Escalation *)

Definition escalate (admin : CurrentUser) (reportId reason : string) : prog RepW Report :=
  existing ← found reportId;
  assertAdminCanAccessReport admin existing "REPORT_ESCALATED" ;;
  if negb (allows (rp_status existing) ESCALATED) then
    audit_failure admin None "REPORT_ESCALATED" "FAILURE" existing
      [failure; ("currentStatus", status_json (rp_status existing))] ;;
    Throw (invalid_transition (rp_status existing) ESCALATED)
  else
  n ← report_claim reportId (has_status (rp_status existing))
        (λ _ r, r{{rp_status := ESCALATED}});
  if n =? 0 then
    audit_failure admin None "REPORT_ESCALATED" "FAILURE" existing
      [failure; ("reason", JStr "report_transition_conflict")] ;;
    Throw transition_conflict
  else
  report ← report_by_id_or_throw reportId;
  audit_success admin None "REPORT_ESCALATED" report (Some reason)
    [("previousStatus", status_json (rp_status existing))] [] ;;
  emit (RepNotified "notification.high_priority_report"
    [("reportId", JStr (rp_id report)); ("caseReference", JStr (rp_caseReference report));
     ("reason", JStr reason)]) ;;
  mret report.

Definition newest_escalation (a b : Escalation) : bool := es_createdAt b <=? es_createdAt a.

(** The newest escalation of a report that is still open. *)
Definition open_escalation (reportId : string) (w : RepW) : option Escalation :=
  head (merge_sort (goes_before newest_escalation)
    (filter (λ e, es_reportId e = reportId ∧ es_deEscalatedAt e = None)
       (map_to_list (rw_escalations w)).*2)).
Definition escalation_update (id : string) (f : Z → Escalation → Escalation) : prog RepW () :=
  modify (λ w, w{{rw_escalations ::= alter (f (rw_now w)) id}}).

Definition deEscalate (admin : CurrentUser) (reportId reason : string) : prog RepW Report :=
  existing ← loadForAdminWrite admin reportId "REPORT_DE_ESCALATED";
  throw_if (negb (has_status ESCALATED existing)) (BadRequest "report_not_escalated") ;;
  report ← applyTransition existing IN_PROGRESS (Some (cu_id admin)) (λ _ r, r)
             (Some ("de_escalated: " +:+ reason));
  report ← require report transition_conflict;
  open ← gets (open_escalation reportId);
  (match open with
   | Some e => escalation_update (es_id e) (λ t e,
       e{{es_deEscalatedAt := Some t; es_deEscalatedById := Some (cu_id admin);
          es_deEscalationReason := Some reason}})
   | None => mret ()
   end) ;;
  audit admin "REPORT_DE_ESCALATED" report
    (success :: from_to (rp_status existing) (rp_status report)) (with_reason (Some reason)) ;;
  notifyReporter report ;;
  mret report.

(** ** Classification *)

Definition change_of (field from to : string) (reason : option string)
    : list (string * json) :=
  (field, JObj [("from", JStr from); ("to", JStr to)]) ::
  match only_truthy reason with Some r => [("reason", JStr r)] | None => [] end.

(** The report and its revision, written together. *)
Definition revised (admin : CurrentUser) (reportId : string) (upd : Z → Report → Report)
    (changes : list (string * json)) : prog RepW Report :=
  transaction (
    report ← report_update reportId upd;
    revision_create {| rv_reportId := reportId; rv_editedById := cu_id admin;
                       rv_changes := changes |} ;;
    mret report).

Definition updateCategory (admin : CurrentUser) (reportId : string) (category : ReportCategory)
    (reason : option string) : prog RepW Report :=
  existing ← loadForAdminWrite admin reportId "REPORT_CATEGORY_CHANGED";
  if bool_decide (rp_category existing = category) then mret existing else
  report ← revised admin reportId
    (λ t r, r{{rp_category := category; rp_lastActivityAt := t}})
    (change_of "category" (category_name (rp_category existing)) (category_name category) reason);
  audit admin "REPORT_CATEGORY_CHANGED" report
    [success; ("from", JStr (category_name (rp_category existing)));
     ("to", JStr (category_name category))]
    ((with_reason reason){{ao_targetUserId :=
        if rp_isAnonymous report then None else rp_userId report}}) ;;
  mret report.

Definition updatePriority (admin : CurrentUser) (reportId : string) (priority : ReportPriority)
    (reason : option string) : prog RepW Report :=
  existing ← loadForAdminWrite admin reportId "REPORT_PRIORITY_CHANGED";
  if bool_decide (rp_priority existing = priority) then mret existing else
  report ← revised admin reportId
    (λ t r, r{{rp_priority := priority; rp_lastActivityAt := t}})
    (change_of "priority" (priority_name (rp_priority existing)) (priority_name priority) reason);
  audit admin "REPORT_PRIORITY_CHANGED" report
    [success; ("from", JStr (priority_name (rp_priority existing)));
     ("to", JStr (priority_name priority))] (with_reason reason) ;;
  mret report.

(** ** Resolution *)

Definition resolution_by (admin : CurrentUser) (t : Z) (outcome : ReportResolutionOutcome)
    (summary : string) : Resolution := {|
  rs_closedAt := Some t; rs_outcome := Some outcome; rs_summary := Some summary;
  rs_resolvedById := Some (cu_id admin) |}.

Definition resolve (admin : CurrentUser) (reportId : string) (outcome : ReportResolutionOutcome)
    (summary : string) : prog RepW Report :=
  existing ← loadForAdminWrite admin reportId "REPORT_RESOLVED";
  throw_if (negb (allows (rp_status existing) CLOSED))
    (invalid_transition (rp_status existing) CLOSED) ;;
  report ← applyTransition existing CLOSED (Some (cu_id admin))
    (λ t r, r{{rp_resolution := resolution_by admin t outcome summary}})
    (Some ("resolved:" +:+ outcome_name outcome));
  report ← require report transition_conflict;
  audit admin "REPORT_STATUS_CHANGED" report
    (success :: from_to (rp_status existing) (rp_status report) ++
     [("outcome", JStr (outcome_name outcome))]) (with_reason (Some summary)) ;;
  notifyReporter report ;;
  mret report.

(** ** Bulk operations *)

Record BulkResult := {
  bk_requested : Z;
  bk_succeeded : list string;
  bk_failed : list (string * string);
}.
(** [[...new Set(ids)]] *)
Definition unique (ids : list string) : list string := reverse (remove_dups (reverse ids)).

Fixpoint bulk_loop (fn : string → prog RepW ()) (ids succeeded : list string)
    (failed : list (string * string)) : prog RepW (list string * list (string * string)) :=
  match ids with
  | [] => mret (succeeded, failed)
  | id :: ids =>
      r ← attempt (fn id);
      match r with
      | Ok _ => bulk_loop fn ids (succeeded ++ [id]) failed
      | Err err => bulk_loop fn ids succeeded (failed ++ [(id, exn_message err)])
      end
  end.
Definition runBulk (ids : list string) (fn : string → prog RepW ()) : prog RepW BulkResult :=
  r ← bulk_loop fn (unique ids) [] [];
  mret {| bk_requested := len (unique ids); bk_succeeded := r.1; bk_failed := r.2 |}.

Definition audit_bulk (admin : CurrentUser) (target : option string) (op : string)
    (more : list (string * json)) (result : BulkResult) : prog RepW () :=
  emitAudit {|
    ra_userId := Some (cu_id admin); ra_targetUserId := target;
    ra_actorType := resolveActorType (cu_roles admin); ra_action := "REPORT_BULK_ACTION";
    ra_outcome := None; ra_severity := None; ra_entity := "Report"; ra_entityId := "bulk";
    ra_entityLabel := None; ra_reason := None;
    ra_diff := ("op", JStr op) :: more ++
      [("requested", JNum (bk_requested result)); ("failed", JNum (len (bk_failed result)))];
    ra_metadata := [] |}.

Definition bulkAssign (admin : CurrentUser) (ids : list string) (adminId : string)
    : prog RepW BulkResult :=
  result ← runBulk ids (λ id,
    assign admin id adminId None ;;
    assignment_create {| as_reportId := id; as_assignedToId := Some adminId;
      as_assignedById := Some (cu_id admin); as_note := Some "bulk_assign" |});
  audit_bulk admin (Some adminId) "assign" [] result ;;
  mret result.

Definition bulkUpdateStatus (admin : CurrentUser) (ids : list string) (status : ReportStatus)
    (note : option string) : prog RepW BulkResult :=
  result ← runBulk ids (λ id,
    updateStatus admin id status note ;;
    history_create (λ t, {| sc_reportId := id; sc_from := None; sc_to := status;
      sc_changedById := Some (cu_id admin); sc_note := Some (default "bulk_status" note);
      sc_at := t |}));
  audit_bulk admin None "status" [("status", status_json status)] result ;;
  mret result.

Definition bulkUnassign (admin : CurrentUser) (ids : list string) : prog RepW BulkResult :=
  result ← runBulk ids (λ id,
    unassign admin id ;;
    assignment_create {| as_reportId := id; as_assignedToId := None;
      as_assignedById := Some (cu_id admin); as_note := Some "bulk_unassign" |});
  audit_bulk admin None "unassign" [] result ;;
  mret result.

Definition assignTeam (admin : CurrentUser) (reportId teamId : string) : prog RepW Report :=
  existing ← loadForAdmin admin reportId false;
  report ← report_update reportId
    (λ t r, r{{rp_assignedTeamId := Some teamId; rp_lastActivityAt := t}});
  audit admin "REPORT_TEAM_ASSIGNED" report
    [success; ("from", json_opt (rp_assignedTeamId existing)); ("to", JStr teamId)] no_opts ;;
  mret report.

(** ** The work queue *)

Definition queued (admin : CurrentUser) (teamId : option string) (w : RepW) (r : Report) : bool :=
  negb (deleted r) && bool_decide (mk_at (rp_archive r) = None) &&
  bool_decide (rp_mergedIntoId r = None) && bool_decide (rp_assignedToId r = None) &&
  negb (terminal (rp_status r)) &&
  match only_truthy teamId with
  | Some t => bool_decide (rp_assignedTeamId r = Some t)
  | None => true
  end && visible admin w r.
Definition queue_candidate (admin : CurrentUser) (teamId : option string) (w : RepW)
    : option Report :=
  head (ordered queue_order
    (filter (λ r, queued admin teamId w r = true) (map_to_list (rw_reports w)).*2)).

Definition upd_claimed (admin : CurrentUser) (auto : bool) (t : Z) (r : Report) : Report :=
  let r := r{{rp_assignedToId := Some (cu_id admin); rp_lastActivityAt := t}} in
  if auto then r{{rp_status := ASSIGNED; rp_reporterUpdatedAt := t}} else r.

Definition claimed (admin : CurrentUser) (candidate : Report) (autoAssign : bool)
    : prog RepW Report :=
  assignment_create {| as_reportId := rp_id candidate; as_assignedToId := Some (cu_id admin);
    as_assignedById := Some (cu_id admin); as_note := Some "queue_next" |} ;;
  (if autoAssign then
     history_create (λ t, {| sc_reportId := rp_id candidate;
       sc_from := Some (rp_status candidate); sc_to := ASSIGNED;
       sc_changedById := Some (cu_id admin); sc_note := Some "queue_next"; sc_at := t |})
   else mret ()) ;;
  report ← report_by_id_or_throw (rp_id candidate);
  audit admin "REPORT_ASSIGNED" report
    (success :: ("assignedToUserId", JStr (cu_id admin)) ::
     from_to (rp_status candidate) (rp_status report))
    (no_opts{{ao_metadata := [("source", JStr "queue_next")] }}) ;;
  notifyAssigned report (cu_id admin) ;;
  mret report.

Fixpoint queue_attempts (attempts : nat) (admin : CurrentUser) (teamId : option string)
    : prog RepW (option Report) :=
  match attempts with
  | O => mret None
  | S attempts =>
      candidate ← gets (queue_candidate admin teamId);
      match candidate with
      | None => mret None
      | Some candidate =>
          let autoAssign := auto_assigned (rp_status candidate) in
          n ← report_claim (rp_id candidate)
                (λ r, bool_decide (rp_assignedToId r = None) &&
                      has_status (rp_status candidate) r)
                (upd_claimed admin autoAssign);
          if n =? 0 then queue_attempts attempts admin teamId
          else report ← claimed admin candidate autoAssign; mret (Some report)
      end
  end.
Definition queueNext : CurrentUser → option string → prog RepW (option Report) :=
  queue_attempts 5.

(** ** More lists *)

Definition findStalePending : prog RepW (list (Report * Z)) :=
  t ← now;
  let cutoff := t - rc_stalePendingHours cfg * 60 * 60 * 1000 in
  reports ← report_findMany (λ _ r, negb (terminal (rp_status r)) &&
    bool_decide (rp_assignedToId r = None) && (rp_createdAt r <? cutoff));
  t ← now;
  mret ((λ r, (r, (t - rp_createdAt r) / (60 * 60 * 1000))) <$> ordered oldest_first reports).

Definition listEscalated (admin : CurrentUser) (page limit : option Z)
    : prog RepW (Page ReportItem) :=
  pagedReports cfg admin (λ r, negb (deleted r) && has_status ESCALATED r) page limit
    escalated_order.

Definition getEscalations (admin : CurrentUser) (reportId : string)
    : prog RepW (list Escalation) :=
  loadForAdmin admin reportId false ;;
  gets (λ w, merge_sort (goes_before newest_escalation)
    (filter (λ e, es_reportId e = reportId) (map_to_list (rw_escalations w)).*2)).

Definition getAllowedTransitions (admin : CurrentUser) (reportId : string)
    : prog RepW (string * ReportStatus * list ReportStatus) :=
  report ← loadForAdmin admin reportId false;
  mret (rp_id report, rp_status report, ALLOWED_STATUS_TRANSITIONS (rp_status report)).
End workflow.
