(* ===== verification/ReportLifecycle.v ===== *)
(** * Reports: merging, archiving, deletion, flags and links

    Models [src/modules/core/report/service/report-lifecycle.service.ts]: the
    merge of a report into another and its undoing, archiving, the trash, the
    integrity flags and the links to other records. Splitting, the search for
    duplicates and the related reports are not modelled. *)

From S2P Require Import Prelude Js Roles ReportModel ReportCommon ReportWorkflow.
From stdpp Require Import sorting.
From coqutil Require Import Datatypes.RecordSetters.
Import DoubleBraceUpdate.

Open Scope Z_scope.

(** ** Merging *)

Definition merged_into (id : string) (r : Report) : bool :=
  bool_decide (rp_mergedIntoId r = Some id).

Definition merge_resolution (admin : CurrentUser) (target : Report) (t : Z) : Resolution := {|
  rs_closedAt := Some t; rs_outcome := Some NO_ACTION;
  rs_summary := Some ("Merged into " +:+ rp_caseReference target);
  rs_resolvedById := Some (cu_id admin) |}.

Definition upd_merged (admin : CurrentUser) (target : Report) (closeSource : bool) (t : Z)
    (r : Report) : Report :=
  let r := r{{rp_mergedIntoId := Some (rp_id target); rp_mergedAt := Some t;
              rp_lastActivityAt := t}} in
  if closeSource
  then r{{rp_status := CLOSED; rp_reporterUpdatedAt := t;
          rp_resolution := merge_resolution admin target t}}
  else r.

Definition snapshot_of (source : Report) (children : list Report) : MergeSnapshot := {|
  sn_previousStatus := rp_status source;
  sn_previousResolution := rp_resolution source;
  sn_closedByMerge := negb (terminal (rp_status source));
  sn_repointedChildIds := rp_id <$> children |}.

Definition upd_unmerged (snap : MergeSnapshot) (t : Z) (r : Report) : Report :=
  let r := r{{rp_mergedIntoId := None; rp_mergedAt := None; rp_lastActivityAt := t}} in
  if sn_closedByMerge snap
  then r{{rp_status := sn_previousStatus snap; rp_reporterUpdatedAt := t;
          rp_resolution := sn_previousResolution snap}}
  else r.

(** The newest merge of a report that was not undone. *)
Definition newest_merge (a b : ReportMerge) : bool := mg_createdAt b <=? mg_createdAt a.
Definition open_merge_of (reportId : string) (mergeId : option string) (m : ReportMerge) : bool :=
  bool_decide (mg_source m = reportId) && bool_decide (mg_unmergedAt m = None) &&
  match only_truthy mergeId with Some id => bool_decide (mg_id m = id) | None => true end.
Definition open_merge (reportId : string) (mergeId : option string) (w : RepW) : option ReportMerge :=
  head (merge_sort (goes_before newest_merge)
    (filter (λ m, open_merge_of reportId mergeId m = true) (map_to_list (rw_merges w)).*2)).
Definition merge_update (id : string) (f : ReportMerge → ReportMerge) : prog RepW () :=
  modify (λ w, w{{rw_merges ::= alter f id}}).

Section lifecycle.
Context `{RepLib} (cfg : RepConfig).

(** The transaction of [merge]. *)
Definition merge_tx (admin : CurrentUser) (source target : Report) (children : list Report)
    (reason : option string) (t : Z) : prog RepW Report :=
  let closeSource := negb (terminal (rp_status source)) in
  updated ← report_update (rp_id source) (λ _, upd_merged admin target closeSource t);
  (match children with
   | [] => mret ()
   | _ => report_updateMany (merged_into (rp_id source))
            (λ _ r, r{{rp_mergedIntoId := Some (rp_id target)}})
   end) ;;
  merge_create (λ id created, {|
    mg_id := id; mg_source := rp_id source; mg_target := rp_id target;
    mg_mergedById := Some (cu_id admin); mg_reason := reason;
    mg_snapshot := snapshot_of source children; mg_createdAt := created;
    mg_unmergedAt := None; mg_unmergedById := None; mg_unmergeReason := None |}) ;;
  (if closeSource then
     history_create (λ t, {| sc_reportId := rp_id source; sc_from := Some (rp_status source);
       sc_to := CLOSED; sc_changedById := Some (cu_id admin);
       sc_note := Some ("merged_into:" +:+ rp_caseReference target); sc_at := t |})
   else mret ()) ;;
  report_update (rp_id target) (λ _ r, r{{rp_lastActivityAt := t}}) ;;
  mret updated.

Definition merge (admin : CurrentUser) (sourceId targetReportId : string)
    (reason : option string) : prog RepW Report :=
  throw_if (bool_decide (sourceId = targetReportId)) (BadRequest "cannot_merge_into_itself") ;;
  source ← loadForAdminWrite admin sourceId "REPORT_MERGED";
  target ← loadForAdmin admin targetReportId false;
  throw_if (present (rp_mergedIntoId source)) (BadRequest "report_already_merged") ;;
  throw_if (present (rp_mergedIntoId target)) (BadRequest "target_report_is_merged") ;;
  children ← report_findMany (λ _, merged_into sourceId);
  t ← now;
  merged ← transaction (merge_tx admin source target children reason t);
  audit admin "REPORT_MERGED" source
    [success; ("targetReportId", JStr (rp_id target));
     ("targetCaseReference", JStr (rp_caseReference target))] (with_reason reason) ;;
  (if negb (terminal (rp_status source)) then notifyReporter merged else mret ()) ;;
  mret merged.

(** The transaction of [unmerge]. *)
Definition unmerge_tx (admin : CurrentUser) (source : Report) (m : ReportMerge) (reason : string)
    (t : Z) : prog RepW Report :=
  let snap := mg_snapshot m in
  updated ← report_update (rp_id source) (λ _, upd_unmerged snap t);
  (match sn_repointedChildIds snap with
   | [] => mret ()
   | ids => report_updateMany (λ r, mem (rp_id r) ids && merged_into (mg_target m) r)
              (λ _ r, r{{rp_mergedIntoId := Some (rp_id source)}})
   end) ;;
  merge_update (mg_id m) (λ m, m{{mg_unmergedAt := Some t;
    mg_unmergedById := Some (cu_id admin); mg_unmergeReason := Some reason}}) ;;
  (if sn_closedByMerge snap then
     history_create (λ t, {| sc_reportId := rp_id source; sc_from := Some (rp_status source);
       sc_to := sn_previousStatus snap; sc_changedById := Some (cu_id admin);
       sc_note := Some "unmerged"; sc_at := t |})
   else mret ()) ;;
  mret updated.

Definition unmerge (admin : CurrentUser) (reportId : string) (mergeId : option string)
    (reason : string) : prog RepW Report :=
  source ← loadForAdminWrite admin reportId "REPORT_UNMERGED";
  m ← gets (open_merge reportId mergeId);
  m ← require m (NotFound "merge_not_found");
  t ← now;
  restored ← transaction (unmerge_tx admin source m reason t);
  audit admin "REPORT_UNMERGED" source
    [success; ("mergeId", JStr (mg_id m)); ("restoredStatus", status_json (rp_status restored))]
    (with_reason (Some reason)) ;;
  (if sn_closedByMerge (mg_snapshot m) then notifyReporter restored else mret ()) ;;
  mret restored.

Definition getMergeHistory (admin : CurrentUser) (reportId : string) : prog RepW (list ReportMerge) :=
  loadForAdmin admin reportId true ;;
  gets (λ w, merge_sort (goes_before newest_merge)
    (filter (λ m, mg_source m = reportId ∨ mg_target m = reportId)
       (map_to_list (rw_merges w)).*2)).

(** ** Archiving *)

(** A single change of a report and its audit. *)
Definition changed (admin : CurrentUser) (reportId action : string)
    (upd : Z → Report → Report) (diff : Report → list (string * json)) (opts : AuditOpts)
    : prog RepW Report :=
  report ← report_update reportId upd;
  audit admin action report (success :: diff report) opts ;;
  mret report.

Definition archive (admin : CurrentUser) (reportId : string) (reason : option string)
    : prog RepW Report :=
  existing ← loadForAdminWrite admin reportId "REPORT_ARCHIVED";
  throw_if (bool_decide (is_Some (mk_at (rp_archive existing))))
    (BadRequest "report_already_archived") ;;
  throw_if (negb (terminal (rp_status existing)))
    (BadRequest "only_closed_reports_can_be_archived") ;;
  changed admin reportId "REPORT_ARCHIVED"
    (λ t r, r{{rp_lastActivityAt := t; rp_archive :=
       Build_Mark (Some t) (Some (cu_id admin)) reason}})
    (λ _, []) (with_reason reason).

Definition unarchive (admin : CurrentUser) (reportId : string) : prog RepW Report :=
  existing ← loadForAdminWrite admin reportId "REPORT_UNARCHIVED";
  throw_if (bool_decide (mk_at (rp_archive existing) = None)) (BadRequest "report_not_archived") ;;
  changed admin reportId "REPORT_UNARCHIVED"
    (λ t r, r{{rp_lastActivityAt := t; rp_archive := no_mark}}) (λ _, []) no_opts.

Definition marked_first (f : Report → Mark) (a b : Report) : bool :=
  default 0 (mk_at (f b)) <=? default 0 (mk_at (f a)).

Definition listArchived (admin : CurrentUser) (page limit : option Z)
    : prog RepW (Page ReportItem) :=
  pagedReports cfg admin (λ r, negb (deleted r) && bool_decide (is_Some (mk_at (rp_archive r))))
    page limit (marked_first rp_archive).

(** ** The trash *)

Definition softDelete (admin : CurrentUser) (reportId reason : string)
    : prog RepW (string * option Z) :=
  existing ← loadForAdmin admin reportId false;
  throw_if (rp_legalHold existing) (Forbidden "report_under_legal_hold") ;;
  report ← changed admin reportId "REPORT_DELETED"
    (λ t r, r{{rp_deletion := Build_Mark (Some t) (Some (cu_id admin)) (Some reason)}})
    (λ _, []) ((with_reason (Some reason)){{ao_severity := Some "WARNING"}});
  mret (rp_id report, mk_at (rp_deletion report)).

Definition restore (admin : CurrentUser) (reportId : string) : prog RepW Report :=
  existing ← loadForAdmin admin reportId true;
  throw_if (negb (deleted existing)) (BadRequest "report_not_deleted") ;;
  changed admin reportId "REPORT_RESTORED"
    (λ t r, r{{rp_lastActivityAt := t; rp_deletion := no_mark}}) (λ _, []) no_opts.

Definition listTrash (admin : CurrentUser) (page limit : option Z)
    : prog RepW (Page ReportItem) :=
  pagedReports cfg admin deleted page limit (marked_first rp_deletion).

(** ** Integrity flags *)

Definition upd_flag (admin : CurrentUser) (flag : ReportIntegrityFlag) (reason : option string)
    (t : Z) (r : Report) : Report :=
  r{{rp_integrityFlag := Some flag;
     rp_integrity := Build_Mark (Some t) (Some (cu_id admin)) reason}}.

Definition markSpam (admin : CurrentUser) (reportId : string) (reason : option string)
    : prog RepW Report :=
  existing ← loadForAdminWrite admin reportId "REPORT_INTEGRITY_FLAGGED";
  throw_if (bool_decide (is_Some (rp_integrityFlag existing)))
    (BadRequest "report_already_flagged") ;;
  let canReject := allows (rp_status existing) REJECTED in
  report ← (if canReject then
      res ← applyTransition existing REJECTED (Some (cu_id admin))
              (upd_flag admin SPAM reason) (Some "marked_spam");
      require res transition_conflict
    else report_update reportId
           (λ t r, (upd_flag admin SPAM reason t r){{rp_lastActivityAt := t}}));
  audit admin "REPORT_INTEGRITY_FLAGGED" report
    [success; ("flag", JStr (flag_name SPAM)); ("rejected", JBool canReject)]
    (with_reason reason) ;;
  (if canReject then
     notifyReporter report ;;
     match only_truthy (rp_userId report) with
     | Some u => maybeFlagUserForRejections cfg u
     | None => mret ()
     end
   else mret ()) ;;
  mret report.

Definition markFalse (admin : CurrentUser) (reportId reason : string) (malicious : bool)
    : prog RepW Report :=
  existing ← loadForAdminWrite admin reportId "REPORT_INTEGRITY_FLAGGED";
  throw_if (bool_decide (is_Some (rp_integrityFlag existing)))
    (BadRequest "report_already_flagged") ;;
  let flag := if malicious then MALICIOUS_FALSE_REPORT else FALSE_REPORT in
  changed admin reportId "REPORT_INTEGRITY_FLAGGED"
    (λ t r, (upd_flag admin flag (Some reason) t r){{rp_lastActivityAt := t}})
    (λ _, [("flag", JStr (flag_name flag))])
    ((with_reason (Some reason)){{ao_severity := if malicious then Some "WARNING" else None}}).

Definition unmark (admin : CurrentUser) (reportId : string) (reason : option string)
    : prog RepW Report :=
  existing ← loadForAdminWrite admin reportId "REPORT_INTEGRITY_CLEARED";
  flag ← require (rp_integrityFlag existing) (BadRequest "report_not_flagged");
  changed admin reportId "REPORT_INTEGRITY_CLEARED"
    (λ t r, r{{rp_integrityFlag := None; rp_integrity := no_mark; rp_lastActivityAt := t}})
    (λ _, [("previousFlag", JStr (flag_name flag))]) (with_reason reason).

Definition listSpam (admin : CurrentUser) (page limit : option Z)
    : prog RepW (Page ReportItem) :=
  pagedReports cfg admin
    (λ r, negb (deleted r) && bool_decide (is_Some (rp_integrityFlag r)))
    page limit (marked_first rp_integrity).

(** ** Links *)

Definition newest_link (a b : Link) : bool := lk_createdAt b <=? lk_createdAt a.
Definition getLinks (admin : CurrentUser) (reportId : string) : prog RepW (list Link) :=
  loadForAdmin admin reportId false ;;
  gets (λ w, merge_sort (goes_before newest_link)
    (filter (λ l, lk_reportId l = reportId) (map_to_list (rw_links w)).*2)).

Definition addLink (admin : CurrentUser) (reportId : string) (recordType : ReportLinkRecordType)
    (recordId : string) (note : option string) : prog RepW Link :=
  report ← loadForAdminWrite admin reportId "REPORT_LINKED";
  (if bool_decide (recordType = REPORT) then
     throw_if (bool_decide (recordId = reportId)) (BadRequest "cannot_link_report_to_itself") ;;
     loadForAdmin admin recordId false ;;
     mret ()
   else mret ()) ;;
  catch (
    link ← link_create (λ id created, {| lk_id := id; lk_reportId := reportId;
      lk_recordType := recordType; lk_recordId := recordId; lk_note := note;
      lk_createdById := cu_id admin; lk_createdAt := created |});
    audit admin "REPORT_LINKED" report
      [success; ("recordType", JStr (record_type_name recordType)); ("recordId", JStr recordId)]
      no_opts ;;
    mret link)
  (λ err, match err with
          | PrismaKnown code _ =>
              if bool_decide (code = "P2002") then Throw (Conflict "link_already_exists")
              else Throw err
          | _ => Throw err
          end).

(** [deleteMany]: the number of rows. *)
Definition link_delete (id reportId : string) : prog RepW Z :=
  act (λ w,
    match rw_links w !! id with
    | Some l =>
        if bool_decide (lk_reportId l = reportId) then (1, w{{rw_links ::= delete id}}) else (0, w)
    | None => (0, w)
    end).

Definition removeLink (admin : CurrentUser) (reportId linkId : string) : prog RepW () :=
  report ← loadForAdminWrite admin reportId "REPORT_UNLINKED";
  n ← link_delete linkId reportId;
  throw_if (n =? 0) (NotFound "link_not_found") ;;
  audit admin "REPORT_UNLINKED" report [success; ("linkId", JStr linkId)] no_opts.
End lifecycle.
