(* ===== verification/ReportAccess.v ===== *)
(** * Reports: sensitivity, access grants, reveals and legal holds

    Models [src/modules/core/report/service/report-access.service.ts]. *)

From S2P Require Import Prelude Js Roles ReportModel ReportCommon ReportWorkflow.
From S2P Require Import ReportLifecycle.
From stdpp Require Import sorting.
From coqutil Require Import Datatypes.RecordSetters.
Import DoubleBraceUpdate.

Open Scope Z_scope.

Definition warning (opts : AuditOpts) : AuditOpts := opts{{ao_severity := Some "WARNING"}}.

(** A row of the access log with the name of its user. *)
Definition named_log (w : RepW) (l : AccessLog) : AccessLog * option string :=
  (l, match only_truthy (al_userId l) with
      | Some u => rw_users w !! u ≫= ru_name
      | None => None
      end).

Definition named_logs (w : RepW) (ls : list AccessLog) : list (AccessLog * option string) :=
  named_log w <$> ls.

(** A grant with the administrator it includes. *)
Record GrantItem := {
  gi_grant : AccessGrant;
  gi_admin : option (string * option string);
  gi_isActive : bool;
}.
Definition newest_grant (a b : AccessGrant) : bool := ag_createdAt b <=? ag_createdAt a.
Definition grant_active (t : Z) (g : AccessGrant) : bool :=
  bool_decide (ag_revokedAt g = None) &&
  match ag_expiresAt g with None => true | Some e => t <? e end.
Definition grant_item (w : RepW) (t : Z) (g : AccessGrant) : GrantItem := {|
  gi_grant := g;
  gi_admin := u ← rw_users w !! ag_adminId g; Some (ru_id u, ru_name u);
  gi_isActive := grant_active t g |}.

Definition grant_items (reportId : string) (w : RepW) : list GrantItem :=
  grant_item w (rw_now w) <$> merge_sort (goes_before newest_grant)
    (filter (λ g, ag_reportId g = reportId) (map_to_list (rw_grants w)).*2).

(** [reportAccessGrant.updateMany] of the grants that are not revoked: the count. *)
Definition unrevoked (reportId adminId : string) (g : AccessGrant) : bool :=
  bool_decide (ag_reportId g = reportId) && bool_decide (ag_adminId g = adminId) &&
  bool_decide (ag_revokedAt g = None).
Definition grants_revoke (reportId adminId byId : string) : prog RepW Z :=
  act (λ w,
    (len (filter (λ g, unrevoked reportId adminId g = true) (map_to_list (rw_grants w)).*2),
     w{{rw_grants ::= fmap (λ g, if unrevoked reportId adminId g
          then g{{ag_revokedAt := Some (rw_now w); ag_revokedById := Some byId}} else g)}})).

Section access.
Context `{RepLib} (cfg : RepConfig).

(** [logAccess]: its failures are swallowed. *)
Definition logAccess (reportId : string) (userId : option string) (action : string)
    (ip : option string) : prog RepW () :=
  modify (λ w, w{{rw_accessLog ::= cons {|
    al_reportId := reportId; al_userId := userId; al_action := action;
    al_ipAddress := ip; al_createdAt := rw_now w |} }}).

Definition updateSensitivity (admin : CurrentUser) (reportId : string)
    (level : ReportSensitivity) (reason : string) : prog RepW Report :=
  existing ← loadForAdminWrite admin reportId "REPORT_SENSITIVITY_CHANGED";
  if bool_decide (rp_sensitivity existing = level) then mret existing else
  report ← revised admin reportId
    (λ t r, r{{rp_sensitivity := level; rp_lastActivityAt := t}})
    [("sensitivity", JObj [("from", JStr (sensitivity_name (rp_sensitivity existing)));
                           ("to", JStr (sensitivity_name level))]);
     ("reason", JStr reason)];
  audit admin "REPORT_SENSITIVITY_CHANGED" report
    [success; ("from", JStr (sensitivity_name (rp_sensitivity existing)));
     ("to", JStr (sensitivity_name level))] (warning (with_reason (Some reason))) ;;
  mret report.

Definition getAccessLog (admin : CurrentUser) (reportId : string) (page limit : option Z)
    : prog RepW (list (AccessLog * option string) * Z * Z * Z) :=
  loadForAdmin admin reportId true ;;
  let '(page, limit, skip) := paging page limit 100 in
  gets (λ w,
    let rows := filter (λ l, al_reportId l = reportId) (rw_accessLog w) in
    (named_logs w (take (Z.to_nat limit) (drop (Z.to_nat skip) rows)), len rows, page, limit)).

Definition listAccessGrants (admin : CurrentUser) (reportId : string)
    : prog RepW (list GrantItem) :=
  loadForAdmin admin reportId false ;;
  gets (grant_items reportId).

Definition grantAccess (admin : CurrentUser) (reportId adminId reason : string)
    (expiresAt : option Z) : prog RepW AccessGrant :=
  report ← loadForAdmin admin reportId false;
  target ← user_by_id adminId;
  target ← require target (NotFound "assignee_not_found");
  throw_if (negb (eligible target)) (BadRequest "grantee_must_be_an_admin") ;;
  t ← now;
  throw_if (match expiresAt with Some e => e <=? t | None => false end)
    (BadRequest "expiry_must_be_in_the_future") ;;
  active ← gets (λ w, find_row (λ g, bool_decide (ag_reportId g = reportId) &&
                                    activeGrant adminId (rw_now w) g) (rw_grants w));
  throw_if (bool_decide (is_Some active)) (Conflict "access_already_granted") ;;
  grant ← grant_create (λ id created, {|
    ag_id := id; ag_reportId := reportId; ag_adminId := adminId;
    ag_grantedById := Some (cu_id admin); ag_reason := reason; ag_expiresAt := expiresAt;
    ag_revokedAt := None; ag_revokedById := None; ag_createdAt := created |});
  audit admin "REPORT_ACCESS_GRANTED" report
    [success; ("grantedTo", JStr adminId);
     ("expiresAt", match expiresAt with Some e => JNum e | None => JNull end)]
    (warning ((with_reason (Some reason)){{ao_targetUserId := Some adminId}})) ;;
  mret grant.

Definition revokeAccess (admin : CurrentUser) (reportId adminId : string) : prog RepW Z :=
  report ← loadForAdmin admin reportId false;
  n ← grants_revoke reportId adminId (cu_id admin);
  throw_if (n =? 0) (NotFound "access_grant_not_found") ;;
  audit admin "REPORT_ACCESS_REVOKED" report [success; ("revokedFrom", JStr adminId)]
    (no_opts{{ao_targetUserId := Some adminId}}) ;;
  mret n.

(** The reveal is recorded before the identity is read. *)
Definition revealReporter (admin : CurrentUser) (reportId reason : string)
    (ticketRef ip : option string) : prog RepW (bool * option RepUser) :=
  report ← loadForAdmin admin reportId false;
  userId ← require (only_truthy (rp_userId report)) (NotFound "reporter_unknown");
  modify (λ w, w{{rw_reveals ::= cons {| rl_reportId := reportId;
    rl_revealedById := cu_id admin; rl_reason := reason; rl_ticketRef := ticketRef |} }}) ;;
  logAccess reportId (Some (cu_id admin)) "REPORTER_REVEAL" ip ;;
  reporter ← user_by_id userId;
  audit admin "REPORTER_REVEALED" report
    [success; ("wasAnonymous", JBool (rp_isAnonymous report))]
    (warning ((with_reason (Some reason)){{ao_targetUserId := Some userId;
       ao_metadata := [("ticketRef", json_opt ticketRef)] }})) ;;
  mret (rp_isAnonymous report, reporter).

Definition setLegalHold (admin : CurrentUser) (reportId : string) (enabled : bool)
    (reason : string) : prog RepW Report :=
  existing ← loadForAdmin admin reportId true;
  if eqb (rp_legalHold existing) enabled then mret existing else
  report ← report_update reportId (λ t r,
    if enabled
    then r{{rp_legalHold := true; rp_hold := Build_Mark (Some t) (Some (cu_id admin)) (Some reason)}}
    else r{{rp_legalHold := false; rp_hold := no_mark}});
  audit admin "REPORT_LEGAL_HOLD_CHANGED" report [success; ("enabled", JBool enabled)]
    (warning (with_reason (Some reason))) ;;
  mret report.
End access.
