(* ===== verification/ReportSubmission.v ===== *)
(** * Reports: submission, withdrawal, drafts and synchronisation

    Models [src/modules/core/report/service/report-submission.service.ts]. The
    instantiation and validation of a stored draft (class-transformer and
    class-validator) is the parameter [instantiate], the object storage
    [stat_of]. *)

From S2P Require Import Prelude Js Roles ReportModel ReportCommon ReportWorkflow.
From stdpp Require Import sorting.
From coqutil Require Import Datatypes.RecordSetters.
Import DoubleBraceUpdate.

Open Scope Z_scope.

(** ** What is submitted *)

Record MediaBearingDto := {
  d_photo : option (list string);
  d_video : option (list string);
  d_audio : option (list string);
  d_pdf : option (list string);
  d_document : option (list string);
  d_other : option (list string);
}.
Record CreateReportDto := {
  cd_category : ReportCategory;
  cd_description : string;
  cd_location : option string;
  cd_incidentAt : option Z;
  cd_media : MediaBearingDto;
}.
Record UpdateReportDto := {
  ud_category : option ReportCategory;
  ud_description : option string;
  ud_location : option string;
  ud_incidentAt : option Z;
  ud_media : MediaBearingDto;
}.

Definition no_media : MediaBearing :=
  {| m_photo := []; m_video := []; m_audio := []; m_pdf := []; m_document := []; m_other := [] |}.
(** [data.photo ?? base.photo], for every field *)
Definition media_or (d : MediaBearingDto) (base : MediaBearing) : MediaBearing := {|
  m_photo := default (m_photo base) (d_photo d);
  m_video := default (m_video base) (d_video d);
  m_audio := default (m_audio base) (d_audio d);
  m_pdf := default (m_pdf base) (d_pdf d);
  m_document := default (m_document base) (d_document d);
  m_other := default (m_other base) (d_other d) |}.

Definition media_fields (m : MediaBearing) (d : MediaBearingDto)
    : list (list string * option (list string)) :=
  [(m_photo m, d_photo d); (m_video m, d_video d); (m_audio m, d_audio d);
   (m_pdf m, d_pdf d); (m_document m, d_document d); (m_other m, d_other d)].

(** What an update adds to and removes from the media. *)
Definition diffMediaFields (before : MediaBearing) (incoming : MediaBearingDto)
    : list string * list string :=
  foldl (λ '(added, removed) '(prev, next),
    match next with
    | None => (added, removed)
    | Some next => (added ++ filter (λ fp, fp ∉ prev) next,
                    removed ++ filter (λ fp, fp ∉ next) prev)
    end) ([], []) (media_fields before incoming).

Definition sum (ns : list Z) : Z := foldl Z.add 0 ns.

(** ** Drafts: JSON objects *)

Definition obj_get (key : string) (o : list (string * json)) : option json :=
  snd <$> head (filter (λ kv, kv.1 = key) o).
(** [{ ...a, ...b }] *)
Definition spread (a b : list (string * json)) : list (string * json) :=
  ((λ kv, (kv.1, default kv.2 (obj_get kv.1 b))) <$> a) ++
  filter (λ kv, obj_get kv.1 a = None) b.
(** [const { credential, ...data } = dto] *)
Definition without_credential (dto : list (string * json)) : list (string * json) :=
  filter (λ kv, kv.1 ≠ "credential") dto.

Definition newest_draft (a b : Draft) : bool := df_updatedAt b <=? df_updatedAt a.
Definition draft_open (user : CurrentUser) (t : Z) (d : Draft) : bool :=
  bool_decide (df_userId d = cu_id user) &&
  match df_expiresAt d with None => true | Some e => t <? e end.

Inductive SyncStatus := created | duplicate | invalid | failed.
#[export] Instance SyncStatus_eq_dec : EqDecision SyncStatus.
Proof. solve_decision. Defined.
Record SyncItem := { si_clientId : string; si_createdAt : Z; si_data : list (string * json) }.
Record SyncResult := {
  sr_clientId : string;
  sr_status : SyncStatus;
  sr_reportId : option string;
  sr_caseReference : option string;
  sr_error : option string;
}.
Record SyncSummary := {
  ss_total : Z; ss_created : Z; ss_duplicates : Z; ss_failed : Z; ss_results : list SyncResult }.

Section submission.
Context `{RepLib} (cfg : RepConfig) (stat_of : string → option (Z * string)).
Context (instantiate : list (string * json) → CreateReportDto + list string).

(** ** Suspended reporters *)

Definition handleUserSuspended (userId : string) : prog RepW () :=
  t ← now;
  report_updateMany (λ r, bool_decide (rp_userId r = Some userId) &&
      negb (terminal (rp_status r)) && bool_decide (rp_ownerSuspendedAt r = None))
    (λ _ r, r{{rp_ownerSuspendedAt := Some t}}) ;;
  suspendedUser ← user_by_id userId;
  emitAudit {|
    ra_userId := None; ra_targetUserId := Some userId; ra_actorType := ActorSYSTEM;
    ra_action := "REPORT_UPDATED"; ra_outcome := None; ra_severity := None;
    ra_entity := "User"; ra_entityId := userId;
    ra_entityLabel := suspendedUser ≫= ru_name; ra_reason := None;
    ra_diff := [("reason", JStr "owner_account_suspended"); success]; ra_metadata := [] |}.

(** ** Limits *)

Definition of_user (userId : string) (r : Report) : bool := bool_decide (rp_userId r = Some userId).

Definition enforceCreateRateLimit (userId : string) : prog RepW () :=
  lastReport ← gets (λ w, head (ordered newest_first
    (filter (λ r, of_user userId r = true) (map_to_list (rw_reports w)).*2)));
  t ← now;
  throw_if (match lastReport with
            | Some r => t - rp_createdAt r <? rc_createCooldownSeconds cfg * 1000
            | None => false
            end) (BadRequest "report_creation_rate_limited").

Definition enforceMaxPendingReports (userId : string) : prog RepW () :=
  pendingCount ← report_count (λ _ r, of_user userId r && has_status PENDING r);
  throw_if (rc_maxPending cfg <=? pendingCount) (BadRequest "too_many_pending_reports").

(** ** Creation *)

(** The row of [report.create], with the defaults of the schema. *)
Definition new_report (userId caseReference : string) (data : CreateReportDto)
    (merged : MediaBearing) (totalBytes : Z) (idempotencyKey : option string)
    (id : string) (t : Z) : Report := {|
  rp_id := id; rp_userId := Some userId; rp_caseReference := caseReference;
  rp_category := cd_category data; rp_description := cd_description data;
  rp_location := cd_location data; rp_incidentAt := cd_incidentAt data;
  rp_media := merged; rp_mediaTotalBytes := totalBytes;
  rp_idempotencyKey := idempotencyKey; rp_status := PENDING; rp_priority := MEDIUM;
  rp_sensitivity := STANDARD; rp_assignedToId := None; rp_assignedTeamId := None;
  rp_isAnonymous := false; rp_gps := None; rp_urgentFlaggedAt := None;
  rp_urgentDetails := None; rp_ownerSuspendedAt := None;
  rp_resolution := {| rs_closedAt := None; rs_outcome := None; rs_summary := None;
                      rs_resolvedById := None |};
  rp_integrityFlag := None; rp_integrity := no_mark; rp_archive := no_mark;
  rp_deletion := no_mark; rp_legalHold := false; rp_hold := no_mark;
  rp_mergedIntoId := None; rp_mergedAt := None; rp_dueAt := None;
  rp_createdAt := t; rp_updatedAt := t; rp_lastActivityAt := t; rp_reporterUpdatedAt := t;
  rp_reporterSeenAt := None; rp_updatesMuted := false; rp_updatesMutedUntil := None;
  rp_contactMethod := IN_APP; rp_contactWindow := None; rp_clientCreatedAt := None |}.

Definition keyed_report (user : CurrentUser) (key : string) (r : Report) : bool :=
  owned user r && bool_decide (rp_idempotencyKey r = Some key).

(** [remaining] attempts remain. *)
Fixpoint create_attempts (remaining : nat) (user : CurrentUser) (data : CreateReportDto)
    (merged : MediaBearing) (totalBytes : Z) (idempotencyKey : option string)
    : prog RepW Report :=
  match remaining with
  | O => Throw (JsError "failed_to_generate_unique_case_reference")
  | S remaining =>
      caseReference ← generateCaseReference;
      r ← attempt (report_create
            (new_report (cu_id user) caseReference data merged totalBytes idempotencyKey));
      match r with
      | Ok report => mret report
      | Err err =>
          match err with
          | PrismaKnown code target =>
              if negb (bool_decide (code = "P2002")) then Throw err
              else if mem "caseReference" target then
                match remaining with
                | O => Throw err
                | _ => create_attempts remaining user data merged totalBytes idempotencyKey
                end
              else match only_truthy idempotencyKey with
                   | Some key =>
                       if existsb (includes "idempotencyKey") target then
                         winner ← report_findFirst (λ _, keyed_report user key);
                         match winner with Some winner => mret winner | None => Throw err end
                       else Throw err
                   | None => Throw err
                   end
          | _ => Throw err
          end
      end
  end.
Definition createReportWithUniqueCaseReference :
    CurrentUser → CreateReportDto → MediaBearing → Z → option string → prog RepW Report :=
  create_attempts CASE_REFERENCE_MAX_ATTEMPTS.

(** Counts, files and their total size. *)
Definition checked_media (merged : MediaBearing) : outcome Z :=
  assertAttachmentCounts cfg merged ;;
  validated ← validateMediaFilesExist cfg stat_of (collectMediaFields merged);
  assertTotalBytes cfg (sum validated.*2) ;;
  mret (sum validated.*2).

Definition notify_created (report : Report) (user : CurrentUser) : prog RepW () :=
  emit (RepNotified "notification.report_received"
    [("reportId", JStr (rp_id report)); ("userId", JStr (cu_id user));
     ("caseReference", JStr (rp_caseReference report))]) ;;
  emit (RepNotified "notification.new_report"
    [("reportId", JStr (rp_id report)); ("caseReference", JStr (rp_caseReference report));
     ("userId", JStr (cu_id user))]).

Definition create_new (user : CurrentUser) (data : CreateReportDto)
    (idempotencyKey : option string) : prog RepW Report :=
  enforceCreateRateLimit (cu_id user) ;;
  enforceMaxPendingReports (cu_id user) ;;
  let merged := media_or (cd_media data) no_media in
  totalBytes ← throw_outcome (checked_media merged);
  report ← createReportWithUniqueCaseReference user data merged totalBytes idempotencyKey;
  emitAudit {|
    ra_userId := Some (cu_id user); ra_targetUserId := None;
    ra_actorType := resolveActorType (cu_roles user); ra_action := "REPORT_CREATED";
    ra_outcome := None; ra_severity := None; ra_entity := "Report";
    ra_entityId := rp_id report; ra_entityLabel := Some (rp_caseReference report);
    ra_reason := None; ra_diff := [success; ("status", status_json (rp_status report))];
    ra_metadata := [("category", JStr (category_name (rp_category report)));
                    ("attachmentCount", JNum (len (collectMediaFields merged)));
                    ("mediaTotalBytes", JNum totalBytes)] |} ;;
  notify_created report user ;;
  mret report.

Definition create (user : CurrentUser) (data : CreateReportDto)
    (idempotencyKey : option string) : prog RepW Report :=
  match only_truthy idempotencyKey with
  | Some key =>
      existing ← report_findFirst (λ _, keyed_report user key);
      match existing with
      | Some existing => mret existing
      | None => create_new user data idempotencyKey
      end
  | None => create_new user data idempotencyKey
  end.

(** ** The reporter's own reports *)

Definition findMyReports (user : CurrentUser) : prog RepW (list Report) :=
  gets (λ w, ordered newest_first
    (filter (λ r, owned user r = true) (map_to_list (rw_reports w)).*2)).

Definition own_row (user : CurrentUser) (reportId : string) (w : RepW) : option Report :=
  r ← rw_reports w !! reportId; if owned user r then Some r else None.
Definition findOne (user : CurrentUser) (reportId : string) : prog RepW Report :=
  report ← gets (own_row user reportId);
  require report (NotFound "report_not_found").

(** The checks of an update: what is added, what is removed, the new total. *)
Definition checked_update (existing : Report) (data : UpdateReportDto) : outcome Z :=
  let '(added, removed) := diffMediaFields (rp_media existing) (ud_media data) in
  assertAttachmentCounts cfg (media_or (ud_media data) (rp_media existing)) ;;
  validatedAdded ← validateMediaFilesExist cfg stat_of added;
  let addedBytes := sum validatedAdded.*2 in
  let removedBytes := sum ((λ fp, match stat_of fp with Some (size, _) => size | None => 0 end)
                             <$> removed) in
  let newTotalBytes := Z.max 0 (rp_mediaTotalBytes existing + addedBytes - removedBytes) in
  assertTotalBytes cfg newTotalBytes ;;
  mret newTotalBytes.

Definition upd_content (data : UpdateReportDto) (newTotalBytes : Z) (r : Report) : Report :=
  r{{rp_category := default (rp_category r) (ud_category data);
     rp_description := default (rp_description r) (ud_description data);
     rp_location := match ud_location data with Some l => Some l | None => rp_location r end;
     rp_incidentAt := match ud_incidentAt data with Some t => Some t | None => rp_incidentAt r end;
     rp_media := media_or (ud_media data) (rp_media r);
     rp_mediaTotalBytes := newTotalBytes}}.

Definition update (user : CurrentUser) (reportId : string) (data : UpdateReportDto)
    : prog RepW Report :=
  existing ← findOne user reportId;
  if negb (has_status PENDING existing) then
    audit_failure user None "REPORT_UPDATED" "FAILURE" existing
      [failure; ("reason", JStr "only_pending_reports_can_be_updated");
       ("currentStatus", status_json (rp_status existing))] ;;
    Throw (BadRequest "only_pending_reports_can_be_updated")
  else
  let '(added, removed) := diffMediaFields (rp_media existing) (ud_media data) in
  newTotalBytes ← catch (throw_outcome (checked_update existing data)) (λ err,
    audit_failure user None "REPORT_UPDATED" "FAILURE" existing
      [failure; ("reason", JStr "media_validation_failed");
       ("message", JStr (exn_message err))] ;;
    Throw err);
  report ← report_update reportId (λ _, upd_content data newTotalBytes);
  for_each (λ fp, emit (RepMediaDeleted fp)) removed ;;
  audit_success user None "REPORT_UPDATED" report None
    (from_to (rp_status existing) (rp_status report))
    [("mediaAdded", JNum (len added)); ("mediaRemoved", JNum (len removed));
     ("mediaTotalBytes", JNum newTotalBytes)] ;;
  notifyReporter report ;;
  mret report.

Definition withdraw (user : CurrentUser) (reportId : string) : prog RepW Report :=
  existing ← findOne user reportId;
  if negb (has_status PENDING existing) then
    audit_failure user None "REPORT_WITHDRAWN" "FAILURE" existing
      [failure; ("reason", JStr "only_pending_reports_can_be_withdrawn");
       ("currentStatus", status_json (rp_status existing))] ;;
    Throw (BadRequest "only_pending_reports_can_be_withdrawn")
  else
  n ← report_claim reportId (has_status PENDING) (λ _ r, r{{rp_status := REJECTED}});
  if n =? 0 then
    audit_failure user None "REPORT_WITHDRAWN" "FAILURE" existing
      [failure; ("reason", JStr "report_transition_conflict")] ;;
    Throw (BadRequest "only_pending_reports_can_be_withdrawn")
  else
  report ← report_by_id_or_throw reportId;
  audit_success user None "REPORT_WITHDRAWN" report None
    (from_to (rp_status existing) (rp_status report)) [] ;;
  notifyReporter report ;;
  mret report.

(** ** Drafts *)

Definition draftExpiry (t : Z) : Z := t + rc_draftTtlDays cfg * 24 * 60 * 60 * 1000.

Definition own_draft (user : CurrentUser) (draftId : string) (w : RepW) : option Draft :=
  d ← rw_drafts w !! draftId; if draft_open user (rw_now w) d then Some d else None.
Definition findOwnedDraft (user : CurrentUser) (draftId : string) : prog RepW Draft :=
  draft ← gets (own_draft user draftId);
  require draft (NotFound "draft_not_found").

Definition saveDraft (user : CurrentUser) (dto : list (string * json)) : prog RepW Draft :=
  count ← gets (λ w, len (filter (λ d, df_userId d = cu_id user) (map_to_list (rw_drafts w)).*2));
  throw_if (rc_maxDrafts cfg <=? count) (BadRequest "too_many_drafts") ;;
  t ← now;
  id ← randomUUID;
  act (λ w,
    let d := {| df_id := id; df_userId := cu_id user; df_data := without_credential dto;
                df_expiresAt := Some (draftExpiry t); df_updatedAt := rw_now w |} in
    (d, w{{rw_drafts ::= insert id d}})).

Definition listDrafts (user : CurrentUser) (page limit : option Z)
    : prog RepW (list Draft * Z * Z * Z) :=
  let '(page, limit, skip) := paging page limit 100 in
  gets (λ w,
    let rows := filter (λ d, draft_open user (rw_now w) d = true) (map_to_list (rw_drafts w)).*2 in
    (take (Z.to_nat limit) (drop (Z.to_nat skip) (merge_sort (goes_before newest_draft) rows)),
     len rows, page, limit)).

Definition updateDraft (user : CurrentUser) (draftId : string) (dto : list (string * json))
    : prog RepW Draft :=
  draft ← findOwnedDraft user draftId;
  t ← now;
  act_outcome (λ w,
    match rw_drafts w !! draftId with
    | Some d =>
        let d := {| df_id := df_id d; df_userId := df_userId d;
                    df_data := spread (df_data draft) (without_credential dto);
                    df_expiresAt := Some (draftExpiry t); df_updatedAt := rw_now w |} in
        (Ok d, w{{rw_drafts ::= insert draftId d}})
    | None => (Err P2025, w)
    end).

(** [deleteMany]: the number of rows. *)
Definition draft_delete (user : CurrentUser) (draftId : string) : prog RepW Z :=
  act (λ w,
    match rw_drafts w !! draftId with
    | Some d => if bool_decide (df_userId d = cu_id user)
                then (1, w{{rw_drafts ::= delete draftId}}) else (0, w)
    | None => (0, w)
    end).
Definition deleteDraft (user : CurrentUser) (draftId : string) : prog RepW () :=
  n ← draft_delete user draftId;
  throw_if (n =? 0) (NotFound "draft_not_found").

Definition submitDraft (user : CurrentUser) (draftId : string) (idempotencyKey : option string)
    : prog RepW Report :=
  draft ← findOwnedDraft user draftId;
  match instantiate (df_data draft) with
  | inr errors => Throw (BadRequest ("draft_incomplete:" +:+ String.concat "," errors))
  | inl dto =>
      report ← create user dto (Some (default ("draft-" +:+ draftId) idempotencyKey));
      draft_delete user draftId ;;
      mret report
  end.

(** ** Synchronisation *)

Definition sync_result (clientId : string) (status : SyncStatus) (report : option Report)
    (error : option string) : SyncResult := {|
  sr_clientId := clientId; sr_status := status; sr_reportId := rp_id <$> report;
  sr_caseReference := rp_caseReference <$> report; sr_error := error |}.

Definition sync_item (user : CurrentUser) (item : SyncItem) : prog RepW SyncResult :=
  existing ← report_findFirst (λ _, keyed_report user (si_clientId item));
  match existing with
  | Some existing => mret (sync_result (si_clientId item) duplicate (Some existing) None)
  | None =>
      match instantiate (si_data item) with
      | inr errors => mret (sync_result (si_clientId item) invalid None
                        (Some ("validation_failed:" +:+ String.concat "," errors)))
      | inl instance =>
          let merged := media_or (cd_media instance) no_media in
          totalBytes ← throw_outcome (checked_media merged);
          report ← createReportWithUniqueCaseReference user instance merged totalBytes
                     (Some (si_clientId item));
          report_update (rp_id report)
            (λ _ r, r{{rp_clientCreatedAt := Some (si_createdAt item)}}) ;;
          audit user "REPORT_CREATED" report
            [success; ("status", status_json (rp_status report))]
            (no_opts{{ao_metadata := [("synced", JBool true);
               ("clientId", JStr (si_clientId item)); ("mediaTotalBytes", JNum totalBytes)] }}) ;;
          notify_created report user ;;
          mret (sync_result (si_clientId item) created (Some report) None)
      end
  end.

Fixpoint sync_loop (user : CurrentUser) (items : list SyncItem) (results : list SyncResult)
    : prog RepW (list SyncResult) :=
  match items with
  | [] => mret results
  | item :: items =>
      r ← catch (sync_item user item)
            (λ err, mret (sync_result (si_clientId item) failed None (Some (exn_message err))));
      sync_loop user items (results ++ [r])
  end.

Definition with_sync_status (P : SyncStatus → bool) (results : list SyncResult) : Z :=
  len (filter (λ r, P (sr_status r) = true) results).
Definition syncReports (user : CurrentUser) (items : list SyncItem) : prog RepW SyncSummary :=
  results ← sync_loop user items [];
  mret {|
    ss_total := len results;
    ss_created := with_sync_status (λ s, bool_decide (s = created)) results;
    ss_duplicates := with_sync_status (λ s, bool_decide (s = duplicate)) results;
    ss_failed := with_sync_status (λ s, bool_decide (s = invalid) || bool_decide (s = failed))
                   results;
    ss_results := results |}.
End submission.
