(* ===== verification/ReportReporter.v ===== *)
(** * Reports: what reporters do with their reports

    Models [src/modules/core/report/service/report-reporter.service.ts]: further
    evidence, requests to reopen and to erase, feedback, marks and preferences,
    the urgent flag and anonymity. The timeline, the pending information
    requests and the PDF are not modelled. *)

From S2P Require Import Prelude Js Roles ReportModel ReportCommon ReportWorkflow.
From S2P Require Import ReportSubmission.
From stdpp Require Import sorting.
From coqutil Require Import Datatypes.RecordSetters.
Import DoubleBraceUpdate.

Open Scope Z_scope.

(** ** Evidence *)

(** The part after the last dot: [key.split('.').pop()] *)
Definition extension (key : string) : string := default "" (last (Js.split "."%char key)).

Definition kindFromMime (mime : option string) (key : string) : ReportEvidenceKind :=
  let m := toLowerCase (default "" mime) in
  let ext := toLowerCase (extension key) in
  if starts_with "image/" m || mem ext ["jpg"; "jpeg"; "png"; "webp"; "gif"; "heic"] then PHOTO
  else if starts_with "video/" m || mem ext ["mp4"; "mov"; "webm"; "mkv"] then VIDEO
  else if starts_with "audio/" m || mem ext ["mp3"; "m4a"; "wav"; "ogg"; "aac"] then AUDIO
  else if bool_decide (m = "application/pdf") || bool_decide (ext = "pdf") then PDF
  else if includes "msword" m || includes "officedocument" m || starts_with "text/" m ||
          mem ext ["doc"; "docx"; "txt"; "rtf"; "odt"] then DOCUMENT
  else OTHER_KIND.

(** [merged[fieldForKind(kind)].push(key)] *)
Definition push_media (m : MediaBearing) (kind : ReportEvidenceKind) (key : string)
    : MediaBearing :=
  match kind with
  | PHOTO => m{{m_photo := m_photo m ++ [key] }}
  | VIDEO => m{{m_video := m_video m ++ [key] }}
  | AUDIO => m{{m_audio := m_audio m ++ [key] }}
  | PDF => m{{m_pdf := m_pdf m ++ [key] }}
  | DOCUMENT => m{{m_document := m_document m ++ [key] }}
  | OTHER_KIND => m{{m_other := m_other m ++ [key] }}
  end.

Record EvidenceFile := {
  ef_storageKey : string;
  ef_mimeType : option string;
  ef_sizeBytes : option Z;
  ef_sha256 : option string;
}.
Definition ef_kind (f : EvidenceFile) : ReportEvidenceKind :=
  kindFromMime (ef_mimeType f) (ef_storageKey f).
(** [sizeByKey.get(key) ?? sizeBytes ?? 0]; a later entry of the map wins. *)
Definition ef_size (validated : list (string * Z)) (f : EvidenceFile) : Z :=
  default (default 0 (ef_sizeBytes f))
    (snd <$> last (filter (λ v, v.1 = ef_storageKey f) validated)).
Definition merged_media (m : MediaBearing) (files : list EvidenceFile) : MediaBearing :=
  foldl (λ m f, push_media m (ef_kind f) (ef_storageKey f)) m files.

(** ** Statements *)

Definition P2002 (fields : list string) : exn := PrismaKnown "P2002" fields.

Section reporter.
Context `{RepLib} (cfg : RepConfig) (stat_of : string → option (Z * string)).
Context (presigned : string → string).

Definition getMediaDownloadUrl (user : CurrentUser) (reportId key : string) : prog RepW string :=
  report ← findOne user reportId;
  throw_if (negb (mem key (collectMediaFields (rp_media report))))
    (NotFound "media_not_found_on_report") ;;
  mret (presigned key).

Definition evidence_create (mk : string → Evidence) (actor : string) (ip : option string)
    : prog RepW Evidence :=
  id ← randomUUID;
  act (λ w, (mk id,
    (w{{rw_evidence ::= insert id (mk id)}}){{rw_custody ::= cons {|
       cy_evidenceId := id; cy_action := "ADDED"; cy_actorId := actor;
       cy_ipAddress := ip |} }})).

Fixpoint evidence_rows (user : CurrentUser) (reportId : string) (note ip : option string)
    (validated : list (string * Z)) (files : list EvidenceFile) : prog RepW (list Evidence) :=
  match files with
  | [] => mret []
  | f :: files =>
      row ← evidence_create (λ id, {|
        ev_id := id; ev_reportId := reportId; ev_kind := ef_kind f;
        ev_storageKey := ef_storageKey f; ev_mimeType := ef_mimeType f;
        ev_sizeBytes := ef_size validated f; ev_sha256 := ef_sha256 f; ev_note := note;
        ev_addedById := cu_id user |}) (cu_id user) ip;
      rows ← evidence_rows user reportId note ip validated files;
      mret (row :: rows)
  end.

Definition addEvidence (user : CurrentUser) (reportId : string) (files : list EvidenceFile)
    (note ip : option string) : prog RepW (list Evidence) :=
  throw_if (bool_decide (files = [])) (BadRequest "no_evidence_provided") ;;
  report ← loadOwned user reportId;
  throw_if (terminal (rp_status report)) (BadRequest "report_is_closed") ;;
  let keys := ef_storageKey <$> files in
  let dup := filter (λ k, k ∈ collectMediaFields (rp_media report)) keys in
  throw_if (bool_decide (dup ≠ []))
    (BadRequest ("evidence_already_attached:" +:+ String.concat "," dup)) ;;
  validated ← throw_outcome (validateMediaFilesExist cfg stat_of keys);
  let merged := merged_media (rp_media report) files in
  throw_outcome (assertAttachmentCounts cfg merged) ;;
  let newTotal := rp_mediaTotalBytes report + sum (ef_size validated <$> files) in
  throw_outcome (assertTotalBytes cfg newTotal) ;;
  rows ← transaction (
    rows ← evidence_rows user reportId note ip validated files;
    report_update reportId (λ t r,
      r{{rp_media := merged; rp_mediaTotalBytes := newTotal; rp_lastActivityAt := t}}) ;;
    mret rows);
  audit user "REPORT_EVIDENCE_ADDED" report [success]
    (no_opts{{ao_metadata := [("count", JNum (len rows)); ("mediaTotalBytes", JNum newTotal)] }}) ;;
  mret rows.

(** ** Requests *)

Definition requestReopen (user : CurrentUser) (reportId reason : string)
    : prog RepW ReopenRequest :=
  report ← loadOwned user reportId;
  throw_if (negb (terminal (rp_status report)))
    (BadRequest "only_closed_reports_can_be_reopened") ;;
  pending ← gets (λ w, find_row (λ q, bool_decide (ro_reportId q = reportId) &&
                                      bool_decide (ro_handledAt q = None)) (rw_reopens w));
  throw_if (bool_decide (is_Some pending)) (BadRequest "reopen_request_already_pending") ;;
  id ← randomUUID;
  let request := {| ro_id := id; ro_reportId := reportId; ro_requestedById := cu_id user;
                    ro_reason := reason; ro_handledAt := None |} in
  modify (λ w, w{{rw_reopens ::= insert id request}}) ;;
  report_update reportId (λ t r, r{{rp_lastActivityAt := t}}) ;;
  audit user "REPORT_REOPEN_REQUESTED" report [success] (with_reason (Some reason)) ;;
  emit (RepNotified "report.reopen.requested"
    [("reportId", JStr reportId); ("caseReference", JStr (rp_caseReference report));
     ("requestId", JStr id); ("assignedToId", json_opt (rp_assignedToId report))]) ;;
  mret request.

Definition feedback_create (f : Feedback) : prog RepW Feedback :=
  act_outcome (λ w,
    match rw_feedback w !! fb_reportId f with
    | Some _ => (Err (P2002 ["reportId"]), w)
    | None => (Ok f, w{{rw_feedback ::= insert (fb_reportId f) f}})
    end).
Definition submitFeedback (user : CurrentUser) (reportId : string) (rating : Z)
    (comment : option string) : prog RepW Feedback :=
  report ← loadOwned user reportId;
  throw_if (negb (has_status CLOSED report)) (BadRequest "feedback_only_for_closed_reports") ;;
  catch (
    feedback ← feedback_create {| fb_reportId := reportId; fb_userId := cu_id user;
                                  fb_rating := rating; fb_comment := comment |};
    audit user "REPORT_FEEDBACK_SUBMITTED" report [success; ("rating", JNum rating)] no_opts ;;
    mret feedback)
  (λ err, match err with
          | PrismaKnown code _ =>
              if bool_decide (code = "P2002") then Throw (Conflict "feedback_already_submitted")
              else Throw err
          | _ => Throw err
          end).

Definition requestErasure (user : CurrentUser) (reportId : string) (reason : option string)
    : prog RepW ErasureRequest :=
  report ← loadOwned user reportId;
  throw_if (rp_legalHold report) (Forbidden "report_under_legal_hold") ;;
  pending ← gets (λ w, find_row (λ q, bool_decide (er_reportId q = reportId) &&
                                      bool_decide (er_status q = "PENDING")) (rw_erasures w));
  throw_if (bool_decide (is_Some pending)) (BadRequest "erasure_request_already_pending") ;;
  id ← randomUUID;
  let request := {| er_id := id; er_reportId := reportId; er_requestedById := cu_id user;
                    er_reason := reason; er_status := "PENDING" |} in
  modify (λ w, w{{rw_erasures ::= insert id request}}) ;;
  audit user "REPORT_ERASURE_REQUESTED" report [success] (with_reason reason) ;;
  emit (RepNotified "report.erasure.requested"
    [("reportId", JStr reportId); ("caseReference", JStr (rp_caseReference report));
     ("requestId", JStr id)]) ;;
  mret request.

(** ** Summary and marks *)

Definition all_statuses : list ReportStatus :=
  [PENDING; RECEIVED; UNDER_REVIEW; ASSIGNED; IN_PROGRESS; ESCALATED; CLOSED;
   UNABLE_TO_VERIFY; REJECTED].
Record Summary := {
  sm_total : Z;
  sm_open : Z;
  sm_byStatus : list (ReportStatus * Z);
  sm_lastReportAt : option Z;
}.
Definition later (a : option Z) (b : Z) : option Z :=
  match a with Some x => if x <? b then Some b else a | None => Some b end.
Definition summary_of (rs : list Report) : Summary :=
  let count s := len (filter (λ r, rp_status r = s) rs) in
  {| sm_total := sum (count <$> all_statuses);
     sm_open := sum (count <$> filter (λ s, terminal s = false) all_statuses);
     sm_byStatus := (λ s, (s, count s)) <$> all_statuses;
     sm_lastReportAt := foldl later None (rp_createdAt <$> rs) |}.
Definition getMySummary (user : CurrentUser) : prog RepW Summary :=
  gets (λ w, summary_of
    (filter (λ r, owned user r && negb (deleted r) = true) (map_to_list (rw_reports w)).*2)).

Definition countMyUnreadUpdates (user : CurrentUser) : prog RepW Z :=
  report_count (λ _ r, owned user r && negb (deleted r) &&
    (default (rp_createdAt r) (rp_reporterSeenAt r) <? rp_reporterUpdatedAt r)).

Definition markSeen (user : CurrentUser) (reportId : string) : prog RepW (string * Z) :=
  loadOwned user reportId ;;
  seenAt ← now;
  report_claim reportId (owned user) (λ _ r, r{{rp_reporterSeenAt := Some seenAt}}) ;;
  mret (reportId, seenAt).

(** [updateMany] with its count. *)
Definition markAllSeen (user : CurrentUser) : prog RepW Z :=
  let mine r := owned user r && negb (deleted r) in
  act (λ w,
    (len (filter (λ r, mine r = true) (map_to_list (rw_reports w)).*2),
     set_reports (fmap (λ r, if mine r
       then written (λ t r, r{{rp_reporterSeenAt := Some t}}) (rw_now w) r else r)) w)).

Definition trackByReference (user : CurrentUser) (reference : string) : prog RepW Report :=
  report ← report_findFirst (λ _ r,
    bool_decide (rp_caseReference r = toUpperCase (trim reference)) && owned user r &&
    negb (deleted r));
  require report (NotFound "report_not_found").

(** ** Preferences *)

Definition muteReport (user : CurrentUser) (reportId : string) (muted : bool)
    (until : option Z) : prog RepW Report :=
  loadOwned user reportId ;;
  t ← now;
  throw_if (match until with Some u => u <=? t | None => false end)
    (BadRequest "mute_until_must_be_in_the_future") ;;
  report_update reportId (λ _ r,
    r{{rp_updatesMuted := muted; rp_updatesMutedUntil := if muted then until else None}}).

Definition setContactPreference (user : CurrentUser) (reportId : string)
    (method : ReportContactMethod) (window : option string) : prog RepW Report :=
  loadOwned user reportId ;;
  report_update reportId (λ _ r, r{{rp_contactMethod := method; rp_contactWindow := window}}).

(** ** The urgent flag *)

Record ReportLocationDto := {
  gl_latitude : string;
  gl_longitude : string;
  gl_accuracyMeters : option string;
  gl_capturedAt : option Z;
  gl_address : option string;
}.
Record UrgentReportDto := { ur_details : option string; ur_gps : option ReportLocationDto }.

Definition upd_urgent (details : option string) (alreadyEscalated : bool) (gps : option Gps)
    (t : Z) (r : Report) : Report :=
  r{{rp_urgentFlaggedAt := Some t; rp_urgentDetails := details; rp_priority := CRITICAL;
     rp_lastActivityAt := t; rp_reporterUpdatedAt := t;
     rp_status := if alreadyEscalated then rp_status r else ESCALATED;
     rp_gps := match gps with Some g => Some g | None => rp_gps r end}}.

Definition urgent_tx (user : CurrentUser) (report : Report) (dto : UrgentReportDto) (t : Z)
    : prog RepW Report :=
  let alreadyEscalated := has_status ESCALATED report in
  gps ← match ur_gps dto with
        | Some g => gps ← gpsData (gl_latitude g) (gl_longitude g) (gl_accuracyMeters g)
                            (gl_capturedAt g) (gl_address g);
                    mret (Some gps)
        | None => mret None
        end;
  u ← report_update (rp_id report) (λ _, upd_urgent (ur_details dto) alreadyEscalated gps t);
  (if alreadyEscalated then mret () else
     history_create (λ t, {| sc_reportId := rp_id report; sc_from := Some (rp_status report);
       sc_to := ESCALATED; sc_changedById := Some (cu_id user);
       sc_note := Some "urgent_flag_by_reporter"; sc_at := t |}) ;;
     escalation_create (λ id created, {| es_id := id; es_reportId := rp_id report;
       es_escalatedById := Some (cu_id user);
       es_reason := "URGENT: " +:+ default "reporter flagged immediate danger" (ur_details dto);
       es_createdAt := created; es_deEscalatedAt := None; es_deEscalatedById := None;
       es_deEscalationReason := None |})) ;;
  mret u.

Definition flagUrgent (user : CurrentUser) (reportId : string) (dto : UrgentReportDto)
    : prog RepW (string * ReportStatus * option Z) :=
  report ← loadOwned user reportId;
  throw_if (terminal (rp_status report)) (BadRequest "report_is_closed") ;;
  if bool_decide (is_Some (rp_urgentFlaggedAt report))
  then mret (rp_id report, rp_status report, rp_urgentFlaggedAt report) else
  t ← now;
  updated ← transaction (urgent_tx user report dto t);
  audit user "REPORT_URGENT_FLAGGED" report
    (success :: from_to (rp_status report) (rp_status updated))
    (no_opts{{ao_severity := Some "WARNING"}}) ;;
  emit (RepNotified "notification.high_priority_report"
    [("reportId", JStr reportId); ("caseReference", JStr (rp_caseReference report));
     ("reason", JStr "urgent_flag_by_reporter"); ("urgent", JBool true)]) ;;
  emit (RepNotified "report.urgent.flagged"
    [("reportId", JStr reportId); ("caseReference", JStr (rp_caseReference report));
     ("assignedToId", json_opt (rp_assignedToId report)); ("details", json_opt (ur_details dto))]) ;;
  mret (rp_id updated, rp_status updated, rp_urgentFlaggedAt updated).

(** ** Anonymity *)

Definition changeAnonymity (user : CurrentUser) (reportId : string) (anonymous : bool)
    (reason : option string) : prog RepW (string * bool) :=
  report ← loadOwned user reportId;
  throw_if (negb (rc_allowAnonymityChange cfg)) (Forbidden "anonymity_change_not_allowed") ;;
  if eqb (rp_isAnonymous report) anonymous then mret (rp_id report, rp_isAnonymous report) else
  (if anonymous then
     revealed ← gets (λ w, len (filter (λ v, rl_reportId v = reportId) (rw_reveals w)));
     throw_if (0 <? revealed) (BadRequest "identity_already_revealed")
   else mret ()) ;;
  transaction (
    report_update reportId (λ t r, r{{rp_isAnonymous := anonymous; rp_lastActivityAt := t}}) ;;
    revision_create {| rv_reportId := reportId; rv_editedById := cu_id user;
      rv_changes := ("isAnonymous", JObj [("from", JBool (rp_isAnonymous report));
                                          ("to", JBool anonymous)]) ::
        match only_truthy reason with Some r => [("reason", JStr r)] | None => [] end |}) ;;
  audit user "REPORT_ANONYMITY_CHANGED" report
    [success; ("from", JBool (rp_isAnonymous report)); ("to", JBool anonymous)]
    (with_reason reason) ;;
  mret (rp_id report, anonymous).
End reporter.
