(* ===== verification/ReportSafety.v ===== *)
(** * Reports under every interleaving

    What no handler of the report services does, however the handlers interleave:
    lose a report, change what identifies it (its reporter, case reference,
    idempotency key, creation), make a second report for a case reference or an
    idempotency key, or move its status and merge against a given relation [S]. *)

From S2P Require Import Prelude Interleave Js Redis Cache Roles ReportModel.
From S2P Require Import ReportCommon ReportWorkflow ReportLifecycle ReportAccess.
From S2P Require Import ReportSubmission ReportReporter.
From stdpp Require Import sorting.
From coqutil Require Import Datatypes.RecordSetters.
Import DoubleBraceUpdate.

Open Scope Z_scope.

(** ** Rows *)

(** What identifies a report. *)
Record row_same (r r' : Report) : Prop := {
  sa_id : rp_id r' = rp_id r;
  sa_user : rp_userId r' = rp_userId r;
  sa_ref : rp_caseReference r' = rp_caseReference r;
  sa_key : rp_idempotencyKey r' = rp_idempotencyKey r;
  sa_created : rp_createdAt r' = rp_createdAt r;
}.
#[export] Instance row_same_preorder : PreOrder row_same.
Proof. split; [by split|]. intros r1 r2 r3 [] []. split; congruence. Qed.

Section rows.
Context (S : relation (ReportStatus * option string)) `{!PreOrder S}.

(** The columns that [S] constrains. *)
Definition place (r : Report) : ReportStatus * option string :=
  (rp_status r, rp_mergedIntoId r).
Definition row_step (r r' : Report) : Prop := row_same r r' ∧ S (place r) (place r').

#[export] Instance row_step_preorder : PreOrder row_step.
Proof.
  split; [by intros r; split|]. intros r1 r2 r3 [] []. split; by etrans.
Qed.

(** The row under an identifier: it stays, and a new one starts PENDING and unmerged. *)
Definition row_rel (o o' : option Report) : Prop :=
  match o, o' with
  | Some r, Some r' => row_step r r'
  | Some _, None => False
  | None, Some r' => S (PENDING, None) (place r')
  | None, None => True
  end.
#[export] Instance row_rel_preorder : PreOrder row_rel.
Proof.
  split; [by intros [r|]; cbn|]. intros [r1|] [r2|] [r3|]; cbn; try done.
  - apply transitivity.
  - intros ? []. by etrans.
Qed.

Record rep_inv (w : RepW) : Prop := {
  ri_ids id r : rw_reports w !! id = Some r → rp_id r = id;
  ri_refs i j r q : rw_reports w !! i = Some r → rw_reports w !! j = Some q →
    rp_caseReference r = rp_caseReference q → i = j;
  ri_keys i j r q u k : rw_reports w !! i = Some r → rw_reports w !! j = Some q →
    rp_userId r = Some u → rp_userId q = Some u →
    rp_idempotencyKey r = Some k → rp_idempotencyKey q = Some k → i = j;
}.
Definition rep_rel (w w' : RepW) : Prop :=
  ∀ id, row_rel (rw_reports w !! id) (rw_reports w' !! id).
#[export] Instance rep_rel_preorder : PreOrder rep_rel.
Proof. split; [by intros w id|]. intros w1 w2 w3 H1 H2 id. exact (transitivity (H1 id) (H2 id)). Qed.

Abbreviation ok := (safe rep_inv rep_rel).
Abbreviation calm_ok := (calm rep_inv rep_rel).

(** *** Actions *)

(** Those that leave the reports alone. *)
Lemma reports_kept_good w w' : rw_reports w' = rw_reports w → rep_inv w → rep_inv w' ∧ rep_rel w w'.
Proof.
  intros He []. split; [split; rewrite He; auto|]. intros id. by rewrite He.
Qed.
Lemma ok_kept {X} (f : RepW → X * RepW) :
  (∀ w, rw_reports (f w).2 = rw_reports w) → ok (act f).
Proof. intros Hf. apply safe_act. intros w. by apply reports_kept_good. Qed.
Lemma ok_kept_modify (f : RepW → RepW) :
  (∀ w, rw_reports (f w) = rw_reports w) → ok (modify f).
Proof. intros Hf. by apply ok_kept. Qed.
Lemma ok_kept_outcome {X} (f : RepW → outcome X * RepW) :
  (∀ w, rw_reports (f w).2 = rw_reports w) → ok (act_outcome f).
Proof. intros Hf. apply safe_act_outcome. intros w. by apply reports_kept_good. Qed.

(** Those that change rows in place. *)
Lemma rows_good (m : gmap string Report) w :
  (∀ id, match rw_reports w !! id, m !! id with
         | Some r, Some r' => row_step r r' | None, None => True | _, _ => False end) →
  rep_inv w → rep_inv (set_reports (λ _, m) w) ∧ rep_rel w (set_reports (λ _, m) w).
Proof.
  intros Hm [Hid Href Hkey]. cbn.
  assert (Hback : ∀ i r', m !! i = Some r' → ∃ r, rw_reports w !! i = Some r ∧ row_same r r').
  { intros i r' Hr'. specialize (Hm i). rewrite Hr' in Hm.
    destruct (rw_reports w !! i) as [r|]; [|done]. exists r. by destruct Hm. }
  split; [split; cbn|].
  - intros i r' (r&Hr&[])%Hback. rewrite sa_id0. by apply Hid.
  - intros i j r q (r0&Hr&[])%Hback (q0&Hq&[])%Hback He. eapply Href; [done..|congruence].
  - intros i j r q u k (r0&Hr&[])%Hback (q0&Hq&[])%Hback ????.
    eapply (Hkey i j r0 q0 u k); congruence.
  - intros i. specialize (Hm i). cbn. destruct (rw_reports w !! i), (m !! i); done.
Qed.

Lemma row_step_written upd t r : row_step r (upd t r) → row_step r (written upd t r).
Proof. intros [[] ?]. by split; [split|]. Qed.

Lemma insert_good id r r' w :
  rw_reports w !! id = Some r → row_step r r' → rep_inv w →
  rep_inv (set_reports (insert id r') w) ∧ rep_rel w (set_reports (insert id r') w).
Proof.
  intros Hr Hs. apply rows_good. intros i.
  destruct (decide (id = i)) as [->|Hne].
  - by rewrite Hr, lookup_insert_eq.
  - rewrite lookup_insert_ne by done. by destruct (_ !! i).
Qed.

Lemma ok_update id upd : (∀ t r, row_step r (upd t r)) → ok (report_update id upd).
Proof.
  intros Hu. apply safe_act_outcome. intros w HI.
  destruct (rw_reports w !! id) as [r|] eqn:Hr; [|done].
  apply (insert_good id r); [done| |done]. by apply row_step_written.
Qed.
Lemma ok_claim id P upd :
  (∀ t r, P r = true → row_step r (upd t r)) → ok (report_claim id P upd).
Proof.
  intros Hu. apply safe_act. intros w HI.
  destruct (rw_reports w !! id) as [r|] eqn:Hr; [|done]. destruct (P r) eqn:HP; [|done].
  apply (insert_good id r); [done| |done]. by apply row_step_written, Hu.
Qed.
Lemma updateMany_good (P : Report → bool) upd t w :
  (∀ t r, P r = true → row_step r (upd t r)) → rep_inv w →
  rep_inv (set_reports (fmap (λ r, if P r then written upd t r else r)) w) ∧
  rep_rel w (set_reports (fmap (λ r, if P r then written upd t r else r)) w).
Proof.
  intros Hu. apply rows_good. intros i. rewrite lookup_fmap.
  destruct (_ !! i) as [r|]; cbn; [|done]. destruct (P r) eqn:HP; [|done].
  by apply row_step_written, Hu.
Qed.
Lemma ok_updateMany P upd :
  (∀ t r, P r = true → row_step r (upd t r)) → ok (report_updateMany P upd).
Proof. intros Hu. apply safe_modify. intros w. by apply updateMany_good. Qed.

(** What is known after a check. *)
Lemma ok_checked {A} b e (p : prog RepW A) : (b = false → ok p) → ok (throw_if b e ;; p).
Proof. intros Hp. destruct b; [done|]. by apply Hp. Qed.

(** A new row: neither its case reference nor its key is taken. *)
Lemma insert_new_good id r w :
  rp_id r = id → place r = (PENDING, None) → rep_inv w →
  rep_inv (report_insert id r w).2 ∧ rep_rel w (report_insert id r w).2.
Proof.
  intros Hid Hst HI. unfold report_insert.
  case_bool_decide as Href; [done|].
  destruct (match rp_userId r with Some _ => _ | None => _ end) eqn:Hk; [done|].
  case_bool_decide as Hnew; [done|]. cbn.
  rewrite <- eq_None_not_Some in Href, Hnew. rewrite find_row_None in Href.
  assert (Hkey : ∀ i q u k, rw_reports w !! i = Some q → rp_userId r = Some u →
    rp_userId q = Some u → rp_idempotencyKey r = Some k → rp_idempotencyKey q ≠ Some k).
  { intros i q u k Hq Hu Hqu Hrk Hqk. rewrite Hu, Hrk in Hk.
    case_bool_decide as Hn; [done|]. rewrite <- eq_None_not_Some, find_row_None in Hn.
    specialize (Hn i q Hq). rewrite Hqu, Hqk, !bool_decide_eq_true_2 in Hn; done. }
  assert (Hr : ∀ i q, rw_reports w !! i = Some q → rp_caseReference r ≠ rp_caseReference q).
  { intros i q Hq He. specialize (Href i q Hq). by apply bool_decide_eq_false in Href. }
  destruct HI as [Hids Hrefs Hkeys]. split.
  - split; cbn; [intros i q|intros i j q1 q2|intros i j q1 q2 u k];
      rewrite !lookup_insert_Some; naive_solver.
  - intros i. cbn. destruct (decide (id = i)) as [->|Hne].
    + rewrite lookup_insert_eq, Hnew. cbn. by rewrite Hst.
    + by rewrite lookup_insert_ne.
Qed.

Lemma ok_create `{RepLib} (mk : string → Z → Report) :
  (∀ id t, rp_id (mk id t) = id) → (∀ id t, place (mk id t) = (PENDING, None)) →
  ok (report_create mk).
Proof.
  intros Hid Hst. apply safe_bind; [|intros id].
  { apply safe_bind; [by apply ok_kept|intros n]. apply safe_mret. }
  apply safe_act_outcome. intros w HI. apply insert_new_good; [apply Hid|apply Hst|done].
Qed.

(** *** What the services share *)
Context `{RepLib} (cfg : RepConfig) (stat_of : string → option (Z * string)).
Context (instantiate : list (string * json) → CreateReportDto + list string).

Ltac kept := intros; repeat case_match; reflexivity.
Hint Extern 1 (safe _ _ (act _)) => solve [apply ok_kept; kept] : safe.
Hint Extern 1 (safe _ _ (modify _)) => solve [apply ok_kept_modify; kept] : safe.
Hint Extern 1 (safe _ _ (act_outcome _)) => solve [apply ok_kept_outcome; kept] : safe.

Lemma ok_emit e : ok (emit e).
Proof. unfold emit. safe_tac. Qed.
Lemma ok_rep_now : ok now.
Proof. apply safe_gets, _. Qed.
Lemma ok_randomUUID : ok randomUUID.
Proof. unfold randomUUID, draw. safe_tac. Qed.
Lemma ok_report_by_id id : ok (report_by_id id).
Proof. apply safe_gets, _. Qed.
Lemma ok_rep_user_by_id id : ok (user_by_id id).
Proof. apply safe_gets, _. Qed.
Lemma ok_findFirst P : ok (report_findFirst P).
Proof. apply safe_gets, _. Qed.
Lemma ok_findMany P : ok (report_findMany P).
Proof. apply safe_gets, _. Qed.
Lemma ok_count P : ok (report_count P).
Proof. apply safe_gets, _. Qed.
Lemma ok_history_create c : ok (history_create c).
Proof. unfold history_create. safe_tac. Qed.
Lemma ok_assignment_create c : ok (assignment_create c).
Proof. unfold assignment_create. safe_tac. Qed.
Lemma ok_revision_create c : ok (revision_create c).
Proof. unfold revision_create. safe_tac. Qed.
Hint Resolve ok_emit ok_rep_now ok_randomUUID ok_report_by_id ok_rep_user_by_id ok_findFirst
  ok_findMany ok_count ok_history_create ok_assignment_create ok_revision_create : safe.
Hint Extern 1 (safe _ _ (gets _)) => solve [apply safe_gets; apply _] : safe.

Lemma ok_by_id_or_throw id : ok (report_by_id_or_throw id).
Proof. unfold report_by_id_or_throw. safe_tac. Qed.
Lemma ok_audit a b c d e : ok (audit a b c d e).
Proof. apply ok_emit. Qed.
Lemma ok_rep_emitAudit a : ok (emitAudit a).
Proof. apply ok_emit. Qed.
Lemma ok_audit_failure a b c d e f : ok (audit_failure a b c d e f).
Proof. apply ok_emit. Qed.
Lemma ok_audit_success a b c d e f g : ok (audit_success a b c d e f g).
Proof. apply ok_emit. Qed.
Lemma ok_notifyReporter r : ok (notifyReporter r).
Proof. apply ok_emit. Qed.
Lemma ok_notifyAssigned r a : ok (notifyAssigned r a).
Proof. apply ok_emit. Qed.
Hint Resolve ok_by_id_or_throw ok_audit ok_rep_emitAudit ok_audit_failure ok_audit_success
  ok_notifyReporter ok_notifyAssigned : safe.
Lemma ok_assertAdmin a r c : ok (assertAdminCanAccessReport a r c).
Proof. unfold assertAdminCanAccessReport. safe_tac. Qed.
Hint Resolve ok_assertAdmin : safe.
Lemma ok_loadForAdmin a id b : ok (loadForAdmin a id b).
Proof. unfold loadForAdmin. safe_tac. Qed.
Hint Resolve ok_loadForAdmin : safe.
Lemma ok_loadForAdminWrite a id c : ok (loadForAdminWrite a id c).
Proof. unfold loadForAdminWrite. safe_tac. Qed.
Lemma ok_loadOwned u id : ok (loadOwned u id).
Proof. unfold loadOwned. safe_tac. Qed.
Lemma ok_found id : ok (found id).
Proof. unfold found. safe_tac. Qed.
Lemma ok_findOne u id : ok (findOne u id).
Proof. unfold findOne. safe_tac. Qed.
Lemma ok_maybeFlag u : ok (maybeFlagUserForRejections cfg u).
Proof. unfold maybeFlagUserForRejections. safe_tac. Qed.
Lemma ok_pagedReports a P i j o : ok (pagedReports cfg a P i j o).
Proof. unfold pagedReports. cbn. safe_tac. Qed.
Hint Resolve ok_loadForAdminWrite ok_loadOwned ok_found ok_findOne ok_maybeFlag
  ok_pagedReports : safe.

(** *** Handlers that keep the status, or move it along [S] *)
Ltac same := intros; first [solve [auto] | split; [by split|reflexivity]].
Hint Extern 1 (safe _ _ (report_update _ _)) => solve [apply ok_update; same] : safe.
Hint Extern 1 (safe _ _ (report_claim _ _ _)) => solve [apply ok_claim; same] : safe.
Hint Extern 1 (safe _ _ (report_updateMany _ _)) => solve [apply ok_updateMany; same] : safe.
Ltac handled := repeat first
  [ solve [auto 2 with safe nocore]
  | (apply safe_transaction; [apply _|])
  | safe_step ].

Lemma ok_unassign a id : ok (unassign a id).
Proof. unfold unassign. handled. Qed.
Lemma ok_revised a id upd c : (∀ t r, row_step r (upd t r)) → ok (revised a id upd c).
Proof. intros Hu. unfold revised. handled. Qed.
Hint Extern 1 (safe _ _ (revised _ _ _ _)) => solve [apply ok_revised; same] : safe.
Lemma ok_updateCategory a id c d : ok (updateCategory a id c d).
Proof. unfold updateCategory. handled. Qed.
Lemma ok_updatePriority a id c d : ok (updatePriority a id c d).
Proof. unfold updatePriority. handled. Qed.
Lemma ok_assignTeam a id t : ok (assignTeam a id t).
Proof. unfold assignTeam. handled. Qed.
Lemma ok_changed a id c upd d o : (∀ t r, row_step r (upd t r)) → ok (changed a id c upd d o).
Proof. intros Hu. unfold changed. handled. Qed.
Hint Extern 1 (safe _ _ (changed _ _ _ _ _ _)) => solve [apply ok_changed; same] : safe.
Lemma ok_archive a id c : ok (archive a id c).
Proof. unfold archive. handled. Qed.
Lemma ok_unarchive a id : ok (unarchive a id).
Proof. unfold unarchive. handled. Qed.
Lemma ok_softDelete a id c : ok (softDelete a id c).
Proof. unfold softDelete. handled. Qed.
Lemma ok_restore a id : ok (restore a id).
Proof. unfold restore. handled. Qed.
Lemma ok_markFalse a id c b : ok (markFalse a id c b).
Proof. unfold markFalse. handled. Qed.
Lemma ok_unmark a id c : ok (unmark a id c).
Proof. unfold unmark. handled. Qed.
Lemma ok_link_create mk : ok (link_create mk).
Proof. unfold link_create. handled. Qed.
Hint Resolve ok_link_create : safe.
Lemma ok_addLink a id t r n : ok (addLink a id t r n).
Proof. unfold addLink. handled. Qed.
Lemma ok_link_delete id r : ok (link_delete id r).
Proof. unfold link_delete. handled. Qed.
Hint Resolve ok_link_delete : safe.
Lemma ok_removeLink a id l : ok (removeLink a id l).
Proof. unfold removeLink. handled. Qed.
Lemma ok_updateSensitivity a id l c : ok (updateSensitivity a id l c).
Proof. unfold updateSensitivity. handled. Qed.
Lemma ok_grantAccess a id b c e : ok (grantAccess a id b c e).
Proof. unfold grantAccess, grant_create. handled. Qed.
Lemma ok_revokeAccess a id b : ok (revokeAccess a id b).
Proof. unfold revokeAccess, grants_revoke. handled. Qed.
Lemma ok_revealReporter a id b c e : ok (revealReporter a id b c e).
Proof. unfold revealReporter, logAccess. handled. Qed.
Lemma ok_setLegalHold a id b c : ok (setLegalHold a id b c).
Proof. unfold setLegalHold. destruct b; handled. Qed.
Lemma ok_handleUserSuspended u : ok (handleUserSuspended u).
Proof. unfold handleUserSuspended. handled. Qed.
Lemma ok_update_report u id d : ok (ReportSubmission.update cfg stat_of u id d).
Proof. unfold ReportSubmission.update. handled. Qed.
Lemma ok_requestReopen u id c : ok (requestReopen u id c).
Proof. unfold requestReopen. handled. Qed.
Lemma ok_feedback_create f : ok (feedback_create f).
Proof. unfold feedback_create. handled. Qed.
Hint Resolve ok_feedback_create : safe.
Lemma ok_submitFeedback u id n c : ok (submitFeedback u id n c).
Proof. unfold submitFeedback. handled. Qed.
Lemma ok_requestErasure u id c : ok (requestErasure u id c).
Proof. unfold requestErasure. handled. Qed.
Lemma ok_markSeen u id : ok (markSeen u id).
Proof. unfold markSeen. handled. Qed.
Lemma ok_markAllSeen u : ok (markAllSeen u).
Proof.
  apply safe_act. intros w.
  apply (updateMany_good (λ r, owned u r && negb (deleted r))
           (λ t r, r{{rp_reporterSeenAt := Some t}})). same.
Qed.
Lemma ok_muteReport u id b t : ok (muteReport u id b t).
Proof. unfold muteReport. handled. Qed.
Lemma ok_setContactPreference u id m c : ok (setContactPreference u id m c).
Proof. unfold setContactPreference. handled. Qed.
Lemma ok_changeAnonymity u id b c : ok (changeAnonymity cfg u id b c).
Proof. unfold changeAnonymity. handled. Qed.
Lemma ok_evidence_rows u id n ip v fs : ok (evidence_rows u id n ip v fs).
Proof. induction fs; cbn; unfold evidence_create; handled. Qed.
Hint Resolve ok_evidence_rows : safe.
Lemma ok_addEvidence u id fs n ip : ok (addEvidence cfg stat_of u id fs n ip).
Proof. unfold addEvidence. handled. Qed.

Lemma ok_attempt {A} (p : prog RepW A) : ok p → ok (attempt p).
Proof. apply safe_attempt. Qed.

(** New reports *)
Lemma ok_create_attempts n u d m b k : ok (create_attempts n u d m b k).
Proof.
  induction n as [|n IH]; cbn; [done|]. unfold generateCaseReference, draw.
  apply safe_bind; [handled|intros ref]. apply safe_bind; [|intros r; handled].
  apply ok_attempt. by apply ok_create.
Qed.
Lemma ok_createUnique u d m b k : ok (createReportWithUniqueCaseReference u d m b k).
Proof. apply ok_create_attempts. Qed.
Hint Resolve ok_createUnique : safe.
Lemma ok_create_report u d k : ok (ReportSubmission.create cfg stat_of u d k).
Proof.
  unfold ReportSubmission.create, create_new, enforceCreateRateLimit,
    enforceMaxPendingReports, notify_created. handled.
Qed.
Hint Resolve ok_create_report : safe.
Lemma ok_draft_delete u id : ok (draft_delete u id).
Proof. unfold draft_delete. handled. Qed.
Lemma ok_findOwnedDraft u id : ok (findOwnedDraft u id).
Proof. unfold findOwnedDraft. handled. Qed.
Hint Resolve ok_draft_delete ok_findOwnedDraft : safe.
Lemma ok_submitDraft u id k : ok (submitDraft cfg stat_of instantiate u id k).
Proof. unfold submitDraft. handled. Qed.
Lemma ok_sync_item u i : ok (sync_item cfg stat_of instantiate u i).
Proof. unfold sync_item, notify_created. handled. Qed.
Hint Resolve ok_sync_item : safe.
Lemma ok_syncReports u xs : ok (syncReports cfg stat_of instantiate u xs).
Proof.
  unfold syncReports. apply safe_bind; [|intros rs; handled].
  generalize (@nil SyncResult). induction xs as [|x xs IH]; intros rs; cbn; handled.
Qed.
Lemma ok_saveDraft u d : ok (saveDraft cfg u d).
Proof. unfold saveDraft. handled. Qed.
Lemma ok_updateDraft u id d : ok (updateDraft cfg u id d).
Proof. unfold updateDraft. handled. Qed.
Lemma ok_deleteDraft u id : ok (deleteDraft u id).
Proof. unfold deleteDraft. handled. Qed.

(** *** Handlers that move the status by the table *)
Section table.
Context (HS : ∀ a b m, allows a b = true → S (a, m) (b, m)).

Lemma has_status_eq s r : has_status s r = true → rp_status r = s.
Proof. apply bool_decide_eq_true. Qed.
Lemma step_by_table s to r r' :
  allows s to = true → has_status s r = true → row_same r r' →
  place r' = (to, rp_mergedIntoId r) → row_step r r'.
Proof.
  intros Ha <-%has_status_eq Hsame Hp. split; [done|]. rewrite Hp. by apply HS.
Qed.

Lemma ok_transition r to by_ extra note :
  allows (rp_status r) to = true →
  (∀ t r, row_same r (extra t r) ∧ place (extra t r) = place r) →
  ok (applyTransition r to by_ extra note).
Proof.
  intros Ha He. unfold applyTransition. handled. apply ok_claim.
  intros t q Hq. set (q' := q{{rp_status := _; rp_lastActivityAt := _; rp_reporterUpdatedAt := _}}).
  destruct (He t q') as [Hsame Hst]. eapply step_by_table; [exact Ha|exact Hq| |by rewrite Hst].
  by trans q'.
Qed.

Lemma ok_updateStatus a id s n : ok (updateStatus cfg a id s n).
Proof.
  unfold updateStatus. apply safe_bind; [handled|intros r]. apply safe_bind; [handled|intros _].
  destruct (negb _) eqn:Ha; [handled|]. apply negb_false_iff in Ha.
  apply safe_bind; [|intros n0; handled].
  apply ok_claim. intros t q Hq. by eapply step_by_table.
Qed.
Lemma ok_escalate a id c : ok (escalate a id c).
Proof.
  unfold escalate. apply safe_bind; [handled|intros r]. apply safe_bind; [handled|intros _].
  destruct (negb _) eqn:Ha; [handled|]. apply negb_false_iff in Ha.
  apply safe_bind; [|intros n0; handled].
  apply ok_claim. intros t q Hq. by eapply step_by_table.
Qed.
Lemma auto_allows s : auto_assigned s = true → allows s ASSIGNED = true.
Proof. by intros [_ ?]%andb_prop. Qed.
Lemma ok_assign a id u n : ok (assign a id u n).
Proof.
  unfold assign. apply safe_bind; [handled|intros r]. apply safe_bind; [handled|intros x].
  apply safe_bind; [handled|intros target]. destruct (negb _); [handled|].
  apply safe_bind; [|intros n0; handled].
  apply ok_claim. intros t q Hq. unfold upd_assigned.
  destruct (auto_assigned _) eqn:Hauto; [|same].
  eapply step_by_table; [by apply auto_allows|exact Hq|by split|done].
Qed.
Lemma ok_deEscalate a id c : ok (deEscalate a id c).
Proof.
  unfold deEscalate. apply safe_bind; [handled|intros r].
  apply ok_checked. intros Hr%negb_false_iff%has_status_eq.
  apply safe_bind; [|intros o; unfold escalation_update; handled].
  apply ok_transition; [by rewrite Hr|done].
Qed.
Lemma ok_resolve a id o c : ok (resolve a id o c).
Proof.
  unfold resolve. apply safe_bind; [handled|intros r].
  apply ok_checked. intros Hr%negb_false_iff.
  apply safe_bind; [|intros x; handled]. apply ok_transition; [done|by repeat split].
Qed.
Lemma ok_markSpam a id c : ok (markSpam cfg a id c).
Proof.
  unfold markSpam. apply safe_bind; [handled|intros r]. apply safe_bind; [handled|intros _].
  cbv zeta. destruct (allows _ _) eqn:Ha; [|handled].
  apply safe_bind; [|intros x; handled].
  apply safe_bind; [|intros x; handled]. apply ok_transition; [done|by repeat split].
Qed.
Lemma ok_withdraw u id : ok (withdraw u id).
Proof.
  unfold withdraw. apply safe_bind; [handled|intros r]. destruct (negb _); [handled|].
  apply safe_bind; [|intros n; handled].
  apply ok_claim. intros t q Hq. by apply (step_by_table PENDING REJECTED).
Qed.
Lemma ok_queueNext a t : ok (queueNext a t).
Proof.
  unfold queueNext. generalize 5%nat. intros n. induction n as [|n IH]; cbn; [done|].
  apply safe_bind; [handled|intros [c|]]; [|handled].
  apply safe_bind; [|intros k; unfold claimed; handled].
  apply ok_claim. intros x q [_ Hq]%andb_prop. unfold upd_claimed.
  destruct (auto_assigned _) eqn:Hauto; [|same].
  eapply step_by_table; [by apply auto_allows|exact Hq|by split|done].
Qed.
Hint Resolve ok_updateStatus ok_assign ok_unassign : safe.

Lemma ok_runBulk ids fn : (∀ id, ok (fn id)) → ok (runBulk ids fn).
Proof.
  intros Hfn. unfold runBulk. apply safe_bind; [|intros r; handled].
  generalize (unique ids) (@nil string) (@nil (string * string)).
  intros xs; induction xs as [|x xs IH]; intros ss fs; cbn; [handled|].
  apply safe_bind; [by apply ok_attempt|intros [?|?]; apply IH].
Qed.
Lemma ok_audit_bulk a b c d e : ok (audit_bulk a b c d e).
Proof. apply ok_emit. Qed.
Hint Resolve ok_audit_bulk : safe.
Lemma ok_bulkAssign a ids u : ok (bulkAssign a ids u).
Proof. unfold bulkAssign. apply safe_bind; [apply ok_runBulk|]; intros; handled. Qed.
Lemma ok_bulkUpdateStatus a ids s n : ok (bulkUpdateStatus cfg a ids s n).
Proof. unfold bulkUpdateStatus. apply safe_bind; [apply ok_runBulk|]; intros; handled. Qed.
Lemma ok_bulkUnassign a ids : ok (bulkUnassign a ids).
Proof. unfold bulkUnassign. apply safe_bind; [apply ok_runBulk|]; intros; handled. Qed.
End table.

(** *** Handlers that write a status without looking at the one in the table *)
Section free.
Context (Hstatus : ∀ a b m, S (a, m) (b, m)).

Lemma ok_flagUrgent u id d : ok (flagUrgent u id d).
Proof.
  unfold flagUrgent, urgent_tx, escalation_create, gpsData. cbv zeta.
  handled; apply ok_update; intros; (split; [by repeat split|apply Hstatus]).
Qed.

Context (HS : ∀ a b, S a b).
Ltac free := intros; repeat case_match; (split; [by repeat split|apply HS]).

Lemma ok_merge a i j c : ok (ReportLifecycle.merge a i j c).
Proof.
  unfold ReportLifecycle.merge, merge_tx, merge_create, upd_merged. cbv zeta.
  handled; first [apply ok_update | apply ok_updateMany]; free.
Qed.
Lemma ok_unmerge a i j c : ok (unmerge a i j c).
Proof.
  unfold unmerge, unmerge_tx, merge_update, upd_unmerged. cbv zeta.
  handled; first [apply ok_update | apply ok_updateMany]; free.
Qed.
End free.
End rows.

(** The handlers, for the pools. *)
Create HintDb report_handlers discriminated.
#[export] Hint Resolve
  ok_updateStatus ok_assign ok_unassign ok_escalate ok_deEscalate ok_updateCategory
  ok_updatePriority ok_resolve ok_bulkAssign ok_bulkUpdateStatus ok_bulkUnassign ok_assignTeam
  ok_queueNext ok_archive ok_unarchive ok_softDelete ok_restore ok_markSpam ok_markFalse
  ok_unmark ok_addLink ok_removeLink ok_updateSensitivity ok_grantAccess ok_revokeAccess
  ok_revealReporter ok_setLegalHold ok_handleUserSuspended ok_create_report ok_update_report
  ok_withdraw ok_saveDraft ok_updateDraft ok_deleteDraft ok_submitDraft ok_syncReports
  ok_addEvidence ok_requestReopen ok_submitFeedback ok_requestErasure ok_markSeen
  ok_markAllSeen ok_muteReport ok_setContactPreference ok_changeAnonymity : report_handlers.
