(* ===== verification/ReportProps.v ===== *)
(** * Reports: what holds however the requests interleave *)

From S2P Require Import Prelude Interleave Js Roles ReportModel ReportCommon.
From S2P Require Import ReportWorkflow ReportLifecycle ReportAccess ReportSubmission.
From S2P Require Import ReportReporter ReportSafety.
From coqutil Require Import Datatypes.RecordSetters.
Import DoubleBraceUpdate.

Open Scope Z_scope.

Fixpoint rep_unary (n : nat) : string :=
  match n with O => "u" | S n => Str "u" (rep_unary n) end.

#[export] Instance rep_lib : RepLib := {|
  rep_uuid := rep_unary;
  rep_base36 := rep_unary;
  local_year t := "2026";
  rep_hmac_hex secret data := "hmac:" +:+ data;
|}.

Definition rep_config : RepConfig := {|
  rc_maxPhotos := 5; rc_maxVideos := 1; rc_maxOther := 2; rc_maxTotalBytes := 1000;
  rc_maxFileSizeBytes := 1000; rc_allowedMimeTypes := []; rc_autoFlagCount := 3;
  rc_autoFlagWindowDays := 7; rc_createCooldownSeconds := 60; rc_maxPending := 5;
  rc_stalePendingHours := 48; rc_allowAnonymityChange := true; rc_anonMaskSecret := "mask";
  rc_draftTtlDays := 30; rc_maxDrafts := 20 |}.

Definition rep_dto : CreateReportDto := {|
  cd_category := HARASSMENT; cd_description := "what happened"; cd_location := None;
  cd_incidentAt := None;
  cd_media := {| d_photo := None; d_video := None; d_audio := None; d_pdf := None;
                 d_document := None; d_other := None |} |}.

(** A report of user [u1]. *)
Definition rep_row (id ref : string) (s : ReportStatus) (t : Z) : Report :=
  (new_report "u1" ref rep_dto no_media 0 None id t){{rp_status := s}}.

Definition reporter : CurrentUser :=
  {| cu_id := "u1"; cu_roles := [USER]; cu_permissions := [] |}.
Definition admin1 : CurrentUser :=
  {| cu_id := "a1"; cu_roles := [ADMIN]; cu_permissions := [] |}.
Definition admin2 : CurrentUser :=
  {| cu_id := "a2"; cu_roles := [ADMIN]; cu_permissions := [] |}.
Definition super_admin : CurrentUser :=
  {| cu_id := "s1"; cu_roles := [SUPER_ADMIN]; cu_permissions := [] |}.
Definition rep_user (id name : string) (roles : list string) : RepUser :=
  {| ru_id := id; ru_name := Some name; ru_phone := Some "+251911223344"; ru_roles := roles |}.

(** The reports [rs]; the clock starts long after their creation. *)
Definition rep_world (rs : list Report) : RepW := {|
  rw_reports := list_to_map ((λ r, (rp_id r, r)) <$> rs);
  rw_users := {[ "u1" := rep_user "u1" "Abebe" [USER]; "a1" := rep_user "a1" "Sara" [ADMIN];
                 "a2" := rep_user "a2" "Hana" [ADMIN];
                 "s1" := rep_user "s1" "Root" [SUPER_ADMIN] ]};
  rw_grants := ∅; rw_merges := ∅; rw_escalations := ∅; rw_links := ∅;
  rw_history := []; rw_assignments := []; rw_revisions := []; rw_reveals := [];
  rw_reopens := ∅; rw_erasures := ∅; rw_feedback := ∅; rw_evidence := ∅; rw_custody := [];
  rw_drafts := ∅; rw_accessLog := []; rw_reads := []; rw_events := []; rw_draws := 0;
  rw_now := 1000000 |}.

(** Two reports under review. *)
Definition two_reports : RepW :=
  rep_world [rep_row "r1" "EHT-1" UNDER_REVIEW 1000; rep_row "r2" "EHT-2" UNDER_REVIEW 2000].

(** A check of the invariant that computes. *)
Definition distinct_reports (rs : list Report) : bool :=
  bool_decide (NoDup (rp_id <$> rs)) && bool_decide (NoDup (rp_caseReference <$> rs)) &&
  forallb (λ r, bool_decide (rp_idempotencyKey r = None)) rs.

Lemma rep_world_inv rs : distinct_reports rs = true → rep_inv (rep_world rs).
Proof.
  intros [[Hid%bool_decide_eq_true Href%bool_decide_eq_true]%andb_prop Hkey]%andb_prop.
  rewrite forallb_forall in Hkey.
  assert (Hin : ∀ i r, rw_reports (rep_world rs) !! i = Some r →
    rp_id r = i ∧ ∃ n, rs !! n = Some r).
  { intros i r Hr. cbn in Hr.
    apply elem_of_list_to_map_2, list_elem_of_fmap in Hr as (q&[= -> ->]&[n Hn]%list_elem_of_lookup).
    by split; [|exists n]. }
  split.
  - intros i r Hr. by apply Hin.
  - intros i j r q (<-&n&Hn)%Hin (<-&m&Hm)%Hin He. f_equal.
    assert (n = m) as ->; [|congruence].
    eapply (NoDup_lookup (rp_caseReference <$> rs)); [done|by rewrite list_lookup_fmap, Hn|].
    rewrite list_lookup_fmap, Hm. cbn. by rewrite He.
  - intros i j r q u k (_&n&Hn)%Hin _ _ _ Hk.
    apply list_elem_of_lookup_2, list_elem_of_In, Hkey, bool_decide_eq_true in Hn. congruence.
Qed.

From S2P Require Import Prelude Interleave Js Redis Cache Roles ReportModel.
From S2P Require Import ReportCommon ReportWorkflow ReportLifecycle ReportAccess.
From S2P Require Import ReportSubmission ReportReporter ReportSafety.
From coqutil Require Import Datatypes.RecordSetters.
Import DoubleBraceUpdate.

Open Scope Z_scope.

Definition no_value {A} (p : prog RepW A) : prog RepW () := p ;; mret ().

Section handlers.
Context `{RepLib} (cfg : RepConfig) (stat_of : string → option (Z * string)).
Context (instantiate : list (string * json) → CreateReportDto + list string).

(** The handlers that write a status only where the table still holds the one
    they checked, or leave it alone. *)
Inductive table_handler : prog RepW () → Prop :=
| h_updateStatus a id s n : table_handler (no_value (updateStatus cfg a id s n))
| h_assign a id u n : table_handler (no_value (assign a id u n))
| h_unassign a id : table_handler (no_value (unassign a id))
| h_escalate a id c : table_handler (no_value (escalate a id c))
| h_deEscalate a id c : table_handler (no_value (deEscalate a id c))
| h_updateCategory a id c d : table_handler (no_value (updateCategory a id c d))
| h_updatePriority a id c d : table_handler (no_value (updatePriority a id c d))
| h_resolve a id o c : table_handler (no_value (resolve a id o c))
| h_bulkAssign a ids u : table_handler (no_value (bulkAssign a ids u))
| h_bulkUpdateStatus a ids s n : table_handler (no_value (bulkUpdateStatus cfg a ids s n))
| h_bulkUnassign a ids : table_handler (no_value (bulkUnassign a ids))
| h_assignTeam a id t : table_handler (no_value (assignTeam a id t))
| h_queueNext a t : table_handler (no_value (queueNext a t))
| h_archive a id c : table_handler (no_value (archive a id c))
| h_unarchive a id : table_handler (no_value (unarchive a id))
| h_softDelete a id c : table_handler (no_value (softDelete a id c))
| h_restore a id : table_handler (no_value (restore a id))
| h_markSpam a id c : table_handler (no_value (markSpam cfg a id c))
| h_markFalse a id c b : table_handler (no_value (markFalse a id c b))
| h_unmark a id c : table_handler (no_value (unmark a id c))
| h_addLink a id t r n : table_handler (no_value (addLink a id t r n))
| h_removeLink a id l : table_handler (no_value (removeLink a id l))
| h_updateSensitivity a id l c : table_handler (no_value (updateSensitivity a id l c))
| h_grantAccess a id b c e : table_handler (no_value (grantAccess a id b c e))
| h_revokeAccess a id b : table_handler (no_value (revokeAccess a id b))
| h_revealReporter a id b c e : table_handler (no_value (revealReporter a id b c e))
| h_setLegalHold a id b c : table_handler (no_value (setLegalHold a id b c))
| h_handleUserSuspended u : table_handler (no_value (handleUserSuspended u))
| h_create u d k : table_handler (no_value (ReportSubmission.create cfg stat_of u d k))
| h_update u id d : table_handler (no_value (ReportSubmission.update cfg stat_of u id d))
| h_withdraw u id : table_handler (no_value (withdraw u id))
| h_saveDraft u d : table_handler (no_value (saveDraft cfg u d))
| h_updateDraft u id d : table_handler (no_value (updateDraft cfg u id d))
| h_deleteDraft u id : table_handler (no_value (deleteDraft u id))
| h_submitDraft u id k :
    table_handler (no_value (submitDraft cfg stat_of instantiate u id k))
| h_syncReports u xs : table_handler (no_value (syncReports cfg stat_of instantiate u xs))
| h_addEvidence u id fs n ip : table_handler (no_value (addEvidence cfg stat_of u id fs n ip))
| h_requestReopen u id c : table_handler (no_value (requestReopen u id c))
| h_submitFeedback u id n c : table_handler (no_value (submitFeedback u id n c))
| h_requestErasure u id c : table_handler (no_value (requestErasure u id c))
| h_markSeen u id : table_handler (no_value (markSeen u id))
| h_markAllSeen u : table_handler (no_value (markAllSeen u))
| h_muteReport u id b t : table_handler (no_value (muteReport u id b t))
| h_setContactPreference u id m c : table_handler (no_value (setContactPreference u id m c))
| h_changeAnonymity u id b c : table_handler (no_value (changeAnonymity cfg u id b c)).

(** Those that leave merges alone. *)
Inductive unmerging_handler : prog RepW () → Prop :=
| h_table p : table_handler p → unmerging_handler p
| h_flagUrgent u id d : unmerging_handler (no_value (flagUrgent u id d)).

(** All of them. *)
Inductive report_handler : prog RepW () → Prop :=
| h_unmerging p : unmerging_handler p → report_handler p
| h_merge a i j c : report_handler (no_value (ReportLifecycle.merge a i j c))
| h_unmerge a i j c : report_handler (no_value (unmerge a i j c)).

(** The rest of the application: other services write other columns of the
    reports and other tables; they move no status along and delete no report. *)
Definition rep_env (w w' : RepW) : Prop :=
  ∀ id, match rw_reports w !! id, rw_reports w' !! id with
        | Some r, Some r' => row_step eq r r'
        | None, None => True
        | _, _ => False
        end.

Definition report_pool (h : prog RepW () → Prop) ps w ps' w' : Prop :=
  Forall h ps ∧ rtc (pool_step rep_env) (ps, w) (ps', w').

Section safe.
Context (S : relation (ReportStatus * option string)) `{!PreOrder S}.
Abbreviation ok := (safe rep_inv (rep_rel S)).

Lemma no_value_safe {A} (p : prog RepW A) : ok p → ok (no_value p).
Proof. intros Hp. by apply safe_bind. Qed.

Lemma table_handler_safe p :
  (∀ a b m, allows a b = true → S (a, m) (b, m)) → table_handler p → ok p.
Proof.
  intros HS. destruct 1; apply no_value_safe.
  all: auto 2 with report_handlers nocore.
Qed.

Lemma rep_env_good w w' : rep_inv w → rep_env w w' → rep_inv w' ∧ rep_rel S w w'.
Proof.
  intros HI He. destruct (rows_good S (rw_reports w') w) as [[] HR]; [|done|].
  - intros id. specialize (He id).
    destruct (rw_reports w !! id), (rw_reports w' !! id); [|done..].
    destruct He as [Hs He]. split; [done|]. by rewrite He.
  - split; [by split|]. exact HR.
Qed.

Lemma report_pool_good (h : prog RepW () → Prop) ps w ps' w' :
  (∀ p, h p → ok p) → rep_inv w → report_pool h ps w ps' w' → rep_inv w' ∧ rep_rel S w w'.
Proof.
  intros Hh HI [Hps Hrun].
  eapply (pool_invariant rep_inv (rep_rel S)); [apply rep_env_good|done| |exact Hrun].
  intros i p Hi. apply Hh. by eapply Forall_lookup_1.
Qed.

Lemma unmerging_handler_safe p :
  (∀ a b m, S (a, m) (b, m)) → unmerging_handler p → ok p.
Proof.
  intros HS. destruct 1; [by apply table_handler_safe|].
  apply no_value_safe. by apply ok_flagUrgent.
Qed.

Lemma report_handler_safe p : (∀ a b, S a b) → report_handler p → ok p.
Proof.
  intros HS. destruct 1; [by apply unmerging_handler_safe|..]; apply no_value_safe.
  - by apply ok_merge.
  - by apply ok_unmerge.
Qed.
End safe.

(** ** The status table *)

Definition status_step (a b : ReportStatus) : Prop := b ∈ ALLOWED_STATUS_TRANSITIONS a.
Definition table_steps (p q : ReportStatus * option string) : Prop :=
  rtc status_step p.1 q.1 ∧ q.2 = p.2.
#[export] Instance table_steps_preorder : PreOrder table_steps.
Proof.
  split; [by intros p; split|]. intros p q r [] []. split; [by etrans|congruence].
Qed.

Definition any_place : relation (ReportStatus * option string) := λ _ _, True.
#[export] Instance any_place_preorder : PreOrder any_place.
Proof. by split. Qed.

Lemma rtc_terminal s s' : terminal s = true → rtc status_step s s' → s' = s.
Proof.
  intros Ht Hs. destruct Hs as [|s1 s2 s3 Hstep _]; [done|].
  by destruct s1; try done; apply elem_of_nil in Hstep.
Qed.

(** C13: However requests of these handlers interleave, no report is lost, and
    its status only moves along [ALLOWED_STATUS_TRANSITIONS]; a report that
    is CLOSED or REJECTED stays so. *)
Theorem report_status_table ps w ps' w' id r :
  rep_inv w → report_pool table_handler ps w ps' w' → rw_reports w !! id = Some r →
  ∃ r', rw_reports w' !! id = Some r' ∧ rtc status_step (rp_status r) (rp_status r') ∧
        (terminal (rp_status r) = true → rp_status r' = rp_status r).
Proof.
  intros HI Hpool Hr.
  assert (Hsafe : ∀ p, table_handler p → safe rep_inv (rep_rel table_steps) p).
  { intros p Hp. apply (table_handler_safe table_steps); [|done].
    intros a b m Ha%bool_decide_eq_true. split; [by apply rtc_once|done]. }
  destruct (report_pool_good table_steps table_handler ps w ps' w' Hsafe HI Hpool)
    as [_ HR].
  specialize (HR id). rewrite Hr in HR.
  destruct (rw_reports w' !! id) as [r'|]; [|done]. destruct HR as [_ [HR _]].
  exists r'. eauto using rtc_terminal.
Qed.

(** Whatever the requests and their interleaving, a report keeps its
    reporter, its case reference, its idempotency key and its creation time,
    and no two reports share a case reference or a reporter's key. *)
Theorem report_identity ps w ps' w' :
  rep_inv w → report_pool report_handler ps w ps' w' →
  (∀ id r, rw_reports w !! id = Some r →
     ∃ r', rw_reports w' !! id = Some r' ∧ row_same r r') ∧
  (∀ i j r q, rw_reports w' !! i = Some r → rw_reports w' !! j = Some q → i ≠ j →
     rp_caseReference r ≠ rp_caseReference q ∧
     (∀ u k, rp_userId r = Some u → rp_userId q = Some u → rp_idempotencyKey r = Some k →
        rp_idempotencyKey q ≠ Some k)).
Proof.
  intros HI Hpool.
  assert (Hsafe : ∀ p, report_handler p → safe rep_inv (rep_rel any_place) p).
  { intros p. by apply report_handler_safe. }
  destruct (report_pool_good any_place report_handler ps w ps' w' Hsafe HI Hpool)
    as [[_ Href Hkey] HR].
  split.
  - intros id r Hr. specialize (HR id). rewrite Hr in HR.
    destruct (rw_reports w' !! id) as [r'|]; [|done]. destruct HR. by exists r'.
  - intros i j r q Hi Hj Hne. split; [eauto|]. intros u k ????. by eapply Hne, Hkey.
Qed.
End handlers.

(** ** Witnesses *)

Definition no_file : string → option (Z * string) := λ _, None.
Definition no_dto : list (string * json) → CreateReportDto + list string := λ _, inr [].

(** Two administrators: one assigns, the other escalates the same report. *)
Definition racing : list (prog RepW ()) :=
  [no_value (assign admin1 "r1" "a1" None); no_value (escalate admin1 "r1" "urgent")].
(** The second one is overtaken between its check and its write. *)
Definition overtaken : list nat := [1; 0; 0; 0; 0; 0; 0; 1; 1; 1]%nat.
Definition after_race := schedule overtaken racing two_reports.

Lemma racing_handlers : Forall (table_handler rep_config no_file no_dto) racing.
Proof.
  apply Forall_cons; split; [apply h_assign|]. apply Forall_cons; split; [apply h_escalate|].
  apply Forall_nil. done.
Qed.
Lemma racing_pool :
  report_pool (table_handler rep_config no_file no_dto) racing two_reports
    after_race.1 after_race.2.
Proof.
  split; [apply racing_handlers|]. rewrite <- (surjective_pairing after_race).
  apply schedule_steps.
Qed.

Lemma report_status_table_witness :
  ∃ r', rw_reports after_race.2 !! "r1" = Some r' ∧ rtc status_step UNDER_REVIEW (rp_status r') ∧
        (terminal UNDER_REVIEW = true → rp_status r' = UNDER_REVIEW).
Proof.
  apply (report_status_table rep_config no_file no_dto racing two_reports after_race.1 after_race.2
           "r1" (rep_row "r1" "EHT-1" UNDER_REVIEW 1000)).
  - apply rep_world_inv. vm_compute. reflexivity.
  - apply racing_pool.
  - vm_compute. reflexivity.
Defined.

Example race_outcome :
  (rp_status <$> rw_reports after_race.2 !! "r1") = Some ASSIGNED ∧
  length after_race.1 = 2%nat ∧ after_race.1 !! 1%nat = Some (Throw transition_conflict).
Proof. vm_compute. auto. Qed.

Lemma report_identity_witness :
  (∃ r', rw_reports after_race.2 !! "r1" = Some r' ∧
     row_same (rep_row "r1" "EHT-1" UNDER_REVIEW 1000) r').
Proof.
  apply (report_identity rep_config no_file no_dto racing two_reports after_race.1 after_race.2).
  - apply rep_world_inv. vm_compute. reflexivity.
  - split; [|apply racing_pool]. eapply Forall_impl; [apply racing_handlers|].
    intros p Hp. by apply h_unmerging, h_table.
  - vm_compute. reflexivity.
Defined.

(** [flagUrgent] writes ESCALATED without looking at the status again: a report
    that is closed between its check and its write is reopened. *)
Definition urgent_race : list (prog RepW ()) :=
  [no_value (flagUrgent reporter "r1" {| ur_details := None; ur_gps := None |});
   no_value (updateStatus rep_config admin1 "r1" CLOSED None)].
Definition in_progress : RepW := rep_world [rep_row "r1" "EHT-1" IN_PROGRESS 1000].
Definition closed_first := schedule [0; 1; 1; 1; 1; 1; 1]%nat urgent_race in_progress.
Definition then_flagged := schedule [0; 0; 0; 0; 0; 0]%nat closed_first.1 closed_first.2.
Example urgent_flag_reopens :
  (rp_status <$> rw_reports closed_first.2 !! "r1") = Some CLOSED ∧
  (rp_status <$> rw_reports then_flagged.2 !! "r1") = Some ESCALATED ∧
  allows CLOSED ESCALATED = false.
Proof. vm_compute. auto. Qed.

(** The checks of [merge] are not repeated when it writes: two merges that race
    make each report the target of the other. *)
Definition merge_race : list (prog RepW ()) :=
  [no_value (ReportLifecycle.merge admin1 "r1" "r2" None);
   no_value (ReportLifecycle.merge admin1 "r2" "r1" None)].
Definition merged_both := schedule [0; 0; 0; 0; 1; 1; 1; 1; 0; 1]%nat merge_race two_reports.
Example racing_merges_cycle :
  (rw_reports merged_both.2 !! "r1" ≫= rp_mergedIntoId) = Some "r2" ∧
  (rw_reports merged_both.2 !! "r2" ≫= rp_mergedIntoId) = Some "r1".
Proof. vm_compute. auto. Qed.
