(* ===== verification/ReportSeq.v ===== *)
(** * Reports: what one request does *)

From S2P Require Import Prelude Interleave Js Roles ReportModel ReportCommon ReportWorkflow.
From S2P Require Import ReportLifecycle ReportAccess ReportSubmission ReportReporter.
From S2P Require Import ReportSafety ReportProps.
From stdpp Require Import sorting.
From coqutil Require Import Datatypes.RecordSetters.
Import DoubleBraceUpdate.

Open Scope Z_scope.

(** ** Loading a report *)

Definition with_events (w : RepW) (evs : list rep_event) : RepW := w{{rw_events := evs}}.

Definition shown (admin : CurrentUser) (withDeleted : bool) (w : RepW) (id : string)
    : option Report :=
  match rw_reports w !! id with
  | Some r => if (withDeleted || negb (deleted r)) && visible admin w r then Some r else None
  | None => None
  end.

Lemma run_loadForAdmin admin id d w :
  run (loadForAdmin admin id d) w =
  (from_option Ok (Err (NotFound "report_not_found")) (shown admin d w id), w).
Proof. unfold loadForAdmin. rewrite run_bind, run_gets, run_require. reflexivity. Qed.

Lemma run_assertAdmin admin r action w :
  ∃ evs, run (assertAdminCanAccessReport admin r action) w =
    (if may_change admin r then (Ok (), w)
     else (Err (Forbidden "report_assigned_to_another_admin"), with_events w evs)).
Proof.
  unfold assertAdminCanAccessReport. destruct (may_change admin r); [by exists []|].
  eexists. rewrite run_bind. unfold audit_failure, emitAudit, emit. rewrite run_modify, run_Throw.
  reflexivity.
Qed.

(** ** Side effects

    Programs that always return and leave the reports alone: audits, notifications,
    history. *)
Definition side {A} (p : prog RepW A) : Prop :=
  ∀ w, ∃ a w', run p w = (Ok a, w') ∧ rw_reports w' = rw_reports w.

Lemma side_mret {A} (a : A) : side (mret a).
Proof. intros w. by exists a, w. Qed.
Lemma side_bind {A B} (p : prog RepW A) (f : A → prog RepW B) :
  side p → (∀ a, side (f a)) → side (p ≫= f).
Proof.
  intros Hp Hf w. destruct (Hp w) as (a&w1&Hr&Hw). destruct (Hf a w1) as (b&w2&Hr2&Hw2).
  exists b, w2. rewrite run_bind, Hr, Hr2. by rewrite Hw2.
Qed.
Lemma side_modify f : (∀ w, rw_reports (f w) = rw_reports w) → side (modify f).
Proof. intros Hf w. exists (), (f w). by rewrite run_modify. Qed.
Lemma side_act {X} (f : RepW → X * RepW) :
  (∀ w, rw_reports (f w).2 = rw_reports w) → side (act f).
Proof. intros Hf w. eexists _, _. by rewrite run_act. Qed.
Lemma side_gets {X} (f : RepW → X) : side (gets f).
Proof. by apply side_act. Qed.
Lemma side_emit e : side (emit e).
Proof. by apply side_modify. Qed.
Lemma side_emitAudit a : side (emitAudit a).
Proof. apply side_emit. Qed.
Lemma side_audit a b c d e : side (audit a b c d e).
Proof. apply side_emit. Qed.
Lemma side_history c : side (history_create c).
Proof. by apply side_modify. Qed.
Lemma side_assignment c : side (assignment_create c).
Proof. by apply side_modify. Qed.

(** A side effect in front, or at the end, of a program. *)
Lemma run_side {A B} (p : prog RepW A) (f : A → prog RepW B) w (Q : outcome B * RepW → Prop) :
  side p → (∀ a w', rw_reports w' = rw_reports w → Q (run (f a) w')) → Q (run (p ≫= f) w).
Proof. intros Hp HQ. destruct (Hp w) as (a&w'&Hr&Hw). rewrite run_bind, Hr. by apply HQ. Qed.

Create HintDb side.
#[export] Hint Resolve side_mret side_emit side_emitAudit side_audit side_history side_assignment side_gets : side.
Ltac side_tac :=
  repeat first [solve [auto 2 with side nocore] | apply side_bind; [|intros ?] | case_match].

(** ** The assignment gate *)

(** The handlers that change report [id] and are gated by its assignment. *)
Section gate.
Context `{RepLib} (cfg : RepConfig).

Inductive gated (admin : CurrentUser) (id : string) : prog RepW () → Prop :=
| g_updateStatus s n : gated admin id (no_value (updateStatus cfg admin id s n))
| g_escalate c : gated admin id (no_value (escalate admin id c))
| g_deEscalate c : gated admin id (no_value (deEscalate admin id c))
| g_updateCategory c d : gated admin id (no_value (updateCategory admin id c d))
| g_updatePriority c d : gated admin id (no_value (updatePriority admin id c d))
| g_resolve o c : gated admin id (no_value (resolve admin id o c))
| g_merge j c : gated admin id (no_value (ReportLifecycle.merge admin id j c))
| g_unmerge j c : gated admin id (no_value (unmerge admin id j c))
| g_archive c : gated admin id (no_value (archive admin id c))
| g_unarchive : gated admin id (no_value (unarchive admin id))
| g_markSpam c : gated admin id (no_value (markSpam cfg admin id c))
| g_markFalse c b : gated admin id (no_value (markFalse admin id c b))
| g_unmark c : gated admin id (no_value (unmark admin id c))
| g_addLink t r n : gated admin id (no_value (addLink admin id t r n))
| g_removeLink l : gated admin id (no_value (removeLink admin id l))
| g_updateSensitivity l c : gated admin id (no_value (updateSensitivity admin id l c)).

Definition refusal (e : exn) : Prop :=
  e = Forbidden "report_assigned_to_another_admin" ∨ e = NotFound "report_not_found" ∨
  e = BadRequest "cannot_merge_into_itself".
(** Refused, and nothing was written but audits. *)
Definition refused {A} (p : prog RepW A) (w : RepW) : Prop :=
  ∃ e evs, refusal e ∧ run p w = (Err e, with_events w evs).

Lemma refused_bind {A B} (p : prog RepW A) (f : A → prog RepW B) w :
  refused p w → refused (p ≫= f) w.
Proof. intros (e&evs&He&Hr). exists e, evs. split; [done|]. by rewrite run_bind, Hr. Qed.

Lemma same_events w : w = with_events w (rw_events w).
Proof. by destruct w. Qed.

Lemma refused_write admin id r action w :
  rw_reports w !! id = Some r → may_change admin r = false →
  refused (loadForAdminWrite admin id action) w.
Proof.
  intros Hr Hm. unfold refused, loadForAdminWrite. rewrite run_bind, run_loadForAdmin.
  unfold shown. rewrite Hr. destruct ((_ || _) && _); cbn [from_option].
  - rewrite run_bind. destruct (run_assertAdmin admin r action w) as [evs ->]. rewrite Hm.
    eexists _, evs. split; [by left|done].
  - eexists _, _. split; [right; by left|]. by rewrite <- same_events.
Qed.
Lemma refused_assert {B} admin id r action (f : Report → prog RepW B) w :
  rw_reports w !! id = Some r → may_change admin r = false →
  refused (existing ← found id; assertAdminCanAccessReport admin existing action ;; f existing) w.
Proof.
  intros Hr Hm. unfold refused, found, report_by_id.
  rewrite run_bind, run_bind, run_gets, run_require, Hr. cbn [from_option].
  rewrite run_bind. destruct (run_assertAdmin admin r action w) as [evs ->]. rewrite Hm.
  eexists _, evs. split; [by left|done].
Qed.

(** C34: An administrator changes no report that is assigned to another: each of
    these handlers refuses, and writes nothing but audits. *)
Theorem write_gate admin id p w r :
  gated admin id p → rw_reports w !! id = Some r → may_change admin r = false → refused p w.
Proof.
  intros Hp Hr Hm. destruct Hp; apply refused_bind;
    try (by eapply refused_bind, refused_write);
    try (by eapply (refused_assert admin id r)).
  unfold ReportLifecycle.merge. case_bool_decide.
  - eexists _, _. split; [by right; right|]. by rewrite run_bind, run_throw_if, <- same_events.
  - unfold refused. rewrite run_bind, run_throw_if. by eapply refused_bind, refused_write.
Qed.
End gate.

Definition assigned_to_a2 : RepW :=
  rep_world [(rep_row "r1" "EHT-1" UNDER_REVIEW 1000){{rp_assignedToId := Some "a2"}}].
Lemma write_gate_witness :
  refused (no_value (updateStatus rep_config admin1 "r1" REJECTED None)) assigned_to_a2.
Proof.
  apply (write_gate rep_config admin1 "r1" _ assigned_to_a2
           ((rep_row "r1" "EHT-1" UNDER_REVIEW 1000){{rp_assignedToId := Some "a2"}})).
  - constructor.
  - vm_compute. reflexivity.
  - vm_compute. reflexivity.
Defined.

(** [updateStatus] reads the report without the visibility rule: a RESTRICTED
    report that nobody is assigned to is changed by an administrator to whom it
    looks like a report that does not exist, and so is a deleted one. *)
Definition hidden_report : RepW :=
  rep_world [(rep_row "r1" "EHT-1" UNDER_REVIEW 1000){{rp_sensitivity := RESTRICTED}}].
Definition deleted_report : RepW :=
  rep_world [(rep_row "r1" "EHT-1" UNDER_REVIEW 1000)
    {{rp_deletion := Build_Mark (Some 2000) (Some "s1") (Some "test")}}].
Example hidden_report_changed :
  let w' w := (run (updateStatus rep_config admin1 "r1" REJECTED None) w).2 in
  is_ok (run (loadForAdmin admin1 "r1" false) hidden_report).1 = false ∧
  (rp_status <$> rw_reports (w' hidden_report) !! "r1") = Some REJECTED ∧
  is_ok (run (loadForAdmin super_admin "r1" false) deleted_report).1 = false ∧
  (rp_status <$> rw_reports (w' deleted_report) !! "r1") = Some REJECTED.
Proof. vm_compute. auto. Qed.

(** [findOneForAdmin] includes the reporter of an anonymous report, and records no
    reveal. *)
Definition anonymous_report : RepW :=
  rep_world [(rep_row "r1" "EHT-1" UNDER_REVIEW 1000){{rp_isAnonymous := true}}].
Example anonymous_reporter_shown :
  match run (findOneForAdmin admin1 "r1") anonymous_report with
  | (Ok p, w') => (ru_id <$> wp_user p) = Some "u1" ∧ rp_isAnonymous (wp_report p) = true ∧
                  rw_reveals w' = []
  | (Err _, _) => False
  end.
Proof. vm_compute. auto. Qed.

(** ** The work queue *)

Section queue.
Context `{RepLib} (cfg : RepConfig).

(** [queue_order] compares priority, due time and age, in this order. *)
Definition due_key (d : option Z) : Z * Z :=
  match d with Some t => (0, t) | None => (1, 0) end.
Lemma queue_order_spec a b :
  queue_order a b = true ↔
  priority_rank (rp_priority b) < priority_rank (rp_priority a) ∨
  priority_rank (rp_priority b) = priority_rank (rp_priority a) ∧
   ((due_key (rp_dueAt a)).1 < (due_key (rp_dueAt b)).1 ∨
    (due_key (rp_dueAt a)).1 = (due_key (rp_dueAt b)).1 ∧
    ((due_key (rp_dueAt a)).2 < (due_key (rp_dueAt b)).2 ∨
     (due_key (rp_dueAt a)).2 = (due_key (rp_dueAt b)).2 ∧ rp_createdAt a ≤ rp_createdAt b)).
Proof.
  unfold queue_order.
  destruct (Z.compare_spec (priority_rank (rp_priority b)) (priority_rank (rp_priority a)));
    [|naive_solver lia..].
  destruct (rp_dueAt a) as [x|], (rp_dueAt b) as [y|]; cbn; rewrite ?Z.leb_le; [|lia..].
  destruct (Z.compare_spec x y); rewrite ?Z.leb_le; naive_solver lia.
Qed.
#[local] Instance queue_order_trans : Transitive (goes_before queue_order).
Proof. intros a b c. unfold goes_before. rewrite !queue_order_spec. lia. Qed.
#[local] Instance queue_order_total : Total (goes_before queue_order).
Proof. intros a b. unfold goes_before. rewrite !queue_order_spec. lia. Qed.

(** The head of a sorted list comes before all of it. *)
Lemma head_sorted (P : Report → bool) (m : gmap string Report) :
  match head (ordered queue_order (filter (λ r, P r = true) (map_to_list m).*2)) with
  | None => ∀ id r, m !! id = Some r → P r = false
  | Some c => P c = true ∧ (∃ id, m !! id = Some c) ∧
              ∀ id r, m !! id = Some r → P r = true → queue_order c r = true
  end.
Proof.
  set (l := filter _ _).
  assert (Hin : ∀ r, r ∈ l ↔ P r = true ∧ ∃ id, m !! id = Some r).
  { intros r. unfold l. rewrite list_elem_of_filter, list_elem_of_fmap. split.
    - intros (HP&[i q]&->&Hq%elem_of_map_to_list). eauto.
    - intros (HP&i&Hi). split; [done|]. exists (i, r). by rewrite elem_of_map_to_list. }
  unfold ordered. pose proof (merge_sort_Permutation (goes_before queue_order) l) as Hperm.
  pose proof (StronglySorted_merge_sort (goes_before queue_order) l) as Hsorted.
  destruct (merge_sort _ l) as [|c cs]; cbn [head].
  - intros id r Hr. destruct (P r) eqn:HP; [|done].
    assert (r ∈ l) as Hr' by (apply Hin; eauto).
    rewrite <- Hperm in Hr'. by apply elem_of_nil in Hr'.
  - assert (c ∈ l) as [HP Hc]%Hin by (rewrite <- Hperm; left).
    split_and!; [done..|]. intros id r Hr HPr.
    assert (r ∈ l) as Hr' by (apply Hin; eauto). rewrite <- Hperm in Hr'.
    apply elem_of_cons in Hr' as [-> |Hr']; [apply queue_order_spec; lia|].
    apply StronglySorted_inv in Hsorted as [_ Hall]. rewrite Forall_forall in Hall.
    by apply Hall.
Qed.

(** The head of the queue of an administrator. *)
Definition best (admin : CurrentUser) (teamId : option string) (w : RepW) (c : Report) : Prop :=
  rw_reports w !! rp_id c = Some c ∧ queued admin teamId w c = true ∧
  ∀ id r, rw_reports w !! id = Some r → queued admin teamId w r = true → queue_order c r = true.

Definition well_keyed (w : RepW) : Prop := ∀ id r, rw_reports w !! id = Some r → rp_id r = id.

Lemma run_claimed admin c b w r :
  rw_reports w !! rp_id c = Some r →
  ∃ w', run (claimed admin c b) w = (Ok r, w') ∧ rw_reports w' = rw_reports w.
Proof.
  intros Hr. unfold claimed. apply run_side; [auto with side|intros _ w1 H1].
  apply run_side; [side_tac|intros _ w2 H2].
  rewrite run_bind. unfold report_by_id_or_throw, report_by_id.
  rewrite run_bind, run_gets, run_require, H2, H1, Hr. cbn [from_option].
  apply run_side; [auto with side|intros _ w3 H3].
  apply run_side; [apply side_emit|intros _ w4 H4].
  exists w4. split; [done|congruence].
Qed.

(** Run alone, [queueNext] hands out the first report of the queue
    (highest priority, then earliest due, then oldest) to the administrator,
    moves it to ASSIGNED exactly when the table allows it, and answers null only
    when the queue is empty. *)
Theorem queueNext_best admin teamId w :
  well_keyed w →
  match run (queueNext admin teamId) w with
  | (Ok None, w') => w' = w ∧ ∀ id r, rw_reports w !! id = Some r → queued admin teamId w r = false
  | (Ok (Some r), w') => ∃ c, best admin teamId w c ∧
      r = written (upd_claimed admin (auto_assigned (rp_status c))) (rw_now w) c ∧
      rw_reports w' = <[rp_id c := r]> (rw_reports w)
  | (Err _, _) => False
  end.
Proof.
  intros Hw. unfold queueNext. cbn [queue_attempts]. rewrite run_bind, run_gets.
  pose proof (head_sorted (queued admin teamId w) (rw_reports w)) as Hc.
  unfold queue_candidate. destruct (head _) as [c|]; [|by rewrite run_ret].
  destruct Hc as (Hq&[id Hid]&Hfirst). pose proof (Hw _ _ Hid) as <-.
  rewrite run_bind. unfold report_claim. rewrite run_act, Hid.
  assert (bool_decide (rp_assignedToId c = None) && has_status (rp_status c) c = true) as ->.
  { unfold queued in Hq. repeat (apply andb_prop in Hq as [Hq ?]).
    apply andb_true_intro; split; [done|by apply bool_decide_eq_true]. }
  set (r := written _ _ c). cbn [fst snd Z.eqb]. rewrite run_bind.
  destruct (run_claimed admin c (auto_assigned (rp_status c))
    (set_reports (insert (rp_id c) r) w) r) as (w'&->&Hw'); [cbn; apply lookup_insert_eq|].
  rewrite run_ret. exists c. by split_and!.
Qed.
End queue.

Definition queue_world : RepW :=
  rep_world [rep_row "r1" "EHT-1" UNDER_REVIEW 1000;
             (rep_row "r2" "EHT-2" UNDER_REVIEW 2000){{rp_priority := HIGH}};
             (rep_row "r3" "EHT-3" UNDER_REVIEW 500){{rp_priority := HIGH; rp_dueAt := Some 5}};
             (rep_row "r4" "EHT-4" CLOSED 100){{rp_priority := CRITICAL}}].
Lemma queueNext_best_witness :
  match run (queueNext admin1 None) queue_world with
  | (Ok None, w') => w' = queue_world ∧ ∀ id r, rw_reports queue_world !! id = Some r →
      queued admin1 None queue_world r = false
  | (Ok (Some r), w') => ∃ c, best admin1 None queue_world c ∧
      r = written (upd_claimed admin1 (auto_assigned (rp_status c))) (rw_now queue_world) c ∧
      rw_reports w' = <[rp_id c := r]> (rw_reports queue_world)
  | (Err _, _) => False
  end.
Proof.
  apply queueNext_best. intros id r. apply (ri_ids queue_world).
  apply rep_world_inv. vm_compute. reflexivity.
Defined.
Example queue_hands_out_due_first :
  match run (queueNext admin1 None) queue_world with
  | (Ok (Some r), _) => rp_id r = "r3" ∧ rp_status r = ASSIGNED
  | _ => False
  end.
Proof. vm_compute. auto. Qed.

(** ** Lists *)

Section lists.
Context `{RepLib} (cfg : RepConfig).

(** A page of an administrator's list holds at most [limit] ≤ 100 rows, all
    of reports that the administrator may see and that match; an anonymous one
    carries no user identifier and no name, only the masked key. *)
Theorem pagedReports_private admin where_ page limit before w :
  ∃ p, run (pagedReports cfg admin where_ page limit before) w = (Ok p, w) ∧
    len (pg_items p) ≤ pg_limit p ≤ 100 ∧
    ∀ item, item ∈ pg_items p → ∃ id r,
      rw_reports w !! id = Some r ∧ where_ r = true ∧ visible admin w r = true ∧
      rp_id (ri_report item) = rp_id r ∧
      (rp_isAnonymous r = true →
         rp_userId (ri_report item) = None ∧
         ri_reporter item = AnonymousReporter (maskUserId cfg <$> only_truthy (rp_userId r))).
Proof.
  eexists. split; [unfold pagedReports; cbn [paging]; by rewrite run_gets|].
  cbn [pg_items pg_limit page_of]. split.
  - unfold len. rewrite length_fmap, length_take. lia.
  - intros item (r&->&Hr)%list_elem_of_fmap.
    assert (r ∈ (map_to_list (rw_reports w)).*2 ∧ where_ r && visible admin w r = true)
      as [([id q]&->&Hid%elem_of_map_to_list)%list_elem_of_fmap [Hw Hv]%andb_prop].
    { apply elem_of_take in Hr as (i&Hr&_). rewrite lookup_drop in Hr.
      apply list_elem_of_lookup_2 in Hr. unfold ordered in Hr. rewrite merge_sort_Permutation, list_elem_of_filter in Hr.
      destruct Hr. by split. }
    exists id, q. split_and!; [done..|]. cbn [snd] in *. unfold report_item. cbn. intros Ha.
    rewrite Ha. split; [done|]. f_equal. destruct (rp_userId q) as [[|c u]|]; done.
Qed.
End lists.

(** ** Submission with an idempotency key *)

Section create.
Context `{RepLib} (cfg : RepConfig) (stat_of : string → option (Z * string)).
Context (instantiate : list (string * json) → CreateReportDto + list string).
Context (user : CurrentUser) (k : string).

(** Programs that leave the reports alone, whether they return or throw. *)
Definition quiet {A} (p : prog RepW A) : Prop :=
  ∀ w, rw_reports (run p w).2 = rw_reports w.
Definition in_table (r : Report) (w : RepW) : Prop :=
  rw_reports w !! rp_id r = Some r ∧ keyed_report user k r = true.
Definition yields (p : prog RepW Report) (w : RepW) : Prop :=
  ∀ r w', run p w = (Ok r, w') → in_table r w'.

Lemma quiet_throw_if b e : quiet (throw_if b e).
Proof. intros w. by rewrite run_throw_if. Qed.
Lemma quiet_side {A} (p : prog RepW A) : side p → quiet p.
Proof. intros Hp w. by destruct (Hp w) as (a&w'&->&?). Qed.
Lemma quiet_bind {A B} (p : prog RepW A) (f : A → prog RepW B) :
  quiet p → (∀ a, quiet (f a)) → quiet (p ≫= f).
Proof.
  intros Hp Hf w. rewrite run_bind. specialize (Hp w).
  destruct (run p w) as [[a|e] w']; [|done]. by rewrite Hf.
Qed.
Lemma yields_bind {A} (p : prog RepW A) f w :
  quiet p → (∀ a w', rw_reports w' = rw_reports w → yields (f a) w') → yields (p ≫= f) w.
Proof.
  intros Hp Hf r w2. rewrite run_bind. specialize (Hp w).
  destruct (run p w) as [[a|e] w']; [|done]. by apply Hf.
Qed.
Lemma yields_then (p : prog RepW Report) (f : Report → prog RepW Report) w :
  yields p w → (∀ r w1, ∃ w2, run (f r) w1 = (Ok r, w2) ∧ rw_reports w2 = rw_reports w1) →
  yields (p ≫= f) w.
Proof.
  intros Hp Hf r w2. rewrite run_bind.
  destruct (run p w) as [[a|e] w'] eqn:Hr; [|done].
  destruct (Hf a w') as (w3&->&H3). intros [= -> ->]. destruct (Hp _ _ Hr).
  unfold in_table. by rewrite H3.
Qed.
Lemma yields_throw e w : yields (Throw e) w.
Proof. intros r w'. by rewrite run_Throw. Qed.

Lemma quiet_generate : quiet generateCaseReference.
Proof. apply quiet_side. unfold generateCaseReference, now, draw. side_tac. by apply side_act. Qed.

Lemma yields_found w (o : option Report) e :
  well_keyed w → o = find_row (keyed_report user k) (rw_reports w) →
  yields (match o with Some r => mret r | None => Throw e end) w.
Proof.
  intros Hw ->. destruct (find_row _ _) as [r|] eqn:Hr; [|apply yields_throw].
  apply find_row_Some in Hr as [Hk [id Hid]]. intros r' w'. rewrite run_ret. intros [= -> ->].
  split; [|done]. by rewrite (Hw _ _ Hid).
Qed.

Lemma run_report_create mk w :
  ∃ id w1, rw_reports w1 = rw_reports w ∧
    run (report_create mk) w = report_insert id (mk id (rw_now w1)) w1.
Proof.
  unfold report_create, randomUUID, draw.
  rewrite run_bind, run_bind, run_act, run_ret, run_act_outcome.
  eexists _, _. split; [|reflexivity]. reflexivity.
Qed.
Lemma report_insert_cases id r w :
  report_insert id r w = (Ok r, set_reports (insert id r) w) ∨
  ∃ e, report_insert id r w = (Err e, w).
Proof. unfold report_insert. repeat case_match; eauto. Qed.

Lemma yields_attempts n data merged b w :
  well_keyed w → yields (create_attempts n user data merged b (Some k)) w.
Proof.
  revert w. induction n as [|n IH]; intros w Hw; cbn [create_attempts]; [apply yields_throw|].
  apply yields_bind; [apply quiet_generate|intros ref w1 H1].
  unfold yields. intros r w2. rewrite run_bind, run_attempt.
  destruct (run_report_create (new_report (cu_id user) ref data merged b (Some k)) w1)
    as (id&w3&H3&->).
  destruct (report_insert_cases id (new_report (cu_id user) ref data merged b (Some k) id (rw_now w3)) w3)
    as [->|[e ->]]; cbn [fst snd].
  - rewrite run_ret. intros [= <- <-]. split; [apply lookup_insert_eq|].
    unfold keyed_report, owned. cbn. by rewrite !bool_decide_eq_true_2.
  - assert (well_keyed w3) as Hw3 by (intros i q; rewrite H3, H1; apply Hw).
    revert r w2. match goal with |- ∀ r w2, run ?p w3 = _ → _ => change (yields p w3) end.
    destruct e as [| |]; try apply yields_throw.
    destruct (negb _); [apply yields_throw|].
    destruct (mem _ _); [destruct n; [apply yields_throw|by apply IH]|].
    destruct (only_truthy _) as [key|] eqn:Hkey; [|apply yields_throw].
    destruct (existsb _ _); [|apply yields_throw].
    assert (key = k) as -> by (cbn in Hkey; by destruct (truthy k); simplify_eq).
    intros r w2. unfold report_findFirst. rewrite run_bind, run_gets.
    by apply yields_found.
Qed.
Lemma yields_create data w :
  well_keyed w → yields (ReportSubmission.create cfg stat_of user data (Some k)) w.
Proof.
  intros Hw. unfold ReportSubmission.create.
  assert (Hnew : yields (create_new cfg stat_of user data (Some k)) w).
  { unfold create_new. apply yields_bind; [|intros _ w1 H1].
    { apply quiet_bind; [apply quiet_side, side_gets|intros o].
      apply quiet_bind; [apply quiet_side, side_gets|intros t]. apply quiet_throw_if. }
    apply yields_bind; [|intros _ w2 H2].
    { apply quiet_bind; [apply quiet_side, side_gets|intros o]. apply quiet_throw_if. }
    cbv zeta. apply yields_bind; [|intros b w3 H3].
    { intros w3. by rewrite run_throw_outcome. }
    apply yields_then.
    - apply yields_attempts. intros i q. rewrite H3, H2, H1. apply Hw.
    - intros r w4. unfold notify_created.
      apply run_side; [auto with side|intros _ w5 H5].
      apply run_side; [side_tac|intros _ w6 H6]. exists w6. split; [done|congruence]. }
  destruct (only_truthy (Some k)) as [key|] eqn:Hkey; [|done].
  assert (key = k) as -> by (cbn in Hkey; by destruct (truthy k); simplify_eq).
  intros r w2. unfold report_findFirst. rewrite run_bind, run_gets.
  destruct (find_row _ _) as [q|] eqn:Hq; [|apply Hnew].
  apply (yields_found w (Some q) P2025 Hw (eq_sym Hq)).
Qed.

(** C35: A report submitted with an idempotency key is created once. After a
    submission that answered, and whatever other requests did in the meantime, the
    same key answers with the same report, even with other contents, and changes
    nothing. *)
Theorem create_idempotent data data' w r w1 ps ps' w2 :
  truthy k = true → rep_inv w →
  run (ReportSubmission.create cfg stat_of user data (Some k)) w = (Ok r, w1) →
  report_pool (report_handler cfg stat_of instantiate) ps w1 ps' w2 →
  ∃ r', run (ReportSubmission.create cfg stat_of user data' (Some k)) w2 = (Ok r', w2) ∧
        rp_id r' = rp_id r.
Proof.
  intros Hk HI Hrun Hpool.
  destruct (yields_create data w (ri_ids w HI) r w1 Hrun) as [Hid Howned].
  assert (HI1 : rep_inv w1).
  { pose proof (rg_run rep_inv (rep_rel any_place) _ _ _ w HI
      (ok_create_report any_place cfg stat_of user data (Some k) w)) as [HI1 _].
    by rewrite Hrun in HI1. }
  destruct (report_pool_good any_place (report_handler cfg stat_of instantiate) ps w1 ps' w2)
    as [HI2 HR]; [by intros p; apply report_handler_safe|done..|].
  specialize (HR (rp_id r)). rewrite Hid in HR.
  destruct (rw_reports w2 !! rp_id r) as [r2|] eqn:Hr2; [|done]. destruct HR as [[] _].
  unfold keyed_report, owned in Howned.
  apply andb_prop in Howned as [Hu%bool_decide_eq_true Hkey%bool_decide_eq_true].
  unfold ReportSubmission.create. cbn [only_truthy]. rewrite Hk.
  unfold report_findFirst. rewrite run_bind, run_gets.
  destruct (find_row _ _) as [q|] eqn:Hq.
  - exists q. split; [done|]. apply find_row_Some in Hq as [Hown [i Hi]].
    apply andb_prop in Hown as [Hqu%bool_decide_eq_true Hqk%bool_decide_eq_true].
    rewrite (ri_ids w2 HI2 _ _ Hi).
    apply (ri_keys w2 HI2 i (rp_id r) q r2 (cu_id user) k); congruence.
  - rewrite find_row_None in Hq. specialize (Hq _ _ Hr2).
    unfold keyed_report, owned in Hq.
    rewrite !bool_decide_eq_true_2 in Hq; [done|congruence..].
Qed.
End create.

Definition submitted := run (ReportSubmission.create rep_config no_file reporter rep_dto (Some "key"))
  two_reports.
Lemma create_idempotent_witness :
  ∃ r', run (ReportSubmission.create rep_config no_file reporter rep_dto (Some "key")) submitted.2 =
        (Ok r', submitted.2) ∧ rp_id r' = "uu".
Proof.
  destruct submitted as [[r|e] w1] eqn:Hs; [|by vm_compute in Hs].
  assert (rp_id r = "uu") as Hid.
  { pose proof (f_equal (λ o, match o.1 with Ok r => rp_id r | Err _ => "" end) Hs) as Hid.
    cbn in Hid. rewrite <- Hid. vm_compute. reflexivity. }
  rewrite <- Hid.
  apply (create_idempotent rep_config no_file no_dto reporter "key" rep_dto rep_dto two_reports r w1
           [] [] w1).
  - reflexivity.
  - apply rep_world_inv. vm_compute. reflexivity.
  - exact Hs.
  - split; [constructor|apply rtc_refl].
Defined.

(** [updateStatus] leaves no row in the status history; [resolve] does. *)
Example status_change_without_history :
  let w := rep_world [rep_row "r1" "EHT-1" IN_PROGRESS 1000] in
  let closed := (run (updateStatus rep_config admin1 "r1" CLOSED None) w).2 in
  let resolved := (run (resolve admin1 "r1" RESOLVED "done") w).2 in
  (rp_status <$> rw_reports closed !! "r1") = Some CLOSED ∧ rw_history closed = [] ∧
  (rp_status <$> rw_reports resolved !! "r1") = Some CLOSED ∧ length (rw_history resolved) = 1%nat.
Proof. vm_compute. auto. Qed.
