(* ===== verification/ReportMerging.v ===== *)
(** * Reports: merges stay flat and can be undone

    What complete runs of [merge] and [unmerge] make of the table, row by row. *)

From S2P Require Import Prelude Interleave Js Redis Cache Roles ReportModel.
From S2P Require Import ReportCommon ReportWorkflow ReportLifecycle ReportAccess.
From S2P Require Import ReportSubmission ReportReporter ReportSafety ReportProps.
From S2P Require Import ReportSeq.
From stdpp Require Import sorting.
From coqutil Require Import Datatypes.RecordSetters.
Import DoubleBraceUpdate.

Open Scope Z_scope.

(** ** Row by row *)

Definition point_to (id : string) (r : Report) : Report := r{{rp_mergedIntoId := Some id}}.
Definition touched (t : Z) (r : Report) : Report := r{{rp_lastActivityAt := t}}.

Definition merged_row (admin : CurrentUser) (s q : Report) (t t' : Z) (i : string) (r : Report)
    : Report :=
  if bool_decide (i = rp_id s)
  then written (λ _, upd_merged admin q (negb (terminal (rp_status s))) t) t' r
  else if bool_decide (i = rp_id q) then written (λ _, touched t) t' r
  else if merged_into (rp_id s) r then written (λ _, point_to (rp_id q)) t' r
  else r.

Definition unmerged_row (m : ReportMerge) (sid : string) (t t' : Z) (i : string) (r : Report)
    : Report :=
  if bool_decide (i = sid) then written (λ _, upd_unmerged (mg_snapshot m) t) t' r
  else if mem i (sn_repointedChildIds (mg_snapshot m)) && merged_into (mg_target m) r
  then written (λ _, point_to sid) t' r
  else r.

(** The table after [f] was applied to every row. *)
Definition mapped (f : string → Report → Report) (w w' : RepW) : Prop :=
  ∀ i, rw_reports w' !! i = f i <$> rw_reports w !! i.

Section merging.
Context `{RepLib} (cfg : RepConfig).

Definition merge_row (admin : CurrentUser) (s q : Report) (children : list Report)
    (reason : option string) (id : string) (created : Z) : ReportMerge := {|
  mg_id := id; mg_source := rp_id s; mg_target := rp_id q;
  mg_mergedById := Some (cu_id admin); mg_reason := reason;
  mg_snapshot := snapshot_of s children; mg_createdAt := created;
  mg_unmergedAt := None; mg_unmergedById := None; mg_unmergeReason := None |}.

Lemma run_report_update id upd r w :
  rw_reports w !! id = Some r →
  run (report_update id upd) w =
  (Ok (written upd (rw_now w) r), set_reports (insert id (written upd (rw_now w) r)) w).
Proof. intros Hr. unfold report_update. by rewrite run_act_outcome, Hr. Qed.

Lemma reports_insert id r w :
  rw_reports (set_reports (insert id r) w) = <[id := r]> (rw_reports w).
Proof. reflexivity. Qed.

(** The children of a report, as [merge] reads them. *)
Lemma children_nil sid w :
  filter (λ r, merged_into sid r = true) (map_to_list (rw_reports w)).*2 = [] →
  ∀ i r, rw_reports w !! i = Some r → merged_into sid r = false.
Proof.
  intros Hnil i r Hr. apply not_true_is_false. intros Hm.
  apply (not_elem_of_nil r). rewrite <- Hnil. apply list_elem_of_filter. split; [done|].
  apply list_elem_of_fmap. exists (i, r). by rewrite elem_of_map_to_list.
Qed.

Lemma run_merge_tx admin s q reason t w :
  rw_reports w !! rp_id s = Some s → rw_reports w !! rp_id q = Some q →
  rp_id s ≠ rp_id q → rp_mergedIntoId q ≠ Some (rp_id s) →
  let children := filter (λ r, merged_into (rp_id s) r = true) (map_to_list (rw_reports w)).*2 in
  ∃ r w' id, run (merge_tx admin s q children reason t) w = (Ok r, w') ∧
    mapped (merged_row admin s q t (rw_now w)) w w' ∧
    rw_merges w' = <[id := merge_row admin s q children reason id (rw_now w)]> (rw_merges w) ∧
    rw_now w' = rw_now w.
Proof.
  intros Hs Hq Hne Hqs children. unfold merge_tx.
  rewrite run_bind, (run_report_update _ _ s) by done. set (s' := written _ _ s).
  set (w1 := set_reports _ w).
  assert (Hmid : ∃ w2, run (match children with [] => mret ()
      | _ => report_updateMany (merged_into (rp_id s)) (λ _ r, r{{rp_mergedIntoId := Some (rp_id q)}})
      end) w1 = (Ok (), w2) ∧ rw_merges w2 = rw_merges w ∧ rw_now w2 = rw_now w ∧
      ∀ i, rw_reports w2 !! i = (λ r, if merged_into (rp_id s) r
        then written (λ _, point_to (rp_id q)) (rw_now w) r else r) <$> rw_reports w1 !! i).
  { destruct children as [|c cs] eqn:Hc.
    - exists w1. split_and!; [done..|]. intros i.
      change (rw_reports w1) with (<[rp_id s := s']> (rw_reports w)).
      destruct (decide (i = rp_id s)) as [->|Hi].
      + rewrite lookup_insert_eq. cbn [fmap option_fmap option_map].
        unfold merged_into at 1. rewrite bool_decide_eq_false_2; [done|].
        unfold s', upd_merged. by destruct (negb _); cbn; intros [= ?].
      + rewrite lookup_insert_ne by congruence.
        destruct (rw_reports w !! i) as [r|] eqn:Hr; [|done]. cbn. by rewrite (children_nil (rp_id s) w Hc i r Hr).
    - eexists. split; [apply run_modify|]. split_and!; [done..|].
      intros i. cbn. by rewrite lookup_fmap. }
  destruct Hmid as (w2&Hrun&Hm2&Hn2&Hw2). rewrite run_bind, Hrun.
  unfold merge_create, randomUUID, draw.
  rewrite run_bind, run_bind, run_bind, run_act, run_ret, run_modify.
  set (id := rep_uuid _). set (w3 := RecordSetters.apply_update _ _).
  rewrite run_bind.
  assert (Hhist : ∀ c, ∃ w4, run (if negb (terminal (rp_status s)) then history_create c else mret ()) w3
      = (Ok (), w4) ∧ rw_reports w4 = rw_reports w2 ∧ rw_merges w4 = rw_merges w3 ∧
      rw_now w4 = rw_now w).
  { intros c. destruct (negb _); [unfold history_create; rewrite run_modify|rewrite run_ret];
      by eexists. }
  match goal with |- context [history_create ?c] => destruct (Hhist c) as (w4&->&Hr4&Hm4&Hn4) end.
  assert (Hq4 : rw_reports w4 !! rp_id q = Some q).
  { rewrite Hr4, Hw2. change (rw_reports w1) with (<[rp_id s := s']> (rw_reports w)).
    rewrite lookup_insert_ne, Hq by done. cbn. unfold merged_into.
    by rewrite bool_decide_eq_false_2. }
  rewrite run_bind, (run_report_update _ _ q) by done. rewrite run_ret.
  eexists _, _, id. split; [reflexivity|]. split_and!.
  - intros i. unfold merged_row.
    rewrite reports_insert, Hr4, Hn4. destruct (decide (i = rp_id q)) as [->|Hiq].
    + rewrite lookup_insert_eq, Hq. cbn.
      by rewrite bool_decide_eq_false_2, bool_decide_eq_true_2 by congruence.
    + rewrite lookup_insert_ne, Hw2 by congruence. unfold w1. rewrite reports_insert.
      rewrite (bool_decide_eq_false_2 (i = rp_id q)) by done.
      destruct (decide (i = rp_id s)) as [->|His].
      * rewrite lookup_insert_eq, Hs. cbn. rewrite bool_decide_eq_true_2 by done.
        unfold merged_into. rewrite bool_decide_eq_false_2; [done|].
        unfold s', upd_merged. by destruct (negb _); cbn; intros [= ?].
      * rewrite lookup_insert_ne by congruence.
        by rewrite (bool_decide_eq_false_2 (i = rp_id s)).
  - change (rw_merges (set_reports ?f w4)) with (rw_merges w4). rewrite Hm4, <- Hm2, <- Hn2. reflexivity.
  - done.
Qed.

Lemma run_unmerge_tx admin s m reason t w :
  well_keyed w → rw_reports w !! rp_id s = Some s →
  ∃ r w', run (unmerge_tx admin s m reason t) w = (Ok r, w') ∧
    mapped (unmerged_row m (rp_id s) t (rw_now w)) w w'.
Proof.
  intros Hw Hs. unfold unmerge_tx. rewrite run_bind, (run_report_update _ _ s) by done.
  set (s' := written _ _ s). set (w1 := set_reports _ w).
  assert (Hs' : rp_mergedIntoId s' = None).
  { unfold s', upd_unmerged. by destruct (sn_closedByMerge _). }
  assert (Hmid : ∃ w2, run (match sn_repointedChildIds (mg_snapshot m) with [] => mret ()
      | ids => report_updateMany (λ r, mem (rp_id r) ids && merged_into (mg_target m) r)
                 (λ _ r, r{{rp_mergedIntoId := Some (rp_id s)}})
      end) w1 = (Ok (), w2) ∧ mapped (unmerged_row m (rp_id s) t (rw_now w)) w w2).
  { assert (Hrow : ∀ i r, rw_reports w1 !! i = Some r → ∃ r0, rw_reports w !! i = Some r0 ∧
      (i = rp_id s ∧ r0 = s ∧ r = s' ∨ i ≠ rp_id s ∧ r = r0)).
    { intros i r. unfold w1. rewrite reports_insert, lookup_insert_Some. naive_solver. }
    assert (Hnone : ∀ i, rw_reports w1 !! i = None ↔ rw_reports w !! i = None).
    { intros i. unfold w1. rewrite reports_insert, lookup_insert_None. naive_solver. }
    set (ids := sn_repointedChildIds (mg_snapshot m)).
    set (f r := if mem (rp_id r) ids && merged_into (mg_target m) r
                then written (λ _, point_to (rp_id s)) (rw_now w) r else r).
    assert (Hf : ∀ i, f <$> rw_reports w1 !! i =
                      unmerged_row m (rp_id s) t (rw_now w) i <$> rw_reports w !! i).
    { intros i. destruct (rw_reports w1 !! i) as [r|] eqn:Hr.
      - destruct (Hrow i r Hr) as (r0&Hr0&Hcase). rewrite Hr0. cbn [fmap option_fmap option_map].
        f_equal. unfold f, unmerged_row. destruct Hcase as [(->&->&->)|[Hi ->]].
        + rewrite bool_decide_eq_true_2 by done. unfold merged_into. rewrite Hs'. by rewrite andb_false_r.
        + rewrite bool_decide_eq_false_2 by done. by rewrite (Hw _ _ Hr0).
      - apply Hnone in Hr as ->. done. }
    destruct ids as [|x xs] eqn:Hids.
    - exists w1. split; [done|]. intros i. rewrite <- Hf.
      destruct (rw_reports w1 !! i) as [r|]; [|done]. cbn [fmap option_fmap option_map]. f_equal.
    - eexists. split; [apply run_modify|]. intros i. rewrite <- Hf.
      change (rw_reports (set_reports ?g w1)) with (g (rw_reports w1)). by rewrite lookup_fmap. }
  destruct Hmid as (w2&Hrun&Hw2). rewrite run_bind, Hrun.
  assert (∀ w', rw_reports w' = rw_reports w2 → mapped (unmerged_row m (rp_id s) t (rw_now w)) w w')
    as Hdone by (intros w' He i; by rewrite He).
  apply run_side; [by apply side_modify|intros _ w3 H3].
  apply run_side; [side_tac|intros _ w4 H4].
  exists s', w4. split; [done|]. apply Hdone. congruence.
Qed.

(** ** The handlers *)

Lemma run_loadForAdminWrite admin id action w :
  ∃ w', rw_reports w' = rw_reports w ∧ run (loadForAdminWrite admin id action) w =
    match shown admin false w id with
    | None => (Err (NotFound "report_not_found"), w)
    | Some r => if may_change admin r then (Ok r, w)
                else (Err (Forbidden "report_assigned_to_another_admin"), w')
    end.
Proof.
  unfold loadForAdminWrite. rewrite run_bind, run_loadForAdmin.
  destruct (shown _ _ _ _) as [r|]; cbn [from_option]; [|by exists w].
  rewrite run_bind. destruct (run_assertAdmin admin r action w) as [evs ->].
  destruct (may_change admin r); [by exists w|]. by exists (with_events w evs).
Qed.
(** Programs that only emit. *)
Definition emits (p : prog RepW ()) : Prop := ∀ w, ∃ evs, run p w = (Ok (), with_events w evs).
Lemma emits_audit a b c d e : emits (audit a b c d e).
Proof. intros w. unfold audit, emitAudit, emit. rewrite run_modify. by eexists. Qed.
Lemma emits_when (b : bool) r : emits (if b then notifyReporter r else mret ()).
Proof.
  intros w. destruct b; [unfold notifyReporter, emit; rewrite run_modify; by eexists|].
  rewrite run_ret. exists (rw_events w). f_equal. apply same_events.
Qed.
Lemma shown_row admin d w id r : shown admin d w id = Some r → rw_reports w !! id = Some r.
Proof. unfold shown. intros H'. by repeat case_match; simplify_eq. Qed.

(** What [merge] did, when it did something. *)
Record merge_done (admin : CurrentUser) (sid tid : string) (w w' : RepW) : Prop := {
  md_distinct : sid ≠ tid;
  md_rows : ∃ s q t id children, rw_reports w !! sid = Some s ∧ rw_reports w !! tid = Some q ∧
    shown admin false w sid = Some s ∧
    present (rp_mergedIntoId s) = false ∧ present (rp_mergedIntoId q) = false ∧
    mapped (merged_row admin s q t (rw_now w)) w w' ∧
    children = filter (λ r, merged_into sid r = true) (map_to_list (rw_reports w)).*2 ∧
    ∃ reason, rw_merges w' =
      <[id := merge_row admin s q children reason id (rw_now w)]> (rw_merges w);
}.

Lemma merge_effect admin sid tid reason w :
  well_keyed w → truthy sid = true →
  match run (ReportLifecycle.merge admin sid tid reason) w with
  | (Ok _, w') => merge_done admin sid tid w w'
  | (Err _, w') => rw_reports w' = rw_reports w
  end.
Proof.
  intros Hw Hsid. unfold ReportLifecycle.merge. rewrite run_bind, run_throw_if.
  case_bool_decide as Hne; [done|]. cbv zeta beta.
  rewrite run_bind. destruct (run_loadForAdminWrite admin sid "REPORT_MERGED" w) as (w0&Hw0&->).
  destruct (shown admin false w sid) as [s|] eqn:Hs; [|done].
  destruct (may_change admin s); [|done].
  rewrite run_bind, run_loadForAdmin.
  destruct (shown admin false w tid) as [q|] eqn:Hq; [|done]. cbn [from_option].
  pose proof (shown_row _ _ _ _ _ Hs) as Hs'. pose proof (shown_row _ _ _ _ _ Hq) as Hq'.
  pose proof (Hw _ _ Hs') as Hids. pose proof (Hw _ _ Hq') as Hidq.
  rewrite run_bind, run_throw_if. destruct (present (rp_mergedIntoId s)) eqn:Hps; [done|].
  rewrite run_bind, run_throw_if. destruct (present (rp_mergedIntoId q)) eqn:Hpq; [done|].
  cbv beta. rewrite run_bind. unfold report_findMany. rewrite run_gets.
  rewrite run_bind. unfold now. rewrite run_gets. rewrite run_bind, run_transaction.
  destruct (run_merge_tx admin s q reason (rw_now w) w) as (r&w1&id&Hrun&Hmap&Hm&_).
  - by rewrite Hids.
  - by rewrite Hidq.
  - congruence.
  - intros Hp. rewrite Hp, Hids in Hpq. unfold present in Hpq. cbn in Hpq. by rewrite Hsid in Hpq.
  - rewrite Hids in Hrun. rewrite Hrun.
    rewrite run_bind. destruct (emits_audit admin "REPORT_MERGED" s
      [success; ("targetReportId", JStr (rp_id q));
       ("targetCaseReference", JStr (rp_caseReference q))] (with_reason reason) w1) as [evs ->].
    rewrite run_bind. destruct (emits_when (negb (terminal (rp_status s))) r (with_events w1 evs))
      as [evs' ->].
    rewrite run_ret. split; [done|]. exists s, q, (rw_now w), id.
    eexists. rewrite Hids in Hm. split_and!; [done..|]. by exists reason.
Qed.

Lemma run_unmerge_ok admin sid mergeId reason w s m :
  well_keyed w → shown admin false w sid = Some s → may_change admin s = true →
  open_merge sid mergeId w = Some m →
  ∃ r w', run (unmerge admin sid mergeId reason) w = (Ok r, w') ∧
    mapped (unmerged_row m sid (rw_now w) (rw_now w)) w w'.
Proof.
  intros Hw Hs Hc Hm. unfold unmerge. rewrite run_bind.
  destruct (run_loadForAdminWrite admin sid "REPORT_UNMERGED" w) as (w0&Hw0&->). rewrite Hs, Hc.
  rewrite run_bind, run_gets, Hm. rewrite run_bind, run_require. cbn [from_option].
  unfold now. rewrite run_bind, run_gets, run_bind, run_transaction.
  pose proof (shown_row _ _ _ _ _ Hs) as Hs'. pose proof (Hw _ _ Hs') as Hids.
  destruct (run_unmerge_tx admin s m reason (rw_now w) w) as (r&w1&->&Hmap);
    [done|by rewrite Hids|]. rewrite Hids in Hmap.
  rewrite run_bind. match goal with |- context [audit ?a ?b ?c ?d ?e] =>
    destruct (emits_audit a b c d e w1) as [evs ->] end.
  rewrite run_bind. destruct (emits_when (sn_closedByMerge (mg_snapshot m)) r (with_events w1 evs))
    as [evs' ->].
  rewrite run_ret. by eexists _, _.
Qed.

Lemma unmerge_effect admin sid mergeId reason w :
  well_keyed w →
  match run (unmerge admin sid mergeId reason) w with
  | (Ok _, w') => ∃ s m, rw_reports w !! sid = Some s ∧
      mapped (unmerged_row m sid (rw_now w) (rw_now w)) w w'
  | (Err _, w') => rw_reports w' = rw_reports w
  end.
Proof.
  intros Hw. destruct (shown admin false w sid) as [s|] eqn:Hs.
  - destruct (may_change admin s) eqn:Hc; [destruct (open_merge sid mergeId w) as [m|] eqn:Hm|].
    + destruct (run_unmerge_ok admin sid mergeId reason w s m) as (r&w'&->&Hmap); [done..|].
      exists s, m. split; [by eapply shown_row|done].
    + unfold unmerge. rewrite run_bind.
      destruct (run_loadForAdminWrite admin sid "REPORT_UNMERGED" w) as (w0&Hw0&->).
      rewrite Hs, Hc. by rewrite run_bind, run_gets, Hm.
    + unfold unmerge. rewrite run_bind.
      destruct (run_loadForAdminWrite admin sid "REPORT_UNMERGED" w) as (w0&Hw0&->).
      by rewrite Hs, Hc.
  - unfold unmerge. rewrite run_bind.
    destruct (run_loadForAdminWrite admin sid "REPORT_UNMERGED" w) as (w0&Hw0&->). by rewrite Hs.
Qed.

(** ** Flat merges *)

(** A report is merged into another one, that is itself not merged. *)
Definition flat (w : RepW) : Prop :=
  ∀ id r t, rw_reports w !! id = Some r → rp_mergedIntoId r = Some t →
    t ≠ "" ∧ t ≠ id ∧ ∃ q, rw_reports w !! t = Some q ∧ rp_mergedIntoId q = None.

Lemma flat_present w id r :
  flat w → rw_reports w !! id = Some r → present (rp_mergedIntoId r) = false →
  rp_mergedIntoId r = None.
Proof.
  intros Hf Hr Hp. destruct (rp_mergedIntoId r) as [t|] eqn:Ht; [|done].
  destruct (Hf id r t Hr Ht) as [Hne _]. unfold present in Hp. cbn in Hp.
  by rewrite (proj2 (truthy_true t) Hne) in Hp.
Qed.

Lemma flat_same w w' : rw_reports w' = rw_reports w → flat w → flat w'.
Proof. intros He Hf id r t. rewrite He. apply Hf. Qed.

Lemma merged_row_into admin s q t t' i r :
  rp_mergedIntoId (merged_row admin s q t t' i r) =
    if bool_decide (i = rp_id s) then Some (rp_id q)
    else if bool_decide (i = rp_id q) then rp_mergedIntoId r
    else if merged_into (rp_id s) r then Some (rp_id q) else rp_mergedIntoId r.
Proof.
  unfold merged_row. destruct (bool_decide (i = rp_id s)).
  - unfold upd_merged. by destruct (negb _).
  - destruct (bool_decide (i = rp_id q)); [done|]. by destruct (merged_into _ _).
Qed.
Lemma unmerged_row_into m sid t t' i r :
  rp_mergedIntoId (unmerged_row m sid t t' i r) =
    if bool_decide (i = sid) then None
    else if mem i (sn_repointedChildIds (mg_snapshot m)) && merged_into (mg_target m) r
         then Some sid else rp_mergedIntoId r.
Proof.
  unfold unmerged_row. destruct (bool_decide (i = sid)).
  - unfold upd_unmerged. by destruct (sn_closedByMerge _).
  - by destruct (mem _ _ && _).
Qed.

Lemma merge_flat admin sid tid w w' :
  well_keyed w → flat w → truthy tid = true → merge_done admin sid tid w w' → flat w'.
Proof.
  intros Hw Hf Htid [Hne (s&q&t&id&children&Hs&Hq&_&Hps&Hpq&Hmap&_)].
  pose proof (Hw _ _ Hs) as Hids. pose proof (Hw _ _ Hq) as Hidq.
  pose proof (flat_present w tid q Hf Hq Hpq) as Hqn. apply truthy_true in Htid.
  assert (Htarget : ∃ q', rw_reports w' !! tid = Some q' ∧ rp_mergedIntoId q' = None).
  { eexists. rewrite Hmap, Hq. split; [done|]. rewrite merged_row_into, Hids, Hidq.
    by rewrite bool_decide_eq_false_2, bool_decide_eq_true_2. }
  intros i r' x. rewrite Hmap, fmap_Some. intros (r&Hr&->). rewrite merged_row_into, Hids, Hidq.
  case_bool_decide as His; [intros [= <-]; subst; by split_and!|].
  case_bool_decide as Hiq; [subst; congruence|].
  destruct (merged_into sid r) eqn:Hc; [intros [= <-]; by split_and!|].
  intros Hx. destruct (Hf i r x Hr Hx) as (Hx0&Hxi&q0&Hq0&Hn). split_and!; [done..|].
  eexists. rewrite Hmap, Hq0. split; [done|]. rewrite merged_row_into, Hids, Hidq.
  rewrite bool_decide_eq_false_2.
  2:{ intros ->. unfold merged_into in Hc. by rewrite Hx, bool_decide_eq_true_2 in Hc. }
  case_bool_decide; [done|]. unfold merged_into. by rewrite Hn.
Qed.

Lemma unmerge_flat sid m s t t' w w' :
  flat w → truthy sid = true → rw_reports w !! sid = Some s →
  mapped (unmerged_row m sid t t') w w' → flat w'.
Proof.
  intros Hf Hsid%truthy_true Hs Hmap.
  assert (Hsource : ∃ q', rw_reports w' !! sid = Some q' ∧ rp_mergedIntoId q' = None).
  { eexists. rewrite Hmap, Hs. split; [done|]. rewrite unmerged_row_into.
    by rewrite bool_decide_eq_true_2. }
  intros i r' x. rewrite Hmap, fmap_Some. intros (r&Hr&->). rewrite unmerged_row_into.
  case_bool_decide as His; [done|].
  destruct (mem i _ && _) eqn:Hc; [intros [= <-]; by split_and!|].
  intros Hx. destruct (Hf i r x Hr Hx) as (Hx0&Hxi&q0&Hq0&Hn). split_and!; [done..|].
  eexists. rewrite Hmap, Hq0. split; [done|]. rewrite unmerged_row_into.
  case_bool_decide; [done|]. unfold merged_into. rewrite Hn.
  by rewrite bool_decide_eq_false_2, andb_false_r.
Qed.
End merging.

(** ** The theorems *)

Section props.
Context `{RepLib} (cfg : RepConfig) (stat_of : string → option (Z * string)).
Context (instantiate : list (string * json) → CreateReportDto + list string).

Definition same_merge (p q : ReportStatus * option string) : Prop := q.2 = p.2.
#[local] Instance same_merge_preorder : PreOrder same_merge.
Proof. split; [done|]. intros p q r. unfold same_merge. congruence. Qed.

(** Merges and unmerges run one at a time; between them, anything else runs in any
    interleaving. Identifiers of requests are not empty. *)
Inductive serial_step (w w' : RepW) : Prop :=
| s_others ps ps' :
    report_pool (unmerging_handler cfg stat_of instantiate) ps w ps' w' → serial_step w w'
| s_merge a i j c : truthy i = true → truthy j = true →
    w' = (run (ReportLifecycle.merge a i j c) w).2 → serial_step w w'
| s_unmerge a i j c : truthy i = true → w' = (run (unmerge a i j c) w).2 → serial_step w w'.

Lemma run_inv {A} (p : prog RepW A) w :
  safe rep_inv (rep_rel any_place) p → rep_inv w → rep_inv (run p w).2.
Proof. intros Hp HI. by apply (rg_run rep_inv (rep_rel any_place) _ _ p w HI (Hp w)). Qed.

Lemma serial_step_flat w w' :
  rep_inv w → flat w → serial_step w w' → rep_inv w' ∧ flat w'.
Proof.
  intros HI Hf [ps ps' Hpool|a i j c Hi Hj ->|a i j c Hi ->].
  - assert (Hsafe : ∀ p, unmerging_handler cfg stat_of instantiate p →
      safe rep_inv (rep_rel same_merge) p).
    { intros p Hp. eapply unmerging_handler_safe; [apply _|by intros|exact Hp]. }
    destruct (report_pool_good same_merge _ ps w ps' w' Hsafe HI Hpool) as [HI' HR].
    split; [done|]. intros id r' t Hr' Ht. pose proof (HR id) as Hid. rewrite Hr' in Hid.
    destruct (rw_reports w !! id) as [r|] eqn:Hr; [|unfold row_rel, same_merge in Hid; cbn in Hid; congruence].
    destruct Hid as [_ Hid]. unfold same_merge in Hid. cbn in Hid.
    destruct (Hf id r t Hr ltac:(congruence)) as (?&?&q&Hq&Hn). split_and!; [done..|].
    specialize (HR t). rewrite Hq in HR. destruct (rw_reports w' !! t) as [q'|]; [|done].
    exists q'. split; [done|]. destruct HR as [_ HR]. unfold same_merge in HR. cbn in HR. congruence.
  - split; [apply run_inv; [by apply ok_merge|done]|].
    pose proof (merge_effect a i j c w (ri_ids w HI) Hi) as He.
    destruct (run _ w) as [[r|e] w'] eqn:Hr; cbn [snd].
    + by apply (merge_flat a i j w w' (ri_ids w HI)).
    + by eapply flat_same.
  - split; [apply run_inv; [by apply ok_unmerge|done]|].
    pose proof (unmerge_effect a i j c w (ri_ids w HI)) as He.
    destruct (run _ w) as [[r|e] w'] eqn:Hr; cbn [snd].
    + destruct He as (s&m&Hs&Hmap). by eapply unmerge_flat.
    + by eapply flat_same.
Qed.

(** C33: As long as merges and unmerges do not overlap, merges stay flat: a merged
    report points at another report, which is not merged itself, so that no
    chain and no cycle arises, whatever else runs in between. *)
Theorem merges_stay_flat w w' :
  rep_inv w → flat w → rtc serial_step w w' → flat w'.
Proof.
  intros HI Hf Hs. enough (rep_inv w' ∧ flat w') as [_ ?] by done.
  induction Hs as [w|w w1 w' Hstep _ IH]; [done|].
  destruct (serial_step_flat w w1 HI Hf Hstep). by apply IH.
Qed.

(** *** Undoing a merge *)

(** The same but for the times of the last changes. *)
Definition same_but_times (r r' : Report) : Prop :=
  r'{{rp_lastActivityAt := rp_lastActivityAt r;
      rp_reporterUpdatedAt := rp_reporterUpdatedAt r; rp_updatedAt := rp_updatedAt r}} = r.

Lemma row_undone admin s q t t' id created children reason t2 t2' i r :
  rp_id s ≠ rp_id q → rp_mergedIntoId s = None → rp_mergedAt s = None →
  rp_mergedIntoId q = None →
  (i = rp_id s → r = s) → (i = rp_id q → r = q) →
  (merged_into (rp_id s) r = true ↔ i ∈ rp_id <$> children) →
  same_but_times r
    (unmerged_row (merge_row admin s q children reason id created) (rp_id s) t2 t2' i
       (merged_row admin s q t t' i r)).
Proof.
  intros Hne Hs Hat Hq His Hiq Hc. unfold unmerged_row, merged_row.
  case_bool_decide as Hi; [|case_bool_decide as Hi2].
  - rewrite (His Hi). unfold upd_merged, upd_unmerged. cbn [mg_snapshot merge_row snapshot_of
      sn_closedByMerge sn_previousStatus sn_previousResolution].
    destruct (negb _); clear His Hiq Hc; destruct s; cbn in *; by subst.
  - rewrite (Hiq Hi2). cbn [mg_target merge_row]. unfold merged_into at 1.
    rewrite bool_decide_eq_false_2.
    + rewrite andb_false_r. clear. by destruct q.
    + clear - Hq Hne. destruct q; cbn in *; congruence.
  - destruct (merged_into (rp_id s) r) eqn:Hm.
    + assert (i ∈ rp_id <$> children) as Hmem by by apply Hc.
      cbn [mg_snapshot merge_row snapshot_of sn_repointedChildIds mg_target].
      unfold mem, merged_into. rewrite !bool_decide_eq_true_2 by done. cbn [andb].
      apply bool_decide_eq_true in Hm. clear - Hm. destruct r; cbn in *; by subst.
    + cbn [mg_snapshot merge_row snapshot_of sn_repointedChildIds].
      unfold mem. rewrite bool_decide_eq_false_2; [|by rewrite <- Hc].
      clear. by destruct r.
Qed.

Lemma deleted_merged a s q t t' i r : deleted (merged_row a s q t t' i r) = deleted r.
Proof.
  unfold merged_row, upd_merged. repeat case_match; reflexivity.
Qed.

Lemma head_single {A} (P : A → Prop) (l : list A) (x : A) :
  x ∈ l → (∀ y, y ∈ l → y = x) → head l = Some x.
Proof.
  destruct l as [|y l]; [by intros ?%elem_of_nil|]. intros _ Hall. cbn. f_equal. apply Hall. left.
Qed.

Lemma open_merge_new sid w w1 id m :
  (∀ i m', rw_merges w !! i = Some m' → open_merge_of sid None m' = false) →
  rw_merges w1 = <[id := m]> (rw_merges w) → open_merge_of sid None m = true →
  open_merge sid None w1 = Some m.
Proof.
  intros Hno Hm Ho. unfold open_merge. apply (head_single (λ _, True)).
  - rewrite merge_sort_Permutation, list_elem_of_filter. split; [done|].
    apply list_elem_of_fmap. exists (id, m). split; [done|].
    rewrite elem_of_map_to_list, Hm. apply lookup_insert_eq.
  - intros m'. rewrite merge_sort_Permutation, list_elem_of_filter, list_elem_of_fmap.
    intros (Ho'&[i x]&->&Hx%elem_of_map_to_list). cbn in *. rewrite Hm in Hx.
    apply lookup_insert_Some in Hx as [[_ <-]|[_ Hx]]; [done|].
    by rewrite (Hno i x Hx) in Ho'.
Qed.

(** C32: A merge can be undone. After a merge, at any later time, [unmerge] by a
    super administrator answers, and every report of the table is again what it was
    before the merge, but for the times of the last changes: the status and
    resolution of the source, and the reports that had been merged into it. *)
Theorem merge_undone a b sid tid reason reason' t w r w1 :
  rep_inv w → flat w → truthy sid = true → isSuperAdmin b = true →
  (∀ s, rw_reports w !! sid = Some s → rp_mergedIntoId s = None → rp_mergedAt s = None) →
  (∀ i m, rw_merges w !! i = Some m → open_merge_of sid None m = false) →
  run (ReportLifecycle.merge a sid tid reason) w = (Ok r, w1) →
  ∃ r' w2, run (unmerge b sid None reason') (w1{{rw_now := t}}) = (Ok r', w2) ∧
    ∀ i, match rw_reports w !! i, rw_reports w2 !! i with
         | Some q, Some q' => same_but_times q q'
         | None, None => True
         | _, _ => False
         end.
Proof.
  intros HI Hf Hsid Hb Hat Hno Hrun.
  pose proof (merge_effect a sid tid reason w (ri_ids w HI) Hsid) as He.
  rewrite Hrun in He. destruct He as [Hne (s&q&tm&id&children&Hs&Hq&Hshown&Hps&Hpq&Hmap&Hch&rs&Hm)].
  pose proof (ri_ids w HI _ _ Hs) as Hids. pose proof (ri_ids w HI _ _ Hq) as Hidq.
  pose proof (flat_present w sid s Hf Hs Hps) as Hsn.
  pose proof (flat_present w tid q Hf Hq Hpq) as Hqn.
  set (w1' := w1{{rw_now := t}}).
  change (rw_merges w1) with (rw_merges w1') in Hm.
  assert (HI1 : rep_inv w1').
  { pose proof (run_inv _ w (ok_merge any_place (λ _ _, I) a sid tid reason) HI) as HI1.
    rewrite Hrun in HI1. by apply (reports_kept_good any_place w1). }
  assert (Hmap' : mapped (merged_row a s q tm (rw_now w)) w w1') by exact Hmap.
  clearbody w1'.
  destruct (run_unmerge_ok b sid None reason' w1' (merged_row a s q tm (rw_now w) sid s)
    (merge_row a s q children rs id (rw_now w))) as (r'&w2&Hrun2&Hmap2).
  - exact (ri_ids w1' HI1).
  - unfold shown. rewrite Hmap', Hs. cbn [fmap option_fmap option_map].
    unfold visible. rewrite Hb. cbn [orb]. rewrite andb_true_r.
    rewrite (deleted_merged a s q tm (rw_now w) sid s).
    unfold shown in Hshown. rewrite Hs in Hshown. cbn [orb] in *.
    destruct (negb (deleted s)); [done|by cbn in Hshown].
  - unfold may_change. by rewrite Hb.
  - eapply open_merge_new; [exact Hno|exact Hm|].
    unfold open_merge_of. cbn. by rewrite bool_decide_eq_true_2.
  - exists r', w2. split; [done|]. intros i. rewrite Hmap2, Hmap'.
    destruct (rw_reports w !! i) as [x|] eqn:Hx; [|done]. cbn [fmap option_fmap option_map].
    rewrite <- Hids at 1. apply row_undone; [congruence|done|by apply (Hat s)|done|congruence..|].
    rewrite Hch. pose proof (ri_ids w HI _ _ Hx) as <-. rewrite Hids. split.
    + intros Hc. apply list_elem_of_fmap. exists x. split; [done|].
      apply list_elem_of_filter. split; [done|].
      apply list_elem_of_fmap. exists (rp_id x, x). by rewrite elem_of_map_to_list.
    + intros (y&Hy&Hin)%list_elem_of_fmap. apply list_elem_of_filter in Hin as [Hc Hin].
      apply list_elem_of_fmap in Hin as ([j z]&->&Hz%elem_of_map_to_list). cbn in *. pose proof (ri_ids w HI _ _ Hz) as Hj. congruence.
Qed.
End props.

(** ** Witnesses *)

Lemma two_reports_inv : rep_inv two_reports.
Proof. apply rep_world_inv. vm_compute. reflexivity. Qed.
Lemma rep_world_flat rs :
  forallb (λ r, bool_decide (rp_mergedIntoId r = None)) rs = true → flat (rep_world rs).
Proof.
  rewrite forallb_forall. intros Hall i r t Hr Ht. cbn in Hr.
  apply elem_of_list_to_map_2, list_elem_of_fmap in Hr as (q&[= -> ->]&Hq).
  apply list_elem_of_In, Hall, bool_decide_eq_true in Hq. congruence.
Qed.

Definition after_merge : RepW := (run (ReportLifecycle.merge admin1 "r1" "r2" None) two_reports).2.
Lemma merges_stay_flat_witness :
  (rw_reports after_merge !! "r1" ≫= rp_mergedIntoId) = Some "r2" ∧ flat after_merge.
Proof.
  split; [vm_compute; reflexivity|].
  apply (merges_stay_flat rep_config no_file no_dto two_reports).
  - apply two_reports_inv.
  - apply rep_world_flat. vm_compute. reflexivity.
  - apply rtc_once. by apply (s_merge _ _ _ _ _ admin1 "r1" "r2" None).
Defined.

Lemma merge_undone_witness :
  ∃ r' w2, run (unmerge super_admin "r1" None "a mistake") (after_merge{{rw_now := 5000000}}) =
           (Ok r', w2) ∧
    match rw_reports w2 !! "r1" with
    | Some q' => same_but_times (rep_row "r1" "EHT-1" UNDER_REVIEW 1000) q'
    | None => False
    end.
Proof.
  destruct (run (ReportLifecycle.merge admin1 "r1" "r2" None) two_reports) as [[r|e] w1] eqn:Hrun.
  2:{ assert (is_ok (run (ReportLifecycle.merge admin1 "r1" "r2" None) two_reports).1 = true)
        by (vm_compute; reflexivity). by rewrite Hrun in H. }
  unfold after_merge. rewrite Hrun.
  destruct (merge_undone admin1 super_admin "r1" "r2" None "a mistake" 5000000 two_reports r w1)
    as (r'&w2&Hu&Hrows).
  - apply two_reports_inv.
  - apply rep_world_flat. vm_compute. reflexivity.
  - reflexivity.
  - reflexivity.
  - intros s Hs _. vm_compute in Hs. by injection Hs as <-.
  - intros i m Hm. by vm_compute in Hm.
  - exact Hrun.
  - exists r', w2. split; [exact Hu|]. specialize (Hrows "r1").
    assert (rw_reports two_reports !! "r1" = Some (rep_row "r1" "EHT-1" UNDER_REVIEW 1000)) as He
      by (vm_compute; reflexivity).
    by rewrite He in Hrows.
Defined.
