(* ===== verification/Permissions.v ===== *)
(** * Permissions, their risks, and the guards that ask for them

    Models [src/common/enums/permissions.enum.ts], [utils/permission-risk.util.ts]
    and the guards [guards/permissions.guard.ts] and [roles.guard.ts]. A permission
    is known by its name, as in the table and in the tokens. *)

From S2P Require Import Prelude Js Roles.

(** ** The permissions *)

(** [Object.values(PermissionsEnum)] *)
Definition PermissionsEnum : list string :=
  ["REPORT_READ"; "REPORT_REVIEW"; "REPORT_UPDATE_STATUS"; "REPORT_REQUEST_INFO";
   "REPORT_ASSIGN"; "REPORT_ESCALATE"; "REPORT_CLOSE"; "REPORT_EVIDENCE_READ";
   "REPORTER_INFO_READ"; "REPORT_TRIAGE"; "REPORT_DELETE"; "REPORT_EXPORT";
   "REPORT_LOCATION_READ"; "REPORT_LOCATION_UPDATE"; "REPORT_EVIDENCE_MANAGE";
   "REPORT_AUDIT_READ"; "REPORT_SENSITIVITY_MANAGE"; "REPORT_REVEAL_REPORTER";
   "REPORT_EMAIL_REPLY"; "POST_READ"; "POST_REVIEW"; "POST_APPROVE"; "POST_REJECT";
   "POST_REQUEST_CHANGES"; "POST_PUBLISH"; "POST_UNPUBLISH"; "POST_CREATE_OFFICIAL";
   "POST_DELETE"; "POST_FLAG_REVIEW"; "POST_TAKEDOWN"; "POST_APPEAL_DECIDE";
   "MISSING_PERSON_READ"; "MISSING_PERSON_REVIEW"; "MISSING_PERSON_APPROVE";
   "MISSING_PERSON_REJECT"; "MISSING_PERSON_UPDATE"; "MISSING_PERSON_INFO_READ";
   "MISSING_PERSON_INFO_REVIEW"; "INFORMANT_IDENTITY_READ"; "MISSING_PERSON_PUBLISH";
   "MISSING_PERSON_UNPUBLISH"; "MISSING_PERSON_DELETE"; "MISSING_PERSON_REDACT";
   "PROFILE_READ"; "PROFILE_CREATE"; "PROFILE_UPDATE"; "PROFILE_REVIEW"; "PROFILE_APPROVE";
   "PROFILE_PUBLISH"; "PROFILE_UNPUBLISH"; "PROFILE_DELETE"; "PROFILE_CHILD_SAFETY_REVIEW";
   "PROFILE_BANK_DETAILS_MANAGE"; "PROFILE_CONSENT_MANAGE"; "SUPPORT_READ";
   "SUPPORT_PAYMENT_READ"; "SUPPORT_PAYMENT_MANAGE"; "PAYMENT_REFUND"; "BILLING_EXPORT";
   "USER_READ"; "USER_UPDATE"; "USER_SUSPEND"; "USER_RESTORE"; "USER_DELETE";
   "USER_FORCE_LOGOUT"; "USER_UNLOCK"; "USER_ROLE_ASSIGN"; "USER_PROMOTE"; "USER_2FA_RESET";
   "USER_EXPORT"; "USER_PII_READ"; "ROLE_READ"; "ROLE_CREATE"; "ROLE_UPDATE"; "ROLE_DELETE";
   "PERMISSION_READ"; "PERMISSION_ASSIGN"; "PERMISSION_REVOKE"; "PERMISSION_MANAGE";
   "AUDIT_LOG_READ"; "AUDIT_LOG_READ_SENSITIVE"; "AUDIT_LOG_EXPORT"; "AUDIT_LOG_PURGE";
   "AUDIT_LOG_ANONYMIZE"; "AUDIT_LOG_LEGAL_HOLD"; "AUDIT_LOG_VERIFY_INTEGRITY";
   "AUDIT_ALERT_MANAGE"; "NOTIFICATION_READ"; "NOTIFICATION_MANAGE";
   "NOTIFICATION_MAINTAIN"; "NOTIFICATION_BROADCAST_SEND"; "NOTIFICATION_BROADCAST_APPROVE";
   "NOTIFICATION_DEVICE_REVOKE"; "NOTIFICATION_USER_DATA_EXPORT";
   "NOTIFICATION_USER_DATA_ERASE"; "SECURITY_SETTINGS_READ"; "SECURITY_SETTINGS_UPDATE";
   "DISBURSEMENTS_CREATE"; "DISBURSEMENTS_APPROVE"; "DISBURSEMENTS_EXECUTE";
   "ANNOUNCEMENT_MANAGE"; "NOTE_READ"; "NOTE_WRITE"; "REFERRAL_MANAGE";
   "REFERRAL_SENSITIVE"; "HELP_MANAGE"; "LEGAL_MANAGE"; "API_CLIENT_MANAGE";
   "CONTENT_MANAGE"; "DASHBOARD_READ"; "MEDIA_UPLOAD"; "MEDIA_DELETE"; "APP_ACCESS_QR_READ"].

(** ** Risk *)

Definition SENSITIVE : list string :=
  ["REPORT_REVEAL_REPORTER"; "REPORTER_INFO_READ"; "REPORT_EVIDENCE_MANAGE";
   "REPORT_SENSITIVITY_MANAGE"; "REPORT_AUDIT_READ"; "REPORT_LOCATION_READ";
   "REPORT_EXPORT"; "REPORT_DELETE"; "MISSING_PERSON_DELETE"; "MISSING_PERSON_REDACT";
   "POST_DELETE"; "POST_TAKEDOWN"; "POST_APPEAL_DECIDE"; "PROFILE_DELETE";
   "PROFILE_CHILD_SAFETY_REVIEW"; "PROFILE_BANK_DETAILS_MANAGE"; "PROFILE_CONSENT_MANAGE";
   "SUPPORT_PAYMENT_MANAGE"; "DISBURSEMENTS_CREATE"; "DISBURSEMENTS_APPROVE";
   "DISBURSEMENTS_EXECUTE"; "USER_SUSPEND"; "USER_DELETE"; "USER_FORCE_LOGOUT";
   "USER_UNLOCK"; "USER_ROLE_ASSIGN"; "USER_PROMOTE"; "ROLE_CREATE"; "ROLE_UPDATE";
   "ROLE_DELETE"; "PERMISSION_ASSIGN"; "PERMISSION_REVOKE"; "PERMISSION_MANAGE";
   "USER_2FA_RESET"; "AUDIT_LOG_READ_SENSITIVE"; "AUDIT_LOG_EXPORT"; "AUDIT_LOG_PURGE";
   "AUDIT_LOG_ANONYMIZE"; "AUDIT_ALERT_MANAGE"; "NOTIFICATION_BROADCAST_SEND";
   "NOTIFICATION_USER_DATA_EXPORT"; "NOTIFICATION_USER_DATA_ERASE";
   "SECURITY_SETTINGS_UPDATE"].

Definition TWO_PERSON_APPROVAL : list string :=
  ["REPORT_REVEAL_REPORTER"; "PROFILE_BANK_DETAILS_MANAGE"; "SUPPORT_PAYMENT_MANAGE";
   "DISBURSEMENTS_CREATE"; "DISBURSEMENTS_APPROVE"; "DISBURSEMENTS_EXECUTE"; "USER_DELETE";
   "USER_ROLE_ASSIGN"; "USER_PROMOTE"; "USER_2FA_RESET"; "ROLE_CREATE"; "ROLE_UPDATE";
   "ROLE_DELETE"; "PERMISSION_ASSIGN"; "PERMISSION_REVOKE"; "PERMISSION_MANAGE";
   "SECURITY_SETTINGS_UPDATE"; "AUDIT_LOG_PURGE"; "AUDIT_LOG_ANONYMIZE";
   "NOTIFICATION_USER_DATA_ERASE"].

Definition isSensitivePermission (name : string) : bool := mem name SENSITIVE.
Definition requiresTwoPersonApproval (name : string) : bool := mem name TWO_PERSON_APPROVAL.

(** *** Separation of duties *)
Record DutyRule := { dr_id : string; dr_permissions : string * string; dr_why : string }.

Definition DUTY_RULES : list DutyRule :=
  [{| dr_id := "disbursement-create-approve"; dr_permissions := ("DISBURSEMENTS_CREATE", "DISBURSEMENTS_APPROVE");
      dr_why := "The person who creates a disbursement could also approve it." |};
   {| dr_id := "disbursement-approve-execute"; dr_permissions := ("DISBURSEMENTS_APPROVE", "DISBURSEMENTS_EXECUTE");
      dr_why := "The person who approves a disbursement could also pay it out." |};
   {| dr_id := "disbursement-create-execute"; dr_permissions := ("DISBURSEMENTS_CREATE", "DISBURSEMENTS_EXECUTE");
      dr_why := "The person who creates a disbursement could also pay it out." |};
   {| dr_id := "profile-create-approve"; dr_permissions := ("PROFILE_CREATE", "PROFILE_APPROVE");
      dr_why := "The person who creates a victim profile could also approve it." |};
   {| dr_id := "official-post-create-approve"; dr_permissions := ("POST_CREATE_OFFICIAL", "POST_APPROVE");
      dr_why := "The person who writes an official post could also approve it." |};
   {| dr_id := "role-edit-assign"; dr_permissions := ("PERMISSION_ASSIGN", "USER_ROLE_ASSIGN");
      dr_why := "Someone could give a role more permissions and then give that role to themselves." |};
   {| dr_id := "role-update-assign"; dr_permissions := ("ROLE_UPDATE", "USER_ROLE_ASSIGN");
      dr_why := "Someone could change a role and then give that role to themselves." |};
   {| dr_id := "audit-purge-read"; dr_permissions := ("AUDIT_LOG_PURGE", "AUDIT_LOG_READ_SENSITIVE");
      dr_why := "The person who can read sensitive logs could also erase them." |}].

(** A [DutyConflict] has the columns of its rule. *)
Definition breaks (held : list string) (r : DutyRule) : bool :=
  mem (dr_permissions r).1 held && mem (dr_permissions r).2 held.
Definition findDutyConflicts (permissionNames : list string) : list DutyRule :=
  filter (λ r, breaks permissionNames r = true) DUTY_RULES.

(** ** The guards *)

(** The user that the token strategy put on the request, as far as a guard looks. *)
Definition normalize (s : string) : string := toUpperCase (trim s).

(** [user?.permissions?.length] is falsy without a user, without the column, and
    for the empty list. *)
Definition PermissionsGuard_canActivate (requiredPermissions : option (list string))
    (permissions : option (list string)) : outcome bool :=
  match requiredPermissions with
  | None | Some [] => Ok true
  | Some required =>
      match permissions with
      | None | Some [] => Err (Forbidden "Missing permissions")
      | Some held =>
          let userPermissions := normalize <$> held in
          if forallb (λ p, mem (normalize p) userPermissions) required then Ok true
          else Err (Forbidden "Insufficient permissions")
      end
  end.

Definition RolesGuard_canActivate (requiredRoles roles : option (list string)) : outcome bool :=
  match requiredRoles with
  | None | Some [] => Ok true
  | Some required =>
      match roles with
      | None | Some [] => Err (Forbidden "Missing roles")
      | Some held =>
          let userRoles := normalize <$> held in
          if existsb (λ r, mem (normalize r) userRoles) required then Ok true
          else Err (Forbidden "Insufficient role")
      end
  end.

(** ** Lemmas *)

Lemma mem_true x xs : mem x xs = true ↔ x ∈ xs.
Proof. apply bool_decide_eq_true. Qed.

Lemma breaks_true held r :
  breaks held r = true ↔ (dr_permissions r).1 ∈ held ∧ (dr_permissions r).2 ∈ held.
Proof. unfold breaks. by rewrite andb_true_iff, !mem_true. Qed.

(** Conflicts are found exactly: the rules of which both halves are held. *)
Lemma elem_of_findDutyConflicts held r :
  r ∈ findDutyConflicts held ↔
  r ∈ DUTY_RULES ∧ (dr_permissions r).1 ∈ held ∧ (dr_permissions r).2 ∈ held.
Proof. unfold findDutyConflicts. rewrite list_elem_of_filter, breaks_true. tauto. Qed.

(** More permissions, more conflicts. *)
Lemma findDutyConflicts_mono held held' :
  held ⊆ held' → findDutyConflicts held ⊆ findDutyConflicts held'.
Proof. intros Hsub r. rewrite !elem_of_findDutyConflicts. naive_solver. Qed.

(** Everything that needs two persons, or is half of a rule on payments, is sensitive. *)
Lemma two_person_sensitive name :
  requiresTwoPersonApproval name = true → isSensitivePermission name = true.
Proof.
  unfold requiresTwoPersonApproval, isSensitivePermission. rewrite !mem_true.
  revert name. apply Forall_forall.
  refine (bool_decide_unpack (Forall (λ n, n ∈ SENSITIVE) TWO_PERSON_APPROVAL) _). by vm_compute.
Qed.
