(* ===== verification/AccessModel.v ===== *)
(** * Roles and permissions: tables and statements

    The tables behind role and permission administration
    (prisma/schema/role.prisma, role-permission.prisma, permission.prisma,
    user-role.prisma, role-assignment-request.prisma,
    role-temporary-assignment.prisma), what is emitted, the world of these
    handlers and the statements they make. *)

From S2P Require Import Prelude Js Redis Cache Roles.
From stdpp Require Import sorting.
From coqutil Require Import Datatypes.RecordSetters.
Import DoubleBraceUpdate.

Open Scope Z_scope.

(** ** Tables *)

Record Role := {
  rl_id : string;
  rl_name : string;
  rl_description : option string;
  rl_isProtected : bool;
  rl_createdAt : Z;
  rl_archivedAt : option Z;
  rl_archivedById : option string;
}.

Record Permission := { pm_id : string; pm_name : string; pm_description : option string }.

(** Kept by its role and permission, which are unique together. *)
Record RolePermission := { rp_id : string; rp_roleId : string; rp_permissionId : string }.

(** Kept by its user and role, which are unique together; its [id] is not used. *)
Record UserRole := {
  ur_userId : string;
  ur_roleId : string;
  ur_assignedAt : Z;
  ur_assignedBy : option string;
}.

Inductive RequestStatus := PENDING | APPROVED | REJECTED | CANCELLED | EXPIRED.
Inductive TemporaryStatus := ACTIVE | T_EXPIRED | REVOKED.
#[export] Instance RequestStatus_eq_dec : EqDecision RequestStatus.
Proof. solve_decision. Defined.
#[export] Instance TemporaryStatus_eq_dec : EqDecision TemporaryStatus.
Proof. solve_decision. Defined.

Record Request := {
  rq_id : string;
  rq_roleId : string;
  rq_targetUserId : string;
  rq_requestedById : string;
  rq_reason : string;
  rq_status : RequestStatus;
  rq_reviewedById : option string;
  rq_reviewNote : option string;
  rq_reviewedAt : option Z;
  rq_expiresAt : Z;
  rq_createdAt : Z;
}.

Record Temporary := {
  tm_id : string;
  tm_userId : string;
  tm_roleId : string;
  tm_grantedById : option string;
  tm_reason : string;
  tm_startsAt : Z;
  tm_expiresAt : Z;
  tm_status : TemporaryStatus;
  tm_endedAt : option Z;
}.

Record AccUser := {
  xu_id : string;
  xu_name : option string;
  xu_email : option string;
  xu_phone : option string;
  xu_isActive : bool;
  xu_isEmailVerified : bool;
  xu_createdAt : Z;
}.

Record AccSession := {
  ss_id : string;
  ss_userId : string;
  ss_expiresAt : Z;
  ss_revokedAt : option Z;
}.

(** ** What is emitted *)

Record AccAudit := {
  xa_userId : option string;
  xa_targetUserId : option string;
  xa_actorType : ActorType;
  xa_action : string;
  xa_outcome : option string;
  xa_severity : option string;
  xa_entity : string;
  xa_entityId : option string;
  xa_entityLabel : option string;
  xa_diff : list (string * json);
  xa_metadata : list (string * json);
}.

(** ** The world *)

(** The code of other packages: identifiers, the collation of the database and
    that of [localeCompare]. *)
Class AccLib := {
  acc_uuid : nat → string;
  db_before : string → string → bool;
  locale_before : string → string → bool;
}.

Record AccW := {
  xw_roles : gmap string Role;
  xw_permissions : gmap string Permission;
  xw_rolePermissions : gmap (string * string) RolePermission;    (* by role and permission *)
  xw_userRoles : gmap (string * string) UserRole;                (* by user and role *)
  xw_requests : gmap string Request;
  xw_temporary : gmap string Temporary;
  xw_users : gmap string AccUser;
  xw_sessions : gmap string AccSession;
  xw_reviewItems : list string;     (* the roles of the undecided items of access reviews *)
  xw_events : list AccAudit;        (* newest first *)
  xw_conflicts : list bool;         (* which of the next serializable transactions are refused *)
  xw_draws : nat;
  xw_ppm : list Z;
  xw_now : Z;
  xw_redis : RedisSt;
  xw_secredis : RedisSt;
  xw_cache : CacheSt;
}.

#[export] Instance AccW_redis : HasRedis AccW := {|
  redis_of c w := match c with CacheConn => xw_redis w | SecConn => xw_secredis w end;
  with_redis c r w :=
    match c with
    | CacheConn => w{{xw_redis := r}}
    | SecConn => w{{xw_secredis := r}}
    end;
  now_of := xw_now;
|}.

Definition acc_draw (w : AccW) : nat * AccW := (xw_draws w, w{{xw_draws ::= S}}).

#[export] Instance AccW_cache `{AccLib} : HasCache AccW := {|
  cache_of := xw_cache;
  with_cache cs w := w{{xw_cache := cs}};
  next_random w := (hd 0 (xw_ppm w), w{{xw_ppm ::= @tail Z}});
  next_token w := (acc_uuid (acc_draw w).1, (acc_draw w).2);
|}.

#[export] Instance AccW_redis_laws : RedisLaws AccW.
Proof. split; [by intros []..| |]; intros []; intros []; done. Qed.
#[export] Instance AccW_cache_laws `{AccLib} : CacheLaws AccW.
Proof. by split; try intros []; intros. Qed.

(** ** Reads *)

Definition rows {K A} `{Countable K} (P : A → bool) (m : gmap K A) : list A :=
  filter (λ x, P x = true) (map_to_list m).*2.

Lemma elem_of_rows {K A} `{Countable K} (P : A → bool) (m : gmap K A) x :
  x ∈ rows P m ↔ P x = true ∧ ∃ k, m !! k = Some x.
Proof.
  unfold rows. rewrite list_elem_of_filter, list_elem_of_fmap. f_equiv. split.
  - intros ([k y]&->&Hk%elem_of_map_to_list). by exists k.
  - intros [k Hk]. exists (k, x). split; [done|]. by apply elem_of_map_to_list.
Qed.

(** The roles of a user and the users of a role. *)
Definition of_user (userId : string) (ur : UserRole) : bool := bool_decide (ur_userId ur = userId).
Definition of_role (roleId : string) (ur : UserRole) : bool := bool_decide (ur_roleId ur = roleId).
Definition userRoles_of (w : AccW) (userId : string) : list UserRole :=
  rows (of_user userId) (xw_userRoles w).
Definition holders_of (w : AccW) (roleId : string) : list UserRole :=
  rows (of_role roleId) (xw_userRoles w).

(** The permissions of a role, by the join of the two tables. *)
Definition permission_rows (w : AccW) (roleId : string) : list RolePermission :=
  rows (λ rp, bool_decide (rp_roleId rp = roleId)) (xw_rolePermissions w).
Definition permissions_of (w : AccW) (roleId : string) : list Permission :=
  omap (λ rp, xw_permissions w !! rp_permissionId rp) (permission_rows w roleId).
Definition permission_names (w : AccW) (roleId : string) : list string :=
  pm_name <$> permissions_of w roleId.
Definition role_names (w : AccW) (userId : string) : list string :=
  omap (λ ur, rl_name <$> xw_roles w !! ur_roleId ur) (userRoles_of w userId).

(** [orderBy] *)
Definition by_name {A} (before : string → string → bool) (name : A → string) : list A → list A :=
  merge_sort (goes_before (λ a b, before (name a) (name b))).

(** [[...new Set(xs)]]: the first occurrences, in their order. *)
Definition js_set (xs : list string) : list string := reverse (remove_dups (reverse xs)).
Lemma elem_of_js_set x xs : x ∈ js_set xs ↔ x ∈ xs.
Proof. unfold js_set. by rewrite elem_of_reverse, elem_of_remove_dups, elem_of_reverse. Qed.
Lemma NoDup_js_set xs : NoDup (js_set xs).
Proof. unfold js_set. rewrite reverse_Permutation. apply NoDup_remove_dups. Qed.

(** ** Statements

    The actor of a request is a row of the users: the columns that refer to it
    ([assignedBy], [requestedById], [reviewedById], ...) are not checked again. *)

Definition now : prog AccW Z := gets xw_now.
Definition emitAudit (a : AccAudit) : prog AccW () := modify (λ w, w{{xw_events ::= cons a}}).

Definition P2002 (target : list string) : exn := PrismaKnown "P2002" target.
Definition P2003 : exn := PrismaKnown "P2003" [].
Definition P2025 : exn := PrismaKnown "P2025" [].
Definition P2034 : exn := PrismaKnown "P2034" [].
Definition has_code (code : string) (e : exn) : bool :=
  match e with PrismaKnown c _ => bool_decide (c = code) | _ => false end.

(** *** Roles *)
Definition role_by_id (id : string) : prog AccW (option Role) := gets (λ w, xw_roles w !! id).
Definition named (name : string) (r : Role) : bool := bool_decide (rl_name r = name).
Definition role_by_name (name : string) : prog AccW (option Role) :=
  gets (λ w, find_row (named name) (xw_roles w)).

(** [role.update({ where: { id } })] that returns the row: the name is unique. *)
Definition role_update (id : string) (upd : Role → Role) : prog AccW Role :=
  act_outcome (λ w,
    match xw_roles w !! id with
    | Some r =>
        if bool_decide (is_Some (find_row
             (λ q, negb (bool_decide (rl_id q = id)) && named (rl_name (upd r)) q) (xw_roles w)))
        then (Err (P2002 ["name"]), w)
        else (Ok (upd r), w{{xw_roles ::= insert id (upd r)}})
    | None => (Err P2025, w)
    end).

(** [role.delete]: with it go the rows that refer to it. *)
Definition drop_role (id : string) (w : AccW) : AccW :=
  w{{xw_roles ::= delete id;
     xw_rolePermissions ::= filter (λ '(_, x), rp_roleId x ≠ id);
     xw_userRoles ::= filter (λ '(_, x), ur_roleId x ≠ id);
     xw_requests ::= filter (λ '(_, x), rq_roleId x ≠ id);
     xw_temporary ::= filter (λ '(_, x), tm_roleId x ≠ id);
     xw_reviewItems ::= filter (λ r, r ≠ id)}}.
Definition role_delete (id : string) : prog AccW () :=
  act_outcome (λ w,
    match xw_roles w !! id with
    | Some _ => (Ok (), drop_role id w)
    | None => (Err P2025, w)
    end).

(** *** Who holds a role *)
Definition userRole_create (userId roleId : string) (assignedBy : option string)
    : prog AccW () :=
  act_outcome (λ w,
    if bool_decide (is_Some (xw_userRoles w !! (userId, roleId)))
    then (Err (P2002 ["userId"; "roleId"]), w)
    else if bool_decide (xw_users w !! userId = None) || bool_decide (xw_roles w !! roleId = None)
    then (Err P2003, w)
    else (Ok (), w{{xw_userRoles ::= insert (userId, roleId)
      {| ur_userId := userId; ur_roleId := roleId; ur_assignedAt := xw_now w;
         ur_assignedBy := assignedBy |} }})).
Definition userRole_deleteMany (userId roleId : string) : prog AccW () :=
  modify (λ w, w{{xw_userRoles ::= delete (userId, roleId)}}).
Definition userRole_delete (userId roleId : string) : prog AccW () :=
  act_outcome (λ w,
    match xw_userRoles w !! (userId, roleId) with
    | Some _ => (Ok (), w{{xw_userRoles ::= delete (userId, roleId)}})
    | None => (Err P2025, w)
    end).

(** *** Requests *)
Definition request_by_id (id : string) : prog AccW (option Request) :=
  gets (λ w, xw_requests w !! id).
Definition request_update (id : string) (upd : Request → Request) : prog AccW () :=
  act_outcome (λ w,
    match xw_requests w !! id with
    | Some r => (Ok (), w{{xw_requests ::= insert id (upd r)}})
    | None => (Err P2025, w)
    end).
(** [updateMany({ where: { id, P } })] and over the whole table: the count. *)
Definition request_claim (id : string) (P : Request → bool) (upd : Request → Request)
    : prog AccW Z :=
  act (λ w,
    match xw_requests w !! id with
    | Some r => if P r then (1, w{{xw_requests ::= insert id (upd r)}}) else (0, w)
    | None => (0, w)
    end).
Definition request_updateMany (P : Request → bool) (upd : Request → Request) : prog AccW Z :=
  act (λ w, (Z.of_nat (length (rows P (xw_requests w))),
             w{{xw_requests ::= fmap (λ r, if P r then upd r else r)}})).
Definition requests_where (P : Request → bool) : prog AccW (list Request) :=
  gets (λ w, rows P (xw_requests w)).

(** *** Temporary assignments *)
Definition temporary_update (id : string) (upd : Temporary → Temporary) : prog AccW () :=
  act_outcome (λ w,
    match xw_temporary w !! id with
    | Some t => (Ok (), w{{xw_temporary ::= insert id (upd t)}})
    | None => (Err P2025, w)
    end).
Definition temporary_updateMany (P : Temporary → bool) (upd : Temporary → Temporary)
    : prog AccW () :=
  modify (λ w, w{{xw_temporary ::= fmap (λ t, if P t then upd t else t)}}).

(** *** Sessions *)
Definition session_deleteMany (userIds : list string) : prog AccW Z :=
  act (λ w,
    (Z.of_nat (length (rows (λ s, mem (ss_userId s) userIds) (xw_sessions w))),
     w{{xw_sessions ::= filter (λ '(_, s), mem (ss_userId s) userIds = false)}})).

(** *** Permissions of roles *)
Definition permission_by_name (name : string) : prog AccW (option Permission) :=
  gets (λ w, find_row (λ p, bool_decide (pm_name p = name)) (xw_permissions w)).
Definition rolePermission_deleteMany (roleId : string) (ids : list string) : prog AccW Z :=
  act (λ w,
    (Z.of_nat (length (rows (λ rp, bool_decide (rp_roleId rp = roleId) &&
                               mem (rp_permissionId rp) ids) (xw_rolePermissions w))),
     w{{xw_rolePermissions ::= filter (λ '(_, rp), ¬ (rp_roleId rp = roleId ∧
                                          rp_permissionId rp ∈ ids))}})).
(** [rolePermission.delete({ where: { id } })] *)
Definition rolePermission_delete (id : string) : prog AccW () :=
  act_outcome (λ w,
    match find_row (λ rp, bool_decide (rp_id rp = id)) (xw_rolePermissions w) with
    | Some rp => (Ok (), w{{xw_rolePermissions ::= delete (rp_roleId rp, rp_permissionId rp)}})
    | None => (Err P2025, w)
    end).

Section ids.
Context `{AccLib}.

(** A row that is created draws its identifier. *)
Definition drawing {A} (f : string → AccW → outcome A * AccW) : prog AccW A :=
  act_outcome (λ w, f (acc_uuid (xw_draws w)) (acc_draw w).2).

Definition role_create (mk : string → Z → Role) : prog AccW Role :=
  drawing (λ id w,
    let r := mk id (xw_now w) in
    if bool_decide (is_Some (find_row (named (rl_name r)) (xw_roles w)))
    then (Err (P2002 ["name"]), w)
    else if bool_decide (is_Some (xw_roles w !! id)) then (Err (P2002 ["id"]), w)
    else (Ok r, w{{xw_roles ::= insert id r}})).

Definition request_create (mk : string → Z → Request) : prog AccW Request :=
  drawing (λ id w,
    let r := mk id (xw_now w) in
    if bool_decide (is_Some (xw_requests w !! id)) then (Err (P2002 ["id"]), w)
    else if bool_decide (xw_roles w !! rq_roleId r = None) ||
            bool_decide (xw_users w !! rq_targetUserId r = None)
    then (Err P2003, w)
    else (Ok r, w{{xw_requests ::= insert id r}})).

Definition temporary_create (mk : string → Z → Temporary) : prog AccW Temporary :=
  drawing (λ id w,
    let t := mk id (xw_now w) in
    if bool_decide (is_Some (xw_temporary w !! id)) then (Err (P2002 ["id"]), w)
    else if bool_decide (xw_users w !! tm_userId t = None) ||
            bool_decide (xw_roles w !! tm_roleId t = None)
    then (Err P2003, w)
    else (Ok t, w{{xw_temporary ::= insert id t}})).

(** [createMany({ skipDuplicates })]: the rows that are there are left alone. *)
Definition add_permission (roleId : string) (w : AccW) (permissionId : string) : AccW :=
  match xw_rolePermissions w !! (roleId, permissionId) with
  | Some _ => w
  | None =>
      let '(n, w) := acc_draw w in
      w{{xw_rolePermissions ::= insert (roleId, permissionId)
           {| rp_id := acc_uuid n; rp_roleId := roleId; rp_permissionId := permissionId |} }}
  end.
Definition rolePermission_createMany (roleId : string) (ids : list string) : prog AccW () :=
  act_outcome (λ w,
    if bool_decide (xw_roles w !! roleId = None) ||
       existsb (λ id, bool_decide (xw_permissions w !! id = None)) ids
    then (Err P2003, w)
    else (Ok (), foldl (add_permission roleId) w ids)).

Definition add_permission_row (w : AccW) (name : string) : AccW :=
  match find_row (λ p, bool_decide (pm_name p = name)) (xw_permissions w) with
  | Some _ => w
  | None =>
      let '(n, w) := acc_draw w in
      w{{xw_permissions ::= insert (acc_uuid n)
           {| pm_id := acc_uuid n; pm_name := name; pm_description := None |} }}
  end.
Definition permission_createMany (names : list string) : prog AccW () :=
  modify (λ w, foldl add_permission_row w names).
End ids.

(** [$transaction(p, { isolationLevel: Serializable })]: the database may refuse it. *)
Definition serializable {A} (p : prog AccW A) : prog AccW A :=
  refused ← act (λ w, (hd false (xw_conflicts w), w{{xw_conflicts ::= @tail bool}}));
  throw_if refused P2034 ;;
  transaction p.

#[global] Arguments acc_draw : simpl never.
