(* ===== verification/RoleService.v ===== *)
(** * Roles

    Models [src/modules/auth/service/role.service.ts]: the life of a role, who
    holds it, assignment by request and review, temporary assignments. *)

From S2P Require Import Prelude Js Redis Cache Roles Permissions AccessModel.
From stdpp Require Import sorting.
From coqutil Require Import Datatypes.RecordSetters.
Import DoubleBraceUpdate.

Open Scope Z_scope.

(** ** Constants *)

Definition ASSIGNMENT_REQUEST_TTL_MS : Z := 7 * 24 * 60 * 60 * 1000.
Definition MAX_TEMPORARY_ASSIGNMENT_MS : Z := 365 * 24 * 60 * 60 * 1000.

Record RoleTemplate := {
  tp_id : string;
  tp_name : string;
  tp_description : string;
  tp_permissions : list string;
}.
Definition ROLE_TEMPLATES : list RoleTemplate :=
  [{| tp_id := "reviewer"; tp_name := "REVIEWER";
      tp_description :=
        "Reads and reviews reports, posts, missing-person cases, tips and victim profiles.";
      tp_permissions :=
        ["DASHBOARD_READ"; "REPORT_READ"; "REPORT_REVIEW"; "REPORT_REQUEST_INFO"; "POST_READ";
         "POST_REVIEW"; "MISSING_PERSON_READ"; "MISSING_PERSON_REVIEW";
         "MISSING_PERSON_INFO_READ"; "MISSING_PERSON_INFO_REVIEW"; "PROFILE_READ";
         "PROFILE_REVIEW"] |};
   {| tp_id := "finance-officer"; tp_name := "FINANCE_OFFICER";
      tp_description :=
        "Reads support and payments and prepares disbursements. Cannot approve or pay them out.";
      tp_permissions :=
        ["DASHBOARD_READ"; "SUPPORT_READ"; "SUPPORT_PAYMENT_READ"; "DISBURSEMENTS_CREATE"] |};
   {| tp_id := "support-agent"; tp_name := "SUPPORT_AGENT";
      tp_description :=
        "Read-only view of cases, posts, profiles, support and users, to help people who write in.";
      tp_permissions :=
        ["DASHBOARD_READ"; "REPORT_READ"; "POST_READ"; "MISSING_PERSON_READ"; "PROFILE_READ";
         "SUPPORT_READ"; "USER_READ"; "NOTIFICATION_READ"] |}].

(** ** Requests from clients *)

Record CreateRoleDto := { cr_name : string; cr_description : option string }.
Record UpdateRoleDto := { up_name : option string; up_description : option string }.
Record ApplyRoleTemplateDto := { at_name : option string; at_description : option string }.
Inductive Decision := APPROVE | REJECT.
Inductive BulkRoleAction := ASSIGN | REMOVE.

(** ** Audits *)

Definition json_opt (s : option string) : json :=
  match s with Some s => JStr s | None => JNull end.
Definition result (s : string) : string * json := ("result", JStr s).
Definition reason_is (s : string) : string * json := ("reason", JStr s).

(** An audited action of [actor]; a refusal or failure is a WARNING. *)
Definition audit (actor : CurrentUser) (target : option string) (action : string)
    (outcome : option string) (entity : string) (entityId label : option string)
    (diff metadata : list (string * json)) : prog AccW () :=
  emitAudit {|
    xa_userId := Some (cu_id actor); xa_targetUserId := target;
    xa_actorType := resolveActorType (cu_roles actor); xa_action := action;
    xa_outcome := outcome;
    xa_severity := match outcome with Some _ => Some "WARNING" | None => None end;
    xa_entity := entity; xa_entityId := entityId; xa_entityLabel := label;
    xa_diff := diff; xa_metadata := metadata |}.
Definition role_audit (actor : CurrentUser) (target : option string) (action : string)
    (outcome : option string) (role : Role) : list (string * json) → list (string * json) →
    prog AccW () :=
  audit actor target action outcome "Role" (Some (rl_id role)) (Some (rl_name role)).
Definition role_denied (actor : CurrentUser) (target : option string) (action : string)
    (role : Role) (reason : string) : prog AccW () :=
  role_audit actor target action (Some "DENIED") role [result "denied"; reason_is reason] [].

(** ** Shared helpers *)

Definition isProtected (role : Role) : bool :=
  isProtectedRole (rl_name role) (Some (rl_isProtected role)).

(** A role with the names of its permissions. *)
Record LoadedRole := { lr_role : Role; lr_permissions : list string }.
Definition loaded_role (id : string) (w : AccW) : option LoadedRole :=
  match xw_roles w !! id with
  | Some r => Some {| lr_role := r; lr_permissions := permission_names w id |}
  | None => None
  end.
Definition loadRoleOrThrow (id : string) : prog AccW LoadedRole :=
  role ← gets (loaded_role id); require role (NotFound "role_not_found").

Definition isSensitiveRole (role : LoadedRole) : bool :=
  existsb requiresTwoPersonApproval (lr_permissions role).

Definition not_assignable (role : Role) : option string :=
  if isProtected role then Some "protected_role_cannot_be_assigned_here"
  else match rl_archivedAt role with Some _ => Some "role_archived" | None => None end.
Definition assertRoleAssignable (actor : CurrentUser) (role : Role) (action : string)
    : prog AccW () :=
  match not_assignable role with
  | None => mret ()
  | Some reason => role_denied actor None action role reason ;; Throw (BadRequest reason)
  end.

(** A user with the roles that they hold. *)
Record LoadedUser := { lu_user : AccUser; lu_roleIds : list string; lu_roleNames : list string }.
Definition loaded_user (id : string) (w : AccW) : option LoadedUser :=
  match xw_users w !! id with
  | Some u => Some {| lu_user := u; lu_roleIds := ur_roleId <$> userRoles_of w id;
                      lu_roleNames := role_names w id |}
  | None => None
  end.
Definition verified_staff (u : LoadedUser) : bool :=
  xu_isActive (lu_user u) && xu_isEmailVerified (lu_user u) && hasStaffRole (lu_roleNames u).
Definition loadStaffTargetOrThrow (userId : string) : prog AccW LoadedUser :=
  user ← gets (loaded_user userId);
  user ← require user (NotFound "user_not_found");
  throw_if (negb (verified_staff user)) (BadRequest "user_not_verified_staff") ;;
  mret user.
Definition has_role (roleId : string) (u : LoadedUser) : bool := mem roleId (lu_roleIds u).

Definition requireReason (reason : option string) : outcome string :=
  let trimmed := trim (default "" reason) in
  if Z.of_nat (String.length trimmed) <? 5 then Err (BadRequest "reason_required")
  else Ok trimmed.

Section service.
Context `{AccLib} (keyPrefix : string).

Definition refreshUserAccess (userId : string) (revokeSessions : bool) : prog AccW () :=
  catch
    ((if revokeSessions then session_deleteMany [userId] ;; mret () else mret ()) ;;
     purgeUserCache keyPrefix userId)
    (λ _, mret ()).

(** ** The life of a role *)

Definition name_conflict (actor : CurrentUser) (action : string) (entityId label : option string)
    (diff metadata : list (string * json)) : prog AccW () :=
  audit actor None action (Some "FAILURE") "Role" entityId label
    (result "failure" :: reason_is "role_name_already_in_use" :: diff) metadata.

Definition new_role (name : string) (description : option string) (id : string) (t : Z) : Role :=
  {| rl_id := id; rl_name := name; rl_description := description; rl_isProtected := false;
     rl_createdAt := t; rl_archivedAt := None; rl_archivedById := None |}.

Definition create (actor : CurrentUser) (data : CreateRoleDto) : prog AccW Role :=
  let attempted : list (string * json) := [("attemptedName", JStr (cr_name data))] in
  existing ← role_by_name (cr_name data);
  match existing with
  | Some e =>
      name_conflict actor "ROLE_CREATED" (Some (rl_id e)) (Some (rl_name e)) attempted
        [("conflictingRoleId", JStr (rl_id e))] ;;
      Throw (Conflict "role_name_already_in_use")
  | None =>
      role ← catch (role_create (new_role (cr_name data) (cr_description data)))
        (λ e,
          if has_code "P2002" e then
            conflicting ← role_by_name (cr_name data);
            name_conflict actor "ROLE_CREATED"
              (Some (from_option rl_id "unknown" conflicting))
              (Some (from_option rl_name (cr_name data) conflicting)) attempted
              [("concurrentConflict", JBool true)] ;;
            Throw (Conflict "role_name_already_in_use")
          else Throw e);
      role_audit actor None "ROLE_CREATED" None role
        [result "success"; ("name", JStr (rl_name role))] [] ;;
      mret role
  end.

Definition rename (data : UpdateRoleDto) (r : Role) : Role :=
  r{{rl_name := default (rl_name r) (up_name data);
     rl_description := match up_description data with Some d => Some d
                       | None => rl_description r end}}.
Definition renames (data : UpdateRoleDto) (r : Role) : bool :=
  match up_name data with Some n => bool_decide (n ≠ rl_name r) | None => false end.

Definition update (actor : CurrentUser) (id : string) (data : UpdateRoleDto) : prog AccW Role :=
  role ← role_by_id id;
  role ← require role (NotFound "role_not_found");
  let name := default "" (up_name data) in
  let names : list (string * json) :=
    [("attemptedName", JStr name); ("currentName", JStr (rl_name role))] in
  (if isProtected role && renames data role then
     role_audit actor None "ROLE_UPDATED" (Some "DENIED") role
       (result "denied" :: reason_is "protected_role_cannot_be_renamed" :: names) [] ;;
     Throw (BadRequest "protected_role_cannot_be_renamed")
   else mret ()) ;;
  (if truthy name && renames data role then
     nameTaken ← role_by_name name;
     match nameTaken with
     | Some taken =>
         name_conflict actor "ROLE_UPDATED" (Some id) (Some (rl_name role)) names
           [("conflictingRoleId", JStr (rl_id taken))] ;;
         Throw (Conflict "role_name_already_in_use")
     | None => mret ()
     end
   else mret ()) ;;
  updated ← catch (role_update id (rename data))
    (λ e,
      if has_code "P2002" e then
        name_conflict actor "ROLE_UPDATED" (Some id) (Some (rl_name role)) names
          [("concurrentConflict", JBool true)] ;;
        Throw (Conflict "role_name_already_in_use")
      else Throw e);
  let nameChanged := bool_decide (rl_name role ≠ rl_name updated) in
  let descriptionChanged := bool_decide (rl_description role ≠ rl_description updated) in
  audit actor None "ROLE_UPDATED" None "Role" (Some id) (Some (rl_name updated))
    [result "success"; ("previousName", JStr (rl_name role));
     ("currentName", JStr (rl_name updated));
     ("previousDescription", json_opt (rl_description role));
     ("currentDescription", json_opt (rl_description updated))]
    [("changed", JBool (nameChanged || descriptionChanged)); ("nameChanged", JBool nameChanged);
     ("descriptionChanged", JBool descriptionChanged)] ;;
  mret updated.

Definition holder_count (roleId : string) : prog AccW Z :=
  gets (λ w, Z.of_nat (length (holders_of w roleId))).

(** The role with its [_count]: one query. *)
Definition counted_role (id : string) (w : AccW) : option (Role * Z) :=
  match xw_roles w !! id with
  | Some r => Some (r, Z.of_nat (length (holders_of w id)))
  | None => None
  end.
Definition in_use : exn := BadRequest "role_in_use_by_users".
Definition is_bad_request (e : exn) : bool :=
  match e with HttpException 400 _ => true | _ => false end.

Definition remove (actor : CurrentUser) (id : string) : prog AccW () :=
  role ← gets (counted_role id);
  role ← require role (NotFound "role_not_found");
  let '(role, count) := role in
  let failed (metadata : list (string * json)) :=
    role_audit actor None "ROLE_DELETED" (Some "FAILURE") role
      [result "failure"; reason_is "role_in_use_by_users"] metadata in
  (if isProtected role then
     role_denied actor None "ROLE_DELETED" role "protected_role_cannot_be_deleted" ;;
     Throw (BadRequest "protected_role_cannot_be_deleted")
   else mret ()) ;;
  (if 0 <? count then failed [("userCount", JNum count)] ;; Throw in_use else mret ()) ;;
  catch
    (transaction (
       freshCount ← holder_count id;
       throw_if (0 <? freshCount) in_use ;;
       role_delete id))
    (λ e,
      (if is_bad_request e then failed [("detectedAtTransactionTime", JBool true)]
       else mret ()) ;;
      Throw e) ;;
  role_audit actor None "ROLE_DELETED" None role
    [result "success"; ("previousName", JStr (rl_name role))] [].

Definition createRoleWithPermissions (actor : CurrentUser) (action name : string)
    (description : option string) (permissionIds : list string)
    (metadata : list (string * json)) : prog AccW Role :=
  existing ← role_by_name name;
  match existing with
  | Some _ =>
      name_conflict actor action None (Some name) [("attemptedName", JStr name)] [] ;;
      Throw (Conflict "role_name_already_in_use")
  | None =>
      role ← catch
        (transaction (
           created ← role_create (new_role name description);
           (if bool_decide (permissionIds = []) then mret ()
            else rolePermission_createMany (rl_id created) permissionIds) ;;
           mret created))
        (λ e, if has_code "P2002" e then Throw (Conflict "role_name_already_in_use")
              else Throw e);
      role_audit actor None action None role
        [result "success"; ("name", JStr (rl_name role));
         ("permissionCount", JNum (Z.of_nat (length permissionIds)))] metadata ;;
      mret role
  end.

(** [a ?? b] on nullable values. *)
Definition or_else {A} (a b : option A) : option A :=
  match a with Some _ => a | None => b end.

Definition permission_ids (w : AccW) (roleId : string) : list string :=
  rp_permissionId <$> permission_rows w roleId.

Definition clone (actor : CurrentUser) (id : string) (data : CreateRoleDto) : prog AccW Role :=
  source ← loadRoleOrThrow id;
  let source := lr_role source in
  (if isPermissionLockedRole (rl_name source) then
     role_denied actor None "ROLE_CLONED" source "protected_role_cannot_be_cloned" ;;
     Throw (Forbidden "protected_role_cannot_be_cloned")
   else mret ()) ;;
  permissions ← gets (λ w, permission_ids w (rl_id source));
  createRoleWithPermissions actor "ROLE_CLONED" (cr_name data)
    (or_else (cr_description data) (rl_description source)) permissions
    [("sourceRoleId", JStr (rl_id source)); ("sourceRoleName", JStr (rl_name source))].

Definition matching_permissions (names : list string) (w : AccW) : list Permission :=
  rows (λ p, mem (pm_name p) names) (xw_permissions w).

Definition applyTemplate (actor : CurrentUser) (templateId : string)
    (data : ApplyRoleTemplateDto) : prog AccW Role :=
  let found := find (λ t, bool_decide (tp_id t = templateId)) ROLE_TEMPLATES in
  template ← require found (NotFound "role_template_not_found");
  matched ← gets (matching_permissions (tp_permissions template));
  throw_if (bool_decide (matched = [])) (BadRequest "template_has_no_matching_permissions") ;;
  createRoleWithPermissions actor "ROLE_CREATED_FROM_TEMPLATE"
    (default (tp_name template) (at_name data))
    (or_else (at_description data) (Some (tp_description template)))
    (pm_id <$> matched)
    [("templateId", JStr (tp_id template));
     ("matchedPermissions", JNum (Z.of_nat (length matched)))].

Definition pending_of_role (roleId : string) (q : Request) : bool :=
  bool_decide (rq_roleId q = roleId) && bool_decide (rq_status q = PENDING).

(** The role, how many hold it, how many requests were cancelled. *)
Definition archive (actor : CurrentUser) (id : string) (reason : option string)
    : prog AccW (Role * Z) :=
  loaded ← loadRoleOrThrow id;
  let role := lr_role loaded in
  (if isProtected role then
     role_denied actor None "ROLE_ARCHIVED" role "protected_role_cannot_be_archived" ;;
     Throw (BadRequest "protected_role_cannot_be_archived")
   else mret ()) ;;
  throw_if (bool_decide (is_Some (rl_archivedAt role))) (Conflict "role_already_archived") ;;
  t ← now;
  changed ← transaction (
    updated ← role_update id (λ r, r{{rl_archivedAt := Some t;
                                      rl_archivedById := Some (cu_id actor)}});
    holders ← holder_count id;
    cancelled ← request_updateMany (pending_of_role id) (λ q, q{{rq_status := CANCELLED}});
    mret (updated, holders, cancelled));
  let '(updated, holders, cancelled) := changed in
  role_audit actor None "ROLE_ARCHIVED" None role
    [result "success"; ("reason", json_opt reason)]
    [("currentHolders", JNum holders); ("requestsCancelled", JNum cancelled)] ;;
  mret (updated, holders).

Definition unarchive (actor : CurrentUser) (id : string) (reason : option string)
    : prog AccW Role :=
  loaded ← loadRoleOrThrow id;
  let role := lr_role loaded in
  throw_if (bool_decide (rl_archivedAt role = None)) (Conflict "role_not_archived") ;;
  updated ← role_update id (λ r, r{{rl_archivedAt := None; rl_archivedById := None}});
  role_audit actor None "ROLE_UNARCHIVED" None role
    [result "success"; ("reason", json_opt reason)] [] ;;
  mret updated.

(** ** Assignment *)

Definition two_person_required : exn := Forbidden "two_person_approval_required".
Definition already_has_role : exn := Conflict "user_already_has_role".

Definition assignToUser (actor : CurrentUser) (roleId userId : string) (reason : option string)
    : prog AccW () :=
  reason ← throw_outcome (requireReason reason);
  loaded ← loadRoleOrThrow roleId;
  let role := lr_role loaded in
  assertRoleAssignable actor role "USER_ROLE_ASSIGNED" ;;
  (if isSensitiveRole loaded then
     role_denied actor (Some userId) "USER_ROLE_ASSIGNED" role "two_person_approval_required" ;;
     Throw two_person_required
   else mret ()) ;;
  target ← loadStaffTargetOrThrow userId;
  throw_if (has_role roleId target) already_has_role ;;
  userRole_create userId roleId (Some (cu_id actor)) ;;
  refreshUserAccess userId false ;;
  role_audit actor (Some userId) "USER_ROLE_ASSIGNED" None role
    [result "success"; reason_is reason]
    [("targetUserName", json_opt (xu_name (lu_user target)))].

Definition active_of (userId roleId : string) (t : Temporary) : bool :=
  bool_decide (tm_userId t = userId) && bool_decide (tm_roleId t = roleId) &&
  bool_decide (tm_status t = ACTIVE).

Definition removeFromUser (actor : CurrentUser) (roleId userId : string)
    (reason : option string) : prog AccW () :=
  reason ← throw_outcome (requireReason reason);
  loaded ← loadRoleOrThrow roleId;
  let role := lr_role loaded in
  (if isProtected role then
     role_denied actor (Some userId) "USER_ROLE_REVOKED" role
       "protected_role_cannot_be_removed_here" ;;
     Throw (BadRequest "protected_role_cannot_be_removed_here")
   else mret ()) ;;
  userRoles ← gets (λ w, userRoles_of w userId);
  throw_if (negb (existsb (of_role roleId) userRoles)) (NotFound "user_does_not_have_role") ;;
  (if (length userRoles <=? 1)%nat then
     role_audit actor (Some userId) "USER_ROLE_REVOKED" (Some "FAILURE") role
       [result "failure"; reason_is "cannot_remove_last_role"] [] ;;
     Throw (BadRequest "cannot_remove_last_role")
   else mret ()) ;;
  t ← now;
  transaction (
    userRole_delete userId roleId ;;
    temporary_updateMany (active_of userId roleId)
      (λ x, x{{tm_status := REVOKED; tm_endedAt := Some t}})) ;;
  refreshUserAccess userId true ;;
  role_audit actor (Some userId) "USER_ROLE_REVOKED" None role
    [result "success"; reason_is reason] [].

(** *** In bulk: the outcome of every user *)
Definition action_name (a : BulkRoleAction) : string :=
  match a with ASSIGN => "ASSIGN" | REMOVE => "REMOVE" end.
Definition bulk_one (actor : CurrentUser) (roleId : string) (a : BulkRoleAction)
    (reason : option string) (userId : string) : prog AccW () :=
  match a with
  | ASSIGN => assignToUser actor roleId userId reason
  | REMOVE => removeFromUser actor roleId userId reason
  end.
Fixpoint bulk_loop (f : string → prog AccW ()) (userIds : list string)
    (succeeded : list string) (failed : list (string * string))
    : prog AccW (list string * list (string * string)) :=
  match userIds with
  | [] => mret (succeeded, failed)
  | u :: us =>
      r ← attempt (f u);
      match r with
      | Ok _ => bulk_loop f us (succeeded ++ [u]) failed
      | Err e => bulk_loop f us succeeded (failed ++ [(u, exn_message e)])
      end
  end.
Definition bulkAssign (actor : CurrentUser) (roleId : string) (a : BulkRoleAction)
    (userIds : list string) (reason : option string)
    : prog AccW (list string * list (string * string)) :=
  done ← bulk_loop (bulk_one actor roleId a reason) userIds [] [];
  let '(succeeded, failed) := done in
  audit actor None "ROLE_BULK_ASSIGNED" None "Role" (Some roleId) None
    [result (if bool_decide (failed = []) then "success" else "partial");
     ("action", JStr (action_name a))]
    [("requested", JNum (Z.of_nat (length userIds)));
     ("succeeded", JNum (Z.of_nat (length succeeded)));
     ("failed", JNum (Z.of_nat (length failed)))] ;;
  mret (succeeded, failed).

(** ** Assignment by request and review *)

Definition has_status (s : RequestStatus) (q : Request) : bool := bool_decide (rq_status q = s).
Definition stale (t : Z) (q : Request) : bool := has_status PENDING q && (rq_expiresAt q <=? t).

Definition request_expired (q : Request) : prog AccW () :=
  emitAudit {|
    xa_userId := None; xa_targetUserId := Some (rq_targetUserId q); xa_actorType := ActorSYSTEM;
    xa_action := "ROLE_ASSIGNMENT_REQUEST_EXPIRED"; xa_outcome := None; xa_severity := None;
    xa_entity := "RoleAssignmentRequest"; xa_entityId := Some (rq_id q); xa_entityLabel := None;
    xa_diff := [result "success"; ("roleId", JStr (rq_roleId q))]; xa_metadata := [] |}.

Definition expireStaleRequests : prog AccW () :=
  t ← now;
  qs ← requests_where (stale t);
  if bool_decide (qs = []) then mret () else
  count ← request_updateMany
    (λ q, mem (rq_id q) (rq_id <$> qs) && has_status PENDING q)
    (λ q, q{{rq_status := EXPIRED}});
  if count =? 0 then mret () else for_each request_expired qs.

Definition pending_for (roleId userId : string) (q : Request) : bool :=
  bool_decide (rq_roleId q = roleId) && bool_decide (rq_targetUserId q = userId) &&
  has_status PENDING q.

Definition new_request (roleId userId requestedById reason : string) (expiresAt : Z)
    (id : string) (t : Z) : Request := {|
  rq_id := id; rq_roleId := roleId; rq_targetUserId := userId;
  rq_requestedById := requestedById; rq_reason := reason; rq_status := PENDING;
  rq_reviewedById := None; rq_reviewNote := None; rq_reviewedAt := None;
  rq_expiresAt := expiresAt; rq_createdAt := t |}.

Definition request_audit (actor : CurrentUser) (action : string) (outcome : option string)
    (q : Request) (role : Role) : list (string * json) → list (string * json) → prog AccW () :=
  audit actor (Some (rq_targetUserId q)) action outcome "RoleAssignmentRequest"
    (Some (rq_id q)) (Some (rl_name role)).

Definition requestAssignment (actor : CurrentUser) (roleId userId : string)
    (reason : option string) : prog AccW Request :=
  reason ← throw_outcome (requireReason reason);
  loaded ← loadRoleOrThrow roleId;
  let role := lr_role loaded in
  assertRoleAssignable actor role "ROLE_ASSIGNMENT_REQUESTED" ;;
  target ← loadStaffTargetOrThrow userId;
  throw_if (has_role roleId target) already_has_role ;;
  expireStaleRequests ;;
  existing ← gets (λ w, find_row (pending_for roleId userId) (xw_requests w));
  throw_if (bool_decide (is_Some existing)) (Conflict "assignment_request_already_pending") ;;
  t ← now;
  request ← request_create
    (new_request roleId userId (cu_id actor) reason (t + ASSIGNMENT_REQUEST_TTL_MS));
  request_audit actor "ROLE_ASSIGNMENT_REQUESTED" None request role
    [result "success"; reason_is reason]
    [("roleId", JStr roleId); ("sensitive", JBool (isSensitiveRole loaded))] ;;
  mret request.

(** A request with its role. *)
Definition loaded_request (id : string) (w : AccW) : option (Request * LoadedRole) :=
  match xw_requests w !! id with
  | Some q => match loaded_role (rq_roleId q) w with
              | Some r => Some (q, r)
              | None => None
              end
  | None => None
  end.

Definition not_pending : exn := Conflict "assignment_request_not_pending".

(** The columns that a decision sets. *)
Definition decided (status : RequestStatus) (by_ : string) (t : Z) (note : option string)
    (q : Request) : Request :=
  q{{rq_status := status; rq_reviewedById := Some by_; rq_reviewedAt := Some t;
     rq_reviewNote := note}}.

Definition decision_name (d : Decision) : string :=
  match d with APPROVE => "APPROVE" | REJECT => "REJECT" end.
Definition decision_action (d : Decision) : string :=
  match d with APPROVE => "ROLE_ASSIGNMENT_APPROVED" | REJECT => "ROLE_ASSIGNMENT_REJECTED" end.

Definition reject (actor : CurrentUser) (q : Request) (role : Role) (note : option string)
    : prog AccW RequestStatus :=
  let note := trim (default "" note) in
  throw_if (negb (truthy note)) (BadRequest "rejection_note_required") ;;
  t ← now;
  n ← request_claim (rq_id q) (has_status PENDING) (decided REJECTED (cu_id actor) t (Some note));
  throw_if (n =? 0) not_pending ;;
  request_audit actor (decision_action REJECT) None q role
    [result "success"; ("decision", JStr (decision_name REJECT)); ("note", JStr note)] [] ;;
  mret REJECTED.

(** [data.note?.trim() || null] *)
Definition trimmed_note (note : option string) : option string :=
  match note with
  | Some n => if truthy (trim n) then Some (trim n) else None
  | None => None
  end.

Definition approve (actor : CurrentUser) (q : Request) (role : Role) (note : option string)
    : prog AccW RequestStatus :=
  assertRoleAssignable actor role (decision_action APPROVE) ;;
  target ← loadStaffTargetOrThrow (rq_targetUserId q);
  throw_if (has_role (rq_roleId q) target) already_has_role ;;
  t ← now;
  transaction (
    n ← request_claim (rq_id q) (has_status PENDING)
          (decided APPROVED (cu_id actor) t (trimmed_note note));
    throw_if (n =? 0) not_pending ;;
    userRole_create (rq_targetUserId q) (rq_roleId q) (Some (rq_requestedById q))) ;;
  refreshUserAccess (rq_targetUserId q) false ;;
  request_audit actor (decision_action APPROVE) None q role
    [result "success"; ("decision", JStr (decision_name APPROVE))]
    [("requestedById", JStr (rq_requestedById q)); ("roleId", JStr (rq_roleId q))] ;;
  mret APPROVED.

Definition reviewAssignmentRequest (actor : CurrentUser) (requestId : string) (d : Decision)
    (note : option string) : prog AccW RequestStatus :=
  request ← gets (loaded_request requestId);
  request ← require request (NotFound "assignment_request_not_found");
  let '(q, loaded) := request in
  let role := lr_role loaded in
  (if bool_decide (rq_requestedById q = cu_id actor) then
     request_audit actor (decision_action d) (Some "DENIED") q role
       [result "denied"; reason_is "requester_cannot_review_own_request"] [] ;;
     Throw (Forbidden "requester_cannot_review_own_request")
   else mret ()) ;;
  throw_if (negb (has_status PENDING q)) not_pending ;;
  t ← now;
  (if rq_expiresAt q <=? t then
     request_update (rq_id q) (λ q, q{{rq_status := EXPIRED}}) ;;
     Throw (BadRequest "assignment_request_expired")
   else mret ()) ;;
  match d with
  | REJECT => reject actor q role note
  | APPROVE => approve actor q role note
  end.

(** ** Temporary access *)

Definition new_temporary (roleId userId grantedById reason : string) (expiresAt : Z)
    (id : string) (t : Z) : Temporary := {|
  tm_id := id; tm_userId := userId; tm_roleId := roleId; tm_grantedById := Some grantedById;
  tm_reason := reason; tm_startsAt := t; tm_expiresAt := expiresAt; tm_status := ACTIVE;
  tm_endedAt := None |}.

(** [expiresAt]: [None] is an invalid date; [iso] writes one. *)
Definition assignTemporarily (iso : Z → string) (actor : CurrentUser) (roleId userId : string)
    (expiresAt : option Z) (reason : option string) : prog AccW Temporary :=
  reason ← throw_outcome (requireReason reason);
  t ← now;
  let in_past := BadRequest "expires_at_must_be_in_the_future" in
  expiresAt ← require expiresAt in_past;
  throw_if (expiresAt <=? t) in_past ;;
  throw_if (MAX_TEMPORARY_ASSIGNMENT_MS <? expiresAt - t)
    (BadRequest "temporary_assignment_too_long") ;;
  loaded ← loadRoleOrThrow roleId;
  let role := lr_role loaded in
  assertRoleAssignable actor role "ROLE_TEMPORARY_GRANTED" ;;
  throw_if (isSensitiveRole loaded) two_person_required ;;
  target ← loadStaffTargetOrThrow userId;
  throw_if (has_role roleId target) already_has_role ;;
  assignment ← transaction (
    userRole_create userId roleId (Some (cu_id actor)) ;;
    temporary_create (new_temporary roleId userId (cu_id actor) reason expiresAt));
  refreshUserAccess userId false ;;
  role_audit actor (Some userId) "ROLE_TEMPORARY_GRANTED" None role
    [result "success"; reason_is reason; ("expiresAt", JStr (iso expiresAt))] [] ;;
  mret assignment.

Definition due (t : Z) (x : Temporary) : bool :=
  bool_decide (tm_status x = ACTIVE) && (tm_expiresAt x <=? t).

(** The first 200 that are due, with the names of their roles. *)
Definition due_assignments (t : Z) (w : AccW) : list (Temporary * string) :=
  take 200 (omap (λ x, match xw_roles w !! tm_roleId x with
                       | Some r => Some (x, rl_name r)
                       | None => None
                       end) (rows (due t) (xw_temporary w))).

Definition expire_one (item : Temporary * string) : prog AccW () :=
  let '(x, name) := item in
  t ← now;
  transaction (
    userRole_deleteMany (tm_userId x) (tm_roleId x) ;;
    temporary_update (tm_id x) (λ x, x{{tm_status := T_EXPIRED; tm_endedAt := Some t}})) ;;
  refreshUserAccess (tm_userId x) true ;;
  emitAudit {|
    xa_userId := None; xa_targetUserId := Some (tm_userId x); xa_actorType := ActorSYSTEM;
    xa_action := "ROLE_TEMPORARY_EXPIRED"; xa_outcome := None; xa_severity := None;
    xa_entity := "Role"; xa_entityId := Some (tm_roleId x); xa_entityLabel := Some name;
    xa_diff := [result "success"; ("temporaryAssignmentId", JStr (tm_id x))];
    xa_metadata := [] |}.

Fixpoint expire_loop (items : list (Temporary * string)) (expired : Z) : prog AccW Z :=
  match items with
  | [] => mret expired
  | item :: items =>
      r ← attempt (expire_one item);
      expire_loop items (if is_ok r then expired + 1 else expired)
  end.

Definition expireTemporaryAssignments : prog AccW Z :=
  t ← now;
  items ← gets (due_assignments t);
  expire_loop items 0.
End service.

(** ** Reads *)

(** The users that hold a role; the reading is audited. *)
Definition users_with_role (id : string) (w : AccW) : list AccUser :=
  omap (λ ur, xw_users w !! ur_userId ur) (holders_of w id).
Definition findUsersWithRole (actor : CurrentUser) (id : string) : prog AccW (list AccUser) :=
  role ← role_by_id id;
  role ← require role (NotFound "role_not_found");
  users ← gets (users_with_role id);
  role_audit actor None "ROLE_MEMBERS_VIEWED" None role [result "success"]
    [("viewedUserCount", JNum (Z.of_nat (length users)));
     ("viewedUserIds", JArr (JStr <$> (xu_id <$> users)))] ;;
  mret users.

Definition findPermissions `{AccLib} (id : string) : prog AccW (list Permission) :=
  role ← loadRoleOrThrow id;
  gets (λ w, by_name db_before pm_name (permissions_of w (rl_id (lr_role role)))).

Definition code_unit_before (a b : string) : bool := String.leb a b.

(** [onlyInA], [onlyInB], [inBoth] *)
Record RoleComparison := { rc_onlyInA : list string; rc_onlyInB : list string;
                           rc_inBoth : list string }.
Definition compared (a b : list string) : RoleComparison :=
  let setA := js_set a in
  let setB := js_set b in
  let sorted := by_name code_unit_before (λ x, x) in
  {| rc_onlyInA := sorted (filter (λ x, mem x setB = false) setA);
     rc_onlyInB := sorted (filter (λ x, mem x setA = false) setB);
     rc_inBoth := sorted (filter (λ x, mem x setB = true) setA) |}.
Definition compare (a b : string) : prog AccW RoleComparison :=
  ra ← loadRoleOrThrow a;
  rb ← loadRoleOrThrow b;
  mret (compared (lr_permissions ra) (lr_permissions rb)).

(** What deleting a role would do. *)
Record DeleteImpact := {
  di_role : Role;
  di_isProtected : bool;
  di_users : list (AccUser * bool);     (* and whether they lose their only role *)
  di_pendingRequests : Z;
  di_activeTemporaryAssignments : Z;
  di_pendingReviewItems : Z;
  di_canDelete : bool;
}.
Definition impact_users (id : string) (w : AccW) : list (AccUser * bool) :=
  (λ u, (u, bool_decide (length (userRoles_of w (xu_id u)) = 1%nat))) <$> users_with_role id w.
Definition impact (role : Role) (w : AccW) : DeleteImpact :=
  let users := impact_users (rl_id role) w in {|
  di_role := role; di_isProtected := isProtected role; di_users := users;
  di_pendingRequests := Z.of_nat (length (rows (pending_of_role (rl_id role)) (xw_requests w)));
  di_activeTemporaryAssignments :=
    Z.of_nat (length (rows (λ x, bool_decide (tm_roleId x = rl_id role) &&
                                 bool_decide (tm_status x = ACTIVE)) (xw_temporary w)));
  di_pendingReviewItems :=
    Z.of_nat (length (filter (λ r, r = rl_id role) (xw_reviewItems w)));
  di_canDelete := negb (isProtected role) && bool_decide (users = []) |}.
(** The four queries run on one state. *)
Definition deleteImpact (id : string) : prog AccW DeleteImpact :=
  role ← loadRoleOrThrow id;
  gets (impact (lr_role role)).

Definition listTemplates : list (string * string * string) :=
  (λ t, (tp_id t, tp_name t, tp_description t)) <$> ROLE_TEMPLATES.

Definition oldest_request (a b : Request) : bool := rq_createdAt a <=? rq_createdAt b.
Definition listAssignmentRequests : prog AccW (list Request) :=
  expireStaleRequests ;;
  gets (λ w, merge_sort (goes_before oldest_request) (rows (has_status PENDING) (xw_requests w))).

(** Roles with how many hold them and how many permissions they have. *)
Definition oldest_role (a b : Role) : bool := rl_createdAt a <=? rl_createdAt b.
Definition summaries (w : AccW) : list (Role * nat * nat) :=
  (λ r, (r, length (holders_of w (rl_id r)), length (permission_rows w (rl_id r)))) <$>
  merge_sort (goes_before oldest_role) (rows (λ _, true) (xw_roles w)).
Definition summary : prog AccW (list (Role * nat * nat)) := gets summaries.

(** Who holds a role, since when, from whom, and until when if temporarily. *)
Record Assignment := {
  an_user : option AccUser;
  an_assignedAt : Z;
  an_assignedBy : option AccUser;
  an_temporaryUntil : option Z;
}.
Definition latest_assignment (a b : UserRole) : bool := ur_assignedAt b <=? ur_assignedAt a.
Definition user_of (w : AccW) (id : option string) : option AccUser :=
  match id with Some id => xw_users w !! id | None => None end.
(** [new Map(...)]: of several rows for a user, the last. *)
Definition expiry_of (ts : list Temporary) (userId : string) : option Z :=
  tm_expiresAt <$> last (filter (λ t, tm_userId t = userId) ts).
Definition assignments_of (roleId : string) (w : AccW) : list Assignment :=
  let ts := rows (λ t, bool_decide (tm_roleId t = roleId) && bool_decide (tm_status t = ACTIVE))
              (xw_temporary w) in
  (λ a, {| an_user := xw_users w !! ur_userId a; an_assignedAt := ur_assignedAt a;
           an_assignedBy := user_of w (ur_assignedBy a);
           an_temporaryUntil := expiry_of ts (ur_userId a) |}) <$>
  merge_sort (goes_before latest_assignment) (holders_of w roleId).
(** The two queries run on one state. *)
Definition findAssignments (id : string) : prog AccW (list Assignment) :=
  role ← loadRoleOrThrow id;
  gets (assignments_of (rl_id (lr_role role))).

Definition next_expiry (a b : Temporary) : bool := tm_expiresAt a <=? tm_expiresAt b.
Definition listTemporaryAssignments : prog AccW (list Temporary) :=
  gets (λ w, merge_sort (goes_before next_expiry)
    (rows (λ t, bool_decide (tm_status t = ACTIVE)) (xw_temporary w))).

Record RoleStats := {
  st_roles : Z; st_archivedRoles : Z; st_assignments : Z; st_temporaryAssignments : Z;
  st_expiringSoon : Z; st_pendingRequests : Z;
}.
Definition role_stats (t : Z) (w : AccW) : RoleStats :=
  let count {A} (xs : list A) := Z.of_nat (length xs) in
  let active (x : Temporary) := bool_decide (tm_status x = ACTIVE) in {|
  st_roles := count (rows (λ _, true) (xw_roles w));
  st_archivedRoles := count (rows (λ r, bool_decide (is_Some (rl_archivedAt r))) (xw_roles w));
  st_assignments := count (rows (λ _, true) (xw_userRoles w));
  st_temporaryAssignments := count (rows active (xw_temporary w));
  st_expiringSoon :=
    count (rows (λ x, active x && (tm_expiresAt x <=? t + 7 * 24 * 60 * 60 * 1000))
             (xw_temporary w));
  st_pendingRequests := count (rows (λ q, has_status PENDING q && (t <? rq_expiresAt q))
                                 (xw_requests w)) |}.
(** The six queries run on one state. *)
Definition statsOverview : prog AccW RoleStats := t ← now; gets (role_stats t).
