(* ===== verification/PermissionService.v ===== *)
(** * Permissions

    Models [src/modules/auth/service/permission.service.ts]: which permissions a
    role has, who loses their sessions when that changes, and the reports on
    permissions. *)

From S2P Require Import Prelude Js Redis Cache Roles Permissions AccessModel RoleService.
From stdpp Require Import sorting.
From coqutil Require Import Datatypes.RecordSetters.
Import DoubleBraceUpdate.

Open Scope Z_scope.

Definition INVALIDATION_CHUNK_SIZE : nat := 500.

(** A role with its number of holders. *)
Definition RoleWithCount : Type := Role * Z.

Record InvalidationResult := {
  iv_usersInvalidated : Z;
  iv_sessionsRevoked : Z;
  iv_invalidationFailed : bool;
}.

Definition json_strs (xs : list string) : json := JArr (JStr <$> xs).

(** ** Shared helpers *)

Definition loadRole (actor : CurrentUser) (roleId action : string) : prog AccW RoleWithCount :=
  role ← gets (counted_role roleId);
  match role with
  | Some r => mret r
  | None =>
      audit actor None action (Some "FAILURE") "Role" (Some roleId) None
        [result "failure"; reason_is "role_not_found"] [] ;;
      Throw (NotFound "role_not_found")
  end.

Definition locked : exn := Forbidden "protected_role_permissions_locked".
Definition assertPermissionsEditable (actor : CurrentUser) (role : Role) (action : string)
    (attempted : list string) : prog AccW () :=
  if negb (isPermissionLockedRole (rl_name role)) then mret () else
  role_audit actor None action (Some "DENIED") role
    [result "denied"; reason_is "protected_role_permissions_locked";
     ("attemptedPermissions", json_strs attempted)] [] ;;
  Throw locked.

Definition unknown_permission (missing : list string) : exn :=
  BadRequest ("unknown_permission: " +:+ String.concat ", " missing).
Definition resolvePermissionsOrThrow (actor : CurrentUser) (role : Role) (names : list string)
    (action : string) : prog AccW (list Permission) :=
  permissions ← gets (matching_permissions names);
  let missing := filter (λ n, mem n (pm_name <$> permissions) = false) names in
  if bool_decide (missing = []) then mret permissions else
  role_audit actor None action (Some "FAILURE") role
    [result "failure"; reason_is "unknown_permission";
     ("missingPermissions", json_strs missing)]
    [("requestedCount", JNum (Z.of_nat (length names)))] ;;
  Throw (unknown_permission missing).

(** [slice(i, i + n)] for [i = 0, n, 2n, ...]; a list of [fuel] elements has no
    more than [fuel] chunks. *)
Fixpoint chunks (n : nat) (fuel : nat) (xs : list string) : list (list string) :=
  match fuel, xs with
  | S fuel, _ :: _ => take n xs :: chunks n fuel (drop n xs)
  | _, _ => []
  end.

Definition holder_ids (roleId : string) (w : AccW) : list string :=
  js_set (ur_userId <$> holders_of w roleId).

Section service.
Context `{AccLib} (keyPrefix : string).

(** The sessions of one chunk, then its caches ([Promise.all], in their order); it
    stops at the first failure. The sessions revoked, and whether it failed. *)
Fixpoint invalidate_chunks (revokeSessions : bool) (cs : list (list string)) (revoked : Z)
    : prog AccW (Z * bool) :=
  match cs with
  | [] => mret (revoked, false)
  | c :: cs =>
      n ← attempt (if revokeSessions then session_deleteMany c else mret 0);
      match n with
      | Err _ => mret (revoked, true)
      | Ok n =>
          purged ← attempt (for_each (purgeUserCache keyPrefix) c);
          if is_ok purged then invalidate_chunks revokeSessions cs (revoked + n)
          else mret (revoked + n, true)
      end
  end.

Definition invalidateRoleHolders (roleId : string) (revokeSessions : bool)
    : prog AccW InvalidationResult :=
  userIds ← gets (holder_ids roleId);
  r ← invalidate_chunks revokeSessions
        (chunks INVALIDATION_CHUNK_SIZE (length userIds) userIds) 0;
  mret {| iv_usersInvalidated := Z.of_nat (length userIds);
          iv_sessionsRevoked := r.1; iv_invalidationFailed := r.2 |}.

Definition invalidation_json (r : InvalidationResult) : list (string * json) :=
  [("usersInvalidated", JNum (iv_usersInvalidated r));
   ("sessionsRevoked", JNum (iv_sessionsRevoked r));
   ("invalidationFailed", JBool (iv_invalidationFailed r))].

(** ** Reads *)

Definition findAll : prog AccW (list Permission) :=
  gets (λ w, by_name db_before pm_name (rows (λ _, true) (xw_permissions w))).

Definition findForRole (roleId : string) : prog AccW (list Permission) :=
  role ← role_by_id roleId;
  _ ← require role (NotFound "role_not_found");
  gets (λ w, by_name db_before pm_name (permissions_of w roleId)).

Definition roles_with (permissionId : string) (w : AccW) : list Role :=
  omap (λ rp, xw_roles w !! rp_roleId rp)
    (rows (λ rp, bool_decide (rp_permissionId rp = permissionId)) (xw_rolePermissions w)).
Definition findRolesForPermission (permissionName : string) : prog AccW (list Role) :=
  permission ← permission_by_name permissionName;
  p ← require permission (NotFound "permission_not_found");
  gets (λ w, by_name db_before rl_name (roles_with (pm_id p) w)).

(** [byId.set(...)] for every permission of every role: the last row of an id, at
    the place of the first. Rows of one id are the same row here. *)
Fixpoint by_first_id (seen : list string) (ps : list Permission) : list Permission :=
  match ps with
  | [] => []
  | p :: ps =>
      if mem (pm_id p) seen then by_first_id seen ps
      else p :: by_first_id (pm_id p :: seen) ps
  end.
Definition effective_permissions (userId : string) (w : AccW) : list Permission :=
  by_first_id [] (userRoles_of w userId ≫= λ ur, permissions_of w (ur_roleId ur)).
Definition getEffectivePermissionsForUser (userId : string) : prog AccW (list Permission) :=
  user ← gets (λ w, xw_users w !! userId);
  _ ← require user (NotFound "user_not_found");
  gets (λ w, by_name locale_before pm_name (effective_permissions userId w)).

(** ** Writes *)

Definition present_of (roleId : string) (ps : list Permission) (w : AccW) : list string :=
  filter (λ id, mem id (pm_id <$> ps) = true) (permission_ids w roleId).

Definition missing_as_role (e : exn) : exn :=
  if has_code "P2003" e then NotFound "role_not_found" else e.

Definition assignToRole (actor : CurrentUser) (roleId : string) (names : list string)
    : prog AccW (list Permission) :=
  loaded ← loadRole actor roleId "PERMISSION_ASSIGNED";
  let '(role, count) := loaded in
  assertPermissionsEditable actor role "PERMISSION_ASSIGNED" names ;;
  permissions ← resolvePermissionsOrThrow actor role names "PERMISSION_ASSIGNED";
  existing ← gets (present_of roleId permissions);
  let toCreate := filter (λ p, mem (pm_id p) existing = false) permissions in
  (if bool_decide (toCreate = []) then mret () else
   catch (rolePermission_createMany roleId (pm_id <$> toCreate))
     (λ e, Throw (missing_as_role e)) ;;
   invalidation ← invalidateRoleHolders roleId false;
   audit actor None "PERMISSION_ASSIGNED" None "Role" (Some roleId) (Some (rl_name role))
     [result "success"; ("added", json_strs (pm_name <$> toCreate))]
     (("usersWithRole", JNum count) ::
      ("requestedCount", JNum (Z.of_nat (length names))) ::
      ("skippedAlreadyAssigned",
       JNum (Z.of_nat (length permissions) - Z.of_nat (length toCreate))) ::
      invalidation_json invalidation)) ;;
  findForRole roleId.

Definition revokeManyFromRole (actor : CurrentUser) (roleId : string) (names : list string)
    : prog AccW (list Permission) :=
  loaded ← loadRole actor roleId "PERMISSIONS_BULK_REVOKED";
  let '(role, count) := loaded in
  assertPermissionsEditable actor role "PERMISSIONS_BULK_REVOKED" names ;;
  permissions ← resolvePermissionsOrThrow actor role names "PERMISSIONS_BULK_REVOKED";
  n ← rolePermission_deleteMany roleId (pm_id <$> permissions);
  (if 0 <? n then
     invalidation ← invalidateRoleHolders roleId true;
     audit actor None "PERMISSIONS_BULK_REVOKED" None "Role" (Some roleId) (Some (rl_name role))
       [result "success"; ("removed", json_strs (pm_name <$> permissions))]
       (("usersWithRole", JNum count) ::
        ("requestedCount", JNum (Z.of_nat (length names))) ::
        ("actuallyRemoved", JNum n) :: invalidation_json invalidation)
   else mret ()) ;;
  findForRole roleId.

(** The transaction of [setForRole]: what was added and what was removed. *)
Definition replace_permissions (roleId : string) (target : list Permission)
    : prog AccW (list Permission * list Permission) :=
  current ← gets (λ w, permissions_of w roleId);
  let toAdd := filter (λ p, mem (pm_id p) (pm_id <$> current) = false) target in
  let toRemove := filter (λ p, mem (pm_id p) (pm_id <$> target) = false) current in
  (if bool_decide (toRemove = []) then mret ()
   else rolePermission_deleteMany roleId (pm_id <$> toRemove) ;; mret ()) ;;
  (if bool_decide (toAdd = []) then mret ()
   else rolePermission_createMany roleId (pm_id <$> toAdd)) ;;
  mret (toAdd, toRemove).

Definition setForRole (actor : CurrentUser) (roleId : string) (names : list string)
    : prog AccW (list Permission) :=
  loaded ← loadRole actor roleId "PERMISSIONS_SET_REPLACED";
  let '(role, count) := loaded in
  assertPermissionsEditable actor role "PERMISSIONS_SET_REPLACED" names ;;
  target ← resolvePermissionsOrThrow actor role names "PERMISSIONS_SET_REPLACED";
  diff ← catch (serializable (replace_permissions roleId target))
    (λ e,
      if has_code "P2034" e then
        audit actor None "PERMISSIONS_SET_REPLACED" (Some "FAILURE") "Role" (Some roleId)
          (Some (rl_name role)) [result "failure"; reason_is "concurrent_permission_update"] [] ;;
        Throw (Conflict "concurrent_permission_update_retry")
      else Throw (missing_as_role e));
  let '(toAdd, toRemove) := diff in
  if bool_decide (toAdd = []) && bool_decide (toRemove = []) then findForRole roleId else
  invalidation ← invalidateRoleHolders roleId (negb (bool_decide (toRemove = [])));
  audit actor None "PERMISSIONS_SET_REPLACED" None "Role" (Some roleId) (Some (rl_name role))
    [result "success"; ("added", json_strs (pm_name <$> toAdd));
     ("removed", json_strs (pm_name <$> toRemove))]
    (("usersWithRole", JNum count) :: ("finalCount", JNum (Z.of_nat (length names))) ::
     invalidation_json invalidation) ;;
  findForRole roleId.

Definition revokeFromRole (actor : CurrentUser) (roleId permissionName : string)
    : prog AccW () :=
  loaded ← loadRole actor roleId "PERMISSION_REVOKED";
  let '(role, count) := loaded in
  assertPermissionsEditable actor role "PERMISSION_REVOKED" [permissionName] ;;
  let failed (reason : string) :=
    audit actor None "PERMISSION_REVOKED" (Some "FAILURE") "Role" (Some roleId)
      (Some (rl_name role))
      [result "failure"; reason_is reason; ("attempted", JStr permissionName)] [] in
  permission ← permission_by_name permissionName;
  match permission with
  | None =>
      failed "permission_not_found" ;; Throw (NotFound "permission_not_found")
  | Some p =>
      rolePermission ← gets (λ w, xw_rolePermissions w !! (roleId, pm_id p));
      match rolePermission with
      | None =>
          failed "role_does_not_have_permission" ;;
          Throw (NotFound "role_does_not_have_permission")
      | Some rp =>
          catch (rolePermission_delete (rp_id rp))
            (λ e, Throw (if has_code "P2025" e
                         then NotFound "role_does_not_have_permission" else e)) ;;
          invalidation ← invalidateRoleHolders roleId true;
          audit actor None "PERMISSION_REVOKED" None "Role" (Some roleId) (Some (rl_name role))
            [result "success"; ("removed", JStr (pm_name p))]
            (("usersWithRole", JNum count) :: invalidation_json invalidation)
      end
  end.

(** [sync]: adds the permissions of the enumeration that the table lacks. *)
Definition permission_table (w : AccW) : list string :=
  pm_name <$> rows (λ _, true) (xw_permissions w).
Definition sync (actor : CurrentUser) : prog AccW (list string * list string) :=
  existing ← gets permission_table;
  let missing := filter (λ n, mem n existing = false) PermissionsEnum in
  let orphaned := filter (λ n, mem n PermissionsEnum = false) (js_set existing) in
  (if bool_decide (missing = []) then mret () else permission_createMany missing) ;;
  audit actor None "PERMISSIONS_SYNCED" None "Permission" None None
    [result "success"; ("created", json_strs missing); ("orphaned", json_strs orphaned)]
    [("createdCount", JNum (Z.of_nat (length missing)));
     ("orphanedCount", JNum (Z.of_nat (length orphaned)))] ;;
  mret (missing, orphaned).
End service.

(** ** Reports on permissions *)

(** The part of a name before its first underscore. *)
Definition groupOf (name : string) : string :=
  match span (λ c, negb (bool_decide (c = "_"%char))) name with
  | (Str _ _ as group, Str _ _) => group
  | _ => name
  end.

(** Groups in the order of their first permission. *)
Definition grouped (ps : list Permission) : list (string * list Permission) :=
  (λ g, (g, filter (λ p, groupOf (pm_name p) = g) ps)) <$> js_set (groupOf ∘ pm_name <$> ps).
Definition groups `{AccLib} : prog AccW (list (string * list Permission)) :=
  gets (λ w, grouped (by_name db_before pm_name (rows (λ _, true) (xw_permissions w)))).

(** A permission, its group, whether it is sensitive, the roles that have it. *)
Definition findOneWithRoles `{AccLib} (name : string)
    : prog AccW (Permission * string * bool * list Role) :=
  permission ← permission_by_name name;
  p ← require permission (NotFound "permission_not_found");
  roles ← gets (roles_with (pm_id p));
  mret (p, groupOf (pm_name p), isSensitivePermission (pm_name p),
        by_name locale_before rl_name roles).

(** Every role with the permissions that it grants; whether it is archived. *)
Definition matrix_roles `{AccLib} (w : AccW) : list (Role * bool * list string) :=
  (λ r, (r, bool_decide (is_Some (rl_archivedAt r)),
         by_name code_unit_before (λ x, x) (permission_names w (rl_id r)))) <$>
  by_name db_before rl_name (rows (λ _, true) (xw_roles w)).
(** The two queries run on one state. *)
Definition matrix `{AccLib} : prog AccW (list string * list (Role * bool * list string)) :=
  gets (λ w, (by_name db_before (λ x, x) (permission_table w), matrix_roles w)).

Definition unused `{AccLib} : prog AccW (list Permission) :=
  gets (λ w, by_name db_before pm_name
    (rows (λ p, negb (existsb (λ rp, bool_decide (rp_permissionId rp = pm_id p))
                        (rows (λ _, true) (xw_rolePermissions w)))) (xw_permissions w))).

Definition with_roles `{AccLib} (w : AccW) : list (Permission * list Role) :=
  (λ p, (p, roles_with (pm_id p) w)) <$>
  by_name db_before pm_name (rows (λ _, true) (xw_permissions w)).
Definition sensitive `{AccLib} : prog AccW (list (Permission * list Role)) :=
  rows ← gets with_roles;
  mret (filter (λ x, isSensitivePermission (pm_name x.1) = true) rows).

(** *** A dry run *)
Record SimulateDto := {
  sm_permission : string;
  sm_roleIds : option (list string);
  sm_userId : option string;
}.
Record Simulation := {
  si_allow : bool;
  si_grantedBy : list string;
  si_evaluatedRoles : list string;
}.
Definition grants_permission (name : string) (w : AccW) (r : Role) : bool :=
  mem name (permission_names w (rl_id r)).
Definition simulated (name : string) (P : AccW → Role → bool) (w : AccW) : Simulation * nat :=
  let roles := rows (P w) (xw_roles w) in
  let granting := filter (λ r, grants_permission name w r = true) roles in
  ({| si_allow := negb (bool_decide (granting = []));
      si_grantedBy := rl_name <$> granting;
      si_evaluatedRoles := rl_name <$> roles |}, length roles).
Definition held_by (userId : string) (w : AccW) (r : Role) : bool :=
  bool_decide (is_Some (xw_userRoles w !! (userId, rl_id r))).
Definition simulate (data : SimulateDto) : prog AccW Simulation :=
  match sm_userId data, sm_roleIds data with
  | Some (Str _ _ as u), _ =>
      user ← gets (λ w, xw_users w !! u);
      _ ← require user (NotFound "user_not_found");
      r ← gets (simulated (sm_permission data) (held_by u));
      mret r.1
  | _, Some (_ :: _ as ids) =>
      r ← gets (simulated (sm_permission data) (λ _ role, mem (rl_id role) ids));
      throw_if (negb (r.2 =? length (js_set ids))%nat) (NotFound "role_not_found") ;;
      mret r.1
  | _, _ => Throw (BadRequest "role_ids_or_user_id_required")
  end.

(** *** Conflicts of duties *)
Record RoleConflicts := { cf_role : Role; cf_conflicts : list DutyRule }.
Record UserConflicts := {
  cf_user : AccUser;
  cf_roles : list Role;
  cf_across : list DutyRule;
}.

Definition roles_with_permissions (w : AccW) : list LoadedRole :=
  (λ r, {| lr_role := r; lr_permissions := permission_names w (rl_id r) |}) <$>
  rows (λ _, true) (xw_roles w).
(** Active users that hold a role, at most 500, with their roles. *)
Definition staff (w : AccW) : list (AccUser * list Role) :=
  take 500 (filter (λ x, x.2 ≠ [])
    ((λ u, (u, omap (λ ur, xw_roles w !! ur_roleId ur) (userRoles_of w (xu_id u)))) <$>
     rows xu_isActive (xw_users w))).

(** [permissionsByRole.get(id) ?? []] *)
Definition permissionsByRole (roles : list LoadedRole) (id : string) : list string :=
  from_option (λ r, lr_permissions r) []
    (find (λ r, bool_decide (rl_id (lr_role r) = id)) roles).

Definition within_role (roles : list LoadedRole) : list RoleConflicts :=
  filter (λ e, cf_conflicts e ≠ [])
    ((λ r, {| cf_role := lr_role r; cf_conflicts := findDutyConflicts (lr_permissions r) |})
     <$> roles).
Definition all_across (roles : list LoadedRole) (users : list (AccUser * list Role))
    : list UserConflicts :=
  filter (λ e, cf_across e ≠ [])
    ((λ x, {| cf_user := x.1; cf_roles := x.2;
              cf_across := findDutyConflicts (x.2 ≫= λ r, permissionsByRole roles (rl_id r)) |})
     <$> filter (λ x, (1 < length x.2)%nat) users).
(** [roleConflictKeys.size] counts the conflicts inside one role. *)
Definition conflicts : prog AccW (list RoleConflicts * list UserConflicts) :=
  roles ← gets roles_with_permissions;
  users ← gets staff;
  let withinRole := within_role roles in
  let keys := withinRole ≫= λ e, (λ c, (rl_id (cf_role e), dr_permissions c)) <$> cf_conflicts e in
  mret (withinRole,
        filter (λ e, (1 < length (cf_roles e))%nat ∨ keys = []) (all_across roles users)).

(** *** Usage *)
Record PermissionUsage := {
  us_name : string;
  us_roleCount : Z;
  us_userCount : Z;
  us_sensitive : bool;
}.
Definition users_with (roles : list Role) (holders : list UserRole) : list string :=
  js_set (roles ≫= λ r, ur_userId <$> filter (λ h, ur_roleId h = rl_id r) holders).
Definition usage_row (holders : list UserRole) (x : Permission * list Role) : PermissionUsage := {|
  us_name := pm_name x.1; us_roleCount := Z.of_nat (length x.2);
  us_userCount := Z.of_nat (length (users_with x.2 holders));
  us_sensitive := isSensitivePermission (pm_name x.1) |}.
(** The number of rows, and how many are held by no role and by no user. *)
Definition usage_totals (us : list PermissionUsage) : Z * Z * Z :=
  (Z.of_nat (length us), Z.of_nat (length (filter (λ u, us_roleCount u = 0) us)),
   Z.of_nat (length (filter (λ u, us_userCount u = 0) us))).
Definition statsUsage `{AccLib} : prog AccW (list PermissionUsage * (Z * Z * Z)) :=
  permissions ← gets with_roles;
  holders ← gets (λ w, rows (λ _, true) (xw_userRoles w));
  let us := usage_row holders <$> permissions in
  mret (us, usage_totals us).
