(* ===== verification/Guards.v ===== *)
(** * Who a request comes from

    Models [src/common/guards/jwt.strategy.ts]: what an access token is worth is
    decided by its session and the roles of its user, read through the cache. *)

From S2P Require Import Prelude Js Redis Cache Roles Permissions AccessModel.
From coqutil Require Import Datatypes.RecordSetters.
Import DoubleBraceUpdate.

Open Scope Z_scope.

Record AccessTokenPayload := { ap_sub : string; ap_phone : string; ap_sid : option string }.

Inductive SessionAuth :=
| NotAlive
| Alive (roles permissions : list string).

(** As the cache keeps it. *)
Definition strs (xs : list string) : json := JArr (JStr <$> xs).
Definition of_strs (j : option json) : list string :=
  match j with
  | Some (JArr xs) => omap (λ x, match x with JStr s => Some s | _ => None end) xs
  | _ => []
  end.
Definition session_json (a : SessionAuth) : json :=
  match a with
  | NotAlive => JObj [("alive", JBool false)]
  | Alive roles permissions =>
      JObj [("alive", JBool true); ("roles", strs roles); ("permissions", strs permissions)]
  end.
Definition session_of_json (j : json) : SessionAuth :=
  match j with
  | JObj kvs =>
      match assoc "alive" kvs with
      | Some (JBool true) => Alive (of_strs (assoc "roles" kvs)) (of_strs (assoc "permissions" kvs))
      | _ => NotAlive
      end
  | _ => NotAlive
  end.

Lemma of_strs_strs xs : of_strs (Some (strs xs)) = xs.
Proof. cbn. induction xs as [|x xs IH]; cbn; [done|]. by rewrite IH. Qed.
Lemma session_json_of a : session_of_json (session_json a) = a.
Proof. destruct a as [|rs ps]; [done|]. cbn. f_equal; apply of_strs_strs. Qed.

Definition live_session (userId sessionId : string) (w : AccW) : bool :=
  match xw_sessions w !! sessionId with
  | Some s => bool_decide (ss_userId s = userId) && bool_decide (ss_revokedAt s = None) &&
              (xw_now w <? ss_expiresAt s)
  | None => false
  end.

(** The active user's roles, and the permissions of all of them. *)
Definition user_auth (userId : string) (w : AccW) : SessionAuth :=
  match xw_users w !! userId with
  | Some u =>
      if xu_isActive u
      then Alive (role_names w userId)
             (js_set (userRoles_of w userId ≫= λ ur, permission_names w (ur_roleId ur)))
      else NotAlive
  | None => NotAlive
  end.

Definition loadSessionAuth (userId sessionId : string) : prog AccW SessionAuth :=
  live ← gets (live_session userId sessionId);
  if (live : bool) then gets (user_auth userId) else mret NotAlive.

(** What the strategy puts on the request. *)
Record RequestUser := { rx_user : CurrentUser; rx_phone : string; rx_sessionId : string }.

Section strategy.
Context `{AccLib} (keyPrefix : string).

Definition session_source (userId sessionId : string) : prog AccW json :=
  a ← loadSessionAuth userId sessionId; mret (session_json a).

Definition validate (payload : AccessTokenPayload) : prog AccW RequestUser :=
  match ap_sid payload with
  | Some (Str _ _ as sid) =>
      auth ← wrapSessionAuth keyPrefix (ap_sub payload) sid (session_source (ap_sub payload) sid);
      match session_of_json auth with
      | NotAlive => Throw (Unauthorized "session_revoked")
      | Alive roles permissions =>
          mret {| rx_user := {| cu_id := ap_sub payload; cu_roles := roles;
                                cu_permissions := permissions |};
                  rx_phone := ap_phone payload; rx_sessionId := sid |}
      end
  | _ => Throw (Unauthorized "invalid_token")
  end.
End strategy.
