(* ===== verification/AccessSafety.v ===== *)
(** * Roles and permissions under every interleaving

    What no handler of roles and permissions does, however the handlers interleave:
    hand out a role that needs two persons without a second person's decision, let
    a decided request be decided again, change a locked role. *)

From S2P Require Import Prelude Interleave Js Redis Cache Roles Permissions.
From S2P Require Import AccessModel RoleService PermissionService Guards.
From stdpp Require Import sorting.
From coqutil Require Import Datatypes.RecordSetters.
Import DoubleBraceUpdate.

Open Scope Z_scope.

Section safety.
Context `{AccLib} `{!Inj (=) (=) acc_uuid}.

(** ** Identifiers *)

(** Not drawn yet. *)
Definition future (w : AccW) (id : string) : Prop := ∃ n, (xw_draws w ≤ n)%nat ∧ id = acc_uuid n.

Lemma future_mono w w' id : (xw_draws w ≤ xw_draws w')%nat → future w' id → future w id.
Proof. intros Hd (n&Hn&->). exists n. split; [lia|done]. Qed.
Lemma future_draw w : future w (acc_uuid (xw_draws w)).
Proof. by eexists. Qed.
Lemma drawn_past w' n : (n < xw_draws w')%nat → ¬ future w' (acc_uuid n).
Proof. intros Hn (m&Hm&Heq%(inj acc_uuid)). lia. Qed.

(** ** Requests and temporary assignments as state machines *)

(** A request that was reviewed was reviewed by a second person. *)
Definition review_ok (q : Request) : Prop :=
  (∀ r, rq_reviewedById q = Some r → r ≠ rq_requestedById q) ∧
  (rq_status q = PENDING → rq_reviewedById q = None) ∧
  (rq_status q = APPROVED ∨ rq_status q = REJECTED → is_Some (rq_reviewedById q)).

(** What a request asks does not change; it leaves PENDING once; a review stays.
    After that its status changes only to EXPIRED. *)
Record request_step (q q' : Request) : Prop := {
  qs_id : rq_id q' = rq_id q;
  qs_role : rq_roleId q' = rq_roleId q;
  qs_target : rq_targetUserId q' = rq_targetUserId q;
  qs_requester : rq_requestedById q' = rq_requestedById q;
  qs_reason : rq_reason q' = rq_reason q;
  qs_expiresAt : rq_expiresAt q' = rq_expiresAt q;
  qs_review : rq_status q ≠ PENDING →
    rq_reviewedById q' = rq_reviewedById q ∧ rq_reviewedAt q' = rq_reviewedAt q ∧
    (rq_status q' = rq_status q ∨ rq_status q' = EXPIRED);
}.
#[export] Instance request_step_preorder : PreOrder request_step.
Proof.
  split.
  - intros q. split; auto.
  - intros q1 q2 q3 [] []. split; try congruence. intros Hn.
    destruct (qs_review0 Hn) as (?&?&Hs).
    destruct (qs_review1) as (?&?&Hs'); [destruct Hs as [->| ->]; done|].
    split_and!; [congruence..|]. destruct Hs as [Hs|Hs], Hs' as [Hs'|Hs'];
      rewrite ?Hs', ?Hs; auto.
Qed.

Record temporary_step (t t' : Temporary) : Prop := {
  ts_id : tm_id t' = tm_id t;
  ts_user : tm_userId t' = tm_userId t;
  ts_role : tm_roleId t' = tm_roleId t;
  ts_expiresAt : tm_expiresAt t' = tm_expiresAt t;
  ts_ended : tm_status t ≠ ACTIVE → tm_status t' ≠ ACTIVE;
}.
#[export] Instance temporary_step_preorder : PreOrder temporary_step.
Proof.
  split; [by intros t; split|]. intros t1 t2 t3 [] []. split; [congruence..|auto].
Qed.

(** The row under an identifier that was drawn: it stays and steps, or is deleted
    for good. *)
Definition kept_by {A} (step : relation A) (o o' : option A) : Prop :=
  match o, o' with
  | Some a, Some a' => step a a'
  | None, Some _ => False
  | _, None => True
  end.
Lemma kept_by_refl {A} (step : relation A) `{!Reflexive step} o : kept_by step o o.
Proof. by destruct o; cbn. Qed.
Lemma kept_by_trans {A} (step : relation A) `{!Transitive step} (o1 o2 o3 : option A) :
  kept_by step o1 o2 → kept_by step o2 o3 → kept_by step o1 o3.
Proof. destruct o1, o2, o3; cbn; try done. apply transitivity. Qed.

Lemma kept_by_filter {A} (step : relation A) `{!Reflexive step} (P : string * A → Prop)
    `{!∀ x, Decision (P x)} (m : gmap string A) i : kept_by step (m !! i) (filter P m !! i).
Proof.
  destruct (filter P m !! i) as [a|] eqn:Ha; [|by destruct (m !! i)].
  apply map_lookup_filter_Some in Ha as [-> _]. by cbn.
Qed.

(** ** The invariant and the relation *)

(** A role that needs two persons. *)
Definition two_person_role (w : AccW) (r : string) : Prop :=
  ∃ pid p, is_Some (xw_rolePermissions w !! (r, pid)) ∧ xw_permissions w !! pid = Some p ∧
    requiresTwoPersonApproval (pm_name p) = true.

(** A second person's decision behind a holder of a role. *)
Definition approved_by_second (w : AccW) (ur : UserRole) : Prop :=
  ∃ id q reviewer, xw_requests w !! id = Some q ∧
    rq_roleId q = ur_roleId ur ∧ rq_targetUserId q = ur_userId ur ∧
    ur_assignedBy ur = Some (rq_requestedById q) ∧
    rq_reviewedById q = Some reviewer ∧ reviewer ≠ rq_requestedById q ∧
    rq_status q ≠ PENDING ∧ rq_status q ≠ REJECTED.

(** [guarded]: roles that are locked. [frozen]: roles of which the permissions do
    not change. [exempt]: who held what at the start, or got it from elsewhere. *)
Context (guarded frozen : string → Prop) (exempt : string → string → Prop).

Record acc_inv (w : AccW) : Prop := {
  ai_roles id r : xw_roles w !! id = Some r → rl_id r = id ∧ ¬ future w id;
  ai_perms r p x : xw_rolePermissions w !! (r, p) = Some x →
    rp_roleId x = r ∧ rp_permissionId x = p ∧ is_Some (xw_roles w !! r) ∧
    is_Some (xw_permissions w !! p) ∧ ¬ future w (rp_id x);
  ai_rp_ids k k' x x' : xw_rolePermissions w !! k = Some x →
    xw_rolePermissions w !! k' = Some x' → rp_id x = rp_id x' → k = k';
  ai_permission_ids p x : xw_permissions w !! p = Some x → pm_id x = p ∧ ¬ future w p;
  ai_holders u r x : xw_userRoles w !! (u, r) = Some x →
    ur_userId x = u ∧ ur_roleId x = r ∧ is_Some (xw_roles w !! r);
  ai_requests id q : xw_requests w !! id = Some q → rq_id q = id ∧ ¬ future w id ∧ review_ok q;
  ai_temporary id t : xw_temporary w !! id = Some t → tm_id t = id ∧ ¬ future w id;
  ai_granted u r x : xw_userRoles w !! (u, r) = Some x → two_person_role w r →
    exempt u r ∨ approved_by_second w x;
  ai_guarded r : guarded r → ∃ q, xw_roles w !! r = Some q ∧
    isPermissionLockedRole (rl_name q) = true;
}.

Definition same_name (r r' : Role) : Prop := rl_name r' = rl_name r.

Record acc_rel (w w' : AccW) : Prop := {
  ar_draws : (xw_draws w ≤ xw_draws w')%nat;
  ar_roles id : ¬ future w id → is_Some (xw_roles w' !! id) → is_Some (xw_roles w !! id);
  ar_guarded id : guarded id → rl_name <$> xw_roles w' !! id = rl_name <$> xw_roles w !! id;
  ar_frozen r pid : frozen r → ¬ future w r → is_Some (xw_roles w' !! r) →
    xw_rolePermissions w' !! (r, pid) = xw_rolePermissions w !! (r, pid);
  ar_rps k x : xw_rolePermissions w' !! k = Some x → ¬ future w (rp_id x) →
    xw_rolePermissions w !! k = Some x;
  ar_permissions pid p : xw_permissions w !! pid = Some p → xw_permissions w' !! pid = Some p;
  ar_requests id : ¬ future w id →
    kept_by request_step (xw_requests w !! id) (xw_requests w' !! id);
  ar_temporary id : ¬ future w id →
    kept_by temporary_step (xw_temporary w !! id) (xw_temporary w' !! id);
}.

#[export] Instance acc_rel_preorder : PreOrder acc_rel.
Proof.
  split.
  - intros w. split; try done; intros; apply kept_by_refl, _.
  - intros w1 w2 w3 H1 H2. pose proof (ar_draws _ _ H1) as Hd.
    assert (Hf : ∀ id, ¬ future w1 id → ¬ future w2 id)
      by (intros id Hn Hx; by apply Hn, (future_mono w1 w2)).
    split.
    + etrans; [apply H1|apply H2].
    + intros id Hn Hs. apply (ar_roles _ _ H1); [done|]. apply (ar_roles _ _ H2); auto.
    + intros id Hg. rewrite (ar_guarded _ _ H2 id Hg). by apply (ar_guarded _ _ H1).
    + intros r pid Hr Hn Hs. rewrite (ar_frozen _ _ H2) by auto.
      apply (ar_frozen _ _ H1); [done..|]. apply (ar_roles _ _ H2); auto.
    + intros k x Hx Hn. apply (ar_rps _ _ H1); [|done]. apply (ar_rps _ _ H2); auto.
    + intros pid p Hp. by apply (ar_permissions _ _ H2), (ar_permissions _ _ H1).
    + intros id Hn. eapply kept_by_trans; [apply _|by apply H1|apply H2; auto].
    + intros id Hn. eapply kept_by_trans; [apply _|by apply H1|apply H2; auto].
Qed.

Definition steps (w w' : AccW) : Prop := acc_inv w' ∧ acc_rel w w'.
Abbreviation ok := (safe acc_inv acc_rel).
Abbreviation calm_ok := (calm acc_inv acc_rel).

(** ** Changes of one table *)

Lemma approved_step w w' ur :
  (∀ id q, xw_requests w !! id = Some q →
     ∃ q', xw_requests w' !! id = Some q' ∧ request_step q q') →
  approved_by_second w ur → approved_by_second w' ur.
Proof.
  intros Hk (id&q&rv&Hq&?&?&?&?&?&Hn&Hr). destruct (Hk id q Hq) as (q'&Hq'&[]).
  destruct (qs_review0 Hn) as (?&?&Hs). exists id, q', rv.
  split_and!; [congruence..| |]; destruct Hs as [->| ->]; done.
Qed.

(** What does not touch the tables. *)
Lemma tables_kept w w' :
  xw_roles w' = xw_roles w → xw_permissions w' = xw_permissions w →
  xw_rolePermissions w' = xw_rolePermissions w → xw_userRoles w' = xw_userRoles w →
  xw_requests w' = xw_requests w → xw_temporary w' = xw_temporary w →
  (xw_draws w ≤ xw_draws w')%nat → acc_inv w → steps w w'.
Proof.
  intros E1 E2 E3 E4 E5 E6 Hd [].
  assert (Hf : ∀ id, ¬ future w id → ¬ future w' id)
    by (intros id Hn Hx; by apply Hn, (future_mono w w')).
  split.
  - split; unfold two_person_role, approved_by_second; rewrite ?E1, ?E2, ?E3, ?E4, ?E5, ?E6.
    + intros id r Hr. destruct (ai_roles0 id r Hr). by split; [|apply Hf].
    + intros r p x Hx. destruct (ai_perms0 r p x Hx) as (?&?&?&?&?). split_and!; [done..|by apply Hf].
    + done.
    + intros p x Hx. destruct (ai_permission_ids0 p x Hx). by split; [|apply Hf].
    + done.
    + intros id q Hq. destruct (ai_requests0 id q Hq) as (?&?&?). split_and!; [done|by apply Hf|done].
    + intros id t Ht. destruct (ai_temporary0 id t Ht). by split; [|apply Hf].
    + done.
    + done.
  - split; rewrite ?E1, ?E2, ?E3, ?E4, ?E5, ?E6; try done; intros; apply kept_by_refl, _.
Qed.

(** A row of a role that keeps what identifies it. *)
Lemma role_update_steps w id r r' :
  acc_inv w → xw_roles w !! id = Some r → rl_id r' = rl_id r →
  (guarded id → rl_name r' = rl_name r) → steps w (w{{xw_roles ::= insert id r'}}).
Proof.
  intros [] Hr Hid Hg.
  assert (Hs : ∀ i, is_Some (<[id := r']> (xw_roles w) !! i) ↔ is_Some (xw_roles w !! i)).
  { intros i. destruct (decide (id = i)) as [<-|Hne].
    - rewrite lookup_insert_eq, Hr. split; by eexists.
    - by rewrite lookup_insert_ne. }
  split.
  - split; cbn.
    + intros i q. rewrite lookup_insert_Some. intros [[<- <-]|[_ Hq]]; [|by apply ai_roles0].
      rewrite Hid. by apply ai_roles0.
    + intros i p x Hx. rewrite Hs. by apply ai_perms0.
    + apply ai_rp_ids0.
    + apply ai_permission_ids0.
    + intros u i x Hx. rewrite Hs. by apply ai_holders0.
    + apply ai_requests0.
    + apply ai_temporary0.
    + apply ai_granted0.
    + intros i Hi. destruct (ai_guarded0 i Hi) as (q&Hq&Hl).
      destruct (decide (id = i)) as [<-|Hne].
      * exists r'. rewrite lookup_insert_eq, Hg by done. simplify_eq. done.
      * exists q. by rewrite lookup_insert_ne.
  - split; cbn; try done; try (intros; apply kept_by_refl, _).
    + intros i _. by rewrite Hs.
    + intros i Hi. destruct (decide (id = i)) as [<-|Hne].
      * rewrite lookup_insert_eq, Hr. cbn. by rewrite Hg.
      * by rewrite lookup_insert_ne.
Qed.

(** Requests: rows step in place, or a new one is made. *)
Lemma requests_steps w f :
  acc_inv w →
  (∀ id q, xw_requests w !! id = Some q →
     ∃ q', f (xw_requests w) !! id = Some q' ∧ request_step q q') →
  (∀ id q, f (xw_requests w) !! id = Some q → is_Some (xw_requests w !! id) ∧ review_ok q) →
  steps w (w{{xw_requests ::= f}}).
Proof.
  intros [] Hk Hb. split.
  - split; try done.
    + intros id q Hq. destruct (Hb id q Hq) as [[q0 Hq0] Hok].
      destruct (ai_requests0 id q0 Hq0) as (?&?&_).
      destruct (Hk id q0 Hq0) as (q1&Hq1&[]).
      assert (q1 = q) as -> by (apply (inj Some); by rewrite <- Hq1, <- Hq).
      by split_and!; [congruence|..].
    + intros u r x Hx Ht. destruct (ai_granted0 u r x Hx Ht) as [?|Ha]; [by left|right].
      by eapply (approved_step w).
  - split; try done; [|intros; apply kept_by_refl, _].
    intros id _. change (kept_by request_step (xw_requests w !! id) (f (xw_requests w) !! id)).
    destruct (xw_requests w !! id) as [q|] eqn:Hq.
    + by destruct (Hk id q Hq) as (q'&->&?).
    + destruct (f _ !! id) as [q|] eqn:Hq'; [|done].
      destruct (Hb id q Hq') as [[? ?] _]. congruence.
Qed.

Lemma request_update_steps w id upd q :
  acc_inv w → xw_requests w !! id = Some q →
  request_step q (upd q) → review_ok (upd q) → steps w (w{{xw_requests ::= insert id (upd q)}}).
Proof.
  intros HI Hq Hs Hok. apply requests_steps; [done|..].
  - intros i q'. destruct (decide (id = i)) as [<-|Hne].
    + rewrite lookup_insert_eq. intros ?; simplify_eq. by eexists.
    + rewrite lookup_insert_ne by done. intros ->. by eexists.
  - intros i q'. rewrite lookup_insert_Some. intros [[<- <-]|[_ Hi]]; [by split|].
    split; [done|]. by apply (ai_requests w HI i).
Qed.

Lemma request_updateMany_steps w (P : Request → bool) upd :
  acc_inv w → (∀ q, P q = true → review_ok q → request_step q (upd q) ∧ review_ok (upd q)) →
  steps w (w{{xw_requests ::= fmap (λ q, if P q then upd q else q)}}).
Proof.
  intros HI Hu. apply requests_steps; [done|..].
  - intros i q Hi. rewrite lookup_fmap, Hi. eexists. split; [done|].
    destruct (P q) eqn:HP; [|done]. apply Hu; [done|]. by apply (ai_requests w HI i).
  - intros i q'. rewrite lookup_fmap. destruct (xw_requests w !! i) as [q|] eqn:Hi; [|done].
    cbn. intros [= <-]. split; [done|]. destruct (ai_requests w HI i q Hi) as (_&_&Hok).
    destruct (P q) eqn:HP; [|done]. by apply Hu.
Qed.

(** Temporary assignments likewise. *)
Lemma temporary_steps w f :
  acc_inv w →
  (∀ id, match xw_temporary w !! id, f (xw_temporary w) !! id with
         | Some t, Some t' => temporary_step t t'
         | None, None => True
         | _, _ => False
         end) →
  steps w (w{{xw_temporary ::= f}}).
Proof.
  intros [] Hk. split.
  - split; try done. intros id t Ht. specialize (Hk id).
    change (f (xw_temporary w) !! id = Some t) in Ht. rewrite Ht in Hk.
    destruct (xw_temporary w !! id) as [t0|] eqn:Ht0; [|done].
    destruct (ai_temporary0 id t0 Ht0). destruct Hk. split; [congruence|done].
  - split; try done; [intros; apply kept_by_refl, _|].
    intros id _. change (kept_by temporary_step (xw_temporary w !! id) (f (xw_temporary w) !! id)).
    specialize (Hk id). by destruct (xw_temporary w !! id), (f _ !! id).
Qed.

(** Who holds a role: one less. *)
Lemma holder_delete_steps w k : acc_inv w → steps w (w{{xw_userRoles ::= delete k}}).
Proof.
  intros []. split; [|split; try done; intros; apply kept_by_refl, _].
  split; try done; intros u r x Hx; change (delete k (xw_userRoles w) !! (u, r) = Some x) in Hx;
    apply lookup_delete_Some in Hx as [_ Hx]; [by apply ai_holders0|by apply ai_granted0].
Qed.

(** One more, with its justification. *)
Lemma holder_insert_steps w u r by_ t :
  let x := {| ur_userId := u; ur_roleId := r; ur_assignedAt := t; ur_assignedBy := by_ |} in
  acc_inv w → is_Some (xw_roles w !! r) →
  (two_person_role w r → exempt u r ∨ approved_by_second w x) →
  steps w (w{{xw_userRoles ::= insert (u, r) x}}).
Proof.
  intros x [] Hr Hj. split; [|split; try done; intros; apply kept_by_refl, _].
  split; try done; intros u' r' y Hy;
    change (<[(u, r) := x]> (xw_userRoles w) !! (u', r') = Some y) in Hy;
    apply lookup_insert_Some in Hy as [[[= <- <-] <-]|[_ Hy]].
  - done.
  - by apply ai_holders0.
  - exact Hj.
  - by apply ai_granted0.
Qed.

(** ** New rows *)

Lemma draw_steps w : acc_inv w → steps w (acc_draw w).2.
Proof. intros HI. apply tables_kept; try done. apply Nat.le_succ_diag_r. Qed.
Lemma future_not_drawn w id : ¬ future w id → id ≠ acc_uuid (xw_draws w).
Proof. intros Hn ->. by apply Hn, future_draw. Qed.
Lemma drawn_not_future w : ¬ future (acc_draw w).2 (acc_uuid (xw_draws w)).
Proof. apply drawn_past, Nat.lt_succ_diag_r. Qed.

Lemma new_request_steps w q :
  acc_inv w → rq_id q = acc_uuid (xw_draws w) → review_ok q →
  steps w ((acc_draw w).2{{xw_requests ::= insert (acc_uuid (xw_draws w)) q}}).
Proof.
  intros HI Hid Hok. destruct (draw_steps w HI) as [[] []].
  assert (Hnew : xw_requests w !! acc_uuid (xw_draws w) = None).
  { destruct (xw_requests w !! _) as [q0|] eqn:Hq0; [|done].
    destruct (ai_requests w HI _ _ Hq0) as (_&[]&_). apply future_draw. }
  split.
  - split; try done.
    + intros id q' Hq'. change (<[acc_uuid (xw_draws w) := q]> (xw_requests w) !! id = Some q') in Hq'.
      apply lookup_insert_Some in Hq' as [[<- <-]|[_ Hq']]; [|by apply ai_requests0].
      split_and!; [done|apply drawn_not_future|done].
    + intros u r x Hx Ht. destruct (ai_granted0 u r x Hx Ht) as [?|(id&q'&rv&Hq'&?)]; [by left|].
      right. exists id, q', rv. split; [|done]. apply lookup_insert_Some. right. split; [|done].
      intros <-. change (xw_requests w !! acc_uuid (xw_draws w) = Some q') in Hq'. congruence.
  - split; try done. intros id Hn.
    change (kept_by request_step (xw_requests w !! id)
      (<[acc_uuid (xw_draws w) := q]> (xw_requests w) !! id)).
    rewrite lookup_insert_ne by (intros <-; by apply Hn, future_draw). apply kept_by_refl, _.
Qed.

Lemma new_temporary_steps w t :
  acc_inv w → tm_id t = acc_uuid (xw_draws w) →
  steps w ((acc_draw w).2{{xw_temporary ::= insert (acc_uuid (xw_draws w)) t}}).
Proof.
  intros HI Hid. destruct (draw_steps w HI) as [[] []]. split.
  - split; try done. intros id t' Ht'.
    change (<[acc_uuid (xw_draws w) := t]> (xw_temporary w) !! id = Some t') in Ht'.
    apply lookup_insert_Some in Ht' as [[<- <-]|[_ Ht']]; [|by apply ai_temporary0].
    split; [done|apply drawn_not_future].
  - split; try done. intros id Hn.
    change (kept_by temporary_step (xw_temporary w !! id)
      (<[acc_uuid (xw_draws w) := t]> (xw_temporary w) !! id)).
    rewrite lookup_insert_ne by (intros <-; by apply Hn, future_draw). apply kept_by_refl, _.
Qed.

Lemma new_role_steps w r :
  acc_inv w → rl_id r = acc_uuid (xw_draws w) →
  steps w ((acc_draw w).2{{xw_roles ::= insert (acc_uuid (xw_draws w)) r}}).
Proof.
  intros HI Hid. destruct (draw_steps w HI) as [[] []]. set (id0 := acc_uuid (xw_draws w)).
  assert (Hs : ∀ i, is_Some (xw_roles w !! i) → is_Some (<[id0 := r]> (xw_roles w) !! i)).
  { intros i. rewrite lookup_insert_is_Some. destruct (decide (id0 = i)); auto. }
  split.
  - split; try done.
    + intros i q Hq. change (<[id0 := r]> (xw_roles w) !! i = Some q) in Hq.
      apply lookup_insert_Some in Hq as [[<- <-]|[_ Hq]]; [|by apply ai_roles0].
      split; [done|apply drawn_not_future].
    + intros i p x Hx. destruct (ai_perms0 i p x Hx) as (?&?&?%Hs&?&?). done.
    + intros u i x Hx. destruct (ai_holders0 u i x Hx) as (?&?&?%Hs). done.
    + intros i Hi. destruct (ai_guarded0 i Hi) as (q&Hq&Hl). exists q. split; [|done].
      apply lookup_insert_Some. right. split; [|done]. intros <-.
      destruct (ai_roles w HI _ _ Hq) as [_ []]. apply future_draw.
  - split; try done.
    + intros i Hn Hi. change (is_Some (<[id0 := r]> (xw_roles w) !! i)) in Hi.
      by rewrite lookup_insert_ne in Hi by (intros <-; by apply Hn, future_draw).
    + intros i Hi. destruct (ai_guarded w HI i Hi) as (q&Hq&_).
      change (rl_name <$> <[id0 := r]> (xw_roles w) !! i = rl_name <$> xw_roles w !! i).
      rewrite lookup_insert_ne; [done|]. intros <-.
      destruct (ai_roles w HI _ _ Hq) as [_ []]. apply future_draw.
Qed.

(** ** A role that goes, with all that refers to it *)

Lemma drop_role_steps w id : acc_inv w → ¬ guarded id → steps w (drop_role id w).
Proof.
  intros [] Hg.
  assert (Hreq : ∀ i q, xw_requests w !! i = Some q → rq_roleId q ≠ id →
    xw_requests (drop_role id w) !! i = Some q).
  { intros i q Hq Hn. by apply map_lookup_filter_Some. }
  assert (Hperm : ∀ r p, r ≠ id →
    xw_rolePermissions (drop_role id w) !! (r, p) = xw_rolePermissions w !! (r, p)).
  { intros r p Hn. change (filter (λ '(_, x), rp_roleId x ≠ id) (xw_rolePermissions w) !! (r, p) =
      xw_rolePermissions w !! (r, p)).
    destruct (xw_rolePermissions w !! (r, p)) as [x|] eqn:Hx.
    - apply map_lookup_filter_Some. split; [done|]. by destruct (ai_perms0 r p x Hx) as (->&_).
    - apply map_lookup_filter_None. by left. }
  assert (Hrole : ∀ i, i ≠ id → xw_roles (drop_role id w) !! i = xw_roles w !! i)
    by (intros; by apply lookup_delete_ne).
  assert (Hgone : ∀ i, is_Some (xw_roles (drop_role id w) !! i) → i ≠ id).
  { intros i Hi ->. change (is_Some (delete id (xw_roles w) !! id)) in Hi.
    rewrite lookup_delete_eq in Hi. by destruct Hi. }
  assert (Hback : ∀ {A} (f : A → string) (m : gmap string A) (i : string) x,
    filter (λ '(_, x), f x ≠ id) m !! i = Some x → m !! i = Some x ∧ f x ≠ id)
    by (intros A f m i x Hx; by apply map_lookup_filter_Some in Hx).
  assert (Hback2 : ∀ {A} (f : A → string) (m : gmap (string * string) A) i x,
    filter (λ '(_, x), f x ≠ id) m !! i = Some x → m !! i = Some x ∧ f x ≠ id)
    by (intros A f m i x Hx; by apply map_lookup_filter_Some in Hx).
  split.
  - split; try done.
    + intros i q Hq. rewrite Hrole in Hq by (apply Hgone; by eexists). by apply ai_roles0.
    + intros r p x Hx. destruct (Hback2 _ rp_roleId _ _ _ Hx) as [Hx' Hn].
      destruct (ai_perms0 r p x Hx') as (<-&?&?&?&?). by rewrite Hrole.
    + intros k k' x x' Hx Hx'. apply (Hback2 _ rp_roleId) in Hx as [Hx _], Hx' as [Hx' _].
      by eapply ai_rp_ids0.
    + intros u r x Hx. destruct (Hback2 _ ur_roleId _ _ _ Hx) as [Hx' Hn].
      destruct (ai_holders0 u r x Hx') as (?&<-&?). by rewrite Hrole.
    + intros i q Hq. apply (Hback _ rq_roleId) in Hq as [Hq _]. by apply ai_requests0.
    + intros i t Ht. apply (Hback _ tm_roleId) in Ht as [Ht _]. by apply ai_temporary0.
    + intros u r x Hx (pid&p&Hrp&Hp&Hreq2). apply (Hback2 _ ur_roleId) in Hx as [Hx Hn].
      destruct (ai_holders0 u r x Hx) as (_&Hr&_). rewrite Hperm in Hrp by congruence.
      destruct (ai_granted0 u r x Hx) as [?|(i&q&rv&Hq&Hqr&?)]; [by exists pid, p|by left|right].
      exists i, q, rv. split; [|done]. apply Hreq; [done|congruence].
    + intros i Hi. rewrite Hrole; [by apply ai_guarded0|]. by intros ->.
  - split; try done.
    + intros i _ Hi. by rewrite Hrole in Hi by by apply Hgone.
    + intros i Hi. rewrite Hrole; [done|]. by intros ->.
    + intros r pid _ _ Hr. by apply Hperm, Hgone.
    + intros k x Hx _. by apply (Hback2 _ rp_roleId) in Hx as [Hx _].
    + intros i _. apply kept_by_filter, _.
    + intros i _. apply kept_by_filter, _.
Qed.

(** ** Permissions of roles *)

Lemma less_permissions_steps w f :
  acc_inv w →
  (∀ k x, f (xw_rolePermissions w) !! k = Some x → xw_rolePermissions w !! k = Some x) →
  (∀ r p, frozen r → f (xw_rolePermissions w) !! (r, p) = xw_rolePermissions w !! (r, p)) →
  steps w (w{{xw_rolePermissions ::= f}}).
Proof.
  intros [] Hsub Hfr. split.
  - split; try done.
    + intros r p x Hx%Hsub. by apply ai_perms0.
    + intros k k' x x' Hx%Hsub Hx'%Hsub. by eapply ai_rp_ids0.
    + intros u r x Hx (pid&p&[y Hy%Hsub]&Hp&?). apply ai_granted0; [done|]. by exists pid, p; eauto.
  - split; try done; intros; [by apply Hfr|by apply Hsub|apply kept_by_refl, _..].
Qed.

(** What adding permissions to [r] changes. *)
Record added (r : string) (w w' : AccW) : Prop := {
  ad_roles : xw_roles w' = xw_roles w;
  ad_permissions : xw_permissions w' = xw_permissions w;
  ad_userRoles : xw_userRoles w' = xw_userRoles w;
  ad_requests : xw_requests w' = xw_requests w;
  ad_temporary : xw_temporary w' = xw_temporary w;
  ad_draws : (xw_draws w ≤ xw_draws w')%nat;
  ad_others r' p : r' ≠ r → xw_rolePermissions w' !! (r', p) = xw_rolePermissions w !! (r', p);
  ad_old k x : xw_rolePermissions w' !! k = Some x → ¬ future w (rp_id x) →
    xw_rolePermissions w !! k = Some x;
}.
#[export] Instance added_preorder r : PreOrder (added r).
Proof.
  split; [by split|]. intros w1 w2 w3 [] []. split; try congruence; [lia|..].
  - intros r' p Hn. rewrite ad_others1 by done. by apply ad_others0.
  - intros k x Hx Hn. apply ad_old0; [|done]. apply ad_old1; [done|].
    intros Hf. by apply Hn, (future_mono w1 w2).
Qed.

Lemma added_rel r w w1 w2 :
  acc_rel w w1 → added r w1 w2 → (frozen r → future w r) → acc_rel w w2.
Proof.
  intros [] [] Hr. split; rewrite ?ad_roles0, ?ad_permissions0, ?ad_requests0, ?ad_temporary0;
    try done.
  - lia.
  - intros r' p Hf Hn Hs. rewrite ad_others0; [by apply ar_frozen0|].
    intros ->. by apply Hn, Hr.
  - intros k x Hx Hn. apply ar_rps0; [|done]. apply ad_old0; [done|].
    intros Hf. by apply Hn, (future_mono w w1).
Qed.

Lemma add_permission_added r w p : added r w (add_permission r w p).
Proof.
  unfold add_permission. destruct (xw_rolePermissions w !! (r, p)); [done|]. split; try done.
  - apply Nat.le_succ_diag_r.
  - intros r' p' Hn. apply lookup_insert_ne. congruence.
  - intros k x Hx Hn.
    set (y := {| rp_id := acc_uuid (xw_draws w); rp_roleId := r; rp_permissionId := p |}) in *.
    change (<[(r, p) := y]> (xw_rolePermissions w) !! k = Some x) in Hx.
    apply lookup_insert_Some in Hx as [[<- <-]|[_ Hx]]; [|done]. by destruct Hn; apply future_draw.
Qed.

Definition holders_exempt (r : string) (w : AccW) : Prop :=
  ∀ u x, xw_userRoles w !! (u, r) = Some x → exempt u r.

Lemma add_permission_inv r w p :
  acc_inv w → is_Some (xw_roles w !! r) → is_Some (xw_permissions w !! p) →
  holders_exempt r w → acc_inv (add_permission r w p).
Proof.
  intros HI Hr Hp He. unfold add_permission.
  destruct (xw_rolePermissions w !! (r, p)) as [y|] eqn:Hy; [done|].
  destruct (draw_steps w HI) as [[] _]. unfold acc_draw at 1.
  set (x := {| rp_id := acc_uuid (xw_draws w); rp_roleId := r; rp_permissionId := p |}).
  assert (Hold : ∀ k z, <[(r, p) := x]> (xw_rolePermissions w) !! k = Some z →
    k = (r, p) ∧ z = x ∨ xw_rolePermissions w !! k = Some z ∧ rp_id z ≠ rp_id x).
  { intros [r' p'] z [[<- <-]|[_ Hz]]%lookup_insert_Some; [by left|right]. split; [done|].
    intros Hid. destruct (ai_perms w HI r' p' z Hz) as (_&_&_&_&[]). rewrite Hid. apply future_draw. }
  split; try done.
  - intros r' p' z [[[= -> ->] ->]|[Hz _]]%Hold; [|by apply ai_perms0].
    split_and!; [done..|apply drawn_not_future].
  - intros k k' z z' [[-> ->]|[Hz Hne]]%Hold [[-> ->]|[Hz' Hne']]%Hold Heq; [done|congruence..|].
    by eapply ai_rp_ids0.
  - intros u r' z Hz (pid&q&[y' Hy']&Hq&Ht). apply Hold in Hy' as [[[= -> ->] ->]|[Hy' _]].
    + left. by eapply He.
    + apply ai_granted0; [done|]. exists pid, q. split; [by eexists|done].
Qed.

Lemma add_permissions_inv r ps w :
  acc_inv w → is_Some (xw_roles w !! r) → (∀ p, p ∈ ps → is_Some (xw_permissions w !! p)) →
  holders_exempt r w →
  acc_inv (foldl (add_permission r) w ps) ∧ added r w (foldl (add_permission r) w ps).
Proof.
  revert w. induction ps as [|p ps IH]; intros w HI Hr Hp He; [done|]. cbn [foldl].
  pose proof (add_permission_added r w p) as Ha.
  destruct (IH (add_permission r w p)) as [HI' Ha'].
  - apply add_permission_inv; [done..| |done]. apply Hp. left.
  - by rewrite (ad_roles _ _ _ Ha).
  - intros q Hq. rewrite (ad_permissions _ _ _ Ha). apply Hp. by right.
  - intros u x. rewrite (ad_userRoles _ _ _ Ha). apply He.
  - split; [done|]. by etrans.
Qed.

(** New permissions of which no role has heard. *)
Lemma add_permission_row_steps w n : acc_inv w → steps w (add_permission_row w n).
Proof.
  intros HI. unfold add_permission_row. destruct (find_row _ _); [done|].
  destruct (draw_steps w HI) as [[] []]. unfold acc_draw at 1.
  set (p := {| pm_id := acc_uuid (xw_draws w); pm_name := n; pm_description := None |}).
  assert (Hne : ∀ i x, xw_permissions w !! i = Some x → acc_uuid (xw_draws w) ≠ i).
  { intros i x Hx <-. destruct (ai_permission_ids w HI _ _ Hx) as [_ []]. apply future_draw. }
  split.
  - split; try done.
    + intros r i x Hx. destruct (ai_perms0 r i x Hx) as (?&?&?&[y Hy]&?). split_and!; [done..| |done].
      exists y. apply lookup_insert_Some. right. split; [by eapply Hne|done].
    + intros i x Hx. change (<[acc_uuid (xw_draws w) := p]> (xw_permissions w) !! i = Some x) in Hx.
      apply lookup_insert_Some in Hx as [[<- <-]|[_ Hx]]; [|by apply ai_permission_ids0].
      split; [done|apply drawn_not_future].
    + intros u r x Hx (i&q&[y Hy]&Hq&Ht). apply ai_granted0; [done|]. exists i, q.
      split_and!; [by eexists| |done].
      change (<[acc_uuid (xw_draws w) := p]> (xw_permissions w) !! i = Some q) in Hq.
      destruct (ai_perms w HI r i y Hy) as (_&_&_&[q' Hq']&_).
      rewrite lookup_insert_ne in Hq; [done|by eapply Hne].
  - split; try done. intros i x Hx. apply lookup_insert_Some. right. split; [by eapply Hne|done].
Qed.

Lemma add_permission_rows_steps ns w : acc_inv w → steps w (foldl add_permission_row w ns).
Proof.
  revert w. induction ns as [|n ns IH]; intros w HI; [done|]. cbn [foldl].
  destruct (add_permission_row_steps w n HI) as [HI1 HR1]. destruct (IH _ HI1).
  split; [done|by etrans].
Qed.

(** ** Statements *)

(** What leaves the tables alone. *)
Definition same_tables (w w' : AccW) : Prop :=
  (xw_roles w', xw_permissions w', xw_rolePermissions w', xw_userRoles w', xw_requests w',
   xw_temporary w') =
  (xw_roles w, xw_permissions w, xw_rolePermissions w, xw_userRoles w, xw_requests w,
   xw_temporary w) ∧ (xw_draws w ≤ xw_draws w')%nat.
Lemma same_tables_steps w w' : same_tables w w' → acc_inv w → steps w w'.
Proof. intros [[= ??????] ?]. by apply tables_kept. Qed.

#[export] Instance AccW_outside : OutsideGood acc_inv acc_rel.
Proof.
  split.
  - apply _.
  - intros [] r w HI; by apply same_tables_steps.
  - intros cs w HI; by apply same_tables_steps.
  - intros w HI; by apply same_tables_steps.
  - intros w HI. by apply draw_steps.
Qed.

Lemma ok_same {X} (f : AccW → X * AccW) : (∀ w, same_tables w (f w).2) → ok (act f).
Proof. intros Hf. apply safe_act. intros w. by apply same_tables_steps. Qed.
Lemma ok_same_modify (f : AccW → AccW) : (∀ w, same_tables w (f w)) → ok (modify f).
Proof. intros Hf. by apply ok_same. Qed.

Lemma safe_serializable {A} (p : prog AccW A) : ok (transaction p) → ok (serializable p).
Proof.
  intros Hp. apply safe_bind; [by apply ok_same|intros b]. destruct b; [done|].
  apply safe_bind; [done|by intros _].
Qed.

Lemma ok_acc_now : ok now.
Proof. apply safe_gets, _. Qed.
Lemma ok_acc_emit a : ok (emitAudit a).
Proof. by apply ok_same_modify. Qed.
Lemma ok_role_by_id id : ok (role_by_id id).
Proof. apply safe_gets, _. Qed.
Lemma ok_role_by_name n : ok (role_by_name n).
Proof. apply safe_gets, _. Qed.
Lemma ok_permission_by_name n : ok (permission_by_name n).
Proof. apply safe_gets, _. Qed.
Lemma ok_requests_where P : ok (requests_where P).
Proof. apply safe_gets, _. Qed.
Lemma ok_session_sweep us : ok (session_deleteMany us).
Proof. by apply ok_same. Qed.
Lemma ok_holder_count r : ok (holder_count r).
Proof. apply safe_gets, _. Qed.

Lemma ok_role_update id upd :
  (∀ r, rl_id (upd r) = rl_id r ∧ rl_name (upd r) = rl_name r) → ok (role_update id upd).
Proof.
  intros Hu. apply safe_act_outcome. intros w HI.
  destruct (xw_roles w !! id) as [r|] eqn:Hr; [|done]. case_bool_decide; [done|].
  destruct (Hu r). by apply (role_update_steps w id r).
Qed.

Lemma ok_role_create mk : (∀ id t, rl_id (mk id t) = id) → ok (role_create mk).
Proof.
  intros Hid. apply safe_act_outcome. intros w HI. cbv zeta.
  case_bool_decide; [by apply draw_steps|]. case_bool_decide; [by apply draw_steps|].
  by apply new_role_steps.
Qed.
Lemma ok_request_create mk :
  (∀ id t, rq_id (mk id t) = id ∧ review_ok (mk id t)) → ok (request_create mk).
Proof.
  intros Hmk. apply safe_act_outcome. intros w HI. cbv zeta.
  case_bool_decide; [by apply draw_steps|]. case_match; [by apply draw_steps|].
  destruct (Hmk (acc_uuid (xw_draws w)) (xw_now (acc_draw w).2)). by apply new_request_steps.
Qed.
Lemma ok_temporary_create mk : (∀ id t, tm_id (mk id t) = id) → ok (temporary_create mk).
Proof.
  intros Hmk. apply safe_act_outcome. intros w HI. cbv zeta.
  case_bool_decide; [by apply draw_steps|]. case_match; [by apply draw_steps|].
  by apply new_temporary_steps.
Qed.

Lemma ok_request_claim id P upd :
  (∀ q, P q = true → review_ok q → request_step q (upd q) ∧ review_ok (upd q)) →
  ok (request_claim id P upd).
Proof.
  intros Hu. apply safe_act. intros w HI.
  destruct (xw_requests w !! id) as [q|] eqn:Hq; [|done]. destruct (P q) eqn:HP; [|done].
  destruct (ai_requests w HI id q Hq) as (_&_&Hok). destruct (Hu q HP Hok).
  by apply (request_update_steps w id upd q).
Qed.
Lemma ok_request_update id upd :
  (∀ q, review_ok q → request_step q (upd q) ∧ review_ok (upd q)) → ok (request_update id upd).
Proof.
  intros Hu. apply safe_act_outcome. intros w HI.
  destruct (xw_requests w !! id) as [q|] eqn:Hq; [|done].
  destruct (ai_requests w HI id q Hq) as (_&_&Hok). destruct (Hu q Hok).
  by apply (request_update_steps w id upd q).
Qed.
Lemma ok_request_updateMany P upd :
  (∀ q, P q = true → review_ok q → request_step q (upd q) ∧ review_ok (upd q)) →
  ok (request_updateMany P upd).
Proof. intros Hu. apply safe_act. intros w HI. by apply request_updateMany_steps. Qed.

(** The decisions that the handlers make. *)
Lemma expired_ok q :
  review_ok q → request_step q (q{{rq_status := EXPIRED}}) ∧ review_ok (q{{rq_status := EXPIRED}}).
Proof.
  intros (H1&H2&H3). split; [by split; auto|]. split_and!; [done..|]. intros [|]; done.
Qed.
Lemma cancelled_ok q :
  rq_status q = PENDING → review_ok q →
  request_step q (q{{rq_status := CANCELLED}}) ∧ review_ok (q{{rq_status := CANCELLED}}).
Proof.
  intros Hp (H1&H2&H3). split; [by split|]. split_and!; [done..|]. intros [|]; done.
Qed.
Lemma decided_ok s by_ t note q :
  s ≠ PENDING → by_ ≠ rq_requestedById q → has_status PENDING q = true → review_ok q →
  request_step q (decided s by_ t note q) ∧ review_ok (decided s by_ t note q).
Proof.
  intros Hs Hby Hp%bool_decide_eq_true _. split; [by split|].
  split_and!; [by intros r [= <-]|done|by eexists].
Qed.

Lemma ok_temporary_update id upd :
  (∀ t, temporary_step t (upd t)) → ok (temporary_update id upd).
Proof.
  intros Hu. apply safe_act_outcome. intros w HI.
  destruct (xw_temporary w !! id) as [t|] eqn:Ht; [|done]. apply temporary_steps; [done|].
  intros i. destruct (decide (id = i)) as [<-|Hne].
  - by rewrite Ht, lookup_insert_eq.
  - rewrite lookup_insert_ne by done. by destruct (_ !! i).
Qed.
Lemma ok_temporary_updateMany P upd :
  (∀ t, temporary_step t (upd t)) → ok (temporary_updateMany P upd).
Proof.
  intros Hu. apply safe_modify. intros w HI. apply temporary_steps; [done|]. intros i.
  rewrite lookup_fmap. destruct (_ !! i) as [t|]; cbn; [|done]. by destruct (P t).
Qed.

Lemma ok_userRole_delete u r : ok (userRole_delete u r).
Proof.
  apply safe_act_outcome. intros w HI. destruct (_ !! _); [|done]. by apply holder_delete_steps.
Qed.
Lemma ok_userRole_deleteMany u r : ok (userRole_deleteMany u r).
Proof. apply safe_modify. intros w HI. by apply holder_delete_steps. Qed.

Hint Resolve ok_acc_now ok_acc_emit ok_role_by_id ok_role_by_name ok_permission_by_name
  ok_requests_where ok_session_sweep ok_holder_count ok_userRole_delete
  ok_userRole_deleteMany : safe.
Hint Extern 1 (safe _ _ (gets _)) => solve [apply safe_gets; apply _] : safe.

Lemma ok_access_audit a b c d e f g h i : ok (audit a b c d e f g h i).
Proof. apply ok_acc_emit. Qed.
Lemma ok_role_audit a b c d e f g : ok (role_audit a b c d e f g).
Proof. apply ok_acc_emit. Qed.
Lemma ok_role_denied a b c d e : ok (role_denied a b c d e).
Proof. apply ok_acc_emit. Qed.
Lemma ok_name_conflict a b c d e f : ok (name_conflict a b c d e f).
Proof. apply ok_acc_emit. Qed.
Lemma ok_request_audit a b c d e f g : ok (request_audit a b c d e f g).
Proof. apply ok_acc_emit. Qed.
Lemma ok_request_expired q : ok (request_expired q).
Proof. apply ok_acc_emit. Qed.
Hint Resolve ok_access_audit ok_role_audit ok_role_denied ok_name_conflict ok_request_audit
  ok_request_expired : safe.
Lemma ok_loadRoleOrThrow id : ok (loadRoleOrThrow id).
Proof. unfold loadRoleOrThrow. safe_tac. Qed.
Lemma ok_assertRoleAssignable a r c : ok (assertRoleAssignable a r c).
Proof. unfold assertRoleAssignable. safe_tac. Qed.
Lemma ok_loadStaff u : ok (loadStaffTargetOrThrow u).
Proof. unfold loadStaffTargetOrThrow. safe_tac. Qed.
Hint Resolve ok_loadRoleOrThrow ok_assertRoleAssignable ok_loadStaff : safe.
Context (keyPrefix : string).
Lemma ok_purge u : ok (purgeUserCache keyPrefix u).
Proof. eapply calm_safe, calm_purgeUserCache, _. Qed.
Hint Resolve ok_purge : safe.
Lemma ok_refreshUserAccess u b : ok (refreshUserAccess keyPrefix u b).
Proof. unfold refreshUserAccess. safe_tac. Qed.
Lemma ok_expireStaleRequests : ok expireStaleRequests.
Proof.
  unfold expireStaleRequests. safe_tac. apply ok_request_updateMany.
  intros q _. apply expired_ok.
Qed.
Hint Resolve ok_refreshUserAccess ok_expireStaleRequests : safe.

(** ** The life of a role *)

Lemma ok_RoleService_create a d : ok (RoleService.create a d).
Proof. unfold RoleService.create. safe_tac. by apply ok_role_create. Qed.

(** The role and its permissions appear together: nobody holds it yet. *)
Lemma ok_new_role_with name desc ids :
  ok (transaction (
    created ← role_create (new_role name desc);
    (if bool_decide (ids = []) then mret ()
     else rolePermission_createMany (rl_id created) ids) ;;
    mret created)).
Proof.
  apply safe_act_outcome. intros w HI. rewrite run_bind.
  unfold role_create, drawing. rewrite run_act_outcome. cbv zeta.
  case_bool_decide; [done|]. case_bool_decide as Hnew; [done|].
  set (id := acc_uuid (xw_draws w)). set (r := new_role name desc id (xw_now (acc_draw w).2)).
  destruct (new_role_steps w r HI eq_refl) as [HI1 HR1]. fold id in HI1, HR1.
  set (w1 := (acc_draw w).2{{xw_roles ::= insert id r}}) in *.
  rewrite run_bind. case_bool_decide; [done|].
  unfold rolePermission_createMany. rewrite run_act_outcome.
  destruct (_ || _) eqn:Hfk; [done|]. apply orb_false_elim in Hfk as [_ Hfk].
  cbn [fst snd]. rewrite run_ret. cbn [fst snd].
  destruct (add_permissions_inv id ids w1) as [HI2 Ha]; [done|..].
  - exists r. apply lookup_insert_eq.
  - intros p Hp. destruct (xw_permissions w1 !! p) as [x|] eqn:Hx; [by eexists|].
    assert (existsb (λ id, bool_decide (xw_permissions w1 !! id = None)) ids = true) as Hf;
      [|by rewrite Hf in Hfk].
    apply existsb_exists. exists p. split; [by apply list_elem_of_In|]. by rewrite Hx.
  - intros u x Hx. destruct (ai_holders w1 HI1 u id x Hx) as (_&_&_).
    destruct (ai_holders w HI u id x Hx) as (_&_&[q Hq]).
    destruct (ai_roles w HI id q Hq) as [_ []]. apply future_draw.
  - split; [done|]. apply (added_rel id w w1); [done..|]. intros _. apply future_draw.
Qed.
Hint Resolve ok_new_role_with : safe.

Lemma ok_createRoleWithPermissions a b n d ids m :
  ok (createRoleWithPermissions a b n d ids m).
Proof. unfold createRoleWithPermissions. safe_tac. Qed.
Hint Resolve ok_createRoleWithPermissions : safe.
Lemma ok_clone a id d : ok (clone a id d).
Proof. unfold clone. safe_tac. Qed.
Lemma ok_applyTemplate a t d : ok (applyTemplate a t d).
Proof. unfold applyTemplate. safe_tac. Qed.
Lemma ok_archive_role a id c : ok (RoleService.archive a id c).
Proof.
  unfold RoleService.archive. safe_tac. apply safe_transaction; [apply _|]. safe_tac.
  - by apply ok_role_update.
  - apply ok_request_updateMany. intros q [_ Hp%bool_decide_eq_true]%andb_prop. by apply cancelled_ok.
Qed.
Lemma ok_unarchive_role a id c : ok (RoleService.unarchive a id c).
Proof. unfold RoleService.unarchive. safe_tac. by apply ok_role_update. Qed.

(** A locked role is protected, so it is neither renamed nor deleted. *)
Lemma locked_protected r : isPermissionLockedRole (rl_name r) = true → isProtected r = true.
Proof.
  unfold isProtected, isProtectedRole, isPermissionLockedRole. intros Hl.
  apply orb_true_iff. right. apply mem_true in Hl. apply mem_true.
  unfold PERMISSION_LOCKED_ROLE_NAMES in Hl. unfold PROTECTED_ROLE_NAMES. set_solver.
Qed.

Lemma rg_role_by_id id w :
  rg acc_inv acc_rel
    (λ o w, ∀ r, o = Some r → guarded id →
       isPermissionLockedRole (rl_name r) = true ∧ rl_name <$> xw_roles w !! id = Some (rl_name r))
    (λ _ _, True) (role_by_id id) w.
Proof.
  apply rg_gets; [apply _|]. intros w1 _ HI r Hr Hg. destruct (ai_guarded w1 HI id Hg) as (q&Hq&Hl).
  rewrite Hr in Hq. simplify_eq. by rewrite Hr.
Qed.

(** A refusal: nothing comes after it. *)
Lemma rg_throws {A B} (p : prog AccW A) e (Q : B → AccW → Prop) w :
  ok p → rg acc_inv acc_rel Q (λ _ _, True) (p ;; Throw e) w.
Proof. intros Hp. apply rg_bind. by eapply rg_mono; [apply Hp|..]. Qed.

(** The name of a guarded role is known for good. *)
Definition named_for_good (id name : string) (w : AccW) : Prop :=
  guarded id → rl_name <$> xw_roles w !! id = Some name.
Lemma named_for_good_stable id name w w' :
  named_for_good id name w → acc_rel w w' → acc_inv w' → named_for_good id name w'.
Proof. intros Hn HR _ Hg. rewrite (ar_guarded w w' HR id Hg). by apply Hn. Qed.

Lemma rg_rename id data name w :
  (guarded id → default name (up_name data) = name) → named_for_good id name w →
  rg acc_inv acc_rel (λ _ _, True) (λ _ _, True) (role_update id (rename data)) w.
Proof.
  intros Hd Hn. apply rg_act_outcome. intros w1 HR HI.
  destruct (xw_roles w1 !! id) as [r|] eqn:Hr; [|done]. case_bool_decide; [done|].
  split_and!; [| |done]; apply (role_update_steps w1 id r); try done;
    intros Hg; pose proof (named_for_good_stable id name w w1 Hn HR HI Hg) as Hr1;
    rewrite Hr in Hr1; injection Hr1 as Hr1; rewrite <- Hr1 in Hd; by apply Hd.
Qed.

Lemma renames_false data r name :
  renames data r = false → rl_name r = name → default name (up_name data) = name.
Proof.
  unfold renames. destruct (up_name data) as [n|]; [|done].
  intros ?%bool_decide_eq_false <-. cbn. by apply dec_stable.
Qed.

Lemma ok_RoleService_update a id d : ok (RoleService.update a id d).
Proof.
  intros w. unfold RoleService.update. apply rg_bind.
  eapply rg_mono; [apply rg_role_by_id| |done]. intros o w1 Ho.
  destruct o as [r|]; [|done]. specialize (Ho r eq_refl). apply rg_bind. cbn [require rg].
  destruct (isProtected r && renames d r) eqn:Hren.
  { apply rg_bind, rg_throws. safe_tac. }
  assert (Hd : guarded id → default (rl_name r) (up_name d) = rl_name r).
  { intros [Hl%locked_protected _]%Ho. rewrite Hl in Hren. by eapply renames_false. }
  assert (Hn : named_for_good id (rl_name r) w1) by (intros Hg; by apply Ho).
  cbv zeta. apply rg_bind. cbn [rg mret prog_mret].
  eapply (rg_seq _ _ (named_for_good id (rl_name r))); [apply named_for_good_stable|done| |].
  { apply safe_rg. safe_tac. }
  intros _ w2 _ Hn2.
  eapply (rg_seq _ _ (λ _, True)); [done..| |].
  - apply rg_catch. eapply rg_mono; [by apply (rg_rename _ _ (rl_name r))|done|].
    intros e w3 _. apply safe_rg. safe_tac.
  - intros u w3 _ _. apply safe_rg. safe_tac.
Qed.

Lemma ok_role_delete id : ¬ guarded id → ok (role_delete id).
Proof.
  intros Hg. apply safe_act_outcome. intros w HI. destruct (_ !! _); [|done].
  by apply drop_role_steps.
Qed.

Lemma ok_remove a id : ok (RoleService.remove a id).
Proof.
  intros w. unfold RoleService.remove. apply rg_bind.
  eapply rg_mono; [eapply (rg_gets _ _ _
    (λ o _, ∀ r n, o = Some (r, n) → guarded id → isProtected r = true) (λ _ _, True))| |done].
  { intros w1 _ HI r n Hr Hg. destruct (ai_guarded w1 HI id Hg) as (q&Hq&Hl).
    unfold counted_role in Hr. rewrite Hq in Hr. simplify_eq. by apply locked_protected. }
  intros o w1 Ho. destruct o as [[r n]|]; [|done]. specialize (Ho r n eq_refl).
  apply rg_bind. cbn [require rg]. cbv zeta. apply rg_bind.
  destruct (isProtected r) eqn:Hp.
  { apply rg_throws, ok_role_denied. }
  assert (Hg : ¬ guarded id) by (intros Hg; by specialize (Ho Hg)).
  pose proof (ok_role_delete id Hg). cbn [rg mret prog_mret].
  apply safe_rg. safe_tac. apply safe_transaction; [apply _|]. safe_tac.
Qed.

(** ** Who may be given a role *)

Lemma rg_tx {A} (p : prog AccW A) w :
  (∀ w1, acc_rel w w1 → acc_inv w1 → rg acc_inv acc_rel (λ _ _, True) (λ _ _, True) p w1) →
  rg acc_inv acc_rel (λ _ _, True) (λ _ _, True) (transaction p) w.
Proof.
  intros Hp. apply rg_act_outcome. intros w1 HR HI.
  pose proof (rg_run _ acc_rel _ _ p w1 HI (Hp w1 HR HI)) as (?&?&_).
  by destruct (run p w1) as [[a|e] w2].
Qed.

(** What was read of a role's permissions is still true of it. *)
Definition judged (r : string) (sensitive : bool) (w : AccW) : Prop :=
  acc_inv w ∧ ¬ future w r ∧ (frozen r → two_person_role w r → sensitive = true).

Lemma judged_stable r b w w' : judged r b w → acc_rel w w' → acc_inv w' → judged r b w'.
Proof.
  intros (HI&Hn&Hb) HR HI'. split_and!; [done| |].
  - intros Hf. by apply Hn, (future_mono w w'), Hf; apply HR.
  - intros Hf (pid&p&[x Hx]&Hp&Ht). destruct (ai_perms w' HI' r pid x Hx) as (_&_&Hr&_).
    rewrite (ar_frozen w w' HR) in Hx by done.
    destruct (ai_perms w HI r pid x Hx) as (_&_&_&[p0 Hp0]&_).
    rewrite (ar_permissions w w' HR pid p0 Hp0) in Hp. simplify_eq.
    apply Hb; [done|]. exists pid, p. split; [by eexists|done].
Qed.

Lemma isSensitiveRole_two_person w r l :
  acc_inv w → loaded_role r w = Some l → (isSensitiveRole l = true ↔ two_person_role w r).
Proof.
  intros HI Hl. unfold loaded_role in Hl. destruct (xw_roles w !! r); [|done]. simplify_eq.
  unfold isSensitiveRole, permission_names. cbn [lr_permissions]. rewrite existsb_exists.
  split.
  - intros (n&Hn%list_elem_of_In&Ht).
    apply list_elem_of_fmap in Hn as (p&->&(x&Hx&Hp)%list_elem_of_omap).
    apply elem_of_rows in Hx as [Hxr%bool_decide_eq_true [[r' pid] Hk]].
    destruct (ai_perms w HI r' pid x Hk) as (<-&<-&_). subst r. eexists _, p.
    split; [by eexists|done].
  - intros (pid&p&[x Hx]&Hp&Ht). exists (pm_name p). split; [|done]. apply list_elem_of_In.
    apply list_elem_of_fmap. exists p. split; [done|]. apply list_elem_of_omap. exists x.
    destruct (ai_perms w HI r pid x Hx) as (Hr&Hpid&_). split; [|by rewrite Hpid].
    apply elem_of_rows. split; [by apply bool_decide_eq_true|by eexists].
Qed.

Lemma rg_loadRole r w :
  rg acc_inv acc_rel (λ l w, judged r (isSensitiveRole l) w) (λ _ _, True) (loadRoleOrThrow r) w.
Proof.
  unfold loadRoleOrThrow. apply rg_bind, rg_gets; [apply _|]. intros w1 _ HI.
  destruct (loaded_role r w1) as [l|] eqn:Hl; [|done]. cbn. split_and!; [done| |].
  - unfold loaded_role in Hl. destruct (xw_roles w1 !! r) as [q|] eqn:Hq; [|done].
    by destruct (ai_roles w1 HI r q Hq).
  - intros _ Ht. by apply (isSensitiveRole_two_person w1 r).
Qed.

Context (Hfrozen : ∀ r, frozen r ∨ ∀ u, exempt u r).

Lemma rg_userRole_create u r by_ w :
  judged r false w →
  rg acc_inv acc_rel (λ _ _, True) (λ _ _, True) (userRole_create u r by_) w.
Proof.
  intros Hj. apply rg_act_outcome. intros w1 HR HI.
  destruct (judged_stable r false w w1 Hj HR HI) as (_&_&Hs).
  case_bool_decide; [done|]. destruct (_ || _) eqn:Hfk; [done|].
  apply orb_false_elim in Hfk as [_ Hr%bool_decide_eq_false].
  assert (is_Some (xw_roles w1 !! r)) by (by destruct (_ !! r)).
  destruct (holder_insert_steps w1 u r by_ (xw_now w1)) as [HI2 HR2]; [done..| |done].
  intros Ht. destruct (Hfrozen r) as [Hf|He]; [by specialize (Hs Hf Ht)|by left].
Qed.

(** A role that was judged, what follows, and then the end. *)
Lemma rg_judged {A B} r b (p : prog AccW A) (f : A → prog AccW B) w :
  judged r b w → ok p →
  (∀ x w1, judged r b w1 → rg acc_inv acc_rel (λ _ _, True) (λ _ _, True) (f x) w1) →
  rg acc_inv acc_rel (λ _ _, True) (λ _ _, True) (p ≫= f) w.
Proof.
  intros Hj Hp Hf. eapply (rg_seq _ _ (judged r b)); [apply judged_stable|done|apply Hp|].
  intros x w1 _. apply Hf.
Qed.

Lemma ok_assignToUser a r u c : ok (assignToUser keyPrefix a r u c).
Proof.
  intros w. unfold assignToUser. apply rg_bind.
  destruct (requireReason c) as [reason|]; [|done]. cbn [throw_outcome rg].
  apply rg_bind. eapply rg_mono; [apply rg_loadRole| |done]. intros l w1 Hj. cbv beta zeta in Hj |- *.
  eapply rg_judged; [eassumption|safe_tac|]. intros _ w2 Hj2. apply rg_bind.
  destruct (isSensitiveRole l); [apply rg_throws; safe_tac|]. cbn [rg mret prog_mret].
  eapply rg_judged; [eassumption|safe_tac|]. intros t w3 Hj3.
  eapply rg_judged; [eassumption|safe_tac|]. intros _ w4 Hj4. apply rg_bind.
  eapply rg_mono; [by apply rg_userRole_create| |done]. intros _ w5 _. apply safe_rg. safe_tac.
Qed.

Lemma ok_assignTemporarily iso a r u e c : ok (assignTemporarily keyPrefix iso a r u e c).
Proof.
  intros w. unfold assignTemporarily. apply rg_bind.
  destruct (requireReason c) as [reason|]; [|done]. cbn [throw_outcome rg].
  apply rg_bind, rg_gets; [apply _|]. intros w0 _ _. cbv zeta.
  destruct e as [e|]; [|done]. cbn [require]. apply rg_bind. cbn [rg].
  destruct (e <=? _); [done|]. apply rg_bind. cbn [throw_if rg].
  destruct (_ <? _); [done|]. apply rg_bind. cbn [throw_if rg].
  apply rg_bind. eapply rg_mono; [apply rg_loadRole| |done]. intros l w1 Hj. cbv beta in Hj.
  eapply rg_judged; [eassumption|safe_tac|]. intros _ w2 Hj2.
  destruct (isSensitiveRole l); [done|]. apply rg_bind. cbn [throw_if rg].
  eapply rg_judged; [eassumption|safe_tac|]. intros t w3 Hj3.
  eapply rg_judged; [eassumption|safe_tac|]. intros _ w4 Hj4. apply rg_bind.
  eapply rg_mono; [apply rg_tx| |done].
  - intros w5 HR HI. apply rg_bind. eapply rg_mono; [apply rg_userRole_create| |done].
    + by eapply judged_stable.
    + intros _ w6 _. apply safe_rg. by apply ok_temporary_create.
  - intros x w5 _. apply safe_rg. safe_tac.
Qed.

Lemma ok_removeFromUser a r u c : ok (removeFromUser keyPrefix a r u c).
Proof.
  unfold removeFromUser. safe_tac. apply safe_transaction; [apply _|]. safe_tac. by apply ok_temporary_updateMany.
Qed.
Hint Resolve ok_assignToUser ok_assignTemporarily ok_removeFromUser : safe.

Lemma ok_bulk_loop f us s e : (∀ u, ok (f u)) → ok (bulk_loop f us s e).
Proof.
  intros Hf. revert s e. induction us as [|u us IH]; intros s e; [done|]. cbn [bulk_loop].
  apply safe_bind; [by apply safe_attempt|]. intros []; apply IH.
Qed.
Lemma ok_bulkAssign_roles a r b us c : ok (RoleService.bulkAssign keyPrefix a r b us c).
Proof.
  unfold RoleService.bulkAssign. apply safe_bind; [|intros; safe_tac].
  apply ok_bulk_loop. intros u. destruct b; cbn [bulk_one]; safe_tac.
Qed.

(** ** Requests *)

Lemma ok_requestAssignment a r u c : ok (requestAssignment a r u c).
Proof.
  unfold requestAssignment. safe_tac. apply ok_request_create. intros id t.
  split; [done|]. split_and!; [done..|]. by intros [].
Qed.

(** What was read of a request is still what it asks. *)
Definition asked (q : Request) (w : AccW) : Prop :=
  ¬ future w (rq_id q) ∧ ∀ q', xw_requests w !! rq_id q = Some q' →
    rq_roleId q' = rq_roleId q ∧ rq_targetUserId q' = rq_targetUserId q ∧
    rq_requestedById q' = rq_requestedById q.
Lemma asked_stable q w w' : asked q w → acc_rel w w' → acc_inv w' → asked q w'.
Proof.
  intros [Hn Hq] HR _. split; [intros Hf; by apply Hn, (future_mono w w'), Hf; apply HR|].
  intros q' Hq'. pose proof (ar_requests w w' HR (rq_id q) Hn) as Hk. rewrite Hq' in Hk.
  destruct (xw_requests w !! rq_id q) as [q0|] eqn:Hq0; [|done].
  destruct (Hq q0 eq_refl) as (?&?&?). destruct Hk. split_and!; congruence.
Qed.

Lemma rg_reject a q role note w :
  cu_id a ≠ rq_requestedById q → asked q w →
  rg acc_inv acc_rel (λ _ _, True) (λ _ _, True) (reject a q role note) w.
Proof.
  intros Hne Hq. unfold reject. cbv zeta. destruct (negb _); [done|].
  apply rg_bind. cbn [throw_if rg]. apply rg_bind, rg_gets; [apply _|]. intros w1 HR HI.
  pose proof (asked_stable q w w1 Hq HR HI) as Hq1. apply rg_bind, rg_act. intros w2 HR2 HI2.
  destruct (asked_stable q w1 w2 Hq1 HR2 HI2) as [_ Hq2].
  destruct (xw_requests w2 !! rq_id q) as [q'|] eqn:Hq'; [|done].
  destruct (has_status PENDING q') eqn:Hp; [|done].
  destruct (ai_requests w2 HI2 _ _ Hq') as (_&_&Hok). destruct (Hq2 q' eq_refl) as (_&_&Hreq).
  destruct (decided_ok REJECTED (cu_id a) (xw_now w1) (Some (trim (default "" note))) q')
    as [Hs Hok']; [done|congruence|done..|].
  destruct (request_update_steps w2 (rq_id q)
    (decided REJECTED (cu_id a) (xw_now w1) (Some (trim (default "" note)))) q') as [HI3 HR3];
    [done..|].
  split_and!; [done..|]. apply safe_rg. safe_tac.
Qed.

(** The claim and the grant of an approval are one. *)
Lemma approve_tx_steps a q t note w :
  cu_id a ≠ rq_requestedById q → asked q w → acc_inv w →
  steps w (run (transaction (
    n ← request_claim (rq_id q) (has_status PENDING) (decided APPROVED (cu_id a) t note);
    throw_if (n =? 0) not_pending ;;
    userRole_create (rq_targetUserId q) (rq_roleId q) (Some (rq_requestedById q)))) w).2.
Proof.
  intros Hne [_ Hq] HI. rewrite run_transaction, run_bind. unfold request_claim at 1.
  rewrite run_act. destruct (xw_requests w !! rq_id q) as [q'|] eqn:Hq'; [|done].
  destruct (has_status PENDING q') eqn:Hp; [|done]. cbn [fst snd].
  destruct (Hq q' eq_refl) as (Hr&Ht&Hb). destruct (ai_requests w HI _ _ Hq') as (_&_&Hok).
  destruct (decided_ok APPROVED (cu_id a) t note q') as [Hs Hok']; [done|congruence|done..|].
  destruct (request_update_steps w (rq_id q) (decided APPROVED (cu_id a) t note) q')
    as [HI1 HR1]; [done..|].
  set (w1 := w{{xw_requests ::= _}}) in *. rewrite run_bind, run_throw_if.
  change (1 =? 0) with false. unfold userRole_create. rewrite run_act_outcome.
  case_bool_decide; [done|]. destruct (_ || _) eqn:Hfk; [done|].
  apply orb_false_elim in Hfk as [_ Hrole%bool_decide_eq_false].
  assert (is_Some (xw_roles w1 !! rq_roleId q)) by (by destruct (_ !! rq_roleId q)).
  destruct (holder_insert_steps w1 (rq_targetUserId q) (rq_roleId q) (Some (rq_requestedById q))
    (xw_now w1)) as [HI2 HR2]; [done..| |split; [done|by etrans]].
  intros _. right. exists (rq_id q), (decided APPROVED (cu_id a) t note q'), (cu_id a).
  split_and!; [apply lookup_insert_eq|exact Hr|exact Ht| |done| |done|done].
  - change (Some (rq_requestedById q) = Some (rq_requestedById q')). by rewrite Hb.
  - change (cu_id a ≠ rq_requestedById q'). by rewrite Hb.
Qed.

Lemma rg_approve a q role note w :
  cu_id a ≠ rq_requestedById q → asked q w →
  rg acc_inv acc_rel (λ _ _, True) (λ _ _, True) (approve keyPrefix a q role note) w.
Proof.
  intros Hne Hq. unfold approve.
  eapply (rg_seq _ _ (asked q)); [apply asked_stable|done|apply safe_rg; safe_tac|].
  intros _ w1 _ Hq1.
  eapply (rg_seq _ _ (asked q)); [apply asked_stable|done|apply safe_rg; safe_tac|].
  intros target w2 _ Hq2.
  eapply (rg_seq _ _ (asked q)); [apply asked_stable|done|apply safe_rg; safe_tac|].
  intros _ w3 _ Hq3.
  eapply (rg_seq _ _ (asked q)); [apply asked_stable|done|apply safe_rg; safe_tac|].
  intros t w4 _ Hq4. apply rg_bind. eapply rg_mono; [apply rg_act_outcome| |done].
  - intros w5 HR HI. pose proof (asked_stable q w4 w5 Hq4 HR HI) as Hq5.
    pose proof (approve_tx_steps a q t (trimmed_note note) w5 Hne Hq5 HI) as [HI6 HR6].
    rewrite run_transaction in HI6, HR6. destruct (run _ w5) as [[x|e] w6]; [|done].
    split_and!; [done..|]. instantiate (1 := λ _ _, True). done.
  - intros _ w5 _. apply safe_rg. safe_tac.
Qed.

Lemma ok_reviewAssignmentRequest a id d note : ok (reviewAssignmentRequest keyPrefix a id d note).
Proof.
  intros w. unfold reviewAssignmentRequest. apply rg_bind, rg_gets; [apply _|]. intros w1 _ HI.
  destruct (loaded_request id w1) as [[q l]|] eqn:Hl; [|done]. cbn [require]. apply rg_bind.
  cbn [rg]. cbv zeta.
  assert (Hq : asked q w1).
  { unfold loaded_request in Hl. destruct (xw_requests w1 !! id) as [q0|] eqn:Hq0; [|done].
    destruct (loaded_role _ _); [|done]. simplify_eq.
    destruct (ai_requests w1 HI id q Hq0) as (Hid&Hn&_). split; rewrite Hid; [done|].
    intros q' Hq'. rewrite Hq0 in Hq'. by simplify_eq. }
  apply rg_bind. case_bool_decide as Hself; [apply rg_throws; safe_tac|]. cbn [rg mret prog_mret].
  apply rg_bind. destruct (negb _); [done|]. cbn [throw_if rg].
  apply rg_bind, rg_gets; [apply _|]. intros w2 HR HI2.
  pose proof (asked_stable q w1 w2 Hq HR HI2) as Hq2. apply rg_bind.
  destruct (_ <=? _).
  { apply rg_throws. apply ok_request_update. intros q' Hok. by apply expired_ok. }
  cbn [rg mret prog_mret]. destruct d; [apply rg_approve|apply rg_reject]; done.
Qed.

(** ** Expiry *)

Lemma ok_expire_one item : ok (expire_one keyPrefix item).
Proof.
  unfold expire_one. safe_tac. apply safe_transaction; [apply _|]. safe_tac. by apply ok_temporary_update.
Qed.
Lemma ok_expire_loop items n : ok (expire_loop keyPrefix items n).
Proof.
  revert n. induction items as [|item items IH]; intros n; [done|]. cbn [expire_loop].
  apply safe_bind; [apply safe_attempt, ok_expire_one|]. intros r. apply IH.
Qed.
Lemma ok_expireTemporaryAssignments : ok (expireTemporaryAssignments keyPrefix).
Proof.
  unfold expireTemporaryAssignments. apply safe_bind; [safe_tac|intros t].
  apply safe_bind; [safe_tac|intros items]. apply ok_expire_loop.
Qed.
Lemma ok_listAssignmentRequests : ok listAssignmentRequests.
Proof. unfold listAssignmentRequests. safe_tac. Qed.
Lemma ok_findUsersWithRole a id : ok (findUsersWithRole a id).
Proof. unfold findUsersWithRole. safe_tac. Qed.

(** ** Permissions of roles: a locked role's are left alone *)

Context (Hguarded : ∀ r, frozen r → guarded r).

Lemma ok_assertEditable a r b c : ok (assertPermissionsEditable a r b c).
Proof. unfold assertPermissionsEditable. safe_tac. Qed.
Lemma ok_resolvePermissions a r b c : ok (resolvePermissionsOrThrow a r b c).
Proof. unfold resolvePermissionsOrThrow. safe_tac. Qed.
Lemma ok_loadRole a r c : ok (loadRole a r c).
Proof. unfold loadRole. safe_tac. Qed.
Lemma ok_findForRole r : ok (findForRole r).
Proof. unfold findForRole. safe_tac. Qed.
Hint Resolve ok_assertEditable ok_resolvePermissions ok_loadRole ok_findForRole : safe.
Lemma ok_invalidate_chunks b cs n : ok (invalidate_chunks keyPrefix b cs n).
Proof.
  revert n. induction cs as [|c cs IH]; intros n; [done|]. cbn [invalidate_chunks].
  apply safe_bind; [safe_tac|intros [k|e]; [|done]].
  apply safe_bind; [safe_tac|intros r]. destruct (is_ok r); [apply IH|done].
Qed.
Hint Resolve ok_invalidate_chunks : safe.
Lemma ok_invalidateRoleHolders r b : ok (invalidateRoleHolders keyPrefix r b).
Proof. unfold invalidateRoleHolders. safe_tac. Qed.
Hint Resolve ok_invalidateRoleHolders : safe.

(** The check that the role is not locked, and what comes after it. *)
Lemma ok_editable {A} a r action names (f : Role → Z → prog AccW A) :
  (∀ q n, ¬ frozen r → ok (f q n)) →
  ok (loaded ← loadRole a r action;
      let '(q, n) := loaded in
      assertPermissionsEditable a q action names ;; f q n).
Proof.
  intros Hf w. unfold loadRole. apply rg_bind, rg_bind, rg_gets; [apply _|]. intros w1 _ HI.
  destruct (counted_role r w1) as [[q n]|] eqn:Hq; [|apply rg_throws; safe_tac].
  cbn [rg mret prog_mret]. apply rg_bind. unfold assertPermissionsEditable.
  destruct (negb _) eqn:Hl; [|apply rg_throws; safe_tac]. cbn [rg mret prog_mret].
  apply safe_rg, Hf. intros Hfr%Hguarded. destruct (ai_guarded w1 HI r Hfr) as (q'&Hq'&Hl').
  unfold counted_role in Hq. rewrite Hq' in Hq. simplify_eq. by rewrite Hl' in Hl.
Qed.

Lemma ok_rp_deleteMany r ids : ¬ frozen r → ok (rolePermission_deleteMany r ids).
Proof.
  intros Hn. apply safe_act. intros w HI. apply less_permissions_steps; [done|..].
  - by intros k x [Hx _]%map_lookup_filter_Some.
  - intros r' p Hf. destruct (xw_rolePermissions w !! (r', p)) as [x|] eqn:Hx.
    + apply map_lookup_filter_Some. split; [done|]. intros [Hr _].
      destruct (ai_perms w HI r' p x Hx) as (Hr'&_). congruence.
    + apply map_lookup_filter_None. by left.
Qed.

Lemma ok_rp_createMany r ids : ¬ frozen r → ok (rolePermission_createMany r ids).
Proof.
  intros Hn. apply safe_act_outcome. intros w HI.
  destruct (_ || _) eqn:Hfk; [done|].
  apply orb_false_elim in Hfk as [Hr%bool_decide_eq_false Hp].
  destruct (add_permissions_inv r ids w) as [HI2 Ha]; [done|by destruct (_ !! r)|..].
  - intros p Hin. destruct (xw_permissions w !! p) as [x|] eqn:Hx; [by eexists|].
    assert (existsb (λ id, bool_decide (xw_permissions w !! id = None)) ids = true) as Hf;
      [|by rewrite Hf in Hp].
    apply existsb_exists. exists p. split; [by apply list_elem_of_In|]. by rewrite Hx.
  - intros u x _. by destruct (Hfrozen r).
  - split; [done|]. by apply (added_rel r w w).
Qed.

(** The row that is deleted is the one that was read. *)
Definition row_known (r : string) (x : RolePermission) (w : AccW) : Prop :=
  ¬ future w (rp_id x) ∧
  ∀ k y, xw_rolePermissions w !! k = Some y → rp_id y = rp_id x → rp_roleId y = r.
Lemma row_known_stable r x w w' : row_known r x w → acc_rel w w' → acc_inv w' → row_known r x w'.
Proof.
  intros [Hn Hk] HR _. split; [intros Hf; by apply Hn, (future_mono w w'), Hf; apply HR|].
  intros k y Hy Hid. apply (Hk k); [|done]. apply (ar_rps w w' HR); [done|by rewrite Hid].
Qed.

Lemma rg_rp_delete r x w :
  ¬ frozen r → row_known r x w →
  rg acc_inv acc_rel (λ _ _, True) (λ _ _, True) (rolePermission_delete (rp_id x)) w.
Proof.
  intros Hn Hx. apply rg_act_outcome. intros w1 HR HI.
  destruct (row_known_stable r x w w1 Hx HR HI) as [_ Hk].
  destruct (find_row _ _) as [y|] eqn:Hy; [|done].
  apply find_row_Some in Hy as (Hid%bool_decide_eq_true&k&Hky).
  pose proof (Hk k y Hky Hid) as Hr.
  destruct (less_permissions_steps w1 (delete (rp_roleId y, rp_permissionId y))) as [HI2 HR2];
    [done| | |done].
  - by intros k' z [_ Hz]%lookup_delete_Some.
  - intros r' p' Hf. apply lookup_delete_ne. congruence.
Qed.

Lemma ok_assignToRole a r ns : ok (assignToRole keyPrefix a r ns).
Proof.
  apply ok_editable. intros q n Hn. pose proof (ok_rp_createMany r) as Hc. safe_tac. all: auto.
Qed.
Lemma ok_revokeManyFromRole a r ns : ok (revokeManyFromRole keyPrefix a r ns).
Proof.
  apply ok_editable. intros q n Hn. pose proof (ok_rp_deleteMany r) as Hd. safe_tac. all: auto.
Qed.
Lemma ok_setForRole a r ns : ok (setForRole keyPrefix a r ns).
Proof.
  apply ok_editable. intros q n Hn.
  pose proof (ok_rp_deleteMany r) as Hd. pose proof (ok_rp_createMany r) as Hc.
  assert (∀ ps, ok (serializable (replace_permissions r ps))).
  { intros ps. apply safe_serializable, safe_transaction; [apply _|]. unfold replace_permissions. safe_tac. }
  safe_tac.
Qed.
Lemma ok_revokeFromRole a r n : ok (revokeFromRole keyPrefix a r n).
Proof.
  apply ok_editable. intros q k Hn. cbv zeta. apply safe_bind; [safe_tac|intros [p|]]; [|safe_tac].
  intros w. apply rg_bind, rg_gets; [apply _|]. intros w1 _ HI.
  destruct (xw_rolePermissions w1 !! (r, pm_id p)) as [x|] eqn:Hx; [|apply safe_rg; safe_tac].
  destruct (ai_perms w1 HI r _ x Hx) as (Hr&_&_&_&Hid). apply rg_bind, rg_catch.
  eapply rg_mono; [apply (rg_rp_delete r)| |]; [done| |intros; apply safe_rg; safe_tac|done].
  split; [done|]. intros [r' p'] y Hy Hyid.
  pose proof (ai_rp_ids w1 HI _ _ y x Hy Hx Hyid) as [= -> _].
  by destruct (ai_perms w1 HI r p' y Hy).
Qed.
Lemma ok_sync a : ok (sync a).
Proof.
  unfold sync. safe_tac. apply safe_modify. intros w HI. by apply add_permission_rows_steps.
Qed.
End safety.

Create HintDb access_handlers.
#[export] Hint Resolve ok_RoleService_create ok_RoleService_update ok_remove ok_clone ok_applyTemplate ok_archive_role
  ok_unarchive_role ok_assignToUser ok_removeFromUser ok_bulkAssign_roles ok_requestAssignment
  ok_reviewAssignmentRequest ok_assignTemporarily ok_expireTemporaryAssignments
  ok_listAssignmentRequests ok_findUsersWithRole ok_assignToRole ok_revokeManyFromRole
  ok_setForRole ok_revokeFromRole ok_sync : access_handlers.
