(* ===== verification/AccessProps.v ===== *)
(** * Roles and permissions: what holds however the requests interleave *)

From S2P Require Import Prelude Interleave Js Redis Cache Roles Permissions.
From S2P Require Import AccessModel RoleService PermissionService Guards AccessSafety.
From coqutil Require Import Datatypes.RecordSetters.
Import DoubleBraceUpdate.

Open Scope Z_scope.

Fixpoint acc_unary (n : nat) : string :=
  match n with O => "#" | S n => Str "#" (acc_unary n) end.
#[export] Instance acc_unary_inj : Inj (=) (=) acc_unary.
Proof.
  intros n. induction n as [|n IH]; intros [|m]; cbn; intros Heq; try done.
  - destruct m; discriminate.
  - destruct n; discriminate.
  - injection Heq as Heq. f_equal. by apply IH.
Qed.
#[export] Instance acc_lib : AccLib := {|
  acc_uuid := acc_unary;
  db_before := code_unit_before;
  locale_before := code_unit_before;
|}.
#[export] Instance acc_lib_inj : Inj (=) (=) (@acc_uuid acc_lib) := acc_unary_inj.

Definition acc_role (id name : string) : Role := {|
  rl_id := id; rl_name := name; rl_description := None; rl_isProtected := false;
  rl_createdAt := 0; rl_archivedAt := None; rl_archivedById := None |}.
Definition acc_user (id : string) : AccUser := {|
  xu_id := id; xu_name := Some id; xu_email := None; xu_phone := None; xu_isActive := true;
  xu_isEmailVerified := true; xu_createdAt := 0 |}.
Definition acc_actor (id : string) : CurrentUser :=
  {| cu_id := id; cu_roles := [SUPER_ADMIN]; cu_permissions := [] |}.
Definition holds (u r : string) : (string * string) * UserRole :=
  ((u, r), {| ur_userId := u; ur_roleId := r; ur_assignedAt := 0; ur_assignedBy := None |}).
Definition grants (r p : string) : (string * string) * RolePermission :=
  ((r, p), {| rp_id := r +:+ ":" +:+ p; rp_roleId := r; rp_permissionId := p |}).
Definition acc_permission (id name : string) : string * Permission :=
  (id, {| pm_id := id; pm_name := name; pm_description := None |}).
Definition acc_session (id u : string) : string * AccSession :=
  (id, {| ss_id := id; ss_userId := u; ss_expiresAt := 10 ^ 15; ss_revokedAt := None |}).

(** Three super administrators [s1], [s2], [s3]; [m1] reviews; the role [fin] pays
    out and needs two persons; [desk] is an ordinary one. *)
Definition acc_world : AccW := {|
  xw_roles := {[ "sup" := acc_role "sup" SUPER_ADMIN; "rev" := acc_role "rev" "REVIEWER";
                 "fin" := acc_role "fin" "FINANCE"; "desk" := acc_role "desk" "DESK" ]};
  xw_permissions := list_to_map
    [acc_permission "p1" "REPORT_READ"; acc_permission "p2" "DISBURSEMENTS_EXECUTE";
     acc_permission "p3" "POST_READ"];
  xw_rolePermissions := list_to_map
    [grants "sup" "p1"; grants "sup" "p2"; grants "rev" "p1"; grants "fin" "p2";
     grants "desk" "p3"];
  xw_userRoles := list_to_map [holds "s1" "sup"; holds "s2" "sup"; holds "s3" "sup"; holds "m1" "rev"];
  xw_requests := ∅;
  xw_temporary := ∅;
  xw_users := list_to_map ((λ id, (id, acc_user id)) <$> ["s1"; "s2"; "s3"; "m1"]);
  xw_sessions := list_to_map [acc_session "t1" "m1"; acc_session "t2" "s1"];
  xw_reviewItems := []; xw_events := []; xw_conflicts := []; xw_draws := 0; xw_ppm := [];
  xw_now := 1000000;
  xw_redis := fresh_redis; xw_secredis := fresh_redis;
  xw_cache := {| cs_flag_value := true; cs_flag_checkedAt := 1000000; cs_localDisabledUntil := 0;
                 cs_retryQueue := []; cs_needsPurge := false; cs_flushing := false;
                 cs_stats := ∅ |};
|}.

(** *** The invariant, decided on the tables *)

Definition not_drawn (s : string) : bool :=
  match s with Str "#" _ => false | _ => true end.
Lemma not_drawn_future w id : not_drawn id = true → ¬ future w id.
Proof. intros Hn (n&_&->). by destruct n. Qed.

Definition world_ok (w : AccW) : bool :=
  forallb (λ kv, bool_decide (rl_id kv.2 = kv.1) && not_drawn kv.1) (map_to_list (xw_roles w)) &&
  forallb (λ kv, bool_decide (kv.1 = (rp_roleId kv.2, rp_permissionId kv.2)) &&
                 bool_decide (is_Some (xw_roles w !! rp_roleId kv.2)) &&
                 bool_decide (is_Some (xw_permissions w !! rp_permissionId kv.2)) &&
                 not_drawn (rp_id kv.2)) (map_to_list (xw_rolePermissions w)) &&
  forallb (λ kv, forallb (λ kv', negb (bool_decide (rp_id kv.2 = rp_id kv'.2)) ||
                                 bool_decide (kv.1 = kv'.1)) (map_to_list (xw_rolePermissions w)))
    (map_to_list (xw_rolePermissions w)) &&
  forallb (λ kv, bool_decide (pm_id kv.2 = kv.1) && not_drawn kv.1)
    (map_to_list (xw_permissions w)) &&
  forallb (λ kv, bool_decide (kv.1 = (ur_userId kv.2, ur_roleId kv.2)) &&
                 bool_decide (is_Some (xw_roles w !! ur_roleId kv.2)))
    (map_to_list (xw_userRoles w)) &&
  forallb (λ kv, bool_decide (rq_id kv.2 = kv.1) && not_drawn kv.1 &&
                 bool_decide (rq_status kv.2 = PENDING) && bool_decide (rq_reviewedById kv.2 = None))
    (map_to_list (xw_requests w)) &&
  forallb (λ kv, bool_decide (tm_id kv.2 = kv.1) && not_drawn kv.1) (map_to_list (xw_temporary w)).

Lemma forallb_map {K A} `{Countable K} (P : K * A → bool) (m : gmap K A) k x :
  forallb P (map_to_list m) = true → m !! k = Some x → P (k, x) = true.
Proof.
  intros Hall Hk. rewrite forallb_forall in Hall. apply Hall, list_elem_of_In.
  by apply elem_of_map_to_list.
Qed.

(** [acc_inv] without guarded roles, everyone exempt. *)
Abbreviation plain_inv := (acc_inv (λ _, False) (λ _ _, True)).

Lemma world_ok_inv w : world_ok w = true → plain_inv w.
Proof.
  unfold world_ok. rewrite !andb_true_iff. intros [[[[[[Hr Hp] Hi] Hm] Hu] Hq] Ht].
  split.
  - intros id r Hid. pose proof (forallb_map _ _ _ _ Hr Hid) as [He Hn]%andb_prop.
    split; [by apply bool_decide_eq_true in He|by apply not_drawn_future].
  - intros r p x Hx. pose proof (forallb_map _ _ _ _ Hp Hx) as Hall. cbn in Hall.
    rewrite !andb_true_iff, !bool_decide_eq_true in Hall.
    destruct Hall as [[[[= -> ->] ?] ?] Hn]. split_and!; [done..|by apply not_drawn_future].
  - intros k k' x x' Hx Hx' Heq. pose proof (forallb_map _ _ _ _ Hi Hx) as Hall.
    pose proof (forallb_map _ _ _ _ Hall Hx') as Hk. cbn in Hk.
    apply orb_true_iff in Hk as [Hk|Hk]; [|by apply bool_decide_eq_true in Hk].
    by rewrite bool_decide_eq_true_2 in Hk.
  - intros p x Hx. pose proof (forallb_map _ _ _ _ Hm Hx) as [He Hn]%andb_prop.
    split; [by apply bool_decide_eq_true in He|by apply not_drawn_future].
  - intros u r x Hx. pose proof (forallb_map _ _ _ _ Hu Hx) as [He Hn]%andb_prop.
    apply bool_decide_eq_true in He, Hn. by injection He as -> ->.
  - intros id q Hid. pose proof (forallb_map _ _ _ _ Hq Hid) as Hall. cbn in Hall.
    rewrite !andb_true_iff, !bool_decide_eq_true in Hall. destruct Hall as [[[He Hn] Hst] Hrv].
    split_and!; [done|by apply not_drawn_future|]. unfold review_ok. rewrite Hst, Hrv.
    split_and!; [done..|]. by intros [].
  - intros id t Hid. pose proof (forallb_map _ _ _ _ Ht Hid) as [He Hn]%andb_prop.
    split; [by apply bool_decide_eq_true in He|by apply not_drawn_future].
  - intros u r x _ _. by left.
  - done.
Qed.

Lemma acc_world_inv : plain_inv acc_world.
Proof. apply world_ok_inv. vm_compute. reflexivity. Qed.

(** [s1] asked for the role [fin] for [m1]; the request waits for its review. *)
Definition open_request : Request :=
  new_request "fin" "m1" "s1" "covers payouts" (1000000 + ASSIGNMENT_REQUEST_TTL_MS) "q1" 900000.
Definition asked_world : AccW := acc_world{{xw_requests := {["q1" := open_request]} }}.
Lemma asked_world_inv : plain_inv asked_world.
Proof. apply world_ok_inv. vm_compute. reflexivity. Qed.

From S2P Require Import Prelude Interleave Js Redis Cache Roles Permissions.
From S2P Require Import AccessModel RoleService PermissionService Guards AccessSafety.
From coqutil Require Import Datatypes.RecordSetters.
Import DoubleBraceUpdate.

Open Scope Z_scope.

Definition no_reply {A} (p : prog AccW A) : prog AccW () := p ;; mret ().

Section handlers.
Context `{AccLib} `{!Inj (=) (=) acc_uuid} (keyPrefix : string) (iso : Z → string).

(** The handlers of the role service. *)
Inductive role_handler : prog AccW () → Prop :=
| h_create a d : role_handler (no_reply (RoleService.create a d))
| h_update a id d : role_handler (no_reply (RoleService.update a id d))
| h_remove a id : role_handler (no_reply (RoleService.remove a id))
| h_clone a id d : role_handler (no_reply (clone a id d))
| h_applyTemplate a t d : role_handler (no_reply (applyTemplate a t d))
| h_archive a id c : role_handler (no_reply (RoleService.archive a id c))
| h_unarchive a id c : role_handler (no_reply (RoleService.unarchive a id c))
| h_assignToUser a r u c : role_handler (no_reply (assignToUser keyPrefix a r u c))
| h_removeFromUser a r u c : role_handler (no_reply (removeFromUser keyPrefix a r u c))
| h_bulkAssign a r b us c : role_handler (no_reply (RoleService.bulkAssign keyPrefix a r b us c))
| h_request a r u c : role_handler (no_reply (requestAssignment a r u c))
| h_review a id d n : role_handler (no_reply (reviewAssignmentRequest keyPrefix a id d n))
| h_assignTemporarily a r u e c :
    role_handler (no_reply (assignTemporarily keyPrefix iso a r u e c))
| h_expire : role_handler (no_reply (expireTemporaryAssignments keyPrefix))
| h_listRequests : role_handler (no_reply listAssignmentRequests)
| h_members a id : role_handler (no_reply (findUsersWithRole a id)).

(** With those of the permission service. *)
Inductive access_handler : prog AccW () → Prop :=
| h_role p : role_handler p → access_handler p
| h_assignToRole a r ns : access_handler (no_reply (assignToRole keyPrefix a r ns))
| h_revokeMany a r ns : access_handler (no_reply (revokeManyFromRole keyPrefix a r ns))
| h_setForRole a r ns : access_handler (no_reply (setForRole keyPrefix a r ns))
| h_revoke a r n : access_handler (no_reply (revokeFromRole keyPrefix a r n))
| h_sync a : access_handler (no_reply (sync a)).

(** The rest of the application: users, sessions, the cache and the clock change at
    will, holders of a role may lose it, and the roles [elsewhere] may be given out
    (promotion to administrator, registration). *)
Record acc_env (elsewhere : string → Prop) (w w' : AccW) : Prop := {
  en_tables :
    (xw_roles w', xw_permissions w', xw_rolePermissions w', xw_requests w', xw_temporary w') =
    (xw_roles w, xw_permissions w, xw_rolePermissions w, xw_requests w, xw_temporary w);
  en_draws : (xw_draws w ≤ xw_draws w')%nat;
  en_holders u r x : xw_userRoles w' !! (u, r) = Some x →
    xw_userRoles w !! (u, r) = Some x ∨
    elsewhere r ∧ ur_userId x = u ∧ ur_roleId x = r ∧ is_Some (xw_roles w !! r);
}.

Definition acc_pool (elsewhere : string → Prop) (h : prog AccW () → Prop) ps w ps' w' : Prop :=
  Forall h ps ∧ rtc (pool_step (acc_env elsewhere)) (ps, w) (ps', w').

Section safe.
Context (guarded frozen : string → Prop) (exempt : string → string → Prop).
Context (Hfrozen : ∀ r, frozen r ∨ ∀ u, exempt u r).
Abbreviation I := (acc_inv guarded exempt).
Abbreviation R := (acc_rel guarded frozen).

Lemma no_reply_safe {A} (p : prog AccW A) : safe I R p → safe I R (no_reply p).
Proof. intros Hp. by apply safe_bind. Qed.

Lemma role_handler_safe p : role_handler p → safe I R p.
Proof. destruct 1; apply no_reply_safe; auto 2 with access_handlers nocore. Qed.

Lemma access_handler_safe p : (∀ r, frozen r → guarded r) → access_handler p → safe I R p.
Proof.
  intros Hg. destruct 1; [by apply role_handler_safe|..];
    apply no_reply_safe; auto 2 with access_handlers nocore.
Qed.

Lemma acc_env_good elsewhere w w' :
  (∀ u r, elsewhere r → exempt u r) → I w → acc_env elsewhere w w' → I w' ∧ R w w'.
Proof.
  intros He HI [[= E1 E2 E3 E4 E5] Hd Hh].
  destruct (tables_kept guarded frozen exempt w (w'{{xw_userRoles := xw_userRoles w}}))
    as [[] []]; try done.
  split.
  - split; try done.
    + intros u r x [Hx|(_&?&?&?)]%Hh; [by apply ai_holders|]. by rewrite E1.
    + intros u r x [Hx|(Hr&_)]%Hh Ht; [by apply ai_granted|left; by apply He].
  - by split.
Qed.

Lemma acc_pool_good elsewhere h ps w ps' w' :
  (∀ u r, elsewhere r → exempt u r) → (∀ p, h p → safe I R p) → I w →
  acc_pool elsewhere h ps w ps' w' → I w' ∧ R w w'.
Proof.
  intros He Hh HI [Hps Hrun].
  eapply (pool_invariant I R); [by intros ??; apply (acc_env_good elsewhere)|done| |exact Hrun].
  intros i p Hi. apply Hh. by eapply Forall_lookup_1.
Qed.
End safe.

(** ** Two persons *)

(** The invariant of [acc_inv] with other parameters: the tables do not depend on them. *)
Lemma acc_inv_with guarded guarded' exempt exempt' w :
  acc_inv guarded exempt w →
  (∀ u r x, xw_userRoles w !! (u, r) = Some x → exempt' u r) →
  (∀ r, guarded' r → ∃ q, xw_roles w !! r = Some q ∧ isPermissionLockedRole (rl_name q) = true) →
  acc_inv guarded' exempt' w.
Proof. intros [] He Hg. split; try done. intros u r x Hx _. left. by eapply He. Qed.

(** C14: However the requests to the role service interleave, whoever comes to hold a
    role with a permission that needs two persons was asked for by one person
    and decided on by another: there is a request for this user and role, by the
    one on record as the giver, reviewed by someone else, and not rejected.
    (Those who held the role before, and roles given out by other services, are
    outside the claim; the permissions of roles are not edited meanwhile.) *)
Theorem two_person_rule elsewhere ps w ps' w' u r x :
  plain_inv w → acc_pool elsewhere role_handler ps w ps' w' →
  xw_userRoles w' !! (u, r) = Some x → two_person_role w' r →
  is_Some (xw_userRoles w !! (u, r)) ∨ elsewhere r ∨ approved_by_second w' x.
Proof.
  intros HI Hpool Hx Ht.
  set (exempt u r := is_Some (xw_userRoles w !! (u, r)) ∨ elsewhere r).
  destruct (acc_pool_good (λ _, False) (λ _, True) exempt elsewhere role_handler ps w ps' w')
    as [HI' _]; [by right|..|done|].
  - apply role_handler_safe. by left.
  - eapply (acc_inv_with _ _ _ _ w HI); [|done]. intros u' r' y Hy. left. by eexists.
  - destruct (ai_granted _ _ _ HI' u r x Hx Ht) as [[?|?]|?]; auto.
Qed.

(** A request asks for the same thing for as long as it exists; once it is no
    longer PENDING its review stays as it is, and it is never PENDING again.
    Nobody reviews their own request. A temporary assignment that ended does not
    become active again. All this under every interleaving of the handlers of
    roles and permissions. *)
Theorem decisions_stay elsewhere ps w ps' w' id :
  plain_inv w → acc_pool elsewhere access_handler ps w ps' w' → ¬ future w id →
  kept_by request_step (xw_requests w !! id) (xw_requests w' !! id) ∧
  kept_by temporary_step (xw_temporary w !! id) (xw_temporary w' !! id) ∧
  (∀ q, xw_requests w' !! id = Some q → review_ok q).
Proof.
  intros HI Hpool Hn.
  destruct (acc_pool_good (λ _, False) (λ _, False) (λ _ _, True) elsewhere access_handler
    ps w ps' w') as [HI' HR]; [done| |done|done|].
  - intros p. apply access_handler_safe; [by right|done].
  - split_and!; [by apply (ar_requests _ _ _ _ HR)|by apply (ar_temporary _ _ _ _ HR)|].
    intros q Hq. by destruct (ai_requests _ _ _ HI' id q Hq) as (_&_&?).
Qed.

(** C25: The roles SUPER_ADMIN and SYSTEM: whatever the handlers of roles and
    permissions do, and in whatever order, such a role stays, keeps its name and
    has exactly the permissions it had. *)
Theorem locked_role_untouched elsewhere ps w ps' w' r q :
  plain_inv w → acc_pool elsewhere access_handler ps w ps' w' →
  xw_roles w !! r = Some q → isPermissionLockedRole (rl_name q) = true →
  (rl_name <$> xw_roles w' !! r) = Some (rl_name q) ∧
  ∀ pid, xw_rolePermissions w' !! (r, pid) = xw_rolePermissions w !! (r, pid).
Proof.
  intros HI Hpool Hr Hl.
  destruct (acc_pool_good (λ i, i = r) (λ i, i = r) (λ _ _, True) elsewhere access_handler
    ps w ps' w') as [HI' HR]; [done| | |done|].
  - intros p. apply access_handler_safe; [by right|by intros i].
  - eapply (acc_inv_with _ _ _ _ w HI); [done|]. intros i ->. by exists q.
  - destruct (ai_roles _ _ _ HI r q Hr) as [_ Hn].
    pose proof (ar_guarded _ _ _ _ HR r eq_refl) as Hname. rewrite Hr in Hname.
    split; [done|]. intros pid. apply (ar_frozen _ _ _ _ HR); [done..|].
    by destruct (xw_roles w' !! r).
Qed.

(** ** One review *)

Section one_review.
Context (id : string).
Abbreviation I := (acc_inv (λ _, False) (λ _ _, True)).
Abbreviation R := (acc_rel (λ _, False) (λ _, False)).

Definition settled (w : AccW) : Prop :=
  ¬ future w id ∧ ∀ q, xw_requests w !! id = Some q → rq_status q ≠ PENDING.

Lemma settled_stays w w' : R w w' → settled w → settled w'.
Proof.
  intros HR [Hn Hs]. split; [intros Hf; by apply Hn, (future_mono w w'), Hf; apply HR|].
  intros q' Hq'. pose proof (ar_requests _ _ w w' HR id Hn) as Hk. rewrite Hq' in Hk.
  destruct (xw_requests w !! id) as [q|]; [|done]. specialize (Hs q eq_refl).
  destruct (qs_review _ _ Hk Hs) as (_&_&[->| ->]); done.
Qed.

(** The claim: it turns the request from PENDING to decided. *)
Lemma claim_settles w q upd :
  I w → xw_requests w !! id = Some q → rq_status q = PENDING → rq_status (upd q) ≠ PENDING →
  ¬ settled w ∧ settled (w{{xw_requests ::= insert id (upd q)}}).
Proof.
  intros HI Hq Hp Hu. split; [intros [_ Hs]; by apply (Hs q)|]. split.
  - by destruct (ai_requests _ _ _ HI id q Hq) as (_&?&_).
  - intros q' Hq'. change (<[id := upd q]> (xw_requests w) !! id = Some q') in Hq'.
    rewrite lookup_insert_eq in Hq'. by simplify_eq.
Qed.

Lemma once_seq {A B} (f : A → prog AccW B) (p : prog AccW A) w :
  rg I R (λ a w, once I R settled False (f a) w) (λ _ _, True) p w →
  once I R settled False (p ≫= f) w.
Proof. apply once_bind. Qed.

(** A first part during which the request is still what was read. *)
Lemma once_asked {A B} q (f : A → prog AccW B) (p : prog AccW A) w :
  safe I R p → asked q w → (∀ a w, asked q w → once I R settled False (f a) w) →
  once I R settled False (p ≫= f) w.
Proof.
  intros Hp Hq Hf. apply once_seq. eapply rg_mono; [by apply (rg_frame _ _ (asked q)), Hp; [apply asked_stable|]| |done].
  intros a w' [_ Hw]. by apply Hf.
Qed.

Lemma once_reject a q role note w :
  rq_id q = id → cu_id a ≠ rq_requestedById q → asked q w →
  once I R settled False (reject a q role note) w.
Proof.
  intros Hid Hne Hq. unfold reject. cbv zeta. destruct (negb _); [done|].
  apply once_seq. cbn [throw_if rg]. apply once_seq, rg_gets; [apply _|]. intros w1 HR HI.
  pose proof (asked_stable _ _ _ q w w1 Hq HR HI) as Hq1. intros w2 HR2 HI2.
  destruct (asked_stable _ _ _ q w1 w2 Hq1 HR2 HI2) as [_ Hq2]. rewrite Hid in *.
  destruct (xw_requests w2 !! id) as [q'|] eqn:Hq'; [|by split_and!].
  destruct (has_status PENDING q') eqn:Hp; [|by split_and!].
  destruct (ai_requests _ _ w2 HI2 _ _ Hq') as (_&_&Hok). destruct (Hq2 q' eq_refl) as (_&_&Hreq).
  destruct (decided_ok REJECTED (cu_id a) (xw_now w1) (Some (trim (default "" note))) q')
    as [Hs Hok']; [done|congruence|done..|].
  destruct (request_update_steps (λ _, False) (λ _, False) (λ _ _, True) w2 id
    (decided REJECTED (cu_id a) (xw_now w1) (Some (trim (default "" note)))) q') as [HI3 HR3];
    [done..|].
  split_and!; [done..|]. eapply rg_once.
  - right. apply claim_settles; [done..| |done]. by apply bool_decide_eq_true in Hp.
  - apply (safe_rg I R). cbn [fst]. safe_tac. all: by apply ok_request_audit.
Qed.

(** The transaction of an approval goes through only with the claim. *)
Lemma approve_tx_claims a q t note w :
  rq_id q = id → asked q w → cu_id a ≠ rq_requestedById q → I w →
  let r := run (n ← request_claim (rq_id q) (has_status PENDING) (decided APPROVED (cu_id a) t note);
                throw_if (n =? 0) not_pending ;;
                userRole_create (rq_targetUserId q) (rq_roleId q) (Some (rq_requestedById q))) w in
  is_ok r.1 = true → ¬ settled w ∧ settled r.2.
Proof.
  intros Hid _ _ HI. cbv zeta. rewrite Hid, run_bind. unfold request_claim. rewrite run_act.
  destruct (xw_requests w !! id) as [q'|] eqn:Hq'; [|done].
  destruct (has_status PENDING q') eqn:Hp; [|done]. cbn [fst snd].
  destruct (claim_settles w q' (decided APPROVED (cu_id a) t note)) as [Hn Hs]; [done..| |done|].
  { by apply bool_decide_eq_true in Hp. }
  rewrite run_bind, run_throw_if. change (1 =? 0) with false.
  unfold userRole_create. rewrite run_act_outcome. case_bool_decide; [done|].
  destruct (_ || _); [done|]. done.
Qed.

Lemma once_approve a q role note w :
  rq_id q = id → cu_id a ≠ rq_requestedById q → asked q w →
  once I R settled False (approve keyPrefix a q role note) w.
Proof.
  intros Hid Hne Hq. unfold approve.
  apply (once_asked q); [by apply ok_assertRoleAssignable|done|]. intros _ w1 Hq1.
  apply (once_asked q); [by apply ok_loadStaff|done|]. intros target w2 Hq2.
  apply (once_asked q); [apply safe_throw_if|done|]. intros _ w3 Hq3.
  apply (once_asked q); [by apply ok_acc_now|done|]. intros t w4 Hq4.
  intros w5 HR HI. pose proof (asked_stable _ _ _ q w4 w5 Hq4 HR HI) as Hq5.
  pose proof (approve_tx_steps (λ _, False) (λ _, False) (λ _ _, True) a q t (trimmed_note note) w5
    Hne Hq5 HI) as [HI6 HR6].
  pose proof (approve_tx_claims a q t (trimmed_note note) w5 Hid Hq5 Hne HI) as Hc.
  rewrite run_transaction in HI6, HR6. cbv zeta in Hc.
  destruct (run _ w5) as [[x|e] w6]; cbn [fst snd is_ok] in *; [|by split_and!].
  split_and!; [done..|]. eapply rg_once; [right; by apply Hc|].
  apply (safe_rg I R). apply safe_bind; [by apply ok_refreshUserAccess|intros _].
  apply safe_bind; [by apply ok_request_audit|intros _]. apply (safe_mret I R).
Qed.

Lemma once_review a d note w :
  once I R settled False (reviewAssignmentRequest keyPrefix a id d note) w.
Proof.
  unfold reviewAssignmentRequest. apply once_seq, rg_gets; [apply _|]. intros w1 _ HI.
  destruct (loaded_request id w1) as [[q l]|] eqn:Hl; [|done]. cbn [require].
  apply once_seq. cbn [rg]. cbv zeta.
  assert (rq_id q = id ∧ asked q w1) as [Hid Hq].
  { unfold loaded_request in Hl. destruct (xw_requests w1 !! id) as [q0|] eqn:Hq0; [|done].
    destruct (loaded_role _ _); [|done]. simplify_eq.
    destruct (ai_requests _ _ w1 HI id q Hq0) as (Hid&Hn&_). split; [done|].
    split; rewrite Hid; [done|]. intros q' Hq'. rewrite Hq0 in Hq'. by simplify_eq. }
  apply once_seq. case_bool_decide as Hself.
  { apply rg_throws. by apply ok_request_audit. }
  cbn [rg mret prog_mret]. apply once_seq. destruct (negb _); [done|]. cbn [throw_if rg].
  apply once_seq, rg_gets; [apply _|]. intros w2 HR HI2.
  pose proof (asked_stable _ _ _ q w1 w2 Hq HR HI2) as Hq2. apply once_seq.
  destruct (_ <=? _).
  { apply rg_throws. apply ok_request_update. intros q' Hok. by apply expired_ok. }
  cbn [rg mret prog_mret]. destruct d; [apply once_approve|apply once_reject]; auto.
Qed.
End one_review.

(** Of all the reviews of one request, approvals and rejections alike, at most
    one succeeds, however they and the other handlers interleave. *)
Theorem one_review elsewhere ps w ps' w' id i j a b d e n m :
  plain_inv w → acc_pool elsewhere access_handler ps w ps' w' →
  ps !! i = Some (no_reply (reviewAssignmentRequest keyPrefix a id d n)) →
  ps !! j = Some (no_reply (reviewAssignmentRequest keyPrefix b id e m)) →
  ps' !! i = Some (Ret ()) → ps' !! j = Some (Ret ()) → i = j.
Proof.
  intros HI [Hps Hrun] Hi Hj Ri Rj.
  eapply (pool_once (acc_inv (λ _, False) (λ _ _, True)) (acc_rel (λ _, False) (λ _, False))
    (settled id) (acc_env elsewhere)
    (λ i, ∃ a d n, ps !! i = Some (no_reply (reviewAssignmentRequest keyPrefix a id d n))));
    [apply settled_stays|by intros ??; apply acc_env_good|done| | |exact Hrun|eauto..].
  - intros k p Hk. apply (access_handler_safe (λ _, False) (λ _, False) (λ _ _, True));
      [by right|done|by eapply Forall_lookup_1].
  - intros k p (a'&d'&n'&Hk') Hk. simplify_eq. unfold no_reply. apply once_then; [apply once_review|].
    intros x. apply (safe_mret _ _).
Qed.
End handlers.

(** ** Witnesses *)

Definition no_iso : Z → string := λ _, "".
Definition reviewed (a : string) (d : Decision) : prog AccW () :=
  no_reply (reviewAssignmentRequest "ehte:" (acc_actor a) "q1" d (Some "checked")).
Definition nowhere : string → Prop := λ _, False.

(** Two reviews of one request at once, while the permissions of SUPER_ADMIN are
    to be cleared. *)
Definition rivals : list (prog AccW ()) :=
  [reviewed "s2" APPROVE; reviewed "s3" REJECT;
   no_reply (setForRole "ehte:" (acc_actor "s3") "sup" [])].
Definition rivals_order : list nat :=
  ([0; 1; 0; 1; 0; 1; 0; 2; 2] ++ replicate 60 0 ++ replicate 10 1 ++ replicate 10 2)%nat.
Definition rivals_done := schedule rivals_order rivals asked_world.

Lemma rivals_handlers : Forall (access_handler "ehte:" no_iso) rivals.
Proof.
  apply Forall_cons; split; [apply h_role, h_review|].
  apply Forall_cons; split; [apply h_role, h_review|].
  apply Forall_cons; split; [apply h_setForRole|]. by apply Forall_nil.
Qed.
Lemma rivals_pool :
  acc_pool nowhere (access_handler "ehte:" no_iso) rivals asked_world rivals_done.1 rivals_done.2.
Proof.
  split; [apply rivals_handlers|]. rewrite <- (surjective_pairing rivals_done).
  apply schedule_steps.
Qed.
Example rivals_outcome :
  rivals_done.1 !! 0%nat = Some (Ret ()) ∧
  is_Some (xw_userRoles rivals_done.2 !! ("m1", "fin")) ∧
  (rq_status <$> xw_requests rivals_done.2 !! "q1") = Some APPROVED.
Proof. vm_compute. split_and!; eauto. Qed.

(** The first two of the rivals: requests to the role service alone. *)
Definition reviewers : list (prog AccW ()) := [reviewed "s2" APPROVE; reviewed "s3" REJECT].
Definition reviewers_done :=
  schedule ([0; 1; 0; 1; 0; 1; 0] ++ replicate 60 0 ++ replicate 10 1)%nat reviewers asked_world.
Lemma reviewers_pool :
  acc_pool nowhere (role_handler "ehte:" no_iso) reviewers asked_world
    reviewers_done.1 reviewers_done.2.
Proof.
  split.
  - apply Forall_cons; split; [apply h_review|].
    apply Forall_cons; split; [apply h_review|]. by apply Forall_nil.
  - rewrite <- (surjective_pairing reviewers_done). apply schedule_steps.
Qed.
Definition new_holder : UserRole := {|
  ur_userId := "m1"; ur_roleId := "fin"; ur_assignedAt := 1000000; ur_assignedBy := Some "s1" |}.

Lemma two_person_rule_witness :
  is_Some (xw_userRoles asked_world !! ("m1", "fin")) ∨ nowhere "fin" ∨
  approved_by_second reviewers_done.2 new_holder.
Proof.
  apply (two_person_rule "ehte:" no_iso nowhere reviewers asked_world reviewers_done.1
    reviewers_done.2 "m1" "fin" new_holder asked_world_inv reviewers_pool).
  - vm_compute. reflexivity.
  - exists "p2", {| pm_id := "p2"; pm_name := "DISBURSEMENTS_EXECUTE"; pm_description := None |}.
    vm_compute. split_and!; [by eexists|reflexivity|reflexivity].
Defined.

Lemma decisions_stay_witness :
  kept_by request_step (xw_requests asked_world !! "q1") (xw_requests rivals_done.2 !! "q1").
Proof.
  refine (proj1 (decisions_stay "ehte:" no_iso nowhere rivals asked_world rivals_done.1
    rivals_done.2 "q1" asked_world_inv rivals_pool _)).
  by apply not_drawn_future.
Defined.

Lemma locked_role_untouched_witness :
  (rl_name <$> xw_roles rivals_done.2 !! "sup") = Some SUPER_ADMIN.
Proof.
  refine (proj1 (locked_role_untouched "ehte:" no_iso nowhere rivals asked_world rivals_done.1
    rivals_done.2 "sup" (acc_role "sup" SUPER_ADMIN) asked_world_inv rivals_pool _ _)).
  - vm_compute. reflexivity.
  - vm_compute. reflexivity.
Defined.

(** The first of the rivals returned; so the second did not. *)
Lemma one_review_witness : rivals_done.1 !! 1%nat ≠ Some (Ret ()).
Proof.
  intros Hsecond.
  assert (0%nat = 1%nat) as Hsame; [|discriminate Hsame].
  refine (one_review "ehte:" no_iso nowhere rivals asked_world rivals_done.1 rivals_done.2 "q1"
    0%nat 1%nat (acc_actor "s2") (acc_actor "s3") APPROVE REJECT (Some "checked") (Some "checked")
    asked_world_inv rivals_pool _ _ _ Hsecond).
  - reflexivity.
  - reflexivity.
  - vm_compute. reflexivity.
Defined.

(** A review that read the request as PENDING and finds it out of time writes EXPIRED
    whatever it is by then: a request that was approved meanwhile, and whose role
    was given out, goes on record as expired. *)
Definition late_first := schedule [1]%nat reviewers asked_world.
Definition late_second := schedule (replicate 70 0%nat) late_first.1 late_first.2.
Definition late_last :=
  schedule [1; 1; 1]%nat late_second.1
    (late_second.2{{xw_now := 1000000 + ASSIGNMENT_REQUEST_TTL_MS}}).
Example late_expiry_overwrites :
  (rq_status <$> xw_requests late_second.2 !! "q1") = Some APPROVED ∧
  (rq_status <$> xw_requests late_last.2 !! "q1") = Some EXPIRED ∧
  is_Some (xw_userRoles late_last.2 !! ("m1", "fin")).
Proof. vm_compute. split_and!; eauto. Qed.

(** The check that a role is not a user's last is not repeated when it is removed:
    two removals at once leave a user without a role. *)
Definition two_roles : AccW :=
  acc_world{{xw_userRoles := list_to_map [holds "m1" "rev"; holds "m1" "desk"] }}.
Definition removals : list (prog AccW ()) :=
  [no_reply (removeFromUser "ehte:" (acc_actor "s1") "rev" "m1" (Some "rotation"));
   no_reply (removeFromUser "ehte:" (acc_actor "s2") "desk" "m1" (Some "rotation"))].
Definition removals_done :=
  schedule ([0; 1; 0; 1] ++ replicate 70 0 ++ replicate 70 1)%nat removals two_roles.
Example racing_removals_leave_none :
  removals_done.1 = [Ret (); Ret ()] ∧ userRoles_of removals_done.2 "m1" = [].
Proof. vm_compute. auto. Qed.
