(* ===== verification/AccessSeq.v ===== *)
(** * Roles and permissions: what each operation does

    The handlers of roles and permissions run alone: the whole effect of a review,
    of a removal and of a change of permissions, and what a request of the user
    that it concerns meets next. *)

From S2P Require Import Prelude Interleave Js Redis Cache CacheProps.
From S2P Require Import Roles Permissions AccessModel RoleService PermissionService Guards.
From S2P Require Import AccessSafety AccessProps.
From stdpp Require Import sorting.
From coqutil Require Import Datatypes.RecordSetters.
Import DoubleBraceUpdate.

Open Scope Z_scope.

(** ** What a program leaves alone *)

(** Everything but Redis, the cache, the draws and the audit. *)
Record kept (w w' : AccW) : Prop := {
  k_roles : xw_roles w' = xw_roles w;
  k_permissions : xw_permissions w' = xw_permissions w;
  k_rolePermissions : xw_rolePermissions w' = xw_rolePermissions w;
  k_userRoles : xw_userRoles w' = xw_userRoles w;
  k_requests : xw_requests w' = xw_requests w;
  k_temporary : xw_temporary w' = xw_temporary w;
  k_users : xw_users w' = xw_users w;
  k_sessions : xw_sessions w' = xw_sessions w;
  k_now : xw_now w' = xw_now w;
}.
#[export] Instance kept_preorder : PreOrder kept.
Proof. split; [by intros w; split|]. intros w1 w2 w3 [] []; split; by etrans. Qed.

Section seq.
Context `{AccLib} (keyPrefix : string).

#[export] Instance kept_outside : OutsideGood (λ _, True) kept.
Proof.
  split; [apply _|intros [] r w _|intros cs w _|intros w _|intros w _]; by split.
Qed.

Lemma run_kept {A} (p : prog AccW A) w :
  calm (λ _, True) kept p → ∃ a w', run p w = (Ok a, w') ∧ kept w w'.
Proof. intros Hp. destruct (run_calm _ _ p w I Hp) as (a&w'&?&_&?). eauto. Qed.

Lemma run_access_emit a w : ∃ w', run (emitAudit a) w = (Ok (), w') ∧ kept w w'.
Proof. eexists. by split. Qed.
Lemma run_audit a b c d e f g h i w :
  ∃ w', run (audit a b c d e f g h i) w = (Ok (), w') ∧ kept w w'.
Proof. apply run_access_emit. Qed.
Lemma run_role_audit a b c d e f g w :
  ∃ w', run (role_audit a b c d e f g) w = (Ok (), w') ∧ kept w w'.
Proof. apply run_access_emit. Qed.
Lemma run_role_denied a b c d e w :
  ∃ w', run (role_denied a b c d e) w = (Ok (), w') ∧ kept w w'.
Proof. apply run_access_emit. Qed.
Lemma run_request_audit a b c d e f g w :
  ∃ w', run (request_audit a b c d e f g) w = (Ok (), w') ∧ kept w w'.
Proof. apply run_access_emit. Qed.

(** The sessions of [us] are closed. *)
Definition without_sessions (us : list string) (w : AccW) : AccW :=
  w{{xw_sessions ::= filter (λ '(_, s), mem (ss_userId s) us = false)}}.

Lemma run_refreshUserAccess u b w :
  ∃ w', run (refreshUserAccess keyPrefix u b) w = (Ok (), w') ∧
    kept (if b then without_sessions [u] w else w) w'.
Proof.
  unfold refreshUserAccess. rewrite run_catch, run_bind. destruct b.
  - rewrite run_bind. unfold session_deleteMany. rewrite run_act, run_ret. cbn [fst snd].
    destruct (run_kept (purgeUserCache keyPrefix u) (without_sessions [u] w)) as ([]&w'&E&K).
    { apply calm_purgeUserCache, _. }
    exists w'. split; [|done]. unfold without_sessions in E. by rewrite E.
  - rewrite run_ret. destruct (run_kept (purgeUserCache keyPrefix u) w) as ([]&w'&E&K).
    { apply calm_purgeUserCache, _. }
    exists w'. by rewrite E.
Qed.

(** ** A review *)

Definition review_granted (a : CurrentUser) (q : Request) (note : option string) (w w' : AccW)
    : Prop :=
  xw_requests w' =
    <[rq_id q := decided APPROVED (cu_id a) (xw_now w) (trimmed_note note) q]> (xw_requests w) ∧
  xw_userRoles w' =
    <[(rq_targetUserId q, rq_roleId q) :=
        {| ur_userId := rq_targetUserId q; ur_roleId := rq_roleId q; ur_assignedAt := xw_now w;
           ur_assignedBy := Some (rq_requestedById q) |}]> (xw_userRoles w).
Definition review_refused (a : CurrentUser) (q : Request) (note : string) (w w' : AccW) : Prop :=
  xw_requests w' =
    <[rq_id q := decided REJECTED (cu_id a) (xw_now w) (Some note) q]> (xw_requests w) ∧
  xw_userRoles w' = xw_userRoles w.
(** Nothing was given out; at most the request is put down as expired. *)
Definition review_failed (id : string) (w w' : AccW) : Prop :=
  xw_userRoles w' = xw_userRoles w ∧
  (xw_requests w' = xw_requests w ∨
   ∃ q, xw_requests w !! id = Some q ∧ rq_expiresAt q <= xw_now w ∧
     xw_requests w' = <[id := q{{rq_status := EXPIRED}}]> (xw_requests w)).

Lemma failed_kept id w w' : kept w w' → review_failed id w w'.
Proof. intros []. split; [done|by left]. Qed.

(** A verified member of the staff who does not hold the role. *)
Definition staff_without (roleId userId : string) (w : AccW) : Prop :=
  ∃ t, loaded_user userId w = Some t ∧ verified_staff t = true ∧ has_role roleId t = false.

(** When a review goes through. *)
Record review_ready (a : CurrentUser) (q : Request) (d : RoleService.Decision) (note : option string)
    (w : AccW) : Prop := {
  rr_pending : has_status PENDING q = true;
  rr_in_time : xw_now w < rq_expiresAt q;
  rr_other : rq_requestedById q ≠ cu_id a;
  rr_role : ∃ r, xw_roles w !! rq_roleId q = Some r ∧ (d = APPROVE → not_assignable r = None);
  rr_decision :
    match d with
    | APPROVE => staff_without (rq_roleId q) (rq_targetUserId q) w
    | REJECT => trim (default "" note) ≠ ""
    end;
}.

Lemma run_reject a q l note w :
  xw_requests w !! rq_id q = Some q → has_status PENDING q = true →
  match run (reject a q (lr_role l) note) w with
  | (Ok s, w') => s = REJECTED ∧ trim (default "" note) ≠ "" ∧
      review_refused a q (trim (default "" note)) w w'
  | (Err _, w') => trim (default "" note) = "" ∧ kept w w'
  end.
Proof.
  intros Hq Hp. unfold reject. cbv zeta. rewrite run_bind, run_throw_if.
  destruct (truthy _) eqn:Ht; cbn [negb]; [|by apply truthy_false in Ht].
  apply truthy_true in Ht.
  unfold now at 1. rewrite run_bind, run_gets, run_bind. unfold request_claim.
  rewrite run_act, Hq, Hp. cbn [fst snd].
  rewrite run_bind, run_throw_if. change (1 =? 0) with false. cbn iota.
  rewrite run_bind.
  match goal with |- context [run (request_audit ?a ?b ?c ?d ?e ?f ?g) ?v] =>
    destruct (run_request_audit a b c d e f g v) as (w'&->&[]) end.
  rewrite run_ret. split_and!; [done|done|by split].
Qed.

Lemma run_loadStaff u w :
  run (loadStaffTargetOrThrow u) w =
  (match loaded_user u w with
   | Some t => if verified_staff t then Ok t else Err (BadRequest "user_not_verified_staff")
   | None => Err (NotFound "user_not_found")
   end, w).
Proof.
  unfold loadStaffTargetOrThrow. rewrite run_bind, run_gets, run_bind, run_require.
  destruct (loaded_user u w) as [t|]; [|done]. cbn [from_option].
  rewrite run_bind, run_throw_if. by destruct (verified_staff t).
Qed.

Lemma run_assertRoleAssignable a r c w :
  match run (assertRoleAssignable a r c) w with
  | (Ok _, w') => not_assignable r = None ∧ w' = w
  | (Err _, w') => not_assignable r ≠ None ∧ kept w w'
  end.
Proof.
  unfold assertRoleAssignable. destruct (not_assignable r); [|done].
  rewrite run_bind. match goal with |- context [run (role_denied ?a ?b ?c ?d ?e) ?v] =>
    destruct (run_role_denied a b c d e v) as (w'&->&K) end. by rewrite run_Throw.
Qed.

(** A role that a user is not seen to hold has no row for them. *)
Lemma not_held u r t w :
  plain_inv w → loaded_user u w = Some t → has_role r t = false → xw_userRoles w !! (u, r) = None.
Proof.
  intros HI Ht Hr. destruct (xw_userRoles w !! (u, r)) as [x|] eqn:Hx; [|done].
  destruct (ai_holders _ _ _ HI u r x Hx) as (Hu&Hr'&_).
  unfold loaded_user in Ht. destruct (xw_users w !! u) as [v|]; [|done]. simplify_eq.
  unfold has_role in Hr. cbn [lu_roleIds] in Hr. apply bool_decide_eq_false in Hr. destruct Hr.
  apply list_elem_of_fmap. exists x. split; [done|]. apply elem_of_rows.
  split; [|by eexists]. by apply bool_decide_eq_true.
Qed.

Lemma run_approve a q l note w :
  plain_inv w → xw_requests w !! rq_id q = Some q → has_status PENDING q = true →
  xw_roles w !! rq_roleId q = Some (lr_role l) →
  match run (approve keyPrefix a q (lr_role l) note) w with
  | (Ok s, w') => s = APPROVED ∧ not_assignable (lr_role l) = None ∧
      staff_without (rq_roleId q) (rq_targetUserId q) w ∧ review_granted a q note w w'
  | (Err _, w') =>
      (not_assignable (lr_role l) ≠ None ∨ ¬ staff_without (rq_roleId q) (rq_targetUserId q) w) ∧
      kept w w'
  end.
Proof.
  intros HI Hq Hp Hl. unfold approve. rewrite run_bind.
  pose proof (run_assertRoleAssignable a (lr_role l) (decision_action APPROVE) w) as Ha.
  destruct (run _ w) as [[[]|e] w1]; [destruct Ha as [Ha ->]|by destruct Ha; split; [left|]].
  rewrite run_bind, run_loadStaff.
  destruct (loaded_user (rq_targetUserId q) w) as [t|] eqn:Ht;
    [|split; [right; intros (t'&?&_); congruence|done]].
  destruct (verified_staff t) eqn:Hv; [|split; [right; intros (t'&?&?&_); congruence|done]].
  rewrite run_bind, run_throw_if.
  destruct (has_role _ t) eqn:Hr; [split; [right; intros (t'&?&_&?); congruence|done]|].
  assert (staff_without (rq_roleId q) (rq_targetUserId q) w) as Hs by by exists t.
  pose proof (not_held _ _ t w HI Ht Hr) as Hno.
  unfold now at 1. rewrite run_bind, run_gets, run_bind, run_transaction, run_bind.
  unfold request_claim. rewrite run_act, Hq, Hp. cbn [fst snd].
  rewrite run_bind, run_throw_if. change (1 =? 0) with false. cbn iota.
  set (w1 := w{{xw_requests ::= _}}). unfold userRole_create. rewrite run_act_outcome.
  change (xw_userRoles w1) with (xw_userRoles w). rewrite Hno.
  change (xw_users w1) with (xw_users w). change (xw_roles w1) with (xw_roles w). rewrite Hl.
  unfold loaded_user in Ht. destruct (xw_users w !! rq_targetUserId q); [|done].
  rewrite bool_decide_eq_false_2 by (by intros []). rewrite !bool_decide_eq_false_2 by done.
  cbn [orb fst snd]. set (w2 := w1{{xw_userRoles ::= _}}).
  rewrite run_bind.
  destruct (run_refreshUserAccess (rq_targetUserId q) false w2) as (w3&->&K3).
  rewrite run_bind.
  match goal with |- context [run (request_audit ?a ?b ?c ?d ?e ?f ?g) ?v] =>
    destruct (run_request_audit a b c d e f g v) as (w4&->&K4) end.
  destruct (transitivity K3 K4). rewrite run_ret. split_and!; [done..|by split].
Qed.

Lemma run_review a id d note w :
  plain_inv w →
  match run (reviewAssignmentRequest keyPrefix a id d note) w with
  | (Ok s, w') => ∃ q, xw_requests w !! id = Some q ∧ review_ready a q d note w ∧
      match d with
      | APPROVE => s = APPROVED ∧ review_granted a q note w w'
      | REJECT => s = REJECTED ∧ review_refused a q (trim (default "" note)) w w'
      end
  | (Err _, w') => (∀ q, xw_requests w !! id = Some q → ¬ review_ready a q d note w) ∧
      review_failed id w w'
  end.
Proof.
  intros HI. unfold reviewAssignmentRequest. rewrite run_bind, run_gets, run_bind, run_require.
  unfold loaded_request. destruct (xw_requests w !! id) as [q|] eqn:Hq; [|by split; [|apply failed_kept]].
  destruct (ai_requests _ _ _ HI id q Hq) as (Hid&_&_). subst id.
  unfold loaded_role. destruct (xw_roles w !! rq_roleId q) as [r|] eqn:Hr;
    [|split; [intros q' [= <-] [_ _ _ (r&?&_) _]; congruence|by apply failed_kept]].
  cbn [from_option]. rewrite run_bind. case_bool_decide as Hself.
  { rewrite run_bind. match goal with |- context [run (request_audit ?a ?b ?c ?d ?e ?f ?g) ?v] =>
      destruct (run_request_audit a b c d e f g v) as (w1&->&K) end. rewrite run_Throw.
    split; [by intros q' [= <-] []|by apply failed_kept]. }
  rewrite run_ret, run_bind, run_throw_if.
  destruct (has_status PENDING q) eqn:Hp; cbn [negb];
    [|split; [intros q' [= <-] []; congruence|by apply failed_kept]].
  unfold now at 1. rewrite run_bind, run_gets, run_bind.
  destruct (Z.leb_spec (rq_expiresAt q) (xw_now w)) as [Hlate|Hin].
  { unfold request_update. rewrite run_bind, run_act_outcome, Hq, run_Throw. cbn [fst snd].
    split; [intros q' [= <-] []; lia|]. split; [done|]. right. eauto. }
  rewrite run_ret. destruct d.
  - pose proof (run_approve a q {| lr_role := r; lr_permissions := permission_names w (rq_roleId q) |}
      note w HI Hq Hp Hr) as Ha. cbn [lr_role] in *.
    destruct (run _ w) as [[s|e] w'].
    + destruct Ha as (->&Hn&Hs&Hg). exists q. split_and!; [done| |done..]. split; eauto.
    + destruct Ha as [Hno K]. split; [|by apply failed_kept].
      intros q' [= <-] [_ _ _ (r'&Hr'&Hok) Hs]. simplify_eq. destruct Hno; auto.
  - pose proof (run_reject a q {| lr_role := r; lr_permissions := permission_names w (rq_roleId q) |}
      note w Hq Hp) as Ha. cbn [lr_role] in *.
    destruct (run _ w) as [[s|e] w'].
    + destruct Ha as (->&Hn&Hg). exists q. split_and!; [done| |done..]. split; eauto. exists r. by split.
    + destruct Ha as [Hno K]. split; [|by apply failed_kept].
      intros q' [= <-] [_ _ _ _ Hs]. done.
Qed.

(** ** Closing sessions *)

(** The tables are the same; sessions may be gone. *)
Record only_sessions (w w' : AccW) : Prop := {
  os_roles : xw_roles w' = xw_roles w;
  os_permissions : xw_permissions w' = xw_permissions w;
  os_rolePermissions : xw_rolePermissions w' = xw_rolePermissions w;
  os_userRoles : xw_userRoles w' = xw_userRoles w;
  os_requests : xw_requests w' = xw_requests w;
  os_temporary : xw_temporary w' = xw_temporary w;
  os_users : xw_users w' = xw_users w;
  os_sessions : xw_sessions w' ⊆ xw_sessions w;
}.
#[export] Instance only_sessions_preorder : PreOrder only_sessions.
Proof. split; [by intros w; split|]. intros w1 w2 w3 [] []; split; by etrans. Qed.
Lemma kept_only_sessions w w' : kept w w' → only_sessions w w'.
Proof. intros []. split; try done. by rewrite k_sessions0. Qed.

(** Nothing is left of a user's sessions, in the table and in the cache. *)
Record closed (u : string) (w : AccW) : Prop := {
  cl_forgets : forgets keyPrefix u w;
  cl_sessions sid s : xw_sessions w !! sid = Some s → ss_userId s ≠ u;
}.
(** No request of the user is let in. *)
Definition locked_out (u : string) (w : AccW) : Prop :=
  ∀ payload, ap_sub payload = u →
    ∃ c, (run (validate keyPrefix payload) w).1 = Err (Unauthorized c).

Lemma run_canUseCache_kept w :
  redis_ok CacheConn w → kept w (run (canUseCache keyPrefix) w).2.
Proof.
  intros _. assert (safe (λ _, True) kept (canUseCache keyPrefix)) as Hs
    by (apply safe_canUseCache; apply _).
  by destruct (rg_run _ _ _ _ (canUseCache keyPrefix) w I (Hs w)) as (_&HR&_).
Qed.

(** What the strategy answers for a session that is not cached. *)
Definition entitled (payload : AccessTokenPayload) (w : AccW) : outcome RequestUser :=
  match ap_sid payload with
  | Some (Str _ _ as sid) =>
      match if live_session (ap_sub payload) sid w then user_auth (ap_sub payload) w else NotAlive with
      | Alive roles permissions =>
          Ok {| rx_user := {| cu_id := ap_sub payload; cu_roles := roles;
                              cu_permissions := permissions |};
                rx_phone := ap_phone payload; rx_sessionId := sid |}
      | NotAlive => Err (Unauthorized "session_revoked")
      end
  | _ => Err (Unauthorized "invalid_token")
  end.

Lemma run_session_source u sid w w' :
  kept w w' →
  (run (session_source u sid) w').1 =
  Ok (session_json (if live_session u sid w then user_auth u w else NotAlive)).
Proof.
  intros K. unfold session_source, loadSessionAuth.
  assert (live_session u sid w' = live_session u sid w) as E
    by (unfold live_session; by rewrite (k_sessions _ _ K), (k_now _ _ K)).
  rewrite !run_bind, run_gets, E. destruct (live_session u sid w); [|done].
  rewrite run_gets. cbn [fst]. do 2 f_equal. unfold user_auth, role_names, userRoles_of,
    permission_names, permissions_of, permission_rows.
  by rewrite (k_users _ _ K), (k_userRoles _ _ K), (k_roles _ _ K), (k_permissions _ _ K),
    (k_rolePermissions _ _ K).
Qed.

Lemma run_validate payload w :
  redis_ok CacheConn w →
  (∀ sid, ap_sid payload = Some sid →
     store_of CacheConn w !! k_sessionAuth keyPrefix (ap_sub payload) sid = None) →
  (run (validate keyPrefix payload) w).1 = entitled payload w.
Proof.
  intros Hok Hc. unfold validate, entitled.
  destruct (ap_sid payload) as [[|c sid]|]; [done| |done].
  rewrite run_bind. unfold wrapSessionAuth.
  pose proof (run_wrap_source keyPrefix (k_sessionAuth keyPrefix (ap_sub payload) (Str c sid))
    (session_source (ap_sub payload) (Str c sid)) TTL_SESSION_AUTH w Hok (Hc _ eq_refl)) as Hw.
  pose proof (run_canUseCache_kept w Hok) as K. cbv zeta in Hw.
  rewrite (run_session_source _ _ w _ K), (run_session_source _ _ w) in Hw
    by (etrans; [exact K|by split]).
  destruct (run (wrap _ _ _ _) w) as [r w']. cbn [fst] in Hw.
  set (auth := if live_session _ _ _ then _ else _) in *.
  assert (r = Ok (session_json auth)) as -> by by destruct Hw.
  cbv iota. rewrite session_json_of. by destruct auth.
Qed.
Lemma closed_locked_out u w : redis_ok CacheConn w → closed u w → locked_out u w.
Proof.
  intros Hok [Hf Hs] payload <-. rewrite run_validate by auto.
  unfold entitled, live_session. destruct (ap_sid payload) as [[|c sid]|]; [by eexists| |by eexists].
  destruct (xw_sessions w !! Str c sid) as [s|] eqn:Hsid; [|by eexists].
  rewrite bool_decide_eq_false_2 by by eapply Hs. by eexists.
Qed.

Lemma without_sessions_only us w : only_sessions w (without_sessions us w).
Proof. split; try done. apply map_filter_subseteq. Qed.
Lemma without_sessions_none us u w sid s :
  u ∈ us → xw_sessions (without_sessions us w) !! sid = Some s → ss_userId s ≠ u.
Proof.
  intros Hu Hs <-. apply map_lookup_filter_Some in Hs as [_ Hs]. by apply mem_true in Hu; rewrite Hu in Hs.
Qed.

(** A purge of the cache, as far as it is seen here. *)
Lemma run_purge_kept u w :
  redis_ok CacheConn w →
  ∃ w', run (purgeUserCache keyPrefix u) w = (Ok (), w') ∧ redis_ok CacheConn w' ∧
    kept w w' ∧ forgets keyPrefix u w' ∧ forgets_more keyPrefix w w'.
Proof.
  intros Hok. destruct (run_purgeUserCache keyPrefix u w Hok) as (w'&E&?&?&?).
  destruct (run_kept (purgeUserCache keyPrefix u) w) as ([]&w2&E2&K).
  { apply calm_purgeUserCache, _. }
  rewrite E in E2. injection E2 as <-. eauto 8.
Qed.

Lemma run_refresh_closed u w :
  redis_ok CacheConn w →
  ∃ w', run (refreshUserAccess keyPrefix u true) w = (Ok (), w') ∧ redis_ok CacheConn w' ∧
    only_sessions w w' ∧ closed u w'.
Proof.
  intros Hok. unfold refreshUserAccess.
  rewrite run_catch, run_bind, run_bind. unfold session_deleteMany. rewrite run_act, run_ret.
  cbn [fst snd]. destruct (run_purge_kept u (without_sessions [u] w)) as (w'&E&Hr&K&F&_); [done|].
  unfold without_sessions in E. rewrite E. exists w'. split_and!; [done|done| |].
  - etrans; [apply (without_sessions_only [u])|by apply kept_only_sessions].
  - split; [done|]. intros sid s Hs. rewrite (k_sessions _ _ K) in Hs.
    eapply (without_sessions_none [u]); [set_solver|exact Hs].
Qed.

(** What is emitted changes nothing else. *)
Lemma closed_emitted u f w : closed u w → closed u (w{{xw_events ::= f}}).
Proof. intros []. by split. Qed.

(** ** A removal *)

Lemma rows_delete {K A} `{Countable K} (P : A → bool) (m : gmap K A) k x :
  m !! k = Some x → P x = true → length (rows P m) = S (length (rows P (delete k m))).
Proof.
  intros Hk HP. unfold rows. rewrite <- (map_to_list_delete m k x Hk), fmap_cons.
  by rewrite filter_cons_True.
Qed.

Definition removal_allowed (r u : string) (reason : option string) (w : AccW) : Prop :=
  is_ok (requireReason reason) = true ∧
  (∃ role, xw_roles w !! r = Some role ∧ isProtected role = false) ∧
  is_Some (xw_userRoles w !! (u, r)) ∧ (1 < length (userRoles_of w u))%nat.

Lemma held_exists r u w :
  plain_inv w → existsb (of_role r) (userRoles_of w u) = true ↔ is_Some (xw_userRoles w !! (u, r)).
Proof.
  intros HI. rewrite existsb_exists. split.
  - intros (x&Hin&Hr). apply list_elem_of_In, elem_of_rows in Hin as [Hu [[u' r'] Hx]].
    destruct (ai_holders _ _ _ HI _ _ x Hx) as (Hu'&Hr'&_).
    apply bool_decide_eq_true in Hu, Hr. simplify_eq. by eexists.
  - intros [x Hx]. destruct (ai_holders _ _ _ HI _ _ x Hx) as (Hu'&Hr'&_). exists x. split.
    + apply list_elem_of_In, elem_of_rows. split; [by apply bool_decide_eq_true|by eexists].
    + by apply bool_decide_eq_true.
Qed.

Lemma run_removeFromUser a r u reason w :
  plain_inv w → redis_ok CacheConn w →
  match run (removeFromUser keyPrefix a r u reason) w with
  | (Ok _, w') => removal_allowed r u reason w ∧
      xw_userRoles w' = delete (u, r) (xw_userRoles w) ∧ closed u w' ∧ redis_ok CacheConn w'
  | (Err _, w') => ¬ removal_allowed r u reason w ∧ kept w w'
  end.
Proof.
  intros HI Hok. unfold removeFromUser, removal_allowed. rewrite run_bind, run_throw_outcome.
  destruct (requireReason reason) as [why|e]; [|by split; [intros (?&_)|]]. cbn iota.
  unfold loadRoleOrThrow at 1. rewrite run_bind, run_bind, run_gets, run_require.
  unfold loaded_role. destruct (xw_roles w !! r) as [role|] eqn:Hr;
    [|by split; [intros (_&(?&?&_)&_); congruence|]].
  cbn [from_option lr_role]. rewrite run_bind. destruct (isProtected role) eqn:Hp.
  { rewrite run_bind. match goal with |- context [run (role_denied ?a ?b ?c ?d ?e) ?v] =>
      destruct (run_role_denied a b c d e v) as (w1&->&K) end. rewrite run_Throw.
    split; [|done]. intros (_&(?&?&?)&_). congruence. }
  rewrite run_ret, run_bind, run_gets, run_bind, run_throw_if.
  pose proof (held_exists r u w HI) as Hheld.
  destruct (existsb _ _); cbn [negb];
    [|by split; [intros (_&_&?%Hheld&_)|]].
  rewrite run_bind. destruct (Nat.leb_spec (length (userRoles_of w u)) 1) as [Hl|Hl].
  { rewrite run_bind. match goal with |- context [run (role_audit ?a ?b ?c ?d ?e ?f ?g) ?v] =>
      destruct (run_role_audit a b c d e f g v) as (w1&->&K) end. rewrite run_Throw.
    split; [|done]. intros (_&_&_&?). lia. }
  rewrite run_ret. unfold now at 1. rewrite run_bind, run_gets, run_bind, run_transaction, run_bind.
  unfold userRole_delete. rewrite run_act_outcome.
  destruct (proj1 Hheld eq_refl) as [x Hx]. rewrite Hx. cbn [fst snd].
  unfold temporary_updateMany. rewrite run_modify. set (w1 := _{{xw_temporary ::= _}}).
  rewrite run_bind. destruct (run_refresh_closed u w1) as (w2&->&Hok2&K2&Hc); [done|].
  unfold role_audit, audit, emitAudit. rewrite run_modify.
  split_and!; [by eauto..| |by apply closed_emitted|done]. apply (os_userRoles _ _ K2).
Qed.

(** [removeFromUser] removes exactly what it was asked to, never a protected role or
    the last role that the user has, and takes effect at once: no token that the
    user was given lets a request through any more. A refusal changes no table. *)
Theorem removal_is_immediate a r u reason w :
  plain_inv w → redis_ok CacheConn w →
  match run (removeFromUser keyPrefix a r u reason) w with
  | (Ok _, w') => removal_allowed r u reason w ∧
      xw_userRoles w' = delete (u, r) (xw_userRoles w) ∧ userRoles_of w' u ≠ [] ∧
      locked_out u w'
  | (Err _, w') => ¬ removal_allowed r u reason w ∧ kept w w'
  end.
Proof.
  intros HI Hok. pose proof (run_removeFromUser a r u reason w HI Hok) as Hrun.
  destruct (run _ w) as [[[]|e] w']; [|done]. destruct Hrun as (Ha&Hd&Hc&Hok').
  split_and!; [done|done| |by apply closed_locked_out].
  destruct Ha as (_&_&[x Hx]&Hl). destruct (ai_holders _ _ _ HI _ _ _ Hx) as (Hu&_&_).
  unfold userRoles_of in *. rewrite Hd. intros Hnil.
  rewrite (rows_delete _ _ _ _ Hx), Hnil in Hl; [cbn in Hl; lia|].
  by apply bool_decide_eq_true.
Qed.

(** [reviewAssignmentRequest], run alone: it goes through exactly when the request is
    pending and in time, the reviewer is not the requester and the decision is
    possible. An approval gives out exactly the role that was asked for, a rejection
    nothing; a refusal at most puts the request down as expired. *)
Theorem review_effect a id d note w :
  plain_inv w →
  match run (reviewAssignmentRequest keyPrefix a id d note) w with
  | (Ok s, w') => ∃ q, xw_requests w !! id = Some q ∧ review_ready a q d note w ∧
      match d with
      | APPROVE => s = APPROVED ∧ review_granted a q note w w'
      | REJECT => s = REJECTED ∧ review_refused a q (trim (default "" note)) w w'
      end
  | (Err _, w') => (∀ q, xw_requests w !! id = Some q → ¬ review_ready a q d note w) ∧
      review_failed id w w'
  end.
Proof. apply run_review. Qed.
End seq.

(** ** Witnesses *)

(** [m1] holds two roles and is signed in; one is taken away. *)
Definition signed_in : AccW :=
  acc_world{{xw_userRoles := list_to_map [holds "m1" "rev"; holds "m1" "desk"] }}.
Lemma signed_in_inv : plain_inv signed_in.
Proof. apply world_ok_inv. vm_compute. reflexivity. Qed.
Lemma signed_in_redis : redis_ok CacheConn signed_in.
Proof. split; reflexivity. Qed.
Definition m1_token : AccessTokenPayload :=
  {| ap_sub := "m1"; ap_phone := ""; ap_sid := Some "t1" |}.
Definition removal : prog AccW () :=
  removeFromUser "ehte:" (acc_actor "s1") "desk" "m1" (Some "rotation").
Example signed_in_before :
  (rx_user <$> match (run (validate "ehte:" m1_token) signed_in).1 with
               | Ok x => Some x | Err _ => None end) =
  Some {| cu_id := "m1"; cu_roles := ["REVIEWER"; "DESK"];
          cu_permissions := ["REPORT_READ"; "POST_READ"] |}.
Proof. vm_compute. reflexivity. Qed.

Lemma removal_is_immediate_witness :
  match run removal signed_in with
  | (Ok _, w') => locked_out "ehte:" "m1" w'
  | (Err _, _) => False
  end.
Proof.
  pose proof (removal_is_immediate "ehte:" (acc_actor "s1") "desk" "m1" (Some "rotation") signed_in
    signed_in_inv signed_in_redis) as Hall.
  assert (Hok : is_ok (run removal signed_in).1 = true) by (vm_compute; reflexivity).
  unfold removal in *.
  destruct (run _ signed_in) as [[x|e] w']; [apply Hall|discriminate Hok].
Defined.

Lemma review_effect_witness :
  match run (reviewAssignmentRequest "ehte:" (acc_actor "s2") "q1" APPROVE None) asked_world with
  | (Ok s, w') => s = APPROVED ∧ review_granted (acc_actor "s2") open_request None asked_world w'
  | (Err _, _) => False
  end.
Proof.
  pose proof (review_effect "ehte:" (acc_actor "s2") "q1" APPROVE None asked_world
    asked_world_inv) as Hall.
  assert (Hok : is_ok (run (reviewAssignmentRequest "ehte:" (acc_actor "s2") "q1" APPROVE None)
    asked_world).1 = true) by (vm_compute; reflexivity).
  destruct (run _ asked_world) as [[x|e] w']; [|discriminate Hok].
  destruct Hall as (q&Hq&_&He).
  assert (Hq1 : xw_requests asked_world !! "q1" = Some open_request) by (vm_compute; reflexivity).
  rewrite Hq1 in Hq. apply (inj Some) in Hq. subst q. exact He.
Defined.
