(* ===== verification/PermissionSeq.v ===== *)
(** * Permissions: what each operation does

    The handlers of permissions run alone: which permissions a role has afterwards,
    who is signed out, and what the guards let through. *)

From S2P Require Import Prelude Interleave Js Redis Cache CacheProps.
From S2P Require Import Roles Permissions AccessModel RoleService PermissionService Guards.
From S2P Require Import AccessSafety AccessProps AccessSeq.
From stdpp Require Import sorting.
From coqutil Require Import Datatypes.RecordSetters.
Import DoubleBraceUpdate.

Open Scope Z_scope.

(** ** Chunks *)

Lemma chunks_concat n fuel xs :
  (0 < n)%nat → (length xs ≤ fuel)%nat → concat (chunks n fuel xs) = xs.
Proof.
  intros Hn. revert xs. induction fuel as [|fuel IH]; intros [|x xs] Hl; cbn in *; try done; [lia|].
  rewrite IH; [apply take_drop|]. rewrite length_drop. cbn. lia.
Qed.

Section seq.
Context `{AccLib} (keyPrefix : string).

(** ** The holders of a role are signed out *)

Lemma run_purges us w :
  redis_ok CacheConn w →
  ∃ w', run (for_each (purgeUserCache keyPrefix) us) w = (Ok (), w') ∧ redis_ok CacheConn w' ∧
    kept w w' ∧ (∀ u, u ∈ us → forgets keyPrefix u w') ∧ forgets_more keyPrefix w w'.
Proof.
  revert w. induction us as [|u us IH]; intros w Hok; cbn [for_each].
  { exists w. split_and!; [done|done|reflexivity|by intros u ?%not_elem_of_nil|by intros v]. }
  destruct (run_purge_kept keyPrefix u w Hok) as (w1&E1&Hok1&K1&F1&M1). rewrite run_bind, E1.
  destruct (IH w1 Hok1) as (w2&E2&Hok2&K2&F2&M2). exists w2. split_and!; [done..|by etrans| |].
  - intros v [->|Hv]%elem_of_cons; [by apply M2|by apply F2].
  - intros v Hv. by apply M2, M1.
Qed.

(** What was closed stays closed while sessions only go. *)
Lemma closed_mono u w w' :
  forgets_more keyPrefix w w' → xw_sessions w' ⊆ xw_sessions w → closed keyPrefix u w →
  closed keyPrefix u w'.
Proof.
  intros HF Hs [Hf Hc]. split; [by apply HF|]. intros sid s Hsid.
  eapply Hc, lookup_weaken; eauto.
Qed.

Lemma run_invalidate_chunks b cs n w :
  redis_ok CacheConn w →
  ∃ m w', run (invalidate_chunks keyPrefix b cs n) w = (Ok (m, false), w') ∧
    redis_ok CacheConn w' ∧ only_sessions w w' ∧ forgets_more keyPrefix w w' ∧
    (b = true → ∀ u, u ∈ concat cs → closed keyPrefix u w').
Proof.
  revert n w. induction cs as [|c cs IH]; intros n w Hok; cbn [invalidate_chunks].
  { exists n, w. split_and!; [done|done|reflexivity|by intros v|by intros _ u ?%not_elem_of_nil]. }
  set (w1 := if b then without_sessions c w else w).
  assert (∃ m, run (if b then session_deleteMany c else mret 0) w = (Ok m, w1)) as [m E]
    by (destruct b; eexists; reflexivity).
  assert (redis_ok CacheConn w1 ∧ only_sessions w w1 ∧ forgets_more keyPrefix w w1) as (Hok1&O1&M1)
    by (destruct b; split_and!; try done; [apply without_sessions_only|by intros v|by intros v]).
  rewrite run_bind, run_attempt, E. cbn [fst snd]. rewrite run_bind, run_attempt.
  destruct (run_purges c w1 Hok1) as (w2&E2&Hok2&K2&F2&M2). rewrite E2. cbn [fst snd is_ok].
  destruct (IH (n + m) w2 Hok2) as (m'&w3&E3&Hok3&O3&M3&C3). exists m', w3.
  pose proof (kept_only_sessions _ _ K2) as O2.
  split_and!; [done..|by etrans; [|etrans]|by intros u Hu; apply M3, M2, M1|].
  intros Hb u [Hu|Hu]%elem_of_app; [|by apply C3].
  apply (closed_mono u w2); [done|apply (os_sessions _ _ O3)|]. split; [by apply F2|].
  intros sid s Hs. rewrite (k_sessions _ _ K2) in Hs. subst b w1.
  by apply (without_sessions_none c u w sid s).
Qed.

Lemma elem_of_holder_ids u r w :
  plain_inv w → u ∈ holder_ids r w ↔ is_Some (xw_userRoles w !! (u, r)).
Proof.
  intros HI. unfold holder_ids. rewrite elem_of_js_set, list_elem_of_fmap. split.
  - intros (x&->&Hx). apply elem_of_rows in Hx as [Hr [[u' r'] Hx]].
    destruct (ai_holders _ _ _ HI _ _ x Hx) as (Hu'&Hr'&_).
    apply bool_decide_eq_true in Hr. simplify_eq. by eexists.
  - intros [x Hx]. destruct (ai_holders _ _ _ HI _ _ x Hx) as (<-&Hr'&_). exists x. split; [done|].
    apply elem_of_rows. split; [by apply bool_decide_eq_true|by eexists].
Qed.

(** All chunks go through; everyone who holds the role is signed out if asked. *)
Lemma run_invalidateRoleHolders r b w :
  redis_ok CacheConn w →
  ∃ m w', run (invalidateRoleHolders keyPrefix r b) w = (Ok m, w') ∧
    iv_invalidationFailed m = false ∧ redis_ok CacheConn w' ∧ only_sessions w w' ∧
    (b = true → ∀ u, u ∈ holder_ids r w → closed keyPrefix u w').
Proof.
  intros Hok. unfold invalidateRoleHolders. rewrite run_bind, run_gets, run_bind.
  edestruct run_invalidate_chunks as (m&w1&E&Hok1&O&_&C); [exact Hok|]. rewrite E, run_ret.
  eexists _, _. split_and!; [reflexivity|done..|].
  rewrite chunks_concat in C by (unfold INVALIDATION_CHUNK_SIZE; lia). exact C.
Qed.

(** ** The permissions of a role *)

Definition granted (w : AccW) (r pid : string) : Prop := is_Some (xw_rolePermissions w !! (r, pid)).

(** Only the permissions of role [r] change. *)
Record only_grants (r : string) (w w' : AccW) : Prop := {
  og_roles : xw_roles w' = xw_roles w;
  og_permissions : xw_permissions w' = xw_permissions w;
  og_userRoles : xw_userRoles w' = xw_userRoles w;
  og_sessions : xw_sessions w' = xw_sessions w;
  og_redis : xw_redis w' = xw_redis w;
  og_others r' pid : r' ≠ r → xw_rolePermissions w' !! (r', pid) = xw_rolePermissions w !! (r', pid);
}.
#[export] Instance only_grants_preorder r : PreOrder (only_grants r).
Proof.
  split; [by intros w; split|]. intros w1 w2 w3 [] []. split; try (by etrans).
  intros r' pid Hne. by etrans; [apply og_others1|apply og_others0].
Qed.

Lemma add_permission_grants r w p :
  only_grants r w (add_permission r w p) ∧
  ∀ pid, granted (add_permission r w p) r pid ↔ granted w r pid ∨ pid = p.
Proof.
  unfold add_permission, granted. destruct (xw_rolePermissions w !! (r, p)) as [x|] eqn:Hx.
  { split; [reflexivity|]. intros pid. split; [by left|]. intros [?| ->]; [done|by rewrite Hx]. }
  split.
  - split; try done. intros r' pid Hne. apply lookup_insert_ne. congruence.
  - intros pid. change (is_Some (<[(r, p) := {| rp_id := acc_uuid (xw_draws w); rp_roleId := r;
      rp_permissionId := p |}]> (xw_rolePermissions w) !! (r, pid)) ↔
      is_Some (xw_rolePermissions w !! (r, pid)) ∨ pid = p).
    rewrite lookup_insert_is_Some. split.
    + intros [[= ->]|[_ ?]]; auto.
    + intros [[y Hy]| ->]; [|by left]. right. split; [|by eexists]. intros [= ->]. congruence.
Qed.

Lemma add_permissions_grants r ids w :
  only_grants r w (foldl (add_permission r) w ids) ∧
  ∀ pid, granted (foldl (add_permission r) w ids) r pid ↔ granted w r pid ∨ pid ∈ ids.
Proof.
  revert w. induction ids as [|p ids IH]; intros w; cbn [foldl].
  { split; [reflexivity|]. intros pid. rewrite elem_of_nil. tauto. }
  destruct (add_permission_grants r w p) as [O1 G1].
  destruct (IH (add_permission r w p)) as [O2 G2]. split; [by etrans|].
  intros pid. rewrite G2, G1, elem_of_cons. tauto.
Qed.

Lemma run_rp_createMany r ids w :
  is_Some (xw_roles w !! r) → (∀ pid, pid ∈ ids → is_Some (xw_permissions w !! pid)) →
  ∃ w', run (rolePermission_createMany r ids) w = (Ok (), w') ∧ only_grants r w w' ∧
    ∀ pid, granted w' r pid ↔ granted w r pid ∨ pid ∈ ids.
Proof.
  intros [q Hq] Hids. unfold rolePermission_createMany. rewrite run_act_outcome, Hq.
  destruct (existsb _ ids) eqn:He.
  - apply existsb_exists in He as (pid&Hin&Hn). apply list_elem_of_In in Hin.
    apply bool_decide_eq_true in Hn. destruct (Hids pid Hin). congruence.
  - rewrite bool_decide_eq_false_2 by done. eexists. split; [reflexivity|].
    apply add_permissions_grants.
Qed.

Lemma run_rp_deleteMany r ids w :
  plain_inv w →
  ∃ n w', run (rolePermission_deleteMany r ids) w = (Ok n, w') ∧ only_grants r w w' ∧
    ∀ pid, granted w' r pid ↔ granted w r pid ∧ pid ∉ ids.
Proof.
  intros HI. unfold rolePermission_deleteMany. rewrite run_act. eexists _, _.
  split; [reflexivity|]. cbn [snd].
  match goal with |- only_grants _ _ ?v ∧ _ => set (w1 := v) end.
  assert (Hf : ∀ r' pid, xw_rolePermissions w1 !! (r', pid) =
    if decide (r' = r ∧ pid ∈ ids) then None else xw_rolePermissions w !! (r', pid)).
  { intros r' pid.
    change (filter (λ '(_, rp), ¬ (rp_roleId rp = r ∧ rp_permissionId rp ∈ ids))
      (xw_rolePermissions w) !! (r', pid) =
      if decide (r' = r ∧ pid ∈ ids) then None else xw_rolePermissions w !! (r', pid)).
    case_decide as Hd.
    - apply map_lookup_filter_None. right. intros x Hx Hno.
      destruct (ai_perms _ _ _ HI _ _ x Hx) as (E1&E2&_). apply Hno. by rewrite E1, E2.
    - destruct (xw_rolePermissions w !! (r', pid)) as [x|] eqn:Hx.
      + apply map_lookup_filter_Some. split; [done|].
        destruct (ai_perms _ _ _ HI _ _ x Hx) as (E1&E2&_). by rewrite E1, E2.
      + apply map_lookup_filter_None. by left. }
  split.
  - split; try done. intros r' pid Hne. rewrite Hf, decide_False; [done|naive_solver].
  - intros pid. unfold granted. rewrite Hf.
    case_decide as Hd; [|naive_solver]. split; [by intros []|naive_solver].
Qed.

Lemma elem_of_permissions_of w r p :
  plain_inv w → p ∈ permissions_of w r ↔ granted w r (pm_id p) ∧ xw_permissions w !! pm_id p = Some p.
Proof.
  intros HI. unfold permissions_of, permission_rows, granted. rewrite list_elem_of_omap. split.
  - intros (x&Hx&Hp). apply elem_of_rows in Hx as [Hr [[r' pid] Hx]].
    destruct (ai_perms _ _ _ HI _ _ x Hx) as (E1&E2&_). apply bool_decide_eq_true in Hr.
    destruct (ai_permission_ids _ _ _ HI _ _ Hp) as [E3 _]. subst r' pid.
    rewrite E3, <- Hr. split; [by eexists|done].
  - intros [[x Hx] Hp]. destruct (ai_perms _ _ _ HI _ _ x Hx) as (E1&E2&_). exists x.
    split; [|by rewrite E2]. apply elem_of_rows. split; [by apply bool_decide_eq_true|by eexists].
Qed.

Lemma elem_of_matching names w p :
  plain_inv w →
  p ∈ matching_permissions names w ↔ xw_permissions w !! pm_id p = Some p ∧ pm_name p ∈ names.
Proof.
  intros HI. unfold matching_permissions. rewrite elem_of_rows, mem_true. split.
  - intros [Hn [pid Hp]]. destruct (ai_permission_ids _ _ _ HI _ _ Hp) as [-> _]. done.
  - intros [Hp Hn]. split; [done|by eexists].
Qed.

(** ** Replacing the permissions of a role *)

Lemma run_delete_some r (ps : list Permission) w :
  plain_inv w →
  ∃ w', run (if bool_decide (ps = []) then mret ()
             else rolePermission_deleteMany r (pm_id <$> ps) ;; mret ()) w = (Ok (), w') ∧
    only_grants r w w' ∧ ∀ pid, granted w' r pid ↔ granted w r pid ∧ pid ∉ pm_id <$> ps.
Proof.
  intros HI. case_bool_decide as Hps.
  - exists w. split_and!; [done|reflexivity|]. intros pid. subst ps. cbn.
    split; [split; [done|apply not_elem_of_nil]|by intros []].
  - destruct (run_rp_deleteMany r (pm_id <$> ps) w HI) as (n&w'&E&O&G). exists w'.
    by rewrite run_bind, E.
Qed.

Lemma run_create_some r (ps : list Permission) w :
  is_Some (xw_roles w !! r) → (∀ p, p ∈ ps → is_Some (xw_permissions w !! pm_id p)) →
  ∃ w', run (if bool_decide (ps = []) then mret ()
             else rolePermission_createMany r (pm_id <$> ps)) w = (Ok (), w') ∧
    only_grants r w w' ∧ ∀ pid, granted w' r pid ↔ granted w r pid ∨ pid ∈ pm_id <$> ps.
Proof.
  intros Hr Hps. case_bool_decide as Hnil.
  - exists w. split_and!; [done|reflexivity|]. intros pid. subst ps. cbn. rewrite elem_of_nil. tauto.
  - apply run_rp_createMany; [done|]. intros pid (p&->&Hp)%list_elem_of_fmap. by apply Hps.
Qed.

Lemma granted_current w r pid :
  plain_inv w → granted w r pid ↔ pid ∈ pm_id <$> permissions_of w r.
Proof.
  intros HI. rewrite list_elem_of_fmap. split.
  - intros [x Hx]. destruct (ai_perms _ _ _ HI _ _ x Hx) as (_&_&_&[p Hp]&_).
    destruct (ai_permission_ids _ _ _ HI _ _ Hp) as [E _]. exists p. split; [done|].
    apply elem_of_permissions_of; [done|]. rewrite E. split; [by eexists|done].
  - intros (p&->&Hp). by apply elem_of_permissions_of in Hp as [? _].
Qed.

Lemma elem_of_without {A} (f : A → string) ids (xs : list A) x :
  x ∈ filter (λ x, mem (f x) ids = false) xs ↔ x ∈ xs ∧ f x ∉ ids.
Proof. rewrite list_elem_of_filter, <- not_true_iff_false, mem_true. tauto. Qed.

Lemma run_replace r target w :
  plain_inv w → is_Some (xw_roles w !! r) →
  (∀ p, p ∈ target → is_Some (xw_permissions w !! pm_id p)) →
  ∃ toAdd toRemove w', run (replace_permissions r target) w = (Ok (toAdd, toRemove), w') ∧
    only_grants r w w' ∧ (∀ pid, granted w' r pid ↔ pid ∈ pm_id <$> target) ∧
    (toRemove = [] → ∀ pid, granted w r pid → granted w' r pid).
Proof.
  intros HI Hr Hps. unfold replace_permissions. rewrite run_bind, run_gets.
  set (toAdd := filter _ target). set (toRemove := filter _ (permissions_of w r)).
  assert (HA : ∀ p, p ∈ toAdd ↔ p ∈ target ∧ pm_id p ∉ pm_id <$> permissions_of w r)
    by apply (elem_of_without pm_id).
  assert (HR : ∀ p, p ∈ toRemove ↔ p ∈ permissions_of w r ∧ pm_id p ∉ pm_id <$> target)
    by apply (elem_of_without pm_id).
  rewrite run_bind. destruct (run_delete_some r toRemove w HI) as (w1&->&O1&G1).
  rewrite run_bind. destruct (run_create_some r toAdd w1) as (w2&->&O2&G2).
  { by rewrite (og_roles _ _ _ O1). }
  { rewrite (og_permissions _ _ _ O1). intros p [Hp _]%HA. by apply Hps. }
  assert (∀ pid, granted w2 r pid ↔ pid ∈ pm_id <$> target) as G.
  { intros pid. rewrite G2, G1, (granted_current w r pid HI), !list_elem_of_fmap.
    setoid_rewrite HA. setoid_rewrite HR. split.
    - intros [[(p&Hp&Hin) Hno]|(p&->&Hin&_)]; [|by exists p].
      destruct (decide (pid ∈ pm_id <$> target)) as [Ht|Ht]; [by apply list_elem_of_fmap in Ht|].
      destruct Hno. exists p. subst pid. done.
    - intros (p&->&Hin).
      destruct (decide (pm_id p ∈ pm_id <$> permissions_of w r)) as [Hc|Hc].
      + left. split; [by apply list_elem_of_fmap in Hc as (p'&?&?); exists p'|].
        intros (p'&E&_&Hn). apply Hn. rewrite <- E. by apply list_elem_of_fmap_2.
      + right. by exists p. }
  eexists _, _, w2. split_and!; [reflexivity|by etrans|done|].
  intros Hnil pid Hg. apply G2. left. apply G1. split; [done|]. rewrite Hnil. apply not_elem_of_nil.
Qed.

Lemma run_findForRole r w :
  run (findForRole r) w =
  (match xw_roles w !! r with
   | Some _ => Ok (by_name db_before pm_name (permissions_of w r))
   | None => Err (NotFound "role_not_found")
   end, w).
Proof.
  unfold findForRole, role_by_id. rewrite run_bind, run_gets, run_bind, run_require.
  destruct (xw_roles w !! r); [|done]. cbn [from_option]. by rewrite run_gets.
Qed.

(** The guards that all writes begin with. *)
Lemma run_loadRole a r c w :
  (∃ q n, xw_roles w !! r = Some q ∧ run (A := Role * Z) (loadRole a r c) w = (Ok (q, n), w)) ∨
  (∃ e w', xw_roles w !! r = None ∧ run (A := Role * Z) (loadRole a r c) w = (Err e, w') ∧ kept w w').
Proof.
  unfold loadRole, RoleWithCount. rewrite run_bind, run_gets. unfold counted_role.
  destruct (xw_roles w !! r) as [q|]; [left; by eexists _, _|right].
  rewrite run_bind. unfold audit, emitAudit. rewrite run_modify, run_Throw.
  eexists _, _. split_and!; [done..|by split].
Qed.
Lemma run_editable a q c ns w :
  match run (assertPermissionsEditable a q c ns) w with
  | (Ok _, w') => isPermissionLockedRole (rl_name q) = false ∧ w' = w
  | (Err _, w') => isPermissionLockedRole (rl_name q) = true ∧ kept w w'
  end.
Proof.
  unfold assertPermissionsEditable. destruct (isPermissionLockedRole (rl_name q)); [|done].
  cbn [negb]. rewrite run_bind. unfold role_audit, audit, emitAudit. rewrite run_modify, run_Throw.
  split; [done|by split].
Qed.
(** All of the names are known. *)
Definition known (names : list string) (w : AccW) : Prop :=
  ∀ n, n ∈ names → ∃ pid p, xw_permissions w !! pid = Some p ∧ pm_name p = n.
Lemma run_resolve a q names c w :
  match run (resolvePermissionsOrThrow a q names c) w with
  | (Ok ps, w') => known names w ∧ ps = matching_permissions names w ∧ w' = w
  | (Err _, w') => ¬ known names w ∧ kept w w'
  end.
Proof.
  unfold resolvePermissionsOrThrow. rewrite run_bind, run_gets.
  set (missing := filter _ names).
  assert (Hk : known names w ↔ missing = []).
  { unfold missing. transitivity (∀ n, n ∈ names → n ∈ pm_name <$> matching_permissions names w).
    - unfold known, matching_permissions. setoid_rewrite list_elem_of_fmap.
      setoid_rewrite elem_of_rows. setoid_rewrite mem_true. split.
      + intros Hall n Hn. destruct (Hall n Hn) as (pid&p&Hp&<-). eauto.
      + intros Hall n Hn. destruct (Hall n Hn) as (p&->&_&pid&Hp). eauto.
    - split.
      + intros Hall. apply elem_of_nil_inv. intros n [Hn Hno]%(elem_of_without id). by apply Hno, Hall.
      + intros Hnil n Hn. destruct (decide (n ∈ pm_name <$> matching_permissions names w)) as [|Hno];
          [done|]. assert (n ∈ []) as ?%not_elem_of_nil; [|done].
        rewrite <- Hnil. by apply (elem_of_without id). }
  case_bool_decide as Hm; [by rewrite run_ret; split; [apply Hk|]|].
  rewrite run_bind. unfold role_audit, audit, emitAudit. rewrite run_modify, run_Throw.
  split; [by rewrite Hk|by split].
Qed.

Definition editable (r : string) (w : AccW) : Prop :=
  ∃ q, xw_roles w !! r = Some q ∧ isPermissionLockedRole (rl_name q) = false.

(** The guards of a write on the permissions of a role: it stops there, or goes on
    with the role in the same world. *)
Lemma run_guards {A} (P : outcome A * AccW → Prop) a r c names (k : Role → Z → prog AccW A) w :
  (∀ e w', ¬ editable r w → kept w w' → P (Err e, w')) →
  (∀ q n, xw_roles w !! r = Some q → editable r w → P (run (k q n) w)) →
  P (run (loaded ← loadRole a r c;
          let '(role, count) := loaded in
          assertPermissionsEditable a role c names ;; k role count) w).
Proof.
  intros Hstop Hgo. rewrite run_bind.
  destruct (run_loadRole a r c w) as [(q&n&Hq&->)|(e&w1&Hq&->&K)];
    [|apply Hstop; [intros (q&?&_); congruence|done]].
  rewrite run_bind. pose proof (run_editable a q c names w) as He.
  destruct (run (assertPermissionsEditable a q c names) w) as [[[]|e] w1]; destruct He as [He K].
  - subst w1. apply Hgo; [done|by exists q].
  - apply Hstop; [|done]. intros (q'&?&?). congruence.
Qed.

(** Signing out the holders of a role after its permissions changed. *)
Lemma run_sign_out {A} (Q : A → AccW → Prop) r b (k : InvalidationResult → prog AccW A) w w1 :
  plain_inv w → redis_ok CacheConn w1 → only_grants r w w1 →
  (∀ m v, only_sessions w1 v → ∃ es x, run (k m) v = (Ok x, v{{xw_events := es}}) ∧
     Q x (v{{xw_events := es}})) →
  ∃ x v', run (m ← invalidateRoleHolders keyPrefix r b; k m) w1 = (Ok x, v') ∧
    only_sessions w1 v' ∧ Q x v' ∧
    (b = true → ∀ u, is_Some (xw_userRoles w !! (u, r)) → locked_out keyPrefix u v').
Proof.
  intros HI Hok O Hk. destruct (run_invalidateRoleHolders r b w1 Hok)
    as (m&v&E&_&Hokv&Ov&Cv). rewrite run_bind, E.
  destruct (Hk m v Ov) as (es&x&E'&HQ). eexists x, _. split_and!; [exact E'| |exact HQ|].
  { etrans; [exact Ov|]. by split. }
  intros Hb u Hu. apply closed_locked_out; [done|]. apply closed_emitted, Cv; [done|].
  apply (elem_of_holder_ids u r w HI) in Hu.
  unfold holder_ids, holders_of in *. by rewrite (og_userRoles _ _ _ O).
Qed.

(** ** [setForRole] *)

(** The named permissions are there. *)
Definition permitted (names : list string) (w : AccW) (pid : string) : Prop :=
  ∃ p, xw_permissions w !! pid = Some p ∧ pm_name p ∈ names.

Lemma permitted_matching names w pid :
  plain_inv w → permitted names w pid ↔ pid ∈ pm_id <$> matching_permissions names w.
Proof.
  intros HI. rewrite list_elem_of_fmap. split.
  - intros (p&Hp&Hn). destruct (ai_permission_ids _ _ _ HI _ _ Hp) as [E _]. exists p.
    split; [done|]. apply elem_of_matching; [done|]. by rewrite E.
  - intros (p&->&Hp). apply elem_of_matching in Hp as [Hp Hn]; [|done]. by exists p.
Qed.

(** Exactly the named permissions afterwards; other roles and their holders stay. *)
Record set_exactly (r : string) (names : list string) (w w' : AccW) : Prop := {
  se_granted pid : granted w' r pid ↔ permitted names w pid;
  se_others r' pid : r' ≠ r → xw_rolePermissions w' !! (r', pid) = xw_rolePermissions w !! (r', pid);
  se_roles : xw_roles w' = xw_roles w;
  se_permissions : xw_permissions w' = xw_permissions w;
  se_holders : xw_userRoles w' = xw_userRoles w;
}.
Lemma set_exactly_from r names w w1 w2 :
  plain_inv w → only_grants r w w1 →
  (∀ pid, granted w1 r pid ↔ pid ∈ pm_id <$> matching_permissions names w) →
  only_sessions w1 w2 → set_exactly r names w w2.
Proof.
  intros HI O HG S. pose proof (os_rolePermissions _ _ S) as Ep.
  split; rewrite ?(os_roles _ _ S), ?(os_permissions _ _ S), ?(os_userRoles _ _ S); try apply O.
  - intros pid. unfold granted. rewrite Ep, (permitted_matching names w pid HI). apply HG.
  - intros r' pid Hne. rewrite Ep. by apply O.
Qed.

(** What a loss of permissions entails. *)
Definition losers_out (r : string) (w w' : AccW) : Prop :=
  (∃ pid, granted w r pid ∧ ¬ granted w' r pid) →
  ∀ u, is_Some (xw_userRoles w !! (u, r)) → locked_out keyPrefix u w'.

Definition retry : exn := Conflict "concurrent_permission_update_retry".

Lemma run_serializable {A} (p : prog AccW A) w :
  run (serializable p) w =
  (let w1 := w{{xw_conflicts ::= @tail bool}} in
   if hd false (xw_conflicts w) then (Err P2034, w1) else run (transaction p) w1).
Proof.
  unfold serializable. rewrite run_bind, run_act, run_bind, run_throw_if. cbn [fst snd].
  by destruct (hd false (xw_conflicts w)).
Qed.

Lemma run_setForRole a r names w :
  plain_inv w → redis_ok CacheConn w →
  match run (setForRole keyPrefix a r names) w with
  | (Ok ps, w') => editable r w ∧ known names w ∧ set_exactly r names w w' ∧ losers_out r w w' ∧
      ps = by_name db_before pm_name (permissions_of w' r)
  | (Err e, w') => (¬ editable r w ∨ ¬ known names w ∨ e = retry) ∧ kept w w'
  end.
Proof.
  intros HI Hok. pattern (run (setForRole keyPrefix a r names) w). unfold setForRole.
  apply run_guards; [by auto|intros q n Hq He].
  rewrite run_bind. pose proof (run_resolve a q names "PERMISSIONS_SET_REPLACED" w) as Hr.
  destruct (run _ w) as [[target|e] w1]; [|by destruct Hr; auto].
  destruct Hr as (Hk&->&->). rewrite run_bind, run_catch, run_serializable. cbv zeta.
  set (w1 := w{{xw_conflicts ::= @tail bool}}).
  assert (HI1 : plain_inv w1) by by destruct HI; split.
  destruct (hd false (xw_conflicts w)).
  { change (has_code "P2034" P2034) with true. cbv iota. rewrite run_bind.
    unfold audit, emitAudit. rewrite run_modify, run_Throw. split; [by auto|by split]. }
  rewrite run_transaction.
  destruct (run_replace r (matching_permissions names w) w1)
    as (toAdd&toRemove&w2&->&O&HG&Hlost); [done|by eexists| |].
  { intros p [Hp _]%elem_of_matching; [by eexists|done]. }
  assert (O' : only_grants r w w2) by by etrans; [|exact O].
  assert (Hq2 : xw_roles w2 !! r = Some q) by by rewrite (og_roles _ _ _ O).
  destruct (bool_decide (toAdd = []) && bool_decide (toRemove = [])) eqn:Hnone.
  - apply andb_prop in Hnone as [_ Hnone%bool_decide_eq_true].
    rewrite run_findForRole, Hq2. split_and!; [done|done| | |done].
    + by apply (set_exactly_from r names w w2).
    + intros (pid&Hg&Hng). by destruct Hng; apply Hlost.
  - edestruct (run_sign_out (λ x v, x = by_name db_before pm_name (permissions_of v r)) r
      (negb (bool_decide (toRemove = [])))) as (x&v&E&S&->&Hout);
      [exact HI| |exact O'| |rewrite E].
    + unfold redis_ok in *. cbn [redis_of AccW_redis]. by rewrite (og_redis _ _ _ O').
    + intros m v Sv. eexists _, _. unfold audit, emitAudit. rewrite run_bind, run_modify, run_findForRole.
      match goal with |- context [xw_roles ?v' !! r] => change (xw_roles v') with (xw_roles v) end.
      rewrite (os_roles _ _ Sv), Hq2. split; reflexivity.
    + split_and!; [done|done|by apply (set_exactly_from r names w w2)| |done].
      intros (pid&Hg&Hng). apply Hout. case_bool_decide as Hnil; [|done].
      destruct Hng. destruct (Hlost Hnil pid Hg) as [y Hy]. exists y.
      by rewrite (os_rolePermissions _ _ S).
Qed.

(** ** [revokeFromRole] *)

Definition permission_named (n : string) (w : AccW) : option Permission :=
  find_row (λ p, bool_decide (pm_name p = n)) (xw_permissions w).

Lemma run_rp_delete r pid rp w :
  plain_inv w → xw_rolePermissions w !! (r, pid) = Some rp →
  ∃ w', run (rolePermission_delete (rp_id rp)) w = (Ok (), w') ∧ only_grants r w w' ∧
    ∀ pid', granted w' r pid' ↔ granted w r pid' ∧ pid' ≠ pid.
Proof.
  intros HI Hrp. unfold rolePermission_delete. rewrite run_act_outcome.
  destruct (find_row _ (xw_rolePermissions w)) as [x|] eqn:Hx.
  - apply find_row_Some in Hx as [Hid%bool_decide_eq_true [k Hk]].
    pose proof (ai_rp_ids _ _ _ HI k (r, pid) x rp Hk Hrp Hid) as ->.
    destruct (ai_perms _ _ _ HI _ _ x Hk) as (->&->&_). eexists. split; [reflexivity|]. split.
    + split; try done. intros r' pid' Hne. apply lookup_delete_ne. congruence.
    + intros pid'. etrans; [apply lookup_delete_is_Some|]. unfold granted. naive_solver.
  - rewrite find_row_None in Hx. specialize (Hx _ _ Hrp). by apply bool_decide_eq_false in Hx.
Qed.

Lemma run_revokeFromRole a r n w :
  plain_inv w → redis_ok CacheConn w →
  match run (revokeFromRole keyPrefix a r n) w with
  | (Ok _, w') => editable r w ∧ (∃ p, permission_named n w = Some p ∧ granted w r (pm_id p) ∧
      (∀ pid, granted w' r pid ↔ granted w r pid ∧ pid ≠ pm_id p)) ∧
      (∀ r' pid, r' ≠ r → xw_rolePermissions w' !! (r', pid) = xw_rolePermissions w !! (r', pid)) ∧
      (∀ u, is_Some (xw_userRoles w !! (u, r)) → locked_out keyPrefix u w')
  | (Err e, w') => (editable r w → ∀ p, permission_named n w = Some p → ¬ granted w r (pm_id p)) ∧
      kept w w'
  end.
Proof.
  intros HI Hok. pattern (run (revokeFromRole keyPrefix a r n) w). unfold revokeFromRole.
  apply run_guards; [by intros e w' Hn K; split; [intros ?|]|intros q c Hq He].
  unfold permission_by_name. cbv zeta. rewrite run_bind, run_gets.
  fold (permission_named n w). destruct (permission_named n w) as [p|] eqn:Hp.
  2:{ rewrite run_bind. unfold audit, emitAudit. rewrite run_modify, run_Throw. by split; [|split]. }
  rewrite run_bind, run_gets. destruct (xw_rolePermissions w !! (r, pm_id p)) as [rp|] eqn:Hrp.
  2:{ rewrite run_bind. unfold audit, emitAudit. rewrite run_modify, run_Throw. split; [|by split].
      intros _ p' [= <-] [x Hx]. congruence. }
  rewrite run_bind, run_catch. destruct (run_rp_delete r (pm_id p) rp w HI Hrp) as (w1&->&O&HG).
  edestruct (run_sign_out (λ (_ : ()) _, True) r true) as (x&v&E&S&_&Hout);
    [exact HI| |exact O| |rewrite E].
  - unfold redis_ok in *. cbn [redis_of AccW_redis]. by rewrite (og_redis _ _ _ O).
  - intros m v Sv. eexists _, _. split; [reflexivity|done].
  - split_and!; [done| | |by apply Hout].
    + exists p. split_and!; [done|by eexists|]. intros pid. rewrite <- HG. unfold granted.
      by rewrite (os_rolePermissions _ _ S).
    + intros r' pid Hne. rewrite (os_rolePermissions _ _ S). by apply O.
Qed.
End seq.

Section theorems.
Context `{AccLib} `{!Inj (=) (=) acc_uuid} (keyPrefix : string).

(** [setForRole]: it goes through exactly for a role that is not locked and names
    that are all known, unless the database refuses the transaction. Then the role
    has exactly the named permissions, which are the answer; other roles keep
    theirs; and if the role lost any, everyone who holds it is signed out: no token
    of theirs lets a request through. *)
Theorem setForRole_exact a r names w :
  plain_inv w → redis_ok CacheConn w →
  match run (setForRole keyPrefix a r names) w with
  | (Ok ps, w') => editable r w ∧ known names w ∧ set_exactly r names w w' ∧
      losers_out keyPrefix r w w' ∧
      ∀ p, p ∈ ps ↔ xw_permissions w !! pm_id p = Some p ∧ pm_name p ∈ names
  | (Err e, w') => (¬ editable r w ∨ ¬ known names w ∨ e = retry) ∧ kept w w'
  end.
Proof.
  intros HI Hok. pose proof (run_setForRole keyPrefix a r names w HI Hok) as Hrun.
  assert (safe plain_inv (acc_rel (λ _, False) (λ _, False)) (setForRole keyPrefix a r names)) as Hs
    by (apply ok_setForRole; auto).
  destruct (rg_run _ _ _ _ (setForRole keyPrefix a r names) w HI (Hs w)) as (HI'&_&_).
  destruct (run (setForRole keyPrefix a r names) w) as [[ps|e] w']; [|done].
  destruct Hrun as (He&Hk&HS&Hl&->). split_and!; [done..|]. intros p.
  unfold by_name. rewrite merge_sort_Permutation, elem_of_permissions_of by done.
  rewrite (se_granted _ _ _ _ HS), (se_permissions _ _ _ _ HS). split.
  - intros [(p'&Hp'&Hn) Hp]. by simplify_eq.
  - intros [Hp Hn]. split; [by exists p|done].
Qed.

(** [revokeFromRole]: when it returns, the role has lost exactly the named
    permission, other roles nothing, and everyone who holds the role is signed out.
    It fails, and changes nothing, only if the role is locked or unknown or does not
    have that permission. *)
Theorem revocation_is_immediate a r n w :
  plain_inv w → redis_ok CacheConn w →
  match run (revokeFromRole keyPrefix a r n) w with
  | (Ok _, w') => editable r w ∧ (∃ p, permission_named n w = Some p ∧ granted w r (pm_id p) ∧
      (∀ pid, granted w' r pid ↔ granted w r pid ∧ pid ≠ pm_id p)) ∧
      (∀ r' pid, r' ≠ r → xw_rolePermissions w' !! (r', pid) = xw_rolePermissions w !! (r', pid)) ∧
      (∀ u, is_Some (xw_userRoles w !! (u, r)) → locked_out keyPrefix u w')
  | (Err e, w') => (editable r w → ∀ p, permission_named n w = Some p → ¬ granted w r (pm_id p)) ∧
      kept w w'
  end.
Proof. apply run_revokeFromRole. Qed.
End theorems.

(** ** What a request is let in for *)

(** The guards of a handler, one after the other: the token strategy, then the
    permissions that the handler asks for. *)
Definition authorize `{AccLib} (keyPrefix : string) (required : list string)
    (payload : AccessTokenPayload) : prog AccW RequestUser :=
  user ← validate keyPrefix payload;
  throw_outcome (PermissionsGuard_canActivate (Some required)
    (Some (cu_permissions (rx_user user)))) ;;
  mret user.

Lemma PermissionsGuard_allows required held :
  is_ok (PermissionsGuard_canActivate (Some required) (Some held)) = true ↔
  ∀ p, p ∈ required → normalize p ∈ normalize <$> held.
Proof.
  destruct required as [|p ps]; [split; [by intros _ p ?%not_elem_of_nil|done]|].
  destruct held as [|h hs].
  { split; [done|]. intros Hall. by specialize (Hall p ltac:(left)) as ?%not_elem_of_nil. }
  unfold PermissionsGuard_canActivate. destruct (forallb _ _) eqn:Hf.
  - rewrite forallb_forall in Hf. split; [|done]. intros _ q Hq%list_elem_of_In%Hf. by apply mem_true in Hq.
  - split; [done|]. intros Hall. rewrite <- not_true_iff_false, forallb_forall in Hf.
    destruct Hf. intros q Hq%list_elem_of_In. by apply mem_true, Hall.
Qed.

Section access.
Context `{AccLib} (keyPrefix : string).

(** The permissions of all roles of a user. *)
Definition held_permissions (u : string) (w : AccW) : list string :=
  js_set (userRoles_of w u ≫= λ ur, permission_names w (ur_roleId ur)).

Lemma elem_of_held_permissions u w n :
  plain_inv w → n ∈ held_permissions u w ↔
  ∃ r p, is_Some (xw_userRoles w !! (u, r)) ∧ granted w r (pm_id p) ∧
    xw_permissions w !! pm_id p = Some p ∧ pm_name p = n.
Proof.
  intros HI. unfold held_permissions. rewrite elem_of_js_set, list_elem_of_bind. split.
  - intros (ur&(p&->&Hp)%list_elem_of_fmap&Hur). apply elem_of_rows in Hur as [Hu [[u' r] Hk]].
    destruct (ai_holders _ _ _ HI _ _ ur Hk) as (E1&E2&_). apply bool_decide_eq_true in Hu.
    apply elem_of_permissions_of in Hp as [Hg Hp]; [|done].
    exists (ur_roleId ur), p. split_and!; [|done..]. simplify_eq. by eexists.
  - intros (r&p&[ur Hk]&Hg&Hp&<-). destruct (ai_holders _ _ _ HI _ _ ur Hk) as (E1&E2&_).
    exists ur. split.
    + apply list_elem_of_fmap. exists p. split; [done|]. rewrite E2. by apply elem_of_permissions_of.
    + apply elem_of_rows. split; [by apply bool_decide_eq_true|by eexists].
Qed.

Definition is_active (u : string) (w : AccW) : Prop :=
  ∃ x, xw_users w !! u = Some x ∧ xu_isActive x = true.


(** Let in, with [required] permissions asked for, while nothing of the session is
    cached. *)
Definition let_in (required : list string) (payload : AccessTokenPayload) (w : AccW) : Prop :=
  ∃ sid, ap_sid payload = Some sid ∧ sid ≠ "" ∧ live_session (ap_sub payload) sid w = true ∧
    is_active (ap_sub payload) w ∧
    ∀ n, n ∈ required → ∃ r p, is_Some (xw_userRoles w !! (ap_sub payload, r)) ∧
      granted w r (pm_id p) ∧ xw_permissions w !! pm_id p = Some p ∧
      normalize (pm_name p) = normalize n.

(** C26: A request is let in exactly when its session is live, its user active, and every
    permission that is asked for comes with a role that the user holds: asked of the
    tables, if Redis is connected and holds nothing of the session. *)
Theorem authorize_exact required payload w :
  plain_inv w → redis_ok CacheConn w →
  (∀ sid, store_of CacheConn w !! k_sessionAuth keyPrefix (ap_sub payload) sid = None) →
  is_ok (run (authorize keyPrefix required payload) w).1 = true ↔ let_in required payload w.
Proof.
  intros HI Hok Hc. unfold authorize. rewrite run_bind.
  pose proof (run_validate keyPrefix payload w Hok ltac:(auto)) as Hv.
  destruct (run (validate keyPrefix payload) w) as [res w1]. cbn [fst] in Hv. subst res.
  unfold entitled, let_in. destruct (ap_sid payload) as [[|c sid]|];
    [split; [done|by intros (?&[= <-]&?&_)]| |split; [done|by intros (?&?&_)]].
  destruct (live_session _ _ w) eqn:Hl.
  2:{ split; [done|]. intros (?&[= <-]&_&?&_). congruence. }
  unfold user_auth. destruct (xw_users w !! ap_sub payload) as [x|] eqn:Hx.
  2:{ split; [done|]. intros (?&_&_&_&(x&?&_)&_). congruence. }
  destruct (xu_isActive x) eqn:Ha.
  2:{ split; [done|]. intros (?&_&_&_&(y&?&?)&_). congruence. }
  rewrite run_bind, run_throw_outcome. cbn [rx_user cu_permissions].
  fold (held_permissions (ap_sub payload) w).
  transitivity (∀ n, n ∈ required → normalize n ∈ normalize <$> held_permissions (ap_sub payload) w).
  { rewrite <- PermissionsGuard_allows. by destruct (PermissionsGuard_canActivate _ _). }
  split.
  - intros Hall. eexists. split_and!; [done|done|done|by exists x|]. intros n Hn.
    specialize (Hall n Hn) as (m&E&Hm)%list_elem_of_fmap.
    apply (elem_of_held_permissions _ w _ HI) in Hm as (r&p&?&?&?&<-). by exists r, p.
  - intros (_&_&_&_&_&Hall) n Hn. destruct (Hall n Hn) as (r&p&?&?&?&E).
    rewrite <- E. apply list_elem_of_fmap_2, elem_of_held_permissions; [done|]. by exists r, p.
Qed.
End access.

(** ** Duties *)

(** No role made from a template can do both halves of a duty rule, and templates
    name known permissions only. *)
Lemma templates_conflict_free t :
  t ∈ ROLE_TEMPLATES → findDutyConflicts (tp_permissions t) = [].
Proof.
  revert t. apply Forall_forall.
  refine (bool_decide_unpack (Forall (λ t, findDutyConflicts (tp_permissions t) = [])
    ROLE_TEMPLATES) _). by vm_compute.
Qed.
Lemma templates_known t n : t ∈ ROLE_TEMPLATES → n ∈ tp_permissions t → n ∈ PermissionsEnum.
Proof.
  intros Ht. revert n. apply Forall_forall. revert t Ht. apply Forall_forall.
  refine (bool_decide_unpack (Forall (λ t, Forall (λ n, n ∈ PermissionsEnum) (tp_permissions t))
    ROLE_TEMPLATES) _). by vm_compute.
Qed.

Lemma filter_all {A} (P : A → Prop) `{!∀ x, Decision (P x)} (xs : list A) :
  Forall P xs → filter P xs = xs.
Proof. induction 1; [done|]. rewrite filter_cons_True by done. by f_equal. Qed.

(** The last filter of [conflicts] drops nothing: who conflicts across roles has more
    than one. *)
Lemma conflicts_filter_vacuous keys roles users :
  filter (λ e, (1 < length (cf_roles e))%nat ∨ keys = ([] : list (string * (string * string))))
    (all_across roles users) = all_across roles users.
Proof.
  apply filter_all. apply Forall_forall. intros e [_ He]%list_elem_of_filter. left.
  apply list_elem_of_fmap in He as (x&->&[Hx _]%list_elem_of_filter). exact Hx.
Qed.

(** ** Witnesses *)

Definition narrowed : prog AccW (list Permission) :=
  setForRole "ehte:" (acc_actor "s1") "desk" ["REPORT_READ"].
Definition revoked : prog AccW () := revokeFromRole "ehte:" (acc_actor "s1") "desk" "POST_READ".

Lemma m1_holds_desk : is_Some (xw_userRoles signed_in !! ("m1", "desk")).
Proof. vm_compute. eauto. Qed.

Lemma setForRole_exact_witness :
  match run narrowed signed_in with
  | (Ok _, w') => locked_out "ehte:" "m1" w' ∧ ∀ pid, granted w' "desk" pid ↔
      permitted ["REPORT_READ"] signed_in pid
  | (Err _, _) => False
  end.
Proof.
  pose proof (setForRole_exact "ehte:" (acc_actor "s1") "desk" ["REPORT_READ"] signed_in
    signed_in_inv signed_in_redis) as Hall.
  assert (Hok : is_ok (run narrowed signed_in).1 = true) by (vm_compute; reflexivity).
  unfold narrowed in *. destruct (run _ signed_in) as [[x|e] w']; [|discriminate Hok].
  destruct Hall as (_&_&Hs&Hl&_). split; [|apply Hs].
  apply Hl; [|apply m1_holds_desk]. exists "p3". split; [vm_compute; eauto|].
  intros Hg. apply (se_granted _ _ _ _ Hs) in Hg as (p&Hp&Hn).
  assert (Hp3 : xw_permissions signed_in !! "p3" = Some {| pm_id := "p3"; pm_name := "POST_READ";
    pm_description := None |}) by (vm_compute; reflexivity).
  rewrite Hp3 in Hp. apply (inj Some) in Hp. subst p.
  apply list_elem_of_singleton in Hn. discriminate Hn.
Defined.

Lemma revocation_is_immediate_witness :
  match run revoked signed_in with
  | (Ok _, w') => locked_out "ehte:" "m1" w'
  | (Err _, _) => False
  end.
Proof.
  pose proof (revocation_is_immediate "ehte:" (acc_actor "s1") "desk" "POST_READ" signed_in
    signed_in_inv signed_in_redis) as Hall.
  assert (Hok : is_ok (run revoked signed_in).1 = true) by (vm_compute; reflexivity).
  unfold revoked in *. destruct (run _ signed_in) as [[x|e] w']; [|discriminate Hok].
  apply Hall, m1_holds_desk.
Defined.

Lemma authorize_exact_witness :
  is_ok (run (authorize "ehte:" ["POST_READ"] m1_token) signed_in).1 = true ↔
  let_in ["POST_READ"] m1_token signed_in.
Proof.
  apply (authorize_exact "ehte:" ["POST_READ"] m1_token signed_in signed_in_inv signed_in_redis).
  intros sid. reflexivity.
Defined.
Example authorize_outcomes :
  is_ok (run (authorize "ehte:" ["POST_READ"] m1_token) signed_in).1 = true ∧
  is_ok (run (authorize "ehte:" ["USER_DELETE"] m1_token) signed_in).1 = false.
Proof. vm_compute. auto. Qed.

(** A role that was given for a time goes when the time is over, although it is the
    last one that the user has; a removal by hand refuses that. *)
Definition temporary_only : AccW :=
  acc_world{{xw_userRoles := list_to_map [holds "m1" "desk"];
             xw_temporary := {["x1" := new_temporary "desk" "m1" "s1" "cover" 900000 "x1" 800000]} }}.
Example expiry_leaves_none :
  (run (removeFromUser "ehte:" (acc_actor "s1") "desk" "m1" (Some "rotation")) temporary_only).1 =
    Err (BadRequest "cannot_remove_last_role") ∧
  userRoles_of (run (expireTemporaryAssignments "ehte:") temporary_only).2 "m1" = [].
Proof. vm_compute. auto. Qed.

(** Two persons decide on who gets a role with a permission that needs them, but one
    person adds such a permission to a role that users hold already. *)
Definition widening : prog AccW (list Permission) :=
  assignToRole "ehte:" (acc_actor "s1") "rev" ["DISBURSEMENTS_EXECUTE"].
Example one_person_widens :
  is_ok (run widening acc_world).1 = true ∧
  held_permissions "m1" (run widening acc_world).2 = ["REPORT_READ"; "DISBURSEMENTS_EXECUTE"] ∧
  requiresTwoPersonApproval "DISBURSEMENTS_EXECUTE" = true.
Proof. vm_compute. auto. Qed.
