(* ===== verification/AuditRedaction.v ===== *)
(** * Redaction of audit details

    src/common/utils/audit-redaction.ts: what of an event's [diff] and [metadata]
    is stored. Keys that name a credential lose their value, values that carry a
    signed link are replaced, and nesting is cut. *)

From S2P Require Import Prelude Js Json JsDate.

Open Scope Z_scope.

(** ** Values of JavaScript, as far as events carry them *)

Inductive jsval :=
| VUndefined
| VNull
| VBool (b : bool)
| VNum (n : Z)
| VStr (s : string)
| VDate (t : Z)
| VBuffer (bytes : string)
| VArr (xs : list jsval)
| VObj (kvs : list (string * jsval)).

Section jsval_ind.
Context (P : jsval → Prop).
Context (HU : P VUndefined) (HN : P VNull) (HB : ∀ b, P (VBool b)) (HZ : ∀ n, P (VNum n)).
Context (HS : ∀ s, P (VStr s)) (HD : ∀ t, P (VDate t)) (HF : ∀ b, P (VBuffer b)).
Context (HA : ∀ xs, Forall P xs → P (VArr xs)).
Context (HO : ∀ kvs, Forall (λ kv, P kv.2) kvs → P (VObj kvs)).
Fixpoint jsval_nested (v : jsval) : P v :=
  match v with
  | VUndefined => HU | VNull => HN | VBool b => HB b | VNum n => HZ n | VStr s => HS s
  | VDate t => HD t | VBuffer b => HF b
  | VArr xs => HA xs ((fix go xs : Forall P xs :=
      match xs with
      | [] => List.Forall_nil _
      | x :: xs => List.Forall_cons _ _ _ (jsval_nested x) (go xs)
      end) xs)
  | VObj kvs => HO kvs ((fix go kvs : Forall (λ kv, P kv.2) kvs :=
      match kvs with
      | [] => List.Forall_nil _
      | kv :: kvs => List.Forall_cons _ _ _ (jsval_nested kv.2) (go kvs)
      end) kvs)
  end.
End jsval_ind.

(** [JSON.stringify], as a value: a member that is undefined is left out, and in an
    array it is null. *)
Fixpoint str_bytes (s : string) : list json :=
  match s with
  | EmptyString => []
  | Str c s => JNum (Z.of_nat (nat_of_ascii c)) :: str_bytes s
  end.
Definition is_undefined (v : jsval) : bool := match v with VUndefined => true | _ => false end.
Fixpoint to_json (v : jsval) : json :=
  match v with
  | VUndefined | VNull => JNull
  | VBool b => JBool b
  | VNum n => JNum n
  | VStr s => JStr s
  | VDate t => JStr (toISOString t)
  | VBuffer b => JObj [("type", JStr "Buffer"); ("data", JArr (str_bytes b))]
  | VArr xs => JArr (map to_json xs)
  | VObj kvs =>
      JObj ((fix go kvs :=
        match kvs with
        | [] => []
        | kv :: kvs => if is_undefined kv.2 then go kvs else (kv.1, to_json kv.2) :: go kvs
        end) kvs)
  end.

(** ** The file *)

Definition REDACTED : string := "[REDACTED]".
Definition EXACT_KEYS : list string :=
  ["otp"; "authorization"; "cookie"; "apikey"; "privatekey"; "signedurl"].
Definition SENSITIVE_SUFFIX : list string :=
  ["password"; "passcode"; "secret"; "token"; "hash"; "otp"].
(** The expression [(X-Amz-Signature|X-Goog-Signature|[?&](token|signature)=)], in lower case. *)
Definition SENSITIVE_VALUE : list string :=
  ["x-amz-signature"; "x-goog-signature"; "?token="; "&token="; "?signature="; "&signature="].
Definition MAX_DEPTH : nat := 8.

Definition isSensitiveKey (key : string) : bool :=
  let k := str_filter (λ c, negb (bool_decide (c = "_"%char) || bool_decide (c = "-"%char)))
             (toLowerCase key) in
  existsb (λ e, bool_decide (k = e)) EXACT_KEYS || existsb (λ s, ends_with s k) SENSITIVE_SUFFIX.
Definition sensitive_value (s : string) : bool :=
  existsb (λ n, includes n (toLowerCase s)) SENSITIVE_VALUE.

Fixpoint redact (value : jsval) (depth : nat) : jsval :=
  match value with
  | VNull | VUndefined => value
  | _ =>
      if (MAX_DEPTH <? depth)%nat then VStr REDACTED
      else match value with
           | VStr s => if sensitive_value s then VStr REDACTED else VStr s
           | VDate t => VStr (toISOString t)
           | VBuffer _ => VStr REDACTED
           | VArr xs => VArr (map (λ v, redact v (S depth)) xs)
           | VObj kvs =>
               VObj (map (λ kv, (kv.1, if isSensitiveKey kv.1 then VStr REDACTED
                                       else redact kv.2 (S depth))) kvs)
           | v => v
           end
  end.

Definition toAuditJson (value : jsval) : option json :=
  match value with
  | VNull | VUndefined => None
  | v => Some (to_json (redact v 0))
  end.

(** ** What is stored *)

(** A member with a sensitive key holds the mark, no text carries a signed link, and
    the nesting is at most [n]. *)
Fixpoint clean (n : nat) (j : json) {struct j} : Prop :=
  match j with
  | JStr s => sensitive_value s = false
  | JArr xs =>
      match n with
      | O => False
      | S n => foldr (λ x P, clean n x ∧ P) True xs
      end
  | JObj kvs =>
      match n with
      | O => False
      | S n => foldr (λ kv P, (if isSensitiveKey kv.1 then kv.2 = JStr REDACTED
                               else clean n kv.2) ∧ P) True kvs
      end
  | _ => True
  end.

(** A needle with a character that the text does not have is not in it. *)
Lemma starts_with_char c p s f :
  starts_with p s = true → str_forallb f s = true → f c = false →
  str_forallb (λ d, negb (bool_decide (d = c))) p = true.
Proof.
  revert s. induction p as [|a p IH]; intros [|b s]; cbn; try done.
  intros [Ha%bool_decide_eq_true Hp]%andb_prop [Hb Hs]%andb_prop Hc. subst b.
  rewrite (IH s) by done. rewrite bool_decide_eq_false_2; [done|]. intros ->. congruence.
Qed.
Lemma includes_char c p s f :
  includes p s = true → str_forallb f s = true → f c = false →
  str_forallb (λ d, negb (bool_decide (d = c))) p = true.
Proof.
  induction s as [|b s IH]; cbn [includes]; rewrite orb_true_iff.
  - intros [H|H] Hs Hc; [by eapply starts_with_char|done].
  - intros [H|H] Hs Hc; [by eapply starts_with_char|].
    apply IH; [done| |done]. cbn in Hs. by apply andb_prop in Hs as [_ ?].
Qed.

(** The characters of a printed date. *)
Definition date_char (c : ascii) : bool :=
  is_digit c || existsb (λ d, bool_decide (c = d)) ["-"; ":"; "."; "T"; "Z"; "+"]%char.
Lemma pad_go_chars n x s :
  str_forallb date_char s = true → str_forallb date_char (pad_go n x s) = true.
Proof.
  revert x s. induction n as [|n IH]; intros x s Hs; cbn [pad_go]; [done|]. apply IH.
  cbn [str_forallb]. rewrite Hs, andb_true_r. unfold date_char.
  destruct (digit_char_spec (x mod 10)) as [-> _]; [|done]. apply Z.mod_pos_bound. lia.
Qed.
Lemma iso_chars t : str_forallb date_char (toISOString t) = true.
Proof.
  unfold toISOString. destruct (civil_from_days _) as [[y m] d]. unfold year_text, clock_text, pad.
  assert (H : ∀ n x, str_forallb date_char (pad_go n x "") = true)
    by (intros; by apply pad_go_chars).
  destruct ((0 <=? y) && (y <=? 9999)); [|destruct (y <? 0)];
    rewrite !str_forallb_app, !H; done.
Qed.
Lemma str_forallb_map f g s : str_forallb f (str_map g s) = str_forallb (λ c, f (g c)) s.
Proof. induction s as [|c s IH]; [done|]. cbn. by rewrite IH. Qed.
Lemma iso_not_sensitive t : sensitive_value (toISOString t) = false.
Proof.
  unfold sensitive_value. apply not_true_is_false. rewrite existsb_exists. intros (p&Hp&Hi).
  assert (Hl : str_forallb (λ c, negb (bool_decide (c = "n"%char) || bool_decide (c = "="%char)))
                 (toLowerCase (toISOString t)) = true).
  { unfold toLowerCase. rewrite str_forallb_map. eapply str_forallb_impl; [|apply iso_chars].
    intros c. destruct c as [[] [] [] [] [] [] [] []]; done. }
  assert (str_forallb (λ d, negb (bool_decide (d = "n"%char))) p = true ∧
          str_forallb (λ d, negb (bool_decide (d = "="%char))) p = true) as [Hn He].
  { split; (eapply includes_char; [exact Hi|exact Hl|done]). }
  destruct Hp as [<-|[<-|[<-|[<-|[<-|[<-|[]]]]]]]; done.
Qed.

Lemma redacted_clean n : clean n (JStr REDACTED).
Proof. reflexivity. Qed.

Lemma clean_arr n xs : clean (S n) (JArr xs) ↔ Forall (clean n) xs.
Proof.
  cbn. induction xs as [|x xs IH]; cbn; [by split|]. rewrite IH, Forall_cons. done.
Qed.
Definition clean_member (n : nat) (kv : string * json) : Prop :=
  if isSensitiveKey kv.1 then kv.2 = JStr REDACTED else clean n kv.2.
Lemma clean_obj n kvs : clean (S n) (JObj kvs) ↔ Forall (clean_member n) kvs.
Proof.
  cbn. induction kvs as [|x kvs IH]; cbn; [by split|]. rewrite IH, Forall_cons. done.
Qed.

Lemma redact_clean v depth :
  (depth ≤ S MAX_DEPTH)%nat → clean (S MAX_DEPTH - depth) (to_json (redact v depth)).
Proof.
  revert depth. induction v as [| |b|n|s|t|b|xs H|kvs H] using jsval_nested; intros depth Hd; try exact I;
    cbn [redact]; destruct (Nat.ltb_spec MAX_DEPTH depth) as [Hlt|Hle];
    try (by apply redacted_clean); try exact I.
  - destruct (sensitive_value s) eqn:E; [reflexivity|exact E].
  - apply iso_not_sensitive.
  - replace (S MAX_DEPTH - depth)%nat with (S (S MAX_DEPTH - S depth)) by lia.
    cbn [to_json]. apply clean_arr. rewrite map_map. apply Forall_forall.
    intros j (x&->&Hx)%list_elem_of_fmap. rewrite Forall_forall in H. apply H; [done|lia].
  - replace (S MAX_DEPTH - depth)%nat with (S (S MAX_DEPTH - S depth)) by lia.
    cbn [to_json]. apply clean_obj. induction H as [|[k x] kvs Hx Hkvs IH]; [constructor|].
    cbn [map fst snd is_undefined] in *. destruct (is_undefined _) eqn:Eu; [exact IH|].
    constructor; [|exact IH]. unfold clean_member. cbn [fst snd] in *.
    destruct (isSensitiveKey k); [done|]. apply Hx. lia.
Qed.

(** What was redacted is left alone by a second pass. *)
Lemma redact_again v depth : redact (redact v depth) depth = redact v depth.
Proof.
  revert depth. induction v as [| |b|n|s|t|b|xs H|kvs H] using jsval_nested; intros depth;
    try reflexivity; cbn [redact]; destruct (MAX_DEPTH <? depth)%nat eqn:Hd;
    try (cbn [redact]; by rewrite Hd).
  - destruct (sensitive_value s) eqn:E; cbn [redact]; by rewrite Hd, ?E.
  - cbn [redact]. by rewrite Hd, iso_not_sensitive.
  - cbn [redact]. rewrite Hd. f_equal. rewrite map_map.
    apply map_ext_Forall. eapply Forall_impl; [exact H|]. intros x Hx. apply Hx.
  - cbn [redact]. rewrite Hd. f_equal. rewrite map_map.
    apply map_ext_Forall. eapply Forall_impl; [exact H|]. intros [k x] Hx. cbn [fst snd] in *.
    destruct (isSensitiveKey k); [|by rewrite Hx]. done.
Qed.

(** ** What is left *)

(** The way into a value: members and elements. *)
Inductive step := Member (key : string) | Element (i : nat).
Fixpoint value_at (p : list step) (v : jsval) : option jsval :=
  match p, v with
  | [], _ => Some v
  | Member k :: p, VObj kvs =>
      match find (λ kv, bool_decide (kv.1 = k)) kvs with
      | Some kv => value_at p kv.2 | None => None end
  | Element i :: p, VArr xs => match xs !! i with Some x => value_at p x | None => None end
  | _, _ => None
  end.
Fixpoint json_at (p : list step) (j : json) : option json :=
  match p, j with
  | [], _ => Some j
  | Member k :: p, JObj kvs =>
      match find (λ kv, bool_decide (kv.1 = k)) kvs with
      | Some kv => json_at p kv.2 | None => None end
  | Element i :: p, JArr xs => match xs !! i with Some x => json_at p x | None => None end
  | _, _ => None
  end.
Definition names_credential (s : step) : bool :=
  match s with Member k => isSensitiveKey k | Element _ => false end.
Definition no_credential (p : list step) : Prop := existsb names_credential p = false.

(** Of a member that is undefined only the key tells, when it names a credential. *)
Definition member_kept (kv : string * jsval) : bool :=
  isSensitiveKey kv.1 || negb (is_undefined kv.2).

(** What is stored of a value, apart from what is inside of it: texts, numbers and dates as
    they are unless the text carries a signed link, no bytes, and of objects and arrays
    the names of the members and the number of elements. *)
Definition stored (v : jsval) (j : json) : Prop :=
  match v with
  | VUndefined | VNull => j = JNull
  | VBool b => j = JBool b
  | VNum n => j = JNum n
  | VStr s => j = JStr (if sensitive_value s then REDACTED else s)
  | VDate t => j = JStr (toISOString t)
  | VBuffer _ => j = JStr REDACTED
  | VArr xs => ∃ ys, j = JArr ys ∧ length ys = length xs
  | VObj kvs =>
      ∃ kvs', j = JObj kvs' ∧ kvs'.*1 = (filter (λ kv, member_kept kv = true) kvs).*1
  end.

Fixpoint json_members (kvs : list (string * jsval)) : list (string * json) :=
  match kvs with
  | [] => []
  | kv :: kvs =>
      if is_undefined kv.2 then json_members kvs else (kv.1, to_json kv.2) :: json_members kvs
  end.
Lemma to_json_obj kvs : to_json (VObj kvs) = JObj (json_members kvs).
Proof. reflexivity. Qed.

Definition redact_member (depth : nat) (kv : string * jsval) : string * jsval :=
  (kv.1, if isSensitiveKey kv.1 then VStr REDACTED else redact kv.2 (S depth)).
Lemma redact_undefined v depth : is_undefined (redact v depth) = is_undefined v.
Proof. destruct v; cbn [redact]; repeat case_match; done. Qed.

Lemma redacted_keys depth kvs :
  (json_members (map (redact_member depth) kvs)).*1 =
  (filter (λ kv, member_kept kv = true) kvs).*1.
Proof.
  induction kvs as [|[k v] kvs IH]; [done|]. cbn [map json_members redact_member fst snd].
  rewrite filter_cons. case_decide as Hk; unfold member_kept in Hk; cbn [fst snd] in Hk.
  - destruct (isSensitiveKey k); cbn [is_undefined orb] in *; [cbn; by rewrite IH|].
    rewrite redact_undefined. destruct (is_undefined v); [done|]. cbn. by rewrite IH.
  - destruct (isSensitiveKey k); [done|]. cbn [orb] in Hk. rewrite redact_undefined.
    by destruct (is_undefined v).
Qed.
Lemma redacted_member depth k kvs kv :
  find (λ kv, bool_decide (kv.1 = k)) kvs = Some kv → isSensitiveKey k = false →
  is_undefined kv.2 = false →
  find (λ kv, bool_decide (kv.1 = k)) (json_members (map (redact_member depth) kvs)) =
    Some (k, to_json (redact kv.2 (S depth))).
Proof.
  intros Hf Hk Hu. induction kvs as [|[k' v] kvs IH]; [done|].
  cbn [find map json_members redact_member fst snd] in *. case_bool_decide as E.
  - injection Hf as <-. subst k'. rewrite Hk, redact_undefined. cbn [snd] in Hu. rewrite Hu.
    cbn [find fst]. by rewrite bool_decide_eq_true_2.
  - destruct (is_undefined (if isSensitiveKey k' then _ else _)); [by apply IH|]. cbn [find fst].
    rewrite bool_decide_eq_false_2 by done. by apply IH.
Qed.
Lemma value_at_defined p v x :
  value_at p v = Some x → is_undefined x = false → is_undefined v = false.
Proof.
  intros Hp Hx. destruct v; [|done..]. destruct p as [|[] p]; [|done..].
  by injection Hp as <-.
Qed.

(** On a way that no credential is on, what is stored is what is made of the value there. *)
Lemma redact_at p v depth x :
  value_at p v = Some x → no_credential p → is_undefined x = false →
  (depth + length p ≤ S MAX_DEPTH)%nat →
  json_at p (to_json (redact v depth)) = Some (to_json (redact x (depth + length p))).
Proof.
  revert v depth. induction p as [|s p IH]; intros v depth Hp Hc Hu Hd.
  { injection Hp as ->. by rewrite Nat.add_0_r. }
  cbn [length] in Hd. replace (depth + length (s :: p))%nat with (S depth + length p)%nat by (cbn; lia).
  apply orb_false_iff in Hc as [Hs Hc].
  assert (Hlt : (MAX_DEPTH <? depth)%nat = false) by (apply Nat.ltb_ge; lia).
  destruct s as [k|i], v; cbn [value_at] in Hp; try done; cbn [redact]; rewrite Hlt.
  - destruct (find _ kvs) as [kv|] eqn:Hf; [|done].
    change (map _ kvs) with (map (redact_member depth) kvs). rewrite to_json_obj. cbn [json_at].
    rewrite (redacted_member depth k kvs kv Hf Hs) by (by eapply value_at_defined).
    apply IH; [done..|lia].
  - destruct (xs !! i) as [y|] eqn:Hy; [|done].
    cbn [to_json json_at]. rewrite !list_lookup_fmap, Hy. cbn [fmap option_fmap option_map]. apply IH; [done..|lia].
Qed.

Lemma redact_stored v depth :
  (depth ≤ MAX_DEPTH)%nat → is_undefined v = false → stored v (to_json (redact v depth)).
Proof.
  intros Hd%Nat.ltb_ge Hu. destruct v; cbn [redact stored]; rewrite ?Hd; try done.
  - by destruct (sensitive_value s).
  - eexists. split; [done|]. by rewrite !length_map.
  - change (to_json _) with (JObj (json_members (map (redact_member depth) kvs))).
    eexists. split; [done|]. apply redacted_keys.
Qed.

(** C28: What [toAuditJson] makes of the details ([diff], [metadata]) of an event. Nothing in it
    reads as a credential: a member whose key names one holds the mark, no text carries a
    signed link, and at most nine levels of arrays and objects are left; and nothing else
    is taken away: down to the eighth level, whatever is not inside of a credential is
    stored as it is, texts (unless they carry a signed link), numbers, dates, the names of
    members and the number of elements; what lies deeper is the mark. Redacting twice is
    redacting once. *)
Theorem redaction_exact v :
  match toAuditJson v with
  | None => v = VNull ∨ v = VUndefined
  | Some j =>
      clean (S MAX_DEPTH) j ∧ redact (redact v 0) 0 = redact v 0 ∧
      ∀ p x, value_at p v = Some x → no_credential p → is_undefined x = false →
        ((length p ≤ MAX_DEPTH)%nat → ∃ y, json_at p j = Some y ∧ stored x y) ∧
        (length p = S MAX_DEPTH → x ≠ VNull → json_at p j = Some (JStr REDACTED))
  end.
Proof.
  assert (Hj : ∀ p x, value_at p v = Some x → no_credential p → is_undefined x = false →
    ((length p ≤ MAX_DEPTH)%nat → ∃ y, json_at p (to_json (redact v 0)) = Some y ∧ stored x y) ∧
    (length p = S MAX_DEPTH → x ≠ VNull →
       json_at p (to_json (redact v 0)) = Some (JStr REDACTED))).
  { intros p x Hp Hc Hu. split; [intros Hd|intros Hd Hn];
      rewrite (redact_at p v 0 x) by (done || lia); rewrite Nat.add_0_l.
    - eexists. split; [done|]. by apply redact_stored.
    - rewrite Hd. by destruct x. }
  pose proof (redact_clean v 0 ltac:(lia)) as Hc. pose proof (redact_again v 0) as Hr.
  destruct v; cbn [toAuditJson]; auto.
Qed.

Example redacted_login :
  toAuditJson (VObj [("newPasswordHash", VStr "x"); ("note", VStr "see /f?token=1");
                     ("refresh_Token", VNum 3); ("name", VStr "Abebe"); ("gone", VUndefined)]) =
  Some (JObj [("newPasswordHash", JStr REDACTED); ("note", JStr REDACTED);
              ("refresh_Token", JStr REDACTED); ("name", JStr "Abebe")]).
Proof. reflexivity. Qed.
