(* ===== verification/AuditModel.v ===== *)
(** * The audit log: tables and statements

    The tables of src/prisma/schema/audit-log.prisma behind the audit log, its chain,
    purges, legal holds, approvals and schedules; the object storage that takes the
    archives; the world of these handlers and the statements they make. *)

From S2P Require Import Prelude Js Json JsDate Roles AuditRedaction.
From stdpp Require Import sorting.
From coqutil Require Import Datatypes.RecordSetters.
Import DoubleBraceUpdate.

Open Scope Z_scope.

(** ** Tables *)

Inductive AuditOutcome := O_SUCCESS | O_FAILURE | O_DENIED.
Inductive AuditSeverity := S_INFO | S_WARNING | S_CRITICAL.
Inductive AuditSource := WEB | MOBILE | API | SRC_SYSTEM.
#[export] Instance AuditOutcome_eq_dec : EqDecision AuditOutcome.
Proof. solve_decision. Defined.
#[export] Instance AuditSeverity_eq_dec : EqDecision AuditSeverity.
Proof. solve_decision. Defined.

(** [String(x)] *)
Definition outcome_str (o : AuditOutcome) : string :=
  match o with O_SUCCESS => "SUCCESS" | O_FAILURE => "FAILURE" | O_DENIED => "DENIED" end.
Definition severity_str (s : AuditSeverity) : string :=
  match s with S_INFO => "INFO" | S_WARNING => "WARNING" | S_CRITICAL => "CRITICAL" end.
Definition source_str (s : AuditSource) : string :=
  match s with WEB => "WEB" | MOBILE => "MOBILE" | API => "API" | SRC_SYSTEM => "SYSTEM" end.
Definition actorType_str (a : ActorType) : string :=
  match a with
  | ActorUSER => "USER" | ActorADMIN => "ADMIN" | ActorSUPER_ADMIN => "SUPER_ADMIN"
  | ActorSYSTEM => "SYSTEM" | ActorANONYMOUS => "ANONYMOUS"
  end.

Record AuditLog := {
  al_id : string;
  al_createdAt : Z;
  al_userId : option string;
  al_actorType : ActorType;
  al_actorName : option string;
  al_actorRole : option string;
  al_sessionId : option string;
  al_targetUserId : option string;
  al_action : string;
  al_outcome : AuditOutcome;
  al_severity : AuditSeverity;
  al_reason : option string;
  al_entity : string;
  al_entityId : option string;
  al_entityLabel : option string;
  al_diff : option json;
  al_metadata : option json;
  al_ipAddress : option string;
  al_userAgent : option string;
  al_country : option string;
  al_city : option string;
  al_region : option string;
  al_timezone : option string;
  al_asn : option Z;
  al_isp : option string;
  al_deviceLabel : option string;
  al_clientVersion : option string;
  al_source : option AuditSource;
  al_method : option string;
  al_path : option string;
  al_requestId : option string;
  al_seq : option Z;
  al_hash : option string;
  al_prevHash : option string;
  al_legalHold : bool;
  al_anonymizedAt : option Z;
}.

Inductive RunStatus := STARTED | ARCHIVED | COMPLETED | RUN_FAILED.
Record PurgeRun := {
  pr_id : string;
  pr_tokenId : string;
  pr_cutoff : Z;
  pr_reason : string;
  pr_status : RunStatus;
  pr_requestedById : option string;
  pr_archiveKey : option string;
  pr_archivedCount : Z;
  pr_deletedCount : Z;
  pr_heldCount : Z;
  pr_minSeq : option Z;
  pr_maxSeq : option Z;
  pr_error : option string;
  pr_createdAt : Z;
  pr_finishedAt : option Z;
}.

Inductive HoldKind := HOLD_ROW | HOLD_FILTER.
Inductive HoldStatus := HOLD_ACTIVE | HOLD_RELEASED.
#[export] Instance HoldKind_eq_dec : EqDecision HoldKind.
Proof. solve_decision. Defined.
#[export] Instance HoldStatus_eq_dec : EqDecision HoldStatus.
Proof. solve_decision. Defined.

Record HoldFilter := {
  hf_rowId : option string;
  hf_entity : option string;
  hf_entityId : option string;
  hf_userId : option string;
  hf_targetUserId : option string;
  hf_action : option string;
  hf_sessionId : option string;
  hf_requestId : option string;
  hf_startDate : option string;
  hf_endDate : option string;
}.

Record LegalHold := {
  lh_id : string;
  lh_kind : HoldKind;
  lh_caseReference : string;
  lh_reason : string;
  lh_filter : HoldFilter;
  lh_status : HoldStatus;
  lh_rowCount : Z;
  lh_appliedAt : Z;
  lh_createdById : option string;
  lh_releasedAt : option Z;
  lh_releasedById : option string;
  lh_releaseRequestedById : option string;
  lh_releaseReason : option string;
  lh_createdAt : Z;
}.

Inductive ApprovalKind := HOLD_RELEASE | RETENTION_CHANGE | ARCHIVE_RETRIEVAL.
Inductive ApprovalStatus := AP_PENDING | AP_CONSUMED | AP_EXPIRED.
#[export] Instance ApprovalKind_eq_dec : EqDecision ApprovalKind.
Proof. solve_decision. Defined.
#[export] Instance ApprovalStatus_eq_dec : EqDecision ApprovalStatus.
Proof. solve_decision. Defined.
Definition approval_kind_str (k : ApprovalKind) : string :=
  match k with
  | HOLD_RELEASE => "HOLD_RELEASE"
  | RETENTION_CHANGE => "RETENTION_CHANGE"
  | ARCHIVE_RETRIEVAL => "ARCHIVE_RETRIEVAL"
  end.
Record Approval := {
  ap_id : string;
  ap_kind : ApprovalKind;
  ap_targetKey : string;
  ap_payloadHash : string;
  ap_payload : json;
  ap_reason : option string;
  ap_status : ApprovalStatus;
  ap_requestedById : string;
  ap_approvedById : option string;
  ap_expiresAt : Z;
  ap_decidedAt : option Z;
  ap_createdAt : Z;
}.

Inductive ScheduleStatus := SCHEDULED | RUNNING | EXECUTED | SCHED_FAILED | SCHED_CANCELLED.
#[export] Instance ScheduleStatus_eq_dec : EqDecision ScheduleStatus.
Proof. solve_decision. Defined.
Record PurgeSchedule := {
  ps_id : string;
  ps_olderThan : Z;
  ps_runAt : Z;
  ps_reason : string;
  ps_status : ScheduleStatus;
  ps_createdById : string;
  ps_cancelledById : option string;
  ps_cancelReason : option string;
  ps_cancelledAt : option Z;
  ps_purgeRunId : option string;
  ps_error : option string;
  ps_executedAt : option Z;
  ps_createdAt : Z;
}.

(** Kept by its scope and key, which are unique together. *)
Record RetentionPolicy := {
  rt_scope : string;
  rt_key : string;
  rt_retentionDays : Z;
  rt_updatedById : option string;
  rt_updatedAt : Z;
}.

Inductive BreakReason := hash_mismatch | chain_link_broken | rows_missing.
Record IntegrityBreak := {
  ib_id : string;
  ib_seq : Z;
  ib_createdAt : string;
  ib_reason : BreakReason;
  ib_detail : string;
}.
Record IntegrityReport := {
  ir_ok : bool;
  ir_complete : bool;
  ir_checked : Z;
  ir_unchainedRows : Z;
  ir_from : option string;
  ir_to : option string;
  ir_firstBreak : option IntegrityBreak;
  ir_head : option (Z * string);
}.
Inductive Trigger := MANUAL | TRIG_SCHEDULED.
Record IntegrityRun := {
  in_id : string;
  in_trigger : Trigger;
  in_requestedById : option string;
  in_report : IntegrityReport;
  in_createdAt : Z;
}.
Record IntegritySchedule := {
  is_enabled : bool;
  is_intervalHours : Z;
  is_lastRunAt : option Z;
  is_nextRunAt : option Z;
  is_updatedById : option string;
}.

(** [AuditAlertTriggeredEvent] *)
Inductive AttentionKind := ALERT_RULE | INTEGRITY_BREAK | SCHEDULED_PURGE_FAILED.
Record Attention := {
  at_kind : AttentionKind;
  at_title : string;
  at_body : string;
  at_entity : string;
  at_entityId : string;
  at_occurrenceId : string;
}.

(** ** Code of other packages and the configuration *)

Class AuditLib := {
  aud_uuid : nat → string;
  sha256_hex : string → string;
  hmac_sha256 : string → string → string;       (* secret, text: the digest *)
  base64url : string → string;
  from_base64url : string → string;             (* it skips what is no digit *)
  gzip : string → string;
  id_before : string → string → bool;           (* the order of the database *)
  locale_compare : string → string → bool;      (* [a.localeCompare(b) <= 0] *)
  (** The page after a cursor of which the row is gone or is no match any more. *)
  stale_page : list AuditLog → string → list AuditLog;
}.

(** What is bound at start. *)
Record AuditCfg := {
  cf_archive : bool;                    (* AUDIT_ARCHIVE_STORAGE is provided *)
  cf_objectStorage : bool;              (* EXPORT_OBJECT_STORAGE is provided *)
  cf_purge_secret : option string;      (* AUDIT_PURGE_TOKEN_SECRET *)
  cf_notice_hours : Z;                  (* AUDIT_PURGE_MIN_NOTICE_HOURS, 72 when it is not set *)
}.

(** ** The world *)

(** What happens to the next calls of the object storage. *)
Inductive Fault :=
| Works
| Fails (stored : bool) (message : string)
| Truncates (n : nat).

Record AuditW := {
  aw_logs : gmap string AuditLog;
  aw_users : gset string;                       (* the users that exist *)
  aw_runs : gmap string PurgeRun;
  aw_holds : gmap string LegalHold;
  aw_approvals : gmap string Approval;
  aw_schedules : gmap string PurgeSchedule;
  aw_retention : gmap (string * string) RetentionPolicy;
  aw_integrity : gmap string IntegrityRun;
  aw_integritySchedule : option IntegritySchedule;
  aw_objects : gmap string string;              (* the bucket *)
  aw_faults : list Fault;
  aw_refused : list bool;                       (* which guarded statements time out *)
  aw_attention : list Attention;                (* newest first *)
  aw_writeFailures : Z;                         (* counters of the process *)
  aw_lastFailure : option (Z * string);
  aw_draws : nat;
  aw_now : Z;
}.

Definition now : prog AuditW Z := gets aw_now.

(** ** Rows *)

Definition rows {K A} `{Countable K} (P : A → bool) (m : gmap K A) : list A :=
  filter (λ x, P x = true) (map_to_list m).*2.
Lemma elem_of_log_rows {K A} `{Countable K} (P : A → bool) (m : gmap K A) x :
  x ∈ rows P m ↔ P x = true ∧ ∃ k, m !! k = Some x.
Proof.
  unfold rows. rewrite list_elem_of_filter, list_elem_of_fmap. f_equiv. split.
  - intros ([k y]&->&Hk%elem_of_map_to_list). by exists k.
  - intros [k Hk]. exists (k, x). split; [done|]. by apply elem_of_map_to_list.
Qed.
Definition count {K A} `{Countable K} (P : A → bool) (m : gmap K A) : Z :=
  Z.of_nat (length (rows P m)).

(** The rows with a number, by their numbers. *)
Definition numbered (P : AuditLog → bool) (m : gmap string AuditLog) : list (Z * AuditLog) :=
  omap (λ r, (λ n, (n, r)) <$> al_seq r) (rows P m).
Definition by_number : list (Z * AuditLog) → list (Z * AuditLog) :=
  merge_sort (goes_before (λ a b, a.1 <=? b.1)).
Definition chain (P : AuditLog → bool) (m : gmap string AuditLog) : list (Z * AuditLog) :=
  by_number (numbered P m).

(** [findFirst({ where: { seq: { not: null } }, orderBy: { seq: 'desc' } })] *)
Definition last_link (m : gmap string AuditLog) : option (Z * AuditLog) :=
  last (chain (λ _, true) m).

(** ** Statements *)

Definition P2002 (target : list string) : exn := PrismaKnown "P2002" target.
Definition P2003 : exn := PrismaKnown "P2003" [].
Definition P2025 : exn := PrismaKnown "P2025" [].
Definition P2028 : exn := PrismaKnown "P2028" [].
Definition has_code (code : string) (e : exn) : bool :=
  match e with PrismaKnown c _ => bool_decide (c = code) | _ => false end.

Definition draw (w : AuditW) : nat * AuditW := (aw_draws w, w{{aw_draws ::= S}}).
Definition logs_count (P : AuditLog → bool) : prog AuditW Z := gets (λ w, count P (aw_logs w)).
Definition log_by_id (id : string) : prog AuditW (option AuditLog) := gets (λ w, aw_logs w !! id).

(** [auditLog.updateMany] of a table that maps rows in place. *)
Definition map_logs (P : AuditLog → bool) (upd : AuditLog → AuditLog) (w : AuditW) : AuditW :=
  w{{aw_logs ::= fmap (λ r, if P r then upd r else r)}}.
Definition logs_updateMany (P : AuditLog → bool) (upd : AuditLog → AuditLog) : prog AuditW Z :=
  act (λ w, (count P (aw_logs w), map_logs P upd w)).
Definition set_hold (b : bool) (r : AuditLog) : AuditLog := r{{al_legalHold := b}}.
(** [auditLog.update({ where: { id } })] *)
Definition log_set_hold (id : string) (b : bool) : prog AuditW () :=
  act_outcome (λ w,
    match aw_logs w !! id with
    | Some r => (Ok (), w{{aw_logs ::= insert id (set_hold b r)}})
    | None => (Err P2025, w)
    end).

(** A statement that may time out. *)
Definition guarded {A} (f : AuditW → outcome A * AuditW) : prog AuditW A :=
  act_outcome (λ w,
    if hd false (aw_refused w) then (Err P2028, w{{aw_refused ::= @tail bool}})
    else f (w{{aw_refused ::= @tail bool}})).

(** [auditLog.deleteMany({ where: { id: { in: ids }, legalHold: false } })] *)
Definition logs_delete (ids : list string) : prog AuditW Z :=
  guarded (λ w,
    (Ok (count (λ r, mem (al_id r) ids && negb (al_legalHold r)) (aw_logs w)),
     w{{aw_logs ::= filter (λ '(_, r), ¬ (al_id r ∈ ids ∧ al_legalHold r = false))}})).

Section ids.
Context `{AuditLib}.

Definition by_id : list AuditLog → list AuditLog :=
  merge_sort (goes_before (λ a b, id_before (al_id a) (al_id b))).
Definition page (P : AuditLog → bool) (take_ : nat) (cursor : option string) (w : AuditW)
    : list AuditLog :=
  let matching := by_id (rows P (aw_logs w)) in
  take take_
    match cursor with
    | None => matching
    | Some c =>
        if bool_decide (c ∈ al_id <$> matching)
        then filter (λ r, al_id r ≠ c ∧ id_before c (al_id r) = true) matching
        else stale_page matching c
    end.

(** A row that is created draws its identifier. *)
Definition run_create (mk : string → Z → PurgeRun) : prog AuditW PurgeRun :=
  act_outcome (λ w,
    let '(n, w) := draw w in
    let r := mk (aud_uuid n) (aw_now w) in
    if bool_decide (is_Some (find_row (λ q, bool_decide (pr_tokenId q = pr_tokenId r)) (aw_runs w)))
    then (Err (P2002 ["tokenId"]), w)
    else (Ok r, w{{aw_runs ::= insert (pr_id r) r}})).
Definition run_update (id : string) (upd : PurgeRun → PurgeRun) : prog AuditW () :=
  act_outcome (λ w,
    match aw_runs w !! id with
    | Some r => (Ok (), w{{aw_runs ::= insert id (upd r)}})
    | None => (Err P2025, w)
    end).

Definition approval_create (mk : string → Z → Approval) : prog AuditW Approval :=
  act (λ w,
    let '(n, w) := draw w in
    let a := mk (aud_uuid n) (aw_now w) in (a, w{{aw_approvals ::= insert (ap_id a) a}})).
Definition approvals_updateMany (P : Approval → bool) (upd : Approval → Approval)
    : prog AuditW Z :=
  act (λ w, (count P (aw_approvals w),
             w{{aw_approvals ::= fmap (λ a, if P a then upd a else a)}})).

Definition holds_updateMany (P : LegalHold → bool) (upd : LegalHold → LegalHold)
    : prog AuditW Z :=
  act (λ w, (count P (aw_holds w), w{{aw_holds ::= fmap (λ h, if P h then upd h else h)}})).
Definition active_holds : prog AuditW (list LegalHold) :=
  gets (λ w, rows (λ h, bool_decide (lh_status h = HOLD_ACTIVE)) (aw_holds w)).

Definition schedule_create (mk : string → Z → PurgeSchedule) : prog AuditW PurgeSchedule :=
  act (λ w,
    let '(n, w) := draw w in
    let s := mk (aud_uuid n) (aw_now w) in (s, w{{aw_schedules ::= insert (ps_id s) s}})).
Definition schedules_updateMany (P : PurgeSchedule → bool) (upd : PurgeSchedule → PurgeSchedule)
    : prog AuditW Z :=
  act (λ w, (count P (aw_schedules w),
             w{{aw_schedules ::= fmap (λ s, if P s then upd s else s)}})).
Definition schedule_update (id : string) (upd : PurgeSchedule → PurgeSchedule)
    : prog AuditW () :=
  act_outcome (λ w,
    match aw_schedules w !! id with
    | Some s => (Ok (), w{{aw_schedules ::= insert id (upd s)}})
    | None => (Err P2025, w)
    end).
End ids.

(** ** The object storage (src/infrastructure/minio/minio.service.ts) *)

Definition minio {A} (f : Fault → AuditW → outcome A * AuditW) : prog AuditW A :=
  act_outcome (λ w, f (hd Works (aw_faults w)) (w{{aw_faults ::= @tail Fault}})).
Definition ensureBucket : prog AuditW () :=
  minio (λ fault w,
    match fault with Fails _ m => (Err (JsError m), w) | _ => (Ok (), w) end).
Definition uploadFile (key body : string) : prog AuditW () :=
  minio (λ fault w,
    let put b := w{{aw_objects ::= insert key b}} in
    match fault with
    | Works => (Ok (), put body)
    | Fails stored m => (Err (JsError m), if stored then put body else w)
    | Truncates n => (Ok (), put (str_take n body))
    end).
(** The size of an object. *)
Definition statObject (key : string) : prog AuditW nat :=
  minio (λ fault w,
    match fault, aw_objects w !! key with
    | Fails _ m, _ => (Err (JsError m), w)
    | _, Some body => (Ok (String.length body), w)
    | _, None => (Err (JsError "Not Found"), w)
    end).
Definition deleteFile (key : string) : prog AuditW () :=
  minio (λ fault w,
    match fault with
    | Fails false m => (Err (JsError m), w)
    | Fails true m => (Err (JsError m), w{{aw_objects ::= delete key}})
    | _ => (Ok (), w{{aw_objects ::= delete key}})
    end).

#[global] Arguments draw : simpl never.
