(* ===== verification/AuditChain.v ===== *)
(** * The audit log's chain

    [record], [auditSelf], [computeHash], [verifyIntegrity], [purgedSeqRanges] and
    [saveIntegrityRun] of src/modules/misc/audit-log/service/audit-log.service.ts, and
    the listener src/modules/misc/audit-log/listeners/audit-log.listener.ts. The
    advisory lock makes the transaction of [record] one action. *)

From S2P Require Import Prelude Js Json JsDate Roles AuditRedaction AuditModel.
From stdpp Require Import sorting.
From coqutil Require Import Datatypes.RecordSetters.
Import DoubleBraceUpdate.

Open Scope Z_scope.

(** ** Events and the request *)

(** [AuditEventPayload] (events/audit.events.ts); [undefined] and [null] fields are [None]. *)
Record AuditEventPayload := {
  pl_userId : option string;
  pl_actorType : ActorType;
  pl_actorName : option string;
  pl_actorRole : option string;
  pl_sessionId : option string;
  pl_targetUserId : option string;
  pl_action : string;
  pl_outcome : option AuditOutcome;
  pl_severity : option AuditSeverity;
  pl_reason : option string;
  pl_entity : string;
  pl_entityId : option string;
  pl_entityLabel : option string;
  pl_diff : jsval;
  pl_metadata : jsval;
  pl_ipAddress : option string;
  pl_userAgent : option string;
  pl_country : option string;
  pl_city : option string;
  pl_source : option AuditSource;
  pl_method : option string;
  pl_path : option string;
  pl_requestId : option string;
}.

(** [RequestContextStore] (src/common/request-context/request-context.service.ts). *)
Record RequestContextStore := {
  rc_requestId : string;
  rc_ipAddress : option string;
  rc_userAgent : option string;
  rc_method : option string;
  rc_path : option string;
  rc_source : option AuditSource;
  rc_country : option string;
  rc_city : option string;
  rc_region : option string;
  rc_timezone : option string;
  rc_asn : option Z;
  rc_isp : option string;
  rc_deviceLabel : option string;
  rc_clientVersion : option string;
  rc_userId : option string;
  rc_actorName : option string;
  rc_actorRole : option string;
  rc_sessionId : option string;
}.

(** [CurrentUserDto], and [SYSTEM_ACTOR] for the worker. *)
Record Actor := { ac_id : option string; ac_roles : list string; ac_isSystem : bool }.
Definition SYSTEM_ACTOR : Actor := {| ac_id := None; ac_roles := []; ac_isSystem := true |}.
Definition isSuperAdmin (user : Actor) : bool := mem SUPER_ADMIN (ac_roles user).
Definition requireUserId (user : Actor) : prog AuditW string :=
  match ac_id user with
  | Some id => if truthy id then mret id else Throw (Forbidden "authenticated_user_required")
  | None => Throw (Forbidden "authenticated_user_required")
  end.

(** [a ?? b] *)
Definition nullish {A} (a b : option A) : option A := match a with Some _ => a | None => b end.
Infix "??" := nullish (at level 60, right associativity).

Definition LOGIN_FAILED : string := "LOGIN_FAILED".
Definition HASH_VERSION : string := "v1".

Section chain.
Context `{AuditLib}.

(** ** Writing *)

Definition str_or_null (o : option string) : json := from_option JStr JNull o.

(** What the hash covers, as an array of JSON. *)
Definition hash_input (seq : Z) (prevHash : option string) (createdAt : Z)
    (action outcome severity actorType entity : string) (entityId reason : option string) : json :=
  JArr [JStr HASH_VERSION; JNum seq; JStr (default "GENESIS" prevHash);
        JStr (toISOString createdAt); JStr action; JStr outcome; JStr severity; JStr actorType;
        JStr entity; str_or_null entityId; str_or_null reason].
Definition computeHash (seq : Z) (prevHash : option string) (createdAt : Z)
    (action outcome severity actorType entity : string) (entityId reason : option string)
    : string :=
  sha256_hex (stringify (hash_input seq prevHash createdAt action outcome severity actorType
                           entity entityId reason)).

(** The row of an event; a failed sign-in is never a success and at least a warning. *)
Definition audit_row (ctx : option RequestContextStore) (payload : AuditEventPayload)
    (id : string) (createdAt seq : Z) (prevHash : option string) (hash : string) : AuditLog :=
  let isSystem := bool_decide (pl_actorType payload = ActorSYSTEM) in
  let isFailedLogin := bool_decide (pl_action payload = LOGIN_FAILED) in
  let net := if isSystem then None else ctx in
  {| al_id := id;
     al_createdAt := createdAt;
     al_userId := if isSystem then None else pl_userId payload;
     al_actorType := pl_actorType payload;
     al_actorName := pl_actorName payload ??
       (if isSystem then Some "System" else ctx ≫= rc_actorName);
     al_actorRole := pl_actorRole payload ??
       (if isSystem then Some "SYSTEM" else ctx ≫= rc_actorRole);
     al_sessionId := pl_sessionId payload ?? (net ≫= rc_sessionId);
     al_targetUserId := pl_targetUserId payload;
     al_action := pl_action payload;
     al_outcome :=
       if isFailedLogin && (bool_decide (pl_outcome payload = None) ||
                            bool_decide (pl_outcome payload = Some O_SUCCESS))
       then O_FAILURE else default O_SUCCESS (pl_outcome payload);
     al_severity :=
       if isFailedLogin && (bool_decide (pl_severity payload = None) ||
                            bool_decide (pl_severity payload = Some S_INFO))
       then S_WARNING else default S_INFO (pl_severity payload);
     al_reason := pl_reason payload;
     al_entity := pl_entity payload;
     al_entityId := pl_entityId payload;
     al_entityLabel := pl_entityLabel payload;
     al_diff := toAuditJson (pl_diff payload);
     al_metadata := toAuditJson (pl_metadata payload);
     al_ipAddress := pl_ipAddress payload ?? (net ≫= rc_ipAddress);
     al_userAgent := pl_userAgent payload ?? (net ≫= rc_userAgent);
     al_country := pl_country payload ?? (net ≫= rc_country);
     al_city := pl_city payload ?? (net ≫= rc_city);
     al_region := net ≫= rc_region;
     al_timezone := net ≫= rc_timezone;
     al_asn := net ≫= rc_asn;
     al_isp := net ≫= rc_isp;
     al_deviceLabel := net ≫= rc_deviceLabel;
     al_clientVersion := net ≫= rc_clientVersion;
     al_source := pl_source payload ?? (if isSystem then Some SRC_SYSTEM else ctx ≫= rc_source);
     al_method := pl_method payload ?? (net ≫= rc_method);
     al_path := pl_path payload ?? (net ≫= rc_path);
     al_requestId := pl_requestId payload ?? (rc_requestId <$> ctx);
     al_seq := Some seq;
     al_hash := Some hash;
     al_prevHash := prevHash;
     al_legalHold := false;
     al_anonymizedAt := None |}.

(** The hash that a row ought to carry. *)
Definition row_hash (seq : Z) (r : AuditLog) : string :=
  computeHash seq (al_prevHash r) (al_createdAt r) (al_action r) (outcome_str (al_outcome r))
    (severity_str (al_severity r)) (actorType_str (al_actorType r)) (al_entity r)
    (al_entityId r) (al_reason r).

Definition user_known (w : AuditW) (o : option string) : bool :=
  match o with Some u => bool_decide (u ∈ aw_users w) | None => true end.

(** The link that comes next: its number and the hash before it. *)
Definition next_link (m : gmap string AuditLog) : Z * option string :=
  (default 0 (fst <$> last_link m) + 1, last_link m ≫= λ l, al_hash l.2).

(** The transaction: one link at the end of the chain. *)
Definition append_link (mk : string → Z → Z → option string → string → AuditLog)
    : prog AuditW AuditLog :=
  guarded (λ w0,
    let '(n, w) := draw w0 in
    let '(seq, prevHash) := next_link (aw_logs w) in
    let bare := mk (aud_uuid n) (aw_now w) seq prevHash "" in
    let row := bare{{al_hash := Some (row_hash seq bare)}} in
    if user_known w (al_userId row) && user_known w (al_targetUserId row)
    then (Ok row, w{{aw_logs ::= insert (al_id row) row}})
    else (Err P2003, w)).

(** [record] *)
Definition record (ctx : option RequestContextStore) (payload : AuditEventPayload)
    : prog AuditW AuditLog :=
  catch (append_link (audit_row ctx payload))
    (λ err,
       at_ ← now;
       modify (λ w, w{{aw_writeFailures ::= Z.add 1;
                       aw_lastFailure := Some (at_, exn_message err)}}) ;;
       Throw err).

(** [handleAuditEvent]: [None] is a payload without an [actorType]. *)
Definition handleAuditEvent (ctx : option RequestContextStore)
    (payload : option AuditEventPayload) : prog AuditW () :=
  match payload with
  | Some p =>
      if truthy (pl_entity p) && truthy (pl_action p)
      then catch (record ctx p ;; mret ()) (λ _, mret ())
      else mret ()
  | None => mret ()
  end.

(** ** The audit of the audit *)

(** The argument of [auditSelf]. *)
Record SelfAudit := {
  sa_action : string;
  sa_entity : option string;
  sa_entityId : option string;
  sa_entityLabel : option string;
  sa_reason : option string;
  sa_severity : option AuditSeverity;
  sa_outcome : option AuditOutcome;
  sa_diff : jsval;
  sa_metadata : jsval;
}.
Definition self (action : string) : SelfAudit :=
  {| sa_action := action; sa_entity := None; sa_entityId := None; sa_entityLabel := None;
     sa_reason := None; sa_severity := None; sa_outcome := None; sa_diff := VUndefined;
     sa_metadata := VUndefined |}.

Definition self_payload (actor : Actor) (p : SelfAudit) : AuditEventPayload :=
  {| pl_userId := if ac_isSystem actor then None else ac_id actor;
     pl_actorType :=
       if ac_isSystem actor then ActorSYSTEM
       else if isSuperAdmin actor then ActorSUPER_ADMIN else ActorADMIN;
     pl_actorName := None; pl_actorRole := None; pl_sessionId := None; pl_targetUserId := None;
     pl_action := sa_action p; pl_outcome := sa_outcome p; pl_severity := sa_severity p;
     pl_reason := sa_reason p; pl_entity := default "AuditLog" (sa_entity p);
     pl_entityId := sa_entityId p; pl_entityLabel := sa_entityLabel p; pl_diff := sa_diff p;
     pl_metadata := sa_metadata p; pl_ipAddress := None; pl_userAgent := None;
     pl_country := None; pl_city := None; pl_source := None; pl_method := None; pl_path := None;
     pl_requestId := None |}.
Definition auditSelf (ctx : option RequestContextStore) (actor : Actor) (p : SelfAudit)
    : prog AuditW () :=
  record ctx (self_payload actor p) ;; mret ().

(** ** Verification *)

Definition VERIFY_BATCH : nat := 2000.
Definition MAX_VERIFY_ROWS : Z := 500000.

(** Ranges of numbers, in the order of their starts; neighbours are joined. *)
Definition merge_range (merged : list (Z * Z)) (r : Z * Z) : list (Z * Z) :=
  match merged with
  | (a, b) :: rest => if r.1 <=? b + 1 then (a, Z.max b r.2) :: rest else r :: merged
  | [] => [r]
  end.
Definition merge_ranges (runs : list (Z * Z)) : list (Z * Z) :=
  reverse (foldl merge_range [] runs).
Definition run_range (r : PurgeRun) : option (Z * Z) :=
  lo ← pr_minSeq r; hi ← pr_maxSeq r; Some (lo, hi).
Definition recorded_ranges (m : gmap string PurgeRun) : list (Z * Z) :=
  omap run_range (rows (λ _, true) m).
Definition by_start : list (Z * Z) → list (Z * Z) :=
  merge_sort (goes_before (λ a b, a.1 <=? b.1)).
Definition purgedSeqRanges : prog AuditW (list (Z * Z)) :=
  gets (λ w, merge_ranges (by_start (recorded_ranges (aw_runs w)))).
Definition explainedByPurge (purged : list (Z * Z)) (lo hi : Z) : bool :=
  existsb (λ '(a, b), (a <=? lo) && (hi <=? b)) purged.

(** The variables of the scan. *)
Record Scan := {
  sc_prev : option (Z * string);
  sc_lastSeq : option Z;
  sc_checked : Z;
  sc_complete : bool;
  sc_firstBreak : option IntegrityBreak;
}.
Definition scan0 : Scan :=
  {| sc_prev := None; sc_lastSeq := None; sc_checked := 0; sc_complete := true;
     sc_firstBreak := None |}.

Definition fail_at (row : AuditLog) (seq : Z) (reason : BreakReason) (detail : string)
    : IntegrityBreak :=
  {| ib_id := al_id row; ib_seq := seq; ib_createdAt := toISOString (al_createdAt row);
     ib_reason := reason; ib_detail := detail |}.

(** What is wrong with a row, after [prev]. *)
Definition check_row (purged : list (Z * Z)) (prev : option (Z * string)) (seq : Z)
    (row : AuditLog) : option IntegrityBreak :=
  if negb (bool_decide (Some (row_hash seq row) = al_hash row)) then
    Some (fail_at row seq hash_mismatch "Row content no longer matches its stored hash.")
  else
    match prev with
    | Some (pseq, phash) =>
        if seq =? pseq + 1 then
          if negb (bool_decide (al_prevHash row = Some phash)) then
            Some (fail_at row seq chain_link_broken
                    ("prevHash does not match the hash of seq " +:+ str_of_Z pseq +:+ "."))
          else None
        else if negb (explainedByPurge purged (pseq + 1) (seq - 1)) then
          Some (fail_at row seq rows_missing
                  ("seq " +:+ str_of_Z (pseq + 1) +:+ ".." +:+ str_of_Z (seq - 1) +:+
                   " are missing and no purge run explains it."))
        else None
    | None => None
    end.

(** The rows of a batch; [true]: the scan stops ([break scan]). *)
Fixpoint check_rows (purged : list (Z * Z)) (batch : list (Z * AuditLog)) (st : Scan)
    : Scan * bool :=
  match batch with
  | [] => (st, false)
  | (seq, row) :: batch =>
      if MAX_VERIFY_ROWS <=? sc_checked st then (st{{sc_complete := false}}, true)
      else
        match check_row purged (sc_prev st) seq row with
        | Some b => (st{{sc_firstBreak := Some b}}, true)
        | None =>
            check_rows purged batch
              (st{{sc_prev := Some (seq, row_hash seq row); sc_checked ::= Z.add 1}})
        end
  end.

Definition after (lastSeq : option Z) (r : AuditLog) : bool :=
  match lastSeq, al_seq r with
  | None, Some _ => true
  | Some l, Some s => l <? s
  | _, None => false
  end.
Definition before (seq : Z) (r : AuditLog) : bool :=
  match al_seq r with Some s => s <? seq | None => false end.

(** The row just before the range, when it has a hash. *)
Definition anchor (seq : Z) (m : gmap string AuditLog) : option (Z * string) :=
  pred ← last (chain (before seq) m);
  hash ← al_hash pred.2;
  if truthy hash then Some (pred.1, hash) else None.

(** [scan: for (;;)]; every turn but the last checks a row or ends the scan. *)
Fixpoint scan_rows (fuel : nat) (range : AuditLog → bool) (purged : list (Z * Z)) (st : Scan)
    : prog AuditW Scan :=
  match fuel with
  | O => mret st
  | S fuel =>
      batch ← gets (λ w, take VERIFY_BATCH
                (chain (λ r, range r && after (sc_lastSeq st) r) (aw_logs w)));
      match batch with
      | [] => mret st
      | (seq0, _) :: _ =>
          prev ← (if bool_decide (sc_prev st = None) && bool_decide (sc_lastSeq st = None)
                  then gets (λ w, anchor seq0 (aw_logs w))
                  else mret (sc_prev st));
          let '(st, stop) := check_rows purged batch (st{{sc_prev := prev}}) in
          if (stop : bool) then mret st
          else scan_rows fuel range purged (st{{sc_lastSeq := fst <$> last batch}})
      end
  end.
Definition scan_fuel : nat := Z.to_nat (MAX_VERIFY_ROWS + 2).

Definition in_range (from to : option Z) (r : AuditLog) : bool :=
  match from with Some f => f <=? al_createdAt r | None => true end &&
  match to with Some t => al_createdAt r <=? t | None => true end.

Definition opt_js (o : option string) : jsval := from_option VStr VNull o.
Definition break_reason_str (r : BreakReason) : string :=
  match r with
  | hash_mismatch => "hash_mismatch"
  | chain_link_broken => "chain_link_broken"
  | rows_missing => "rows_missing"
  end.
Definition break_js (b : IntegrityBreak) : jsval :=
  VObj [("id", VStr (ib_id b)); ("seq", VNum (ib_seq b)); ("createdAt", VStr (ib_createdAt b));
        ("reason", VStr (break_reason_str (ib_reason b))); ("detail", VStr (ib_detail b))].
Definition report_js (r : IntegrityReport) : jsval :=
  VObj [("ok", VBool (ir_ok r)); ("complete", VBool (ir_complete r));
        ("checked", VNum (ir_checked r)); ("unchainedRows", VNum (ir_unchainedRows r));
        ("from", opt_js (ir_from r)); ("to", opt_js (ir_to r));
        ("firstBreak", from_option break_js VNull (ir_firstBreak r));
        ("head", match ir_head r with
                 | Some (s, h) => VObj [("seq", VNum s); ("hash", VStr h)]
                 | None => VNull
                 end)].

(** What is put on record of a verification. *)
Definition verified (report : IntegrityReport) : SelfAudit :=
  (self "AUDIT_LOG_INTEGRITY_VERIFIED")
    {{sa_outcome := Some (if ir_ok report then O_SUCCESS else O_FAILURE);
      sa_severity := Some (if ir_ok report then S_INFO else S_CRITICAL);
      sa_metadata := report_js report}}.

(** [saveIntegrityRun] *)
Definition saveIntegrityRun (trigger : Trigger) (actor : Actor) (report : IntegrityReport)
    : prog AuditW () :=
  modify (λ w,
    let '(n, w) := draw w in
    w{{aw_integrity ::= insert (aud_uuid n)
         {| in_id := aud_uuid n; in_trigger := trigger; in_requestedById := ac_id actor;
            in_report := report; in_createdAt := aw_now w |} }}).

(** A date of a query: absent, a time, or text that is no date ([NaN]). *)
Definition query_date (o : option string) : option (option Z) :=
  match o with
  | Some s => if truthy s then Some (Date_parse s) else None
  | None => None
  end.

(** [verifyIntegrity]. A date that is no date does not order, and the query with it is
    refused by the client of the database. *)
Definition verifyIntegrity (ctx : option RequestContextStore) (from_text to_text : option string)
    (actor : Actor) (trigger : Trigger) : prog AuditW IntegrityReport :=
  let from := query_date from_text in
  let to := query_date to_text in
  throw_if match from, to with Some (Some f), Some (Some t) => t <? f | _, _ => false end
    (BadRequest "from_after_to") ;;
  purged ← purgedSeqRanges;
  throw_if (bool_decide (from = Some None) || bool_decide (to = Some None))
    (JsError "Invalid value for argument: Provided Date object is invalid") ;;
  let range := in_range (from ≫= λ d, d) (to ≫= λ d, d) in
  st ← scan_rows scan_fuel range purged scan0;
  unchainedRows ← logs_count (λ r, range r && bool_decide (al_seq r = None));
  let report :=
    {| ir_ok := bool_decide (sc_firstBreak st = None :> option IntegrityBreak);
       ir_complete := sc_complete st;
       ir_checked := sc_checked st;
       ir_unchainedRows := unchainedRows;
       ir_from := toISOString <$> (from ≫= λ d, d);
       ir_to := toISOString <$> (to ≫= λ d, d);
       ir_firstBreak := sc_firstBreak st;
       ir_head := sc_prev st |} in
  auditSelf ctx actor (verified report) ;;
  saveIntegrityRun trigger actor report ;;
  mret report.
End chain.

#[global] Arguments scan_fuel : simpl never.
