(* ===== verification/AuditPurge.v ===== *)
(** * Purges of the audit log

    [previewPurge], [purgeOlderThan] with its confirmation token, [anonymizeUser],
    the purge schedule and the worker's scheduled jobs of
    src/modules/misc/audit-log/service/audit-log.service.ts, and the archive writer of
    minio-audit-archive.storage.ts. *)

From S2P Require Import Prelude Js Json JsDate Roles AuditRedaction AuditModel AuditChain.
From stdpp Require Import sorting.
From coqutil Require Import Datatypes.RecordSetters.
Import DoubleBraceUpdate.

Open Scope Z_scope.

Definition PURGE_BATCH : nat := 5000.
Definition PURGE_TOKEN_TTL_MS : Z := 10 * 60 * 1000.
Definition errMsg : exn → string := exn_message.

(** A row as [JSON.stringify] prints it. *)
Definition opt_str (o : option string) : json := from_option JStr JNull o.
Definition opt_num (o : option Z) : json := from_option JNum JNull o.
Definition opt_date (o : option Z) : json := from_option (λ t, JStr (toISOString t)) JNull o.
Definition row_json (r : AuditLog) : json :=
  JObj [("id", JStr (al_id r)); ("createdAt", JStr (toISOString (al_createdAt r)));
        ("userId", opt_str (al_userId r)); ("actorType", JStr (actorType_str (al_actorType r)));
        ("actorName", opt_str (al_actorName r)); ("actorRole", opt_str (al_actorRole r));
        ("sessionId", opt_str (al_sessionId r)); ("targetUserId", opt_str (al_targetUserId r));
        ("action", JStr (al_action r)); ("outcome", JStr (outcome_str (al_outcome r)));
        ("severity", JStr (severity_str (al_severity r))); ("reason", opt_str (al_reason r));
        ("entity", JStr (al_entity r)); ("entityId", opt_str (al_entityId r));
        ("entityLabel", opt_str (al_entityLabel r)); ("diff", default JNull (al_diff r));
        ("metadata", default JNull (al_metadata r)); ("ipAddress", opt_str (al_ipAddress r));
        ("userAgent", opt_str (al_userAgent r)); ("country", opt_str (al_country r));
        ("city", opt_str (al_city r)); ("region", opt_str (al_region r));
        ("timezone", opt_str (al_timezone r)); ("asn", opt_num (al_asn r));
        ("isp", opt_str (al_isp r)); ("deviceLabel", opt_str (al_deviceLabel r));
        ("clientVersion", opt_str (al_clientVersion r));
        ("source", from_option (λ s, JStr (source_str s)) JNull (al_source r));
        ("method", opt_str (al_method r)); ("path", opt_str (al_path r));
        ("requestId", opt_str (al_requestId r)); ("seq", opt_num (al_seq r));
        ("hash", opt_str (al_hash r)); ("prevHash", opt_str (al_prevHash r));
        ("legalHold", JBool (al_legalHold r)); ("anonymizedAt", opt_date (al_anonymizedAt r))].

Section purge.
Context `{AuditLib} (cfg : AuditCfg) (ctx : option RequestContextStore).

(** ** The archive writer *)

Record PartInfo := { pt_key : string; pt_rows : Z; pt_bytes : Z; pt_sha256 : string }.
Record Writer := {
  wr_prefix : string;
  wr_runId : string;
  wr_cutoff : string;
  wr_parts : list PartInfo;
  wr_totalRows : Z;
}.
Definition ARCHIVE_PREFIX : string := "audit-archive".
Definition manifestKey (wr : Writer) : string := wr_prefix wr +:+ "/manifest.json".

Definition archive_open (runId cutoff : string) : prog AuditW Writer :=
  ensureBucket ;;
  mret {| wr_prefix := ARCHIVE_PREFIX +:+ "/" +:+ runId; wr_runId := runId; wr_cutoff := cutoff;
          wr_parts := []; wr_totalRows := 0 |}.

(** Uploads one object, then confirms that the storage holds the bytes that were sent. *)
Definition putVerified (key body : string) : prog AuditW () :=
  uploadFile key body ;;
  size ← statObject key;
  throw_if (negb (size =? String.length body)%nat)
    (JsError ("archive_size_mismatch key=" +:+ key +:+ " expected=" +:+
              str_of_Z (Z.of_nat (String.length body)) +:+ " actual=" +:+
              str_of_Z (Z.of_nat size))).

Definition ndjson (rows : list AuditLog) : string :=
  Js.join (Str "010"%char "") (map (λ r, stringify (row_json r)) rows) +:+ Str "010"%char "".
Definition part_body (rows : list AuditLog) : string := gzip (ndjson rows).
Definition part_key (wr : Writer) : string :=
  wr_prefix wr +:+ "/part-" +:+
  padStart 5 "0" (str_of_Z (Z.of_nat (length (wr_parts wr)) + 1)) +:+ ".ndjson.gz".

(** [write]: the part is listed before it is uploaded, whatever comes of it. *)
Definition writer_write (wr : Writer) (rows : list AuditLog) : prog AuditW (Writer * outcome ()) :=
  match rows with
  | [] => mret (wr, Ok ())
  | _ =>
      let body := part_body rows in
      let key := part_key wr in
      let part := {| pt_key := key; pt_rows := Z.of_nat (length rows);
                     pt_bytes := Z.of_nat (String.length body); pt_sha256 := sha256_hex body |} in
      let wr := wr{{wr_parts ::= λ ps, ps ++ [part]; wr_totalRows ::= Z.add (pt_rows part)}} in
      r ← attempt (putVerified key body);
      mret (wr, r)
  end.

Definition part_json (p : PartInfo) : json :=
  JObj [("key", JStr (pt_key p)); ("rows", JNum (pt_rows p)); ("bytes", JNum (pt_bytes p));
        ("sha256", JStr (pt_sha256 p))].
Definition manifest_json (wr : Writer) (createdAt : Z) : json :=
  JObj [("format", JStr "ndjson.gz"); ("table", JStr "audit_log"); ("runId", JStr (wr_runId wr));
        ("cutoff", JStr (wr_cutoff wr)); ("createdAt", JStr (toISOString createdAt));
        ("totalRows", JNum (wr_totalRows wr)); ("parts", JArr (map part_json (wr_parts wr)))].
Definition writer_finish (wr : Writer) : prog AuditW string :=
  createdAt ← now;
  putVerified (manifestKey wr) (stringify_indent (manifest_json wr createdAt)) ;;
  mret (manifestKey wr).

(** [abort]: an object that cannot be removed is left. *)
Definition writer_abort (wr : Writer) : prog AuditW () :=
  for_each (λ key, catch (deleteFile key) (λ _, mret ()))
    (map pt_key (wr_parts wr) ++ [manifestKey wr]).

(** ** The confirmation token *)

Record PurgeTokenClaims := {
  tc_sub : string; tc_cutoff : string; tc_exp : Z; tc_jti : string
}.
Definition claims_json (c : PurgeTokenClaims) : json :=
  JObj [("sub", JStr (tc_sub c)); ("cutoff", JStr (tc_cutoff c)); ("exp", JNum (tc_exp c));
        ("jti", JStr (tc_jti c))].

(** No purge without a real secret. *)
Definition tokenSecret : prog AuditW string :=
  match cf_purge_secret cfg with
  | Some s =>
      if (String.length s <? 32)%nat then Throw (ServiceUnavailable "purge_not_configured")
      else mret s
  | None => Throw (ServiceUnavailable "purge_not_configured")
  end.

Definition parseCutoff (olderThan : string) : prog AuditW Z :=
  if truthy olderThan then
    cutoff ← require (Date_parse olderThan) (BadRequest "invalid_olderThan_date");
    t ← now;
    throw_if (t <? cutoff) (BadRequest "olderThan_must_be_in_the_past") ;;
    mret cutoff
  else Throw (BadRequest "olderThan_query_param_required").

Definition draw_uuid : prog AuditW string :=
  act (λ w, let '(n, w) := draw w in (aud_uuid n, w)).

Definition issueConfirmToken (actor : Actor) (cutoff : Z) : prog AuditW (string * Z) :=
  sub ← requireUserId actor;
  t ← now;
  jti ← draw_uuid;
  let exp := t + PURGE_TOKEN_TTL_MS in
  let body := base64url (stringify (claims_json
    {| tc_sub := sub; tc_cutoff := toISOString cutoff; tc_exp := exp; tc_jti := jti |})) in
  secret ← tokenSecret;
  mret (body +:+ "." +:+ base64url (hmac_sha256 secret body), exp).

(** [claim === v] *)
Definition claim_is (claim : option json) (v : option string) : bool :=
  match claim, v with
  | Some (JStr a), Some b => bool_decide (a = b)
  | Some JNull, None => true
  | _, _ => false
  end.

(** [verifyConfirmToken]. A comparison with a claim of another type is false, and a
    [jti] that is no text is refused by the client of the database. *)
Definition verifyConfirmToken (token : string) (actor : Actor) (cutoff : Z)
    : prog AuditW string :=
  match Js.split "." token with
  | body :: sig :: _ =>
      if truthy body && truthy sig then
        secret ← tokenSecret;
        throw_if (negb (bool_decide (from_base64url sig = hmac_sha256 secret body)))
          (BadRequest "invalid_confirm_token") ;;
        claims ← require (JSON_parse (from_base64url body)) (BadRequest "invalid_confirm_token");
        throw_if match claims with JNull => true | _ => false end
          (JsError "Cannot read properties of null (reading 'exp')") ;;
        t ← now;
        throw_if match member "exp" claims with Some (JNum e) => e <? t | _ => false end
          (BadRequest "confirm_token_expired") ;;
        throw_if (negb (claim_is (member "sub" claims) (ac_id actor)))
          (Forbidden "confirm_token_issued_to_another_user") ;;
        throw_if (negb (claim_is (member "cutoff" claims) (Some (toISOString cutoff))))
          (BadRequest "confirm_token_does_not_match_olderThan") ;;
        match member "jti" claims with
        | Some (JStr jti) => mret jti
        | _ => Throw (JsError "Argument `tokenId` is missing")
        end
      else Throw (BadRequest "invalid_confirm_token")
  | _ => Throw (BadRequest "invalid_confirm_token")
  end.

(** ** Purging *)

Definition older (cutoff : Z) (r : AuditLog) : bool := al_createdAt r <? cutoff.
(** [purgeWhere] *)
Definition purgeable (cutoff : Z) (r : AuditLog) : bool := older cutoff r && negb (al_legalHold r).
Definition held_older (cutoff : Z) (r : AuditLog) : bool := older cutoff r && al_legalHold r.

Record PurgePreview := {
  pv_olderThan : string; pv_wouldDelete : Z; pv_underLegalHold : Z; pv_confirmToken : string;
  pv_expiresAt : string;
}.
Definition previewPurge (olderThan : string) (actor : Actor) : prog AuditW PurgePreview :=
  cutoff ← parseCutoff olderThan;
  wouldDelete ← logs_count (purgeable cutoff);
  underLegalHold ← logs_count (held_older cutoff);
  token ← issueConfirmToken actor cutoff;
  auditSelf ctx actor ((self "AUDIT_LOG_PURGE_PREVIEWED")
    {{sa_severity := Some S_WARNING;
      sa_metadata := VObj [("cutoff", VStr (toISOString cutoff));
        ("wouldDelete", VNum wouldDelete); ("underLegalHold", VNum underLegalHold)] }}) ;;
  mret {| pv_olderThan := toISOString cutoff; pv_wouldDelete := wouldDelete;
          pv_underLegalHold := underLegalHold; pv_confirmToken := token.1;
          pv_expiresAt := toISOString token.2 |}.

Definition failRun (id error : string) : prog AuditW () :=
  catch
    (t ← now;
     run_update id (λ r, r{{pr_status := RUN_FAILED; pr_error := Some error;
                            pr_finishedAt := Some t}}))
    (λ _, mret ()).

(** The variables of the archiving loop. *)
Record Archiving := {
  ar_writer : Writer;
  ar_count : Z;
  ar_minSeq : option Z;
  ar_maxSeq : option Z;
}.
Definition widen (a : Archiving) (row : AuditLog) : Archiving :=
  match al_seq row with
  | Some s =>
      a{{ar_minSeq ::= λ m, Some (match m with Some x => Z.min x s | None => s end);
         ar_maxSeq ::= λ m, Some (match m with Some x => Z.max x s | None => s end)}}
  | None => a
  end.

(** The loop over pages; every page but the last has a row. [Err] is what was thrown. *)
Fixpoint archive_loop (fuel : nat) (cutoff : Z) (cursorId : option string) (a : Archiving)
    : prog AuditW (Archiving * outcome ()) :=
  match fuel with
  | O => mret (a, Err (JsError "fuel"))
  | S fuel =>
      batch ← gets (page (purgeable cutoff) PURGE_BATCH cursorId);
      match last batch with
      | None => mret (a, Ok ())
      | Some final =>
          '(wr, r) ← writer_write (ar_writer a) batch;
          let a := a{{ar_writer := wr}} in
          match r with
          | Err e => mret (a, Err e)
          | Ok _ =>
              let a := foldl widen (a{{ar_count ::= Z.add (Z.of_nat (length batch))}}) batch in
              archive_loop fuel cutoff (Some (al_id final)) a
          end
      end
  end.

(** The whole [try]: the key of the archive, or no archive when no row matched. *)
Definition archive_rows (cutoff : Z) (wr : Writer)
    : prog AuditW (Archiving * outcome (option string)) :=
  n ← gets (λ w, size (aw_logs w));
  '(a, r) ← archive_loop (S n) cutoff None
    {| ar_writer := wr; ar_count := 0; ar_minSeq := None; ar_maxSeq := None |};
  match r with
  | Err e => mret (a, Err e)
  | Ok _ =>
      if 0 <? ar_count a then
        key ← attempt (writer_finish (ar_writer a));
        mret (a, key ≫= λ k, Ok (Some k))
      else
        writer_abort (ar_writer a) ;;
        mret (a, Ok None)
  end.

(** The loop that deletes; [Err] with the number of rows deleted so far. *)
Fixpoint delete_loop (fuel : nat) (cutoff deleted : Z) : prog AuditW (Z * outcome ()) :=
  match fuel with
  | O => mret (deleted, Err (JsError "fuel"))
  | S fuel =>
      ids ← gets (λ w, map al_id (page (purgeable cutoff) PURGE_BATCH None w));
      match ids with
      | [] => mret (deleted, Ok ())
      | _ =>
          r ← attempt (logs_delete ids);
          match r with
          | Err e => mret (deleted, Err e)
          | Ok n =>
              if n =? 0 then mret (deleted, Ok ())
              else delete_loop fuel cutoff (deleted + n)
          end
      end
  end.

Record PurgeResult := {
  pg_runId : string; pg_olderThan : string; pg_archivedCount : Z; pg_archiveKey : option string;
  pg_deletedCount : Z; pg_heldCount : Z;
}.
Record PurgeDto := { pd_olderThan : string; pd_reason : string; pd_confirmToken : string }.

(** The run's row, the single use of the token. *)
Definition start_run (tokenId reason : string) (cutoff : Z) (actor : Actor)
    : prog AuditW PurgeRun :=
  catch
    (run_create (λ id t,
       {| pr_id := id; pr_tokenId := tokenId; pr_cutoff := cutoff; pr_reason := reason;
          pr_status := STARTED; pr_requestedById := ac_id actor; pr_archiveKey := None;
          pr_archivedCount := 0; pr_deletedCount := 0; pr_heldCount := 0; pr_minSeq := None;
          pr_maxSeq := None; pr_error := None; pr_createdAt := t; pr_finishedAt := None |}))
    (λ err, if has_code "P2002" err then Throw (BadRequest "confirm_token_already_used")
            else Throw err).

(** The first half: archive, or fail the run with nothing deleted. *)
Definition archive_phase (runId : string) (cutoff : Z) : prog AuditW (Archiving * option string) :=
  opened ← attempt (archive_open runId (toISOString cutoff));
  match opened with
  | Err err =>
      failRun runId ("archive_open: " +:+ errMsg err) ;;
      Throw (ServiceUnavailable "audit_archive_unavailable_nothing_deleted")
  | Ok wr =>
      '(a, r) ← archive_rows cutoff wr;
      match r with
      | Err err =>
          catch (writer_abort (ar_writer a)) (λ _, mret ()) ;;
          failRun runId ("archive: " +:+ errMsg err) ;;
          Throw (ServiceUnavailable "audit_archive_failed_nothing_deleted")
      | Ok key => mret (a, key)
      end
  end.

(** The second half: delete what matches and is not held. *)
Definition delete_phase (runId : string) (cutoff : Z) : prog AuditW Z :=
  n ← gets (λ w, size (aw_logs w));
  '(deleted, r) ← delete_loop (S n) cutoff 0;
  match r with
  | Err err =>
      run_update runId (λ q, q{{pr_status := RUN_FAILED; pr_deletedCount := deleted;
                                pr_error := Some ("delete: " +:+ errMsg err)}}) ;;
      Throw (ServiceUnavailable ("purge_partially_failed_see_run_" +:+ runId))
  | Ok _ => mret deleted
  end.

Definition archive_and_delete (id : string) (cutoff : Z)
    : prog AuditW (Archiving * option string * Z) :=
  '(a, archiveKey) ← archive_phase id cutoff;
  run_update id (λ r, r{{pr_status := ARCHIVED; pr_archiveKey := archiveKey;
    pr_archivedCount := ar_count a; pr_minSeq := ar_minSeq a; pr_maxSeq := ar_maxSeq a}}) ;;
  deletedCount ← delete_phase id cutoff;
  mret (a, archiveKey, deletedCount).

Definition purgeOlderThan (dto : PurgeDto) (actor : Actor) : prog AuditW PurgeResult :=
  cutoff ← parseCutoff (pd_olderThan dto);
  let reason := trim (pd_reason dto) in
  throw_if (negb (truthy reason)) (BadRequest "reason_required") ;;
  tokenId ← verifyConfirmToken (pd_confirmToken dto) actor cutoff;
  throw_if (negb (cf_archive cfg)) (ServiceUnavailable "audit_archive_not_configured") ;;
  run ← start_run tokenId reason cutoff actor;
  let id := pr_id run in
  '(a, archiveKey, deletedCount) ← archive_and_delete id cutoff;
  heldCount ← logs_count (held_older cutoff);
  t ← now;
  run_update id (λ r, r{{pr_status := COMPLETED; pr_deletedCount := deletedCount;
    pr_heldCount := heldCount; pr_finishedAt := Some t}}) ;;
  auditSelf ctx actor ((self "AUDIT_LOG_PURGED")
    {{sa_severity := Some S_CRITICAL; sa_entityId := Some id; sa_reason := Some reason;
      sa_diff := VObj [("before", VObj [("cutoff", VStr (toISOString cutoff));
                          ("archivedCount", VNum (ar_count a)); ("archiveKey", opt_js archiveKey)]);
                       ("after", VObj [("deletedCount", VNum deletedCount);
                          ("heldCount", VNum heldCount)])] }}) ;;
  mret {| pg_runId := id; pg_olderThan := toISOString cutoff; pg_archivedCount := ar_count a;
          pg_archiveKey := archiveKey; pg_deletedCount := deletedCount;
          pg_heldCount := heldCount |}.

(** ** Anonymization *)

Definition anonymized (t : Z) (r : AuditLog) : AuditLog :=
  r{{al_actorName := Some "Anonymized user"; al_actorRole := None; al_ipAddress := None;
     al_userAgent := None; al_country := None; al_city := None; al_region := None;
     al_timezone := None; al_asn := None; al_isp := None; al_deviceLabel := None;
     al_clientVersion := None; al_metadata := None; al_anonymizedAt := Some t}}.
Definition by_user (userId : string) (r : AuditLog) : bool :=
  bool_decide (al_userId r = Some userId).
Definition about_user (userId : string) (r : AuditLog) : bool :=
  bool_decide (al_entity r = "User") && bool_decide (al_entityId r = Some userId).
Record Anonymized := { an_rows : Z; an_labels : Z; an_skipped : Z }.
(** The three statements are one transaction. *)
Definition anonymizeUser (userId : string) (actor : Actor) : prog AuditW Anonymized :=
  t ← now;
  counts ← transaction (
    actorRows ← logs_updateMany
      (λ r, by_user userId r && negb (al_legalHold r) && bool_decide (al_anonymizedAt r = None))
      (anonymized t);
    labelRows ← logs_updateMany (λ r, about_user userId r && negb (al_legalHold r))
      (λ r, r{{al_entityLabel := None}});
    skipped ← logs_count (λ r, al_legalHold r && (by_user userId r || about_user userId r));
    mret {| an_rows := actorRows; an_labels := labelRows; an_skipped := skipped |});
  auditSelf ctx actor ((self "AUDIT_LOG_ANONYMIZED")
    {{sa_severity := Some S_WARNING; sa_entity := Some "User"; sa_entityId := Some userId;
      sa_diff := VObj [("before", VNull);
        ("after", VObj [("anonymizedRows", VNum (an_rows counts));
                        ("entityLabelsCleared", VNum (an_labels counts));
                        ("skippedLegalHold", VNum (an_skipped counts))])] }}) ;;
  mret counts.

(** ** The purge schedule *)

Definition HOUR_MS : Z := 3600000.
Record SchedulePurgeDto := { sp_olderThan : string; sp_runAt : string; sp_reason : string }.
Definition schedulePurge (dto : SchedulePurgeDto) (actor : Actor) : prog AuditW PurgeSchedule :=
  olderThan ← parseCutoff (sp_olderThan dto);
  runAt ← require (Date_parse (sp_runAt dto)) (BadRequest "invalid_runAt");
  t1 ← now;
  throw_if (runAt <? t1 + cf_notice_hours cfg * HOUR_MS)
    (BadRequest ("runAt_needs_at_least_" +:+ str_of_Z (cf_notice_hours cfg) +:+ "_hours_notice")) ;;
  t2 ← now;
  throw_if (t2 + 365 * DAY_MS <? runAt) (BadRequest "runAt_too_far_ahead") ;;
  throw_if (negb (cf_archive cfg)) (ServiceUnavailable "audit_archive_not_configured") ;;
  tokenSecret ;;
  createdById ← requireUserId actor;
  let reason := trim (sp_reason dto) in
  schedule ← schedule_create (λ id t,
    {| ps_id := id; ps_olderThan := olderThan; ps_runAt := runAt; ps_reason := reason;
       ps_status := SCHEDULED; ps_createdById := createdById; ps_cancelledById := None;
       ps_cancelReason := None; ps_cancelledAt := None; ps_purgeRunId := None; ps_error := None;
       ps_executedAt := None; ps_createdAt := t |});
  wouldDelete ← logs_count (purgeable olderThan);
  auditSelf ctx actor ((self "AUDIT_PURGE_SCHEDULED")
    {{sa_entity := Some "AuditPurgeSchedule"; sa_entityId := Some (ps_id schedule);
      sa_severity := Some S_CRITICAL; sa_reason := Some reason;
      sa_metadata := VObj [("olderThan", VStr (toISOString olderThan));
        ("runAt", VStr (toISOString runAt)); ("wouldDeleteToday", VNum wouldDelete)] }}) ;;
  mret schedule.

Definition is_scheduled (id : string) (s : PurgeSchedule) : bool :=
  bool_decide (ps_id s = id) && bool_decide (ps_status s = SCHEDULED).
Definition cancelPurgeSchedule (id reason0 : string) (actor : Actor) : prog AuditW () :=
  existing ← gets (λ w, aw_schedules w !! id);
  _ ← require existing (NotFound "Scheduled purge not found");
  userId ← requireUserId actor;
  t ← now;
  let reason := trim reason0 in
  count ← schedules_updateMany (is_scheduled id)
    (λ s, s{{ps_status := SCHED_CANCELLED; ps_cancelledById := Some userId;
             ps_cancelReason := Some reason; ps_cancelledAt := Some t}});
  throw_if (count =? 0) (Conflict "purge_already_started_or_finished") ;;
  auditSelf ctx actor ((self "AUDIT_PURGE_SCHEDULE_CANCELLED")
    {{sa_entity := Some "AuditPurgeSchedule"; sa_entityId := Some id;
      sa_severity := Some S_WARNING; sa_reason := Some reason}}).

(** ** The worker's scheduled jobs *)

Definition emitAttention (event : Attention) : prog AuditW () :=
  modify (λ w, w{{aw_attention ::= cons event}}).

(** One due purge: claimed, run as the Super Admin who scheduled it. *)
Definition run_scheduled (s : PurgeSchedule) : prog AuditW () :=
  claimed ← schedules_updateMany (is_scheduled (ps_id s)) (λ s, s{{ps_status := RUNNING}});
  if claimed =? 0 then mret () else
  let actor := {| ac_id := Some (ps_createdById s); ac_roles := [SUPER_ADMIN];
                  ac_isSystem := false |} in
  catch
    (token ← issueConfirmToken actor (ps_olderThan s);
     result ← purgeOlderThan
       {| pd_olderThan := toISOString (ps_olderThan s);
          pd_reason := ps_reason s +:+ " (scheduled purge " +:+ ps_id s +:+ ")";
          pd_confirmToken := token.1 |} actor;
     t ← now;
     schedule_update (ps_id s) (λ s, s{{ps_status := EXECUTED;
       ps_purgeRunId := Some (pg_runId result); ps_executedAt := Some t}}))
    (λ err,
     t ← now;
     schedule_update (ps_id s) (λ s, s{{ps_status := SCHED_FAILED;
       ps_error := Some (str_take 300 (errMsg err)); ps_executedAt := Some t}}) ;;
     emitAttention {| at_kind := SCHEDULED_PURGE_FAILED;
       at_title := "Scheduled audit purge failed";
       at_body := "A scheduled audit log purge did not complete. Open the purge schedule for details.";
       at_entity := "AuditPurgeSchedule"; at_entityId := ps_id s; at_occurrenceId := ps_id s |}).

Definition due (t : Z) (s : PurgeSchedule) : bool :=
  bool_decide (ps_status s = SCHEDULED) && (ps_runAt s <=? t).
Definition by_runAt : list PurgeSchedule → list PurgeSchedule :=
  merge_sort (goes_before (λ a b, ps_runAt a <=? ps_runAt b)).
Definition runDueScheduledPurges : prog AuditW () :=
  t ← now;
  dues ← gets (λ w, take 3 (by_runAt (rows (due t) (aw_schedules w))));
  for_each run_scheduled dues.

(** [runDueIntegrity]: claimed by moving the time of the next run. *)
Definition integrity_due (t : Z) (s : IntegritySchedule) : bool :=
  is_enabled s && match is_nextRunAt s with Some n => n <=? t | None => true end.
Definition runDueIntegrity : prog AuditW () :=
  schedule ← gets aw_integritySchedule;
  match schedule with
  | Some s =>
      if negb (is_enabled s) then mret () else
      t ← now;
      if match is_nextRunAt s with Some n => t <? n | None => false end then mret () else
      let next := t + is_intervalHours s * HOUR_MS in
      claimed ← act (λ w,
        match aw_integritySchedule w with
        | Some q => if integrity_due t q
                    then (1, w{{aw_integritySchedule := Some (q{{is_lastRunAt := Some t;
                                                                is_nextRunAt := Some next}})}})
                    else (0, w)
        | None => (0, w)
        end);
      if claimed =? 0 then mret () else
      report ← verifyIntegrity ctx None None SYSTEM_ACTOR TRIG_SCHEDULED;
      if ir_ok report then mret () else
      emitAttention {| at_kind := INTEGRITY_BREAK; at_title := "Audit log integrity check failed";
        at_body := "The scheduled hash-chain check found a break. Open the integrity breaks list.";
        at_entity := "AuditIntegrityRun";
        at_entityId := default "unknown" (ib_id <$> ir_firstBreak report);
        at_occurrenceId := toISOString t |}
  | None => mret ()
  end.

(** [setIntegritySchedule] *)
Definition setIntegritySchedule (enabled : bool) (intervalHours0 : option Z) (actor : Actor)
    : prog AuditW IntegritySchedule :=
  before ← gets aw_integritySchedule;
  let intervalHours := default 24 (intervalHours0 ?? (is_intervalHours <$> before)) in
  t ← now;
  let nextRunAt := if enabled then Some (t + 60000) else None in
  after ← act (λ w,
    let s := {| is_enabled := enabled; is_intervalHours := intervalHours;
                is_lastRunAt := aw_integritySchedule w ≫= is_lastRunAt;
                is_nextRunAt := nextRunAt; is_updatedById := ac_id actor |} in
    (s, w{{aw_integritySchedule := Some s}}));
  let shown (s : IntegritySchedule) := VObj [("enabled", VBool (is_enabled s));
                                 ("intervalHours", VNum (is_intervalHours s))] in
  auditSelf ctx actor ((self "AUDIT_INTEGRITY_SCHEDULE_CHANGED")
    {{sa_entity := Some "AuditIntegritySchedule"; sa_entityId := Some "default";
      sa_severity := Some S_WARNING;
      sa_diff := VObj [("before", from_option shown VNull before); ("after", shown after)] }}) ;;
  mret after.
End purge.
