(* ===== verification/AuditHold.v ===== *)
(** * Legal holds, approvals by two persons, retention and archives

    [twoPerson], [stable], [holdWhere], [cleanHoldFilter], [setRowLegalHold],
    [previewLegalHold], [createLegalHold], [releaseLegalHold], [retrievePurgeArchive],
    [getRetention] and [updateRetention] of
    src/modules/misc/audit-log/service/audit-log.service.ts, with the reading half of
    src/modules/misc/export-job/service/export-object-storage.ts. *)

From S2P Require Import Prelude Js Json JsDate Roles AuditRedaction AuditModel AuditChain AuditPurge.
From stdpp Require Import sorting.
From coqutil Require Import Datatypes.RecordSetters.
Import DoubleBraceUpdate.

Open Scope Z_scope.

Definition APPROVAL_TTL_MS : Z := 24 * 60 * 60 * 1000.
Definition ARCHIVE_LINK_TTL_SECONDS : Z := 300.

(** The text of a value in which the order of keys does not matter. *)
Definition by_key {A} : list (string * A) → list (string * A) :=
  merge_sort (λ a b, String.le a.1 b.1).
Fixpoint stable (value : json) : string :=
  match value with
  | JArr xs => "[" +:+ Js.join "," (map stable xs) +:+ "]"
  | JObj kvs =>
      "{" +:+ Js.join ","
        (map (λ kv, quote kv.1 +:+ ":" +:+ kv.2) (by_key (map (λ kv, (kv.1, stable kv.2)) kvs)))
      +:+ "}"
  | j => stringify j
  end.

(** ** Filters of holds *)

Definition given (o : option string) : bool := truthy (default "" o).
(** A condition that is left out holds of every row. *)
Definition cond (o : option string) (column : option string) : bool :=
  negb (given o) || bool_decide (column = o).
Definition date_of (o : option string) : option Z := o ≫= Date_parse.
Definition no_condition (f : HoldFilter) : bool :=
  negb (existsb given [hf_rowId f; hf_entity f; hf_entityId f; hf_userId f; hf_targetUserId f;
                       hf_action f; hf_sessionId f; hf_requestId f; hf_startDate f;
                       hf_endDate f]).
Definition hold_matches (f : HoldFilter) (r : AuditLog) : bool :=
  cond (hf_rowId f) (Some (al_id r)) && cond (hf_entity f) (Some (al_entity r)) &&
  cond (hf_entityId f) (al_entityId r) && cond (hf_userId f) (al_userId r) &&
  cond (hf_targetUserId f) (al_targetUserId r) && cond (hf_action f) (Some (al_action r)) &&
  cond (hf_sessionId f) (al_sessionId r) && cond (hf_requestId f) (al_requestId r) &&
  (negb (given (hf_startDate f)) ||
   match date_of (hf_startDate f) with Some s => s <=? al_createdAt r | None => false end) &&
  (negb (given (hf_endDate f)) ||
   match date_of (hf_endDate f) with Some e => al_createdAt r <=? e | None => false end).

(** [holdWhere]; the query with a date that is none is refused by the client. *)
Definition holdWhere (f : HoldFilter) : outcome (AuditLog → bool) :=
  if no_condition f then Err (BadRequest "hold_filter_needs_at_least_one_condition")
  else if given (hf_startDate f) && given (hf_endDate f) &&
          match date_of (hf_startDate f), date_of (hf_endDate f) with
          | Some s, Some e => e <? s
          | _, _ => false
          end
  then Err (BadRequest "startDate_after_endDate")
  else if (given (hf_startDate f) && bool_decide (date_of (hf_startDate f) = None)) ||
          (given (hf_endDate f) && bool_decide (date_of (hf_endDate f) = None))
  then Err (JsError "Invalid value for argument: Provided Date object is invalid")
  else Ok (hold_matches f).

Definition drop_empty (o : option string) : option string := if given o then o else None.
Definition cleanHoldFilter (f : HoldFilter) : HoldFilter :=
  {| hf_rowId := drop_empty (hf_rowId f); hf_entity := drop_empty (hf_entity f);
     hf_entityId := drop_empty (hf_entityId f); hf_userId := drop_empty (hf_userId f);
     hf_targetUserId := drop_empty (hf_targetUserId f); hf_action := drop_empty (hf_action f);
     hf_sessionId := drop_empty (hf_sessionId f); hf_requestId := drop_empty (hf_requestId f);
     hf_startDate := drop_empty (hf_startDate f); hf_endDate := drop_empty (hf_endDate f) |}.
Definition row_filter (id : string) : HoldFilter :=
  {| hf_rowId := Some id; hf_entity := None; hf_entityId := None; hf_userId := None;
     hf_targetUserId := None; hf_action := None; hf_sessionId := None; hf_requestId := None;
     hf_startDate := None; hf_endDate := None |}.
(** The members that are there. *)
Definition filter_js (f : HoldFilter) : jsval :=
  VObj (omap (λ kv, (λ s, (kv.1, VStr s)) <$> kv.2)
    [("rowId", hf_rowId f); ("entity", hf_entity f); ("entityId", hf_entityId f);
     ("userId", hf_userId f); ("targetUserId", hf_targetUserId f); ("action", hf_action f);
     ("sessionId", hf_sessionId f); ("requestId", hf_requestId f);
     ("startDate", hf_startDate f); ("endDate", hf_endDate f)]).

(** ** What [export-object-storage.ts] finds on [MinioService] *)

(** The methods of the class in src/infrastructure/minio/minio.service.ts. *)
Definition MinioService_methods : list string :=
  ["onModuleInit"; "buildPresignClient"; "assertClient"; "ensureBucket"; "uploadFile";
   "buildObjectKey"; "uploadMulterFile"; "getUrl"; "deleteFile"; "objectExists"; "statObject";
   "getObjectBuffer"; "generatePresignedUploadUrl"; "generatePresignedDownloadUrl"].
Definition presignGet (api : string → Z → prog AuditW string) (key : string) (ttlSeconds : Z)
    : prog AuditW string :=
  if mem "presignedGetUrl" MinioService_methods then api key ttlSeconds
  else Throw (ServiceUnavailable "object_storage_cannot_create_download_links").
Definition getBuffer (api : string → prog AuditW string) (key : string) : prog AuditW string :=
  if mem "getFileBuffer" MinioService_methods then api key
  else Throw (ServiceUnavailable "object_storage_cannot_read_objects").

(** ** Retention policies as they are shown *)

Record RetentionItem := { ri_scope : string; ri_key : string; ri_retentionDays : Z }.
Definition retention_rows (m : gmap (string * string) RetentionPolicy) : list RetentionPolicy :=
  merge_sort (goes_before (λ a b,
    bool_decide (String.le (rt_scope a) (rt_scope b) ∧ rt_scope a ≠ rt_scope b) ||
    (bool_decide (rt_scope a = rt_scope b) && bool_decide (String.le (rt_key a) (rt_key b)))))
    (rows (λ _, true) m).
Definition max_date (m : option Z) (r : RetentionPolicy) : option Z :=
  match m with
  | Some t => if t <? rt_updatedAt r then Some (rt_updatedAt r) else m
  | None => Some (rt_updatedAt r)
  end.
Definition of_scope (scope : string) (rs : list RetentionPolicy) : list RetentionPolicy :=
  filter (λ r, rt_scope r = scope) rs.
(** [getRetention] *)
Definition retention_js (m : gmap (string * string) RetentionPolicy) : jsval :=
  let rs := retention_rows m in
  VObj [("default", from_option VNum VNull (rt_retentionDays <$> head (of_scope "DEFAULT" rs)));
        ("byEntity", VArr (map (λ r, VObj [("entity", VStr (rt_key r));
                                ("retentionDays", VNum (rt_retentionDays r))]) (of_scope "ENTITY" rs)));
        ("bySeverity", VArr (map (λ r, VObj [("severity", VStr (rt_key r));
                                ("retentionDays", VNum (rt_retentionDays r))]) (of_scope "SEVERITY" rs)));
        ("enforcement", VStr "Declared policy. Rows are only removed by a purge (manual or scheduled), and rows under legal hold are always kept.");
        ("updatedAt", from_option VDate VNull (foldl max_date None rs))].
Definition getRetention : prog AuditW jsval := gets (λ w, retention_js (aw_retention w)).

Definition item_json (p : RetentionItem) : json :=
  JObj [("scope", JStr (ri_scope p)); ("key", JStr (ri_key p));
        ("retentionDays", JNum (ri_retentionDays p))].
(** The checks of the list, in its order. *)
Fixpoint check_policies (seen : list string) (ps : list RetentionItem) : outcome () :=
  match ps with
  | [] => Ok ()
  | p :: ps =>
      let k := ri_scope p +:+ ":" +:+ ri_key p in
      if mem k seen then Err (BadRequest "duplicate_policy")
      else if bool_decide (ri_scope p = "DEFAULT") && negb (bool_decide (ri_key p = "DEFAULT"))
      then Err (BadRequest "DEFAULT_policy_key_must_be_'DEFAULT'")
      else if bool_decide (ri_scope p = "SEVERITY") &&
              negb (mem (ri_key p) ["INFO"; "WARNING"; "CRITICAL"])
      then Err (BadRequest "unknown_severity")
      else check_policies (k :: seen) ps
  end.

Section hold.
Context `{AuditLib} (cfg : AuditCfg) (ctx : option RequestContextStore).

(** ** Two persons *)

Inductive GateStatus := APPROVAL_REQUIRED | AWAITING_SECOND_APPROVER.
Record GateResponse := {
  gr_status : GateStatus; gr_kind : ApprovalKind; gr_requestId : string; gr_expiresAt : string
}.
(** [approved: true] with who asked, or the answer to send. *)
Inductive Gate :=
| Approved (requestId requestedById : string)
| NotYet (response : GateResponse).

Definition payload_hash (kind : ApprovalKind) (targetKey : string) (material : json) : string :=
  sha256_hex (approval_kind_str kind +:+ "|" +:+ targetKey +:+ "|" +:+ stable material).
Definition overdue (t : Z) (a : Approval) : bool :=
  bool_decide (ap_status a = AP_PENDING) && (ap_expiresAt a <? t).
Definition pending_for (kind : ApprovalKind) (targetKey payloadHash : string) (t : Z)
    (a : Approval) : bool :=
  bool_decide (ap_kind a = kind) && bool_decide (ap_targetKey a = targetKey) &&
  bool_decide (ap_payloadHash a = payloadHash) && bool_decide (ap_status a = AP_PENDING) &&
  (t <? ap_expiresAt a).
Definition oldest (xs : list Approval) : option Approval :=
  head (merge_sort (goes_before (λ a b, ap_createdAt a <=? ap_createdAt b)) xs).

Definition approval_label (kind : ApprovalKind) (targetKey : string) : string :=
  approval_kind_str kind +:+ " " +:+ targetKey.
Definition new_approval (kind : ApprovalKind) (targetKey payloadHash : string) (material : json)
    (reason : option string) (actorId : string) (t : Z) (id : string) (createdAt : Z) : Approval :=
  {| ap_id := id; ap_kind := kind; ap_targetKey := targetKey; ap_payloadHash := payloadHash;
     ap_payload := material; ap_reason := reason; ap_status := AP_PENDING;
     ap_requestedById := actorId; ap_approvedById := None;
     ap_expiresAt := t + APPROVAL_TTL_MS; ap_decidedAt := None; ap_createdAt := createdAt |}.
Definition is_pending (id : string) (a : Approval) : bool :=
  bool_decide (ap_id a = id) && bool_decide (ap_status a = AP_PENDING).
Definition consumed (actorId : string) (t : Z) (a : Approval) : Approval :=
  a{{ap_status := AP_CONSUMED; ap_approvedById := Some actorId; ap_decidedAt := Some t}}.
Definition ask_approval (kind : ApprovalKind) (targetKey payloadHash : string) (material : json)
    (reason : option string) (actor : Actor) (actorId : string) (t : Z) : prog AuditW Gate :=
  created ← approval_create
    (new_approval kind targetKey payloadHash material reason actorId t);
  auditSelf ctx actor ((self "AUDIT_APPROVAL_REQUESTED")
    {{sa_entity := Some "AuditApprovalRequest"; sa_entityId := Some (ap_id created);
      sa_entityLabel := Some (approval_label kind targetKey); sa_severity := Some S_WARNING;
      sa_reason := reason;
      sa_metadata := VObj [("kind", VStr (approval_kind_str kind));
                           ("targetKey", VStr targetKey)] }}) ;;
  mret (NotYet {| gr_status := APPROVAL_REQUIRED; gr_kind := kind; gr_requestId := ap_id created;
                  gr_expiresAt := toISOString (ap_expiresAt created) |}).
Definition approve_request (kind : ApprovalKind) (targetKey : string) (pending : Approval)
    (actor : Actor) (actorId : string) (t : Z) : prog AuditW Gate :=
  claimed ← approvals_updateMany (is_pending (ap_id pending)) (consumed actorId t);
  throw_if (claimed =? 0) (Conflict "approval_already_used") ;;
  auditSelf ctx actor ((self "AUDIT_APPROVAL_GRANTED")
    {{sa_entity := Some "AuditApprovalRequest"; sa_entityId := Some (ap_id pending);
      sa_entityLabel := Some (approval_label kind targetKey); sa_severity := Some S_WARNING;
      sa_metadata := VObj [("kind", VStr (approval_kind_str kind)); ("targetKey", VStr targetKey);
                           ("requestedById", VStr (ap_requestedById pending))] }}) ;;
  mret (Approved (ap_id pending) (ap_requestedById pending)).

Definition twoPerson (kind : ApprovalKind) (targetKey : string) (material : json)
    (reason : option string) (actor : Actor) : prog AuditW Gate :=
  actorId ← requireUserId actor;
  t ← now;
  let payloadHash := payload_hash kind targetKey material in
  approvals_updateMany (overdue t) (λ a, a{{ap_status := AP_EXPIRED}}) ;;
  pending ← gets (λ w, oldest (rows (pending_for kind targetKey payloadHash t) (aw_approvals w)));
  match pending with
  | None => ask_approval kind targetKey payloadHash material reason actor actorId t
  | Some p =>
      if bool_decide (ap_requestedById p = actorId) then
        mret (NotYet {| gr_status := AWAITING_SECOND_APPROVER; gr_kind := kind;
                        gr_requestId := ap_id p; gr_expiresAt := toISOString (ap_expiresAt p) |})
      else approve_request kind targetKey p actor actorId t
  end.

(** What a gated operation answers. *)
Inductive Reply (A : Type) :=
| Gated (response : GateResponse)
| Done (a : A).
Arguments Gated {A} response.
Arguments Done {A} a.
Definition gated {A} (g : Gate) (k : string → prog AuditW A) : prog AuditW (Reply A) :=
  match g with
  | NotYet response => mret (Gated response)
  | Approved _ requestedById => a ← k requestedById; mret (Done a)
  end.

(** ** Holds *)

Definition has_id (ids : list string) (h : LegalHold) : bool :=
  mem (lh_id h) ids && bool_decide (lh_status h = HOLD_ACTIVE).
Definition release (t : Z) (releasedBy requestedBy : option string) (reason : string)
    (h : LegalHold) : LegalHold :=
  h{{lh_status := HOLD_RELEASED; lh_releasedAt := Some t; lh_releasedById := releasedBy;
     lh_releaseRequestedById := requestedBy; lh_releaseReason := Some reason}}.
Definition new_hold (kind : HoldKind) (caseReference reason : string) (filter : HoldFilter)
    (rowCount : Z) (createdBy : option string) (id : string) (t : Z) : LegalHold :=
  {| lh_id := id; lh_kind := kind; lh_caseReference := caseReference; lh_reason := reason;
     lh_filter := filter; lh_status := HOLD_ACTIVE; lh_rowCount := rowCount; lh_appliedAt := t;
     lh_createdById := createdBy; lh_releasedAt := None; lh_releasedById := None;
     lh_releaseRequestedById := None; lh_releaseReason := None; lh_createdAt := t |}.
Definition hold_create (mk : string → Z → LegalHold) : prog AuditW LegalHold :=
  act (λ w,
    let '(n, w) := draw w in
    let h := mk (aud_uuid n) (aw_now w) in (h, w{{aw_holds ::= insert (lh_id h) h}})).

(** The holds that cover a row, asked one by one. *)
Fixpoint covering_of (id : string) (hs : list LegalHold) : prog AuditW (list LegalHold) :=
  match hs with
  | [] => mret []
  | h :: hs =>
      P ← throw_outcome (holdWhere (lh_filter h));
      covers ← logs_count (λ r, bool_decide (al_id r = id) && P r);
      rest ← covering_of id hs;
      mret (if 0 <? covers then h :: rest else rest)
  end.

Record RowHold := { rh_id : string; rh_legalHold : bool; rh_holdId : option string; rh_changed : bool }.
Record SetRowLegalHoldDto := {
  sr_legalHold : bool; sr_reason : string; sr_caseReference : option string
}.

Definition set_row_hold (id caseReference reason : string) (actor : Actor)
    : prog AuditW (Reply RowHold) :=
  hold ← transaction (
    created ← hold_create (new_hold HOLD_ROW caseReference reason (row_filter id) 1 (ac_id actor));
    log_set_hold id true ;;
    mret created);
  auditSelf ctx actor ((self "AUDIT_LEGAL_HOLD_SET")
    {{sa_entity := Some "AuditLegalHold"; sa_entityId := Some (lh_id hold);
      sa_entityLabel := Some caseReference; sa_severity := Some S_WARNING;
      sa_reason := Some reason;
      sa_metadata := VObj [("kind", VStr "ROW"); ("auditLogId", VStr id)] }}) ;;
  mret (Done {| rh_id := id; rh_legalHold := true; rh_holdId := Some (lh_id hold);
                rh_changed := true |}).

Definition clear_row_hold (row : AuditLog) (id reason : string) (actor : Actor)
    : prog AuditW (Reply RowHold) :=
  throw_if (negb (isSuperAdmin actor)) (Forbidden "only_super_admin_can_clear_a_hold") ;;
  active ← active_holds;
  covering ← covering_of id active;
  if negb (al_legalHold row) && bool_decide (length covering = 0%nat) then
    mret (Done {| rh_id := id; rh_legalHold := false; rh_holdId := None; rh_changed := false |})
  else
  throw_if (existsb (λ h, negb (bool_decide (lh_kind h = HOLD_ROW))) covering)
    (Conflict "row_is_covered_by_a_filter_hold_release_that_hold_instead") ;;
  gate ← twoPerson HOLD_RELEASE ("row:" +:+ id) (JObj []) (Some reason) actor;
  gated gate (λ requestedById,
    t ← now;
    holds_updateMany (has_id (map lh_id covering))
      (release t (ac_id actor) (Some requestedById) reason) ;;
    log_set_hold id false ;;
    auditSelf ctx actor ((self "AUDIT_LEGAL_HOLD_CLEARED")
      {{sa_entity := Some "AuditLegalHold";
        sa_entityId := Some (default id (lh_id <$> head covering)); sa_severity := Some S_CRITICAL;
        sa_reason := Some reason;
        sa_metadata := VObj [("kind", VStr "ROW"); ("auditLogId", VStr id);
                             ("requestedById", VStr requestedById)] }}) ;;
    mret {| rh_id := id; rh_legalHold := false; rh_holdId := None; rh_changed := true |}).

Definition setRowLegalHold (id : string) (dto : SetRowLegalHoldDto) (actor : Actor)
    : prog AuditW (Reply RowHold) :=
  found ← log_by_id id;
  row ← require found (NotFound "Audit log not found");
  let reason := trim (sr_reason dto) in
  if sr_legalHold dto then
    let caseReference := trim (default "" (sr_caseReference dto)) in
    throw_if (negb (truthy caseReference)) (BadRequest "caseReference_required_to_set_a_hold") ;;
    set_row_hold id caseReference reason actor
  else clear_row_hold row id reason actor.

Record HoldPreview := {
  hp_filter : HoldFilter; hp_wouldCover : Z; hp_alreadyHeld : Z; hp_newlyHeld : Z;
  hp_oldestRowAt : option Z; hp_newestRowAt : option Z
}.
(** [previewLegalHold], without the numbers per entity. *)
Definition previewLegalHold (filter0 : HoldFilter) : prog AuditW HoldPreview :=
  let filter := cleanHoldFilter filter0 in
  P ← throw_outcome (holdWhere filter);
  total ← logs_count P;
  alreadyHeld ← logs_count (λ r, P r && al_legalHold r);
  times ← gets (λ w, map al_createdAt (rows P (aw_logs w)));
  mret {| hp_filter := filter; hp_wouldCover := total; hp_alreadyHeld := alreadyHeld;
          hp_newlyHeld := total - alreadyHeld;
          hp_oldestRowAt := foldr (λ t m, Some (match m with Some x => Z.min x t | None => t end))
                              None times;
          hp_newestRowAt := foldr (λ t m, Some (match m with Some x => Z.max x t | None => t end))
                              None times |}.

Record CreateLegalHoldDto := {
  ch_caseReference : string; ch_reason : string; ch_filter : HoldFilter
}.
Definition createLegalHold (dto : CreateLegalHoldDto) (actor : Actor) : prog AuditW LegalHold :=
  let filter := cleanHoldFilter (ch_filter dto) in
  P ← throw_outcome (holdWhere filter);
  let caseReference := trim (ch_caseReference dto) in
  let reason := trim (ch_reason dto) in
  matched ← logs_count P;
  throw_if (matched =? 0) (BadRequest "filter_matches_no_rows") ;;
  hold ← transaction (
    created ← hold_create (new_hold HOLD_FILTER caseReference reason filter matched (ac_id actor));
    logs_updateMany (λ r, P r && negb (al_legalHold r)) (set_hold true) ;;
    mret created);
  auditSelf ctx actor ((self "AUDIT_LEGAL_HOLD_SET")
    {{sa_entity := Some "AuditLegalHold"; sa_entityId := Some (lh_id hold);
      sa_entityLabel := Some caseReference; sa_severity := Some S_WARNING;
      sa_reason := Some reason;
      sa_metadata := VObj [("kind", VStr "FILTER"); ("filter", filter_js filter);
                           ("rowCount", VNum matched)] }}) ;;
  mret hold.

(** The rows that other holds still cover go back on hold, one hold at a time. *)
Fixpoint reapply (P : AuditLog → bool) (others : list LegalHold) (reapplied : Z)
    : prog AuditW Z :=
  match others with
  | [] => mret reapplied
  | o :: others =>
      Q ← throw_outcome (holdWhere (lh_filter o));
      n ← logs_updateMany (λ r, P r && Q r && negb (al_legalHold r)) (set_hold true);
      reapply P others (reapplied + n)
  end.

Record Released := { re_holdId : string; re_clearedRows : Z; re_keptByOtherHolds : Z }.
Definition releaseLegalHold (holdId reason0 : string) (actor : Actor)
    : prog AuditW (Reply Released) :=
  found ← gets (λ w, aw_holds w !! holdId);
  hold ← require found (NotFound "Legal hold not found");
  throw_if (negb (bool_decide (lh_status hold = HOLD_ACTIVE))) (Conflict "hold_already_released") ;;
  let reason := trim reason0 in
  gate ← twoPerson HOLD_RELEASE ("hold:" +:+ holdId) (JObj []) (Some reason) actor;
  gated gate (λ requestedById,
    t ← now;
    released ← holds_updateMany (has_id [holdId])
      (release t (ac_id actor) (Some requestedById) reason);
    throw_if (released =? 0) (Conflict "hold_already_released") ;;
    P ← throw_outcome (holdWhere (lh_filter hold));
    cleared ← logs_updateMany (λ r, P r && al_legalHold r) (set_hold false);
    others ← active_holds;
    reapplied ← reapply P others 0;
    auditSelf ctx actor ((self "AUDIT_LEGAL_HOLD_RELEASED")
      {{sa_entity := Some "AuditLegalHold"; sa_entityId := Some holdId;
        sa_entityLabel := Some (lh_caseReference hold); sa_severity := Some S_CRITICAL;
        sa_reason := Some reason;
        sa_metadata := VObj [("clearedRows", VNum cleared); ("keptByOtherHolds", VNum reapplied);
                             ("requestedById", VStr requestedById)] }}) ;;
    mret {| re_holdId := holdId; re_clearedRows := cleared - reapplied;
            re_keptByOtherHolds := reapplied |}).

(** ** Archives *)

Section archive.
Context (api_getFileBuffer : string → prog AuditW string)
        (api_presignedGetUrl : string → Z → prog AuditW string).

Record ArchiveFile := { af_name : string; af_url : string }.
(** The keys of the parts of a manifest; [None]: no JSON. *)
Definition manifest_parts (text : string) : option (list json) :=
  j ← JSON_parse text;
  match j, member "parts" j with
  | JNull, _ => None
  | _, Some (JArr ps) => Some ps
  | _, _ => Some []
  end.
Definition part_name (i : nat) : string :=
  "part-" +:+ padStart 5 "0" (str_of_Z (Z.of_nat i + 1)) +:+ ".ndjson.gz".
Fixpoint presign_all (i : nat) (ps : list json) : prog AuditW (list ArchiveFile) :=
  match ps with
  | [] => mret []
  | p :: ps =>
      url ← presignGet api_presignedGetUrl
        match member "key" p with Some (JStr k) => k | _ => "undefined" end
        ARCHIVE_LINK_TTL_SECONDS;
      rest ← presign_all (S i) ps;
      mret ({| af_name := part_name i; af_url := url |} :: rest)
  end.

Definition retrievePurgeArchive (id : string) (actor : Actor)
    : prog AuditW (Reply (list ArchiveFile)) :=
  found ← gets (λ w, aw_runs w !! id);
  run ← require found (NotFound "Purge run not found");
  throw_if (negb (given (pr_archiveKey run))) (Conflict "run_has_no_archive") ;;
  throw_if (negb (cf_objectStorage cfg)) (ServiceUnavailable "object_storage_not_configured") ;;
  gate ← twoPerson ARCHIVE_RETRIEVAL ("run:" +:+ id) (JObj []) None actor;
  gated gate (λ requestedById,
    parts ← catch
      (text ← getBuffer api_getFileBuffer (default "" (pr_archiveKey run));
       require (manifest_parts text) (JsError "Unexpected token in JSON"))
      (λ _, Throw (ServiceUnavailable "archive_manifest_unreadable"));
    auditSelf ctx actor ((self "AUDIT_ARCHIVE_RETRIEVED")
      {{sa_entity := Some "AuditPurgeRun"; sa_entityId := Some id; sa_severity := Some S_CRITICAL;
        sa_metadata := VObj [("parts", VNum (Z.of_nat (length parts)));
          ("archivedCount", VNum (pr_archivedCount run));
          ("requestedById", VStr requestedById)] }}) ;;
    presign_all 0 parts).
End archive.

(** ** Retention *)

Definition upsert_policy (updatedBy : option string) (t : Z)
    (m : gmap (string * string) RetentionPolicy) (p : RetentionItem)
    : gmap (string * string) RetentionPolicy :=
  <[(ri_scope p, ri_key p) :=
      {| rt_scope := ri_scope p; rt_key := ri_key p; rt_retentionDays := ri_retentionDays p;
         rt_updatedById := updatedBy; rt_updatedAt := t |}]> m.
Definition policy_text (p : RetentionItem) : string := ri_scope p +:+ ri_key p.

Definition updateRetention (policies : list RetentionItem) (reason0 : string) (actor : Actor)
    : prog AuditW (Reply jsval) :=
  throw_outcome (check_policies [] policies) ;;
  let reason := trim reason0 in
  let material := JObj [("policies", JArr (map item_json
    (merge_sort (goes_before (λ a b, locale_compare (policy_text a) (policy_text b))) policies)))] in
  gate ← twoPerson RETENTION_CHANGE "retention" material (Some reason) actor;
  gated gate (λ requestedById,
    before ← getRetention;
    modify (λ w, w{{aw_retention ::= λ m,
                      foldl (upsert_policy (ac_id actor) (aw_now w)) m policies}}) ;;
    after ← getRetention;
    auditSelf ctx actor ((self "AUDIT_RETENTION_CHANGED")
      {{sa_entity := Some "AuditRetentionPolicy"; sa_severity := Some S_CRITICAL;
        sa_reason := Some reason; sa_diff := VObj [("before", before); ("after", after)];
        sa_metadata := VObj [("requestedById", VStr requestedById)] }}) ;;
    mret after).
End hold.

#[global] Arguments Gated {A} response.
#[global] Arguments Done {A} a.
