(* ===== verification/AuditSafety.v ===== *)
(** * The audit log under every interleaving

    What no handler of the audit log does, however the handlers interleave: break the
    chain, change the facts of an event, delete a row under legal hold, let one person
    release a hold. *)

From S2P Require Import Prelude Interleave Js Json JsDate Roles AuditRedaction.
From S2P Require Import AuditModel AuditChain AuditPurge AuditHold.
From stdpp Require Import sorting.
From coqutil Require Import Datatypes.RecordSetters.
Import DoubleBraceUpdate.

Open Scope Z_scope.

(** ** The facts of an event *)

(** What the hash covers, with the row's place in the chain. *)
Definition facts (r : AuditLog) :=
  (al_id r, al_createdAt r, (al_action r, al_outcome r, al_severity r, al_actorType r),
   (al_entity r, al_entityId r, al_reason r), (al_seq r, al_hash r, al_prevHash r)).

Lemma row_hash_facts `{AuditLib} s r r' : facts r' = facts r → row_hash s r' = row_hash s r.
Proof. unfold row_hash. by intros [= _ -> -> -> -> -> -> -> -> _ _ ->]. Qed.

Lemma facts_fields r r' :
  facts r' = facts r →
  al_id r' = al_id r ∧ al_createdAt r' = al_createdAt r ∧ al_seq r' = al_seq r ∧
  al_hash r' = al_hash r ∧ al_prevHash r' = al_prevHash r.
Proof. by intros [=]. Qed.

(** ** The last link *)

Lemma elem_of_chain P m s r :
  (s, r) ∈ chain P m ↔ al_seq r = Some s ∧ P r = true ∧ ∃ id, m !! id = Some r.
Proof.
  unfold chain, by_number. rewrite merge_sort_Permutation. unfold numbered.
  rewrite list_elem_of_omap. split.
  - intros (r'&Hr%elem_of_log_rows&Hs). destruct (al_seq r') eqn:E; [|done]. cbn in Hs.
    injection Hs as -> ->. destruct Hr. done.
  - intros (Hs&HP&Hm). exists r. rewrite Hs. split; [|done]. by apply elem_of_log_rows.
Qed.

#[export] Instance by_number_total :
  Total (goes_before (λ a b : Z * AuditLog, a.1 <=? b.1)).
Proof.
  intros a b. unfold goes_before. destruct (Z.le_ge_cases a.1 b.1); [left|right]; by apply Z.leb_le.
Qed.
#[export] Instance by_number_trans :
  Transitive (goes_before (λ a b : Z * AuditLog, a.1 <=? b.1)).
Proof. intros a b c. unfold goes_before. rewrite !Z.leb_le. lia. Qed.
Lemma chain_sorted P m :
  StronglySorted (goes_before (λ a b : Z * AuditLog, a.1 <=? b.1)) (chain P m).
Proof. apply StronglySorted_merge_sort; apply _. Qed.

Lemma last_greatest {A} (R : relation A) xs x y :
  StronglySorted R xs → last xs = Some x → y ∈ xs → y = x ∨ R y x.
Proof.
  intros Hs. induction Hs as [|a xs Hs IH Ha]; [done|]. destruct xs as [|b xs].
  - cbn. intros [= <-]. rewrite list_elem_of_singleton. by left.
  - change (last (a :: b :: xs)) with (last (b :: xs)). intros Hl.
    rewrite elem_of_cons. intros [->|Hy]; [|by apply IH]. right.
    rewrite Forall_forall in Ha. apply Ha, list_elem_of_lookup_2 with (length xs).
    by rewrite <- Hl, last_lookup.
Qed.

Lemma last_link_Some m s r :
  last_link m = Some (s, r) →
  al_seq r = Some s ∧ (∃ id, m !! id = Some r) ∧
  ∀ id' r' s', m !! id' = Some r' → al_seq r' = Some s' → s' ≤ s.
Proof.
  unfold last_link. intros Hl.
  assert (Hin : (s, r) ∈ chain (λ _, true) m)
    by (rewrite last_lookup in Hl; by eapply list_elem_of_lookup_2).
  apply elem_of_chain in Hin as (Hs&_&Hm). split_and!; [done..|].
  intros id' r' s' Hr' Hs'. assert (Hin' : (s', r') ∈ chain (λ _, true) m).
  { apply elem_of_chain. split_and!; [done..|by eexists]. }
  pose proof (last_greatest _ _ _ _ (chain_sorted _ m) Hl Hin') as [[= -> _]|Hle]; [done|].
  by apply Z.leb_le in Hle.
Qed.
Lemma last_link_None m id r s : last_link m = None → m !! id = Some r → al_seq r = Some s → False.
Proof.
  unfold last_link. intros Hl%last_None Hr Hs. assert ((s, r) ∈ chain (λ _, true) m) as Hin.
  { apply elem_of_chain. split_and!; [done..|by eexists]. }
  rewrite Hl in Hin. set_solver.
Qed.

Section safety.
Context `{AuditLib} `{!Inj (=) (=) aud_uuid}.

(** ** Identifiers *)
Definition future (w : AuditW) (id : string) : Prop := ∃ n, (aw_draws w ≤ n)%nat ∧ id = aud_uuid n.
Lemma audit_future_mono w w' id : (aw_draws w ≤ aw_draws w')%nat → future w' id → future w id.
Proof. intros Hd (n&Hn&->). exists n. split; [lia|done]. Qed.
Lemma audit_future_draw w : future w (aud_uuid (aw_draws w)).
Proof. by eexists. Qed.
Lemma audit_drawn_past w n : (n < aw_draws w)%nat → ¬ future w (aud_uuid n).
Proof. intros Hn (m&Hm&Heq%(inj aud_uuid)). lia. Qed.

(** ** The chain *)

Record chain_ok (w : AuditW) : Prop := {
  co_ids id r : aw_logs w !! id = Some r → al_id r = id ∧ ¬ future w id;
  co_seq i j r r' s : aw_logs w !! i = Some r → aw_logs w !! j = Some r' →
    al_seq r = Some s → al_seq r' = Some s → i = j;
  co_hash i r s : aw_logs w !! i = Some r → al_seq r = Some s → al_hash r = Some (row_hash s r);
  co_link i j r r' s : aw_logs w !! i = Some r → aw_logs w !! j = Some r' →
    al_seq r = Some s → al_seq r' = Some (s + 1) → al_prevHash r' = al_hash r;
  co_time i j r r' s s' : aw_logs w !! i = Some r → aw_logs w !! j = Some r' →
    al_seq r = Some s → al_seq r' = Some s' → s ≤ s' → al_createdAt r ≤ al_createdAt r';
  co_past i r : aw_logs w !! i = Some r → al_createdAt r ≤ aw_now w;
}.

(** Fewer rows, with the same facts. *)
Definition fact_sub (m m' : gmap string AuditLog) : Prop :=
  ∀ id r', m' !! id = Some r' → ∃ r, m !! id = Some r ∧ facts r' = facts r.
#[export] Instance fact_sub_preorder : PreOrder fact_sub.
Proof.
  split; [by intros m id r; exists r|]. intros m1 m2 m3 H12 H23 id r3 Hr3.
  destruct (H23 id r3 Hr3) as (r2&Hr2&E). destruct (H12 id r2 Hr2) as (r1&Hr1&E1).
  exists r1. split; [done|congruence].
Qed.

Lemma chain_ok_sub w w' :
  chain_ok w → fact_sub (aw_logs w) (aw_logs w') → (aw_draws w ≤ aw_draws w')%nat →
  aw_now w ≤ aw_now w' → chain_ok w'.
Proof.
  intros [] Hs Hd Hn.
  assert (Hf : ∀ id, ¬ future w id → ¬ future w' id)
    by (intros id Hx Hy; by apply Hx, (audit_future_mono w w')).
  split.
  - intros id r' Hr'. destruct (Hs id r' Hr') as (r&Hr&(->&_)%facts_fields).
    destruct (co_ids0 id r Hr). split; [done|by apply Hf].
  - intros i j r1' r2' s H1 H2 E1 E2. destruct (Hs _ _ H1) as (r1&Hr1&(_&_&S1&_)%facts_fields).
    destruct (Hs _ _ H2) as (r2&Hr2&(_&_&S2&_)%facts_fields).
    eapply (co_seq0 i j r1 r2 s); congruence.
  - intros i r' s H1 E1. destruct (Hs _ _ H1) as (r&Hr&F). rewrite (row_hash_facts _ _ _ F).
    apply facts_fields in F as (_&_&S1&->&_). eapply co_hash0; [done|congruence].
  - intros i j r1' r2' s H1 H2 E1 E2.
    destruct (Hs _ _ H1) as (r1&Hr1&(_&_&S1&->&_)%facts_fields).
    destruct (Hs _ _ H2) as (r2&Hr2&(_&_&S2&_&->)%facts_fields).
    eapply (co_link0 i j r1 r2 s); congruence.
  - intros i j r1' r2' s s' H1 H2 E1 E2 Hle.
    destruct (Hs _ _ H1) as (r1&Hr1&(_&->&S1&_)%facts_fields).
    destruct (Hs _ _ H2) as (r2&Hr2&(_&->&S2&_)%facts_fields).
    eapply (co_time0 i j r1 r2 s s'); congruence.
  - intros i r' H1. destruct (Hs _ _ H1) as (r&Hr&(_&->&_)%facts_fields).
    pose proof (co_past0 i r Hr). lia.
Qed.

(** The next link: a number that is new, the hash before it. *)
Lemma next_link_spec m :
  (∀ id r s, m !! id = Some r → al_seq r = Some s → s < (next_link m).1) ∧
  (∀ id r, m !! id = Some r → al_seq r = Some ((next_link m).1 - 1) →
     ∃ id' r', m !! id' = Some r' ∧ al_seq r' = Some ((next_link m).1 - 1) ∧
       (next_link m).2 = al_hash r').
Proof.
  unfold next_link. destruct (last_link m) as [[s r]|] eqn:Hl.
  - cbn. apply last_link_Some in Hl as (Hs&[id Hr]&Hmax). split.
    + intros id' r' s' Hr' Hs'. specialize (Hmax _ _ _ Hr' Hs'). lia.
    + intros _ _ _ _. exists id, r. split_and!; [done| |done]. rewrite Hs. f_equal. lia.
  - split.
    + intros id r s Hr Hs. by destruct (last_link_None m id r s).
    + intros id r Hr Hs. by destruct (last_link_None m id r _ Hl Hr Hs).
Qed.

(** A row put at the end of the chain. *)
Lemma append_chain_ok w row :
  let s := (next_link (aw_logs w)).1 in
  chain_ok w → al_id row = aud_uuid (aw_draws w) → al_createdAt row = aw_now w →
  al_seq row = Some s → al_prevHash row = (next_link (aw_logs w)).2 →
  al_hash row = Some (row_hash s row) →
  chain_ok ((draw w).2{{aw_logs ::= insert (al_id row) row}}).
Proof.
  intros s HI Hid Ht Hs Hp Hh. destruct (next_link_spec (aw_logs w)) as [Hmax Hprev].
  fold s in Hmax, Hprev. pose proof HI as [].
  set (w' := _{{aw_logs ::= _}}).
  assert (Hold : ∀ i r, aw_logs w' !! i = Some r →
    (i = al_id row ∧ r = row) ∨ aw_logs w !! i = Some r).
  { intros i r Hi. change (<[al_id row := row]> (aw_logs w) !! i = Some r) in Hi.
    apply lookup_insert_Some in Hi as [[<- <-]|[_ Hi]]; [by left|by right]. }
  assert (Hf : ∀ i, ¬ future w i → ¬ future w' i).
  { intros i Hi Hx. apply Hi, (audit_future_mono w w'); [apply Nat.le_succ_diag_r|done]. }
  split.
  - intros i r [[-> ->]|Hr]%Hold.
    + split; [done|]. rewrite Hid. apply audit_drawn_past, Nat.lt_succ_diag_r.
    + destruct (co_ids0 i r Hr). split; [done|by apply Hf].
  - intros i j r1 r2 n [[-> ->]|H1]%Hold [[-> ->]|H2]%Hold E1 E2; [done| | |by eapply co_seq0].
    + specialize (Hmax _ _ _ H2 E2). simplify_eq. lia.
    + specialize (Hmax _ _ _ H1 E1). simplify_eq. lia.
  - intros i r n [[-> ->]|Hr]%Hold E; [by simplify_eq|by eapply co_hash0].
  - intros i j r1 r2 n [[-> ->]|H1]%Hold [[-> ->]|H2]%Hold E1 E2; [simplify_eq; lia| | |by eapply co_link0].
    + specialize (Hmax _ _ _ H2 E2). simplify_eq. lia.
    + rewrite Hp. assert (n = s - 1) as -> by (simplify_eq; lia).
      destruct (Hprev _ _ H1 E1) as (id'&r'&Hr'&E'&->).
      pose proof (co_seq0 _ _ _ _ _ H1 Hr' E1 E') as ->. by simplify_eq.
  - intros i j r1 r2 n n' [[-> ->]|H1]%Hold [[-> ->]|H2]%Hold E1 E2 Hle; [done| | |by eapply co_time0].
    + specialize (Hmax _ _ _ H2 E2). simplify_eq. lia.
    + rewrite Ht. by eapply co_past0.
  - intros i r [[-> ->]|Hr]%Hold; [rewrite Ht; done|by eapply co_past0].
Qed.

(** ** Approvals and holds

    [solo]: the one person who acts, when only one does. *)
Context (solo : option string).

(** A request that was approved was approved by a second person. *)
Definition approval_ok (a : Approval) : Prop :=
  (ap_status a = AP_CONSUMED → ∃ who, ap_approvedById a = Some who ∧ who ≠ ap_requestedById a) ∧
  (∀ u, solo = Some u → ap_status a = AP_PENDING → ap_requestedById a = u).

(** The approval is for this hold, or for the row of a hold of one row. *)
Definition approval_covers (a : Approval) (h : LegalHold) : Prop :=
  ap_targetKey a = "hold:" +:+ lh_id h ∨
  ∃ row, lh_filter h = row_filter row ∧ ap_targetKey a = "row:" +:+ row.
(** Two persons decided on the release, as the hold tells. *)
Definition released_by_two (w : AuditW) (h : LegalHold) : Prop :=
  ∃ id a who, aw_approvals w !! id = Some a ∧ ap_kind a = HOLD_RELEASE ∧
    approval_covers a h ∧ ap_status a = AP_CONSUMED ∧ ap_approvedById a = Some who ∧
    lh_releasedById h = Some who ∧ lh_releaseRequestedById h = Some (ap_requestedById a) ∧
    who ≠ ap_requestedById a.

Record trust_ok (w : AuditW) : Prop := {
  to_approvals id a : aw_approvals w !! id = Some a →
    ap_id a = id ∧ ¬ future w id ∧ approval_ok a;
  to_holds id h : aw_holds w !! id = Some h →
    lh_id h = id ∧ ¬ future w id ∧ (lh_kind h = HOLD_ROW → ∃ row, lh_filter h = row_filter row) ∧
    (lh_status h = HOLD_RELEASED → released_by_two w h);
  to_runs id r : aw_runs w !! id = Some r → ¬ future w id;
}.

(** A request is decided once; a hold is released once. *)
Record approval_step (a a' : Approval) : Prop := {
  as_id : ap_id a' = ap_id a;
  as_kind : ap_kind a' = ap_kind a;
  as_target : ap_targetKey a' = ap_targetKey a;
  as_requester : ap_requestedById a' = ap_requestedById a;
  as_decided : ap_status a ≠ AP_PENDING → a' = a;
}.
Record hold_step (h h' : LegalHold) : Prop := {
  hs_id : lh_id h' = lh_id h;
  hs_kind : lh_kind h' = lh_kind h;
  hs_filter : lh_filter h' = lh_filter h;
  hs_released : lh_status h = HOLD_RELEASED → h' = h;
  hs_solo : solo ≠ None → h' = h;
}.
#[export] Instance approval_step_preorder : PreOrder approval_step.
Proof.
  split; [by intros a; split|]. intros a1 a2 a3 [] []. split; try congruence.
  intros Hn. rewrite (as_decided0 Hn) in *. by apply as_decided1.
Qed.
#[export] Instance hold_step_preorder : PreOrder hold_step.
Proof.
  split; [by intros h; split|]. intros h1 h2 h3 [] []. split; try congruence.
  - intros Hn. rewrite (hs_released0 Hn) in *. by apply hs_released1.
  - intros Hn. rewrite <- (hs_solo0 Hn). by apply hs_solo1.
Qed.

(** Rows that stay, and step. *)
Definition rows_step {A} (step : relation A) (m m' : gmap string A) : Prop :=
  ∀ id a, m !! id = Some a → ∃ a', m' !! id = Some a' ∧ step a a'.
#[export] Instance rows_step_preorder {A} (step : relation A) `{!PreOrder step} :
  PreOrder (rows_step step).
Proof.
  split; [by intros m id a Ha; exists a|]. intros m1 m2 m3 H12 H23 id a Ha.
  destruct (H12 id a Ha) as (b&Hb&?). destruct (H23 id b Hb) as (c&?&?).
  exists c. split; [done|by etrans].
Qed.
Lemma rows_step_fmap {A} (step : relation A) `{!PreOrder step} (P : A → bool) upd m :
  (∀ a, P a = true → step a (upd a)) → rows_step step m ((λ a, if P a then upd a else a) <$> m).
Proof.
  intros Hu id a Ha. rewrite lookup_fmap, Ha. eexists. split; [done|].
  destruct (P a) eqn:E; [by apply Hu|done].
Qed.
Lemma rows_step_insert {A} (step : relation A) `{!PreOrder step} id x (m : gmap string A) :
  m !! id = None → rows_step step m (<[id := x]> m).
Proof.
  intros Hn i a Ha. exists a. split; [|done]. rewrite lookup_insert_ne; [done|]. congruence.
Qed.

(** A purge run keeps the token it was started with. *)
Definition same_token (r r' : PurgeRun) : Prop := pr_tokenId r' = pr_tokenId r.
#[export] Instance same_token_preorder : PreOrder same_token.
Proof. split; [done|]. intros r1 r2 r3 E1 E2. unfold same_token in *. congruence. Qed.

(** Rows under hold that stay, under hold. *)
Definition held_kept (m m' : gmap string AuditLog) : Prop :=
  ∀ id r, m !! id = Some r → al_legalHold r = true →
    ∃ r', m' !! id = Some r' ∧ al_legalHold r' = true.
#[export] Instance held_kept_preorder : PreOrder held_kept.
Proof.
  split; [by intros m id r; exists r|]. intros m1 m2 m3 H12 H23 id r Hr Hh.
  destruct (H12 id r Hr Hh) as (r2&?&?). by apply (H23 id r2).
Qed.

Record audit_rel (w w' : AuditW) : Prop := {
  ad_draws : (aw_draws w ≤ aw_draws w')%nat;
  ad_now : aw_now w ≤ aw_now w';
  ad_facts id r' : ¬ future w id → aw_logs w' !! id = Some r' →
    ∃ r, aw_logs w !! id = Some r ∧ facts r' = facts r;
  ad_held : solo ≠ None → held_kept (aw_logs w) (aw_logs w');
  ad_approvals : rows_step approval_step (aw_approvals w) (aw_approvals w');
  ad_holds : rows_step hold_step (aw_holds w) (aw_holds w');
  ad_retention : solo ≠ None → aw_retention w' = aw_retention w;
  ad_runs : rows_step same_token (aw_runs w) (aw_runs w');
}.
#[export] Instance audit_rel_preorder : PreOrder audit_rel.
Proof.
  split; [split; try done; by eexists|]. intros w1 w2 w3 [] []. split.
  - lia.
  - lia.
  - intros id r3 Hn H3. destruct (ad_facts1 id r3) as (r2&H2&E); [|done|].
    + intros Hx. by apply Hn, (audit_future_mono w1 w2).
    + destruct (ad_facts0 id r2 Hn H2) as (r1&?&E1). exists r1. split; [done|congruence].
  - intros Hs. etrans; [by apply ad_held0|by apply ad_held1].
  - by etrans.
  - by etrans.
  - intros Hs. rewrite ad_retention1, ad_retention0; done.
  - by etrans.
Qed.

Record audit_inv (w : AuditW) : Prop := { av_chain : chain_ok w; av_trust : trust_ok w }.
Definition steps (w w' : AuditW) : Prop := audit_inv w' ∧ audit_rel w w'.
Abbreviation ok := (safe audit_inv audit_rel).
#[local] Instance rel_preorder : PreOrder audit_rel := audit_rel_preorder.

(** ** Changes of one table *)

(** The runs stay, and the new ones have identifiers that were drawn. *)
Definition runs_step (w w' : AuditW) : Prop :=
  rows_step same_token (aw_runs w) (aw_runs w') ∧
  ∀ id, is_Some (aw_runs w' !! id) → is_Some (aw_runs w !! id) ∨ ¬ future w' id.
Lemma runs_step_refl w w' : aw_runs w' = aw_runs w → runs_step w w'.
Proof. intros E. unfold runs_step. rewrite E. split; [done|by left]. Qed.

Lemma trust_ok_later w w' :
  trust_ok w → aw_approvals w' = aw_approvals w → aw_holds w' = aw_holds w →
  runs_step w w' → (aw_draws w ≤ aw_draws w')%nat → trust_ok w'.
Proof.
  intros [] E1 E2 [_ Hruns] Hd.
  assert (Hf : ∀ id, ¬ future w id → ¬ future w' id)
    by (intros id Hx Hy; by apply Hx, (audit_future_mono w w')).
  split; rewrite ?E1, ?E2.
  - intros id a Ha. destruct (to_approvals0 id a Ha) as (?&?&?). auto.
  - intros id h Hh. destruct (to_holds0 id h Hh) as (?&?&?&Hr). split_and!; auto.
    intros Hs. unfold released_by_two. rewrite E1. by apply Hr.
  - intros id r' Hr'. destruct (Hruns id) as [[r Hr]|?]; [by eexists| |done].
    by eapply Hf, to_runs0.
Qed.

(** Only the audit log changes: rows change other than in their facts, or go. *)
Lemma logs_steps w w' :
  audit_inv w → fact_sub (aw_logs w) (aw_logs w') →
  (solo ≠ None → held_kept (aw_logs w) (aw_logs w')) →
  aw_approvals w' = aw_approvals w → aw_holds w' = aw_holds w →
  aw_retention w' = aw_retention w → runs_step w w' → (aw_draws w ≤ aw_draws w')%nat →
  aw_now w ≤ aw_now w' → steps w w'.
Proof.
  intros [Hc Ht] Hs Hk E1 E2 E3 Hr Hd Hn. split.
  - split; [by eapply chain_ok_sub|by eapply trust_ok_later].
  - split; rewrite ?E1, ?E2, ?E3; try done; [|by apply Hr]. intros id r' _ Hr'. by apply Hs.
Qed.
(** None of these tables changes. *)
Definition neutral (w w' : AuditW) : Prop :=
  (aw_logs w', aw_approvals w', aw_holds w', aw_retention w') =
  (aw_logs w, aw_approvals w, aw_holds w, aw_retention w) ∧
  runs_step w w' ∧ (aw_draws w ≤ aw_draws w')%nat ∧ aw_now w ≤ aw_now w'.
Lemma neutral_steps w w' : neutral w w' → audit_inv w → steps w w'.
Proof. intros ([= E ? ? ?]&?&?&?) HI. by apply logs_steps; rewrite ?E. Qed.

Lemma append_steps w row :
  let s := (next_link (aw_logs w)).1 in
  audit_inv w → al_id row = aud_uuid (aw_draws w) → al_createdAt row = aw_now w →
  al_seq row = Some s → al_prevHash row = (next_link (aw_logs w)).2 →
  al_hash row = Some (row_hash s row) →
  steps w ((draw w).2{{aw_logs ::= insert (al_id row) row}}).
Proof.
  intros s [Hc Ht] Hid Hcr Hs Hp Hh.
  assert (Hnew : aw_logs w !! al_id row = None).
  { destruct (aw_logs w !! al_id row) as [r|] eqn:Hr; [|done].
    destruct (co_ids w Hc _ _ Hr) as [_ []]. rewrite Hid. apply audit_future_draw. }
  split.
  - split; [by apply append_chain_ok|]. eapply trust_ok_later; try done;
      [by apply runs_step_refl|apply Nat.le_succ_diag_r].
  - split; try done.
    + apply Nat.le_succ_diag_r.
    + intros id r' Hn Hr'. change (<[al_id row := row]> (aw_logs w) !! id = Some r') in Hr'.
      apply lookup_insert_Some in Hr' as [[<- <-]|[_ Hr']]; [|by exists r'].
      destruct Hn. rewrite Hid. apply audit_future_draw.
    + intros _ id r Hr Hh'. exists r. split; [|done].
      change (<[al_id row := row]> (aw_logs w) !! id = Some r).
      rewrite lookup_insert_ne; [done|]. congruence.
Qed.

(** Approvals step in place. *)
Lemma approvals_steps w P upd :
  audit_inv w →
  (∀ id a, aw_approvals w !! id = Some a → P a = true → approval_ok a →
     approval_step a (upd a) ∧ approval_ok (upd a)) →
  steps w (w{{aw_approvals ::= fmap (λ a, if P a then upd a else a)}}).
Proof.
  intros [Hc []] Hu.
  assert (Hk : ∀ id a, aw_approvals w !! id = Some a →
    approval_step a (if P a then upd a else a) ∧ approval_ok (if P a then upd a else a)).
  { intros id a Ha. destruct (to_approvals0 id a Ha) as (_&_&Hok).
    destruct (P a) eqn:HP; [by eapply Hu|done]. }
  split; [split; [by eapply chain_ok_sub|split]|split; try done].
  - intros id a' Ha'. change (((λ a, if P a then upd a else a) <$> aw_approvals w) !! id = Some a') in Ha'.
    rewrite lookup_fmap in Ha'. destruct (aw_approvals w !! id) as [a|] eqn:Ha; [|done].
    cbn in Ha'. injection Ha' as <-. destruct (Hk id a Ha) as [[] ?].
    destruct (to_approvals0 id a Ha) as (?&?&_). split_and!; [congruence|done..].
  - intros id h Hh. destruct (to_holds0 id h Hh) as (?&?&?&Hr). split_and!; [done..|].
    intros (i&a&who&Ha&Hkd&Hcv&Hst&Hrest)%Hr. exists i, a, who.
    split; [|done]. change (((λ a, if P a then upd a else a) <$> aw_approvals w) !! i = Some a).
    rewrite lookup_fmap, Ha. cbn. f_equal. destruct (Hk i a Ha) as [[_ _ _ _ Hd] _].
    apply Hd. by rewrite Hst.
  - apply to_runs0.
  - by eexists.
  - intros id a Ha. change (∃ a', ((λ a, if P a then upd a else a) <$> aw_approvals w) !! id = Some a' ∧ approval_step a a').
    rewrite lookup_fmap, Ha. eexists. split; [done|]. by apply (Hk id).
Qed.

Lemma new_approval_steps w a :
  audit_inv w → ap_id a = aud_uuid (aw_draws w) → approval_ok a →
  steps w ((draw w).2{{aw_approvals ::= insert (ap_id a) a}}).
Proof.
  intros [Hc Ht] Hid Hok.
  assert (Hnew : aw_approvals w !! ap_id a = None).
  { destruct (aw_approvals w !! ap_id a) as [b|] eqn:Hb; [|done].
    destruct (to_approvals w Ht _ _ Hb) as (_&[]&_). rewrite Hid. apply audit_future_draw. }
  destruct (neutral_steps w (draw w).2) as [[Hc' []] _]; [|done|].
  { split_and!; [done|by apply runs_step_refl|apply Nat.le_succ_diag_r|done]. }
  split; [split; [by eapply chain_ok_sub|split]|split; try done].
  - intros id b Hb. change (<[ap_id a := a]> (aw_approvals w) !! id = Some b) in Hb.
    apply lookup_insert_Some in Hb as [[<- <-]|[_ Hb]]; [|by apply to_approvals0].
    split_and!; [done| |done]. rewrite Hid. apply audit_drawn_past, Nat.lt_succ_diag_r.
  - intros id h Hh. destruct (to_holds0 id h Hh) as (?&?&?&Hr). split_and!; [done..|].
    intros (i&b&who&Hb&Hrest)%Hr. exists i, b, who. split; [|done].
    change (<[ap_id a := a]> (aw_approvals w) !! i = Some b).
    rewrite lookup_insert_ne; [done|]. intros <-.
    change (aw_approvals w !! ap_id a = Some b) in Hb. congruence.
  - apply to_runs0.
  - apply Nat.le_succ_diag_r.
  - by eexists.
  - by apply rows_step_insert; [apply _|].
Qed.

(** Holds step in place. *)
Lemma holds_steps w P upd :
  audit_inv w →
  (∀ id h, aw_holds w !! id = Some h → P h = true →
     hold_step h (upd h) ∧ (lh_status (upd h) = HOLD_RELEASED → released_by_two w (upd h))) →
  steps w (w{{aw_holds ::= fmap (λ h, if P h then upd h else h)}}).
Proof.
  intros [Hc []] Hu.
  assert (Hk : ∀ id h, aw_holds w !! id = Some h →
    hold_step h (if P h then upd h else h) ∧
    (lh_status (if P h then upd h else h) = HOLD_RELEASED →
     released_by_two w (if P h then upd h else h))).
  { intros id h Hh. destruct (to_holds0 id h Hh) as (_&_&_&Hr).
    destruct (P h) eqn:HP; [by eapply Hu|done]. }
  split; [split; [by eapply chain_ok_sub|split]|split; try done].
  - apply to_approvals0.
  - intros id h' Hh'. change (((λ h, if P h then upd h else h) <$> aw_holds w) !! id = Some h') in Hh'.
    rewrite lookup_fmap in Hh'. destruct (aw_holds w !! id) as [h|] eqn:Hh; [|done].
    cbn in Hh'. injection Hh' as <-. destruct (Hk id h Hh) as [[] Hr].
    destruct (to_holds0 id h Hh) as (?&?&?&_).
    split_and!; [congruence|done| |exact Hr]. rewrite hs_kind0, hs_filter0. done.
  - apply to_runs0.
  - by eexists.
  - intros id h Hh. change (∃ h', ((λ h, if P h then upd h else h) <$> aw_holds w) !! id = Some h' ∧ hold_step h h').
    rewrite lookup_fmap, Hh. eexists. split; [done|]. by apply (Hk id).
Qed.

Lemma new_hold_steps w h :
  audit_inv w → lh_id h = aud_uuid (aw_draws w) → lh_status h = HOLD_ACTIVE →
  (lh_kind h = HOLD_ROW → ∃ row, lh_filter h = row_filter row) →
  steps w ((draw w).2{{aw_holds ::= insert (lh_id h) h}}).
Proof.
  intros [Hc Ht] Hid Hst Hk.
  assert (Hnew : aw_holds w !! lh_id h = None).
  { destruct (aw_holds w !! lh_id h) as [b|] eqn:Hb; [|done].
    destruct (to_holds w Ht _ _ Hb) as (_&[]&_). rewrite Hid. apply audit_future_draw. }
  destruct (neutral_steps w (draw w).2) as [[Hc' []] _]; [|done|].
  { split_and!; [done|by apply runs_step_refl|apply Nat.le_succ_diag_r|done]. }
  split; [split; [by eapply chain_ok_sub|split]|split; try done].
  - apply to_approvals0.
  - intros id b Hb. change (<[lh_id h := h]> (aw_holds w) !! id = Some b) in Hb.
    apply lookup_insert_Some in Hb as [[<- <-]|[_ Hb]]; [|by apply to_holds0].
    split_and!; [done| |done|congruence]. rewrite Hid. apply audit_drawn_past, Nat.lt_succ_diag_r.
  - apply to_runs0.
  - apply Nat.le_succ_diag_r.
  - by eexists.
  - by apply rows_step_insert; [apply _|].
Qed.

(** ** Statements *)

(** What leaves these tables alone, draws or not, and keeps the time. *)
Lemma neutral_intro w w' :
  (aw_logs w', aw_approvals w', aw_holds w', aw_retention w', aw_now w', aw_runs w') =
  (aw_logs w, aw_approvals w, aw_holds w, aw_retention w, aw_now w, aw_runs w) →
  aw_draws w' = aw_draws w ∨ aw_draws w' = S (aw_draws w) → neutral w w'.
Proof.
  intros [= E1 E2 E3 E4 E5 E6] Hd. unfold neutral. rewrite E1, E2, E3, E4, E5.
  split_and!; [done|by apply runs_step_refl|lia|lia].
Qed.
Ltac is_neutral := intros; apply neutral_intro; [reflexivity|first [by left|by right]].

Lemma ok_neutral {X} (f : AuditW → X * AuditW) : (∀ w, neutral w (f w).2) → ok (act f).
Proof. intros Hf. apply safe_act. intros w HI. by apply neutral_steps. Qed.
Lemma ok_neutral_outcome {X} (f : AuditW → outcome X * AuditW) :
  (∀ w, neutral w (f w).2) → ok (act_outcome f).
Proof. intros Hf. apply safe_act_outcome. intros w HI. by apply neutral_steps. Qed.
Lemma ok_neutral_modify (f : AuditW → AuditW) : (∀ w, neutral w (f w)) → ok (modify f).
Proof. intros Hf. apply safe_modify. intros w HI. by apply neutral_steps. Qed.
Lemma neutral_refl w : neutral w w.
Proof. is_neutral. Qed.
Lemma neutral_trans w1 w2 w3 : neutral w1 w2 → neutral w2 w3 → neutral w1 w3.
Proof.
  intros ([= ? ? ? ?]&[Hs1 Hf1]&?&?) ([= ? ? ? ?]&[Hs2 Hf2]&?&?).
  split_and!; [congruence| |lia|lia]. split; [by etrans|].
  intros id [Hid|?]%Hf2; [|by right]. destruct (Hf1 id Hid) as [?|Hn]; [by left|right].
  intros Hx. by apply Hn, (audit_future_mono w2 w3).
Qed.

Lemma ok_audit_now : ok now.
Proof. apply safe_gets, _. Qed.
Lemma ok_logs_count P : ok (logs_count P).
Proof. apply safe_gets, _. Qed.
Lemma ok_log_by_id id : ok (log_by_id id).
Proof. apply safe_gets, _. Qed.
Lemma ok_active_holds : ok active_holds.
Proof. apply safe_gets, _. Qed.
Lemma ok_draw_uuid : ok draw_uuid.
Proof. apply ok_neutral. unfold draw. is_neutral. Qed.

Lemma guarded_good {A} (f : AuditW → outcome A * AuditW) :
  (∀ w, audit_inv w → steps w (f w).2) → ok (guarded f).
Proof.
  intros Hf. apply safe_act_outcome. intros w HI.
  assert (steps w (w{{aw_refused ::= @tail bool}})) as [HI1 HR1]
    by (apply neutral_steps; [is_neutral|done]).
  destruct (hd false (aw_refused w)); [done|]. destruct (Hf _ HI1). split; [done|by etrans].
Qed.

Lemma held_kept_fmap (P : AuditLog → bool) upd m :
  (∀ r, P r = true → al_legalHold r = true → al_legalHold (upd r) = true) →
  held_kept m ((λ r, if P r then upd r else r) <$> m).
Proof.
  intros Hu id r Hr Hh. rewrite lookup_fmap, Hr. eexists. split; [done|].
  destruct (P r) eqn:HP; [by apply Hu|done].
Qed.
Lemma fact_sub_fmap (P : AuditLog → bool) upd m :
  (∀ r, facts (upd r) = facts r) → fact_sub m ((λ r, if P r then upd r else r) <$> m).
Proof.
  intros Hu id r'. rewrite lookup_fmap. destruct (m !! id) as [r|]; [|done]. cbn.
  intros [= <-]. exists r. split; [done|]. by destruct (P r).
Qed.
Lemma ok_logs_updateMany P upd :
  (∀ r, facts (upd r) = facts r) →
  (solo ≠ None → ∀ r, P r = true → al_legalHold r = true → al_legalHold (upd r) = true) →
  ok (logs_updateMany P upd).
Proof.
  intros Hf Hk. apply safe_act. intros w HI. apply logs_steps; try done; try by apply runs_step_refl.
  - by apply fact_sub_fmap.
  - intros Hs. apply held_kept_fmap. by apply Hk.
Qed.
Lemma ok_log_set_hold id b : b = true ∨ solo = None → ok (log_set_hold id b).
Proof.
  intros Hb. apply safe_act_outcome. intros w HI. destruct (aw_logs w !! id) as [r|] eqn:Hr; [|done].
  apply logs_steps; try done; try by apply runs_step_refl.
  - intros i r' Hr'. change (<[id := set_hold b r]> (aw_logs w) !! i = Some r') in Hr'.
    apply lookup_insert_Some in Hr' as [[<- <-]|[_ Hr']]; [by exists r|by exists r'].
  - intros Hs. destruct Hb as [->|]; [|done]. intros i q Hq Hh.
    change (∃ r', <[id := set_hold true r]> (aw_logs w) !! i = Some r' ∧ al_legalHold r' = true).
    destruct (decide (id = i)) as [<-|Hne].
    + exists (set_hold true r). by rewrite lookup_insert_eq.
    + exists q. by rewrite lookup_insert_ne.
Qed.
Lemma ok_logs_delete ids : ok (logs_delete ids).
Proof.
  apply guarded_good. intros w HI. apply logs_steps; try done; try by apply runs_step_refl.
  - intros i r Hr. cbn in Hr. apply map_lookup_filter_Some in Hr as [Hr _]. by exists r.
  - intros _ i r Hr Hh. exists r. split; [|done]. cbn. apply map_lookup_filter_Some.
    split; [done|]. intros [_ Hx]. congruence.
Qed.

Lemma ok_append ctx p : ok (append_link (audit_row ctx p)).
Proof.
  apply guarded_good. intros w HI. unfold draw. cbv beta iota zeta.
  change (aw_logs (w{{aw_draws ::= S}})) with (aw_logs w).
  change (aw_now (w{{aw_draws ::= S}})) with (aw_now w).
  destruct (next_link (aw_logs w)) as [seq prevHash] eqn:En.
  set (bare := audit_row ctx p _ _ _ _ _). set (row := bare{{al_hash := _}}).
  assert (Hd : steps w (w{{aw_draws ::= S}})) by (apply neutral_steps; [is_neutral|done]).
  destruct (_ && _); [|exact Hd].
  change (steps w ((draw w).2{{aw_logs ::= insert (al_id row) row}})).
  apply append_steps; rewrite ?En; try done.
Qed.
Lemma ok_record ctx p : ok (record ctx p).
Proof.
  unfold record. apply safe_catch; [apply ok_append|intros e].
  apply safe_bind; [apply ok_audit_now|intros t].
  apply safe_bind; [apply ok_neutral_modify; is_neutral|done].
Qed.
Lemma ok_auditSelf ctx a p : ok (auditSelf ctx a p).
Proof. unfold auditSelf. apply safe_bind; [apply ok_record|done]. Qed.
Lemma ok_handleAuditEvent ctx p : ok (handleAuditEvent ctx p).
Proof.
  unfold handleAuditEvent. destruct p as [p|]; [|done]. case_match; [|done].
  apply safe_catch; [|done]. apply safe_bind; [apply ok_record|done].
Qed.

Hint Resolve ok_audit_now ok_logs_count ok_log_by_id ok_active_holds ok_draw_uuid ok_logs_delete
  ok_record ok_auditSelf : safe.
Hint Extern 1 (safe _ _ (gets _)) => solve [apply safe_gets; apply _] : safe.

Lemma ok_run_create mk : (∀ id t, pr_id (mk id t) = id) → ok (run_create mk).
Proof.
  intros Hid. apply safe_act_outcome. intros w HI. unfold draw. cbv zeta beta iota.
  apply neutral_steps; [|done]. case_bool_decide; [is_neutral|]. cbn [fst snd].
  split_and!; [done| |apply Nat.le_succ_diag_r|done]. rewrite Hid.
  assert (¬ future (w{{aw_draws ::= S}}) (aud_uuid (aw_draws w)))
    by (apply audit_drawn_past, Nat.lt_succ_diag_r).
  split.
  - apply rows_step_insert; [apply _|]. change (aw_runs w !! aud_uuid (aw_draws w) = None).
    destruct (aw_runs w !! _) as [r|] eqn:Hr; [|done].
    destruct (to_runs w (av_trust w HI) _ r Hr). apply audit_future_draw.
  - intros id Hs. cbn in Hs. destruct (decide (id = aud_uuid (aw_draws w))) as [->|Hne]; [by right|].
    left. change (is_Some (aw_runs w !! id)).
    change (is_Some (<[aud_uuid (aw_draws w) := mk (aud_uuid (aw_draws w)) (aw_now w)]> (aw_runs w) !! id)) in Hs.
    by rewrite lookup_insert_ne in Hs.
Qed.
Lemma ok_run_update id upd : (∀ r, same_token r (upd r)) → ok (run_update id upd).
Proof.
  intros Hu. apply ok_neutral_outcome. intros w.
  destruct (aw_runs w !! id) as [r|] eqn:Hr; [|is_neutral].
  split_and!; [done| |done|done]. split.
  - intros i q Hq. change (∃ q', <[id := upd r]> (aw_runs w) !! i = Some q' ∧ same_token q q').
    destruct (decide (i = id)) as [->|Hne].
    + exists (upd r). rewrite lookup_insert_eq. split; [done|]. simplify_eq. apply Hu.
    + exists q. by rewrite lookup_insert_ne.
  - intros i Hi. left. change (is_Some (<[id := upd r]> (aw_runs w) !! i)) in Hi.
    destruct (decide (i = id)) as [->|Hne]; [by eexists|]. by rewrite lookup_insert_ne in Hi.
Qed.
Lemma ok_schedule_create mk : ok (schedule_create mk).
Proof. apply ok_neutral. unfold draw. is_neutral. Qed.
Lemma ok_schedules_updateMany P upd : ok (schedules_updateMany P upd).
Proof. apply ok_neutral. is_neutral. Qed.
Lemma ok_schedule_update id upd : ok (schedule_update id upd).
Proof. apply ok_neutral_outcome. intros w. destruct (_ !! _); is_neutral. Qed.
Lemma ok_minio {A} (f : Fault → AuditW → outcome A * AuditW) :
  (∀ fault w, neutral w (f fault w).2) → ok (minio f).
Proof.
  intros Hf. apply ok_neutral_outcome. intros w. eapply neutral_trans; [|apply Hf]. is_neutral.
Qed.
Lemma ok_ensureBucket : ok ensureBucket.
Proof. apply ok_minio. intros [] w; is_neutral. Qed.
Lemma ok_uploadFile k b : ok (uploadFile k b).
Proof. apply ok_minio. intros [|[] m|n] w; is_neutral. Qed.
Lemma ok_statObject k : ok (statObject k).
Proof.
  apply ok_minio. intros [|b m|n] w; try is_neutral; cbn;
    destruct (aw_objects w !! k); is_neutral.
Qed.
Lemma ok_deleteFile k : ok (deleteFile k).
Proof. apply ok_minio. intros [|[] m|n] w; is_neutral. Qed.
Lemma ok_saveIntegrityRun t a r : ok (saveIntegrityRun t a r).
Proof. apply ok_neutral_modify. unfold draw. is_neutral. Qed.
Lemma ok_emitAttention e : ok (emitAttention e).
Proof. apply ok_neutral_modify. is_neutral. Qed.
Hint Resolve ok_run_create ok_run_update ok_schedule_create ok_schedules_updateMany
  ok_schedule_update ok_ensureBucket ok_uploadFile ok_statObject ok_deleteFile
  ok_saveIntegrityRun ok_emitAttention : safe.
Hint Extern 1 (∀ _, same_token _ _) => reflexivity : safe.
Hint Extern 1 (∀ _ _, pr_id _ = _) => reflexivity : safe.

(** ** Purges, verification, schedules *)

Context (cfg : AuditCfg) (ctx : option RequestContextStore).

Lemma ok_requireUserId a : ok (requireUserId a).
Proof. unfold requireUserId. safe_tac. Qed.
Lemma ok_scan_rows fuel range purged st : ok (scan_rows fuel range purged st).
Proof.
  revert st. induction fuel as [|fuel IH]; intros st; cbn [scan_rows]; [done|].
  apply safe_bind; [safe_tac|intros batch]. destruct batch as [|[s r] batch]; [done|].
  apply safe_bind; [case_match; safe_tac|intros prev].
  destruct (check_rows _ _ _) as [st' []]; [done|apply IH].
Qed.
Hint Resolve ok_requireUserId ok_scan_rows : safe.
Lemma ok_verifyIntegrity f t a g : ok (verifyIntegrity ctx f t a g).
Proof. unfold verifyIntegrity, purgedSeqRanges. safe_tac. Qed.

Lemma ok_putVerified k b : ok (putVerified k b).
Proof. unfold putVerified. safe_tac. Qed.
Hint Resolve ok_putVerified : safe.
Lemma ok_archive_open i c : ok (archive_open i c).
Proof. unfold archive_open. safe_tac. Qed.
Lemma ok_writer_write wr rs : ok (writer_write wr rs).
Proof. unfold writer_write. safe_tac. Qed.
Lemma ok_writer_finish wr : ok (writer_finish wr).
Proof. unfold writer_finish. safe_tac. Qed.
Lemma ok_writer_abort wr : ok (writer_abort wr).
Proof. unfold writer_abort. safe_tac. Qed.
Lemma ok_tokenSecret : ok (tokenSecret cfg).
Proof. unfold tokenSecret. safe_tac. Qed.
Lemma ok_parseCutoff o : ok (parseCutoff o).
Proof. unfold parseCutoff. safe_tac. Qed.
Hint Resolve ok_archive_open ok_writer_write ok_writer_finish ok_writer_abort ok_tokenSecret
  ok_parseCutoff ok_verifyIntegrity : safe.
Lemma ok_issueConfirmToken a c : ok (issueConfirmToken cfg a c).
Proof. unfold issueConfirmToken. safe_tac. Qed.
Lemma ok_verifyConfirmToken t a c : ok (verifyConfirmToken cfg t a c).
Proof. unfold verifyConfirmToken. safe_tac. Qed.
Lemma ok_failRun i e : ok (failRun i e).
Proof. unfold failRun. safe_tac. Qed.
Hint Resolve ok_issueConfirmToken ok_verifyConfirmToken ok_failRun : safe.
Lemma ok_previewPurge o a : ok (previewPurge cfg ctx o a).
Proof. unfold previewPurge. safe_tac. Qed.
Lemma ok_archive_loop fuel c cur a : ok (archive_loop fuel c cur a).
Proof.
  revert cur a. induction fuel as [|fuel IH]; intros cur a; cbn [archive_loop]; [done|].
  apply safe_bind; [safe_tac|intros batch]. destruct (last batch); [|done].
  apply safe_bind; [safe_tac|intros [wr [[]|e]]]; [apply IH|done].
Qed.
Lemma ok_delete_loop fuel c d : ok (delete_loop fuel c d).
Proof.
  revert d. induction fuel as [|fuel IH]; intros d; cbn [delete_loop]; [done|].
  apply safe_bind; [safe_tac|intros ids]. destruct ids; [done|].
  apply safe_bind; [safe_tac|intros [n|e]]; [|done]. case_match; [done|apply IH].
Qed.
Hint Resolve ok_archive_loop ok_delete_loop : safe.
Lemma ok_archive_rows c wr : ok (archive_rows c wr).
Proof. unfold archive_rows. safe_tac. Qed.
Hint Resolve ok_archive_rows : safe.
Lemma ok_archive_phase i c : ok (archive_phase i c).
Proof. unfold archive_phase. safe_tac. Qed.
Lemma ok_delete_phase i c : ok (delete_phase i c).
Proof. unfold delete_phase. safe_tac. Qed.
Lemma ok_start_run t r c a : ok (start_run t r c a).
Proof. unfold start_run. safe_tac. Qed.
Hint Resolve ok_archive_phase ok_delete_phase ok_start_run : safe.
Lemma ok_archive_and_delete i c : ok (archive_and_delete i c).
Proof. unfold archive_and_delete. safe_tac. Qed.
Hint Resolve ok_archive_and_delete : safe.
Lemma ok_purgeOlderThan d a : ok (purgeOlderThan cfg ctx d a).
Proof. unfold purgeOlderThan. safe_tac. Qed.
Hint Resolve ok_purgeOlderThan : safe.

Lemma ok_anonymizeUser u a : ok (anonymizeUser ctx u a).
Proof.
  unfold anonymizeUser. apply safe_bind; [safe_tac|intros t]. apply safe_bind; [|intros c; safe_tac].
  apply safe_transaction; [apply _|]. apply safe_bind; [by apply ok_logs_updateMany|intros n].
  apply safe_bind; [by apply ok_logs_updateMany|intros m; safe_tac].
Qed.
Lemma ok_schedulePurge d a : ok (schedulePurge cfg ctx d a).
Proof. unfold schedulePurge. safe_tac. Qed.
Lemma ok_cancelPurgeSchedule i r a : ok (cancelPurgeSchedule ctx i r a).
Proof. unfold cancelPurgeSchedule. safe_tac. Qed.
Lemma ok_run_scheduled s : ok (run_scheduled cfg ctx s).
Proof. unfold run_scheduled. safe_tac. Qed.
Hint Resolve ok_run_scheduled : safe.
Lemma ok_runDueScheduledPurges : ok (runDueScheduledPurges cfg ctx).
Proof. unfold runDueScheduledPurges. safe_tac. Qed.
Lemma ok_runDueIntegrity : ok (runDueIntegrity ctx).
Proof.
  unfold runDueIntegrity. safe_tac; apply ok_neutral; intros w; cbn;
    destruct (aw_integritySchedule w); [|is_neutral| |is_neutral];
    destruct (integrity_due _ _); is_neutral.
Qed.
Lemma ok_setIntegritySchedule b i a : ok (setIntegritySchedule ctx b i a).
Proof.
  unfold setIntegritySchedule. apply safe_bind; [safe_tac|intros before].
  apply safe_bind; [safe_tac|intros t].
  apply safe_bind; [apply ok_neutral; is_neutral|intros after; safe_tac].
Qed.
End safety.

#[export] Hint Resolve ok_audit_now ok_logs_count ok_log_by_id ok_active_holds ok_draw_uuid
  ok_logs_delete ok_record ok_auditSelf ok_handleAuditEvent ok_run_create ok_run_update
  ok_schedule_create ok_schedules_updateMany ok_schedule_update ok_requireUserId
  ok_verifyIntegrity ok_previewPurge ok_purgeOlderThan ok_anonymizeUser ok_schedulePurge
  ok_cancelPurgeSchedule ok_runDueScheduledPurges ok_runDueIntegrity
  ok_setIntegritySchedule ok_start_run ok_parseCutoff ok_verifyConfirmToken
  ok_archive_and_delete : safe.
#[export] Hint Extern 1 (safe _ _ (gets _)) => solve [apply safe_gets; apply _] : safe.
#[export] Hint Extern 1 (∀ _, same_token _ _) => reflexivity : safe.
#[export] Hint Extern 1 (∀ _ _, pr_id _ = _) => reflexivity : safe.
