(* ===== verification/AuditTrust.v ===== *)
(** * Holds and approvals under every interleaving

    The handlers that need two persons: what an approval proves, and what the release
    of a hold leaves behind. *)

From S2P Require Import Prelude Interleave Js Json JsDate Roles AuditRedaction.
From S2P Require Import AuditModel AuditChain AuditPurge AuditHold AuditSafety.
From stdpp Require Import sorting.
From coqutil Require Import Datatypes.RecordSetters.
Import DoubleBraceUpdate.

Open Scope Z_scope.

Section trust.
Context `{AuditLib} `{!Inj (=) (=) aud_uuid} (solo : option string).
Context (cfg : AuditCfg) (ctx : option RequestContextStore).
Abbreviation I := (audit_inv solo).
Abbreviation R := (audit_rel solo).
Abbreviation ok := (safe I R).
#[local] Instance trust_preorder : PreOrder R := audit_rel_preorder solo.

(** ** Approvals *)

(** The approval [id] of a request by [requestedBy], granted by the actor. *)
Definition granted (kind : ApprovalKind) (target : string) (actor : Actor)
    (id requestedBy : string) (w : AuditW) : Prop :=
  ∃ a who, ac_id actor = Some who ∧ aw_approvals w !! id = Some a ∧ ap_kind a = kind ∧
    ap_targetKey a = target ∧ ap_status a = AP_CONSUMED ∧ ap_approvedById a = Some who ∧
    ap_requestedById a = requestedBy ∧ who ≠ requestedBy.
Lemma granted_stable kind target actor id rq w w' :
  granted kind target actor id rq w → R w w' → granted kind target actor id rq w'.
Proof.
  intros (a&who&?&Ha&Hk&Ht&Hs&Hrest) HR. destruct (ad_approvals _ _ _ HR id a Ha) as (a'&Ha'&Hstep).
  exists a, who. rewrite (as_decided _ _ Hstep) in Ha' by (by rewrite Hs). done.
Qed.

(** The request that was found, still there. *)
Definition found (p : Approval) (w : AuditW) : Prop :=
  ∃ p', aw_approvals w !! ap_id p = Some p' ∧ approval_step p p'.
Lemma found_stable p w w' : found p w → R w w' → found p w'.
Proof.
  intros (p1&Hp1&H1) HR. destruct (ad_approvals _ _ _ HR _ _ Hp1) as (p2&Hp2&H2).
  exists p2. split; [done|by etrans].
Qed.

(** Who acts: the only person, when there is only one. *)
Definition only_actor (actor : Actor) : Prop := ∀ u, solo = Some u → ac_id actor = Some u.

Lemma expired_step t a :
  overdue t a = true → approval_ok solo a →
  approval_step a (a{{ap_status := AP_EXPIRED}}) ∧ approval_ok solo (a{{ap_status := AP_EXPIRED}}).
Proof.
  unfold overdue. intros [Hp%bool_decide_eq_true _]%andb_prop _.
  split; [by split|]. split; [done|]. by intros u _.
Qed.
Lemma ok_expire t : ok (approvals_updateMany (overdue t) (λ a, a{{ap_status := AP_EXPIRED}})).
Proof.
  apply safe_act. intros w HI. apply approvals_steps; [done|]. intros id a _. apply expired_step.
Qed.

Lemma rg_ask kind target hash material reason actor id t w :
  (∀ u, solo = Some u → id = u) →
  rg I R (λ g _, match g with Approved _ _ => False | NotYet _ => True end) (λ _ _, True)
    (ask_approval ctx kind target hash material reason actor id t) w.
Proof.
  intros Hu. unfold ask_approval. apply rg_bind, rg_act. intros w1 _ HI.
  unfold draw. cbv beta iota zeta.
  set (x := new_approval _ _ _ _ _ _ _ _ _).
  assert (steps solo w1 ((draw w1).2{{aw_approvals ::= insert (ap_id x) x}})) as [HI2 HR2].
  { apply new_approval_steps; [done|done|]. split; [done|]. intros u Hs _. by apply Hu. }
  split_and!; [exact HI2|exact HR2|]. cbn [rg fst snd]. apply rg_bind.
  eapply rg_mono; [apply safe_rg; safe_tac| |done]. done.
Qed.

Lemma rows_pos {A} (P : A → bool) (m : gmap string A) :
  (count P m =? 0) = false → ∃ k x, m !! k = Some x ∧ P x = true.
Proof.
  unfold count. destruct (rows P m) as [|x xs] eqn:E; [done|]. intros _.
  assert (x ∈ rows P m) as Hx by (rewrite E; left). apply elem_of_log_rows in Hx as [HP [k Hk]].
  by exists k, x.
Qed.

Lemma rg_approve_request kind target p actor who t w :
  ac_id actor = Some who → found p w → ap_kind p = kind → ap_targetKey p = target →
  ap_requestedById p ≠ who →
  rg I R (λ g w, match g with
                 | Approved id rq => granted kind target actor id rq w
                 | NotYet _ => False
                 end) (λ _ _, True) (approve_request ctx kind target p actor who t) w.
Proof.
  intros Hwho Hp Hk Ht Hne. unfold approve_request. apply rg_bind, rg_act. intros w1 HR HI.
  destruct (found_stable _ _ _ Hp HR) as (p'&Hp'&Hstep).
  assert (Hsame : ∀ id a, aw_approvals w1 !! id = Some a → ap_id a = ap_id p → a = p').
  { intros id a Ha Hid. destruct (to_approvals _ _ (av_trust _ _ HI) id a Ha) as (Hid'&_).
    congruence. }
  set (P := is_pending (ap_id p)). set (upd := consumed who t).
  assert (HP : ∀ a, P a = true → ap_id a = ap_id p ∧ ap_status a = AP_PENDING).
  { intros a [?%bool_decide_eq_true ?%bool_decide_eq_true]%andb_prop. done. }
  assert (Hs : steps solo w1 (w1{{aw_approvals ::= fmap (λ a, if P a then upd a else a)}})).
  { apply approvals_steps; [done|]. intros id a Ha [Hid Hst]%HP _.
    split; [by split|]. split; [|done]. intros _. exists who. split; [done|].
    rewrite (Hsame id a Ha Hid). change (who ≠ ap_requestedById p').
    rewrite (as_requester _ _ Hstep). by intros ->. }
  split_and!; [apply Hs..|]. cbn [fst snd]. apply rg_bind.
  destruct (count P (aw_approvals w1) =? 0) eqn:Hc; [done|]. cbn [throw_if rg].
  assert (Hg : granted kind target actor (ap_id p) (ap_requestedById p)
    (w1{{aw_approvals ::= fmap (λ a, if P a then upd a else a)}})).
  { apply rows_pos in Hc as (k&a&Ha&HPa). destruct (HP a HPa) as [Hid Hst].
    pose proof (Hsame k a Ha Hid) as ->. exists (upd p'), who.
    pose proof (as_kind _ _ Hstep). pose proof (as_target _ _ Hstep).
    pose proof (as_requester _ _ Hstep).
    split_and!; [done| |change (ap_kind p' = kind); congruence
      |change (ap_targetKey p' = target); congruence|done|done
      |change (ap_requestedById p' = ap_requestedById p); congruence|congruence].
    change (((λ a, if P a then upd a else a) <$> aw_approvals w1) !! ap_id p = Some (upd p')).
    rewrite lookup_fmap, Hp'. cbn. by rewrite HPa. }
  apply rg_bind. eapply rg_mono; [apply (rg_frame I R (granted kind target actor (ap_id p) (ap_requestedById p)))| |done].
  - intros w2 w3 Hw2 HR2 _. by eapply granted_stable.
  - exact Hg.
  - apply safe_rg. safe_tac.
  - cbn. by intros _ w2 [_ Hw2].
Qed.

(** A gate that lets through names an approval of a second person. *)
Lemma rg_twoPerson kind target material reason actor w :
  only_actor actor →
  rg I R (λ g w, match g with
                 | Approved id rq => solo = None ∧ granted kind target actor id rq w
                 | NotYet _ => True
                 end) (λ _ _, True) (twoPerson ctx kind target material reason actor) w.
Proof.
  intros Honly. unfold twoPerson, requireUserId. apply rg_bind.
  destruct (ac_id actor) as [who|] eqn:Hwho; [|done]. destruct (truthy who); [|done].
  cbn [rg mret prog_mret]. apply rg_bind, rg_gets; [apply _|]. intros w1 _ _. apply rg_bind.
  eapply rg_mono; [apply ok_expire| |done]. intros n w2 _. cbv beta.
  apply rg_bind, rg_gets; [apply _|]. intros w3 _ HI3. cbv beta.
  set (P := pending_for kind target _ _).
  destruct (oldest (rows P (aw_approvals w3))) as [p|] eqn:Ho.
  - assert (Hp : p ∈ rows P (aw_approvals w3)).
    { unfold oldest in Ho. apply head_Some_elem_of in Ho.
      by rewrite (merge_sort_Permutation _ _) in Ho. }
    apply elem_of_log_rows in Hp as [HP [k Hk]].
    destruct (to_approvals _ _ (av_trust _ _ HI3) k p Hk) as (Hid&_&_&Hsolo).
    unfold P, pending_for in HP. rewrite !andb_true_iff, !bool_decide_eq_true in HP.
    destruct HP as ((((Hkind&Htarget)&_)&Hst)&_).
    case_bool_decide as Hself; [done|].
    assert (solo = None) as Hnone.
    { destruct solo as [u|] eqn:Hs; [|done]. destruct Hself. rewrite (Hsolo u eq_refl Hst).
      specialize (Honly u Hs). congruence. }
    eapply rg_mono; [eapply (rg_approve_request kind target p actor who)| |done]; [done| |done..|].
    + exists p. split; [by rewrite Hid|done].
    + intros [id rq|r] w4; [by split|done].
  - eapply rg_mono; [apply rg_ask| |done].
    + intros u Hs. specialize (Honly u Hs). congruence.
    + by intros [id rq|r] w4.
Qed.

(** ** Holds *)

(** The approval's target stands for each of these holds. *)
Definition target_covers (target : string) (ids : list string) (w : AuditW) : Prop :=
  ∀ k h, aw_holds w !! k = Some h → lh_id h ∈ ids →
    target = "hold:" +:+ lh_id h ∨
    ∃ row, lh_filter h = row_filter row ∧ target = "row:" +:+ row.

Lemma release_steps target ids actor id rq t reason w :
  solo = None → I w → granted HOLD_RELEASE target actor id rq w → target_covers target ids w →
  steps solo w (w{{aw_holds ::= fmap
    (λ h, if has_id ids h then release t (ac_id actor) (Some rq) reason h else h)}}).
Proof.
  intros Hn HI (a&who&Hwho&Ha&Hk&Ht&Hst&Hby&Hrq&Hne) Hc. apply holds_steps; [done|].
  intros k h Hh [Hid%bool_decide_eq_true Hact%bool_decide_eq_true]%andb_prop.
  split; [split; first [done|congruence]|]. intros _. exists id, a, who.
  split_and!; try done; [|by rewrite <- Hrq|by rewrite Hrq].
  unfold approval_covers. rewrite Ht. by apply (Hc k h).
Qed.

Lemma hold_create_steps kind c r f n u w :
  I w → (kind = HOLD_ROW → ∃ row, f = row_filter row) →
  steps solo w (run (hold_create (new_hold kind c r f n u)) w).2.
Proof.
  intros HI Hk. unfold hold_create. rewrite run_act. unfold draw. cbv beta iota zeta. cbn [snd].
  set (x := new_hold _ _ _ _ _ _ _ _).
  change (steps solo w ((draw w).2{{aw_holds ::= insert (lh_id x) x}})).
  by apply new_hold_steps.
Qed.
Lemma ok_hold_create kind c r f n u :
  (kind = HOLD_ROW → ∃ row, f = row_filter row) → ok (hold_create (new_hold kind c r f n u)).
Proof.
  intros Hk. apply safe_act. intros w HI. pose proof (hold_create_steps kind c r f n u w HI Hk) as Hs.
  unfold hold_create in Hs. by rewrite run_act in Hs.
Qed.

Lemma ok_set_row_hold id c r a : ok (set_row_hold ctx id c r a).
Proof.
  unfold set_row_hold. apply safe_bind; [|intros h; safe_tac].
  apply safe_transaction; [apply _|]. apply safe_bind; [apply ok_hold_create; eauto|intros h].
  apply safe_bind; [apply ok_log_set_hold; by left|done].
Qed.
Lemma ok_createLegalHold d a : ok (createLegalHold ctx d a).
Proof.
  unfold createLegalHold. cbv zeta. apply safe_bind; [safe_tac|intros P].
  apply safe_bind; [safe_tac|intros n]. apply safe_bind; [safe_tac|intros _].
  apply safe_bind; [|intros h; safe_tac].
  apply safe_transaction; [apply _|]. apply safe_bind; [by apply ok_hold_create|intros h].
  apply safe_bind; [by apply ok_logs_updateMany|done].
Qed.
Lemma ok_previewLegalHold f : ok (previewLegalHold f).
Proof. unfold previewLegalHold. safe_tac. Qed.
Lemma ok_reapply P hs n : ok (reapply P hs n).
Proof.
  revert n. induction hs as [|h hs IH]; intros n; cbn [reapply]; [done|].
  apply safe_bind; [safe_tac|intros Q].
  apply safe_bind; [by apply ok_logs_updateMany|intros m]. apply IH.
Qed.

(** A gate, and what is done behind it. *)
Lemma rg_gated {A} kind target material reason actor (k : string → prog AuditW A) (P : AuditW → Prop) w :
  only_actor actor → P w → (∀ w w', P w → R w w' → P w') →
  (∀ id rq w, solo = None → P w → granted kind target actor id rq w →
     rg I R (λ _ _, True) (λ _ _, True) (k rq) w) →
  rg I R (λ _ _, True) (λ _ _, True)
    (gate ← twoPerson ctx kind target material reason actor; gated gate k) w.
Proof.
  intros Honly HP Hst Hk.
  eapply (rg_seq I R P); [by intros; eapply Hst|exact HP|by apply rg_twoPerson|].
  intros [id rq|r] w1 Hg HP1; [|done]. destruct Hg as [Hn Hg]. unfold gated. apply rg_bind.
  eapply rg_mono; [by eapply Hk|done|done].
Qed.

Lemma ok_releaseLegalHold holdId r a : only_actor a → ok (releaseLegalHold ctx holdId r a).
Proof.
  intros Honly w. unfold releaseLegalHold. apply rg_bind, rg_gets; [apply _|]. intros w1 _ _.
  destruct (aw_holds w1 !! holdId) as [hold|] eqn:Hh; [|done]. cbn [require]. apply rg_bind.
  cbn [rg]. apply rg_bind. destruct (negb _); [done|]. cbn [throw_if rg].
  apply (rg_gated _ _ _ _ _ _ (λ _, True)); [done..|]. intros id rq w2 Hn _ Hg.
  eapply (rg_seq I R (granted HOLD_RELEASE ("hold:" +:+ holdId) a id rq));
    [by intros; eapply granted_stable|exact Hg|apply safe_rg; safe_tac|].
  intros t w3 _ Hg3. apply rg_bind, rg_act. intros w4 HR4 HI4. cbn [fst snd].
  destruct (release_steps ("hold:" +:+ holdId) [holdId] a id rq t (trim r) w4) as [HI5 HR5];
    [done|done|by eapply granted_stable| |].
  { intros k h _ ->%list_elem_of_singleton. by left. }
  split_and!; [exact HI5|exact HR5|]. apply safe_rg.
  apply safe_bind; [safe_tac|intros _]. apply safe_bind; [safe_tac|intros P].
  apply safe_bind; [by apply ok_logs_updateMany|intros n].
  apply safe_bind; [safe_tac|intros hs]. apply safe_bind; [apply ok_reapply|intros m]. safe_tac.
Qed.

(** ** The hold of one row *)

(** These are holds of the one row. *)
Definition row_holds (row : string) (ids : list string) (w : AuditW) : Prop :=
  ∀ i, i ∈ ids → ∃ h, aw_holds w !! i = Some h ∧ lh_filter h = row_filter row.
Lemma row_holds_stable row ids w w' : row_holds row ids w → R w w' → row_holds row ids w'.
Proof.
  intros Hh HR i Hi. destruct (Hh i Hi) as (h&Hh'&Hf).
  destruct (ad_holds _ _ _ HR i h Hh') as (h1&?&Hs). exists h1.
  split; [done|]. by rewrite (hs_filter _ _ _ Hs).
Qed.
Lemma row_holds_cover row ids w :
  I w → row_holds row ids w → target_covers ("row:" +:+ row) ids w.
Proof.
  intros HI Hr k h Hh Hid. destruct (to_holds _ _ (av_trust _ _ HI) k h Hh) as (Hk&_).
  destruct (Hr _ Hid) as (h'&Hh'&Hf). right. exists row. split; [|done].
  rewrite Hk in Hh'. congruence.
Qed.

(** A hold of one row that covers a row is a hold of that row. *)
Lemma row_filter_covers id row P r :
  holdWhere (row_filter row) = Ok P → P r = true → al_id r = id → row = id.
Proof.
  unfold holdWhere. destruct (no_condition (row_filter row)) eqn:Hn; [done|]. cbn.
  intros [= <-]. unfold hold_matches, cond. cbn. rewrite !andb_true_iff.
  intros [[[[[[[[[Hid _] _] _] _] _] _] _] _] _] <-.
  unfold no_condition in Hn. cbn in Hn. unfold given in *. cbn in *.
  destruct (truthy row) eqn:Ht; [|done]. cbn in Hid.
  apply bool_decide_eq_true in Hid. congruence.
Qed.

Lemma rg_covering id hs w :
  (∀ h, h ∈ hs → lh_kind h = HOLD_ROW → ∃ row, lh_filter h = row_filter row) →
  rg I R (λ cs w, (∀ c, c ∈ cs → c ∈ hs) ∧
     ∀ c, c ∈ cs → lh_kind c = HOLD_ROW → lh_filter c = row_filter id) (λ _ _, True)
    (covering_of id hs) w.
Proof.
  revert w. induction hs as [|h hs IH]; intros w Hh; cbn [covering_of]; [cbn; set_solver|].
  apply rg_bind. destruct (holdWhere (lh_filter h)) as [P|e] eqn:HP; [|done].
  cbn [throw_outcome rg]. apply rg_bind, rg_gets; [apply _|]. intros w1 HR HI. apply rg_bind.
  eapply rg_mono; [apply IH| |done].
  - intros h' Hin. apply Hh. by right.
  - intros rest w2 [Hsub Hrow]. cbn [rg mret prog_mret].
    destruct (0 <? count _ _) eqn:Hc; [|set_solver]. split; [set_solver|].
    intros c [->|Hin]%elem_of_cons Hk; [|by apply Hrow].
    assert (∃ k x, aw_logs w1 !! k = Some x ∧ bool_decide (al_id x = id) && P x = true)
      as (k&x&_&[Hx%bool_decide_eq_true HPx]%andb_prop).
    { apply rows_pos. lia. }
    destruct (Hh h (list_elem_of_here _ _) Hk) as [row Hrow']. rewrite Hrow' in *.
    f_equal. by eapply row_filter_covers.
Qed.

Lemma ok_clear_row_hold row id r a : only_actor a → ok (clear_row_hold ctx row id r a).
Proof.
  intros Honly w. unfold clear_row_hold. apply rg_bind. destruct (negb (isSuperAdmin a)); [done|].
  cbn [throw_if rg]. apply rg_bind, rg_gets; [apply _|]. intros w1 _ HI1.
  set (hs := rows _ (aw_holds w1)).
  assert (Hhs : ∀ h, h ∈ hs → aw_holds w1 !! lh_id h = Some h ∧
    (lh_kind h = HOLD_ROW → ∃ row, lh_filter h = row_filter row)).
  { intros h [_ [k Hk]]%elem_of_log_rows.
    destruct (to_holds _ _ (av_trust _ _ HI1) k h Hk) as (->&_&Hf&_). done. }
  eapply (rg_seq I R (λ w, ∀ h, h ∈ hs → ∃ h', aw_holds w !! lh_id h = Some h' ∧
    lh_filter h' = lh_filter h)).
  - intros w2 w3 Hk HR _ h Hin. destruct (Hk h Hin) as (h'&Hh'&Hf).
    destruct (ad_holds _ _ _ HR _ _ Hh') as (h2&?&Hs). exists h2.
    split; [done|]. by rewrite (hs_filter _ _ _ Hs).
  - intros h Hin. exists h. by destruct (Hhs h Hin).
  - apply rg_covering. intros h Hin. by apply Hhs.
  - intros covering w2 [Hsub Hrow] Hkept. cbv beta.
    destruct (negb (al_legalHold row) && _); [done|]. apply rg_bind.
    destruct (existsb _ covering) eqn:Hall; [done|]. cbn [throw_if rg].
    apply (rg_gated _ _ _ _ _ _ (row_holds id (map lh_id covering))); [done| |intros; by eapply row_holds_stable|].
    { intros i (c&->&Hc)%list_elem_of_fmap. destruct (Hkept c (Hsub c Hc)) as (h'&Hh'&Hf).
      exists h'. split; [done|]. rewrite Hf. apply Hrow; [done|].
      destruct (decide (lh_kind c = HOLD_ROW)) as [|Hn]; [done|].
      assert (existsb (λ h, negb (bool_decide (lh_kind h = HOLD_ROW))) covering = true); [|congruence].
      apply existsb_exists. exists c. split; [by apply list_elem_of_In|].
      by rewrite bool_decide_eq_false_2. }
    intros aid rq w3 Hn Hr Hg.
    eapply (rg_seq I R (λ w, row_holds id (map lh_id covering) w ∧
      granted HOLD_RELEASE ("row:" +:+ id) a aid rq w));
      [|by split|apply safe_rg; safe_tac|].
    { intros w4 w5 [? ?] HR _. split; [by eapply row_holds_stable|by eapply granted_stable]. }
    intros t w4 _ [Hr4 Hg4]. apply rg_bind, rg_act. intros w5 HR5 HI5. cbn [fst snd].
    destruct (release_steps ("row:" +:+ id) (map lh_id covering) a aid rq t r w5) as [HI6 HR6];
      [done|done|by eapply granted_stable|by apply row_holds_cover; [|eapply row_holds_stable]|].
    split_and!; [exact HI6|exact HR6|]. apply safe_rg.
    apply safe_bind; [by apply ok_log_set_hold; right|intros _]. safe_tac.
Qed.
Lemma ok_setRowLegalHold id d a : only_actor a → ok (setRowLegalHold ctx id d a).
Proof.
  intros Honly. unfold setRowLegalHold. apply safe_bind; [safe_tac|intros found].
  apply safe_bind; [safe_tac|intros row]. cbv zeta. destruct (sr_legalHold d).
  - apply safe_bind; [safe_tac|intros _]. apply ok_set_row_hold.
  - by apply ok_clear_row_hold.
Qed.

(** ** Archives and retention *)

(** [MinioService] has neither of the two methods. *)
Lemma presignGet_missing (api : string → Z → prog AuditW string) k n :
  presignGet api k n = Throw (ServiceUnavailable "object_storage_cannot_create_download_links").
Proof. reflexivity. Qed.
Lemma getBuffer_missing (api : string → prog AuditW string) k :
  getBuffer api k = Throw (ServiceUnavailable "object_storage_cannot_read_objects").
Proof. reflexivity. Qed.
Lemma ok_presign_all api i ps : ok (presign_all api i ps).
Proof.
  revert i. induction ps as [|p ps IH]; intros i; cbn [presign_all]; [done|].
  by rewrite presignGet_missing.
Qed.
Lemma ok_retrievePurgeArchive api1 api2 id a :
  only_actor a → ok (retrievePurgeArchive cfg ctx api1 api2 id a).
Proof.
  intros Honly w. unfold retrievePurgeArchive.
  apply rg_bind, rg_gets; [apply _|]. intros w1 _ _.
  destruct (aw_runs w1 !! id) as [run|]; [|done]. cbn [require]. apply rg_bind. cbn [rg].
  apply rg_bind. destruct (negb (given (pr_archiveKey run))); [done|]. cbn [throw_if rg].
  apply rg_bind. destruct (negb (cf_objectStorage cfg)); [done|]. cbn [throw_if rg].
  apply (rg_gated _ _ _ _ _ _ (λ _, True)); [done..|]. intros aid rq w2 _ _ _. apply safe_rg.
  apply safe_bind; [|intros parts].
  { by rewrite getBuffer_missing. }
  apply safe_bind; [safe_tac|intros _]. apply ok_presign_all.
Qed.

Lemma ok_updateRetention ps r a : only_actor a → ok (updateRetention ctx ps r a).
Proof.
  intros Honly w. unfold updateRetention. apply rg_bind.
  destruct (check_policies [] ps) as [[]|e]; [|done]. cbn [throw_outcome rg].
  apply (rg_gated _ _ _ _ _ _ (λ _, True)); [done..|]. intros aid rq w1 Hn _ _. apply safe_rg.
  apply safe_bind; [unfold getRetention; safe_tac|intros b].
  apply safe_bind; [|intros _; apply safe_bind; [unfold getRetention; safe_tac|intros c; safe_tac]].
  apply safe_modify. intros w2 [Hc Ht]. split.
  - split; [by eapply chain_ok_sub|by eapply trust_ok_later; [..|apply runs_step_refl|]].
  - split; try done. by eexists.
Qed.
End trust.

#[export] Hint Resolve ok_createLegalHold ok_previewLegalHold ok_releaseLegalHold
  ok_setRowLegalHold ok_updateRetention ok_retrievePurgeArchive : safe.
