(* ===== verification/AuditProps.v ===== *)
(** * The audit log: what holds however its handlers interleave *)

From S2P Require Import Prelude Interleave Js Json JsDate Roles AuditRedaction.
From S2P Require Import AuditModel AuditChain AuditPurge AuditHold AuditSafety AuditTrust.
From coqutil Require Import Datatypes.RecordSetters.
Import DoubleBraceUpdate.

Open Scope Z_scope.

Fixpoint aud_unary (n : nat) : string :=
  match n with O => "#" | S n => Str "#" (aud_unary n) end.
#[export] Instance aud_unary_inj : Inj (=) (=) aud_unary.
Proof.
  intros n. induction n as [|n IH]; intros [|m]; cbn; intros Heq; try done.
  - destruct m; discriminate.
  - destruct n; discriminate.
  - injection Heq as Heq. f_equal. by apply IH.
Qed.

(** Two letters for a character. *)
Definition letter (n : nat) : ascii := ascii_of_nat (65 + n).
Fixpoint two_letters (s : string) : string :=
  match s with
  | EmptyString => ""
  | Str c s =>
      let n := nat_of_ascii c in Str (letter (n / 16)) (Str (letter (n mod 16)) (two_letters s))
  end.
Fixpoint from_two_letters (s : string) : string :=
  match s with
  | Str a (Str b s) =>
      Str (ascii_of_nat ((nat_of_ascii a - 65) * 16 + (nat_of_ascii b - 65))) (from_two_letters s)
  | _ => ""
  end.
(** A checksum of the characters. *)
Fixpoint checksum (s : string) (a : Z) : Z :=
  match s with
  | EmptyString => a
  | Str c s => checksum s ((a * 31 + Z.of_N (N_of_ascii c)) mod 999983)
  end.

#[export] Instance aud_lib : AuditLib := {|
  aud_uuid := aud_unary;
  sha256_hex := λ s, str_of_Z (checksum s 7);
  hmac_sha256 := λ k s, str_of_Z (checksum (k +:+ s) 11);
  base64url := two_letters;
  from_base64url := from_two_letters;
  gzip := λ s, s;
  id_before := String.leb;
  locale_compare := String.leb;
  stale_page := λ _ _, [];
|}.
#[export] Instance aud_lib_inj : Inj (=) (=) (@aud_uuid aud_lib) := aud_unary_inj.

Definition demo_cfg : AuditCfg := {|
  cf_archive := true; cf_objectStorage := true;
  cf_purge_secret := Some "a secret of thirty-two characters"; cf_notice_hours := 72 |}.
Definition person (id : string) : Actor :=
  {| ac_id := Some id; ac_roles := [SUPER_ADMIN]; ac_isSystem := false |}.
Definition event (action : string) : AuditEventPayload :=
  self_payload (person "s1") (self action).

Definition empty_world (t : Z) : AuditW := {|
  aw_logs := ∅; aw_users := {["s1"; "s2"]}; aw_runs := ∅; aw_holds := ∅; aw_approvals := ∅;
  aw_schedules := ∅; aw_retention := ∅; aw_integrity := ∅; aw_integritySchedule := None;
  aw_objects := ∅; aw_faults := []; aw_refused := []; aw_attention := []; aw_writeFailures := 0;
  aw_lastFailure := None; aw_draws := 0; aw_now := t |}.

(** Three events, a day apart. *)
Definition on_day (d : Z) (w : AuditW) : AuditW := w{{aw_now := d * DAY_MS}}.
Definition logged (action : string) (w : AuditW) : AuditW := (run (record None (event action)) w).2.
Definition three_events : AuditW :=
  on_day 40 (logged "C" (on_day 3 (logged "B" (on_day 2 (logged "A" (empty_world DAY_MS)))))).

Lemma empty_inv solo t : audit_inv solo (empty_world t).
Proof. repeat (split; try done). Qed.
Lemma later_inv solo d w : audit_inv solo w → aw_now w ≤ d * DAY_MS → audit_inv solo (on_day d w).
Proof.
  intros [Hc Ht] Hd. split; [by eapply chain_ok_sub|].
  eapply trust_ok_later; try done. by apply runs_step_refl.
Qed.
Lemma logged_inv solo a w : audit_inv solo w → audit_inv solo (logged a w).
Proof.
  intros HI. pose proof (audit_rel_preorder solo).
  by destruct (rg_run _ _ _ _ _ w HI (ok_record solo None (event a) w)).
Qed.
Lemma three_events_inv solo : audit_inv solo three_events.
Proof.
  unfold three_events. repeat (apply later_inv; [apply logged_inv|vm_compute; by intros]).
  apply empty_inv.
Qed.

From S2P Require Import Prelude Interleave Js Json JsDate Roles AuditRedaction.
From S2P Require Import AuditModel AuditChain AuditPurge AuditHold AuditSafety AuditTrust.
From coqutil Require Import Datatypes.RecordSetters.
Import DoubleBraceUpdate.

Open Scope Z_scope.

Definition answered {A} (p : prog AuditW A) : prog AuditW () := p ;; mret ().

(** What deleting users does to their rows ([onDelete: SetNull]). *)
Definition unless_gone (gone : gset string) (o : option string) : option string :=
  match o with Some u => if bool_decide (u ∈ gone) then None else Some u | None => None end.
Definition forget_users (gone : gset string) (r : AuditLog) : AuditLog :=
  r{{al_userId ::= unless_gone gone; al_targetUserId ::= unless_gone gone}}.
Definition forget_requester (gone : gset string) (r : PurgeRun) : PurgeRun :=
  r{{pr_requestedById ::= unless_gone gone}}.

(** The rest of the application: users come and go, the clock runs, the storage and the
    database have their moods. *)
Record audit_env (w w' : AuditW) : Prop := {
  ae_now : aw_now w ≤ aw_now w';
  ae_draws : (aw_draws w ≤ aw_draws w')%nat;
  ae_logs : ∃ gone, aw_logs w' = forget_users gone <$> aw_logs w;
  ae_runs : ∃ gone, aw_runs w' = forget_requester gone <$> aw_runs w;
  ae_tables : (aw_approvals w', aw_holds w', aw_retention w') =
              (aw_approvals w, aw_holds w, aw_retention w);
}.

Section handlers.
Context `{AuditLib} `{!Inj (=) (=) aud_uuid} (cfg : AuditCfg).

(** The handlers; the persons who act on holds, archives and the retention policy are
    among [who]. *)
Inductive audit_handler (who : Actor → Prop) : prog AuditW () → Prop :=
| h_event ctx p : audit_handler who (handleAuditEvent ctx p)
| h_record ctx p : audit_handler who (answered (record ctx p))
| h_verify ctx f t a g : audit_handler who (answered (verifyIntegrity ctx f t a g))
| h_preview_purge ctx o a : audit_handler who (answered (previewPurge cfg ctx o a))
| h_purge ctx d a : audit_handler who (answered (purgeOlderThan cfg ctx d a))
| h_anonymize ctx u a : audit_handler who (answered (anonymizeUser ctx u a))
| h_schedule ctx d a : audit_handler who (answered (schedulePurge cfg ctx d a))
| h_cancel ctx i r a : audit_handler who (cancelPurgeSchedule ctx i r a)
| h_worker_purges ctx : audit_handler who (runDueScheduledPurges cfg ctx)
| h_worker_integrity ctx : audit_handler who (runDueIntegrity ctx)
| h_integrity_schedule ctx b i a : audit_handler who (answered (setIntegritySchedule ctx b i a))
| h_row_hold ctx i d a : who a → audit_handler who (answered (setRowLegalHold ctx i d a))
| h_preview_hold f : audit_handler who (answered (previewLegalHold f))
| h_hold ctx d a : audit_handler who (answered (createLegalHold ctx d a))
| h_release ctx i r a : who a → audit_handler who (answered (releaseLegalHold ctx i r a))
| h_retrieve ctx f g i a :
    who a → audit_handler who (answered (retrievePurgeArchive cfg ctx f g i a))
| h_retention ctx ps r a : who a → audit_handler who (answered (updateRetention ctx ps r a)).

Definition audit_pool (who : Actor → Prop) ps w ps' w' : Prop :=
  Forall (audit_handler who) ps ∧ rtc (pool_step audit_env) (ps, w) (ps', w').

Section safe.
Context (solo : option string).
Abbreviation I := (audit_inv solo).
Abbreviation R := (audit_rel solo).
#[local] Instance props_preorder : PreOrder R := audit_rel_preorder solo.

Lemma audit_handler_safe who p :
  (∀ a, who a → only_actor solo a) → audit_handler who p → safe I R p.
Proof.
  intros Hw Hp.
  destruct Hp; try (apply safe_bind; [|by intros; apply safe_mret]); auto 3 with safe nocore.
Qed.

Lemma forget_users_facts gone r : facts (forget_users gone r) = facts r.
Proof. done. Qed.
Lemma audit_env_good w w' : I w → audit_env w w' → I w' ∧ R w w'.
Proof.
  intros HI [Hn Hd [gone Hl] [gone' Hr] [= E1 E2 E3]].
  apply logs_steps; try done.
  - intros id r'. rewrite Hl, lookup_fmap. destruct (aw_logs w !! id) as [r|]; [|done].
    intros [= <-]. by exists r.
  - intros _ id r Hid Hh. exists (forget_users gone r). by rewrite Hl, lookup_fmap, Hid.
  - split.
    + intros id r Hid. exists (forget_requester gone' r). by rewrite Hr, lookup_fmap, Hid.
    + intros id. rewrite Hr, lookup_fmap, fmap_is_Some. by left.
Qed.

Lemma audit_pool_good who ps w ps' w' :
  (∀ a, who a → only_actor solo a) → I w → audit_pool who ps w ps' w' → I w' ∧ R w w'.
Proof.
  intros Hw HI [Hps Hrun]. eapply (pool_invariant I R); [apply audit_env_good|done| |exact Hrun].
  intros i p Hi. eapply audit_handler_safe; [done|]. by eapply Forall_lookup_1.
Qed.
End safe.

Definition anyone : Actor → Prop := λ _, True.

(** C7: However the handlers interleave, the chain stays a chain: no two rows have one
    number, every row carries the hash of its content, a row after another carries the
    hash of that one, later rows are not older. No event is changed: a row that is still
    there says what it said, and stands where it stood. *)
Theorem chain_intact ps w ps' w' :
  audit_inv None w → audit_pool anyone ps w ps' w' →
  chain_ok w' ∧
  ∀ id r', ¬ future w id → aw_logs w' !! id = Some r' →
    ∃ r, aw_logs w !! id = Some r ∧ facts r' = facts r.
Proof.
  intros HI Hpool. destruct (audit_pool_good None anyone ps w ps' w') as [HI' HR]; [|done..|].
  - by intros a _ u.
  - split; [apply HI'|]. apply HR.
Qed.

(** C17: A hold is released by two persons: one who asked, another who released it, with an
    approval for this very hold (or row) that was used up. What it covered never
    changes, and once it is released nothing about it does. *)
Theorem release_takes_two ps w ps' w' id h :
  audit_inv None w → audit_pool anyone ps w ps' w' → aw_holds w !! id = Some h →
  ∃ h', aw_holds w' !! id = Some h' ∧ lh_filter h' = lh_filter h ∧
    (lh_status h = HOLD_RELEASED → h' = h) ∧
    (lh_status h' = HOLD_RELEASED → released_by_two w' h').
Proof.
  intros HI Hpool Hh. destruct (audit_pool_good None anyone ps w ps' w') as [HI' HR]; [|done..|].
  - by intros a _ u.
  - destruct (ad_holds _ _ _ HR id h Hh) as (h'&Hh'&Hs). exists h'.
    destruct (to_holds _ _ (av_trust _ _ HI') id h' Hh') as (_&_&_&?).
    split_and!; [done|apply Hs|apply Hs|done].
Qed.

(** C9: One person alone, whatever they send and however often, takes no row off hold, ends
    no hold and changes no retention policy; and no row on hold is deleted. (The
    approvals that wait at the start are this person's own.) *)
Theorem one_person_alone u ps w ps' w' :
  audit_inv (Some u) w → audit_pool (λ a, ac_id a = Some u) ps w ps' w' →
  (∀ id r, aw_logs w !! id = Some r → al_legalHold r = true →
     ∃ r', aw_logs w' !! id = Some r' ∧ al_legalHold r' = true ∧ facts r' = facts r) ∧
  (∀ id h, aw_holds w !! id = Some h → aw_holds w' !! id = Some h) ∧
  aw_retention w' = aw_retention w.
Proof.
  intros HI Hpool.
  destruct (audit_pool_good (Some u) (λ a, ac_id a = Some u) ps w ps' w') as [HI' HR]; [|done..|].
  - by intros a Ha v [= <-].
  - split_and!; [|intros id h Hh|by apply HR].
    + intros id r Hr Hheld. destruct (ad_held _ _ _ HR (ltac:(done)) id r Hr Hheld) as (r'&Hr'&?).
      destruct (co_ids _ (av_chain _ _ HI) id r Hr) as [_ Hn].
      destruct (ad_facts _ _ _ HR id r' Hn Hr') as (r0&Hr0&?). assert (r0 = r) as -> by congruence. by exists r'.
    + destruct (ad_holds _ _ _ HR id h Hh) as (h'&Hh'&Hs).
      by rewrite (hs_solo _ _ _ Hs) in Hh' by done.
Qed.

(** ** A confirmation token is good for one purge *)

Section token.
Context (token : string).
Abbreviation I := (audit_inv None).
Abbreviation R := (audit_rel None).
#[local] Instance token_preorder : PreOrder R := audit_rel_preorder None.

(** The identifier that the token carries. *)
Definition token_jti : option string :=
  match Js.split "." token with
  | body :: _ :: _ =>
      match JSON_parse (from_base64url body) ≫= member "jti" with
      | Some (JStr jti) => Some jti
      | _ => None
      end
  | _ => None
  end.
Definition spent (w : AuditW) : Prop :=
  ∃ id r, aw_runs w !! id = Some r ∧ Some (pr_tokenId r) = token_jti.

Lemma spent_stays w w' : R w w' → spent w → spent w'.
Proof.
  intros HR (id&r&Hr&Ht). destruct (ad_runs _ _ _ HR id r Hr) as (r'&?&Hs).
  exists id, r'. split; [done|]. by rewrite Hs.
Qed.

Lemma rg_verify a c w :
  rg I R (λ jti _, token_jti = Some jti) (λ _ _, True) (verifyConfirmToken cfg token a c) w.
Proof.
  unfold verifyConfirmToken, token_jti. destruct (Js.split "." token) as [|body [|sig rest]]; [done..|].
  destruct (_ && _); [|done].
  apply rg_bind. eapply rg_mono; [apply safe_rg, ok_tokenSecret| |done]. intros secret w1 _.
  apply rg_bind. destruct (negb (bool_decide (from_base64url sig = _))); [done|]. cbn [throw_if rg].
  apply rg_bind. destruct (JSON_parse _) as [claims|]; [|done]. cbn [require rg].
  apply rg_bind. destruct (match claims with JNull => true | _ => false end); [done|].
  cbn [throw_if rg]. apply rg_bind, rg_gets; [apply _|]. intros w2 _ _.
  do 3 (apply rg_bind; match goal with |- rg _ _ _ _ (throw_if ?b _) _ => destruct b end;
    [done|]; cbn [throw_if rg]).
  cbn. by destruct (member "jti" claims) as [[]|].
Qed.

Lemma once_start jti reason c a w :
  token_jti = Some jti → once I R spent False (start_run jti reason c a) w.
Proof.
  intros Hj. unfold start_run, run_create. cbn. intros w1 HR HI.
  destruct (ok_run_create None (λ id t,
       {| pr_id := id; pr_tokenId := jti; pr_cutoff := c; pr_reason := reason;
          pr_status := STARTED; pr_requestedById := ac_id a; pr_archiveKey := None;
          pr_archivedCount := 0; pr_deletedCount := 0; pr_heldCount := 0; pr_minSeq := None;
          pr_maxSeq := None; pr_error := None; pr_createdAt := t; pr_finishedAt := None |})
    (λ _ _, eq_refl) w1 w1 ltac:(done) HI) as (HI2&HR2&_).
  split_and!; [exact HI2|exact HR2|]. cbn.
  unfold draw. cbn. case_bool_decide as Hf; [done|]. cbn. right. split.
  - intros (id&r&Hr&Ht). apply Hf. destruct (find_row _ _) as [q|] eqn:Hq; [by eexists|].
    eapply find_row_None in Hq; [|exact Hr]. cbn in Hq.
    apply bool_decide_eq_false in Hq. destruct Hq. congruence.
  - eexists _, _. split; [by apply lookup_insert_eq|done].
Qed.

Lemma once_purge ctx d a w :
  pd_confirmToken d = token → once I R spent False (purgeOlderThan cfg ctx d a) w.
Proof.
  intros Ht. unfold purgeOlderThan. rewrite Ht.
  apply once_after; [apply ok_parseCutoff|intros cutoff w1]. cbv zeta.
  apply once_after; [apply safe_throw_if|intros _ w2].
  eapply once_bind, rg_mono; [apply rg_verify| |done]. intros jti w3 Hj. cbv beta.
  apply once_after; [apply safe_throw_if|intros _ w4].
  apply once_then; [by apply once_start|intros run]. safe_tac.
Qed.
End token.

(** However the handlers interleave, of all the purges that present one confirmation
    token at most one goes through. *)
Theorem purge_token_once ps w ps' w' i j token ctx ctx' d d' a a' :
  audit_inv None w → audit_pool anyone ps w ps' w' →
  pd_confirmToken d = token → pd_confirmToken d' = token →
  ps !! i = Some (answered (purgeOlderThan cfg ctx d a)) →
  ps !! j = Some (answered (purgeOlderThan cfg ctx' d' a')) →
  ps' !! i = Some (Ret ()) → ps' !! j = Some (Ret ()) → i = j.
Proof.
  intros HI [Hps Hrun] Hd Hd' Hi Hj Ri Rj.
  eapply (pool_once (audit_inv None) (audit_rel None) (spent token) audit_env
    (λ i, ∃ ctx d a, ps !! i = Some (answered (purgeOlderThan cfg ctx d a)) ∧
                     pd_confirmToken d = token));
    [apply spent_stays|apply audit_env_good|done| | |exact Hrun|by eauto 6..|exact Ri|exact Rj].
  - intros k p Hk. eapply audit_handler_safe; [by intros ? _ ?|]. by eapply Forall_lookup_1.
  - intros k p (c&e&b&Hk'&He) Hk. simplify_eq. unfold answered.
    apply once_then; [by apply once_purge|]. intros x. apply safe_mret.
Qed.
End handlers.

(** ** Witnesses *)

Definition one_action : HoldFilter :=
  {| hf_rowId := None; hf_entity := None; hf_entityId := None; hf_userId := None;
     hf_targetUserId := None; hf_action := Some "B"; hf_sessionId := None; hf_requestId := None;
     hf_startDate := None; hf_endDate := None |}.
Definition hold_dto (f : HoldFilter) : CreateLegalHoldDto :=
  {| ch_caseReference := "case 7"; ch_reason := "court order"; ch_filter := f |}.
(** The event "B" is on hold. *)
Definition held_event : AuditW :=
  (run (createLegalHold None (hold_dto one_action) (person "s1")) three_events).2.
Lemma held_event_inv solo : audit_inv solo held_event.
Proof.
  pose proof (audit_rel_preorder solo).
  by destruct (rg_run _ _ _ _ _ three_events (three_events_inv solo)
    (ok_createLegalHold solo None (hold_dto one_action) (person "s1") three_events)).
Qed.
Definition the_hold : string := aud_unary 3.
Definition the_row : string := aud_unary 1.
Example held_event_state :
  (al_legalHold <$> aw_logs held_event !! the_row) = Some true ∧
  (lh_status <$> aw_holds held_event !! the_hold) = Some HOLD_ACTIVE.
Proof. vm_compute. auto. Qed.

Definition releases (who : string) : prog AuditW () :=
  answered (releaseLegalHold None the_hold "closed" (person who)).
Definition ended (order : list nat) (ps : list (prog AuditW ())) (w : AuditW) :=
  schedule order ps w.

(** Two events at once, while the hold is released by two persons. *)
Definition busy : list (prog AuditW ()) :=
  [releases "s1"; releases "s2"; handleAuditEvent None (Some (event "D"));
   handleAuditEvent None (Some (event "E"))].
Definition busy_done :=
  schedule ([0; 2; 0] ++ replicate 9 0 ++ [1; 3; 1] ++ replicate 20 1)%nat busy held_event.
Lemma busy_pool : audit_pool demo_cfg anyone busy held_event busy_done.1 busy_done.2.
Proof.
  split.
  - repeat (apply Forall_cons; split; [first [by apply h_release|apply h_event]|]).
    by apply Forall_nil.
  - rewrite <- (surjective_pairing busy_done). apply schedule_steps.
Qed.
Example busy_outcome :
  busy_done.1 !! 1%nat = Some (Ret ()) ∧ size (aw_logs busy_done.2) = 9%nat ∧
  (al_legalHold <$> aw_logs busy_done.2 !! the_row) = Some false.
Proof. vm_compute. auto. Qed.

Lemma chain_intact_witness : chain_ok busy_done.2.
Proof.
  exact (proj1 (chain_intact demo_cfg busy held_event busy_done.1 busy_done.2
    (held_event_inv None) busy_pool)).
Defined.

Lemma release_takes_two_witness :
  ∃ h, aw_holds busy_done.2 !! the_hold = Some h ∧ released_by_two busy_done.2 h.
Proof.
  destruct (aw_holds held_event !! the_hold) as [h0|] eqn:H0; [|by vm_compute in H0].
  destruct (release_takes_two demo_cfg busy held_event busy_done.1 busy_done.2 the_hold h0
    (held_event_inv None) busy_pool H0) as (h&Hh&_&_&Hr).
  exists h. split; [exact Hh|]. apply Hr.
  assert (Hs : (lh_status <$> aw_holds busy_done.2 !! the_hold) = Some HOLD_RELEASED)
    by (vm_compute; reflexivity).
  rewrite Hh in Hs. by injection Hs.
Defined.

(** One person, over and over. *)
Definition stubborn : list (prog AuditW ()) :=
  [releases "s1"; releases "s1";
   answered (setRowLegalHold None the_row
     {| sr_legalHold := false; sr_reason := "mine"; sr_caseReference := None |} (person "s1"))].
Definition stubborn_done :=
  schedule ([0; 1; 2] ++ replicate 20 0 ++ replicate 20 1 ++ replicate 20 2)%nat stubborn held_event.
Lemma stubborn_pool :
  audit_pool demo_cfg (λ a, ac_id a = Some "s1") stubborn held_event
    stubborn_done.1 stubborn_done.2.
Proof.
  split.
  - repeat (apply Forall_cons; split; [first [by apply h_release|by apply h_row_hold]|]).
    by apply Forall_nil.
  - rewrite <- (surjective_pairing stubborn_done). apply schedule_steps.
Qed.
Lemma one_person_alone_witness : aw_holds stubborn_done.2 !! the_hold = aw_holds held_event !! the_hold.
Proof.
  destruct (aw_holds held_event !! the_hold) as [h0|] eqn:H0; [|by vm_compute in H0].
  exact (proj1 (proj2 (one_person_alone demo_cfg "s1" stubborn held_event stubborn_done.1
    stubborn_done.2 (held_event_inv (Some "s1")) stubborn_pool)) the_hold h0 H0).
Defined.

(** A purge of what is older than the third day, previewed. *)
Definition third_day : string := toISOString (3 * DAY_MS).
Definition preview := run (previewPurge demo_cfg None third_day (person "s1")) held_event.
Definition previewed : AuditW := preview.2.
Definition the_token : string :=
  match preview.1 with Ok p => pv_confirmToken p | Err _ => "" end.
Definition the_purge : PurgeDto :=
  {| pd_olderThan := third_day; pd_reason := "policy"; pd_confirmToken := the_token |}.
Definition purges (who : string) : prog AuditW () :=
  answered (purgeOlderThan demo_cfg None the_purge (person who)).
Lemma previewed_inv solo : audit_inv solo previewed.
Proof.
  pose proof (audit_rel_preorder solo).
  by destruct (rg_run _ _ _ _ _ held_event (held_event_inv solo)
    (ok_previewPurge solo demo_cfg None third_day (person "s1") held_event)).
Qed.
Definition twice : list (prog AuditW ()) := [purges "s1"; purges "s1"].
Definition twice_done :=
  schedule ([0; 1; 0; 1; 0; 1; 0; 1] ++ replicate 60 0 ++ replicate 60 1)%nat twice previewed.
Lemma twice_pool : audit_pool demo_cfg anyone twice previewed twice_done.1 twice_done.2.
Proof.
  split.
  - repeat (apply Forall_cons; split; [apply h_purge|]). by apply Forall_nil.
  - rewrite <- (surjective_pairing twice_done). apply schedule_steps.
Qed.
Lemma purge_token_once_witness : twice_done.1 !! 1%nat ≠ Some (Ret ()).
Proof.
  intros Hsecond. assert (0%nat = 1%nat) as Hsame; [|discriminate Hsame].
  refine (purge_token_once demo_cfg twice previewed twice_done.1 twice_done.2 0%nat 1%nat
    the_token None None the_purge the_purge (person "s1") (person "s1") (previewed_inv None) twice_pool _ _ _ _ _ Hsecond).
  - reflexivity.
  - reflexivity.
  - reflexivity.
  - reflexivity.
  - vm_compute. reflexivity.
Defined.

(** ** Races *)

(** The event "B" under two holds; the release of the first was asked for, and a purge
    previewed. *)
Definition second_hold : string := aud_unary 5.
Definition two_holds : AuditW :=
  let w := (run (createLegalHold None (hold_dto one_action) (person "s2")) held_event).2 in
  (run (releases "s1") w).2.
Definition purge_preview (w : AuditW) :=
  run (previewPurge demo_cfg None third_day (person "s1")) w.
Definition purge_with (r : outcome PurgePreview) : prog AuditW () :=
  answered (purgeOlderThan demo_cfg None
    {| pd_olderThan := third_day; pd_reason := "policy";
       pd_confirmToken := match r with Ok p => pv_confirmToken p | Err _ => "" end |}
    (person "s1")).

(** The release takes every row of the hold off hold and puts back, in later statements,
    those that other holds cover. A purge in between deletes a row that is covered by
    a hold that is active all the time. *)
Definition gap :=
  let '(r, w) := purge_preview two_holds in
  schedule (replicate 9 0 ++ replicate 60 1 ++ replicate 20 0)%nat [releases "s2"; purge_with r] w.
Example release_gap_loses_a_held_row :
  gap.1 = [Ret (); Ret ()] ∧
  (lh_status <$> aw_holds gap.2 !! second_hold) = Some HOLD_ACTIVE ∧
  is_Some (aw_logs two_holds !! the_row) ∧ aw_logs gap.2 !! the_row = None.
Proof. vm_compute. split_and!; eauto. Qed.

(** A row that is taken off hold after the archive was written and before the rows are
    deleted is deleted without being archived. *)
Definition late_release :=
  let '(r, w) := purge_preview (run (releases "s1") held_event).2 in
  schedule (replicate 12 0 ++ replicate 30 1 ++ replicate 60 0)%nat [purge_with r; releases "s2"] w.
Example late_release_deletes_unarchived :
  late_release.1 = [Ret (); Ret ()] ∧
  map (λ r, (pr_status r, pr_archivedCount r, pr_deletedCount r))
    (rows (λ _, true) (aw_runs late_release.2)) = [(COMPLETED, 1, 2)].
Proof. vm_compute. auto. Qed.
