(* ===== verification/AuditVerify.v ===== *)
(** * The verification of the audit log's chain

    The scan in batches against one pass over the rows by their numbers, and what a
    recorded purge explains. *)

From S2P Require Import Prelude Interleave Js Json JsDate Roles AuditRedaction.
From S2P Require Import AuditModel AuditChain AuditPurge AuditHold AuditSafety AuditProps.
From stdpp Require Import sorting.
From coqutil Require Import Datatypes.RecordSetters.
Import DoubleBraceUpdate.

Open Scope Z_scope.

(** ** What purges explain *)

Definition in_range_of (s : Z) (r : Z * Z) : Prop := r.1 ≤ s ≤ r.2.
Definition covered (rs : list (Z * Z)) (s : Z) : Prop := ∃ r, r ∈ rs ∧ in_range_of s r.

(** The joined ranges, the last first: apart, and none starts after those to come. *)
Record joined (merged rs : list (Z * Z)) : Prop := {
  jn_covers s : covered merged s ↔ covered rs s;
  jn_apart : StronglySorted (λ x y, y.2 + 1 < x.1) merged;
  jn_starts m : m ∈ merged → ∃ r, r ∈ rs ∧ r.1 = m.1;
}.

Lemma covered_cons r rs s : covered (r :: rs) s ↔ in_range_of s r ∨ covered rs s.
Proof. unfold covered. setoid_rewrite elem_of_cons. naive_solver. Qed.
Lemma covered_snoc rs r s : covered (rs ++ [r]) s ↔ covered rs s ∨ in_range_of s r.
Proof. unfold covered. setoid_rewrite elem_of_app. setoid_rewrite list_elem_of_singleton. naive_solver. Qed.

Lemma merge_range_joined merged rs r :
  joined merged rs → (∀ q, q ∈ rs → q.1 ≤ r.1) → joined (merge_range merged r) (rs ++ [r]).
Proof.
  intros [Hc Ha Hs] Hle. unfold merge_range. destruct merged as [|[a b] rest].
  - split; [|repeat constructor|].
    + intros s. rewrite covered_snoc, covered_cons, <- Hc. unfold covered. set_solver.
    + intros m ->%list_elem_of_singleton. exists r. set_solver.
  - destruct (Hs (a, b)) as (q&Hq&Hqa); [left|]. cbn in Hqa. specialize (Hle q Hq).
    apply StronglySorted_inv in Ha as [Ha Hfirst].
    destruct (Z.leb_spec r.1 (b + 1)).
    + split.
      * intros s. rewrite covered_snoc, covered_cons, <- Hc, covered_cons.
        unfold in_range_of. cbn. destruct (decide (s ≤ b)); intuition lia.
      * constructor; done.
      * intros m [->|Hm]%elem_of_cons; [exists q; set_solver|].
        destruct (Hs m) as (q'&?&?); [by right|]. exists q'. set_solver.
    + split.
      * intros s. rewrite covered_snoc, covered_cons, <- Hc. tauto.
      * constructor; [by constructor|]. constructor; [done|].
        rewrite Forall_forall in Hfirst |- *. intros x Hx. specialize (Hfirst x Hx). cbn in *. lia.
      * intros m [->|Hm]%elem_of_cons; [exists r; set_solver|].
        destruct (Hs m Hm) as (q'&?&?). exists q'. set_solver.
Qed.

Lemma merge_ranges_joined todo merged rs :
  joined merged rs → (∀ q r, q ∈ rs → r ∈ todo → q.1 ≤ r.1) →
  StronglySorted (goes_before (λ a b : Z * Z, a.1 <=? b.1)) todo →
  joined (foldl merge_range merged todo) (rs ++ todo).
Proof.
  revert merged rs. induction todo as [|r todo IH]; intros merged rs Hj Hle Hs; cbn.
  - by rewrite app_nil_r.
  - apply StronglySorted_inv in Hs as [Hs Hr]. rewrite Forall_forall in Hr.
    change (rs ++ r :: todo) with (rs ++ [r] ++ todo). rewrite app_assoc. apply IH; [| |done].
    + apply merge_range_joined; [done|]. intros q Hq. apply Hle; [done|by left].
    + intros q x [?| ->%list_elem_of_singleton]%elem_of_app Hx.
      { apply Hle; [done|by right]. }
      by apply Z.leb_le, Hr.
Qed.

#[export] Instance by_start_total : Total (goes_before (λ a b : Z * Z, a.1 <=? b.1)).
Proof. intros a b. unfold goes_before. rewrite !Z.leb_le. lia. Qed.
#[export] Instance by_start_trans : Transitive (goes_before (λ a b : Z * Z, a.1 <=? b.1)).
Proof. intros a b c. unfold goes_before. rewrite !Z.leb_le. lia. Qed.

Lemma StronglySorted_two {A} (R : relation A) xs x y :
  StronglySorted R xs → x ∈ xs → y ∈ xs → x = y ∨ R x y ∨ R y x.
Proof.
  induction 1 as [|z xs _ IH Hz]; [set_solver|]. rewrite Forall_forall in Hz.
  rewrite !elem_of_cons. intros [->|Hx] [->|Hy]; auto.
Qed.

Lemma explained_covers rs lo hi :
  lo ≤ hi →
  explainedByPurge (merge_ranges (by_start rs)) lo hi = true ↔ ∀ s, lo ≤ s ≤ hi → covered rs s.
Proof.
  intros Hlh.
  destruct (merge_ranges_joined (by_start rs) [] []) as [Hc Ha _].
  { split; [done|constructor|set_solver]. }
  { set_solver. }
  { apply StronglySorted_merge_sort; apply _. }
  cbn in Hc. set (M := foldl _ _ _) in *.
  assert (Hcov : ∀ s, covered M s ↔ covered rs s).
  { intros s. rewrite Hc. unfold covered, by_start, in_range_of.
    by setoid_rewrite merge_sort_Permutation. }
  unfold explainedByPurge. rewrite existsb_exists. setoid_rewrite <- Hcov. split.
  - intros ([a b]&Hin%list_elem_of_In&[Hl%Z.leb_le Hh%Z.leb_le]%andb_prop) s Hs.
    unfold merge_ranges in Hin. rewrite elem_of_reverse in Hin.
    exists (a, b). split; [done|]. unfold in_range_of. cbn. lia.
  - intros Hall. destruct (Hall lo ltac:(lia)) as ([a b]&Hm&Hab). unfold in_range_of in Hab. cbn in Hab.
    exists (a, b). split; [apply list_elem_of_In; unfold merge_ranges; by rewrite elem_of_reverse|].
    apply andb_true_intro. rewrite !Z.leb_le. split; [lia|].
    destruct (Z.le_gt_cases hi b) as [|Hgt]; [done|].
    destruct (Hall (b + 1) ltac:(lia)) as ([c d]&Hm'&Hcd). unfold in_range_of in Hcd. cbn in Hcd.
    destruct (StronglySorted_two _ _ _ _ Ha Hm Hm') as [[= -> ->]|[Hx|Hx]]; cbn in *; lia.
Qed.

(** Numbers are explained when each of them is in a recorded range, however the
    ranges overlap. *)
Theorem explained_exact rs lo hi :
  lo ≤ hi →
  explainedByPurge (merge_ranges (by_start rs)) lo hi = true ↔
  ∀ s, lo ≤ s ≤ hi → ∃ r, r ∈ rs ∧ r.1 ≤ s ≤ r.2.
Proof. apply explained_covers. Qed.

(** ** Rows by their numbers *)

Lemma list_filter_all {A} (P : A → Prop) `{∀ x, Decision (P x)} (xs : list A) :
  (∀ x, x ∈ xs → P x) → filter P xs = xs.
Proof.
  induction xs as [|x xs IH]; [done|]. intros Hx. rewrite filter_cons_True by (apply Hx; by left).
  f_equal. apply IH. intros y Hy. apply Hx. by right.
Qed.
Lemma list_filter_none {A} (P : A → Prop) `{∀ x, Decision (P x)} (xs : list A) :
  (∀ x, x ∈ xs → ¬ P x) → filter P xs = [].
Proof.
  induction xs as [|x xs IH]; [done|]. intros Hx. rewrite filter_cons_False by (apply Hx; by left).
  apply IH. intros y Hy. apply Hx. by right.
Qed.

(** Rows are kept by their identifiers, and no two have one number. *)
Record numbers_ok (m : gmap string AuditLog) : Prop := {
  no_ids id r : m !! id = Some r → al_id r = id;
  no_seq i j r r' s : m !! i = Some r → m !! j = Some r' →
    al_seq r = Some s → al_seq r' = Some s → i = j;
}.
Lemma chain_numbers_ok `{AuditLib} w : chain_ok w → numbers_ok (aw_logs w).
Proof. intros HI. split; [|apply (co_seq w HI)]. intros id r Hr. by destruct (co_ids w HI id r Hr). Qed.

Definition strictly : relation (Z * AuditLog) := λ a b, a.1 < b.1.
#[export] Instance strictly_trans : Transitive strictly.
Proof. intros a b c. unfold strictly. lia. Qed.

Lemma rows_NoDup m (P : AuditLog → bool) : numbers_ok m → NoDup (rows P m).
Proof.
  intros []. unfold rows. apply NoDup_filter, NoDup_fmap_2_strong; [|apply NoDup_map_to_list].
  intros [i r] [j r'] Hr%elem_of_map_to_list Hr'%elem_of_map_to_list. cbn. intros <-.
  f_equal. by rewrite <- (no_ids0 i r Hr), <- (no_ids0 j r Hr').
Qed.
Lemma numbered_NoDup m P : numbers_ok m → NoDup (numbered P m).
Proof.
  intros Hm. unfold numbered. pose proof (rows_NoDup m P Hm) as Hnd.
  induction Hnd as [|r rs Hr Hnd IH]; cbn; [constructor|].
  destruct (al_seq r) as [s|]; cbn; [|done]. constructor; [|done].
  rewrite list_elem_of_omap. intros (r'&Hr'&Hs). destruct (al_seq r'); cbn in Hs; simplify_eq. done.
Qed.

Lemma chain_one m P s r r' : numbers_ok m → (s, r) ∈ chain P m → (s, r') ∈ chain P m → r = r'.
Proof.
  intros [] (Hs&_&i&Hi)%elem_of_chain (Hs'&_&j&Hj)%elem_of_chain.
  assert (i = j) as -> by (by eapply no_seq0). congruence.
Qed.
Lemma chain_NoDup m P : numbers_ok m → NoDup (chain P m).
Proof. intros Hm. unfold chain, by_number. rewrite merge_sort_Permutation. by apply numbered_NoDup. Qed.

Lemma sorted_strict (xs : list (Z * AuditLog)) :
  StronglySorted (goes_before (λ a b : Z * AuditLog, a.1 <=? b.1)) xs → NoDup xs →
  (∀ s r r', (s, r) ∈ xs → (s, r') ∈ xs → r = r') → StronglySorted strictly xs.
Proof.
  induction 1 as [|x xs Hs IH Hx]; intros Hnd Hone; constructor.
  - apply NoDup_cons in Hnd as [_ Hnd]. apply IH; [done|]. intros s r r' H1 H2.
    apply (Hone s); by right.
  - apply NoDup_cons in Hnd as [Hnin _]. rewrite Forall_forall in Hx |- *. intros y Hy.
    specialize (Hx y Hy). unfold goes_before in Hx. apply Z.leb_le in Hx. unfold strictly.
    destruct x as [s r], y as [s' r']. cbn in *.
    destruct (decide (s = s')) as [<-|]; [|lia]. destruct Hnin.
    by rewrite (Hone s r r'); [|left|right].
Qed.
Lemma chain_strict m P : numbers_ok m → StronglySorted strictly (chain P m).
Proof.
  intros Hm. apply sorted_strict; [apply chain_sorted|by apply chain_NoDup|].
  intros s r r'. by apply chain_one.
Qed.

(** A further condition leaves the rows that meet it, in their order. *)
Lemma chain_filter m P Q :
  numbers_ok m → chain (λ r, P r && Q r) m = filter (λ x, Q x.2 = true) (chain P m).
Proof.
  intros Hm. apply (StronglySorted_unique_strong strictly).
  - unfold strictly. lia.
  - by apply chain_strict.
  - assert (∀ xs, StronglySorted strictly xs → StronglySorted strictly (filter (λ x, Q x.2 = true) xs))
      as Hf; [|by apply Hf, chain_strict].
    induction 1 as [|x xs _ IH Hx]; [constructor|]. rewrite filter_cons.
    case_decide; [|done]. constructor; [done|]. rewrite Forall_forall in Hx |- *.
    intros y [_ Hy]%list_elem_of_filter. by apply Hx.
  - apply NoDup_Permutation; [by apply chain_NoDup|by apply NoDup_filter, chain_NoDup|].
    intros [s r]. rewrite list_elem_of_filter, !elem_of_chain, andb_true_iff. cbn. tauto.
Qed.

Lemma numbered_from m P x : x ∈ chain P m → al_seq x.2 = Some x.1.
Proof. destruct x. by intros (?&_)%elem_of_chain. Qed.

(** The rows after the last one of a first part. *)
Lemma chain_after m P (front rest : list (Z * AuditLog)) final :
  numbers_ok m → chain P m = front ++ rest → last front = Some final →
  chain (λ r, P r && after (Some final.1) r) m = rest.
Proof.
  intros Hm Hsplit Hl. rewrite chain_filter, Hsplit, filter_app by done.
  pose proof (chain_strict m P Hm) as Hs. rewrite Hsplit in Hs.
  assert (Hnum : ∀ x, x ∈ front ++ rest → al_seq x.2 = Some x.1)
    by (intros x; rewrite <- Hsplit; apply numbered_from).
  assert (final ∈ front) as Hin by (rewrite last_lookup in Hl; by eapply list_elem_of_lookup_2).
  rewrite (list_filter_none _ front), (list_filter_all _ rest); [done|..].
  - intros x Hx. unfold after. rewrite Hnum by set_solver. apply Z.ltb_lt.
    by apply (StronglySorted_app_1_elem_of _ _ _ _ _ Hs).
  - intros x Hx. unfold after. rewrite Hnum by set_solver. intros Hlt%Z.ltb_lt.
    apply StronglySorted_app_1_l in Hs.
    destruct (last_greatest _ _ _ _ Hs Hl Hx) as [->|Hx']; unfold strictly in *; lia.
Qed.
Lemma chain_after_none m P : numbers_ok m → chain (λ r, P r && after None r) m = chain P m.
Proof.
  intros Hm. rewrite chain_filter by done. apply list_filter_all. intros x Hx.
  unfold after. by rewrite (numbered_from m P x).
Qed.

(** ** The scan *)

Section scan.
Context `{AuditLib}.

(** What the report shows of a scan. *)
Definition shown (st : Scan) :=
  (sc_prev st, sc_checked st, sc_complete st, sc_firstBreak st).

Lemma check_rows_shown purged batch st st' :
  shown st = shown st' →
  shown (check_rows purged batch st).1 = shown (check_rows purged batch st').1 ∧
  (check_rows purged batch st).2 = (check_rows purged batch st').2.
Proof.
  revert st st'. induction batch as [|[s r] batch IH]; intros st st' E; cbn [check_rows]; [done|].
  destruct st, st'. injection E as <- <- <- <-. cbn.
  destruct (MAX_VERIFY_ROWS <=? _); [done|]. destruct (check_row _ _ _ _); [done|]. by apply IH.
Qed.
Lemma check_rows_app purged a b st :
  check_rows purged (a ++ b) st =
  (let '(st', stop) := check_rows purged a st in
   if stop then (st', true) else check_rows purged b st').
Proof.
  revert st. induction a as [|[s r] a IH]; intros st; cbn [check_rows app]; [done|].
  destruct (MAX_VERIFY_ROWS <=? _); [done|]. by destruct (check_row _ _ _ _).
Qed.
Lemma check_rows_go purged batch st st' :
  check_rows purged batch st = (st', false) →
  sc_checked st' = sc_checked st + Z.of_nat (length batch) ∧
  (batch ≠ [] → sc_checked st < MAX_VERIFY_ROWS).
Proof.
  revert st. induction batch as [|[s r] batch IH]; intros st; cbn [check_rows].
  - intros [= ->]. cbn. split; [lia|done].
  - destruct st as [p l c k f]. cbn. destruct (Z.leb_spec MAX_VERIFY_ROWS c); [done|].
    destruct (check_row _ _ _ _); [done|]. intros [Hc _]%IH. cbn in Hc. split; [lia|done].
Qed.

Lemma batch_cons {A} (x : A) xs : ∃ ys, take VERIFY_BATCH (x :: xs) = x :: ys.
Proof. by eexists. Qed.

(** From the row after [final] on, batch by batch. *)
Lemma scan_from fuel P purged front rest final st w :
  numbers_ok (aw_logs w) → chain P (aw_logs w) = front ++ rest → last front = Some final →
  sc_lastSeq st = Some final.1 →
  Z.max 0 (MAX_VERIFY_ROWS - sc_checked st) + 2 ≤ Z.of_nat fuel →
  ∃ st', run (scan_rows fuel P purged st) w = (Ok st', w) ∧
    shown st' = shown (check_rows purged rest st).1.
Proof.
  intros Hm. revert front rest final st. induction fuel as [|fuel IH];
    intros front rest final st Hsplit Hl Hlast Hfuel; [lia|].
  cbn [scan_rows]. rewrite run_bind, run_gets, Hlast. rewrite (chain_after _ _ _ _ _ Hm Hsplit Hl).
  destruct rest as [|[s r] rest].
  { eexists. split; [apply run_ret|done]. }
  destruct (batch_cons (s, r) rest) as [ys Hb]. rewrite Hb.
  rewrite (bool_decide_eq_false_2 (Some _ = None)), andb_false_r by done.
  rewrite run_bind, run_ret.
  replace (st{{sc_prev := sc_prev st}}) with st by (by destruct st).
  rewrite <- (take_drop VERIFY_BATCH ((s, r) :: rest)), check_rows_app, Hb.
  destruct (check_rows purged ((s, r) :: ys) st) as [st1 [|]] eqn:Hc.
  { eexists. split; [apply run_ret|done]. }
  apply check_rows_go in Hc as [Hck Hlt]. specialize (Hlt ltac:(done)). cbn in Hck.
  destruct (last ((s, r) :: ys)) as [fin|] eqn:Hfin; [|by apply last_None in Hfin].
  set (st2 := st1{{sc_lastSeq := _}}).
  destruct (IH (front ++ (s, r) :: ys) (drop VERIFY_BATCH ((s, r) :: rest)) fin st2)
    as (st'&Hrun&Hsh).
  - rewrite <- app_assoc, <- Hb, take_drop. exact Hsplit.
  - by rewrite last_app, Hfin.
  - done.
  - change (sc_checked st2) with (sc_checked st1). lia.
  - exists st'. split; [exact Hrun|]. rewrite Hsh. by apply check_rows_shown.
Qed.

(** The whole scan as one pass over the rows by their numbers. *)
Definition one_pass (P : AuditLog → bool) (purged : list (Z * Z)) (m : gmap string AuditLog) : Scan :=
  let rows := chain P m in
  (check_rows purged rows
     (scan0{{sc_prev := head rows ≫= λ first, anchor first.1 m}})).1.

Lemma scan_exact P purged w :
  numbers_ok (aw_logs w) →
  ∃ st, run (scan_rows scan_fuel P purged scan0) w = (Ok st, w) ∧
    shown st = shown (one_pass P purged (aw_logs w)).
Proof.
  intros Hm. destruct (Z_of_nat_complete (MAX_VERIFY_ROWS + 1)) as [fuel Hf]; [done|].
  assert (scan_fuel = S fuel) as -> by (unfold scan_fuel; lia).
  cbn [scan_rows]. rewrite run_bind, run_gets. change (sc_lastSeq scan0) with (@None Z).
  rewrite chain_after_none by done. unfold one_pass.
  destruct (chain P (aw_logs w)) as [|[s r] rest] eqn:Hsplit.
  { eexists. split; [apply run_ret|done]. }
  destruct (batch_cons (s, r) rest) as [ys Hb]. rewrite Hb.
  change (bool_decide _ && bool_decide _) with true. cbn iota.
  rewrite run_bind, run_gets. cbn [head mbind option_bind fst].
  set (st0 := scan0{{sc_prev := _}}).
  rewrite <- (take_drop VERIFY_BATCH ((s, r) :: rest)), check_rows_app, Hb.
  destruct (check_rows purged ((s, r) :: ys) st0) as [st1 [|]] eqn:Hc.
  { eexists. split; [apply run_ret|done]. }
  apply check_rows_go in Hc as [Hck _]. change (sc_checked st0) with 0 in Hck. cbn in Hck.
  destruct (last ((s, r) :: ys)) as [fin|] eqn:Hfin; [|by apply last_None in Hfin].
  set (st2 := st1{{sc_lastSeq := _}}).
  destruct (scan_from fuel P purged ((s, r) :: ys) (drop VERIFY_BATCH ((s, r) :: rest)) fin st2 w)
    as (st'&Hrun&Hsh); try done.
  - by rewrite <- Hb, take_drop.
  - change (sc_checked st2) with (sc_checked st1). unfold MAX_VERIFY_ROWS in *. lia.
  - exists st'. split; [exact Hrun|]. rewrite Hsh. by apply check_rows_shown.
Qed.
End scan.

(** * What the verification of the chain shows

    When the scan finds no break; a log that the handlers wrote verifies; of two logs
    that verify with one head, the rows say the same. *)

From S2P Require Import Prelude Interleave Js Json JsDate Roles AuditRedaction.
From S2P Require Import AuditModel AuditChain AuditPurge AuditHold AuditSafety AuditTrust AuditProps.
From S2P Require Import AuditProps.
From stdpp Require Import sorting.
From coqutil Require Import Datatypes.RecordSetters.
Import DoubleBraceUpdate.

Open Scope Z_scope.

Section tamper.
Context `{AuditLib}.

(** ** No break *)

(** A row may come after [prev]: with its hash when it is the next one, and else only
    over numbers that were purged. *)
Definition follows (purged : list (Z * Z)) (prev : option (Z * string)) (x : Z * AuditLog) : Prop :=
  match prev with
  | Some (s, h) =>
      if decide (x.1 = s + 1) then al_prevHash x.2 = Some h
      else ∀ q, s < q < x.1 → covered purged q
  | None => True
  end.
Fixpoint linked (purged : list (Z * Z)) (prev : option (Z * string)) (xs : list (Z * AuditLog))
    : Prop :=
  match xs with
  | [] => True
  | x :: xs =>
      al_hash x.2 = Some (row_hash x.1 x.2) ∧ follows purged prev x ∧
      linked purged (Some (x.1, row_hash x.1 x.2)) xs
  end.

(** A row comes after the one before it. *)
Definition beyond (prev : option (Z * string)) (x : Z * AuditLog) : Prop :=
  match prev with Some (s, _) => s < x.1 | None => True end.

Lemma check_row_follows rs prev s r :
  beyond prev (s, r) →
  check_row (merge_ranges (by_start rs)) prev s r = None ↔
  al_hash r = Some (row_hash s r) ∧ follows rs prev (s, r).
Proof.
  intros Hb. unfold check_row, follows. case_bool_decide as Hh; cbn [negb].
  2:{ split; [done|]. intros [E _]. by rewrite E in Hh. }
  destruct prev as [[p h]|]; [|by split]. cbn in Hb |- *.
  destruct (Z.eqb_spec s (p + 1)) as [->|Hne]; destruct (decide _); try lia.
  - case_bool_decide as Hp; cbn [negb]; [by split|]. split; [done|]. by intros [_ ?].
  - pose proof (explained_covers rs (p + 1) (s - 1) ltac:(lia)) as Hex.
    destruct (explainedByPurge _ _ _); cbn [negb].
    + split; [|done]. intros _. split; [done|]. intros q Hq.
      by apply (proj1 Hex eq_refl q ltac:(lia)).
    + split; [done|]. intros [_ Hall]. enough (false = true) by done. apply Hex.
      intros q Hq. apply Hall. lia.
Qed.

Definition next_of (x : Z * AuditLog) : Z * string := (x.1, row_hash x.1 x.2).

(** A pass without a break, short enough to be complete. *)
Lemma check_rows_linked rs xs st :
  sc_firstBreak st = None → sc_complete st = true →
  sc_checked st + Z.of_nat (length xs) ≤ MAX_VERIFY_ROWS →
  StronglySorted strictly xs → (∀ x, x ∈ xs → beyond (sc_prev st) x) →
  let '(st', stop) := check_rows (merge_ranges (by_start rs)) xs st in
  (sc_firstBreak st' = None ↔ linked rs (sc_prev st) xs) ∧ sc_complete st' = true ∧
  (sc_firstBreak st' = None → sc_prev st' = from_option (λ x, Some (next_of x)) (sc_prev st) (last xs) ∧
     sc_checked st' = sc_checked st + Z.of_nat (length xs)).
Proof.
  revert st. induction xs as [|[s r] xs IH]; intros [p l c k f] Hf Hk Hlen Hs Hb; cbn in *.
  { split_and!; [done..|]. intros _. split; [done|lia]. }
  destruct (Z.leb_spec MAX_VERIFY_ROWS c); [lia|].
  apply StronglySorted_inv in Hs as [Hs Hr]. rewrite Forall_forall in Hr.
  pose proof (check_row_follows rs p s r (Hb (s, r) (list_elem_of_here _ _))) as Hrow.
  destruct (check_row _ p s r) as [b|]; cbn.
  { split_and!; [|done|done]. split; [done|]. intros (?&?&?). by destruct (proj2 Hrow). }
  match goal with |- context [check_rows _ xs ?st2] => set (st1 := st2) end.
  assert (Hck : sc_checked st1 = 1 + c) by done.
  specialize (IH st1 Hf Hk ltac:(lia) Hs Hr). rewrite Hck in IH.
  destruct (check_rows _ xs st1) as [st' stop]. cbn in IH. destruct IH as (IH1&IH2&IH3).
  destruct (proj1 Hrow eq_refl). split_and!; [|done|].
  - rewrite IH1. tauto.
  - intros [-> ->]%IH3. split; [|lia]. destruct xs as [|y xs]; [done|].
    destruct (last (y :: xs)) as [z|] eqn:E; [|by apply last_None in E].
    change (last ((s, r) :: y :: xs)) with (last (y :: xs)). by rewrite E.
Qed.

(** The row on which the first link hangs. *)
Definition anchored (P : AuditLog → bool) (m : gmap string AuditLog) : option (Z * string) :=
  head (chain P m) ≫= λ first, anchor first.1 m.

Lemma elem_of_before n m (x : Z * AuditLog) :
  x ∈ chain (before n) m → x.1 < n ∧ al_seq x.2 = Some x.1 ∧ ∃ id, m !! id = Some x.2.
Proof.
  destruct x as [s r]. intros (Hs&Hb&Hm)%elem_of_chain. unfold before in Hb. rewrite Hs in Hb.
  by apply Z.ltb_lt in Hb.
Qed.
Lemma anchored_Some P m p h first rest :
  chain P m = first :: rest → anchored P m = Some (p, h) →
  ∃ r, last (chain (before first.1) m) = Some (p, r) ∧ al_hash r = Some h.
Proof.
  intros Hc. unfold anchored, anchor. rewrite Hc. cbn.
  destruct (last (chain (before first.1) m)) as [[s r]|]; [|done]. cbn.
  destruct (al_hash r) as [h'|] eqn:Hh; [|done]. cbn. destruct (truthy h'); [|done].
  intros [= <- <-]. by exists r.
Qed.
Lemma anchored_beyond P m x :
  numbers_ok m → x ∈ chain P m → beyond (anchored P m) x.
Proof.
  intros Hm Hx. destruct (chain P m) as [|first rest] eqn:Hc; [set_solver|].
  destruct (anchored P m) as [[p h]|] eqn:Ha; [|done].
  destruct (anchored_Some _ _ _ _ _ _ Hc Ha) as (r&Hl&_). cbn.
  assert ((p, r) ∈ chain (before first.1) m) as (Hp&_)%elem_of_before
    by (rewrite last_lookup in Hl; by eapply list_elem_of_lookup_2).
  cbn in Hp. pose proof (chain_strict m P Hm) as Hs. rewrite Hc in Hs.
  apply StronglySorted_inv in Hs as [_ Hr]. rewrite Forall_forall in Hr.
  apply elem_of_cons in Hx as [->|Hx]; [done|]. specialize (Hr x Hx). unfold strictly in Hr. lia.
Qed.

(** What a pass says: the rows of the range hang together, up to what was purged. *)
Lemma one_pass_says P rs m :
  numbers_ok m → Z.of_nat (length (chain P m)) ≤ MAX_VERIFY_ROWS →
  let st := one_pass P (merge_ranges (by_start rs)) m in
  sc_complete st = true ∧
  (sc_firstBreak st = None ↔ linked rs (anchored P m) (chain P m)) ∧
  (sc_firstBreak st = None → sc_checked st = Z.of_nat (length (chain P m)) ∧
     sc_prev st = from_option (λ x, Some (next_of x)) (anchored P m) (last (chain P m))).
Proof.
  intros Hm Hlen. unfold one_pass. fold (anchored P m). cbv zeta.
  set (st0 := scan0{{sc_prev := anchored P m}}).
  pose proof (check_rows_linked rs (chain P m) st0 eq_refl eq_refl Hlen (chain_strict m P Hm)) as Hok.
  change (sc_prev st0) with (anchored P m) in Hok. change (sc_checked st0) with 0 in Hok.
  destruct (check_rows _ _ st0) as [st' stop].
  destruct Hok as (?&?&Hend); [by intros x; apply anchored_beyond|]. cbn.
  split_and!; [done..|]. intros [-> ->]%Hend. done.
Qed.

(** ** Honest logs *)

(** The number is missing between two rows. *)
Definition missing (m : gmap string AuditLog) (q : Z) : Prop :=
  (∃ i r s, m !! i = Some r ∧ al_seq r = Some s ∧ s < q) ∧
  (∃ i r s, m !! i = Some r ∧ al_seq r = Some s ∧ q < s) ∧
  (∀ i r, m !! i = Some r → al_seq r ≠ Some q).

(** A range that leaves out no row between two of its rows. *)
Definition convex (P : AuditLog → bool) (m : gmap string AuditLog) : Prop :=
  ∀ a b c i j k x y z,
    m !! i = Some a → m !! j = Some b → m !! k = Some c →
    al_seq a = Some x → al_seq b = Some y → al_seq c = Some z → x < y < z →
    P a = true → P c = true → P b = true.
Lemma in_range_convex w from to : chain_ok w → convex (in_range from to) (aw_logs w).
Proof.
  intros HI a b c i j k x y z Ha Hb Hc Hx Hy Hz Hlt. unfold in_range.
  pose proof (co_time w HI i j a b x y Ha Hb Hx Hy ltac:(lia)).
  pose proof (co_time w HI j k b c y z Hb Hc Hy Hz ltac:(lia)).
  rewrite !andb_true_iff. destruct from, to; rewrite ?Z.leb_le; lia.
Qed.

Lemma chain_ok_linked w P rs prev xs front :
  chain_ok w → convex P (aw_logs w) → (∀ q, missing (aw_logs w) q → covered rs q) →
  chain P (aw_logs w) = front ++ xs →
  (∀ x, head xs = Some x → follows rs prev x) → linked rs prev xs.
Proof.
  intros HI Hcv Hmiss. revert prev front. induction xs as [|x xs IH]; intros prev front Hc Hp; [done|].
  pose proof (chain_numbers_ok w HI) as Hm.
  assert (Hin : ∀ z, z ∈ front ++ x :: xs → al_seq z.2 = Some z.1 ∧ P z.2 = true ∧
    ∃ i, aw_logs w !! i = Some z.2) by (intros [? ?]; rewrite <- Hc; apply elem_of_chain).
  destruct (Hin x ltac:(set_solver)) as (Hx&HPx&i&Hi).
  pose proof (co_hash w HI i x.2 x.1 Hi Hx) as Hh. cbn. split_and!; [done|by apply Hp|].
  apply (IH _ (front ++ [x])); [by rewrite <- app_assoc|].
  intros y Hy. destruct xs as [|y' xs]; [done|]. injection Hy as ->.
  destruct (Hin y ltac:(set_solver)) as (Hy&HPy&j&Hj). cbn.
  pose proof (chain_strict _ P Hm) as Hs. rewrite Hc in Hs.
  apply StronglySorted_app_1_r in Hs.
  apply StronglySorted_inv in Hs as [Hs' Hfirst]. rewrite Forall_forall in Hfirst.
  assert (x.1 < y.1) by (apply Hfirst; by left).
  destruct (decide (y.1 = x.1 + 1)) as [E|Hne].
  - rewrite <- Hh. eapply (co_link w HI i j); [done..|]. by rewrite Hy, E.
  - intros q Hq. apply Hmiss. split_and!; [by exists i, x.2, x.1; split_and!; [..|lia]
      |by exists j, y.2, y.1; split_and!; [..|lia]|].
    intros k r Hk Hr.
    assert ((q, r) ∈ chain P (aw_logs w)) as Hqr.
    { apply elem_of_chain. split_and!; [done| |by eexists].
      eapply (Hcv x.2 r y.2 i k j x.1 q y.1); done. }
    rewrite Hc in Hqr. pose proof (chain_strict _ P Hm) as Hall. rewrite Hc in Hall.
    apply elem_of_app in Hqr as [Hq1|Hq1].
    { assert (q < x.1); [|lia].
      apply (StronglySorted_app_1_elem_of _ _ _ (q, r) x Hall Hq1). by left. }
    apply elem_of_cons in Hq1 as [<-|Hq1]; [cbn in Hq; lia|].
    apply elem_of_cons in Hq1 as [<-|Hq1]; [cbn in Hq; lia|].
    apply StronglySorted_inv in Hs' as [_ Hy']. rewrite Forall_forall in Hy'.
    specialize (Hy' _ Hq1). unfold strictly in Hy'. cbn in Hy'. lia.
Qed.

Lemma anchor_follows w P rs first rest :
  chain_ok w → (∀ q, missing (aw_logs w) q → covered rs q) →
  chain P (aw_logs w) = first :: rest → follows rs (anchored P (aw_logs w)) first.
Proof.
  intros HI Hmiss Hc. destruct (anchored P (aw_logs w)) as [[p h]|] eqn:Ha; [|done].
  destruct (anchored_Some _ _ _ _ _ _ Hc Ha) as (r&Hl&Hh).
  assert (Hp : (p, r) ∈ chain (before first.1) (aw_logs w))
    by (rewrite last_lookup in Hl; by eapply list_elem_of_lookup_2).
  apply elem_of_before in Hp as (Hlt&Hr&i&Hi). cbn in Hlt, Hr, Hi.
  assert (first ∈ chain P (aw_logs w)) as Hf by (rewrite Hc; left).
  destruct first as [n f]. apply elem_of_chain in Hf as (Hs&_&j&Hj). cbn in *.
  destruct (decide (n = p + 1)) as [->|Hne].
  - rewrite <- Hh. by eapply (co_link w HI i j).
  - intros q Hq. apply Hmiss. split_and!; [by exists i, r, p; split_and!; [..|lia]
      |by exists j, f, n; split_and!; [..|lia]|].
    intros k r' Hk Hr'. assert ((q, r') ∈ chain (before n) (aw_logs w)) as Hin.
    { apply elem_of_chain. split_and!; [done| |by eexists]. unfold before. rewrite Hr'.
      apply Z.ltb_lt. lia. }
    destruct (last_greatest _ _ _ _ (chain_sorted _ _) Hl Hin) as [[= ->]|Hle]; [lia|].
    unfold goes_before in Hle. apply Z.leb_le in Hle. cbn in Hle. lia.
Qed.

(** The ranges that the runs recorded. *)
Definition ranges (w : AuditW) : list (Z * Z) := recorded_ranges (aw_runs w).

Lemma honest_pass w from to :
  chain_ok w → (∀ q, missing (aw_logs w) q → covered (ranges w) q) →
  Z.of_nat (length (chain (in_range from to) (aw_logs w))) ≤ MAX_VERIFY_ROWS →
  sc_firstBreak (one_pass (in_range from to) (merge_ranges (by_start (ranges w))) (aw_logs w)) = None.
Proof.
  intros HI Hmiss Hlen.
  apply (one_pass_says (in_range from to) (ranges w) (aw_logs w)); [by apply chain_numbers_ok|done|].
  apply (chain_ok_linked w (in_range from to) (ranges w) _ _ []); try done.
  - by apply in_range_convex.
  - intros x Hx. destruct (chain _ _) as [|first rest] eqn:Hc; [done|]. injection Hx as ->.
    by eapply anchor_follows.
Qed.

(** ** The whole operation *)

(** The report of one pass over the rows of the range. *)
Definition report_of (from to : option Z) (w : AuditW) : IntegrityReport :=
  let range := in_range from to in
  let st := one_pass range (merge_ranges (by_start (ranges w))) (aw_logs w) in
  {| ir_ok := bool_decide (sc_firstBreak st = None);
     ir_complete := sc_complete st;
     ir_checked := sc_checked st;
     ir_unchainedRows := count (λ r, range r && bool_decide (al_seq r = None)) (aw_logs w);
     ir_from := toISOString <$> from;
     ir_to := toISOString <$> to;
     ir_firstBreak := sc_firstBreak st;
     ir_head := sc_prev st |}.

(** C15: The verification, in batches of two thousand rows from changing queries, comes to an
    end and reports what one pass over all the rows by their numbers finds. Then it is
    put on record. *)
Theorem verification_exact ctx from_text to_text from to actor trigger w :
  numbers_ok (aw_logs w) →
  query_date from_text = Some <$> from → query_date to_text = Some <$> to →
  (∀ f t, from = Some f → to = Some t → f ≤ t) →
  let report := report_of from to w in
  run (verifyIntegrity ctx from_text to_text actor trigger) w =
  run (auditSelf ctx actor (verified report) ;; saveIntegrityRun trigger actor report ;;
       mret report) w.
Proof.
  intros Hm Hf Ht Hle report. unfold verifyIntegrity. rewrite Hf, Ht. cbv zeta.
  rewrite run_bind, run_throw_if.
  replace (match Some <$> from with Some (Some f) => _ | _ => false end) with false
    by (destruct from, to; cbn; try done; symmetry; apply Z.ltb_ge; auto).
  unfold purgedSeqRanges. rewrite run_bind, run_gets, run_bind, run_throw_if.
  replace (bool_decide (Some <$> from = Some None) || bool_decide (Some <$> to = Some None))
    with false by (by destruct from, to).
  assert (∀ d : option Z, ((Some <$> d) ≫= λ x, x) = d) as Hd by by intros [].
  rewrite !Hd, run_bind.
  destruct (scan_exact (in_range from to) (merge_ranges (by_start (ranges w))) w Hm)
    as (st&Hrun&[= E1 E2 E3 E4]).
  unfold ranges in Hrun. rewrite Hrun, run_bind. unfold logs_count. rewrite run_gets.
  by rewrite E1, E2, E3, E4.
Qed.

(** C19: A log as the handlers keep it, of which the missing numbers were purged, verifies,
    whatever range of times is asked for. *)
Theorem honest_log_verifies w from to :
  chain_ok w → (∀ q, missing (aw_logs w) q → covered (ranges w) q) →
  Z.of_nat (length (chain (in_range from to) (aw_logs w))) ≤ MAX_VERIFY_ROWS →
  ir_ok (report_of from to w) = true ∧ ir_complete (report_of from to w) = true ∧
  ir_checked (report_of from to w) = Z.of_nat (length (chain (in_range from to) (aw_logs w))).
Proof.
  intros HI Hmiss Hlen. pose proof (honest_pass w from to HI Hmiss Hlen) as Hb.
  destruct (one_pass_says (in_range from to) (ranges w) (aw_logs w)) as (Hc&_&He);
    [by apply chain_numbers_ok|done|]. destruct (He Hb) as [Hk _].
  split_and!; [by apply bool_decide_eq_true|done|done].
Qed.

(** ** Changed logs *)

(** What an event says, as the hash covers it. *)
Definition content (r : AuditLog) :=
  (al_createdAt r, al_action r, al_outcome r, al_severity r, al_actorType r,
   (al_entity r, al_entityId r, al_reason r)).
(** The text that is hashed. *)
Definition hash_text (s : Z) (r : AuditLog) : string :=
  stringify (hash_input s (al_prevHash r) (al_createdAt r) (al_action r)
    (outcome_str (al_outcome r)) (severity_str (al_severity r)) (actorType_str (al_actorType r))
    (al_entity r) (al_entityId r) (al_reason r)).

#[local] Instance outcome_str_inj : Inj (=) (=) outcome_str.
Proof. by intros [] []. Qed.
#[local] Instance severity_str_inj : Inj (=) (=) severity_str.
Proof. by intros [] []. Qed.
#[local] Instance actorType_str_inj : Inj (=) (=) actorType_str.
Proof. by intros [] []. Qed.
#[local] Instance str_or_null_inj : Inj (=) (=) str_or_null.
Proof. intros [] []; cbn; congruence. Qed.

Lemma hash_input_once s p t a o v y e i r : keys_once (hash_input s p t a o v y e i r).
Proof. cbn. destruct i, r; cbn; tauto. Qed.
Lemma hash_text_inj s r r' :
  printable (al_createdAt r) → printable (al_createdAt r') → hash_text s r = hash_text s r' →
  content r = content r' ∧ default "GENESIS" (al_prevHash r) = default "GENESIS" (al_prevHash r').
Proof.
  intros Hp Hp' E. apply stringify_inj in E; [|apply hash_input_once..].
  injection E as Eprev Etime Eaction Eout%(inj _) Esev%(inj _) Etype%(inj _) Eent Eid%(inj _) Ereason%(inj _).
  apply toISOString_inj in Etime; [|done..]. split; [|done].
  unfold content. by rewrite Etime, Eaction, Eout, Esev, Etype, Eent, Eid, Ereason.
Qed.

(** Neighbours in a linked list hang together. *)
Lemma linked_neighbours rs prev xs s a b :
  linked rs prev xs → StronglySorted strictly xs → (s, a) ∈ xs → (s + 1, b) ∈ xs →
  al_prevHash b = Some (row_hash s a).
Proof.
  revert prev. induction xs as [|x xs IH]; intros prev Hl Hs Ha Hb; [set_solver|].
  destruct Hl as (_&_&Hl). apply StronglySorted_inv in Hs as [Hs Hx]. rewrite Forall_forall in Hx.
  apply elem_of_cons in Ha as [<-|Ha], Hb as [Hb|Hb].
  - injection Hb. lia.
  - destruct xs as [|y xs]; [set_solver|]. destruct Hl as (_&Hf&_). cbn in Hf.
    apply StronglySorted_inv in Hs as [Hs Hy]. rewrite Forall_forall in Hy.
    assert (s < y.1) by (apply (Hx y); by left).
    apply elem_of_cons in Hb as [<-|Hb].
    + cbn in Hf. by destruct (decide _).
    + specialize (Hy _ Hb). unfold strictly in Hy. cbn in Hy. lia.
  - subst x. specialize (Hx _ Ha). unfold strictly in Hx. cbn in Hx. lia.
  - by eapply IH.
Qed.

Definition everything : AuditLog → bool := in_range None None.
Definition numbered_row (m : gmap string AuditLog) (s : Z) (r : AuditLog) : Prop :=
  al_seq r = Some s ∧ ∃ id, m !! id = Some r.
Lemma elem_of_everything m s r : (s, r) ∈ chain everything m ↔ numbered_row m s r.
Proof. rewrite elem_of_chain. unfold numbered_row. naive_solver. Qed.

(** The log as a whole verifies. *)
Record verifies (w : AuditW) : Prop := {
  vt_numbers : numbers_ok (aw_logs w);
  vt_short : Z.of_nat (length (chain everything (aw_logs w))) ≤ MAX_VERIFY_ROWS;
  vt_ok : ir_ok (report_of None None w) = true;
  vt_dates id r : aw_logs w !! id = Some r → printable (al_createdAt r);
}.

Lemma verified_linked w :
  verifies w → linked (ranges w) (anchored everything (aw_logs w)) (chain everything (aw_logs w)).
Proof.
  intros [Hm Hl Hok _]. apply bool_decide_eq_true in Hok.
  by apply (one_pass_says everything (ranges w) (aw_logs w)).
Qed.
Lemma linked_hash rs prev xs s r : linked rs prev xs → (s, r) ∈ xs → al_hash r = Some (row_hash s r).
Proof.
  revert prev. induction xs as [|x xs IH]; intros prev Hl Hin; [set_solver|].
  destruct Hl as (Hh&_&Hl). apply elem_of_cons in Hin as [<-|Hin]; [done|by eapply IH].
Qed.
Lemma no_anchor m : numbers_ok m → chain everything m = [] → anchored everything m = None.
Proof. intros _ E. unfold anchored. by rewrite E. Qed.
(** The head of the report is the hash of a row. *)
Lemma verified_head w s h :
  verifies w → ir_head (report_of None None w) = Some (s, h) →
  ∃ r, numbered_row (aw_logs w) s r ∧ row_hash s r = h.
Proof.
  intros [Hm Hl Hok _] Hh. apply bool_decide_eq_true in Hok.
  destruct (one_pass_says everything (ranges w) (aw_logs w) Hm Hl) as (_&_&He).
  destruct (He Hok) as [_ Hp].
  change (sc_prev (one_pass everything (merge_ranges (by_start (ranges w))) (aw_logs w))
          = Some (s, h)) in Hh. rewrite Hp in Hh.
  destruct (last (chain everything (aw_logs w))) as [x|] eqn:Hlast.
  - injection Hh as <- <-. exists x.2. split; [|done]. apply elem_of_everything.
    rewrite <- surjective_pairing, last_lookup in *. by eapply list_elem_of_lookup_2.
  - apply last_None in Hlast. cbn in Hh. by rewrite no_anchor in Hh.
Qed.

(** Two texts that differ and have one hash, in rows of this number. *)
Definition collision (w w' : AuditW) (q : Z) : Prop :=
  ∃ r r', numbered_row (aw_logs w) q r ∧ numbered_row (aw_logs w') q r' ∧
    hash_text q r ≠ hash_text q r' ∧ sha256_hex (hash_text q r) = sha256_hex (hash_text q r').

Lemma one_row m s r r' : numbers_ok m → numbered_row m s r → numbered_row m s r' → r = r'.
Proof. intros Hm (?&i&Hi) (?&j&Hj). assert (i = j) as -> by (by eapply (no_seq _ Hm)). congruence. Qed.

Lemma same_hash_back w w' s n b b' :
  verifies w → verifies w' → n ≤ s →
  numbered_row (aw_logs w) s b → numbered_row (aw_logs w') s b' → row_hash s b = row_hash s b' →
  (∀ q, n ≤ q ≤ s → (∃ r, numbered_row (aw_logs w) q r) ∧ ∃ r, numbered_row (aw_logs w') q r) →
  (∃ q, n ≤ q ≤ s ∧ collision w w' q) ∨
  ∀ r r', numbered_row (aw_logs w) n r → numbered_row (aw_logs w') n r' →
    row_hash n r = row_hash n r' ∧ content r = content r'.
Proof.
  intros Hv Hv' Hn Hb Hb' Eb Hall.
  assert (Hstep : ∀ q r r', numbered_row (aw_logs w) q r → numbered_row (aw_logs w') q r' →
    row_hash q r = row_hash q r' → collision w w' q ∨ content r = content r' ∧
      default "GENESIS" (al_prevHash r) = default "GENESIS" (al_prevHash r')).
  { intros q r r' Hr Hr' E. destruct (decide (hash_text q r = hash_text q r')) as [Et|Hne].
    - right. destruct Hr as (_&i&Hi), Hr' as (_&j&Hj).
      apply (hash_text_inj q); [by apply (vt_dates w Hv i)|by apply (vt_dates w' Hv' j)|done].
    - left. by exists r, r'. }
  assert (Hback : ∀ k : nat, n ≤ s - Z.of_nat k →
    (∃ q, n ≤ q ≤ s ∧ collision w w' q) ∨
    ∀ r r', numbered_row (aw_logs w) (s - Z.of_nat k) r → numbered_row (aw_logs w') (s - Z.of_nat k) r' →
      row_hash (s - Z.of_nat k) r = row_hash (s - Z.of_nat k) r').
  { induction k as [|k IH]; intros Hk.
    - right. intros r r' Hr Hr'. rewrite Z.sub_0_r in *.
      rewrite (one_row _ _ _ _ (vt_numbers _ Hv) Hr Hb).
      by rewrite (one_row _ _ _ _ (vt_numbers _ Hv') Hr' Hb').
    - destruct IH as [?|IH]; [lia|by left|].
      set (q := s - Z.of_nat (S k)) in *.
      assert (s - Z.of_nat k = q + 1) as Eq by lia. rewrite Eq in IH.
      destruct (Hall (q + 1)) as [[a Ha] [a' Ha']]; [lia|].
      destruct (Hstep (q + 1) a a' Ha Ha' (IH a a' Ha Ha')) as [Hc|[_ Ep]].
      { left. exists (q + 1). split; [lia|done]. }
      right. intros r r' Hr Hr'.
      rewrite <- elem_of_everything in Ha, Ha', Hr, Hr'.
      rewrite (linked_neighbours _ _ _ q r a (verified_linked _ Hv)) in Ep
        by (try done; by apply chain_strict, (vt_numbers w)).
      rewrite (linked_neighbours _ _ _ q r' a' (verified_linked _ Hv')) in Ep
        by (try done; by apply chain_strict, (vt_numbers w')).
      done. }
  destruct (Hback (Z.to_nat (s - n))) as [?|Hh]; [lia|by left|].
  replace (s - Z.of_nat (Z.to_nat (s - n))) with n in Hh by lia.
  destruct (Hall n) as [[a Ha] [a' Ha']]; [lia|].
  destruct (Hstep n a a' Ha Ha' (Hh a a' Ha Ha')) as [Hc|[Ec _]].
  { left. exists n. split; [lia|done]. }
  right. intros r r' Hr Hr'. split; [by apply Hh|].
  by rewrite (one_row _ _ _ _ (vt_numbers _ Hv) Hr Ha), (one_row _ _ _ _ (vt_numbers _ Hv') Hr' Ha').
Qed.

(** C16: A report gave a head: a number and a hash. Where a log that verifies later still has
    that number with that hash, its events say what they said at the time of the report,
    back to where a number is missing; or two different texts with one hash are at hand
    in rows of one number. *)
Theorem tampering_shows w w' s h n r r' last' :
  verifies w → verifies w' → ir_head (report_of None None w) = Some (s, h) →
  numbered_row (aw_logs w') s last' → al_hash last' = Some h → n ≤ s →
  (∀ q, n ≤ q ≤ s → (∃ r, numbered_row (aw_logs w) q r) ∧ ∃ r, numbered_row (aw_logs w') q r) →
  numbered_row (aw_logs w) n r → numbered_row (aw_logs w') n r' →
  content r = content r' ∨ ∃ q, n ≤ q ≤ s ∧ collision w w' q.
Proof.
  intros Hv Hv' Hhead Hlast Hhash Hn Hall Hr Hr'.
  destruct (verified_head _ _ _ Hv Hhead) as (b&Hb&<-).
  assert (row_hash s b = row_hash s last') as Eb.
  { pose proof (linked_hash _ _ _ s last' (verified_linked _ Hv')) as Hh.
    rewrite elem_of_everything in Hh. specialize (Hh Hlast). congruence. }
  destruct (same_hash_back w w' s n b last' Hv Hv' Hn Hb Hlast Eb Hall) as [?|Hs]; [by right|].
  left. by apply Hs.
Qed.
End tamper.

(** ** Witnesses *)

Lemma explained_exact_witness :
  explainedByPurge (merge_ranges (by_start [(5, 9); (1, 4)])) 2 8 = true.
Proof.
  apply (explained_exact [(5, 9); (1, 4)] 2 8); [lia|].
  intros s Hs. destruct (Z.le_gt_cases s 4); [exists (1, 4)|exists (5, 9)]; cbn; (split; [set_solver|lia]).
Defined.

Lemma verification_exact_witness :
  is_ok (run (verifyIntegrity None (Some "1970-01-03T00:00:00.000Z") None (person "s1") MANUAL)
           held_event).1 = true.
Proof.
  rewrite (verification_exact None (Some "1970-01-03T00:00:00.000Z") None (Some (2 * DAY_MS)) None
    (person "s1") MANUAL held_event
    (chain_numbers_ok _ (av_chain _ _ (held_event_inv None)))).
  - vm_compute. reflexivity.
  - vm_compute. reflexivity.
  - reflexivity.
  - intros f t _ Ht. discriminate Ht.
Defined.

(** Of the events before the fourth day, "B" was on hold when the purge ran. *)
Definition fourth_day : string := toISOString (4 * DAY_MS).
Definition fourth_preview := run (previewPurge demo_cfg None fourth_day (person "s1")) held_event.
Definition fourth_dto : PurgeDto :=
  {| pd_olderThan := fourth_day; pd_reason := "policy";
     pd_confirmToken := match fourth_preview.1 with Ok p => pv_confirmToken p | Err _ => "" end |}.
Definition purged_log : AuditW :=
  (run (purgeOlderThan demo_cfg None fourth_dto (person "s1")) fourth_preview.2).2.
Lemma purged_log_chain : chain_ok purged_log.
Proof.
  pose proof (audit_rel_preorder None).
  assert (audit_inv None fourth_preview.2) as HI.
  { by destruct (rg_run _ _ _ _ _ held_event (held_event_inv None)
      (ok_previewPurge None demo_cfg None fourth_day (person "s1") held_event)). }
  by destruct (rg_run _ _ _ _ _ _ HI (ok_purgeOlderThan None demo_cfg None fourth_dto (person "s1") _))
    as [[]].
Qed.

Lemma seq_among (m : gmap string AuditLog) (ns : list Z) i r s :
  forallb (λ kv, match al_seq kv.2 with Some n => bool_decide (n ∈ ns) | None => true end)
    (map_to_list m) = true →
  m !! i = Some r → al_seq r = Some s → s ∈ ns.
Proof.
  intros Hall Hi Hs. rewrite forallb_forall in Hall.
  specialize (Hall (i, r)). cbn in Hall. rewrite Hs in Hall.
  eapply bool_decide_eq_true_1, Hall, list_elem_of_In. by apply elem_of_map_to_list.
Qed.
Lemma seq_there (m : gmap string AuditLog) (ns : list Z) q :
  forallb (λ n, existsb (λ kv, bool_decide (al_seq kv.2 = Some n)) (map_to_list m)) ns = true →
  q ∈ ns → ∃ i r, m !! i = Some r ∧ al_seq r = Some q.
Proof.
  intros Hall Hq. rewrite forallb_forall in Hall. apply list_elem_of_In in Hq.
  specialize (Hall q Hq). apply existsb_exists in Hall as ([i r]&Hin&Hs%bool_decide_eq_true).
  exists i, r. split; [|done]. apply elem_of_map_to_list. by apply list_elem_of_In.
Qed.

Lemma honest_log_verifies_witness : ir_ok (report_of None None purged_log) = true.
Proof.
  refine (proj1 (honest_log_verifies purged_log None None purged_log_chain _ _)).
  - intros q ((i&r&s&Hi&Hs&Hlt)&(j&r'&s'&Hj&Hs'&Hgt)&Hnone).
    apply (seq_among (aw_logs purged_log) [2; 4; 5; 6] i r s) in Hs; [|vm_compute; reflexivity|exact Hi].
    apply (seq_among (aw_logs purged_log) [2; 4; 5; 6] j r' s') in Hs'; [|vm_compute; reflexivity|exact Hj].
    destruct (decide (q ∈ [2; 4; 5; 6])) as [Hin|Hout].
    + exfalso. destruct (seq_there (aw_logs purged_log) [2; 4; 5; 6] q) as (k&x&Hk&Hx);
        [vm_compute; reflexivity|exact Hin|]. by apply (Hnone k x Hk).
    + exists (1, 3). rewrite !elem_of_cons, elem_of_nil in Hs, Hs', Hout.
      split; [|unfold in_range_of; cbn; lia].
      assert (ranges purged_log = [(1, 3)]) as -> by (vm_compute; reflexivity). left.
  - vm_compute. discriminate.
Defined.

Lemma dates_ok (m : gmap string AuditLog) :
  forallb (λ kv, (-62167219200000 <=? al_createdAt kv.2) && (al_createdAt kv.2 <=? 253402300799999))
    (map_to_list m) = true →
  ∀ id r, m !! id = Some r → printable (al_createdAt r).
Proof.
  intros Hall id r Hid. rewrite forallb_forall in Hall. specialize (Hall (id, r)). cbn in Hall.
  unfold printable. rewrite <- !Z.leb_le, <- andb_true_iff.
  apply Hall, list_elem_of_In. by apply elem_of_map_to_list.
Qed.
(** The head of the three events, and the same log four events later. *)
Definition third_hash : string :=
  match ir_head (report_of None None three_events) with Some (_, h) => h | None => "" end.
Definition row_at (w : AuditW) (id : string) : AuditLog :=
  default (audit_row None (event "") "" 0 0 None "") (aw_logs w !! id).
Lemma three_events_verifies : verifies three_events.
Proof.
  split; [apply chain_numbers_ok, three_events_inv; exact None|vm_compute; discriminate
    |vm_compute; reflexivity|apply dates_ok; vm_compute; reflexivity].
Qed.
Lemma held_event_verifies : verifies held_event.
Proof.
  split; [apply chain_numbers_ok, held_event_inv; exact None|vm_compute; discriminate
    |vm_compute; reflexivity|apply dates_ok; vm_compute; reflexivity].
Qed.
Lemma tampering_shows_witness :
  content (row_at three_events (aud_unary 0)) = content (row_at held_event (aud_unary 0)) ∨
  ∃ q, 1 ≤ q ≤ 3 ∧ collision three_events held_event q.
Proof.
  apply (tampering_shows three_events held_event 3 third_hash 1 _ _ (row_at held_event (aud_unary 2))
    three_events_verifies held_event_verifies).
  - vm_compute. reflexivity.
  - split; [vm_compute; reflexivity|]. exists (aud_unary 2). vm_compute. reflexivity.
  - vm_compute. reflexivity.
  - lia.
  - intros q Hq. assert (q ∈ [1; 2; 3]) as Hin by (rewrite !elem_of_cons, elem_of_nil; lia). split.
    + destruct (seq_there (aw_logs three_events) [1; 2; 3] q) as (k&x&?&?);
        [vm_compute; reflexivity|exact Hin|]. exists x. split; [done|by exists k].
    + destruct (seq_there (aw_logs held_event) [1; 2; 3] q) as (k&x&?&?);
        [vm_compute; reflexivity|exact Hin|]. exists x. split; [done|by exists k].
  - split; [vm_compute; reflexivity|]. exists (aud_unary 0). vm_compute. reflexivity.
  - split; [vm_compute; reflexivity|]. exists (aud_unary 0). vm_compute. reflexivity.
Defined.

(** A row that was changed, and one that was taken out, are found; the first rows and the
    last ones can be taken out unnoticed. *)
Definition without (id : string) (w : AuditW) : AuditW := w{{aw_logs ::= delete id}}.
Definition rewritten (w : AuditW) : AuditW :=
  w{{aw_logs ::= alter (λ r, r{{al_action := "X"}}) (aud_unary 1)}}.
Example changes_found :
  (ib_reason <$> ir_firstBreak (report_of None None (rewritten three_events))) = Some hash_mismatch ∧
  (ib_reason <$> ir_firstBreak (report_of None None (without (aud_unary 1) three_events)))
    = Some rows_missing.
Proof. vm_compute. auto. Qed.
Example ends_not_found :
  ir_ok (report_of None None (without (aud_unary 0) three_events)) = true ∧
  ir_ok (report_of None None (without (aud_unary 2) three_events)) = true.
Proof. vm_compute. auto. Qed.
(** The range of a purge explains the loss of the row that it had to leave. *)
Example held_row_loss_explained : ir_ok (report_of None None (without the_row purged_log)) = true.
Proof. vm_compute. reflexivity. Qed.
