(* ===== verification/AuditArchive.v ===== *)
(** * Purges that run alone

    What a purge leaves when no other handler runs at the same time: every row it
    deletes is in an archive that the storage confirmed, whatever the storage and the
    database refuse on the way; and when they refuse nothing, it deletes what is older
    than the cutoff and not on hold, and nothing else. *)

From S2P Require Import Prelude Interleave Js Json JsDate Roles AuditRedaction.
From S2P Require Import AuditModel AuditChain AuditPurge AuditHold AuditSafety AuditTrust AuditProps.
From S2P Require Import AuditProps AuditVerify.
From stdpp Require Import sorting.
From coqutil Require Import Datatypes.RecordSetters.
Import DoubleBraceUpdate.

Open Scope Z_scope.

(** ** A program that runs alone *)

Section wp.
Context {W : Type}.

Definition wp {A} (p : prog W A) (Q : outcome A → W → Prop) (w : W) : Prop :=
  Q (run p w).1 (run p w).2.

Lemma wp_mono {A} (p : prog W A) (Q Q' : outcome A → W → Prop) w :
  wp p Q w → (∀ r w', Q r w' → Q' r w') → wp p Q' w.
Proof. unfold wp. auto. Qed.
Lemma wp_bind {A B} (f : A → prog W B) (p : prog W A) (Q : outcome B → W → Prop) w :
  wp p (λ r w', match r with Ok a => wp (f a) Q w' | Err e => Q (Err e) w' end) w →
  wp (p ≫= f) Q w.
Proof. unfold wp. rewrite run_bind. by destruct (run p w) as [[a|e] w']. Qed.
Lemma wp_catch {A} (p : prog W A) h (Q : outcome A → W → Prop) w :
  wp p (λ r w', match r with Ok a => Q (Ok a) w' | Err e => wp (h e) Q w' end) w →
  wp (catch p h) Q w.
Proof. unfold wp. rewrite run_catch. by destruct (run p w) as [[a|e] w']. Qed.
Lemma wp_attempt {A} (p : prog W A) (Q : outcome (outcome A) → W → Prop) w :
  wp p (λ r w', Q (Ok r) w') w → wp (attempt p) Q w.
Proof. unfold wp. by rewrite run_attempt. Qed.
Lemma wp_mret {A} (a : A) (Q : outcome A → W → Prop) w : Q (Ok a) w → wp (mret a) Q w.
Proof. done. Qed.
Lemma wp_throw {A} e (Q : outcome A → W → Prop) w : Q (Err e) w → wp (Throw e) Q w.
Proof. done. Qed.
Lemma wp_gets {X} (f : W → X) (Q : outcome X → W → Prop) w : Q (Ok (f w)) w → wp (gets f) Q w.
Proof. done. Qed.
Lemma wp_act {X} (f : W → X * W) (Q : outcome X → W → Prop) w :
  Q (Ok (f w).1) (f w).2 → wp (act f) Q w.
Proof. unfold wp. by rewrite run_act. Qed.
Lemma wp_act_outcome {X} (f : W → outcome X * W) (Q : outcome X → W → Prop) w :
  Q (f w).1 (f w).2 → wp (act_outcome f) Q w.
Proof. unfold wp. by rewrite run_act_outcome. Qed.

(** What a step keeps, in sequence. *)
Definition keeps (R : relation W) {A} (p : prog W A) : Prop := ∀ w, R w (run p w).2.
Lemma keeps_bind R `{!PreOrder R} {A B} (f : A → prog W B) (p : prog W A) :
  keeps R p → (∀ a, keeps R (f a)) → keeps R (p ≫= f).
Proof.
  intros Hp Hf w. rewrite run_bind. specialize (Hp w).
  destruct (run p w) as [[a|e] w']; [|done]. etrans; [exact Hp|apply Hf].
Qed.
Lemma keeps_catch R `{!PreOrder R} {A} (p : prog W A) h :
  keeps R p → (∀ e, keeps R (h e)) → keeps R (catch p h).
Proof.
  intros Hp Hh w. rewrite run_catch. specialize (Hp w).
  destruct (run p w) as [[a|e] w']; [done|]. etrans; [exact Hp|apply Hh].
Qed.
Lemma keeps_act R {X} (f : W → X * W) : (∀ w, R w (f w).2) → keeps R (act f).
Proof. intros Hf w. by rewrite run_act. Qed.
Lemma keeps_act_outcome R {X} (f : W → outcome X * W) : (∀ w, R w (f w).2) → keeps R (act_outcome f).
Proof. intros Hf w. by rewrite run_act_outcome. Qed.
Lemma keeps_for_each R `{!PreOrder R} {A} (f : A → prog W ()) xs :
  (∀ x, keeps R (f x)) → keeps R (for_each f xs).
Proof.
  intros Hf. induction xs as [|x xs IH]; [by intros w|]. cbn. by apply keeps_bind.
Qed.
Lemma keeps_still R `{!PreOrder R} {A} (p : prog W A) : (∀ w, (run p w).2 = w) → keeps R p.
Proof. intros Hp w. by rewrite Hp. Qed.
End wp.

(** ** The storage *)

(** Outside these keys nothing changes but the storage's mood. *)
Definition same_but_objects (keys : list string) (w w' : AuditW) : Prop :=
  w' = w{{aw_objects := aw_objects w'; aw_faults := aw_faults w'}} ∧
  (∀ k, k ∉ keys → aw_objects w' !! k = aw_objects w !! k) ∧
  (aw_faults w = [] → aw_faults w' = []).
#[export] Instance same_but_objects_preorder keys : PreOrder (same_but_objects keys).
Proof.
  split; [by intros []|]. intros w1 w2 w3 (E1&H1&F1) (E2&H2&F2).
  split_and!; [|intros k Hk; by rewrite H2, H1|auto]. rewrite E2, E1. by destruct w1.
Qed.
Lemma same_but_objects_weaken keys keys' w w' :
  keys ⊆ keys' → same_but_objects keys w w' → same_but_objects keys' w w'.
Proof. intros Hk (E&Ho&F). split_and!; [done| |done]. intros k Hn. apply Ho. set_solver. Qed.

Ltac storage_step :=
  intros w; destruct w as [? ? ? ? ? ? ? ? ? ? [|[|[] ?|?] ?] ? ? ? ? ? ?];
  repeat split; cbn; try done; intros k Hk; first [done
    |rewrite lookup_insert_ne; [done|set_solver]|rewrite lookup_delete_ne; [done|set_solver]].

Lemma keeps_ensureBucket keys : keeps (same_but_objects keys) ensureBucket.
Proof. apply keeps_act_outcome. storage_step. Qed.
Lemma keeps_uploadFile key body : keeps (same_but_objects [key]) (uploadFile key body).
Proof. apply keeps_act_outcome. storage_step. Qed.
Lemma keeps_deleteFile key : keeps (same_but_objects [key]) (deleteFile key).
Proof. apply keeps_act_outcome. storage_step. Qed.
Lemma keeps_statObject keys key : keeps (same_but_objects keys) (statObject key).
Proof.
  apply keeps_act_outcome. intros w. unfold hd, tail. cbn.
  destruct w as [? ? ? ? ? ? ? ? ? o [|[|[] ?|?] ?] ? ? ? ? ? ?]; cbn;
    try (destruct (o !! key)); repeat split; cbn; done.
Qed.
Lemma keeps_putVerified key body : keeps (same_but_objects [key]) (putVerified key body).
Proof.
  unfold putVerified. apply keeps_bind; [apply _|apply keeps_uploadFile|intros _].
  apply keeps_bind; [apply _|apply keeps_statObject|intros n].
  apply keeps_still; [apply _|]. intros w. by rewrite run_throw_if.
Qed.

Lemma str_take_all n s : String.length (str_take n s) = String.length s → str_take n s = s.
Proof.
  revert s. induction n as [|n IH]; intros [|c s]; cbn; intros E; [done..|]. f_equal. apply IH. lia.
Qed.

(** What was confirmed is what was sent. *)
Lemma wp_putVerified key body w :
  wp (putVerified key body) (λ r w',
    same_but_objects [key] w w' ∧ (aw_faults w = [] → r = Ok ()) ∧
    (r = Ok () → aw_objects w' !! key = Some body)) w.
Proof.
  assert (same_but_objects [key] w (run (putVerified key body) w).2) as Hs
    by apply keeps_putVerified.
  unfold wp. split; [exact Hs|]. clear Hs. unfold putVerified, uploadFile, statObject, minio.
  rewrite run_bind, run_act_outcome.
  destruct w as [? ? ? ? ? ? ? ? ? o fs ? ? ? ? ? ?]; cbn.
  destruct fs as [|[|[] ?|n] fs]; cbn.
  - rewrite run_bind, run_act_outcome. cbn. rewrite lookup_insert_eq. cbn.
    rewrite run_throw_if, Nat.eqb_refl. cbn. split; [done|]. intros _. apply lookup_insert_eq.
  - rewrite run_bind, run_act_outcome. cbn. split; [done|].
    destruct fs as [|[|[] ?|?] fs]; cbn; rewrite ?lookup_insert_eq; cbn; try done;
      rewrite run_throw_if, Nat.eqb_refl; cbn; intros _; apply lookup_insert_eq.
  - by split.
  - by split.
  - rewrite run_bind, run_act_outcome. cbn. split; [done|].
    destruct fs as [|[|[] ?|?] fs]; cbn; rewrite ?lookup_insert_eq; cbn; try done;
      rewrite run_throw_if; destruct (Nat.eqb_spec (String.length (str_take n body)) (String.length body))
        as [E|]; cbn; try done; intros _; rewrite lookup_insert_eq; f_equal; by apply str_take_all.
Qed.

(** ** The keys of the parts *)

Definition key_of (prefix : string) (n : nat) : string :=
  prefix +:+ "/part-" +:+ padStart 5 "0" (str_of_Z (Z.of_nat n + 1)) +:+ ".ndjson.gz".

Lemma drop_zeros k n rest :
  drop_while (λ c, bool_decide (c = "0"%char)) (padStart k "0" (str_of_Z (Z.of_nat n + 1)) +:+ rest) =
  str_of_Z (Z.of_nat n + 1) +:+ rest.
Proof.
  unfold padStart, str_of_Z. set (m := (k - _)%nat). clearbody m.
  destruct (pretty_go_digits (N.of_nat n + 1) "") as (c&t&E&_&Hc&_); [lia|].
  assert (pretty (Z.of_nat n + 1) = Str c (t +:+ "")) as ->.
  { replace (Z.of_nat n + 1) with (Z.of_N (N.of_nat n + 1)) by lia.
    destruct (N.of_nat n + 1)%N as [|p] eqn:Hp; [lia|]. exact E. }
  set (f := λ c, bool_decide _).
  assert (Hf : ∀ a s, drop_while f (Str a s) = if f a then drop_while f s else Str a s) by done.
  induction m as [|m IH].
  - change (drop_while f (Str c ((t +:+ "") +:+ rest)) = Str c (t +:+ "") +:+ rest).
    rewrite Hf. unfold f. by rewrite bool_decide_eq_false_2.
  - change (drop_while f (Str "0" ((Js.repeat "0" m +:+ Str c (t +:+ "")) +:+ rest)) =
      Str c (t +:+ "") +:+ rest).
    by rewrite Hf.
Qed.
Lemma key_of_inj prefix n m : key_of prefix n = key_of prefix m → n = m.
Proof.
  unfold key_of. intros E%(inj (String.app prefix))%(inj (String.app "/part-")).
  apply (f_equal (drop_while (λ c, bool_decide (c = "0"%char)))) in E. rewrite !drop_zeros in E.
  apply (f_equal parse_number) in E.
  rewrite !parse_number_pretty in E by done. injection E. lia.
Qed.
Lemma manifest_no_part prefix n : prefix +:+ "/manifest.json" ≠ key_of prefix n.
Proof. unfold key_of. intros E%(inj (String.app prefix)). discriminate E. Qed.

(** Nothing but the storage changes. *)
Definition only_storage (w w' : AuditW) : Prop :=
  w' = w{{aw_objects := aw_objects w'; aw_faults := aw_faults w'}} ∧
  (aw_faults w = [] → aw_faults w' = []).
#[export] Instance only_storage_preorder : PreOrder only_storage.
Proof.
  split; [by intros []|]. intros w1 w2 w3 (E1&F1) (E2&F2).
  split; [|auto]. rewrite E2, E1. by destruct w1.
Qed.
Lemma same_but_objects_storage keys w w' : same_but_objects keys w w' → only_storage w w'.
Proof. by intros (E&_&F). Qed.
Lemma only_storage_logs w w' : only_storage w w' → aw_logs w' = aw_logs w.
Proof. intros [-> _]. by destruct w. Qed.

(** The order of the database on identifiers. *)
Record id_order `{AuditLib} : Prop := {
  io_total a b : id_before a b = true ∨ id_before b a = true;
  io_trans a b c : id_before a b = true → id_before b c = true → id_before a c = true;
  io_antisymm a b : id_before a b = true → id_before b a = true → a = b;
}.

Section alone.
Context `{AuditLib} `{!Inj (=) (=) aud_uuid} (Hord : id_order).

Definition id_le : relation AuditLog := goes_before (λ a b, id_before (al_id a) (al_id b)).
#[local] Instance id_le_total : Total id_le.
Proof. intros a b. apply io_total, Hord. Qed.
#[local] Instance id_le_trans : Transitive id_le.
Proof. intros a b c. apply io_trans, Hord. Qed.

Definition matching (P : AuditLog → bool) (m : gmap string AuditLog) : list AuditLog := by_id (rows P m).
Lemma elem_of_log_matching P m r : r ∈ matching P m ↔ P r = true ∧ ∃ id, m !! id = Some r.
Proof. unfold matching, by_id. rewrite merge_sort_Permutation. apply elem_of_log_rows. Qed.
Lemma matching_sorted P m : StronglySorted id_le (matching P m).
Proof. apply StronglySorted_merge_sort; apply _. Qed.
Lemma matching_NoDup P m : numbers_ok m → NoDup (al_id <$> matching P m).
Proof.
  intros Hm. apply NoDup_fmap_2_strong.
  - intros x y (_&i&Hi)%elem_of_log_matching (_&j&Hj)%elem_of_log_matching E.
    rewrite (no_ids _ Hm i x Hi), (no_ids _ Hm j y Hj) in E. congruence.
  - unfold matching, by_id. rewrite merge_sort_Permutation. by apply rows_NoDup.
Qed.

(** The page after the last row of a first part. *)
Lemma page_after P n front rest w :
  numbers_ok (aw_logs w) → matching P (aw_logs w) = front ++ rest →
  page P n (al_id <$> last front) w = take n rest.
Proof.
  intros Hm Hsplit. unfold page. fold (matching P (aw_logs w)). rewrite Hsplit.
  destruct (last front) as [c|] eqn:Hl; cbn.
  2:{ by apply last_None in Hl as ->. }
  assert (c ∈ front) as Hc by (rewrite last_lookup in Hl; by eapply list_elem_of_lookup_2).
  pose proof (matching_sorted P (aw_logs w)) as Hs. pose proof (matching_NoDup P (aw_logs w) Hm) as Hnd.
  rewrite Hsplit in Hs, Hnd. rewrite fmap_app in Hnd.
  apply NoDup_app in Hnd as (_&Hapart&_).
  rewrite bool_decide_eq_true_2 by (apply list_elem_of_fmap; exists c; set_solver).
  rewrite filter_app, (list_filter_none _ front), (list_filter_all _ rest); [done|..].
  - intros x Hx. split.
    + intros E. apply (Hapart (al_id c)); [by apply list_elem_of_fmap_2|].
      rewrite <- E. by apply list_elem_of_fmap_2.
    + by apply (StronglySorted_app_1_elem_of _ _ _ _ _ Hs).
  - intros x Hx [Hne Hb]. apply StronglySorted_app_1_l in Hs.
    destruct (last_greatest _ _ _ _ Hs Hl Hx) as [->|Hle]; [done|].
    apply Hne. by apply (io_antisymm Hord).
Qed.

(** ** Writing the archive *)

(** The parts written so far, as the storage has them. *)
Record writing (prefix : string) (wr : Writer) (ps : list (list AuditLog)) (w : AuditW) : Prop := {
  wg_prefix : wr_prefix wr = prefix;
  wg_length : length (wr_parts wr) = length ps;
  wg_stored i rs : ps !! i = Some rs → aw_objects w !! key_of prefix i = Some (part_body rs);
}.

Lemma wp_writer_write prefix wr ps rs w :
  rs ≠ [] → writing prefix wr ps w →
  wp (writer_write wr rs) (λ r w', ∃ wr' o, r = Ok (wr', o) ∧ wr_prefix wr' = prefix ∧
    only_storage w w' ∧ (aw_faults w = [] → o = Ok ()) ∧
    (o = Ok () → writing prefix wr' (ps ++ [rs]) w')) w.
Proof.
  intros Hne [Hp Hl Hs]. unfold writer_write. destruct rs as [|r0 rs0]; [done|].
  set (rs := r0 :: rs0) in *. cbv zeta.
  assert (part_key wr = key_of prefix (length ps)) as Hkey.
  { unfold part_key, key_of. by rewrite Hp, Hl. }
  set (wr' := wr{{wr_parts ::= _; wr_totalRows ::= _}}).
  apply wp_bind, wp_attempt. eapply wp_mono; [apply wp_putVerified|].
  intros o w' (Hsame&Hf&Hput). apply wp_mret. exists wr', o.
  split_and!; [done|done|by eapply same_but_objects_storage|done|].
  intros Ho. specialize (Hput Ho). rewrite Hkey in Hput, Hsame. split.
  - done.
  - change (wr_parts wr') with (wr_parts wr ++ [{| pt_key := part_key wr;
      pt_rows := Z.of_nat (length rs); pt_bytes := Z.of_nat (String.length (part_body rs));
      pt_sha256 := sha256_hex (part_body rs) |}]). rewrite !length_app. cbn. lia.
  - intros i q Hi. destruct Hsame as (_&Hother&_).
    destruct (decide (i = length ps)) as [->|Hni].
    + rewrite list_lookup_middle in Hi by done. by injection Hi as <-.
    + pose proof (lookup_lt_Some _ _ _ Hi) as Hlt. rewrite length_app in Hlt. cbn in Hlt.
      rewrite lookup_app_l in Hi by lia. rewrite Hother; [by apply Hs|].
      intros E%list_elem_of_singleton%key_of_inj. done.
Qed.

(** The numbers of these rows are in the range. *)
Definition spans (lo hi : option Z) (rs : list AuditLog) : Prop :=
  ∀ r s, r ∈ rs → al_seq r = Some s → ∃ l h, lo = Some l ∧ hi = Some h ∧ l ≤ s ≤ h.

Lemma spans_widen a front r :
  spans (ar_minSeq a) (ar_maxSeq a) front →
  spans (ar_minSeq (widen a r)) (ar_maxSeq (widen a r)) (front ++ [r]).
Proof.
  intros Hs x s Hx Hseq. unfold widen. destruct a as [wr n lo hi]. cbn in Hs.
  apply elem_of_app in Hx as [Hx| ->%list_elem_of_singleton].
  - destruct (Hs x s Hx Hseq) as (l&h&->&->&?). destruct (al_seq r) as [t|]; cbn.
    + eexists _, _. split_and!; [done|done|lia|lia].
    + by eexists _, _.
  - rewrite Hseq. cbn. destruct lo, hi; eexists _, _; (split_and!; [done|done|lia|lia]).
Qed.
Lemma widen_all a front rs :
  spans (ar_minSeq a) (ar_maxSeq a) front →
  let a' := foldl widen a rs in
  spans (ar_minSeq a') (ar_maxSeq a') (front ++ rs) ∧ ar_writer a' = ar_writer a ∧
  ar_count a' = ar_count a.
Proof.
  revert a front. induction rs as [|r rs IH]; intros a front Hs; cbn.
  - by rewrite app_nil_r.
  - destruct (IH (widen a r) (front ++ [r])) as (H1&H2&H3); [by apply spans_widen|].
    rewrite <- app_assoc in H1. split_and!; [exact H1| |].
    + rewrite H2. unfold widen. by destruct (al_seq r), a.
    + rewrite H3. unfold widen. by destruct (al_seq r), a.
Qed.

Lemma page_cons {A} (x : A) xs : ∃ ys, take PURGE_BATCH (x :: xs) = x :: ys.
Proof. by eexists. Qed.

(** The archive holds these rows. *)
Record archived (prefix : string) (a : Archiving) (rs : list AuditLog) (w : AuditW) : Prop := {
  av_parts : ∃ ps, concat ps = rs ∧ writing prefix (ar_writer a) ps w;
  av_count : ar_count a = Z.of_nat (length rs);
  av_span : spans (ar_minSeq a) (ar_maxSeq a) rs;
}.

Lemma wp_archive_loop fuel cutoff prefix front rest a w :
  numbers_ok (aw_logs w) → matching (purgeable cutoff) (aw_logs w) = front ++ rest →
  archived prefix a front w → (length rest < fuel)%nat →
  wp (archive_loop fuel cutoff (al_id <$> last front) a) (λ r w', ∃ a' o, r = Ok (a', o) ∧
    only_storage w w' ∧ wr_prefix (ar_writer a') = prefix ∧ (aw_faults w = [] → o = Ok ()) ∧
    (o = Ok () → archived prefix a' (front ++ rest) w')) w.
Proof.
  revert front rest a w. induction fuel as [|fuel IH]; intros front rest a w Hm Hsplit Ha Hfuel; [lia|].
  cbn [archive_loop]. apply wp_bind, wp_gets. rewrite (page_after _ _ _ _ _ Hm Hsplit).
  destruct Ha as [(ps&Hps&Hw) Hcount Hspan]. destruct rest as [|r rest].
  { apply wp_mret. exists a, (Ok ()). split_and!; [done|done|apply Hw|done|].
    intros _. rewrite app_nil_r. split; [by exists ps|done..]. }
  destruct (page_cons r rest) as [ys Hys]. rewrite Hys.
  destruct (last (r :: ys)) as [final|] eqn:Hl; [|by apply last_None in Hl].
  apply wp_bind. eapply wp_mono; [by apply (wp_writer_write prefix _ ps (r :: ys))|].
  intros o w1 (wr&o1&->&Hpre&Hst&Hf&Hwr). cbv beta iota.
  destruct o1 as [[]|e].
  2:{ apply wp_mret. eexists _, (Err e). split_and!; [done|done|done|exact Hf|done]. }
  specialize (Hwr eq_refl).
  set (a1 := (a{{ar_writer := wr}}){{ar_count ::= _}}).
  destruct (widen_all a1 front (r :: ys)) as (Hspan'&Hwriter&Hcnt); [exact Hspan|].
  cbv zeta in Hspan', Hwriter, Hcnt. set (a2 := foldl widen a1 (r :: ys)) in *.
  change (ar_writer a1) with wr in Hwriter.
  assert (Hlogs : aw_logs w1 = aw_logs w) by by apply only_storage_logs.
  assert (Some (al_id final) = al_id <$> last (front ++ r :: ys)) as -> by by rewrite last_app, Hl.
  assert (front ++ r :: rest = (front ++ r :: ys) ++ drop PURGE_BATCH (r :: rest)) as Hall.
  { by rewrite <- app_assoc, <- Hys, take_drop. }
  eapply wp_mono; [apply (IH (front ++ r :: ys) (drop PURGE_BATCH (r :: rest)))|].
  - by rewrite Hlogs.
  - by rewrite Hlogs, Hsplit.
  - split; [exists (ps ++ [r :: ys])|..|exact Hspan'].
    + rewrite concat_app, Hps. cbn. rewrite app_nil_r. split; [done|].
      change (writing prefix (ar_writer a2) (ps ++ [r :: ys]) w1). by rewrite Hwriter.
    + change (ar_count a2 = Z.of_nat (length (front ++ r :: ys))). rewrite Hcnt. change (ar_count a1) with (Z.of_nat (length (r :: ys)) + ar_count a).
      rewrite Hcount, length_app. lia.
  - rewrite length_drop. change PURGE_BATCH with (S 4999). cbn [length] in *. lia.
  - intros o w2 (a'&o2&->&Hst2&Hpre2&Hf2&Hdone). exists a', o2.
    split_and!; [done|by etrans|done| |by rewrite Hall].
    intros Hnil. apply Hf2. by apply Hst.
Qed.

(** Each of these rows is in an object of the storage. *)
Definition kept_in (rs : list AuditLog) (w : AuditW) : Prop :=
  ∀ r, r ∈ rs → ∃ key part, aw_objects w !! key = Some (part_body part) ∧ r ∈ part.
Lemma writing_kept prefix wr ps w : writing prefix wr ps w → kept_in (concat ps) w.
Proof.
  intros [_ _ Hs] r Hr. apply list_elem_of_In, in_concat in Hr as (part&Hpart&Hr).
  apply list_elem_of_In in Hpart, Hr. apply list_elem_of_lookup in Hpart as [i Hi].
  exists (key_of prefix i), part. split; [by apply Hs|done].
Qed.

Lemma matching_size P m : (length (matching P m) ≤ size m)%nat.
Proof.
  unfold matching, by_id. rewrite merge_sort_Permutation. unfold rows.
  rewrite length_filter, length_fmap. by rewrite length_map_to_list.
Qed.

Lemma keeps_deleteAll prefix ks : keeps only_storage
  (for_each (λ key, catch (deleteFile key) (λ _, mret ())) (ks ++ [prefix])).
Proof.
  apply keeps_for_each; [apply _|]. intros key. apply keeps_catch; [apply _| |by intros e w].
  intros w. eapply same_but_objects_storage, keeps_deleteFile.
Qed.
Lemma keeps_writer_abort wr : keeps only_storage (writer_abort wr).
Proof. apply keeps_deleteAll. Qed.
Lemma wp_for_each_ok {A} (f : A → prog AuditW ()) xs w :
  (∀ x w, (run (f x) w).1 = Ok ()) → (run (for_each f xs) w).1 = Ok ().
Proof.
  intros Hf. revert w. induction xs as [|x xs IH]; intros w; [done|]. cbn. rewrite run_bind.
  specialize (Hf x w). destruct (run (f x) w) as [o w']. cbn in Hf. subst o. apply IH.
Qed.
Lemma writer_abort_ok wr w : (run (writer_abort wr) w).1 = Ok ().
Proof.
  apply wp_for_each_ok. intros key w'. rewrite run_catch.
  by destruct (run (deleteFile key) w') as [[[]|e] w''].
Qed.

(** What the archive phase promises of the rows that matched. *)
Definition promised (a : Archiving) (rs : list AuditLog) (w : AuditW) : Prop :=
  kept_in rs w ∧ ar_count a = Z.of_nat (length rs) ∧ spans (ar_minSeq a) (ar_maxSeq a) rs.

Lemma wp_archive_rows cutoff wr w :
  numbers_ok (aw_logs w) → wr_parts wr = [] →
  wp (archive_rows cutoff wr) (λ r w', ∃ a o, r = Ok (a, o) ∧ only_storage w w' ∧
    (aw_faults w = [] → is_ok o = true) ∧
    (is_ok o = true → promised a (matching (purgeable cutoff) (aw_logs w)) w')) w.
Proof.
  intros Hm Hnone. unfold archive_rows. apply wp_bind, wp_gets, wp_bind.
  set (L := matching (purgeable cutoff) (aw_logs w)).
  eapply wp_mono; [apply (wp_archive_loop (S (size (aw_logs w))) cutoff (wr_prefix wr) [] L)|].
  - done.
  - done.
  - split; [exists []|done|by intros r s ?%elem_of_nil].
    split; [done|]. split; [done| |by intros i rs Hi].
    change (length (wr_parts wr) = 0%nat). by rewrite Hnone.
  - pose proof (matching_size (purgeable cutoff) (aw_logs w)). unfold L. lia.
  - intros o w1 (a&o1&->&Hst&Hpre&Hf&Hdone). cbv beta iota. cbn [app] in Hdone.
    destruct o1 as [[]|e].
    2:{ apply wp_mret. exists a, (Err e). split_and!; [done|done| |done]. intros Hn. by specialize (Hf Hn). }
    destruct (Hdone eq_refl) as [(ps&Hps&Hw) Hcount Hspan].
    destruct (Z.ltb_spec 0 (ar_count a)).
    + apply wp_bind, wp_attempt. unfold writer_finish. apply wp_bind, wp_gets, wp_bind.
      eapply wp_mono; [apply wp_putVerified|]. intros o w2 (Hsame&Hok&_).
      assert (kept_in L w2) as Hkept.
      { rewrite <- Hps. apply (writing_kept (wr_prefix wr) (ar_writer a)). destruct Hw as [Hp Hl Hs].
        split; [done|done|]. intros i rs Hi. destruct Hsame as (_&Hother&_).
        rewrite Hother; [by apply Hs|]. intros E%list_elem_of_singleton.
        apply (manifest_no_part (wr_prefix wr) i). rewrite E. unfold manifestKey. by rewrite Hp. }
      assert (only_storage w w2) as Hst2 by (etrans; [exact Hst|by eapply same_but_objects_storage]).
      assert (aw_faults w = [] → o = Ok ()) as Hok2 by (intros Hn; by apply Hok, Hst).
      destruct o as [[]|e]; apply wp_mret.
      * apply wp_mret. by exists a, (Ok (Some (manifestKey (ar_writer a)))).
      * exists a, (Err e). split_and!; [done|done| |done]. intros Hn. by specialize (Hok2 Hn).
    + apply wp_bind. unfold wp. pose proof (writer_abort_ok (ar_writer a) w1) as Hab.
      pose proof (keeps_writer_abort (ar_writer a) w1) as Hkeep.
      destruct (run (writer_abort (ar_writer a)) w1) as [o w2]. cbn in *. subst o.
      exists a, (Ok None). split_and!; [done|by etrans|done|]. intros _.
      assert (L = []) as -> by (destruct L; cbn in *; [done|lia]).
      split_and!; [by intros r ?%elem_of_nil|cbn in *; lia|by intros r s ?%elem_of_nil].
Qed.

Definition same_logs (w w' : AuditW) : Prop := aw_logs w' = aw_logs w.
#[local] Instance same_logs_preorder : PreOrder same_logs.
Proof. split; [done|]. intros w1 w2 w3 E1 E2. unfold same_logs in *. congruence. Qed.
Lemma keeps_failRun id e : keeps same_logs (failRun id e).
Proof.
  apply keeps_catch; [apply _| |by intros ? w]. apply keeps_bind; [apply _|by intros w|intros t].
  apply keeps_act_outcome. intros w. by destruct (aw_runs w !! id).
Qed.
Lemma wp_fail {A} id msg e (Q : outcome A → AuditW → Prop) w :
  (∀ e w', aw_logs w' = aw_logs w → Q (Err e) w') → wp (failRun id msg ;; Throw e) Q w.
Proof.
  intros HQ. apply wp_bind. unfold wp at 1. pose proof (keeps_failRun id msg w) as Hk.
  destruct (run (failRun id msg) w) as [[[]|e'] w']; [apply wp_throw|]; by apply HQ.
Qed.

Lemma wp_archive_phase runId cutoff w :
  numbers_ok (aw_logs w) →
  wp (archive_phase runId cutoff) (λ r w',
    (aw_faults w = [] → is_ok r = true) ∧
    match r with
    | Ok (a, _) => only_storage w w' ∧ promised a (matching (purgeable cutoff) (aw_logs w)) w'
    | Err _ => aw_logs w' = aw_logs w
    end) w.
Proof.
  intros Hm. unfold archive_phase. apply wp_bind, wp_attempt. unfold archive_open. apply wp_bind.
  unfold wp at 1. pose proof (keeps_ensureBucket [] w) as Hst%same_but_objects_storage.
  assert (aw_faults w = [] → (run ensureBucket w).1 = Ok ()) as Hopen.
  { intros Hn. unfold ensureBucket, minio. rewrite run_act_outcome. by rewrite Hn. }
  destruct (run ensureBucket w) as [[[]|e] w1]; cbn in Hst, Hopen |- *.
  2:{ apply wp_fail. intros e' w' El. split; [intros Hn; by specialize (Hopen Hn)|].
      rewrite El. by apply only_storage_logs. }
  apply wp_mret, wp_bind.
  assert (aw_logs w1 = aw_logs w) as Hl1 by by apply only_storage_logs.
  eapply wp_mono; [apply wp_archive_rows; [by rewrite Hl1|done]|].
  intros o w2 (a&o2&->&Hst2&Hf&Hp). cbv beta iota. rewrite Hl1 in Hp.
  assert (aw_faults w = [] → is_ok o2 = true) as Hf2 by (intros Hn; by apply Hf, Hst).
  destruct o2 as [key|e].
  { apply wp_mret. split; [done|]. split; [by etrans|by apply Hp]. }
  apply wp_bind, wp_catch. unfold wp at 1.
  pose proof (keeps_writer_abort (ar_writer a) w2) as Hab%only_storage_logs.
  pose proof (writer_abort_ok (ar_writer a) w2) as Hok.
  destruct (run (writer_abort _) w2) as [r w3]. cbn in *. subst r.
  apply wp_fail. intros e' w4 El. split; [intros Hn; by specialize (Hf2 Hn)|].
  apply only_storage_logs in Hst2. congruence.
Qed.

(** ** Deleting *)

Lemma numbers_ok_sub m m' : numbers_ok m → m' ⊆ m → numbers_ok m'.
Proof.
  intros [Hi Hs] Hsub. split.
  - intros id r Hr. by apply Hi, (lookup_weaken m').
  - intros i j r r' s Hr Hr'. apply (Hs i j r r' s); by eapply lookup_weaken.
Qed.

(** Rows that matched are gone; the rest of the rows is as it was. *)
Record deleted (P : AuditLog → bool) (w w' : AuditW) : Prop := {
  dl_other : w' = w{{aw_logs := aw_logs w'; aw_refused := aw_refused w'}};
  dl_sub : aw_logs w' ⊆ aw_logs w;
  dl_kept id r : aw_logs w !! id = Some r → P r = false → aw_logs w' !! id = Some r;
  dl_willing : aw_refused w = [] → aw_refused w' = [];
}.
#[local] Instance deleted_preorder P : PreOrder (deleted P).
Proof.
  split; [by intros []|]. intros w1 w2 w3 [E1 S1 K1 F1] [E2 S2 K2 F2]. split; [|by etrans|auto|auto].
  rewrite E2, E1. by destruct w1.
Qed.

Section one_page.
Context (cutoff : Z) (front rest : list AuditLog) (m : gmap string AuditLog).
Context (Hm : numbers_ok m) (Hsplit : matching (purgeable cutoff) m = front ++ rest).

Definition without_page : gmap string AuditLog :=
  filter (λ '(_, r), ¬ (al_id r ∈ map al_id front ∧ al_legalHold r = false)) m.

Lemma elem_of_pages r : r ∈ front ++ rest ↔ purgeable cutoff r = true ∧ ∃ id, m !! id = Some r.
Proof. rewrite <- Hsplit. apply elem_of_log_matching. Qed.
Lemma purgeable_free r : purgeable cutoff r = true → al_legalHold r = false.
Proof. unfold purgeable. by intros [_ ?%negb_true_iff]%andb_prop. Qed.
Lemma page_NoDup : NoDup front ∧ NoDup rest ∧ ∀ r, r ∈ front → r ∉ rest.
Proof.
  pose proof (matching_NoDup (purgeable cutoff) _ Hm) as Hnd. rewrite Hsplit, fmap_app in Hnd.
  apply NoDup_app in Hnd as (Hf&Hap&Hr). split_and!; [by apply NoDup_fmap_1 in Hf|by apply NoDup_fmap_1 in Hr|].
  intros r Hr1 Hr2. apply (Hap (al_id r)); by apply list_elem_of_fmap_2.
Qed.
Lemma on_page id r : m !! id = Some r → al_id r ∈ map al_id front ↔ r ∈ front.
Proof.
  intros Hr. rewrite list_elem_of_fmap. split; [|by eauto]. intros (x&E&Hx).
  destruct (proj1 (elem_of_pages x)) as (_&j&Hj); [set_solver|].
  assert (id = j) as <- by (rewrite <- (no_ids _ Hm _ _ Hr), E; by apply (no_ids _ Hm)).
  by simplify_eq.
Qed.
Lemma lookup_without_page id r : without_page !! id = Some r ↔ m !! id = Some r ∧ r ∉ front.
Proof.
  unfold without_page. rewrite map_lookup_filter_Some. split; intros [Hr Hn]; (split; [done|]).
  - intros Hf. apply Hn. split; [by apply (on_page id r)|].
    apply purgeable_free, elem_of_pages. set_solver.
  - intros [Hf _]. by apply Hn, (on_page id r).
Qed.
Lemma without_page_sub : without_page ⊆ m.
Proof. apply map_subseteq_spec. by intros id r [? _]%lookup_without_page. Qed.

Lemma page_count :
  count (λ r, mem (al_id r) (map al_id front) && negb (al_legalHold r)) m = Z.of_nat (length front).
Proof.
  unfold count. f_equal. apply Permutation_length, NoDup_Permutation; [by apply rows_NoDup|apply page_NoDup|].
  intros r. rewrite elem_of_log_rows, andb_true_iff, negb_true_iff. unfold mem.
  rewrite bool_decide_eq_true. split.
  - intros [[Hi _] [id Hr]]. by apply (on_page id r).
  - intros Hf. destruct (proj1 (elem_of_pages r)) as (HP&id&Hr); [set_solver|].
    split; [split; [by apply (on_page id r)|by apply purgeable_free]|by exists id].
Qed.
Lemma matching_without_page : matching (purgeable cutoff) without_page = rest.
Proof.
  apply (StronglySorted_unique_strong id_le).
  - intros x y (_&i&Hi)%elem_of_log_matching Hy Hxy Hyx.
    destruct (proj1 (elem_of_pages y)) as (_&j&Hj); [set_solver|].
    apply lookup_without_page in Hi as [Hi _]. pose proof (io_antisymm Hord _ _ Hxy Hyx) as E.
    rewrite (no_ids _ Hm _ _ Hi), (no_ids _ Hm _ _ Hj) in E. congruence.
  - apply matching_sorted.
  - eapply StronglySorted_app_1_r. rewrite <- Hsplit. apply matching_sorted.
  - destruct page_NoDup as (_&Hnd&Hap). apply NoDup_Permutation; [|done|].
    + eapply NoDup_fmap_1, matching_NoDup, numbers_ok_sub; [done|apply without_page_sub].
    + intros r. rewrite elem_of_log_matching. split.
      * intros (HP&id&[Hr Hn]%lookup_without_page).
        assert (r ∈ front ++ rest) as [?|?]%elem_of_app; [|done..].
        apply elem_of_pages. split; [done|by exists id].
      * intros Hr. destruct (proj1 (elem_of_pages r)) as (HP&id&Hid); [set_solver|]. split; [done|].
        exists id. apply lookup_without_page. split; [done|]. intros Hf. by apply (Hap r).
Qed.
End one_page.

(** One statement deletes one page. *)
Lemma logs_delete_page cutoff front rest w :
  numbers_ok (aw_logs w) → matching (purgeable cutoff) (aw_logs w) = front ++ rest →
  let r := run (logs_delete (map al_id front)) w in
  deleted (purgeable cutoff) w r.2 ∧ (aw_refused w = [] → is_ok r.1 = true) ∧
  (∀ n, r.1 = Ok n → n = Z.of_nat (length front) ∧
     matching (purgeable cutoff) (aw_logs r.2) = rest).
Proof.
  intros Hm Hsplit. unfold logs_delete, guarded. rewrite run_act_outcome. cbv zeta.
  assert (Htail : aw_refused w = [] → tail (aw_refused w) = []) by by intros ->.
  destruct (hd false (aw_refused w)) eqn:Hhd; cbn [fst snd].
  { split_and!; [split; [by destruct w|done|done|exact Htail]|intros Hn; by rewrite Hn in Hhd|done]. }
  change (deleted (purgeable cutoff) w
    (w{{aw_refused ::= @tail bool; aw_logs := without_page front (aw_logs w)}}) ∧
    (aw_refused w = [] → true = true) ∧
    (∀ n, Ok (count (λ r, mem (al_id r) (map al_id front) && negb (al_legalHold r)) (aw_logs w)) = Ok n →
      n = Z.of_nat (length front) ∧
      matching (purgeable cutoff) (without_page front (aw_logs w)) = rest)).
  split_and!; [|done|].
  - split; [by destruct w| | |exact Htail].
    + by apply (without_page_sub cutoff front rest).
    + intros id r Hr HP. apply (lookup_without_page cutoff front rest); [done..|]. split; [done|].
      intros Hf. destruct (proj1 (elem_of_pages cutoff front rest (aw_logs w) Hsplit r)) as [? _];
        [set_solver|congruence].
  - intros n [= <-]. split; [by apply (page_count cutoff front rest)|by apply matching_without_page].
Qed.

Lemma wp_delete_loop fuel cutoff d w :
  numbers_ok (aw_logs w) → (length (matching (purgeable cutoff) (aw_logs w)) < fuel)%nat →
  wp (delete_loop fuel cutoff d) (λ r w', ∃ n o, r = Ok (n, o) ∧
    deleted (purgeable cutoff) w w' ∧ (aw_refused w = [] → o = Ok ()) ∧
    (o = Ok () → n = d + Z.of_nat (length (matching (purgeable cutoff) (aw_logs w))) ∧
       matching (purgeable cutoff) (aw_logs w') = [])) w.
Proof.
  revert d w. induction fuel as [|fuel IH]; intros d w Hm Hfuel; [lia|].
  cbn [delete_loop]. apply wp_bind, wp_gets.
  pose proof (page_after (purgeable cutoff) PURGE_BATCH [] _ w Hm eq_refl) as Hfirst.
  cbn [last fmap option_fmap option_map] in Hfirst. rewrite Hfirst.
  destruct (matching (purgeable cutoff) (aw_logs w)) as [|r rest] eqn:Hsplit.
  { apply wp_mret. exists d, (Ok ()). split_and!; [done|done|done|]. intros _. split; [cbn; lia|done]. }
  destruct (page_cons r rest) as [ys Hys]. rewrite Hys. cbn [map].
  pose proof Hsplit as Hpage. rewrite <- (take_drop PURGE_BATCH (r :: rest)), Hys in Hpage.
  destruct (logs_delete_page cutoff (r :: ys) (drop PURGE_BATCH (r :: rest)) w Hm Hpage)
    as (Hdel&Hok&Hn). apply wp_bind, wp_attempt. unfold wp at 1.
  change (map al_id (r :: ys)) with (al_id r :: map al_id ys) in Hdel, Hok, Hn.
  destruct (run (logs_delete _) w) as [[n|e] w1]; cbn [fst snd] in *.
  2:{ apply wp_mret. exists d, (Err e). split_and!; [done|done| |done]. intros Hnil. by specialize (Hok Hnil). }
  destruct (Hn n eq_refl) as [-> Hrest]. change (Z.of_nat (length (r :: ys)) =? 0) with false.
  assert (Hlen : length (r :: rest) = (length (r :: ys) + length (drop PURGE_BATCH (r :: rest)))%nat)
    by (rewrite <- Hys, <- length_app, take_drop; done).
  eapply wp_mono; [apply IH|].
  - eapply numbers_ok_sub; [exact Hm|apply (dl_sub _ _ _ Hdel)].
  - rewrite Hrest. cbn [length] in *. lia.
  - intros o w2 (n'&o2&->&Hdel2&Hok2&Hdone). exists n', o2. rewrite Hrest in Hdone.
    split_and!; [done|by etrans| |].
    + intros Hnil. by apply Hok2, (dl_willing _ _ _ Hdel).
    + intros Ho. destruct (Hdone Ho) as [-> ?]. split; [lia|done].
Qed.

(** Nothing but the runs changes, and not the ranges they recorded. *)
Definition same_span (r r' : PurgeRun) : Prop :=
  pr_minSeq r' = pr_minSeq r ∧ pr_maxSeq r' = pr_maxSeq r.
#[local] Instance same_span_preorder : PreOrder same_span.
Proof. split; [done|]. intros r1 r2 r3 [] []. split; congruence. Qed.
Definition runs_only (w w' : AuditW) : Prop :=
  w' = w{{aw_runs := aw_runs w'}} ∧ rows_step same_span (aw_runs w) (aw_runs w').
Lemma run_update_runs id upd w :
  (∀ r, same_span r (upd r)) → runs_only w (run (run_update id upd) w).2.
Proof.
  intros Hu. unfold run_update. rewrite run_act_outcome.
  destruct (aw_runs w !! id) as [q|] eqn:Hq; cbn [snd]; [|split; [by destruct w|done]].
  split; [by destruct w|]. intros i r Hr.
  change (∃ r', <[id := upd q]> (aw_runs w) !! i = Some r' ∧ same_span r r').
  destruct (decide (i = id)) as [->|Hne].
  - exists (upd q). rewrite lookup_insert_eq. split; [done|]. simplify_eq. apply Hu.
  - exists r. by rewrite lookup_insert_ne.
Qed.
Lemma wp_run_update id upd (Q : outcome () → AuditW → Prop) w :
  (∀ r, same_span r (upd r)) → (∀ r w', runs_only w w' → Q r w') → wp (run_update id upd) Q w.
Proof. intros Hu HQ. by apply HQ, run_update_runs. Qed.

Lemma wp_delete_phase runId cutoff w :
  numbers_ok (aw_logs w) →
  wp (delete_phase runId cutoff) (λ r w', ∃ w1, deleted (purgeable cutoff) w w1 ∧ runs_only w1 w' ∧
    (aw_refused w = [] → is_ok r = true) ∧
    (∀ n, r = Ok n → w' = w1 ∧ n = Z.of_nat (length (matching (purgeable cutoff) (aw_logs w))) ∧
        matching (purgeable cutoff) (aw_logs w1) = [])) w.
Proof.
  intros Hm. unfold delete_phase. apply wp_bind, wp_gets, wp_bind.
  eapply wp_mono; [apply wp_delete_loop; [done|]|].
  { pose proof (matching_size (purgeable cutoff) (aw_logs w)). lia. }
  intros o w1 (n&o1&->&Hdel&Hok&Hdone). cbv beta iota. destruct o1 as [[]|e].
  { apply wp_mret. exists w1. destruct (Hdone eq_refl). split_and!; [done| |done|].
    - split; [by destruct w1|done].
    - by intros n' [= <-]. }
  apply wp_bind, wp_run_update; [done|]. intros r w2 Hruns.
  assert (∀ e' : exn, ∃ w1, deleted (purgeable cutoff) w w1 ∧ runs_only w1 w2 ∧
    (aw_refused w = [] → is_ok (Err e' : outcome Z) = true) ∧
    (∀ n, Err e' = Ok n → w2 = w1 ∧ n = Z.of_nat (length (matching (purgeable cutoff) (aw_logs w))) ∧
        matching (purgeable cutoff) (aw_logs w1) = [])) as Hgoal.
  { intros e'. exists w1. split_and!; [done|done|intros Hn; by specialize (Hok Hn)|done]. }
  destruct r; [apply wp_throw|]; apply Hgoal.
Qed.

(** ** Archiving, then deleting *)

(** What a purge's run did to the log: rows that matched may be gone, and those that are
    gone are in the archive, and their numbers on record. *)
Record purged (runId : string) (cutoff : Z) (w w' : AuditW) : Prop := {
  pu_frame : w' = w{{aw_logs := aw_logs w'; aw_refused := aw_refused w';
    aw_objects := aw_objects w'; aw_faults := aw_faults w'; aw_runs := aw_runs w'}};
  pu_sub : aw_logs w' ⊆ aw_logs w;
  pu_kept id r : aw_logs w !! id = Some r → purgeable cutoff r = false → aw_logs w' !! id = Some r;
  pu_archived id r : aw_logs w !! id = Some r → aw_logs w' !! id = None →
    kept_in [r] w' ∧ ∃ q, aw_runs w' !! runId = Some q ∧ spans (pr_minSeq q) (pr_maxSeq q) [r];
}.

Lemma kept_in_sub rs rs' w : rs' ⊆ rs → kept_in rs w → kept_in rs' w.
Proof. intros Hs Hk r Hr. by apply Hk, Hs. Qed.
Lemma spans_sub lo hi rs rs' : rs' ⊆ rs → spans lo hi rs → spans lo hi rs'.
Proof. intros Hs Hk r s Hr. by apply Hk, Hs. Qed.

Lemma wp_archive_and_delete runId cutoff w :
  numbers_ok (aw_logs w) →
  wp (archive_and_delete runId cutoff) (λ r w',
    (aw_logs w' = aw_logs w ∧ is_ok r = false ∨ purged runId cutoff w w') ∧
    (aw_faults w = [] → aw_refused w = [] → is_Some (aw_runs w !! runId) →
     is_ok r = true ∧ is_Some (aw_runs w' !! runId) ∧ aw_refused w' = []) ∧
    (∀ a key n, r = Ok (a, key, n) →
       purged runId cutoff w w' ∧ ar_count a = n ∧
       n = Z.of_nat (length (matching (purgeable cutoff) (aw_logs w))) ∧
       matching (purgeable cutoff) (aw_logs w') = [])) w.
Proof.
  intros Hm. unfold archive_and_delete. set (L := matching (purgeable cutoff) (aw_logs w)).
  apply wp_bind. eapply wp_mono; [by apply wp_archive_phase|]. intros [[a key]|e] w1 [Hok1 H1].
  2:{ split_and!; [by left|intros Hn; by specialize (Hok1 Hn)|done]. }
  cbv beta iota. destruct H1 as [[E1 F1] (Hkept&Hcount&Hspan)]. fold L in Hkept, Hcount, Hspan.
  apply wp_bind. unfold run_update. apply wp_act_outcome.
  assert (aw_runs w1 = aw_runs w) as Hr1 by (rewrite E1; by destruct w).
  assert (aw_refused w1 = aw_refused w) as Hf1 by (rewrite E1; by destruct w).
  assert (aw_logs w1 = aw_logs w) as Hl1 by (rewrite E1; by destruct w).
  destruct (aw_runs w1 !! runId) as [q|] eqn:Hq; cbn [fst snd].
  2:{ split_and!; [by left| |done]. intros _ _. rewrite <- Hr1, Hq. by intros []. }
  set (q' := q{{pr_status := ARCHIVED; pr_archiveKey := _; pr_archivedCount := _; pr_minSeq := _;
                pr_maxSeq := _}}).
  set (w2 := w1{{aw_runs ::= insert runId q'}}).
  assert (aw_runs w2 !! runId = Some q') as Hq2 by apply lookup_insert_eq.
  apply wp_bind. eapply wp_mono; [apply wp_delete_phase; by change (aw_logs w2) with (aw_logs w1); rewrite Hl1|].
  intros r w4 (w3&[E3 S3 K3 F3]&[E4 R4]&Hok&Hdone).
  change (aw_logs w2) with (aw_logs w1) in *. rewrite Hl1 in *.
  change (aw_refused w2) with (aw_refused w1) in *. rewrite Hf1 in *.
  assert (aw_runs w3 = aw_runs w2) as Hr3 by (rewrite E3; by destruct w2).
  destruct (R4 runId q') as (q4&Hq4&Hmin&Hmax); [by rewrite Hr3|].
  assert (aw_objects w4 = aw_objects w1) as Ho4.
  { rewrite E4, E3. unfold w2. by destruct w1. }
  assert (aw_logs w4 = aw_logs w3) as Hl4 by (rewrite E4; by destruct w3).
  assert (purged runId cutoff w w4) as Hp.
  { split; rewrite ?Hl4; [|done|done|].
    - rewrite E4, E3. unfold w2. rewrite E1. by destruct w.
    - intros id r0 Hr0 Hgone. assert (purgeable cutoff r0 = true) as HP.
      { destruct (purgeable cutoff r0) eqn:HP; [done|]. by rewrite (K3 id r0 Hr0 HP) in Hgone. }
      assert ([r0] ⊆ L) as Hin.
      { intros x ->%list_elem_of_singleton. apply elem_of_log_matching. split; [done|by exists id]. }
      split.
      + unfold kept_in. rewrite Ho4. by apply (kept_in_sub L).
      + exists q4. split; [done|]. rewrite Hmin, Hmax. by apply (spans_sub _ _ L). }
  assert (aw_refused w4 = aw_refused w3) as Hrf by (rewrite E4; by destruct w3).
  destruct r as [n|e]; [apply wp_mret|]; split_and!; [by right| | |by right| |done].
  - intros _ Hn _. split_and!; [done|by exists q4|]. rewrite Hrf. by apply F3.
  - intros a' key' n' [= <- <- <-]. destruct (Hdone n eq_refl) as (->&->&?). split_and!; [done|by rewrite Hcount|done|].
    done.
  - intros _ Hn _. by specialize (Hok Hn).
Qed.

(** ** The whole purge *)

Context (cfg : AuditCfg) (ctx : option RequestContextStore).

(** What only looks. *)
Abbreviation looks := (keeps (@eq AuditW)).
Lemma looks_parseCutoff o : looks (parseCutoff o).
Proof.
  unfold parseCutoff. destruct (truthy o); [|by intros w].
  apply keeps_bind; [apply _|by destruct (Date_parse o)|intros c].
  apply keeps_bind; [apply _|done|intros t]. apply keeps_bind; [apply _|by destruct (_ <? _)|by intros _ w].
Qed.
Lemma looks_tokenSecret : looks (tokenSecret cfg).
Proof. unfold tokenSecret. destruct (cf_purge_secret cfg) as [x|]; [|by intros w]. by destruct (_ <? _)%nat. Qed.
Lemma looks_throw_if b e : looks (throw_if b e).
Proof. intros w. by rewrite run_throw_if. Qed.
Lemma looks_verifyConfirmToken t a c : looks (verifyConfirmToken cfg t a c).
Proof.
  unfold verifyConfirmToken. destruct (Js.split "." t) as [|body [|sig rest]]; [by intros w..|].
  destruct (_ && _); [|by intros w].
  apply keeps_bind; [apply _|apply looks_tokenSecret|intros secret].
  apply keeps_bind; [apply _|apply looks_throw_if|intros _].
  apply keeps_bind; [apply _|by destruct (JSON_parse _)|intros claims].
  apply keeps_bind; [apply _|apply looks_throw_if|intros _].
  apply keeps_bind; [apply _|done|intros now'].
  do 3 (apply keeps_bind; [apply _|apply looks_throw_if|intros _]).
  by destruct (member "jti" claims) as [[]|].
Qed.

(** What the audit of the audit leaves alone. *)
Definition adds_rows (w w' : AuditW) : Prop :=
  aw_objects w' = aw_objects w ∧ aw_runs w' = aw_runs w ∧
  ∀ id, aw_logs w' !! id = None → aw_logs w !! id = None.
#[local] Instance adds_rows_preorder : PreOrder adds_rows.
Proof.
  split; [done|]. intros w1 w2 w3 (O1&R1&L1) (O2&R2&L2). split_and!; [congruence..|auto].
Qed.
Lemma keeps_append mk : (∀ id t s p h, al_id (mk id t s p h) = id) → keeps adds_rows (append_link mk).
Proof.
  intros Hmk. apply keeps_act_outcome. intros w. destruct (hd false (aw_refused w)); [done|].
  unfold draw. cbv zeta beta iota. destruct (next_link _) as [s p]. destruct (_ && _); [|done].
  cbn [fst snd]. split_and!; [done..|]. intros id Hid.
  set (row := _{{al_hash := _}}) in Hid. change (<[al_id row := row]> (aw_logs w) !! id = None) in Hid.
  by apply lookup_insert_None in Hid as [? _].
Qed.
Lemma keeps_auditSelf a p : keeps adds_rows (auditSelf ctx a p).
Proof.
  unfold auditSelf, record. apply keeps_bind; [apply _| |by intros r w].
  apply keeps_catch; [apply _|by apply keeps_append|intros e].
  apply keeps_bind; [apply _|done|intros t]. by apply keeps_bind; [apply _| |].
Qed.

(** What comes after the deletion: runs keep their ranges, no row goes. *)
Definition settles (w w' : AuditW) : Prop :=
  aw_objects w' = aw_objects w ∧ rows_step same_span (aw_runs w) (aw_runs w') ∧
  ∀ id, aw_logs w' !! id = None → aw_logs w !! id = None.
#[local] Instance settles_preorder : PreOrder settles.
Proof.
  split; [done|]. intros w1 w2 w3 (O1&R1&L1) (O2&R2&L2). split_and!; [congruence|by etrans|auto].
Qed.
Lemma settles_adds w w' : adds_rows w w' → settles w w'.
Proof. intros (O&R&L). unfold settles. by rewrite R. Qed.
Lemma keeps_settle_update id upd : (∀ r, same_span r (upd r)) → keeps settles (run_update id upd).
Proof.
  intros Hu w. destruct (run_update_runs id upd w Hu) as [E R]. split_and!; [|done|]; rewrite E; by destruct w.
Qed.
Lemma wp_keeps R {A} (p : prog AuditW A) (Q : outcome A → AuditW → Prop) w :
  keeps R p → (∀ r w', R w w' → Q r w') → wp p Q w.
Proof. intros Hp HQ. by apply HQ. Qed.
Lemma wp_looks {A B} (f : A → prog AuditW B) (p : prog AuditW A) (Q : outcome B → AuditW → Prop) w :
  looks p → (∀ a, (run p w).1 = Ok a → wp (f a) Q w) → (∀ e, Q (Err e) w) → wp (p ≫= f) Q w.
Proof.
  intros Hp Hf He. apply wp_bind. unfold wp at 1. rewrite <- (Hp w).
  destruct (run p w) as [[a|e] w']; cbn in *; [by apply Hf|done].
Qed.

Lemma start_run_logs t r c a : keeps same_logs (start_run t r c a).
Proof.
  apply keeps_catch; [apply _| |by intros e w; destruct (has_code _ e)].
  apply keeps_act_outcome. intros w. unfold draw. cbv zeta beta iota. by case_bool_decide.
Qed.

(** A row that is gone was older than the cutoff and not on hold, is in an object of the
    storage, and its number is in the range that a run recorded. *)
Record accounted (olderThan : string) (row : AuditLog) (w : AuditW) : Prop := {
  ac_free : al_legalHold row = false;
  ac_old : ∃ cutoff, Date_parse olderThan = Some cutoff ∧ al_createdAt row < cutoff;
  ac_kept : ∃ key part, aw_objects w !! key = Some (part_body part) ∧ row ∈ part;
  ac_recorded s : al_seq row = Some s → ∃ rid q lo hi, aw_runs w !! rid = Some q ∧
    pr_minSeq q = Some lo ∧ pr_maxSeq q = Some hi ∧ lo ≤ s ≤ hi;
}.

(** C8: A row that a purge removes, when it runs alone, and whatever the storage and the
    database refuse meanwhile, was older than the cutoff and not on hold, is in an object
    of the storage, and its number is in the range that the run recorded. *)
Theorem archived_before_deleted dto actor w id row :
  chain_ok w → aw_logs w !! id = Some row →
  let w' := (run (purgeOlderThan cfg ctx dto actor) w).2 in
  aw_logs w' !! id = None →
  accounted (pd_olderThan dto) row w'.
Proof.
  intros Hc Hrow. pose proof (chain_numbers_ok w Hc) as Hm. cbv zeta.
  change (wp (purgeOlderThan cfg ctx dto actor) (λ _ w', aw_logs w' !! id = None → accounted (pd_olderThan dto) row w') w).
  assert (∀ w', aw_logs w' = aw_logs w → aw_logs w' !! id = None → False) as Hsame
    by (intros w' ->; congruence).
  unfold purgeOlderThan. apply wp_looks; [apply looks_parseCutoff| |intros e Hg; by destruct (Hsame w)].
  intros cutoff Hcut. cbv zeta.
  assert (Date_parse (pd_olderThan dto) = Some cutoff) as Hdate.
  { unfold parseCutoff in Hcut. destruct (truthy _); [|done].
    rewrite run_bind, run_require in Hcut. destruct (Date_parse _) as [c|]; [|done]. cbn in Hcut.
    rewrite run_bind in Hcut. unfold now in Hcut. rewrite run_gets, run_bind, run_throw_if in Hcut.
    destruct (_ <? _); [done|]. by injection Hcut as ->. }
  apply wp_looks; [apply looks_throw_if|intros _ _|intros e Hg; by destruct (Hsame w)].
  apply wp_looks; [apply looks_verifyConfirmToken|intros jti _|intros e Hg; by destruct (Hsame w)].
  apply wp_looks; [apply looks_throw_if|intros _ _|intros e Hg; by destruct (Hsame w)].
  apply wp_bind. apply (wp_keeps same_logs); [apply start_run_logs|]. intros [q|e] w2 Hl2.
  2:{ intros Hg. by destruct (Hsame w2). }
  unfold same_logs in Hl2. apply wp_bind.
  eapply wp_mono; [apply (wp_archive_and_delete (pr_id q) cutoff); by rewrite Hl2|].
  intros r w3 (H3&_&Hok).
  assert (∀ w', settles w3 w' → purged (pr_id q) cutoff w2 w3 → aw_logs w' !! id = None →
    accounted (pd_olderThan dto) row w') as Hend.
  { intros w' (Ho&Hr&Hl) Hp Hg. rewrite <- Hl2 in Hrow. pose proof (Hl id Hg) as Hg3.
    assert (purgeable cutoff row = true) as HP.
    { destruct (purgeable cutoff row) eqn:HP; [done|].
      by rewrite (pu_kept _ _ _ _ Hp id row Hrow HP) in Hg3. }
    apply andb_prop in HP as [Hold%Z.ltb_lt Hfree%negb_true_iff].
    destruct (pu_archived _ _ _ _ Hp id row Hrow Hg3) as (Hk&q3&Hq3&Hsp).
    split; [done|by eexists| |].
    - rewrite Ho. apply Hk. by left.
    - intros s Hs. destruct (Hr _ _ Hq3) as (q4&Hq4&Hmin&Hmax).
      destruct (Hsp row s) as (lo&hi&?&?&?); [by left|done|].
      exists (pr_id q), q4, lo, hi. split_and!; [done|congruence|congruence|lia..]. }
  destruct r as [[[a key] n]|e].
  2:{ intros Hg. destruct H3 as [[Hl3 _]|Hp]; [|by apply (Hend w3)].
      destruct (Hsame w3); [congruence|done]. }
  destruct (Hok a key n eq_refl) as (Hp&_&_&_). apply (wp_keeps settles); [|intros r w' Hs; by apply Hend].
  apply keeps_bind; [apply _|done|intros held]. apply keeps_bind; [apply _|done|intros t].
  apply keeps_bind; [apply _|by apply keeps_settle_update|intros _].
  apply keeps_bind; [apply _| |by intros ? w0]. intros w0. apply settles_adds, keeps_auditSelf.
Qed.

(** ** When nothing is refused *)

Definition known (w : AuditW) (a : Actor) : Prop :=
  ac_isSystem a = false → ∀ u, ac_id a = Some u → u ∈ aw_users w.
Lemma auditSelf_ok a p w :
  aw_refused w = [] → known w a →
  ∃ row w', run (auditSelf ctx a p) w = (Ok (), w') ∧
    aw_logs w' = <[aud_uuid (aw_draws w) := row]> (aw_logs w).
Proof.
  intros Hr Hk. unfold auditSelf, record, append_link, guarded.
  rewrite run_bind, run_catch, run_act_outcome, Hr. cbn [hd]. unfold draw. cbv zeta beta iota.
  destruct (next_link _) as [s h]. set (row := _{{al_hash := _}}).
  assert (user_known (w{{aw_draws ::= S}}) (al_userId row) &&
    user_known (w{{aw_draws ::= S}}) (al_targetUserId row) = true) as Hu.
  { apply andb_true_intro. split; [|done]. unfold row, self_payload, user_known. cbn.
    destruct (ac_isSystem a) eqn:Hs; [done|].
    case_bool_decide; [done|]. destruct (ac_id a) as [u|] eqn:Hid; [|done].
    apply bool_decide_eq_true. by apply Hk. }
  change (aw_refused w) with (aw_refused w) in *.
  match goal with |- context [if ?b then _ else _] => replace b with true by (symmetry; exact Hu) end.
  exists row. eexists. split; [reflexivity|reflexivity].
Qed.

Lemma count_matching P m : count P m = Z.of_nat (length (matching P m)).
Proof. unfold count, matching, by_id. by rewrite merge_sort_Permutation. Qed.
Lemma count_kept P m m' :
  numbers_ok m → m' ⊆ m → (∀ id r, m !! id = Some r → P r = true → m' !! id = Some r) →
  count P m' = count P m.
Proof.
  intros Hm Hsub Hk. unfold count. f_equal. apply Permutation_length, NoDup_Permutation.
  - apply rows_NoDup. by eapply numbers_ok_sub.
  - by apply rows_NoDup.
  - intros r. rewrite !elem_of_log_rows. split; intros [HP [id Hr]]; (split; [done|]); exists id.
    + by eapply lookup_weaken.
    + by apply Hk.
Qed.

(** C18: A purge that is asked for as it should be, runs alone and is refused nothing, answers
    with the numbers of rows that it archived, deleted and left on hold; of the rows
    that were there, those remain that are on hold or not older than the cutoff. *)
Theorem purge_complete dto actor cutoff jti w :
  chain_ok w → aw_faults w = [] → aw_refused w = [] → known w actor → cf_archive cfg = true →
  truthy (pd_olderThan dto) = true → Date_parse (pd_olderThan dto) = Some cutoff →
  cutoff ≤ aw_now w → truthy (trim (pd_reason dto)) = true →
  (run (verifyConfirmToken cfg (pd_confirmToken dto) actor cutoff) w).1 = Ok jti →
  find_row (λ q, bool_decide (pr_tokenId q = jti)) (aw_runs w) = None →
  ∃ res w', run (purgeOlderThan cfg ctx dto actor) w = (Ok res, w') ∧
    pg_deletedCount res = count (purgeable cutoff) (aw_logs w) ∧
    pg_archivedCount res = count (purgeable cutoff) (aw_logs w) ∧
    pg_heldCount res = count (held_older cutoff) (aw_logs w) ∧
    ∀ id r, ¬ future w id →
      aw_logs w' !! id = Some r ↔ aw_logs w !! id = Some r ∧ purgeable cutoff r = false.
Proof.
  intros Hc Hfaults Hrefused Hknown Harch Htext Hdate Hpast Hreason Htoken Hnew.
  pose proof (chain_numbers_ok w Hc) as Hm. unfold purgeOlderThan.
  assert (run (parseCutoff (pd_olderThan dto)) w = (Ok cutoff, w)) as Hcut.
  { unfold parseCutoff. rewrite Htext, run_bind, run_require, Hdate. cbn.
    rewrite run_bind. unfold now. rewrite run_gets, run_bind, run_throw_if.
    by rewrite (proj2 (Z.ltb_ge _ _)). }
  rewrite run_bind, Hcut. cbv zeta. rewrite run_bind, run_throw_if, Hreason. cbn [negb].
  rewrite run_bind. pose proof (looks_verifyConfirmToken (pd_confirmToken dto) actor cutoff w) as Hlook.
  destruct (run (verifyConfirmToken _ _ _ _) w) as [r0 w0]. cbn in Htoken, Hlook. subst r0 w0.
  rewrite run_bind, run_throw_if, Harch. cbn [negb].
  rewrite run_bind. unfold start_run, run_create. rewrite run_catch, run_act_outcome.
  unfold draw. cbv zeta beta iota. cbn [pr_tokenId].
  change (aw_runs (w{{aw_draws ::= S}})) with (aw_runs w). rewrite Hnew.
  rewrite bool_decide_eq_false_2 by (by intros [? ?]).
  set (q := {| pr_id := _ |}). set (w2 := _{{aw_runs ::= _}}).
  rewrite run_bind. pose proof (wp_archive_and_delete (pr_id q) cutoff w2 Hm) as Hwp.
  unfold wp in Hwp. destruct Hwp as (_&Hok&Hdone).
  destruct (Hok Hfaults Hrefused) as (Hisok&[q3 Hq3]&Hr3); [by exists q; apply lookup_insert_eq|].
  destruct (run (archive_and_delete _ _) w2) as [[[[a key] n]|e] w3]; [|done].
  cbn [fst snd] in *. destruct (Hdone a key n eq_refl) as (Hp&Hcount&Hn&Hnone). clear Hok Hdone Hisok.
  change (aw_logs w2) with (aw_logs w) in Hn. destruct Hp as [Hframe Hsub Hkept _].
  change (aw_logs w2) with (aw_logs w) in Hsub, Hkept.
  rewrite run_bind. unfold logs_count. rewrite run_gets, run_bind. unfold now. rewrite run_gets.
  rewrite run_bind. unfold run_update. rewrite run_act_outcome, Hq3.
  set (q4 := q3{{pr_status := _; pr_deletedCount := _; pr_heldCount := _; pr_finishedAt := _}}).
  set (w4 := w3{{aw_runs ::= insert (pr_id q) q4}}).
  rewrite run_bind.
  destruct (auditSelf_ok actor ((self "AUDIT_LOG_PURGED")
    {{sa_severity := Some S_CRITICAL; sa_entityId := Some (pr_id q);
      sa_reason := Some (trim (pd_reason dto));
      sa_diff := VObj [("before", VObj [("cutoff", VStr (toISOString cutoff));
                          ("archivedCount", VNum (ar_count a)); ("archiveKey", opt_js key)]);
                       ("after", VObj [("deletedCount", VNum n);
                          ("heldCount", VNum (count (held_older cutoff) (aw_logs w3)))])] }}) w4)
    as (row&w5&Hrun&Hl5).
  - done.
  - unfold known. change (aw_users w4) with (aw_users w3). rewrite Hframe. exact Hknown.
  - rewrite Hrun, run_ret. eexists _, w5. split; [reflexivity|]. cbn.
    rewrite count_matching, <- Hn, Hcount. split_and!; [done..| |].
    + apply count_kept; [done..|]. intros id r Hr [_ Hh]%andb_prop. apply Hkept; [done|].
      unfold purgeable. by rewrite Hh, andb_false_r.
    + intros id r Hpast'. rewrite Hl5. change (aw_logs w4) with (aw_logs w3).
      change (aw_draws w4) with (aw_draws w3).
      assert (aw_draws w3 = S (aw_draws w)) as -> by (rewrite Hframe; done).
      rewrite lookup_insert_ne by (intros <-; apply Hpast'; by exists (S (aw_draws w)); split; [lia|]).
      split.
      * intros Hr. split; [by eapply lookup_weaken|]. destruct (purgeable cutoff r) eqn:HP; [|done].
        assert (r ∈ matching (purgeable cutoff) (aw_logs w3)) as Hin
          by (apply elem_of_log_matching; split; [done|by exists id]).
        rewrite Hnone in Hin. by apply elem_of_nil in Hin.
      * intros [Hr HP]. by apply Hkept.
Qed.
End alone.
