(* ===== verification/AuditSeq.v ===== *)
(** * Handlers of the audit log that run alone

    The confirmation token's round trip, the archive that no one gets to read, and the
    witnesses of the purge. *)

From S2P Require Import Prelude Interleave Js Json JsDate Roles AuditRedaction.
From S2P Require Import AuditModel AuditChain AuditPurge AuditHold AuditSafety AuditTrust AuditProps.
From S2P Require Import AuditProps AuditVerify AuditArchive.
From stdpp Require Import sorting.
From coqutil Require Import Datatypes.RecordSetters.
Import DoubleBraceUpdate.

Open Scope Z_scope.

(** ** The confirmation token *)

Section token.
Context `{AuditLib} (cfg : AuditCfg).
(** base64url: digits, no full stop, read back as it was written. *)
Context (from_to : ∀ s, from_base64url (base64url s) = s).
Context (no_stop : ∀ s, str_forallb (λ c, bool_decide (c ≠ "."%char)) (base64url s) = true).
Context (nothing : base64url "" = "").
Context (some_digest : ∀ k s, hmac_sha256 k s ≠ "").

Lemma base64url_truthy s : s ≠ "" → truthy (base64url s) = true.
Proof.
  intros Hs. apply bool_decide_eq_true. intros E. apply Hs.
  by rewrite <- (from_to s), E, <- nothing, from_to.
Qed.

Lemma claims_once c : keys_once (claims_json c).
Proof.
  cbn. split; [|tauto]. repeat (apply NoDup_cons; split; [set_solver|]). constructor.
Qed.

(** C27: The token of a preview, presented again: refused once it is out of time, to anyone
    else, for any other date; and else good for the identifier it was issued with. *)
Theorem token_roundtrip actor actor' cutoff cutoff' w w1 w2 token exp :
  printable cutoff → printable cutoff' →
  run (issueConfirmToken cfg actor cutoff) w = (Ok (token, exp), w1) →
  exp = aw_now w + PURGE_TOKEN_TTL_MS ∧
  run (verifyConfirmToken cfg token actor' cutoff') w2 =
    (if exp <? aw_now w2 then Err (BadRequest "confirm_token_expired")
     else if negb (bool_decide (ac_id actor' = ac_id actor))
     then Err (Forbidden "confirm_token_issued_to_another_user")
     else if negb (bool_decide (cutoff' = cutoff))
     then Err (BadRequest "confirm_token_does_not_match_olderThan")
     else Ok (aud_uuid (aw_draws w)), w2).
Proof.
  intros Hp Hp'. unfold issueConfirmToken, requireUserId. rewrite run_bind.
  destruct (ac_id actor) as [sub|]; [|done]. destruct (truthy sub); [|done].
  rewrite run_ret, run_bind. unfold now. rewrite run_gets, run_bind. unfold draw_uuid.
  rewrite run_act. unfold draw. cbv beta iota zeta. cbn [fst snd].
  set (claims := {| tc_sub := sub |}). set (body := base64url (stringify (claims_json claims))).
  unfold tokenSecret. rewrite run_bind. destruct (cf_purge_secret cfg) as [secret|] eqn:Hs; [|done].
  destruct (_ <? 32)%nat eqn:Hlen; [done|]. rewrite !run_ret. intros [= <- <- <-]. split; [done|].
  unfold verifyConfirmToken. change "."%string with (Str "." "").
  assert (Js.split "." (body +:+ "." +:+ base64url (hmac_sha256 secret body)) =
    [body; base64url (hmac_sha256 secret body)]) as ->.
  { change ("." +:+ base64url (hmac_sha256 secret body)) with
      (Str "." (base64url (hmac_sha256 secret body))).
    by rewrite split_app_sep, split_no_sep by apply no_stop. }
  assert (truthy body = true) as -> by by apply base64url_truthy.
  rewrite (base64url_truthy (hmac_sha256 secret body)) by (done || apply some_digest). cbn [andb].
  unfold tokenSecret. rewrite Hs, Hlen, run_bind, run_ret, run_bind, run_throw_if, from_to.
  rewrite bool_decide_eq_true_2 by done. cbn [negb].
  unfold body at 1. rewrite run_bind, run_require, from_to, json_roundtrip by apply claims_once.
  cbn [from_option]. rewrite run_bind, run_throw_if. cbn [claims_json].
  rewrite run_bind. unfold now. rewrite run_gets, run_bind, run_throw_if.
  change (match member "exp" _ with Some (JNum e) => e <? aw_now w2 | _ => false end)
    with (aw_now w + PURGE_TOKEN_TTL_MS <? aw_now w2).
  destruct (_ <? aw_now w2); [done|]. rewrite run_bind, run_throw_if.
  change (member "sub" _) with (Some (JStr sub)).
  change (member "cutoff" _) with (Some (JStr (toISOString cutoff))).
  change (member "jti" _) with (Some (JStr (aud_uuid (aw_draws w)))).
  assert (claim_is (Some (JStr sub)) (ac_id actor') = bool_decide (ac_id actor' = Some sub)) as ->.
  { unfold claim_is. destruct (ac_id actor') as [b|]; [|done]. apply bool_decide_ext.
    split; congruence. }
  destruct (bool_decide (ac_id actor' = Some sub)); cbn [negb]; [|done].
  rewrite run_bind, run_throw_if.
  assert (claim_is (Some (JStr (toISOString cutoff))) (Some (toISOString cutoff')) =
    bool_decide (cutoff' = cutoff)) as ->.
  { cbn [claim_is]. apply bool_decide_ext. split; [|by intros ->]. intros E. symmetry.
    by apply toISOString_inj. }
  by destruct (bool_decide (cutoff' = cutoff)).
Qed.
End token.

(** ** The archive *)

(** No request for an archive is ever answered with files: the object storage has no
    method that reads one, so that the request ends in an error or waits for a second
    person, whoever asks for it, however often. *)
Theorem archive_out_of_reach `{AuditLib} cfg ctx api1 api2 id actor w :
  match (run (retrievePurgeArchive cfg ctx api1 api2 id actor) w).1 with
  | Ok (Done _) => False
  | Ok (Gated _) => True
  | Err _ => True
  end.
Proof.
  unfold retrievePurgeArchive. rewrite run_bind, run_gets, run_bind, run_require.
  destruct (aw_runs w !! id) as [q|]; [|done]. cbn [from_option].
  rewrite run_bind, run_throw_if. destruct (negb _); [done|].
  rewrite run_bind, run_throw_if. destruct (negb _); [done|]. rewrite run_bind.
  destruct (run (twoPerson _ _ _ _ _ _) w) as [[[aid rq|resp]|e] w1]; [|done..].
  unfold gated. rewrite run_bind. by rewrite getBuffer_missing.
Qed.

(** The approval of the second person is used up all the same. *)
Definition asked_for_archive : AuditW :=
  (run (answered (retrievePurgeArchive demo_cfg None (λ _, Throw (JsError "")) (λ _ _, Throw (JsError ""))
     (aud_unary 7) (person "s1"))) purged_log).2.
Definition second_asks :=
  run (retrievePurgeArchive demo_cfg None (λ _, Throw (JsError "")) (λ _ _, Throw (JsError ""))
     (aud_unary 7) (person "s2")) asked_for_archive.
Example approval_burnt :
  second_asks.1 = Err (ServiceUnavailable "archive_manifest_unreadable") ∧
  map ap_status (rows (λ _, true) (aw_approvals second_asks.2)) = [AP_CONSUMED].
Proof. vm_compute. auto. Qed.

(** ** Witnesses *)

Lemma demo_id_order : id_order.
Proof.
  split.
  - apply String.leb_total.
  - intros a b c Hab Hbc. cbn in *. apply Is_true_true, (transitivity (R := String.le) (y := b));
      by apply Is_true_true.
  - apply String.leb_antisym.
Qed.

Lemma letters_back s : from_two_letters (two_letters s) = s.
Proof.
  induction s as [|c s IH]; [done|]. cbn [two_letters from_two_letters]. rewrite IH. f_equal.
  unfold letter. pose proof (nat_ascii_bounded c) as Hc. set (n := nat_of_ascii c) in *.
  assert (n / 16 < 16)%nat by (apply Nat.Div0.div_lt_upper_bound; lia).
  pose proof (Nat.mod_upper_bound n 16 ltac:(done)).
  rewrite !nat_ascii_embedding by lia.
  replace ((65 + n / 16 - 65) * 16 + (65 + n mod 16 - 65))%nat with n
    by (pose proof (Nat.div_mod n 16 ltac:(done)); lia).
  apply ascii_nat_embedding.
Qed.
Lemma letters_no_stop s : str_forallb (λ c, bool_decide (c ≠ "."%char)) (two_letters s) = true.
Proof.
  assert (∀ n, (n < 16)%nat → bool_decide (letter n ≠ "."%char) = true) as Hhalf.
  { intros n Hn. do 16 (destruct n as [|n]; [done|]). lia. }
  induction s as [|c s IH]; [done|]. cbn [two_letters str_forallb]. rewrite IH, !Hhalf; [done|..].
  - apply Nat.mod_upper_bound. done.
  - apply Nat.Div0.div_lt_upper_bound. pose proof (nat_ascii_bounded c). lia.
Qed.
Lemma digest_text n : str_of_Z n ≠ "".
Proof. destruct (number_text n) as (c&t&->&_). done. Qed.

Definition issued := run (issueConfirmToken demo_cfg (person "s1") (4 * DAY_MS)) held_event.
Definition issued_token : string := match issued.1 with Ok (t, _) => t | Err _ => "" end.
Lemma token_roundtrip_witness :
  run (verifyConfirmToken demo_cfg issued_token (person "s2") (4 * DAY_MS)) held_event =
  (Err (Forbidden "confirm_token_issued_to_another_user"), held_event).
Proof.
  refine (eq_trans (proj2 (token_roundtrip demo_cfg letters_back letters_no_stop eq_refl
    (λ k s, digest_text _) (person "s1") (person "s2") (4 * DAY_MS) (4 * DAY_MS) held_event issued.2
    held_event issued_token (40 * DAY_MS + PURGE_TOKEN_TTL_MS) _ _ _)) _).
  - split; vm_compute; discriminate.
  - split; vm_compute; discriminate.
  - vm_compute. reflexivity.
  - reflexivity.
Defined.

(** The event A is gone after the purge. *)
Lemma archived_before_deleted_witness :
  accounted fourth_day (row_at held_event (aud_unary 0)) purged_log.
Proof.
  apply (archived_before_deleted demo_id_order demo_cfg None fourth_dto (person "s1")
    fourth_preview.2 (aud_unary 0)).
  - pose proof (audit_rel_preorder None).
    by destruct (rg_run _ _ _ _ _ held_event (held_event_inv None)
      (ok_previewPurge None demo_cfg None fourth_day (person "s1") held_event)) as [[]].
  - vm_compute. reflexivity.
  - vm_compute. reflexivity.
Defined.

Lemma purge_complete_witness :
  ∃ res, (run (purgeOlderThan demo_cfg None fourth_dto (person "s1")) fourth_preview.2).1 = Ok res ∧
    pg_deletedCount res = 2 ∧ pg_heldCount res = 1.
Proof.
  destruct (purge_complete demo_id_order demo_cfg None fourth_dto (person "s1") (4 * DAY_MS)
    (aud_unary 5) fourth_preview.2) as (res&w'&Hrun&Hd&_&Hh&_).
  - pose proof (audit_rel_preorder None).
    by destruct (rg_run _ _ _ _ _ held_event (held_event_inv None)
      (ok_previewPurge None demo_cfg None fourth_day (person "s1") held_event)) as [[]].
  - reflexivity.
  - reflexivity.
  - intros _ u [= <-]. vm_compute. reflexivity.
  - reflexivity.
  - reflexivity.
  - vm_compute. reflexivity.
  - vm_compute. discriminate.
  - reflexivity.
  - vm_compute. reflexivity.
  - vm_compute. reflexivity.
  - exists res. rewrite Hrun, Hd, Hh. split; [reflexivity|]. vm_compute. auto.
Defined.
