(* ===== verification/UssdModel.v ===== *)
(** * USSD: tables, sessions and services

    The session store src/modules/ussd/service/ussd-session.service.ts, with the state
    of src/modules/ussd/dto/ussd-session.dto.ts as the JSON that Redis keeps; the columns
    of the three tables that callers without the app write; and the three services
    ussd-report.service.ts, ussd-missing-person.service.ts and
    ussd-information-submission.service.ts. *)

From S2P Require Import Prelude Js Json JsDate Redis Roles ReportModel.
From coqutil Require Import Datatypes.RecordSetters.
Import DoubleBraceUpdate.

Open Scope Z_scope.

(** ** Steps of the dialog *)

Inductive UssdStep :=
| ROOT
| REPORT_CATEGORY | REPORT_DESCRIPTION | REPORT_CONFIRM
| STATUS_INPUT_REF
| MISSING_PERSON_TYPE | MISSING_PERSON_NAME | MISSING_PERSON_DESCRIPTION
| MISSING_PERSON_DATE_LAST_SEEN | MISSING_PERSON_LAST_AREA | MISSING_PERSON_CONFIRM
| INFO_MISSING_PERSON_ID | INFO_DESCRIPTION | INFO_CONFIRM.

#[export] Instance UssdStep_eq_dec : EqDecision UssdStep.
Proof. solve_decision. Defined.

Definition all_steps : list UssdStep :=
  [ROOT; REPORT_CATEGORY; REPORT_DESCRIPTION; REPORT_CONFIRM; STATUS_INPUT_REF;
   MISSING_PERSON_TYPE; MISSING_PERSON_NAME; MISSING_PERSON_DESCRIPTION;
   MISSING_PERSON_DATE_LAST_SEEN; MISSING_PERSON_LAST_AREA; MISSING_PERSON_CONFIRM;
   INFO_MISSING_PERSON_ID; INFO_DESCRIPTION; INFO_CONFIRM].

Definition step_name (s : UssdStep) : string :=
  match s with
  | ROOT => "ROOT"
  | REPORT_CATEGORY => "REPORT_CATEGORY"
  | REPORT_DESCRIPTION => "REPORT_DESCRIPTION"
  | REPORT_CONFIRM => "REPORT_CONFIRM"
  | STATUS_INPUT_REF => "STATUS_INPUT_REF"
  | MISSING_PERSON_TYPE => "MISSING_PERSON_TYPE"
  | MISSING_PERSON_NAME => "MISSING_PERSON_NAME"
  | MISSING_PERSON_DESCRIPTION => "MISSING_PERSON_DESCRIPTION"
  | MISSING_PERSON_DATE_LAST_SEEN => "MISSING_PERSON_DATE_LAST_SEEN"
  | MISSING_PERSON_LAST_AREA => "MISSING_PERSON_LAST_AREA"
  | MISSING_PERSON_CONFIRM => "MISSING_PERSON_CONFIRM"
  | INFO_MISSING_PERSON_ID => "INFO_MISSING_PERSON_ID"
  | INFO_DESCRIPTION => "INFO_DESCRIPTION"
  | INFO_CONFIRM => "INFO_CONFIRM"
  end.
(** The [case] that a text selects. *)
Definition step_of (name : string) : option UssdStep :=
  find (λ s, bool_decide (step_name s = name)) all_steps.
Lemma step_of_name s : step_of (step_name s) = Some s.
Proof. by destruct s. Qed.

(** ** Tables *)

Inductive SubmissionChannel := CH_APP | CH_USSD.
Inductive MissingPersonType := WOMAN | CHILD.
Inductive MissingPersonStatus :=
| MP_PENDING | MP_UNDER_REVIEW | MP_APPROVED | MP_REJECTED | MP_FOUND
| MP_MORE_INFORMATION_REQUESTED | MP_EXPIRED | MP_CANCELLED.
Inductive InformationStatus := INF_PENDING | INF_UNDER_REVIEW | INF_REVIEWED | INF_REJECTED.

#[export] Instance SubmissionChannel_eq_dec : EqDecision SubmissionChannel.
Proof. solve_decision. Defined.
#[export] Instance MissingPersonType_eq_dec : EqDecision MissingPersonType.
Proof. solve_decision. Defined.
#[export] Instance MissingPersonStatus_eq_dec : EqDecision MissingPersonStatus.
Proof. solve_decision. Defined.

Definition person_type_name (t : MissingPersonType) : string :=
  match t with WOMAN => "WOMAN" | CHILD => "CHILD" end.

(** The columns that these services write or read; the others keep their defaults. *)
Record ReportRow := {
  rr_id : string;
  rr_userId : option string;
  rr_caseReference : string;
  rr_category : ReportCategory;
  rr_description : string;
  rr_status : ReportStatus;
  rr_channel : SubmissionChannel;
}.
Record MissingPerson := {
  mp_id : string;
  mp_userId : option string;
  mp_contactPhone : option string;
  mp_personType : MissingPersonType;
  mp_name : option string;
  mp_description : string;
  mp_dateLastSeen : Z;
  mp_lastKnownArea : string;
  mp_status : MissingPersonStatus;
  mp_channel : SubmissionChannel;
  mp_createdAt : Z;
}.
Record InformationSubmission := {
  is_id : string;
  is_userId : option string;
  is_missingPersonId : string;
  is_information : string;
  is_status : InformationStatus;
  is_channel : SubmissionChannel;
}.

(** What is emitted: audit events of the actor SYSTEM, and notices. *)
Inductive UssdEvent :=
| UssdAudit (action entity entityId : string) (entityLabel : option string)
    (diff metadata : json)
| NewReport (reportId caseReference : string)
| NewMissingPersonRequest (missingPersonId : string).

(** ** The world *)

(** UUIDs and [Math.random().toString(36).slice(2, 8).toUpperCase()] *)
Class UssdLib := { uss_uuid : nat → string; uss_base36 : nat → string }.

Record UssdW := {
  uw_redis : RedisSt;
  uw_reports : gmap string ReportRow;
  uw_missing : gmap string MissingPerson;
  uw_infos : gmap string InformationSubmission;
  uw_events : list UssdEvent;                   (* newest first *)
  uw_draws : nat;
  uw_now : Z;
}.

#[export] Instance UssdW_redis : HasRedis UssdW := {|
  redis_of _ w := uw_redis w;
  with_redis _ r w := w{{uw_redis := r}};
  now_of := uw_now;
|}.
#[export] Instance UssdW_laws : RedisLaws UssdW.
Proof. by split; intros; repeat match goal with w : UssdW |- _ => destruct w end. Qed.

Definition now : prog UssdW Z := gets uw_now.
Definition draw : prog UssdW nat := act (λ w, (uw_draws w, w{{uw_draws ::= S}})).
Definition emit (e : UssdEvent) : prog UssdW () := modify (λ w, w{{uw_events ::= cons e}}).

(** ** [UssdSessionService] *)

Definition SESSION_TTL_SECONDS : Z := 180.
Definition KEY_PREFIX : string := "ussd:session:".

(** A member in a template or a concatenation. *)
Fixpoint js_text (j : json) : string :=
  match j with
  | JNull => "null"
  | JBool b => if b then "true" else "false"
  | JNum n => str_of_Z n
  | JStr s => s
  | JArr xs => Js.join "," (map (λ x, match x with JNull => "" | _ => js_text x end) xs)
  | JObj _ => "[object Object]"
  end.
Definition text_of (o : option json) : string := from_option js_text "undefined" o.

(** A field of the request that may be missing; [JSON.stringify] leaves it out then. *)
Definition opt_member (k : string) (o : option string) : list (string * json) :=
  match o with Some s => [(k, JStr s)] | None => [] end.
Definition session_key (sessionId : option json) : string := KEY_PREFIX +:+ text_of sessionId.

Definition session_get (sessionId : option string) : prog UssdW (option json) :=
  redis_get CacheConn (session_key (JStr <$> sessionId)).
Definition session_save (state : json) : prog UssdW () :=
  redis_set CacheConn (session_key (member "sessionId" state)) state
    (Some SESSION_TTL_SECONDS) ;;
  mret ().
Definition session_state (sessionId phoneNumber : option string) (step : UssdStep)
    (data : list (string * json)) (createdAt : Z) : json :=
  JObj (opt_member "sessionId" sessionId ++ opt_member "phoneNumber" phoneNumber ++
        [("step", JStr (step_name step)); ("data", JObj data); ("createdAt", JNum createdAt)]).
Definition session_start (sessionId phoneNumber : option string) : prog UssdW json :=
  t ← now;
  let state := session_state sessionId phoneNumber ROOT [] t in
  session_save state ;;
  mret state.
(** [{ ...state, step, data: { ...state.data, ...patch } }] *)
Definition with_step (state : json) (step : UssdStep) (patch : list (string * string)) : json :=
  JObj (obj_spread (members state)
    [("step", JStr (step_name step));
     ("data", JObj (obj_spread (members (default JNull (member "data" state)))
                      (map (λ kv, (kv.1, JStr kv.2)) patch)))]).
Definition setStep (state : json) (step : UssdStep) (patch : list (string * string))
    : prog UssdW json :=
  let next := with_step state step patch in
  session_save next ;;
  mret next.
Definition session_end (sessionId : option json) : prog UssdW () :=
  redis_del CacheConn [session_key sessionId] ;; mret ().

(** ** What the database client checks of an argument *)

Definition invalid_argument : exn := JsError "PrismaClientValidationError".
Definition text_arg (o : option json) : prog UssdW string :=
  match o with Some (JStr s) => mret s | _ => Throw invalid_argument end.
(** A text that is one of an enumeration's. *)
Definition enum_arg {A} (name : A → string) (all : list A) (o : option json) : prog UssdW A :=
  s ← text_arg o;
  require (find (λ a, bool_decide (name a = s)) all) invalid_argument.

Definition all_categories : list ReportCategory :=
  [HARASSMENT; ABUSE; FRAUD; THREAT; DISCRIMINATION; SAFETY_CONCERN; OTHER].

Section services.
Context `{UssdLib}.

(** ** [UssdReportService] *)

Definition CASE_REFERENCE_MAX_ATTEMPTS : nat := 5.

(** [new Date().getFullYear()], on a server in UTC. *)
Definition local_year (t : Z) : Z := (civil_from_days (t / DAY_MS)).1.1.
Definition generateCaseReference : prog UssdW string :=
  t ← now;
  n ← draw;
  mret ("EHT-" +:+ str_of_Z (local_year t) +:+ "-" +:+ uss_base36 n).

(** [report.create]; the case reference is unique. *)
Definition report_create (mk : string → ReportRow) : prog UssdW ReportRow :=
  act_outcome (λ w,
    let r := mk (uss_uuid (uw_draws w)) in
    let w := w{{uw_draws ::= S}} in
    if bool_decide (map_Forall (λ _ q, rr_caseReference q ≠ rr_caseReference r) (uw_reports w))
    then (Ok r, w{{uw_reports ::= insert (rr_id r) r}})
    else (Err (PrismaKnown "P2002" ["caseReference"]), w)).

Definition new_report (caseReference : string) (category : ReportCategory)
    (description id : string) : ReportRow :=
  {| rr_id := id; rr_userId := None; rr_caseReference := caseReference;
     rr_category := category; rr_description := description; rr_status := PENDING;
     rr_channel := CH_USSD |}.

(** The loop; [n] attempts are left after this one. *)
Fixpoint createWithUniqueCaseReference (n : nat) (category description : option json)
    : prog UssdW ReportRow :=
  caseReference ← generateCaseReference;
  r ← attempt
    (category ← enum_arg category_name all_categories category;
     description ← text_arg description;
     report_create (new_report caseReference category description));
  match r with
  | Ok report => mret report
  | Err (PrismaKnown code target as err) =>
      if bool_decide (code = "P2002") && mem "caseReference" target then
        match n with
        | O => Throw err
        | S n => createWithUniqueCaseReference n category description
        end
      else Throw err
  | Err err => Throw err
  end.

Definition report_createAnonymous (category description : option json)
    : prog UssdW ReportRow :=
  report ← createWithUniqueCaseReference (pred CASE_REFERENCE_MAX_ATTEMPTS) category description;
  emit (UssdAudit "REPORT_CREATED" "Report" (rr_id report) (Some (rr_caseReference report))
    (JObj [("result", JStr "success"); ("status", JStr (status_name (rr_status report)))])
    (JObj [("category", JStr (category_name (rr_category report))); ("channel", JStr "USSD")])) ;;
  emit (NewReport (rr_id report) (rr_caseReference report)) ;;
  mret report.

(** The reference and the status, or [null]. *)
Definition findStatusByCaseReferencePublic (caseReference : string)
    : prog UssdW (option (string * ReportStatus)) :=
  gets (λ w,
    match find (λ kr, bool_decide (rr_caseReference kr.2 = caseReference))
            (map_to_list (uw_reports w)) with
    | Some (_, r) => Some (rr_caseReference r, rr_status r)
    | None => None
    end).

(** ** [UssdMissingPersonService] *)

(** Children's names are kept out of audits. *)
Definition caseLabel (m : MissingPerson) : option string :=
  match mp_personType m with
  | CHILD => Some ("Child case " +:+ str_take 8 (mp_id m))
  | WOMAN => mp_name m
  end.

Definition new_missing (phone : option string) (personType : MissingPersonType)
    (name : option string) (description : string) (dateLastSeen : Z) (area id : string)
    (createdAt : Z) : MissingPerson :=
  {| mp_id := id; mp_userId := None; mp_contactPhone := phone; mp_personType := personType;
     mp_name := name; mp_description := description; mp_dateLastSeen := dateLastSeen;
     mp_lastKnownArea := area; mp_status := MP_PENDING; mp_channel := CH_USSD;
     mp_createdAt := createdAt |}.
Definition missing_create (mk : string → Z → MissingPerson) : prog UssdW MissingPerson :=
  act (λ w,
    let m := mk (uss_uuid (uw_draws w)) (uw_now w) in
    (m, w{{uw_draws ::= S}}{{uw_missing ::= insert (mp_id m) m}})).

(** [new Date(x)] of a session's member: an invalid date is refused by the client. *)
Definition date_arg (o : option json) : prog UssdW Z :=
  require (match o with
           | Some (JStr s) => Date_parse s
           | Some (JNum n) => Some n
           | Some JNull => Some 0
           | _ => None
           end) invalid_argument.
(** A column that may be null: a text, or nothing. *)
Definition opt_text_arg (o : option json) : prog UssdW (option string) :=
  match o with
  | None | Some JNull => mret None
  | Some (JStr s) => mret (Some s)
  | _ => Throw invalid_argument
  end.
(** [x || undefined] *)
Definition or_undefined (o : option json) : option json :=
  match o with
  | Some (JStr "") | Some (JNum 0) | Some (JBool false) | Some JNull => None
  | _ => o
  end.

Definition missing_createAnonymous (personType description dateLastSeen area name phone
    : option json) : prog UssdW MissingPerson :=
  phone ← opt_text_arg phone;
  personType ← enum_arg person_type_name [WOMAN; CHILD] personType;
  name ← opt_text_arg (or_undefined name);
  description ← text_arg description;
  date ← date_arg dateLastSeen;
  area ← text_arg area;
  m ← missing_create (new_missing phone personType name description date area);
  emit (UssdAudit "MISSING_PERSON_CREATED" "MissingPerson" (mp_id m) (caseLabel m)
    (JObj [("personType", JStr (person_type_name (mp_personType m)));
           ("status", JStr "PENDING"); ("result", JStr "success")])
    (JObj [("channel", JStr "USSD")])) ;;
  emit (NewMissingPersonRequest (mp_id m)) ;;
  mret m.

Definition is_approved (m : MissingPerson) : bool := bool_decide (mp_status m = MP_APPROVED).
(** [findUnique], then the check of the status. *)
Definition findApprovedPublic (id : string) : prog UssdW MissingPerson :=
  o ← gets (λ w, uw_missing w !! id);
  match o with
  | Some m => if is_approved m then mret m else Throw (NotFound "missing_person_not_found")
  | None => Throw (NotFound "missing_person_not_found")
  end.

(** ** [UssdInformationSubmissionService] *)

Definition new_info (missingPersonId information id : string) : InformationSubmission :=
  {| is_id := id; is_userId := None; is_missingPersonId := missingPersonId;
     is_information := information; is_status := INF_PENDING; is_channel := CH_USSD |}.
(** [informationSubmission.create]; the case must still be there. *)
Definition info_create (mk : string → InformationSubmission) : prog UssdW InformationSubmission :=
  act_outcome (λ w,
    let i := mk (uss_uuid (uw_draws w)) in
    let w := w{{uw_draws ::= S}} in
    match uw_missing w !! is_missingPersonId i with
    | Some _ => (Ok i, w{{uw_infos ::= insert (is_id i) i}})
    | None => (Err (PrismaKnown "P2003" []), w)
    end).
Definition info_createAnonymous (missingPersonId information : option json)
    : prog UssdW InformationSubmission :=
  id ← text_arg missingPersonId;
  findApprovedPublic id ;;
  information ← text_arg information;
  i ← info_create (new_info id information);
  emit (UssdAudit "INFORMATION_SUBMITTED" "InformationSubmission" (is_id i) None
    (JObj [("result", JStr "success"); ("status", JStr "PENDING")])
    (JObj [("missingPersonId", JStr id); ("channel", JStr "USSD")])) ;;
  mret i.
End services.
