(* ===== verification/UssdMenu.v ===== *)
(** * The USSD menu

    src/modules/ussd/service/ussd-menu.service.ts, the gateway's adapter
    src/modules/ussd/service/adapters/africastalking-style.adapter.ts and the controller
    src/modules/ussd/controller/ussd.controller.ts. The gateway posts a form, whose
    fields are texts. *)

From S2P Require Import Prelude Js Json JsDate Redis Roles ReportModel UssdModel.

Open Scope Z_scope.

Record UssdInboundDto := {
  in_sessionId : option string;
  in_phoneNumber : option string;
  in_input : string;
  in_serviceCode : option string;
}.
Record UssdOutboundResult := { out_text : string; out_continueSession : bool }.
Definition con (text : string) : UssdOutboundResult :=
  {| out_text := text; out_continueSession := true |}.
Definition fin (text : string) : UssdOutboundResult :=
  {| out_text := text; out_continueSession := false |}.

(** ** The texts *)

Definition REPORT_CATEGORIES : list (string * ReportCategory) :=
  [("Harassment", HARASSMENT); ("Abuse", ABUSE); ("Fraud", FRAUD); ("Threat", THREAT);
   ("Discrimination", DISCRIMINATION); ("Safety concern", SAFETY_CONCERN); ("Other", OTHER)].
Definition HELP_MESSAGE : string :=
  "If you are in immediate danger, contact local police or a nearby health facility. " +:+
  "For confidential support, use Ehte to report or ask a trusted person for help.".

Definition STATUS_LOOKUP_MAX_ATTEMPTS : Z := 5.
Definition STATUS_LOOKUP_WINDOW_SECONDS : Z := 600.
Definition STATUS_LOOKUP_THROTTLE_KEY_PREFIX : string := "ussd:status-lookup-attempts:".
Definition TIP_SUBMIT_MAX_ATTEMPTS : Z := 5.
Definition TIP_SUBMIT_WINDOW_SECONDS : Z := 3600.
Definition TIP_SUBMIT_THROTTLE_KEY_PREFIX : string := "ussd:tip-submit-attempts:".

Definition lines (xs : list string) : string := Js.join newline xs.
Definition renderRoot : UssdOutboundResult :=
  con (lines ["Ehte"; "1. Report an incident"; "2. Report a missing person";
              "3. Provide info on a missing person"; "4. Check report status";
              "5. Get help / guidance"; "0. Exit"]).
Definition category_list : string :=
  lines (imap (λ i c, str_of_Z (Z.of_nat i + 1) +:+ ". " +:+ c.1) REPORT_CATEGORIES).

(** [REPORT_CATEGORIES[Number(input) - 1]] *)
Definition chosen_category (input : string) : option (string * ReportCategory) :=
  x ← Number input;
  snd <$> find (λ nc, decimal_is x (Z.of_nat nc.1 + 1)) (imap pair REPORT_CATEGORIES).

(** [parseDdMmYyyy]: the pattern of one or two, one or two, and four digits between
    slashes. *)
Definition digits_between (lo hi : nat) (s : string) : option Z :=
  if (lo <=? String.length s)%nat && (String.length s <=? hi)%nat then all_digits s else None.
Definition dd_mm_yyyy (input : string) : option (Z * Z * Z) :=
  match split "/" input with
  | [a; b; c] =>
      day ← digits_between 1 2 a; month ← digits_between 1 2 b; year ← digits_between 4 4 c;
      Some (day, month, year)
  | _ => None
  end.
Definition parseDdMmYyyy (input : string) (now : Z) : option string :=
  '(day, month, year) ← dd_mm_yyyy input;
  let date := Date_UTC year month day in
  if negb (bool_decide (utc_date date = (year, month, day))) || (now <? date) then None
  else Some (toISOString date).

Section menu.
Context `{UssdLib}.

Definition checkAndIncrementThrottle (key : string) (windowSeconds maxAttempts : Z)
    : prog UssdW bool :=
  attempts ← incrementWithTtl CacheConn key windowSeconds;
  mret match attempts with None => true | Some n => n <=? maxAttempts end.

(** [state.data[k]]; reading a member of nothing throws. *)
Definition state_data (state : json) (k : string) : prog UssdW (option json) :=
  match member "data" state with
  | None | Some JNull => Throw (JsError "TypeError")
  | Some d => mret (member k d)
  end.
Definition state_end (state : json) : prog UssdW () := session_end (member "sessionId" state).

Definition fromRoot (state : json) (input : string) : prog UssdW UssdOutboundResult :=
  match input with
  | "1" =>
      setStep state REPORT_CATEGORY [] ;;
      mret (con ("Select category:" +:+ newline +:+ category_list))
  | "2" =>
      setStep state MISSING_PERSON_TYPE [] ;;
      mret (con (lines ["Who is missing?"; "1. Woman"; "2. Child"]))
  | "3" =>
      setStep state INFO_MISSING_PERSON_ID [] ;;
      mret (con "Enter the Missing Person ID (from the poster or Ehte app):")
  | "4" =>
      setStep state STATUS_INPUT_REF [] ;;
      mret (con "Enter your Case Reference number:")
  | "5" => state_end state ;; mret (fin HELP_MESSAGE)
  | "0" => state_end state ;; mret (fin "Thank you for using Ehte.")
  | _ => mret (con ("Invalid choice." +:+ newline +:+ out_text renderRoot))
  end.

Definition fromReportCategory (state : json) (input : string) : prog UssdW UssdOutboundResult :=
  match chosen_category input with
  | None => mret (con "Invalid category. Please enter a number from the list.")
  | Some (label, value) =>
      setStep state REPORT_DESCRIPTION
        [("category", category_name value); ("categoryLabel", label)] ;;
      mret (con "Briefly describe what happened:")
  end.

Definition fromReportDescription (state : json) (input : string)
    : prog UssdW UssdOutboundResult :=
  if truthy (trim input) then
    setStep state REPORT_CONFIRM [("description", trim input)] ;;
    label ← state_data state "categoryLabel";
    mret (con (lines ["Category: " +:+ text_of label; "Submit this report?"; "1. Yes";
                      "2. No, cancel"]))
  else mret (con "Please enter a short description, or 0 to cancel.").

Definition fromReportConfirm (state : json) (input : string) : prog UssdW UssdOutboundResult :=
  if bool_decide (input = "1") then
    category ← state_data state "category";
    description ← state_data state "description";
    report ← report_createAnonymous category description;
    state_end state ;;
    mret (fin ("Report submitted. Your Case Reference is " +:+ rr_caseReference report +:+
               ". Keep it to check status later."))
  else
    state_end state ;;
    mret (fin "Report cancelled.").

Definition fromStatusInputRef (state : json) (input : string) : prog UssdW UssdOutboundResult :=
  state_end state ;;
  let reference := trim input in
  if negb (truthy reference) then mret (fin "No reference entered.")
  else
    withinLimit ← checkAndIncrementThrottle
      (STATUS_LOOKUP_THROTTLE_KEY_PREFIX +:+ text_of (member "phoneNumber" state))
      STATUS_LOOKUP_WINDOW_SECONDS STATUS_LOOKUP_MAX_ATTEMPTS;
    if negb withinLimit then mret (fin "Too many attempts. Please try again later.")
    else
      report ← findStatusByCaseReferencePublic reference;
      match report with
      | None => mret (fin "No report found for that reference.")
      | Some (caseReference, status) =>
          mret (fin ("Status for " +:+ caseReference +:+ ": " +:+ status_name status))
      end.

Definition fromMissingPersonType (state : json) (input : string)
    : prog UssdW UssdOutboundResult :=
  match (if bool_decide (input = "1") then Some WOMAN
         else if bool_decide (input = "2") then Some CHILD else None) with
  | None => mret (con (lines ["Invalid choice."; "1. Woman"; "2. Child"]))
  | Some personType =>
      setStep state MISSING_PERSON_NAME [("personType", person_type_name personType)] ;;
      mret (con "Enter their name, or 0 to skip:")
  end.

Definition fromMissingPersonName (state : json) (input : string)
    : prog UssdW UssdOutboundResult :=
  let name := if bool_decide (trim input = "0") then "" else trim input in
  setStep state MISSING_PERSON_DESCRIPTION [("name", name)] ;;
  mret (con "Briefly describe them (appearance, clothing, etc.):").

Definition fromMissingPersonDescription (state : json) (input : string)
    : prog UssdW UssdOutboundResult :=
  if truthy (trim input) then
    setStep state MISSING_PERSON_DATE_LAST_SEEN [("description", trim input)] ;;
    mret (con "Date last seen? Enter as DD/MM/YYYY:")
  else mret (con "Please enter a short description.").

Definition fromMissingPersonDateLastSeen (state : json) (input : string)
    : prog UssdW UssdOutboundResult :=
  t ← now;
  match parseDdMmYyyy (trim input) t with
  | None => mret (con "Invalid date. Please enter as DD/MM/YYYY, e.g. 15/09/2026:")
  | Some iso =>
      setStep state MISSING_PERSON_LAST_AREA [("dateLastSeen", iso)] ;;
      mret (con "Last known area (town/neighborhood):")
  end.

Definition fromMissingPersonLastArea (state : json) (input : string)
    : prog UssdW UssdOutboundResult :=
  if truthy (trim input) then
    setStep state MISSING_PERSON_CONFIRM [("lastKnownArea", trim input)] ;;
    mret (con (lines ["Submit this missing person report?"; "1. Yes"; "2. No, cancel"]))
  else mret (con "Please enter the last known area.").

Definition fromMissingPersonConfirm (state : json) (input : string)
    : prog UssdW UssdOutboundResult :=
  if bool_decide (input = "1") then
    personType ← state_data state "personType";
    description ← state_data state "description";
    dateLastSeen ← state_data state "dateLastSeen";
    area ← state_data state "lastKnownArea";
    name ← state_data state "name";
    m ← missing_createAnonymous personType description dateLastSeen area (or_undefined name)
          (member "phoneNumber" state);
    state_end state ;;
    mret (fin ("Missing person report submitted for review. Reference ID: " +:+ mp_id m))
  else
    state_end state ;;
    mret (fin "Missing person report cancelled.").

Definition fromInfoMissingPersonId (state : json) (input : string)
    : prog UssdW UssdOutboundResult :=
  let missingPersonId := trim input in
  if negb (truthy missingPersonId) then
    state_end state ;; mret (fin "No ID entered.")
  else
    r ← attempt (findApprovedPublic missingPersonId);
    match r with
    | Err _ =>
        state_end state ;;
        mret (fin "Case not found. It may not be published yet.")
    | Ok _ =>
        setStep state INFO_DESCRIPTION [("missingPersonId", missingPersonId)] ;;
        mret (con "What information do you have?")
    end.

Definition fromInfoDescription (state : json) (input : string)
    : prog UssdW UssdOutboundResult :=
  if truthy (trim input) then
    setStep state INFO_CONFIRM [("information", trim input)] ;;
    mret (con (lines ["Submit this information?"; "1. Yes"; "2. No, cancel"]))
  else mret (con "Please enter your information, or 0 to cancel.").

Definition fromInfoConfirm (state : json) (input : string) : prog UssdW UssdOutboundResult :=
  if bool_decide (input = "1") then
    withinLimit ← checkAndIncrementThrottle
      (TIP_SUBMIT_THROTTLE_KEY_PREFIX +:+ text_of (member "phoneNumber" state))
      TIP_SUBMIT_WINDOW_SECONDS TIP_SUBMIT_MAX_ATTEMPTS;
    state_end state ;;
    if negb withinLimit then mret (fin "Too many submissions. Please try again later.")
    else
      missingPersonId ← state_data state "missingPersonId";
      information ← state_data state "information";
      info_createAnonymous missingPersonId information ;;
      mret (fin "Thank you. Your information has been submitted for review.")
  else
    state_end state ;;
    mret (fin "Cancelled.").

Definition route (state : json) (input : string) : prog UssdW UssdOutboundResult :=
  match member "step" state ≫= λ j, match j with JStr s => step_of s | _ => None end with
  | Some ROOT => fromRoot state input
  | Some REPORT_CATEGORY => fromReportCategory state input
  | Some REPORT_DESCRIPTION => fromReportDescription state input
  | Some REPORT_CONFIRM => fromReportConfirm state input
  | Some STATUS_INPUT_REF => fromStatusInputRef state input
  | Some MISSING_PERSON_TYPE => fromMissingPersonType state input
  | Some MISSING_PERSON_NAME => fromMissingPersonName state input
  | Some MISSING_PERSON_DESCRIPTION => fromMissingPersonDescription state input
  | Some MISSING_PERSON_DATE_LAST_SEEN => fromMissingPersonDateLastSeen state input
  | Some MISSING_PERSON_LAST_AREA => fromMissingPersonLastArea state input
  | Some MISSING_PERSON_CONFIRM => fromMissingPersonConfirm state input
  | Some INFO_MISSING_PERSON_ID => fromInfoMissingPersonId state input
  | Some INFO_DESCRIPTION => fromInfoDescription state input
  | Some INFO_CONFIRM => fromInfoConfirm state input
  | None => state_end state ;; mret (fin "Session ended. Please dial again.")
  end.

(** [!existing] *)
Definition falsy (o : option json) : bool :=
  match o with
  | None | Some JNull | Some (JBool false) | Some (JNum 0) | Some (JStr "") => true
  | _ => false
  end.
Definition handle (inbound : UssdInboundDto) : prog UssdW UssdOutboundResult :=
  existing ← session_get (in_sessionId inbound);
  match existing with
  | Some state =>
      if falsy existing then
        session_start (in_sessionId inbound) (in_phoneNumber inbound) ;; mret renderRoot
      else route state (in_input inbound)
  | None => session_start (in_sessionId inbound) (in_phoneNumber inbound) ;; mret renderRoot
  end.

(** ** The adapter *)

Record RawBody := {
  rb_sessionId : option string;
  rb_phoneNumber : option string;
  rb_text : option string;
  rb_serviceCode : option string;
}.
(** The gateway repeats all inputs, between stars; the last that is not empty counts. *)
Definition parseInbound (body : RawBody) : UssdInboundDto :=
  {| in_sessionId := rb_sessionId body; in_phoneNumber := rb_phoneNumber body;
     in_input := default "" (last (filter (λ s, truthy s = true)
                                    (split "*" (default "" (rb_text body)))));
     in_serviceCode := rb_serviceCode body |}.
Definition formatOutbound (result : UssdOutboundResult) : string * string :=
  ((if out_continueSession result then "CON " else "END ") +:+ out_text result, "text/plain").

(** ** The controller *)

Record UssdConfig := {
  uc_secret : option string;                    (* USSD_GATEWAY_SECRET *)
  uc_allowedIps : option string;                (* USSD_ALLOWED_IPS *)
  uc_appEnv : option string;
  uc_nodeEnv : option string;
}.
Record UssdRequest := {
  rq_secretHeader : list string;                (* the values of x-ussd-secret *)
  rq_querySecret : option string;               (* ?secret=, when it is one text *)
  rq_ip : option string;
  rq_body : RawBody;
}.

Definition allowed_ips (cfg : UssdConfig) : list string :=
  filter (λ s, truthy s = true) (map trim (split "," (default "" (uc_allowedIps cfg)))).
Definition provided_secret (req : UssdRequest) : string :=
  default (default "" (rq_querySecret req)) (head (rq_secretHeader req)).
(** [ip.replace(/^::ffff:/, '')] *)
Definition plain_ip (ip : string) : string :=
  if starts_with "::ffff:" ip then str_drop 7 ip else ip.

Definition assertFromGateway (cfg : UssdConfig) (req : UssdRequest) : outcome () :=
  let secret := default "" (uc_secret cfg) in
  let allowedIps := allowed_ips cfg in
  if negb (truthy secret) && bool_decide (allowedIps = []) then
    let env := default (default "" (uc_nodeEnv cfg)) (uc_appEnv cfg) in
    if bool_decide (env = "development") || bool_decide (env = "test") then Ok ()
    else Err (Forbidden "ussd_gateway_not_configured")
  else
    let provided := provided_secret req in
    if truthy secret && truthy provided && bool_decide (provided = secret) then Ok ()
    else
      let ip := plain_ip (default "" (rq_ip req)) in
      if truthy ip && mem ip allowedIps then Ok ()
      else Err (Forbidden "ussd_caller_not_allowed").

Definition handleSession (cfg : UssdConfig) (req : UssdRequest) : prog UssdW (string * string) :=
  throw_outcome (assertFromGateway cfg req) ;;
  result ← handle (parseInbound (rq_body req));
  mret (formatOutbound result).
End menu.

(** ** The dates that are taken, against the calendar *)

(** A numeral of [lo] to [hi] digits. *)
Definition numeral (lo hi : nat) (s : string) (n : Z) : Prop :=
  str_forallb is_digit s = true ∧ (lo ≤ String.length s ≤ hi)%nat ∧ n = digits_value s.

Lemma digits_between_numeral lo hi s n :
  (0 < lo)%nat → digits_between lo hi s = Some n ↔ numeral lo hi s n.
Proof.
  intros Hlo. unfold digits_between, numeral, all_digits.
  destruct (Nat.leb_spec lo (String.length s)), (Nat.leb_spec (String.length s) hi); cbn [andb];
    try (split; [done|intros (_&?&_); lia]).
  assert (truthy s = true) as -> by (apply truthy_true; intros ->; cbn in *; lia).
  destruct (str_forallb is_digit s); cbn [andb]; naive_solver lia.
Qed.
Lemma digits_no_slash s : str_forallb is_digit s = true → str_forallb (λ a, bool_decide (a ≠ "/"%char)) s = true.
Proof.
  apply str_forallb_impl. intros c Hc. apply bool_decide_eq_true. by intros ->.
Qed.
Lemma dd_mm_yyyy_pattern input day month year :
  dd_mm_yyyy input = Some (day, month, year) ↔
  ∃ a b c, input = a +:+ "/" +:+ b +:+ "/" +:+ c ∧
    numeral 1 2 a day ∧ numeral 1 2 b month ∧ numeral 4 4 c year.
Proof.
  unfold dd_mm_yyyy. split.
  - pose proof (join_split "/" input) as Hj.
    destruct (split "/" input) as [|a [|b [|c [|]]]]; [done..| |done]. cbn [mbind option_bind].
    destruct (digits_between 1 2 a) eqn:Ha; [|done]. cbn [mbind option_bind].
    destruct (digits_between 1 2 b) eqn:Hb; [|done]. cbn [mbind option_bind].
    destruct (digits_between 4 4 c) eqn:Hc; [|done]. cbn [mbind option_bind].
    intros [= -> -> ->]. apply digits_between_numeral in Ha, Hb, Hc; [|lia..].
    exists a, b, c. by rewrite <- Hj.
  - intros (a&b&c&->&Ha&Hb&Hc).
    change (a +:+ "/" +:+ b +:+ "/" +:+ c) with (Js.join (Str "/" "") [a; b; c]).
    rewrite split_join; [|done|].
    + apply digits_between_numeral in Ha as ->, Hb as ->, Hc as ->; [done|lia..].
    + rewrite !Forall_cons, Forall_nil. split_and!; [by apply digits_no_slash, Ha|by apply digits_no_slash, Hb|
        by apply digits_no_slash, Hc|done].
Qed.

Lemma parsed_dates input t iso :
  parseDdMmYyyy input t = Some iso ↔
  ∃ a b c day month year, input = a +:+ "/" +:+ b +:+ "/" +:+ c ∧
    numeral 1 2 a day ∧ numeral 1 2 b month ∧ numeral 4 4 c year ∧
    100 ≤ year ∧ calendar_date year month day ∧
    days_from_civil year month day * DAY_MS ≤ t ∧
    iso = toISOString (days_from_civil year month day * DAY_MS).
Proof.
  assert (∀ c year, numeral 4 4 c year → 0 ≤ year ≤ 9999) as Hyear.
  { intros c year (Hd&Hl&->). pose proof (digits_value_bounds c Hd) as Hb.
    replace (String.length c) with 4%nat in Hb by lia. lia. }
  assert (∀ year month day, 0 ≤ year ≤ 9999 →
    utc_date (Date_UTC year month day) = (year, month, day) →
    Date_UTC year month day = days_from_civil year month day * DAY_MS) as Heq.
  { intros year month day Hy E. pose proof E as [H100 Hc]%Date_UTC_exact; [|done].
    unfold utc_date in E. apply civil_dates in E as [_ E]. rewrite E.
    unfold Date_UTC. by rewrite Z.div_mul. }
  unfold parseDdMmYyyy. split.
  - destruct (dd_mm_yyyy input) as [[[day month] year]|] eqn:Hp; [|done]. cbn [mbind option_bind].
    apply dd_mm_yyyy_pattern in Hp as (a&b&c&->&Ha&Hb&Hc). specialize (Hyear _ _ Hc).
    case_bool_decide as Hd; [|done]. cbn [negb orb]. rewrite (Heq _ _ _ Hyear Hd).
    destruct (Z.ltb_spec t (days_from_civil year month day * DAY_MS)); [done|]. intros [= <-].
    apply Date_UTC_exact in Hd as [??]; [|done]. by exists a, b, c, day, month, year.
  - intros (a&b&c&day&month&year&->&Ha&Hb&Hc&H100&Hd&Ht&->). specialize (Hyear _ _ Hc).
    rewrite (proj2 (dd_mm_yyyy_pattern _ day month year)) by eauto 10. cbn [mbind option_bind].
    assert (utc_date (Date_UTC year month day) = (year, month, day)) as E by (by apply Date_UTC_exact).
    rewrite bool_decide_eq_true_2 by done. cbn [negb orb]. rewrite (Heq _ _ _ Hyear E).
    by destruct (Z.ltb_spec t (days_from_civil year month day * DAY_MS)); [lia|].
Qed.
Lemma parseDdMmYyyy_past input t iso :
  parseDdMmYyyy input t = Some iso → ∃ d, Date_parse iso = Some d ∧ d ≤ t.
Proof.
  intros (a&b&c&day&month&year&->&Ha&Hb&(Hd&Hl&Hy)&H100&Hc&Ht&->)%parsed_dates.
  exists (days_from_civil year month day * DAY_MS). split; [|done]. apply iso_roundtrip.
  pose proof (digits_value_bounds c Hd) as Hb'. replace (String.length c) with 4%nat in Hb' by lia.
  pose proof (days_in_range year month day ltac:(lia) Hc). unfold printable, DAY_MS. lia.
Qed.

(** A date is taken exactly when it is written in digits as day, month and year, is a date
    of the calendar from the year 100 on, and is not in the future; what is kept is its
    midnight. *)
Theorem parseDdMmYyyy_exact input t iso :
  parseDdMmYyyy input t = Some iso ↔
  ∃ a b c day month year, input = a +:+ "/" +:+ b +:+ "/" +:+ c ∧
    numeral 1 2 a day ∧ numeral 1 2 b month ∧ numeral 4 4 c year ∧
    100 ≤ year ∧ calendar_date year month day ∧
    days_from_civil year month day * DAY_MS ≤ t ∧
    iso = toISOString (days_from_civil year month day * DAY_MS).
Proof. apply parsed_dates. Qed.

Lemma parseDdMmYyyy_exact_witness :
  parseDdMmYyyy "29/2/2024" 1772323200000 = Some "2024-02-29T00:00:00.000Z".
Proof.
  apply (parseDdMmYyyy_exact "29/2/2024" 1772323200000 "2024-02-29T00:00:00.000Z").
  exists "29", "2", "2024", 29, 2, 2024.
  repeat split; try reflexivity; try (cbn; lia); vm_compute; discriminate.
Defined.
Example dates_refused :
  map (λ s, parseDdMmYyyy s 1772323200000)
    ["29/02/2025"; "31/04/2024"; "1/13/2024"; "0/1/2024"; "01/01/0099"; "1-1-2024"; "02/03/2026"]
  = [None; None; None; None; None; None; None].
Proof. reflexivity. Qed.
