(* ===== verification/UssdSafety.v ===== *)
(** * USSD: what no request breaks

    Sessions are kept as JSON and read back with a cast. Here is the type they have at
    each step, and that every handler keeps it and makes well-formed rows, whatever
    other handlers, Redis and the rest of the application do in between. *)

From S2P Require Import Prelude Interleave Js Json JsDate Redis Roles ReportModel.
From S2P Require Import UssdModel UssdMenu.
From coqutil Require Import Datatypes.RecordSetters.
Import DoubleBraceUpdate.

Open Scope Z_scope.

(** ** The type of a session *)

Definition filled (s : string) : Prop := s ≠ "".
Definition one_of {A} (name : A → string) (s : string) : Prop := ∃ a, s = name a.
Definition past_day (t : Z) (s : string) : Prop := ∃ d, Date_parse s = Some d ∧ d ≤ t.

(** The members of [data] that a step relies on, at the time [t]. *)
Definition fields (t : Z) (s : UssdStep) : list (string * (string → Prop)) :=
  match s with
  | ROOT | REPORT_CATEGORY | STATUS_INPUT_REF | MISSING_PERSON_TYPE
  | INFO_MISSING_PERSON_ID => []
  | REPORT_DESCRIPTION => [("category", one_of category_name); ("categoryLabel", filled)]
  | REPORT_CONFIRM => [("category", one_of category_name); ("description", filled)]
  | MISSING_PERSON_NAME => [("personType", one_of person_type_name)]
  | MISSING_PERSON_DESCRIPTION =>
      [("personType", one_of person_type_name); ("name", λ _, True)]
  | MISSING_PERSON_DATE_LAST_SEEN =>
      [("personType", one_of person_type_name); ("name", λ _, True); ("description", filled)]
  | MISSING_PERSON_LAST_AREA =>
      [("personType", one_of person_type_name); ("name", λ _, True); ("description", filled);
       ("dateLastSeen", past_day t)]
  | MISSING_PERSON_CONFIRM =>
      [("personType", one_of person_type_name); ("name", λ _, True); ("description", filled);
       ("dateLastSeen", past_day t); ("lastKnownArea", filled)]
  | INFO_DESCRIPTION => [("missingPersonId", filled)]
  | INFO_CONFIRM => [("missingPersonId", filled); ("information", filled)]
  end.

Definition has_text (kvs : list (string * json)) (k : string) (P : string → Prop) : Prop :=
  ∃ x, obj_get k kvs = Some (JStr x) ∧ P x.

(** The state under the key [key] at the step [s]. *)
Record well_typed (t : Z) (key : string) (s : UssdStep) (j : json) : Prop := {
  wt_object : ∃ kvs, j = JObj kvs;
  wt_step : member "step" j = Some (JStr (step_name s));
  wt_data : ∃ kvs, member "data" j = Some (JObj kvs) ∧
              Forall (λ kp, has_text kvs kp.1 kp.2) (fields t s);
  wt_key : session_key (member "sessionId" j) = key;
  wt_phone : ∀ p, member "phoneNumber" j = Some p → ∃ x, p = JStr x;
}.

Lemma well_typed_later t t' key s j : t ≤ t' → well_typed t key s j → well_typed t' key s j.
Proof.
  intros Ht [Ho Hs (kvs&Hd&Hf) Hk Hp]. split; try done. exists kvs. split; [done|].
  assert (∀ x, past_day t x → past_day t' x) by (intros x (d&?&?); exists d; split; [done|lia]).
  destruct s; cbn in *; rewrite ?Forall_cons, ?Forall_nil in *; unfold has_text in *; naive_solver.
Qed.

(** ** Rows *)

Definition report_ok (r : ReportRow) : Prop :=
  rr_channel r = CH_USSD → rr_userId r = None ∧ filled (rr_description r).
Definition missing_ok (m : MissingPerson) : Prop :=
  mp_channel m = CH_USSD → mp_userId m = None ∧ filled (mp_description m) ∧
    filled (mp_lastKnownArea m) ∧ mp_dateLastSeen m ≤ mp_createdAt m.
Definition info_ok (i : InformationSubmission) : Prop :=
  is_channel i = CH_USSD → is_userId i = None ∧ filled (is_information i).

Definition is_session_key (k : string) : bool := starts_with KEY_PREFIX k.
Definition sessions_ok (t : Z) (st : rstore) : Prop :=
  ∀ k e, is_session_key k = true → st !! k = Some e →
    ∃ j s, re_val e = RJson j ∧ well_typed t k s j.
Abbreviation uw_store w := (r_store (uw_redis w)).

Record ussd_inv (w : UssdW) : Prop := {
  ui_sessions : sessions_ok (uw_now w) (uw_store w);
  ui_reports : map_Forall (λ _, report_ok) (uw_reports w);
  ui_missing : map_Forall (λ _, missing_ok) (uw_missing w);
  ui_infos : map_Forall (λ _, info_ok) (uw_infos w);
}.
Definition ussd_rel (w w' : UssdW) : Prop := uw_now w ≤ uw_now w'.
#[export] Instance ussd_rel_preorder : PreOrder ussd_rel.
Proof. split; unfold ussd_rel; [intros ?; lia|intros ???; lia]. Qed.

(** What a request may fail with: a caller that is no gateway, a case that is not
    published any more, five case references in a row that were taken. *)
Definition expected (e : exn) : Prop :=
  e = Forbidden "ussd_gateway_not_configured" ∨ e = Forbidden "ussd_caller_not_allowed" ∨
  e = NotFound "missing_person_not_found" ∨ e = PrismaKnown "P2003" [] ∨
  e = PrismaKnown "P2002" ["caseReference"].

Abbreviation ok p w := (rg ussd_inv ussd_rel (λ _ _, True) (λ e _, expected e) p w).

Lemma ok_bind {A B} (p : prog UssdW A) (f : A → prog UssdW B) w :
  ok p w → (∀ a w', ussd_rel w w' → ok (f a) w') → ok (p ≫= f) w.
Proof.
  intros Hp Hf. apply rg_bind.
  eapply rg_mono; [eapply (rg_frame _ _ (ussd_rel w)); [by intros ???; etrans|done|exact Hp]|..].
  - intros a w' [_ HR]. by apply Hf.
  - by intros e w' [? _].
Qed.
Lemma ok_act {A X} (f : UssdW → X * UssdW) (k : X → prog UssdW A) w :
  (∀ w1, ussd_rel w w1 → ussd_inv w1 → ussd_inv (f w1).2 ∧ ussd_rel w1 (f w1).2 ∧
     ok (k (f w1).1) (f w1).2) → ok (Act f k) w.
Proof. done. Qed.
Lemma ussd_ok_gets {X} (f : UssdW → X) w : ok (gets f) w.
Proof. by intros w1 _ HI. Qed.
Lemma ok_throw (b : bool) e w : (b = true → expected e) → ok (throw_if b e) w.
Proof. destruct b; cbn; auto. Qed.

Lemma rg_attempt {A} (p : prog UssdW A) w :
  ok p w →
  rg ussd_inv ussd_rel (λ r _, match r with Ok _ => True | Err e => expected e end)
    (λ e _, expected e) (attempt p) w.
Proof.
  intros Hp. apply rg_catch, rg_bind. by eapply rg_mono; [exact Hp|..].
Qed.

(** ** Redis *)

Lemma inv_store w w' :
  ussd_inv w →
  (uw_reports w', uw_missing w', uw_infos w', uw_now w') =
  (uw_reports w, uw_missing w, uw_infos w, uw_now w) →
  sessions_ok (uw_now w) (uw_store w') → ussd_inv w'.
Proof. intros [? ? ? ?] [= E1 E2 E3 E4] Hs. split; by rewrite ?E1, ?E2, ?E3, ?E4. Qed.

Lemma rg_cmd {X} (f : Z → rstore → outcome X * rstore) (Q : X → UssdW → Prop) w :
  (∀ w1, ussd_rel w w1 → ussd_inv w1 →
     sessions_ok (uw_now w1) (f (uw_now w1) (uw_store w1)).2 ∧
     ∀ x w2, (f (uw_now w1) (uw_store w1)).1 = Ok x → uw_now w2 = uw_now w1 → Q x w2) →
  rg ussd_inv ussd_rel Q (λ _ _, True) (redis_cmd CacheConn f) w.
Proof.
  intros Hf w1 HR HI. destruct (Hf w1 HR HI) as [Hs HQ]. cbn.
  destruct (r_ready (uw_redis w1)); cbn; [|split_and!; [done|reflexivity|done]].
  destruct (r_faults (uw_redis w1)) as [|[] fs]; cbn;
    try (split_and!; [by apply (inv_store w1); [..|apply HI]|exact (Z.le_refl _)|done]);
    destruct (f (uw_now w1) (uw_store w1)) as [[x|e] st]; cbn in *;
    (split_and!; [by apply (inv_store w1)|exact (Z.le_refl _)|try done]); by apply HQ.
Qed.

Lemma rg_or_default {A} (p : prog UssdW A) d (Q : A → UssdW → Prop) (E : exn → UssdW → Prop) w :
  rg ussd_inv ussd_rel Q (λ _ _, True) p w → (∀ w, Q d w) →
  rg ussd_inv ussd_rel Q E (or_default p d) w.
Proof.
  intros Hp Hd. unfold or_default. apply rg_catch.
  eapply rg_mono; [exact Hp|done|]. intros e w' _. apply Hd.
Qed.
(** A command with a fallback and nothing to know of its result. *)
Lemma ok_or_default {X A} (f : Z → rstore → outcome X * rstore) (k : X → prog UssdW A) (d : A) w :
  (∀ w1, ussd_rel w w1 → ussd_inv w1 → sessions_ok (uw_now w1) (f (uw_now w1) (uw_store w1)).2) →
  (∀ x w', rg ussd_inv ussd_rel (λ _ _, True) (λ _ _, True) (k x) w') →
  ok (or_default (redis_cmd CacheConn f ≫= k) d) w.
Proof.
  intros Hf Hk. apply rg_or_default; [|done]. apply rg_bind. eapply rg_mono; [apply rg_cmd|..].
  - intros w1 HR HI. split; [by apply Hf|]. intros x w2 _ _. exact I.
  - intros x w' _. apply Hk.
  - done.
Qed.

Lemma session_key_session x : is_session_key (session_key x) = true.
Proof. apply starts_with_app. Qed.

Lemma sessions_insert_other t st k e :
  is_session_key k = false → sessions_ok t st → sessions_ok t (<[k := e]> st).
Proof.
  intros Hk Hs k' e' Hk' He. rewrite lookup_insert_ne in He by congruence. by eapply Hs.
Qed.

Lemma rg_session_get sid w :
  rg ussd_inv ussd_rel
    (λ o w', match o with
             | Some j => ∃ s, well_typed (uw_now w') (session_key (JStr <$> sid)) s j
             | None => True
             end) (λ e _, expected e) (session_get sid) w.
Proof.
  unfold session_get, redis_get. apply rg_or_default; [|done]. apply rg_bind.
  eapply rg_mono; [apply (rg_cmd _ (λ o w',
    match o with
    | Some v => ∃ j s, v = RJson j ∧ well_typed (uw_now w') (session_key (JStr <$> sid)) s j
    | None => True
    end))|..].
  - intros w1 HR HI. split; [apply HI|]. intros x w2 Hx ->. cbn in Hx. injection Hx as <-.
    unfold rlookup. destruct (uw_store w1 !! _) as [e|] eqn:He; [|done].
    destruct (live _ e); [|done]. cbn.
    destruct (ui_sessions _ HI _ e (session_key_session _) He) as (j&s&Hj&Hw). eauto.
  - intros [v|] w'; [|done]. intros (j&s&->&Hw). by exists s.
  - done.
Qed.

Lemma ok_save s j k w : well_typed (uw_now w) k s j → ok (session_save j) w.
Proof.
  intros Hj. unfold session_save. apply ok_bind; [|done].
  apply (ok_or_default _ (λ _, mret true) false); [|done].
  intros w1 HR HI k' e Hk' He. cbn in He. rewrite (wt_key _ _ _ _ Hj) in He.
  destruct (decide (k' = k)) as [->|Hne].
  - rewrite lookup_insert_eq in He. injection He as <-. exists j, s. split; [done|].
    by eapply well_typed_later.
  - rewrite lookup_insert_ne in He by done. by apply (ui_sessions _ HI).
Qed.
Lemma ok_setStep s' patch j k w :
  well_typed (uw_now w) k s' (with_step j s' patch) → ok (setStep j s' patch) w.
Proof. intros Hj. apply ok_bind; [by eapply ok_save|done]. Qed.
Lemma ok_end x w : ok (session_end x) w.
Proof.
  apply ok_bind; [|done]. apply (ok_or_default _ (λ _, mret true) false); [|done].
  intros w1 HR HI k e Hk He. cbn in He. apply lookup_delete_Some in He as [_ He].
  by apply (ui_sessions _ HI).
Qed.
Lemma ok_state_end j w : ok (state_end j) w.
Proof. apply ok_end. Qed.

Lemma incr_ttl_other key k ttl t st :
  k ≠ key → (INCR_TTL_SCRIPT key ttl t st).2 !! k = st !! k.
Proof.
  intros Hk. unfold INCR_TTL_SCRIPT, cINCRBY, cPEXPIRE.
  destruct (rlookup t st key) as [[[j|m|x] e]|]; [done| |done|]; cbn -[cPTTL];
    repeat (case_match; cbn); by rewrite ?lookup_insert_ne by done.
Qed.
Lemma ok_throttle key ttl n w :
  is_session_key key = false → ok (checkAndIncrementThrottle key ttl n) w.
Proof.
  intros Hk. unfold checkAndIncrementThrottle, incrementWithTtl.
  apply ok_bind; [|done]. apply (ok_or_default _ (λ n, mret (Some n)) None); [|done].
  intros w1 HR HI k e Hk' He. rewrite incr_ttl_other in He by congruence.
  by apply (ui_sessions _ HI).
Qed.

(** ** The services *)

Section services.
Context `{UssdLib}.

Lemma find_name {A} (name : A → string) (all : list A) a :
  a ∈ all → is_Some (find (λ b, bool_decide (name b = name a)) all).
Proof.
  intros Ha. induction Ha as [all|b all Ha IH]; cbn; [by rewrite bool_decide_eq_true_2|].
  by case_bool_decide.
Qed.
Lemma ok_enum_arg {A} (name : A → string) all x (w : UssdW) :
  (∀ a, a ∈ all) → one_of name x → ok (enum_arg name all (Some (JStr x))) w.
Proof.
  intros Hall [a ->].
  change (ok (require (find (λ b, bool_decide (name b = name a)) all) invalid_argument) w).
  by destruct (find_name name all a) as [b ->].
Qed.
Lemma every_category c : c ∈ all_categories.
Proof. destruct c; unfold all_categories; set_solver. Qed.
Lemma every_person_type t : t ∈ [WOMAN; CHILD].
Proof. destruct t; set_solver. Qed.

Lemma inv_rows w w' :
  ussd_inv w → (uw_redis w', uw_now w') = (uw_redis w, uw_now w) →
  map_Forall (λ _, report_ok) (uw_reports w') → map_Forall (λ _, missing_ok) (uw_missing w') →
  map_Forall (λ _, info_ok) (uw_infos w') → ussd_inv w'.
Proof. intros [Hs _ _ _] [= E1 E2] ???. split; by rewrite ?E1, ?E2. Qed.

Lemma ussd_ok_emit e w : ok (emit e) w.
Proof.
  intros w1 HR HI. split_and!; [|exact (Z.le_refl _)|done].
  apply (inv_rows w1); [done..|apply HI|apply HI|apply HI].
Qed.
Lemma ussd_ok_draw w : ok draw w.
Proof.
  intros w1 HR HI. split_and!; [|exact (Z.le_refl _)|done].
  apply (inv_rows w1); [done..|apply HI|apply HI|apply HI].
Qed.

Lemma ok_report_create mk w : (∀ id, report_ok (mk id)) → ok (report_create mk) w.
Proof.
  intros Hmk w1 HR HI. cbn. case_bool_decide; cbn.
  - split_and!; [|exact (Z.le_refl _)|done].
    apply (inv_rows w1); [done..|apply map_Forall_insert_2; [done|apply HI]|apply HI|apply HI].
  - split_and!; [|exact (Z.le_refl _)|unfold expected; tauto].
    apply (inv_rows w1); [done..|apply HI|apply HI|apply HI].
Qed.

Lemma ok_generateCaseReference w : ok generateCaseReference w.
Proof. apply ok_bind; [apply ussd_ok_gets|]. intros t w1 _. by apply ok_bind; [apply ussd_ok_draw|]. Qed.

(** A collision that is not the last is tried again. *)
Lemma ok_createWithUniqueCaseReference n c d w :
  one_of category_name c → filled d →
  ok (createWithUniqueCaseReference n (Some (JStr c)) (Some (JStr d))) w.
Proof.
  intros Hc Hd. revert w. induction n as [|n IH]; intros w;
    (apply ok_bind; [apply ok_generateCaseReference|]; intros ref w1 _; apply rg_bind;
     eapply rg_mono;
     [ apply rg_attempt, ok_bind; [apply ok_enum_arg, Hc; apply every_category|];
       intros a w2 _; change (ok (report_create (new_report ref a d)) w2);
       by apply ok_report_create
     | | done]);
    intros [r|[| |]] w2 Hr; try done; cbn; case_match; done || apply IH.
Qed.

Lemma ok_report_createAnonymous c d w :
  one_of category_name c → filled d →
  ok (report_createAnonymous (Some (JStr c)) (Some (JStr d))) w.
Proof.
  intros Hc Hd. apply ok_bind; [by apply ok_createWithUniqueCaseReference|]. intros r w1 _.
  apply ok_bind; [apply ussd_ok_emit|]. intros _ w2 _. by apply ok_bind; [apply ussd_ok_emit|].
Qed.

Lemma ok_missing_create mk w :
  (∀ id t, uw_now w ≤ t → missing_ok (mk id t)) → ok (missing_create mk) w.
Proof.
  intros Hmk w1 HR HI. split_and!; [|exact (Z.le_refl _)|done].
  apply (inv_rows w1); [done..|apply HI| |apply HI].
  apply map_Forall_insert_2; [by apply Hmk|apply HI].
Qed.

(** A text or nothing. *)
Definition textual (o : option json) : Prop := ∀ j, o = Some j → ∃ x, j = JStr x.
Lemma ok_opt_text_arg o w : textual o → ok (opt_text_arg o) w.
Proof. intros Ho. destruct o as [j|]; [|done]. by destruct (Ho j eq_refl) as [x ->]. Qed.
Lemma textual_or_undefined o : textual o → textual (or_undefined o).
Proof.
  intros Ho j Hj. apply Ho. destruct o as [j'|]; [|done].
  destruct (Ho j' eq_refl) as [[] ->]; cbn in Hj; congruence.
Qed.

Lemma ok_text_arg {A} x (f : string → prog UssdW A) w :
  ok (f x) w → ok (text_arg (Some (JStr x)) ≫= f) w.
Proof. done. Qed.
Lemma ok_date_arg {A} x n (f : Z → prog UssdW A) w :
  Date_parse x = Some n → ok (f n) w → ok (date_arg (Some (JStr x)) ≫= f) w.
Proof. intros Hx Hf. unfold date_arg. by rewrite Hx. Qed.

Lemma ok_missing_createAnonymous pt d day area name phone w :
  one_of person_type_name pt → filled d → past_day (uw_now w) day → filled area →
  textual name → textual phone →
  ok (missing_createAnonymous (Some (JStr pt)) (Some (JStr d)) (Some (JStr day))
        (Some (JStr area)) name phone) w.
Proof.
  intros Hpt Hd (n&Hday&Hn) Ha Hname Hphone. unfold missing_createAnonymous.
  apply ok_bind; [by apply ok_opt_text_arg|]. intros p w1 R1.
  apply ok_bind; [apply ok_enum_arg, Hpt; apply every_person_type|]. intros t w2 R2.
  apply ok_bind; [by apply ok_opt_text_arg, textual_or_undefined|]. intros nm w3 R3.
  apply ok_text_arg, (ok_date_arg day n), ok_text_arg; [done|].
  apply ok_bind; [apply ok_missing_create|].
  - intros id t' Ht _. unfold ussd_rel in *. cbn. split_and!; [done..|lia].
  - intros m w4 R4. apply ok_bind; [apply ussd_ok_emit|]. intros _ w5 R5.
    by apply ok_bind; [apply ussd_ok_emit|].
Qed.

Lemma ok_findApprovedPublic id w : ok (findApprovedPublic id) w.
Proof.
  apply ok_bind; [apply ussd_ok_gets|]. intros [m|] w1 _; [|by right; right; left].
  cbn. destruct (is_approved m); [done|]. by right; right; left.
Qed.

Lemma ok_info_createAnonymous id x w :
  filled x → ok (info_createAnonymous (Some (JStr id)) (Some (JStr x))) w.
Proof.
  intros Hx. apply ok_text_arg, ok_bind; [apply ok_findApprovedPublic|]. intros _ w1 _.
  apply ok_text_arg, ok_bind; [|intros i w2 _; by apply ok_bind; [apply ussd_ok_emit|]].
  intros [r rs ms infos ev n t] HR HI. cbn. destruct (ms !! id); cbn.
  - split_and!; [|exact (Z.le_refl _)|done].
    eapply inv_rows; [exact HI|done|apply HI|apply HI|].
    apply map_Forall_insert_2; [done|apply HI].
  - split_and!; [|exact (Z.le_refl _)|unfold expected; tauto].
    eapply inv_rows; [exact HI|done|apply HI|apply HI|apply HI].
Qed.

(** ** The menu *)

(** What a step needs of a session and of what is added to it. *)
Lemma wt_with_step t key s s' j patch :
  well_typed t key s j →
  (∀ kvs, Forall (λ kp, has_text kvs kp.1 kp.2) (fields t s) →
     Forall (λ kp, has_text (obj_spread kvs (map (λ kv, (kv.1, JStr kv.2)) patch)) kp.1 kp.2)
       (fields t s')) →
  well_typed t key s' (with_step j s' patch).
Proof.
  intros [[kvs ->] Hs (data&Hd&Hf) Hk Hp] Hnew. unfold member in Hs, Hd, Hk, Hp.
  change (with_step (JObj kvs) s' patch) with
    (JObj (obj_set "data" (JObj (obj_spread (members (default JNull (obj_get "data" kvs)))
             (map (λ kv, (kv.1, JStr kv.2)) patch))) (obj_set "step" (JStr (step_name s')) kvs))).
  rewrite Hd. cbn [default members from_option id]. split; unfold member.
  - eauto.
  - by rewrite obj_get_set_ne, obj_get_set_eq.
  - eexists. rewrite obj_get_set_eq. split; [done|]. by apply Hnew.
  - by rewrite !obj_get_set_ne.
  - by rewrite !obj_get_set_ne.
Qed.

Lemma has_text_set_eq kvs k x (P : string → Prop) : P x → has_text (obj_set k (JStr x) kvs) k P.
Proof. intros HP. exists x. by rewrite obj_get_set_eq. Qed.
Lemma has_text_set_ne kvs k k' v (P : string → Prop) :
  k ≠ k' → has_text kvs k P → has_text (obj_set k' v kvs) k P.
Proof. intros Hk (x&Hx&HP). exists x. by rewrite obj_get_set_ne. Qed.

Lemma ok_state_data {A} t key s j k P (f : option json → prog UssdW A) w :
  well_typed t key s j → (k, P) ∈ fields t s →
  (∀ x, P x → ok (f (Some (JStr x))) w) → ok (state_data j k ≫= f) w.
Proof.
  intros [_ _ (data&Hd&Hf) _ _] Hin Hok. unfold state_data. rewrite Hd.
  rewrite Forall_forall in Hf. destruct (Hf _ Hin) as (x&Hx&HP). cbn in Hx.
  change (ok (f (obj_get k data)) w). rewrite Hx. by apply Hok.
Qed.

(** The members that a step needs are there before, or were just added. *)
Ltac members_tac :=
  let kvs := fresh "kvs" in let Hf := fresh "Hf" in
  intros kvs Hf; cbn [fields map obj_spread foldl fst snd] in *;
  rewrite ?Forall_cons, ?Forall_nil in *; cbn [fst snd] in *;
  repeat match goal with H : _ ∧ _ |- _ => destruct H end;
  repeat split;
  repeat first [done | assumption | apply has_text_set_eq | apply has_text_set_ne; [done|]].
Ltac to_step :=
  apply ok_bind; [eapply ok_setStep, wt_with_step; [eassumption|members_tac]|].

Lemma truthy_filled x : truthy x = true → filled x.
Proof. apply truthy_true. Qed.

Lemma chosen_category_in input c : chosen_category input = Some c → c ∈ REPORT_CATEGORIES.
Proof.
  unfold chosen_category. destruct (Number input) as [x|]; [|done]. cbn [mbind option_bind].
  destruct (find _ _) as [[n c']|] eqn:Hf; [|done]. intros [= <-].
  apply find_some in Hf as [Hin _]. apply list_elem_of_In, elem_of_lookup_imap in Hin.
  destruct Hin as (i&y&[= -> ->]&Hy). by eapply list_elem_of_lookup_2.
Qed.

Section handlers.
Context (w : UssdW) (k : string) (j : json) (input : string).
Abbreviation typed s := (well_typed (uw_now w) k s j).

Lemma ok_fromRoot : typed ROOT → ok (fromRoot j input) w.
Proof.
  intros Hj. unfold fromRoot. repeat case_match; try done;
    first [ to_step; done | apply ok_bind; [apply ok_state_end|done] ].
Qed.

Lemma ok_fromReportCategory : typed REPORT_CATEGORY → ok (fromReportCategory j input) w.
Proof.
  intros Hj. unfold fromReportCategory.
  destruct (chosen_category input) as [[label value]|] eqn:Hc; [|done].
  assert (filled label) by (apply chosen_category_in in Hc;
    repeat (apply elem_of_cons in Hc as [[= -> _]|Hc]; [done|]); by apply elem_of_nil in Hc).
  to_step; [|done]. by exists value.
Qed.

Lemma ok_fromReportDescription : typed REPORT_DESCRIPTION → ok (fromReportDescription j input) w.
Proof.
  intros Hj. unfold fromReportDescription. destruct (truthy (trim input)) eqn:Ht; [|done].
  apply truthy_filled in Ht. to_step. intros _ w1 R1.
  eapply ok_state_data; [exact Hj|by do 2 constructor|]. done.
Qed.

Lemma ok_fromReportConfirm : typed REPORT_CONFIRM → ok (fromReportConfirm j input) w.
Proof.
  intros Hj. unfold fromReportConfirm. case_bool_decide.
  - eapply ok_state_data; [exact Hj|by constructor|]. intros c Hc.
    eapply ok_state_data; [exact Hj|by do 2 constructor|]. intros d Hd.
    apply ok_bind; [by apply ok_report_createAnonymous|]. intros r w1 _.
    by apply ok_bind; [apply ok_state_end|].
  - by apply ok_bind; [apply ok_state_end|].
Qed.

Lemma ok_fromStatusInputRef : ok (fromStatusInputRef j input) w.
Proof.
  apply ok_bind; [apply ok_state_end|]. intros _ w1 _. cbv zeta.
  destruct (truthy (trim input)); cbn [negb]; [|done].
  apply ok_bind; [by apply ok_throttle|]. intros b w2 _. destruct b; [|done]. cbn [negb].
  apply ok_bind; [apply ussd_ok_gets|]. by intros [[]|] w3 _.
Qed.

Lemma ok_fromMissingPersonType : typed MISSING_PERSON_TYPE → ok (fromMissingPersonType j input) w.
Proof.
  intros Hj. unfold fromMissingPersonType. case_match; [|done]. to_step; [|done]. by eexists.
Qed.

Lemma ok_fromMissingPersonName : typed MISSING_PERSON_NAME → ok (fromMissingPersonName j input) w.
Proof. intros Hj. unfold fromMissingPersonName. cbv zeta. to_step; done. Qed.

Lemma ok_fromMissingPersonDescription :
  typed MISSING_PERSON_DESCRIPTION → ok (fromMissingPersonDescription j input) w.
Proof.
  intros Hj. unfold fromMissingPersonDescription. destruct (truthy (trim input)) eqn:Ht; [|done].
  apply truthy_filled in Ht. to_step; done.
Qed.

Lemma ok_fromMissingPersonLastArea :
  typed MISSING_PERSON_LAST_AREA → ok (fromMissingPersonLastArea j input) w.
Proof.
  intros Hj. unfold fromMissingPersonLastArea. destruct (truthy (trim input)) eqn:Ht; [|done].
  apply truthy_filled in Ht. to_step; done.
Qed.

Lemma ok_fromMissingPersonConfirm :
  typed MISSING_PERSON_CONFIRM → ok (fromMissingPersonConfirm j input) w.
Proof.
  intros Hj. unfold fromMissingPersonConfirm. case_bool_decide.
  - eapply ok_state_data; [exact Hj|by constructor|]. intros pt Hpt.
    eapply ok_state_data; [exact Hj|by do 3 constructor|]. intros d Hd.
    eapply ok_state_data; [exact Hj|by do 4 constructor|]. intros day Hday.
    eapply ok_state_data; [exact Hj|by do 5 constructor|]. intros area Harea.
    eapply ok_state_data; [exact Hj|by do 2 constructor|]. intros nm _.
    apply ok_bind.
    + apply ok_missing_createAnonymous; try done.
      * apply textual_or_undefined. intros ? [= <-]. eauto.
      * intros p Hp. by apply (wt_phone _ _ _ _ Hj).
    + intros m w1 _. by apply ok_bind; [apply ok_state_end|].
  - by apply ok_bind; [apply ok_state_end|].
Qed.

Lemma ok_fromInfoMissingPersonId :
  typed INFO_MISSING_PERSON_ID → ok (fromInfoMissingPersonId j input) w.
Proof.
  intros Hj. unfold fromInfoMissingPersonId. cbv zeta.
  destruct (truthy (trim input)) eqn:Ht; cbn [negb]; [|by apply ok_bind; [apply ok_state_end|]].
  apply truthy_filled in Ht. apply ok_bind.
  - eapply rg_mono; [apply rg_attempt, ok_findApprovedPublic|done..].
  - intros [m|e] w1 R1; [|by apply ok_bind; [apply ok_state_end|]].
    eapply well_typed_later in Hj; [|exact R1]. to_step; done.
Qed.

Lemma ok_fromInfoDescription : typed INFO_DESCRIPTION → ok (fromInfoDescription j input) w.
Proof.
  intros Hj. unfold fromInfoDescription. destruct (truthy (trim input)) eqn:Ht; [|done].
  apply truthy_filled in Ht. to_step; done.
Qed.

Lemma ok_fromInfoConfirm : typed INFO_CONFIRM → ok (fromInfoConfirm j input) w.
Proof.
  intros Hj. unfold fromInfoConfirm. case_bool_decide.
  - apply ok_bind; [by apply ok_throttle|]. intros within w1 _.
    apply ok_bind; [apply ok_state_end|]. intros _ w2 _. destruct within; [|done]. cbn [negb].
    eapply ok_state_data; [exact Hj|by constructor|]. intros id _.
    eapply ok_state_data; [exact Hj|by do 2 constructor|]. intros x Hx.
    by apply ok_bind; [apply ok_info_createAnonymous|].
  - by apply ok_bind; [apply ok_state_end|].
Qed.

Lemma ok_fromMissingPersonDateLastSeen :
  typed MISSING_PERSON_DATE_LAST_SEEN → ok (fromMissingPersonDateLastSeen j input) w.
Proof.
  intros Hj. unfold fromMissingPersonDateLastSeen. apply rg_bind. apply rg_gets; [apply _|]. intros w1 R1 _.
  destruct (parseDdMmYyyy (trim input) (uw_now w1)) as [iso|] eqn:Hp; [|done].
  apply parseDdMmYyyy_past in Hp. eapply well_typed_later in Hj; [|exact R1]. to_step; done.
Qed.

Lemma ok_route s : typed s → ok (route j input) w.
Proof.
  intros Hj. unfold route. rewrite (wt_step _ _ _ _ Hj). cbn [mbind option_bind].
  rewrite step_of_name.
  destruct s; auto using ok_fromRoot, ok_fromReportCategory, ok_fromReportDescription,
    ok_fromReportConfirm, ok_fromStatusInputRef, ok_fromMissingPersonType,
    ok_fromMissingPersonName, ok_fromMissingPersonDescription,
    ok_fromMissingPersonDateLastSeen, ok_fromMissingPersonLastArea,
    ok_fromMissingPersonConfirm, ok_fromInfoMissingPersonId, ok_fromInfoDescription,
    ok_fromInfoConfirm.
Qed.
End handlers.

(** A session that is just made. *)
Lemma wt_start t t' sid phone :
  well_typed t (session_key (JStr <$> sid)) ROOT (session_state sid phone ROOT [] t').
Proof.
  unfold session_state. split.
  - eauto.
  - by destruct sid, phone.
  - exists []. split; [by destruct sid, phone|constructor].
  - by destruct sid, phone.
  - intros p Hp. destruct phone as [x|]; [exists x|]; destruct sid; vm_compute in Hp; congruence.
Qed.

Lemma ok_start sid phone w : ok (session_start sid phone) w.
Proof.
  apply ok_bind; [apply ussd_ok_gets|]. intros t w1 _. cbv zeta.
  apply ok_bind; [|done]. eapply ok_save, wt_start.
Qed.

Lemma typed_not_falsy t key s j : well_typed t key s j → falsy (Some j) = false.
Proof. by intros [[kvs ->] _ _ _ _]. Qed.

Lemma ok_handle inbound w : ok (handle inbound) w.
Proof.
  unfold handle. apply rg_bind. eapply rg_mono; [apply rg_session_get| |done].
  intros [j|] w1 Hj.
  - destruct Hj as [s Hj]. rewrite (typed_not_falsy _ _ _ _ Hj). by eapply ok_route.
  - apply ok_bind; [apply ok_start|done].
Qed.

Lemma ok_handleSession cfg req w : ok (handleSession cfg req) w.
Proof.
  apply ok_bind; [|intros _ w1 _; apply ok_bind; [apply ok_handle|done]].
  unfold assertFromGateway. repeat case_match; cbn; unfold expected; tauto.
Qed.
End services.

(** ** The rest of the application *)

(** Time passes; sessions end when their time is up; Redis is up or down and keeps what
    else it likes under other keys; the rest of the application makes and changes rows,
    but no row that came over USSD is left without a text or given to a user. *)
Record ussd_env (w w' : UssdW) : Prop := {
  ue_now : uw_now w ≤ uw_now w';
  ue_sessions k e :
    is_session_key k = true → uw_store w' !! k = Some e → uw_store w !! k = Some e;
  ue_reports id r' : uw_reports w' !! id = Some r' →
    rr_channel r' = CH_APP ∨ ∃ r, uw_reports w !! id = Some r ∧ (report_ok r → report_ok r');
  ue_missing id m' : uw_missing w' !! id = Some m' →
    mp_channel m' = CH_APP ∨ ∃ m, uw_missing w !! id = Some m ∧ (missing_ok m → missing_ok m');
  ue_infos id i' : uw_infos w' !! id = Some i' →
    is_channel i' = CH_APP ∨ ∃ i, uw_infos w !! id = Some i ∧ (info_ok i → info_ok i');
}.

Lemma ussd_env_good w w' : ussd_inv w → ussd_env w w' → ussd_inv w' ∧ ussd_rel w w'.
Proof.
  intros [Hs Hr Hm Hi] [Hn Hs' Hr' Hm' Hi']. split; [|done]. split.
  - intros k e Hk He. destruct (Hs k e Hk (Hs' k e Hk He)) as (j&s&Hj&Hw).
    exists j, s. split; [done|]. by eapply well_typed_later.
  - intros id r He. destruct (Hr' id r He) as [E|(r0&H0&Hok)]; [intros ?; congruence|].
    by apply Hok, (Hr id).
  - intros id m He. destruct (Hm' id m He) as [E|(m0&H0&Hok)]; [intros ?; congruence|].
    by apply Hok, (Hm id).
  - intros id i He. destruct (Hi' id i He) as [E|(i0&H0&Hok)]; [intros ?; congruence|].
    by apply Hok, (Hi id).
Qed.
