(* ===== verification/UssdProps.v ===== *)
(** * USSD: dialogs

    Sessions are well typed however requests interleave; the menu against the automaton
    of its questions; dialogs end, and those that are answered to the end leave a row. *)

From S2P Require Import Prelude Interleave Js Json JsDate Redis Roles ReportModel.
From S2P Require Import UssdModel UssdMenu UssdSafety.
From coqutil Require Import Datatypes.RecordSetters.
Import DoubleBraceUpdate.

Open Scope Z_scope.

(** ** The automaton of the questions *)

(** The same question again, another question, or the end. *)
Inductive Move := Again | Next (s : UssdStep) | Over.
Definition if_filled (input : string) (s : UssdStep) : Move :=
  if truthy (trim input) then Next s else Again.
Definition published (w : UssdW) (id : string) : bool :=
  match uw_missing w !! id with Some m => is_approved m | None => false end.

Definition answer (w : UssdW) (s : UssdStep) (input : string) : Move :=
  match s with
  | ROOT =>
      match input with
      | "1" => Next REPORT_CATEGORY
      | "2" => Next MISSING_PERSON_TYPE
      | "3" => Next INFO_MISSING_PERSON_ID
      | "4" => Next STATUS_INPUT_REF
      | "5" | "0" => Over
      | _ => Again
      end
  | REPORT_CATEGORY =>
      match chosen_category input with Some _ => Next REPORT_DESCRIPTION | None => Again end
  | REPORT_DESCRIPTION => if_filled input REPORT_CONFIRM
  | MISSING_PERSON_TYPE =>
      if mem input ["1"; "2"] then Next MISSING_PERSON_NAME else Again
  | MISSING_PERSON_NAME => Next MISSING_PERSON_DESCRIPTION
  | MISSING_PERSON_DESCRIPTION => if_filled input MISSING_PERSON_DATE_LAST_SEEN
  | MISSING_PERSON_DATE_LAST_SEEN =>
      match parseDdMmYyyy (trim input) (uw_now w) with
      | Some _ => Next MISSING_PERSON_LAST_AREA
      | None => Again
      end
  | MISSING_PERSON_LAST_AREA => if_filled input MISSING_PERSON_CONFIRM
  | INFO_MISSING_PERSON_ID =>
      if truthy (trim input) && published w (trim input) then Next INFO_DESCRIPTION else Over
  | INFO_DESCRIPTION => if_filled input INFO_CONFIRM
  | REPORT_CONFIRM | STATUS_INPUT_REF | MISSING_PERSON_CONFIRM | INFO_CONFIRM => Over
  end.

(** Where a failure of the last answer leaves the session: reports are filed before the
    session ends, and can be confirmed once more; information after it. *)
Definition left_by_failure (s : UssdStep) (before after : option json) : Prop :=
  match s with
  | REPORT_CONFIRM | MISSING_PERSON_CONFIRM => after = before
  | INFO_CONFIRM => after = None
  | _ => False
  end.

(** What Redis holds of a session. *)
Definition session_json (sid : option string) (w : UssdW) : option json :=
  match rlookup (uw_now w) (uw_store w) (session_key (JStr <$> sid)) with
  | Some {| re_val := RJson j |} => Some j
  | _ => None
  end.
Definition step_at (j : json) : option UssdStep :=
  match member "step" j with Some (JStr s) => step_of s | _ => None end.
Definition session_step (sid : option string) (w : UssdW) : option UssdStep :=
  match session_json sid w with Some j => step_at j | None => None end.

(** ** Sessions, with Redis up *)

Abbreviation up w := (redis_ok CacheConn w).
Definition saved (j : json) (w : UssdW) : UssdW :=
  set_store CacheConn
    (<[session_key (member "sessionId" j) :=
       {| re_val := RJson j; re_exp := Some (uw_now w + 180000) |}]> (uw_store w)) w.
Definition ended (sid : option json) (w : UssdW) : UssdW :=
  set_store CacheConn (delete (session_key sid) (uw_store w)) w.

Lemma session_typed sid w j :
  ussd_inv w → session_json sid w = Some j →
  ∃ s, well_typed (uw_now w) (session_key (JStr <$> sid)) s j.
Proof.
  intros HI. unfold session_json, rlookup.
  destruct (uw_store w !! _) as [e|] eqn:He; [|done].
  destruct (ui_sessions _ HI _ e (session_key_session _) He) as (j'&s&Hj&Hs).
  destruct (live _ e), e as [v x]; [|done]. cbn in Hj. subst v. intros [= ->]. by exists s.
Qed.
Lemma run_session_get sid w :
  ussd_inv w → up w → run (session_get sid) w = (Ok (session_json sid w), w).
Proof.
  intros HI Hup. unfold session_get, redis_get, or_default.
  rewrite run_catch, run_bind, run_redis_cmd by done.
  unfold total, cGET, session_json. cbn [fst snd].
  change (store_of CacheConn w) with (uw_store w). change (now_of w) with (uw_now w).
  assert (set_store CacheConn (uw_store w) w = w) as ->
    by exact (set_store_id CacheConn w Hup).
  unfold rlookup. destruct (uw_store w !! _) as [e|] eqn:He; [|done].
  destruct (ui_sessions _ HI _ e (session_key_session _) He) as (j'&s&Hj&Hs).
  destruct (live _ e), e as [v x]; [|done]. cbn in Hj. by subst v.
Qed.
Lemma run_session_save j w : up w → run (session_save j) w = (Ok (), saved j w).
Proof.
  intros Hup. unfold session_save, redis_set, or_default.
  by rewrite run_bind, run_catch, run_bind, run_redis_cmd by done.
Qed.
Lemma run_setStep j s patch w :
  up w → run (setStep j s patch) w = (Ok (with_step j s patch), saved (with_step j s patch) w).
Proof. intros Hup. unfold setStep. cbv zeta. by rewrite run_bind, run_session_save. Qed.
Lemma run_session_end sid w : up w → run (session_end sid) w = (Ok (), ended sid w).
Proof. intros Hup. unfold session_end. by rewrite run_bind, run_redis_del. Qed.

Lemma up_saved j w : up (saved j w).
Proof. apply redis_ok_set_store. Qed.
Lemma up_ended sid w : up (ended sid w).
Proof. apply redis_ok_set_store. Qed.

Lemma session_json_saved sid j w :
  session_key (member "sessionId" j) = session_key (JStr <$> sid) →
  session_json sid (saved j w) = Some j.
Proof.
  intros Hk. unfold session_json, saved, rlookup. cbn [uw_redis uw_now r_store].
  change (uw_store (set_store CacheConn ?st w)) with st. rewrite Hk, lookup_insert_eq. cbn [live re_exp].
  change (uw_now (set_store CacheConn ?st w)) with (uw_now w).
  by replace (uw_now w <? uw_now w + 180000) with true by lia.
Qed.
Lemma session_json_ended sid x w :
  session_key x = session_key (JStr <$> sid) → session_json sid (ended x w) = None.
Proof.
  intros Hk. unfold session_json, ended, rlookup.
  change (uw_store (set_store CacheConn ?st w)) with st. by rewrite Hk, lookup_delete_eq.
Qed.
Lemma step_at_typed t key s j : well_typed t key s j → step_at j = Some s.
Proof. intros Hj. unfold step_at. rewrite (wt_step _ _ _ _ Hj). apply step_of_name. Qed.

(** The services leave Redis and the clock alone. *)
Definition quiet {A} (p : prog UssdW A) : Prop :=
  ∀ w, uw_redis (run p w).2 = uw_redis w ∧ uw_now (run p w).2 = uw_now w.
Lemma ussd_quiet_bind {A B} (p : prog UssdW A) (f : A → prog UssdW B) :
  quiet p → (∀ a, quiet (f a)) → quiet (p ≫= f).
Proof.
  intros Hp Hf w. rewrite run_bind. destruct (Hp w) as [E1 E2].
  destruct (run p w) as [[a|e] w1]; cbn in *; [|done]. destruct (Hf a w1). by rewrite <- E1, <- E2.
Qed.
Lemma quiet_attempt {A} (p : prog UssdW A) : quiet p → quiet (attempt p).
Proof. intros Hp w. rewrite run_attempt. apply Hp. Qed.
Lemma quiet_act {X} (f : UssdW → X * UssdW) :
  (∀ w, uw_redis (f w).2 = uw_redis w ∧ uw_now (f w).2 = uw_now w) → quiet (act f).
Proof. intros Hf w. rewrite run_act. apply Hf. Qed.
Lemma quiet_act_outcome {X} (f : UssdW → outcome X * UssdW) :
  (∀ w, uw_redis (f w).2 = uw_redis w ∧ uw_now (f w).2 = uw_now w) → quiet (act_outcome f).
Proof. intros Hf w. rewrite run_act_outcome. apply Hf. Qed.
Lemma quiet_require {A} (o : option A) e : quiet (require o e).
Proof. by destruct o. Qed.
Lemma quiet_mret {A} (a : A) : quiet (mret a).
Proof. by intros w. Qed.
Lemma quiet_emit e : quiet (emit e).
Proof. by apply quiet_act. Qed.

Ltac quiet_tac :=
  repeat first
    [ done | apply quiet_emit | apply quiet_require | apply quiet_attempt
    | apply ussd_quiet_bind; [|intros ?] | apply quiet_act; intros ?; cbn; by repeat case_match
    | apply quiet_act_outcome; intros ?; cbn; by repeat case_match | case_match ].

Section services.
Context `{UssdLib}.

Lemma quiet_createWithUniqueCaseReference n c d : quiet (createWithUniqueCaseReference n c d).
Proof.
  induction n as [|n IH]; cbn [createWithUniqueCaseReference];
    unfold generateCaseReference, enum_arg, text_arg, report_create, now, draw, gets;
    quiet_tac; apply IH.
Qed.
Lemma quiet_report_createAnonymous c d : quiet (report_createAnonymous c d).
Proof.
  apply ussd_quiet_bind; [apply quiet_createWithUniqueCaseReference|]. intros r. quiet_tac.
Qed.
Lemma quiet_missing_createAnonymous a b c d e f : quiet (missing_createAnonymous a b c d e f).
Proof.
  unfold missing_createAnonymous, opt_text_arg, enum_arg, text_arg, date_arg, missing_create.
  quiet_tac.
Qed.
Lemma quiet_findApprovedPublic id : quiet (findApprovedPublic id).
Proof. unfold findApprovedPublic, gets. quiet_tac. Qed.
Lemma quiet_info_createAnonymous a b : quiet (info_createAnonymous a b).
Proof.
  unfold info_createAnonymous, text_arg, info_create. apply ussd_quiet_bind; [quiet_tac|].
  intros id. apply ussd_quiet_bind; [apply quiet_findApprovedPublic|]. intros _. quiet_tac.
Qed.

Lemma quiet_state_data j k : quiet (state_data j k).
Proof. unfold state_data. quiet_tac. Qed.

Lemma run_findApprovedPublic id w :
  run (attempt (findApprovedPublic id)) w =
  (Ok (match uw_missing w !! id with
       | Some m => if is_approved m then Ok m else Err (NotFound "missing_person_not_found")
       | None => Err (NotFound "missing_person_not_found")
       end), w).
Proof.
  rewrite run_attempt. unfold findApprovedPublic. rewrite run_bind, run_gets.
  destruct (uw_missing w !! id) as [m|]; [|done]. by destruct (is_approved m).
Qed.

Lemma quiet_up {A} (p : prog UssdW A) w : quiet p → up w → up (run p w).2.
Proof. intros Hp [H1 H2]. unfold redis_ok. cbn. destruct (Hp w) as [-> _]. by split. Qed.

Lemma run_throttle key ttl n w :
  up w → is_session_key key = false →
  ∃ b st, run (checkAndIncrementThrottle key ttl n) w = (Ok b, set_store CacheConn st w) ∧
    ∀ k, is_session_key k = true → st !! k = uw_store w !! k.
Proof.
  intros Hup Hk. unfold checkAndIncrementThrottle, incrementWithTtl, or_default.
  rewrite run_bind, run_catch, run_bind, run_redis_cmd by done.
  change (store_of CacheConn w) with (uw_store w). change (now_of w) with (uw_now w).
  pose proof (λ k Hne, incr_ttl_other key k ttl (uw_now w) (uw_store w) Hne) as Hother.
  destruct (INCR_TTL_SCRIPT key ttl (uw_now w) (uw_store w)) as [[v|e] st]; cbn [fst snd] in *;
    (eexists _, st; split; [done|]; intros k Hk'; apply Hother; intros ->; congruence).
Qed.

(** Redis stays up and no session begins. *)
Definition calm {A} (p : prog UssdW A) : Prop :=
  ∀ w, up w → up (run p w).2 ∧
    ∀ sid, session_json sid w = None → session_json sid (run p w).2 = None.
Lemma calm_quiet {A} (p : prog UssdW A) : quiet p → calm p.
Proof.
  intros Hp w Hup. split; [by apply quiet_up|]. intros sid. unfold session_json.
  by destruct (Hp w) as [-> ->].
Qed.
Lemma calm_throttle key ttl n :
  is_session_key key = false → calm (checkAndIncrementThrottle key ttl n).
Proof.
  intros Hk w Hup. destruct (run_throttle key ttl n w Hup Hk) as (b&st&->&Hst). cbn [snd].
  split; [apply redis_ok_set_store|]. intros sid. unfold session_json, rlookup.
  change (uw_store (set_store CacheConn st w)) with st.
  by rewrite Hst by apply session_key_session.
Qed.

(** The last answer of a dialog, or a failure. *)
Definition last_word (p : prog UssdW UssdOutboundResult) : Prop :=
  ∀ w, up w → up (run p w).2 ∧
    (∀ sid, session_json sid w = None → session_json sid (run p w).2 = None) ∧
    ((∃ text, (run p w).1 = Ok (fin text)) ∨ ∃ e, (run p w).1 = Err e).
Lemma last_word_fin text : last_word (mret (fin text)).
Proof. intros w Hup. split; [done|]. split; [done|]. left. by exists text. Qed.
Lemma last_word_bind {A} (p : prog UssdW A) f :
  calm p → (∀ a, last_word (f a)) → last_word (p ≫= f).
Proof.
  intros Hp Hf w Hup. rewrite run_bind. destruct (Hp w Hup) as [Hup1 H1].
  destruct (run p w) as [[a|e] w1]; cbn [fst snd] in *; [|by eauto].
  destruct (Hf a w1 Hup1) as (Hup2&H2&Hr). by split_and!; [|intros sid Hs; apply H2, H1|].
Qed.

(** The last answer of a dialog, without fail. *)
Definition told (p : prog UssdW UssdOutboundResult) : Prop :=
  ∀ w, up w → up (run p w).2 ∧
    (∀ sid, session_json sid w = None → session_json sid (run p w).2 = None) ∧
    ∃ text, (run p w).1 = Ok (fin text).
Lemma told_fin text : told (mret (fin text)).
Proof. intros w Hup. split; [done|]. split; [done|]. by exists text. Qed.
Definition sure {A} (p : prog UssdW A) : Prop := ∀ w, up w → ∃ a, (run p w).1 = Ok a.
Lemma told_bind {A} (p : prog UssdW A) f :
  calm p → sure p → (∀ a, told (f a)) → told (p ≫= f).
Proof.
  intros Hp Hs Hf w Hup. rewrite run_bind. destruct (Hp w Hup) as [Hup1 H1], (Hs w Hup) as [a Ha].
  destruct (run p w) as [r w1]; cbn [fst snd] in *. subst r.
  destruct (Hf a w1 Hup1) as (Hup2&H2&Hr). by split_and!; [|intros sid Hs'; apply H2, H1|].
Qed.
Lemma sure_throttle key ttl n :
  is_session_key key = false → sure (checkAndIncrementThrottle key ttl n).
Proof. intros Hk w Hup. destruct (run_throttle key ttl n w Hup Hk) as (b&st&->&_). by exists b. Qed.

(** ** The menu follows the automaton *)

Section moves.
Context (sid : option string) (j : json) (s : UssdStep) (w : UssdW).
Context (Hup : up w) (Hj : well_typed (uw_now w) (session_key (JStr <$> sid)) s j)
        (Hw : session_json sid w = Some j).

Definition moved (m : Move) (p : prog UssdW UssdOutboundResult) : Prop :=
  up (run p w).2 ∧
  match m with
  | Again => session_json sid (run p w).2 = Some j ∧ ∃ text, (run p w).1 = Ok (con text)
  | Next s' =>
      session_step sid (run p w).2 = Some s' ∧ ∃ text, (run p w).1 = Ok (con text)
  | Over =>
      (session_json sid (run p w).2 = None ∧ ∃ text, (run p w).1 = Ok (fin text)) ∨
      ∃ e, (run p w).1 = Err e ∧ left_by_failure s (Some j) (session_json sid (run p w).2)
  end.

Lemma moved_again text : moved Again (mret (con text)).
Proof. split; [done|]. split; [done|]. by exists text. Qed.

Lemma with_step_step s' patch :
  step_at (with_step j s' patch) = Some s' ∧
  member "sessionId" (with_step j s' patch) = member "sessionId" j.
Proof.
  destruct (wt_object _ _ _ _ Hj) as [kvs ->].
  change (with_step (JObj kvs) s' patch) with
    (JObj (obj_set "data" (JObj (obj_spread (members (default JNull (obj_get "data" kvs)))
             (map (λ kv, (kv.1, JStr kv.2)) patch))) (obj_set "step" (JStr (step_name s')) kvs))).
  unfold step_at, member. rewrite !obj_get_set_ne, obj_get_set_eq by done.
  split; [apply step_of_name|by rewrite ?obj_get_set_ne].
Qed.
Lemma moved_next s' patch text (k : json → prog UssdW UssdOutboundResult) :
  (∀ j' w', run (k j') w' = (Ok (con text), w')) → moved (Next s') (setStep j s' patch ≫= k).
Proof.
  intros Hk. unfold moved, session_step. rewrite run_bind, run_setStep by done. rewrite Hk. cbn [fst snd].
  destruct (with_step_step s' patch) as [Hs Hid].
  split; [apply up_saved|]. rewrite session_json_saved by (rewrite Hid; apply Hj).
  split; [done|]. by exists text.
Qed.

(** The session ends, and what is said then is said. *)
Lemma moved_end (q : prog UssdW UssdOutboundResult) : told q → moved Over (state_end j ;; q).
Proof.
  intros Hq. unfold moved. rewrite run_bind. unfold state_end. rewrite run_session_end by done.
  destruct (Hq (ended (member "sessionId" j) w) (up_ended _ _)) as (Hup2&H2&Hr).
  split; [done|]. left. split; [|done]. apply H2, session_json_ended, Hj.
Qed.
(** What is filed first, and then the end. *)
Lemma moved_filed {A} (p : prog UssdW A) (q : A → prog UssdW UssdOutboundResult) :
  (∀ before, left_by_failure s before before) → quiet p → (∀ a, told (q a)) →
  moved Over (a ← p; state_end j ;; q a).
Proof.
  intros Hs Hp Hq. unfold moved. rewrite run_bind. pose proof (quiet_up p w Hp Hup) as Hup1.
  assert (Hw1 : session_json sid (run p w).2 = Some j).
  { rewrite <- Hw. unfold session_json. by destruct (Hp w) as [-> ->]. }
  destruct (run p w) as [[a|e] w1]; cbn [snd fst] in *.
  2: { split; [done|right]. exists e. split; [done|]. by rewrite Hw1. }
  rewrite run_bind. unfold state_end. rewrite run_session_end by done.
  destruct (Hq a (ended (member "sessionId" j) w1) (up_ended _ _)) as (Hup2&H2&Hr).
  split; [done|]. left. split; [|done]. apply H2, session_json_ended, Hj.
Qed.
(** The end first, and then what is filed. *)
Lemma moved_over {A} (p : prog UssdW A) (q : A → prog UssdW UssdOutboundResult) :
  (∀ before, left_by_failure s before None) → calm p → sure p → (∀ a, last_word (q a)) →
  moved Over (a ← p; state_end j ;; q a).
Proof.
  intros Hs Hp Hsure Hq. unfold moved. rewrite run_bind.
  destruct (Hp w Hup) as [Hup1 _], (Hsure w Hup) as [a Ha].
  destruct (run p w) as [r w1]; cbn [snd fst] in *. subst r.
  rewrite run_bind. unfold state_end. rewrite run_session_end by done.
  destruct (Hq a (ended (member "sessionId" j) w1) (up_ended _ _)) as (Hup2&H2&Hr).
  rewrite H2 by apply session_json_ended, Hj.
  split; [done|]. destruct Hr as [Hr|[e Hr]]; [by left|right]. by exists e.
Qed.

Lemma run_state_data k P {A} (f : option json → prog UssdW A) :
  (k, P) ∈ fields (uw_now w) s →
  ∃ x, P x ∧ ∀ w', run (state_data j k ≫= f) w' = run (f (Some (JStr x))) w'.
Proof.
  intros Hin. destruct Hj as [_ _ (data&Hd&Hf) _ _]. rewrite Forall_forall in Hf.
  destruct (Hf _ Hin) as (x&Hx&HP). cbn in Hx. exists x. split; [done|]. intros w'.
  unfold state_data. rewrite Hd. cbn [mbind prog_mbind prog_bind mret prog_mret].
  unfold member. by rewrite Hx.
Qed.
Lemma moved_data k P m (f : option json → prog UssdW UssdOutboundResult) :
  (k, P) ∈ fields (uw_now w) s → (∀ x, moved m (f (Some (JStr x)))) →
  moved m (state_data j k ≫= f).
Proof.
  intros Hin Hf. destruct (run_state_data k P f Hin) as (x&_&E). unfold moved. rewrite E. apply Hf.
Qed.

End moves.

Ltac last_tac :=
  repeat first [ apply last_word_fin | apply last_word_bind; [|intros ?] | case_match ].
Ltac told_tac :=
  repeat first [ apply told_fin | apply told_bind; [| |intros ?] | case_match ].
Ltac next_tac := eapply moved_next; [eassumption..|]; by intros.

Lemma moved_route sid j s w input :
  up w → well_typed (uw_now w) (session_key (JStr <$> sid)) s j → session_json sid w = Some j →
  moved sid j s w (answer w s input) (route j input).
Proof.
  intros Hup Hj Hw. unfold route. rewrite (wt_step _ _ _ _ Hj). cbn [mbind option_bind].
  rewrite step_of_name.
  destruct s; cbn [answer].
  - unfold fromRoot. repeat case_match; try (by apply moved_again); try next_tac;
      (eapply moved_end; [eassumption..|apply told_fin]).
  - unfold fromReportCategory. destruct (chosen_category input) as [[label value]|].
    + next_tac.
    + by apply moved_again.
  - unfold fromReportDescription, if_filled. destruct (truthy (trim input)); [|by apply moved_again].
    destruct (run_state_data sid j _ w Hj "categoryLabel" filled
      (λ label, mret (con (lines ["Category: " +:+ text_of label; "Submit this report?"; "1. Yes";
                                  "2. No, cancel"])))) as (label&_&E); [by do 2 constructor|].
    eapply moved_next; [eassumption..|]. intros j' w'. apply E.
  - unfold fromReportConfirm. case_bool_decide; [|eapply moved_end; [eassumption..|told_tac]].
    eapply moved_data; [eassumption|by constructor|]. intros c.
    eapply moved_data; [eassumption|by do 2 constructor|]. intros d.
    eapply moved_filed; [eassumption..|done|apply quiet_report_createAnonymous|intros r; told_tac].
  - eapply moved_end; [eassumption..|]. cbv zeta. told_tac.
    + by apply calm_throttle.
    + by apply sure_throttle.
    + by apply calm_quiet, quiet_act.
    + intros w1 _. by eexists.
  - unfold fromMissingPersonType, mem.
    destruct (decide (input = "1")) as [->|H1]; [next_tac|].
    destruct (decide (input = "2")) as [->|H2]; [next_tac|].
    rewrite !bool_decide_eq_false_2 by set_solver. by apply moved_again.
  - next_tac.
  - unfold fromMissingPersonDescription, if_filled.
    destruct (truthy (trim input)); [next_tac|by apply moved_again].
  - unfold fromMissingPersonDateLastSeen, moved. rewrite run_bind. unfold now. rewrite run_gets.
    destruct (parseDdMmYyyy _ _); [|by apply (moved_again _ _ MISSING_PERSON_DATE_LAST_SEEN)]. 
    change (moved sid j MISSING_PERSON_DATE_LAST_SEEN w (Next MISSING_PERSON_LAST_AREA)
      (setStep j MISSING_PERSON_LAST_AREA [("dateLastSeen", s)] ;;
       mret (con "Last known area (town/neighborhood):"))). next_tac.
  - unfold fromMissingPersonLastArea, if_filled.
    destruct (truthy (trim input)); [next_tac|by apply moved_again].
  - unfold fromMissingPersonConfirm. case_bool_decide; [|eapply moved_end; [eassumption..|told_tac]].
    eapply moved_data; [eassumption|by constructor|]. intros pt.
    eapply moved_data; [eassumption|by do 3 constructor|]. intros d.
    eapply moved_data; [eassumption|by do 4 constructor|]. intros day.
    eapply moved_data; [eassumption|by do 5 constructor|]. intros area.
    eapply moved_data; [eassumption|by do 2 constructor|]. intros nm.
    eapply moved_filed; [eassumption..|done|apply quiet_missing_createAnonymous|intros r; told_tac].
  - unfold fromInfoMissingPersonId, published. cbv zeta.
    destruct (truthy (trim input)); cbn [negb andb]; [|eapply moved_end; [eassumption..|told_tac]].
    unfold moved. rewrite run_bind, run_findApprovedPublic.
    destruct (uw_missing w !! trim input) as [m|]; [destruct (is_approved m)|].
    + change (moved sid j INFO_MISSING_PERSON_ID w (Next INFO_DESCRIPTION)
        (setStep j INFO_DESCRIPTION [("missingPersonId", trim input)] ;;
         mret (con "What information do you have?"))). next_tac.
    + eapply moved_end; [eassumption..|told_tac].
    + eapply moved_end; [eassumption..|told_tac].
  - unfold fromInfoDescription, if_filled.
    destruct (truthy (trim input)); [next_tac|by apply moved_again].
  - unfold fromInfoConfirm. case_bool_decide; [|eapply moved_end; [eassumption..|told_tac]].
    eapply moved_over; [eassumption..|done|by apply calm_throttle|by apply sure_throttle|].
    intros b.
    destruct b; cbn [negb]; [|last_tac].
    apply last_word_bind; [apply calm_quiet, quiet_state_data|]. intros id.
    apply last_word_bind; [apply calm_quiet, quiet_state_data|]. intros x.
    apply last_word_bind; [apply calm_quiet, quiet_info_createAnonymous|]. intros i. last_tac.
Qed.
End services.
