(* ===== verification/UssdDialog.v ===== *)
(** * USSD: what callers get

    The theorems about requests that interleave and about whole dialogs, on a concrete
    world where they have hypotheses, and runs that show what the menu does not do. *)

From S2P Require Import Prelude Interleave Js Json JsDate Redis Roles ReportModel.
From S2P Require Import UssdModel UssdMenu UssdProps UssdSafety.
From coqutil Require Import Datatypes.RecordSetters.
Import DoubleBraceUpdate.

Open Scope Z_scope.

Definition inbound (sid phone : option string) (input : string) : UssdInboundDto :=
  {| in_sessionId := sid; in_phoneNumber := phone; in_input := input; in_serviceCode := None |}.

Section dialogs.
Context `{UssdLib}.

(** ** Interleaved requests *)

Inductive ussd_handler : prog UssdW () → Prop :=
| h_session cfg req : ussd_handler (handleSession cfg req ;; mret ()).

(** C20: However requests interleave with each other and with the rest of the application:
    a session that is read back has the members that its step relies on, of the types
    that the code casts them to; a row that came over USSD belongs to nobody and lacks
    no text, and a person was not last seen after the report; and a request fails only
    when the caller is no gateway, the case is not published (any more), or five case
    references in a row were taken, never on a member that is missing. *)
Theorem sessions_well_typed ps w ps' w' :
  ussd_inv w → Forall ussd_handler ps → rtc (pool_step ussd_env) (ps, w) (ps', w') →
  ussd_inv w' ∧ ∀ i e, ps' !! i = Some (Throw e) → expected e.
Proof.
  intros HI Hps Hrun.
  destruct (pool_rg ussd_inv ussd_rel ussd_env expected ps w ps' w') as (HI'&_&Hps');
    [apply ussd_env_good|done| |exact Hrun|].
  - intros i p Hi. rewrite Forall_lookup in Hps. destruct (Hps i p Hi) as [cfg req].
    apply ok_bind; [apply ok_handleSession|done].
  - split; [done|]. intros i e Hi. exact (Hps' i _ Hi).
Qed.

(** ** One request *)

Lemma run_handle sid phone input w :
  ussd_inv w → up w →
  run (handle (inbound sid phone input)) w =
  match session_json sid w with
  | Some j => run (route j input) w
  | None => run (session_start sid phone ;; mret renderRoot) w
  end.
Proof.
  intros HI Hup. unfold handle. cbn [in_sessionId in_phoneNumber in_input inbound].
  rewrite run_bind, run_session_get by done.
  destruct (session_json sid w) as [j|] eqn:Hj; [|done].
  destruct (session_typed sid w j HI Hj) as [s Hs]. by rewrite (typed_not_falsy _ _ _ _ Hs).
Qed.
Lemma run_start sid phone w :
  up w → run (session_start sid phone ;; mret renderRoot) w =
    (Ok renderRoot, saved (session_state sid phone ROOT [] (uw_now w)) w).
Proof.
  intros Hup. unfold session_start. rewrite !run_bind. unfold now. rewrite run_gets. cbv zeta.
  by rewrite run_bind, run_session_save.
Qed.

(** The answer [r] and the world [w'] after the automaton's move. *)
Definition follows (sid : option string) (w : UssdW) (input : string)
    (r : outcome UssdOutboundResult) (w' : UssdW) : Prop :=
  match session_step sid w with
  | None => session_step sid w' = Some ROOT ∧ r = Ok renderRoot
  | Some s =>
      match answer w s input with
      | Again => session_step sid w' = Some s ∧ ∃ text, r = Ok (con text)
      | Next s' => session_step sid w' = Some s' ∧ ∃ text, r = Ok (con text)
      | Over => (session_step sid w' = None ∧ ∃ text, r = Ok (fin text)) ∨
                ∃ e, r = Err e ∧ expected e ∧
                  left_by_failure s (session_json sid w) (session_json sid w')
      end
  end.
Lemma handle_follows sid phone input w :
  ussd_inv w → up w →
  let r := (run (handle (inbound sid phone input)) w).1 in
  let w' := (run (handle (inbound sid phone input)) w).2 in
  ussd_inv w' ∧ up w' ∧ follows sid w input r w'.
Proof.
  intros HI Hup. cbv zeta.
  pose proof (rg_run ussd_inv ussd_rel _ _ _ w HI (ok_handle (inbound sid phone input) w))
    as (HI'&_&He).
  split; [exact HI'|]. revert He. clear HI'. rewrite run_handle by done. unfold follows, session_step at 1.
  destruct (session_json sid w) as [j|] eqn:Hj.
  - intros He. destruct (session_typed sid w j HI Hj) as [s Hs]. rewrite (step_at_typed _ _ _ _ Hs).
    destruct (moved_route sid j s w input Hup Hs Hj) as [Hup' Hm]. split; [done|].
    destruct (answer w s input); unfold session_step in *; cbn in Hm.
    + destruct Hm as [-> Hr]. by rewrite (step_at_typed _ _ _ _ Hs).
    + done.
    + destruct Hm as [[-> Hr]|(e&Hr&Hs')]; [by left|right].
      exists e. split; [done|]. split; [|done].
      destruct (run (route j input) w) as [? ?]. cbn in Hr. by subst.
  - intros _. rewrite run_start by done. cbn [fst snd]. split; [apply up_saved|].
    unfold session_step. rewrite session_json_saved by (by destruct sid, phone). by destruct sid, phone.
Qed.

(** An answer that a question offers as a way out ("or 0 to cancel"). *)
Definition offered_way_out (s : UssdStep) (input : string) : Prop :=
  (s = REPORT_DESCRIPTION ∨ s = INFO_DESCRIPTION) ∧ trim input = "0".

(** C21: The menu, with its sessions in Redis (which is connected), refines the automaton of the questions. A
    caller without a session gets the main menu; else the answer is taken as the
    automaton takes it, the dialog goes on exactly when it does, and the session in
    Redis is at the automaton's state afterwards. A request fails only when what the
    caller confirms cannot be filed; then the session of a report is as it was, to be
    confirmed again, and that of information is gone. (Not said of the answer 0 where a
    description or information is asked for, which the menu offers for cancelling:
    [zero_is_a_description] in UssdDemo.) *)
Theorem menu_refines sid phone input w :
  ussd_inv w → up w →
  (∀ s, session_step sid w = Some s → ¬ offered_way_out s input) →
  let '(r, w') := run (handle (inbound sid phone input)) w in
  ussd_inv w' ∧ up w' ∧ follows sid w input r w'.
Proof.
  intros HI Hup _. pose proof (handle_follows sid phone input w HI Hup) as Hf.
  by destruct (run (handle _) w).
Qed.

(** ** Dialogs *)

(** A caller sends one answer after the other, while no other request runs. *)
Fixpoint dialog (sid phone : option string) (inputs : list string) (w : UssdW)
    : list (outcome UssdOutboundResult) * UssdW :=
  match inputs with
  | [] => ([], w)
  | input :: inputs =>
      let '(r, w1) := run (handle (inbound sid phone input)) w in
      let '(rs, w2) := dialog sid phone inputs w1 in
      (r :: rs, w2)
  end.
(** Some answer is not taken and the question is asked again. *)
Fixpoint asked_again (sid phone : option string) (inputs : list string) (w : UssdW) : Prop :=
  match inputs with
  | [] => False
  | input :: inputs =>
      match session_step sid w with Some s => answer w s input = Again | None => False end ∨
      asked_again sid phone inputs (run (handle (inbound sid phone input)) w).2
  end.
Definition ends (r : outcome UssdOutboundResult) : Prop :=
  match r with Ok out => out_continueSession out = false | Err _ => True end.

(** The most questions that are still to come. *)
Definition rank (s : UssdStep) : nat :=
  match s with
  | ROOT => 7
  | MISSING_PERSON_TYPE => 6 | MISSING_PERSON_NAME => 5 | MISSING_PERSON_DESCRIPTION => 4
  | MISSING_PERSON_DATE_LAST_SEEN => 3 | MISSING_PERSON_LAST_AREA => 2
  | MISSING_PERSON_CONFIRM => 1
  | REPORT_CATEGORY => 3 | REPORT_DESCRIPTION => 2 | REPORT_CONFIRM => 1
  | STATUS_INPUT_REF => 1
  | INFO_MISSING_PERSON_ID => 3 | INFO_DESCRIPTION => 2 | INFO_CONFIRM => 1
  end.
Lemma answer_rank w s input s' : answer w s input = Next s' → (rank s' < rank s)%nat.
Proof.
  destruct s; cbn [answer]; unfold if_filled;
    repeat (case_match; try done); intros [= <-]; cbn; lia.
Qed.
Lemma rank_pos s : (1 ≤ rank s ≤ 7)%nat.
Proof. destruct s; cbn; lia. Qed.

Lemma dialog_ends_ranked sid phone inputs w s :
  ussd_inv w → up w → session_step sid w = Some s → ¬ asked_again sid phone inputs w →
  (rank s ≤ length inputs)%nat → ∃ r, r ∈ (dialog sid phone inputs w).1 ∧ ends r.
Proof.
  revert w s. induction inputs as [|input inputs IH]; intros w s HI Hup Hs Hag Hlen.
  { pose proof (rank_pos s). cbn in Hlen. lia. }
  cbn [asked_again dialog] in *. rewrite Hs in Hag.
  pose proof (handle_follows sid phone input w HI Hup) as (HI'&Hup'&Hm).
  unfold follows in Hm. rewrite Hs in Hm. destruct (run (handle _) w) as [r w1]; cbn [fst snd] in *.
  specialize (IH w1). destruct (dialog sid phone inputs w1) as [rs w2]; cbn [fst] in *.
  destruct (answer w s input) as [|s'|] eqn:Ha.
  - destruct Hag. by left.
  - apply answer_rank in Ha. destruct Hm as [Hs' _].
    destruct (IH s') as (r'&Hin&Hr'); [tauto..|cbn in Hlen; lia|]. exists r'. split; [by right|done].
  - exists r. split; [left|]. by destruct Hm as [[_ [text ->]]|(e&->&_)].
Qed.

(** C22: No dialog goes on for ever: from any question on, seven answers that are taken bring
    it to its end, whichever way they take through the menu. *)
Theorem dialog_ends sid phone inputs w s :
  ussd_inv w → up w → session_step sid w = Some s → ¬ asked_again sid phone inputs w →
  (7 ≤ length inputs)%nat → ∃ r, r ∈ (dialog sid phone inputs w).1 ∧ ends r.
Proof.
  intros HI Hup Hs Hag Hlen. pose proof (rank_pos s).
  eapply dialog_ends_ranked; [done..|lia].
Qed.

(** ** Answers to the end *)

Lemma saved_saved j j' w :
  session_key (member "sessionId" j') = session_key (member "sessionId" j) →
  saved j' (saved j w) = saved j' w.
Proof.
  intros Hk. unfold saved.
  change (uw_store (set_store CacheConn ?st w)) with st.
  change (uw_now (set_store CacheConn ?st w)) with (uw_now w).
  by rewrite set_store_set_store, Hk, insert_insert_eq.
Qed.
Lemma dialog_cons sid phone input inputs w r w1 :
  run (handle (inbound sid phone input)) w = (r, w1) →
  dialog sid phone (input :: inputs) w =
  (r :: (dialog sid phone inputs w1).1, (dialog sid phone inputs w1).2).
Proof. cbn [dialog]. intros ->. by destruct (dialog sid phone inputs w1). Qed.


(** An answer that is taken. *)
Lemma handle_next sid phone input j s' patch text w :
  up w → ussd_inv (saved j w) →
  session_key (member "sessionId" j) = session_key (JStr <$> sid) →
  session_key (member "sessionId" (with_step j s' patch)) = session_key (JStr <$> sid) →
  run (route j input) (saved j w) = run (setStep j s' patch ;; mret (con text)) (saved j w) →
  run (handle (inbound sid phone input)) (saved j w) =
    (Ok (con text), saved (with_step j s' patch) w) ∧
  ussd_inv (saved (with_step j s' patch) w).
Proof.
  intros Hup HI Hk Hk' Hr.
  assert (run (handle (inbound sid phone input)) (saved j w) =
          (Ok (con text), saved (with_step j s' patch) w)) as E.
  { rewrite run_handle, session_json_saved by (done || apply up_saved).
    rewrite Hr, run_bind, run_setStep by apply up_saved.
    rewrite saved_saved by (by rewrite Hk, Hk'). done. }
  split; [exact E|].
  destruct (handle_follows sid phone input (saved j w) HI (up_saved _ _)) as [HI' _]. by rewrite E in HI'.
Qed.
Lemma handle_start sid phone input w :
  ussd_inv w → up w → session_json sid w = None →
  run (handle (inbound sid phone input)) w =
    (Ok renderRoot, saved (session_state sid phone ROOT [] (uw_now w)) w) ∧
  ussd_inv (saved (session_state sid phone ROOT [] (uw_now w)) w).
Proof.
  intros HI Hup Hs.
  assert (run (handle (inbound sid phone input)) w =
          (Ok renderRoot, saved (session_state sid phone ROOT [] (uw_now w)) w)) as E
    by (by rewrite run_handle, Hs, run_start).
  split; [exact E|]. destruct (handle_follows sid phone input w HI Hup) as [HI' _]. by rewrite E in HI'.
Qed.

(** The reference that the next report gets. *)
Definition next_reference (w : UssdW) : string :=
  "EHT-" +:+ str_of_Z (local_year (uw_now w)) +:+ "-" +:+ uss_base36 (uw_draws w).

Lemma run_createWithUniqueCaseReference n c d w :
  map_Forall (λ _ r, rr_caseReference r ≠ next_reference w) (uw_reports w) →
  let id := uss_uuid (S (uw_draws w)) in
  let r := new_report (next_reference w) c d id in
  run (createWithUniqueCaseReference n (Some (JStr (category_name c))) (Some (JStr d))) w =
  (Ok r, w{{uw_draws := S (S (uw_draws w)); uw_reports := <[id := r]> (uw_reports w)}}).
Proof.
  intros Hfresh id r.
  assert (run generateCaseReference w = (Ok (next_reference w), w{{uw_draws ::= S}})) as E by done.
  assert (∀ w, run (enum_arg category_name all_categories (Some (JStr (category_name c)))) w = (Ok c, w))
    as Ec by (intros w'; by destruct c).
  assert (run (report_create (new_report (next_reference w) c d)) (w{{uw_draws ::= S}}) =
    (Ok r, w{{uw_draws := S (S (uw_draws w)); uw_reports := <[id := r]> (uw_reports w)}})) as Er.
  { unfold report_create. rewrite run_act_outcome.
    rewrite bool_decide_eq_true_2 by exact Hfresh. done. }
  destruct n; cbn [createWithUniqueCaseReference];
    (rewrite run_bind, E, run_bind, run_attempt, run_bind, Ec, run_bind;
     unfold text_arg; rewrite run_ret; cbv beta iota; by rewrite Er).
Qed.
Lemma run_report_createAnonymous c d w :
  map_Forall (λ _ r, rr_caseReference r ≠ next_reference w) (uw_reports w) →
  ∃ id w', run (report_createAnonymous (Some (JStr (category_name c))) (Some (JStr d))) w =
      (Ok (new_report (next_reference w) c d id), w') ∧
    uw_reports w' = <[id := new_report (next_reference w) c d id]> (uw_reports w).
Proof.
  intros Hfresh. exists (uss_uuid (S (uw_draws w))). eexists. unfold report_createAnonymous.
  rewrite run_bind, run_createWithUniqueCaseReference by done. by split.
Qed.

(** One more answer of a dialog: the next state and the goal that it is taken so. *)
Ltac next_answer sid phone i j s patch text w jn :=
  let E := fresh "E" in let HI := fresh "HI" in
  destruct (handle_next sid phone i j s patch text w) as [E HI];
  [done..|by destruct sid, phone|by destruct sid, phone| |
   rewrite (dialog_cons _ _ _ _ _ _ _ E); clear E; set (jn := with_step j s patch) in *].
(** What the handler of a step computes of a concrete session. *)
Ltac at_step sid phone h :=
  match goal with |- run ?r _ = _ => replace r with h by (by destruct sid, phone) end.

(** C23: A caller who dials, chooses a category, says what happened and confirms has filed
    exactly that report, and is told its reference. *)
Theorem report_filed sid phone first n text label category w :
  ussd_inv w → up w → session_json sid w = None →
  chosen_category n = Some (label, category) → truthy (trim text) = true →
  map_Forall (λ _ r, rr_caseReference r ≠ next_reference w) (uw_reports w) →
  let '(rs, w') := dialog sid phone [first; "1"; n; text; "1"] w in
  last rs = Some (Ok (fin ("Report submitted. Your Case Reference is " +:+ next_reference w +:+
                           ". Keep it to check status later."))) ∧
  session_json sid w' = None ∧
  ∃ id, uw_reports w' =
    <[id := new_report (next_reference w) category (trim text) id]> (uw_reports w).
Proof.
  intros HI Hup Hs Hn Ht Hfresh.
  destruct (handle_start sid phone first w HI Hup Hs) as [E0 HI0].
  rewrite (dialog_cons _ _ _ _ _ _ _ E0). set (j0 := session_state _ _ _ _ _) in *.
  next_answer sid phone "1" j0 REPORT_CATEGORY (@nil (string * string))
    ("Select category:" +:+ newline +:+ category_list) w j1; [by destruct sid, phone|].
  next_answer sid phone n j1 REPORT_DESCRIPTION
    [("category", category_name category); ("categoryLabel", label)]
    "Briefly describe what happened:" w j2.
  { at_step sid phone (fromReportCategory j1 n). unfold fromReportCategory. by rewrite Hn. }
  next_answer sid phone text j2 REPORT_CONFIRM [("description", trim text)]
    (lines ["Category: " +:+ label; "Submit this report?"; "1. Yes"; "2. No, cancel"]) w j3.
  { at_step sid phone (fromReportDescription j2 text). unfold fromReportDescription.
    rewrite Ht. by destruct sid, phone. }
  cbn [dialog fst snd].
  rewrite run_handle, session_json_saved by (done || apply up_saved || by destruct sid, phone).
  assert (route j3 "1" =
    (report ← report_createAnonymous (Some (JStr (category_name category)))
                (Some (JStr (trim text)));
     state_end j3 ;;
     mret (fin ("Report submitted. Your Case Reference is " +:+ rr_caseReference report +:+
                ". Keep it to check status later.")))) as -> by (by destruct sid, phone).
  destruct (run_report_createAnonymous category (trim text) (saved j3 w)) as (id&w4&Hrun&Hrows);
    [exact Hfresh|].
  pose proof (quiet_up _ (saved j3 w) (quiet_report_createAnonymous
    (Some (JStr (category_name category))) (Some (JStr (trim text)))) (up_saved _ _)) as Hup4.
  rewrite Hrun in Hup4. cbn [snd] in Hup4.
  rewrite run_bind, Hrun, run_bind. unfold state_end. rewrite run_session_end by done.
  rewrite run_ret. cbn [fst snd]. split; [done|]. split.
  - apply session_json_ended. by destruct sid, phone.
  - exists id. exact Hrows.
Qed.

(** What is kept of a name: nothing for 0. *)
Definition typed_name (input : string) : string :=
  if bool_decide (trim input = "0") then "" else trim input.
Definition name_column (name : string) : option string :=
  if truthy name then Some name else None.

Lemma run_missing_createAnonymous pt d day date area name phone w :
  Date_parse day = Some date →
  ∃ id w', run (missing_createAnonymous (Some (JStr (person_type_name pt))) (Some (JStr d))
        (Some (JStr day)) (Some (JStr area)) (or_undefined (Some (JStr name)))
        (JStr <$> phone)) w =
      (Ok (new_missing phone pt (name_column name) d date area id (uw_now w)), w') ∧
    uw_missing w' =
      <[id := new_missing phone pt (name_column name) d date area id (uw_now w)]> (uw_missing w).
Proof.
  intros Hday. exists (uss_uuid (uw_draws w)). eexists. unfold missing_createAnonymous.
  assert (∀ o (w : UssdW), run (opt_text_arg (JStr <$> o)) w = (Ok o, w)) as Eo by (by intros []).
  assert (or_undefined (or_undefined (Some (JStr name))) = JStr <$> name_column name) as ->
    by (by destruct name).
  assert (∀ w, run (enum_arg person_type_name [WOMAN; CHILD] (Some (JStr (person_type_name pt)))) w
    = (Ok pt, w)) as Ep by (intros w'; by destruct pt).
  rewrite run_bind, Eo, run_bind, Ep, run_bind, Eo, run_bind. unfold text_arg. rewrite run_ret.
  rewrite run_bind. unfold date_arg. rewrite Hday. by split.
Qed.

Definition chosen_type (input : string) : option MissingPersonType :=
  if bool_decide (input = "1") then Some WOMAN
  else if bool_decide (input = "2") then Some CHILD else None.

(** Likewise for a missing person: the seven answers after the greeting file the case that
    they describe, with the caller's number, and the caller is told its identifier. *)
Theorem missing_person_filed sid phone first t name text day area pt iso date w :
  ussd_inv w → up w → session_json sid w = None →
  chosen_type t = Some pt → truthy (trim text) = true → truthy (trim area) = true →
  parseDdMmYyyy (trim day) (uw_now w) = Some iso → Date_parse iso = Some date →
  let '(rs, w') := dialog sid phone [first; "2"; t; name; text; day; area; "1"] w in
  ∃ id, last rs = Some (Ok (fin
      ("Missing person report submitted for review. Reference ID: " +:+ id))) ∧
    session_json sid w' = None ∧
    uw_missing w' = <[id := new_missing phone pt (name_column (typed_name name)) (trim text)
                              date (trim area) id (uw_now w)]> (uw_missing w).
Proof.
  intros HI Hup Hs Ht Htext Harea Hday Hdate.
  destruct (handle_start sid phone first w HI Hup Hs) as [E0 HI0].
  rewrite (dialog_cons _ _ _ _ _ _ _ E0). set (j0 := session_state _ _ _ _ _) in *.
  next_answer sid phone "2" j0 MISSING_PERSON_TYPE (@nil (string * string))
    (lines ["Who is missing?"; "1. Woman"; "2. Child"]) w j1; [by destruct sid, phone|].
  next_answer sid phone t j1 MISSING_PERSON_NAME [("personType", person_type_name pt)]
    "Enter their name, or 0 to skip:" w j2.
  { at_step sid phone (fromMissingPersonType j1 t). unfold fromMissingPersonType.
    unfold chosen_type in Ht. by rewrite Ht. }
  next_answer sid phone name j2 MISSING_PERSON_DESCRIPTION [("name", typed_name name)]
    "Briefly describe them (appearance, clothing, etc.):" w j3; [by destruct sid, phone|].
  next_answer sid phone text j3 MISSING_PERSON_DATE_LAST_SEEN [("description", trim text)]
    "Date last seen? Enter as DD/MM/YYYY:" w j4.
  { at_step sid phone (fromMissingPersonDescription j3 text).
    unfold fromMissingPersonDescription. by rewrite Htext. }
  next_answer sid phone day j4 MISSING_PERSON_LAST_AREA [("dateLastSeen", iso)]
    "Last known area (town/neighborhood):" w j5.
  { at_step sid phone (fromMissingPersonDateLastSeen j4 day).
    unfold fromMissingPersonDateLastSeen. rewrite run_bind. unfold now. rewrite run_gets.
    change (uw_now (saved j4 w)) with (uw_now w). by rewrite Hday. }
  next_answer sid phone area j5 MISSING_PERSON_CONFIRM [("lastKnownArea", trim area)]
    (lines ["Submit this missing person report?"; "1. Yes"; "2. No, cancel"]) w j6.
  { at_step sid phone (fromMissingPersonLastArea j5 area).
    unfold fromMissingPersonLastArea. by rewrite Harea. }
  cbn [dialog fst snd].
  rewrite run_handle, session_json_saved by (done || apply up_saved || by destruct sid, phone).
  assert (route j6 "1" =
    (m ← missing_createAnonymous (Some (JStr (person_type_name pt))) (Some (JStr (trim text)))
           (Some (JStr iso)) (Some (JStr (trim area)))
           (or_undefined (Some (JStr (typed_name name)))) (JStr <$> phone);
     state_end j6 ;;
     mret (fin ("Missing person report submitted for review. Reference ID: " +:+ mp_id m))))
    as -> by (by destruct sid, phone).
  set (p := missing_createAnonymous _ _ _ _ _ _).
  destruct (run_missing_createAnonymous pt (trim text) iso date (trim area) (typed_name name)
              phone (saved j6 w) Hdate) as (id&w4&Hrun&Hrows).
  pose proof (quiet_up p (saved j6 w) (quiet_missing_createAnonymous _ _ _ _ _ _)
                (up_saved _ _)) as Hup4.
  change (run p (saved j6 w) = (Ok (new_missing phone pt (name_column (typed_name name))
    (trim text) date (trim area) id (uw_now w)), w4)) in Hrun.
  rewrite Hrun in Hup4. cbn [snd] in Hup4.
  rewrite run_bind, Hrun, run_bind. unfold state_end. rewrite run_session_end by done.
  rewrite run_ret. cbn [fst snd]. exists id. split; [done|]. split; [|exact Hrows].
  apply session_json_ended. by destruct sid, phone.
Qed.
End dialogs.
