(* ===== verification/UssdDemo.v ===== *)
(** * A concrete USSD application

    An instance of the code of other packages and a world on which dialogs evaluate; the
    theorems of UssdDialog.v on it, and runs that show what the menu does not do. *)

From S2P Require Import Prelude Interleave Js Json JsDate Redis Roles ReportModel.
From S2P Require Import UssdModel UssdMenu UssdProps UssdSafety UssdDialog.
From coqutil Require Import Datatypes.RecordSetters.
Import DoubleBraceUpdate.

Open Scope Z_scope.

#[export] Instance ussd_lib : UssdLib := {| uss_uuid n := str_of_Z (Z.of_nat n); uss_base36 n := str_of_Z (Z.of_nat n) |}.

Definition app_report : ReportRow :=
  {| rr_id := "r-1"; rr_userId := Some "user-1"; rr_caseReference := "EHT-2026-APP";
     rr_category := THREAT; rr_description := "A report of the app."; rr_status := PENDING;
     rr_channel := CH_APP |}.
Definition published_case : MissingPerson :=
  {| mp_id := "m-1"; mp_userId := Some "user-1"; mp_contactPhone := None;
     mp_personType := CHILD; mp_name := Some "A name"; mp_description := "A description";
     mp_dateLastSeen := 0; mp_lastKnownArea := "An area"; mp_status := MP_APPROVED;
     mp_channel := CH_APP; mp_createdAt := 1 |}.
(** The first of March 2026. *)
Definition ussd_world : UssdW :=
  {| uw_redis := fresh_redis; uw_reports := {["r-1" := app_report]};
     uw_missing := {["m-1" := published_case]}; uw_infos := ∅; uw_events := []; uw_draws := 0;
     uw_now := 1772323200000 |}.
Definition caller : option string := Some "+251911000000".

Lemma ussd_world_inv : ussd_inv ussd_world.
Proof.
  split.
  - intros k e _ He. cbn in He. by rewrite lookup_empty in He.
  - by apply map_Forall_singleton.
  - by apply map_Forall_singleton.
  - apply map_Forall_empty.
Qed.

(** A session at the first question. *)
Definition started : UssdW := (run (handle (inbound (Some "s") caller "")) ussd_world).2.
Lemma started_ok : ussd_inv started ∧ up started.
Proof.
  pose proof (handle_follows (Some "s") caller "" ussd_world ussd_world_inv ltac:(done))
    as (HI&Hup&_). by split.
Qed.
Definition seven : list string :=
  ["2"; "1"; "0"; "A description"; "28/02/2026"; "An area"; "2"].
Lemma dialog_ends_witness : ∃ r, r ∈ (dialog (Some "s") caller seven started).1 ∧ ends r.
Proof.
  apply (dialog_ends (Some "s") caller seven started ROOT);
    [apply started_ok|apply started_ok|by vm_compute| |by vm_compute].
  vm_compute. intuition discriminate.
Defined.

Lemma report_filed_witness :
  let '(rs, w') := dialog (Some "s") caller [""; "1"; "4"; " A threat. "; "1"] ussd_world in
  last rs = Some (Ok (fin ("Report submitted. Your Case Reference is " +:+
    next_reference ussd_world +:+ ". Keep it to check status later."))) ∧
  session_json (Some "s") w' = None ∧
  ∃ id, uw_reports w' =
    <[id := new_report (next_reference ussd_world) THREAT "A threat." id]>
      (uw_reports ussd_world).
Proof.
  apply (report_filed (Some "s") caller "" "4" " A threat. " "Threat" THREAT ussd_world);
    [apply ussd_world_inv|done|done|by vm_compute|by vm_compute|].
  by apply map_Forall_singleton.
Defined.

Lemma missing_person_filed_witness :
  let '(rs, w') :=
    dialog (Some "s") caller [""; "2"; "1"; "0"; "Tall"; "28/2/2026"; "Adama"; "1"] ussd_world in
  ∃ id, last rs = Some (Ok (fin
      ("Missing person report submitted for review. Reference ID: " +:+ id))) ∧
    session_json (Some "s") w' = None ∧
    uw_missing w' = <[id := new_missing caller WOMAN None "Tall" 1772236800000 "Adama" id
                              1772323200000]> (uw_missing ussd_world).
Proof.
  apply (missing_person_filed (Some "s") caller "" "1" "0" "Tall" "28/2/2026" "Adama" WOMAN
           "2026-02-28T00:00:00.000Z" 1772236800000 ussd_world);
    [apply ussd_world_inv|done..].
Defined.

(** ** Two requests of one session *)

Definition gateway : UssdConfig :=
  {| uc_secret := Some "s3cret"; uc_allowedIps := None; uc_appEnv := Some "production";
     uc_nodeEnv := None |}.
Definition post (text : string) : UssdRequest :=
  {| rq_secretHeader := ["s3cret"]; rq_querySecret := None; rq_ip := Some "10.0.0.1";
     rq_body := {| rb_sessionId := Some "s"; rb_phoneNumber := caller; rb_text := Some text;
                   rb_serviceCode := None |} |}.
Definition posted (text : string) : prog UssdW () := handleSession gateway (post text) ;; mret ().

Definition at_confirm : UssdW :=
  (dialog (Some "s") caller [""; "1"; "4"; "A threat."] ussd_world).2.
Lemma dialog_ok sid phone inputs w :
  ussd_inv w → up w → ussd_inv (dialog sid phone inputs w).2 ∧ up (dialog sid phone inputs w).2.
Proof.
  revert w. induction inputs as [|input inputs IH]; intros w HI Hup; [done|]. cbn [dialog].
  pose proof (handle_follows sid phone input w HI Hup) as (HI'&Hup'&_).
  destruct (run (handle _) w) as [r w1]. cbn [snd] in *. destruct (IH w1 HI' Hup').
  by destruct (dialog sid phone inputs w1).
Qed.
Lemma at_confirm_ok : ussd_inv at_confirm ∧ up at_confirm.
Proof. apply dialog_ok; [apply ussd_world_inv|done]. Qed.
(** A session at the confirmation of a report. *)
Lemma menu_refines_witness :
  let '(r, w') := run (handle (inbound (Some "s") caller "1")) at_confirm in
  ussd_inv w' ∧ up w' ∧ follows (Some "s") at_confirm "1" r w'.
Proof.
  apply (menu_refines (Some "s") caller "1" at_confirm); [apply at_confirm_ok..|].
  intros st Hs. assert (session_step (Some "s") at_confirm = Some REPORT_CONFIRM) as Hc
    by (vm_compute; reflexivity).
  rewrite Hc in Hs. injection Hs as <-. by intros [[?|?] _].
Defined.

Definition twice : list (prog UssdW ()) * UssdW :=
  schedule ([0; 1] ++ replicate 30 0 ++ replicate 30 1)%nat
    [posted "1*4*A threat.*1"; posted "1*4*A threat.*1"] at_confirm.

(** The gateway repeats a request that it holds to be lost; the first one has read the
    session and not ended it yet: both file the report. *)
Example confirmed_twice :
  twice.1 = [mret (); mret ()] ∧ size (uw_reports twice.2) = 3%nat.
Proof. split; by vm_compute. Qed.

Lemma sessions_well_typed_witness :
  ussd_inv (schedule [0; 1; 0; 1]%nat [posted ""; posted "1"] ussd_world).2.
Proof.
  apply (sessions_well_typed [posted ""; posted "1"] ussd_world
           (schedule [0; 1; 0; 1]%nat [posted ""; posted "1"] ussd_world).1).
  - apply ussd_world_inv.
  - repeat constructor.
  - rewrite <- (surjective_pairing (schedule _ _ _)). apply schedule_steps.
Defined.

(** ** What the menu does not do *)

(** The text after an empty description offers 0 to cancel; 0 is taken as the
    description. *)
Example zero_is_a_description :
  map (λ r, match r with Ok out => out_text out | Err _ => "" end)
    (dialog (Some "s") caller [""; "1"; "4"; ""; "0"] ussd_world).1 !! 3%nat =
    Some "Please enter a short description, or 0 to cancel." ∧
  map (λ r, match r with Ok out => out_text out | Err _ => "" end)
    (dialog (Some "s") caller [""; "1"; "4"; ""; "0"] ussd_world).1 !! 4%nat =
    Some (lines ["Category: Threat"; "Submit this report?"; "1. Yes"; "2. No, cancel"]).
Proof. split; by vm_compute. Qed.

(** The status of a report of the app is told to any caller who has its reference. *)
Example app_report_status :
  last (dialog (Some "s") caller [""; "4"; "EHT-2026-APP"] ussd_world).1 =
  Some (Ok (fin "Status for EHT-2026-APP: PENDING")).
Proof. by vm_compute. Qed.

(** An empty answer is taken as the answer before it. *)
Example empty_answer_repeats :
  in_input (parseInbound (rq_body (post "1*4*"))) = "4".
Proof. reflexivity. Qed.
