(* ===== verification/VictimModel.v ===== *)
(** * Victim profiles: tables and statements

    The tables of [prisma/schema/victim-profile.prisma] and
    [payout-destination.prisma], what is emitted, the world of the handlers of
    victim profiles and the statements they make. A row carries the time of its
    last write, by which conditional updates recognise the version they read. *)

From S2P Require Import Prelude Js Redis Cache Roles PayModel.
From coqutil Require Import Datatypes.RecordSetters.
Import DoubleBraceUpdate.

Open Scope Z_scope.

(** ** Enumerations *)

(** [VictimProfileStatus] is the one of PayModel. *)
Inductive FlagStatus := FLAG_OPEN | FLAG_DISMISSED | FLAG_ACTIONED.
Inductive AppealStatus := APPEAL_OPEN | UPHELD | OVERTURNED.

#[export] Instance FlagStatus_eq_dec : EqDecision FlagStatus.
Proof. solve_decision. Defined.
#[export] Instance AppealStatus_eq_dec : EqDecision AppealStatus.
Proof. solve_decision. Defined.

Definition profile_status_name (s : VictimProfileStatus) : string :=
  match s with
  | VP_PENDING => "PENDING" | VP_UNDER_REVIEW => "UNDER_REVIEW" | VP_VERIFIED => "VERIFIED"
  | VP_CONSENT_PENDING => "CONSENT_PENDING" | VP_APPROVED => "APPROVED"
  | VP_PUBLISHED => "PUBLISHED" | VP_REJECTED => "REJECTED" | VP_UNPUBLISHED => "UNPUBLISHED"
  | VP_CHANGES_REQUESTED => "CHANGES_REQUESTED" | VP_WITHDRAWN => "WITHDRAWN"
  | VP_COMPLETED => "COMPLETED"
  end.

(** ** Tables *)

(** The six media columns. *)
Record MediaBearing := {
  md_photo : list string;
  md_video : list string;
  md_audio : list string;
  md_pdf : list string;
  md_document : list string;
  md_other : list string;
}.
Definition no_media : MediaBearing :=
  {| md_photo := []; md_video := []; md_audio := []; md_pdf := []; md_document := [];
     md_other := [] |}.

(** The columns the review decides on. *)
Record Gates := {
  g_involvesChild : bool;
  g_isVerified : bool;
  g_isSafetyReviewed : bool;
  g_isChildSafetyReviewed : bool;
  g_hasConsent : bool;
  g_isPrivacyReviewed : bool;
  g_isAdminApproved : bool;
}.

(** Columns that change together are grouped. *)
Record Consent := {
  cs_at : option Z;                 (* consentAt *)
  cs_recordedBy : option string;    (* consentRecordedBy *)
  cs_consentedBy : option string;
  cs_notes : option string;         (* consentNotes *)
  cs_documents : list string;       (* consentDocuments *)
}.
(** A person and a time: who claimed, confirmed first, reviews. *)
Record By := { by_id : option string; by_at : option Z }.
Definition nobody : By := {| by_id := None; by_at := None |}.
(** A text and a time: the review note, the note of completion. *)
Record Note := { nt_text : option string; nt_at : option Z }.
Definition no_note : Note := {| nt_text := None; nt_at := None |}.
(** A reason, a time and a person: takedown, deletion, legal hold. *)
Record Mark := { mk_reason : option string; mk_at : option Z; mk_byId : option string }.
Definition no_mark : Mark := {| mk_reason := None; mk_at := None; mk_byId := None |}.
Record Pause := { ps_paused : bool; ps_reason : option string; ps_at : option Z }.
(** [childFlagProposed...] *)
Record Proposal := {
  pr_value : option bool;
  pr_byId : option string;
  pr_at : option Z;
  pr_reason : option string;
}.
Definition no_proposal : Proposal :=
  {| pr_value := None; pr_byId := None; pr_at := None; pr_reason := None |}.

Record Profile := {
  vf_id : string;
  vf_name : option string;
  vf_description : option string;
  vf_story : option string;
  vf_supportGoal : option Z;
  vf_media : MediaBearing;
  vf_mediaTotalBytes : Z;
  vf_gates : Gates;
  vf_status : VictimProfileStatus;
  vf_isPublished : bool;
  vf_createdAt : Z;
  vf_updatedAt : Z;
  vf_createdByUserId : option string;
  vf_idempotencyKey : option string;
  vf_consent : Consent;
  vf_claim : By;                     (* claimedByUserId, claimedAt *)
  vf_first : By;                     (* childSafetyFirstConfirmedByUserId, ...At *)
  vf_totalRaised : Z;
  vf_review : Note;                  (* reviewNote, reviewNoteAt *)
  vf_creatorSeenAt : option Z;
  vf_assigned : By;                  (* assignedReviewerId, assignedAt *)
  vf_completed : Note;               (* completionNote, completedAt *)
  vf_isFeatured : bool;
  vf_featuredAt : option Z;
  vf_fundingEndsAt : option Z;
  vf_donations : Pause;              (* donationsPaused, ...Reason, ...At *)
  vf_takedown : Mark;
  vf_deletion : Mark;
  vf_legalHold : bool;
  vf_hold : Mark;                    (* legalHoldReason, legalHoldAt, legalHoldById *)
  vf_anonymizedAt : option Z;
  vf_proposal : Proposal;
  vf_payoutsPaused : bool;
}.

(** A row of [payout_destinations]; the profile is its key. *)
Record Destination := {
  dt_id : string;
  dt_bankName : string;
  dt_bankCode : string;
  dt_accountNumber : string;
  dt_accountHolder : string;
  dt_isVerified : bool;
  dt_verifiedById : option string;
  dt_verifiedAt : option Z;
  dt_updatedAt : Z;
}.

Record ProfileFlag := {
  fl_id : string;
  fl_profileId : string;
  fl_reporterId : string;
  fl_reason : string;
  fl_details : option string;
  fl_status : FlagStatus;
  fl_resolution : option string;
  fl_resolvedById : option string;
  fl_resolvedAt : option Z;
  fl_note : option string;
  fl_createdAt : Z;
}.

Record Appeal := {
  ap_id : string;
  ap_profileId : string;
  ap_authorId : string;
  ap_message : string;
  ap_status : AppealStatus;
  ap_decidedById : option string;
  ap_decidedAt : option Z;
  ap_decisionNote : option string;
  ap_createdAt : Z;
}.

Record ProfileUpdate := {
  pu_id : string;
  pu_profileId : string;
  pu_authorId : option string;
  pu_isStaff : bool;
  pu_title : option string;
  pu_body : string;
  pu_createdAt : Z;
}.

Record Revision := {
  rv_id : string;
  rv_profileId : string;
  rv_editedById : option string;
  rv_reason : string;
  rv_changes : list (string * json);
  rv_createdAt : Z;
}.

Record VicUser := {
  vu_id : string;
  vu_name : option string;
  vu_isActive : bool;
  vu_roles : list string;
}.

(** The columns of [audit_log] that these services read. *)
Record AuditRow := {
  ar_entity : string;
  ar_entityId : string;
  ar_action : string;
  ar_success : bool;                 (* outcome = SUCCESS *)
  ar_userId : option string;
  ar_createdAt : Z;
  ar_diff : list (string * json);
  ar_metadata : list (string * json);
}.

(** A bank as the provider lists it: JSON values, if present. *)
Record Bank := {
  bk_id : option json;
  bk_name : option json;
  bk_is_mobilemoney : option json;
}.

(** ** What is emitted *)

Record VicAudit := {
  va_userId : option string;
  va_targetUserId : option string;
  va_actorType : ActorType;
  va_action : string;
  va_outcome : option string;
  va_severity : option string;
  va_entity : string;
  va_entityId : option string;
  va_entityLabel : option string;
  va_reason : option string;
  va_diff : list (string * json);
  va_metadata : list (string * json);
}.

Inductive vic_event :=
| VicAudited (a : VicAudit)
| VicNotified (name : string) (payload : list (string * json))
| VicMediaDeleted (filepath : string).

(** ** The world *)

(** The code of other packages: the clock, read after as many writes as its
    argument says, and identifiers. *)
Class VicLib := {
  clock : nat → Z;
  vic_uuid : nat → string;
}.

Record VicW := {
  zw_profiles : gmap string Profile;
  zw_destinations : gmap string Destination;      (* by profile *)
  zw_payments : gmap string Payment;
  zw_disbursements : gmap string Disbursement;
  zw_flags : gmap string ProfileFlag;
  zw_appeals : gmap string Appeal;
  zw_updates : gmap string ProfileUpdate;
  zw_revisions : gmap string Revision;
  zw_reads : list (string * string);              (* profile, administrator *)
  zw_follows : list (string * string);            (* profile, user *)
  zw_views : list (string * option string);
  zw_users : gmap string VicUser;
  zw_audits : list AuditRow;                      (* newest first; the audit listener writes it *)
  zw_banks : list (outcome (list Bank));          (* the provider's next answers *)
  zw_events : list vic_event;                     (* newest first *)
  zw_draws : nat;
  zw_ticks : nat;
  zw_ppm : list Z;
  zw_redis : RedisSt;
  zw_secredis : RedisSt;
  zw_cache : CacheSt;
}.

Definition vic_draw (w : VicW) : nat * VicW := (zw_draws w, w{{zw_draws ::= S}}).

Section statements.
Context `{VicLib}.

#[export] Instance VicW_redis : HasRedis VicW := {|
  redis_of c w := match c with CacheConn => zw_redis w | SecConn => zw_secredis w end;
  with_redis c r w :=
    match c with
    | CacheConn => w{{zw_redis := r}}
    | SecConn => w{{zw_secredis := r}}
    end;
  now_of w := clock (zw_ticks w);
|}.

#[export] Instance VicW_cache : HasCache VicW := {|
  cache_of := zw_cache;
  with_cache cs w := w{{zw_cache := cs}};
  next_random w := (hd 0 (zw_ppm w), w{{zw_ppm ::= @tail Z}});
  next_token w := (vic_uuid (vic_draw w).1, (vic_draw w).2);
|}.

#[export] Instance VicW_redis_laws : RedisLaws VicW.
Proof. split; [by intros []..| |]; intros []; intros []; done. Qed.
#[export] Instance VicW_cache_laws : CacheLaws VicW.
Proof. by split; try intros []; intros. Qed.

(** ** Statements *)

Definition now : prog VicW Z := gets (λ w, clock (zw_ticks w)).
Definition emit (e : vic_event) : prog VicW () := modify (λ w, w{{zw_events ::= cons e}}).
Definition randomUUID : prog VicW string := n ← act vic_draw; mret (vic_uuid n).

Definition P2025 : exn := PrismaKnown "P2025" [].

Definition rows {A} (P : A → bool) (m : gmap string A) : list A :=
  filter (λ x, P x = true) (map_to_list m).*2.

Definition profile_by_id (id : string) : prog VicW (option Profile) :=
  gets (λ w, zw_profiles w !! id).
(** [findUniqueOrThrow] *)
Definition profile_by_id_or_throw (id : string) : prog VicW Profile :=
  p ← profile_by_id id; require p P2025.
Definition profile_findFirst (P : Profile → bool) : prog VicW (option Profile) :=
  gets (λ w, find_row P (zw_profiles w)).

(** A write of the table: the row, and one tick of the clock. *)
Definition put_profile (id : string) (p : Profile) (w : VicW) : VicW :=
  w{{zw_profiles ::= insert id p; zw_ticks ::= S}}.
(** The columns a write sets, and [updatedAt], which Prisma sets on every write. *)
Definition written (upd : Z → Profile → Profile) (t : Z) (p : Profile) : Profile :=
  (upd t p){{vf_updatedAt := t}}.

(** [updateMany({ where: { id, P } })]: the count. *)
Definition profile_updateMany (id : string) (P : Profile → bool) (upd : Z → Profile → Profile)
    : prog VicW Z :=
  act (λ w,
    match zw_profiles w !! id with
    | Some p =>
        if P p then (1, put_profile id (written upd (clock (zw_ticks w)) p) w) else (0, w)
    | None => (0, w)
    end).
(** [update({ where: { id } })] *)
Definition profile_update (id : string) (upd : Z → Profile → Profile) : prog VicW Profile :=
  act_outcome (λ w,
    match zw_profiles w !! id with
    | Some p => let p' := written upd (clock (zw_ticks w)) p in (Ok p', put_profile id p' w)
    | None => (Err P2025, w)
    end).
Definition at_version (t : Z) (p : Profile) : bool := bool_decide (vf_updatedAt p = t).

(** [create]: the pair of creator and idempotency key is unique. *)
Definition same_key (p q : Profile) : bool :=
  match vf_createdByUserId p, vf_idempotencyKey p with
  | Some u, Some k => bool_decide (vf_createdByUserId q = Some u) &&
                      bool_decide (vf_idempotencyKey q = Some k)
  | _, _ => false
  end.
Definition profile_create (mk : string → Z → Profile) : prog VicW Profile :=
  id ← randomUUID;
  act_outcome (λ w,
    let p := mk id (clock (zw_ticks w)) in
    if bool_decide (is_Some (find_row (same_key p) (zw_profiles w)))
    then (Err (PrismaKnown "P2002" ["createdByUserId"; "idempotencyKey"]), w)
    else if bool_decide (is_Some (zw_profiles w !! id))
    then (Err (PrismaKnown "P2002" ["id"]), w)
    else (Ok p, put_profile id p w)).

(** [deleteMany({ where: { id, P } })]: payments and transfers hold the row; what
    belongs to the profile goes with it. *)
Definition delete_profile (id : string) (w : VicW) : VicW :=
  w{{zw_profiles ::= delete id; zw_ticks ::= S;
     zw_destinations ::= delete id;
     zw_flags ::= filter (λ kf, fl_profileId kf.2 ≠ id);
     zw_appeals ::= filter (λ ka, ap_profileId ka.2 ≠ id);
     zw_updates ::= filter (λ ku, pu_profileId ku.2 ≠ id);
     zw_revisions ::= filter (λ kr, rv_profileId kr.2 ≠ id);
     zw_reads ::= filter (λ r, r.1 ≠ id);
     zw_follows ::= filter (λ r, r.1 ≠ id);
     zw_views ::= filter (λ r, r.1 ≠ id)}}.
Definition has_money_rows (id : string) (w : VicW) : bool :=
  bool_decide (is_Some (find_row (λ p, bool_decide (p_victim p = id)) (zw_payments w))) ||
  bool_decide (is_Some (find_row (λ d, bool_decide (d_victim d = id)) (zw_disbursements w))).
Definition profile_deleteMany (id : string) (P : Profile → bool) : prog VicW Z :=
  act_outcome (λ w,
    match zw_profiles w !! id with
    | Some p =>
        if negb (P p) then (Ok 0, w)
        else if has_money_rows id w then (Err (PrismaKnown "P2003" []), w)
        else (Ok 1, delete_profile id w)
    | None => (Ok 0, w)
    end).

(** The audit log: [orderBy: { createdAt: 'desc' }] is the order of the list. *)
Definition audit_findFirst (P : AuditRow → bool) : prog VicW (option AuditRow) :=
  gets (λ w, head (filter (λ a, P a = true) (zw_audits w))).
Definition audit_findMany (P : AuditRow → bool) : prog VicW (list AuditRow) :=
  gets (λ w, filter (λ a, P a = true) (zw_audits w)).

(** Rows that belong to a profile: inserted while the profile is there. *)
Definition P2003 : exn := PrismaKnown "P2003" [].
Definition has_profile (id : string) (w : VicW) : bool :=
  bool_decide (is_Some (zw_profiles w !! id)).

(** [victimProfileFlag.create]: a reporter flags a profile once. *)
Definition flag_of (profileId reporterId : string) (f : ProfileFlag) : bool :=
  bool_decide (fl_profileId f = profileId) && bool_decide (fl_reporterId f = reporterId).
Definition flag_create (mk : string → Z → ProfileFlag) : prog VicW ProfileFlag :=
  id ← randomUUID;
  act_outcome (λ w,
    let f := mk id (clock (zw_ticks w)) in
    if bool_decide (is_Some (find_row (flag_of (fl_profileId f) (fl_reporterId f)) (zw_flags w)))
    then (Err (PrismaKnown "P2002" ["profileId"; "reporterId"]), w)
    else if has_profile (fl_profileId f) w then (Ok f, w{{zw_flags ::= insert id f}})
    else (Err P2003, w)).
Definition flag_by_id (id : string) : prog VicW (option ProfileFlag) :=
  gets (λ w, zw_flags w !! id).
Definition flag_updateMany (id : string) (P : ProfileFlag → bool)
    (upd : Z → ProfileFlag → ProfileFlag) : prog VicW Z :=
  act (λ w,
    match zw_flags w !! id with
    | Some f => if P f then (1, w{{zw_flags ::= insert id (upd (clock (zw_ticks w)) f)}})
                else (0, w)
    | None => (0, w)
    end).

Definition appeal_create (mk : string → Z → Appeal) : prog VicW Appeal :=
  id ← randomUUID;
  act_outcome (λ w,
    let a := mk id (clock (zw_ticks w)) in
    if has_profile (ap_profileId a) w then (Ok a, w{{zw_appeals ::= insert id a}})
    else (Err P2003, w)).
Definition appeal_by_id (id : string) : prog VicW (option Appeal) :=
  gets (λ w, zw_appeals w !! id).
Definition appeal_findFirst (P : Appeal → bool) : prog VicW (option Appeal) :=
  gets (λ w, find_row P (zw_appeals w)).
Definition appeal_updateMany (id : string) (P : Appeal → bool) (upd : Z → Appeal → Appeal)
    : prog VicW Z :=
  act (λ w,
    match zw_appeals w !! id with
    | Some a => if P a then (1, w{{zw_appeals ::= insert id (upd (clock (zw_ticks w)) a)}})
                else (0, w)
    | None => (0, w)
    end).

Definition update_create (mk : string → Z → ProfileUpdate) : prog VicW ProfileUpdate :=
  id ← randomUUID;
  act_outcome (λ w,
    let u := mk id (clock (zw_ticks w)) in
    if has_profile (pu_profileId u) w then (Ok u, w{{zw_updates ::= insert id u}})
    else (Err P2003, w)).
Definition revision_create (mk : string → Z → Revision) : prog VicW () :=
  id ← randomUUID;
  act_outcome (λ w,
    let r := mk id (clock (zw_ticks w)) in
    if has_profile (rv_profileId r) w then (Ok (), w{{zw_revisions ::= insert id r}})
    else (Err P2003, w)).

(** The destination of a profile: [upsert], and [updateMany] on its identifier. *)
Definition put_destination (id : string) (d : Destination) (w : VicW) : VicW :=
  w{{zw_destinations ::= insert id d; zw_ticks ::= S}}.
Definition destination_by_profile (id : string) : prog VicW (option Destination) :=
  gets (λ w, zw_destinations w !! id).
Definition destination_upsert (id : string) (mk : string → Z → Destination)
    (upd : Z → Destination → Destination) : prog VicW () :=
  n ← act vic_draw;
  modify (λ w, let t := clock (zw_ticks w) in
    put_destination id (match zw_destinations w !! id with
                        | Some d => (upd t d){{dt_updatedAt := t}}
                        | None => mk (vic_uuid n) t
                        end) w).
Definition destination_updateMany (id : string) (P : Destination → bool)
    (upd : Z → Destination → Destination) : prog VicW Z :=
  act (λ w, let t := clock (zw_ticks w) in
    match zw_destinations w !! id with
    | Some d => if P d then (1, put_destination id ((upd t d){{dt_updatedAt := t}}) w) else (0, w)
    | None => (0, w)
    end).

(** [chapa.getBanks()] *)
Definition getBanks : prog VicW (list Bank) :=
  act_outcome (λ w,
    match zw_banks w with
    | [] => (Err (JsError "network"), w)
    | r :: rs => (r, w{{zw_banks := rs}})
    end).
End statements.
