(* ===== verification/VictimCommon.v ===== *)
(** * Victim profiles: what the services share

    Models [src/modules/core/victim-profile/service/victim-profile.constants.ts] and
    [victim-profile-common.service.ts]: the statuses, the gates and the status they
    derive, conditional updates, audits, media, money, and the four transitions other
    services reuse. *)

From stdpp Require Import sorting.
From S2P Require Import Prelude Js JsDate Redis Cache Chapa Roles PayModel VictimModel.
From coqutil Require Import Datatypes.RecordSetters.
Import DoubleBraceUpdate.

Open Scope Z_scope.

(** ** Constants *)

Definition STALE_ELIGIBLE_EXCLUDED_STATUSES : list VictimProfileStatus :=
  [VP_PUBLISHED; VP_REJECTED].
Definition CREATOR_EDITABLE_STATUSES : list VictimProfileStatus :=
  [VP_PENDING; VP_REJECTED; VP_CHANGES_REQUESTED].
Definition CREATOR_WITHDRAWABLE_STATUSES : list VictimProfileStatus :=
  [VP_PENDING; VP_UNDER_REVIEW; VP_VERIFIED; VP_CONSENT_PENDING; VP_APPROVED;
   VP_CHANGES_REQUESTED].
Definition CREATOR_RESUBMITTABLE_STATUSES : list VictimProfileStatus :=
  [VP_CHANGES_REQUESTED; VP_REJECTED].
Definition CHANGE_REQUESTABLE_STATUSES : list VictimProfileStatus :=
  [VP_PENDING; VP_UNDER_REVIEW; VP_VERIFIED; VP_CONSENT_PENDING; VP_APPROVED].
Definition PIPELINE_STATUSES : list VictimProfileStatus :=
  [VP_PENDING; VP_UNDER_REVIEW; VP_VERIFIED; VP_CONSENT_PENDING; VP_APPROVED].
Definition GATE_DRIVEN_STATUSES : list VictimProfileStatus :=
  PIPELINE_STATUSES ++ [VP_PUBLISHED].
Definition CLOSED_STATUSES : list VictimProfileStatus :=
  [VP_REJECTED; VP_WITHDRAWN; VP_COMPLETED].
Definition CHILD_FLAG_PROPOSAL_TTL_MS : Z := 72 * 60 * 60 * 1000.

(** [STATUSES.includes(status)] *)
Definition one_of (s : VictimProfileStatus) (ss : list VictimProfileStatus) : bool :=
  bool_decide (s ∈ ss).
Definition has_status (s : VictimProfileStatus) (p : Profile) : bool :=
  bool_decide (vf_status p = s).

(** Which next statuses each status can reach, and through which endpoint. *)
Definition STATUS_TRANSITIONS (s : VictimProfileStatus) : list (VictimProfileStatus * string) :=
  let changes := (VP_CHANGES_REQUESTED, "PATCH admin/:id/request-changes") in
  let reject := (VP_REJECTED, "PATCH admin/:id/reject") in
  let withdraw := (VP_WITHDRAWN, "PATCH mine/:id/withdraw (creator)") in
  match s with
  | VP_PENDING => [(VP_UNDER_REVIEW, "PATCH admin/:id/gates"); changes; reject; withdraw]
  | VP_UNDER_REVIEW =>
      [(VP_CONSENT_PENDING, "PATCH admin/:id/gates"); (VP_VERIFIED, "PATCH admin/:id/gates");
       changes; reject; withdraw]
  | VP_CONSENT_PENDING =>
      [(VP_UNDER_REVIEW, "POST admin/:id/consent"); (VP_VERIFIED, "POST admin/:id/consent");
       changes; reject; withdraw]
  | VP_VERIFIED =>
      [(VP_APPROVED, "PATCH admin/:id/gates (isAdminApproved)"); changes; reject; withdraw]
  | VP_APPROVED => [(VP_PUBLISHED, "PATCH admin/:id/publish"); changes; reject; withdraw]
  | VP_PUBLISHED =>
      [(VP_UNPUBLISHED, "PATCH admin/:id/unpublish"); (VP_UNPUBLISHED, "POST admin/:id/takedown");
       (VP_COMPLETED, "PATCH admin/:id/complete")]
  | VP_UNPUBLISHED =>
      [(VP_PUBLISHED, "PATCH admin/:id/publish (all gates must still hold)")]
  | VP_CHANGES_REQUESTED =>
      [(VP_PENDING, "PATCH mine/:id/resubmit (creator; re-derived from gates)"); reject; withdraw]
  | VP_REJECTED =>
      [(VP_PENDING, "PATCH admin/:id/resubmit | PATCH mine/:id/resubmit | appeal overturned")]
  | VP_WITHDRAWN => []
  | VP_COMPLETED => [(VP_PUBLISHED, "PATCH admin/:id/reopen")]
  end.

Definition CREATOR_VISIBLE_STAFF_ACTIONS : list string :=
  ["VICTIM_PROFILE_PUBLISHED"; "VICTIM_PROFILE_UNPUBLISHED"; "VICTIM_PROFILE_REJECTED";
   "VICTIM_PROFILE_RESUBMITTED"; "VICTIM_PROFILE_CHANGES_REQUESTED"; "VICTIM_PROFILE_COMPLETED";
   "VICTIM_PROFILE_REOPENED"; "VICTIM_PROFILE_TAKEDOWN"; "VICTIM_PROFILE_TAKEDOWN_LIFTED";
   "VICTIM_PROFILE_APPEAL_DECIDED"; "VICTIM_PROFILE_UPDATE_POSTED"].
Definition CREATOR_TIMELINE_ACTIONS : list string :=
  CREATOR_VISIBLE_STAFF_ACTIONS ++
  ["VICTIM_PROFILE_CREATED"; "VICTIM_PROFILE_UPDATED"; "VICTIM_PROFILE_WITHDRAWN";
   "VICTIM_PROFILE_APPEAL_CREATED"].

Definition maskAccount (n : option string) : option string :=
  match n with
  | Some n =>
      if truthy n then Some (repeat "•" (String.length n - 4) +:+ slice_last 4 n) else None
  | None => None
  end.

(** What the services read from the configuration, defaults applied. *)
Record VicConfig := {
  vc_maxPhotos : Z;
  vc_maxVideos : Z;
  vc_maxOther : Z;
  vc_maxTotalBytes : Z;
  vc_maxFileSizeBytes : Z;
  vc_allowedMimeTypes : list string;
  vc_stalePendingHours : Z;
  vc_staleChildHours : Z;
  vc_maxAppeals : Z;
  vc_maxUpdatesPerDay : Z;
}.

Definition isSuperAdmin (user : CurrentUser) : bool := mem SUPER_ADMIN (cu_roles user).
Definition len {A} (xs : list A) : Z := Z.of_nat (length xs).
(** A nullable string or null, by its truth value. *)
Definition truthy_opt (s : option string) : bool :=
  match s with Some s => truthy s | None => false end.
Definition is_set {A} (o : option A) : bool := bool_decide (is_Some o).
Definition json_opt (s : option string) : json := match s with Some s => JStr s | None => JNull end.
Definition json_status (s : VictimProfileStatus) : json := JStr (profile_status_name s).
Definition success : string * json := ("result", JStr "success").

(** [orderBy: { paidAt: 'desc' }]: NULL comes first. *)
Definition paid_desc (ps : list Payment) : list Payment :=
  merge_sort (goes_before (λ a b,
    match p_paidAt a, p_paidAt b with
    | None, _ => true
    | Some _, None => false
    | Some s, Some t => t <=? s
    end)) ps.

(** ** Gates *)

(** [getMissingApprovalGates]; the bank details are not a column of the profile. *)
Definition getMissingApprovalGates (g : Gates) (hasBankDetails : bool) : list string :=
  (if g_isVerified g then [] else ["isVerified"]) ++
  (if g_isSafetyReviewed g then [] else ["isSafetyReviewed"]) ++
  (if g_involvesChild g && negb (g_isChildSafetyReviewed g) then ["isChildSafetyReviewed"]
   else []) ++
  (if g_hasConsent g then [] else ["hasConsent"]) ++
  (if g_isPrivacyReviewed g then [] else ["isPrivacyReviewed"]) ++
  (if hasBankDetails then [] else ["hasBankDetails"]).

Definition childSafetySatisfied (g : Gates) : bool :=
  negb (g_involvesChild g) || g_isChildSafetyReviewed g.

Definition deriveStatus (g : Gates) : VictimProfileStatus :=
  if negb (g_isVerified g) then VP_PENDING
  else if negb (g_isSafetyReviewed g) || negb (childSafetySatisfied g) then VP_UNDER_REVIEW
  else if negb (g_hasConsent g) then VP_CONSENT_PENDING
  else if negb (g_isPrivacyReviewed g) then VP_UNDER_REVIEW
  else if negb (g_isAdminApproved g) then VP_VERIFIED
  else VP_APPROVED.

(** [publicWhere] *)
Definition publicWhere (p : Profile) : bool :=
  has_status VP_PUBLISHED p && vf_isPublished p && g_isVerified (vf_gates p) &&
  g_isSafetyReviewed (vf_gates p) && g_hasConsent (vf_gates p) &&
  g_isPrivacyReviewed (vf_gates p) && g_isAdminApproved (vf_gates p) &&
  negb (is_set (mk_at (vf_deletion p))).

(** ** Media *)

Definition MEDIA_FIELD_NAMES : list string :=
  ["photo"; "video"; "audio"; "pdf"; "document"; "other"].
Definition media_field (field : string) (m : MediaBearing) : list string :=
  if bool_decide (field = "photo") then md_photo m
  else if bool_decide (field = "video") then md_video m
  else if bool_decide (field = "audio") then md_audio m
  else if bool_decide (field = "pdf") then md_pdf m
  else if bool_decide (field = "document") then md_document m
  else md_other m.
(** [{ [field]: keys }] *)
Definition with_media_field (field : string) (keys : list string) (m : MediaBearing)
    : MediaBearing :=
  if bool_decide (field = "photo") then m{{md_photo := keys}}
  else if bool_decide (field = "video") then m{{md_video := keys}}
  else if bool_decide (field = "audio") then m{{md_audio := keys}}
  else if bool_decide (field = "pdf") then m{{md_pdf := keys}}
  else if bool_decide (field = "document") then m{{md_document := keys}}
  else m{{md_other := keys}}.

Definition collectMediaFields (m : MediaBearing) : list string :=
  MEDIA_FIELD_NAMES ≫= λ field, media_field field m.

(** [MediaBearingDto]: [None] is undefined. *)
Record MediaDto := {
  mo_photo : option (list string);
  mo_video : option (list string);
  mo_audio : option (list string);
  mo_pdf : option (list string);
  mo_document : option (list string);
  mo_other : option (list string);
}.
Definition dto_field (field : string) (d : MediaDto) : option (list string) :=
  if bool_decide (field = "photo") then mo_photo d
  else if bool_decide (field = "video") then mo_video d
  else if bool_decide (field = "audio") then mo_audio d
  else if bool_decide (field = "pdf") then mo_pdf d
  else if bool_decide (field = "document") then mo_document d
  else mo_other d.
Definition merged_media (d : MediaDto) (m : MediaBearing) : MediaBearing := {|
  md_photo := default (md_photo m) (mo_photo d); md_video := default (md_video m) (mo_video d);
  md_audio := default (md_audio m) (mo_audio d); md_pdf := default (md_pdf m) (mo_pdf d);
  md_document := default (md_document m) (mo_document d);
  md_other := default (md_other m) (mo_other d) |}.

(** What was added and what was removed. *)
Definition diffMediaFields (before : MediaBearing) (incoming : MediaDto)
    : list string * list string :=
  foldl (λ '(added, removed) field,
    match dto_field field incoming with
    | None => (added, removed)
    | Some next =>
        let prev := media_field field before in
        (added ++ filter (λ fp, mem fp prev = false) next,
         removed ++ filter (λ fp, mem fp next = false) prev)
    end) ([], []) MEDIA_FIELD_NAMES.

Definition findMediaField (m : MediaBearing) (key : string) : option string :=
  head (filter (λ field, mem key (media_field field m) = true) MEDIA_FIELD_NAMES).

Section media.
Context (cfg : VicConfig).
(** The object storage: size and content type of what exists. *)
Context (stat_of : string → option (Z * string)).

Definition check_file (fp : string) : string * outcome Z :=
  (fp,
   match stat_of fp with
   | None => Err (JsError "not_found")
   | Some (size, contentType) =>
       if vc_maxFileSizeBytes cfg <? size then Err (JsError "too_large")
       else if bool_decide (vc_allowedMimeTypes cfg ≠ []) &&
               negb (mem contentType (vc_allowedMimeTypes cfg))
       then Err (JsError "disallowed_type")
       else Ok size
   end).

(** The sizes of the files. *)
Definition validateMediaFilesExist (fps : list string) : outcome (list Z) :=
  let checks : list (string * outcome Z) := check_file <$> fps in
  let bad := omap (λ '(fp, r), match r with Err e => Some (fp +:+ ":" +:+ exn_message e)
                               | Ok _ => None end) checks in
  match bad with
  | [] => Ok (omap (λ '(_, r), match r with Ok size => Some size | Err _ => None end) checks)
  | _ => Err (BadRequest ("media_validation_failed:" +:+ String.concat "," bad))
  end.

Definition assertAttachmentCounts (m : MediaBearing) : outcome () :=
  if vc_maxPhotos cfg <? len (md_photo m) then
    Err (BadRequest ("too_many_photos:max_" +:+ str_of_Z (vc_maxPhotos cfg)))
  else if vc_maxVideos cfg <? len (md_video m) then
    Err (BadRequest ("too_many_videos:max_" +:+ str_of_Z (vc_maxVideos cfg)))
  else if vc_maxOther cfg <? len (md_audio m) + len (md_pdf m) + len (md_document m) +
                             len (md_other m) then
    Err (BadRequest ("too_many_other_files:max_" +:+ str_of_Z (vc_maxOther cfg)))
  else Ok ().

Definition assertTotalBytes (totalBytes : Z) : outcome () :=
  if vc_maxTotalBytes cfg <? totalBytes then
    Err (BadRequest ("upload_total_size_exceeded:max_" +:+ str_of_Z (vc_maxTotalBytes cfg)))
  else Ok ().

Definition sum_sizes (sizes : list Z) : Z := foldr Z.add 0 sizes.
(** The sizes of files that may be gone. *)
Definition stat_sizes (fps : list string) : Z :=
  sum_sizes ((λ fp, from_option fst 0 (stat_of fp)) <$> fps).
End media.

(** ** Audits *)

Record AuditOpts := {
  ao_diff : list (string * json);
  ao_metadata : list (string * json);
  ao_reason : option string;
  ao_severity : option string;
}.
Definition no_opts : AuditOpts :=
  {| ao_diff := []; ao_metadata := []; ao_reason := None; ao_severity := None |}.

Section common.
Context `{VicLib} `{DecimalIO} (keyPrefix : string).

Definition money (d : option Z) : string :=
  match d with None => "0.00" | Some d => toFixed2 d end.

Definition emitAudit (a : VicAudit) : prog VicW () := emit (VicAudited a).

(** Child profiles get a redacted label. *)
Definition profileLabel (p : Profile) : option string :=
  if g_involvesChild (vf_gates p) then Some ("Child profile " +:+ str_take 8 (vf_id p))
  else vf_name p.

Definition targetUserFor (actor : CurrentUser) (p : Profile) : option string :=
  match vf_createdByUserId p with
  | Some c => if truthy c && negb (bool_decide (c = cu_id actor)) then Some c else None
  | None => None
  end.

Definition emitProfileFailure (actor : CurrentUser) (action : string) (p : Profile)
    (reason outcome : string) (diff metadata : list (string * json)) : prog VicW () :=
  emitAudit {|
    va_userId := Some (cu_id actor); va_targetUserId := None;
    va_actorType := resolveActorType (cu_roles actor); va_action := action;
    va_outcome := Some outcome; va_severity := Some "WARNING"; va_entity := "VictimProfile";
    va_entityId := Some (vf_id p); va_entityLabel := profileLabel p; va_reason := None;
    va_diff := [("result", JStr (if bool_decide (outcome = "DENIED") then "denied" else "failure"));
                ("reason", JStr reason)] ++ diff;
    va_metadata := metadata |}.

(** [auditSuccess]; the older handlers build the same payload in place. *)
Definition auditSuccess (actor : CurrentUser) (action : string) (p : Profile) (opts : AuditOpts)
    : prog VicW () :=
  emitAudit {|
    va_userId := Some (cu_id actor); va_targetUserId := targetUserFor actor p;
    va_actorType := resolveActorType (cu_roles actor); va_action := action;
    va_outcome := None; va_severity := ao_severity opts; va_entity := "VictimProfile";
    va_entityId := Some (vf_id p); va_entityLabel := profileLabel p; va_reason := ao_reason opts;
    va_diff := success :: ao_diff opts; va_metadata := ao_metadata opts |}.

Definition logAdminView (admin : CurrentUser) (p : Profile) (section : string) : prog VicW () :=
  auditSuccess admin "VICTIM_PROFILE_ADMIN_VIEWED" p
    (no_opts{{ao_metadata := [("section", JStr section)] }}).

(** A notification to the creator of the profile. *)
Definition notifyCreator (name : string) (p : Profile) (more : list (string * json))
    : prog VicW () :=
  emit (VicNotified name
    ([("userId", json_opt (vf_createdByUserId p)); ("victimProfileId", JStr (vf_id p))] ++ more)).

(** ** Access and conditional updates *)

(** [assertAdminCanAccessProfile] *)
Definition may_access (admin : CurrentUser) (p : Profile) : bool :=
  isSuperAdmin admin ||
  match by_id (vf_claim p) with
  | Some c => negb (truthy c) || bool_decide (c = cu_id admin)
  | None => true
  end.
Definition assertAdminCanAccessProfile (admin : CurrentUser) (p : Profile) (action : string)
    : prog VicW () :=
  if may_access admin p then mret () else
  emitProfileFailure admin action p "claimed_by_another_admin" "DENIED" []
    [("claimedByUserId", json_opt (by_id (vf_claim p)))] ;;
  Throw (Forbidden "victim_profile_claimed_by_another_admin").

Definition conditionalUpdate (id : string) (expectedUpdatedAt : Z) (upd : Z → Profile → Profile)
    (admin : CurrentUser) (action : string) (p : Profile) : prog VicW Profile :=
  n ← profile_updateMany id (at_version expectedUpdatedAt) upd;
  if n =? 0 then
    emitProfileFailure admin action p "victim_profile_transition_conflict" "FAILURE" [] [] ;;
    Throw (BadRequest "victim_profile_transition_conflict")
  else profile_by_id_or_throw id.

Definition getProfileOr404 (id : string) : prog VicW Profile :=
  p ← profile_by_id id; require p (NotFound "victim_profile_not_found").
Definition assertProfileExists (id : string) : prog VicW () :=
  p ← profile_by_id id; throw_if (negb (is_set p)) (NotFound "victim_profile_not_found").
(** 404 for somebody else's profile, so that identifiers cannot be probed. *)
Definition mine (user : CurrentUser) (p : Profile) : bool :=
  bool_decide (vf_createdByUserId p = Some (cu_id user)) && negb (is_set (mk_at (vf_deletion p))).
Definition getMineOr404 (user : CurrentUser) (id : string) : prog VicW Profile :=
  p ← gets (λ w, match zw_profiles w !! id with
                 | Some p => if mine user p then Some p else None
                 | None => None
                 end);
  require p (NotFound "victim_profile_not_found").

Definition assertPublishedProfile (id : string) : prog VicW Profile :=
  p ← gets (λ w, match zw_profiles w !! id with
                 | Some p => if publicWhere p then Some p else None
                 | None => None
                 end);
  require p (NotFound "victim_profile_not_found").

(** [hasBankDetails]: a verified and complete destination. *)
Definition complete_destination (d : option Destination) : bool :=
  match d with
  | Some d => dt_isVerified d && truthy (dt_accountHolder d) && truthy (dt_accountNumber d) &&
              truthy (dt_bankName d) && truthy (dt_bankCode d)
  | None => false
  end.
Definition hasBankDetails (id : string) : prog VicW bool :=
  d ← gets (λ w, zw_destinations w !! id); mret (complete_destination d).

Definition deleteMediaFiles (fps : list string) : prog VicW () :=
  for_each (λ fp, emit (VicMediaDeleted fp)) fps.

(** ** Transitions that other services reuse *)

Definition unpublish (admin : CurrentUser) (id : string) : prog VicW Profile :=
  profile ← getProfileOr404 id;
  assertAdminCanAccessProfile admin profile "VICTIM_PROFILE_UNPUBLISHED" ;;
  (if vf_isPublished profile then mret () else
   emitProfileFailure admin "VICTIM_PROFILE_UNPUBLISHED" profile "victim_profile_not_published"
     "FAILURE" [("currentStatus", json_status (vf_status profile))] [] ;;
   Throw (BadRequest "victim_profile_not_published")) ;;
  updated ← conditionalUpdate id (vf_updatedAt profile)
    (λ _ p, p{{vf_status := VP_UNPUBLISHED; vf_isPublished := false}})
    admin "VICTIM_PROFILE_UNPUBLISHED" profile;
  invalidateVictimProfileEverywhere keyPrefix id ;;
  auditSuccess admin "VICTIM_PROFILE_UNPUBLISHED" profile (no_opts{{ao_diff :=
    [("previousStatus", json_status (vf_status profile)); ("newStatus", json_status VP_UNPUBLISHED)] }}) ;;
  notifyCreator "notification.victim_profile_unpublished" profile [] ;;
  mret updated.

Definition reject (admin : CurrentUser) (id : string) : prog VicW Profile :=
  profile ← getProfileOr404 id;
  assertAdminCanAccessProfile admin profile "VICTIM_PROFILE_REJECTED" ;;
  (if vf_isPublished profile then
     emitProfileFailure admin "VICTIM_PROFILE_REJECTED" profile "published_profile_cannot_be_rejected"
       "FAILURE" [("currentStatus", json_status (vf_status profile))] [] ;;
     Throw (BadRequest "published_profile_cannot_be_rejected")
   else mret ()) ;;
  updated ← conditionalUpdate id (vf_updatedAt profile)
    (λ _ p, p{{vf_status := VP_REJECTED; vf_isPublished := false}})
    admin "VICTIM_PROFILE_REJECTED" profile;
  invalidateVictimProfileEverywhere keyPrefix id ;;
  auditSuccess admin "VICTIM_PROFILE_REJECTED" profile (no_opts{{ao_diff :=
    [("previousStatus", json_status (vf_status profile)); ("newStatus", json_status VP_REJECTED)] }}) ;;
  notifyCreator "notification.victim_profile_rejected" profile [] ;;
  mret updated.

Definition resubmit (admin : CurrentUser) (id : string) : prog VicW Profile :=
  profile ← getProfileOr404 id;
  assertAdminCanAccessProfile admin profile "VICTIM_PROFILE_RESUBMITTED" ;;
  (if has_status VP_REJECTED profile then mret () else
   emitProfileFailure admin "VICTIM_PROFILE_RESUBMITTED" profile "victim_profile_not_rejected"
     "FAILURE" [("currentStatus", json_status (vf_status profile))] [] ;;
   Throw (BadRequest "victim_profile_not_rejected")) ;;
  let status := deriveStatus (vf_gates profile) in
  updated ← conditionalUpdate id (vf_updatedAt profile)
    (λ _ p, p{{vf_status := status; vf_isPublished := false}})
    admin "VICTIM_PROFILE_RESUBMITTED" profile;
  invalidateVictimProfileEverywhere keyPrefix id ;;
  auditSuccess admin "VICTIM_PROFILE_RESUBMITTED" profile (no_opts{{ao_diff :=
    [("previousStatus", json_status (vf_status profile)); ("newStatus", json_status status)] }}) ;;
  notifyCreator "notification.victim_profile_resubmitted" profile
    [("status", json_status status); ("actorId", JStr (cu_id admin))] ;;
  mret updated.

Definition pauseDonations (admin : CurrentUser) (id reason : string) : prog VicW Profile :=
  profile ← getProfileOr404 id;
  throw_if (ps_paused (vf_donations profile)) (BadRequest "donations_already_paused") ;;
  updated ← conditionalUpdate id (vf_updatedAt profile)
    (λ t p, p{{vf_donations := {| ps_paused := true; ps_reason := Some reason; ps_at := Some t |} }})
    admin "VICTIM_PROFILE_DONATIONS_PAUSED" profile;
  invalidateVictimProfileEverywhere keyPrefix id ;;
  auditSuccess admin "VICTIM_PROFILE_DONATIONS_PAUSED" profile
    (no_opts{{ao_severity := Some "WARNING"; ao_reason := Some reason}}) ;;
  mret updated.

(** ** Money *)

Record MoneyTotals := {
  mt_raised : Z;          (* PAID donations *)
  mt_sent : Z;            (* PAID transfers *)
  mt_onTheWay : Z;        (* CREATED + SUBMITTED + UNKNOWN transfers *)
  mt_waiting : Z;         (* what is left, never below 0 *)
  mt_paymentCount : Z;
}.

(** The rows of the [groupBy]: each status with at least one row, and its sum. *)
Definition transfer_groups (id : string) (ds : gmap string Disbursement)
    : list (DisbursementStatus * Z) :=
  (λ s, (s, sumZ (dis_amount_if (is_status_of id s)) ds)) <$>
    filter (λ s, is_Some (find_row (is_status_of id s) ds))
      [DCREATED; DSUBMITTED; DPAID; DFAILED; DUNKNOWN].

Definition money_step (acc : Z * Z) (g : DisbursementStatus * Z) : Z * Z :=
  let '(sent, onTheWay) := acc in
  match g.1 with
  | DPAID => (sent + g.2, onTheWay)
  | DCREATED | DSUBMITTED | DUNKNOWN => (sent, onTheWay + g.2)
  | DFAILED => (sent, onTheWay)
  end.

Definition money_totals (raised count : Z) (groups : list (DisbursementStatus * Z))
    : MoneyTotals :=
  let '(sent, onTheWay) := foldl money_step (0, 0) groups in
  let left := raised - sent - onTheWay in
  {| mt_raised := raised; mt_sent := sent; mt_onTheWay := onTheWay;
     mt_waiting := if left <? 0 then 0 else left; mt_paymentCount := count |}.

Definition paid_rows (id : string) (w : VicW) : list Payment :=
  rows (is_paid_of id) (zw_payments w).

Definition getMoneyTotals (id : string) : prog VicW MoneyTotals :=
  paid ← gets (λ w, (sumZ (pay_amount_if (is_paid_of id)) (zw_payments w), len (paid_rows id w)));
  groups ← gets (λ w, transfer_groups id (zw_disbursements w));
  mret (money_totals paid.1 paid.2 groups).

(** Each signed-in donor counts once, a payment without a donor on its own. *)
Definition donor_count (payers : list (option string)) : Z :=
  foldr (λ g n, (match g with
                 | None => len (filter (λ p, p = None) payers)
                 | Some _ => 1
                 end) + n) 0 (remove_dups payers).
Definition getDonorCount (id : string) : prog VicW Z :=
  gets (λ w, donor_count (p_payer <$> paid_rows id w)).

(** Donated money has not reached the victim yet. *)
Definition hasUndeliveredMoney (id : string) : prog VicW bool :=
  t ← getMoneyTotals id; mret ((0 <? mt_waiting t) || (0 <? mt_onTheWay t)).

(** ** Lists *)

Record Paging := { pg_page : Z; pg_limit : Z; pg_skip : Z }.
Definition pageOf (page limit : option Z) : Paging :=
  let page := match page with Some p => if 0 <? p then p else 1 | None => 1 end in
  let limit := match limit with Some l => if 0 <? l then Z.min l 100 else 20 | None => 20 end in
  {| pg_page := page; pg_limit := limit; pg_skip := (page - 1) * limit |}.

Record Meta := { me_page : Z; me_limit : Z; me_total : Z; me_totalPages : Z }.
Definition metaOf (page limit total : Z) : Meta :=
  {| me_page := page; me_limit := limit; me_total := total;
     me_totalPages := (total + limit - 1) / limit |}.

(** [skip] and [take] *)
Definition page_rows {A} (g : Paging) (xs : list A) : list A :=
  take (Z.to_nat (pg_limit g)) (drop (Z.to_nat (pg_skip g)) xs).

(** A range of dates; a day without a time of day is inclusive. An invalid date is
    [Some None]. *)
Definition date_only (s : string) : bool :=
  match span is_digit s with
  | (y, Str "-" m) =>
      match span is_digit m with
      | (m, Str "-" d) =>
          Nat.eqb (String.length y) 4 && Nat.eqb (String.length m) 2 &&
          Nat.eqb (String.length d) 2 && str_forallb is_digit d
      | _ => false
      end
  | _ => false
  end.
Definition parseRange (from to : option string) : outcome (option (option Z) * option (option Z)) :=
  let f := match from with Some s => if truthy s then Some (Date_parse s) else None
           | None => None end in
  let t := match to with
           | Some s => if truthy s then
               Some (d ← Date_parse s; Some (if date_only s then d + 86400000 - 1 else d))
             else None
           | None => None
           end in
  match f, t with
  | Some (Some a), Some (Some b) =>
      if b <? a then Err (BadRequest "invalid_date_range") else Ok (f, t)
  | _, _ => Ok (f, t)
  end.

(** ** What the public sees *)

Record PublicProfile := {
  pp_id : string;
  pp_name : option string;
  pp_story : string;
  pp_supportGoal : option string;
  pp_photo : list string;
  pp_totalRaised : string;
  pp_createdAt : Z;
}.
Definition serializePublicProfile (p : Profile) : PublicProfile := {|
  pp_id := vf_id p; pp_name := vf_name p; pp_story := default "" (vf_story p);
  pp_supportGoal := (λ g, money (Some g)) <$> vf_supportGoal p;
  pp_photo := if g_involvesChild (vf_gates p) then [] else md_photo (vf_media p);
  pp_totalRaised := money (Some (vf_totalRaised p)); pp_createdAt := vf_createdAt p |}.
End common.
