(* ===== verification/VictimReview.v ===== *)
(** * Victim profiles: review

    Models [victim-profile-review.service.ts]: claims, the review gates, publishing,
    what may come next. *)

From S2P Require Import Prelude Js Redis Cache Chapa Roles PayModel VictimModel VictimCommon.
From stdpp Require Import sorting.
From coqutil Require Import Datatypes.RecordSetters.
Import DoubleBraceUpdate.

Open Scope Z_scope.

(** [UpdateVictimGateDto]: [None] is undefined. *)
Record UpdateGateDto := {
  ug_isVerified : option bool;
  ug_isSafetyReviewed : option bool;
  ug_hasConsent : option bool;
  ug_isPrivacyReviewed : option bool;
  ug_isAdminApproved : option bool;
}.

(** The gates as they will be: what the request does not set stays, and the
    child-safety gate is not set here. *)
Definition new_gates (data : UpdateGateDto) (g : Gates) : Gates := {|
  g_involvesChild := g_involvesChild g;
  g_isVerified := default (g_isVerified g) (ug_isVerified data);
  g_isSafetyReviewed := default (g_isSafetyReviewed g) (ug_isSafetyReviewed data);
  g_isChildSafetyReviewed := g_isChildSafetyReviewed g;
  g_hasConsent := default (g_hasConsent g) (ug_hasConsent data);
  g_isPrivacyReviewed := default (g_isPrivacyReviewed g) (ug_isPrivacyReviewed data);
  g_isAdminApproved := default (g_isAdminApproved g) (ug_isAdminApproved data) |}.

Definition json_gates (g : Gates) : json :=
  JObj [("isVerified", JBool (g_isVerified g)); ("isSafetyReviewed", JBool (g_isSafetyReviewed g));
        ("hasConsent", JBool (g_hasConsent g));
        ("isPrivacyReviewed", JBool (g_isPrivacyReviewed g));
        ("isAdminApproved", JBool (g_isAdminApproved g))].

(** The columns [getGates] answers with. *)
Record GatesView := {
  gv_gates : Gates;
  gv_first : By;
  gv_consentAt : option Z;
  gv_consentRecordedBy : option string;
  gv_childSafetySatisfied : bool;
  gv_hasBankDetails : bool;
  gv_claim : By;
  gv_status : VictimProfileStatus;
}.

Record Transition := {
  tr_to : VictimProfileStatus;
  tr_via : string;
  tr_available : bool;
  tr_blockedBy : list string;
}.
Record Transitions := {
  ts_current : VictimProfileStatus;
  ts_claimedByAnotherAdmin : bool;
  ts_blockers : list string;
  ts_allowed : list Transition;
}.

(** [orderBy: { createdAt: 'desc' }] *)
Definition newest_first (ps : list Profile) : list Profile :=
  merge_sort (goes_before (λ p q, vf_createdAt q <=? vf_createdAt p)) ps.
Definition oldest_first (ps : list Profile) : list Profile :=
  merge_sort (goes_before (λ p q, vf_createdAt p <=? vf_createdAt q)) ps.

Section review.
Context `{VicLib} (cfg : VicConfig) (keyPrefix : string).

(** The audit of a claim: about the profile as written, without a target unless
    somebody else's claim was lifted. *)
Definition audit_claim (admin : CurrentUser) (action : string) (target : option string)
    (p : Profile) (diff metadata : list (string * json)) : prog VicW () :=
  emitAudit {|
    va_userId := Some (cu_id admin); va_targetUserId := target;
    va_actorType := resolveActorType (cu_roles admin); va_action := action;
    va_outcome := None; va_severity := None; va_entity := "VictimProfile";
    va_entityId := Some (vf_id p); va_entityLabel := profileLabel p; va_reason := None;
    va_diff := diff; va_metadata := metadata |}.

Definition claim (admin : CurrentUser) (id : string) : prog VicW Profile :=
  existing ← getProfileOr404 id;
  if bool_decide (by_id (vf_claim existing) = Some (cu_id admin)) then mret existing else
  (if truthy_opt (by_id (vf_claim existing)) then
     emitProfileFailure admin "VICTIM_PROFILE_CLAIMED" existing "victim_profile_already_claimed"
       "DENIED" [] [("claimedByUserId", json_opt (by_id (vf_claim existing)))] ;;
     Throw (Forbidden "victim_profile_already_claimed")
   else mret ()) ;;
  n ← profile_updateMany id (λ p, bool_decide (by_id (vf_claim p) = None))
        (λ t p, p{{vf_claim := {| by_id := Some (cu_id admin); by_at := Some t |} }});
  if n =? 0 then
    emitProfileFailure admin "VICTIM_PROFILE_CLAIMED" existing "victim_profile_already_claimed"
      "DENIED" [] [("lostRace", JBool true)] ;;
    Throw (Forbidden "victim_profile_already_claimed")
  else
  profile ← profile_by_id_or_throw id;
  audit_claim admin "VICTIM_PROFILE_CLAIMED" None profile [success] [] ;;
  mret profile.

Definition unclaim (admin : CurrentUser) (id : string) : prog VicW Profile :=
  existing ← getProfileOr404 id;
  let claimant := by_id (vf_claim existing) in
  (if truthy_opt claimant then mret () else
   emitProfileFailure admin "VICTIM_PROFILE_UNCLAIMED" existing "victim_profile_not_claimed"
     "FAILURE" [] [] ;;
   Throw (BadRequest "victim_profile_not_claimed")) ;;
  (if negb (isSuperAdmin admin) && negb (bool_decide (claimant = Some (cu_id admin))) then
     emitProfileFailure admin "VICTIM_PROFILE_UNCLAIMED" existing "claimed_by_another_admin"
       "DENIED" [] [("claimedByUserId", json_opt claimant)] ;;
     Throw (Forbidden "victim_profile_claimed_by_another_admin")
   else mret ()) ;;
  n ← profile_updateMany id (λ p, bool_decide (by_id (vf_claim p) = claimant))
        (λ _ p, p{{vf_claim := nobody}});
  if n =? 0 then
    emitProfileFailure admin "VICTIM_PROFILE_UNCLAIMED" existing
      "victim_profile_transition_conflict" "FAILURE" [] [] ;;
    Throw (BadRequest "victim_profile_transition_conflict")
  else
  profile ← profile_by_id_or_throw id;
  let overrodeAnotherAdmin := negb (bool_decide (claimant = Some (cu_id admin))) in
  audit_claim admin "VICTIM_PROFILE_UNCLAIMED" (if overrodeAnotherAdmin then claimant else None)
    profile [("previousClaimedByUserId", json_opt claimant); success]
    [("overrodeAnotherAdmin", JBool overrodeAnotherAdmin)] ;;
  mret profile.

(** The page of administrators: [limit] is not capped here. *)
Definition findAllForAdmin (page limit : option Z) (status : option VictimProfileStatus)
    : prog VicW (list Profile * Meta) :=
  let page := match page with Some p => if 0 <? p then p else 1 | None => 1 end in
  let limit := match limit with Some l => if 0 <? l then l else 20 | None => 20 end in
  let where_ p := match status with Some s => has_status s p | None => true end in
  gets (λ w,
    let all := newest_first (rows where_ (zw_profiles w)) in
    (take (Z.to_nat limit) (drop (Z.to_nat ((page - 1) * limit)) all),
     metaOf page limit (len all))).

Definition findStalePending : prog VicW (list (Profile * Z)) :=
  t ← now;
  let standardCutoff := t - vc_stalePendingHours cfg * 60 * 60 * 1000 in
  let childCutoff := t - vc_staleChildHours cfg * 60 * 60 * 1000 in
  ps ← gets (λ w, oldest_first (rows (λ p,
    negb (one_of (vf_status p) STALE_ELIGIBLE_EXCLUDED_STATUSES) &&
    bool_decide (by_id (vf_claim p) = None) &&
    (vf_createdAt p <? if g_involvesChild (vf_gates p) then childCutoff else standardCutoff))
    (zw_profiles w)));
  mret (map (λ p, (p, (t - vf_createdAt p) / (60 * 60 * 1000))) ps).

Definition getHistory (id : string) : prog VicW (list AuditRow) :=
  assertProfileExists id ;;
  audit_findMany (λ a, bool_decide (ar_entity a = "VictimProfile") &&
                       bool_decide (ar_entityId a = id)).

Definition getGates (id : string) : prog VicW GatesView :=
  p ← getProfileOr404 id;
  bank ← hasBankDetails id;
  mret {| gv_gates := vf_gates p; gv_first := vf_first p; gv_consentAt := cs_at (vf_consent p);
          gv_consentRecordedBy := cs_recordedBy (vf_consent p);
          gv_childSafetySatisfied := childSafetySatisfied (vf_gates p);
          gv_hasBankDetails := bank; gv_claim := vf_claim p; gv_status := vf_status p |}.

(** Every gate but the administrator's approval. *)
Definition gates_hold (g : Gates) (bank : bool) : bool :=
  g_isVerified g && g_isSafetyReviewed g && childSafetySatisfied g && g_hasConsent g &&
  g_isPrivacyReviewed g && bank.

(** The response of this refusal lists the missing gates, as the audit does. *)
Definition refuse_missing (admin : CurrentUser) (action : string) (p : Profile)
    (diff : list (string * json)) (missing : list string) : prog VicW () :=
  emitProfileFailure admin action p "all_approval_gates_required" "FAILURE" diff
    [("missingGates", JArr (JStr <$> missing))] ;;
  Throw (BadRequest "all_approval_gates_required").

(** Each gate that was just switched on has an audit of its own. *)
Definition gates_switched_on (before after : Gates) : list string :=
  (if negb (g_isVerified before) && g_isVerified after then ["VICTIM_PROFILE_VERIFIED"] else []) ++
  (if negb (g_isPrivacyReviewed before) && g_isPrivacyReviewed after
   then ["VICTIM_PROFILE_PRIVACY_REVIEWED"] else []) ++
  (if negb (g_isAdminApproved before) && g_isAdminApproved after
   then ["VICTIM_PROFILE_APPROVED"] else []).

Definition updateGates (admin : CurrentUser) (id : string) (data : UpdateGateDto)
    : prog VicW Profile :=
  profile ← getProfileOr404 id;
  assertAdminCanAccessProfile admin profile "VICTIM_PROFILE_GATES_UPDATED" ;;
  let g := new_gates data (vf_gates profile) in
  bank ← hasBankDetails id;
  (if g_isAdminApproved g && negb (gates_hold g bank) then
     refuse_missing admin "VICTIM_PROFILE_GATES_UPDATED" profile []
       (getMissingApprovalGates g bank)
   else mret ()) ;;
  let status := deriveStatus g in
  let consentNewlyRecorded :=
    bool_decide (ug_hasConsent data = Some true) && negb (g_hasConsent (vf_gates profile)) in
  updated ← conditionalUpdate id (vf_updatedAt profile)
    (λ t p, p{{vf_gates ::= (λ old, g{{g_involvesChild := g_involvesChild old;
                                       g_isChildSafetyReviewed := g_isChildSafetyReviewed old}});
               vf_status := status; vf_isPublished := false;
               vf_consent ::= (λ c, if consentNewlyRecorded
                 then c{{cs_at := Some t; cs_recordedBy := Some (cu_id admin)}} else c)}})
    admin "VICTIM_PROFILE_GATES_UPDATED" profile;
  invalidateVictimProfileEverywhere keyPrefix id ;;
  auditSuccess admin "VICTIM_PROFILE_GATES_UPDATED" profile (no_opts{{
    ao_diff := [("previousStatus", json_status (vf_status profile));
                ("newStatus", json_status status);
                ("previousIsPublished", JBool (vf_isPublished profile));
                ("newIsPublished", JBool false);
                ("previousGates", json_gates (vf_gates profile)); ("newGates", json_gates g)];
    ao_metadata := [("consentNewlyRecorded", JBool consentNewlyRecorded)] }}) ;;
  for_each (λ gateAction, auditSuccess admin gateAction profile (no_opts{{ao_diff :=
    [("previousStatus", json_status (vf_status profile)); ("newStatus", json_status status)] }}))
    (gates_switched_on (vf_gates profile) g) ;;
  notifyCreator "notification.victim_profile_gates_updated" profile
    [("status", json_status status)] ;;
  mret updated.

Definition publish (admin : CurrentUser) (id : string) : prog VicW Profile :=
  profile ← getProfileOr404 id;
  assertAdminCanAccessProfile admin profile "VICTIM_PROFILE_PUBLISHED" ;;
  bank ← hasBankDetails id;
  let g := vf_gates profile in
  (if gates_hold g bank && g_isAdminApproved g then mret () else
   refuse_missing admin "VICTIM_PROFILE_PUBLISHED" profile
     [("currentStatus", json_status (vf_status profile))]
     (getMissingApprovalGates g bank ++
      if g_isAdminApproved g then [] else ["isAdminApproved"])) ;;
  updated ← conditionalUpdate id (vf_updatedAt profile)
    (λ _ p, p{{vf_status := VP_PUBLISHED; vf_isPublished := true}})
    admin "VICTIM_PROFILE_PUBLISHED" profile;
  invalidateVictimProfileEverywhere keyPrefix id ;;
  auditSuccess admin "VICTIM_PROFILE_PUBLISHED" profile (no_opts{{ao_diff :=
    [("previousStatus", json_status (vf_status profile)); ("newStatus", json_status VP_PUBLISHED)] }}) ;;
  notifyCreator "notification.victim_profile_published" profile [] ;;
  mret updated.

Definition getTransitions (admin : CurrentUser) (id : string) : prog VicW Transitions :=
  profile ← getProfileOr404 id;
  bank ← hasBankDetails id;
  let g := vf_gates profile in
  let missingGates := getMissingApprovalGates g bank ++
    if g_isAdminApproved g then [] else ["isAdminApproved"] in
  let is_deleted := is_set (mk_at (vf_deletion profile)) in
  let taken_down := is_set (mk_at (vf_takedown profile)) in
  let claimedByOther := negb (may_access admin profile) in
  mret {|
    ts_current := vf_status profile;
    ts_claimedByAnotherAdmin := claimedByOther;
    ts_blockers := (if is_deleted then ["deleted"] else []) ++
                   (if vf_legalHold profile then ["legal_hold"] else []) ++
                   (if taken_down then ["taken_down"] else []);
    ts_allowed := (λ '(to, via), {|
      tr_to := to; tr_via := via;
      tr_available := negb claimedByOther && negb is_deleted &&
        negb (bool_decide (to = VP_PUBLISHED) &&
              (bool_decide (missingGates ≠ []) || taken_down));
      tr_blockedBy := if bool_decide (to = VP_PUBLISHED) && has_status VP_APPROVED profile
                      then missingGates else [] |}) <$> STATUS_TRANSITIONS (vf_status profile) |}.
End review.

(** * Victim profiles: child safety and consent

    Models [victim-profile-child-safety.service.ts]: the child-safety review that two
    administrators confirm, consent, and the flag that says a child is involved. *)

From S2P Require Import Prelude Js Redis Cache Chapa Roles PayModel VictimModel VictimCommon.
From coqutil Require Import Datatypes.RecordSetters.
Import DoubleBraceUpdate.

Open Scope Z_scope.

(** [RecordConsentDto]; the date is [new Date] of its text. *)
Record RecordConsentDto := {
  rc_consentedBy : string;
  rc_consentedAt : option Z;
  rc_notes : option string;
  rc_document : option (list string);
}.

Record ConsentView := {
  cv_hasConsent : bool;
  cv_consent : Consent;
  cv_urls : list (string * string);
}.

Record FlagChange := {
  fc_applied : bool;
  fc_awaitingSecondAdmin : bool;
  fc_profile : Profile;
}.

Section child_safety.
Context `{VicLib} (cfg : VicConfig) (stat_of : string → option (Z * string))
  (presigned : string → string) (keyPrefix : string).

Definition status_diff (profile : Profile) (status : VictimProfileStatus) : list (string * json) :=
  [("previousStatus", json_status (vf_status profile)); ("newStatus", json_status status)].
Definition review_reversal (profile : Profile) : list (string * json) :=
  [("previousIsAdminApproved", JBool (g_isAdminApproved (vf_gates profile)));
   ("previousIsPublished", JBool (vf_isPublished profile))].

(** The first confirmation. *)
Definition confirm_first (admin : CurrentUser) (id : string) (profile : Profile)
    (reviewNotes : option string) : prog VicW Profile :=
  updated ← conditionalUpdate id (vf_updatedAt profile)
    (λ t p, p{{vf_first := {| by_id := Some (cu_id admin); by_at := Some t |} }})
    admin "VICTIM_PROFILE_CHILD_SAFETY_FIRST_CONFIRMED" profile;
  auditSuccess admin "VICTIM_PROFILE_CHILD_SAFETY_FIRST_CONFIRMED" profile
    (no_opts{{ao_reason := reviewNotes;
              ao_metadata := [("stage", JStr "first_confirmation")] }}) ;;
  mret updated.

(** The second confirmation completes the review. *)
Definition confirm_second (admin : CurrentUser) (id : string) (profile : Profile)
    (reviewNotes : option string) : prog VicW Profile :=
  let status := deriveStatus ((vf_gates profile){{g_isChildSafetyReviewed := true}}) in
  updated ← conditionalUpdate id (vf_updatedAt profile)
    (λ _ p, p{{vf_gates -> g_isChildSafetyReviewed := true; vf_status := status}})
    admin "VICTIM_PROFILE_CHILD_SAFETY_REVIEWED" profile;
  invalidateVictimProfileEverywhere keyPrefix id ;;
  auditSuccess admin "VICTIM_PROFILE_CHILD_SAFETY_REVIEWED" profile (no_opts{{
    ao_reason := reviewNotes;
    ao_diff := status_diff profile status ++
      [("firstConfirmedBy", json_opt (by_id (vf_first profile)));
       ("secondConfirmedBy", JStr (cu_id admin))];
    ao_metadata := [("stage", JStr "second_confirmation")] }}) ;;
  notifyCreator "notification.victim_profile_child_safety_reviewed" profile
    [("status", json_status status)] ;;
  mret updated.

Definition reverse_review (admin : CurrentUser) (id : string) (profile : Profile)
    (reviewNotes : option string) : prog VicW Profile :=
  let status := deriveStatus ((vf_gates profile){{g_isChildSafetyReviewed := false;
                                                  g_isAdminApproved := false}}) in
  updated ← conditionalUpdate id (vf_updatedAt profile)
    (λ _ p, p{{vf_gates -> g_isChildSafetyReviewed := false; vf_first := nobody;
               vf_gates -> g_isAdminApproved := false; vf_isPublished := false;
               vf_status := status}})
    admin "VICTIM_PROFILE_CHILD_SAFETY_REVIEW_REVERSED" profile;
  invalidateVictimProfileEverywhere keyPrefix id ;;
  auditSuccess admin "VICTIM_PROFILE_CHILD_SAFETY_REVIEW_REVERSED" profile (no_opts{{
    ao_reason := reviewNotes; ao_diff := status_diff profile status ++ review_reversal profile;
    ao_metadata := [("stage", JStr "reversal")] }}) ;;
  notifyCreator "notification.victim_profile_child_safety_reviewed" profile
    [("status", json_status status)] ;;
  mret updated.

Definition updateChildSafetyReview (admin : CurrentUser) (id : string)
    (isChildSafetyReviewed : bool) (reviewNotes : option string) : prog VicW Profile :=
  profile ← getProfileOr404 id;
  assertAdminCanAccessProfile admin profile "VICTIM_PROFILE_CHILD_SAFETY_REVIEWED" ;;
  (if g_involvesChild (vf_gates profile) then mret () else
   emitProfileFailure admin "VICTIM_PROFILE_CHILD_SAFETY_REVIEWED" profile
     "child_safety_review_not_applicable" "FAILURE" [] [] ;;
   Throw (BadRequest "child_safety_review_not_applicable")) ;;
  if isChildSafetyReviewed then
    if negb (truthy_opt (by_id (vf_first profile))) then
      confirm_first admin id profile reviewNotes
    else if bool_decide (by_id (vf_first profile) = Some (cu_id admin)) then
      emitProfileFailure admin "VICTIM_PROFILE_CHILD_SAFETY_REVIEWED" profile
        "child_safety_review_requires_second_admin" "DENIED" []
        [("firstConfirmedBy", json_opt (by_id (vf_first profile)))] ;;
      Throw (BadRequest "child_safety_review_requires_second_admin")
    else confirm_second admin id profile reviewNotes
  else reverse_review admin id profile reviewNotes.

Definition revokeConsent (admin : CurrentUser) (id : string) (reason : option string)
    : prog VicW Profile :=
  profile ← getProfileOr404 id;
  assertAdminCanAccessProfile admin profile "VICTIM_PROFILE_CONSENT_REVOKED" ;;
  (if g_hasConsent (vf_gates profile) then mret () else
   emitProfileFailure admin "VICTIM_PROFILE_CONSENT_REVOKED" profile
     "consent_not_currently_recorded" "FAILURE" [] [] ;;
   Throw (BadRequest "consent_not_currently_recorded")) ;;
  let status := deriveStatus ((vf_gates profile){{g_hasConsent := false;
                                                  g_isAdminApproved := false}}) in
  updated ← conditionalUpdate id (vf_updatedAt profile)
    (λ _ p, p{{vf_gates -> g_hasConsent := false; vf_consent -> cs_at := None;
               vf_consent -> cs_recordedBy := None; vf_gates -> g_isAdminApproved := false;
               vf_isPublished := false; vf_status := status}})
    admin "VICTIM_PROFILE_CONSENT_REVOKED" profile;
  invalidateVictimProfileEverywhere keyPrefix id ;;
  auditSuccess admin "VICTIM_PROFILE_CONSENT_REVOKED" profile (no_opts{{
    ao_reason := reason;
    ao_diff := status_diff profile status ++ review_reversal profile ++
      [("previousConsentAt", from_option JNum JNull (cs_at (vf_consent profile)));
       ("previousConsentRecordedBy", json_opt (cs_recordedBy (vf_consent profile)))] }}) ;;
  notifyCreator "notification.victim_profile_consent_revoked" profile
    [("actorId", JStr (cu_id admin))] ;;
  mret updated.

Definition getConsent (admin : CurrentUser) (id : string) : prog VicW ConsentView :=
  profile ← getProfileOr404 id;
  logAdminView admin profile "consent" ;;
  mret {| cv_hasConsent := g_hasConsent (vf_gates profile); cv_consent := vf_consent profile;
          cv_urls := map (λ key, (key, presigned key)) (cs_documents (vf_consent profile)) |}.

Definition recordConsent (admin : CurrentUser) (id : string) (data : RecordConsentDto)
    : prog VicW Profile :=
  profile ← getProfileOr404 id;
  assertAdminCanAccessProfile admin profile "VICTIM_PROFILE_CONSENT_RECORDED" ;;
  throw_if (g_hasConsent (vf_gates profile)) (Conflict "consent_already_recorded_revoke_first") ;;
  let documents := default [] (rc_document data) in
  throw_if (bool_decide (documents = [])) (BadRequest "signed_consent_form_required") ;;
  t ← now;
  let consentAt := default t (rc_consentedAt data) in
  throw_if (t + 60000 <? consentAt) (BadRequest "consent_date_in_future") ;;
  (match validateMediaFilesExist cfg stat_of documents with
   | Ok _ => mret ()
   | Err e =>
       emitProfileFailure admin "VICTIM_PROFILE_CONSENT_RECORDED" profile
         "media_validation_failed" "FAILURE" [("message", JStr (exn_message e))] [] ;;
       Throw e
   end) ;;
  let status := deriveStatus ((vf_gates profile){{g_hasConsent := true}}) in
  updated ← conditionalUpdate id (vf_updatedAt profile)
    (λ _ p, p{{vf_gates -> g_hasConsent := true;
               vf_consent := {| cs_at := Some consentAt; cs_recordedBy := Some (cu_id admin);
                 cs_consentedBy := Some (rc_consentedBy data); cs_notes := rc_notes data;
                 cs_documents := cs_documents (vf_consent profile) ++ documents |};
               vf_status := if one_of (vf_status profile) PIPELINE_STATUSES then status
                            else vf_status p}})
    admin "VICTIM_PROFILE_CONSENT_RECORDED" profile;
  invalidateVictimProfileEverywhere keyPrefix id ;;
  auditSuccess admin "VICTIM_PROFILE_CONSENT_RECORDED" profile (no_opts{{
    ao_diff := status_diff profile (vf_status updated);
    ao_metadata := [("consentedBy", JStr (rc_consentedBy data));
                    ("documentCount", JNum (len documents))] }}) ;;
  notifyCreator "notification.victim_profile_gates_updated" profile
    [("status", json_status (vf_status updated))] ;;
  mret updated.

(** A proposal that may still be confirmed. *)
Definition proposal_live (t : Z) (involvesChild : bool) (q : Proposal) : bool :=
  truthy_opt (pr_byId q) &&
  match pr_at q with Some a => t - a <? CHILD_FLAG_PROPOSAL_TTL_MS | None => false end &&
  bool_decide (pr_value q = Some involvesChild).

(** Either direction forces a fresh review. *)
Definition flagged_gates (involvesChild : bool) (g : Gates) : Gates :=
  g{{g_involvesChild := involvesChild; g_isChildSafetyReviewed := false;
     g_isAdminApproved := false}}.

(** The first administrator proposes, a different one confirms the same value
    within 72 hours. *)
Definition updateChildFlag (admin : CurrentUser) (id : string) (involvesChild : bool)
    (reason : string) : prog VicW FlagChange :=
  profile ← getProfileOr404 id;
  assertAdminCanAccessProfile admin profile "VICTIM_PROFILE_CHILD_FLAG_UPDATED" ;;
  throw_if (bool_decide (g_involvesChild (vf_gates profile) = involvesChild))
    (BadRequest "child_flag_unchanged") ;;
  t ← now;
  if negb (proposal_live t involvesChild (vf_proposal profile)) then
    updated ← conditionalUpdate id (vf_updatedAt profile)
      (λ t p, p{{vf_proposal := {| pr_value := Some involvesChild; pr_byId := Some (cu_id admin);
                                   pr_at := Some t; pr_reason := Some reason |} }})
      admin "VICTIM_PROFILE_CHILD_FLAG_PROPOSED" profile;
    auditSuccess admin "VICTIM_PROFILE_CHILD_FLAG_PROPOSED" profile (no_opts{{
      ao_severity := Some "WARNING"; ao_reason := Some reason;
      ao_diff := [("proposedValue", JBool involvesChild)];
      ao_metadata := [("stage", JStr "first_confirmation")] }}) ;;
    mret {| fc_applied := false; fc_awaitingSecondAdmin := true; fc_profile := updated |}
  else if bool_decide (pr_byId (vf_proposal profile) = Some (cu_id admin)) then
    emitProfileFailure admin "VICTIM_PROFILE_CHILD_FLAG_UPDATED" profile
      "child_flag_requires_second_admin" "DENIED" [] [] ;;
    Throw (BadRequest "child_flag_requires_second_admin")
  else
  let status := deriveStatus (flagged_gates involvesChild (vf_gates profile)) in
  updated ← conditionalUpdate id (vf_updatedAt profile)
    (λ _ p, p{{vf_gates ::= flagged_gates involvesChild; vf_first := nobody;
               vf_isPublished := false; vf_isFeatured := false;
               vf_status := if one_of (vf_status profile) GATE_DRIVEN_STATUSES then status
                            else vf_status profile;
               vf_proposal := no_proposal}})
    admin "VICTIM_PROFILE_CHILD_FLAG_UPDATED" profile;
  invalidateVictimProfileEverywhere keyPrefix id ;;
  auditSuccess admin "VICTIM_PROFILE_CHILD_FLAG_UPDATED" profile (no_opts{{
    ao_severity := Some "CRITICAL"; ao_reason := Some reason;
    ao_diff := [("previousInvolvesChild", JBool (g_involvesChild (vf_gates profile)));
                ("newInvolvesChild", JBool involvesChild)] ++
               status_diff profile (vf_status updated) ++
               [("firstConfirmedBy", json_opt (pr_byId (vf_proposal profile)));
                ("secondConfirmedBy", JStr (cu_id admin))];
    ao_metadata := [("stage", JStr "second_confirmation")] }}) ;;
  mret {| fc_applied := true; fc_awaitingSecondAdmin := false; fc_profile := updated |}.
End child_safety.
