(* ===== verification/VictimFunding.v ===== *)
(** * Victim profiles: money and bank details

    Models [victim-profile-funding.service.ts]: what a profile received, the bank
    account its money goes to and its verification, the reconciliation of totals,
    goals and the pause of donations. *)

From S2P Require Import Prelude Js Json JsDate Redis Cache Chapa Roles PayModel VictimModel.
From S2P Require Import VictimCommon.
From stdpp Require Import sorting.
From coqutil Require Import Datatypes.RecordSetters.
Import DoubleBraceUpdate.

Open Scope Z_scope.

(** [String(x)] of a JSON value; [None] is undefined. *)
Fixpoint js_String (j : json) : string :=
  match j with
  | JNull => "null"
  | JBool b => if b then "true" else "false"
  | JNum n => str_of_Z n
  | JStr s => s
  | JArr xs =>
      String.concat "," (map (λ x, match x with JNull => "" | _ => js_String x end) xs)
  | JObj _ => "[object Object]"
  end.
Definition js_String_opt (o : option json) : string := from_option js_String "undefined" o.

(** [UpdateBankDetailsDto]; the name of the bank and of the account that it also
    carries are not used. *)
Record BankDetailsDto := {
  bd_accountNumber : string;
  bd_bankCode : string;
  bd_accountHolderName : string;
  bd_relationship : string;
}.

Record SupportRow := {
  sr_id : string;
  sr_amount : string;
  sr_currency : string;
  sr_chapaFee : option string;
  sr_isAnonymous : bool;
  sr_paidAt : option Z;
  sr_createdAt : Z;
  sr_payer : option (string * option string);
}.
Record SupportsSummary := {
  su_totalReceived : string;
  su_sent : string;
  su_onTheWay : string;
  su_waiting : string;
  su_supportCount : Z;
  su_donorCount : Z;
  su_supports : list SupportRow;
}.

Record Reconciliation := {
  re_cachedTotal : string;
  re_liveTotal : string;
  re_mismatch : bool;
  re_corrected : bool;
}.

Record BankHistoryEntry := {
  bh_event : string;
  bh_by : option string;
  bh_at : Z;
  bh_accountNameChanged : option json;
  bh_accountNumberChanged : option json;
  bh_bankNameChanged : option json;
  bh_relationship : option json;
}.

Record FundingDay := { fd_date : string; fd_donations : Z; fd_recipientAmount : string }.

Definition ACTIVE_TRANSFERS : list DisbursementStatus := [DCREATED; DSUBMITTED; DUNKNOWN].

Section funding.
Context `{VicLib} `{DecimalIO} (keyPrefix : string).

Definition findBankDetails (id : string) : prog VicW (option Destination) :=
  assertProfileExists id ;;
  destination_by_profile id.

Definition support_row (w : VicW) (p : Payment) : SupportRow := {|
  sr_id := p_id p; sr_amount := money (Some (p_amount p)); sr_currency := p_currency p;
  sr_chapaFee := (λ f, money (Some f)) <$> p_chapaFee p; sr_isAnonymous := p_isAnonymous p;
  sr_paidAt := p_paidAt p; sr_createdAt := p_createdAt p;
  sr_payer := u ← p_payer p; v ← zw_users w !! u; Some (vu_id v, vu_name v) |}.

Definition getSupportsSummary (id : string) : prog VicW SupportsSummary :=
  assertProfileExists id ;;
  totals ← getMoneyTotals id;
  donorCount ← getDonorCount id;
  payments ← gets (λ w, map (support_row w) (take 200 (paid_desc (paid_rows id w))));
  mret {| su_totalReceived := money (Some (mt_raised totals));
          su_sent := money (Some (mt_sent totals));
          su_onTheWay := money (Some (mt_onTheWay totals));
          su_waiting := money (Some (mt_waiting totals));
          su_supportCount := mt_paymentCount totals; su_donorCount := donorCount;
          su_supports := payments |}.

(** A bank of the provider that is not a mobile wallet. *)
Definition usable_bank (code : string) (banks : list Bank) : option Bank :=
  b ← head (filter (λ b, js_String_opt (bk_id b) = code) banks);
  match bk_is_mobilemoney b with
  | Some (JNum 1) | Some (JBool true) => None
  | _ => Some b
  end.

(** The destination as the request sets it; editing resets the verification. *)
Definition edited_destination (data : BankDetailsDto) (bankName : string) (d : Destination)
    : Destination :=
  d{{dt_bankName := bankName; dt_bankCode := bd_bankCode data;
     dt_accountNumber := bd_accountNumber data; dt_accountHolder := bd_accountHolderName data;
     dt_isVerified := false; dt_verifiedById := None; dt_verifiedAt := None}}.
Definition new_destination (data : BankDetailsDto) (bankName id : string) (t : Z) : Destination := {|
  dt_id := id; dt_bankName := bankName; dt_bankCode := bd_bankCode data;
  dt_accountNumber := bd_accountNumber data; dt_accountHolder := bd_accountHolderName data;
  dt_isVerified := false; dt_verifiedById := None; dt_verifiedAt := None; dt_updatedAt := t |}.

Definition refuse_bank_details (admin : CurrentUser) (p : Profile) (reason : string) (e : exn)
    : prog VicW () :=
  emitProfileFailure admin "VICTIM_PROFILE_BANK_DETAILS_UPDATED" p reason "FAILURE" [] [] ;;
  Throw e.

Definition updateBankDetails (admin : CurrentUser) (id : string) (data : BankDetailsDto)
    : prog VicW Profile :=
  profile ← getProfileOr404 id;
  assertAdminCanAccessProfile admin profile "VICTIM_PROFILE_BANK_DETAILS_UPDATED" ;;
  (if g_involvesChild (vf_gates profile) && bool_decide (bd_relationship data = "SELF") then
     refuse_bank_details admin profile "account_holder_cannot_be_the_child"
       (BadRequest "account_holder_cannot_be_the_child")
   else mret ()) ;;
  banks ← getBanks;
  match usable_bank (bd_bankCode data) banks with
  | None =>
      refuse_bank_details admin profile "invalid_bank_code" (BadRequest "invalid_bank_code") ;;
      mret profile
  | Some bank =>
  let bankName := js_String_opt (bk_name bank) in
  inFlight ← gets (λ w, find_row (λ d, bool_decide (d_victim d = id) &&
                                      bool_decide (d_status d ∈ ACTIVE_TRANSFERS))
                          (zw_disbursements w));
  (if is_set inFlight then
     refuse_bank_details admin profile "transfer_in_progress" (Conflict "transfer_in_progress")
   else mret ()) ;;
  previousDestination ← destination_by_profile id;
  let wasApproved := g_isAdminApproved (vf_gates profile) in
  let status := deriveStatus ((vf_gates profile){{g_isAdminApproved := false}}) in
  let isPublished := if wasApproved then false else vf_isPublished profile in
  updated ← conditionalUpdate id (vf_updatedAt profile)
    (λ _ p, p{{vf_gates -> g_isAdminApproved := false; vf_isPublished := isPublished;
               vf_status := status}})
    admin "VICTIM_PROFILE_BANK_DETAILS_UPDATED" profile;
  destination_upsert id (new_destination data bankName)
    (λ _, edited_destination data bankName) ;;
  invalidateVictimProfileEverywhere keyPrefix id ;;
  let changed (x : string) (f : Destination → string) :=
    JBool (negb (bool_decide (f <$> previousDestination = Some x))) in
  auditSuccess admin "VICTIM_PROFILE_BANK_DETAILS_UPDATED" profile (no_opts{{
    ao_diff := [("previousStatus", json_status (vf_status profile));
                ("newStatus", json_status status);
                ("previousIsPublished", JBool (vf_isPublished profile));
                ("newIsPublished", JBool isPublished);
                ("reapprovalRequired", JBool wasApproved)];
    ao_metadata := [("accountNameChanged", changed (bd_accountHolderName data) dt_accountHolder);
                    ("accountNumberChanged", changed (bd_accountNumber data) dt_accountNumber);
                    ("bankNameChanged", changed (bd_bankCode data) dt_bankCode);
                    ("accountHolderRelationship", JStr (bd_relationship data));
                    ("bankCode", JStr (bd_bankCode data))] }}) ;;
  notifyCreator "notification.victim_profile_bank_details_updated" profile
    [("reapprovalRequired", JBool wasApproved); ("actorId", JStr (cu_id admin))] ;;
  mret updated
  end.

(** The truth is the sum of the confirmed donations; a cent is tolerated. *)
Definition reconcileProfileTotal (admin : CurrentUser) (id : string) (autoCorrect : bool)
    : prog VicW Reconciliation :=
  profile ← getProfileOr404 id;
  agg ← gets (λ w, (sumZ (pay_amount_if (is_paid_of id)) (zw_payments w), len (paid_rows id w)));
  let liveTotal := agg.1 in
  let cachedTotal := vf_totalRaised profile in
  let mismatch := 1 <? Z.abs (liveTotal - cachedTotal) in
  let corrected := mismatch && autoCorrect in
  (if corrected then
     conditionalUpdate id (vf_updatedAt profile) (λ _ p, p{{vf_totalRaised := liveTotal}})
       admin "VICTIM_PROFILE_TOTAL_RECONCILED" profile ;;
     invalidateVictimProfileEverywhere keyPrefix id
   else mret ()) ;;
  (if mismatch then
     emitAudit {|
       va_userId := Some (cu_id admin); va_targetUserId := None;
       va_actorType := resolveActorType (cu_roles admin);
       va_action := "VICTIM_PROFILE_TOTAL_RECONCILED"; va_outcome := None;
       va_severity := Some "WARNING"; va_entity := "VictimProfile"; va_entityId := Some id;
       va_entityLabel := profileLabel profile; va_reason := None;
       va_diff := [("result", JStr (if corrected then "success" else "mismatch_detected"));
                   ("previousCachedTotal", JStr (money (Some cachedTotal)));
                   ("liveTotal", JStr (money (Some liveTotal))); ("corrected", JBool corrected)];
       va_metadata := [("difference", JStr (money (Some (liveTotal - cachedTotal))));
                       ("paidPaymentCount", JNum agg.2)] |}
   else mret ()) ;;
  mret {| re_cachedTotal := money (Some cachedTotal); re_liveTotal := money (Some liveTotal);
          re_mismatch := mismatch; re_corrected := corrected |}.

(** [mapWithConcurrency]: its workers, one after the other. *)
Fixpoint map_each {A B} (fn : A → prog VicW B) (items : list A) : prog VicW (list B) :=
  match items with
  | [] => mret []
  | x :: items => r ← fn x; rs ← map_each fn items; mret (r :: rs)
  end.

Definition reconcileAllTotals (admin : CurrentUser) (autoCorrect : bool)
    : prog VicW (list (string * Reconciliation)) :=
  ids ← gets (λ w, map vf_id (map_to_list (zw_profiles w)).*2);
  results ← map_each (λ id, r ← reconcileProfileTotal admin id autoCorrect; mret (id, r)) ids;
  mret (filter (λ r, re_mismatch r.2 = true) results).

Definition resumeDonations (admin : CurrentUser) (id : string) : prog VicW Profile :=
  profile ← getProfileOr404 id;
  throw_if (negb (ps_paused (vf_donations profile))) (BadRequest "donations_not_paused") ;;
  throw_if (is_set (mk_at (vf_takedown profile))) (BadRequest "cannot_resume_during_takedown") ;;
  throw_if (is_set (mk_at (vf_deletion profile))) (BadRequest "victim_profile_deleted") ;;
  throw_if (has_status VP_COMPLETED profile)
    (BadRequest "victim_profile_completed_reopen_first") ;;
  updated ← conditionalUpdate id (vf_updatedAt profile)
    (λ _ p, p{{vf_donations := {| ps_paused := false; ps_reason := None; ps_at := None |} }})
    admin "VICTIM_PROFILE_DONATIONS_RESUMED" profile;
  invalidateVictimProfileEverywhere keyPrefix id ;;
  auditSuccess admin "VICTIM_PROFILE_DONATIONS_RESUMED" profile (no_opts{{ao_diff :=
    [("previousReason", json_opt (ps_reason (vf_donations profile)))] }}) ;;
  mret updated.

Definition updateGoal (admin : CurrentUser) (id : string) (goal : Z) (reason : string)
    : prog VicW Profile :=
  profile ← getProfileOr404 id;
  assertAdminCanAccessProfile admin profile "VICTIM_PROFILE_GOAL_UPDATED" ;;
  throw_if ((0 <? goal) && (goal <? vf_totalRaised profile))
    (BadRequest "goal_below_total_raised") ;;
  updated ← conditionalUpdate id (vf_updatedAt profile) (λ _ p, p{{vf_supportGoal := Some goal}})
    admin "VICTIM_PROFILE_GOAL_UPDATED" profile;
  invalidateVictimProfileEverywhere keyPrefix id ;;
  auditSuccess admin "VICTIM_PROFILE_GOAL_UPDATED" profile (no_opts{{
    ao_severity := Some "WARNING"; ao_reason := Some reason;
    ao_diff := [("previousGoal", match vf_supportGoal profile with
                                 | Some g => JStr (money (Some g)) | None => JNull end);
                ("newGoal", JStr (money (Some goal)));
                ("totalRaised", JStr (money (Some (vf_totalRaised profile))))] }}) ;;
  mret updated.

Definition about_profile (id : string) (a : AuditRow) : bool :=
  bool_decide (ar_entity a = "VictimProfile") && bool_decide (ar_entityId a = id).

Definition getBankDetailsHistory (admin : CurrentUser) (id : string)
    : prog VicW (option (Destination * option string) * list BankHistoryEntry) :=
  profile ← getProfileOr404 id;
  logAdminView admin profile "bank_history" ;;
  events ← audit_findMany (λ a, about_profile id a &&
    mem (ar_action a) ["VICTIM_PROFILE_BANK_DETAILS_UPDATED"; "VICTIM_PROFILE_BANK_DETAILS_VERIFIED"]
    && ar_success a);
  destination ← destination_by_profile id;
  mret ((λ d, (d, maskAccount (Some (dt_accountNumber d)))) <$> (destination : option Destination),
        map (λ e, {|
          bh_event := ar_action e; bh_by := ar_userId e; bh_at := ar_createdAt e;
          bh_accountNameChanged := obj_get "accountNameChanged" (ar_metadata e);
          bh_accountNumberChanged := obj_get "accountNumberChanged" (ar_metadata e);
          bh_bankNameChanged := obj_get "bankNameChanged" (ar_metadata e);
          bh_relationship := obj_get "accountHolderRelationship" (ar_metadata e) |}) events).

(** Four eyes: who typed the destination cannot be the one who verifies it, as far as
    the audit log knows. *)
Definition verifyBankDetails (admin : CurrentUser) (id : string) (notes : option string)
    : prog VicW (option string) :=
  profile ← getProfileOr404 id;
  assertAdminCanAccessProfile admin profile "VICTIM_PROFILE_BANK_DETAILS_VERIFIED" ;;
  destination ← destination_by_profile id;
  destination ← require destination (BadRequest "payout_destination_not_set");
  throw_if (dt_isVerified destination) (Conflict "payout_destination_already_verified") ;;
  lastEdit ← audit_findFirst (λ a, about_profile id a &&
    bool_decide (ar_action a = "VICTIM_PROFILE_BANK_DETAILS_UPDATED") && ar_success a);
  (if bool_decide (lastEdit ≫= ar_userId = Some (cu_id admin)) then
     emitProfileFailure admin "VICTIM_PROFILE_BANK_DETAILS_VERIFIED" profile
       "verifier_must_differ_from_editor" "DENIED" [] [] ;;
     Throw (Forbidden "verifier_must_differ_from_editor")
   else mret ()) ;;
  n ← destination_updateMany id
        (λ d, bool_decide (dt_id d = dt_id destination) && negb (dt_isVerified d) &&
              bool_decide (dt_updatedAt d = dt_updatedAt destination))
        (λ t d, d{{dt_isVerified := true; dt_verifiedById := Some (cu_id admin);
                   dt_verifiedAt := Some t}});
  throw_if (n =? 0) (Conflict "victim_profile_transition_conflict") ;;
  let masked := maskAccount (Some (dt_accountNumber destination)) in
  auditSuccess admin "VICTIM_PROFILE_BANK_DETAILS_VERIFIED" profile (no_opts{{
    ao_severity := Some "WARNING"; ao_reason := notes;
    ao_diff := [("accountNumberMasked", json_opt masked)] }}) ;;
  mret masked.

(** A row of the timeline, by the day of the payment. *)
Definition payment_day (p : Payment) : string :=
  str_take 10 (toISOString (default (p_createdAt p) (p_paidAt p))).
Fixpoint add_to_day (day : string) (amount : Z) (days : list (string * (Z * Z)))
    : list (string * (Z * Z)) :=
  match days with
  | [] => [(day, (1, amount))]
  | (d, (n, total)) :: days =>
      if bool_decide (d = day) then (d, (n + 1, total + amount)) :: days
      else (d, (n, total)) :: add_to_day day amount days
  end.
(** The days in order; the texts have one length. *)
Definition day_rows (payments : list Payment) : list FundingDay :=
  map (λ '(d, (n, total)), {| fd_date := d; fd_donations := n;
                               fd_recipientAmount := money (Some total) |})
    (merge_sort (goes_before (λ a b, String.leb a.1 b.1))
      (foldl (λ days p, add_to_day (payment_day p) (p_amount p) days) [] payments)).

Definition in_range (range : option Z * option Z) (at_ : option Z) : bool :=
  match range with
  | (None, None) => true
  | (from, to) =>
      match at_ with
      | Some t => match from with Some f => f <=? t | None => true end &&
                  match to with Some u => t <=? u | None => true end
      | None => false
      end
  end.

Definition getFundingTimeline (admin : CurrentUser) (id : string) (from to : option string)
    : prog VicW (list FundingDay) :=
  profile ← getProfileOr404 id;
  logAdminView admin profile "funding_timeline" ;;
  range ← throw_outcome (parseRange from to);
  (* an invalid date is refused by the query *)
  throw_if (bool_decide (range.1 = Some None) || bool_decide (range.2 = Some None))
    (JsError "PrismaClientValidationError") ;;
  payments ← gets (λ w, take (Z.to_nat 50000)
    (filter (λ p, in_range (mjoin range.1, mjoin range.2) (p_paidAt p) = true) (paid_rows id w)));
  mret (day_rows payments).
End funding.
