(* ===== verification/VictimWorkflow.v ===== *)
(** * Victim profiles: workflow

    Models [victim-profile-workflow.service.ts]: reviewers, change requests, takedowns,
    completion, and the operations on many profiles. *)

From S2P Require Import Prelude Js Redis Cache Chapa Roles PayModel VictimModel VictimCommon.
From stdpp Require Import sorting.
From coqutil Require Import Datatypes.RecordSetters.
Import DoubleBraceUpdate.

Open Scope Z_scope.

Record BulkResult := {
  bk_requested : Z;
  bk_succeeded : list string;
  bk_failed : list (string * string);
}.

(** [[...new Set(ids)]] *)
Definition unique (ids : list string) : list string := reverse (remove_dups (reverse ids)).

Record ClusterMember := {
  cm_id : string;
  cm_label : option string;
  cm_status : VictimProfileStatus;
  cm_createdByUserId : option string;
  cm_createdAt : Z;
}.
Record Cluster := {
  cl_matchedOn : string;
  cl_key : string;
  cl_count : Z;
  cl_where : VicW → Profile → bool;
}.
Record ClusterView := {
  cw_matchedOn : string;
  cw_key : string;
  cw_count : Z;
  cw_profiles : list ClusterMember;
}.

Section workflow.
Context `{VicLib} `{DecimalIO} (keyPrefix : string).

(** One failure does not abort the batch. *)
Fixpoint bulk_loop (fn : string → prog VicW ()) (ids succeeded : list string)
    (failed : list (string * string)) : prog VicW (list string * list (string * string)) :=
  match ids with
  | [] => mret (succeeded, failed)
  | id :: ids =>
      r ← attempt (fn id);
      match r with
      | Ok _ => bulk_loop fn ids (succeeded ++ [id]) failed
      | Err e => bulk_loop fn ids succeeded (failed ++ [(id, exn_message e)])
      end
  end.

Definition runBulk (admin : CurrentUser) (action : string) (ids : list string)
    (reason : option string) (fn : string → prog VicW ()) : prog VicW BulkResult :=
  r ← bulk_loop fn (unique ids) [] [];
  emitAudit {|
    va_userId := Some (cu_id admin); va_targetUserId := None;
    va_actorType := resolveActorType (cu_roles admin);
    va_action := "VICTIM_PROFILE_BULK_ACTION"; va_outcome := None;
    va_severity := Some "WARNING"; va_entity := "VictimProfile"; va_entityId := None;
    va_entityLabel := None; va_reason := reason;
    va_diff := [("result", JStr (if bool_decide (r.2 = []) then "success" else "partial"));
                ("action", JStr action)];
    va_metadata := [("requested", JNum (len (unique ids))); ("succeeded", JNum (len r.1));
                    ("failed", JNum (len r.2)); ("ids", JArr (JStr <$> unique ids))] |} ;;
  mret {| bk_requested := len (unique ids); bk_succeeded := r.1; bk_failed := r.2 |}.

(** Reviewers are active users with an administrator's role. *)
Definition is_reviewer (u : VicUser) : bool :=
  vu_isActive u && existsb (λ name, mem name [ADMIN; SUPER_ADMIN]) (vu_roles u).
Definition assertIsReviewer (userId : string) : prog VicW () :=
  u ← gets (λ w, zw_users w !! userId);
  throw_if (negb (from_option is_reviewer false u))
    (BadRequest "reviewer_must_be_an_active_admin").

Definition assignReviewer (admin : CurrentUser) (id reviewerId : string) : prog VicW Profile :=
  profile ← getProfileOr404 id;
  assertIsReviewer reviewerId ;;
  if bool_decide (by_id (vf_assigned profile) = Some reviewerId) then mret profile else
  updated ← conditionalUpdate id (vf_updatedAt profile)
    (λ t p, p{{vf_assigned := {| by_id := Some reviewerId; by_at := Some t |} }})
    admin "VICTIM_PROFILE_ASSIGNED" profile;
  auditSuccess admin "VICTIM_PROFILE_ASSIGNED" profile (no_opts{{ao_diff :=
    [("previousReviewerId", json_opt (by_id (vf_assigned profile)));
     ("newReviewerId", JStr reviewerId)] }}) ;;
  emit (VicNotified "notification.victim_profile_assigned"
    [("userId", JStr reviewerId); ("victimProfileId", JStr id); ("actorId", JStr (cu_id admin))]) ;;
  mret updated.

Definition unassignReviewer (admin : CurrentUser) (id : string) : prog VicW Profile :=
  profile ← getProfileOr404 id;
  throw_if (negb (truthy_opt (by_id (vf_assigned profile))))
    (BadRequest "victim_profile_not_assigned") ;;
  updated ← conditionalUpdate id (vf_updatedAt profile) (λ _ p, p{{vf_assigned := nobody}})
    admin "VICTIM_PROFILE_UNASSIGNED" profile;
  auditSuccess admin "VICTIM_PROFILE_UNASSIGNED" profile (no_opts{{ao_diff :=
    [("previousReviewerId", json_opt (by_id (vf_assigned profile)))] }}) ;;
  mret updated.

Definition requestChanges (admin : CurrentUser) (id message : string) : prog VicW Profile :=
  profile ← getProfileOr404 id;
  assertAdminCanAccessProfile admin profile "VICTIM_PROFILE_CHANGES_REQUESTED" ;;
  throw_if (is_set (mk_at (vf_deletion profile))) (BadRequest "victim_profile_deleted") ;;
  (if vf_isPublished profile || negb (one_of (vf_status profile) CHANGE_REQUESTABLE_STATUSES) then
     emitProfileFailure admin "VICTIM_PROFILE_CHANGES_REQUESTED" profile
       "changes_cannot_be_requested_in_this_status" "FAILURE"
       [("currentStatus", json_status (vf_status profile))] [] ;;
     Throw (BadRequest "changes_cannot_be_requested_in_this_status")
   else mret ()) ;;
  updated ← conditionalUpdate id (vf_updatedAt profile)
    (λ t p, p{{vf_status := VP_CHANGES_REQUESTED;
               vf_review := {| nt_text := Some message; nt_at := Some t |};
               vf_gates -> g_isAdminApproved := false; vf_isPublished := false}})
    admin "VICTIM_PROFILE_CHANGES_REQUESTED" profile;
  invalidateVictimProfileEverywhere keyPrefix id ;;
  auditSuccess admin "VICTIM_PROFILE_CHANGES_REQUESTED" profile (no_opts{{
    ao_reason := Some message;
    ao_diff := [("previousStatus", json_status (vf_status profile));
                ("newStatus", json_status VP_CHANGES_REQUESTED);
                ("creatorMessage", JStr message)] }}) ;;
  notifyCreator "notification.victim_profile_changes_requested" profile
    [("message", JStr message)] ;;
  mret updated.

(** An emergency: not blocked by another administrator's claim. *)
Definition takedown (admin : CurrentUser) (id reason : string) : prog VicW Profile :=
  profile ← getProfileOr404 id;
  throw_if (is_set (mk_at (vf_takedown profile))) (Conflict "victim_profile_already_taken_down") ;;
  updated ← conditionalUpdate id (vf_updatedAt profile)
    (λ t p, p{{vf_status := VP_UNPUBLISHED; vf_isPublished := false;
               vf_gates -> g_isAdminApproved := false; vf_isFeatured := false;
               vf_donations := {| ps_paused := true; ps_reason := Some reason;
                 ps_at := Some (default t (ps_at (vf_donations profile))) |};
               vf_takedown := {| mk_reason := Some reason; mk_at := Some t;
                                 mk_byId := Some (cu_id admin) |} }})
    admin "VICTIM_PROFILE_TAKEDOWN" profile;
  invalidateVictimProfileEverywhere keyPrefix id ;;
  auditSuccess admin "VICTIM_PROFILE_TAKEDOWN" profile (no_opts{{
    ao_severity := Some "CRITICAL"; ao_reason := Some reason;
    ao_diff := [("previousStatus", json_status (vf_status profile));
                ("newStatus", json_status VP_UNPUBLISHED);
                ("previousIsPublished", JBool (vf_isPublished profile))] }}) ;;
  notifyCreator "notification.victim_profile_taken_down" profile [] ;;
  mret updated.

Definition liftTakedown (admin : CurrentUser) (id reason : string) : prog VicW Profile :=
  profile ← getProfileOr404 id;
  throw_if (negb (is_set (mk_at (vf_takedown profile))))
    (BadRequest "victim_profile_not_taken_down") ;;
  updated ← conditionalUpdate id (vf_updatedAt profile) (λ _ p, p{{vf_takedown := no_mark}})
    admin "VICTIM_PROFILE_TAKEDOWN_LIFTED" profile;
  invalidateVictimProfileEverywhere keyPrefix id ;;
  auditSuccess admin "VICTIM_PROFILE_TAKEDOWN_LIFTED" profile (no_opts{{
    ao_severity := Some "CRITICAL"; ao_reason := Some reason;
    ao_diff := [("previousTakedownReason", json_opt (mk_reason (vf_takedown profile)));
                ("previousTakedownById", json_opt (mk_byId (vf_takedown profile)));
                ("creatorMessage",
                 JStr "The takedown was lifted; your profile will be reviewed again.")] }}) ;;
  mret updated.

Definition complete (admin : CurrentUser) (id : string) (note : option string)
    : prog VicW Profile :=
  profile ← getProfileOr404 id;
  assertAdminCanAccessProfile admin profile "VICTIM_PROFILE_COMPLETED" ;;
  (if has_status VP_PUBLISHED profile then mret () else
   emitProfileFailure admin "VICTIM_PROFILE_COMPLETED" profile
     "only_published_profiles_can_be_completed" "FAILURE"
     [("currentStatus", json_status (vf_status profile))] [] ;;
   Throw (BadRequest "only_published_profiles_can_be_completed")) ;;
  updated ← conditionalUpdate id (vf_updatedAt profile)
    (λ t p, p{{vf_status := VP_COMPLETED;
               vf_completed := {| nt_text := note; nt_at := Some t |};
               vf_isFeatured := false;
               vf_donations := {| ps_paused := true; ps_reason := Some "completed";
                                  ps_at := Some t |} }})
    admin "VICTIM_PROFILE_COMPLETED" profile;
  invalidateVictimProfileEverywhere keyPrefix id ;;
  auditSuccess admin "VICTIM_PROFILE_COMPLETED" profile (no_opts{{
    ao_reason := note;
    ao_diff := [("previousStatus", json_status (vf_status profile));
                ("newStatus", json_status VP_COMPLETED)];
    ao_metadata := [("totalRaisedAtCompletion",
                     JStr (money (Some (vf_totalRaised profile))))] }}) ;;
  notifyCreator "notification.victim_profile_completed" profile [] ;;
  mret updated.

(** Back to PUBLISHED only if every gate still holds. *)
Definition reopen (admin : CurrentUser) (id reason : string) : prog VicW Profile :=
  profile ← getProfileOr404 id;
  assertAdminCanAccessProfile admin profile "VICTIM_PROFILE_REOPENED" ;;
  throw_if (negb (has_status VP_COMPLETED profile)) (BadRequest "victim_profile_not_completed") ;;
  throw_if (is_set (mk_at (vf_takedown profile)) || is_set (mk_at (vf_deletion profile)))
    (BadRequest "victim_profile_blocked_from_reopening") ;;
  bank ← hasBankDetails id;
  let g := vf_gates profile in
  let gatesHold := bool_decide (getMissingApprovalGates g bank = []) && g_isAdminApproved g in
  let status := if gatesHold then VP_PUBLISHED else deriveStatus g in
  updated ← conditionalUpdate id (vf_updatedAt profile)
    (λ _ p, p{{vf_status := status; vf_isPublished := gatesHold; vf_completed := no_note;
               vf_donations := {| ps_paused := false; ps_reason := None; ps_at := None |} }})
    admin "VICTIM_PROFILE_REOPENED" profile;
  invalidateVictimProfileEverywhere keyPrefix id ;;
  auditSuccess admin "VICTIM_PROFILE_REOPENED" profile (no_opts{{
    ao_reason := Some reason;
    ao_diff := [("previousStatus", json_status (vf_status profile));
                ("newStatus", json_status status)] }}) ;;
  notifyCreator "notification.victim_profile_reopened" profile [] ;;
  mret updated.

(** ** Many profiles at once *)

Definition bulkAssign (admin : CurrentUser) (ids : list string) (reviewerId : string)
    : prog VicW BulkResult :=
  assertIsReviewer reviewerId ;;
  runBulk admin "assign" ids None (λ id, assignReviewer admin id reviewerId ;; mret ()).

Definition bulkRequestChanges (admin : CurrentUser) (ids : list string) (message : string)
    : prog VicW BulkResult :=
  runBulk admin "request_changes" ids (Some message)
    (λ id, requestChanges admin id message ;; mret ()).

(** The reason is stored where the creator reads it, after the rejection. *)
Definition bulkReject (admin : CurrentUser) (ids : list string) (reason : string)
    : prog VicW BulkResult :=
  runBulk admin "reject" ids (Some reason) (λ id,
    reject keyPrefix admin id ;;
    profile_update id (λ t p, p{{vf_review := {| nt_text := Some reason; nt_at := Some t |} }}) ;;
    mret ()).

Definition bulkUnpublish (admin : CurrentUser) (ids : list string) (reason : string)
    : prog VicW BulkResult :=
  runBulk admin "unpublish" ids (Some reason) (λ id, unpublish keyPrefix admin id ;; mret ()).

(** ** Duplicates: the same account, or the same name and creator *)

Definition undeleted (p : Profile) : bool := negb (is_set (mk_at (vf_deletion p))).

(** [groupBy] with [having count > 1], by descending count. *)
Definition group_counts {K} `{EqDecision K} (ks : list K) : list (K * Z) :=
  merge_sort (goes_before (λ a b, b.2 <=? a.2))
    (filter (λ kc, 1 < kc.2) (map (λ k, (k, len (filter (λ k', k' = k) ks))) (remove_dups ks))).

Definition account_clusters (w : VicW) : list Cluster :=
  map (λ '(account, n), {|
    cl_matchedOn := "bankAccountNumber";
    cl_key := default "" (maskAccount (Some account)); cl_count := n;
    cl_where := λ w p, undeleted p &&
      match zw_destinations w !! vf_id p with
      | Some d => bool_decide (dt_accountNumber d = account)
      | None => false
      end |})
    (group_counts (omap (λ '(id, d),
       match zw_profiles w !! id with
       | Some p => if undeleted p then Some (dt_accountNumber d) else None
       | None => None
       end) (map_to_list (zw_destinations w)))).

Definition name_clusters (w : VicW) : list Cluster :=
  map (λ '((creator, name), n), {|
    cl_matchedOn := "name+creator"; cl_key := name; cl_count := n;
    cl_where := λ _ p, undeleted p && bool_decide (vf_name p = Some name) &&
                       bool_decide (vf_createdByUserId p = Some creator) |})
    (group_counts (omap (λ p,
       match vf_createdByUserId p, vf_name p with
       | Some creator, Some name => if undeleted p then Some (creator, name) else None
       | _, _ => None
       end) (map_to_list (zw_profiles w)).*2)).

(** The names of children are never shown as a key. *)
Definition cluster_view (w : VicW) (c : Cluster) : ClusterView :=
  let members := merge_sort (goes_before (λ p q, vf_createdAt p <=? vf_createdAt q))
                   (rows (cl_where c w) (zw_profiles w)) in
  {| cw_matchedOn := cl_matchedOn c;
     cw_key := if existsb (λ m, g_involvesChild (vf_gates m)) members &&
                  bool_decide (cl_matchedOn c = "name+creator")
               then "redacted" else cl_key c;
     cw_count := cl_count c;
     cw_profiles := map (λ m, {| cm_id := vf_id m; cm_label := profileLabel m;
       cm_status := vf_status m; cm_createdByUserId := vf_createdByUserId m;
       cm_createdAt := vf_createdAt m |}) members |}.

Definition findDuplicates (page limit : option Z) : prog VicW (list ClusterView * Meta) :=
  let g := pageOf page limit in
  clusters ← gets (λ w, merge_sort (goes_before (λ a b, cl_count b <=? cl_count a))
                          (account_clusters w ++ name_clusters w));
  gets (λ w, (map (cluster_view w) (page_rows g clusters),
              metaOf (pg_page g) (pg_limit g) (len clusters))).
End workflow.

(** * Victim profiles: flags and appeals

    Models [victim-profile-moderation.service.ts]. *)

From S2P Require Import Prelude Js Redis Cache Chapa Roles PayModel VictimModel VictimCommon.
From stdpp Require Import sorting.
From coqutil Require Import Datatypes.RecordSetters.
Import DoubleBraceUpdate.

Open Scope Z_scope.

Inductive FlagResolution := DISMISS | UNPUBLISH | PAUSE_DONATIONS.
#[export] Instance FlagResolution_eq_dec : EqDecision FlagResolution.
Proof. solve_decision. Defined.
Definition resolution_name (r : FlagResolution) : string :=
  match r with
  | DISMISS => "DISMISS" | UNPUBLISH => "UNPUBLISH" | PAUSE_DONATIONS => "PAUSE_DONATIONS"
  end.

Inductive AppealDecision := UPHOLD_REJECTION | OVERTURN_REJECTION.
Definition decision_name (d : AppealDecision) : string :=
  match d with
  | UPHOLD_REJECTION => "UPHOLD_REJECTION" | OVERTURN_REJECTION => "OVERTURN_REJECTION"
  end.

Definition open_flag (f : ProfileFlag) : bool := bool_decide (fl_status f = FLAG_OPEN).
Definition open_appeal (a : Appeal) : bool := bool_decide (ap_status a = APPEAL_OPEN).

Record AppealView := {
  aw_appeal : Appeal;
  aw_label : option string;
  aw_status : option VictimProfileStatus;
  aw_rejectionReason : option string;
}.

Section moderation.
Context `{VicLib} (cfg : VicConfig) (keyPrefix : string).

Definition createAppeal (user : CurrentUser) (id message : string) : prog VicW Appeal :=
  profile ← getMineOr404 user id;
  throw_if (negb (has_status VP_REJECTED profile))
    (BadRequest "only_rejected_profiles_can_be_appealed") ;;
  opened ← appeal_findFirst (λ a, bool_decide (ap_profileId a = id) && open_appeal a);
  throw_if (is_set opened) (Conflict "appeal_already_open") ;;
  previous ← gets (λ w, len (rows (λ a, bool_decide (ap_profileId a = id)) (zw_appeals w)));
  throw_if (vc_maxAppeals cfg <=? previous) (BadRequest "appeal_limit_reached") ;;
  appeal ← appeal_create (λ aid t, {|
    ap_id := aid; ap_profileId := id; ap_authorId := cu_id user; ap_message := message;
    ap_status := APPEAL_OPEN; ap_decidedById := None; ap_decidedAt := None;
    ap_decisionNote := None; ap_createdAt := t |});
  auditSuccess user "VICTIM_PROFILE_APPEAL_CREATED" profile (no_opts{{ao_metadata :=
    [("appealId", JStr (ap_id appeal)); ("appealNumber", JNum (previous + 1))] }}) ;;
  mret appeal.

Definition flagProfile (user : CurrentUser) (id reason : string) (details : option string)
    : prog VicW ProfileFlag :=
  profile ← assertPublishedProfile id;
  throw_if (bool_decide (vf_createdByUserId profile = Some (cu_id user)))
    (BadRequest "cannot_flag_your_own_profile") ;;
  existing ← gets (λ w, find_row (flag_of id (cu_id user)) (zw_flags w));
  throw_if (is_set existing) (Conflict "profile_already_flagged_by_you") ;;
  flag ← catch (flag_create (λ fid t, {|
      fl_id := fid; fl_profileId := id; fl_reporterId := cu_id user; fl_reason := reason;
      fl_details := details; fl_status := FLAG_OPEN; fl_resolution := None;
      fl_resolvedById := None; fl_resolvedAt := None; fl_note := None; fl_createdAt := t |}))
    (λ e, match e with
          | PrismaKnown "P2002" _ => Throw (Conflict "profile_already_flagged_by_you")
          | _ => Throw e
          end);
  auditSuccess user "VICTIM_PROFILE_FLAGGED" profile (no_opts{{
    ao_severity := Some (if bool_decide (reason = "IDENTIFIES_CHILD") then "CRITICAL"
                         else "WARNING");
    ao_diff := [("reason", JStr reason)]; ao_metadata := [("flagId", JStr (fl_id flag))] }}) ;;
  emit (VicNotified "notification.victim_profile_flagged"
    [("victimProfileId", JStr id); ("flagId", JStr (fl_id flag)); ("reason", JStr reason)]) ;;
  mret flag.

Definition findFlagsForProfile (admin : CurrentUser) (id : string) (page limit : option Z)
    : prog VicW (list ProfileFlag * Meta) :=
  profile ← getProfileOr404 id;
  let g := pageOf page limit in
  all ← gets (λ w, merge_sort (goes_before (λ a b, fl_createdAt b <=? fl_createdAt a))
                     (rows (λ f, bool_decide (fl_profileId f = id)) (zw_flags w)));
  logAdminView admin profile "flags" ;;
  mret (page_rows g all, metaOf (pg_page g) (pg_limit g) (len all)).

Definition reopened_flag (f : ProfileFlag) : ProfileFlag :=
  f{{fl_status := FLAG_OPEN; fl_resolution := None; fl_resolvedById := None;
     fl_resolvedAt := None; fl_note := None}}.

(** The flag is claimed first, and put back when the action fails. *)
Definition resolveFlag (admin : CurrentUser) (flagId : string) (resolution : FlagResolution)
    (reason : string) : prog VicW ProfileFlag :=
  flag ← flag_by_id flagId;
  flag ← require flag (NotFound "victim_profile_flag_not_found");
  throw_if (negb (open_flag flag)) (Conflict "victim_profile_flag_already_resolved") ;;
  profile ← getProfileOr404 (fl_profileId flag);
  let status := if bool_decide (resolution = DISMISS) then FLAG_DISMISSED else FLAG_ACTIONED in
  n ← flag_updateMany flagId open_flag
    (λ t f, f{{fl_status := status; fl_resolution := Some (resolution_name resolution);
               fl_resolvedById := Some (cu_id admin); fl_resolvedAt := Some t;
               fl_note := Some reason}});
  throw_if (n =? 0) (Conflict "victim_profile_flag_already_resolved") ;;
  catch
    (if bool_decide (resolution = UNPUBLISH) && vf_isPublished profile then
       unpublish keyPrefix admin (vf_id profile) ;; mret ()
     else if bool_decide (resolution = PAUSE_DONATIONS) &&
             negb (ps_paused (vf_donations profile)) then
       pauseDonations keyPrefix admin (vf_id profile) reason ;; mret ()
     else mret ())
    (λ err,
       m ← flag_updateMany flagId (λ _, true) (λ _, reopened_flag);
       throw_if (m =? 0) P2025 ;;
       Throw err) ;;
  auditSuccess admin "VICTIM_PROFILE_FLAG_RESOLVED" profile (no_opts{{
    ao_reason := Some reason;
    ao_diff := [("flagId", JStr flagId); ("resolution", JStr (resolution_name resolution));
                ("flagReason", JStr (fl_reason flag))] }}) ;;
  resolved ← flag_by_id flagId;
  require resolved P2025.

Definition findAppeals (status : option AppealStatus) (page limit : option Z)
    : prog VicW (list AppealView * Meta) :=
  let g := pageOf page limit in
  gets (λ w,
    let all := merge_sort (goes_before (λ a b, ap_createdAt a <=? ap_createdAt b))
      (rows (λ a, match status with Some s => bool_decide (ap_status a = s) | None => true end)
        (zw_appeals w)) in
    (map (λ a, let p := zw_profiles w !! ap_profileId a in {|
       aw_appeal := a; aw_label := match p with Some p => profileLabel p | None => None end;
       aw_status := match p with Some p => Some (vf_status p) | None => None end;
       aw_rejectionReason := match p with Some p => nt_text (vf_review p) | None => None end |})
       (page_rows g all),
     metaOf (pg_page g) (pg_limit g) (len all))).

(** Four eyes, super administrators excepted. *)
Definition decideAppeal (admin : CurrentUser) (appealId : string) (decision : AppealDecision)
    (reason : string) : prog VicW Appeal :=
  appeal ← appeal_by_id appealId;
  appeal ← require appeal (NotFound "victim_profile_appeal_not_found");
  throw_if (negb (open_appeal appeal)) (Conflict "victim_profile_appeal_already_decided") ;;
  profile ← getProfileOr404 (ap_profileId appeal);
  (if isSuperAdmin admin then mret () else
   rejection ← audit_findFirst (λ a,
     bool_decide (ar_entity a = "VictimProfile") && bool_decide (ar_entityId a = vf_id profile) &&
     bool_decide (ar_action a = "VICTIM_PROFILE_REJECTED") && ar_success a);
   if bool_decide (rejection ≫= ar_userId = Some (cu_id admin)) then
     emitProfileFailure admin "VICTIM_PROFILE_APPEAL_DECIDED" profile
       "appeal_requires_a_different_reviewer" "DENIED" [] [] ;;
     Throw (Forbidden "appeal_requires_a_different_reviewer")
   else mret ()) ;;
  let overturn := match decision with OVERTURN_REJECTION => true | _ => false end in
  (if overturn then
     throw_if (negb (has_status VP_REJECTED profile)) (BadRequest "victim_profile_not_rejected") ;;
     resubmit keyPrefix admin (vf_id profile) ;; mret ()
   else mret ()) ;;
  n ← appeal_updateMany appealId open_appeal
    (λ t a, a{{ap_status := if overturn then OVERTURNED else UPHELD;
               ap_decidedById := Some (cu_id admin); ap_decidedAt := Some t;
               ap_decisionNote := Some reason}});
  throw_if (n =? 0) (Conflict "victim_profile_appeal_already_decided") ;;
  invalidateVictimProfileEverywhere keyPrefix (vf_id profile) ;;
  auditSuccess admin "VICTIM_PROFILE_APPEAL_DECIDED" profile (no_opts{{
    ao_reason := Some reason;
    ao_diff := [("appealId", JStr appealId); ("decision", JStr (decision_name decision));
                ("creatorMessage", JStr reason)] }}) ;;
  emit (VicNotified "notification.victim_profile_appeal_decided"
    [("userId", JStr (ap_authorId appeal)); ("victimProfileId", JStr (vf_id profile));
     ("appealId", JStr appealId); ("decision", JStr (decision_name decision))]) ;;
  decided ← appeal_by_id appealId;
  require decided P2025.
End moderation.
