(* ===== verification/VictimSubmission.v ===== *)
(** * Victim profiles: submission and the administrators' update

    Models [victim-profile-submission.service.ts]. *)

From S2P Require Import Prelude Js Redis Cache Chapa Roles PayModel VictimModel VictimCommon.
From coqutil Require Import Datatypes.RecordSetters.
Import DoubleBraceUpdate.

Open Scope Z_scope.

(** [CreateVictimProfileDto] and [UpdateVictimProfileDto]; the story of the first is
    not optional. *)
Record ProfileDto := {
  pd_name : option string;
  pd_description : option string;
  pd_story : option string;
  pd_supportGoal : option Z;
  pd_media : MediaDto;
  pd_involvesChild : option bool;
}.

Definition no_gates (involvesChild : bool) : Gates := {|
  g_involvesChild := involvesChild; g_isVerified := false; g_isSafetyReviewed := false;
  g_isChildSafetyReviewed := false; g_hasConsent := false; g_isPrivacyReviewed := false;
  g_isAdminApproved := false |}.

(** The row of a new profile; the columns it does not name have their defaults. *)
Definition new_profile (userId : string) (data : ProfileDto) (media : MediaBearing)
    (totalBytes : Z) (idempotencyKey : option string) (id : string) (t : Z) : Profile := {|
  vf_id := id; vf_name := pd_name data; vf_description := pd_description data;
  vf_story := pd_story data; vf_supportGoal := pd_supportGoal data; vf_media := media;
  vf_mediaTotalBytes := totalBytes; vf_gates := no_gates (default false (pd_involvesChild data));
  vf_status := VP_PENDING; vf_isPublished := false; vf_createdAt := t; vf_updatedAt := t;
  vf_createdByUserId := Some userId; vf_idempotencyKey := idempotencyKey;
  vf_consent := {| cs_at := None; cs_recordedBy := None; cs_consentedBy := None;
                   cs_notes := None; cs_documents := [] |};
  vf_claim := nobody; vf_first := nobody; vf_totalRaised := 0; vf_review := no_note;
  vf_creatorSeenAt := None; vf_assigned := nobody; vf_completed := no_note;
  vf_isFeatured := false; vf_featuredAt := None; vf_fundingEndsAt := None;
  vf_donations := {| ps_paused := false; ps_reason := None; ps_at := None |};
  vf_takedown := no_mark; vf_deletion := no_mark; vf_legalHold := false; vf_hold := no_mark;
  vf_anonymizedAt := None; vf_proposal := no_proposal; vf_payoutsPaused := false |}.

(** The columns of an edit that the request names. *)
Definition edited (data : ProfileDto) (totalBytes : Z) (p : Profile) : Profile :=
  p{{vf_name := match pd_name data with Some x => Some x | None => vf_name p end;
     vf_description := match pd_description data with Some x => Some x
                       | None => vf_description p end;
     vf_story := match pd_story data with Some x => Some x | None => vf_story p end;
     vf_supportGoal := match pd_supportGoal data with Some x => Some x
                       | None => vf_supportGoal p end;
     vf_media ::= merged_media (pd_media data);
     vf_mediaTotalBytes := totalBytes}}.
(** Every gate is reset, because the content changed. *)
Definition reset_review (data : ProfileDto) (p : Profile) : Profile :=
  p{{vf_gates ::= (λ g, no_gates (default (g_involvesChild g) (pd_involvesChild data)));
     vf_consent -> cs_at := None; vf_consent -> cs_recordedBy := None;
     vf_isPublished := false; vf_first := nobody}}.

(** [UPDATABLE_FIELD_NAMES.filter((field) => data[field] !== undefined)] *)
Definition fieldsUpdated (data : ProfileDto) : list string :=
  (if is_set (pd_name data) then ["name"] else []) ++
  (if is_set (pd_description data) then ["description"] else []) ++
  (if is_set (pd_story data) then ["story"] else []) ++
  (if is_set (pd_supportGoal data) then ["supportGoal"] else []) ++
  filter (λ field, is_set (dto_field field (pd_media data)) = true) MEDIA_FIELD_NAMES ++
  (if is_set (pd_involvesChild data) then ["involvesChild"] else []).

Section submission.
Context `{VicLib} `{DecimalIO} (cfg : VicConfig) (stat_of : string → option (Z * string))
  (presigned : string → string) (keyPrefix : string).

Definition getMediaDownloadUrl (admin : CurrentUser) (id key : string) : prog VicW string :=
  profile ← getProfileOr404 id;
  if negb (mem key (collectMediaFields (vf_media profile))) then
    emitAudit {|
      va_userId := Some (cu_id admin); va_targetUserId := targetUserFor admin profile;
      va_actorType := resolveActorType (cu_roles admin);
      va_action := "VICTIM_PROFILE_MEDIA_DOWNLOADED"; va_outcome := Some "DENIED";
      va_severity := Some "WARNING"; va_entity := "VictimProfile"; va_entityId := Some id;
      va_entityLabel := profileLabel profile; va_reason := None;
      va_diff := [("result", JStr "denied"); ("reason", JStr "media_not_found_on_profile")];
      va_metadata := [("requestedKey", JStr key)] |} ;;
    Throw (NotFound "media_not_found_on_profile")
  else
  auditSuccess admin "VICTIM_PROFILE_MEDIA_DOWNLOADED" profile
    (no_opts{{ao_metadata := [("key", JStr key)] }}) ;;
  mret (presigned key).

Definition by_key (userId key : string) : prog VicW (option Profile) :=
  profile_findFirst (λ p, bool_decide (vf_createdByUserId p = Some userId) &&
                          bool_decide (vf_idempotencyKey p = Some key)).

(** [err.meta?.target?.some((t) => t.includes('idempotencyKey'))] *)
Definition key_conflict (e : exn) : bool :=
  match e with
  | PrismaKnown "P2002" target => existsb (includes "idempotencyKey") target
  | _ => false
  end.

Definition create (currentUser : CurrentUser) (data : ProfileDto) (idempotencyKey : option string)
    : prog VicW Profile :=
  (* a missing or empty key is none *)
  let key := match idempotencyKey with Some k => if truthy k then Some k else None
             | None => None end in
  existing ← (match key with Some k => by_key (cu_id currentUser) k | None => mret None end);
  match existing with
  | Some p => mret p
  | None =>
  let merged := merged_media (pd_media data) no_media in
  throw_outcome (assertAttachmentCounts cfg merged) ;;
  sizes ← throw_outcome (validateMediaFilesExist cfg stat_of (collectMediaFields merged));
  let totalBytes := sum_sizes sizes in
  throw_outcome (assertTotalBytes cfg totalBytes) ;;
  r ← attempt (profile_create
        (new_profile (cu_id currentUser) data merged totalBytes idempotencyKey));
  match r with
  | Err e =>
      winner ← (match key with
                | Some k => if key_conflict e then by_key (cu_id currentUser) k else mret None
                | None => mret None
                end);
      match winner with Some p => mret p | None => Throw e end
  | Ok profile =>
      emitAudit {|
        va_userId := Some (cu_id currentUser); va_targetUserId := None;
        va_actorType := resolveActorType (cu_roles currentUser);
        va_action := "VICTIM_PROFILE_CREATED"; va_outcome := None; va_severity := None;
        va_entity := "VictimProfile"; va_entityId := Some (vf_id profile);
        va_entityLabel := profileLabel profile; va_reason := None;
        va_diff := [success; ("status", json_status (vf_status profile))];
        va_metadata := [("involvesChild", JBool (g_involvesChild (vf_gates profile)));
                        ("attachmentCount", JNum (len (collectMediaFields merged)));
                        ("mediaTotalBytes", JNum totalBytes)] |} ;;
      notifyCreator "notification.victim_profile_created" profile [] ;;
      mret profile
  end
  end.

Definition findOne (id : string) : prog VicW (Profile * list Payment * option Destination) :=
  profile ← getProfileOr404 id;
  gets (λ w, (profile, take 100 (paid_desc (paid_rows id w)), zw_destinations w !! id)).

(** The media a request changes, checked: what is added, what is removed, and the
    new total. *)
Definition media_change (profile : Profile) (data : MediaDto)
    : outcome (list string * list string * Z) :=
  let d := diffMediaFields (vf_media profile) data in
  _ ← assertAttachmentCounts cfg (merged_media data (vf_media profile));
  sizes ← validateMediaFilesExist cfg stat_of d.1;
  let newTotalBytes :=
    Z.max 0 (vf_mediaTotalBytes profile + sum_sizes sizes - stat_sizes stat_of d.2) in
  _ ← assertTotalBytes cfg newTotalBytes;
  mret (d, newTotalBytes).

(** [try { ... } catch]: a refusal is audited and thrown again. *)
Definition checked_media_change (user : CurrentUser) (profile : Profile) (data : MediaDto)
    : prog VicW (list string * list string * Z) :=
  match media_change profile data with
  | Ok m => mret m
  | Err e =>
      emitProfileFailure user "VICTIM_PROFILE_UPDATED" profile "media_validation_failed"
        "FAILURE" [("message", JStr (exn_message e))] [] ;;
      Throw e
  end.

Definition update (admin : CurrentUser) (id : string) (data : ProfileDto) : prog VicW Profile :=
  profile ← getProfileOr404 id;
  assertAdminCanAccessProfile admin profile "VICTIM_PROFILE_UPDATED" ;;
  m ← checked_media_change admin profile (pd_media data);
  let '(added, removed, newTotalBytes) := m in
  updated ← conditionalUpdate id (vf_updatedAt profile)
    (λ _ p, (reset_review data (edited data newTotalBytes p)){{vf_status := VP_PENDING}})
    admin "VICTIM_PROFILE_UPDATED" profile;
  deleteMediaFiles removed ;;
  invalidateVictimProfileEverywhere keyPrefix id ;;
  emitAudit {|
    va_userId := Some (cu_id admin); va_targetUserId := targetUserFor admin profile;
    va_actorType := resolveActorType (cu_roles admin); va_action := "VICTIM_PROFILE_UPDATED";
    va_outcome := None; va_severity := None; va_entity := "VictimProfile";
    va_entityId := Some id; va_entityLabel := profileLabel updated; va_reason := None;
    va_diff := [success; ("previousStatus", json_status (vf_status profile));
                ("newStatus", json_status VP_PENDING);
                ("previousIsPublished", JBool (vf_isPublished profile));
                ("newIsPublished", JBool false)];
    va_metadata := [("fieldsUpdated", JArr (JStr <$> fieldsUpdated data));
                    ("mediaAdded", JNum (len added)); ("mediaRemoved", JNum (len removed));
                    ("mediaTotalBytes", JNum newTotalBytes)] |} ;;
  notifyCreator "notification.victim_profile_updated" profile [] ;;
  mret updated.

(** Donated money must reach the victim before the profile can be removed. *)
Definition remove (admin : CurrentUser) (id : string) : prog VicW () :=
  profile ← getProfileOr404 id;
  assertAdminCanAccessProfile admin profile "VICTIM_PROFILE_DELETED" ;;
  undelivered ← hasUndeliveredMoney id;
  (if undelivered : bool then
     emitProfileFailure admin "VICTIM_PROFILE_DELETED" profile
       "victim_profile_has_unsettled_payments" "FAILURE" [] [] ;;
     Throw (Conflict "victim_profile_has_unsettled_payments")
   else mret ()) ;;
  n ← profile_deleteMany id (at_version (vf_updatedAt profile));
  (if n =? 0 then
     emitProfileFailure admin "VICTIM_PROFILE_DELETED" profile
       "victim_profile_transition_conflict" "FAILURE" [] [] ;;
     Throw (BadRequest "victim_profile_transition_conflict")
   else mret ()) ;;
  let mediaKeys := collectMediaFields (vf_media profile) in
  deleteMediaFiles mediaKeys ;;
  invalidateVictimProfileEverywhere keyPrefix id ;;
  auditSuccess admin "VICTIM_PROFILE_DELETED" profile (no_opts{{
    ao_diff := [("previousStatus", json_status (vf_status profile));
                ("previousIsPublished", JBool (vf_isPublished profile))];
    ao_metadata := [("involvesChild", JBool (g_involvesChild (vf_gates profile)));
                    ("mediaFilesDeleted", JNum (len mediaKeys));
                    ("mediaTotalBytes", JNum (vf_mediaTotalBytes profile));
                    ("totalRaisedAtDeletion", JStr (money (Some (vf_totalRaised profile))))] }}) ;;
  notifyCreator "notification.victim_profile_deleted" profile [].
End submission.

(** * Victim profiles: what creators and supporters do

    Models [victim-profile-mine.service.ts]. *)

From stdpp Require Import sorting.
From S2P Require Import Prelude Js Json Redis Cache Chapa Roles PayModel VictimModel VictimCommon.
From S2P Require Import VictimReview VictimWorkflow.
From coqutil Require Import Datatypes.RecordSetters.
Import DoubleBraceUpdate.

Open Scope Z_scope.

(** [chunk]: pieces of at most [size]. *)
Fixpoint chunk_go {A} (fuel size : nat) (xs : list A) : list (list A) :=
  match fuel, xs with
  | S fuel, _ :: _ => take size xs :: chunk_go fuel size (drop size xs)
  | _, _ => []
  end.
Definition chunk {A} (xs : list A) (size : nat) : list (list A) := chunk_go (length xs) size xs.

(** A profile as its creator sees it. *)
Record MineView := {
  mv_profile : Profile;                (* the columns that are shown *)
  mv_supportGoal : option string;
  mv_totalRaised : string;
  mv_bank_accountName : option string;
  mv_bank_bankName : option string;
  mv_bank_accountNumberMasked : option string;
  mv_bank_isVerified : bool;
  mv_hasUnseenUpdate : bool;
  mv_canEdit : bool;
  mv_canWithdraw : bool;
  mv_canResubmit : bool;
  mv_canAppeal : bool;
}.

Record TimelineEntry := {
  te_event : string;
  te_at : Z;
  te_byStaff : bool;
  te_status : option string;
  te_message : option string;
}.

Record MineFunding := {
  mf_supportGoal : option string;
  mf_totalRaised : string;
  mf_paidOut : string;
  mf_onTheWay : string;
  mf_waiting : string;
  mf_awaitingPayout : string;
  mf_supporterCount : Z;
  mf_donationsPaused : bool;
}.

(** The text under a key, if it is a string. *)
Definition string_at (k : string) (o : list (string * json)) : option string :=
  match obj_get k o with Some (JStr s) => Some s | _ => None end.

Definition all_profile_statuses : list VictimProfileStatus :=
  [VP_PENDING; VP_UNDER_REVIEW; VP_VERIFIED; VP_CONSENT_PENDING; VP_APPROVED; VP_PUBLISHED;
   VP_REJECTED; VP_UNPUBLISHED; VP_CHANGES_REQUESTED; VP_WITHDRAWN; VP_COMPLETED].

Section mine.
Context `{VicLib} `{DecimalIO} (cfg : VicConfig) (stat_of : string → option (Z * string))
  (presigned : string → string) (keyPrefix : string).

(** ** What staff did since the creator last looked *)

Definition visible_action (creatorId : string) (a : AuditRow) : bool :=
  bool_decide (ar_entity a = "VictimProfile") && ar_success a &&
  mem (ar_action a) CREATOR_VISIBLE_STAFF_ACTIONS &&
  match ar_userId a with Some u => negb (bool_decide (u = creatorId)) | None => false end.

(** [_max: { createdAt }] of the rows of a profile. *)
Definition last_visible (creatorId id : string) (audits : list AuditRow) : option Z :=
  foldr (λ a acc,
    if visible_action creatorId a && bool_decide (ar_entityId a = id)
    then Some (match acc with Some t => Z.max t (ar_createdAt a) | None => ar_createdAt a end)
    else acc) None audits.

Definition unseen_now (creatorId : string) (audits : list AuditRow) (p : Profile) : bool :=
  match last_visible creatorId (vf_id p) audits with
  | Some last => default (vf_createdAt p) (vf_creatorSeenAt p) <? last
  | None => false
  end.

Fixpoint unseen_in (creatorId : string) (chunks : list (list Profile)) : prog VicW (list string) :=
  match chunks with
  | [] => mret []
  | c :: chunks =>
      ids ← gets (λ w, map vf_id (filter (λ p, unseen_now creatorId (zw_audits w) p = true) c));
      more ← unseen_in creatorId chunks;
      mret (ids ++ more)
  end.
(** The profiles have different identifiers. *)
Definition findUnseenProfileIds (creatorId : string) (profiles : list Profile)
    : prog VicW (list string) :=
  unseen_in creatorId (chunk profiles 500).

(** ** Views *)

Definition serializeMine (p : Profile) (unseen : bool) (dest : option Destination) : MineView := {|
  mv_profile := p;
  mv_supportGoal := (λ g, money (Some g)) <$> vf_supportGoal p;
  mv_totalRaised := money (Some (vf_totalRaised p));
  mv_bank_accountName := dt_accountHolder <$> dest;
  mv_bank_bankName := dt_bankName <$> dest;
  mv_bank_accountNumberMasked := maskAccount (dt_accountNumber <$> dest);
  mv_bank_isVerified := from_option dt_isVerified false dest;
  mv_hasUnseenUpdate := unseen;
  mv_canEdit := one_of (vf_status p) CREATOR_EDITABLE_STATUSES;
  mv_canWithdraw := one_of (vf_status p) CREATOR_WITHDRAWABLE_STATUSES &&
                    negb (vf_isPublished p);
  mv_canResubmit := one_of (vf_status p) CREATOR_RESUBMITTABLE_STATUSES;
  mv_canAppeal := has_status VP_REJECTED p |}.

Definition findMine (user : CurrentUser) (page limit : option Z)
    (status : option VictimProfileStatus) : prog VicW (list MineView * Meta) :=
  let g := pageOf page limit in
  all ← gets (λ w, newest_first (rows (λ p, mine user p &&
    match status with Some s => has_status s p | None => true end) (zw_profiles w)));
  unseen ← findUnseenProfileIds (cu_id user) (page_rows g all);
  gets (λ w, (map (λ p, serializeMine p (mem (vf_id p) unseen) (zw_destinations w !! vf_id p))
                (page_rows g all),
              metaOf (pg_page g) (pg_limit g) (len all))).

Definition findOneMine (user : CurrentUser) (id : string)
    : prog VicW (MineView * option string * option Appeal) :=
  profile ← getMineOr404 user id;
  unseen ← findUnseenProfileIds (cu_id user) [profile];
  dest ← destination_by_profile id;
  latestAppeal ← gets (λ w, head (merge_sort
    (goes_before (λ a b, ap_createdAt b <=? ap_createdAt a))
    (rows (λ a, bool_decide (ap_profileId a = id)) (zw_appeals w))));
  mret (serializeMine profile (mem id unseen) dest,
        if has_status VP_CHANGES_REQUESTED profile then nt_text (vf_review profile) else None,
        latestAppeal).

Definition countMineUnreadUpdates (user : CurrentUser) : prog VicW Z :=
  profiles ← gets (λ w, take (Z.to_nat 1000) (rows (mine user) (zw_profiles w)));
  unseen ← findUnseenProfileIds (cu_id user) profiles;
  mret (len unseen).

(** The total, the counts by status, the unseen updates. *)
Definition getMineSummary (user : CurrentUser)
    : prog VicW (Z * list (VictimProfileStatus * Z) * Z) :=
  counts ← gets (λ w, map (λ s, (s, len (rows (λ p, mine user p && has_status s p)
                                       (zw_profiles w)))) all_profile_statuses);
  unseen ← countMineUnreadUpdates user;
  mret (foldr Z.add 0 (map snd counts), counts, unseen).

(** ** Edits *)

Definition refuse_mine (user : CurrentUser) (action : string) (p : Profile) (reason : string)
    (diff : list (string * json)) (e : exn) : prog VicW () :=
  emitProfileFailure user action p reason "DENIED" diff [] ;;
  Throw e.
Definition status_of_diff (p : Profile) : list (string * json) :=
  [("currentStatus", json_status (vf_status p))].

(** Lowering the child flag is not for creators. *)
Definition updateMine (user : CurrentUser) (id : string) (data : ProfileDto)
    : prog VicW MineView :=
  profile ← getMineOr404 user id;
  (if one_of (vf_status profile) CREATOR_EDITABLE_STATUSES then mret () else
   refuse_mine user "VICTIM_PROFILE_UPDATED" profile "victim_profile_not_editable"
     (status_of_diff profile) (BadRequest "victim_profile_not_editable")) ;;
  (if g_involvesChild (vf_gates profile) && bool_decide (pd_involvesChild data = Some false) then
     refuse_mine user "VICTIM_PROFILE_UPDATED" profile "child_flag_change_requires_admin" []
       (Forbidden "child_flag_change_requires_admin")
   else mret ()) ;;
  m ← checked_media_change cfg stat_of user profile (pd_media data);
  let '(added, removed, newTotalBytes) := m in
  updated ← conditionalUpdate id (vf_updatedAt profile)
    (λ _ p, reset_review data (edited data newTotalBytes p))
    user "VICTIM_PROFILE_UPDATED" profile;
  deleteMediaFiles removed ;;
  invalidateVictimProfileEverywhere keyPrefix id ;;
  auditSuccess user "VICTIM_PROFILE_UPDATED" updated (no_opts{{
    ao_diff := [("previousStatus", json_status (vf_status profile));
                ("newStatus", json_status (vf_status updated))];
    ao_metadata := [("actor", JStr "creator");
                    ("fieldsUpdated", JArr (JStr <$> fieldsUpdated data));
                    ("mediaAdded", JNum (len added)); ("mediaRemoved", JNum (len removed));
                    ("mediaTotalBytes", JNum newTotalBytes)] }}) ;;
  mret (serializeMine updated false None).

Definition withdrawMine (user : CurrentUser) (id : string) : prog VicW MineView :=
  profile ← getMineOr404 user id;
  (if vf_isPublished profile || negb (one_of (vf_status profile) CREATOR_WITHDRAWABLE_STATUSES)
   then refuse_mine user "VICTIM_PROFILE_WITHDRAWN" profile "victim_profile_not_withdrawable"
          (status_of_diff profile) (BadRequest "victim_profile_not_withdrawable")
   else mret ()) ;;
  updated ← conditionalUpdate id (vf_updatedAt profile)
    (λ _ p, p{{vf_status := VP_WITHDRAWN; vf_isPublished := false;
               vf_gates -> g_isAdminApproved := false; vf_claim := nobody}})
    user "VICTIM_PROFILE_WITHDRAWN" profile;
  invalidateVictimProfileEverywhere keyPrefix id ;;
  auditSuccess user "VICTIM_PROFILE_WITHDRAWN" updated (no_opts{{
    ao_diff := [("previousStatus", json_status (vf_status profile));
                ("newStatus", json_status VP_WITHDRAWN)];
    ao_metadata := [("releasedClaimOf", json_opt (by_id (vf_claim profile)))] }}) ;;
  mret (serializeMine updated false None).

(** An open appeal and a resubmission would race each other for the same decision. *)
Definition resubmitMine (user : CurrentUser) (id : string) : prog VicW MineView :=
  profile ← getMineOr404 user id;
  (if one_of (vf_status profile) CREATOR_RESUBMITTABLE_STATUSES then mret () else
   refuse_mine user "VICTIM_PROFILE_RESUBMITTED" profile "victim_profile_not_resubmittable"
     (status_of_diff profile) (BadRequest "victim_profile_not_resubmittable")) ;;
  openAppeal ← appeal_findFirst (λ a, bool_decide (ap_profileId a = id) && open_appeal a);
  throw_if (is_set openAppeal) (Conflict "appeal_open_resolve_before_resubmitting") ;;
  let status := deriveStatus (vf_gates profile) in
  updated ← conditionalUpdate id (vf_updatedAt profile)
    (λ _ p, p{{vf_status := status; vf_isPublished := false; vf_review := no_note}})
    user "VICTIM_PROFILE_RESUBMITTED" profile;
  modify (λ w, w{{zw_reads ::= filter (λ r, r.1 ≠ id)}}) ;;
  invalidateVictimProfileEverywhere keyPrefix id ;;
  auditSuccess user "VICTIM_PROFILE_RESUBMITTED" updated (no_opts{{
    ao_diff := [("previousStatus", json_status (vf_status profile));
                ("newStatus", json_status status)];
    ao_metadata := [("actor", JStr "creator")] }}) ;;
  notifyCreator "notification.victim_profile_resubmitted" profile
    [("status", json_status status); ("actorId", JStr (cu_id user))] ;;
  mret (serializeMine updated false None).

(** ** Media *)

Definition getMineMediaDownloadUrl (user : CurrentUser) (id key : string) : prog VicW string :=
  profile ← getMineOr404 user id;
  if negb (mem key (collectMediaFields (vf_media profile))) then
    emitProfileFailure user "VICTIM_PROFILE_MEDIA_DOWNLOADED" profile
      "media_not_found_on_profile" "DENIED" [] [("requestedKey", JStr key)] ;;
    Throw (NotFound "media_not_found_on_profile")
  else
  auditSuccess user "VICTIM_PROFILE_MEDIA_DOWNLOADED" profile
    (no_opts{{ao_metadata := [("key", JStr key); ("actor", JStr "creator")] }}) ;;
  mret (presigned key).

(** What removing a file writes; shared with the administrators' removal. *)
Definition without_file (field key : string) (size : Z) (profile : Profile) (p : Profile)
    : Profile :=
  p{{vf_media ::= with_media_field field
       (filter (λ k, k ≠ key) (media_field field (vf_media profile)));
     vf_mediaTotalBytes := Z.max 0 (vf_mediaTotalBytes profile - size)}}.
Definition file_size (key : string) : Z := from_option fst 0 (stat_of key).

Definition removeMineMedia (user : CurrentUser) (id key : string) : prog VicW () :=
  profile ← getMineOr404 user id;
  throw_if (negb (one_of (vf_status profile) CREATOR_EDITABLE_STATUSES))
    (BadRequest "victim_profile_not_editable") ;;
  field ← require (findMediaField (vf_media profile) key) (NotFound "media_not_found_on_profile");
  let size := file_size key in
  updated ← conditionalUpdate id (vf_updatedAt profile)
    (λ _, without_file field key size profile) user "VICTIM_PROFILE_MEDIA_REMOVED" profile;
  deleteMediaFiles [key] ;;
  invalidateVictimProfileEverywhere keyPrefix id ;;
  auditSuccess user "VICTIM_PROFILE_MEDIA_REMOVED" updated (no_opts{{
    ao_metadata := [("key", JStr key); ("field", JStr field); ("actor", JStr "creator");
                    ("bytesFreed", JNum size)] }}).

(** ** Timeline, money, updates *)

(** No actor and no internal reason. *)
Definition getMineTimeline (user : CurrentUser) (id : string) : prog VicW (list TimelineEntry) :=
  getMineOr404 user id ;;
  rows ← audit_findMany (λ a, bool_decide (ar_entity a = "VictimProfile") &&
    bool_decide (ar_entityId a = id) && ar_success a &&
    mem (ar_action a) CREATOR_TIMELINE_ACTIONS);
  mret (map (λ a, {|
    te_event := ar_action a; te_at := ar_createdAt a;
    te_byStaff := negb (bool_decide (ar_userId a = Some (cu_id user)));
    te_status := string_at "newStatus" (ar_diff a);
    te_message := string_at "creatorMessage" (ar_diff a) |}) (reverse rows)).

Definition getMineFunding (user : CurrentUser) (id : string) : prog VicW MineFunding :=
  profile ← getMineOr404 user id;
  totals ← getMoneyTotals id;
  supporterCount ← getDonorCount id;
  mret {| mf_supportGoal := (λ g, money (Some g)) <$> vf_supportGoal profile;
          mf_totalRaised := money (Some (mt_raised totals));
          mf_paidOut := money (Some (mt_sent totals));
          mf_onTheWay := money (Some (mt_onTheWay totals));
          mf_waiting := money (Some (mt_waiting totals));
          mf_awaitingPayout := money (Some (Z.max (mt_raised totals - mt_sent totals) 0));
          mf_supporterCount := supporterCount;
          mf_donationsPaused := ps_paused (vf_donations profile) |}.

(** Updates need a published or completed profile that is not taken down. *)
Definition takes_updates (p : Profile) : bool :=
  negb (is_set (mk_at (vf_takedown p))) && (has_status VP_PUBLISHED p || has_status VP_COMPLETED p).

Definition createMineUpdate (user : CurrentUser) (id : string) (title : option string)
    (body : string) : prog VicW ProfileUpdate :=
  profile ← getMineOr404 user id;
  throw_if (negb (takes_updates profile)) (BadRequest "updates_require_a_published_profile") ;;
  t ← now;
  recent ← gets (λ w, len (rows (λ u, bool_decide (pu_profileId u = id) && negb (pu_isStaff u) &&
                                      (t - 24 * 60 * 60 * 1000 <=? pu_createdAt u))
                             (zw_updates w)));
  throw_if (vc_maxUpdatesPerDay cfg <=? recent) (BadRequest "too_many_updates_today") ;;
  update ← update_create (λ uid t, {|
    pu_id := uid; pu_profileId := id; pu_authorId := Some (cu_id user); pu_isStaff := false;
    pu_title := title; pu_body := body; pu_createdAt := t |});
  auditSuccess user "VICTIM_PROFILE_UPDATE_POSTED" profile (no_opts{{ao_metadata :=
    [("updateId", JStr (pu_id update)); ("actor", JStr "creator")] }}) ;;
  emit (VicNotified "notification.victim_profile_update_posted"
    [("victimProfileId", JStr id); ("updateId", JStr (pu_id update));
     ("actorId", JStr (cu_id user))]) ;;
  mret update.

(** Raw SQL: a "seen" marker must not bump [updatedAt]. *)
Definition seen_row (P : Profile → bool) (t : Z) (p : Profile) : Profile :=
  if P p then p{{vf_creatorSeenAt := Some t}} else p.
Definition mark_seen (P : Profile → bool) : prog VicW Z :=
  act (λ w, (len (rows P (zw_profiles w)),
             w{{zw_profiles ::= fmap (seen_row P (clock (zw_ticks w)))}})).
Definition markMineSeen (user : CurrentUser) (id : string) : prog VicW () :=
  getMineOr404 user id ;;
  mark_seen (λ p, bool_decide (vf_id p = id) &&
                  bool_decide (vf_createdByUserId p = Some (cu_id user))) ;;
  mret ().
Definition markAllMineSeen (user : CurrentUser) : prog VicW Z := mark_seen (mine user).

(** The profiles the user donated to, with how often. *)
Definition supported_by (user : CurrentUser) (w : VicW) (p : Profile) : Z :=
  len (rows (λ q, is_paid_of (vf_id p) q && bool_decide (p_payer q = Some (cu_id user)))
        (zw_payments w)).
Definition findMySupported (user : CurrentUser) (page limit : option Z)
    : prog VicW (list (PublicProfile * Z) * Meta) :=
  let g := pageOf page limit in
  all ← gets (λ w, newest_first (rows (λ p, publicWhere p && (0 <? supported_by user w p))
                                   (zw_profiles w)));
  gets (λ w, (map (λ p, (serializePublicProfile p, supported_by user w p)) (page_rows g all),
              metaOf (pg_page g) (pg_limit g) (len all))).
End mine.
