(* ===== verification/VictimAdminOps.v ===== *)
(** * Victim profiles: administration

    Models [victim-profile-admin-ops.service.ts]: the trash, updates by staff, edits,
    deletion and restoration, media, legal holds and anonymisation. *)

From stdpp Require Import sorting.
From S2P Require Import Prelude Js Json Redis Cache Chapa Roles PayModel VictimModel VictimCommon.
From S2P Require Import VictimSubmission.
From coqutil Require Import Datatypes.RecordSetters.
Import DoubleBraceUpdate.

Open Scope Z_scope.

Record TrashRow := {
  tw_id : string;
  tw_label : option string;
  tw_status : VictimProfileStatus;
  tw_deletion : Mark;
  tw_legalHold : bool;
  tw_anonymizedAt : option Z;
  tw_createdAt : Z;
}.

Record Attachment := {
  at_key : string;
  at_field : string;
  at_contentType : option string;
  at_size : option Z;
  at_scanStatus : string;
  at_hash : option string;
}.

(** [AdminEditVictimProfileDto] *)
Record EditDto := {
  ed_name : option string;
  ed_description : option string;
  ed_story : option string;
  ed_reason : string;
}.

(** A field's change: its value before and after. *)
Definition change_of (next before : option string) : option (option string * string) :=
  match next with
  | Some n => if bool_decide (Some n = before) then None else Some (before, n)
  | None => None
  end.
Record Changes := {
  ch_name : option (option string * string);
  ch_description : option (option string * string);
  ch_story : option (option string * string);
}.
Definition changes_of (data : EditDto) (p : Profile) : Changes := {|
  ch_name := change_of (ed_name data) (vf_name p);
  ch_description := change_of (ed_description data) (vf_description p);
  ch_story := change_of (ed_story data) (vf_story p) |}.
Definition change_list (c : Changes) : list (string * (option string * string)) :=
  omap (λ '(k, x), x ≫= λ ft, Some (k, ft))
    [("name", ch_name c); ("description", ch_description c); ("story", ch_story c)].
Definition json_changes (c : Changes) : list (string * json) :=
  map (λ '(k, (from, to)), (k, JObj [("from", json_opt from); ("to", JStr to)])) (change_list c).

Section admin_ops.
Context `{VicLib} `{DecimalIO} (stat_of : string → option (Z * string)) (keyPrefix : string).

(** [orderBy: { deletedAt: 'desc' }] *)
Definition findTrash (page limit : option Z) : prog VicW (list TrashRow * Meta) :=
  let g := pageOf page limit in
  gets (λ w,
    let all := merge_sort (goes_before (λ p q,
                 default 0 (mk_at (vf_deletion q)) <=? default 0 (mk_at (vf_deletion p))))
                 (rows (λ p, is_set (mk_at (vf_deletion p))) (zw_profiles w)) in
    (map (λ p, {| tw_id := vf_id p; tw_label := profileLabel p; tw_status := vf_status p;
                  tw_deletion := vf_deletion p; tw_legalHold := vf_legalHold p;
                  tw_anonymizedAt := vf_anonymizedAt p; tw_createdAt := vf_createdAt p |})
       (page_rows g all),
     metaOf (pg_page g) (pg_limit g) (len all))).

Definition createAdminUpdate (admin : CurrentUser) (id : string) (title : option string)
    (body : string) : prog VicW ProfileUpdate :=
  profile ← getProfileOr404 id;
  throw_if (negb (takes_updates profile)) (BadRequest "updates_require_a_published_profile") ;;
  update ← update_create (λ uid t, {|
    pu_id := uid; pu_profileId := id; pu_authorId := Some (cu_id admin); pu_isStaff := true;
    pu_title := title; pu_body := body; pu_createdAt := t |});
  auditSuccess admin "VICTIM_PROFILE_UPDATE_POSTED" profile (no_opts{{ao_metadata :=
    [("updateId", JStr (pu_id update)); ("actor", JStr "staff")] }}) ;;
  emit (VicNotified "notification.victim_profile_update_posted"
    [("victimProfileId", JStr id); ("updateId", JStr (pu_id update));
     ("actorId", JStr (cu_id admin))]) ;;
  mret update.

Definition feature (admin : CurrentUser) (id : string) : prog VicW Profile :=
  profile ← getProfileOr404 id;
  throw_if (negb (has_status VP_PUBLISHED profile) || negb (vf_isPublished profile))
    (BadRequest "only_published_profiles_can_be_featured") ;;
  if vf_isFeatured profile then mret profile else
  updated ← conditionalUpdate id (vf_updatedAt profile)
    (λ t p, p{{vf_isFeatured := true; vf_featuredAt := Some t}})
    admin "VICTIM_PROFILE_FEATURED" profile;
  invalidateVictimProfileEverywhere keyPrefix id ;;
  auditSuccess admin "VICTIM_PROFILE_FEATURED" profile no_opts ;;
  mret updated.

Definition unfeature (admin : CurrentUser) (id : string) : prog VicW Profile :=
  profile ← getProfileOr404 id;
  if negb (vf_isFeatured profile) then mret profile else
  updated ← conditionalUpdate id (vf_updatedAt profile)
    (λ _ p, p{{vf_isFeatured := false; vf_featuredAt := None}})
    admin "VICTIM_PROFILE_UNFEATURED" profile;
  invalidateVictimProfileEverywhere keyPrefix id ;;
  auditSuccess admin "VICTIM_PROFILE_UNFEATURED" profile no_opts ;;
  mret updated.

(** Edited text has to be seen by privacy review again. The status is written
    afterwards, whatever happened to it in between. *)
Definition adminEdit (admin : CurrentUser) (id : string) (data : EditDto) : prog VicW Profile :=
  profile ← getProfileOr404 id;
  assertAdminCanAccessProfile admin profile "VICTIM_PROFILE_ADMIN_EDITED" ;;
  throw_if (vf_isPublished profile) (BadRequest "unpublish_before_editing") ;;
  let changes := changes_of data profile in
  throw_if (bool_decide (change_list changes = [])) (BadRequest "no_changes_to_apply") ;;
  let set_to (c : option (option string * string)) (old : option string) :=
    match c with Some ft => Some ft.2 | None => old end in
  updated ← conditionalUpdate id (vf_updatedAt profile)
    (λ _ p, p{{vf_name ::= set_to (ch_name changes);
               vf_description ::= set_to (ch_description changes);
               vf_story ::= set_to (ch_story changes);
               vf_gates -> g_isPrivacyReviewed := false;
               vf_gates -> g_isAdminApproved := false}})
    admin "VICTIM_PROFILE_ADMIN_EDITED" profile;
  revision_create (λ rid t, {|
    rv_id := rid; rv_profileId := id; rv_editedById := Some (cu_id admin);
    rv_reason := ed_reason data; rv_changes := json_changes changes; rv_createdAt := t |}) ;;
  let status := if one_of (vf_status updated) PIPELINE_STATUSES
    then deriveStatus ((vf_gates updated){{g_isPrivacyReviewed := false;
                                           g_isAdminApproved := false}})
    else vf_status updated in
  finalProfile ← (if bool_decide (status = vf_status updated) then mret updated
                  else profile_update id (λ _ p, p{{vf_status := status}}));
  invalidateVictimProfileEverywhere keyPrefix id ;;
  auditSuccess admin "VICTIM_PROFILE_ADMIN_EDITED" profile (no_opts{{
    ao_reason := Some (ed_reason data);
    ao_diff := [("previousStatus", json_status (vf_status profile));
                ("newStatus", json_status (vf_status finalProfile))];
    ao_metadata := [("fieldsChanged", JArr (JStr <$> (change_list changes).*1))] }}) ;;
  mret finalProfile.

(** What a soft deletion writes. *)
Definition soft_deleted (admin : CurrentUser) (reason : string) (profile : Profile) (t : Z)
    (p : Profile) : Profile :=
  p{{vf_deletion := {| mk_reason := Some reason; mk_at := Some t; mk_byId := Some (cu_id admin) |};
     vf_status := if has_status VP_PUBLISHED profile then VP_UNPUBLISHED else vf_status profile;
     vf_isPublished := false; vf_gates -> g_isAdminApproved := false; vf_isFeatured := false;
     vf_donations := {| ps_paused := true;
       ps_reason := if ps_paused (vf_donations profile) then ps_reason (vf_donations profile)
                    else Some "deleted";
       ps_at := Some (default t (ps_at (vf_donations profile))) |} }}.

Definition softDelete (admin : CurrentUser) (id reason : string) : prog VicW (option Z) :=
  profile ← getProfileOr404 id;
  throw_if (is_set (mk_at (vf_deletion profile))) (Conflict "victim_profile_already_deleted") ;;
  (if vf_legalHold profile then
     emitProfileFailure admin "VICTIM_PROFILE_SOFT_DELETED" profile
       "victim_profile_under_legal_hold" "DENIED" [] [] ;;
     Throw (Forbidden "victim_profile_under_legal_hold")
   else mret ()) ;;
  undelivered ← hasUndeliveredMoney id;
  (if undelivered : bool then
     emitProfileFailure admin "VICTIM_PROFILE_SOFT_DELETED" profile
       "victim_profile_has_unsettled_payments" "FAILURE" [] [] ;;
     Throw (Conflict "victim_profile_has_unsettled_payments")
   else mret ()) ;;
  updated ← conditionalUpdate id (vf_updatedAt profile) (soft_deleted admin reason profile)
    admin "VICTIM_PROFILE_SOFT_DELETED" profile;
  invalidateVictimProfileEverywhere keyPrefix id ;;
  auditSuccess admin "VICTIM_PROFILE_SOFT_DELETED" profile (no_opts{{
    ao_severity := Some "WARNING"; ao_reason := Some reason;
    ao_diff := [("previousStatus", json_status (vf_status profile));
                ("previousIsPublished", JBool (vf_isPublished profile))] }}) ;;
  mret (mk_at (vf_deletion updated)).

Definition restore (admin : CurrentUser) (id : string) : prog VicW Profile :=
  profile ← getProfileOr404 id;
  throw_if (negb (is_set (mk_at (vf_deletion profile)))) (BadRequest "victim_profile_not_deleted") ;;
  throw_if (is_set (vf_anonymizedAt profile))
    (BadRequest "anonymized_profiles_cannot_be_restored") ;;
  updated ← conditionalUpdate id (vf_updatedAt profile) (λ _ p, p{{vf_deletion := no_mark}})
    admin "VICTIM_PROFILE_RESTORED" profile;
  invalidateVictimProfileEverywhere keyPrefix id ;;
  auditSuccess admin "VICTIM_PROFILE_RESTORED" profile (no_opts{{ao_diff :=
    [("previousDeleteReason", json_opt (mk_reason (vf_deletion profile)))] }}) ;;
  mret updated.

Definition getRevisions (admin : CurrentUser) (id : string) : prog VicW (list Revision) :=
  profile ← getProfileOr404 id;
  logAdminView admin profile "revisions" ;;
  gets (λ w, merge_sort (goes_before (λ a b, rv_createdAt b <=? rv_createdAt a))
               (rows (λ r, bool_decide (rv_profileId r = id)) (zw_revisions w))).

(** [statObject] of minio.service.ts passes on the size and the content type alone, so
    that the scan status and the hash of the metadata are never there. *)
Definition getAttachments (admin : CurrentUser) (id : string) : prog VicW (list Attachment) :=
  profile ← getProfileOr404 id;
  logAdminView admin profile "attachments" ;;
  mret (MEDIA_FIELD_NAMES ≫= λ field, map (λ key,
    match stat_of key with
    | Some (size, contentType) =>
        {| at_key := key; at_field := field; at_contentType := Some contentType;
           at_size := Some size; at_scanStatus := "UNKNOWN"; at_hash := None |}
    | None =>
        {| at_key := key; at_field := field; at_contentType := None; at_size := None;
           at_scanStatus := "MISSING"; at_hash := None |}
    end) (media_field field (vf_media profile))).

Definition removeMedia (admin : CurrentUser) (id key : string) (reason : option string)
    : prog VicW () :=
  profile ← getProfileOr404 id;
  assertAdminCanAccessProfile admin profile "VICTIM_PROFILE_MEDIA_REMOVED" ;;
  field ← require (findMediaField (vf_media profile) key) (NotFound "media_not_found_on_profile");
  let size := file_size stat_of key in
  conditionalUpdate id (vf_updatedAt profile) (λ _, without_file field key size profile)
    admin "VICTIM_PROFILE_MEDIA_REMOVED" profile ;;
  deleteMediaFiles [key] ;;
  invalidateVictimProfileEverywhere keyPrefix id ;;
  auditSuccess admin "VICTIM_PROFILE_MEDIA_REMOVED" profile (no_opts{{
    ao_severity := Some "WARNING"; ao_reason := reason;
    ao_metadata := [("key", JStr key); ("field", JStr field); ("actor", JStr "staff");
                    ("bytesFreed", JNum size)] }}).

(** The request is recorded and handed to a worker. *)
Definition redactMedia (admin : CurrentUser) (id key mode : string) (notes : option string)
    : prog VicW () :=
  profile ← getProfileOr404 id;
  assertAdminCanAccessProfile admin profile "VICTIM_PROFILE_MEDIA_REDACTION_REQUESTED" ;;
  field ← require (findMediaField (vf_media profile) key) (NotFound "media_not_found_on_profile");
  throw_if (negb (mem field ["photo"; "video"]))
    (BadRequest "only_photo_and_video_can_be_redacted") ;;
  auditSuccess admin "VICTIM_PROFILE_MEDIA_REDACTION_REQUESTED" profile (no_opts{{
    ao_severity := Some "WARNING"; ao_reason := notes;
    ao_metadata := [("key", JStr key); ("field", JStr field); ("mode", JStr mode)] }}) ;;
  emit (VicNotified "victim-profile.media.redact"
    [("victimProfileId", JStr id); ("key", JStr key); ("mode", JStr mode);
     ("requestedBy", JStr (cu_id admin))]).

Definition getMediaCustody (admin : CurrentUser) (id key : string) : prog VicW (list AuditRow) :=
  profile ← getProfileOr404 id;
  logAdminView admin profile "media_custody" ;;
  rows ← audit_findMany (λ a, bool_decide (ar_entity a = "VictimProfile") &&
    bool_decide (ar_entityId a = id) &&
    mem (ar_action a) ["VICTIM_PROFILE_MEDIA_DOWNLOADED"; "VICTIM_PROFILE_MEDIA_REMOVED";
                       "VICTIM_PROFILE_MEDIA_REDACTION_REQUESTED"] &&
    match obj_get "key" (ar_metadata a) with
    | Some (JStr k) => bool_decide (k = key)
    | _ => false
    end);
  mret (take 500 rows).

Definition getAccessLog (id : string) (page limit : option Z) : prog VicW (list AuditRow * Meta) :=
  assertProfileExists id ;;
  let g := pageOf page limit in
  all ← audit_findMany (λ a, bool_decide (ar_entity a = "VictimProfile") &&
    bool_decide (ar_entityId a = id) &&
    mem (ar_action a) ["VICTIM_PROFILE_ADMIN_VIEWED"; "VICTIM_PROFILE_MEDIA_DOWNLOADED"]);
  mret (page_rows g all, metaOf (pg_page g) (pg_limit g) (len all)).

Definition setLegalHold (admin : CurrentUser) (id : string) (legalHold : bool) (reason : string)
    : prog VicW Profile :=
  profile ← getProfileOr404 id;
  throw_if (bool_decide (vf_legalHold profile = legalHold))
    (BadRequest (if legalHold then "legal_hold_already_set" else "legal_hold_not_set")) ;;
  updated ← conditionalUpdate id (vf_updatedAt profile)
    (λ t p, p{{vf_legalHold := legalHold;
               vf_hold := if legalHold then {| mk_reason := Some reason; mk_at := Some t;
                                               mk_byId := Some (cu_id admin) |} else no_mark}})
    admin "VICTIM_PROFILE_LEGAL_HOLD_CHANGED" profile;
  auditSuccess admin "VICTIM_PROFILE_LEGAL_HOLD_CHANGED" profile (no_opts{{
    ao_severity := Some "CRITICAL"; ao_reason := Some reason;
    ao_diff := [("previousLegalHold", JBool (vf_legalHold profile));
                ("newLegalHold", JBool legalHold)] }}) ;;
  mret updated.

(** What an anonymisation writes. *)
Definition anonymized (t : Z) (p : Profile) : Profile :=
  p{{vf_name := None; vf_description := None; vf_story := None; vf_media := no_media;
     vf_mediaTotalBytes := 0;
     vf_consent := {| cs_at := cs_at (vf_consent p); cs_recordedBy := None;
                      cs_consentedBy := None; cs_notes := None; cs_documents := [] |};
     vf_review -> nt_text := None; vf_createdByUserId := None; vf_isPublished := false;
     vf_gates -> g_isAdminApproved := false; vf_isFeatured := false;
     vf_anonymizedAt := Some t}}.

(** Irreversible; the checks and the transaction are apart. *)
Definition anonymize (admin : CurrentUser) (id reason : string) : prog VicW () :=
  profile ← getProfileOr404 id;
  throw_if (is_set (vf_anonymizedAt profile)) (Conflict "victim_profile_already_anonymized") ;;
  (if vf_legalHold profile then
     emitProfileFailure admin "VICTIM_PROFILE_ANONYMIZED" profile
       "victim_profile_under_legal_hold" "DENIED" [] [] ;;
     Throw (Forbidden "victim_profile_under_legal_hold")
   else mret ()) ;;
  throw_if (negb (one_of (vf_status profile) CLOSED_STATUSES) &&
            negb (is_set (mk_at (vf_deletion profile)))) (BadRequest "victim_profile_not_closed") ;;
  undelivered ← hasUndeliveredMoney id;
  throw_if undelivered (Conflict "victim_profile_has_unsettled_payments") ;;
  let mediaKeys := collectMediaFields (vf_media profile) ++ cs_documents (vf_consent profile) in
  transaction (
    profile_update id anonymized ;;
    modify (λ w, w{{zw_destinations ::= delete id;
                    zw_updates ::= filter (λ ku, pu_profileId ku.2 ≠ id);
                    zw_revisions ::= filter (λ kr, rv_profileId kr.2 ≠ id);
                    zw_follows ::= filter (λ r, r.1 ≠ id);
                    zw_views ::= filter (λ r, r.1 ≠ id)}})) ;;
  deleteMediaFiles mediaKeys ;;
  invalidateVictimProfileEverywhere keyPrefix id ;;
  auditSuccess admin "VICTIM_PROFILE_ANONYMIZED" (profile{{vf_name := None}}) (no_opts{{
    ao_severity := Some "CRITICAL"; ao_reason := Some reason;
    ao_diff := [("previousStatus", json_status (vf_status profile))];
    ao_metadata := [("mediaFilesDeleted", JNum (len mediaKeys))] }}).
End admin_ops.
