(* ===== verification/VictimSafety.v ===== *)
(** * Victim profiles: what no handler breaks

    Most handlers read a profile, decide, and write on the condition that it was not
    written in between: the row still carries the time of the write they saw. Where no
    two writes carry the same time, what they decided on is what they write to, and
    however the handlers interleave, a published profile has passed its review and
    nobody completes a child-safety review alone. *)

From S2P Require Import Prelude Interleave Js Redis Cache Chapa Roles PayModel.
From S2P Require Import VictimModel VictimCommon VictimReview VictimWorkflow.
From S2P Require Import VictimFunding VictimWorkflow VictimSubmission VictimAdminOps.
From coqutil Require Import Datatypes.RecordSetters.
Import DoubleBraceUpdate.

Open Scope Z_scope.

(** Every gate, the administrator's approval included; the bank details are not a
    column of the profile. *)
Definition all_gates (g : Gates) : bool :=
  g_isVerified g && g_isSafetyReviewed g && childSafetySatisfied g && g_hasConsent g &&
  g_isPrivacyReviewed g && g_isAdminApproved g.

Lemma gates_hold_all g bank : gates_hold g bank && g_isAdminApproved g = all_gates g && bank.
Proof. by destruct g as [[][][][][][][]], bank. Qed.
Lemma all_gates_approved g : all_gates g = true → g_isAdminApproved g = true.
Proof. by destruct g as [[][][][][][][]]. Qed.
Lemma all_gates_consent g : all_gates g = true → all_gates (g{{g_hasConsent := true}}) = true.
Proof. by destruct g as [[][][][][][][]]. Qed.
Lemma all_gates_child g :
  all_gates g = true → all_gates (g{{g_isChildSafetyReviewed := true}}) = true.
Proof. by destruct g as [[][][][][][][]]. Qed.
Lemma no_missing_gates g bank : getMissingApprovalGates g bank = [] ↔ gates_hold g bank = true.
Proof. by destruct g as [[][][][][][][]], bank. Qed.

Definition published_ok (p : Profile) : Prop :=
  vf_isPublished p = true → all_gates (vf_gates p) = true.

(** Not reviewed for child safety, and confirmed by nobody but [alone]. *)
Definition unconfirmed (alone : string) (p : Profile) : Prop :=
  g_isChildSafetyReviewed (vf_gates p) = false ∧
  (by_id (vf_first p) = None ∨ by_id (vf_first p) = Some alone).

Section safety.
Context `{VicLib} (Hclock : ∀ m n, (m < n)%nat → clock m < clock n).
(** [watched]: profiles whose child safety only [alone] reviews. *)
Context (watched : string → Prop) (alone : string).

Lemma clock_le m n : (m ≤ n)%nat → clock m ≤ clock n.
Proof. intros [Hlt|<-]%Nat.le_lteq; [by apply Z.lt_le_incl, Hclock|done]. Qed.

Definition row_ok (id : string) (p : Profile) : Prop :=
  published_ok p ∧ (watched id → unconfirmed alone p).

Record vic_inv (w : VicW) : Prop := {
  vi_time id p : zw_profiles w !! id = Some p → vf_updatedAt p < clock (zw_ticks w);
  vi_rows id p : zw_profiles w !! id = Some p → row_ok id p;
}.

(** One version of a row: what is written without a new version does not matter for
    the review. *)
Record same_version (p q : Profile) : Prop := {
  sv_updatedAt : vf_updatedAt q = vf_updatedAt p;
  sv_gates : vf_gates q = vf_gates p;
  sv_isPublished : vf_isPublished q = vf_isPublished p;
}.
#[export] Instance same_version_preorder : PreOrder same_version.
Proof. split; [by split|]. intros p q r [] []. split; congruence. Qed.

(** A row was there in this version, or was written since. *)
Record vic_rel (w w' : VicW) : Prop := {
  vr_ticks : (zw_ticks w ≤ zw_ticks w')%nat;
  vr_rows id p' : zw_profiles w' !! id = Some p' →
    (∃ p, zw_profiles w !! id = Some p ∧ same_version p p') ∨
    clock (zw_ticks w) ≤ vf_updatedAt p';
}.
#[export] Instance vic_rel_preorder : PreOrder vic_rel.
Proof.
  split.
  - intros w. split; [done|]. intros id p Hp. left. by exists p.
  - intros w1 w2 w3 [Ht1 H1] [Ht2 H2]. split; [by etrans|]. intros id p3 Hp3.
    pose proof (clock_le _ _ Ht1). destruct (H2 id p3 Hp3) as [(p2&Hp2&Hs)|?]; [|right; lia].
    destruct (H1 id p2 Hp2) as [(p1&Hp1&?)|?].
    + left. exists p1. split; [done|by etrans].
    + right. by rewrite (sv_updatedAt _ _ Hs).
Qed.

Abbreviation ok := (safe vic_inv vic_rel).

(** ** Single actions *)

(** What does not write profiles. *)
Lemma profiles_kept w w' :
  vic_inv w → zw_profiles w' = zw_profiles w → (zw_ticks w ≤ zw_ticks w')%nat →
  vic_inv w' ∧ vic_rel w w'.
Proof.
  intros [Ht Hr] E Hle. pose proof (clock_le _ _ Hle). split; split; rewrite ?E; try done.
  - intros id p Hp. specialize (Ht id p Hp). lia.
  - intros id p Hp. left. by exists p.
Qed.

#[export] Instance VicW_outside : OutsideGood vic_inv vic_rel.
Proof.
  split; [apply _|..].
  - intros [] r w HI; by apply profiles_kept.
  - intros cs w HI; by apply profiles_kept.
  - intros w HI; by apply profiles_kept.
  - intros w HI; by apply profiles_kept.
Qed.

Definition keeps {X} (f : VicW → X * VicW) : Prop :=
  ∀ w, zw_profiles (f w).2 = zw_profiles w ∧ (zw_ticks w ≤ zw_ticks (f w).2)%nat.
Lemma vic_ok_keeps {X} (f : VicW → X * VicW) : keeps f → ok (act f).
Proof. intros Hf. apply safe_act. intros w HI. destruct (Hf w). by apply profiles_kept. Qed.
Lemma vic_ok_keeps_outcome {X} (f : VicW → outcome X * VicW) : keeps f → ok (act_outcome f).
Proof. intros Hf. apply safe_act_outcome. intros w HI. destruct (Hf w). by apply profiles_kept. Qed.

Lemma vic_ok_randomUUID : ok randomUUID.
Proof. apply safe_bind; [|intros n; apply safe_mret]. apply vic_ok_keeps. by intros w. Qed.

(** A row is written at this time. *)
Lemma put_profile_steps w id p :
  vic_inv w → row_ok id p → vf_updatedAt p = clock (zw_ticks w) →
  vic_inv (put_profile id p w) ∧ vic_rel w (put_profile id p w).
Proof.
  intros [Ht Hr] Hok Hu. pose proof (Hclock (zw_ticks w) (S (zw_ticks w)) (Nat.lt_succ_diag_r _)).
  split; split; try (intros i q Hq; change (<[id := p]> (zw_profiles w) !! i = Some q) in Hq;
    apply lookup_insert_Some in Hq as [[<- <-]|[_ Hq]]).
  - change (vf_updatedAt p < clock (S (zw_ticks w))). lia.
  - specialize (Ht i q Hq). change (vf_updatedAt q < clock (S (zw_ticks w))). lia.
  - done.
  - by apply Hr.
  - apply Nat.le_succ_diag_r.
  - right. lia.
  - left. by exists q.
Qed.

Lemma row_ok_written id upd t p : row_ok id (upd t p) → row_ok id (written upd t p).
Proof. done. Qed.

Lemma vic_ok_profile_updateMany id P upd :
  (∀ t q, P q = true → row_ok id q → row_ok id (upd t q)) → ok (profile_updateMany id P upd).
Proof.
  intros Hu. apply safe_act. intros w HI. cbv beta.
  destruct (zw_profiles w !! id) as [q|] eqn:Hq; [|done].
  destruct (P q) eqn:HP; [|done]. apply put_profile_steps; [done| |done].
  apply row_ok_written, Hu; [done|]. by apply (vi_rows w HI).
Qed.
Lemma vic_ok_profile_update id upd :
  (∀ t q, row_ok id q → row_ok id (upd t q)) → ok (profile_update id upd).
Proof.
  intros Hu. apply safe_act_outcome. intros w HI. cbv beta.
  destruct (zw_profiles w !! id) as [q|] eqn:Hq; [|done].
  apply put_profile_steps; [done| |done]. apply row_ok_written, Hu. by apply (vi_rows w HI).
Qed.
Lemma vic_ok_profile_create mk :
  (∀ id t, row_ok id (mk id t) ∧ vf_updatedAt (mk id t) = t) → ok (profile_create mk).
Proof.
  intros Hm. apply safe_bind; [apply vic_ok_randomUUID|].
  intros id. apply safe_act_outcome. intros w HI. cbv beta zeta.
  destruct (bool_decide _); [done|]. destruct (bool_decide _); [done|].
  destruct (Hm id (clock (zw_ticks w))). by apply put_profile_steps.
Qed.
Lemma vic_ok_profile_deleteMany id P : ok (profile_deleteMany id P).
Proof.
  apply safe_act_outcome. intros w HI. cbv beta.
  destruct (zw_profiles w !! id) as [q|]; [|done]. destruct (negb (P q)); [done|].
  destruct (has_money_rows id w); [done|]. destruct HI as [Ht Hr].
  pose proof (Hclock (zw_ticks w) (S (zw_ticks w)) (Nat.lt_succ_diag_r _)).
  split; split; try (intros i p Hp; change (delete id (zw_profiles w) !! i = Some p) in Hp;
    apply lookup_delete_Some in Hp as [_ Hp]).
  - specialize (Ht i p Hp). change (vf_updatedAt p < clock (S (zw_ticks w))). lia.
  - by apply Hr.
  - apply Nat.le_succ_diag_r.
  - left. by exists p.
Qed.
Lemma vic_ok_mark_seen P : ok (mark_seen P).
Proof.
  apply safe_act. intros w [Ht Hr].
  set (f := seen_row P (clock (zw_ticks w))).
  assert (Hl : ∀ id p', (f <$> zw_profiles w) !! id = Some p' →
      ∃ p, zw_profiles w !! id = Some p ∧ same_version p p' ∧ (row_ok id p → row_ok id p')).
  { intros id p'. rewrite lookup_fmap. destruct (zw_profiles w !! id) as [p|]; [|done].
    intros [= <-]. exists p. split; [done|]. unfold f, seen_row. destruct (P p); by split. }
  split; split.
  - intros id p' Hp'. destruct (Hl id p' Hp') as (p&Hp&[-> _ _]&_). by apply (Ht id).
  - intros id p' Hp'. destruct (Hl id p' Hp') as (p&Hp&_&Hok). by apply Hok, Hr.
  - done.
  - intros id p' Hp'. left. destruct (Hl id p' Hp') as (p&Hp&?&_). by exists p.
Qed.

(** ** A row that was read *)

Record seen (id : string) (p : Profile) (w : VicW) : Prop := {
  sn_time : vf_updatedAt p < clock (zw_ticks w);
  sn_ok : row_ok id p;
  sn_row q : zw_profiles w !! id = Some q → vf_updatedAt q = vf_updatedAt p → same_version p q;
}.
Lemma seen_stable id p w w' : seen id p w → vic_rel w w' → seen id p w'.
Proof.
  intros [Ht Hok Hr] [Hle Hrows]. pose proof (clock_le _ _ Hle). split; [lia|done|].
  intros q Hq Hu. destruct (Hrows id q Hq) as [(q0&Hq0&Hs)|?]; [|lia].
  etrans; [|exact Hs]. apply Hr; [done|]. by rewrite <- (sv_updatedAt _ _ Hs).
Qed.

(** Safe once the row was read. *)
Definition okp {A} (id : string) (p : Profile) (m : prog VicW A) : Prop :=
  ∀ w, seen id p w → rg vic_inv vic_rel (λ _ _, True) (λ _ _, True) m w.

Lemma okp_safe {A} id p (m : prog VicW A) : ok m → okp id p m.
Proof. intros Hm w _. apply Hm. Qed.
Lemma okp_bind {A B} id p (m : prog VicW A) (f : A → prog VicW B) :
  okp id p m → (∀ a, okp id p (f a)) → okp id p (m ≫= f).
Proof.
  intros Hm Hf w Hw. eapply (rg_seq _ _ (seen id p)); [|done|by apply Hm|].
  - intros w1 w2 ???. by eapply seen_stable.
  - intros a w' _. apply Hf.
Qed.
(** Programs that throw. *)
Definition throws {A} (m : prog VicW A) : Prop :=
  ∀ w, rg vic_inv vic_rel (λ _ _, False) (λ _ _, True) m w.
Lemma throws_Throw {A} e : throws (@Throw VicW A e).
Proof. done. Qed.
Lemma throws_bind {A B} (m : prog VicW A) (f : A → prog VicW B) :
  ok m → (∀ a, throws (f a)) → throws (m ≫= f).
Proof.
  intros Hm Hf w. apply rg_bind. eapply rg_mono; [apply Hm| |done]. intros a w' _. apply Hf.
Qed.
Lemma okp_throws {A B} id p (m : prog VicW A) (f : A → prog VicW B) :
  throws m → okp id p (m ≫= f).
Proof. intros Hm w _. apply rg_bind. by eapply rg_mono; [apply Hm|..]. Qed.
Lemma okp_guard {B} id p (b : bool) (m : prog VicW ()) (f : () → prog VicW B) :
  throws m → (b = true → okp id p (f ())) → okp id p ((if b then mret () else m) ≫= f).
Proof. intros Hm Hf. destruct b; [by apply Hf|by apply okp_throws]. Qed.
Lemma okp_guard_not {B} id p (b : bool) (m : prog VicW ()) (f : () → prog VicW B) :
  throws m → (b = false → okp id p (f ())) → okp id p ((if b then m else mret ()) ≫= f).
Proof. intros Hm Hf. destruct b; [by apply okp_throws|by apply Hf]. Qed.
Lemma okp_throw_if {B} id p b e (f : () → prog VicW B) :
  (b = false → okp id p (f ())) → okp id p (throw_if b e ≫= f).
Proof. intros Hf. destruct b; [done|by apply Hf]. Qed.

Lemma emit_ok e : ok (emit e).
Proof. by apply vic_ok_keeps. Qed.
Lemma emitProfileFailure_ok a b c d e f g : ok (emitProfileFailure a b c d e f g).
Proof. apply emit_ok. Qed.
Lemma vic_ok_profile_by_id id : ok (profile_by_id id).
Proof. apply safe_gets, _. Qed.
Hint Resolve vic_rel_preorder emit_ok emitProfileFailure_ok vic_ok_profile_by_id : safe.
Lemma vic_ok_profile_by_id_or_throw id : ok (profile_by_id_or_throw id).
Proof. unfold profile_by_id_or_throw. safe_tac. Qed.
Hint Resolve vic_ok_profile_by_id_or_throw : safe.

(** The conditional update writes to the version that was read. *)
Lemma okp_conditionalUpdate id p upd admin action prof :
  (∀ t q, vf_gates q = vf_gates p → vf_isPublished q = vf_isPublished p →
     row_ok id p → row_ok id q → row_ok id (upd t q)) →
  okp id p (conditionalUpdate id (vf_updatedAt p) upd admin action prof).
Proof.
  intros Hu w Hw. apply rg_bind. eapply (rg_mono _ _ (λ _ _, True) _ (λ _ _, True)); [|intros n w' _|done].
  - intros w1 HR HI. apply (seen_stable _ _ _ w1) in Hw; [|done]. cbn.
    destruct (zw_profiles w1 !! id) as [q|] eqn:Hq; [|done].
    unfold at_version. case_bool_decide as Hv; [|done].
    destruct (sn_row id p w1 Hw q Hq Hv) as [_ Hg Hp].
    assert (Hok : row_ok id (upd (clock (zw_ticks w1)) q))
      by (apply Hu; [done|done|apply Hw|by apply (vi_rows w1 HI)]).
    destruct (put_profile_steps w1 id (written upd (clock (zw_ticks w1)) q) HI Hok eq_refl).
    by split_and!.
  - apply (safe_rg vic_inv vic_rel). safe_tac.
Qed.

Lemma vic_ok_load {A} id (f : Profile → prog VicW A) :
  (∀ p, okp id p (f p)) → ok (getProfileOr404 id ≫= f).
Proof.
  intros Hf w w1 HR HI. cbn. split_and!; [done..|].
  destruct (zw_profiles w1 !! id) as [p|] eqn:Hp; [|done].
  cbn. apply Hf. split; [by apply (vi_time w1 HI id)|by apply (vi_rows w1 HI)|].
  intros q Hq _. simplify_eq. done.
Qed.
Lemma vic_ok_load_mine {A} user id (f : Profile → prog VicW A) :
  (∀ p, okp id p (f p)) → ok (getMineOr404 user id ≫= f).
Proof.
  intros Hf w w1 HR HI. cbn. split_and!; [done..|].
  destruct (zw_profiles w1 !! id) as [p|] eqn:Hp; [|done]. destruct (mine user p); [|done].
  cbn. apply Hf. split; [by apply (vi_time w1 HI id)|by apply (vi_rows w1 HI)|].
  intros q Hq _. simplify_eq. done.
Qed.

(** ** The shared parts *)

Lemma vic_ok_now : ok now.
Proof. apply safe_gets, _. Qed.
Lemma vic_ok_auditSuccess a b c d : ok (auditSuccess a b c d).
Proof. apply emit_ok. Qed.
Lemma vic_ok_emitAudit a : ok (emitAudit a).
Proof. apply emit_ok. Qed.
Lemma vic_ok_notifyCreator a b c : ok (notifyCreator a b c).
Proof. apply emit_ok. Qed.
Lemma vic_ok_hasBankDetails id : ok (hasBankDetails id).
Proof. unfold hasBankDetails. safe_tac. Qed.
Lemma vic_ok_destination_by_profile id : ok (destination_by_profile id).
Proof. apply safe_gets, _. Qed.
Lemma vic_ok_audit_findFirst P : ok (audit_findFirst P).
Proof. apply safe_gets, _. Qed.
Lemma vic_ok_audit_findMany P : ok (audit_findMany P).
Proof. apply safe_gets, _. Qed.
Lemma vic_ok_appeal_findFirst P : ok (appeal_findFirst P).
Proof. apply safe_gets, _. Qed.
Lemma vic_ok_flag_by_id id : ok (flag_by_id id).
Proof. apply safe_gets, _. Qed.
Lemma vic_ok_appeal_by_id id : ok (appeal_by_id id).
Proof. apply safe_gets, _. Qed.
Lemma vic_ok_profile_findFirst P : ok (profile_findFirst P).
Proof. apply safe_gets, _. Qed.
Hint Resolve vic_ok_now vic_ok_auditSuccess vic_ok_emitAudit vic_ok_notifyCreator vic_ok_hasBankDetails
  vic_ok_destination_by_profile vic_ok_audit_findFirst vic_ok_audit_findMany vic_ok_appeal_findFirst
  vic_ok_flag_by_id vic_ok_appeal_by_id vic_ok_profile_findFirst vic_ok_randomUUID vic_ok_profile_deleteMany
  vic_ok_mark_seen : safe.

Lemma keeps_refl {X} (f : VicW → X) : keeps (λ w, (f w, w)).
Proof. by intros w. Qed.

(** Actions on the other tables. *)
Ltac keeps_tac :=
  intros ?w; cbn; repeat case_match; cbn; (split; [reflexivity|first [reflexivity|apply Nat.le_succ_diag_r]]).
Lemma vic_ok_flag_create mk : ok (flag_create mk).
Proof. unfold flag_create. safe_tac. apply vic_ok_keeps_outcome. keeps_tac. Qed.
Lemma vic_ok_flag_updateMany id P upd : ok (flag_updateMany id P upd).
Proof. apply vic_ok_keeps. keeps_tac. Qed.
Lemma vic_ok_appeal_create mk : ok (appeal_create mk).
Proof. unfold appeal_create. safe_tac. apply vic_ok_keeps_outcome. keeps_tac. Qed.
Lemma vic_ok_appeal_updateMany id P upd : ok (appeal_updateMany id P upd).
Proof. apply vic_ok_keeps. keeps_tac. Qed.
Lemma vic_ok_update_create mk : ok (update_create mk).
Proof. unfold update_create. safe_tac. apply vic_ok_keeps_outcome. keeps_tac. Qed.
Lemma vic_ok_revision_create mk : ok (revision_create mk).
Proof. unfold revision_create. safe_tac. apply vic_ok_keeps_outcome. keeps_tac. Qed.
Lemma vic_ok_destination_upsert id mk upd : ok (destination_upsert id mk upd).
Proof.
  unfold destination_upsert. apply safe_bind; [apply vic_ok_keeps; keeps_tac|intros n].
  apply vic_ok_keeps. keeps_tac.
Qed.
Lemma vic_ok_destination_updateMany id P upd : ok (destination_updateMany id P upd).
Proof. apply vic_ok_keeps. keeps_tac. Qed.
Lemma vic_ok_getBanks : ok getBanks.
Proof. apply vic_ok_keeps_outcome. keeps_tac. Qed.
Hint Extern 1 (ok (modify _)) => solve [apply vic_ok_keeps; keeps_tac] : safe.
Hint Resolve vic_ok_flag_create vic_ok_flag_updateMany vic_ok_appeal_create vic_ok_appeal_updateMany
  vic_ok_update_create vic_ok_revision_create vic_ok_destination_upsert vic_ok_destination_updateMany
  vic_ok_getBanks : safe.

Lemma vic_ok_assertAdminCanAccessProfile a p x : ok (assertAdminCanAccessProfile a p x).
Proof. unfold assertAdminCanAccessProfile. safe_tac. Qed.
Lemma vic_ok_deleteMediaFiles fps : ok (deleteMediaFiles fps).
Proof. unfold deleteMediaFiles. safe_tac. Qed.
Lemma vic_ok_invalidate keyPrefix id : ok (invalidateVictimProfileEverywhere keyPrefix id).
Proof. apply calm_safe. auto with calm typeclass_instances. Qed.
Lemma vic_ok_getProfileOr404 id : ok (getProfileOr404 id).
Proof. unfold getProfileOr404. safe_tac. Qed.
Lemma vic_ok_getMineOr404 user id : ok (getMineOr404 user id).
Proof. unfold getMineOr404. safe_tac. Qed.
Lemma vic_ok_assertProfileExists id : ok (assertProfileExists id).
Proof. unfold assertProfileExists. safe_tac. Qed.
Lemma vic_ok_getMoneyTotals id : ok (getMoneyTotals id).
Proof. unfold getMoneyTotals. safe_tac. Qed.
Lemma vic_ok_getDonorCount id : ok (getDonorCount id).
Proof. apply safe_gets, _. Qed.
Lemma vic_ok_logAdminView a b c : ok (logAdminView a b c).
Proof. apply emit_ok. Qed.
Lemma vic_ok_assertIsReviewer u : ok (assertIsReviewer u).
Proof. unfold assertIsReviewer. safe_tac. Qed.
Hint Resolve vic_ok_assertAdminCanAccessProfile vic_ok_deleteMediaFiles vic_ok_invalidate
  vic_ok_getProfileOr404 vic_ok_getMineOr404 vic_ok_assertProfileExists vic_ok_getMoneyTotals vic_ok_getDonorCount
  vic_ok_logAdminView vic_ok_assertIsReviewer : safe.
Lemma vic_ok_hasUndeliveredMoney id : ok (hasUndeliveredMoney id).
Proof. unfold hasUndeliveredMoney. safe_tac. Qed.
Hint Resolve vic_ok_hasUndeliveredMoney : safe.

(** ** Automation *)

Ltac throws_tac :=
  repeat first [ apply throws_Throw | apply throws_bind; [solve [safe_tac]|intros ?] ].
(** What is written keeps the row in order. *)
Ltac row_tac :=
  intros ?t ?q ?Hg ?Hp ?Hok [?Hpub ?Hal]; split;
  [ first [ exact Hpub | discriminate ]
  | first [ exact Hal
          | let Hw := fresh in intros Hw; destruct (Hal Hw); split; cbn; auto ] ].
Ltac okp_step :=
  first [ solve [apply okp_safe; auto 2 with safe nocore]
        | apply okp_guard; [solve [throws_tac]|intros ?]
        | apply okp_guard_not; [solve [throws_tac]|intros ?]
        | apply okp_throw_if; intros ?
        | apply okp_conditionalUpdate; try solve [row_tac]
        | apply okp_bind; [|intros ?]
        | match goal with |- okp _ _ _ => case_match end
        | solve [apply okp_safe; safe_tac] ].
Ltac okp_tac := repeat okp_step.
(** A handler that reads a profile first. *)
Ltac load_tac := first [apply vic_ok_load | apply vic_ok_load_mine]; intros ?p; okp_tac.

(** ** The handlers *)

Section handlers.
Context `{DecimalIO} (cfg : VicConfig) (stat_of : string → option (Z * string))
  (presigned : string → string) (keyPrefix : string).

Lemma vic_ok_unpublish a id : ok (unpublish keyPrefix a id).
Proof. unfold unpublish. load_tac. Qed.
Lemma vic_ok_reject a id : ok (reject keyPrefix a id).
Proof. unfold reject. load_tac. Qed.
Lemma vic_ok_resubmit a id : ok (resubmit keyPrefix a id).
Proof. unfold resubmit. load_tac. Qed.
Lemma vic_ok_pauseDonations a id r : ok (pauseDonations keyPrefix a id r).
Proof. unfold pauseDonations. load_tac. Qed.
Hint Resolve vic_ok_unpublish vic_ok_reject vic_ok_resubmit vic_ok_pauseDonations : safe.

(** *** Review *)
Lemma vic_ok_audit_claim a x t p d m : ok (audit_claim a x t p d m).
Proof. apply emit_ok. Qed.
Hint Resolve vic_ok_audit_claim : safe.
Lemma vic_ok_claim a id : ok (claim a id).
Proof.
  unfold claim. load_tac. apply okp_safe, vic_ok_profile_updateMany. intros t q _ [Hp Hal]. by split.
Qed.
Lemma vic_ok_unclaim a id : ok (unclaim a id).
Proof.
  unfold unclaim. load_tac. apply okp_safe, vic_ok_profile_updateMany. intros t q _ [Hp Hal]. by split.
Qed.
Lemma vic_ok_updateGates a id d : ok (updateGates keyPrefix a id d).
Proof. unfold updateGates. load_tac. Qed.
Lemma vic_ok_publish a id : ok (publish keyPrefix a id).
Proof.
  unfold publish. load_tac. intros t q Hg _ _ [_ Hal]. split; [|exact Hal]. intros _.
  change (all_gates (vf_gates q) = true). rewrite Hg.
  by apply (andb_prop _ a0); rewrite <- gates_hold_all.
Qed.
Lemma vic_ok_findStalePending : ok (findStalePending cfg).
Proof. unfold findStalePending. safe_tac. Qed.
Lemma vic_ok_getHistory id : ok (getHistory id).
Proof. unfold getHistory. safe_tac. Qed.
Lemma vic_ok_getGates id : ok (getGates id).
Proof. unfold getGates. safe_tac. Qed.
Lemma vic_ok_getTransitions a id : ok (getTransitions a id).
Proof. unfold getTransitions. safe_tac. Qed.

(** *** Child safety *)
Lemma vic_ok_updateChildSafetyReview a id b n :
  (watched id → cu_id a = alone) → ok (updateChildSafetyReview keyPrefix a id b n).
Proof.
  intros Ha. unfold updateChildSafetyReview, confirm_first, confirm_second, reverse_review. load_tac.
  - intros t q _ _ _ [Hpub Hal]. split; [exact Hpub|]. intros Hw. destruct (Hal Hw) as [Hr _].
    split; [exact Hr|]. right. cbn. by rewrite Ha.
  - intros t q _ _ [_ Hp] [Hpub _]. split; [intros Hx; by apply all_gates_child, Hpub|].
    intros Hw. destruct (Hp Hw) as [_ [Hf|Hf]]; [by rewrite Hf in *|]. case_bool_decide; [done|].
    rewrite Ha in * by done. congruence.
Qed.
Lemma vic_ok_revokeConsent a id r : ok (revokeConsent keyPrefix a id r).
Proof. unfold revokeConsent. load_tac. Qed.
Lemma vic_ok_getConsent a id : ok (getConsent presigned a id).
Proof. unfold getConsent. safe_tac. Qed.
Lemma vic_ok_recordConsent a id d : ok (recordConsent cfg stat_of keyPrefix a id d).
Proof.
  unfold recordConsent. load_tac. intros t q _ _ _ [Hpub Hal].
  split; [intros Hx; by apply all_gates_consent, Hpub|exact Hal].
Qed.
Lemma vic_ok_updateChildFlag a id b r : ok (updateChildFlag keyPrefix a id b r).
Proof. unfold updateChildFlag. load_tac. Qed.

(** *** Workflow *)
Lemma vic_ok_assignReviewer a id r : ok (assignReviewer a id r).
Proof. unfold assignReviewer. load_tac. Qed.
Lemma vic_ok_unassignReviewer a id : ok (unassignReviewer a id).
Proof. unfold unassignReviewer. load_tac. Qed.
Lemma vic_ok_requestChanges a id m : ok (requestChanges keyPrefix a id m).
Proof. unfold requestChanges. load_tac. Qed.
Lemma vic_ok_takedown a id r : ok (takedown keyPrefix a id r).
Proof. unfold takedown. load_tac. Qed.
Lemma vic_ok_liftTakedown a id r : ok (liftTakedown keyPrefix a id r).
Proof. unfold liftTakedown. load_tac. Qed.
Lemma vic_ok_complete a id n : ok (complete keyPrefix a id n).
Proof. unfold complete. load_tac. Qed.
Lemma vic_ok_reopen a id r : ok (reopen keyPrefix a id r).
Proof.
  unfold reopen. load_tac. intros t q Hg _ _ [_ Hal]. split; [|exact Hal]. intros Hx.
  change (all_gates (vf_gates q) = true). rewrite Hg.
  apply andb_prop in Hx as [Hm%bool_decide_eq_true Ha]. apply no_missing_gates in Hm.
  apply (andb_prop _ a0). by rewrite <- gates_hold_all, Hm.
Qed.
Hint Resolve vic_ok_assignReviewer vic_ok_requestChanges : safe.

Lemma vic_ok_runBulk a act ids r fn : (∀ id, ok (fn id)) → ok (runBulk a act ids r fn).
Proof.
  intros Hf. unfold runBulk. apply safe_bind; [|intros ?; safe_tac].
  generalize (@nil string) at 1, (@nil (string * string)).
  induction (unique ids) as [|id ids' IH]; intros s f; cbn [bulk_loop]; [safe_tac|].
  apply safe_bind; [by apply safe_attempt|]. intros []; apply IH.
Qed.
Lemma vic_ok_bulkAssign a ids r : ok (bulkAssign a ids r).
Proof.
  unfold bulkAssign. apply safe_bind; [safe_tac|intros _]. apply vic_ok_runBulk. intros; safe_tac.
Qed.
Lemma vic_ok_bulkRequestChanges a ids m : ok (bulkRequestChanges keyPrefix a ids m).
Proof. apply vic_ok_runBulk. intros; safe_tac. Qed.
Lemma vic_ok_bulkReject a ids r : ok (bulkReject keyPrefix a ids r).
Proof.
  apply vic_ok_runBulk. intros id. safe_tac. apply vic_ok_profile_update. by intros t q [Hp Hal].
Qed.
Lemma vic_ok_bulkUnpublish a ids r : ok (bulkUnpublish keyPrefix a ids r).
Proof. apply vic_ok_runBulk. intros; safe_tac. Qed.

(** *** Money *)
Lemma vic_ok_findBankDetails id : ok (findBankDetails id).
Proof. unfold findBankDetails. safe_tac. Qed.
Lemma vic_ok_getSupportsSummary id : ok (getSupportsSummary id).
Proof. unfold getSupportsSummary. safe_tac. Qed.
Lemma vic_ok_updateBankDetails a id d : ok (updateBankDetails keyPrefix a id d).
Proof.
  unfold updateBankDetails, refuse_bank_details. load_tac.
  intros t q Hg Hp _ [Hpub Hal]. split; [|exact Hal]. intros Hx. exfalso.
  change ((if g_isAdminApproved (vf_gates p) then false else vf_isPublished p) = true) in Hx.
  rewrite <- Hg, <- Hp in Hx. destruct (g_isAdminApproved (vf_gates q)) eqn:Ha; [done|].
  apply Hpub, all_gates_approved in Hx. congruence.
Qed.
Lemma vic_ok_reconcileProfileTotal a id b : ok (reconcileProfileTotal keyPrefix a id b).
Proof. unfold reconcileProfileTotal. load_tac. Qed.
Hint Resolve vic_ok_reconcileProfileTotal : safe.
Lemma vic_ok_reconcileAllTotals a b : ok (reconcileAllTotals keyPrefix a b).
Proof.
  unfold reconcileAllTotals. apply safe_bind; [safe_tac|intros ids].
  apply safe_bind; [|intros ?; safe_tac]. induction ids; cbn [map_each]; safe_tac.
Qed.
Lemma vic_ok_resumeDonations a id : ok (resumeDonations keyPrefix a id).
Proof. unfold resumeDonations. load_tac. Qed.
Lemma vic_ok_updateGoal a id g r : ok (updateGoal keyPrefix a id g r).
Proof. unfold updateGoal. load_tac. Qed.
Lemma vic_ok_getBankDetailsHistory a id : ok (getBankDetailsHistory a id).
Proof. unfold getBankDetailsHistory. safe_tac. Qed.
Lemma vic_ok_verifyBankDetails a id n : ok (verifyBankDetails a id n).
Proof. unfold verifyBankDetails. safe_tac. Qed.
Lemma vic_ok_getFundingTimeline a id x y : ok (getFundingTimeline a id x y).
Proof. unfold getFundingTimeline. safe_tac. Qed.

(** *** Flags and appeals *)
Lemma vic_ok_createAppeal u id m : ok (createAppeal cfg u id m).
Proof. unfold createAppeal. safe_tac. Qed.
Lemma vic_ok_flagProfile u id r d : ok (flagProfile u id r d).
Proof. unfold flagProfile, assertPublishedProfile. safe_tac. Qed.
Lemma vic_ok_findFlagsForProfile a id x y : ok (findFlagsForProfile a id x y).
Proof. unfold findFlagsForProfile. safe_tac. Qed.
Lemma vic_ok_resolveFlag a id x r : ok (resolveFlag keyPrefix a id x r).
Proof. unfold resolveFlag. safe_tac. Qed.
Lemma vic_ok_decideAppeal a id d r : ok (decideAppeal keyPrefix a id d r).
Proof. unfold decideAppeal. safe_tac. Qed.

(** *** Submission *)
Lemma vic_ok_getMediaDownloadUrl a id k : ok (getMediaDownloadUrl presigned a id k).
Proof. unfold getMediaDownloadUrl. safe_tac. Qed.
Lemma vic_ok_new_profile u d m n k : ok (profile_create (new_profile u d m n k)).
Proof.
  apply vic_ok_profile_create. intros id t. split; [|done]. split; [by intros|]. split; [done|by left].
Qed.
Hint Resolve vic_ok_new_profile : safe.
Lemma vic_ok_create u d k : ok (VictimSubmission.create cfg stat_of u d k).
Proof. unfold VictimSubmission.create, by_key. safe_tac. Qed.
Lemma vic_ok_findOne id : ok (VictimSubmission.findOne id).
Proof. unfold VictimSubmission.findOne. safe_tac. Qed.
Lemma vic_ok_checked_media_change u p d : ok (checked_media_change cfg stat_of u p d).
Proof. unfold checked_media_change. safe_tac. Qed.
Hint Resolve vic_ok_checked_media_change : safe.
Lemma vic_ok_update a id d : ok (VictimSubmission.update cfg stat_of keyPrefix a id d).
Proof. unfold VictimSubmission.update. load_tac. Qed.
Lemma vic_ok_remove a id : ok (VictimSubmission.remove keyPrefix a id).
Proof. unfold VictimSubmission.remove. load_tac. Qed.

(** *** Creators *)
Lemma vic_ok_findUnseenProfileIds c ps : ok (findUnseenProfileIds c ps).
Proof.
  unfold findUnseenProfileIds. induction (chunk ps 500); cbn [unseen_in]; safe_tac.
Qed.
Hint Resolve vic_ok_findUnseenProfileIds : safe.
Lemma vic_ok_findMine u x y s : ok (findMine u x y s).
Proof. unfold findMine. safe_tac. Qed.
Lemma vic_ok_findOneMine u id : ok (findOneMine u id).
Proof. unfold findOneMine. safe_tac. Qed.
Lemma vic_ok_countMineUnreadUpdates u : ok (countMineUnreadUpdates u).
Proof. unfold countMineUnreadUpdates. safe_tac. Qed.
Hint Resolve vic_ok_countMineUnreadUpdates : safe.
Lemma vic_ok_getMineSummary u : ok (getMineSummary u).
Proof. unfold getMineSummary. safe_tac. Qed.
Lemma vic_ok_updateMine u id d : ok (updateMine cfg stat_of keyPrefix u id d).
Proof. unfold updateMine, refuse_mine. load_tac. Qed.
Lemma vic_ok_withdrawMine u id : ok (withdrawMine keyPrefix u id).
Proof. unfold withdrawMine, refuse_mine. load_tac. Qed.
Lemma vic_ok_resubmitMine u id : ok (resubmitMine keyPrefix u id).
Proof. unfold resubmitMine, refuse_mine. load_tac. Qed.
Lemma vic_ok_getMineMediaDownloadUrl u id k : ok (getMineMediaDownloadUrl presigned u id k).
Proof. unfold getMineMediaDownloadUrl. safe_tac. Qed.
Lemma vic_ok_removeMineMedia u id k : ok (removeMineMedia stat_of keyPrefix u id k).
Proof. unfold removeMineMedia. load_tac. Qed.
Lemma vic_ok_getMineTimeline u id : ok (getMineTimeline u id).
Proof. unfold getMineTimeline. safe_tac. Qed.
Lemma vic_ok_getMineFunding u id : ok (getMineFunding u id).
Proof. unfold getMineFunding. safe_tac. Qed.
Lemma vic_ok_createMineUpdate u id t b : ok (createMineUpdate cfg u id t b).
Proof. unfold createMineUpdate. safe_tac. Qed.
Lemma vic_ok_markMineSeen u id : ok (markMineSeen u id).
Proof. unfold markMineSeen. safe_tac. Qed.
Lemma vic_ok_markAllMineSeen u : ok (markAllMineSeen u).
Proof. apply vic_ok_mark_seen. Qed.
Lemma vic_ok_findMySupported u x y : ok (findMySupported u x y).
Proof. unfold findMySupported. safe_tac. Qed.

(** *** Administration *)
Lemma vic_ok_createAdminUpdate a id t b : ok (createAdminUpdate a id t b).
Proof. unfold createAdminUpdate. safe_tac. Qed.
Lemma vic_ok_feature a id : ok (feature keyPrefix a id).
Proof. unfold feature. load_tac. Qed.
Lemma vic_ok_unfeature a id : ok (unfeature keyPrefix a id).
Proof. unfold unfeature. load_tac. Qed.
Lemma vic_ok_adminEdit a id d : ok (adminEdit keyPrefix a id d).
Proof.
  unfold adminEdit. load_tac.
  2,3: apply okp_safe, vic_ok_profile_update; intros t q [Hpub Hal]; by split.
  intros t q _ Hp _ [_ Hal]. split; [|exact Hal]. intros Hx.
  change (vf_isPublished q = true) in Hx. congruence.
Qed.
Lemma vic_ok_softDelete a id r : ok (softDelete keyPrefix a id r).
Proof. unfold softDelete. load_tac. Qed.
Lemma vic_ok_restore a id : ok (restore keyPrefix a id).
Proof. unfold restore. load_tac. Qed.
Lemma vic_ok_getRevisions a id : ok (getRevisions a id).
Proof. unfold getRevisions. safe_tac. Qed.
Lemma vic_ok_getAttachments a id : ok (getAttachments stat_of a id).
Proof. unfold getAttachments. safe_tac. Qed.
Lemma vic_ok_removeMedia a id k r : ok (removeMedia stat_of keyPrefix a id k r).
Proof. unfold removeMedia. load_tac. Qed.
Lemma vic_ok_redactMedia a id k m n : ok (redactMedia a id k m n).
Proof. unfold redactMedia. safe_tac. Qed.
Lemma vic_ok_getMediaCustody a id k : ok (getMediaCustody a id k).
Proof. unfold getMediaCustody. safe_tac. Qed.
Lemma vic_ok_getAccessLog id x y : ok (getAccessLog id x y).
Proof. unfold getAccessLog. safe_tac. Qed.
Lemma vic_ok_setLegalHold a id b r : ok (setLegalHold a id b r).
Proof. unfold setLegalHold. load_tac. Qed.
Lemma vic_ok_anonymize a id r : ok (anonymize keyPrefix a id r).
Proof.
  unfold anonymize. load_tac. apply okp_safe, safe_transaction; [apply _|]. safe_tac.
  apply vic_ok_profile_update. intros t q [_ Hal]. by split.
Qed.
End handlers.
End safety.

Create HintDb vic_handlers.
#[export] Hint Resolve vic_ok_unpublish vic_ok_reject vic_ok_resubmit vic_ok_pauseDonations vic_ok_claim
  vic_ok_unclaim vic_ok_updateGates vic_ok_publish vic_ok_findStalePending vic_ok_getHistory
  vic_ok_getGates vic_ok_getTransitions vic_ok_updateChildSafetyReview vic_ok_revokeConsent
  vic_ok_getConsent vic_ok_recordConsent vic_ok_updateChildFlag vic_ok_assignReviewer
  vic_ok_unassignReviewer vic_ok_requestChanges vic_ok_takedown vic_ok_liftTakedown
  vic_ok_complete vic_ok_reopen vic_ok_bulkAssign vic_ok_bulkRequestChanges vic_ok_bulkReject
  vic_ok_bulkUnpublish vic_ok_findBankDetails vic_ok_getSupportsSummary vic_ok_updateBankDetails
  vic_ok_reconcileProfileTotal vic_ok_reconcileAllTotals vic_ok_resumeDonations
  vic_ok_updateGoal vic_ok_getBankDetailsHistory vic_ok_verifyBankDetails
  vic_ok_getFundingTimeline vic_ok_createAppeal vic_ok_flagProfile vic_ok_findFlagsForProfile
  vic_ok_resolveFlag vic_ok_decideAppeal vic_ok_getMediaDownloadUrl vic_ok_create vic_ok_findOne
  vic_ok_update vic_ok_remove vic_ok_findMine vic_ok_findOneMine vic_ok_countMineUnreadUpdates
  vic_ok_getMineSummary vic_ok_updateMine vic_ok_withdrawMine vic_ok_resubmitMine
  vic_ok_getMineMediaDownloadUrl vic_ok_removeMineMedia vic_ok_getMineTimeline
  vic_ok_getMineFunding vic_ok_createMineUpdate vic_ok_markMineSeen vic_ok_markAllMineSeen
  vic_ok_findMySupported vic_ok_createAdminUpdate vic_ok_feature vic_ok_unfeature
  vic_ok_adminEdit vic_ok_softDelete vic_ok_restore vic_ok_getRevisions vic_ok_getAttachments
  vic_ok_removeMedia vic_ok_redactMedia vic_ok_getMediaCustody vic_ok_getAccessLog
  vic_ok_setLegalHold vic_ok_anonymize : vic_handlers.
