(* ===== verification/VictimProps.v ===== *)
(** * Victim profiles: what holds however the requests interleave *)

From S2P Require Import Prelude Interleave Js Redis Cache Chapa Roles PayModel.
From S2P Require Import VictimModel VictimCommon VictimReview VictimWorkflow.
From S2P Require Import VictimFunding VictimWorkflow VictimSubmission VictimAdminOps.
From S2P Require Import VictimSafety.

Open Scope Z_scope.

Definition no_answer {A} (p : prog VicW A) : prog VicW () := p ;; mret ().

Section handlers.
Context `{VicLib} `{DecimalIO} (cfg : VicConfig) (stat_of : string → option (Z * string))
  (presigned : string → string) (keyPrefix : string).

(** The handlers of the victim profile services. [reviews a id]: who reviews the child
    safety of which profile. *)
Inductive vic_handler (reviews : CurrentUser → string → Prop) : prog VicW () → Prop :=
(* review *)
| v_claim a id : vic_handler reviews (no_answer (claim a id))
| v_unclaim a id : vic_handler reviews (no_answer (unclaim a id))
| v_updateGates a id d : vic_handler reviews (no_answer (updateGates keyPrefix a id d))
| v_publish a id : vic_handler reviews (no_answer (publish keyPrefix a id))
| v_unpublish a id : vic_handler reviews (no_answer (unpublish keyPrefix a id))
| v_reject a id : vic_handler reviews (no_answer (reject keyPrefix a id))
| v_resubmit a id : vic_handler reviews (no_answer (resubmit keyPrefix a id))
| v_findStalePending : vic_handler reviews (no_answer (findStalePending cfg))
| v_getHistory id : vic_handler reviews (no_answer (getHistory id))
| v_getGates id : vic_handler reviews (no_answer (getGates id))
| v_getTransitions a id : vic_handler reviews (no_answer (getTransitions a id))
(* child safety and consent *)
| v_updateChildSafetyReview a id b n :
    reviews a id →
    vic_handler reviews (no_answer (updateChildSafetyReview keyPrefix a id b n))
| v_revokeConsent a id r : vic_handler reviews (no_answer (revokeConsent keyPrefix a id r))
| v_getConsent a id : vic_handler reviews (no_answer (getConsent presigned a id))
| v_recordConsent a id d :
    vic_handler reviews (no_answer (recordConsent cfg stat_of keyPrefix a id d))
| v_updateChildFlag a id b r :
    vic_handler reviews (no_answer (updateChildFlag keyPrefix a id b r))
(* workflow *)
| v_assignReviewer a id r : vic_handler reviews (no_answer (assignReviewer a id r))
| v_unassignReviewer a id : vic_handler reviews (no_answer (unassignReviewer a id))
| v_requestChanges a id m : vic_handler reviews (no_answer (requestChanges keyPrefix a id m))
| v_takedown a id r : vic_handler reviews (no_answer (takedown keyPrefix a id r))
| v_liftTakedown a id r : vic_handler reviews (no_answer (liftTakedown keyPrefix a id r))
| v_complete a id n : vic_handler reviews (no_answer (complete keyPrefix a id n))
| v_reopen a id r : vic_handler reviews (no_answer (reopen keyPrefix a id r))
| v_bulkAssign a ids r : vic_handler reviews (no_answer (bulkAssign a ids r))
| v_bulkRequestChanges a ids m :
    vic_handler reviews (no_answer (bulkRequestChanges keyPrefix a ids m))
| v_bulkReject a ids r : vic_handler reviews (no_answer (bulkReject keyPrefix a ids r))
| v_bulkUnpublish a ids r : vic_handler reviews (no_answer (bulkUnpublish keyPrefix a ids r))
(* money *)
| v_findBankDetails id : vic_handler reviews (no_answer (findBankDetails id))
| v_getSupportsSummary id : vic_handler reviews (no_answer (getSupportsSummary id))
| v_updateBankDetails a id d :
    vic_handler reviews (no_answer (updateBankDetails keyPrefix a id d))
| v_reconcileProfileTotal a id b :
    vic_handler reviews (no_answer (reconcileProfileTotal keyPrefix a id b))
| v_reconcileAllTotals a b : vic_handler reviews (no_answer (reconcileAllTotals keyPrefix a b))
| v_pauseDonations a id r : vic_handler reviews (no_answer (pauseDonations keyPrefix a id r))
| v_resumeDonations a id : vic_handler reviews (no_answer (resumeDonations keyPrefix a id))
| v_updateGoal a id g r : vic_handler reviews (no_answer (updateGoal keyPrefix a id g r))
| v_getBankDetailsHistory a id : vic_handler reviews (no_answer (getBankDetailsHistory a id))
| v_verifyBankDetails a id n : vic_handler reviews (no_answer (verifyBankDetails a id n))
| v_getFundingTimeline a id x y : vic_handler reviews (no_answer (getFundingTimeline a id x y))
(* flags and appeals *)
| v_createAppeal u id m : vic_handler reviews (no_answer (createAppeal cfg u id m))
| v_flagProfile u id r d : vic_handler reviews (no_answer (flagProfile u id r d))
| v_findFlagsForProfile a id x y : vic_handler reviews (no_answer (findFlagsForProfile a id x y))
| v_resolveFlag a id x r : vic_handler reviews (no_answer (resolveFlag keyPrefix a id x r))
| v_decideAppeal a id d r : vic_handler reviews (no_answer (decideAppeal keyPrefix a id d r))
(* submission *)
| v_getMediaDownloadUrl a id k :
    vic_handler reviews (no_answer (getMediaDownloadUrl presigned a id k))
| v_create u d k : vic_handler reviews (no_answer (VictimSubmission.create cfg stat_of u d k))
| v_findOne id : vic_handler reviews (no_answer (VictimSubmission.findOne id))
| v_update a id d :
    vic_handler reviews (no_answer (VictimSubmission.update cfg stat_of keyPrefix a id d))
| v_remove a id : vic_handler reviews (no_answer (VictimSubmission.remove keyPrefix a id))
(* creators *)
| v_findMine u x y s : vic_handler reviews (no_answer (findMine u x y s))
| v_findOneMine u id : vic_handler reviews (no_answer (findOneMine u id))
| v_getMineSummary u : vic_handler reviews (no_answer (getMineSummary u))
| v_countMineUnreadUpdates u : vic_handler reviews (no_answer (countMineUnreadUpdates u))
| v_updateMine u id d :
    vic_handler reviews (no_answer (updateMine cfg stat_of keyPrefix u id d))
| v_withdrawMine u id : vic_handler reviews (no_answer (withdrawMine keyPrefix u id))
| v_resubmitMine u id : vic_handler reviews (no_answer (resubmitMine keyPrefix u id))
| v_getMineMediaDownloadUrl u id k :
    vic_handler reviews (no_answer (getMineMediaDownloadUrl presigned u id k))
| v_removeMineMedia u id k :
    vic_handler reviews (no_answer (removeMineMedia stat_of keyPrefix u id k))
| v_getMineTimeline u id : vic_handler reviews (no_answer (getMineTimeline u id))
| v_getMineFunding u id : vic_handler reviews (no_answer (getMineFunding u id))
| v_createMineUpdate u id t b : vic_handler reviews (no_answer (createMineUpdate cfg u id t b))
| v_markMineSeen u id : vic_handler reviews (no_answer (markMineSeen u id))
| v_markAllMineSeen u : vic_handler reviews (no_answer (markAllMineSeen u))
| v_findMySupported u x y : vic_handler reviews (no_answer (findMySupported u x y))
(* administration *)
| v_createAdminUpdate a id t b : vic_handler reviews (no_answer (createAdminUpdate a id t b))
| v_feature a id : vic_handler reviews (no_answer (feature keyPrefix a id))
| v_unfeature a id : vic_handler reviews (no_answer (unfeature keyPrefix a id))
| v_adminEdit a id d : vic_handler reviews (no_answer (adminEdit keyPrefix a id d))
| v_softDelete a id r : vic_handler reviews (no_answer (softDelete keyPrefix a id r))
| v_restore a id : vic_handler reviews (no_answer (restore keyPrefix a id))
| v_getRevisions a id : vic_handler reviews (no_answer (getRevisions a id))
| v_getAttachments a id : vic_handler reviews (no_answer (getAttachments stat_of a id))
| v_removeMedia a id k r : vic_handler reviews (no_answer (removeMedia stat_of keyPrefix a id k r))
| v_redactMedia a id k m n : vic_handler reviews (no_answer (redactMedia a id k m n))
| v_getMediaCustody a id k : vic_handler reviews (no_answer (getMediaCustody a id k))
| v_getAccessLog id x y : vic_handler reviews (no_answer (getAccessLog id x y))
| v_setLegalHold a id b r : vic_handler reviews (no_answer (setLegalHold a id b r))
| v_anonymize a id r : vic_handler reviews (no_answer (anonymize keyPrefix a id r)).

(** The rest of the application: everything but the profiles changes at will and time
    passes; profiles are written (the totals of payments, the pause of payouts) with a
    new version and without the columns of the review; users are deleted. *)
Record row_env (w w' : VicW) (p p' : Profile) : Prop := {
  re_gates : vf_gates p' = vf_gates p;
  re_isPublished : vf_isPublished p' = vf_isPublished p;
  re_first : vf_first p' = vf_first p ∨ by_id (vf_first p') = None;
  re_updatedAt : vf_updatedAt p' = vf_updatedAt p ∨
    clock (zw_ticks w) ≤ vf_updatedAt p' < clock (zw_ticks w');
}.
Record vic_env (w w' : VicW) : Prop := {
  ve_ticks : (zw_ticks w ≤ zw_ticks w')%nat;
  ve_rows id p' : zw_profiles w' !! id = Some p' →
    ∃ p, zw_profiles w !! id = Some p ∧ row_env w w' p p';
}.

Definition vic_pool (reviews : CurrentUser → string → Prop) ps w ps' w' : Prop :=
  Forall (vic_handler reviews) ps ∧ rtc (pool_step vic_env) (ps, w) (ps', w').

(** Rows were written in the past, and what is published was reviewed. *)
Definition well_formed (w : VicW) : Prop :=
  ∀ id p, zw_profiles w !! id = Some p → vf_updatedAt p < clock (zw_ticks w) ∧ published_ok p.

Lemma well_formed_inv watched alone w :
  well_formed w → (∀ id p, watched id → zw_profiles w !! id = Some p → unconfirmed alone p) →
  vic_inv watched alone w.
Proof.
  intros Hw Hal. split; intros id p Hp; destruct (Hw id p Hp); [done|]. split; [done|]. eauto.
Qed.

Section interleaved.
Context (Hclock : ∀ m n, (m < n)%nat → clock m < clock n).
Context (watched : string → Prop) (alone : string).
Abbreviation I := (vic_inv watched alone).
Abbreviation R := vic_rel.

Lemma vic_handler_safe (reviews : CurrentUser → string → Prop) p :
  (∀ a id, reviews a id → watched id → cu_id a = alone) → vic_handler reviews p → safe I R p.
Proof.
  intros Hr Hp.
  destruct Hp; (apply safe_bind; [|intros ?; apply safe_mret]);
    auto 3 with vic_handlers nocore.
  apply vic_ok_updateChildSafetyReview; [done|eauto].
Qed.

Lemma vic_env_good w w' : I w → vic_env w w' → I w' ∧ R w w'.
Proof.
  intros [Ht Hr] [Hle He]. pose proof (clock_le Hclock _ _ Hle). split; split.
  - intros id p' Hp'. destruct (He id p' Hp') as (p&Hp&[_ _ _ [->|?]]); [|lia].
    specialize (Ht id p Hp). lia.
  - intros id p' Hp'. destruct (He id p' Hp') as (p&Hp&[Hg Hb Hf _]).
    destruct (Hr id p Hp) as [Hpub Hal]. split.
    + unfold published_ok. by rewrite Hg, Hb.
    + intros Hw. destruct (Hal Hw). split; [by rewrite Hg|]. destruct Hf as [->|Hf]; [done|by left].
  - done.
  - intros id p' Hp'. destruct (He id p' Hp') as (p&Hp&[Hg Hb _ [Hu|[? _]]]); [left|by right].
    by exists p.
Qed.

Lemma vic_pool_good reviews ps w ps' w' :
  (∀ a id, reviews a id → watched id → cu_id a = alone) → I w →
  vic_pool reviews ps w ps' w' → I w'.
Proof.
  intros Hr HI [Hps Hrun].
  pose proof (vic_rel_preorder Hclock).
  eapply (pool_invariant I R); [exact vic_env_good|exact HI| |exact Hrun].
  intros i p Hi. apply (vic_handler_safe reviews); [done|]. by eapply Forall_lookup_1.
Qed.
End interleaved.

(** C3: Provided no two writes carry the same time: however the handlers interleave
    with each other and with the rest of the application, a profile that is
    published has every gate: it is verified, reviewed for safety (and for child safety
    if a child is involved), has consent and a privacy review, and was approved. *)
Theorem published_means_reviewed ps w ps' w' id p :
  (∀ m n, (m < n)%nat → clock m < clock n) →
  well_formed w → vic_pool (λ _ _, True) ps w ps' w' →
  zw_profiles w' !! id = Some p → vf_isPublished p = true →
  all_gates (vf_gates p) = true.
Proof.
  intros Hclock Hw Hpool Hp.
  apply (vic_pool_good Hclock (λ _, False) "") in Hpool; [|done|by apply well_formed_inv].
  by apply (vi_rows _ _ w' Hpool id p Hp).
Qed.

(** C4: Provided no two writes carry the same time: a profile that is not reviewed
    for child safety, and confirmed by nobody but [alone], stays unreviewed as long as
    only [alone] reviews its child safety, whatever else they and all others do. *)
Theorem child_safety_takes_two alone ps w ps' w' id p p' :
  (∀ m n, (m < n)%nat → clock m < clock n) →
  well_formed w → zw_profiles w !! id = Some p → unconfirmed alone p →
  vic_pool (λ a i, i = id → cu_id a = alone) ps w ps' w' →
  zw_profiles w' !! id = Some p' → g_isChildSafetyReviewed (vf_gates p') = false.
Proof.
  intros Hclock Hw Hp Hu Hpool Hp'.
  apply (vic_pool_good Hclock (λ i, i = id) alone) in Hpool; [|auto|].
  - by apply (vi_rows _ _ w' Hpool id p' Hp').
  - apply well_formed_inv; [done|]. intros i q -> Hq. by simplify_eq.
Qed.
End handlers.

(** * Victim profiles: what single handlers do

    The handlers of victim profiles run alone: publishing and the list of transitions
    that announces it, the money of a profile as the payout service counts it, and the
    reconciliation of its total. *)

From S2P Require Import Prelude Interleave Js Redis Cache Chapa Roles PayModel Payout.
From S2P Require Import VictimModel VictimCommon VictimReview VictimFunding VictimSafety.
From coqutil Require Import Datatypes.RecordSetters.
Import DoubleBraceUpdate.

Open Scope Z_scope.

(** ** What a program leaves alone *)

(** The tables that decide on publishing and on money, and the clock. *)
Record vquiet (w w' : VicW) : Prop := {
  q_profiles : zw_profiles w' = zw_profiles w;
  q_destinations : zw_destinations w' = zw_destinations w;
  q_payments : zw_payments w' = zw_payments w;
  q_disbursements : zw_disbursements w' = zw_disbursements w;
  q_ticks : zw_ticks w' = zw_ticks w;
}.
#[export] Instance vquiet_preorder : PreOrder vquiet.
Proof. split; [by intros w; split|]. intros w1 w2 w3 [] []; split; by etrans. Qed.

Section seq.
Context `{VicLib} `{DecimalIO} (keyPrefix : string).

#[export] Instance vquiet_outside : OutsideGood (λ _, True) vquiet.
Proof. split; [apply _|intros [] r w _|intros cs w _|intros w _|intros w _]; by split. Qed.

Lemma run_quiet_then (p : prog VicW ()) w :
  calm (λ _, True) vquiet p →
  ∃ w', vquiet w w' ∧ ∀ A (f : () → prog VicW A), run (p ≫= f) w = run (f ()) w'.
Proof.
  intros Hp. destruct (run_calm _ _ p w I Hp) as ([]&w'&E&_&?). exists w'. split; [done|].
  intros A f. by rewrite run_bind, E.
Qed.
Lemma calm_vic_emit e : calm (λ _, True) vquiet (emit e).
Proof. apply calm_modify. intros w _. by split. Qed.

(** How the handlers end. *)
Lemma run_finish {A} a x p o n m (r : A) id w :
  ∃ w', vquiet w w' ∧
    run (invalidateVictimProfileEverywhere keyPrefix id ;; auditSuccess a x p o ;;
         notifyCreator n p m ;; mret r) w = (Ok r, w').
Proof.
  destruct (run_quiet_then (invalidateVictimProfileEverywhere keyPrefix id) w) as (w1&?&E1).
  { apply calm_invalidateVictimProfileEverywhere, _. }
  destruct (run_quiet_then (auditSuccess a x p o) w1) as (w2&?&E2); [apply calm_vic_emit|].
  destruct (run_quiet_then (notifyCreator n p m) w2) as (w3&?&E3); [apply calm_vic_emit|].
  exists w3. split; [by etrans; [|etrans]|]. by rewrite E1, E2, E3.
Qed.
Lemma run_refusal {A} a x p r o d m e (f : () → prog VicW A) w :
  ∃ w', vquiet w w' ∧ run ((emitProfileFailure a x p r o d m ;; Throw e) ≫= f) w = (Err e, w').
Proof. eexists. by split; [|reflexivity]. Qed.

Lemma run_conditionalUpdate id p upd a x q w :
  zw_profiles w !! id = Some p →
  run (conditionalUpdate id (vf_updatedAt p) upd a x q) w =
    (Ok (written upd (clock (zw_ticks w)) p),
     put_profile id (written upd (clock (zw_ticks w)) p) w).
Proof.
  intros Hp. unfold conditionalUpdate, profile_updateMany. rewrite run_bind, run_act. cbn.
  rewrite Hp. unfold at_version. rewrite bool_decide_eq_true_2 by done.
  change (run (profile_by_id_or_throw id) (put_profile id (written upd (clock (zw_ticks w)) p) w) =
    (Ok (written upd (clock (zw_ticks w)) p),
     put_profile id (written upd (clock (zw_ticks w)) p) w)).
  unfold profile_by_id_or_throw, profile_by_id. rewrite run_bind, run_gets.
  change (zw_profiles (put_profile id ?q w)) with (<[id := q]> (zw_profiles w)).
  by rewrite lookup_insert_eq.
Qed.
Lemma run_load {A} id p (f : Profile → prog VicW A) w :
  zw_profiles w !! id = Some p → run (getProfileOr404 id ≫= f) w = run (f p) w.
Proof. intros Hp. unfold getProfileOr404, profile_by_id. rewrite !run_bind, run_gets. by rewrite Hp. Qed.

(** ** Publishing *)

Definition published_row (w : VicW) (p : Profile) : Profile :=
  written (λ _ p, p{{vf_status := VP_PUBLISHED; vf_isPublished := true}}) (clock (zw_ticks w)) p.

(** What publishing needs. *)
Definition publishable (a : CurrentUser) (id : string) (w : VicW) (p : Profile) : bool :=
  may_access a p && all_gates (vf_gates p) && complete_destination (zw_destinations w !! id).

Lemma run_publish a id w p :
  zw_profiles w !! id = Some p →
  if publishable a id w p then
    ∃ w', run (publish keyPrefix a id) w = (Ok (published_row w p), w') ∧
      vquiet (put_profile id (published_row w p) w) w'
  else
    ∃ w', run (publish keyPrefix a id) w =
      (Err (if may_access a p then BadRequest "all_approval_gates_required"
            else Forbidden "victim_profile_claimed_by_another_admin"), w') ∧ vquiet w w'.
Proof.
  intros Hp. unfold publishable, publish. rewrite (run_load id p) by done.
  unfold assertAdminCanAccessProfile. destruct (may_access a p); cbn [andb].
  2: { edestruct @run_refusal as (w'&?&E). exists w'. split; [exact E|done]. }
  change (mret () ≫= ?f) with (f ()). cbv beta. unfold hasBankDetails.
  rewrite !run_bind, run_gets, run_ret.
  rewrite gates_hold_all. destruct (all_gates (vf_gates p) && _).
  - change (mret () ≫= ?f) with (f ()). cbv beta. rewrite run_bind.
    rewrite (run_conditionalUpdate id p) by done.
    edestruct @run_finish as (w'&?&E). exists w'. split; [exact E|done].
  - edestruct @run_refusal as (w'&?&E). exists w'. split; [exact E|done].
Qed.

(** The entry of PUBLISHED in what [getTransitions] answers. *)
Definition offers_publish (ts : Transitions) : bool :=
  existsb (λ t, bool_decide (tr_to t = VP_PUBLISHED) && tr_available t) (ts_allowed ts).

(** C29: What [getTransitions] offers is what [publish] does: for a profile that is
    approved or unpublished, and neither taken down nor deleted, PUBLISHED is
    available to an administrator exactly when publishing, right then, succeeds. *)
Theorem transitions_tell_publish a id w p :
  zw_profiles w !! id = Some p → one_of (vf_status p) [VP_APPROVED; VP_UNPUBLISHED] = true →
  mk_at (vf_takedown p) = None → mk_at (vf_deletion p) = None →
  ∃ ts, run (getTransitions a id) w = (Ok ts, w) ∧
    offers_publish ts = is_ok (run (publish keyPrefix a id) w).1.
Proof.
  intros Hp Hs Ht Hd. pose proof (run_publish a id w p Hp) as Hrun.
  unfold getTransitions. rewrite (run_load id p) by done. unfold hasBankDetails.
  rewrite !run_bind, run_gets, run_ret, run_ret. eexists. split; [reflexivity|].
  rewrite Ht, Hd. cbn [is_set bool_decide]. unfold offers_publish. cbn [ts_allowed].
  assert (Hm : bool_decide (getMissingApprovalGates (vf_gates p)
      (complete_destination (zw_destinations w !! id)) ++
      (if g_isAdminApproved (vf_gates p) then [] else ["isAdminApproved"]) ≠ []) =
    negb (all_gates (vf_gates p) && complete_destination (zw_destinations w !! id))).
  { rewrite <- gates_hold_all.
    by destruct (vf_gates p) as [[][][][][][][]], (complete_destination _). }
  assert (Hsame : publishable a id w p = is_ok (run (publish keyPrefix a id) w).1).
  { destruct (publishable a id w p); destruct Hrun as (w'&E&_); by rewrite E. }
  rewrite <- Hsame. unfold publishable. apply bool_decide_eq_true in Hs.
  apply elem_of_cons in Hs as [Hs|Hs%list_elem_of_singleton]; rewrite Hs; cbn -[getMissingApprovalGates];
    rewrite Hm; by destruct (may_access a p), (all_gates _), (complete_destination _).
Qed.

(** ** Money *)

Lemma money_step_group acc g : money_step acc g = add_group acc g.
Proof. by destruct acc, g as [[] x]. Qed.

(** C30: The money of a profile as these services count it is what the payout
    service transfers by: over the same payments and transfers, [getMoneyTotals] and
    [PayoutService.getBalance] agree, and money is undelivered exactly when some is
    waiting or on its way. *)
Theorem balance_agrees id w pw :
  zw_payments w = pw_payments pw → zw_disbursements w = pw_disbursements pw →
  ∃ t b, run (getMoneyTotals id) w = (Ok t, w) ∧ run (getBalance id) pw = (Ok b, pw) ∧
    run (hasUndeliveredMoney id) w =
      (Ok ((0 <? bal_waiting b) || (0 <? bal_onTheWay b)), w) ∧
    (mt_raised t, mt_sent t, mt_onTheWay t, mt_waiting t) =
    (bal_raised b, bal_sent b, bal_onTheWay b, bal_waiting b).
Proof.
  intros Ep Ed.
  assert (E : ∀ gs acc, foldl money_step acc gs = foldl add_group acc gs).
  { induction gs as [|g gs IH]; intros acc; cbn; [done|]. by rewrite money_step_group. }
  exists (money_totals (sumZ (pay_amount_if (is_paid_of id)) (zw_payments w))
            (len (paid_rows id w)) (transfer_groups id (zw_disbursements w))),
    (mk_balance (raised_of id pw) (disbursement_groups id pw)).
  assert (Et : (λ t, (mt_raised t, mt_sent t, mt_onTheWay t, mt_waiting t))
      (money_totals (sumZ (pay_amount_if (is_paid_of id)) (zw_payments w))
         (len (paid_rows id w)) (transfer_groups id (zw_disbursements w))) =
    (λ b, (bal_raised b, bal_sent b, bal_onTheWay b, bal_waiting b))
      (mk_balance (raised_of id pw) (disbursement_groups id pw))).
  { unfold money_totals, mk_balance, raised_of, disbursement_groups, dis_sum. rewrite <- Ep, <- Ed.
    unfold transfer_groups. rewrite E. by destruct (foldl add_group _ _). }
  split_and!; [done|done| |exact Et].
  injection Et as Er Es Eo Ew. rewrite <- Ew, <- Eo. done.
Qed.

(** C31: The reconciliation of a total: it reports a mismatch exactly when the stored
    total is more than a cent off the sum of the confirmed donations, writes that sum
    when it may correct, and otherwise changes no profile. *)
Theorem reconcile_exact a id b w p :
  zw_profiles w !! id = Some p →
  let live := sumZ (pay_amount_if (is_paid_of id)) (zw_payments w) in
  let mismatch := 1 <? Z.abs (live - vf_totalRaised p) in
  ∃ r w', run (reconcileProfileTotal keyPrefix a id b) w = (Ok r, w') ∧
    re_mismatch r = mismatch ∧ re_corrected r = mismatch && b ∧
    zw_profiles w' =
      (if mismatch && b
       then <[id := written (λ _ q, q{{vf_totalRaised := live}}) (clock (zw_ticks w)) p]>
              (zw_profiles w)
       else zw_profiles w).
Proof.
  intros Hp live mismatch. unfold reconcileProfileTotal. rewrite (run_load id p) by done.
  rewrite run_bind, run_gets. cbn [fst snd]. fold live. fold mismatch.
  destruct mismatch; cbn [andb].
  - destruct b.
    + rewrite run_bind, run_bind, (run_conditionalUpdate id p) by done.
      destruct (run_calm (λ _, True) vquiet (invalidateVictimProfileEverywhere keyPrefix id)
        (put_profile id (written (λ _ q, q{{vf_totalRaised := live}}) (clock (zw_ticks w)) p) w) I)
        as ([]&w1&E&_&Q); [apply calm_invalidateVictimProfileEverywhere, _|].
      rewrite E. eexists _, _. split_and!; [reflexivity|done|done|apply Q].
    + eexists _, _. by split_and!.
  - by eexists _, _.
Qed.
End seq.
