(* ===== verification/VictimDemo.v ===== *)
(** * Victim profiles: a concrete world, witnesses and behaviours worth knowing

    A profile with every gate, two administrators who review it, one confirmed
    donation and a clock that advances by a second with every write. *)

From S2P Require Import Prelude Interleave Js Redis Cache Chapa Roles PayModel Payout.
From S2P Require Import PayProps.
From S2P Require Import VictimModel VictimCommon VictimReview VictimWorkflow.
From S2P Require Import VictimFunding VictimWorkflow VictimSubmission VictimAdminOps.
From S2P Require Import VictimSafety VictimProps.
From coqutil Require Import Datatypes.RecordSetters.
Import DoubleBraceUpdate.

Open Scope Z_scope.

#[export] Instance demo_vic : VicLib := {|
  clock n := 1700000000000 + 1000 * Z.of_nat n;
  vic_uuid n := "id-" +:+ str_of_Z (Z.of_nat n) |}.

Lemma demo_clock m n : (m < n)%nat → clock m < clock n.
Proof. cbn. lia. Qed.

Definition demo_reviewer (id : string) : CurrentUser :=
  {| cu_id := id; cu_roles := [ADMIN]; cu_permissions := [] |}.
Definition hana : CurrentUser := demo_reviewer "hana".
Definition dawit : CurrentUser := demo_reviewer "dawit".

Definition demo_vic_config : VicConfig := {|
  vc_maxPhotos := 10; vc_maxVideos := 2; vc_maxOther := 5; vc_maxTotalBytes := 1000;
  vc_maxFileSizeBytes := 500; vc_allowedMimeTypes := []; vc_stalePendingHours := 48;
  vc_staleChildHours := 24; vc_maxAppeals := 2; vc_maxUpdatesPerDay := 3 |}.
Definition demo_stat (fp : string) : option (Z * string) := Some (100, "image/png").

Definition every_gate (child reviewed : bool) : Gates := {|
  g_involvesChild := child; g_isVerified := true; g_isSafetyReviewed := true;
  g_isChildSafetyReviewed := reviewed; g_hasConsent := true; g_isPrivacyReviewed := true;
  g_isAdminApproved := true |}.
Definition nothing_submitted : ProfileDto := {|
  pd_name := None; pd_description := None; pd_story := None; pd_supportGoal := None;
  pd_media := {| mo_photo := None; mo_video := None; mo_audio := None; mo_pdf := None;
                 mo_document := None; mo_other := None |};
  pd_involvesChild := None |}.
Definition no_gate_update : UpdateGateDto := {|
  ug_isVerified := None; ug_isSafetyReviewed := None; ug_hasConsent := None;
  ug_isPrivacyReviewed := None; ug_isAdminApproved := None |}.

Definition demo_case (g : Gates) (s : VictimProfileStatus) (pub : bool) : Profile :=
  (new_profile "creator" nothing_submitted no_media 0 None "v1" 1600000000000){{
    vf_name := Some "Abebe"; vf_gates := g; vf_status := s; vf_isPublished := pub}}.

Definition demo_bank : Destination := {|
  dt_id := "dest1"; dt_bankName := "Bank"; dt_bankCode := "001";
  dt_accountNumber := "1000123456"; dt_accountHolder := "Abebe B"; dt_isVerified := true;
  dt_verifiedById := Some "hana"; dt_verifiedAt := Some 1600000000000;
  dt_updatedAt := 1600000000000 |}.

Definition demo_vic_world (p : Profile) (paid : gmap string Payment) : VicW := {|
  zw_profiles := {[ "v1" := p ]}; zw_destinations := {[ "v1" := demo_bank ]};
  zw_payments := paid; zw_disbursements := ∅; zw_flags := ∅; zw_appeals := ∅;
  zw_updates := ∅; zw_revisions := ∅; zw_reads := []; zw_follows := []; zw_views := [];
  zw_users := ∅; zw_audits := []; zw_banks := []; zw_events := []; zw_draws := 0%nat;
  zw_ticks := 0%nat; zw_ppm := []; zw_redis := fresh_redis; zw_secredis := fresh_redis;
  zw_cache := cache_init |}.

(** Approved and ready to publish. *)
Definition ready : VicW := demo_vic_world (demo_case (every_gate false false) VP_APPROVED false) ∅.
(** A child's profile whose child safety is not reviewed yet. *)
Definition child_profile : Profile :=
  demo_case ((every_gate true false){{g_isAdminApproved := false}}) VP_UNDER_REVIEW false.
Definition child_pending : VicW := demo_vic_world child_profile ∅.

Lemma demo_well_formed p paid :
  vf_updatedAt p < 1700000000000 → published_ok p → well_formed (demo_vic_world p paid).
Proof.
  intros Ht Hp id q Hq. unfold demo_vic_world in Hq. cbn in Hq.
  apply lookup_singleton_Some in Hq as [<- <-]. split; [cbn; lia|done].
Qed.

(** ** Witnesses *)

Section runs.
Context (reviews : CurrentUser → string → Prop).
Lemma demo_pool_run ps w (i : nat) p :
  Forall (vic_handler demo_vic_config demo_stat id "k" reviews) ps →
  ps !! i = Some p → (run p w).1 = Ok () →
  vic_pool demo_vic_config demo_stat id "k" reviews ps w (<[i := Ret ()]> ps) (run p w).2.
Proof.
  intros Hps Hi Hrun. split; [done|]. eapply pool_run_ok; [done|].
  by rewrite (surjective_pairing (run p w)), Hrun.
Qed.
End runs.

(** One publishes while another rejects: the profile that ends up published has
    every gate. *)
Lemma published_means_reviewed_witness :
  let ps := [no_answer (publish "k" hana "v1"); no_answer (reject "k" dawit "v1")] in
  let w' := (run (no_answer (publish "k" hana "v1")) ready).2 in
  vic_pool demo_vic_config demo_stat id "k" (λ _ _, True) ps ready (<[0%nat := Ret ()]> ps) w' ∧
  ∃ p, zw_profiles w' !! "v1" = Some p ∧ vf_isPublished p = true ∧
    all_gates (vf_gates p) = true.
Proof.
  intros ps w'.
  assert (Hpool : vic_pool demo_vic_config demo_stat id "k" (λ _ _, True) ps ready
    (<[0%nat := Ret ()]> ps) w').
  { subst w' ps. apply (demo_pool_run _ _ ready 0%nat (no_answer (publish "k" hana "v1")));
      [|done|vm_compute; reflexivity].
    constructor; [apply v_publish|constructor; [apply v_reject|constructor]]. }
  split; [exact Hpool|]. exists (published_row ready (demo_case (every_gate false false) VP_APPROVED false)).
  assert (Hp : zw_profiles w' !! "v1" =
    Some (published_row ready (demo_case (every_gate false false) VP_APPROVED false)))
    by (vm_compute; reflexivity).
  split_and!; [exact Hp|done|].
  eapply (published_means_reviewed demo_vic_config demo_stat id "k" ps ready);
    [exact demo_clock| |exact Hpool|exact Hp|done].
  by apply demo_well_formed.
Defined.

(** One administrator confirms twice: the second confirmation is refused, and the
    profile stays unreviewed. *)
Lemma child_safety_takes_two_witness :
  let confirm := no_answer (updateChildSafetyReview "k" hana "v1" true None) in
  let w' := (run confirm child_pending).2 in
  let pool := vic_pool demo_vic_config demo_stat id "k" (λ a i, i = "v1" → cu_id a = "hana") in
  pool [confirm; confirm] child_pending [Ret (); confirm] w' ∧
  ∀ ps' w'' p', pool [confirm; confirm] child_pending ps' w'' →
    zw_profiles w'' !! "v1" = Some p' → g_isChildSafetyReviewed (vf_gates p') = false.
Proof.
  intros confirm w' pool. split.
  - apply (demo_pool_run _ [confirm; confirm] child_pending 0%nat confirm);
      [|reflexivity|vm_compute; reflexivity].
    constructor; [by apply v_updateChildSafetyReview|].
    constructor; [by apply v_updateChildSafetyReview|constructor].
  - intros ps' w'' p' Hpool Hp'.
    apply (child_safety_takes_two demo_vic_config demo_stat id "k" "hana" [confirm; confirm]
      child_pending ps' w'' "v1" child_profile p');
      [exact demo_clock|by apply demo_well_formed|done|by split; [|left]|exact Hpool|exact Hp'].
Defined.

Lemma transitions_tell_publish_witness :
  (∃ ts, run (getTransitions hana "v1") ready = (Ok ts, ready) ∧
    offers_publish ts = is_ok (run (publish "k" hana "v1") ready).1) ∧
  is_ok (run (publish "k" hana "v1") ready).1 = true.
Proof.
  split; [|vm_compute; reflexivity].
  exact (transitions_tell_publish "k" hana "v1" ready
    (demo_case (every_gate false false) VP_APPROVED false) eq_refl eq_refl eq_refl eq_refl).
Defined.

(** A donation of 150.50 that is confirmed and not transferred. *)
Definition demo_donated (stored : Z) : VicW :=
  demo_vic_world ((demo_case (every_gate false false) VP_PUBLISHED true){{vf_totalRaised := stored}})
    {[ "p1" := demo_payment PAID ]}.

Lemma balance_agrees_witness :
  let w := demo_donated 15050 in
  let pw := demo_world {[ "p1" := demo_payment PAID ]} ∅ 15050 [] in
  ∃ t b, run (getMoneyTotals "v1") w = (Ok t, w) ∧ run (getBalance "v1") pw = (Ok b, pw) ∧
    run (hasUndeliveredMoney "v1") w =
      (Ok ((0 <? bal_waiting b) || (0 <? bal_onTheWay b)), w) ∧
    (mt_raised t, mt_sent t, mt_onTheWay t, mt_waiting t) =
    (bal_raised b, bal_sent b, bal_onTheWay b, bal_waiting b).
Proof. intros w pw. exact (balance_agrees "v1" w pw eq_refl eq_refl). Defined.

Lemma reconcile_exact_witness :
  let w := demo_donated 10000 in
  ∃ r w', run (reconcileProfileTotal "k" hana "v1" true) w = (Ok r, w') ∧
    re_mismatch r = true ∧ re_corrected r = true ∧
    zw_profiles w' !! "v1" ≠ zw_profiles w !! "v1".
Proof.
  intros w.
  destruct (reconcile_exact "k" hana "v1" true w
    ((demo_case (every_gate false false) VP_PUBLISHED true){{vf_totalRaised := 10000}}) eq_refl)
    as (r&w'&E&Hm&Hc&Hw).
  exists r, w'. split_and!; [exact E|rewrite Hm; by vm_compute|rewrite Hc; by vm_compute|].
  rewrite Hw. by vm_compute.
Defined.

(** ** Behaviours worth knowing *)

Definition left_by {A} (p : prog VicW A) (w : VicW) : VicW := (run p w).2.
Definition approve_all : UpdateGateDto := no_gate_update{{ug_isAdminApproved := Some true}}.
(** What a world says of the profile: its status, and whether the public sees it. *)
Definition seen_as (w : VicW) : option (VictimProfileStatus * bool) :=
  p ← zw_profiles w !! "v1"; Some (vf_status p, publicWhere p).

(** A comment in [takedown] says that a profile that was taken down is not published again
    until a Super Admin lifts the takedown and it is re-approved: the re-approval is
    enough, and any administrator gives it. *)
Example takedown_comes_back :
  let w := left_by (publish "k" dawit "v1") (left_by (updateGates "k" dawit "v1" approve_all)
    (left_by (takedown "k" hana "v1" "fraud") (left_by (publish "k" hana "v1") ready))) in
  seen_as w = Some (VP_PUBLISHED, true) ∧
  ((λ p, mk_reason (vf_takedown p)) <$> zw_profiles w !! "v1") = Some (Some "fraud").
Proof. split; vm_compute; reflexivity. Qed.

(** The flag that says a child is involved takes two administrators, unless it is
    lowered by an update of the profile. *)
Example one_lowers_the_flag :
  let update := {| pd_name := None; pd_description := None; pd_story := None;
    pd_supportGoal := None; pd_media := pd_media nothing_submitted;
    pd_involvesChild := Some false |} in
  let w := left_by (VictimSubmission.update demo_vic_config demo_stat "k" hana "v1" update)
             child_pending in
  ((λ p, g_involvesChild (vf_gates p)) <$> zw_profiles w !! "v1") = Some false.
Proof. vm_compute. reflexivity. Qed.

(** Confirming the child safety of a published profile once more hides it: its status is
    derived from the gates, and its publication is left alone. *)
Example confirmed_again_vanishes :
  let p := (demo_case (every_gate true true) VP_PUBLISHED true){{
             vf_first := {| by_id := Some "hana"; by_at := Some 1600000000000 |} }} in
  let w := demo_vic_world p ∅ in
  seen_as w = Some (VP_PUBLISHED, true) ∧
  seen_as (left_by (updateChildSafetyReview "k" dawit "v1" true None) w) = Some (VP_APPROVED, false) ∧
  (vf_isPublished <$> zw_profiles (left_by (updateChildSafetyReview "k" dawit "v1" true None) w) !! "v1")
    = Some true.
Proof. split_and!; vm_compute; reflexivity. Qed.

(** From WITHDRAWN, [STATUS_TRANSITIONS] leads nowhere; the gates lead on. *)
Example withdrawn_is_not_final :
  let w := demo_vic_world (demo_case (no_gates false) VP_WITHDRAWN false) ∅ in
  STATUS_TRANSITIONS VP_WITHDRAWN = [] ∧
  seen_as (left_by (updateGates "k" hana "v1" (no_gate_update{{ug_isVerified := Some true}})) w) =
    Some (VP_UNDER_REVIEW, false).
Proof. split; vm_compute; reflexivity. Qed.

(** A legal hold stops [softDelete], and not [remove]; a payment of any kind stops
    [remove], after its own check has passed. *)
Example hold_does_not_stop_removal :
  let w := demo_vic_world ((demo_case (no_gates false) VP_PENDING false){{vf_legalHold := true}}) ∅ in
  (run (softDelete "k" hana "v1" "spam") w).1 = Err (Forbidden "victim_profile_under_legal_hold") ∧
  (run (VictimSubmission.remove "k" hana "v1") w).1 = Ok () ∧
  seen_as (left_by (VictimSubmission.remove "k" hana "v1") w) = None.
Proof. split_and!; vm_compute; reflexivity. Qed.
Example payment_stops_removal :
  let w := demo_vic_world (demo_case (no_gates false) VP_PENDING false)
             {[ "p1" := demo_payment FAILED ]} in
  (run (hasUndeliveredMoney "v1") w).1 = Ok false ∧
  (run (VictimSubmission.remove "k" hana "v1") w).1 = Err P2003.
Proof. split; vm_compute; reflexivity. Qed.

(** The second write of an edit is on no condition: a rejection in between is undone. *)
Definition edit : prog VicW () := no_answer (adminEdit "k" hana "v1" {|
  ed_name := None; ed_description := None; ed_story := Some "A new story."; ed_reason := "typo" |}).
Example edit_undoes_rejection :
  ∃ w', rtc (pool_step (λ _ _, False)) ([edit; no_answer (reject "k" dawit "v1")], ready)
          ([Ret (); Ret ()], w') ∧ seen_as w' = Some (VP_UNDER_REVIEW, false).
Proof.
  pose (order := replicate 5 0%nat ++ replicate 30 1%nat ++ replicate 30 0%nat).
  pose proof (schedule_steps (λ _ _, False) order [edit; no_answer (reject "k" dawit "v1")] ready)
    as Hrun.
  destruct (schedule order _ _) as [ps' w'] eqn:E. exists w'.
  assert ((ps', seen_as w') = ([Ret (); Ret ()], Some (VP_UNDER_REVIEW, false))) as [= -> Hs].
  { change ps' with (ps', w').1. change w' with (ps', w').2 at 2. rewrite <- E.
    vm_compute. reflexivity. }
  by split.
Qed.

(** New bank details are written after the profile has lost its approval: approved
    again in between, the profile is published with a destination nobody verified. *)
Definition new_details : BankDetailsDto := {|
  bd_accountHolderName := "Someone Else"; bd_accountNumber := "9999"; bd_bankCode := "7";
  bd_relationship := "RELATIVE" |}.
Definition with_banks : VicW := ready{{zw_banks :=
  [Ok [{| bk_id := Some (JNum 7); bk_name := Some (JStr "Other"); bk_is_mobilemoney := None |} ] ] }}.
Example published_unverified :
  let ps := [no_answer (updateBankDetails "k" hana "v1" new_details);
             no_answer (updateGates "k" dawit "v1" approve_all);
             no_answer (publish "k" dawit "v1")] in
  ∃ w', rtc (pool_step (λ _ _, False)) (ps, with_banks) ([Ret (); Ret (); Ret ()], w') ∧
    seen_as w' = Some (VP_PUBLISHED, true) ∧
    complete_destination (zw_destinations w' !! "v1") = false.
Proof.
  intros ps.
  pose (order := replicate 6 0%nat ++ replicate 30 1%nat ++ replicate 30 2%nat ++
                 replicate 30 0%nat).
  pose proof (schedule_steps (λ _ _, False) order ps with_banks) as Hrun.
  destruct (schedule order _ _) as [ps' w'] eqn:E. exists w'.
  assert ((ps', seen_as w', complete_destination (zw_destinations w' !! "v1")) =
    ([Ret (); Ret (); Ret ()], Some (VP_PUBLISHED, true), false)) as [= -> Hs Hb].
  { change ps' with (ps', w').1. change w' with (ps', w').2 at 2 3. rewrite <- E.
    vm_compute. reflexivity. }
  split; [exact Hrun|split; [exact Hs|exact Hb]].
Qed.

(** Without the hypothesis on the clock: within one millisecond, a consent is revoked
    and the profile published all the same. *)
Definition still_vic : VicLib := {| clock _ := 1700000000000; vic_uuid _ := "id" |}.
Example published_without_consent :
  let w := ready{{zw_profiles := {[ "v1" :=
    (demo_case (every_gate false false) VP_APPROVED false){{vf_updatedAt := 1700000000000}} ]}}} in
  let ps := [no_answer (@publish still_vic "k" hana "v1");
             no_answer (@revokeConsent still_vic "k" dawit "v1" None)] in
  ∃ w', rtc (pool_step (λ _ _, False)) (ps, w) ([Ret (); Ret ()], w') ∧
    (λ p, (vf_isPublished p, g_hasConsent (vf_gates p))) <$> zw_profiles w' !! "v1" =
      Some (true, false).
Proof.
  intros w ps. pose (order := replicate 2 0%nat ++ replicate 30 1%nat ++ replicate 30 0%nat).
  pose proof (schedule_steps (λ _ _, False) order ps w) as Hrun.
  destruct (schedule order _ _) as [ps' w'] eqn:E. exists w'.
  assert ((ps', (λ p, (vf_isPublished p, g_hasConsent (vf_gates p))) <$> zw_profiles w' !! "v1") =
    ([Ret (); Ret ()], Some (true, false))) as [= -> Hs].
  { change ps' with (ps', w').1. change w' with (ps', w').2 at 2. rewrite <- E.
    vm_compute. reflexivity. }
  split; [exact Hrun|exact Hs].
Qed.
